(* ===== verification/_CoqProject ===== *)
-Q . S2P
Prelude.v
Errors.v
Store.v
Env.v
MessageStore.v
Text.v
Moderation.v
Domain.v
Mime.v
AnalysisStore.v
TaskQueue.v
Base64.v
Auth.v
SharedStore.v
Contents.v
Contract.v
Registry.v
Chat.v
Fanout.v
Supervisor.v
Path.v
Transfer.v
Downloads.v
Exchange.v
Fetching.v
Monitoring.v
Health.v
Scanner.v
Analyze.v
Jobs.v
TmpFiles.v
Sink.v
Indexing.v
Archive.v
Conversation.v
Live.v
Startup.v
Strconv.v
Search.v
Vectorize.v
Trees.v
Forest1.v
Forest2.v
Forest3.v
Forest4.v
Toxicity.v
Config.v
Boot.v
Defer.v
Workers.v
Orchestrator.v
Master.v
ScannerMain.v
Inspect.v
Client.v
TestData.v
