(* ===== verification/Prelude.v ===== *)
(** * Chat-Lab: a verification library

    Chat-Lab is a distributed system in Go: a master serves chat rooms, keeps
    their history, moderates messages, and analyses files that scanners find on
    remote drives with the help of specialist processes.  This library models its
    core logic as Rocq functions and state machines, and proves what makes each
    part correct.  Names are those of the Go code; file names below are relative
    to [src/].

    ** How the parts interact, and where they are modelled

    - A client registers or logs in ([services/auth_service.go]); the other
      unary calls pass the interceptor ([infrastructure/grpc/server/interceptor.go]), the
      streaming ones do not.
      [Auth.v], with the encodings it needs in [Base64.v].
    - A posted message goes through [Orchestrator.PostMessage] into a bounded
      command channel, a pool of workers ([runtime/workers/pool_unit.go]), the
      moderation worker, which censors it ([moderation/moderator.go]), and the
      fan-out, which hands it to the sinks of the room's connections
      ([runtime/registry.go]) and to the history.  [Chat.v], [Moderation.v],
      [Registry.v], [MessageStore.v], with the interface of the registry
      ([contract/contract.go]) in [Contract.v]; the whole round of the fan-out in [Fanout.v], and
      the way from a posted message to the page a client reads in [Conversation.v] and
      to the streams of the participants in [Live.v].
    - All workers run under a supervisor that restarts what crashes
      ([runtime/workers/supervisor.go]).  [Supervisor.v].  The loading of the
      censored words: [Startup.v].
    - The orchestrator ([runtime/orchestrator.go]) builds the workers of the master
      and joins them by channels.  [Workers.v] describes a worker by what it is
      given; [Orchestrator.v].
    - A scanner walks a directory tree with several workers
      ([runtime/workers/file_scanner.go]) and streams what it finds to the master
      ([file_sender.go], [file_analyzer_server.go], [analyzer_service.go]).
      [Scanner.v], [Analyze.v]; the way from a directory tree to the store and the
      queue in [Indexing.v].
    - The master buffers and stores the files ([sink/analysis_sink.go]), in a key
      store and a search index
      ([infrastructure/storage/analysis_repository.go]), and queues the authorized
      ones ([file_task_repository.go]).  [Sink.v], [AnalysisStore.v],
      [TaskQueue.v], [Mime.v].  Messages, analyses, tasks and users are kept in one
      database: [SharedStore.v]; the maps it stands for: [Contents.v].
    - Queued files are fetched from the scanner in chunks and checked
      ([file_downloader_scanner.go], [file_downloader_server.go],
      [file_downloader_master.go], [services/file_accumulator.go]).  [Transfer.v],
      with path handling in [Path.v]; the workers' loops and the channel the streams
      share in [Downloads.v], every interleaving of them in [Exchange.v], and the way from
      the queue to the master's disk in [Fetching.v]; with the indexing, from a directory
      tree to the master's disk, in [Archive.v].
    - Fetched files are broadcast to the specialists within a capacity
      ([runtime/workers/file_tmp_job.go], [runtime/coordinator.go],
      [specialist_client.go]), and the answers come back to the sink as events.
      [Jobs.v]; the life of a temporary file in [TmpFiles.v].
      The processes of the specialists are launched and their connections awaited
      ([coordinator.go], [log_writer.go], [proc_linux.go]).  [Boot.v].
    - Telemetry events, statistics and the health of the nodes: [Monitoring.v]; the
      heartbeat loop, the monitoring server and the console reporter: [Health.v].
    - The programs: the master ([cmd/master/main.go]) in [Master.v], the scanner
      ([cmd/scanner/main.go]) in [ScannerMain.v], the chat client
      ([client/client.go]) in [Client.v]; their configuration ([internal/config.go])
      in [Config.v], and Go's deferred calls, as a small monad, in [Defer.v].
    - The toxicity model ([ai/]): the hashing of words in [Vectorize.v], decision
      trees in [Trees.v], the two hundred generated trees in [Forest1.v] to
      [Forest4.v], the score of a message in [Toxicity.v].
    - The parser of search lines ([domain/search/search.go]) in [Search.v], with
      number parsing in [Strconv.v]; the views of the store for developers
      ([internal/debug_server.go], [tools/badger_inspect.go]) in [Inspect.v]; the
      generator of sample files ([cmd/tools/]) in [TestData.v].

    ** Conventions

    - [Prelude.v] (this file) holds results, machine integers with their
      wrap-around, byte strings, the tactics and the hint database [golib].
      [Errors.v] holds the error values, [Env.v] time, floats, UUIDs, hexadecimal
      and protobuf interfaces, [Text.v] UTF-8 and the string functions, [Store.v]
      the key store, [Domain.v] the shared structs and events.
    - A Go [string] or byte slice is a Stdlib [string]; a pointer or nil is an
      [option]; a panic is [None]; a function that returns a value and an error
      returns a [result].  Logging is left out, but for the client, whose screen it is.
    - Each repository is modelled with its own view of the database; [SharedStore.v] shows
      that the writes of one are not seen by the readers of another.
    - Third-party code is a type class with the documented behaviour as laws: the
      key store ([Badger]), the search engine ([Bluge]), protobuf codecs
      ([Codec]), timestamps, UUIDs, argon2, JWT, the struct validators, the
      Aho-Corasick matcher, the Unicode tables beyond Latin-1, SHA-256, MIME
      sniffing, the file system.  Every law class has a concrete instance, with
      which the witnesses are evaluated.
    - What the laws of the key store leave open is asked for where it is needed: that
      [item.Value] succeeds and gives slices that stay valid ([BadgerReads], which the
      pages of messages rely on and the documentation does not promise), that every write
      succeeds ([BadgerReliable], for draining the queue), and that transactions run one
      after the other (the operations of [store_step] are whole transactions; the master
      switches the detection of conflicts off).
    - What the scheduler or the outside decides is explicit: clocks, fresh
      identifiers and random bytes are arguments, the case a [select] takes is an
      argument or an input, the iteration order of a map is an argument, and
      concurrent components are step relations, or step functions of a chosen action
      ([pipe_step], [sup_step], [scan_step], [sink_step], [ds_step], [live_step],
      [store_step], [coordinated], [ScannerMain.run_step]).
    - Loops are structural recursions on their inputs; where a walk needs fuel
      ([MessageStore.walk], [AnalysisStore.scan_walk]), the theorems show that more
      than the number of stored keys is enough; [Scanner.tree] takes a depth, and
      a tree is finite when some depth suffices; [Jobs.chunks_from] takes the
      length of the data, and every turn advances.
    - A program is a value of the monad [Defer.go]: it opens resources, performs
      steps, returns with a code or stays somewhere for good; [Defer.finish] runs its
      deferred calls.  The answers of the operating system, the network and the
      environment are a record of inputs ([master_env], [scanner_env],
      [client_env]).
    - A tree of the model is a value of [Trees.tree] with the decimals of the source
      kept exactly and rounded to a float when they are used.

    ** What the theorems show

    - Storage: paging through a room or a namespace enumerates exactly what is
      stored, once, newest first; storing is atomic and read back; a batch is the
      sequence of its stores; a search returns the matching analyses of the
      namespace with their exact number.  The task queue moves tasks atomically, in
      priority order, and its worker drains it.  The four repositories keep the one
      database they share well formed, none changes the records of another, and together
      they implement maps of messages, analyses, tasks and accounts, from which every
      reader answers.
    - End to end: a client that reads a room back gets the conversation, each message
      once and censored, newest first, and a participant who is connected receives it
      unless its buffer stays full; every authorized file of a scanned tree is
      indexed under one identifier, and queued unless the write of its task fails; the queue
      is emptied, and its files are all fetched intact or refused under every interleaving,
      and nothing blocks; so every readable file of a tree whose task can be encoded ends on
      the master's disk.
    - Chat: what becomes of a message between acceptance and fan-out is accounted for
      under any interleaving: none is duplicated or altered, and none is lost before the
      context ends; posting is bounded; an event reaches exactly
      the connections of its room; the registry refines the map of live
      connections, which is all its users rely on; a connection leaves nothing behind.  The censor masks exactly the
      characters spanned by forbidden words and reports them.
    - Security: the interceptor only lets unary calls through with a valid token of the
      server, and no streaming call passes it; registration enforces the policy; a stored hash accepts exactly the
      passwords with the same key; accounts are unique.
    - Files: a scan visits every entry once, ends, and its wait group is exact; the
      stream to the master loses nothing; the sink stores every file once; a
      transferred file arrives intact, one after the other, and only verified files
      are announced; refusals are reported; a specialist receives the whole file; the
      capacity of the job table is respected and used; every file some specialist handles is
      answered once, and a temporary file stays on the disk exactly as long as its job.
    - Supervision and telemetry: crashes are restarted, clean ends and cancellation
      are final; counters are exact; a snapshot shows each node's last report, and the
      scanner as of its last heartbeat that arrived.
    - Wiring: every channel of the orchestrator has a worker that receives from it and is
      reported under its name, and its workers send to no other; every process the start of the specialists
      leaves running is registered and connected, and the others are killed.
    - Programs: however the master returns, what it opened and deferred is closed in reverse
      order, with the right code, and it stays only at three known places; the
      shutdown of the scanner ends exactly when its workers had all been started; the client
      shows what the server pushes when its log level lets it.
    - Toxicity: a message is always scored, and its score depends only on which of
      the tested components its words hash to.
    - Search lines are read back from their printed form; the two views of the store
      list the same analyses.

    Some theorems state behaviour that differs from what the code or its comments
    intend: [Chat.same_nanosecond_collision],
    [Registry.leaving_one_room_silences_the_other],
    [AnalysisStore.search_everywhere_is_empty],
    [AnalysisStore.scan_leaks_nested_namespace],
    [Transfer.Process_empty_file_is_silent], [Scanner.scan_can_block],
    [Jobs.Broadcast_response_is_blank], [Jobs.unhandled_type_keeps_its_place],
    [Sink.enrichment_is_refused], [Monitoring.pipeline_events_hit_nothing],
    [Toxicity.unseen_words], [Toxicity.trained_word_is_unseen],
    [Toxicity.repeated_words_do_not_count], [Search.trailing_flag_is_a_term],
    [Orchestrator.Stop_closes_under_senders], [Master.small_buffer_blocks_the_start],
    [ScannerMain.summary_bytes_since_tick], [Inspect.nested_namespace_misread],
    [Downloads.given_up_transfer_shifts_the_next], [MessageStore.reused_buffers_corrupt_pages],
    [Auth.overlapping_registrations], [Auth.AuthInterceptor_gate],
    [Jobs.unknown_response_lowers_count], [ScannerMain.late_worker_blocks],
    [Transfer.torn_transfer].

    ** What is not modelled

    The encodings of pages and images: JSON, the HTML template of the debug page, PNG and
    PDF, and the layout of the command-line table; the reading of environment variables;
    the wrapper around the generated client of the analyzer ([file_analyzer.go] of the
    gRPC clients); test code ([e2e/]) and generated code ([proto/], [mocks/]).
    [math.Exp], whose last bit depends on the platform, is a parameter.  Locks are not modelled as such: each
    critical section is one function or one step. *)

From Stdlib Require Import ZArith Lia Ascii String.
From Stdlib Require Export ZArith Lia.
From stdpp Require Export base gmap strings sorting numbers tactics list.

Open Scope Z_scope.
#[global] Arguments String.append !_ _ : simpl nomatch.

(** ** Results

    A Go function that returns [(T, error)] is modelled as a [result]. *)

Inductive result (E A : Type) : Type :=
| Ok (a : A)
| Err (e : E).
Arguments Ok {E A} a.
Arguments Err {E A} e.

Definition res_bind {E A B} (r : result E A) (f : A → result E B) : result E B :=
  match r with Ok a => f a | Err e => Err e end.

Declare Scope go_scope.
Delimit Scope go_scope with go.
Notation "'let!' x ':=' r 'in' k" := (res_bind r (fun x => k))
  (at level 10, x pattern, k at level 200) : go_scope.
Open Scope go_scope.

Definition is_ok {E A} (r : result E A) : bool :=
  match r with Ok _ => true | Err _ => false end.

(** ** Tactics and hint databases of the library *)

Create HintDb golib.
Create Rewrite HintDb golib.

(** Destruct every boolean or option scrutinee the goal is stuck on. *)
Ltac case_match_all := repeat (case_match; simplify_eq/=).

(** [inv_res H] inverts a successful bind in [H]. *)
Ltac inv_res H :=
  match type of H with
  | res_bind ?r _ = Ok _ =>
      let E := fresh "E" in destruct r eqn:E; simpl in H; [| discriminate H]
  end.

(** Close a closed equation by evaluating both sides in the virtual machine,
    without reading back a normal form. *)
Ltac vm_refl :=
  match goal with |- _ = ?b => vm_cast_no_check (@eq_refl _ b) end.

Ltac z_bool :=
  rewrite ?Z.ltb_lt, ?Z.leb_le, ?Z.ltb_ge, ?Z.leb_gt, ?Z.eqb_eq, ?Z.eqb_neq in *.

(** ** Machine integers

    Go's fixed-width integers are [Z] with the wrap-around written out. *)

Definition wrap_u (w : Z) (z : Z) : Z := z mod 2 ^ w.
Definition wrap_s (w : Z) (z : Z) : Z :=
  let m := z mod 2 ^ w in if m <? 2 ^ (w - 1) then m else m - 2 ^ w.

Abbreviation uint64 := (wrap_u 64).
Abbreviation uint32 := (wrap_u 32).
Abbreviation uint8 := (wrap_u 8).
Abbreviation int64 := (wrap_s 64).
Abbreviation int32 := (wrap_s 32).

Definition in_u (w z : Z) : Prop := 0 ≤ z < 2 ^ w.
Definition in_s (w z : Z) : Prop := - 2 ^ (w - 1) ≤ z < 2 ^ (w - 1).

Lemma wrap_u_range w z : 0 ≤ w → in_u w (wrap_u w z).
Proof. intros. unfold in_u, wrap_u. apply Z.mod_pos_bound. lia. Qed.

Lemma wrap_u_id w z : in_u w z → wrap_u w z = z.
Proof. intros []. unfold wrap_u. apply Z.mod_small. lia. Qed.

Lemma wrap_s_id w z : 0 < w → in_s w z → wrap_s w z = z.
Proof.
  intros Hw [H1 H2]. unfold wrap_s.
  assert (2 ^ w = 2 * 2 ^ (w - 1)) as Hp.
  { rewrite <- Z.pow_succ_r by lia. f_equal. lia. }
  destruct (decide (0 ≤ z)).
  - rewrite Z.mod_small by lia. case_match; z_bool; lia.
  - replace (z mod 2 ^ w) with (z + 2 ^ w).
    + case_match; z_bool; lia.
    + symmetry. rewrite <- (Z.mod_add z 1 (2 ^ w)) by lia.
      rewrite Z.mul_1_l. apply Z.mod_small. lia.
Qed.

#[export] Hint Resolve wrap_u_range : golib.
#[export] Hint Rewrite wrap_u_id wrap_s_id using (unfold in_u, in_s; lia) : golib.

(** ** Byte strings: order, prefixes, separators

    A Go [string] or [[]byte] is a Stdlib [string] (a sequence of bytes);
    its order is the bytewise lexicographic one ([String.le] of stdpp). *)

Abbreviation strlen s := (Z.of_nat (String.length s)).

Lemma ascii_compare_refl c : Ascii.compare c c = Eq.
Proof. unfold Ascii.compare. apply N.compare_refl. Qed.

Lemma ascii_compare_eq c d : Ascii.compare c d = Eq → c = d.
Proof.
  unfold Ascii.compare. intros H%N.compare_eq.
  rewrite <- (ascii_N_embedding c), <- (ascii_N_embedding d). by rewrite H.
Qed.

Lemma str_compare_refl s : String.compare s s = Eq.
Proof. induction s; simpl; [done|]. by rewrite ascii_compare_refl. Qed.

Lemma str_compare_app_l p a b :
  String.compare (p +:+ a) (p +:+ b) = String.compare a b.
Proof. induction p as [|c p IH]; simpl; [done|]. by rewrite ascii_compare_refl. Qed.

Lemma str_compare_app_eqlen s1 : ∀ s2 t1 t2,
  String.length s1 = String.length s2 →
  String.compare (s1 +:+ t1) (s2 +:+ t2) =
    match String.compare s1 s2 with Eq => String.compare t1 t2 | c => c end.
Proof.
  induction s1 as [|c s1 IH]; intros [|d s2] t1 t2 Hl; simplify_eq/=; [done|].
  destruct (Ascii.compare c d); auto.
Qed.

Lemma str_le_compare s t : String.le s t ↔ String.compare s t ≠ Gt.
Proof.
  unfold String.le, String.leb. destruct (String.compare s t); simpl; naive_solver.
Qed.

Lemma str_le_app_l p a b : String.le (p +:+ a) (p +:+ b) ↔ String.le a b.
Proof. by rewrite !str_le_compare, str_compare_app_l. Qed.

Lemma str_length_app s t :
  String.length (s +:+ t) = (String.length s + String.length t)%nat.
Proof. induction s; simpl; auto. Qed.

Lemma str_app_assoc a b c : a +:+ (b +:+ c) = (a +:+ b) +:+ c.
Proof. induction a as [|x a IH]; simpl; [done|]. by rewrite IH. Qed.

Lemma str_app_nil_r a : a +:+ "" = a.
Proof. induction a as [|x a IH]; simpl; [done|]. by rewrite IH. Qed.

Lemma prefix_app p s : String.prefix p (p +:+ s) = true.
Proof.
  induction p as [|c p IH]; simpl; [by destruct s|].
  destruct (ascii_dec c c); [done|congruence].
Qed.

Lemma prefix_spec p k : String.prefix p k = true ↔ ∃ s, k = p +:+ s.
Proof.
  split; [|intros [s ->]; apply prefix_app].
  revert k; induction p as [|c p IH]; intros k; [by exists k|].
  destruct k as [|d k]; [done|]; simpl.
  destruct (ascii_dec c d) as [->|]; [|done].
  intros [s ->]%IH. by exists s.
Qed.

(** Keys that share a prefix are contiguous in the order. *)
Lemma prefix_convex p k1 k k2 :
  String.le k1 k → String.le k k2 →
  String.prefix p k1 = true → String.prefix p k2 = true →
  String.prefix p k = true.
Proof.
  rewrite !str_le_compare. intros H1 H2 [s1 ->]%prefix_spec [s2 ->]%prefix_spec.
  revert k H1 H2; induction p as [|c p IH]; intros k H1 H2; [by destruct k|].
  destruct k as [|d k]; [done|]. simpl in *.
  destruct (Ascii.compare c d) eqn:E1.
  - apply ascii_compare_eq in E1 as <-. rewrite ascii_compare_refl in H2.
    destruct (ascii_dec c c); [|congruence]. by apply IH.
  - rewrite Ascii.compare_antisym, E1 in H2. done.
  - done.
Qed.

(** *** Characters of a string *)

Fixpoint str_forall (P : ascii → bool) (s : string) : bool :=
  match s with
  | EmptyString => true
  | String c s => P c && str_forall P s
  end.

Definition not_char (x c : ascii) : bool := negb (Ascii.eqb c x).
(** [lacks x s]: the byte [x] does not occur in [s]. *)
Abbreviation lacks x s := (str_forall (not_char x) s).

Lemma str_forall_app P s t : str_forall P (s +:+ t) = str_forall P s && str_forall P t.
Proof. induction s; simpl; [done|]. by rewrite IHs, andb_assoc. Qed.

Lemma str_forall_impl (P Q : ascii → bool) s :
  (∀ c, P c = true → Q c = true) → str_forall P s = true → str_forall Q s = true.
Proof.
  intros HPQ. induction s; simpl; [done|]. rewrite !andb_true_iff.
  intros []. auto.
Qed.

(** Two strings that lack a separator and agree up to it are equal. *)
Lemma sep_inj x a : ∀ b s t,
  lacks x a = true → lacks x b = true →
  a +:+ String x s = b +:+ String x t → a = b ∧ s = t.
Proof.
  induction a as [|c a IH]; intros [|d b] s t Ha Hb Heq; simplify_eq/=; auto.
  - rewrite andb_true_iff in Hb. unfold not_char in Hb.
    by rewrite Ascii.eqb_refl in Hb; destruct Hb.
  - rewrite andb_true_iff in Ha. unfold not_char in Ha.
    by rewrite Ascii.eqb_refl in Ha; destruct Ha.
  - rewrite andb_true_iff in Ha, Hb. destruct Ha, Hb.
    destruct (IH b s t) as [-> ->]; auto.
Qed.

(** The same from the right: the last occurrence of the separator. *)
Lemma sep_inj_r x s : ∀ t a b,
  lacks x a = true → lacks x b = true →
  s +:+ String x a = t +:+ String x b → s = t ∧ a = b.
Proof.
  assert (∀ u v, lacks x (u +:+ String x v) = false) as Hin.
  { intros u v. unfold lacks. rewrite str_forall_app. simpl. unfold not_char.
    rewrite Ascii.eqb_refl. simpl. by rewrite andb_false_r. }
  induction s as [|c s IH]; intros [|d t] a b Ha Hb Heq; simplify_eq/=; auto.
  - by rewrite Hin in Ha.
  - by rewrite Hin in Hb.
  - destruct (IH t a b) as [-> ->]; auto.
Qed.

(** A string whose tail after the last separator lacks the separator splits
    uniquely from the right when the tails have the same length. *)
Lemma str_app_inj_len a : ∀ b s t,
  String.length s = String.length t → a +:+ s = b +:+ t → a = b ∧ s = t.
Proof.
  induction a as [|c a IH]; intros [|d b] s t Hl Heq; simplify_eq/=; auto.
  - exfalso. rewrite str_length_app in Hl. lia.
  - exfalso. rewrite str_length_app in Hl. lia.
  - destruct (IH b s t) as [-> ->]; auto.
Qed.

(** ** Decimal formatting

    [digits w n] is [n] written with exactly [w] decimal digits; [fmt_pad w]
    is Go's [%0wd] verb and [fmt_d] its [%d] verb. *)

Definition digit_char (d : Z) : ascii := ascii_of_N (Z.to_N (48 + d)).

Fixpoint digits (w : nat) (n : Z) : string :=
  match w with
  | O => ""
  | S w' => digits w' (n / 10) +:+ String (digit_char (n mod 10)) ""
  end.

Fixpoint ndigits_aux (fuel : nat) (n : Z) : nat :=
  match fuel with
  | O => 1
  | S f => if n <? 10 then 1%nat else S (ndigits_aux f (n / 10))
  end.
Definition ndigits (n : Z) : nat := ndigits_aux (S (Z.to_nat (Z.log2 n))) n.

Definition fmt_pad (w : nat) (z : Z) : string :=
  if z <? 0
  then "-" +:+ digits (Nat.max (w - 1) (ndigits (- z))) (- z)
  else digits (Nat.max w (ndigits z)) z.
Definition fmt_d (z : Z) : string := fmt_pad 0 z.

Lemma digits_length w : ∀ n, String.length (digits w n) = w.
Proof. induction w; intros n; simpl; [done|]. rewrite str_length_app, IHw. simpl. lia. Qed.

Lemma digit_char_compare a b : 0 ≤ a < 10 → 0 ≤ b < 10 →
  Ascii.compare (digit_char a) (digit_char b) = (a ?= b).
Proof.
  intros. unfold digit_char, Ascii.compare.
  rewrite !N_ascii_embedding by lia.
  destruct (Z.compare_spec a b); destruct (N.compare_spec (Z.to_N (48 + a)) (Z.to_N (48 + b)));
    auto; lia.
Qed.

(** Fixed-width decimals are ordered like the numbers they denote. *)
Lemma digits_compare w : ∀ a b, 0 ≤ a < 10 ^ Z.of_nat w → 0 ≤ b < 10 ^ Z.of_nat w →
  String.compare (digits w a) (digits w b) = (a ?= b).
Proof.
  induction w as [|w IH]; intros a b Ha Hb.
  - simpl in *. destruct (Z.compare_spec a b); auto; lia.
  - rewrite Nat2Z.inj_succ, Z.pow_succ_r in Ha, Hb by lia. simpl.
    rewrite str_compare_app_eqlen by (by rewrite !digits_length).
    rewrite IH by (split; [apply Z.div_pos|apply Z.div_lt_upper_bound]; lia).
    pose proof (Z.mod_pos_bound a 10). pose proof (Z.mod_pos_bound b 10).
    pose proof (Z.div_mod a 10). pose proof (Z.div_mod b 10). simpl.
    rewrite digit_char_compare by lia.
    destruct (Z.compare_spec (a / 10) (b / 10)); destruct (Z.compare_spec (a mod 10) (b mod 10));
      destruct (Z.compare_spec a b); auto; lia.
Qed.

Lemma digits_inj w a b : 0 ≤ a < 10 ^ Z.of_nat w → 0 ≤ b < 10 ^ Z.of_nat w →
  digits w a = digits w b → a = b.
Proof.
  intros Ha Hb Heq. apply Z.compare_eq. rewrite <- (digits_compare w) by auto.
  rewrite Heq. apply str_compare_refl.
Qed.

Lemma ndigits_aux_bound f : ∀ n, 0 ≤ n < 2 ^ Z.of_nat f →
  n < 10 ^ Z.of_nat (ndigits_aux f n).
Proof.
  induction f as [|f IH]; intros n Hn; [simpl in *; lia|].
  cbn [ndigits_aux]. case_match; z_bool; [simpl; lia|].
  rewrite Nat2Z.inj_succ, Z.pow_succ_r in * by lia.
  specialize (IH (n / 10)). pose proof (Z.div_mod n 10). pose proof (Z.mod_pos_bound n 10).
  assert (0 ≤ n / 10 < 2 ^ Z.of_nat f) by
    (split; [apply Z.div_pos|apply Z.div_lt_upper_bound]; lia).
  lia.
Qed.

Lemma ndigits_bound n : 0 ≤ n → n < 10 ^ Z.of_nat (ndigits n).
Proof.
  intros Hn. apply ndigits_aux_bound. split; [done|].
  rewrite Nat2Z.inj_succ, Z2Nat.id by apply Z.log2_nonneg.
  destruct (decide (n = 0)) as [->|]; [done|]. apply Z.log2_spec. lia.
Qed.

Lemma ndigits_aux_le f w : ∀ n, (1 ≤ w)%nat → 0 ≤ n < 10 ^ Z.of_nat w →
  n < 2 ^ Z.of_nat f → (ndigits_aux f n ≤ w)%nat.
Proof.
  revert w; induction f as [|f IH]; intros w n Hw Hn Hf; [simpl; lia|].
  cbn [ndigits_aux]. case_match; z_bool; [lia|].
  destruct w as [|[|w]]; [lia|simpl in *; lia|].
  apply le_n_S. rewrite (Nat2Z.inj_succ (S w)), Z.pow_succ_r in Hn by lia.
  rewrite Nat2Z.inj_succ, Z.pow_succ_r in Hf by lia.
  apply IH; [lia| |]; [split; [apply Z.div_pos|apply Z.div_lt_upper_bound]; lia|].
  apply Z.div_lt_upper_bound; lia.
Qed.

Lemma ndigits_le w n : (1 ≤ w)%nat → 0 ≤ n < 10 ^ Z.of_nat w → (ndigits n ≤ w)%nat.
Proof.
  intros. apply ndigits_aux_le; auto.
  rewrite Nat2Z.inj_succ, Z2Nat.id by apply Z.log2_nonneg.
  destruct (decide (n = 0)) as [->|]; [done|]. apply Z.log2_spec. lia.
Qed.

Lemma pow10_mono a b : (a ≤ b)%nat → 10 ^ Z.of_nat a ≤ 10 ^ Z.of_nat b.
Proof. intros. apply Z.pow_le_mono_r; lia. Qed.

(** [%0wd] of a non-negative number that fits is exactly [w] digits. *)
Lemma fmt_pad_fits w z : (1 ≤ w)%nat → 0 ≤ z < 10 ^ Z.of_nat w → fmt_pad w z = digits w z.
Proof.
  intros Hw Hz. unfold fmt_pad. case_match; z_bool; [lia|].
  by rewrite Nat.max_l by (apply ndigits_le; lia).
Qed.

(** [%d] of a number with exactly [w] digits. *)
Lemma fmt_d_fits w z : 10 ^ Z.of_nat w ≤ z < 10 ^ Z.of_nat (S w) → fmt_d z = digits (S w) z.
Proof.
  intros Hz. pose proof (Z.pow_nonneg 10 (Z.of_nat w)). unfold fmt_d, fmt_pad.
  case_match; z_bool; [lia|]. f_equal. simpl Nat.max.
  assert (ndigits z ≤ S w)%nat by (apply ndigits_le; lia).
  pose proof (ndigits_bound z ltac:(lia)) as Hb.
  destruct (decide (ndigits z ≤ w)%nat); [|lia].
  pose proof (pow10_mono (ndigits z) w). lia.
Qed.

Lemma digit_char_range d : 0 ≤ d < 10 →
  ∃ n, (48 ≤ n < 58)%N ∧ digit_char d = ascii_of_N n.
Proof. intros. exists (Z.to_N (48 + d)). split; [lia|done]. Qed.

Lemma digits_lacks x w : ∀ n,
  (N_of_ascii x < 48 ∨ 58 ≤ N_of_ascii x)%N → lacks x (digits w n) = true.
Proof.
  induction w as [|w IH]; intros n Hx; simpl; [done|].
  rewrite str_forall_app, IH by done. simpl.
  pose proof (Z.mod_pos_bound n 10).
  destruct (digit_char_range (n mod 10)) as (k & Hk & ->); [lia|].
  unfold not_char. destruct (Ascii.eqb_spec (ascii_of_N k) x) as [<-|]; [|done].
  rewrite N_ascii_embedding in Hx by lia. lia.
Qed.

Definition minus_char : ascii := "-".

Lemma fmt_pad_lacks x w z : x ≠ minus_char →
  (N_of_ascii x < 48 ∨ 58 ≤ N_of_ascii x)%N → lacks x (fmt_pad w z) = true.
Proof.
  intros Hm Hx. unfold fmt_pad. case_match; [|by apply digits_lacks].
  simpl. rewrite digits_lacks by done. unfold not_char.
  destruct (Ascii.eqb_spec "-" x) as [<-|]; done.
Qed.

Lemma digits_inj_len w1 w2 a b : 0 ≤ a < 10 ^ Z.of_nat w1 → 0 ≤ b < 10 ^ Z.of_nat w2 →
  digits w1 a = digits w2 b → a = b.
Proof.
  intros Ha Hb Heq. assert (w1 = w2) as <-.
  { by rewrite <- (digits_length w1 a), <- (digits_length w2 b), Heq. }
  by eapply digits_inj.
Qed.

Lemma max_ndigits_bound w z : 0 ≤ z → 0 ≤ z < 10 ^ Z.of_nat (Nat.max w (ndigits z)).
Proof.
  intros Hz. pose proof (ndigits_bound z Hz).
  pose proof (pow10_mono (ndigits z) (Nat.max w (ndigits z)) ltac:(lia)). lia.
Qed.

Lemma digits_head_not_minus w n s : 0 ≤ n → digits w n ≠ String minus_char s.
Proof.
  intros Hn Heq.
  assert (lacks minus_char (digits w n) = true) as Hl by (apply digits_lacks; simpl; lia).
  rewrite Heq in Hl. done.
Qed.

(** [%d] and [%0wd] are injective. *)
Lemma fmt_pad_inj w a b : fmt_pad w a = fmt_pad w b → a = b.
Proof.
  unfold fmt_pad.
  destruct (Z.ltb_spec a 0), (Z.ltb_spec b 0); simpl; intros Heq.
  - injection Heq as Heq. apply digits_inj_len in Heq; [lia| |];
      apply max_ndigits_bound; lia.
  - symmetry in Heq. by apply digits_head_not_minus in Heq.
  - by apply digits_head_not_minus in Heq.
  - apply digits_inj_len in Heq; [lia| |]; apply max_ndigits_bound; lia.
Qed.

(** ** Slicing and joining byte strings *)

(** [s[n:]]. *)
Fixpoint str_drop (n : nat) (s : string) : string :=
  match n, s with
  | O, s => s
  | S n, String _ s => str_drop n s
  | S _, EmptyString => ""
  end.

Lemma str_drop_app p s : str_drop (String.length p) (p +:+ s) = s.
Proof. induction p; simpl; auto. Qed.

Fixpoint map_result {E A B} (f : A → result E B) (l : list A) : result E (list B) :=
  match l with
  | [] => Ok []
  | x :: l => let! y := f x in let! ys := map_result f l in Ok (y :: ys)
  end.

Lemma map_result_ok {E A B} (f : A → result E B) (g : A → B) l :
  (∀ x, x ∈ l → f x = Ok (g x)) → map_result f l = Ok (g <$> l).
Proof.
  induction l as [|x l IH]; intros H; simpl; [done|].
  rewrite H by left. simpl. rewrite IH; [done|]. intros y Hy. apply H. by right.
Qed.

Lemma map_result_Forall2 {E A B} (f : A → result E B) l ys :
  Forall2 (λ x y, f x = Ok y) l ys → map_result f l = Ok ys.
Proof. induction 1 as [|x y l ys Hx _ IH]; simpl; [done|]. rewrite Hx. simpl. by rewrite IH. Qed.

Lemma Forall2_exists {A B} (P : A → B → Prop) l :
  (∀ x, x ∈ l → ∃ y, P x y) → ∃ ys, Forall2 P l ys.
Proof.
  induction l as [|x l IH]; intros H; [by exists []; constructor|].
  destruct (H x) as [y Hy]; [left|].
  destruct IH as [ys Hys]; [intros z Hz; apply H; by right|].
  exists (y :: ys). by constructor.
Qed.

(** ** Boolean filters and non-empty lists *)

Fixpoint take_while {A} (P : A → bool) (l : list A) : list A :=
  match l with
  | [] => []
  | x :: l => if P x then x :: take_while P l else []
  end.

Lemma elem_of_lfilter {A} (P : A → bool) l x : x ∈ List.filter P l ↔ x ∈ l ∧ P x = true.
Proof. by rewrite !list_elem_of_In, List.filter_In. Qed.

Lemma lfilter_nil {A} (P : A → bool) l : (∀ x, x ∈ l → P x = false) → List.filter P l = [].
Proof.
  induction l as [|x l IH]; intros H; simpl; [done|].
  rewrite H by left. apply IH. intros y Hy. apply H. by right.
Qed.

Lemma lfilter_all {A} (P : A → bool) l : (∀ x, x ∈ l → P x = true) → List.filter P l = l.
Proof.
  induction l as [|x l IH]; intros H; simpl; [done|].
  rewrite H by left. f_equal. apply IH. intros y Hy. apply H. by right.
Qed.

#[export] Instance lfilter_Permutation {A} (P : A → bool) :
  Proper ((≡ₚ) ==> (≡ₚ)) (List.filter P).
Proof.
  induction 1 as [|x l k _ IH|x y l|l k j _ IH1 _ IH2]; cbn [List.filter].
  - done.
  - case_match; [by rewrite IH|done].
  - repeat case_match; (done || apply perm_swap).
  - by rewrite IH1.
Qed.

Lemma StronglySorted_lfilter {A} (R : relation A) (P : A → bool) l :
  StronglySorted R l → StronglySorted R (List.filter P l).
Proof.
  induction 1 as [|x l Hs IH Hx]; simpl; [constructor|].
  case_match; [|done]. constructor; [done|].
  rewrite Forall_forall in *. intros y [Hy _]%elem_of_lfilter. auto.
Qed.

Lemma list_elem_of_ne {A} (l : list A) : l ≠ [] → ∃ x, x ∈ l.
Proof. destruct l as [|x l]; [done|]. intros _. exists x. left. Qed.
