(* ===== verification/Errors.v ===== *)
(** * Errors: the error values of [errors/errors.go] and their gRPC mapping

    Go's [error] interface as an inductive type: the sentinels of the
    repository, the context and I/O sentinels it compares against, the key
    store's "not found", gRPC status errors, errors wrapped with [%w], and
    opaque errors of third-party code. *)

From S2P Require Import Prelude.

(** The codes of [google.golang.org/grpc/codes] the repository uses. *)
Inductive code :=
| InvalidArgument | Unauthenticated | AlreadyExists | ResourceExhausted
| CodeDeadlineExceeded | CodeCanceled | Internal | Unavailable.

Inductive error :=
| ErrWorkerPanic | ErrEmptyWords | ErrInvalidPayload | ErrServerOverloaded
| ErrNoValidPatterns | ErrContentTooLarge | ErrUserAlreadyExists
| ErrInvalidCredentials | ErrTokenGeneration | ErrInvalidPassword
| ErrSpecialistNotFound | ErrSpecialistStartFailed | ErrSpecialistUnavailable
| ErrSpecialistTimeout | ErrSpecialistCrash
| DeadlineExceeded | Canceled | EOF | ErrNotExist
| ErrKeyNotFound
| StatusError (c : code) (msg : string)
| Opaque (msg : string)
| Wrapped (msg : string) (inner : error).

#[export] Instance code_eq_dec : EqDecision code.
Proof. solve_decision. Defined.
#[export] Instance error_eq_dec : EqDecision error.
Proof. solve_decision. Defined.

(** [err.Error()]. *)
Definition error_text (e : error) : string :=
  match e with
  | ErrWorkerPanic => "worker panic"
  | ErrEmptyWords => "no words have been found"
  | ErrInvalidPayload => "payload of event has a wrong type"
  | ErrServerOverloaded => "too many messages, please backoff"
  | ErrNoValidPatterns => "no valid patterns after normalization"
  | ErrContentTooLarge => "content  too large"
  | ErrUserAlreadyExists => "user already exists"
  | ErrInvalidCredentials => "invalid credentials"
  | ErrTokenGeneration => "token generation failed"
  | ErrInvalidPassword => "password must contain at least one uppercase, one lowercase"
  | ErrSpecialistNotFound => "specialist binary not found"
  | ErrSpecialistStartFailed => "could not start specialist process"
  | ErrSpecialistUnavailable => "specialist is not responding"
  | ErrSpecialistTimeout => "specialist took too long to analyze"
  | ErrSpecialistCrash => "specialist process has exited unexpectedly"
  | DeadlineExceeded => "context deadline exceeded"
  | Canceled => "context canceled"
  | EOF => "EOF"
  | ErrNotExist => "file does not exist"
  | ErrKeyNotFound => "Key not found"
  | StatusError _ m => m
  | Opaque m => m
  | Wrapped m _ => m
  end.

(** [errors.Is]: the target is found along the chain of wrapped errors. *)
Fixpoint Is (e target : error) : bool :=
  bool_decide (e = target) ||
  match e with Wrapped _ inner => Is inner target | _ => false end.

(** [fmt.Errorf] with a [%w] verb: the text is the formatted message. *)
Definition Errorf (before : string) (e : error) : error :=
  Wrapped (before +:+ error_text e) e.

Definition MapToGRPCError (err : option error) : option error :=
  match err with
  | None => None
  | Some err => Some
    (if Is err ErrContentTooLarge || Is err ErrInvalidPassword
     then StatusError InvalidArgument (error_text err)
     else if Is err ErrInvalidCredentials
     then StatusError Unauthenticated (error_text err)
     else if Is err ErrUserAlreadyExists
     then StatusError AlreadyExists (error_text err)
     else if Is err ErrServerOverloaded
     then StatusError ResourceExhausted (error_text err)
     else if Is err DeadlineExceeded
     then StatusError CodeDeadlineExceeded "request took too long"
     else if Is err Canceled
     then StatusError CodeCanceled "client canceled the request"
     else if Is err ErrTokenGeneration
     then StatusError Internal "security token could not be issued"
     else if Is err ErrSpecialistUnavailable || Is err ErrSpecialistCrash
     then StatusError Unavailable (error_text err)
     else if Is err ErrSpecialistTimeout
     then StatusError CodeDeadlineExceeded "specialist analysis timed out"
     else if Is err ErrSpecialistStartFailed || Is err ErrSpecialistNotFound
     then StatusError Internal "sidecar initialization failed"
     else StatusError Internal "an unexpected error occurred")
  end.

Lemma Is_refl e : Is e e = true.
Proof. by destruct e; simpl; rewrite ?bool_decide_eq_true_2. Qed.

Lemma Is_wrapped m e t : Is e t = true → Is (Wrapped m e) t = true.
Proof. intros H. simpl. rewrite H. apply orb_true_r. Qed.

Lemma Is_Errorf b e t : Is e t = true → Is (Errorf b e) t = true.
Proof. apply Is_wrapped. Qed.

#[export] Hint Resolve Is_refl Is_wrapped Is_Errorf : golib.

(** The sentinel an error carries: the last error of its chain. *)
Fixpoint root_cause (e : error) : error :=
  match e with Wrapped _ i => root_cause i | e => e end.

(** A target that is not itself a wrapper is found exactly when it is the
    root cause. *)
Lemma Is_root e t : (∀ m i, t ≠ Wrapped m i) → Is e t = bool_decide (root_cause e = t).
Proof.
  intros Ht. induction e; simpl; rewrite ?orb_false_r; try done.
  rewrite bool_decide_eq_false_2 by (by intros <-; eapply Ht). done.
Qed.

(** The status code a client sees depends only on the root cause. *)
Definition grpc_code (root : error) : code :=
  match root with
  | ErrContentTooLarge | ErrInvalidPassword => InvalidArgument
  | ErrInvalidCredentials => Unauthenticated
  | ErrUserAlreadyExists => AlreadyExists
  | ErrServerOverloaded => ResourceExhausted
  | DeadlineExceeded | ErrSpecialistTimeout => CodeDeadlineExceeded
  | Canceled => CodeCanceled
  | ErrSpecialistUnavailable | ErrSpecialistCrash => Unavailable
  | _ => Internal
  end.

Lemma MapToGRPCError_root e :
  ∃ msg, MapToGRPCError (Some e) = Some (StatusError (grpc_code (root_cause e)) msg).
Proof.
  unfold MapToGRPCError. rewrite !Is_root by done.
  assert (∀ m i, root_cause e ≠ Wrapped m i) as Hr by (induction e; simpl; auto; done).
  destruct (root_cause e); cbv [bool_decide decide_rel]; simpl; eauto.
Qed.
