(* ===== verification/Store.v ===== *)
(** * Store: the key-value store the repositories are written against

    BadgerDB is third-party code: it is a parameter of the development, the
    class [Badger] of its operations, and [BadgerLaws] states what its
    documentation promises (transactions read their writes, a commit installs
    them, iterators walk the keys in byte order, a write batch applies its
    sets in order).  [MapBadger] is a concrete store that satisfies the laws
    and that the witnesses run on. *)

From S2P Require Import Prelude Errors.

(** ** Sorted views of a finite map *)

Notation entry := (string * string)%type (only parsing).

Definition key_le (a b : entry) : Prop := String.le a.1 b.1.
#[export] Instance key_le_dec : RelDecision key_le.
Proof. intros a b. unfold key_le. apply _. Defined.
#[export] Instance key_le_trans : Transitive key_le.
Proof. intros a b c. unfold key_le. apply transitivity. Qed.
#[export] Instance key_le_total : Total key_le.
Proof. intros a b. unfold key_le. apply total, _. Qed.

(** The entries of a store in ascending byte order of their keys. *)
Definition sorted_entries (m : gmap string string) : list entry :=
  merge_sort key_le (map_to_list m).

(** The sequence an iterator visits after [Seek(key)]: the keys from [key]
    upwards, or, in reverse mode, from [key] downwards. *)
Definition seek_entries (m : gmap string string) (rev : bool) (key : string) : list entry :=
  if rev
  then List.filter (λ e, String.leb e.1 key) (reverse (sorted_entries m))
  else List.filter (λ e, String.leb key e.1) (sorted_entries m).

Lemma sorted_entries_sorted m : StronglySorted key_le (sorted_entries m).
Proof. apply StronglySorted_merge_sort; apply _. Qed.

Lemma sorted_entries_perm m : sorted_entries m ≡ₚ map_to_list m.
Proof. apply merge_sort_Permutation. Qed.

Lemma elem_of_sorted_entries m k v : (k, v) ∈ sorted_entries m ↔ m !! k = Some v.
Proof. by rewrite sorted_entries_perm, elem_of_map_to_list. Qed.

Lemma sorted_entries_keys_NoDup m : NoDup (sorted_entries m).*1.
Proof. rewrite sorted_entries_perm. apply NoDup_fst_map_to_list. Qed.

(** ** Generic lemmas on sorted lists and filters *)

(** On a sorted list, a predicate that is closed downwards along the order
    holds on a prefix: scanning while it holds is filtering. *)
Lemma take_while_filter {A} (P : A → bool) (R : relation A) l :
  StronglySorted R l →
  (∀ x y, x ∈ l → y ∈ l → R x y → P y = true → P x = true) →
  take_while P l = List.filter P l.
Proof.
  induction 1 as [|x l Hs IH Hx]; intros HP; simpl; [done|].
  destruct (P x) eqn:Ex.
  - f_equal. apply IH. intros y z Hy Hz. apply HP; by right.
  - symmetry. apply lfilter_nil. intros y Hy. rewrite Forall_forall in Hx.
    destruct (P y) eqn:Ey; [|done].
    rewrite <- Ex. symmetry. eapply HP; eauto; [by left|by right].
Qed.

Lemma StronglySorted_reverse {A} (R : relation A) l :
  StronglySorted R l → StronglySorted (flip R) (reverse l).
Proof.
  induction 1 as [|x l Hs IH Hx]; [constructor|].
  rewrite reverse_cons. rewrite Forall_forall in Hx.
  apply StronglySorted_app_2; [|done|by repeat constructor].
  intros a b Ha Hb. apply list_elem_of_singleton in Hb as ->.
  apply Hx. by apply elem_of_reverse.
Qed.

Lemma Forall2_StronglySorted {A B} (P : A → B → Prop) (R : relation A) (R' : relation B) l k :
  (∀ x y x' y', P x x' → P y y' → R x y → R' x' y') →
  Forall2 P l k → StronglySorted R l → StronglySorted R' k.
Proof.
  intros HR. induction 1 as [|x x' l k Hx Hl IH]; inversion 1 as [|? ? Hs Hf]; subst;
    constructor; [by apply IH|].
  clear IH H Hs. induction Hl as [|y y' l k Hy Hl IH]; constructor;
    inversion Hf; subst; eauto.
Qed.

Lemma Forall2_elem_of_r {A B} (P : A → B → Prop) l k y :
  Forall2 P l k → y ∈ k → ∃ x, x ∈ l ∧ P x y.
Proof.
  induction 1 as [|x x' l k Hx Hl IH]; [by inversion 1|].
  intros [->|Hy]%elem_of_cons; [exists x; split; [left|done]|].
  destruct (IH Hy) as (z & ? & ?). exists z. split; [by right|done].
Qed.

Lemma Forall2_elem_of_l {A B} (P : A → B → Prop) l k x :
  Forall2 P l k → x ∈ l → ∃ y, y ∈ k ∧ P x y.
Proof. intros H. apply Forall2_flip in H. exact (Forall2_elem_of_r _ _ _ x H). Qed.

(** ** Prefix scans *)

Definition has_prefix (p : string) (e : entry) : bool := String.prefix p e.1.

(** The entries under prefix [p], in ascending order of their keys. *)
Definition prefix_entries (m : gmap string string) (p : string) : list entry :=
  List.filter (has_prefix p) (sorted_entries m).

Lemma prefix_refl p : String.prefix p p = true.
Proof. rewrite <- (str_app_nil_r p) at 2. apply prefix_app. Qed.

Lemma str_le_app p s : String.le p (p +:+ s).
Proof.
  rewrite <- (str_app_nil_r p) at 1. apply str_le_app_l.
  unfold String.le. by destruct s.
Qed.

Lemma leb_le s t : String.leb s t = true ↔ String.le s t.
Proof. unfold String.le. by destruct (String.leb s t). Qed.

Lemma leb_gt s t : String.leb s t = false → String.le t s.
Proof. intros H. destruct (String.leb_total s t) as [H'|H']; [congruence|]. by apply leb_le. Qed.

(** A forward scan from [p] while the prefix holds visits exactly the entries
    under [p], in order. *)
Lemma forward_scan m p :
  take_while (has_prefix p) (seek_entries m false p) = prefix_entries m p.
Proof.
  unfold seek_entries, prefix_entries.
  rewrite (take_while_filter _ key_le).
  - assert (∀ l, List.filter (has_prefix p) (List.filter (λ e, String.leb p e.1) l) =
                 List.filter (has_prefix p) l) as Hf; [|apply Hf].
    induction l as [|[k v] l IH]; simpl; [done|].
    destruct (has_prefix p (k, v)) eqn:E.
    + assert (∃ s, k = p +:+ s) as [s ->] by (by apply prefix_spec).
      rewrite (proj2 (leb_le _ _) (str_le_app p s)). simpl. by rewrite E, IH.
    + case_match; simpl; [|done]. by rewrite E.
  - apply StronglySorted_lfilter, sorted_entries_sorted.
  - intros [k1 v1] [k2 v2] [_ H1]%elem_of_lfilter [_ H2]%elem_of_lfilter; simpl in *.
    unfold key_le, has_prefix; simpl. intros Hle Hp.
    eapply prefix_convex; [by apply leb_le|done|apply prefix_refl|done].
Qed.

Lemma sorted_entries_rev_sorted m :
  StronglySorted (flip key_le) (reverse (sorted_entries m)).
Proof. apply StronglySorted_reverse, sorted_entries_sorted. Qed.

(** A reverse scan from a key [s] under [p] while the prefix holds visits the
    entries under [p] that are not above [s], in descending order. *)
Lemma reverse_scan m p s :
  String.prefix p s = true →
  take_while (has_prefix p) (seek_entries m true s) =
    List.filter (has_prefix p) (seek_entries m true s).
Proof.
  intros Hs. unfold seek_entries. apply (take_while_filter _ (flip key_le)).
  - apply StronglySorted_lfilter, sorted_entries_rev_sorted.
  - intros [k1 v1] [k2 v2] [_ H1]%elem_of_lfilter [_ H2]%elem_of_lfilter; simpl in *.
    unfold key_le, has_prefix; simpl. intros Hle Hp.
    eapply prefix_convex; [exact Hle|by apply leb_le|done|done].
Qed.

(** The entries under [p] in descending order: what a complete walk through
    the pages of a reverse scan enumerates. *)
Definition rev_prefix_entries (m : gmap string string) (p : string) : list entry :=
  reverse (prefix_entries m p).

Lemma elem_of_rev_prefix_entries m p k v :
  (k, v) ∈ rev_prefix_entries m p ↔ m !! k = Some v ∧ String.prefix p k = true.
Proof.
  unfold rev_prefix_entries, prefix_entries.
  by rewrite elem_of_reverse, elem_of_lfilter, elem_of_sorted_entries.
Qed.

Lemma lfilter_reverse {A} (P : A → bool) l :
  List.filter P (reverse l) = reverse (List.filter P l).
Proof.
  induction l as [|x l IH]; [done|].
  rewrite reverse_cons, List.filter_app, IH. simpl.
  destruct (P x); [by rewrite reverse_cons|by rewrite app_nil_r].
Qed.

Lemma rev_prefix_entries_sorted m p :
  StronglySorted (flip key_le) (rev_prefix_entries m p).
Proof.
  unfold rev_prefix_entries, prefix_entries. rewrite <- lfilter_reverse.
  apply StronglySorted_lfilter, sorted_entries_rev_sorted.
Qed.

Lemma prefix_entries_length m p : (length (prefix_entries m p) ≤ size m)%nat.
Proof.
  unfold prefix_entries. rewrite List.filter_length_le.
  rewrite (Permutation_length (sorted_entries_perm m)). by rewrite length_map_to_list.
Qed.

Lemma rev_prefix_entries_length m p : (length (rev_prefix_entries m p) ≤ size m)%nat.
Proof. unfold rev_prefix_entries. rewrite length_reverse. apply prefix_entries_length. Qed.

Lemma lfilter_keys_NoDup (P : entry → bool) (l : list entry) :
  NoDup l.*1 → NoDup (List.filter P l).*1.
Proof.
  induction l as [|e l IH]; simpl; [constructor|].
  intros [Hn Hd]%NoDup_cons. case_match; simpl; [|by apply IH].
  apply NoDup_cons. split; [|by apply IH].
  intros (e' & He & [He' _]%elem_of_lfilter)%list_elem_of_fmap.
  apply Hn. rewrite He. by apply list_elem_of_fmap_2.
Qed.

Lemma rev_prefix_entries_NoDup m p : NoDup (rev_prefix_entries m p).*1.
Proof.
  unfold rev_prefix_entries, prefix_entries. rewrite fmap_reverse, reverse_Permutation.
  apply lfilter_keys_NoDup, sorted_entries_keys_NoDup.
Qed.

Lemma reverse_scan_all m p s :
  String.prefix p s = true →
  (∀ k v, m !! k = Some v → String.prefix p k = true → String.le k s) →
  take_while (has_prefix p) (seek_entries m true s) = rev_prefix_entries m p.
Proof.
  intros Hs Hall. rewrite reverse_scan by done.
  unfold seek_entries, rev_prefix_entries, prefix_entries. rewrite <- lfilter_reverse.
  assert (∀ l : list entry, (∀ k v, (k, v) ∈ l → m !! k = Some v) →
    List.filter (has_prefix p) (List.filter (λ e, String.leb e.1 s) l) =
    List.filter (has_prefix p) l) as Hf.
  - induction l as [|[k v] l IH]; intros Hl; simpl; [done|].
    destruct (has_prefix p (k, v)) eqn:E.
    + rewrite (proj2 (leb_le _ _) (Hall k v (Hl k v ltac:(left)) E)). simpl. rewrite E.
      f_equal. apply IH. intros. apply Hl. by right.
    + rewrite <- IH by (intros; apply Hl; by right).
      case_match; simpl; [by rewrite E|done].
  - apply Hf. intros k v Hk. by apply elem_of_sorted_entries, elem_of_reverse.
Qed.

(** ** Resuming a scan *)

Lemma str_le_antisym s t : String.le s t → String.le t s → s = t.
Proof. intros. by apply (anti_symm String.le). Qed.

Lemma NoDup_split_unique {A} (a : A) X : ∀ Y X' Y',
  NoDup (X ++ a :: Y) → X ++ a :: Y = X' ++ a :: Y' → X = X' ∧ Y = Y'.
Proof.
  induction X as [|x X IH]; intros Y [|x' X'] Y' Hnd Heq; simplify_eq/=; [done|..].
  - apply NoDup_cons in Hnd as [Hn _]. set_solver.
  - apply NoDup_cons in Hnd as [Hn _]. set_solver.
  - apply NoDup_cons in Hnd as [_ Hnd]. destruct (IH Y X' Y') as [-> ->]; auto.
Qed.

Lemma rev_entries_NoDup m : NoDup (reverse (sorted_entries m)).*1.
Proof. rewrite fmap_reverse, reverse_Permutation. apply sorted_entries_keys_NoDup. Qed.

(** Seeking a key that is present, in reverse, lands on it; what follows are
    the entries below it. *)
Lemma seek_rev_split m A k v B :
  reverse (sorted_entries m) = A ++ (k, v) :: B →
  seek_entries m true k = (k, v) :: B ∧
  StronglySorted (flip key_le) B ∧ ∀ e, e ∈ B → String.le e.1 k.
Proof.
  intros HAB. pose proof (sorted_entries_rev_sorted m) as Hs.
  pose proof (rev_entries_NoDup m) as Hnd. rewrite HAB in Hs, Hnd.
  rewrite fmap_app, fmap_cons in Hnd. apply NoDup_app in Hnd as (_ & HdA & _).
  apply StronglySorted_app in Hs as (HsA & _ & Hs2).
  inversion Hs2 as [|? ? HsB HfB]; subst. rewrite Forall_forall in HfB.
  assert (∀ e, e ∈ A → String.leb e.1 k = false) as HA.
  { intros e He. destruct (String.leb e.1 k) eqn:E; [|done]. exfalso.
    apply leb_le in E. pose proof (HsA e (k, v) He ltac:(left)) as Hle.
    apply (HdA e.1); [by apply list_elem_of_fmap_2|].
    rewrite (str_le_antisym _ _ E Hle). left. }
  split_and!; [|done|intros e He; apply (HfB e He)].
  unfold seek_entries. rewrite HAB, List.filter_app, (lfilter_nil _ A) by done. simpl.
  rewrite (proj2 (leb_le k k)) by reflexivity.
  by rewrite lfilter_all by (intros e He; apply leb_le, (HfB e He)).
Qed.

(** Resuming a reverse scan at a key of the store, and skipping that key,
    continues exactly where the previous page stopped. *)
Lemma reverse_scan_resume m p before k v after :
  rev_prefix_entries m p = before ++ (k, v) :: after →
  ∃ rest, seek_entries m true k = (k, v) :: rest ∧
          take_while (has_prefix p) rest = after.
Proof.
  unfold rev_prefix_entries, prefix_entries. rewrite <- lfilter_reverse. intros Heq.
  assert ((k, v) ∈ List.filter (has_prefix p) (reverse (sorted_entries m)))
    as [Hr Hp]%elem_of_lfilter by (rewrite Heq; set_solver).
  apply list_elem_of_split in Hr as (A & B & HAB).
  destruct (seek_rev_split _ _ _ _ _ HAB) as (Hseek & HsB & HfB).
  exists B. split; [done|].
  rewrite (take_while_filter _ (flip key_le)); [| done |].
  - pose proof (rev_entries_NoDup m) as Hnd. apply NoDup_fmap_1 in Hnd.
    assert (NoDup (List.filter (has_prefix p) (reverse (sorted_entries m)))) as Hnd'.
    { apply NoDup_ListNoDup, List.NoDup_filter. by apply NoDup_ListNoDup. }
    rewrite HAB, List.filter_app in Heq, Hnd'. simpl in *. rewrite Hp in Heq, Hnd'.
    by apply NoDup_split_unique in Heq as [_ ?].
  - intros [k1 v1] [k2 v2] H1 H2; unfold key_le, has_prefix; simpl in *. intros Hle Hp2.
    eapply prefix_convex; [exact Hle|apply (HfB _ H1)|exact Hp2|exact Hp].
Qed.

(** A sorted list without duplicate keys is determined by its elements. *)
Lemma prefix_entries_unique m p l :
  StronglySorted key_le l → NoDup l.*1 →
  (∀ k v, (k, v) ∈ l ↔ m !! k = Some v ∧ String.prefix p k = true) →
  prefix_entries m p = l.
Proof.
  intros Hs Hnd Hel.
  assert (∀ k v, (k, v) ∈ prefix_entries m p ↔ (k, v) ∈ l) as Heq.
  { intros k v. unfold prefix_entries. by rewrite elem_of_lfilter, elem_of_sorted_entries, Hel. }
  assert (NoDup (prefix_entries m p).*1) as Hnd'
    by (apply lfilter_keys_NoDup, sorted_entries_keys_NoDup).
  eapply (StronglySorted_unique_strong key_le).
  - intros [k1 v1] [k2 v2] H1 H2 Hle1 Hle2. unfold key_le in *; simpl in *.
    assert (k1 = k2) as <- by (by apply str_le_antisym).
    apply Heq, Hel in H1 as [H1 _]. apply Hel in H2 as [H2 _]. congruence.
  - apply StronglySorted_lfilter, sorted_entries_sorted.
  - done.
  - apply NoDup_Permutation; [by eapply NoDup_fmap_1..|]. intros []. apply Heq.
Qed.

Lemma prefix_entries_sorted m p : StronglySorted key_le (prefix_entries m p).
Proof. apply StronglySorted_lfilter, sorted_entries_sorted. Qed.

Lemma prefix_entries_NoDup m p : NoDup (prefix_entries m p).*1.
Proof. apply lfilter_keys_NoDup, sorted_entries_keys_NoDup. Qed.

Lemma elem_of_prefix_entries m p k v :
  (k, v) ∈ prefix_entries m p ↔ m !! k = Some v ∧ String.prefix p k = true.
Proof. unfold prefix_entries. by rewrite elem_of_lfilter, elem_of_sorted_entries. Qed.

(** Removing the first entry under a prefix leaves the others, in order. *)
Lemma prefix_entries_delete_head m p k v l :
  prefix_entries m p = (k, v) :: l → prefix_entries (delete k m) p = l.
Proof.
  intros Heq. pose proof (prefix_entries_sorted m p) as Hs.
  pose proof (prefix_entries_NoDup m p) as Hnd. rewrite Heq in Hs, Hnd.
  inversion Hs as [|? ? Hs' _]; subst. rewrite fmap_cons in Hnd.
  apply NoDup_cons in Hnd as [Hn Hnd]. simpl in Hn.
  apply prefix_entries_unique; [done|done|]. intros k' v'.
  assert ((k', v') ∈ prefix_entries m p ↔ (k', v') = (k, v) ∨ (k', v') ∈ l) as Hel
    by (by rewrite Heq, elem_of_cons).
  rewrite elem_of_prefix_entries in Hel. rewrite lookup_delete_Some. split.
  - intros Hin. assert (k' ≠ k) by (intros ->; by apply Hn, (list_elem_of_fmap_2 fst _ (k, v'))).
    naive_solver.
  - intros [[Hne Hk] Hp]. destruct (proj1 Hel (conj Hk Hp)); [congruence|done].
Qed.

Lemma prefix_entries_insert_other m p k v : String.prefix p k = false →
  prefix_entries (<[k := v]> m) p = prefix_entries m p.
Proof.
  intros Hp. apply prefix_entries_unique.
  - apply prefix_entries_sorted.
  - apply prefix_entries_NoDup.
  - intros k' v'. rewrite elem_of_prefix_entries. split; intros [Hk Hp'];
      (split; [|done]); (rewrite lookup_insert_ne in * by congruence); done.
Qed.

(** ** Pages

    The two repositories page through a key space in the same way: a reverse
    iterator is positioned above every key of the prefix, or at the cursor,
    whose own entry is skipped. *)

Definition valid_for_prefix (prefix : string) (it : list entry) : bool :=
  match it with item :: _ => has_prefix prefix item | [] => false end.

Definition page_seek_key (prefix : string) (cursor : option string) : string :=
  match cursor with
  | None => prefix +:+ "9999999999999999999"
  | Some c => prefix +:+ c
  end.

(** Where a cursor stands in the key space: nothing read yet, or just after
    the entry the cursor names; [rest] is what is left to read. *)
Definition position (m : gmap string string) (prefix : string) (cursor : option string)
    (rest : list entry) : Prop :=
  match cursor with
  | None => rev_prefix_entries m prefix = rest
  | Some c => ∃ before v, rev_prefix_entries m prefix = before ++ (prefix +:+ c, v) :: rest
  end.

(** The iterator of a page, [Seek] and skip done, has exactly the rest to
    read. *)
Lemma page_scan m prefix cursor rest :
  (∀ k v, m !! k = Some v → String.prefix prefix k = true →
     String.le k (prefix +:+ "9999999999999999999")) →
  position m prefix cursor rest →
  let it := seek_entries m true (page_seek_key prefix cursor) in
  take_while (has_prefix prefix)
    (if bool_decide (cursor ≠ None) && valid_for_prefix prefix it then tail it else it) = rest.
Proof.
  intros Htop Hpos. destruct cursor as [c|]; simpl in Hpos; simpl page_seek_key.
  - destruct Hpos as (before & v & Hpos).
    apply reverse_scan_resume in Hpos as (rest' & Hseek & Hrest).
    rewrite Hseek. simpl. unfold has_prefix at 2; simpl. by rewrite prefix_app.
  - rewrite bool_decide_eq_false_2 by (by intros []). cbn [andb].
    rewrite reverse_scan_all, Hpos; [done|apply prefix_app|done].
Qed.

(** A page that ends on key [k] leaves the cursor [k] (without the prefix)
    just before the rest. *)
Lemma position_next m prefix cursor pg k v rest :
  position m prefix cursor (pg ++ rest) → last pg = Some (k, v) →
  position m prefix (Some (str_drop (String.length prefix) k)) rest.
Proof.
  intros Hpos [pre ->]%last_Some. simpl.
  assert (∃ before, rev_prefix_entries m prefix = before ++ (k, v) :: rest) as [before Hb].
  { destruct cursor as [c|]; simpl in Hpos.
    - destruct Hpos as (before & v' & ->).
      exists (before ++ (prefix +:+ c, v') :: pre). by rewrite <- !app_assoc.
    - exists pre. by rewrite Hpos, <- app_assoc. }
  assert ((k, v) ∈ rev_prefix_entries m prefix) as Hin by (rewrite Hb; set_solver).
  apply elem_of_rev_prefix_entries in Hin as [_ [s ->]%prefix_spec].
  rewrite str_drop_app. by exists before, v.
Qed.

Lemma position_elem m prefix cursor rest k v :
  position m prefix cursor rest → (k, v) ∈ rest →
  m !! k = Some v ∧ String.prefix prefix k = true.
Proof.
  intros Hpos Hin. apply elem_of_rev_prefix_entries.
  destruct cursor as [c|]; simpl in Hpos; [|by rewrite Hpos].
  destruct Hpos as (before & v' & ->). set_solver.
Qed.

Lemma elem_of_seek_entries m rev key e : e ∈ seek_entries m rev key → m !! e.1 = Some e.2.
Proof.
  unfold seek_entries. destruct e as [k v]. rewrite <- elem_of_sorted_entries.
  destruct rev; intros [H _]%elem_of_lfilter; [by apply elem_of_reverse|done].
Qed.

Lemma elem_of_take_while {A} (P : A → bool) l x : x ∈ take_while P l → x ∈ l ∧ P x = true.
Proof.
  induction l as [|y l IH]; simpl; [by inversion 1|].
  destruct (P y) eqn:E; [|by inversion 1].
  intros [->|Hx]%elem_of_cons; [split; [left|done]|].
  destruct (IH Hx). split; [by right|done].
Qed.

(** ** The BadgerDB interface *)

(** A transaction works on the snapshot it was opened on and keeps its writes
    aside; a commit applies them to the store as it is then.  The program
    opens BadgerDB with [DetectConflicts = false] (cmd/master/main.go:362), so
    a commit does not look at what others wrote since the snapshot. *)
Class Badger := {
  DB : Type;
  Txn : Type;
  (** [db.NewTransaction]: the snapshot a [View] or [Update] body works on *)
  NewTransaction : DB → Txn;
  txn_Get : Txn → string → result error string;
  txn_Set : Txn → string → string → result error Txn;
  txn_Delete : Txn → string → result error Txn;
  txn_Commit : DB → Txn → result error DB;
  (** the entries an iterator visits after [Seek(key)] ([Reverse] first) *)
  it_Seek : Txn → bool → string → list (string * string);
  (** [item.Value(fn)]: the bytes [fn] is given for the item of an iterator *)
  item_Value : Txn → string * string → result error string;
  (** what the slices [item.Value] lent to its callers hold once the iterator
      and the transaction are over: BadgerDB promises nothing of them *)
  slices_after : DB → list string → list string;
  (** a [WriteBatch]: the writes queued so far; a large batch may be committed
      in several transactions, so a failed or cancelled batch may have written
      the first of them *)
  WriteBatch : Type;
  NewWriteBatch : DB → WriteBatch;
  wb_Set : WriteBatch → string → string → WriteBatch * option error;
  wb_Flush : WriteBatch → DB * option error;
  wb_Cancel : WriteBatch → DB;
  (** the store a batch was opened on and the writes it was given, in order *)
  wb_base : WriteBatch → gmap string string;
  wb_writes : WriteBatch → list (string * string);
  (** the committed key/value pairs, the ones a transaction sees, and what its
      writes make of a store *)
  db_map : DB → gmap string string;
  txn_map : Txn → gmap string string;
  txn_writes : Txn → gmap string string → gmap string string;
}.

(** A list of sets, applied in order. *)
Definition apply_sets (m : gmap string string) (ws : list (string * string)) : gmap string string :=
  foldl (λ m w, <[w.1 := w.2]> m) m ws.

Class BadgerLaws (B : Badger) : Prop := {
  begin_map db : txn_map (NewTransaction db) = db_map db;
  begin_writes db m : txn_writes (NewTransaction db) m = m;
  Get_map t k : txn_Get t k =
    match txn_map t !! k with Some v => Ok v | None => Err ErrKeyNotFound end;
  Set_map t k v t' : txn_Set t k v = Ok t' → txn_map t' = <[k := v]> (txn_map t);
  Set_writes t k v t' m : txn_Set t k v = Ok t' →
    txn_writes t' m = <[k := v]> (txn_writes t m);
  Delete_map t k t' : txn_Delete t k = Ok t' → txn_map t' = delete k (txn_map t);
  Delete_writes t k t' m : txn_Delete t k = Ok t' →
    txn_writes t' m = delete k (txn_writes t m);
  Commit_map db t db' : txn_Commit db t = Ok db' → db_map db' = txn_writes t (db_map db);
  Seek_map t rev k : it_Seek t rev k = seek_entries (txn_map t) rev k;
  Value_map t e v : item_Value t e = Ok v → v = e.2;
  NewWriteBatch_base db : wb_base (NewWriteBatch db) = db_map db;
  NewWriteBatch_writes db : wb_writes (NewWriteBatch db) = [];
  wb_Set_base wb k v wb' err : wb_Set wb k v = (wb', err) → wb_base wb' = wb_base wb;
  wb_Set_ok wb k v wb' : wb_Set wb k v = (wb', None) → wb_writes wb' = wb_writes wb ++ [(k, v)];
  wb_Set_err wb k v wb' e : wb_Set wb k v = (wb', Some e) → wb_writes wb' = wb_writes wb;
  Flush_map wb db' : wb_Flush wb = (db', None) →
    db_map db' = apply_sets (wb_base wb) (wb_writes wb);
  (** a batch that fails or is cancelled may have written the first sets *)
  Flush_err wb db' e : wb_Flush wb = (db', Some e) →
    ∃ n, db_map db' = apply_sets (wb_base wb) (take n (wb_writes wb));
  Cancel_map wb : ∃ n, db_map (wb_Cancel wb) = apply_sets (wb_base wb) (take n (wb_writes wb));
}.

(** A store whose writes succeed.  Claims of progress that need it name it:
    elsewhere a failed write is a case of the theorem. *)
Class BadgerReliable (B : Badger) : Prop := {
  Set_succeeds t k v : k ≠ "" → ∃ t', txn_Set t k v = Ok t';
  Delete_succeeds t k : k ≠ "" → ∃ t', txn_Delete t k = Ok t';
  Commit_succeeds db t : ∃ db', txn_Commit db t = Ok db';
}.

(** A store whose reads succeed and which does not reuse the memory of the
    values it lent.  BadgerDB documents the second as not promised ("the
    value is only valid within the transaction"): the theorems about the
    message history that need it name this class. *)
Class BadgerReads (B : Badger) : Prop := {
  Value_succeeds t e : item_Value t e = Ok e.2;
  slices_stable db l : slices_after db l = l;
}.

(** [db.Update(fn)]: run [fn] on a fresh transaction, commit when it returns
    no error, discard it otherwise.  Here nothing else commits in between;
    [overlapping_registrations] (Auth) shows what overlapping calls do. *)
Definition Update `{B : Badger} (db : DB) (fn : Txn → result error Txn) : DB * option error :=
  match fn (NewTransaction db) with
  | Err e => (db, Some e)
  | Ok t =>
      match txn_Commit db t with
      | Ok db' => (db', None)
      | Err e => (db, Some e)
      end
  end.

(** [db.View(fn)]: a read-only transaction. *)
Definition View `{B : Badger} {A} (db : DB) (fn : Txn → A) : A := fn (NewTransaction db).

Lemma Update_err `{B : Badger} db fn e db' :
  Update db fn = (db', Some e) → db' = db.
Proof. unfold Update. intros. case_match_all; done. Qed.

Lemma Update_ok `{B : Badger} `{!BadgerLaws B} db fn db' :
  Update db fn = (db', None) →
  ∃ t, fn (NewTransaction db) = Ok t ∧ db_map db' = txn_writes t (db_map db).
Proof. unfold Update. intros. case_match_all. eauto using Commit_map. Qed.

Lemma apply_sets_app m ws ws' : apply_sets m (ws ++ ws') = apply_sets (apply_sets m ws) ws'.
Proof. apply foldl_app. Qed.

(** A predicate that every single set keeps is kept by any part of a batch. *)
Lemma apply_sets_ind (P : gmap string string → Prop) m ws n :
  P m → (∀ m w, w ∈ ws → P m → P (<[w.1 := w.2]> m)) → P (apply_sets m (take n ws)).
Proof.
  revert m n. induction ws as [|w ws IH]; intros m n Hm Hs; [by rewrite take_nil|].
  destruct n as [|n]; [done|]. simpl. apply IH; [apply Hs; [left|done]|].
  intros m' w' Hw'. apply Hs. by right.
Qed.

(** A concrete store: a finite map, on which no operation fails except for
    the empty key, which BadgerDB rejects.  A transaction is its snapshot and
    its writes. *)
Definition map_key_ok (k : string) : option error :=
  if String.eqb k "" then Some (Opaque "Key cannot be empty") else None.

Definition write : Type := string * option string.
Definition do_writes (ws : list write) (m : gmap string string) : gmap string string :=
  foldl (λ m w, match w.2 with Some v => <[w.1 := v]> m | None => delete w.1 m end) m ws.

Lemma do_writes_snoc ws w m :
  do_writes (ws ++ [w]) m =
    match w.2 with Some v => <[w.1 := v]> (do_writes ws m) | None => delete w.1 (do_writes ws m) end.
Proof. unfold do_writes. by rewrite foldl_app. Qed.

#[export] Instance MapBadger : Badger := {|
  DB := gmap string string;
  Txn := gmap string string * list write;
  NewTransaction m := (m, []);
  txn_Get t k := match do_writes t.2 t.1 !! k with Some v => Ok v | None => Err ErrKeyNotFound end;
  txn_Set t k v := match map_key_ok k with
                   | Some e => Err e | None => Ok (t.1, t.2 ++ [(k, Some v)]) end;
  txn_Delete t k := Ok (t.1, t.2 ++ [(k, None)]);
  txn_Commit m t := Ok (do_writes t.2 m);
  it_Seek t := seek_entries (do_writes t.2 t.1);
  item_Value _ e := Ok e.2;
  slices_after _ l := l;
  WriteBatch := gmap string string * list (string * string);
  NewWriteBatch m := (m, []);
  wb_Set b k v := match map_key_ok k with
                  | Some e => (b, Some e) | None => ((b.1, b.2 ++ [(k, v)]), None) end;
  wb_Flush b := (apply_sets b.1 b.2, None);
  wb_Cancel b := b.1;
  wb_base b := b.1;
  wb_writes b := b.2;
  db_map m := m;
  txn_map t := do_writes t.2 t.1;
  txn_writes t := do_writes t.2;
|}.

#[export] Instance MapBadger_laws : BadgerLaws MapBadger.
Proof.
  split; simpl; unfold map_key_ok; intros; case_match_all; simplify_eq/=;
    rewrite ?do_writes_snoc; try done.
  by exists 0%nat.
Qed.

#[export] Instance MapBadger_reliable : BadgerReliable MapBadger.
Proof.
  split; simpl; [|by eexists..]. intros t k v Hk. unfold map_key_ok.
  rewrite (proj2 (String.eqb_neq k "") Hk). by eexists.
Qed.

#[export] Instance MapBadger_reads : BadgerReads MapBadger.
Proof. by split. Qed.

(** A store that meets the same laws and reuses one buffer for the values it
    lends: after the transaction every slice shows the last one. *)
Definition ReusingBadger : Badger := {|
  DB := @DB MapBadger;
  Txn := @Txn MapBadger;
  NewTransaction := @NewTransaction MapBadger;
  txn_Get := @txn_Get MapBadger;
  txn_Set := @txn_Set MapBadger;
  txn_Delete := @txn_Delete MapBadger;
  txn_Commit := @txn_Commit MapBadger;
  it_Seek := @it_Seek MapBadger;
  item_Value := @item_Value MapBadger;
  slices_after _ l := match last l with Some v => (λ _, v) <$> l | None => [] end;
  WriteBatch := @WriteBatch MapBadger;
  NewWriteBatch := @NewWriteBatch MapBadger;
  wb_Set := @wb_Set MapBadger;
  wb_Flush := @wb_Flush MapBadger;
  wb_Cancel := @wb_Cancel MapBadger;
  wb_base := @wb_base MapBadger;
  wb_writes := @wb_writes MapBadger;
  db_map := @db_map MapBadger;
  txn_map := @txn_map MapBadger;
  txn_writes := @txn_writes MapBadger;
|}.

Lemma ReusingBadger_laws : BadgerLaws ReusingBadger.
Proof. destruct MapBadger_laws. by constructor. Qed.
