(* ===== verification/Env.v ===== *)
(** * Env: time, floats, hexadecimal, and the libraries the code calls

    [time.Time] is an instant in nanoseconds since the Unix epoch; [float64]
    is the executable IEEE-754 type of the standard library.  The UUID,
    protobuf and timestamp packages are third-party: each is a class with the
    behaviour its documentation states, and a concrete instance the witnesses
    run on. *)

From Stdlib Require Import Ascii String SpecFloat.
From S2P Require Import Prelude Errors.

(** ** Time *)

Definition time := Z.
Definition duration := Z.
(** [time.Time{}]: January 1, year 1, 00:00:00 UTC. *)
Definition zero_time : time := -62135596800 * 10 ^ 9.
(** [t.UnixNano()] is an [int64]: it wraps outside the years 1678 to 2262. *)
Definition UnixNano (t : time) : Z := int64 t.
(** [t.Unix()]. *)
Definition Unix (t : time) : Z := t / 10 ^ 9.
Definition time_Unix (sec nsec : Z) : time := sec * 10 ^ 9 + nsec.
Definition second : duration := 10 ^ 9.
Definition millisecond : duration := 10 ^ 6.

(** The instants whose nanosecond count fits an [int64] and is after 1970. *)
Definition modern (t : time) : Prop := 0 ≤ t < 2 ^ 63.

Lemma UnixNano_modern t : modern t → UnixNano t = t.
Proof. intros []. apply wrap_s_id; unfold in_s; lia. Qed.

(** ** float64 *)

Definition float64 := spec_float.
Definition f64_of_Z (z : Z) : float64 := binary_normalize 53 1024 z 0 false.
Definition f64_mul : float64 → float64 → float64 := SFmul 53 1024.
Definition f64_div : float64 → float64 → float64 := SFdiv 53 1024.
Definition f64_add : float64 → float64 → float64 := SFadd 53 1024.
Definition f64_ltb : float64 → float64 → bool := SFltb.
Definition f64_zero : float64 := S754_zero false.

(** [d.Seconds()]: whole seconds and the rest are converted apart. *)
Definition duration_Seconds (d : duration) : float64 :=
  f64_add (f64_of_Z (Z.quot d second)) (f64_div (f64_of_Z (Z.rem d second)) (f64_of_Z second)).
(** [int(f)]: truncation toward zero of a finite value. *)
Definition f64_trunc (f : float64) : Z :=
  match f with
  | S754_finite s m e =>
      let a := if e <? 0 then Z.pos m / 2 ^ (- e) else Z.pos m * 2 ^ e in
      if s then - a else a
  | _ => 0
  end.

#[export] Instance spec_float_eq_dec : EqDecision float64.
Proof. solve_decision. Defined.

Definition f64_encode (f : spec_float) : nat * bool * positive * Z :=
  match f with
  | S754_zero s => (0%nat, s, 1%positive, 0)
  | S754_infinity s => (1%nat, s, 1%positive, 0)
  | S754_nan => (2%nat, true, 1%positive, 0)
  | S754_finite s m e => (3%nat, s, m, e)
  end.
Definition f64_decode (p : nat * bool * positive * Z) : option spec_float :=
  match p with
  | (0, s, _, _)%nat => Some (S754_zero s)
  | (1, s, _, _)%nat => Some (S754_infinity s)
  | (2, _, _, _)%nat => Some S754_nan
  | (_, s, m, e) => Some (S754_finite s m e)
  end.
#[export] Instance spec_float_countable : Countable float64.
Proof. apply (inj_countable f64_encode f64_decode). by intros []. Defined.

(** ** Hexadecimal ([encoding/hex], the [%x] verb) *)

Definition hex_digit (n : N) : ascii :=
  ascii_of_N (if (n <? 10)%N then 48 + n else 87 + n).
Definition hex_value (c : ascii) : option N :=
  let n := N_of_ascii c in
  if ((48 <=? n) && (n <? 58))%N then Some (n - 48)%N
  else if ((97 <=? n) && (n <? 103))%N then Some (n - 87)%N
  else if ((65 <=? n) && (n <? 71))%N then Some (n - 55)%N
  else None.

Fixpoint hex_encode (s : string) : string :=
  match s with
  | EmptyString => ""
  | String c s =>
      let n := N_of_ascii c in
      String (hex_digit (n / 16)) (String (hex_digit (n mod 16)) (hex_encode s))
  end.
Fixpoint hex_decode (s : string) : option string :=
  match s with
  | EmptyString => Some ""
  | String a (String b s) =>
      match hex_value a, hex_value b, hex_decode s with
      | Some x, Some y, Some t => Some (String (ascii_of_N (16 * x + y)) t)
      | _, _, _ => None
      end
  | String _ EmptyString => None
  end.

Lemma hex_value_digit n : (n < 16)%N → hex_value (hex_digit n) = Some n.
Proof.
  intros Hn. assert (n = N.of_nat (N.to_nat n)) as -> by lia.
  assert (N.to_nat n < 16)%nat as H by lia. revert H. generalize (N.to_nat n).
  intros m Hm. do 16 (destruct m as [|m]; [reflexivity|]). lia.
Qed.

Lemma hex_decode_encode s : hex_decode (hex_encode s) = Some s.
Proof.
  induction s as [|c s IH]; [done|]. cbn [hex_encode hex_decode].
  pose proof (N_ascii_bounded c) as Hc.
  pose proof (N.mod_lt (N_of_ascii c) 16 ltac:(lia)).
  assert (N_of_ascii c / 16 < 16)%N by (apply N.Div0.div_lt_upper_bound; lia).
  rewrite !hex_value_digit, IH by done.
  rewrite <- N.div_mod by lia. by rewrite ascii_N_embedding.
Qed.

Lemma hex_encode_inj s t : hex_encode s = hex_encode t → s = t.
Proof. intros H. apply (f_equal hex_decode) in H. rewrite !hex_decode_encode in H. congruence. Qed.

Lemma hex_encode_length s : String.length (hex_encode s) = (2 * String.length s)%nat.
Proof. induction s as [|c s IH]; [done|]. cbn [hex_encode String.length]. rewrite IH. lia. Qed.

(** ** UUIDs ([github.com/google/uuid]) *)

Class Uuid := {
  uuid : Type;
  uuid_eq_dec :: EqDecision uuid;
  uuid_String : uuid → string;
  uuid_Parse : string → result error uuid;
  uuid_Nil : uuid;
}.

Definition uuid_char (c : ascii) : bool :=
  bool_decide (is_Some (hex_value c)) || Ascii.eqb c "-".

Class UuidLaws (U : Uuid) : Prop := {
  uuid_Parse_String u : uuid_Parse (uuid_String u) = Ok u;
  (** the canonical form has 36 characters, hexadecimal digits and dashes *)
  uuid_String_length u : String.length (uuid_String u) = 36%nat;
  uuid_String_chars u : str_forall uuid_char (uuid_String u) = true;
}.

Lemma uuid_String_lacks `{UuidLaws} x u : uuid_char x = false → lacks x (uuid_String u) = true.
Proof.
  intros Hx. eapply str_forall_impl; [|apply uuid_String_chars]. intros c Hc. unfold not_char.
  destruct (Ascii.eqb_spec c x) as [->|]; [congruence|done].
Qed.

Lemma uuid_String_inj `{UuidLaws} u v : uuid_String u = uuid_String v → u = v.
Proof.
  intros Heq. pose proof (uuid_Parse_String u) as Hu.
  rewrite Heq, uuid_Parse_String in Hu. congruence.
Qed.

(** ** Keys ordered by time

    The tail of a chronological key: [%019d:%s] of the nanoseconds and an
    identifier. *)
Definition time_key `{Uuid} (t : time) (u : uuid) : string :=
  fmt_pad 19 (UnixNano t) +:+ ":" +:+ uuid_String u.

Lemma time_key_inj `{UuidLaws} t1 t2 u1 u2 :
  time_key t1 u1 = time_key t2 u2 → UnixNano t1 = UnixNano t2 ∧ u1 = u2.
Proof.
  unfold time_key. intros Heq.
  apply sep_inj in Heq as [H1 H2]; [|apply fmt_pad_lacks; simpl; by auto with lia..].
  by apply fmt_pad_inj in H1; apply uuid_String_inj in H2.
Qed.

(** Every such tail is below the position a first page seeks. *)
Lemma time_key_below_top `{Uuid} t u : String.le (time_key t u) "9999999999999999999".
Proof.
  apply str_le_compare. unfold time_key.
  assert (in_s 64 (UnixNano t)) as [Hlo Hhi].
  { unfold UnixNano, wrap_s, in_s.
    pose proof (Z.mod_pos_bound t (2 ^ 64) ltac:(lia)).
    change (2 ^ 64) with (2 * 2 ^ (64 - 1)) in *. case_match; z_bool; lia. }
  destruct (decide (UnixNano t < 0)).
  - unfold fmt_pad. destruct (Z.ltb_spec (UnixNano t) 0); [done|lia].
  - rewrite fmt_pad_fits by (simpl in *; lia).
    change "9999999999999999999" with (digits 19 (10 ^ 19 - 1) +:+ "").
    rewrite str_compare_app_eqlen by (by rewrite !digits_length).
    rewrite digits_compare by (simpl in *; lia).
    destruct (Z.compare_spec (UnixNano t) (10 ^ 19 - 1)); simpl in *; lia || done.
Qed.

(** The order of the keys is the order of time. *)
Lemma time_key_le `{Uuid} t1 t2 u1 u2 : modern t1 → modern t2 →
  String.le (time_key t2 u2) (time_key t1 u1) → t2 ≤ t1.
Proof.
  intros Ha Hb. rewrite str_le_compare. unfold time_key. rewrite !UnixNano_modern by done.
  unfold modern in *. rewrite !fmt_pad_fits by (simpl; lia).
  rewrite str_compare_app_eqlen by (by rewrite !digits_length).
  rewrite digits_compare by (simpl; lia).
  destruct (Z.compare_spec t2 t1); simpl; intros; lia || done.
Qed.

Lemma time_key_length `{UuidLaws} t u : modern t → String.length (time_key t u) = 56%nat.
Proof.
  intros Hm. unfold time_key. rewrite UnixNano_modern by done. unfold modern in Hm.
  rewrite fmt_pad_fits by (simpl; lia). rewrite !str_length_app, digits_length, uuid_String_length.
  done.
Qed.

(** ** Protobuf messages and timestamps *)

Class Codec (A : Type) := {
  Marshal : A → result error string;
  Unmarshal : string → result error A;
}.
(** What is marshalled is read back. *)
Class CodecLaws A `{Codec A} : Prop :=
  Unmarshal_Marshal : ∀ (a : A) b, Marshal a = Ok b → Unmarshal b = Ok a.

Class Timestamppb := {
  Timestamp : Type;
  timestamppb_New : time → Timestamp;
  (** [AsTime] is defined on a nil timestamp too, as the epoch *)
  AsTime : option Timestamp → time;
}.
Class TimestamppbLaws (T : Timestamppb) : Prop :=
  AsTime_New : ∀ t, AsTime (Some (timestamppb_New t)) = t.

(** ** Concrete instances *)

(** A UUID as its sixteen bytes, in the canonical 8-4-4-4-12 form. *)
Definition uuid16 := { s : string | (String.length s =? 16)%nat = true }.

Definition uuid16_String (u : uuid16) : string :=
  let h := hex_encode (proj1_sig u) in
  substring 0 8 h +:+ "-" +:+ substring 8 4 h +:+ "-" +:+ substring 12 4 h +:+ "-" +:+
  substring 16 4 h +:+ "-" +:+ substring 20 12 h.

Definition uuid16_of (s : string) : result error uuid16 :=
  (if (String.length s =? 16)%nat as b return (String.length s =? 16)%nat = b → result error uuid16
   then λ H, Ok (s ↾ H)
   else λ _, Err (Opaque "invalid UUID length")) eq_refl.

Lemma uuid16_of_ok s H : uuid16_of s = Ok (s ↾ H).
Proof.
  unfold uuid16_of.
  assert (∀ b (E : (String.length s =? 16)%nat = b),
    (if b as b0 return (String.length s =? 16)%nat = b0 → result error uuid16
     then λ H, Ok (s ↾ H) else λ _, Err (Opaque "invalid UUID length")) E = Ok (s ↾ H)) as Hb.
  { intros [|] E; [do 2 f_equal; apply proof_irrel|congruence]. }
  apply Hb.
Qed.

Definition uuid16_Parse (s : string) : result error uuid16 :=
  if String.eqb (substring 8 1 s +:+ substring 13 1 s +:+ substring 18 1 s +:+ substring 23 1 s)
       "----" && (String.length s =? 36)%nat
  then match hex_decode (substring 0 8 s +:+ substring 9 4 s +:+ substring 14 4 s +:+
                         substring 19 4 s +:+ substring 24 12 s) with
       | Some b => uuid16_of b
       | None => Err (Opaque "invalid UUID format")
       end
  else Err (Opaque "invalid UUID length").

#[export] Instance uuid16_eq_dec : EqDecision uuid16.
Proof.
  intros [s Hs] [t Ht]. destruct (decide (s = t)) as [->|Hne].
  - left. f_equal. apply proof_irrel.
  - right. intros [=]. done.
Defined.

Definition nul : ascii := ascii_of_N 0.
Definition uuid16_nil : uuid16 :=
  string_of_list_ascii (repeat nul 16) ↾ eq_refl.
(** A UUID whose last byte is [n], for examples. *)
Definition uuid16_num (n : N) : uuid16 :=
  string_of_list_ascii (repeat nul 15 ++ [ascii_of_N n]) ↾ eq_refl.

#[export] Instance HexUuid : Uuid := {|
  uuid := uuid16;
  uuid_String := uuid16_String;
  uuid_Parse := uuid16_Parse;
  uuid_Nil := uuid16_nil;
|}.

Definition format_uuid (h : string) : string :=
  substring 0 8 h +:+ "-" +:+ substring 8 4 h +:+ "-" +:+ substring 12 4 h +:+ "-" +:+
  substring 16 4 h +:+ "-" +:+ substring 20 12 h.

Lemma format_uuid_parts h : String.length h = 32%nat →
  let s := format_uuid h in
  substring 0 8 s +:+ substring 9 4 s +:+ substring 14 4 s +:+ substring 19 4 s +:+
    substring 24 12 s = h ∧
  String.length s = 36%nat ∧
  substring 8 1 s +:+ substring 13 1 s +:+ substring 18 1 s +:+ substring 23 1 s = "----".
Proof.
  intros Hl. cbv zeta. do 32 (destruct h as [|? h]; [discriminate|]).
  destruct h; [|discriminate]. by vm_compute.
Qed.

Lemma str_forall_substring P s : ∀ n m, str_forall P s = true → str_forall P (substring n m s) = true.
Proof.
  induction s as [|c s IH]; intros [|n] [|m]; simpl; try done;
    rewrite andb_true_iff; intros []; [rewrite andb_true_iff; split; [done|]|..]; by apply IH.
Qed.

Lemma hex_encode_chars s : str_forall uuid_char (hex_encode s) = true.
Proof.
  induction s as [|c s IH]; [done|]. cbn [hex_encode str_forall]. rewrite IH.
  pose proof (N_ascii_bounded c). pose proof (N.mod_lt (N_of_ascii c) 16 ltac:(lia)).
  assert (N_of_ascii c / 16 < 16)%N by (apply N.Div0.div_lt_upper_bound; lia).
  unfold uuid_char. by rewrite !hex_value_digit.
Qed.

#[export] Instance HexUuid_laws : UuidLaws HexUuid.
Proof.
  assert (∀ u : uuid16, String.length (hex_encode (proj1_sig u)) = 32%nat) as Hlen.
  { intros [s Hs]. simpl. rewrite hex_encode_length. apply Nat.eqb_eq in Hs. by rewrite Hs. }
  split; intros u; pose proof (format_uuid_parts _ (Hlen u)) as (H1 & H2 & H3);
    change (uuid_String u) with (format_uuid (hex_encode (proj1_sig u))).
  - simpl. unfold uuid16_Parse. rewrite H1, H2, H3, hex_decode_encode. simpl.
    destruct u as [s Hs]; simpl. apply uuid16_of_ok.
  - done.
  - unfold format_uuid. rewrite !str_forall_app.
    by rewrite !str_forall_substring by apply hex_encode_chars.
Qed.

(** A codec for records: the binary codes of the fields, comma separated. *)
Class Fielded (A : Type) := {
  to_fields : A → list positive;
  of_fields : list positive → option A;
  of_to_fields a : of_fields (to_fields a) = Some a;
}.

Fixpoint bits_of_pos (p : positive) : string :=
  match p with
  | xH => ""
  | xO p => String "0" (bits_of_pos p)
  | xI p => String "1" (bits_of_pos p)
  end.
Definition write_fields (l : list positive) : string :=
  foldr (λ p s, bits_of_pos p +:+ String "," s) "" l.
Fixpoint read_fields (s : string) : option (list positive) :=
  match s with
  | EmptyString => Some []
  | String c s =>
      match read_fields s with
      | Some l =>
          if Ascii.eqb c "," then Some (xH :: l)
          else match l with
               | p :: l => if Ascii.eqb c "0" then Some (xO p :: l)
                           else if Ascii.eqb c "1" then Some (xI p :: l) else None
               | [] => None
               end
      | None => None
      end
  end.
Lemma read_write_fields l : read_fields (write_fields l) = Some l.
Proof.
  induction l as [|p l IH]; simpl; [done|]. fold (write_fields l).
  induction p as [p IHp|p IHp|]; simpl; by rewrite ?IHp, ?IH.
Qed.

Definition FieldCodec A `{Fielded A} : Codec A := {|
  Marshal a := Ok (write_fields (to_fields a));
  Unmarshal s :=
    match read_fields s ≫= of_fields with
    | Some a => Ok a
    | None => Err (Opaque "proto: cannot parse invalid wire-format data")
    end;
|}.
Lemma FieldCodec_laws A `{Fielded A} : @CodecLaws A (FieldCodec A).
Proof. intros a b [= <-]. simpl. by rewrite read_write_fields; simpl; rewrite of_to_fields. Qed.

(** A timestamp as its seconds and nanoseconds. *)
#[export] Instance PairTimestamp : Timestamppb := {|
  Timestamp := Z * Z;
  timestamppb_New t := (t / 10 ^ 9, t mod 10 ^ 9);
  AsTime o := match o with Some (s, n) => s * 10 ^ 9 + n | None => 0 end;
|}.
#[export] Instance PairTimestamp_eq_dec : EqDecision (@Timestamp PairTimestamp) :=
  (_ : EqDecision (Z * Z)).
#[export] Instance PairTimestamp_countable : Countable (@Timestamp PairTimestamp) :=
  (_ : Countable (Z * Z)).
#[export] Instance PairTimestamp_laws : TimestamppbLaws PairTimestamp.
Proof. intros t. simpl. pose proof (Z.div_mod t (10 ^ 9)). lia. Qed.
