(* ===== verification/MessageStore.v ===== *)
(** * MessageStore: [infrastructure/storage/message_repository.go]

    The chat history: one record per message under the key
    [msg:{room}:{nanoseconds, 19 digits}:{uuid}], read back newest first in
    pages that a cursor links. *)

From S2P Require Import Prelude Errors Env Store.

Section MessageStore.
Context {B : Badger} {BL : BadgerLaws B} {U : Uuid} {UL : UuidLaws U}
        {T : Timestamppb} {TL : TimestamppbLaws T}.

(** ** Data *)

(** [pb.Message] of [proto/storage]. *)
Record pbMessage := MkPbMessage {
  pm_Id : string; pm_Room : Z; pm_Author : string; pm_Content : string;
  pm_At : option Timestamp; pm_ToxicityScore : float64;
}.

Record DiskMessage := MkDiskMessage {
  dm_ID : uuid; dm_Room : Z; dm_Author : string; dm_Content : string;
  dm_At : time; dm_ToxicityScore : float64;
}.

Context {C : Codec pbMessage} {CL : CodecLaws pbMessage}.

(** The repository: the store and the optional page size. *)
Record MessageRepository := NewMessageRepository {
  mr_db : DB;
  mr_limitMessages : option Z;
}.

Definition with_db (m : MessageRepository) (db : DB) : MessageRepository :=
  NewMessageRepository db (mr_limitMessages m).

Definition fromDiskMessage (message : DiskMessage) : pbMessage :=
  MkPbMessage (uuid_String (dm_ID message)) (int64 (dm_Room message))
    (dm_Author message) (dm_Content message)
    (Some (timestamppb_New (dm_At message))) (dm_ToxicityScore message).

Definition toDiskMessage (messagePb : pbMessage) : result error DiskMessage :=
  let! parsedID := uuid_Parse (pm_Id messagePb) in
  Ok (MkDiskMessage parsedID (int64 (pm_Room messagePb)) (pm_Author messagePb)
        (pm_Content messagePb) (AsTime (pm_At messagePb)) (pm_ToxicityScore messagePb)).

(** ** Operations *)

Definition room_prefix (room : Z) : string := "msg:" +:+ fmt_d room +:+ ":".

Definition message_cursor (message : DiskMessage) : string :=
  time_key (dm_At message) (dm_ID message).

Definition message_key (message : DiskMessage) : string :=
  room_prefix (dm_Room message) +:+ message_cursor message.

Definition StoreMessage (m : MessageRepository) (message : DiskMessage)
  : MessageRepository * option error :=
  match Marshal (fromDiskMessage message) with
  | Err e => (m, Some e)
  | Ok bytes =>
      let '(db, err) := Update (mr_db m) (λ txn, txn_Set txn (message_key message) bytes) in
      (with_db m db, err)
  end.

(** The loop of the [View] body: [it] is the iterator, its head the current
    item.  The slices [item.Value] lends are kept, not copied. *)
Fixpoint collect (txn : Txn) (limit : option Z) (prefix : string) (it : list (string * string))
    (byteMessages : list string) (lastKey : string) : result error (list string * string) :=
  match it with
  | [] => Ok (byteMessages, lastKey)
  | item :: it' =>
      if has_prefix prefix item then
        if match limit with Some n => Z.of_nat (length byteMessages) =? n | None => false end
        then Ok (byteMessages, lastKey)
        else
          let! value := item_Value txn item in
          collect txn limit prefix it' (byteMessages ++ [value])
            (str_drop (String.length prefix) item.1)
      else Ok (byteMessages, lastKey)
  end.

(** The slices are decoded after the [View], when the iterator is closed and
    the transaction discarded: they hold what [slices_after] says. *)
Definition GetMessages (m : MessageRepository) (room : Z) (cursor : option string)
  : result error (list DiskMessage * option string) :=
  let prefix := room_prefix room in
  let! (byteMessages, lastKey) := View (mr_db m) (λ txn,
    let it := it_Seek txn true (page_seek_key prefix cursor) in
    let it := if bool_decide (cursor ≠ None) && valid_for_prefix prefix it
              then tail it else it in
    collect txn (mr_limitMessages m) prefix it [] "") in
  let! diskMessages := map_result (λ b, let! messagePb := Unmarshal b in toDiskMessage messagePb)
                         (slices_after (mr_db m) byteMessages) in
  Ok (diskMessages, Some lastKey).

(** A client that follows the cursors until a page is empty. *)
Fixpoint walk (fuel : nat) (m : MessageRepository) (room : Z) (cursor : option string)
  : result error (list DiskMessage) :=
  match fuel with
  | O => Ok []
  | S fuel =>
      let! (page, next) := GetMessages m room cursor in
      match page with
      | [] => Ok []
      | _ => let! rest := walk fuel m room next in Ok (page ++ rest)
      end
  end.

(** ** Keys *)

Definition room_ok (room : Z) : Prop := in_s 64 room.

Lemma room_prefix_inj r1 r2 s1 s2 :
  room_prefix r1 +:+ s1 = room_prefix r2 +:+ s2 → r1 = r2 ∧ s1 = s2.
Proof.
  unfold room_prefix. rewrite <- !str_app_assoc. intros [= H].
  apply sep_inj in H as [H ->]; [|apply fmt_pad_lacks; simpl; by auto with lia..].
  by apply fmt_pad_inj in H.
Qed.

Lemma message_cursor_inj m1 m2 :
  message_cursor m1 = message_cursor m2 →
  UnixNano (dm_At m1) = UnixNano (dm_At m2) ∧ dm_ID m1 = dm_ID m2.
Proof.
  apply time_key_inj.
Qed.

Lemma message_key_inj m1 m2 :
  message_key m1 = message_key m2 →
  dm_Room m1 = dm_Room m2 ∧ UnixNano (dm_At m1) = UnixNano (dm_At m2) ∧ dm_ID m1 = dm_ID m2.
Proof.
  unfold message_key. intros [? H]%room_prefix_inj.
  by apply message_cursor_inj in H as [].
Qed.

#[local] Opaque room_prefix.

Lemma cursor_below_top m : String.le (message_cursor m) "9999999999999999999".
Proof. apply time_key_below_top. Qed.

(** ** What is stored *)

Definition decode_message (b : string) : result error DiskMessage :=
  let! messagePb := Unmarshal b in toDiskMessage messagePb.

(** [dm] is in the store: its key holds bytes that decode to it. *)
Definition stored (m : gmap string string) (dm : DiskMessage) : Prop :=
  ∃ v, m !! message_key dm = Some v ∧ decode_message v = Ok dm.

(** The invariant of the [msg:] key space: every key under a room holds the
    message the key was made from. *)
Definition messages_ok (m : gmap string string) : Prop :=
  ∀ room k v, m !! k = Some v → String.prefix (room_prefix room) k = true →
  ∃ dm, dm_Room dm = room ∧ k = message_key dm ∧ decode_message v = Ok dm.

Lemma toDiskMessage_fromDiskMessage dm :
  room_ok (dm_Room dm) → toDiskMessage (fromDiskMessage dm) = Ok dm.
Proof.
  intros Hr. unfold toDiskMessage, fromDiskMessage; simpl.
  rewrite uuid_Parse_String; simpl. rewrite AsTime_New.
  rewrite !(wrap_s_id 64) by (rewrite ?(wrap_s_id 64); by auto with lia). by destruct dm.
Qed.

Lemma decode_Marshal dm b : room_ok (dm_Room dm) →
  Marshal (fromDiskMessage dm) = Ok b → decode_message b = Ok dm.
Proof.
  intros Hr Hm. unfold decode_message. rewrite (Unmarshal_Marshal _ _ Hm). simpl.
  by apply toDiskMessage_fromDiskMessage.
Qed.

(** A successful [StoreMessage] is one insertion. *)
Lemma StoreMessage_map r dm r' :
  StoreMessage r dm = (r', None) →
  ∃ b, Marshal (fromDiskMessage dm) = Ok b ∧
       db_map (mr_db r') = <[message_key dm := b]> (db_map (mr_db r)) ∧
       mr_limitMessages r' = mr_limitMessages r.
Proof.
  unfold StoreMessage. destruct (Marshal _) as [b|]; [|done].
  destruct (Update _ _) as [db err] eqn:Hu. intros [= <- ->].
  apply Update_ok in Hu as (t & Ht & Hm).
  exists b. split_and!; [done| |done]. simpl. by rewrite Hm, (Set_writes _ _ _ _ _ Ht), begin_writes.
Qed.

Lemma StoreMessage_err r dm r' e :
  StoreMessage r dm = (r', Some e) → mr_db r' = mr_db r.
Proof.
  unfold StoreMessage. destruct (Marshal _); [|by intros [= <- _]].
  destruct (Update _ _) as [db err] eqn:Hu. intros [= <- ->]. simpl.
  by eapply Update_err.
Qed.

Lemma prefix_message_key room dm :
  String.prefix (room_prefix room) (message_key dm) = true → dm_Room dm = room.
Proof. intros [s Hs]%prefix_spec. by apply room_prefix_inj in Hs as []. Qed.

Lemma messages_ok_insert m dm b :
  messages_ok m → decode_message b = Ok dm → messages_ok (<[message_key dm := b]> m).
Proof.
  intros Hok Hb room k v Hk Hp. apply lookup_insert_Some in Hk as [[<- <-]|[_ Hk]].
  - exists dm. split_and!; auto. by apply prefix_message_key.
  - by apply (Hok room k v).
Qed.

Lemma StoreMessage_preserves r dm :
  messages_ok (db_map (mr_db r)) → room_ok (dm_Room dm) →
  messages_ok (db_map (mr_db (StoreMessage r dm).1)).
Proof.
  intros Hok Hr. destruct (StoreMessage r dm) as [r' [e|]] eqn:Hs; simpl.
  - apply StoreMessage_err in Hs. by rewrite Hs.
  - apply StoreMessage_map in Hs as (b & Hb & -> & _).
    apply messages_ok_insert; [done|]. by apply decode_Marshal.
Qed.

Lemma StoreMessage_stored_inv r dm dm' :
  room_ok (dm_Room dm) → stored (db_map (mr_db (StoreMessage r dm).1)) dm' →
  dm' = dm ∨ stored (db_map (mr_db r)) dm'.
Proof.
  intros Hr. destruct (StoreMessage r dm) as [r' [e|]] eqn:Hs; simpl.
  - apply StoreMessage_err in Hs. rewrite Hs. by right.
  - apply StoreMessage_map in Hs as (b & Hb & -> & _).
    intros (v & Hv & Hd). apply lookup_insert_Some in Hv as [[_ <-]|[_ Hv]].
    + left. rewrite (decode_Marshal dm) in Hd by done. congruence.
    + right. by exists v.
Qed.

(** ** The page loop *)

(** The items a page takes from the items under the prefix, when [k] were
    already taken: the limit is only compared for equality. *)
Definition taken {A} (limit : option Z) (k : nat) (l : list A) : list A :=
  match limit with
  | Some n => if Z.of_nat k <=? n then take (Z.to_nat n - k) l else l
  | None => l
  end.

Lemma taken_step {A} limit k (x : A) l :
  taken limit k (x :: l) =
    if match limit with Some n => Z.of_nat k =? n | None => false end
    then [] else x :: taken limit (S k) l.
Proof.
  unfold taken. destruct limit as [n|]; [|done].
  destruct (Z.leb_spec (Z.of_nat k) n), (Z.eqb_spec (Z.of_nat k) n),
    (Z.leb_spec (Z.of_nat (S k)) n); try lia; try done.
  - replace (Z.to_nat n - k)%nat with 0%nat by lia. done.
  - replace (Z.to_nat n - k)%nat with (S (Z.to_nat n - S k)) by lia. done.
Qed.

Lemma taken_nil {A} limit k : taken limit k ([] : list A) = [].
Proof. destruct limit; simpl; [|done]. case_match; [|done]. by rewrite take_nil. Qed.

Section Reads.
Context {BR : BadgerReads B}.

Lemma collect_spec txn limit prefix it : ∀ acc lk,
  let pg := taken limit (length acc) (take_while (has_prefix prefix) it) in
  collect txn limit prefix it acc lk =
    Ok (acc ++ pg.*2,
     match last pg with Some e => str_drop (String.length prefix) e.1 | None => lk end).
Proof.
  induction it as [|item it IH]; intros acc lk; cbn [collect take_while].
  - rewrite taken_nil. simpl. by rewrite app_nil_r.
  - destruct (has_prefix prefix item) eqn:Hp.
    + rewrite taken_step. case_match; simpl; [by rewrite app_nil_r|].
      rewrite Value_succeeds. cbn [res_bind].
      rewrite IH, length_app. simpl. rewrite Nat.add_1_r, <- app_assoc. do 2 f_equal.
      destruct (taken _ _ _) as [|e l]; [done|]. rewrite last_cons_cons.
      destruct (last (e :: l)) eqn:E; [done|]. by apply last_None in E.
    + rewrite taken_nil. simpl. by rewrite app_nil_r.
Qed.

(** A page is a prefix of what is left, and it is not empty when something
    is left and the limit is not zero. *)
Lemma taken_split {A} limit (l : list A) : limit ≠ Some 0 → l ≠ [] →
  ∃ pg rest, l = pg ++ rest ∧ taken limit 0 l = pg ∧ pg ≠ [].
Proof.
  intros Hl Hne. unfold taken. destruct limit as [n|]; [|exists l, []; by rewrite app_nil_r].
  destruct (Z.leb_spec (Z.of_nat 0) n); [|exists l, []; by rewrite app_nil_r].
  exists (take (Z.to_nat n - 0) l), (drop (Z.to_nat n - 0) l).
  rewrite take_drop. split_and!; auto. destruct l; [done|].
  destruct (Z.to_nat n - 0)%nat eqn:E; [|done]. destruct Hl. f_equal. lia.
Qed.

Lemma GetMessages_page r room cursor rest :
  messages_ok (db_map (mr_db r)) → position (db_map (mr_db r)) (room_prefix room) cursor rest →
  GetMessages r room cursor =
    (let pg := taken (mr_limitMessages r) 0 rest in
     let! msgs := map_result decode_message pg.*2 in
     Ok (msgs, Some (match last pg with
                     | Some e => str_drop (String.length (room_prefix room)) e.1
                     | None => "" end))).
Proof.
  intros Hok Hpos. unfold GetMessages, View. rewrite Seek_map, begin_map. cbv zeta.
  rewrite collect_spec, (page_scan _ _ _ rest); [cbn [res_bind]; by rewrite slices_stable| |done].
  intros k v Hk Hp. destruct (Hok _ _ _ Hk Hp) as (dm & <- & -> & _).
  apply str_le_app_l, cursor_below_top.
Qed.

(** ** Walking through the pages *)

Definition entry_message (room : Z) (e : string * string) (dm : DiskMessage) : Prop :=
  decode_message e.2 = Ok dm ∧ e.1 = message_key dm ∧ dm_Room dm = room.

Lemma room_entries_messages m room : messages_ok m →
  ∃ msgs, Forall2 (entry_message room) (rev_prefix_entries m (room_prefix room)) msgs.
Proof.
  intros Hok. apply Forall2_exists. intros [k v] Hin.
  unfold rev_prefix_entries, prefix_entries in Hin. rewrite elem_of_reverse in Hin.
  apply elem_of_lfilter in Hin as [Hin Hp]. apply elem_of_sorted_entries in Hin.
  destruct (Hok _ _ _ Hin Hp) as (dm & ? & ? & ?). by exists dm.
Qed.

Lemma entry_messages_decode room es msgs :
  Forall2 (entry_message room) es msgs → map_result decode_message es.*2 = Ok msgs.
Proof.
  intros H. apply map_result_Forall2. induction H as [|e dm es msgs [Hd _] _ IH]; simpl;
    by constructor.
Qed.

Lemma walk_spec r room : ∀ fuel cursor rest msgs,
  messages_ok (db_map (mr_db r)) → mr_limitMessages r ≠ Some 0 →
  position (db_map (mr_db r)) (room_prefix room) cursor rest →
  Forall2 (entry_message room) rest msgs → (length rest < fuel)%nat →
  walk fuel r room cursor = Ok msgs.
Proof.
  induction fuel as [|fuel IH]; intros cursor rest msgs Hok Hlim Hpos Hm Hf; [lia|].
  cbn [walk]. rewrite (GetMessages_page _ _ _ rest) by done.
  destruct (decide (rest = [])) as [->|Hne].
  { rewrite taken_nil. simpl. by inversion Hm. }
  destruct (taken_split (mr_limitMessages r) rest) as (pg & rest' & Hr & Htk & Hpg);
    [done..|]. rewrite Htk. cbv zeta.
  rewrite Hr in Hm. apply Forall2_app_inv_l in Hm as (ms1 & ms2 & Hm1 & Hm2 & ->).
  rewrite (entry_messages_decode room pg ms1) by done. cbn [res_bind].
  destruct ms1 as [|dm ms1]; [by inversion Hm1; subst|].
  destruct (last pg) as [[k v]|] eqn:Hlast; [|by apply last_None in Hlast].
  cbn [fst]. rewrite (IH _ rest' ms2); [done|done|done| |done|].
  - rewrite Hr in Hpos. by eapply position_next.
  - rewrite Hr, length_app in Hf. destruct pg; [done|]. simpl in Hf. lia.
Qed.

Lemma message_key_le a b :
  dm_Room a = dm_Room b → modern (dm_At a) → modern (dm_At b) →
  String.le (message_key b) (message_key a) → dm_At b ≤ dm_At a.
Proof.
  intros Hr Ha Hb. unfold message_key. rewrite Hr, str_le_app_l. by apply time_key_le.
Qed.

Lemma history_elem m room msgs dm :
  Forall2 (entry_message room) (rev_prefix_entries m (room_prefix room)) msgs →
  dm ∈ msgs ↔ dm_Room dm = room ∧ stored m dm.
Proof.
  intros HF. split.
  - intros Hdm. destruct (Forall2_elem_of_r _ _ _ _ HF Hdm) as ([k v] & Hin & Hd & Hk & Hr).
    simpl in *. apply elem_of_rev_prefix_entries in Hin as [Hin _]. subst k.
    split; [done|]. by exists v.
  - intros [Hr (v & Hv & Hd)].
    assert ((message_key dm, v) ∈ rev_prefix_entries m (room_prefix room)) as Hin.
    { apply elem_of_rev_prefix_entries. split; [done|]. unfold message_key.
      rewrite Hr. apply prefix_app. }
    destruct (Forall2_elem_of_l _ _ _ _ HF Hin) as (dm' & Hdm' & Hd' & _).
    simpl in Hd'. by rewrite Hd in Hd'; simplify_eq.
Qed.

(** The walk returns the history of the room, sorted by key. *)
Lemma walk_history r room fuel :
  messages_ok (db_map (mr_db r)) → mr_limitMessages r ≠ Some 0 →
  (size (db_map (mr_db r)) < fuel)%nat →
  ∃ msgs, walk fuel r room None = Ok msgs ∧
    NoDup (message_key <$> msgs) ∧
    (∀ dm, dm ∈ msgs ↔ dm_Room dm = room ∧ stored (db_map (mr_db r)) dm) ∧
    StronglySorted (λ a b, String.le (message_key b) (message_key a)) msgs.
Proof.
  intros Hok Hlim Hf. set (m := db_map (mr_db r)) in *.
  destruct (room_entries_messages m room Hok) as [msgs HF]. exists msgs.
  split_and!.
  - eapply walk_spec; [done|done|reflexivity|exact HF|].
    pose proof (rev_prefix_entries_length m (room_prefix room)). subst m. lia.
  - replace (message_key <$> msgs) with (rev_prefix_entries m (room_prefix room)).*1;
      [apply rev_prefix_entries_NoDup|].
    clear -HF. induction HF as [|e dm es msgs (_ & He & _) _ IH]; [done|].
    rewrite !fmap_cons, He. by f_equal.
  - intros dm. by apply history_elem.
  - eapply Forall2_StronglySorted; [|exact HF|apply rev_prefix_entries_sorted].
    intros e1 e2 d1 d2 (_ & E1 & _) (_ & E2 & _). unfold flip, key_le. by rewrite E1, E2.
Qed.

End Reads.

(** For messages stamped between 1970 and 2262 the key order is the order of time. *)
Lemma sorted_by_time room msgs :
  StronglySorted (λ a b, String.le (message_key b) (message_key a)) msgs →
  (∀ dm, dm ∈ msgs → dm_Room dm = room ∧ modern (dm_At dm)) →
  StronglySorted (λ a b, dm_At b ≤ dm_At a) msgs.
Proof.
  intros Hs Hall. induction Hs as [|a l Hs IH Ha]; constructor.
  - apply IH. intros. apply Hall. by right.
  - rewrite Forall_forall in *. intros b Hb.
    destruct (Hall a ltac:(left)), (Hall b ltac:(by right)).
    apply message_key_le; [congruence|done|done|auto].
Qed.


(** [StoreMessage] is atomic and durable: when it reports an error the
    store is unchanged, and when it succeeds the message is stored, every
    message with another key is kept, and the key-space invariant that
    [GetMessages] relies on is preserved. *)
Theorem StoreMessage_correct r dm r' err :
  messages_ok (db_map (mr_db r)) → room_ok (dm_Room dm) →
  StoreMessage r dm = (r', err) →
  messages_ok (db_map (mr_db r')) ∧
  match err with
  | Some _ => mr_db r' = mr_db r
  | None =>
      stored (db_map (mr_db r')) dm ∧
      ∀ dm', message_key dm' ≠ message_key dm →
        stored (db_map (mr_db r')) dm' ↔ stored (db_map (mr_db r)) dm'
  end.
Proof.
  intros Hok Hr Hs. pose proof (StoreMessage_preserves r dm Hok Hr) as Hpre.
  rewrite Hs in Hpre. split; [done|]. destruct err as [e|].
  { by apply StoreMessage_err in Hs. }
  apply StoreMessage_map in Hs as (b & Hb & Hm & _). rewrite Hm. split.
  - exists b. rewrite lookup_insert_eq. split; [done|]. by apply decode_Marshal.
  - intros dm' Hne. unfold stored. by rewrite lookup_insert_ne.
Qed.

Lemma elem_of_taken {A} limit k (l : list A) x : x ∈ taken limit k l → x ∈ l.
Proof.
  unfold taken. destruct limit; [|done]. case_match; [|done].
  intros Hx. by apply (subseteq_take _ l) in Hx.
Qed.

Lemma taken_length {A} n (l : list A) : 0 ≤ n → Z.of_nat (length (taken (Some n) 0 l)) ≤ n.
Proof. intros. unfold taken. case_match; z_bool; [rewrite length_take|]; lia. Qed.

(** Whatever cursor a client sends, a page never exceeds the configured
    limit, holds only stored messages of the requested room, and decodes
    without error (on a store as in [walk_enumerates_history]). *)
Theorem GetMessages_page_bounds `{!BadgerReads B} r room cursor n :
  messages_ok (db_map (mr_db r)) → mr_limitMessages r = Some n → 0 ≤ n →
  ∃ msgs next, GetMessages r room cursor = Ok (msgs, Some next) ∧
    Z.of_nat (length msgs) ≤ n ∧
    Forall (λ dm, dm_Room dm = room ∧ stored (db_map (mr_db r)) dm) msgs.
Proof.
  intros Hok Hl Hn. unfold GetMessages, View. rewrite Seek_map, begin_map, Hl.
  set (m := db_map (mr_db r)) in *. cbv zeta. rewrite collect_spec.
  set (it := if (_ && _) then _ else _).
  assert (∀ e, e ∈ it → m !! e.1 = Some e.2) as Hit.
  { intros e. subst it. case_match; [|apply elem_of_seek_entries].
    intros He. destruct (seek_entries m true _) as [|e0 l] eqn:E; [by inversion He|].
    eapply elem_of_seek_entries. rewrite E. by right. }
  set (pg := taken _ _ _).
  destruct (Forall2_exists (entry_message room) pg) as [msgs HF].
  { intros [k v] [Hin Hp]%elem_of_taken%elem_of_take_while.
    destruct (Hok _ _ _ (Hit _ Hin) Hp) as (dm & ? & ? & ?). by exists dm. }
  cbn [res_bind]. rewrite app_nil_l, slices_stable. change (λ b, let! messagePb := _ in _) with decode_message.
  rewrite (entry_messages_decode room pg msgs HF). simpl.
  eexists msgs, _. split_and!; [done| |].
  - rewrite <- (Forall2_length _ _ _ HF). by apply taken_length.
  - apply Forall_forall. intros dm Hdm.
    destruct (Forall2_elem_of_r _ _ _ _ HF Hdm) as ([k v] & Hin & Hd & Hk & Hr).
    split; [done|]. exists v. cbn [fst snd] in Hd, Hk. subst k pg.
    apply elem_of_taken, elem_of_take_while in Hin as [Hin _]. by apply Hit in Hin.
Qed.

(** Whatever the store: an error of [item.Value] is the error of the page, and a page
    that decodes is made of what the kept slices hold after the transaction. *)
Lemma GetMessages_after r room cursor msgs next :
  GetMessages r room cursor = Ok (msgs, next) →
  ∃ vs, map_result decode_message (slices_after (mr_db r) vs) = Ok msgs ∧
    ∀ v, v ∈ vs → ∃ k, db_map (mr_db r) !! k = Some v.
Proof.
  unfold GetMessages, View. rewrite Seek_map, begin_map. cbv zeta.
  set (it := if (_ && _) then _ else _). intros H.
  assert (∀ e, e ∈ it → db_map (mr_db r) !! e.1 = Some e.2) as Hit.
  { intros e. subst it. case_match; [|apply elem_of_seek_entries].
    intros He. destruct (seek_entries _ true _) as [|e0 l] eqn:E; [by inversion He|].
    eapply elem_of_seek_entries. rewrite E. by right. }
  clearbody it. assert (∀ txn limit p acc lk vs lk', collect txn limit p it acc lk = Ok (vs, lk') →
    ∀ v, v ∈ vs → v ∈ acc ∨ ∃ k, db_map (mr_db r) !! k = Some v) as Hc.
  { clear H. induction it as [|e it IH]; intros txn limit p acc lk vs lk' Hv v Hin; cbn [collect] in Hv;
      [by simplify_eq; left|].
    destruct (has_prefix p e); [|by simplify_eq; left]. case_match; [by simplify_eq; left|].
    destruct (item_Value txn e) as [x|] eqn:Ex; [|done]. apply Value_map in Ex. cbn [res_bind] in Hv.
    destruct (IH ltac:(intros; apply Hit; by right) _ _ _ _ _ _ _ Hv v Hin) as [Ha|Ha]; [|by right].
    apply elem_of_app in Ha as [Ha| ->%list_elem_of_singleton]; [by left|right].
    exists e.1. rewrite Ex. apply Hit. left. }
  destruct (collect _ _ _ _ _ _) as [[vs lk]|] eqn:Ec; [|done]. cbn [res_bind] in H.
  destruct (map_result _ _) as [ms|] eqn:Em; [|done]. cbn [res_bind] in H. simplify_eq.
  exists vs. split; [exact Em|]. intros v Hv.
  destruct (Hc _ _ _ _ _ _ _ Ec v Hv) as [Hn|]; [by inversion Hn|done].
Qed.

End MessageStore.

(** ** Witnesses on a concrete store *)

Definition pbMessage_to (m : pbMessage) : list positive :=
  [encode (pm_Id m); encode (pm_Room m); encode (pm_Author m);
   encode (pm_Content m); encode (pm_At m); encode (pm_ToxicityScore m)].
Definition pbMessage_of (l : list positive) : option pbMessage :=
  match l with
  | [i; r; a; c; t; s] =>
      i ← decode i; r ← decode r; a ← decode a; c ← decode c;
      t ← decode t; s ← decode s;
      Some (MkPbMessage i r a c t s)
  | _ => None
  end.
Lemma pbMessage_of_to m : pbMessage_of (pbMessage_to m) = Some m.
Proof. lazy beta iota delta [pbMessage_of pbMessage_to]. rewrite !decode_encode. by destruct m. Qed.
#[export] Instance pbMessage_fields : Fielded pbMessage :=
  {| to_fields := pbMessage_to; of_fields := pbMessage_of; of_to_fields := pbMessage_of_to |}.
#[export] Instance pbMessage_codec : Codec pbMessage := FieldCodec pbMessage.
#[export] Instance pbMessage_codec_laws : CodecLaws pbMessage := FieldCodec_laws pbMessage.

Definition demo_message (n : N) (room at_ : Z) : DiskMessage :=
  MkDiskMessage (uuid16_num n) room "bob" "hello" at_ f64_zero.
Definition demo_repo (limit : option Z) : MessageRepository :=
  foldl (λ r dm, (StoreMessage r dm).1) (NewMessageRepository ∅ limit)
    [demo_message 1 7 1000; demo_message 2 7 2000; demo_message 3 7 1500; demo_message 4 8 1700].

Lemma demo_repo_ok limit : messages_ok (db_map (mr_db (demo_repo limit))).
Proof.
  unfold demo_repo; cbn [foldl].
  repeat (apply StoreMessage_preserves; [|unfold room_ok, in_s; simpl; lia]).
  intros room k v Hk. cbn in Hk. by rewrite lookup_empty in Hk.
Qed.

Lemma demo_repo_stored limit dm :
  stored (db_map (mr_db (demo_repo limit))) dm →
  dm ∈ [demo_message 4 8 1700; demo_message 3 7 1500; demo_message 2 7 2000; demo_message 1 7 1000].
Proof.
  unfold demo_repo; cbn [foldl]. intros Hs.
  repeat (apply StoreMessage_stored_inv in Hs as [->|Hs];
          [set_solver| |unfold room_ok, in_s; simpl; lia]).
  destruct Hs as (v & Hv & _). cbn in Hv. by rewrite lookup_empty in Hv.
Qed.


Lemma StoreMessage_correct_witness :
  let r := demo_repo None in
  let dm := demo_message 9 7 3000 in
  messages_ok (db_map (mr_db (StoreMessage r dm).1)).
Proof.
  apply (StoreMessage_correct (demo_repo None) (demo_message 9 7 3000) _ None);
    [apply demo_repo_ok|unfold room_ok, in_s; simpl; lia|vm_refl].
Defined.

Lemma GetMessages_page_bounds_witness :
  ∃ msgs next, GetMessages (demo_repo (Some 2)) 7 (Some "bogus") = Ok (msgs, Some next) ∧
    Z.of_nat (length msgs) ≤ 2.
Proof.
  destruct (GetMessages_page_bounds (demo_repo (Some 2)) 7 (Some "bogus") 2)
    as (msgs & next & Hg & Hl & _); [apply demo_repo_ok|reflexivity|lia|].
  exists msgs, next. exact (conj Hg Hl).
Defined.

(** Why the store must leave its values alone: [ReusingBadger] meets every law of
    [BadgerLaws] and lends one buffer; the page of room 7 then shows one message three
    times, although three are stored. *)
Definition reused_page : result error (list DiskMessage * option string) :=
  GetMessages (B := ReusingBadger) (NewMessageRepository (B := ReusingBadger) (mr_db (demo_repo None)) None)
    7 None.

Theorem reused_buffers_corrupt_pages :
  BadgerLaws ReusingBadger ∧
  stored (db_map (mr_db (demo_repo None))) (demo_message 2 7 2000) ∧
  reused_page = Ok ([demo_message 1 7 1000; demo_message 1 7 1000; demo_message 1 7 1000],
                    Some (message_cursor (demo_message 1 7 1000))).
Proof.
  split; [apply ReusingBadger_laws|]. split; [|vm_refl].
  eexists. split; [vm_compute; reflexivity|vm_refl].
Qed.
