(* ===== verification/Text.v ===== *)
(** * Text: the parts of Go's [unicode], [utf8] and [strings] the code uses

    A Go string is bytes; [range] and [[]rune(s)] decode it as UTF-8, where an
    invalid byte reads as U+FFFD of width one.  The character classes are
    written out for Latin-1, as Go's own Latin-1 property table has them; the
    Unicode tables above U+00FF are data of the Go distribution and are a
    parameter ([UnicodeTables]). *)

From Stdlib Require Import Ascii String.
From S2P Require Import Prelude.

Definition rune := Z.
Definition RuneError : rune := 65533.

Definition byte_val (c : ascii) : Z := Z.of_N (N_of_ascii c).
Definition byte_of (z : Z) : ascii := ascii_of_N (Z.to_N z).

Lemma byte_val_of z : 0 ≤ z < 256 → byte_val (byte_of z) = z.
Proof. intros. unfold byte_val, byte_of. rewrite N_ascii_embedding; lia. Qed.

Lemma byte_of_val c : byte_of (byte_val c) = c.
Proof. unfold byte_of, byte_val. rewrite N2Z.id. apply ascii_N_embedding. Qed.

Lemma byte_val_digit d : 0 ≤ d < 10 → byte_val (digit_char d) = 48 + d.
Proof. intros. unfold digit_char. apply byte_val_of. lia. Qed.

Definition between (lo hi z : Z) : bool := (lo <=? z) && (z <=? hi).

Lemma between_true lo hi z : between lo hi z = true ↔ lo ≤ z ≤ hi.
Proof. unfold between. rewrite andb_true_iff. z_bool. lia. Qed.
Lemma between_false lo hi z : between lo hi z = false ↔ z < lo ∨ hi < z.
Proof. unfold between. rewrite andb_false_iff. z_bool. lia. Qed.

(** ** UTF-8 *)

(** The decoding of a string: each rune with the bytes it was read from. *)
Fixpoint chunks (s : string) : list (rune * string) :=
  match s with
  | EmptyString => []
  | String c0 s1 =>
      let b0 := byte_val c0 in
      let bad (_ : unit) := (RuneError, String c0 "") :: chunks s1 in
      if b0 <? 128 then (b0, String c0 "") :: chunks s1
      else if between 194 223 b0 then
        match s1 with
        | String c1 s2 =>
            let b1 := byte_val c1 in
            if between 128 191 b1
            then ((b0 - 192) * 64 + (b1 - 128), String c0 (String c1 "")) :: chunks s2
            else bad tt
        | EmptyString => bad tt
        end
      else if between 224 239 b0 then
        match s1 with
        | String c1 (String c2 s3) =>
            let b1 := byte_val c1 in
            let b2 := byte_val c2 in
            if between (if b0 =? 224 then 160 else 128) (if b0 =? 237 then 159 else 191) b1
               && between 128 191 b2
            then ((b0 - 224) * 4096 + (b1 - 128) * 64 + (b2 - 128),
                  String c0 (String c1 (String c2 ""))) :: chunks s3
            else bad tt
        | _ => bad tt
        end
      else if between 240 244 b0 then
        match s1 with
        | String c1 (String c2 (String c3 s4)) =>
            let b1 := byte_val c1 in
            let b2 := byte_val c2 in
            let b3 := byte_val c3 in
            if between (if b0 =? 240 then 144 else 128) (if b0 =? 244 then 143 else 191) b1
               && between 128 191 b2 && between 128 191 b3
            then ((b0 - 240) * 262144 + (b1 - 128) * 4096 + (b2 - 128) * 64 + (b3 - 128),
                  String c0 (String c1 (String c2 (String c3 "")))) :: chunks s4
            else bad tt
        | _ => bad tt
        end
      else bad tt
  end.

(** [[]rune(s)]. *)
Definition runes (s : string) : list rune := (chunks s).*1.

Definition valid_rune (r : rune) : bool :=
  between 0 55295 r || between 57344 1114111 r.

(** [utf8.AppendRune]: an invalid rune is written as U+FFFD. *)
Definition encode_rune (r : rune) : string :=
  let r := if valid_rune r then r else RuneError in
  if r <? 128 then String (byte_of r) ""
  else if r <? 2048 then
    String (byte_of (192 + r / 64)) (String (byte_of (128 + r mod 64)) "")
  else if r <? 65536 then
    String (byte_of (224 + r / 4096))
      (String (byte_of (128 + r / 64 mod 64)) (String (byte_of (128 + r mod 64)) ""))
  else
    String (byte_of (240 + r / 262144))
      (String (byte_of (128 + r / 4096 mod 64))
        (String (byte_of (128 + r / 64 mod 64)) (String (byte_of (128 + r mod 64)) ""))).

(** [string(rs)]. *)
Definition of_runes (rs : list rune) : string := foldr (λ r s, encode_rune r +:+ s) "" rs.

Ltac decode_step :=
  match goal with
  | |- context [between ?a ?b ?c] =>
      first [ rewrite (proj2 (between_true a b c)) by lia
            | rewrite (proj2 (between_false a b c)) by lia ]
  | |- context [?a <? ?b] =>
      first [ rewrite (proj2 (Z.ltb_lt a b)) by lia | rewrite (proj2 (Z.ltb_ge a b)) by lia ]
  | |- context [?a =? ?b] => destruct (Z.eqb_spec a b)
  end.

(** Decoding what was encoded gives the rune back. *)
Lemma chunks_encode_rune r s : valid_rune r = true →
  chunks (encode_rune r +:+ s) = (r, encode_rune r) :: chunks s.
Proof.
  intros Hv. unfold encode_rune. rewrite Hv.
  unfold valid_rune in Hv. rewrite orb_true_iff, !between_true in Hv.
  pose proof (Z.div_mod r 64). pose proof (Z.mod_pos_bound r 64).
  pose proof (Z.div_mod (r / 64) 64). pose proof (Z.mod_pos_bound (r / 64) 64).
  assert (r / 4096 = r / 64 / 64) as E1 by (by rewrite Z.div_div by lia).
  pose proof (Z.div_mod (r / 4096) 64). pose proof (Z.mod_pos_bound (r / 4096) 64).
  assert (r / 262144 = r / 4096 / 64) as E2 by (by rewrite Z.div_div by lia).
  destruct (Z.ltb_spec r 128); [|destruct (Z.ltb_spec r 2048); [|destruct (Z.ltb_spec r 65536)]].
  - cbn [String.append chunks]. rewrite !byte_val_of by lia. repeat decode_step. done.
  - cbn [String.append chunks]. rewrite !byte_val_of by lia. repeat decode_step.
    do 2 f_equal; lia.
  - cbn [String.append chunks]. rewrite !byte_val_of by lia.
    repeat decode_step; simpl; do 2 f_equal; lia.
  - cbn [String.append chunks]. rewrite !byte_val_of by lia.
    repeat decode_step; simpl; do 2 f_equal; lia.
Qed.

Lemma runes_of_runes rs : Forall (λ r, valid_rune r = true) rs → runes (of_runes rs) = rs.
Proof.
  unfold runes. induction 1 as [|r rs Hr _ IH]; [done|].
  change (of_runes (r :: rs)) with (encode_rune r +:+ of_runes rs).
  by rewrite chunks_encode_rune, fmap_cons, IH by done.
Qed.

(** The bytes of the chunks are the bytes of the string. *)
Definition unchunk (l : list (rune * string)) : string := foldr (λ c s, c.2 +:+ s) "" l.

Lemma unchunk_cons r b l : unchunk ((r, b) :: l) = b +:+ unchunk l.
Proof. done. Qed.

Lemma unchunk_chunks_aux n : ∀ s, (String.length s < n)%nat → unchunk (chunks s) = s.
Proof.
  induction n as [|n IH]; intros [|c0 s1] Hl; simpl in Hl; try lia; [done|].
  assert (∀ r, unchunk ((r, String c0 "") :: chunks s1) = String c0 s1) as H1.
  { intros r. rewrite unchunk_cons, IH by lia. done. }
  cbn [chunks]. destruct (byte_val c0 <? 128); [apply H1|].
  destruct (between 194 223 _).
  { destruct s1 as [|c1 s2]; [done|]. case_match; [|apply H1].
    rewrite unchunk_cons, IH by (simpl in *; lia). done. }
  destruct (between 224 239 _).
  { destruct s1 as [|c1 [|c2 s3]]; [apply H1..|]. case_match; [|apply H1].
    rewrite unchunk_cons, IH by (simpl in *; lia). done. }
  destruct (between 240 244 _); [|apply H1].
  destruct s1 as [|c1 [|c2 [|c3 s4]]]; [apply H1..|]. case_match; [|apply H1].
  rewrite unchunk_cons, IH by (simpl in *; lia). done.
Qed.
Lemma unchunk_chunks s : unchunk (chunks s) = s.
Proof. eapply unchunk_chunks_aux. apply Nat.lt_succ_diag_r. Qed.

(** Every rune read from a string is valid. *)
Lemma byte_val_range c : 0 ≤ byte_val c < 256.
Proof. unfold byte_val. pose proof (N_ascii_bounded c). lia. Qed.

Lemma chunks_valid_aux n : ∀ s, (String.length s < n)%nat →
  Forall (λ c, valid_rune c.1 = true) (chunks s).
Proof.
  assert (valid_rune RuneError = true) as HE by done.
  induction n as [|n IH]; intros [|c0 s1] Hl; simpl in Hl; try lia; [constructor|].
  assert (Forall (λ c : rune * string, valid_rune c.1 = true) (chunks s1)) as H1 by (apply IH; lia).
  assert (∀ r b s', (String.length s' < n)%nat → 0 ≤ r ≤ 55295 ∨ 57344 ≤ r ≤ 1114111 →
    Forall (λ c : rune * string, valid_rune c.1 = true) ((r, b) :: chunks s')) as Hc.
  { intros r b s' Hs Hr. constructor; [|by apply IH]. unfold valid_rune.
    by rewrite orb_true_iff, !between_true. }
  pose proof (byte_val_range c0).
  cbn [chunks]. destruct (Z.ltb_spec (byte_val c0) 128); [apply Hc; lia|].
  destruct (between 194 223 _) eqn:E0; [|destruct (between 224 239 _) eqn:E1;
    [|destruct (between 240 244 _) eqn:E2; [|by constructor]]]; rewrite between_true in *.
  - destruct s1 as [|c1 s2]; [by constructor|]. case_match eqn:Eb; [|by constructor].
    rewrite between_true in Eb. simpl in Hl. apply Hc; lia.
  - destruct s1 as [|c1 [|c2 s3]]; [by constructor..|]. case_match eqn:Eb; [|by constructor].
    rewrite andb_true_iff, !between_true in Eb. simpl in Hl. apply Hc; [lia|].
    destruct (Z.eqb_spec (byte_val c0) 224), (Z.eqb_spec (byte_val c0) 237); lia.
  - destruct s1 as [|c1 [|c2 [|c3 s4]]]; [by constructor..|].
    case_match eqn:Eb; [|by constructor].
    rewrite !andb_true_iff, !between_true in Eb. simpl in Hl. apply Hc; [lia|].
    destruct (Z.eqb_spec (byte_val c0) 240), (Z.eqb_spec (byte_val c0) 244); lia.
Qed.
Lemma runes_valid s : Forall (λ r, valid_rune r = true) (runes s).
Proof.
  unfold runes. apply Forall_fmap. eapply chunks_valid_aux, Nat.lt_succ_diag_r.
Qed.

(** ** Character classes *)

Class UnicodeTables := {
  (** membership and case mapping for code points above U+00FF *)
  hi_upper : rune → bool;
  hi_lower : rune → bool;
  hi_number : rune → bool;
  hi_punct : rune → bool;
  hi_symbol : rune → bool;
  hi_space : rune → bool;
  hi_tolower : rune → rune;
}.

Definition one_of (l : list Z) (r : rune) : bool := existsb (Z.eqb r) l.

Section Classes.
Context {UT : UnicodeTables}.

Definition IsUpper (r : rune) : bool :=
  if r <=? 255 then between 65 90 r || between 192 214 r || between 216 222 r
  else hi_upper r.
Definition IsLower (r : rune) : bool :=
  if r <=? 255 then between 97 122 r || (r =? 181) || between 223 246 r || between 248 255 r
  else hi_lower r.
Definition IsNumber (r : rune) : bool :=
  if r <=? 255 then between 48 57 r || one_of [178; 179; 185; 188; 189; 190] r
  else hi_number r.
Definition IsPunct (r : rune) : bool :=
  if r <=? 255 then
    between 33 35 r || between 37 42 r || between 44 47 r || one_of [58; 59; 63; 64] r ||
    between 91 93 r || one_of [95; 123; 125; 161; 167; 171; 182; 183; 187; 191] r
  else hi_punct r.
Definition IsSymbol (r : rune) : bool :=
  if r <=? 255 then
    one_of [36; 43; 60; 61; 62; 94; 96; 124; 126] r || between 162 166 r ||
    one_of [168; 169; 172; 174; 175; 176; 177; 180; 184; 215; 247] r
  else hi_symbol r.
Definition IsSpace (r : rune) : bool :=
  if r <=? 255 then between 9 13 r || one_of [32; 133; 160] r else hi_space r.
Definition ToLower (r : rune) : rune :=
  if r <=? 255 then
    if between 65 90 r || between 192 214 r || between 216 222 r then r + 32 else r
  else hi_tolower r.

(** ** The [strings] package *)

(** [strings.ToLower]. *)
Definition strings_ToLower (s : string) : string := of_runes (ToLower <$> runes s).

(** [strings.Fields]: the maximal runs of non-space characters. *)
Fixpoint fields_aux (l : list (rune * string)) (cur : string) : list string :=
  match l with
  | [] => if String.eqb cur "" then [] else [cur]
  | (r, b) :: l =>
      if IsSpace r
      then if String.eqb cur "" then fields_aux l "" else cur :: fields_aux l ""
      else fields_aux l (cur +:+ b)
  end.
Definition Fields (s : string) : list string := fields_aux (chunks s) "".

Fixpoint drop_space (l : list (rune * string)) : list (rune * string) :=
  match l with
  | (r, b) :: l' => if IsSpace r then drop_space l' else l
  | [] => []
  end.
(** [strings.TrimSpace]. *)
Definition TrimSpace (s : string) : string :=
  unchunk (reverse (drop_space (reverse (drop_space (chunks s))))).
End Classes.

(** [strings.TrimPrefix], [strings.TrimSuffix]. *)
Definition TrimPrefix (s p : string) : string :=
  if String.prefix p s then str_drop (String.length p) s else s.
Definition TrimSuffix (s p : string) : string :=
  let n := (String.length s - String.length p)%nat in
  if (String.length p <=? String.length s)%nat && String.eqb (str_drop n s) p
  then substring 0 n s else s.

(** [strings.Split] at a one-byte separator. *)
Fixpoint split_on (x : ascii) (s : string) : list string :=
  match s with
  | EmptyString => [""]
  | String c s =>
      match split_on x s with
      | p :: ps => if Ascii.eqb c x then "" :: p :: ps else String c p :: ps
      | [] => [""]
      end
  end.

(** [strings.Join]. *)
Definition Join (l : list string) (sep : string) : string := String.concat sep l.

Lemma split_on_cons x s t : lacks x s = true →
  split_on x (s +:+ String x t) = s :: split_on x t.
Proof.
  induction s as [|c s IH]; simpl.
  - intros _. destruct (split_on x t) eqn:E; [by destruct t; simpl in E; repeat case_match|].
    by rewrite Ascii.eqb_refl.
  - rewrite andb_true_iff. intros [Hc Hs]. rewrite IH by done.
    unfold not_char in Hc. by destruct (Ascii.eqb c x).
Qed.

Lemma split_on_last x s : lacks x s = true → split_on x s = [s].
Proof.
  induction s as [|c s IH]; simpl; [done|]. rewrite andb_true_iff. intros [Hc Hs].
  rewrite IH by done. unfold not_char in Hc. by destruct (Ascii.eqb c x).
Qed.

(** Tables with nothing above Latin-1, for examples. *)
Definition Latin1Tables : UnicodeTables :=
  Build_UnicodeTables (λ _, false) (λ _, false) (λ _, false) (λ _, false) (λ _, false)
    (λ _, false) (λ r, r).
