(* ===== verification/Moderation.v ===== *)
(** * Moderation: [moderation/moderator.go]

    The censor works on a normalized copy of the message (noise removed, leet
    speak undone, lower case) and maps each match back to the original
    characters.  The Aho-Corasick machine is third-party code: the class
    [AhoCorasick] and its documented behaviour.  [None] stands for a run-time
    panic (an index out of range). *)

From S2P Require Import Prelude Errors Text.

(** ** The matcher *)

Record Term := MkTerm { term_Pos : Z; term_Word : list rune }.

Class AhoCorasick := {
  Machine : Type;
  ac_Build : list (list rune) → result error Machine;
  MultiPatternSearch : Machine → list rune → list Term;
}.

(** [w] occurs in [content] at position [p]. *)
Definition occurs_at (w content : list rune) (p : nat) : Prop :=
  take (length w) (drop p content) = w ∧ (p + length w ≤ length content)%nat.

Class AhoCorasickLaws (A : AhoCorasick) : Prop := {
  search_sound ps m content t : ac_Build ps = Ok m → t ∈ MultiPatternSearch m content →
    term_Word t ∈ ps ∧ ∃ p, term_Pos t = Z.of_nat p ∧ occurs_at (term_Word t) content p;
  search_complete ps m content w p : ac_Build ps = Ok m → w ∈ ps → w ≠ [] →
    occurs_at w content p → MkTerm (Z.of_nat p) w ∈ MultiPatternSearch m content;
}.

Section Moderation.
Context {UT : UnicodeTables} {A : AhoCorasick} {AL : AhoCorasickLaws A}.

Record Moderator := MkModerator {
  matcher : Machine;
  censoredChar : rune;
}.

Record TextMapping := MkTextMapping {
  Normalized : list rune;
  OrigIdx : list Z;
}.

(** ** Normalization *)

Definition simplifyRune (r : rune) : rune :=
  if one_of [52; 64] r then 97
  else if one_of [51; 8364] r then 101
  else if one_of [49; 33; 124] r then 105
  else if r =? 48 then 111
  else if one_of [53; 36] r then 115
  else r.

Definition isNoise (r : rune) : bool :=
  if one_of [52; 64; 51; 8364; 49; 33; 124; 48; 53; 36] r then false
  else IsPunct r || IsSpace r || IsSymbol r.

Definition normalizeRunes (input : list rune) : list rune :=
  foldl (λ out r,
    let clean := simplifyRune r in
    if isNoise clean then out else out ++ [ToLower clean]) [] input.

(** The loop of [normalize]; [i] is the index of the head of [rs]. *)
Fixpoint normalize_loop (rs : list rune) (i : Z) (norm : list rune) (origIdx : list Z)
  : TextMapping :=
  match rs with
  | [] => MkTextMapping norm origIdx
  | r :: rs =>
      if isNoise r then normalize_loop rs (i + 1) norm origIdx
      else normalize_loop rs (i + 1) (norm ++ [ToLower (simplifyRune r)]) (origIdx ++ [i])
  end.
Definition normalize (input : string) : TextMapping := normalize_loop (runes input) 0 [] [].

(** ** Construction *)

Definition patterns_of (censoredWords : list string) : list (list rune) :=
  foldl (λ patterns word,
    let normalized := normalizeRunes (runes word) in
    if (0 <? length normalized)%nat then patterns ++ [normalized] else patterns)
    [] censoredWords.

Definition NewModerator (censoredWords : list string) (c : rune) : result error Moderator :=
  let patterns := patterns_of censoredWords in
  if (length patterns =? 0)%nat then Err ErrNoValidPatterns
  else let! m := ac_Build patterns in Ok (MkModerator m c).

(** ** Censoring *)

Definition index_at {X} (l : list X) (z : Z) : option X :=
  if z <? 0 then None else l !! Z.to_nat z.

(** [for i := start; i < start+n; i++ { rs[i] = c }] *)
Fixpoint fill (c : rune) (n : nat) (i : Z) (rs : list rune) : option (list rune) :=
  match n with
  | O => Some rs
  | S n =>
      match index_at rs i with
      | Some _ => fill c n (i + 1) (<[Z.to_nat i := c]> rs)
      | None => None
      end
  end.

Definition censor_match (m : Moderator) (mapping : TextMapping)
    (st : list rune * list string) (t : Term) : option (list rune * list string) :=
  let '(origRunes, foundWords) := st in
  let normStart := term_Pos t in
  let normEnd := normStart + Z.of_nat (length (term_Word t)) in
  if (normStart <? 0) || (Z.of_nat (length (OrigIdx mapping)) <? normEnd)
  then Some (origRunes, foundWords)
  else
    let foundWords := foundWords ++ [of_runes (term_Word t)] in
    match index_at (OrigIdx mapping) normStart, index_at (OrigIdx mapping) (normEnd - 1) with
    | Some origStart, Some lastCharOrigIdx =>
        let origEnd := lastCharOrigIdx + 1 in
        match fill (censoredChar m) (Z.to_nat (origEnd - origStart)) origStart origRunes with
        | Some origRunes => Some (origRunes, foundWords)
        | None => None
        end
    | _, _ => None
    end.

Fixpoint censor_loop (m : Moderator) (mapping : TextMapping) (ts : list Term)
    (st : list rune * list string) : option (list rune * list string) :=
  match ts with
  | [] => Some st
  | t :: ts =>
      match censor_match m mapping st t with
      | Some st => censor_loop m mapping ts st
      | None => None
      end
  end.

Definition Censor (m : Moderator) (original : string) : option (string * list string) :=
  let mapping := normalize original in
  if (length (Normalized mapping) =? 0)%nat then Some (original, [])
  else
    let matches := MultiPatternSearch (matcher m) (Normalized mapping) in
    if (length matches =? 0)%nat then Some (original, [])
    else
      match censor_loop m mapping matches (runes original, []) with
      | Some (origRunes, foundWords) => Some (of_runes origRunes, foundWords)
      | None => None
      end.

(** ** Lemmas on normalization *)

Definition keep (r : rune) : list rune := if isNoise r then [] else [ToLower (simplifyRune r)].

(** Simplifying before or after the noise test makes no difference: a leet
    character is not noise, and the letter it stands for is not either. *)
Lemma isNoise_simplify r : isNoise (simplifyRune r) = isNoise r.
Proof.
  unfold simplifyRune.
  repeat match goal with
  | |- context [if one_of ?l r then _ else _] =>
      let E := fresh "E" in destruct (one_of l r) eqn:E;
      [unfold one_of in E; simpl in E; rewrite !orb_true_iff in E; z_bool;
       destruct_or?; subst; try done; reflexivity|]
  end.
  by destruct (Z.eqb_spec r 48) as [->|].
Qed.

Lemma normalizeRunes_keep input : normalizeRunes input = input ≫= keep.
Proof.
  unfold normalizeRunes.
  assert (∀ out, foldl (λ out r, if isNoise (simplifyRune r) then out
                                 else out ++ [ToLower (simplifyRune r)]) out input =
                 out ++ (input ≫= keep)) as H; [|by rewrite H].
  induction input as [|r rs IH]; intros out; simpl; [by rewrite app_nil_r|].
  rewrite IH, isNoise_simplify. unfold keep at 2. case_match; simpl; [done|].
  by rewrite <- app_assoc.
Qed.

Lemma normalize_loop_keep rs : ∀ i norm idx,
  Normalized (normalize_loop rs i norm idx) = norm ++ (rs ≫= keep).
Proof.
  induction rs as [|r rs IH]; intros i norm idx; simpl; [by rewrite app_nil_r|].
  unfold keep at 1. case_match; rewrite IH; simpl; [done|]. by rewrite <- app_assoc.
Qed.

(** The positions of a text that are kept. *)
Fixpoint kept_from (i : Z) (rs : list rune) : list Z :=
  match rs with
  | [] => []
  | r :: rs => if isNoise r then kept_from (i + 1) rs else i :: kept_from (i + 1) rs
  end.

Lemma normalize_loop_idx rs : ∀ i norm idx,
  OrigIdx (normalize_loop rs i norm idx) = idx ++ kept_from i rs.
Proof.
  induction rs as [|r rs IH]; intros i norm idx; simpl; [by rewrite app_nil_r|].
  case_match; rewrite IH; [done|]. by rewrite <- app_assoc.
Qed.

Lemma kept_from_range rs : ∀ i j, j ∈ kept_from i rs → i ≤ j < i + Z.of_nat (length rs).
Proof.
  induction rs as [|r rs IH]; intros i j; simpl; [by inversion 1|].
  case_match; [intros H'%IH; lia|]. intros [->|H'%IH]%elem_of_cons; lia.
Qed.

Lemma kept_from_length rs : ∀ i, length (kept_from i rs) = length (rs ≫= keep).
Proof.
  induction rs as [|r rs IH]; intros i; simpl; [done|]. rewrite length_app. unfold keep at 1.
  case_match; simpl; by rewrite IH.
Qed.

Lemma kept_from_sorted rs : ∀ i, StronglySorted Z.lt (kept_from i rs).
Proof.
  induction rs as [|r rs IH]; intros i; simpl; [constructor|].
  case_match; [done|]. constructor; [done|]. apply Forall_forall. intros j Hj%kept_from_range. lia.
Qed.

Lemma normalize_facts s :
  let mp := normalize s in
  Normalized mp = normalizeRunes (runes s) ∧
  length (OrigIdx mp) = length (Normalized mp) ∧
  StronglySorted Z.lt (OrigIdx mp) ∧
  ∀ j, j ∈ OrigIdx mp → 0 ≤ j < Z.of_nat (length (runes s)).
Proof.
  cbv zeta. unfold normalize. rewrite normalize_loop_keep, normalize_loop_idx. simpl.
  rewrite normalizeRunes_keep, kept_from_length.
  split_and!; [done|done|apply kept_from_sorted|].
  intros j Hj%kept_from_range. lia.
Qed.

(** ** Lemmas on the masking loop *)

Lemma fill_spec c n : ∀ i rs, (i + n ≤ length rs)%nat →
  ∃ rs', fill c n (Z.of_nat i) rs = Some rs' ∧ length rs' = length rs ∧
    ∀ k, (i ≤ k < i + n → rs' !! k = Some c)%nat ∧
         (¬ (i ≤ k < i + n) → rs' !! k = rs !! k)%nat.
Proof.
  induction n as [|n IH]; intros i rs Hl; simpl.
  - exists rs. split_and!; auto. intros k. split; [lia|done].
  - unfold index_at. rewrite (proj2 (Z.ltb_ge _ _)) by lia. rewrite Nat2Z.id.
    destruct (lookup_lt_is_Some_2 rs i) as [x Hx]; [lia|]. rewrite Hx.
    replace (Z.of_nat i + 1) with (Z.of_nat (S i)) by lia.
    destruct (IH (S i) (<[i := c]> rs)) as (rs' & Hf & Hlen & Hk);
      [rewrite length_insert; lia|].
    exists rs'. rewrite length_insert in Hlen. split_and!; auto.
    intros k. destruct (Hk k) as [H1 H2]. split; intros Hr.
    + destruct (decide (k = i)) as [->|]; [|apply H1; lia].
      rewrite H2, list_lookup_insert_eq by lia. done.
    + rewrite H2, list_lookup_insert_ne by lia. done.
Qed.

(** The characters a term covers in the original text. *)
Definition spans (mp : TextMapping) (t : Term) (k : nat) : Prop :=
  ∃ p a b, term_Pos t = Z.of_nat p ∧ OrigIdx mp !! p = Some a ∧
    OrigIdx mp !! (p + length (term_Word t) - 1)%nat = Some b ∧ a ≤ Z.of_nat k ≤ b.

Definition good_term (mp : TextMapping) (t : Term) : Prop :=
  term_Word t ≠ [] ∧
  ∃ p, term_Pos t = Z.of_nat p ∧ (p + length (term_Word t) ≤ length (OrigIdx mp))%nat.

Definition good_mapping (mp : TextMapping) (n : nat) : Prop :=
  StronglySorted Z.lt (OrigIdx mp) ∧ ∀ j, j ∈ OrigIdx mp → 0 ≤ j < Z.of_nat n.

Lemma StronglySorted_lookup (l : list Z) i j a b :
  StronglySorted Z.lt l → l !! i = Some a → l !! j = Some b → (i ≤ j)%nat → a ≤ b.
Proof.
  intros Hs. revert i j. induction Hs as [|x l Hs IH Hx]; intros [|i] [|j] Ha Hb Hij;
    simplify_eq/=; try lia; [|eapply IH; eauto; lia].
  rewrite Forall_forall in Hx. apply list_elem_of_lookup_2, Hx in Hb. lia.
Qed.

Lemma censor_match_spec m mp rs ws t :
  good_mapping mp (length rs) → good_term mp t →
  ∃ rs', censor_match m mp (rs, ws) t = Some (rs', ws ++ [of_runes (term_Word t)]) ∧
    length rs' = length rs ∧
    ∀ k, (spans mp t k → rs' !! k = Some (censoredChar m)) ∧
         (¬ spans mp t k → rs' !! k = rs !! k).
Proof.
  intros [Hs Hr] [Hw (p & Hp & Hl)]. unfold censor_match. rewrite Hp.
  assert (0 < length (term_Word t))%nat as Hw' by (destruct (term_Word t); [done|simpl; lia]).
  destruct (Z.ltb_spec (Z.of_nat p) 0); [lia|].
  destruct (Z.ltb_spec (Z.of_nat (length (OrigIdx mp)))
              (Z.of_nat p + Z.of_nat (length (term_Word t)))); [lia|]. simpl.
  replace (Z.of_nat p + Z.of_nat (length (term_Word t)) - 1)
    with (Z.of_nat (p + length (term_Word t) - 1)) by lia.
  unfold index_at. rewrite !(proj2 (Z.ltb_ge _ _)), !Nat2Z.id by lia.
  destruct (lookup_lt_is_Some_2 (OrigIdx mp) p) as [a Ha]; [lia|].
  destruct (lookup_lt_is_Some_2 (OrigIdx mp) (p + length (term_Word t) - 1)) as [b Hb]; [lia|].
  rewrite Ha, Hb.
  assert (0 ≤ a < Z.of_nat (length rs)) as Ha' by (by apply Hr; eapply list_elem_of_lookup_2).
  assert (0 ≤ b < Z.of_nat (length rs)) as Hb' by (by apply Hr; eapply list_elem_of_lookup_2).
  assert (a ≤ b) as Hab by (eapply (StronglySorted_lookup _ p); eauto; lia).
  destruct (fill_spec (censoredChar m) (Z.to_nat (b + 1 - a)) (Z.to_nat a) rs)
    as (rs' & Hf & Hlen & Hk); [lia|].
  rewrite Z2Nat.id in Hf by lia. rewrite Hf. exists rs'. split_and!; auto.
  intros k. destruct (Hk k) as [H1 H2]. split; intros Hsp.
  - destruct Hsp as (p' & a' & b' & Hp' & Ha2 & Hb2 & Hlt).
    assert (p' = p) as -> by (rewrite Hp in Hp'; lia). simplify_eq. apply H1. lia.
  - apply H2. intros ?. apply Hsp. exists p, a, b. split_and!; auto; lia.
Qed.

Lemma censor_loop_spec m mp ts : ∀ rs ws,
  good_mapping mp (length rs) → Forall (good_term mp) ts →
  ∃ rs', censor_loop m mp ts (rs, ws) = Some (rs', ws ++ (of_runes ∘ term_Word <$> ts)) ∧
    length rs' = length rs ∧
    ∀ k, (Exists (λ t, spans mp t k) ts → rs' !! k = Some (censoredChar m)) ∧
         (¬ Exists (λ t, spans mp t k) ts → rs' !! k = rs !! k).
Proof.
  induction ts as [|t ts IH]; intros rs ws Hm Hg; cbn [censor_loop].
  - exists rs. rewrite fmap_nil, app_nil_r. split_and!; auto. intros k. split; [|done].
    by inversion 1.
  - inversion Hg as [|? ? Ht Hts]; subst.
    destruct (censor_match_spec m mp rs ws t Hm Ht) as (rs1 & -> & Hl1 & Hk1).
    destruct (IH rs1 (ws ++ [of_runes (term_Word t)])) as (rs2 & -> & Hl2 & Hk2);
      [by rewrite Hl1|done|].
    exists rs2. rewrite <- app_assoc, fmap_cons. split_and!; [done|congruence|].
    intros k. destruct (Hk1 k) as [A1 A2], (Hk2 k) as [B1 B2]. rewrite Exists_cons.
    destruct (decide (censoredChar m = censoredChar m)); [|done].
    split.
    + intros [Hsp|Hex]; [|auto].
      assert (rs2 !! k = Some (censoredChar m) ∨ ¬ Exists (λ t, spans mp t k) ts) as [|Hn].
      { destruct (rs2 !! k) as [x|] eqn:Ex.
        - destruct (decide (x = censoredChar m)) as [->|Hne]; [by left|].
          right. intros Hex. apply B1 in Hex. congruence.
        - right. intros Hex. apply B1 in Hex. congruence. }
      * done.
      * rewrite B2; auto.
    + intros Hn. rewrite B2, A2; auto.
Qed.

Lemma patterns_of_acc words : ∀ acc,
  foldl (λ patterns word,
    let normalized := normalizeRunes (runes word) in
    if (0 <? length normalized)%nat then patterns ++ [normalized] else patterns) acc words =
  acc ++ List.filter (λ n, (0 <? length n)%nat) ((λ w, normalizeRunes (runes w)) <$> words).
Proof.
  induction words as [|w words IH]; intros acc; simpl; [by rewrite app_nil_r|].
  rewrite IH. case_match; simpl; [by rewrite <- app_assoc|done].
Qed.

(** The patterns are the non-empty normal forms of the words. *)
Lemma elem_of_patterns words p :
  p ∈ patterns_of words ↔ p ≠ [] ∧ ∃ w, w ∈ words ∧ p = normalizeRunes (runes w).
Proof.
  unfold patterns_of. rewrite patterns_of_acc, app_nil_l, list_elem_of_In, List.filter_In,
    <- list_elem_of_In, list_elem_of_fmap.
  rewrite Nat.ltb_lt. destruct p; simpl; naive_solver lia.
Qed.

Lemma NewModerator_inv words c m : NewModerator words c = Ok m →
  ac_Build (patterns_of words) = Ok (matcher m) ∧ censoredChar m = c.
Proof.
  unfold NewModerator. case_match; [done|]. intros Hn. inv_res Hn. by simplify_eq.
Qed.

Lemma search_good words c m s : NewModerator words c = Ok m →
  Forall (good_term (normalize s)) (MultiPatternSearch (matcher m) (Normalized (normalize s))).
Proof.
  intros [Hb _]%NewModerator_inv. apply Forall_forall. intros t Ht.
  destruct (search_sound _ _ _ _ Hb Ht) as [Hw (p & Hp & _ & Hl)].
  apply elem_of_patterns in Hw as [Hw _].
  destruct (normalize_facts s) as (_ & Hlen & _).
  split; [done|]. exists p. by rewrite Hlen.
Qed.

(** ** Properties *)

(** Character [k] of the message belongs to a forbidden word: a normalized
    censored word occurs in the normalized message, and [k] lies between the
    original positions of its first and last characters. *)
Definition masked (words : list string) (s : string) (k : nat) : Prop :=
  ∃ w p a b, w ∈ patterns_of words ∧ occurs_at w (Normalized (normalize s)) p ∧
    OrigIdx (normalize s) !! p = Some a ∧
    OrigIdx (normalize s) !! (p + length w - 1)%nat = Some b ∧ a ≤ Z.of_nat k ≤ b.

Lemma masked_spans words c m s k : NewModerator words c = Ok m →
  masked words s k ↔
  Exists (λ t, spans (normalize s) t k)
    (MultiPatternSearch (matcher m) (Normalized (normalize s))).
Proof.
  intros [Hb _]%NewModerator_inv. rewrite Exists_exists. split.
  - intros (w & p & a & b & Hw & Ho & Ha & Hb' & Hk).
    exists (MkTerm (Z.of_nat p) w). split.
    + apply (search_complete _ _ _ _ _ Hb Hw); [|done]. by apply elem_of_patterns in Hw as [].
    + by exists p, a, b.
  - intros (t & Ht & p & a & b & Hp & Ha & Hb' & Hk).
    destruct (search_sound _ _ _ _ Hb Ht) as [Hw (p' & Hp' & Ho)].
    assert (p' = p) as -> by lia. by exists (term_Word t), p, a, b.
Qed.

(** C2. [Censor] masks exactly the forbidden words: it never panics, it keeps
    the length of the message, it replaces every character between the first
    and the last character of an occurrence of a censored word (leet speak,
    case and noise included), and it leaves every other character alone. *)
Theorem Censor_masks words c m s :
  NewModerator words c = Ok m → valid_rune c = true →
  ∃ out found, Censor m s = Some (out, found) ∧
    length (runes out) = length (runes s) ∧
    ∀ k r, runes s !! k = Some r →
      (masked words s k → runes out !! k = Some c) ∧
      (¬ masked words s k → runes out !! k = Some r).
Proof.
  intros Hm Hc. pose proof (search_good words c m s Hm) as Hgood.
  pose proof (λ k, masked_spans words c m s k Hm) as Hms.
  destruct (NewModerator_inv _ _ _ Hm) as [_ Hcc].
  destruct (normalize_facts s) as (_ & Hlen & Hsort & Hrange).
  unfold Censor. set (ts := MultiPatternSearch _ _) in *.
  assert (ts = [] → ∀ k, ¬ masked words s k) as Hnil.
  { intros Hts k Hk. apply Hms in Hk. rewrite Hts in Hk. by inversion Hk. }
  assert (Normalized (normalize s) = [] → ts = []) as Hnorm.
  { intros Hn. destruct ts as [|t ts']; [done|].
    inversion Hgood as [|? ? [Hw (p & _ & Hl)] _]; subst.
    rewrite Hlen, Hn in Hl. destruct (term_Word t); [done|]. simpl in Hl. lia. }
  case_match eqn:E1.
  { apply Nat.eqb_eq, length_zero_iff_nil in E1. exists s, []. split_and!; [done..|].
    intros k r Hr. split; [|done]. intros Hk. by apply Hnil in Hk; auto. }
  case_match eqn:E2.
  { apply Nat.eqb_eq, length_zero_iff_nil in E2. exists s, []. split_and!; [done..|].
    intros k r Hr. split; [|done]. intros Hk. by apply Hnil in Hk; auto. }
  destruct (censor_loop_spec m (normalize s) ts (runes s) [] (conj Hsort Hrange) Hgood)
    as (rs' & -> & Hl' & Hk').
  assert (runes (of_runes rs') = rs') as Hrt.
  { apply runes_of_runes, Forall_lookup. intros k x Hx.
    destruct (Hk' k) as [H1 H2]. destruct (decide (x = c)) as [->|Hne]; [done|].
    assert (¬ Exists (λ t, spans (normalize s) t k) ts) as Hn by (intros ?%H1; congruence).
    rewrite (H2 Hn) in Hx. exact (Forall_lookup_1 _ _ _ _ (runes_valid s) Hx). }
  eexists (of_runes rs'), _. rewrite Hrt. split_and!; [done|done|].
  intros k r Hr. rewrite Hms. destruct (Hk' k) as [H1 H2]. rewrite <- Hcc.
  split; [done|]. intros Hn. by rewrite H2.
Qed.

(** The censor never panics. *)
Lemma Censor_total words c m s : NewModerator words c = Ok m → is_Some (Censor m s).
Proof.
  intros Hm. pose proof (search_good words c m s Hm) as Hgood.
  destruct (normalize_facts s) as (_ & Hlen & Hsort & Hrange). unfold Censor.
  case_match; [by eexists|]. case_match; [by eexists|].
  destruct (censor_loop_spec m (normalize s) _ (runes s) [] (conj Hsort Hrange) Hgood)
    as (rs' & -> & _). by eexists.
Qed.

(** C32. The words [Censor] reports are sound and complete for telemetry: the
    normal form of a configured word is reported exactly when it occurs in the
    normalized message, wherever and with whatever other words; and when none
    is reported the message is returned byte for byte. *)
Theorem Censor_reports words c m s out found :
  NewModerator words c = Ok m → Censor m s = Some (out, found) →
  (∀ w, w ∈ found ↔ ∃ p i, p ∈ patterns_of words ∧ w = of_runes p ∧
     occurs_at p (normalizeRunes (runes s)) i) ∧
  (found = [] → out = s).
Proof.
  intros Hm Hcs. pose proof (search_good words c m s Hm) as Hgood.
  destruct (NewModerator_inv _ _ _ Hm) as [Hb _].
  destruct (normalize_facts s) as (<- & Hlen & Hsort & Hrange).
  unfold Censor in Hcs. set (ts := MultiPatternSearch _ _) in *.
  assert (found = of_runes ∘ term_Word <$> ts ∧ (ts = [] → out = s)) as [-> Hout].
  { case_match eqn:E1.
    { apply Nat.eqb_eq, length_zero_iff_nil in E1. simplify_eq.
      destruct ts as [|t ts']; [done|]. inversion Hgood as [|? ? [Hw (p & _ & Hl)] _]; subst.
      rewrite Hlen, E1 in Hl. destruct (term_Word t); [done|]. simpl in Hl. lia. }
    case_match eqn:E2.
    { apply Nat.eqb_eq, length_zero_iff_nil in E2. simplify_eq. by rewrite E2. }
    destruct (censor_loop_spec m (normalize s) ts (runes s) [] (conj Hsort Hrange) Hgood)
      as (rs' & Heq & _). rewrite Heq in Hcs. simplify_eq. split; [done|].
    intros Hts. by rewrite Hts in E2. }
  split; [|by intros Hf%fmap_nil_inv; auto].
  intros w. rewrite list_elem_of_fmap. split.
  - intros (t & -> & Ht). destruct (search_sound _ _ _ _ Hb Ht) as [Hw (p & Hp & Ho)].
    by exists (term_Word t), p.
  - intros (p & i & Hp & -> & Ho). apply (search_complete _ _ _ _ _ Hb Hp) in Ho;
      [|by apply elem_of_patterns in Hp as []]. fold ts in Ho. eexists. split; [|exact Ho]. done.
Qed.

(** The censor compares like with like: the normal form of a message,
    computed position by position, is the normal form the censored words were
    built with, although the two routines test for noise at different
    points; and the position map is strictly increasing and in bounds. *)
Theorem normalize_agrees_with_patterns s :
  Normalized (normalize s) = normalizeRunes (runes s) ∧
  length (OrigIdx (normalize s)) = length (Normalized (normalize s)) ∧
  StronglySorted Z.lt (OrigIdx (normalize s)) ∧
  ∀ j, j ∈ OrigIdx (normalize s) → 0 ≤ j < Z.of_nat (length (runes s)).
Proof. apply normalize_facts. Qed.

End Moderation.

(** ** Witnesses: a naive matcher *)

Definition matches_at (w content : list rune) : bool :=
  bool_decide (take (length w) content = w).

Fixpoint naive_from (ps : list (list rune)) (content : list rune) (p : nat) : list Term :=
  (MkTerm (Z.of_nat p) <$> List.filter (λ w, matches_at w content) ps) ++
  match content with
  | [] => []
  | _ :: rest => naive_from ps rest (S p)
  end.

#[export] Instance NaiveSearch : AhoCorasick := {|
  Machine := list (list rune);
  ac_Build ps := Ok ps;
  MultiPatternSearch ps content := naive_from ps content 0;
|}.

Lemma elem_of_naive_from ps content : ∀ q t,
  t ∈ naive_from ps content q ↔
  term_Word t ∈ ps ∧ ∃ p, term_Pos t = Z.of_nat (q + p) ∧ occurs_at (term_Word t) content p.
Proof.
  assert (∀ w (l : list rune), matches_at w l = true ↔ occurs_at w l 0) as Hm.
  { intros w l. unfold matches_at, occurs_at. rewrite bool_decide_eq_true, drop_0. split.
    - intros Ht. split; [done|]. rewrite <- Ht at 1. rewrite length_take. lia.
    - by intros []. }
  induction content as [|x rest IH]; intros q [pos w]; cbn [naive_from]; rewrite elem_of_app,
    list_elem_of_fmap; simpl.
  - split.
    + intros [(w' & [= -> ->] & [Hw Ho%Hm]%elem_of_lfilter)|H]; [|by inversion H].
      split; [done|]. exists 0%nat. split; [lia|done].
    + intros [Hw (p & Hp & Ho)]. left. exists w.
      destruct Ho as [Ht Hl]. simpl in Hl. assert (p = 0%nat) as -> by lia.
      split; [f_equal; lia|]. apply elem_of_lfilter. split; [done|]. apply Hm. by split.
  - rewrite IH; simpl. split.
    + intros [(w' & [= -> ->] & [Hw Ho%Hm]%elem_of_lfilter)|[Hw (p & Hp & Ho)]].
      * split; [done|]. exists 0%nat. split; [lia|done].
      * split; [done|]. exists (S p). split; [lia|]. destruct Ho. split; simpl; [done|lia].
    + intros [Hw ([|p] & Hp & Ho)].
      * left. exists w. split; [f_equal; lia|]. apply elem_of_lfilter. split; [done|]. by apply Hm.
      * right. split; [done|]. exists p. split; [lia|]. destruct Ho as [Ho Hl]. simpl in *.
        split; [done|lia].
Qed.

#[export] Instance NaiveSearch_laws : AhoCorasickLaws NaiveSearch.
Proof.
  split.
  - intros ps m content t [= ->] Ht. by apply elem_of_naive_from in Ht.
  - intros ps m content w p [= ->] Hw _ Ho. apply elem_of_naive_from. simpl. eauto.
Qed.

#[export] Existing Instance Latin1Tables.

Definition demo_moderator : Moderator := MkModerator (patterns_of ["idiot"]) 42.

Example censor_demo : Censor demo_moderator "you 1D-!0t..." = Some ("you ******...", ["idiot"]).
Proof. vm_refl. Qed.

Lemma Censor_masks_witness :
  ∃ out found, Censor demo_moderator "an 1d|0t" = Some (out, found) ∧
    length (runes out) = length (runes "an 1d|0t").
Proof.
  destruct (Censor_masks ["idiot"] 42 demo_moderator "an 1d|0t")
    as (out & found & H1 & H2 & _); [vm_refl|reflexivity|].
  exists out, found. exact (conj H1 H2).
Defined.

(** Two words in one message, one of them disguised: both are reported. *)
Definition two_words : Moderator := MkModerator (patterns_of ["idiot"; "fool"]) 42.
Definition two_found : list string := ["idiot"; "fool"].

Lemma Censor_reports_witness :
  Censor two_words "you 1d!0t, old fool" = Some ("you *****, old ****", two_found) ∧
  (∀ w, w ∈ two_found ↔ ∃ p i, p ∈ patterns_of ["idiot"; "fool"] ∧ w = of_runes p ∧
     occurs_at p (normalizeRunes (runes "you 1d!0t, old fool")) i).
Proof.
  assert (Censor two_words "you 1d!0t, old fool" = Some ("you *****, old ****", two_found)) as E by vm_refl.
  split; [exact E|].
  apply (Censor_reports ["idiot"; "fool"] 42 two_words "you 1d!0t, old fool" "you *****, old ****" two_found);
    [vm_refl|exact E].
Defined.
