(* ===== verification/Domain.v ===== *)
(** * Domain: the data types of [domain/], [domain/chat/], [domain/event/],
    [domain/analyzer/] and [domain/mimetypes/]

    String-based enumerations are [string]s with their constants, as in the
    source; structs are records, [any] payloads inductive types with the
    constructors the code stores in them, and pointers [option]s. *)

From S2P Require Import Prelude Errors Env.

(** ** Media types (the constants of [mimetypes]) *)

Abbreviation MIME := string (only parsing).
Definition Unknown : MIME := "unknown".
Definition TextPlain : MIME := "text/plain".
Definition TextHTML : MIME := "text/html".
Definition TextCSS : MIME := "text/css".
Definition ApplicationPDF : MIME := "application/pdf".
Definition ApplicationJSON : MIME := "application/json".
Definition ApplicationXML : MIME := "application/xml".
Definition ImagePNG : MIME := "image/png".
Definition ImageJPEG : MIME := "image/jpeg".
Definition ImageGIF : MIME := "image/gif".
Definition AudioMPEG : MIME := "audio/mpeg".
Definition AudioWAV : MIME := "audio/wav".
Definition AudioXAIFF : MIME := "audio/x-aiff".
Definition VideoMP4 : MIME := "video/mp4".

(** ** Metrics and specialists *)

Abbreviation Metric := string (only parsing).
Definition MetricToxicity : Metric := "toxicity".
Definition MetricSentiment : Metric := "sentiment".
Definition MetricBusiness : Metric := "business".
Definition MetricPDF : Metric := "pdf".
Definition MetricAudio : Metric := "audio".
Definition MetricImage : Metric := "image".

Record Config := NewConfig {
  cfg_ID : Metric; cfg_BinPath : string; cfg_Host : string; cfg_Port : Z;
  cfg_Capabilities : list MIME;
}.

Abbreviation Category := string (only parsing).
Definition TextType : Category := "text".
Definition AudioType : Category := "audio".
Definition FileType : Category := "file".

Abbreviation FileID := string (only parsing).

Record Metadata := MkMetadata {
  md_MessageID : string; md_FileName : string; md_EffectiveMimeType : MIME;
}.
Record Request := MkRequest { rq_Metadata : option Metadata; rq_Chunk : string }.

Record AudioData := MkAudioData {
  ad_Transcription : string; ad_Duration : float64; ad_Language : string;
}.
Record Page := MkPage { pg_Number : Z; pg_Content : string }.
Record DocumentData := MkDocumentData {
  dd_Title : string; dd_Author : string; dd_PageCount : Z; dd_Language : string;
  dd_Pages : list Page;
}.
Record Score := MkScore { sc_Score : float64; sc_Label : string }.

(** [Response.OneOf]: what the specialist clients and the analysis sink put in
    and look for. *)
Inductive one_of_response :=
| NoResponse
| ScoreValue (s : Score) | ScorePtr (s : Score)
| DocumentValue (d : DocumentData) | DocumentPtr (d : DocumentData)
| AudioValue (a : AudioData) | AudioPtr (a : AudioData).
Record Response := MkResponse { OneOf : one_of_response }.

Record SpecialistRequest := MkSpecialistRequest {
  sr_FileID : FileID; sr_Path : string; sr_EffectiveMimeType : MIME;
}.
Record SpecialistResult := MkSpecialistResult {
  srs_ID : option Metric; srs_Resp : option Response; srs_SpecialistErr : option error;
}.
Record SpecialistResponse := MkSpecialistResponse {
  srp_FileID : FileID; srp_Res : list SpecialistResult;
}.

(** ** File transfer *)

Record FileDownloaderRequest := MkFileDownloaderRequest {
  fdr_DriveID : string; fdr_FileID : FileID; fdr_Path : string;
}.
Record FileMetadata := MkFileMetadata {
  fm_RawMimeType : string; fm_EffectiveMimeType : MIME; fm_Size : Z;
}.
Record FileChunk := MkFileChunk { fc_Chunk : string }.
Record FileSignature := MkFileSignature { fs_Sha256 : string }.

Abbreviation ErrorCode := Z (only parsing).
Definition InvalidFilePath : ErrorCode := 0.
Definition NotFound : ErrorCode := 1.
Definition AccessDenied : ErrorCode := 2.
Definition NotFile : ErrorCode := 3.
Definition FileTooLarge : ErrorCode := 4.
Definition ChecksumMismatch : ErrorCode := 5.
Record FileError := MkFileError { fe_Message : string; fe_ErrorCode : ErrorCode }.
Record FileDownloaderResponse := MkFileDownloaderResponse {
  fr_FileMetadata : option FileMetadata;
  fr_FileChunk : option FileChunk;
  fr_FileSignature : option FileSignature;
  fr_FileError : option FileError;
}.
Record TmpFileLocation := MkTmpFileLocation {
  tl_DriveID : string; tl_FileID : FileID; tl_TmpFilePath : string; tl_EffectiveMimeType : MIME;
}.
Definition KB : Z := 1024.
Definition MB : Z := KB * KB.

Inductive TransferStatus := StatusPending | StatusInProgress | StatusCompleted | StatusFailed.
Record FileTransfer := MkFileTransfer {
  ft_FileID : FileID; ft_Path : string; ft_Size : Z; ft_Received : Z; ft_Sha256 : string;
  ft_Status : TransferStatus;
}.

(** ** Processes and nodes *)

Abbreviation PIDStatus := string (only parsing).
Definition RUNNING : PIDStatus := "RUNNING".
Definition SLEEP : PIDStatus := "SLEEP".
Definition STOP : PIDStatus := "STOP".
Definition IDLE : PIDStatus := "IDLE".
Definition ZOMBIE : PIDStatus := "ZOMBIE".
Definition WAIT : PIDStatus := "WAIT".
Definition LOCK : PIDStatus := "LOCK".
Definition UNKNOWN : PIDStatus := "UNKNOWN".

Definition str_in (s : string) (l : list string) : bool := existsb (String.eqb s) l.

Definition ToPIDStatus (status : string) : PIDStatus :=
  if str_in status ["R"; "RUNNING"] then RUNNING
  else if str_in status ["S"; "SLEEP"; "SLEEPING"] then SLEEP
  else if str_in status ["T"; "STOP"; "STOPPED"] then STOP
  else if str_in status ["I"; "IDLE"] then IDLE
  else if str_in status ["Z"; "ZOMBIE"] then ZOMBIE
  else if str_in status ["W"] then WAIT
  else if str_in status ["L"] then LOCK
  else UNKNOWN.

Record Process := MkProcess { pr_PID : Z; pr_Metric : Metric }.

(** ** Chat *)

Abbreviation RoomID := Z (only parsing).
Record Room := NewRoom { rm_ID : RoomID }.

Record PostMessageCommand := MkPostMessageCommand {
  pmc_Room : Z; pmc_UserID : string; pmc_Content : string; pmc_CreatedAt : time;
}.
Record GetMessageCommand := MkGetMessageCommand { gmc_Room : Z; gmc_Cursor : option string }.

(** ** The scanner's data points *)

Abbreviation SourceType := string (only parsing).
Definition UNSPECIFIED : SourceType := "UNSPECIFIED".
Definition LOCALFIXED : SourceType := "LOCAL_FIXED".
Definition REMOVABLE : SourceType := "REMOVABLE".
Definition NETWORK : SourceType := "NETWORK".

Record FileAnalyzerRequest := MkFileAnalyzerRequest {
  fa_Path : string; fa_DriveID : string; fa_Size : Z; fa_Attributes : Z; fa_MimeType : string;
  fa_MagicBytes : string; fa_ScannedAt : time; fa_SourceType : SourceType;
}.

Record CountAnalyzedFiles := MkCountAnalyzedFiles { FilesReceived : Z; BytesProcessed : Z }.
Definition NewCountAnalyzedFiles : CountAnalyzedFiles := MkCountAnalyzedFiles 0 0.

(** ** Events *)

Abbreviation EventType := string (only parsing).
Definition DomainType : EventType := "DOMAIN_TYPE".
Definition CensorshipHitType : EventType := "CENSORSHIP_HIT".
Definition MessageSentType : EventType := "MESSAGE_SENT".
Definition FileAnalyzeType : EventType := "FILE_ANALYZE".
Definition AnalysisSegmentType : EventType := "ANALYSIS_SEGMENT".
Definition RestartedAfterPanicType : EventType := "WORKER_RESTARTED_AFTER_PANIC".
Definition ChannelCapacityType : EventType := "CHANNEL_CAPACITY".
Definition PIDTrackerType : EventType := "PID_TRACKER".

Section Events.
Context {U : Uuid}.

Record Message := MkMessage {
  ms_ID : uuid; ms_SenderID : string; ms_Content : string; ms_CreatedAt : time;
}.

Record MessagePosted := MkMessagePosted {
  mp_ID : uuid; mp_Room : Z; mp_Author : string; mp_Content : string; mp_At : time;
}.
Record SanitizedMessage := MkSanitizedMessage {
  sm_ID : uuid; sm_Room : Z; sm_Author : string; sm_Content : string;
  sm_CensoredWords : list string; sm_At : time; sm_ToxicityScore : float64;
}.

(** The implementations of [contract.DomainEvent]. *)
Inductive DomainEvent :=
| EvMessagePosted (m : MessagePosted)
| EvSanitizedMessage (m : SanitizedMessage).
Definition event_RoomID (e : DomainEvent) : RoomID :=
  match e with EvMessagePosted m => mp_Room m | EvSanitizedMessage m => sm_Room m end.

Record FileAnalyse := MkFileAnalyse {
  fy_Id : uuid; fy_Path : string; fy_DriveID : string; fy_Size : Z; fy_Attributes : Z;
  fy_RawMimeType : string; fy_EffectiveMimeType : MIME; fy_MagicBytes : string;
  fy_ScannedAt : time; fy_SourceType : string;
}.
Record AnalysisMetric := MkAnalysisMetric {
  am_ID : option Metric; am_Resp : option Response; am_SpecialistErr : option error;
}.
Record AnalysisSegment := MkAnalysisSegment {
  as_DriveID : string; as_FileID : FileID; as_Metrics : list AnalysisMetric;
}.

(** The implementations of [contract.FileAnalyzerEvent]. *)
Inductive FileAnalyzerEvent :=
| EvFileAnalyse (f : FileAnalyse)
| EvAnalysisSegment (s : AnalysisSegment).
Definition event_Namespace (e : FileAnalyzerEvent) : string :=
  match e with EvFileAnalyse f => fy_DriveID f | EvAnalysisSegment s => as_DriveID s end.

Record ChannelCapacity := MkChannelCapacity {
  cc_ChannelName : string; cc_Capacity : Z; cc_Length : Z;
}.
Record ProcessTracker := MkProcessTracker {
  pt_PID : Z; pt_Metric : Metric; pt_Status : PIDStatus; pt_Cpu : float64; pt_Ram : Z;
}.

(** [Event.Payload]. *)
Inductive event_payload :=
| PayloadMessagePosted (m : MessagePosted)
| PayloadSanitized (m : SanitizedMessage)
| PayloadMessageSent
| PayloadFileAnalyse (f : FileAnalyse)
| PayloadAnalysisSegment (s : AnalysisSegment)
| PayloadRestarted (WorkerName : string)
| PayloadCapacity (c : ChannelCapacity)
| PayloadTracker (t : ProcessTracker).

Record Event := MkEvent { ev_Type : EventType; ev_CreatedAt : time; ev_Payload : event_payload }.

End Events.
