(* ===== verification/Mime.v ===== *)
(** * Mime: [domain/mimetypes/mime_types.go]

    The media types the system accepts, recognised with Go's
    [mime.ParseMediaType], whose acceptance of parameters is modelled too. *)

From Stdlib Require Import Ascii String.
From S2P Require Import Prelude Errors Env Text Domain.

(** ** [mime.ParseMediaType] *)

Section ParseMediaType.
Context {UT : UnicodeTables}.

Definition isTSpecial (c : ascii) : bool :=
  one_of [40; 41; 60; 62; 64; 44; 59; 58; 92; 34; 47; 91; 93; 63; 61] (byte_val c).
Definition isTokenChar (c : ascii) : bool := between 33 126 (byte_val c) && negb (isTSpecial c).

Fixpoint consumeToken (v : string) : string * string :=
  match v with
  | EmptyString => ("", "")
  | String c v' =>
      if isTokenChar c then let '(t, rest) := consumeToken v' in (String c t, rest) else ("", v)
  end.

(** The quoted string after its opening quote; [None] when it does not end or
    holds a line break. *)
Fixpoint consumeQuoted (v : string) : option (string * string) :=
  match v with
  | EmptyString => None
  | String c v' =>
      if Ascii.eqb c (byte_of 34) then Some ("", v')
      else if Ascii.eqb c (byte_of 92) then
        match v' with
        | String d v'' =>
            if isTSpecial d
            then '(b, rest) ← consumeQuoted v''; Some (String d b, rest)
            else '(b, rest) ← consumeQuoted v'; Some (String c b, rest)
        | EmptyString => None
        end
      else if one_of [13; 10] (byte_val c) then None
      else '(b, rest) ← consumeQuoted v'; Some (String c b, rest)
  end.

Definition consumeValue (v : string) : string * string :=
  match v with
  | EmptyString => ("", "")
  | String c v' =>
      if Ascii.eqb c (byte_of 34)
      then match consumeQuoted v' with Some r => r | None => ("", v) end
      else consumeToken v
  end.

Definition TrimLeftSpace (v : string) : string := unchunk (drop_space (chunks v)).

(** One [; key=value]; [None] when there is none to read. *)
Definition consumeMediaParam (v : string) : option (string * string * string) :=
  match TrimLeftSpace v with
  | String ";" rest =>
      let '(param, rest) := consumeToken (TrimLeftSpace rest) in
      let param := strings_ToLower param in
      if String.eqb param "" then None
      else match TrimLeftSpace rest with
           | String "=" rest =>
               let rest := TrimLeftSpace rest in
               let '(value, rest2) := consumeValue rest in
               if String.eqb value "" && String.eqb rest2 rest then None
               else Some (param, value, rest2)
           | _ => None
           end
  | _ => None
  end.

(** The parameters are well formed: the loop over what follows the type.  A
    parameter is at least one byte, so the length of the input is fuel
    enough. *)
Fixpoint parse_params (fuel : nat) (v : string) (params : gmap string string) : bool :=
  match fuel with
  | O => false
  | S fuel =>
      let v := TrimLeftSpace v in
      if String.eqb v "" then true
      else match consumeMediaParam v with
           | None => String.eqb (TrimSpace v) ";"
           | Some (key, value, rest) =>
               match params !! key with
               | Some v0 =>
                   if String.eqb v0 value then parse_params fuel rest (<[key := value]> params)
                   else false
               | None => parse_params fuel rest (<[key := value]> params)
               end
           end
  end.

(** The fuel is enough: every round consumes at least the semicolon. *)
Lemma TrimLeftSpace_length v : (String.length (TrimLeftSpace v) ≤ String.length v)%nat.
Proof.
  unfold TrimLeftSpace. rewrite <- (unchunk_chunks v) at 2.
  induction (chunks v) as [|[r b] l IH]; simpl; [lia|].
  case_match; simpl; unfold unchunk in *; simpl; rewrite !str_length_app; simpl; lia.
Qed.

Lemma consumeToken_length v : (String.length (consumeToken v).2 ≤ String.length v)%nat.
Proof.
  induction v as [|c v IH]; simpl; [lia|].
  case_match; [|simpl; lia]. destruct (consumeToken v); simpl in *. lia.
Qed.

Lemma consumeQuoted_length n : ∀ v b rest, (String.length v ≤ n)%nat →
  consumeQuoted v = Some (b, rest) → (String.length rest ≤ String.length v)%nat.
Proof.
  induction n as [|n IH]; intros [|c v] b rest Hn Hq; cbn [String.length] in *; try lia; try done.
  cbn [consumeQuoted] in Hq.
  destruct (Ascii.eqb c (byte_of 34)); [injection Hq as <- <-; lia|].
  assert (∀ w d, (String.length w ≤ String.length v)%nat →
    consumeQuoted w ≫= (λ '(b, rest), Some (String d b, rest)) = Some (b, rest) →
    (String.length rest ≤ S (String.length v))%nat) as Hstep.
  { intros w d Hw Hb. destruct (consumeQuoted w) as [[b' r']|] eqn:E; [|done].
    injection Hb as _ <-. apply IH in E; lia. }
  destruct (Ascii.eqb c (byte_of 92)).
  - destruct v as [|d v']; [done|]. cbn [String.length] in *.
    destruct (isTSpecial d); (eapply Hstep; [|exact Hq]); cbn [String.length]; lia.
  - destruct (one_of _ _); [done|]. eapply Hstep; [|exact Hq]. lia.
Qed.

Lemma consumeValue_length v : (String.length (consumeValue v).2 ≤ String.length v)%nat.
Proof.
  unfold consumeValue. destruct v as [|c v]; simpl; [lia|].
  case_match; [|apply (consumeToken_length (String c v))].
  destruct (consumeQuoted v) as [[b r]|] eqn:E; simpl; [|lia].
  apply (consumeQuoted_length _ _ _ _ (le_n _)) in E. lia.
Qed.

Lemma consumeMediaParam_length v k x rest :
  consumeMediaParam v = Some (k, x, rest) → (String.length rest < String.length v)%nat.
Proof.
  unfold consumeMediaParam. pose proof (TrimLeftSpace_length v) as H1.
  destruct (TrimLeftSpace v) as [|c v1]; [done|]. cbn [String.length] in H1.
  pose proof (TrimLeftSpace_length v1) as H2.
  pose proof (consumeToken_length (TrimLeftSpace v1)) as H3.
  destruct (consumeToken (TrimLeftSpace v1)) as [p v2]. cbn [snd] in H3.
  pose proof (TrimLeftSpace_length v2) as H4. destruct (TrimLeftSpace v2) as [|d v3].
  { intros. repeat case_match; done. }
  cbn [String.length] in H4. pose proof (TrimLeftSpace_length v3) as H5.
  pose proof (consumeValue_length (TrimLeftSpace v3)) as H6.
  destruct (consumeValue (TrimLeftSpace v3)) as [y v4]. cbn [snd] in H6.
  intros. repeat case_match; simplify_eq. lia.
Qed.

Lemma parse_params_fuel n1 : ∀ n2 v ps, (String.length v < n1)%nat → (String.length v < n2)%nat →
  parse_params n1 v ps = parse_params n2 v ps.
Proof.
  induction n1 as [|n1 IH]; intros [|n2] v ps H1 H2; try lia. cbn [parse_params].
  case_match; [done|]. pose proof (TrimLeftSpace_length v).
  destruct (consumeMediaParam _) as [[[k x] rest]|] eqn:E; [|done].
  apply consumeMediaParam_length in E.
  rewrite !(IH n2) by lia. done.
Qed.

Definition checkMediaTypeDisposition (s : string) : bool :=
  let '(typ, rest) := consumeToken s in
  if String.eqb typ "" then false
  else match rest with
       | EmptyString => true
       | String "/" rest =>
           let '(subtype, rest) := consumeToken rest in
           negb (String.eqb subtype "") && String.eqb rest ""
       | _ => false
       end.

(** [strings.Cut] at ";", the part before and the part from ";" on. *)
Fixpoint cut_params (v : string) : string * string :=
  match v with
  | EmptyString => ("", "")
  | String c v' =>
      if Ascii.eqb c ";" then ("", v)
      else let '(b, rest) := cut_params v' in (String c b, rest)
  end.

Definition ParseMediaType (v : string) : result error string :=
  let '(base, rest) := cut_params v in
  let mediatype := TrimSpace (strings_ToLower base) in
  if checkMediaTypeDisposition mediatype then
    if parse_params (S (String.length rest)) rest ∅ then Ok mediatype
    else Err (Opaque "mime: invalid media parameter")
  else Err (Opaque "mime: no media type").

(** ** Operations of [mime_types.go] *)

Definition Matches (detected : string) (expected : MIME) : MIME * bool :=
  match ParseMediaType detected with
  | Err _ => (Unknown, false)
  | Ok mt => (expected, String.eqb mt expected)
  end.

Definition IsPDF (detected : string) : MIME * bool :=
  let '(mimeType, ok) := Matches detected ApplicationPDF in
  if ok then (mimeType, true) else (Unknown, false).

Definition IsImage (detected : string) : MIME * bool :=
  let '(found, ok) := Matches detected ImagePNG in
  if ok then (found, true) else
  let '(found, ok) := Matches detected ImageJPEG in
  if ok then (found, true) else
  let '(found, ok) := Matches detected ImageGIF in
  if ok then (found, true) else (Unknown, false).

Definition IsAudio (detected : string) : MIME * bool :=
  let '(found, ok) := Matches detected AudioMPEG in
  if ok then (found, true) else
  let '(found, ok) := Matches detected AudioWAV in
  if ok then (found, true) else
  let '(found, ok) := Matches detected AudioXAIFF in
  if ok then (found, true) else (Unknown, false).

Definition IsVideo (detected : MIME) : bool := String.eqb detected VideoMP4.

Definition IsAuthorized (detected : string) : MIME * bool :=
  let '(mimeType, ok) := IsAudio detected in
  if ok then (mimeType, ok) else
  let '(mimeType, ok) := IsPDF detected in
  if ok then (mimeType, ok) else
  let '(mimeType, ok) := IsImage detected in
  if ok then (mimeType, ok) else (Unknown, false).

Definition ToMIME (m : string) : MIME :=
  if str_in m [AudioMPEG; AudioWAV; AudioXAIFF] then m
  else if String.eqb m ApplicationPDF then ApplicationPDF
  else if str_in m [ImagePNG; ImageJPEG; ImageGIF] then m
  else if String.eqb m VideoMP4 then m
  else Unknown.

(** ** Properties *)

Definition authorized_types : list MIME :=
  [AudioMPEG; AudioWAV; AudioXAIFF; ApplicationPDF; ImagePNG; ImageJPEG; ImageGIF].

Lemma str_in_spec s l : str_in s l = true ↔ s ∈ l.
Proof.
  unfold str_in. rewrite existsb_exists. split.
  - intros (x & Hx & ->%String.eqb_eq). by apply list_elem_of_In.
  - intros Hs. exists s. split; [by apply list_elem_of_In|apply String.eqb_refl].
Qed.

(** [IsAuthorized] looks only at the media type, and returns it. *)
Lemma IsAuthorized_eq detected :
  IsAuthorized detected =
    match ParseMediaType detected with
    | Ok mt => if str_in mt authorized_types then (mt, true) else (Unknown, false)
    | Err _ => (Unknown, false)
    end.
Proof.
  unfold IsAuthorized, IsAudio, IsPDF, IsImage, Matches.
  destruct (ParseMediaType detected) as [mt|]; [|done].
  unfold str_in, authorized_types; cbn [existsb].
  repeat match goal with
         | |- context [String.eqb mt ?x] =>
             destruct (String.eqb_spec mt x) as [->|]; [reflexivity|]
         end. done.
Qed.

Lemma ToMIME_idem m : ToMIME (ToMIME m) = ToMIME m.
Proof.
  unfold ToMIME at 2 3. repeat (case_match; [|]); try reflexivity.
  - unfold ToMIME. by rewrite H.
  - unfold ToMIME. by rewrite H, H0, H1.
  - unfold ToMIME. by rewrite H, H0, H1, H2.
Qed.

Lemma ToMIME_authorized mt : mt ∈ authorized_types → ToMIME mt = mt.
Proof.
  unfold authorized_types. rewrite !elem_of_cons, elem_of_nil. intros.
  destruct_or!; subst; done.
Qed.

(** Only the seven audio, PDF and image types are let in, whatever
    parameters, case or spaces surround them; the effective type returned is
    the normalized media type itself, it survives the wire conversion
    [ToMIME], and everything else is reported as unknown. *)
Theorem IsAuthorized_spec detected :
  (∀ mt, IsAuthorized detected = (mt, true) ↔
     ParseMediaType detected = Ok mt ∧ mt ∈ authorized_types) ∧
  (∀ mt, IsAuthorized detected = (mt, true) → ToMIME mt = mt ∧ IsVideo mt = false) ∧
  (∀ mt, IsAuthorized detected = (mt, false) → mt = Unknown).
Proof.
  rewrite IsAuthorized_eq. destruct (ParseMediaType detected) as [mt|e]; [|naive_solver].
  destruct (str_in mt authorized_types) eqn:E.
  - apply str_in_spec in E. split_and!; [naive_solver| |naive_solver].
    intros ? [= <-]. split; [by apply ToMIME_authorized|].
    unfold authorized_types in E. rewrite !elem_of_cons, elem_of_nil in E.
    destruct_or!; subst; done.
  - split_and!; [|naive_solver..]. intros mt'. split; [done|].
    intros [[= <-] Hin%str_in_spec]. congruence.
Qed.

End ParseMediaType.

Example authorized_mp3 :
  @IsAuthorized Latin1Tables " Audio/MPEG ; charset=binary;" = (AudioMPEG, true).
Proof. vm_refl. Qed.
Example unauthorized_text : @IsAuthorized Latin1Tables "text/plain; charset=utf-8" = (Unknown, false).
Proof. vm_refl. Qed.
