(* ===== verification/AnalysisStore.v ===== *)
(** * AnalysisStore: [infrastructure/storage/analysis_repository.go]

    The enriched analyses: a primary record under
    [analysis:{namespace}:{nanoseconds}:{entity}], a pointer to it under
    [idx:msg:{entity}], and a document of the full-text index.  BadgerDB and
    the Bluge search engine are the classes [Badger] and [Bluge]; [None] is a
    nil-pointer panic. *)

From Stdlib Require Import Ascii String.
From S2P Require Import Prelude Errors Env Store Text Domain.

(** ** The search engine *)

Inductive field :=
| TextField (name value : string)
| KeywordField (name value : string)
| NumericField (name : string) (value : float64).
Definition field_name (f : field) : string :=
  match f with TextField n _ | KeywordField n _ | NumericField n _ => n end.

Record Document := MkDocument { doc_id : string; doc_fields : list field }.

Inductive Query :=
| MatchQuery (field text : string)
| TermQuery (field term : string)
| NumericRangeInclusiveQuery (field : string) (min max : float64)
| BooleanQuery (musts : list Query).

Inductive SearchRequest :=
| AllMatches (q : Query)
| TopNSearch (n : Z) (q : Query) (from : Z).

Class Bluge := {
  Writer : Type;
  writer_Update : Writer → string → Document → Writer * option error;
  writer_Batch : Writer → list (string * Document) → Writer * option error;
  Reader : Type;
  writer_Reader : Writer → result error Reader;
  Hit : Type;
  (** a search yields a stream of hits and possibly a final failure *)
  reader_Search : Reader → SearchRequest → result error (list Hit * option error);
  VisitStoredFields : Hit → result error (list (string * string));
  (** the documents of the index, and the document of a hit *)
  writer_docs : Writer → gmap string Document;
  reader_docs : Reader → gmap string Document;
  hit_doc : Hit → Document;
  query_matches : Query → Document → bool;
}.

(** The last ["_id"] a visitor sees. *)
Definition visited_id (fs : list (string * string)) : string :=
  foldl (λ idStr '(f, v), if String.eqb f "_id" then v else idStr) "" fs.

Class BlugeLaws (BL : Bluge) : Prop := {
  Update_docs w id d w' : writer_Update w id d = (w', None) →
    writer_docs w' = <[id := d]> (writer_docs w);
  (** a batch keeps the list of its updates; nothing is said of two updates
      of one identifier in the same batch *)
  Batch_docs w ups w' : NoDup ups.*1 → writer_Batch w ups = (w', None) →
    writer_docs w' = foldl (λ m '(id, d), <[id := d]> m) (writer_docs w) ups;
  Reader_docs w r : writer_Reader w = Ok r → reader_docs r = writer_docs w;
  AllMatches_hits r q hits : reader_Search r (AllMatches q) = Ok (hits, None) →
    hit_doc <$> hits ≡ₚ List.filter (query_matches q) (map_to_list (reader_docs r)).*2;
  TopN_hits r n q from hits : 0 ≤ n → 0 ≤ from →
    reader_Search r (TopNSearch n q from) = Ok (hits, None) →
    ∃ ranking, hits = take (Z.to_nat n) (drop (Z.to_nat from) ranking) ∧
      hit_doc <$> ranking ≡ₚ List.filter (query_matches q) (map_to_list (reader_docs r)).*2;
  Visit_id h fs : VisitStoredFields h = Ok fs →
    (∀ f, f ∈ doc_fields (hit_doc h) → field_name f ≠ "_id") →
    visited_id fs = doc_id (hit_doc h);
  TermQuery_keyword f t d : query_matches (TermQuery f t) d = true ↔
    KeywordField f t ∈ doc_fields d;
  BooleanQuery_musts qs d : query_matches (BooleanQuery qs) d = true ↔
    ∀ q, q ∈ qs → query_matches q d = true;
}.

Section AnalysisStore.
Context {B : Badger} {BL : BadgerLaws B} {U : Uuid} {UL : UuidLaws U}
        {T : Timestamppb} {TL : TimestamppbLaws T} {UT : UnicodeTables}
        {BG : Bluge} {BGL : BlugeLaws BG}.

(** ** Data *)

Record TextContent := MkTextContent { tc_Content : string }.
Record AudioDetails := MkAudioDetails { au_Transcription : string; au_Duration : float64 }.
Record FileDetails := MkFileDetails {
  fd_Filename : string; fd_MimeType : string; fd_Size : Z; fd_Content : string;
}.

(** [Payload any]: nil, a value, a possibly nil pointer, or another type. *)
Inductive payload :=
| NilPayload
| TextP (p : TextContent) | TextPtr (p : option TextContent)
| AudioP (p : AudioDetails) | AudioDetailsPtr (p : option AudioDetails)
| FileP (p : FileDetails) | FilePtr (p : option FileDetails)
| OtherPayload (type_name : string).

Record Analysis := MkAnalysis {
  an_ID : uuid; an_EntityId : uuid; an_Namespace : string; an_At : time; an_Summary : string;
  an_Tags : list string; an_Scores : gmap Metric float64; an_Payload : payload; an_Version : uuid;
}.

(** [pb.Analysis]. *)
Inductive pbPayload :=
| PbTextContent (Content : string)
| PbAudio (Transcription : string) (DurationSec : float64)
| PbFile (Filename MimeType : string) (Size : Z) (Content : string).
Record pbAnalysis := MkPbAnalysis {
  pa_Id : string; pa_EntityId : string; pa_Namespace : string; pa_At : option Timestamp;
  pa_Summary : string; pa_Tags : list string; pa_Scores : gmap string float64;
  pa_Payload : option pbPayload;
}.

Context {C : Codec pbAnalysis} {CL : CodecLaws pbAnalysis}.

Record AnalysisRepository := NewAnalysisRepository {
  ar_db : DB; ar_writer : Writer; ar_badgerLimit : option Z; ar_blugeLimit : Z;
}.
Definition ar_with (a : AnalysisRepository) (db : DB) (w : Writer) : AnalysisRepository :=
  NewAnalysisRepository db w (ar_badgerLimit a) (ar_blugeLimit a).

Definition CONTENT : string := "content".
Definition NAMESPACE : string := "namespace".
Definition TYPE : string := "type".

(** ** Conversions *)

(** [lo.MapKeys]. *)
Definition MapKeys (f : string → string) (m : gmap string float64) : gmap string float64 :=
  list_to_map ((λ kv, (f kv.1, kv.2)) <$> map_to_list m).

Definition pb_text (p : TextContent) : pbPayload := PbTextContent (tc_Content p).
Definition pb_audio (p : AudioDetails) : pbPayload := PbAudio (au_Transcription p) (au_Duration p).
Definition pb_file (p : FileDetails) : pbPayload :=
  PbFile (fd_Filename p) (fd_MimeType p) (fd_Size p) (fd_Content p).

Definition fromAnalysis (analysis : Analysis) : option pbAnalysis :=
  let scores := MapKeys (λ key, key) (an_Scores analysis) in
  let res := MkPbAnalysis (uuid_String (an_ID analysis)) (uuid_String (an_EntityId analysis))
    (an_Namespace analysis) (Some (timestamppb_New (an_At analysis))) (an_Summary analysis)
    (an_Tags analysis) scores in
  match an_Payload analysis with
  | NilPayload | OtherPayload _ => Some (res None)
  | TextP p | TextPtr (Some p) => Some (res (Some (pb_text p)))
  | AudioP p | AudioDetailsPtr (Some p) => Some (res (Some (pb_audio p)))
  | FileP p | FilePtr (Some p) => Some (res (Some (pb_file p)))
  | TextPtr None | AudioDetailsPtr None | FilePtr None => None
  end.

Definition ToAnalysis (analysisPb : pbAnalysis) : result error Analysis :=
  match uuid_Parse (pa_Id analysisPb) with
  | Err e => Err (Errorf "invalid analysis id: " e)
  | Ok id =>
      match uuid_Parse (pa_EntityId analysisPb) with
      | Err e => Err (Errorf "invalid entity id: " e)
      | Ok entityId =>
          let scores := MapKeys (λ key, key) (pa_Scores analysisPb) in
          let p := match pa_Payload analysisPb with
                   | None => NilPayload
                   | Some (PbTextContent c) => TextP (MkTextContent c)
                   | Some (PbAudio t d) => AudioP (MkAudioDetails t d)
                   | Some (PbFile f m s c) => FileP (MkFileDetails f m s c)
                   end in
          Ok (MkAnalysis id entityId (pa_Namespace analysisPb) (AsTime (pa_At analysisPb))
                (pa_Summary analysisPb) (pa_Tags analysisPb) scores p uuid_Nil)
      end
  end.

Definition file_text (fullText : string) (p : FileDetails) : string :=
  let fullText := fullText +:+ " " +:+ fd_Filename p in
  if String.eqb (fd_Content p) "" then fullText else fullText +:+ " " +:+ fd_Content p.

Definition prepareInternalData (an : Analysis) : string * Category :=
  let fullText := an_Summary an in
  match an_Payload an with
  | NilPayload => (fullText, TextType)
  | TextP p | TextPtr (Some p) => (fullText +:+ " " +:+ tc_Content p, TextType)
  | TextPtr None => (fullText, TextType)
  | AudioP p | AudioDetailsPtr (Some p) => (fullText +:+ " " +:+ au_Transcription p, AudioType)
  | AudioDetailsPtr None => (fullText, AudioType)
  | FileP p | FilePtr (Some p) => (file_text fullText p, FileType)
  | FilePtr None => (fullText, FileType)
  | OtherPayload _ => (fullText, TextType)
  end.

(** ** Keys *)

Definition analysis_prefix (namespace : string) : string := "analysis:" +:+ namespace +:+ ":".
Definition buildKey (namespace : string) (at_ : time) (entity : uuid) : string :=
  analysis_prefix namespace +:+ time_key at_ entity.
Definition index_key (entity : uuid) : string := "idx:msg:" +:+ uuid_String entity.

(** ** Writing *)

(** The fields of a document; the numeric ones in the map's order. *)
Definition index_document (id content : string) (metadata : gmap Metric float64)
    (category : Category) (namespace : string) : Document :=
  MkDocument id
    ([TextField CONTENT content; KeywordField NAMESPACE namespace; KeywordField TYPE category] ++
     ((λ '(name, score), NumericField (strings_ToLower name) score) <$> map_to_list metadata)).

Definition upsertSearchIndex (w : Writer) (id content : string) (metadata : gmap Metric float64)
    (category : Category) (namespace : string) : Writer * option error :=
  let doc := index_document id content metadata category namespace in
  writer_Update w (doc_id doc) doc.

(** [Store]. *)
Definition StoreAnalysis (a : AnalysisRepository) (analysis : Analysis)
  : option (AnalysisRepository * option error) :=
  let mainKey := buildKey (an_Namespace analysis) (an_At analysis) (an_EntityId analysis) in
  let indexKey := index_key (an_EntityId analysis) in
  match fromAnalysis analysis with
  | None => None
  | Some analysisPb =>
      match Marshal analysisPb with
      | Err e => Some (a, Some e)
      | Ok bytes =>
          let '(db, err) := Update (ar_db a) (λ txn,
            let! txn := txn_Set txn mainKey bytes in txn_Set txn indexKey mainKey) in
          match err with
          | Some e => Some (ar_with a db (ar_writer a), Some (Errorf "badger storage failed: " e))
          | None =>
              let '(fullSearchableText, category) := prepareInternalData analysis in
              let '(w, err) := upsertSearchIndex (ar_writer a) (uuid_String (an_EntityId analysis))
                fullSearchableText (an_Scores analysis) category (an_Namespace analysis) in
              Some (ar_with a db w, err)
          end
      end
  end.

(** The preparation loop of [StoreBatch]; it stops at the first error. *)
Fixpoint prepare_batch (wb : WriteBatch) (ups : list (string * Document)) (analyses : list Analysis)
  : option (WriteBatch * option error * list (string * Document)) :=
  match analyses with
  | [] => Some (wb, None, ups)
  | analysis :: analyses =>
      match fromAnalysis analysis with
      | None => None
      | Some analysisPb =>
          let id := uuid_String (an_EntityId analysis) in
          match Marshal analysisPb with
          | Err e => Some (wb, Some (Errorf ("failed to marshal analysis " +:+ id +:+ ": ") e), ups)
          | Ok bytes =>
              let mainKey :=
                buildKey (an_Namespace analysis) (an_At analysis) (an_EntityId analysis) in
              let indexKey := index_key (an_EntityId analysis) in
              match wb_Set wb mainKey bytes with
              | (wb, Some e) => Some (wb, Some (Errorf "failed to set badger main key: " e), ups)
              | (wb, None) =>
                  match wb_Set wb indexKey mainKey with
                  | (wb, Some e) =>
                      Some (wb, Some (Errorf "failed to set badger index pointer: " e), ups)
                  | (wb, None) =>
                      let '(text, category) := prepareInternalData analysis in
                      let doc := index_document id text (an_Scores analysis) category
                                   (an_Namespace analysis) in
                      prepare_batch wb (ups ++ [(doc_id doc, doc)]) analyses
                  end
              end
          end
      end
  end.

Definition StoreBatch (a : AnalysisRepository) (analyses : list Analysis)
  : option (AnalysisRepository * option error) :=
  match prepare_batch (NewWriteBatch (ar_db a)) [] analyses with
  | None => None
  | Some (wb, Some e, _) => Some (ar_with a (wb_Cancel wb) (ar_writer a), Some e)
  | Some (wb, None, ups) =>
      match wb_Flush wb with
      | (db, Some e) =>
          Some (ar_with a db (ar_writer a), Some (Errorf "badger write batch flush failed: " e))
      | (db, None) =>
          match writer_Batch (ar_writer a) ups with
          | (w, Some e) => Some (ar_with a db w, Some (Errorf "bluge batch execution failed: " e))
          | (w, None) => Some (ar_with a db w, None)
          end
      end
  end.

Definition Flush (a : AnalysisRepository) : AnalysisRepository * option error :=
  let '(w, err) := writer_Batch (ar_writer a) [] in (ar_with a (ar_db a) w, err).

(** ** Reading *)

Definition decode_analysis (v : string) : result error Analysis :=
  let! pbAnalysis := Unmarshal v in ToAnalysis pbAnalysis.

(** The page loop: the analyses read so far, the last key, and whether it
    stopped at the limit. *)
Fixpoint scan_loop (limit : option Z) (prefix : string) (it : list entry)
    (analyses : list Analysis) (lastKey : string) : result error (list Analysis * string * bool) :=
  match it with
  | [] => Ok (analyses, lastKey, false)
  | item :: it' =>
      if has_prefix prefix item then
        if match limit with Some n => n <=? Z.of_nat (length analyses) | None => false end
        then Ok (analyses, lastKey, true)
        else
          let! an := decode_analysis item.2 in
          scan_loop limit prefix it' (analyses ++ [an]) (str_drop (String.length prefix) item.1)
      else Ok (analyses, lastKey, false)
  end.

Definition ScanAnalysesByRoom (a : AnalysisRepository) (namespace : string) (cursor : option string)
  : result error (list Analysis * option string) :=
  let prefix := analysis_prefix namespace in
  let! (analyses, lastKey, hasMore) := View (ar_db a) (λ txn,
    let it := it_Seek txn true (page_seek_key prefix cursor) in
    let it := if bool_decide (cursor ≠ None) && valid_for_prefix prefix it
              then tail it else it in
    scan_loop (ar_badgerLimit a) prefix it [] "") in
  if (length analyses =? 0)%nat then Ok (analyses, None)
  else if negb hasMore then Ok (analyses, None)
  else Ok (analyses, Some lastKey).

Definition FetchFullByEntityId (a : AnalysisRepository) (namespace : string) (entityID : uuid)
  : result error Analysis :=
  let id := uuid_String entityID in
  View (ar_db a) (λ txn,
    match txn_Get txn (index_key entityID) with
    | Err e => Err (Errorf ("analysis index not found for message " +:+ id +:+ ": ") e)
    | Ok mainKey =>
        match txn_Get txn mainKey with
        | Err e => Err (Errorf ("analysis data not found for message " +:+ id +:+ ": ") e)
        | Ok v =>
            match Unmarshal v with
            | Err e => Err (Errorf "failed to unmarshal analysis protobuf: " e)
            | Ok pbAnal =>
                match ToAnalysis pbAnal with
                | Err e => Err (Errorf "failed to map protobuf to domain: " e)
                | Ok res =>
                    if String.eqb (an_Namespace res) namespace then Ok res
                    else Err (Opaque ("security violation: message " +:+ id +:+
                                      " does not belong to room " +:+ namespace))
                end
            end
        end
    end).

(** ** Searching *)

(** The hydration loop. *)
Definition hydrate (a : AnalysisRepository) (namespace : string) (hits : list Hit) : list Analysis :=
  foldl (λ results h,
    match VisitStoredFields h with
    | Err _ => results
    | Ok fs =>
        match uuid_Parse (visited_id fs) with
        | Err _ => results
        | Ok msgID =>
            match FetchFullByEntityId a namespace msgID with
            | Err _ => results
            | Ok fullAnalysis => results ++ [fullAnalysis]
            end
        end
    end) [] hits.

Definition searchAndHydrate (a : AnalysisRepository) (request : SearchRequest) (query : Query)
    (namespace : string) : list Analysis * Z * option error :=
  match writer_Reader (ar_writer a) with
  | Err e => ([], 0, Some (Errorf "failed to open bluge reader: " e))
  | Ok reader =>
      match reader_Search reader (AllMatches query) with
      | Err e => ([], 0, Some (Errorf "bluge count query failed: " e))
      | Ok (_, Some e) => ([], 0, Some (Errorf "count iterator failed: " e))
      | Ok (hits, None) =>
          let totalCount := foldl (λ n _, uint64 (n + 1)) 0 hits in
          match reader_Search reader request with
          | Err e => ([], 0, Some (Errorf "bluge search execution failed: " e))
          | Ok (hits, err) =>
              let results := hydrate a namespace hits in
              match err with
              | Some e => (results, uint64 (Z.of_nat (length results)),
                           Some (Errorf "search iterator failed: " e))
              | None => (results, totalCount, None)
              end
          end
      end
  end.

Definition SearchPaginated (a : AnalysisRepository) (query namespace : string) (offset : Z)
  : list Analysis * Z * option error :=
  let contentQuery := MatchQuery CONTENT query in
  let finalQuery :=
    if String.eqb namespace "" then contentQuery
    else BooleanQuery [contentQuery; TermQuery NAMESPACE namespace] in
  searchAndHydrate a (TopNSearch (ar_blugeLimit a) finalQuery offset) finalQuery namespace.

Definition SearchByScoreRange (a : AnalysisRepository) (scoreName : string) (min max : float64)
    (namespace : string) : list Analysis * Z * option error :=
  let query := NumericRangeInclusiveQuery (strings_ToLower scoreName) min max in
  let bq := BooleanQuery
    (query :: if String.eqb namespace "" then [] else [TermQuery NAMESPACE namespace]) in
  searchAndHydrate a (TopNSearch (ar_blugeLimit a) bq 0) bq namespace.

(** ** Keys and conversions *)

Definition an_key (a : Analysis) : string := buildKey (an_Namespace a) (an_At a) (an_EntityId a).

(** What is kept of an analysis: pointers are followed, a payload of an
    unknown type and the version are dropped. *)
Definition canonical_payload (p : payload) : payload :=
  match p with
  | TextPtr (Some p) => TextP p
  | AudioDetailsPtr (Some p) => AudioP p
  | FilePtr (Some p) => FileP p
  | TextPtr None | AudioDetailsPtr None | FilePtr None | OtherPayload _ => NilPayload
  | p => p
  end.
Definition canonical (a : Analysis) : Analysis :=
  MkAnalysis (an_ID a) (an_EntityId a) (an_Namespace a) (an_At a) (an_Summary a) (an_Tags a)
    (an_Scores a) (canonical_payload (an_Payload a)) uuid_Nil.

Lemma MapKeys_id m : MapKeys (λ key, key) m = m.
Proof.
  unfold MapKeys. rewrite (list_fmap_ext _ id) by (by intros ? []). rewrite list_fmap_id.
  apply list_to_map_to_list.
Qed.

Lemma ToAnalysis_fromAnalysis a pb : fromAnalysis a = Some pb → ToAnalysis pb = Ok (canonical a).
Proof.
  unfold fromAnalysis, canonical. rewrite MapKeys_id. intros H.
  assert (∀ o p, o = None ∧ p = NilPayload ∨ (∃ t, o = Some (pb_text t) ∧ p = TextP t) ∨
      (∃ t, o = Some (pb_audio t) ∧ p = AudioP t) ∨ (∃ t, o = Some (pb_file t) ∧ p = FileP t) →
    ToAnalysis (MkPbAnalysis (uuid_String (an_ID a)) (uuid_String (an_EntityId a))
      (an_Namespace a) (Some (timestamppb_New (an_At a))) (an_Summary a) (an_Tags a)
      (an_Scores a) o) =
    Ok (MkAnalysis (an_ID a) (an_EntityId a) (an_Namespace a) (an_At a) (an_Summary a)
      (an_Tags a) (an_Scores a) p uuid_Nil)) as Hto.
  { intros o p Ho. unfold ToAnalysis; simpl. rewrite !uuid_Parse_String, AsTime_New, MapKeys_id.
    destruct Ho as [[-> ->]|[([] & -> & ->)|[([] & -> & ->)|([] & -> & ->)]]]; done. }
  destruct (an_Payload a) as [|p|[p|]|p|[p|]|p|[p|]|t]; simplify_eq; apply Hto; simpl; eauto 7.
Qed.

(** The bytes an analysis is stored as. *)
Definition bytes_of (a : Analysis) : option string :=
  analysisPb ← fromAnalysis a;
  match Marshal analysisPb with Ok b => Some b | Err _ => None end.

Lemma decode_bytes_of a b : bytes_of a = Some b → decode_analysis b = Ok (canonical a).
Proof.
  unfold bytes_of. intros (pb & Hpb & Hb)%bind_Some. case_match; simplify_eq.
  unfold decode_analysis. erewrite Unmarshal_Marshal by done. by apply ToAnalysis_fromAnalysis.
Qed.

(** The document of an analysis. *)
Definition document (a : Analysis) : Document :=
  let '(text, category) := prepareInternalData a in
  index_document (uuid_String (an_EntityId a)) text (an_Scores a) category (an_Namespace a).

Lemma document_canonical a b : bytes_of a = Some b → document (canonical a) = document a.
Proof.
  unfold bytes_of, fromAnalysis, document, canonical, prepareInternalData. simpl.
  by destruct (an_Payload a) as [|?|[?|]|?|[?|]|?|[?|]|?].
Qed.

Lemma doc_id_document a : doc_id (document a) = uuid_String (an_EntityId a).
Proof. unfold document. by destruct (prepareInternalData a). Qed.

Lemma index_key_inj u v : index_key u = index_key v → u = v.
Proof. intros [= H]. by apply uuid_String_inj. Qed.

Lemma an_key_entity a1 a2 : an_key a1 = an_key a2 → an_EntityId a1 = an_EntityId a2.
Proof.
  unfold an_key, buildKey, time_key. rewrite !str_app_assoc. intros H.
  apply str_app_inj_len in H as [_ H]; [by apply uuid_String_inj|].
  by rewrite !uuid_String_length.
Qed.

Lemma an_key_index a u : an_key a ≠ index_key u.
Proof. done. Qed.

Lemma an_key_canonical a : an_key (canonical a) = an_key a.
Proof. done. Qed.

#[local] Opaque analysis_prefix an_key index_key.

(** ** The store invariant *)

Definition analysis_stored (m : gmap string string) (a : Analysis) : Prop :=
  ∃ v, m !! an_key a = Some v ∧ decode_analysis v = Ok a.

(** [a] is the analysis its entity's index pointer leads to. *)
Definition current (m : gmap string string) (a : Analysis) : Prop :=
  m !! index_key (an_EntityId a) = Some (an_key a) ∧ analysis_stored m a.

Record store_ok (m : gmap string string) : Prop := {
  (** a primary key holds the analysis it was built from *)
  primary_ok k v : m !! k = Some v → String.prefix "analysis:" k = true →
    ∃ a, k = an_key a ∧ decode_analysis v = Ok a;
  (** an index pointer leads to an analysis of its entity *)
  pointer_ok u k : m !! index_key u = Some k →
    ∃ a, k = an_key a ∧ an_EntityId a = u ∧ analysis_stored m a;
}.

(** The effect of storing on the key space. *)
Definition store_effect (m : gmap string string) (a : Analysis) : gmap string string :=
  match bytes_of a with
  | Some b => <[index_key (an_EntityId a) := an_key a]> (<[an_key a := b]> m)
  | None => m
  end.

Lemma store_effect_current m a b : bytes_of a = Some b → current (store_effect m a) (canonical a).
Proof.
  intros Hb. unfold current, analysis_stored, store_effect. rewrite Hb. simpl.
  split; [by rewrite lookup_insert_eq|].
  exists b. rewrite an_key_canonical, lookup_insert_ne, lookup_insert_eq by done.
  split; [done|]. by apply decode_bytes_of.
Qed.

Lemma store_effect_stored m a a' : an_key a' ≠ an_key a →
  analysis_stored (store_effect m a) a' ↔ analysis_stored m a'.
Proof.
  intros Hne. unfold store_effect, analysis_stored. destruct (bytes_of a); [|done].
  rewrite !lookup_insert_ne; [done|done|]. apply not_eq_sym, an_key_index.
Qed.

Lemma store_effect_stored_inv m a a' :
  analysis_stored (store_effect m a) a' → a' = canonical a ∨ analysis_stored m a'.
Proof.
  destruct (decide (an_key a' = an_key a)) as [Hk|Hne];
    [|rewrite store_effect_stored by done; by right].
  unfold store_effect, analysis_stored. destruct (bytes_of a) as [b|] eqn:Hb; [|by right].
  rewrite lookup_insert_ne by (apply not_eq_sym, an_key_index).
  rewrite Hk, lookup_insert_eq. intros (v & [= <-] & Hd). left.
  apply decode_bytes_of in Hb. congruence.
Qed.

Lemma store_effects_stored_inv l : ∀ m a',
  analysis_stored (foldl store_effect m l) a' → a' ∈ canonical <$> l ∨ analysis_stored m a'.
Proof.
  induction l as [|a l IH]; intros m a' H; [by right|]. cbn [foldl] in H.
  apply IH in H as [H|[->|H]%store_effect_stored_inv]; set_solver.
Qed.

Lemma store_effect_current_ne m a a' : an_EntityId a' ≠ an_EntityId a →
  current (store_effect m a) a' ↔ current m a'.
Proof.
  intros Hne. unfold current.
  rewrite store_effect_stored by (intros Hk%an_key_entity; done).
  unfold store_effect. destruct (bytes_of a); [|done].
  rewrite lookup_insert_ne by (intros ?%index_key_inj; done).
  by rewrite lookup_insert_ne by apply an_key_index.
Qed.

Lemma store_effect_ok m a : store_ok m → store_ok (store_effect m a).
Proof.
  intros [Hp Hi]. unfold store_effect. destruct (bytes_of a) as [b|] eqn:Hb; [|done].
  assert (current (store_effect m a) (canonical a)) as [_ Hst] by (by eapply store_effect_current).
  assert (∀ a', an_key a' ≠ an_key a → analysis_stored m a' →
            analysis_stored (store_effect m a) a') as Hkeep
    by (intros; by apply store_effect_stored).
  unfold store_effect in Hst, Hkeep. rewrite Hb in Hst, Hkeep. split.
  - intros k v Hk Hpre. apply lookup_insert_Some in Hk as [[<- _]|[_ Hk]]; [done|].
    apply lookup_insert_Some in Hk as [[<- <-]|[_ Hk]]; [|by eapply Hp].
    exists (canonical a). split; [done|]. by apply decode_bytes_of.
  - intros u k Hk. apply lookup_insert_Some in Hk as [[Hu <-]|[Hne Hk]].
    + apply index_key_inj in Hu as <-. by exists (canonical a).
    + rewrite lookup_insert_ne in Hk by apply an_key_index.
      destruct (Hi _ _ Hk) as (a' & -> & Hu & Hst'). exists a'. split_and!; [done|done|].
      apply Hkeep; [|done]. intros Heq%an_key_entity. apply Hne. f_equal. congruence.
Qed.

(** ** Writing *)

Lemma StoreAnalysis_effect r a r' :
  StoreAnalysis r a = Some (r', None) →
  is_Some (bytes_of a) ∧ db_map (ar_db r') = store_effect (db_map (ar_db r)) a ∧
  writer_docs (ar_writer r') =
    <[uuid_String (an_EntityId a) := document a]> (writer_docs (ar_writer r)) ∧
  ar_badgerLimit r' = ar_badgerLimit r ∧ ar_blugeLimit r' = ar_blugeLimit r.
Proof.
  unfold StoreAnalysis, store_effect, bytes_of, document, upsertSearchIndex. intros Hs.
  destruct (fromAnalysis a) as [pb|]; [|done]. simpl. destruct (Marshal pb) as [b|]; [|done].
  destruct (Update _ _) as [db [e|]] eqn:Hu; [done|].
  destruct (prepareInternalData a) as [text cat].
  destruct (writer_Update _ _ _) as [w err] eqn:Hw. simplify_eq.
  apply Update_docs in Hw. apply Update_ok in Hu as (t & Ht & Hm). inv_res Ht.
  rewrite (Set_writes _ _ _ _ _ Ht), (Set_writes _ _ _ _ _ E), begin_writes in Hm.
  split_and!; [by eexists|exact Hm|exact Hw|done|done].
Qed.

(** A failed [Store] that did not reach the index leaves no half-written
    record: the key space changes as a whole or not at all. *)
Lemma StoreAnalysis_atomic r a r' e :
  StoreAnalysis r a = Some (r', Some e) →
  ar_db r' = ar_db r ∨ db_map (ar_db r') = store_effect (db_map (ar_db r)) a.
Proof.
  unfold StoreAnalysis, store_effect, bytes_of. intros Hs.
  destruct (fromAnalysis a) as [pb|]; [|done]. simpl.
  destruct (Marshal pb) as [b|]; [|by simplify_eq; left].
  destruct (Update _ _) as [db [e'|]] eqn:Hu.
  - simplify_eq. left. simpl. by eapply Update_err.
  - destruct (prepareInternalData a) as [text cat].
    destruct (upsertSearchIndex _ _ _ _ _ _) as [w err]. simplify_eq. right. simpl.
    apply Update_ok in Hu as (t & Ht & Hm). inv_res Ht.
    by rewrite Hm, (Set_writes _ _ _ _ _ Ht), (Set_writes _ _ _ _ _ E), begin_writes.
Qed.

(** The sets an analysis adds to a batch: the record, then its pointer. *)
Definition batch_sets (a : Analysis) : list (string * string) :=
  match bytes_of a with
  | Some b => [(an_key a, b); (index_key (an_EntityId a), an_key a)]
  | None => []
  end.

Lemma apply_batch_sets l : ∀ m, apply_sets m (l ≫= batch_sets) = foldl store_effect m l.
Proof.
  induction l as [|a l IH]; intros m; [done|]. rewrite bind_cons, apply_sets_app, IH. cbn [foldl].
  f_equal. unfold batch_sets, store_effect. by destruct (bytes_of a).
Qed.

(** Analyses that can be encoded. *)
Definition encodable (l : list Analysis) : Prop := Forall (λ a, is_Some (bytes_of a)) l.

(** Whatever the preparation ends with, the batch holds the first sets of the
    first analyses, which could be encoded; and all the sets when it ends
    without an error. *)
Lemma prepare_batch_sets l : ∀ wb ups wb' err ups',
  prepare_batch wb ups l = Some (wb', err, ups') →
  wb_base wb' = wb_base wb ∧
  (∃ j n, encodable (take j l) ∧ wb_writes wb' = wb_writes wb ++ take n (take j l ≫= batch_sets)) ∧
  (err = None → wb_writes wb' = wb_writes wb ++ (l ≫= batch_sets) ∧
     ups' = ups ++ ((λ a, (uuid_String (an_EntityId a), document a)) <$> l) ∧ encodable l).
Proof.
  assert (∀ (wb : WriteBatch) l, ∃ j n, encodable (take j l) ∧
    wb_writes wb = wb_writes wb ++ take n (take j l ≫= batch_sets)) as Hnone
    by (intros; exists 0%nat, 0%nat; rewrite app_nil_r; split; [constructor|done]).
  induction l as [|a l IH]; intros wb ups wb' err ups' H; cbn [prepare_batch] in H.
  { simplify_eq. rewrite !app_nil_r. split; [done|]. split; [by apply (Hnone _ [])|]. by repeat constructor. }
  destruct (fromAnalysis a) as [pb|] eqn:Ea; [|done].
  destruct (Marshal pb) as [b|] eqn:Eb.
  2:{ injection H as <- <- _. split; [done|]. split; [apply Hnone|intros He; discriminate He]. }
  assert (bytes_of a = Some b) as Hb by (unfold bytes_of; by rewrite Ea; simpl; rewrite Eb).
  assert (∀ l', (a :: l') ≫= batch_sets =
    (an_key a, b) :: (index_key (an_EntityId a), an_key a) :: (l' ≫= batch_sets)) as Hcons
    by (intros l'; rewrite bind_cons; unfold batch_sets at 1; by rewrite Hb).
  destruct (wb_Set wb _ _) as [wb1 [e|]] eqn:E1; pose proof (wb_Set_base _ _ _ _ _ E1) as B1.
  { apply wb_Set_err in E1. simplify_eq. rewrite E1, B1. split; [done|]. split; [apply Hnone|intros He; discriminate He]. }
  apply wb_Set_ok in E1.
  destruct (wb_Set wb1 _ _) as [wb2 [e|]] eqn:E2; pose proof (wb_Set_base _ _ _ _ _ E2) as B2.
  { apply wb_Set_err in E2. simplify_eq. rewrite E2, E1, B2, B1. split_and!; [done| |done].
    exists 1%nat, 1%nat. cbn [take]. rewrite Hcons. split; [by repeat constructor|done]. }
  apply wb_Set_ok in E2. destruct (prepareInternalData a) as [text cat] eqn:Ep.
  apply IH in H as (Hbase & (j & n & Hj & Hn) & Hd). rewrite Hbase, B2, B1, Hn, E2, E1, <- !app_assoc.
  split_and!; [done| |].
  - exists (S j), (S (S n)). cbn [take]. rewrite Hcons. split; [constructor; [by eexists|done]|done].
  - intros [Hw [-> Hf]]%Hd. rewrite Hn, E2, E1, <- !app_assoc in Hw. rewrite Hcons.
    split_and!; [done| |constructor; [by eexists|done]].
    rewrite <- app_assoc, fmap_cons. unfold document at 2. by rewrite Ep.
Qed.

(** What [StoreBatch] may leave of the key space: the first sets of the first
    analyses. *)
Lemma StoreBatch_sets r l r' err :
  StoreBatch r l = Some (r', err) →
  ∃ j n, encodable (take j l) ∧
    db_map (ar_db r') = apply_sets (db_map (ar_db r)) (take n (take j l ≫= batch_sets)).
Proof.
  unfold StoreBatch. intros H.
  destruct (prepare_batch _ _ _) as [[[wb e] ups]|] eqn:Ep; [|done].
  apply prepare_batch_sets in Ep as (Hbase & (j & n & Hj & Hn) & _). exists j.
  rewrite NewWriteBatch_base in Hbase. rewrite NewWriteBatch_writes in Hn. simpl in Hn.
  assert (∀ k, apply_sets (wb_base wb) (take k (wb_writes wb)) =
    apply_sets (db_map (ar_db r)) (take (k `min` n) (take j l ≫= batch_sets))) as Hk
    by (intros k; by rewrite Hbase, Hn, take_take).
  destruct e as [e|].
  { simplify_eq. simpl. destruct (Cancel_map wb) as [k ->]. rewrite Hk. by eexists. }
  destruct (wb_Flush wb) as [db [e|]] eqn:Ef.
  { simplify_eq. apply Flush_err in Ef as [k Hf]. simpl. rewrite Hf, Hk. by eexists. }
  apply Flush_map in Ef. exists n. split; [done|]. rewrite <- Hn, <- Hbase, <- Ef. by case_match_all.
Qed.

(** An index that refuses the batch after the flush leaves all of it in the
    key space: that failure is a case of [StoreBatch_sets]. *)
Lemma StoreBatch_unindexed r l wb ups db w e :
  prepare_batch (NewWriteBatch (ar_db r)) [] l = Some (wb, None, ups) →
  wb_Flush wb = (db, None) → writer_Batch (ar_writer r) ups = (w, Some e) →
  StoreBatch r l = Some (ar_with r db w, Some (Errorf "bluge batch execution failed: " e)) ∧
  db_map db = foldl store_effect (db_map (ar_db r)) l.
Proof.
  intros Hp Hf Hw. unfold StoreBatch. rewrite Hp, Hf, Hw. split; [done|].
  apply prepare_batch_sets in Hp as (Hbase & _ & Hd). destruct (Hd eq_refl) as [Hs _].
  rewrite NewWriteBatch_base in Hbase. rewrite NewWriteBatch_writes in Hs. simpl in Hs.
  by rewrite (Flush_map _ _ Hf), Hbase, Hs, apply_batch_sets.
Qed.

Definition index_effect (m : gmap string Document) (l : list Analysis) : gmap string Document :=
  foldl (λ m a, <[uuid_String (an_EntityId a) := document a]> m) m l.

Lemma StoreBatch_effect r l r' :
  StoreBatch r l = Some (r', None) →
  encodable l ∧
  db_map (ar_db r') = foldl store_effect (db_map (ar_db r)) l ∧
  (NoDup (an_EntityId <$> l) →
   writer_docs (ar_writer r') = index_effect (writer_docs (ar_writer r)) l).
Proof.
  unfold StoreBatch. intros H.
  destruct (prepare_batch _ _ _) as [[[wb [e|]] ups]|] eqn:Ep; [done| |done].
  apply prepare_batch_sets in Ep as (Hbase & _ & Hd). destruct (Hd eq_refl) as (Hs & -> & Hf).
  rewrite NewWriteBatch_base in Hbase. rewrite NewWriteBatch_writes in Hs. simpl in Hs.
  destruct (wb_Flush wb) as [db [e|]] eqn:Ef; [done|]. apply Flush_map in Ef.
  destruct (writer_Batch _ _) as [w [e|]] eqn:Ew; [done|]. simplify_eq.
  split_and!; [done| |].
  - simpl. by rewrite Ef, Hbase, Hs, apply_batch_sets.
  - intros Hnd. apply Batch_docs in Ew.
    + simpl. rewrite Ew. clear. simpl. generalize (writer_docs (ar_writer r)).
      induction l as [|a l IH]; intros m; simpl; [done|]. apply IH.
    + simpl. rewrite <- list_fmap_compose. change (NoDup ((uuid_String ∘ an_EntityId) <$> l)).
      rewrite list_fmap_compose. apply NoDup_fmap_2; [|done]. intros u v. apply uuid_String_inj.
Qed.

(** A part of a batch: whole analyses, and possibly the record of the next one
    without its pointer. *)
Lemma take_batch_sets l : ∀ m n,
  ∃ k, apply_sets m (take n (l ≫= batch_sets)) = foldl store_effect m (take k l) ∨
    ∃ a b, l !! k = Some a ∧ bytes_of a = Some b ∧
      apply_sets m (take n (l ≫= batch_sets)) = <[an_key a := b]> (foldl store_effect m (take k l)).
Proof.
  induction l as [|a l IH]; intros m n.
  { exists 0%nat. left. simpl. by rewrite take_nil. }
  rewrite bind_cons. destruct (bytes_of a) as [b|] eqn:Hb.
  - assert (batch_sets a = [(an_key a, b); (index_key (an_EntityId a), an_key a)]) as ->
      by (unfold batch_sets; by rewrite Hb).
    destruct n as [|[|n]]; [by exists 0%nat; left|by exists 0%nat; right; exists a, b|].
    destruct (IH (store_effect m a) n) as (k & Hk). exists (S k). cbn [take foldl lookup list_lookup].
    assert (∀ ws, apply_sets m ((an_key a, b) :: (index_key (an_EntityId a), an_key a) :: ws) =
      apply_sets (store_effect m a) ws) as Hc by (intros; unfold store_effect; by rewrite Hb).
    simpl app. cbn [take]. rewrite Hc. exact Hk.
  - assert (batch_sets a = []) as -> by (unfold batch_sets; by rewrite Hb).
    destruct (IH m n) as (k & Hk). exists (S k). cbn [take foldl lookup list_lookup app].
    assert (store_effect m a = m) as -> by (unfold store_effect; by rewrite Hb). exact Hk.
Qed.

(** A record without its pointer is well-formed too. *)
Lemma primary_insert_ok m a b : store_ok m → bytes_of a = Some b → store_ok (<[an_key a := b]> m).
Proof.
  intros [Hp Hi] Hb. apply decode_bytes_of in Hb. split.
  - intros k v [[<- <-]|[_ Hk]]%lookup_insert_Some Hpre; [by exists (canonical a)|by eapply Hp].
  - intros u k Hk. rewrite lookup_insert_ne in Hk by apply an_key_index.
    destruct (Hi _ _ Hk) as (a' & -> & Hu & v & Hv & Hd).
    destruct (decide (an_key a' = an_key a)) as [Heq|Hne].
    + exists (canonical a). split_and!; [done| |exists b; rewrite an_key_canonical; by rewrite lookup_insert_eq].
      simpl. rewrite <- Hu. symmetry. by apply an_key_entity.
    + exists a'. split_and!; [done|done|]. exists v. by rewrite lookup_insert_ne.
Qed.

Lemma store_effects_ok l : ∀ m, store_ok m → store_ok (foldl store_effect m l).
Proof. induction l as [|a l IH]; intros m Hm; [done|]. apply IH. by apply store_effect_ok. Qed.

(** Whatever part of a batch is written, the store stays well-formed. *)
Lemma StoreBatch_store_ok r l r' err :
  store_ok (db_map (ar_db r)) → StoreBatch r l = Some (r', err) → store_ok (db_map (ar_db r')).
Proof.
  intros Hok (j & n & _ & ->)%StoreBatch_sets.
  destruct (take_batch_sets (take j l) (db_map (ar_db r)) n) as (k & [->|(a & b & _ & Hb & ->)]);
    [|apply primary_insert_ok; [|done]]; by apply store_effects_ok.
Qed.

(** Storing one analysis after the other, stopping at the first error. *)
Fixpoint store_each (r : AnalysisRepository) (l : list Analysis)
  : option (AnalysisRepository * option error) :=
  match l with
  | [] => Some (r, None)
  | a :: l =>
      match StoreAnalysis r a with
      | Some (r, None) => store_each r l
      | other => other
      end
  end.

Lemma store_each_effect l : ∀ r r',
  store_each r l = Some (r', None) →
  db_map (ar_db r') = foldl store_effect (db_map (ar_db r)) l ∧
  writer_docs (ar_writer r') = index_effect (writer_docs (ar_writer r)) l.
Proof.
  induction l as [|a l IH]; intros r r' H; simpl in H; [by simplify_eq|].
  destruct (StoreAnalysis r a) as [[r1 [e|]]|] eqn:E; [done| |done].
  apply StoreAnalysis_effect in E as (_ & Hm & Hd & _). apply IH in H as [Hm' Hd'].
  rewrite Hm', Hd', Hm, Hd. done.
Qed.

(** ** Fetching *)

Definition foreign (namespace : string) (u : uuid) : error :=
  Opaque ("security violation: message " +:+ uuid_String u +:+
          " does not belong to room " +:+ namespace).

Lemma Fetch_current r ns a :
  current (db_map (ar_db r)) a →
  FetchFullByEntityId r ns (an_EntityId a) =
    if String.eqb (an_Namespace a) ns then Ok a else Err (foreign ns (an_EntityId a)).
Proof.
  intros [Hi (v & Hv & Hd)]. unfold FetchFullByEntityId, View.
  rewrite Get_map, begin_map, Hi, Get_map, begin_map, Hv.
  unfold decode_analysis in Hd. destruct (Unmarshal v) as [pb|]; [|done]. simpl in Hd.
  by rewrite Hd.
Qed.

Lemma Fetch_Ok r ns u a : store_ok (db_map (ar_db r)) →
  FetchFullByEntityId r ns u = Ok a ↔
  current (db_map (ar_db r)) a ∧ an_EntityId a = u ∧ an_Namespace a = ns.
Proof.
  intros Hok. split.
  - intros Hf. assert (∃ k, db_map (ar_db r) !! index_key u = Some k) as [k Hk].
    { unfold FetchFullByEntityId, View in Hf. rewrite Get_map, begin_map in Hf.
      destruct (_ !! index_key u); [by eexists|done]. }
    destruct (pointer_ok _ Hok _ _ Hk) as (a' & -> & <- & Hst).
    rewrite Fetch_current in Hf by done.
    destruct (String.eqb_spec (an_Namespace a') ns); simplify_eq. split; [by split|done].
  - intros (Hc & <- & <-). rewrite Fetch_current by done. by rewrite String.eqb_refl.
Qed.

Lemma Fetch_missing r ns u : db_map (ar_db r) !! index_key u = None →
  ∃ msg, FetchFullByEntityId r ns u = Err (Wrapped msg ErrKeyNotFound).
Proof.
  intros Hk. unfold FetchFullByEntityId, View. rewrite Get_map, begin_map, Hk.
  unfold Errorf. by eexists.
Qed.

(** C16. What [Store] writes, [FetchFullByEntityId] reads back (up to pointer
    payloads, which come back as values, unknown payload types and the version,
    which are not stored), but only under its own namespace; the analyses of
    other entities are fetched as before. *)
Theorem Store_then_Fetch r a r' ns :
  store_ok (db_map (ar_db r)) → StoreAnalysis r a = Some (r', None) →
  store_ok (db_map (ar_db r')) ∧
  FetchFullByEntityId r' ns (an_EntityId a) =
    (if String.eqb (an_Namespace a) ns then Ok (canonical a)
     else Err (foreign ns (an_EntityId a))) ∧
  (∀ ns' u a', u ≠ an_EntityId a →
     FetchFullByEntityId r' ns' u = Ok a' ↔ FetchFullByEntityId r ns' u = Ok a').
Proof.
  intros Hok ([b Hb] & Hm & _)%StoreAnalysis_effect.
  assert (store_ok (db_map (ar_db r'))) as Hok' by (rewrite Hm; by apply store_effect_ok).
  split_and!; [done| |].
  - apply (Fetch_current r' ns (canonical a)). rewrite Hm. by eapply store_effect_current.
  - intros ns' u a' Hne. rewrite !Fetch_Ok by done. split; intros (Hc & Hu & Hns); subst;
      (split; [|done]); rewrite Hm in *; by apply (store_effect_current_ne _ a).
Qed.

(** C31. A batch of analyses of distinct entities is the sequence of its
    stores: when both succeed, [StoreBatch] leaves the key space and the search
    index exactly as storing the analyses one by one does, index pointers
    included.  (Of two updates of one entity in a batch the key space keeps
    the last; the index may keep both, so distinctness is asked for.) *)
Theorem StoreBatch_equiv r l r1 r2 :
  NoDup (an_EntityId <$> l) →
  StoreBatch r l = Some (r1, None) → store_each r l = Some (r2, None) →
  db_map (ar_db r1) = db_map (ar_db r2) ∧
  writer_docs (ar_writer r1) = writer_docs (ar_writer r2).
Proof.
  intros Hnd (_ & Hm1 & Hd1)%StoreBatch_effect [Hm2 Hd2]%store_each_effect.
  by rewrite Hm1, Hd1, Hm2, Hd2.
Qed.

(** ** Scanning a namespace *)

(** How many of [n] remaining items a page takes after [k]. *)
Definition page_count (limit : option Z) (k n : nat) : nat :=
  match limit with Some m => Nat.min (Z.to_nat m - k) n | None => n end.

Lemma scan_loop_spec limit prefix it : ∀ es ans acc lk,
  take_while (has_prefix prefix) it = es →
  Forall2 (λ e a, decode_analysis e.2 = Ok a) es ans →
  let c := page_count limit (length acc) (length es) in
  scan_loop limit prefix it acc lk =
    Ok (acc ++ take c ans,
        match last (take c es) with Some e => str_drop (String.length prefix) e.1 | None => lk end,
        (c <? length es)%nat).
Proof.
  induction it as [|item it IH]; intros es ans acc lk Hes HF; cbn [scan_loop take_while] in *.
  { subst. inversion HF; subst. simpl. rewrite take_nil, app_nil_r. by destruct limit; simpl;
      rewrite ?Nat.min_0_r. }
  destruct (has_prefix prefix item).
  2:{ subst. inversion HF; subst. simpl. rewrite take_nil, app_nil_r. by destruct limit; simpl;
      rewrite ?Nat.min_0_r. }
  subst es. inversion HF as [|? an ? ans' Hd HF']; subst. cbn [length].
  assert (page_count limit (length acc) (S (length (take_while (has_prefix prefix) it))) =
    if match limit with Some n => n <=? Z.of_nat (length acc) | None => false end then 0%nat
    else S (page_count limit (length (acc ++ [an])) (length (take_while (has_prefix prefix) it))))
    as ->.
  { unfold page_count. rewrite length_app. simpl. destruct limit as [n|]; [|done].
    case_match; z_bool; lia. }
  case_match; [simpl; by rewrite app_nil_r|].
  rewrite Hd. cbn [res_bind]. rewrite (IH _ ans' _ _ eq_refl HF'). cbv zeta.
  rewrite <- app_assoc. cbn [take app]. f_equal. f_equal. f_equal.
  set (c := page_count _ _ _). destruct (take c _) as [|e l] eqn:Et; [done|].
  rewrite last_cons_cons. destruct (last (e :: l)) eqn:El; [done|]. by apply last_None in El.
Qed.

(** A client that follows the cursors until there is none. *)
Fixpoint scan_walk (fuel : nat) (r : AnalysisRepository) (ns : string) (cursor : option string)
  : result error (list Analysis) :=
  match fuel with
  | O => Ok []
  | S fuel =>
      let! (page, next) := ScanAnalysesByRoom r ns cursor in
      match next with
      | None => Ok page
      | Some _ => let! rest := scan_walk fuel r ns next in Ok (page ++ rest)
      end
  end.

(** No other namespace has keys under [ns]; so it is when no namespace
    contains the separator. *)
Definition isolated (m : gmap string string) (ns : string) : Prop :=
  ∀ a, analysis_stored m a → String.prefix (analysis_prefix ns) (an_key a) = true →
       an_Namespace a = ns.

Definition entry_analysis (e : entry) (a : Analysis) : Prop :=
  decode_analysis e.2 = Ok a ∧ e.1 = an_key a.

#[local] Transparent analysis_prefix an_key.
Lemma prefix_analysis ns k : String.prefix (analysis_prefix ns) k = true →
  String.prefix "analysis:" k = true.
Proof.
  intros [s ->]%prefix_spec. unfold analysis_prefix. rewrite <- str_app_assoc. apply prefix_app.
Qed.
Lemma an_key_prefix ns a : an_Namespace a = ns →
  an_key a = analysis_prefix ns +:+ time_key (an_At a) (an_EntityId a).
Proof. by intros <-. Qed.

(** Namespaces without the separator never share keys. *)
Lemma isolated_colon_free m ns : lacks ":" ns = true →
  (∀ a, analysis_stored m a → lacks ":" (an_Namespace a) = true) → isolated m ns.
Proof.
  intros Hns Hall a Ha [s Hs]%prefix_spec. unfold an_key, buildKey, analysis_prefix in Hs.
  rewrite <- !str_app_assoc in Hs. simpl in Hs. injection Hs as Hs.
  apply sep_inj in Hs as [? _]; auto.
Qed.
#[local] Opaque analysis_prefix an_key.

Section Scan.
Context (r : AnalysisRepository) (ns : string).
Abbreviation m := (db_map (ar_db r)).
Context (Hok : store_ok m) (Hiso : isolated m ns).

Lemma scan_entries :
  ∃ ans, Forall2 entry_analysis (rev_prefix_entries m (analysis_prefix ns)) ans ∧
         Forall (λ a, an_Namespace a = ns) ans.
Proof.
  destruct (Forall2_exists (λ e a, entry_analysis e a ∧ an_Namespace a = ns)
    (rev_prefix_entries m (analysis_prefix ns))) as [ans HF].
  { intros [k v] [Hk Hp]%elem_of_rev_prefix_entries.
    destruct (primary_ok _ Hok _ _ Hk (prefix_analysis _ _ Hp)) as (a & -> & Hd).
    exists a. split; [done|]. apply Hiso; [by exists v|done]. }
  exists ans. split; [by eapply Forall2_impl; [exact HF|naive_solver]|].
  clear -HF. induction HF; constructor; naive_solver.
Qed.

Lemma scan_page cursor rest ans :
  position m (analysis_prefix ns) cursor rest → Forall2 entry_analysis rest ans →
  ScanAnalysesByRoom r ns cursor =
    let c := page_count (ar_badgerLimit r) 0 (length rest) in
    Ok (take c ans,
        if (0 <? c)%nat && (c <? length rest)%nat
        then Some (match last (take c rest) with
                   | Some e => str_drop (String.length (analysis_prefix ns)) e.1
                   | None => "" end)
        else None).
Proof.
  intros Hpos HF. unfold ScanAnalysesByRoom, View. rewrite Seek_map, begin_map. cbv zeta.
  rewrite (scan_loop_spec _ _ _ rest ans).
  - cbn [res_bind length app]. set (c := page_count _ _ _).
    assert (c ≤ length rest)%nat by (subst c; unfold page_count; case_match; lia).
    rewrite length_take, <- (Forall2_length _ _ _ HF).
    destruct (Nat.eqb_spec (Nat.min c (length rest)) 0), (Nat.ltb_spec 0 c),
      (Nat.ltb_spec c (length rest)); simpl; try done; lia.
  - apply page_scan; [|done]. intros k v Hk Hp.
    destruct (primary_ok _ Hok _ _ Hk (prefix_analysis _ _ Hp)) as (a & -> & Hd).
    rewrite (an_key_prefix ns a) by (apply Hiso; [by exists v|done]).
    apply str_le_app_l, time_key_below_top.
  - eapply Forall2_impl; [exact HF|]. by intros e a [].
Qed.

Lemma scan_walk_spec : (∀ n, ar_badgerLimit r = Some n → 0 < n) → ∀ fuel cursor rest ans,
  position m (analysis_prefix ns) cursor rest → Forall2 entry_analysis rest ans →
  (length rest < fuel)%nat → scan_walk fuel r ns cursor = Ok ans.
Proof.
  intros Hlim. induction fuel as [|fuel IH]; intros cursor rest ans Hpos HF Hf; [lia|].
  cbn [scan_walk]. rewrite (scan_page _ rest ans) by done. cbv zeta.
  set (c := page_count _ _ _). cbn [res_bind].
  pose proof (Forall2_length _ _ _ HF) as Hlen.
  assert (c = length rest ∨ 0 < c ∧ c < length rest)%nat as [Hc|[Hc1 Hc2]].
  { subst c. unfold page_count. destruct (ar_badgerLimit r) as [n|] eqn:E; [|lia].
    specialize (Hlim n eq_refl). lia. }
  - rewrite Hc, (proj2 (Nat.ltb_ge _ _) (le_n _)), andb_false_r, Hlen.
    by rewrite firstn_all.
  - rewrite (proj2 (Nat.ltb_lt _ _) Hc1), (proj2 (Nat.ltb_lt _ _) Hc2). cbn [andb].
    destruct (last (take c rest)) as [[k v]|] eqn:El.
    2:{ apply last_None in El. apply (f_equal length) in El. rewrite length_take in El.
        simpl in El. lia. }
    rewrite (IH _ (drop c rest) (drop c ans)).
    + cbn [res_bind]. by rewrite take_drop.
    + eapply position_next; [|exact El]. by rewrite take_drop.
    + by apply Forall2_drop.
    + rewrite length_drop. lia.
Qed.
End Scan.

(** Paging through a namespace terminates and enumerates exactly the
    analyses stored in it, each once; the page that ends the scan carries no
    cursor.  Analyses stamped between 1970 and 2262 come newest first. *)
Theorem scan_walk_enumerates r ns fuel :
  store_ok (db_map (ar_db r)) → isolated (db_map (ar_db r)) ns →
  (∀ n, ar_badgerLimit r = Some n → 0 < n) → (size (db_map (ar_db r)) < fuel)%nat →
  ∃ ans, scan_walk fuel r ns None = Ok ans ∧
    NoDup (an_key <$> ans) ∧
    (∀ a, a ∈ ans ↔ an_Namespace a = ns ∧ analysis_stored (db_map (ar_db r)) a) ∧
    ((∀ a, a ∈ ans → modern (an_At a)) → StronglySorted (λ a b, an_At b ≤ an_At a) ans).
Proof.
  intros Hok Hiso Hlim Hf. destruct (scan_entries r ns Hok Hiso) as (ans & HF & Hns).
  exists ans. rewrite Forall_forall in Hns. split_and!.
  - eapply scan_walk_spec; [done|done|done|reflexivity|exact HF|].
    pose proof (rev_prefix_entries_length (db_map (ar_db r)) (analysis_prefix ns)). lia.
  - replace (an_key <$> ans) with (rev_prefix_entries (db_map (ar_db r)) (analysis_prefix ns)).*1;
      [apply rev_prefix_entries_NoDup|].
    clear -HF. induction HF as [|e a es ans (_ & He) _ IH]; [done|].
    rewrite !fmap_cons, He. by f_equal.
  - intros a. split.
    + intros Ha. split; [by apply Hns|].
      destruct (Forall2_elem_of_r _ _ _ _ HF Ha) as ([k v] & Hin & Hd & Hk). simpl in *. subst.
      apply elem_of_rev_prefix_entries in Hin as [Hin _]. by exists v.
    + intros [Hn (v & Hv & Hd)].
      assert ((an_key a, v) ∈ rev_prefix_entries (db_map (ar_db r)) (analysis_prefix ns)) as Hin.
      { apply elem_of_rev_prefix_entries. split; [done|].
        rewrite (an_key_prefix ns) by done. apply prefix_app. }
      destruct (Forall2_elem_of_l _ _ _ _ HF Hin) as (a' & Ha' & Hd' & _). simpl in Hd'.
      by rewrite Hd in Hd'; simplify_eq.
  - intros Hmod.
    assert (StronglySorted (λ a b, String.le (an_key b) (an_key a)) ans) as Hs.
    { eapply Forall2_StronglySorted; [|exact HF|apply rev_prefix_entries_sorted].
      intros e1 e2 d1 d2 (_ & E1) (_ & E2). unfold flip, key_le. by rewrite E1, E2. }
    clear -Hs Hmod Hns. induction Hs as [|a l Hs IH Ha]; constructor.
    + apply IH; intros; [apply Hns|apply Hmod]; by right.
    + rewrite Forall_forall in *. intros b Hb. specialize (Ha b Hb).
      rewrite !(an_key_prefix ns) in Ha by (apply Hns; by (left || right)).
      apply str_le_app_l in Ha. eapply time_key_le; [..|exact Ha]; apply Hmod; by (left || right).
Qed.

(** ** Searching *)

(** The search index follows the store: every document is that of the current
    analysis of its entity.  (A score named ["_id"] would shadow the
    document's identifier.) *)
Definition docs_ok (m : gmap string string) (docs : gmap string Document) : Prop :=
  ∀ id d, docs !! id = Some d → ∃ a,
    id = uuid_String (an_EntityId a) ∧ d = document a ∧ current m a ∧
    ∀ k v, an_Scores a !! k = Some v → strings_ToLower k ≠ "_id".

Definition repo_ok (r : AnalysisRepository) : Prop :=
  store_ok (db_map (ar_db r)) ∧ docs_ok (db_map (ar_db r)) (writer_docs (ar_writer r)).

Definition indexable (a : Analysis) : Prop :=
  ∀ k v, an_Scores a !! k = Some v → strings_ToLower k ≠ "_id".

Lemma docs_ok_effect m docs a b : bytes_of a = Some b → indexable a →
  docs_ok m docs →
  docs_ok (store_effect m a) (<[uuid_String (an_EntityId a) := document a]> docs).
Proof.
  intros Hb Hi Hd id d [[<- <-]|[Hne Hid]]%lookup_insert_Some.
  - exists (canonical a). rewrite (document_canonical _ _ Hb).
    split_and!; [done|done|by eapply store_effect_current|done].
  - destruct (Hd _ _ Hid) as (a' & -> & -> & Hc & Hs). exists a'. split_and!; auto.
    apply store_effect_current_ne; [congruence|done].
Qed.

Lemma StoreAnalysis_preserves r a r' : repo_ok r → indexable a →
  StoreAnalysis r a = Some (r', None) → repo_ok r'.
Proof.
  intros [Hs Hd] Hi ([b Hb] & Hm & Hw & _)%StoreAnalysis_effect. unfold repo_ok.
  rewrite Hm, Hw. split; [by apply store_effect_ok|by eapply docs_ok_effect].
Qed.

Lemma StoreBatch_preserves r l r' : repo_ok r → Forall indexable l → NoDup (an_EntityId <$> l) →
  StoreBatch r l = Some (r', None) → repo_ok r'.
Proof.
  intros [Hs Hd] Hi Hnd (Hb & Hm & Hw)%StoreBatch_effect. unfold repo_ok. rewrite Hm, Hw by done.
  clear Hnd. revert Hs Hd. generalize (db_map (ar_db r)) (writer_docs (ar_writer r)).
  clear Hm Hw. unfold index_effect. induction l as [|a l IH]; intros m docs Hs Hd; [done|].
  apply Forall_cons in Hi as [Hi Hi'], Hb as [[b Hb] Hb']. cbn [foldl].
  apply IH; [done|done|by apply store_effect_ok|by eapply docs_ok_effect].
Qed.

Definition hydrate_one (r : AnalysisRepository) (ns : string) (h : Hit) : option Analysis :=
  match VisitStoredFields h with
  | Err _ => None
  | Ok fs => match uuid_Parse (visited_id fs) with
             | Err _ => None
             | Ok u => match FetchFullByEntityId r ns u with Ok a => Some a | Err _ => None end
             end
  end.

Lemma hydrate_omap r ns hits : hydrate r ns hits = omap (hydrate_one r ns) hits.
Proof.
  unfold hydrate. match goal with |- foldl ?f _ _ = _ =>
    enough (∀ acc, foldl f acc hits = acc ++ omap (hydrate_one r ns) hits) as H by apply H end.
  induction hits as [|h hits IH]; intros acc; [by rewrite app_nil_r|]. cbn [foldl].
  rewrite IH. simpl. unfold hydrate_one at 2.
  repeat (case_match; simplify_eq/=; try done). by rewrite <- app_assoc.
Qed.

Lemma hydrate_one_namespace r ns h a : store_ok (db_map (ar_db r)) →
  hydrate_one r ns h = Some a → an_Namespace a = ns ∧ current (db_map (ar_db r)) a.
Proof.
  unfold hydrate_one. intros Hok H. repeat (case_match; simplify_eq/=).
  match goal with E : FetchFullByEntityId _ _ _ = _ |- _ =>
    apply Fetch_Ok in E as (? & ? & ?); [|done] end. done.
Qed.

Lemma document_namespace a ns : KeywordField NAMESPACE ns ∈ doc_fields (document a) →
  an_Namespace a = ns.
Proof.
  unfold document. destruct (prepareInternalData a) as [t c]. simpl.
  rewrite !elem_of_cons, list_elem_of_fmap.
  intros [?|[?|[?|([] & ? & _)]]]; unfold NAMESPACE, TYPE in *; congruence.
Qed.

Lemma document_no_id a f : indexable a → f ∈ doc_fields (document a) → field_name f ≠ "_id".
Proof.
  unfold document. destruct (prepareInternalData a) as [t c]. simpl. intros Hi.
  rewrite !elem_of_cons, list_elem_of_fmap.
  intros [->|[->|[->|([k v] & -> & Hk%elem_of_map_to_list)]]]; [done..|]. simpl. by eapply Hi.
Qed.

(** A hit on a document of the namespace hydrates to the analysis of that
    document, unless its stored fields cannot be read. *)
Lemma hydrate_one_hit r ns h fs :
  repo_ok r → hit_doc h ∈ (map_to_list (writer_docs (ar_writer r))).*2 →
  KeywordField NAMESPACE ns ∈ doc_fields (hit_doc h) → VisitStoredFields h = Ok fs →
  ∃ a, hydrate_one r ns h = Some a ∧ hit_doc h = document a.
Proof.
  intros [Hs Hd] ([id d] & Hh & Hid%elem_of_map_to_list)%list_elem_of_fmap Hns Hv.
  simpl in Hh. subst d. destruct (Hd _ _ Hid) as (a & -> & Ha & Hc & Hi).
  exists a. split; [|done]. unfold hydrate_one. rewrite Hv.
  rewrite (Visit_id _ _ Hv) by (rewrite Ha; intros; by eapply document_no_id).
  rewrite Ha, doc_id_document, uuid_Parse_String, Fetch_current by done.
  rewrite Ha in Hns. apply document_namespace in Hns as ->. by rewrite String.eqb_refl.
Qed.

Lemma hydrate_one_doc r ns h a : repo_ok r →
  hit_doc h ∈ (map_to_list (writer_docs (ar_writer r))).*2 →
  hydrate_one r ns h = Some a → hit_doc h = document a.
Proof.
  intros [Hs Hd] ([id d] & Hh & Hid%elem_of_map_to_list)%list_elem_of_fmap Ho.
  simpl in Hh. subst d. destruct (Hd _ _ Hid) as (a' & -> & Ha & Hc & Hi).
  unfold hydrate_one in Ho. destruct (VisitStoredFields h) as [fs|] eqn:Hv; [|done].
  rewrite (Visit_id _ _ Hv) in Ho by (rewrite Ha; intros; by eapply document_no_id).
  rewrite Ha, doc_id_document, uuid_Parse_String, Fetch_current in Ho by done.
  destruct (String.eqb _ _); simplify_eq. done.
Qed.

Lemma count_hits {X} (l : list X) n : 0 ≤ n → n + Z.of_nat (length l) < 2 ^ 64 →
  foldl (λ n _, uint64 (n + 1)) n l = n + Z.of_nat (length l).
Proof.
  revert n. induction l as [|x l IH]; intros n Hn Hl; simpl in *; [lia|].
  rewrite IH, !wrap_u_id by (unfold in_u; rewrite ?wrap_u_id; unfold in_u; lia). lia.
Qed.

Lemma docs_ids_NoDup r : repo_ok r →
  NoDup (doc_id <$> (map_to_list (writer_docs (ar_writer r))).*2).
Proof.
  intros [_ Hd]. rewrite <- list_fmap_compose.
  rewrite (list_fmap_ext _ fst (map_to_list (writer_docs (ar_writer r)))).
  - apply NoDup_fst_map_to_list.
  - intros i [id d] Hl. apply list_elem_of_lookup_2, elem_of_map_to_list in Hl.
    destruct (Hd _ _ Hl) as (a & -> & -> & _). simpl. apply doc_id_document.
Qed.

Lemma lfilter_fmap_NoDup {X Y} (f : X → Y) (P : X → bool) l :
  NoDup (f <$> l) → NoDup (f <$> List.filter P l).
Proof.
  induction l as [|x l IH]; [done|]. intros [Hx Hl]%NoDup_cons. simpl.
  destruct (P x); [|by apply IH]. apply NoDup_cons. split; [|by apply IH].
  intros (y & He & [Hy _]%elem_of_lfilter)%list_elem_of_fmap.
  apply Hx, list_elem_of_fmap. by exists y.
Qed.

(** What a page of hits hydrates to. *)
Lemma hydrate_page r ns hits : repo_ok r →
  (∀ h, h ∈ hits → hit_doc h ∈ (map_to_list (writer_docs (ar_writer r))).*2 ∧
                   KeywordField NAMESPACE ns ∈ doc_fields (hit_doc h)) →
  NoDup (doc_id ∘ hit_doc <$> hits) →
  NoDup (an_EntityId <$> hydrate r ns hits) ∧
  (∀ a, a ∈ hydrate r ns hits → an_Namespace a = ns ∧ current (db_map (ar_db r)) a ∧
        document a ∈ hit_doc <$> hits) ∧
  ((∀ h, ∃ fs, VisitStoredFields h = Ok fs) → document <$> hydrate r ns hits = hit_doc <$> hits).
Proof.
  intros Hr Hh Hnd. rewrite hydrate_omap.
  assert (∀ a, a ∈ omap (hydrate_one r ns) hits →
            an_Namespace a = ns ∧ current (db_map (ar_db r)) a ∧ document a ∈ hit_doc <$> hits) as Hel.
  { intros a (h & Hin & Ho)%list_elem_of_omap.
    destruct (hydrate_one_namespace _ _ _ _ (proj1 Hr) Ho). split_and!; [done|done|].
    rewrite <- (hydrate_one_doc r ns h a) by (done || apply Hh; done).
    by apply list_elem_of_fmap_2. }
  split_and!; [|exact Hel|].
  - clear Hel. induction hits as [|h hits IH]; [constructor|]. rewrite fmap_cons in Hnd.
    apply NoDup_cons in Hnd as [Hn Hnd]. simpl.
    assert (NoDup (an_EntityId <$> omap (hydrate_one r ns) hits)) as IH'
      by (apply IH; [intros; apply Hh; by right|done]).
    destruct (hydrate_one r ns h) as [a|] eqn:E; [|done]. rewrite fmap_cons. apply NoDup_cons.
    split; [|done]. intros (a' & Ha' & (h' & Hin' & E')%list_elem_of_omap)%list_elem_of_fmap.
    apply Hn, list_elem_of_fmap. exists h'. split; [|done]. simpl.
    rewrite (hydrate_one_doc r ns h a), (hydrate_one_doc r ns h' a') by
      (done || apply Hh; by (left || right)).
    by rewrite !doc_id_document, Ha'.
  - intros Hv. clear Hel Hnd. induction hits as [|h hits IH]; [done|]. simpl.
    destruct (Hv h) as [fs Hfs]. destruct (Hh h) as [Hd1 Hd2]; [left|].
    destruct (hydrate_one_hit r ns h fs) as (a & -> & Hd); [done..|].
    rewrite fmap_cons, Hd. f_equal. apply IH. intros. apply Hh. by right.
Qed.

(** The hits of a namespace search: documents of the index, matching, of that
    namespace, and of distinct entities. *)
Lemma namespace_hits r query ns hits :
  repo_ok r →
  (hit_doc <$> hits) ≡ₚ
    List.filter (query_matches (BooleanQuery [MatchQuery CONTENT query; TermQuery NAMESPACE ns]))
      (map_to_list (writer_docs (ar_writer r))).*2 →
  NoDup (doc_id ∘ hit_doc <$> hits) ∧
  ∀ h, h ∈ hits → hit_doc h ∈ (map_to_list (writer_docs (ar_writer r))).*2 ∧
    query_matches (MatchQuery CONTENT query) (hit_doc h) = true ∧
    KeywordField NAMESPACE ns ∈ doc_fields (hit_doc h).
Proof.
  intros Hr Hp. split.
  - rewrite list_fmap_compose, Hp. apply lfilter_fmap_NoDup. by apply docs_ids_NoDup.
  - intros h Hh. apply (list_elem_of_fmap_2 hit_doc) in Hh. rewrite Hp in Hh.
    apply elem_of_lfilter in Hh as [Hd Hq]. split; [done|].
    rewrite BooleanQuery_musts in Hq. split; [apply Hq; set_solver|].
    apply TermQuery_keyword, Hq. set_solver.
Qed.

(** C30. A successful full-text search in a namespace returns only current
    analyses of that namespace whose document matches the query, no entity
    twice, with the exact number of matches as the total; when the stored
    fields of the hits can be read, the page holds all that the offset and the
    page size leave of the matches. *)
Theorem SearchPaginated_correct r query ns offset results total :
  repo_ok r → ns ≠ "" → 0 ≤ offset → 0 ≤ ar_blugeLimit r →
  Z.of_nat (size (writer_docs (ar_writer r))) < 2 ^ 64 →
  SearchPaginated r query ns offset = (results, total, None) →
  let q := BooleanQuery [MatchQuery CONTENT query; TermQuery NAMESPACE ns] in
  let matching := List.filter (query_matches q) (map_to_list (writer_docs (ar_writer r))).*2 in
  total = Z.of_nat (length matching) ∧
  NoDup (an_EntityId <$> results) ∧
  (∀ a, a ∈ results → an_Namespace a = ns ∧ current (db_map (ar_db r)) a ∧
        query_matches (MatchQuery CONTENT query) (document a) = true) ∧
  ((∀ h, ∃ fs, VisitStoredFields h = Ok fs) →
     Z.of_nat (length results) = Z.min (ar_blugeLimit r) (Z.max 0 (total - offset))).
Proof.
  intros Hr Hns Hoff Hlim Hsz. unfold SearchPaginated.
  rewrite (proj2 (String.eqb_neq ns "") Hns). cbv zeta.
  set (q := BooleanQuery _). set (matching := List.filter _ _).
  unfold searchAndHydrate. intros Hs.
  destruct (writer_Reader (ar_writer r)) as [rd|] eqn:Erd; [|done]. apply Reader_docs in Erd.
  destruct (reader_Search rd (AllMatches q)) as [[hs [e|]]|] eqn:Eall; [done| |done].
  apply AllMatches_hits in Eall. rewrite Erd in Eall. fold matching in Eall.
  destruct (reader_Search rd (TopNSearch _ _ _)) as [[hits [e|]]|] eqn:Etop; [done| |done].
  apply TopN_hits in Etop as (ranking & -> & Hrank); [|done..]. rewrite Erd in Hrank.
  fold matching in Hrank. simplify_eq.
  assert (length matching ≤ size (writer_docs (ar_writer r)))%nat as Hm.
  { subst matching. rewrite List.filter_length_le, length_fmap. by rewrite length_map_to_list. }
  assert (length hs = length matching) as Hlen
    by (apply Permutation_length in Eall; by rewrite length_fmap in Eall).
  assert (length ranking = length matching) as Hlen'
    by (apply Permutation_length in Hrank; by rewrite length_fmap in Hrank).
  destruct (namespace_hits r query ns ranking Hr Hrank) as [Hids Hmem].
  set (page := take _ (drop _ ranking)) in *.
  assert (page ⊆ ranking) as Hsub.
  { subst page. intros h Hh. by apply subseteq_take, subseteq_drop in Hh. }
  destruct (hydrate_page r ns page Hr) as (Hnd & Hel & Hall).
  { intros h Hh. destruct (Hmem h (Hsub h Hh)) as (? & _ & ?). done. }
  { subst page. eapply sublist_NoDup; [exact Hids|]. apply fmap_sublist.
    etrans; [apply sublist_take|apply sublist_drop]. }
  split_and!; [|exact Hnd| |].
  - rewrite count_hits by lia. lia.
  - intros a Ha. destruct (Hel a Ha) as (? & ? & (h & Hd & Hin)%list_elem_of_fmap).
    split_and!; [done..|]. rewrite Hd. by apply Hmem, Hsub.
  - intros Hv. apply Hall, (f_equal length) in Hv. rewrite !length_fmap in Hv.
    rewrite Hv. subst page. rewrite length_take, length_drop, count_hits by lia. lia.
Qed.

(** Searching with no namespace, which is meant as a search in all of them,
    returns nothing: every hit is then looked up in the namespace [""]. *)
Theorem search_everywhere_is_empty r query offset :
  repo_ok r →
  (∀ a, analysis_stored (db_map (ar_db r)) a → an_Namespace a ≠ "") →
  (SearchPaginated r query "" offset).1.1 = [].
Proof.
  intros Hr Hall.
  assert (∀ hits, hydrate r "" hits = []) as Hh.
  { intros hits. rewrite hydrate_omap. destruct (omap _ hits) as [|a l] eqn:E; [done|].
    assert (a ∈ omap (hydrate_one r "") hits) as (h & _ & Ho)%list_elem_of_omap
      by (rewrite E; left).
    destruct (hydrate_one_namespace _ _ _ _ (proj1 Hr) Ho) as [Hn [_ Hst]].
    by apply Hall in Hst. }
  unfold SearchPaginated, searchAndHydrate. cbn [String.eqb].
  repeat (case_match; simplify_eq/=); by rewrite ?Hh.
Qed.
End AnalysisStore.

(** ** Witnesses: a map as the index, and a concrete codec *)

Definition field_matches_text (f t : string) (x : field) : bool :=
  match x with
  | TextField n v => String.eqb n f && bool_decide (String.index 0 t v ≠ None)
  | _ => false
  end.
Definition field_matches_term (f t : string) (x : field) : bool :=
  match x with KeywordField n v => String.eqb n f && String.eqb v t | _ => false end.
Definition field_in_range (f : string) (lo hi : float64) (x : field) : bool :=
  match x with
  | NumericField n v => String.eqb n f && negb (f64_ltb v lo) && negb (f64_ltb hi v)
  | _ => false
  end.
Fixpoint map_query (q : Query) (d : Document) : bool :=
  match q with
  | MatchQuery f t => existsb (field_matches_text f t) (doc_fields d)
  | TermQuery f t => existsb (field_matches_term f t) (doc_fields d)
  | NumericRangeInclusiveQuery f lo hi => existsb (field_in_range f lo hi) (doc_fields d)
  | BooleanQuery qs => forallb (λ q, map_query q d) qs
  end.
Definition stored_fields (d : Document) : list (string * string) :=
  ("_id", doc_id d) ::
  omap (λ f, match f with
             | TextField n v | KeywordField n v => Some (n, v)
             | NumericField _ _ => None
             end) (doc_fields d).
Definition map_search (r : gmap string Document) (req : SearchRequest) : list Document :=
  match req with
  | AllMatches q => List.filter (map_query q) (map_to_list r).*2
  | TopNSearch n q from =>
      take (Z.to_nat n) (drop (Z.to_nat from) (List.filter (map_query q) (map_to_list r).*2))
  end.

#[export] Instance MapBluge : Bluge := {|
  Writer := gmap string Document;
  writer_Update w id d := (<[id := d]> w, None);
  writer_Batch w ups := (foldl (λ m '(id, d), <[id := d]> m) w ups, None);
  Reader := gmap string Document;
  writer_Reader w := Ok w;
  Hit := Document;
  reader_Search r req := Ok (map_search r req, None);
  VisitStoredFields d := Ok (stored_fields d);
  writer_docs w := w;
  reader_docs r := r;
  hit_doc d := d;
  query_matches := map_query;
|}.

Lemma visited_id_stored d : (∀ f, f ∈ doc_fields d → field_name f ≠ "_id") →
  visited_id (stored_fields d) = doc_id d.
Proof.
  unfold visited_id, stored_fields. cbn [foldl]. rewrite String.eqb_refl. intros Hf.
  revert Hf. generalize (doc_fields d), (doc_id d). intros l.
  induction l as [|f l IH]; intros id Hf; [done|]. simpl.
  assert (field_name f ≠ "_id") as Hn by (apply Hf; left).
  destruct f as [n v|n v|n v]; simpl in *;
    rewrite ?(proj2 (String.eqb_neq n "_id") Hn); apply IH; intros; apply Hf; by right.
Qed.

#[export] Instance MapBluge_laws : BlugeLaws MapBluge.
Proof.
  split; simpl.
  - by intros w id d w' [= <-].
  - by intros w ups w' _ [= <-].
  - by intros w r [= ->].
  - intros r q hits [= <-]. by rewrite list_fmap_id.
  - intros r n q from hits _ _ [= <-]. eexists. by rewrite list_fmap_id.
  - intros h fs [= <-] Hf. by apply visited_id_stored.
  - intros f t d. rewrite existsb_exists. split.
    + intros (x & Hx & Hm). destruct x; simpl in Hm; try done.
      apply andb_true_iff in Hm as [->%String.eqb_eq ->%String.eqb_eq]. by apply list_elem_of_In.
    + intros Hin. exists (KeywordField f t). split; [by apply list_elem_of_In|].
      simpl. by rewrite !String.eqb_refl.
  - intros qs d. rewrite forallb_forall. by setoid_rewrite list_elem_of_In.
Qed.

Definition pbPayload_code (p : option pbPayload)
  : option (string + (string * float64) + (string * string * Z * string)) :=
  match p with
  | None => None
  | Some (PbTextContent c) => Some (inl (inl c))
  | Some (PbAudio t d) => Some (inl (inr (t, d)))
  | Some (PbFile f m s c) => Some (inr (f, m, s, c))
  end.
Definition pbPayload_decode
  (p : option (string + (string * float64) + (string * string * Z * string)))
  : option pbPayload :=
  match p with
  | None => None
  | Some (inl (inl c)) => Some (PbTextContent c)
  | Some (inl (inr (t, d))) => Some (PbAudio t d)
  | Some (inr (f, m, s, c)) => Some (PbFile f m s c)
  end.
Definition pbAnalysis_to (a : pbAnalysis) : list positive :=
  [encode (pa_Id a); encode (pa_EntityId a); encode (pa_Namespace a); encode (pa_At a);
   encode (pa_Summary a); encode (pa_Tags a); encode (map_to_list (K:=string) (A:=float64) (pa_Scores a));
   encode (pbPayload_code (pa_Payload a))].
Definition pbAnalysis_of (l : list positive) : option pbAnalysis :=
  match l with
  | [i; e; n; t; s; g; sc; p] =>
      i ← decode i; e ← decode e; n ← decode n; t ← decode t; s ← decode s; g ← decode g;
      sc ← decode sc; p ← decode p;
      Some (MkPbAnalysis i e n t s g (list_to_map sc) (pbPayload_decode p))
  | _ => None
  end.
Lemma pbAnalysis_of_to a : pbAnalysis_of (pbAnalysis_to a) = Some a.
Proof.
  lazy beta iota delta [pbAnalysis_of pbAnalysis_to]. rewrite !decode_encode. destruct a. simpl.
  rewrite list_to_map_to_list. do 2 f_equal. by destruct pa_Payload0 as [[]|].
Qed.
#[export] Instance pbAnalysis_fields : Fielded pbAnalysis :=
  {| to_fields := pbAnalysis_to; of_fields := pbAnalysis_of; of_to_fields := pbAnalysis_of_to |}.
#[export] Instance pbAnalysis_codec : Codec pbAnalysis := FieldCodec pbAnalysis.
#[export] Instance pbAnalysis_codec_laws : CodecLaws pbAnalysis := FieldCodec_laws pbAnalysis.
#[local] Existing Instance Latin1Tables.

Definition demo_analysis (n : N) (ns : string) (at_ : Z) : Analysis :=
  MkAnalysis (uuid16_num n) (uuid16_num n) ns at_ "invoice" ["urgent"] ∅
    (FilePtr (Some (MkFileDetails "a.pdf" ApplicationPDF 10 "total due"))) (uuid16_num 7).
Definition empty_analyses (limit : option Z) : AnalysisRepository :=
  NewAnalysisRepository (B := MapBadger) (BG := MapBluge) ∅ ∅ limit 10.
Definition demo_analyses : list Analysis :=
  [demo_analysis 1 "d1" 1000; demo_analysis 2 "d1" 2000; demo_analysis 3 "d2" 1500].
Definition stored_analyses (limit : option Z) : AnalysisRepository :=
  match StoreBatch (empty_analyses limit) demo_analyses with
  | Some (r, _) => r
  | None => empty_analyses limit
  end.

Lemma demo_analyses_distinct : NoDup (an_EntityId <$> demo_analyses).
Proof. apply (bool_decide_unpack _). vm_compute. exact I. Qed.

Lemma empty_analyses_ok limit : repo_ok (empty_analyses limit).
Proof.
  split; [split|].
  - intros k v Hk. cbn in Hk. by rewrite lookup_empty in Hk.
  - intros u k Hk. cbn in Hk. by rewrite lookup_empty in Hk.
  - intros id d Hd. cbn in Hd. by rewrite lookup_empty in Hd.
Qed.

Lemma demo_indexable n ns at_ : indexable (demo_analysis n ns at_).
Proof. intros k v Hk. simpl in Hk. by rewrite lookup_empty in Hk. Qed.

Lemma stored_analyses_batch limit :
  StoreBatch (empty_analyses limit) demo_analyses = Some (stored_analyses limit, None).
Proof. vm_refl. Qed.

Lemma stored_analyses_ok limit : repo_ok (stored_analyses limit).
Proof.
  eapply StoreBatch_preserves; [apply empty_analyses_ok| |apply demo_analyses_distinct|apply stored_analyses_batch].
  repeat (constructor; [apply demo_indexable|]). constructor.
Qed.

Lemma Store_then_Fetch_witness :
  let a := demo_analysis 9 "d1" 3000 in
  ∃ r', FetchFullByEntityId r' "d1" (an_EntityId a) = Ok (canonical a).
Proof.
  destruct (StoreAnalysis (stored_analyses None) (demo_analysis 9 "d1" 3000))
    as [[r' [e|]]|] eqn:E; [discriminate E| |discriminate E].
  exists r'.
  exact (proj1 (proj2 (Store_then_Fetch (stored_analyses None) (demo_analysis 9 "d1" 3000) r' "d1"
    (proj1 (stored_analyses_ok None)) E))).
Defined.

Lemma StoreBatch_equiv_witness : ∃ r2,
  store_each (empty_analyses None) demo_analyses = Some (r2, None) ∧
  db_map (ar_db (stored_analyses None)) = db_map (ar_db r2).
Proof.
  destruct (store_each (empty_analyses None) demo_analyses) as [[r2 [e|]]|] eqn:E;
    [discriminate E| |discriminate E].
  exists r2. split; [reflexivity|].
  exact (proj1 (StoreBatch_equiv _ _ _ _ demo_analyses_distinct (stored_analyses_batch None) E)).
Defined.

Lemma stored_analyses_inv limit a :
  analysis_stored (db_map (ar_db (stored_analyses limit))) a → a ∈ canonical <$> demo_analyses.
Proof.
  destruct (StoreBatch_effect _ _ _ (stored_analyses_batch limit)) as (_ & -> & _).
  intros [H|(v & Hv & _)]%store_effects_stored_inv; [done|].
  cbn in Hv. by rewrite lookup_empty in Hv.
Qed.

Lemma scan_walk_enumerates_witness :
  ∃ ans, scan_walk 7 (stored_analyses (Some 1)) "d1" None = Ok ans ∧ NoDup (an_key <$> ans).
Proof.
  destruct (scan_walk_enumerates (stored_analyses (Some 1)) "d1" 7) as (ans & H1 & H2 & _).
  - exact (proj1 (stored_analyses_ok _)).
  - apply isolated_colon_free; [reflexivity|]. intros a Ha%stored_analyses_inv.
    unfold demo_analyses in Ha. rewrite !fmap_cons in Ha.
    repeat (apply elem_of_cons in Ha as [->|Ha]; [reflexivity|]). by inversion Ha.
  - intros n [= <-]. reflexivity.
  - vm_compute. lia.
  - exists ans. exact (conj H1 H2).
Defined.

Example scan_two_pages :
  (scan_walk 7 (stored_analyses (Some 1)) "d1" None) =
    Ok [canonical (demo_analysis 2 "d1" 2000); canonical (demo_analysis 1 "d1" 1000)].
Proof. vm_refl. Qed.

Lemma SearchPaginated_correct_witness : ∃ results,
  SearchPaginated (stored_analyses None) "due" "d1" 0 = (results, 2, None) ∧
  Z.of_nat (length results) = 2.
Proof.
  assert (SearchPaginated (stored_analyses None) "due" "d1" 0 =
    ((SearchPaginated (stored_analyses None) "due" "d1" 0).1.1, 2, None)) as E by vm_refl.
  eexists. split; [exact E|].
  assert (0 ≤ ar_blugeLimit (stored_analyses None)) as Hl by (vm_compute; discriminate).
  assert (Z.of_nat (size (writer_docs (ar_writer (stored_analyses None)))) < 2 ^ 64) as Hs
    by (vm_compute; reflexivity).
  assert ("d1" ≠ "") as Hne by discriminate.
  pose proof (SearchPaginated_correct (stored_analyses None) "due" "d1" 0 _ _
    (stored_analyses_ok None) Hne (Z.le_refl 0) Hl Hs E) as Hsp.
  refine (eq_trans (proj2 (proj2 (proj2 Hsp)) (λ h, ex_intro _ _ eq_refl)) _). vm_refl.
Defined.

(** A namespace that contains the separator is not isolated: scanning ["chat"]
    also returns what is stored under ["chat:1"]. *)
Example scan_leaks_nested_namespace :
  match StoreAnalysis (empty_analyses None) (demo_analysis 1 "chat:1" 1000) with
  | Some (r, None) => ScanAnalysesByRoom r "chat" None
  | _ => Err EOF
  end = Ok ([canonical (demo_analysis 1 "chat:1" 1000)], None).
Proof. vm_refl. Qed.
