(* ===== verification/TaskQueue.v ===== *)
(** * TaskQueue: [infrastructure/storage/file_task_repository.go] and
    [runtime/workers/file_transfer.go]

    The persistent queue of files to fetch and the worker that drains it.  The
    worker is verified against the interface [IFileTaskRepository] and its
    contract [TaskQueueSpec]; the repository discharges the contract. *)

From Stdlib Require Import Ascii String.
From S2P Require Import Prelude Errors Env Store Text Domain Mime.

(** ** Data *)

Abbreviation Priority := Z (only parsing).
Definition HIGH : Priority := 0.
Definition NORMAL : Priority := 1.

Record FileTask := MkFileTask {
  tk_ID : string; tk_DriveID : string; tk_Path : string; tk_RawMimeType : string;
  tk_EffectiveMimeType : MIME; tk_Size : Z; tk_Priority : Priority; tk_CreatedAt : time;
  tk_RetryCount : Z;
}.

(** ** The worker, over the repository's interface *)

Class IFileTaskRepository := {
  task_repo : Type;
  repo_GetNextBatch : task_repo → Z → result error (list FileTask);
  repo_MarkAsProcessing : task_repo → FileTask → task_repo * option error;
}.

(** The contract: a queue, of which a batch is a prefix and from which marking
    its head removes it. *)
Class TaskQueueSpec (I : IFileTaskRepository) := {
  queue_ok : task_repo → Prop;
  queue : task_repo → list FileTask;
  next_batch_prefix r n : queue_ok r →
    repo_GetNextBatch r n = Ok (take (Z.to_nat n) (queue r));
  mark_head r t l : queue_ok r → queue r = t :: l →
    ∃ r', repo_MarkAsProcessing r t = (r', None) ∧ queue_ok r' ∧ queue r' = l;
}.

Section FileTransferWorker.
Context {I : IFileTaskRepository}.

Record FileTransferWorker := NewFileTransferWorker {
  fw_repo : task_repo;
  fw_pendingFileBatchSize : Z;
}.

Definition request_of (t : FileTask) : FileDownloaderRequest :=
  MkFileDownloaderRequest (tk_DriveID t) (tk_ID t) (tk_Path t).

(** The dispatch loop; [requestChan] is what has been sent, oldest first. *)
Fixpoint dispatch (r : task_repo) (tasks : list FileTask)
    (requestChan : list FileDownloaderRequest) : task_repo * list FileDownloaderRequest :=
  match tasks with
  | [] => (r, requestChan)
  | task :: tasks =>
      match repo_MarkAsProcessing r task with
      | (r, Some _) => dispatch r tasks requestChan
      | (r, None) => dispatch r tasks (requestChan ++ [request_of task])
      end
  end.

(** What [select] received. *)
Inductive poll_signal := PollDone (err : error) | PollTick.

Definition poll (w : FileTransferWorker) (requestChan : list FileDownloaderRequest)
  : FileTransferWorker * list FileDownloaderRequest :=
  match repo_GetNextBatch (fw_repo w) (fw_pendingFileBatchSize w) with
  | Err _ => (w, requestChan)
  | Ok tasks =>
      if (length tasks =? 0)%nat then (w, requestChan)
      else let '(r, requestChan) := dispatch (fw_repo w) tasks requestChan in
           (NewFileTransferWorker r (fw_pendingFileBatchSize w), requestChan)
  end.

(** [Run], over the signals its loop receives; [None] while it still runs. *)
Fixpoint FileTransferWorker_Run (signals : list poll_signal) (w : FileTransferWorker)
    (requestChan : list FileDownloaderRequest)
  : FileTransferWorker * list FileDownloaderRequest * option error :=
  match signals with
  | [] => (w, requestChan, None)
  | PollDone err :: _ => (w, requestChan, Some err)
  | PollTick :: signals =>
      let '(w, requestChan) := poll w requestChan in
      FileTransferWorker_Run signals w requestChan
  end.

Context {S : TaskQueueSpec I}.

Lemma dispatch_prefix tasks : ∀ r l chan,
  queue_ok r → queue r = tasks ++ l →
  ∃ r', dispatch r tasks chan = (r', chan ++ (request_of <$> tasks)) ∧ queue_ok r' ∧ queue r' = l.
Proof.
  induction tasks as [|t tasks IH]; intros r l chan Hok Hq; simpl.
  { exists r. by rewrite app_nil_r. }
  destruct (mark_head r t (tasks ++ l) Hok Hq) as (r1 & -> & Hok1 & Hq1).
  destruct (IH r1 l (chan ++ [request_of t]) Hok1 Hq1) as (r' & -> & Hok' & Hq').
  exists r'. by rewrite <- app_assoc.
Qed.

Lemma poll_spec w chan : queue_ok (fw_repo w) →
  let n := Z.to_nat (fw_pendingFileBatchSize w) in
  ∃ r', poll w chan = (NewFileTransferWorker r' (fw_pendingFileBatchSize w),
                       chan ++ (request_of <$> take n (queue (fw_repo w)))) ∧
        queue_ok r' ∧ queue r' = drop n (queue (fw_repo w)).
Proof.
  intros Hok n. unfold poll. rewrite next_batch_prefix by done. fold n.
  destruct (Nat.eqb_spec (length (take n (queue (fw_repo w)))) 0) as [H0|H0].
  - apply length_zero_iff_nil in H0. rewrite H0. exists (fw_repo w). simpl.
    rewrite app_nil_r. split_and!; [by destruct w|done|].
    rewrite <- (take_drop n (queue (fw_repo w))) at 1. by rewrite H0.
  - destruct (dispatch_prefix (take n (queue (fw_repo w))) (fw_repo w)
      (drop n (queue (fw_repo w))) chan Hok) as (r' & -> & Hok' & Hq');
      [by rewrite take_drop|]. by exists r'.
Qed.

Lemma Run_ticks k : ∀ w chan, queue_ok (fw_repo w) → 0 < fw_pendingFileBatchSize w →
  (length (queue (fw_repo w)) ≤ k)%nat →
  ∃ w', FileTransferWorker_Run (repeat PollTick k) w chan =
          (w', chan ++ (request_of <$> queue (fw_repo w)), None) ∧
        queue_ok (fw_repo w') ∧ queue (fw_repo w') = [].
Proof.
  induction k as [|k IH]; intros w chan Hok Hb Hk; cbn [repeat FileTransferWorker_Run].
  { destruct (queue (fw_repo w)) eqn:E; [|simpl in Hk; lia].
    exists w. by rewrite app_nil_r. }
  destruct (poll_spec w chan Hok) as (r' & -> & Hok' & Hq').
  destruct (IH (NewFileTransferWorker r' (fw_pendingFileBatchSize w))
    (chan ++ (request_of <$> take (Z.to_nat (fw_pendingFileBatchSize w)) (queue (fw_repo w)))))
    as (w' & HR & Hok2 & Hq2); simpl; [done|done| |].
  { rewrite Hq', length_drop. lia. }
  exists w'. split; [|done]. rewrite HR. simpl. rewrite Hq', <- app_assoc, <- fmap_app.
  by rewrite take_drop.
Qed.

Lemma Run_app s1 : ∀ s2 w chan w1 chan1,
  FileTransferWorker_Run s1 w chan = (w1, chan1, None) →
  FileTransferWorker_Run (s1 ++ s2) w chan = FileTransferWorker_Run s2 w1 chan1.
Proof.
  induction s1 as [|[e|] s1 IH]; intros s2 w chan w1 chan1 H; simpl in *; [by simplify_eq|done|].
  destruct (poll w chan). by eapply IH.
Qed.

(** The poller drains the queue: as many ticks as there are pending tasks
    suffice for every one of them to have been sent to the downloader, exactly
    once and in the order of the queue, whatever the (positive) batch size;
    it then stops with the context's error. *)
Theorem FileTransferWorker_drains w k err :
  queue_ok (fw_repo w) → 0 < fw_pendingFileBatchSize w →
  (length (queue (fw_repo w)) ≤ k)%nat →
  ∃ w', FileTransferWorker_Run (repeat PollTick k ++ [PollDone err]) w [] =
          (w', request_of <$> queue (fw_repo w), Some err) ∧
        queue_ok (fw_repo w') ∧ queue (fw_repo w') = [].
Proof.
  intros Hok Hb Hk. destruct (Run_ticks k w [] Hok Hb Hk) as (w' & HR & Hok' & Hq').
  exists w'. by rewrite (Run_app _ _ _ _ _ _ HR).
Qed.

End FileTransferWorker.

(** ** The repository *)

Section TaskRepository.
Context {B : Badger} {BL : BadgerLaws B} {T : Timestamppb} {TL : TimestamppbLaws T}.

(** [pb.FileTask]; an enum value is its number. *)
Record pbFileTask := MkPbFileTask {
  pt_Id : string; pt_DriveId : string; pt_Path : string; pt_RawMimeType : string;
  pt_EffectiveMimeType : string; pt_Size : Z; pt_Prior : Z; pt_CreatedAt : option Timestamp;
  pt_RetryCount : Z;
}.
Definition Priority_HIGH : Z := 0.
Definition Priority_NORMAL : Z := 1.

Context {C : Codec pbFileTask} {CL : CodecLaws pbFileTask}.

Record FileTaskRepository := NewFileTaskRepository { tr_db : DB }.

Definition toPbPriority (priority : Priority) : Z :=
  if priority =? HIGH then Priority_HIGH
  else if priority =? NORMAL then Priority_NORMAL
  else Priority_NORMAL.

Definition toPbFileTask (task : FileTask) : pbFileTask :=
  MkPbFileTask (tk_ID task) (tk_DriveID task) (tk_Path task) (tk_RawMimeType task)
    (tk_EffectiveMimeType task) (tk_Size task) (toPbPriority (tk_Priority task))
    (Some (timestamppb_New (tk_CreatedAt task))) (int32 (tk_RetryCount task)).

Definition fromPbFileTask (p : pbFileTask) : FileTask :=
  MkFileTask (pt_Id p) (pt_DriveId p) (pt_Path p) (pt_RawMimeType p)
    (ToMIME (pt_EffectiveMimeType p)) (pt_Size p) (pt_Prior p) (AsTime (pt_CreatedAt p))
    (pt_RetryCount p).

Definition pending_prefix : string := "work:pending:".
Definition pending_key (task : FileTask) : string :=
  pending_prefix +:+ fmt_d (tk_Priority task) +:+ ":" +:+
  fmt_d (UnixNano (tk_CreatedAt task)) +:+ ":" +:+ tk_ID task.
Definition processing_key (task : FileTask) : string := "work:processing:" +:+ tk_ID task.

Definition EnqueueTask (f : FileTaskRepository) (task : FileTask)
  : FileTaskRepository * option error :=
  match Marshal (toPbFileTask task) with
  | Err e => (f, Some e)
  | Ok data =>
      let '(db, err) := Update (tr_db f) (λ txn, txn_Set txn (pending_key task) data) in
      (NewFileTaskRepository db, err)
  end.

Definition decode_task (v : string) : result error FileTask :=
  match Unmarshal v with
  | Err e => Err (Errorf "failed to unmarshal task: " e)
  | Ok pbTask => Ok (fromPbFileTask pbTask)
  end.

(** The iteration of [GetNextBatch]. *)
Fixpoint batch_loop (limit : Z) (it : list entry) (tasks : list FileTask)
  : result error (list FileTask) :=
  match it with
  | [] => Ok tasks
  | item :: it =>
      if has_prefix pending_prefix item && (Z.of_nat (length tasks) <? limit)
      then let! task := decode_task item.2 in batch_loop limit it (tasks ++ [task])
      else Ok tasks
  end.

Definition GetNextBatch (f : FileTaskRepository) (limit : Z) : result error (list FileTask) :=
  match View (tr_db f) (λ txn, batch_loop limit (it_Seek txn false pending_prefix) []) with
  | Err e => Err (Errorf "error during batch fetch: " e)
  | Ok tasks => Ok tasks
  end.

Definition MarkAsProcessing (f : FileTaskRepository) (task : FileTask)
  : FileTaskRepository * option error :=
  match Marshal (toPbFileTask task) with
  | Err e => (f, Some (Errorf "failed to marshal task for processing: " e))
  | Ok data =>
      let '(db, err) := Update (tr_db f) (λ txn,
        let gone := match txn_Get txn (pending_key task) with
                    | Err e => Is e ErrKeyNotFound
                    | Ok _ => false
                    end in
        if gone then Err (Opaque ("task " +:+ tk_ID task +:+ " is no longer pending"))
        else let! txn := txn_Delete txn (pending_key task) in
             txn_Set txn (processing_key task) data) in
      (NewFileTaskRepository db, err)
  end.

(** ** Keys *)

(** A task that survives its encoding. *)
Definition task_ok (t : FileTask) : Prop :=
  ToMIME (tk_EffectiveMimeType t) = tk_EffectiveMimeType t ∧
  (tk_Priority t = HIGH ∨ tk_Priority t = NORMAL) ∧ in_s 32 (tk_RetryCount t).

Lemma fromPb_toPb t : task_ok t → fromPbFileTask (toPbFileTask t) = t.
Proof.
  intros (Hm & Hp & Hr). unfold fromPbFileTask, toPbFileTask; simpl.
  rewrite Hm, AsTime_New, (wrap_s_id 32) by done.
  destruct t; simpl in *. by destruct Hp; subst.
Qed.

Lemma decode_Marshal_task t b : task_ok t → Marshal (toPbFileTask t) = Ok b →
  decode_task b = Ok t.
Proof.
  intros Ht Hb. unfold decode_task. rewrite (Unmarshal_Marshal _ _ Hb). by rewrite fromPb_toPb.
Qed.

(** Created between September 2001 and 2262: nanoseconds of 19 digits. *)
Definition recent (t : time) : Prop := 10 ^ 18 ≤ t < 2 ^ 63.

(** The order in which tasks are due: by priority, then oldest first. *)
Definition due_before (a b : FileTask) : Prop :=
  tk_Priority a < tk_Priority b ∨
  tk_Priority a = tk_Priority b ∧ tk_CreatedAt a ≤ tk_CreatedAt b.

Lemma pending_key_due a b : task_ok a → task_ok b →
  recent (tk_CreatedAt a) → recent (tk_CreatedAt b) →
  String.le (pending_key a) (pending_key b) → due_before a b.
Proof.
  intros (_ & Ha & _) (_ & Hb & _) Hra Hrb. unfold pending_key. rewrite str_le_app_l.
  unfold recent in *. rewrite !UnixNano_modern by (unfold modern; lia).
  rewrite (fmt_d_fits 18 (tk_CreatedAt a)), (fmt_d_fits 18 (tk_CreatedAt b)) by (simpl; lia).
  assert (∀ p, p = HIGH ∨ p = NORMAL → fmt_d p = digits 1 p) as Hd
    by (intros p [->| ->]; reflexivity).
  rewrite !Hd by done. unfold HIGH, NORMAL in *. rewrite str_le_compare.
  rewrite str_compare_app_eqlen by (by rewrite !digits_length).
  rewrite (digits_compare 1) by (simpl; lia).
  intros Hc. unfold due_before. destruct (Z.compare_spec (tk_Priority a) (tk_Priority b)) as [He|He|He];
    [right|by left|done]. split; [done|]. revert Hc.
  rewrite (str_compare_app_l ":"), str_compare_app_eqlen by (by rewrite !digits_length).
  rewrite (digits_compare 19) by (simpl; lia).
  destruct (Z.compare_spec (tk_CreatedAt a) (tk_CreatedAt b)); simpl; intros; lia || done.
Qed.

Lemma pending_key_prefix t : String.prefix pending_prefix (pending_key t) = true.
Proof. apply prefix_app. Qed.
Lemma processing_not_pending t : String.prefix pending_prefix (processing_key t) = false.
Proof. done. Qed.
Lemma pending_ne_processing t u : pending_key t ≠ processing_key u.
Proof. done. Qed.
Lemma pending_key_ne t : pending_key t ≠ "".
Proof. done. Qed.
Lemma processing_key_ne t : processing_key t ≠ "".
Proof. done. Qed.
#[local] Opaque pending_prefix pending_key processing_key.

(** ** The queue in the store *)

Definition pending (m : gmap string string) (t : FileTask) : Prop :=
  ∃ v, m !! pending_key t = Some v ∧ decode_task v = Ok t.

(** A pending key holds the encoding of the task it was built from. *)
Definition tasks_ok (m : gmap string string) : Prop :=
  ∀ k v, m !! k = Some v → String.prefix pending_prefix k = true →
    ∃ t, k = pending_key t ∧ Marshal (toPbFileTask t) = Ok v ∧ task_ok t.

Definition decoded (e : entry) : list FileTask :=
  match decode_task e.2 with Ok t => [t] | Err _ => [] end.
(** The pending tasks in the order of their keys. *)
Definition pending_tasks (m : gmap string string) : list FileTask :=
  prefix_entries m pending_prefix ≫= decoded.

Lemma pending_entries m : tasks_ok m →
  Forall2 (λ e t, e.1 = pending_key t ∧ decode_task e.2 = Ok t ∧ task_ok t ∧
             Marshal (toPbFileTask t) = Ok e.2)
    (prefix_entries m pending_prefix) (pending_tasks m).
Proof.
  intros Hok. unfold pending_tasks.
  assert (∀ e, e ∈ prefix_entries m pending_prefix →
    ∃ t, e.1 = pending_key t ∧ decode_task e.2 = Ok t ∧ task_ok t ∧
      Marshal (toPbFileTask t) = Ok e.2) as Hall.
  { intros [k v] [Hk Hp]%elem_of_prefix_entries.
    destruct (Hok _ _ Hk Hp) as (t & ? & ? & ?). exists t. eauto using decode_Marshal_task. }
  induction (prefix_entries m pending_prefix) as [|e es IH]; [constructor|].
  destruct (Hall e) as (t & Hk & Hd & Ht); [left|]. simpl. unfold decoded at 1. rewrite Hd.
  constructor; [done|]. apply IH. intros. apply Hall. by right.
Qed.

Lemma batch_loop_spec limit it : ∀ acc es ts,
  take_while (has_prefix pending_prefix) it = es →
  Forall2 (λ e t, decode_task e.2 = Ok t) es ts →
  batch_loop limit it acc = Ok (acc ++ take (Z.to_nat limit - length acc) ts).
Proof.
  induction it as [|item it IH]; intros acc es ts Hes HF; cbn [batch_loop take_while] in *.
  { subst. inversion HF. by rewrite take_nil, app_nil_r. }
  destruct (has_prefix pending_prefix item).
  2:{ subst. inversion HF. by rewrite take_nil, app_nil_r. }
  subst es. inversion HF as [|? t ? ts' Hd HF']; subst. cbn [andb].
  destruct (Z.ltb_spec (Z.of_nat (length acc)) limit).
  - rewrite Hd. cbn [res_bind]. rewrite (IH _ _ ts' eq_refl HF'), length_app. simpl.
    replace (Z.to_nat limit - length acc)%nat with (S (Z.to_nat limit - (length acc + 1))) by lia.
    by rewrite <- app_assoc.
  - replace (Z.to_nat limit - length acc)%nat with 0%nat by lia. by rewrite app_nil_r.
Qed.

Lemma GetNextBatch_eq f n : tasks_ok (db_map (tr_db f)) →
  GetNextBatch f n = Ok (take (Z.to_nat n) (pending_tasks (db_map (tr_db f)))).
Proof.
  intros Hok. unfold GetNextBatch, View. rewrite Seek_map, begin_map.
  rewrite (batch_loop_spec n _ [] (prefix_entries (db_map (tr_db f)) pending_prefix)
    (pending_tasks (db_map (tr_db f)))).
  - by rewrite Nat.sub_0_r.
  - apply forward_scan.
  - eapply Forall2_impl; [by apply pending_entries|]. naive_solver.
Qed.

Lemma elem_of_pending_tasks m t : tasks_ok m → t ∈ pending_tasks m ↔ pending m t.
Proof.
  intros Hok. pose proof (pending_entries m Hok) as HF. split.
  - intros Ht. destruct (Forall2_elem_of_r _ _ _ _ HF Ht) as ([k v] & Hin & Hk & Hd & _).
    simpl in *. subst. apply elem_of_prefix_entries in Hin as [Hin _]. by exists v.
  - intros (v & Hv & Hd).
    assert ((pending_key t, v) ∈ prefix_entries m pending_prefix) as Hin
      by (apply elem_of_prefix_entries; split; [done|apply pending_key_prefix]).
    destruct (Forall2_elem_of_l _ _ _ _ HF Hin) as (t' & Ht' & _ & Hd' & _).
    simpl in Hd'. by rewrite Hd in Hd'; simplify_eq.
Qed.

Lemma pending_tasks_sorted m : tasks_ok m →
  StronglySorted (λ a b, String.le (pending_key a) (pending_key b)) (pending_tasks m).
Proof.
  intros Hok. eapply Forall2_StronglySorted;
    [|exact (pending_entries m Hok)|apply prefix_entries_sorted].
  intros e1 e2 t1 t2 (E1 & _) (E2 & _). unfold key_le. by rewrite E1, E2.
Qed.

Lemma pending_tasks_NoDup m : tasks_ok m → NoDup (pending_key <$> pending_tasks m).
Proof.
  intros Hok. replace (pending_key <$> pending_tasks m)
    with (prefix_entries m pending_prefix).*1; [apply prefix_entries_NoDup|].
  pose proof (pending_entries m Hok) as HF.
  induction HF as [|e t es ts (He & _) _ IH]; [done|]. rewrite !fmap_cons, He. by f_equal.
Qed.

(** A batch is the head of the queue: [GetNextBatch] returns the first
    [limit] of the pending tasks, each once, high priority first and, within a
    priority, oldest first (for tasks created since September 2001, when
    nanosecond stamps reached 19 digits: the stamps in the keys are not
    padded). *)
Theorem GetNextBatch_correct f limit : tasks_ok (db_map (tr_db f)) →
  ∃ all, GetNextBatch f limit = Ok (take (Z.to_nat limit) all) ∧
    (∀ t, t ∈ all ↔ pending (db_map (tr_db f)) t) ∧
    NoDup (pending_key <$> all) ∧
    ((∀ t, t ∈ all → recent (tk_CreatedAt t)) → StronglySorted due_before all).
Proof.
  intros Hok. exists (pending_tasks (db_map (tr_db f))). split_and!.
  - by apply GetNextBatch_eq.
  - intros t. by apply elem_of_pending_tasks.
  - by apply pending_tasks_NoDup.
  - intros Hrec. pose proof (pending_tasks_sorted _ Hok) as Hs.
    assert (∀ t, t ∈ pending_tasks (db_map (tr_db f)) → task_ok t) as Htk.
    { intros t Ht. destruct (Forall2_elem_of_r _ _ _ _ (pending_entries _ Hok) Ht)
        as (e & _ & _ & _ & ? & _). done. }
    induction Hs as [|a l Hs IH Ha]; constructor.
    + apply IH; intros; [apply Hrec|apply Htk]; by right.
    + rewrite Forall_forall in *. intros b Hb.
      apply pending_key_due; [apply Htk|apply Htk|apply Hrec|apply Hrec|by apply Ha];
        by (left || right).
Qed.

(** ** Writing *)

Lemma EnqueueTask_map f t f' : EnqueueTask f t = (f', None) →
  ∃ b, Marshal (toPbFileTask t) = Ok b ∧
       db_map (tr_db f') = <[pending_key t := b]> (db_map (tr_db f)).
Proof.
  unfold EnqueueTask. destruct (Marshal _) as [b|]; [|done].
  destruct (Update _ _) as [db err] eqn:Hu. intros [= <- ->].
  apply Update_ok in Hu as (t' & Ht & Hm).
  exists b. split; [done|]. simpl. by rewrite Hm, (Set_writes _ _ _ _ _ Ht), begin_writes.
Qed.

Lemma MarkAsProcessing_map f t f' : MarkAsProcessing f t = (f', None) →
  is_Some (db_map (tr_db f) !! pending_key t) ∧
  ∃ b, Marshal (toPbFileTask t) = Ok b ∧
    db_map (tr_db f') = <[processing_key t := b]> (delete (pending_key t) (db_map (tr_db f))).
Proof.
  unfold MarkAsProcessing. destruct (Marshal _) as [b|]; [|done].
  destruct (Update _ _) as [db err] eqn:Hu. intros [= <- ->].
  apply Update_ok in Hu as (t' & Ht & Hm). rewrite Get_map, begin_map in Ht.
  destruct (db_map (tr_db f) !! pending_key t) as [v|] eqn:Hk;
    [|by rewrite Is_refl in Ht].
  split; [done|]. exists b. split; [done|]. inv_res Ht.
  simpl. by rewrite Hm, (Set_writes _ _ _ _ _ Ht), (Delete_writes _ _ _ _ E), begin_writes.
Qed.

Lemma MarkAsProcessing_err f t f' e : MarkAsProcessing f t = (f', Some e) → tr_db f' = tr_db f.
Proof.
  unfold MarkAsProcessing. destruct (Marshal _); [|by intros [= <- _]].
  destruct (Update _ _) as [db err] eqn:Hu. intros [= <- ->]. simpl. by eapply Update_err.
Qed.

Lemma EnqueueTask_err f t f' e : EnqueueTask f t = (f', Some e) → tr_db f' = tr_db f.
Proof.
  unfold EnqueueTask. destruct (Marshal _); [|by intros [= <- _]].
  destruct (Update _ _) as [db err] eqn:Hu. intros [= <- ->]. simpl. by eapply Update_err.
Qed.

Lemma tasks_ok_insert m t b : tasks_ok m → task_ok t → Marshal (toPbFileTask t) = Ok b →
  tasks_ok (<[pending_key t := b]> m).
Proof.
  intros Hok Ht Hb k v [[<- <-]|[_ Hk]]%lookup_insert_Some Hp; [|by eapply Hok].
  by exists t.
Qed.

Lemma tasks_ok_mark m t b : tasks_ok m →
  tasks_ok (<[processing_key t := b]> (delete (pending_key t) m)).
Proof.
  intros Hok k v [[<- _]|[_ Hk]]%lookup_insert_Some Hp.
  - by rewrite processing_not_pending in Hp.
  - apply lookup_delete_Some in Hk as [_ Hk]. by eapply Hok.
Qed.

Lemma EnqueueTask_preserves f t :
  tasks_ok (db_map (tr_db f)) → task_ok t → tasks_ok (db_map (tr_db (EnqueueTask f t).1)).
Proof.
  intros Hok Ht. destruct (EnqueueTask f t) as [f' [e|]] eqn:E; simpl.
  - apply EnqueueTask_err in E. by rewrite E.
  - apply EnqueueTask_map in E as (b & Hb & ->). by apply tasks_ok_insert.
Qed.

(** The queue's transitions are atomic: enqueueing adds exactly the given
    task; marking a pending task moves it, leaves every other pending task
    where it is, and cannot succeed twice; a failed operation changes
    nothing. *)
Theorem queue_transitions f t : tasks_ok (db_map (tr_db f)) → task_ok t →
  (∀ f' err, EnqueueTask f t = (f', err) →
     tasks_ok (db_map (tr_db f')) ∧
     match err with
     | Some _ => tr_db f' = tr_db f
     | None => pending (db_map (tr_db f')) t ∧
         ∀ u, pending_key u ≠ pending_key t →
           pending (db_map (tr_db f')) u ↔ pending (db_map (tr_db f)) u
     end) ∧
  (∀ f' err, MarkAsProcessing f t = (f', err) →
     tasks_ok (db_map (tr_db f')) ∧
     match err with
     | Some _ => tr_db f' = tr_db f
     | None =>
         db_map (tr_db f') !! pending_key t = None ∧
         (∃ v, db_map (tr_db f') !! processing_key t = Some v ∧ decode_task v = Ok t) ∧
         (∀ u, pending_key u ≠ pending_key t →
            pending (db_map (tr_db f')) u ↔ pending (db_map (tr_db f)) u) ∧
         ∃ e, MarkAsProcessing f' t = (f', Some e)
     end).
Proof.
  intros Hok Ht. split; intros f' [e|] H.
  - apply EnqueueTask_err in H. by rewrite H.
  - apply EnqueueTask_map in H as (b & Hb & ->). split; [by apply tasks_ok_insert|]. split.
    + exists b. rewrite lookup_insert_eq. split; [done|]. by apply decode_Marshal_task.
    + intros u Hu. unfold pending. by rewrite lookup_insert_ne.
  - apply MarkAsProcessing_err in H. by rewrite H.
  - apply MarkAsProcessing_map in H as (_ & b & Hb & Hm).
    assert (db_map (tr_db f') !! pending_key t = None) as Hgone.
    { rewrite Hm, lookup_insert_ne by (apply not_eq_sym, pending_ne_processing).
      apply lookup_delete_eq. }
    split; [rewrite Hm; by apply tasks_ok_mark|]. split_and!; [done| | |].
    + exists b. rewrite Hm, lookup_insert_eq. split; [done|]. by apply decode_Marshal_task.
    + intros u Hu. unfold pending. rewrite Hm, lookup_insert_ne
        by (apply not_eq_sym, pending_ne_processing). by rewrite lookup_delete_ne.
    + unfold MarkAsProcessing, Update. rewrite Hb, Get_map, begin_map, Hgone, Is_refl.
      destruct f'. by eexists.
Qed.

(** ** The repository meets the worker's contract *)

Instance TaskRepositoryI : IFileTaskRepository := {|
  task_repo := FileTaskRepository;
  repo_GetNextBatch := GetNextBatch;
  repo_MarkAsProcessing := MarkAsProcessing;
|}.

(** Marking the head of the queue succeeds on a store that can write: a
    queued task was encoded once, so it can be encoded again. *)
Context {BR : BadgerReliable B}.

Lemma MarkAsProcessing_succeeds f t b v : Marshal (toPbFileTask t) = Ok b →
  db_map (tr_db f) !! pending_key t = Some v → ∃ f', MarkAsProcessing f t = (f', None).
Proof.
  intros Hb Hv. unfold MarkAsProcessing, Update. rewrite Hb.
  rewrite Get_map, begin_map, Hv.
  destruct (Delete_succeeds (NewTransaction (tr_db f)) (pending_key t)) as [t1 ->];
    [apply pending_key_ne|]. cbn [res_bind].
  destruct (Set_succeeds t1 (processing_key t) b) as [t2 ->]; [apply processing_key_ne|].
  destruct (Commit_succeeds (tr_db f) t2) as [db ->]. by eexists.
Qed.

Lemma mark_head_task f t l : tasks_ok (db_map (tr_db f)) → pending_tasks (db_map (tr_db f)) = t :: l →
  ∃ f', MarkAsProcessing f t = (f', None) ∧ tasks_ok (db_map (tr_db f')) ∧
        pending_tasks (db_map (tr_db f')) = l.
Proof.
  intros Hok Hq. pose proof (pending_entries _ Hok) as HF. rewrite Hq in HF.
  destruct (prefix_entries _ _) as [|[k v] es] eqn:Hes; [by inversion HF|].
  inversion HF as [|? ? ? ? (Hk & Hd & Ht & Hb) HF']; subst. simpl in Hk, Hd, Hb. subst k.
  assert (db_map (tr_db f) !! pending_key t = Some v) as Hv.
  { eapply proj1, (elem_of_prefix_entries _ pending_prefix). rewrite Hes. left. }
  destruct (MarkAsProcessing_succeeds f t v v Hb Hv) as [f' Hf']. exists f'. split; [done|].
  apply MarkAsProcessing_map in Hf' as (_ & b & _ & ->). split; [by apply tasks_ok_mark|].
  unfold pending_tasks in *. rewrite Hes in Hq. simpl in Hq. unfold decoded at 1 in Hq.
  simpl in Hq. rewrite Hd in Hq. injection Hq as Hq. rewrite <- Hq. f_equal.
  rewrite prefix_entries_insert_other by apply processing_not_pending.
  by eapply prefix_entries_delete_head.
Qed.

Definition TaskRepository_spec : TaskQueueSpec TaskRepositoryI := {|
  queue_ok (f : @task_repo TaskRepositoryI) := tasks_ok (db_map (tr_db f));
  queue (f : @task_repo TaskRepositoryI) := pending_tasks (db_map (tr_db f));
  next_batch_prefix := GetNextBatch_eq;
  mark_head := mark_head_task;
|}.

End TaskRepository.

(** ** Witnesses *)

Definition pbFileTask_to (t : pbFileTask) : list positive :=
  [encode (pt_Id t); encode (pt_DriveId t); encode (pt_Path t); encode (pt_RawMimeType t);
   encode (pt_EffectiveMimeType t); encode (pt_Size t); encode (pt_Prior t);
   encode (pt_CreatedAt t); encode (pt_RetryCount t)].
Definition pbFileTask_of (l : list positive) : option pbFileTask :=
  match l with
  | [i; d; p; r; e; s; q; c; n] =>
      i ← decode i; d ← decode d; p ← decode p; r ← decode r; e ← decode e; s ← decode s;
      q ← decode q; c ← decode c; n ← decode n; Some (MkPbFileTask i d p r e s q c n)
  | _ => None
  end.
Lemma pbFileTask_of_to t : pbFileTask_of (pbFileTask_to t) = Some t.
Proof. lazy beta iota delta [pbFileTask_of pbFileTask_to]. rewrite !decode_encode. by destruct t. Qed.
#[export] Instance pbFileTask_fields : Fielded pbFileTask :=
  {| to_fields := pbFileTask_to; of_fields := pbFileTask_of; of_to_fields := pbFileTask_of_to |}.
#[export] Instance pbFileTask_codec : Codec pbFileTask := FieldCodec pbFileTask.
#[export] Instance pbFileTask_codec_laws : CodecLaws pbFileTask := FieldCodec_laws pbFileTask.

Definition demo_task (id : string) (prio created : Z) : FileTask :=
  MkFileTask id "d1" "/data/a.pdf" "application/pdf" ApplicationPDF 10 prio created 0.
Definition demo_tasks : FileTaskRepository :=
  foldl (λ r t, (EnqueueTask r t).1) (NewFileTaskRepository (B := MapBadger) ∅)
    [demo_task "a" NORMAL (10 ^ 18 + 1); demo_task "b" HIGH (10 ^ 18 + 5);
     demo_task "c" NORMAL (10 ^ 18)].

Lemma demo_task_ok id prio created : prio = HIGH ∨ prio = NORMAL → task_ok (demo_task id prio created).
Proof. intros Hp. split_and!; [reflexivity|exact Hp|unfold in_s; simpl; lia]. Qed.

Lemma demo_tasks_ok : tasks_ok (db_map (tr_db demo_tasks)).
Proof.
  unfold demo_tasks. cbn [foldl]. repeat (apply EnqueueTask_preserves;
    [|apply demo_task_ok; (left; reflexivity) || (right; reflexivity)]).
  intros k v Hk. cbn in Hk. by rewrite lookup_empty in Hk.
Qed.

Lemma FileTransferWorker_drains_witness :
  let I := TaskRepositoryI (B := MapBadger) in
  let spec := TaskRepository_spec in
  ∃ w', FileTransferWorker_Run (I := I) (repeat PollTick 3 ++ [PollDone Canceled])
          (@NewFileTransferWorker I demo_tasks 2) [] =
        (w', request_of <$> pending_tasks (db_map (tr_db demo_tasks)), Some Canceled).
Proof.
  destruct (@FileTransferWorker_drains _ TaskRepository_spec
    (@NewFileTransferWorker (TaskRepositoryI (B := MapBadger)) demo_tasks 2) 3 Canceled)
    as (w' & H & _); [exact demo_tasks_ok|reflexivity|vm_compute; lia|].
  exists w'. exact H.
Defined.

Example drain_order :
  tk_ID <$> pending_tasks (db_map (tr_db demo_tasks)) = ["b"; "c"; "a"].
Proof. vm_refl. Qed.

Lemma GetNextBatch_correct_witness :
  ∃ all, GetNextBatch demo_tasks 2 = Ok (take 2 all) ∧ NoDup (pending_key <$> all).
Proof.
  destruct (GetNextBatch_correct demo_tasks 2 demo_tasks_ok) as (all & H1 & _ & H2 & _).
  exists all. exact (conj H1 H2).
Defined.

Lemma queue_transitions_witness :
  let t := demo_task "b" HIGH (10 ^ 18 + 5) in
  ∃ f', MarkAsProcessing demo_tasks t = (f', None) ∧ ∃ e, MarkAsProcessing f' t = (f', Some e).
Proof.
  pose (f' := (MarkAsProcessing demo_tasks (demo_task "b" HIGH (10 ^ 18 + 5))).1).
  assert (MarkAsProcessing demo_tasks (demo_task "b" HIGH (10 ^ 18 + 5)) = (f', None)) as E
    by vm_refl.
  exists f'. split; [exact E|].
  exact (proj2 (proj2 (proj2 (proj2 (proj2 (queue_transitions demo_tasks
    (demo_task "b" HIGH (10 ^ 18 + 5)) demo_tasks_ok (demo_task_ok _ _ _ (or_introl eq_refl)))
    f' None E))))).
Defined.
