(* ===== verification/Base64.v ===== *)
(** * Base64: the parts of [encoding/base64], [strings] and [fmt] that
    [auth/password.go] uses

    [base64.RawStdEncoding] (no padding; line breaks are skipped when
    decoding), and [fmt.Sscanf] with the [%d] verb. *)

From Stdlib Require Import Ascii String.
From S2P Require Import Prelude Errors Text.

(** ** [base64.RawStdEncoding] *)

Definition b64_char (n : Z) : ascii :=
  byte_of (if n <? 26 then 65 + n else if n <? 52 then 71 + n else if n <? 62 then n - 4
           else if n =? 62 then 43 else 47).
Definition b64_val (c : ascii) : option Z :=
  let v := byte_val c in
  if between 65 90 v then Some (v - 65) else if between 97 122 v then Some (v - 71)
  else if between 48 57 v then Some (v + 4)
  else if v =? 43 then Some 62 else if v =? 47 then Some 63 else None.

Fixpoint b64_encode (s : string) : string :=
  match s with
  | EmptyString => ""
  | String a EmptyString =>
      let a := byte_val a in
      String (b64_char (a / 4)) (String (b64_char (a mod 4 * 16)) "")
  | String a (String b EmptyString) =>
      let a := byte_val a in let b := byte_val b in
      String (b64_char (a / 4)) (String (b64_char (a mod 4 * 16 + b / 16))
        (String (b64_char (b mod 16 * 4)) ""))
  | String a (String b (String c s)) =>
      let a := byte_val a in let b := byte_val b in let c := byte_val c in
      String (b64_char (a / 4)) (String (b64_char (a mod 4 * 16 + b / 16))
        (String (b64_char (b mod 16 * 4 + c / 64)) (String (b64_char (c mod 64)) (b64_encode s))))
  end.

(** The values of the characters, line breaks skipped. *)
Fixpoint b64_values (s : string) : option (list Z) :=
  match s with
  | EmptyString => Some []
  | String c s =>
      if one_of [10; 13] (byte_val c) then b64_values s
      else v ← b64_val c; vs ← b64_values s; Some (v :: vs)
  end.
Fixpoint b64_group (vs : list Z) : option string :=
  match vs with
  | [] => Some ""
  | [_] => None
  | [x; y] => Some (String (byte_of (x * 4 + y / 16)) "")
  | [x; y; z] =>
      Some (String (byte_of (x * 4 + y / 16)) (String (byte_of (y mod 16 * 16 + z / 4)) ""))
  | x :: y :: z :: w :: vs =>
      s ← b64_group vs;
      Some (String (byte_of (x * 4 + y / 16)) (String (byte_of (y mod 16 * 16 + z / 4))
              (String (byte_of (z mod 4 * 64 + w)) s)))
  end.
Definition b64_decode (s : string) : result error string :=
  match b64_values s ≫= b64_group with
  | Some b => Ok b
  | None => Err (Opaque "illegal base64 data")
  end.

Lemma b64_char_val n : 0 ≤ n < 64 →
  b64_val (b64_char n) = Some n ∧ one_of [10; 13] (byte_val (b64_char n)) = false ∧
  byte_val (b64_char n) ≠ 36.
Proof.
  intros Hn. unfold b64_char, b64_val, between, one_of.
  repeat (case_match; z_bool); rewrite ?byte_val_of in * by lia; simpl in *;
    try (split_and!; [f_equal; lia|..]);
    repeat rewrite ?andb_true_iff, ?andb_false_iff, ?orb_false_iff, ?Z.leb_le, ?Z.leb_gt,
      ?Z.eqb_eq, ?Z.eqb_neq in *; lia.
Qed.

Lemma b64_values_cons n s : 0 ≤ n < 64 →
  b64_values (String (b64_char n) s) = (vs ← b64_values s; Some (n :: vs)).
Proof.
  intros Hn. cbn [b64_values]. by destruct (b64_char_val n Hn) as (-> & -> & _).
Qed.

Lemma byte_of_eq z c : z = byte_val c → byte_of z = c.
Proof. intros ->. apply byte_of_val. Qed.

(** Division facts of a byte, for [lia]. *)
Ltac byte_facts c k :=
  pose proof (byte_val_range c); pose proof (Z.div_mod (byte_val c) k ltac:(lia));
  pose proof (Z.mod_pos_bound (byte_val c) k ltac:(lia)).

(** Encoded data is decoded, and holds no separator of the password format. *)
Lemma b64_roundtrip_aux n : ∀ s, (String.length s ≤ n)%nat →
  b64_values (b64_encode s) ≫= b64_group = Some s.
Proof.
  induction n as [|n IH]; intros s Hs; [destruct s; [done|simpl in Hs; lia]|].
  destruct s as [|a [|b [|c s]]]; [done|..]; cbn [b64_encode];
    byte_facts a 4; try byte_facts b 16; try byte_facts c 64;
    rewrite !b64_values_cons by lia.
  - cbn. f_equal. f_equal; apply byte_of_eq. 
    replace (byte_val a mod 4 * 16 / 16) with (byte_val a mod 4) by (rewrite Z.div_mul; lia). lia.
  - cbn [b64_values mbind option_bind b64_group].
    rewrite Z.div_add_l by lia. rewrite (Z.div_small (byte_val b / 16)) by lia.
    rewrite (Z.add_comm (byte_val a mod 4 * 16)), Z.mod_add, (Z.mod_small (byte_val b / 16)) by lia.
    rewrite Z.div_mul by lia.
    do 2 f_equal; [|f_equal]; apply byte_of_eq; lia.
  - specialize (IH s). cbn [String.length] in Hs.
    destruct (b64_values (b64_encode s)) as [vs|]; [|by specialize (IH ltac:(lia))].
    cbn [mbind option_bind b64_group] in *. rewrite IH by lia. cbn.
    rewrite Z.div_add_l by lia. rewrite (Z.div_small (byte_val b / 16)) by lia.
    rewrite (Z.add_comm (byte_val a mod 4 * 16)), Z.mod_add, (Z.mod_small (byte_val b / 16)) by lia.
    rewrite Z.div_add_l by lia. rewrite (Z.div_small (byte_val c / 64)) by lia.
    rewrite (Z.add_comm (byte_val b mod 16 * 4)), Z.mod_add, (Z.mod_small (byte_val c / 64)) by lia.
    do 2 f_equal; [|f_equal; [|f_equal]]; apply byte_of_eq; lia.
Qed.

Lemma b64_roundtrip s : b64_decode (b64_encode s) = Ok s.
Proof. unfold b64_decode. by rewrite (b64_roundtrip_aux (String.length s)). Qed.

Lemma b64_char_not_dollar n : 0 ≤ n < 64 → not_char "$" (b64_char n) = true.
Proof.
  intros Hn. unfold not_char. destruct (Ascii.eqb_spec (b64_char n) "$") as [He|]; [|done].
  destruct (b64_char_val n Hn) as (_ & _ & H). by rewrite He in H.
Qed.

Lemma b64_encode_lacks_aux n : ∀ s, (String.length s ≤ n)%nat → lacks "$" (b64_encode s) = true.
Proof.
  induction n as [|n IH]; intros s Hs; [destruct s; [done|simpl in Hs; lia]|].
  destruct s as [|a [|b [|c s]]]; [done|..]; cbn [b64_encode];
    byte_facts a 4; try byte_facts b 16; try byte_facts c 64;
    cbn [str_forall]; rewrite !b64_char_not_dollar by lia; cbn; auto.
  apply IH. cbn [String.length] in Hs. lia.
Qed.
Lemma b64_encode_lacks s : lacks "$" (b64_encode s) = true.
Proof. by apply (b64_encode_lacks_aux (String.length s)). Qed.

(** ** [fmt.Sscanf] with literals and [%d] *)

Section Sscanf.
Context {UT : UnicodeTables}.

(** [SkipSpace]: a line break is an error. *)
Fixpoint skip_space (l : list (rune * string)) : option string :=
  match l with
  | [] => Some ""
  | (r, b) :: l' =>
      if r =? 10 then None
      else if IsSpace r then skip_space l'
      else Some (unchunk l)
  end.

(** The value of the digits at the head, whether there were any, the rest. *)
Fixpoint scan_digits (s : string) (acc : Z) (any : bool) : option Z * string :=
  match s with
  | String c s' =>
      if between 48 57 (byte_val c) then scan_digits s' (acc * 10 + (byte_val c - 48)) true
      else (if any then Some acc else None, s)
  | EmptyString => (if any then Some acc else None, s)
  end.

Definition scan_int (s : string) : option (Z * string) :=
  s ← skip_space (chunks s);
  let '(neg, s) := match s with
                   | String c s' =>
                       if byte_val c =? 45 then (true, s')
                       else if byte_val c =? 43 then (false, s') else (false, s)
                   | EmptyString => (false, s)
                   end in
  let '(v, rest) := scan_digits s 0 false in
  v ← v;
  let v := if (neg : bool) then - v else v in
  if (- 2 ^ 63 <=? v) && (v <? 2 ^ 63) then Some (v, rest) else None.

Definition scan_lit (lit s : string) : option string :=
  if String.prefix lit s then Some (str_drop (String.length lit) s) else None.

(** A literal, then an integer, repeated. *)
Fixpoint scanf (lits : list string) (s : string) : option (list Z) :=
  match lits with
  | [] => Some []
  | lit :: lits =>
      s ← scan_lit lit s;
      '(v, s) ← scan_int s;
      vs ← scanf lits s;
      Some (v :: vs)
  end.

Lemma scan_lit_app lit s : scan_lit lit (lit +:+ s) = Some s.
Proof. unfold scan_lit. by rewrite prefix_app, str_drop_app. Qed.

Definition no_digit_head (s : string) : Prop :=
  match s with String c _ => between 48 57 (byte_val c) = false | EmptyString => True end.

Lemma scan_digits_digits w : ∀ z s acc any, 0 ≤ z < 10 ^ Z.of_nat w →
  scan_digits (digits w z +:+ s) acc any =
    scan_digits s (acc * 10 ^ Z.of_nat w + z) (if w then any else true).
Proof.
  induction w as [|w IH]; intros z s acc any Hz.
  { simpl in *. f_equal. lia. }
  rewrite Nat2Z.inj_succ, Z.pow_succ_r in * by lia.
  pose proof (Z.div_mod z 10 ltac:(lia)). pose proof (Z.mod_pos_bound z 10 ltac:(lia)).
  cbn [digits]. rewrite <- str_app_assoc, IH by
    (split; [apply Z.div_pos|apply Z.div_lt_upper_bound]; lia).
  change (String ?c "" +:+ s) with (String c s). cbn [scan_digits].
  rewrite byte_val_digit by lia. unfold between.
  rewrite (proj2 (Z.leb_le 48 _)), (proj2 (Z.leb_le _ 57)) by lia. cbn [andb].
  f_equal. lia.
Qed.

Lemma digits_head w z : (0 < w)%nat → 0 ≤ z →
  ∃ d t, 0 ≤ d < 10 ∧ ∀ s, digits w z +:+ s = String (digit_char d) (t +:+ s).
Proof.
  revert z. induction w as [|[|w] IH]; intros z Hw Hz; [lia| |].
  - exists (z mod 10), "". split; [apply Z.mod_pos_bound; lia|done].
  - destruct (IH (z / 10)) as (d & t & Hd & Ht); [lia|apply Z.div_pos; lia|].
    exists d, (t +:+ String (digit_char (z mod 10)) ""). split; [done|]. intros s.
    change (digits (S (S w)) z) with (digits (S w) (z / 10) +:+ String (digit_char (z mod 10)) "").
    by rewrite <- !str_app_assoc, Ht.
Qed.

Lemma skip_space_digit d s : 0 ≤ d < 10 →
  skip_space (chunks (String (digit_char d) s)) = Some (String (digit_char d) s).
Proof.
  intros Hd. assert (chunks (String (digit_char d) s) =
    (48 + d, String (digit_char d) "") :: chunks s) as ->.
  { cbn [chunks]. rewrite byte_val_digit by lia. by rewrite (proj2 (Z.ltb_lt _ 128)) by lia. }
  cbn [skip_space]. rewrite (proj2 (Z.eqb_neq _ 10)) by lia.
  assert (IsSpace (48 + d) = false) as ->.
  { unfold IsSpace, between, one_of. rewrite (proj2 (Z.leb_le _ 255)) by lia. cbn [existsb].
    rewrite (proj2 (Z.leb_gt (48 + d) 13)), !(proj2 (Z.eqb_neq (48 + d) _)) by lia.
    by rewrite andb_false_r. }
  cbn [unchunk foldr snd]. by rewrite (unchunk_chunks s : foldr _ _ _ = _).
Qed.

Lemma scan_int_fmt z s : 0 ≤ z < 2 ^ 63 → no_digit_head s →
  scan_int (fmt_d z +:+ s) = Some (z, s).
Proof.
  intros Hz Hs. unfold fmt_d, fmt_pad. rewrite (proj2 (Z.ltb_ge z 0)) by lia.
  set (w := Nat.max 0 (ndigits z)).
  assert (0 < w)%nat as Hw by (subst w; unfold ndigits; simpl; case_match; lia).
  destruct (digits_head w z Hw ltac:(lia)) as (d & t & Hd & Ht).
  unfold scan_int. rewrite Ht, skip_space_digit by done. cbn [mbind option_bind].
  assert (scan_digits (String (digit_char d) (t +:+ s)) 0 false = (Some z, s)) as Hscan.
  { rewrite <- Ht, scan_digits_digits by apply max_ndigits_bound, Hz.
    destruct w; [lia|]. rewrite Z.mul_0_l, Z.add_0_l.
    destruct s as [|c s]; simpl in *; [done|]. by rewrite Hs. }
  rewrite byte_val_digit, !(proj2 (Z.eqb_neq (48 + d) _)), Hscan by lia. cbn [mbind option_bind].
  by rewrite (proj2 (Z.leb_le _ _)), (proj2 (Z.ltb_lt _ _)) by lia.
Qed.

End Sscanf.
