(* ===== verification/Auth.v ===== *)
(** * Auth: [auth/], [infrastructure/storage/user_repository.go],
    [services/auth_service.go] and the gRPC authentication server and
    interceptor

    Passwords, tokens, accounts, and the gate in front of the gRPC methods.
    Argon2, the JWT library and the struct validator are third-party code:
    the classes [Argon2], [Jwt] and [Validator].  The random salt, fresh
    identifiers and the clock are arguments. *)

From Stdlib Require Import Ascii String.
From S2P Require Import Prelude Errors Env Store Text Base64.

(** ** Third-party interfaces *)

Class Argon2 := {
  argon2_Version : Z;
  (** [argon2.IDKey(password, salt, time, memory, threads, keyLen)] *)
  argon2_IDKey : string → string → Z → Z → Z → Z → string;
}.
Class Argon2Laws (A : Argon2) : Prop := {
  Version_range : 0 ≤ argon2_Version < 2 ^ 63;
  IDKey_length p s t m th n : 0 ≤ n →
    Z.of_nat (String.length (argon2_IDKey p s t m th n)) = n;
}.

Record CustomClaims := MkCustomClaims {
  cl_UserID : string; cl_Roles : list string;
  cl_ExpiresAt : option time; cl_IssuedAt : option time; cl_Issuer : string;
}.

(** [jwt.NewNumericDate]: whole seconds. *)
Definition NewNumericDate (t : time) : time := t / second * second.

Class Jwt := {
  (** [NewWithClaims(HS256, claims).SignedString(key)] *)
  jwt_Sign : string → CustomClaims → result error string;
  (** [ParseWithClaims(token, key)] at a given time: the claims, and
      [token.Valid] *)
  jwt_ParseWithClaims : string → time → string → result error (CustomClaims * bool);
  (** the token carries the claims under a valid signature of the key *)
  jwt_signed : string → string → CustomClaims → Prop;
  jwt_ErrSignatureInvalid : error;
}.
Class JwtLaws (J : Jwt) : Prop := {
  Sign_signed k c s : jwt_Sign k c = Ok s → jwt_signed k s c;
  (** a valid token is signed, and unexpired if it has an expiry at all: the
      claim is optional *)
  Parse_sound k now s c : jwt_ParseWithClaims k now s = Ok (c, true) →
    jwt_signed k s c ∧ ∀ e, cl_ExpiresAt c = Some e → now < e;
  (** a token made by the library is read back until it expires, its dates
      being whole seconds *)
  Parse_complete k now s c e i : jwt_Sign k c = Ok s →
    cl_ExpiresAt c = Some (NewNumericDate e) → cl_IssuedAt c = Some (NewNumericDate i) →
    now < NewNumericDate e → jwt_ParseWithClaims k now s = Ok (c, true);
}.

Record RegisterRequest := MkRegisterRequest { rr_Email : string; rr_Password : string }.
Class Validator := { validate_Struct : RegisterRequest → option error }.
(** The tags [required,email] and [required,min=12,max=72]. *)
Class ValidatorLaws (V : Validator) : Prop :=
  validate_bounds : ∀ r, validate_Struct r = None →
    rr_Email r ≠ "" ∧ (12 ≤ length (runes (rr_Password r)) ≤ 72)%nat.

Section Auth.
Context {UT : UnicodeTables} {AR : Argon2} {ARL : Argon2Laws AR} {J : Jwt} {JL : JwtLaws J}
        {V : Validator} {VL : ValidatorLaws V}.

(** ** [auth/password.go] *)

Definition Memory : Z := 64 * 1024.
Definition Iterations : Z := 3.
Definition Parallelism : Z := 2.
Definition SaltLength : Z := 16.
Definition KeyLength : Z := 32.

Definition encoded_hash (salt hash : string) : string :=
  "$argon2id$v=" +:+ fmt_d argon2_Version +:+ "$m=" +:+ fmt_d Memory +:+ ",t=" +:+
  fmt_d Iterations +:+ ",p=" +:+ fmt_d Parallelism +:+ "$" +:+ b64_encode salt +:+ "$" +:+
  b64_encode hash.

(** [rand] is the outcome of [rand.Read] on the salt. *)
Definition HashPassword (rand : result error string) (password : string) : result error string :=
  let! salt := rand in
  let hash := argon2_IDKey password salt Iterations Memory Parallelism KeyLength in
  Ok (encoded_hash salt hash).

(** [None]: [argon2.IDKey] panics on less than one round or thread. *)
Definition ComparePassword (password encodedHash : string) : option (result error bool) :=
  match split_on "$" encodedHash with
  | [_; _; p2; p3; p4; p5] =>
      match scanf ["v="] p2 with
      | None => Some (Err (Errorf "invalid version format: " (Opaque "scan")))
      | Some _ =>
          match scanf ["m="; ",t="; ",p="] p3 with
          | Some [memory; iterations; parallelism] =>
              match b64_decode p4 with
              | Err e => Some (Err e)
              | Ok salt =>
                  match b64_decode p5 with
                  | Err e => Some (Err e)
                  | Ok decodedHash =>
                      if (uint32 iterations <? 1) || (uint8 parallelism <? 1) then None
                      else
                        let comparisonHash :=
                          argon2_IDKey password salt (uint32 iterations) (uint32 memory)
                            (uint8 parallelism) (uint32 (strlen decodedHash)) in
                        Some (Ok (String.eqb decodedHash comparisonHash))
                  end
              end
          | _ => Some (Err (Errorf "invalid parameters format: " (Opaque "scan")))
          end
      end
  | _ => Some (Err (Opaque "invalid hash format"))
  end.

(** ** [auth/token.go] *)

Definition jwtKey : string := "my_strong_and_long_secret_key_2026".

(** [now1], [now2]: the two readings of the clock. *)
Definition GenerateToken (now1 now2 : time) (userID : string) (roles : list string)
    (authTokenDuration : duration) : result error string :=
  let claims := MkCustomClaims userID roles (Some (NewNumericDate (now1 + authTokenDuration)))
                  (Some (NewNumericDate now2)) "chat-lab" in
  jwt_Sign jwtKey claims.

Definition ValidateToken (now : time) (tokenString : string) : result error CustomClaims :=
  let! (claims, valid) := jwt_ParseWithClaims jwtKey now tokenString in
  if valid : bool then Ok claims else Err jwt_ErrSignatureInvalid.

(** ** [auth/validator.go] *)

Definition isPasswordComplex (s : string) : bool :=
  let '(hasUpper, hasLower, hasNumber, hasSpecial) :=
    foldl (λ '(u, l, n, sp) char,
      if IsUpper char then (true, l, n, sp)
      else if IsLower char then (u, true, n, sp)
      else if IsNumber char then (u, l, true, sp)
      else if IsPunct char || IsSymbol char then (u, l, n, true)
      else (u, l, n, sp)) (false, false, false, false) (runes s) in
  hasUpper && hasLower && hasNumber && hasSpecial.

Definition ValidateRegister (req : RegisterRequest) : option error :=
  match validate_Struct req with
  | Some err => Some err
  | None => if negb (isPasswordComplex (rr_Password req)) then Some ErrInvalidPassword else None
  end.

(** ** [infrastructure/storage/user_repository.go] *)

Context {B : Badger} {BL : BadgerLaws B} {U : Uuid} {UL : UuidLaws U}.

(** [pb.User]; the fields the repository never sets are left out. *)
Record pbUser := MkPbUser {
  pu_Id : string; pu_Email : string; pu_PasswordHash : string; pu_CreatedAt : Z;
  pu_Roles : list string;
}.
Context {C : Codec pbUser} {CL : CodecLaws pbUser}.

Record UserRepository := NewUserRepository { ur_db : DB }.

Record User := MkUser {
  us_ID : string; us_Email : string; us_PasswordHash : string; us_Roles : list string;
  us_CreatedAt : time;
}.

Definition toUserStruct (pbUser : pbUser) : User :=
  MkUser (pu_Id pbUser) (pu_Email pbUser) (pu_PasswordHash pbUser) (pu_Roles pbUser)
    (time_Unix (pu_CreatedAt pbUser) 0).

Definition user_key (email : string) : string := "user:" +:+ email.

(** The body of the transaction of [CreateUser]. *)
Definition create_user_txn (email data : string) (txn : Txn) : result error Txn :=
  match txn_Get txn (user_key email) with
  | Ok _ => Err ErrUserAlreadyExists
  | Err _ => txn_Set txn (user_key email) data
  end.

(** [fresh] is [uuid.New()]. *)
Definition CreateUser (u : UserRepository) (fresh : uuid) (now : time)
    (email hashedPassword : string) : UserRepository * (string * option error) :=
  let newID := uuid_String fresh in
  let userPb := MkPbUser newID email hashedPassword (Unix now) ["user"] in
  match Marshal userPb with
  | Err e => (u, ("", Some (Errorf "marshal failed: " e)))
  | Ok data =>
      let '(db, err) := Update (ur_db u) (create_user_txn email data) in
      (NewUserRepository db, (newID, err))
  end.

Definition GetUserByEmail (u : UserRepository) (email : string) : result error User :=
  let! userPb := View (ur_db u) (λ txn,
    let! val := txn_Get txn (user_key email) in Unmarshal val) in
  Ok (toUserStruct userPb).

(** ** [services/auth_service.go] *)

Record AuthService := NewAuthService {
  au_userRepository : UserRepository; au_authTokenDuration : duration;
}.

(** The sources of randomness and time one registration draws from. *)
Record entropy := MkEntropy {
  en_salt : result error string; en_uuid : uuid; en_now : time; en_now1 : time; en_now2 : time;
}.

Definition Register (s : AuthService) (en : entropy) (email password : string)
  : AuthService * result error string :=
  match ValidateRegister (MkRegisterRequest email password) with
  | Some err =>
      (s, Err (Wrapped (error_text ErrInvalidPassword +:+ ": " +:+ error_text err)
                 ErrInvalidPassword))
  | None =>
      match HashPassword (en_salt en) password with
      | Err e => (s, Err (Errorf "hashing failed: " e))
      | Ok hashedPassword =>
          let '(repo, (userID, err)) :=
            CreateUser (au_userRepository s) (en_uuid en) (en_now en) email hashedPassword in
          let s := NewAuthService repo (au_authTokenDuration s) in
          match err with
          | Some e => (s, Err e)
          | None =>
              match GenerateToken (en_now1 en) (en_now2 en) userID ["user"]
                      (au_authTokenDuration s) with
              | Err _ => (s, Err ErrTokenGeneration)
              | Ok token => (s, Ok token)
              end
          end
      end
  end.

Definition Login (s : AuthService) (now1 now2 : time) (email password : string)
  : option (result error string) :=
  match GetUserByEmail (au_userRepository s) email with
  | Err _ => Some (Err ErrInvalidCredentials)
  | Ok user =>
      match ComparePassword password (us_PasswordHash user) with
      | None => None
      | Some (Err _) | Some (Ok false) => Some (Err ErrInvalidCredentials)
      | Some (Ok true) =>
          match GenerateToken now1 now2 (us_ID user) (us_Roles user) (au_authTokenDuration s) with
          | Err _ => Some (Err ErrTokenGeneration)
          | Ok token => Some (Ok token)
          end
      end
  end.

(** ** [infrastructure/grpc/server/auth_server.go] *)

Record AuthResponse := MkAuthResponse { ar_Token : string; ar_UserId : string }.

Definition auth_response (r : result error string) : result (option error) AuthResponse :=
  match r with
  | Err e => Err (MapToGRPCError (Some e))
  | Ok token => Ok (MkAuthResponse token "")
  end.

Definition server_Register (s : AuthService) (en : entropy) (email password : string)
  : AuthService * result (option error) AuthResponse :=
  let '(s, r) := Register s en email password in (s, auth_response r).

Definition server_Login (s : AuthService) (now1 now2 : time) (email password : string)
  : option (result (option error) AuthResponse) :=
  auth_response <$> Login s now1 now2 email password.

(** ** [infrastructure/grpc/server/interceptor.go] *)

Definition publicMethods : list string :=
  ["/auth.AuthService/Login"; "/auth.AuthService/Register"].
Definition isPublicMethod (method : string) : bool := existsb (String.eqb method) publicMethods.

(** The context of a call: its incoming metadata and the identity put in by
    the interceptor. *)
Record call_context := MkContext {
  cx_metadata : option (gmap string (list string));
  cx_UserIDKey : option string; cx_RolesKey : option (list string);
}.

Definition AuthInterceptor {A} (authEnabled : bool) (now : time) (ctx : call_context)
    (fullMethod : string) (handler : call_context → result error A) : result error A :=
  if negb authEnabled then handler ctx
  else if isPublicMethod fullMethod then handler ctx
  else
    match cx_metadata ctx with
    | None => Err (StatusError Unauthenticated "metadata is missing")
    | Some md =>
        match default [] (md !! "authorization") with
        | [] => Err (StatusError Unauthenticated "authorization token is missing")
        | value :: _ =>
            let tokenStr := TrimPrefix value "Bearer " in
            match ValidateToken now tokenStr with
            | Err _ => Err (StatusError Unauthenticated "invalid or expired token")
            | Ok claims =>
                handler (MkContext (cx_metadata ctx) (Some (cl_UserID claims))
                           (Some (cl_Roles claims)))
            end
        end
    end.

(** ** The master's gRPC server ([cmd/master/main.go])

    [grpc.NewServer] is given a chain of unary interceptors, logging then
    authentication, and no stream interceptor. *)

Inductive call_kind := Unary | Streaming.

(** The methods of the services the master registers. *)
Definition master_methods : list (string * call_kind) :=
  [("/chat.ChatService/GetMessage", Unary); ("/chat.ChatService/PostMessage", Unary);
   ("/chat.ChatService/Connect", Streaming);
   ("/auth.AuthService/Register", Unary); ("/auth.AuthService/Login", Unary);
   ("/analyzer.FileAnalyzerService/Analyze", Streaming);
   ("/analysis.MonitoringService/ReportStatus", Unary)].

Definition interceptor (A : Type) : Type :=
  call_context → string → (call_context → result error A) → result error A.

Definition serve_call {A} (logging : interceptor A) (authEnabled : bool) (now : time)
    (kind : call_kind) (ctx : call_context) (method : string)
    (handler : call_context → result error A) : result error A :=
  match kind with
  | Unary => logging ctx method (λ ctx, AuthInterceptor authEnabled now ctx method handler)
  | Streaming => handler ctx
  end.

(** ** Passwords *)

(** The key a password gives under a salt with the parameters in use. *)
Definition derived_key (salt password : string) : string :=
  argon2_IDKey password salt Iterations Memory Parallelism KeyLength.

Lemma encoded_hash_split salt hash :
  split_on "$" (encoded_hash salt hash) =
    [""; "argon2id"; "v=" +:+ fmt_d argon2_Version; "m=65536,t=3,p=2"; b64_encode salt;
     b64_encode hash].
Proof.
  assert (encoded_hash salt hash =
    "" +:+ String "$" ("argon2id" +:+ String "$" (("v=" +:+ fmt_d argon2_Version) +:+
      String "$" ("m=65536,t=3,p=2" +:+ String "$" (b64_encode salt +:+
        String "$" (b64_encode hash)))))) as -> by (unfold encoded_hash; by rewrite <- str_app_assoc).
  rewrite !split_on_cons, split_on_last; auto using b64_encode_lacks.
  simpl. apply fmt_pad_lacks; [done|]. left. done.
Qed.

Lemma scanf_version : scanf ["v="] ("v=" +:+ fmt_d argon2_Version) = Some [argon2_Version].
Proof.
  cbn [scanf]. rewrite scan_lit_app. cbn [mbind option_bind].
  rewrite <- (str_app_nil_r (fmt_d argon2_Version)), scan_int_fmt; [done|apply Version_range|done].
Qed.

Lemma scanf_params : scanf ["m="; ",t="; ",p="] "m=65536,t=3,p=2" = Some [65536; 3; 2].
Proof. reflexivity. Qed.

Lemma ComparePassword_encoded salt password p :
  ComparePassword p (encoded_hash salt (derived_key salt password)) =
    Some (Ok (String.eqb (derived_key salt password) (derived_key salt p))).
Proof.
  unfold ComparePassword. rewrite encoded_hash_split, scanf_version, scanf_params, !b64_roundtrip.
  change (uint32 3) with 3. change (uint32 65536) with 65536. change (uint8 2) with 2.
  cbn [Z.ltb Z.compare Pos.compare Pos.compare_cont orb].
  unfold derived_key at 2. rewrite IDKey_length by (unfold KeyLength; lia). done.
Qed.

(** A stored password hash accepts exactly the passwords that derive the
    same key under its salt: the right one always, and nothing is accepted or
    rejected because of the encoding; checking never fails nor panics. *)
Theorem ComparePassword_HashPassword salt password h :
  HashPassword (Ok salt) password = Ok h →
  (∀ p, ComparePassword p h =
     Some (Ok (String.eqb (derived_key salt password) (derived_key salt p)))) ∧
  ComparePassword password h = Some (Ok true).
Proof.
  intros [= <-]. fold (derived_key salt password).
  split; intros; rewrite ComparePassword_encoded; [done|]. by rewrite String.eqb_refl.
Qed.

(** ** Accounts *)

Lemma user_key_inj e1 e2 : user_key e1 = user_key e2 → e1 = e2.
Proof. by intros [= ?]. Qed.
Lemma user_key_ne e : user_key e ≠ "".
Proof. done. Qed.
#[local] Opaque user_key.

Lemma GetUserByEmail_map u e : GetUserByEmail u e =
  match db_map (ur_db u) !! user_key e with
  | None => Err ErrKeyNotFound
  | Some v => let! pb := Unmarshal v in Ok (toUserStruct pb)
  end.
Proof.
  unfold GetUserByEmail, View. rewrite Get_map, begin_map. by destruct (_ !! user_key e).
Qed.

Lemma CreateUser_map u f now e h u' id :
  CreateUser u f now e h = (u', (id, None)) →
  db_map (ur_db u) !! user_key e = None ∧ id = uuid_String f ∧
  ∃ b, Marshal (MkPbUser id e h (Unix now) ["user"]) = Ok b ∧
       db_map (ur_db u') = <[user_key e := b]> (db_map (ur_db u)).
Proof.
  unfold CreateUser. destruct (Marshal _) as [b|] eqn:Hb; [|done].
  destruct (Update _ _) as [db err] eqn:Hu. intros [= <- <- ->].
  apply Update_ok in Hu as (t & Ht & Hm). unfold create_user_txn in Ht. rewrite Get_map, begin_map in Ht.
  destruct (_ !! user_key e) eqn:Hk; [done|].
  split_and!; [done|done|]. exists b. split; [done|]. simpl.
  by rewrite Hm, (Set_writes _ _ _ _ _ Ht), begin_writes.
Qed.

Lemma CreateUser_err u f now e h u' id err :
  CreateUser u f now e h = (u', (id, Some err)) → ur_db u' = ur_db u.
Proof.
  unfold CreateUser. destruct (Marshal _); [|by intros [= <- _ _]].
  destruct (Update _ _) as [db er] eqn:Hu. intros [= <- _ ->]. simpl. by eapply Update_err.
Qed.

Lemma CreateUser_duplicate u f now e h v :
  db_map (ur_db u) !! user_key e = Some v →
  (∃ b, Marshal (MkPbUser (uuid_String f) e h (Unix now) ["user"]) = Ok b) →
  CreateUser u f now e h = (u, (uuid_String f, Some ErrUserAlreadyExists)).
Proof.
  intros Hv [b Hb]. unfold CreateUser, Update, create_user_txn. rewrite Hb, Get_map, begin_map, Hv. by destruct u.
Qed.

Lemma CreateUser_get u f now e h u' id :
  CreateUser u f now e h = (u', (id, None)) →
  GetUserByEmail u' e = Ok (MkUser id e h ["user"] (time_Unix (Unix now) 0)).
Proof.
  intros (_ & _ & b & Hb & Hm)%CreateUser_map. rewrite GetUserByEmail_map, Hm, lookup_insert_eq.
  by rewrite (Unmarshal_Marshal _ _ Hb).
Qed.

(** Accounts are unique per e-mail: [CreateUser] succeeds only for an
    address with no account, makes that account readable with the given hash
    and the role "user", and leaves every other account alone; a taken
    address is refused with "user already exists" and nothing is written. *)
Theorem CreateUser_correct u f now e h u' id err :
  CreateUser u f now e h = (u', (id, err)) →
  match err with
  | None =>
      db_map (ur_db u) !! user_key e = None ∧
      GetUserByEmail u' e = Ok (MkUser (uuid_String f) e h ["user"] (time_Unix (Unix now) 0)) ∧
      ∀ e', e' ≠ e → GetUserByEmail u' e' = GetUserByEmail u e'
  | Some _ => ur_db u' = ur_db u
  end ∧
  (∀ v b, db_map (ur_db u) !! user_key e = Some v →
     Marshal (MkPbUser (uuid_String f) e h (Unix now) ["user"]) = Ok b →
     err = Some ErrUserAlreadyExists).
Proof.
  intros H. split.
  - destruct err as [err|]; [by eapply CreateUser_err|].
    pose proof (CreateUser_get _ _ _ _ _ _ _ H) as Hg.
    apply CreateUser_map in H as (Hk & -> & b & Hb & Hm). split_and!; [done|done|].
    intros e' He. rewrite !GetUserByEmail_map, Hm, lookup_insert_ne; [done|].
    intros ?%user_key_inj. congruence.
  - intros v b Hv Hb. rewrite (CreateUser_duplicate _ _ _ _ _ v) in H; [congruence|done|by exists b].
Qed.

(** One account per address needs the calls to come one after the other: the database
    does not detect conflicts.  Two registrations of a new address whose transactions
    overlap both succeed, and the second silently replaces the first. *)
Theorem overlapping_registrations db email pb1 pb2 b1 b2 t1 t2 db1 db2 :
  db_map db !! user_key email = None →
  Marshal pb1 = Ok b1 → Marshal pb2 = Ok b2 →
  create_user_txn email b1 (NewTransaction db) = Ok t1 →
  create_user_txn email b2 (NewTransaction db) = Ok t2 →
  txn_Commit db t1 = Ok db1 → txn_Commit db1 t2 = Ok db2 →
  GetUserByEmail (NewUserRepository db1) email = Ok (toUserStruct pb1) ∧
  GetUserByEmail (NewUserRepository db2) email = Ok (toUserStruct pb2).
Proof.
  intros Hn H1 H2 Ht1 Ht2 Hc1%Commit_map Hc2%Commit_map. unfold create_user_txn in Ht1, Ht2.
  rewrite Get_map, begin_map, Hn in Ht1, Ht2.
  rewrite (Set_writes _ _ _ _ _ Ht1), begin_writes in Hc1.
  rewrite (Set_writes _ _ _ _ _ Ht2), begin_writes in Hc2.
  rewrite !GetUserByEmail_map. cbn [ur_db]. rewrite Hc2, Hc1, !lookup_insert_eq.
  by rewrite (Unmarshal_Marshal _ _ H1), (Unmarshal_Marshal _ _ H2).
Qed.

(** ** Registration and login *)

Lemma Register_Ok s en email pw s' tok :
  Register s en email pw = (s', Ok tok) →
  ∃ salt repo, en_salt en = Ok salt ∧
    ValidateRegister (MkRegisterRequest email pw) = None ∧
    CreateUser (au_userRepository s) (en_uuid en) (en_now en) email
      (encoded_hash salt (derived_key salt pw)) = (repo, (uuid_String (en_uuid en), None)) ∧
    s' = NewAuthService repo (au_authTokenDuration s) ∧
    GenerateToken (en_now1 en) (en_now2 en) (uuid_String (en_uuid en)) ["user"]
      (au_authTokenDuration s) = Ok tok.
Proof.
  unfold Register, HashPassword. destruct (ValidateRegister _); [done|].
  destruct (en_salt en) as [salt|]; [|done]. cbn [res_bind].
  fold (derived_key salt pw).
  destruct (CreateUser _ _ _ _ _) as [repo [id err]] eqn:Hc.
  destruct err; [done|]. pose proof Hc as (_ & -> & _)%CreateUser_map. cbn [au_authTokenDuration].
  destruct (GenerateToken _ _ _ _ _) eqn:Hg; [|done]. intros [= <- <-]. by exists salt, repo.
Qed.

Lemma GenerateToken_valid now1 now2 uid roles d tok now :
  GenerateToken now1 now2 uid roles d = Ok tok → now < NewNumericDate (now1 + d) →
  ValidateToken now tok =
    Ok (MkCustomClaims uid roles (Some (NewNumericDate (now1 + d))) (Some (NewNumericDate now2))
          "chat-lab").
Proof.
  intros Hs Hn. unfold ValidateToken. by rewrite (Parse_complete _ now _ _ _ _ Hs eq_refl eq_refl Hn).
Qed.

(** C28. Who registered can log in, and nobody else: after a successful
    [Register], [Login] with the same credentials yields a token (unless
    signing fails) for the same account, any password that derives another key
    is refused, and so is an unknown address, with the same error; the token
    handed out at registration validates until it expires and identifies the
    account. *)
Theorem Register_then_Login s en email pw s' tok salt :
  Register s en email pw = (s', Ok tok) → en_salt en = Ok salt →
  let uid := uuid_String (en_uuid en) in
  (∀ now1 now2, Login s' now1 now2 email pw =
     Some (match GenerateToken now1 now2 uid ["user"] (au_authTokenDuration s) with
           | Ok t => Ok t
           | Err _ => Err ErrTokenGeneration
           end)) ∧
  (∀ now1 now2 pw', derived_key salt pw' ≠ derived_key salt pw →
     Login s' now1 now2 email pw' = Some (Err ErrInvalidCredentials)) ∧
  (∀ now1 now2 email' pw', db_map (ur_db (au_userRepository s')) !! user_key email' = None →
     Login s' now1 now2 email' pw' = Some (Err ErrInvalidCredentials)) ∧
  (∀ now, now < NewNumericDate (en_now1 en + au_authTokenDuration s) →
     ∃ c, ValidateToken now tok = Ok c ∧ cl_UserID c = uid ∧ cl_Roles c = ["user"]).
Proof.
  intros (salt' & repo & Hs' & _ & Hc & -> & Hg)%Register_Ok Hs. rewrite Hs in Hs'.
  injection Hs' as <-. apply CreateUser_get in Hc. cbv zeta.
  split_and!; intros; unfold Login; cbn [au_userRepository au_authTokenDuration].
  - rewrite Hc. cbn [us_PasswordHash us_ID us_Roles].
    rewrite ComparePassword_encoded, String.eqb_refl. by case_match.
  - rewrite Hc. cbn [us_PasswordHash]. rewrite ComparePassword_encoded.
    by rewrite (proj2 (String.eqb_neq _ _)) by congruence.
  - rewrite GetUserByEmail_map. simpl in *. by rewrite H.
  - rewrite (GenerateToken_valid _ _ _ _ _ _ _ Hg) by done. by eexists.
Qed.

Lemma complex_scan l : ∀ u lo n sp u' lo' n' sp',
  foldl (λ '(u, l, n, sp) char,
      if IsUpper char then (true, l, n, sp)
      else if IsLower char then (u, true, n, sp)
      else if IsNumber char then (u, l, true, sp)
      else if IsPunct char || IsSymbol char then (u, l, n, true)
      else (u, l, n, sp)) (u, lo, n, sp) l = (u', lo', n', sp') →
  (u' = true → u = true ∨ ∃ c, c ∈ l ∧ IsUpper c = true) ∧
  (lo' = true → lo = true ∨ ∃ c, c ∈ l ∧ IsLower c = true) ∧
  (n' = true → n = true ∨ ∃ c, c ∈ l ∧ IsNumber c = true) ∧
  (sp' = true → sp = true ∨ ∃ c, c ∈ l ∧ IsPunct c || IsSymbol c = true).
Proof.
  induction l as [|c l IH]; intros u lo n sp u' lo' n' sp' H; cbn [foldl] in H.
  { injection H as <- <- <- <-. auto. }
  assert (∀ (P : rune → bool) b b', (b' = true → b = true ∨ P c = true) →
    (∀ f, (f = true → b' = true ∨ ∃ d, d ∈ l ∧ P d = true) →
          f = true → b = true ∨ ∃ d, d ∈ c :: l ∧ P d = true)) as Hstep.
  { intros P b b' Hb f Hf Ht. destruct (Hf Ht) as [Hb'|(d & Hd & HP)].
    - destruct (Hb Hb'); [by left|]. right. exists c. split; [left|done].
    - right. exists d. split; [by right|done]. }
  destruct (IsUpper c) eqn:E1, (IsLower c) eqn:E2, (IsNumber c) eqn:E3,
    (IsPunct c || IsSymbol c) eqn:E4; apply IH in H as (H1 & H2 & H3 & H4); split_and!;
    (eapply (Hstep (λ c, IsUpper c)); [|exact H1]) || (eapply (Hstep (λ c, IsLower c)); [|exact H2]) ||
    (eapply (Hstep (λ c, IsNumber c)); [|exact H3]) ||
    (eapply (Hstep (λ c, IsPunct c || IsSymbol c)); [|exact H4]); by auto.
Qed.

(** C33. The password policy: whatever [Register] answers, if it changed the
    accounts (so also when the account was created and the token then could not
    be signed) or handed out a token, the password has 12 to 72 characters, an
    upper-case letter, a lower-case letter, a number and a special character; a
    request that fails validation writes nothing and is reported to the client
    as an invalid argument. *)
Theorem Register_policy s en email pw :
  (∀ s' answer, Register s en email pw = (s', answer) →
     db_map (ur_db (au_userRepository s')) ≠ db_map (ur_db (au_userRepository s)) ∨
       (∃ tok, answer = Ok tok) →
     email ≠ "" ∧ (12 ≤ length (runes pw) ≤ 72)%nat ∧
     (∃ c, c ∈ runes pw ∧ IsUpper c = true) ∧ (∃ c, c ∈ runes pw ∧ IsLower c = true) ∧
     (∃ c, c ∈ runes pw ∧ IsNumber c = true) ∧
     (∃ c, c ∈ runes pw ∧ IsPunct c || IsSymbol c = true)) ∧
  (ValidateRegister (MkRegisterRequest email pw) ≠ None →
     ∃ msg, server_Register s en email pw = (s, Err (Some (StatusError InvalidArgument msg)))).
Proof.
  split.
  - intros s' answer Hr Hch.
    assert (ValidateRegister (MkRegisterRequest email pw) = None) as Hv.
    { unfold Register in Hr. destruct (ValidateRegister _); [|done].
      injection Hr as <- <-. by destruct Hch as [?|[? ?]]. }
    unfold ValidateRegister in Hv. destruct (validate_Struct _) eqn:Es; [done|]. apply validate_bounds in Es as [He Hl].
    simpl in Hv, He, Hl. destruct (isPasswordComplex pw) eqn:Hc; [|done].
    unfold isPasswordComplex in Hc.
    destruct (foldl _ _ _) as [[[u l] n] sp] eqn:Ef.
    apply complex_scan in Ef as (H1 & H2 & H3 & H4).
    apply andb_true_iff in Hc as [Hc ->]. apply andb_true_iff in Hc as [Hc ->].
    apply andb_true_iff in Hc as [-> ->].
    split_and!; [done|lia|lia|naive_solver..].
  - intros Hv. unfold server_Register, Register.
    destruct (ValidateRegister _) as [err|]; [|done]. eexists.
    unfold auth_response. simpl. reflexivity.
Qed.

(** ** The gate *)

(** C15. Of the methods the master serves with authentication on, login and
    registration run without a token; any other unary method only ever runs with a token
    signed by the server's key and not past its expiry (if the token has one), taken from
    the call's authorization header, and it runs as the user of that token, every other
    call being refused as unauthenticated without running the handler.  The two streaming
    methods, [Connect] and [Analyze], are not gated at all: the interceptor is installed
    for unary calls only, and their handlers run with the context of the caller.  (The
    logging interceptor in front is third-party code, taken to pass the call on.) *)
Theorem AuthInterceptor_gate {A} (logging : interceptor A) now ctx method kind
    (handler : call_context → result error A) :
  (∀ c m h, logging c m h = h c) → (method, kind) ∈ master_methods →
  let served := serve_call logging true now kind ctx method handler in
  match kind with
  | Unary =>
      if isPublicMethod method then served = handler ctx
      else
        (∃ md value rest claims,
           cx_metadata ctx = Some md ∧ md !! "authorization" = Some (value :: rest) ∧
           jwt_signed jwtKey (TrimPrefix value "Bearer ") claims ∧
           (∀ e, cl_ExpiresAt claims = Some e → now < e) ∧
           served = handler (MkContext (Some md) (Some (cl_UserID claims)) (Some (cl_Roles claims)))) ∨
        (∃ msg, served = Err (StatusError Unauthenticated msg))
  | Streaming =>
      method ∈ ["/chat.ChatService/Connect"; "/analyzer.FileAnalyzerService/Analyze"] ∧
      served = handler ctx
  end.
Proof.
  intros Hlog Hm served. subst served. unfold serve_call. destruct kind.
  - rewrite Hlog. unfold AuthInterceptor. destruct (isPublicMethod method); [done|]. cbn [negb].
    destruct (cx_metadata ctx) as [md|] eqn:Em; [|by right; eexists].
    destruct (md !! "authorization") as [[|value rest]|] eqn:Ea; simpl; [by right; eexists| |by right; eexists].
    destruct (ValidateToken now _) as [claims|] eqn:Ev; [|by right; eexists].
    left. exists md, value, rest, claims. unfold ValidateToken in Ev. inv_res Ev.
    destruct a as [c [|]]; simplify_eq. by apply Parse_sound in E as [].
  - split; [|done]. unfold master_methods in Hm.
    repeat (apply elem_of_cons in Hm as [Hm|Hm]; [try discriminate Hm; injection Hm as ->; first [by left|by right; left]|]).
    by inversion Hm.
Qed.

End Auth.

(** ** Witnesses: simple instances of the third-party interfaces *)

#[export] Existing Instance Latin1Tables.

Fixpoint fit (n : nat) (s : string) : string :=
  match n with
  | O => ""
  | S n => match s with
           | String c s => String c (fit n s)
           | EmptyString => String nul (fit n "")
           end
  end.
Lemma fit_length n : ∀ s, String.length (fit n s) = n.
Proof. induction n as [|n IH]; intros [|c s]; simpl; by rewrite ?IH. Qed.

#[export] Instance ToyArgon2 : Argon2 :=
  {| argon2_Version := 19; argon2_IDKey p s _ _ _ n := fit (Z.to_nat n) p |}.
#[export] Instance ToyArgon2_laws : Argon2Laws ToyArgon2.
Proof. split; [simpl; lia|]. intros. simpl. rewrite fit_length. lia. Qed.

Definition claims_to (k : string) (c : CustomClaims) : list positive :=
  [encode k; encode (cl_UserID c); encode (cl_Roles c); encode (cl_ExpiresAt c : option Z);
   encode (cl_IssuedAt c : option Z); encode (cl_Issuer c)].
Definition claims_of (k : string) (l : list positive) : option CustomClaims :=
  match l with
  | [k'; u; r; e; i; s] =>
      k' ← decode k'; u ← decode u; r ← decode r; e ← decode e; i ← decode i; s ← decode s;
      if String.eqb k k' then Some (MkCustomClaims u r e i s) else None
  | _ => None
  end.
Lemma claims_of_to k c : claims_of k (claims_to k c) = Some c.
Proof.
  lazy beta iota delta [claims_of claims_to]. rewrite !decode_encode. simpl.
  rewrite String.eqb_refl. by destruct c.
Qed.

#[export] Instance ToyJwt : Jwt := {|
  jwt_Sign k c := Ok (write_fields (claims_to k c));
  jwt_ParseWithClaims k now s :=
    match read_fields s ≫= claims_of k with
    | Some c => if match cl_ExpiresAt c with Some e => now <? e | None => true end
                then Ok (c, true) else Err (Opaque "token is expired")
    | None => Err (Opaque "signature is invalid")
    end;
  jwt_signed k s c := read_fields s ≫= claims_of k = Some c;
  jwt_ErrSignatureInvalid := Opaque "signature is invalid";
|}.
#[export] Instance ToyJwt_laws : JwtLaws ToyJwt.
Proof.
  split.
  - intros k c s [= <-].
    change (read_fields (write_fields (claims_to k c)) ≫= claims_of k = Some c).
    rewrite read_write_fields. apply claims_of_to.
  - intros k now s c H. unfold jwt_signed, jwt_ParseWithClaims, ToyJwt in *.
    destruct (read_fields s ≫= claims_of k) as [c'|]; [|done].
    destruct (match cl_ExpiresAt c' with Some e => now <? e | None => true end) eqn:Ex; [|done].
    simplify_eq. split; [done|]. intros e He. rewrite He in Ex. by apply Z.ltb_lt.
  - intros k now s c e i [= <-] He Hi Hn. unfold jwt_ParseWithClaims, ToyJwt.
    change (match read_fields (write_fields (claims_to k c)) ≫= claims_of k with
      | Some c => if match cl_ExpiresAt c with Some e => now <? e | None => true end
                  then Ok (c, true) else Err (Opaque "token is expired")
      | None => Err (Opaque "signature is invalid")
      end = Ok (c, true)).
    rewrite read_write_fields. cbn [mbind option_bind]. rewrite claims_of_to, He.
    by rewrite (proj2 (Z.ltb_lt _ _) Hn).
Qed.

#[export] Instance ToyValidator : Validator := {|
  validate_Struct r :=
    if bool_decide (rr_Email r ≠ "") && (12 <=? length (runes (rr_Password r)))%nat &&
       (length (runes (rr_Password r)) <=? 72)%nat
    then None else Some (Opaque "validation failed");
|}.
#[export] Instance ToyValidator_laws : ValidatorLaws ToyValidator.
Proof.
  intros r. unfold validate_Struct, ToyValidator. case_match eqn:E; [|done]. intros _.
  apply andb_true_iff in E as [E H3%Nat.leb_le]. apply andb_true_iff in E as [H1 H2%Nat.leb_le].
  by apply bool_decide_eq_true in H1.
Qed.

Definition pbUser_to (u : pbUser) : list positive :=
  [encode (pu_Id u); encode (pu_Email u); encode (pu_PasswordHash u); encode (pu_CreatedAt u);
   encode (pu_Roles u)].
Definition pbUser_of (l : list positive) : option pbUser :=
  match l with
  | [i; e; h; c; r] =>
      i ← decode i; e ← decode e; h ← decode h; c ← decode c; r ← decode r;
      Some (MkPbUser i e h c r)
  | _ => None
  end.
Lemma pbUser_of_to u : pbUser_of (pbUser_to u) = Some u.
Proof. lazy beta iota delta [pbUser_of pbUser_to]. rewrite !decode_encode. by destruct u. Qed.
#[export] Instance pbUser_fields : Fielded pbUser :=
  {| to_fields := pbUser_to; of_fields := pbUser_of; of_to_fields := pbUser_of_to |}.
#[export] Instance pbUser_codec : Codec pbUser := FieldCodec pbUser.
#[export] Instance pbUser_codec_laws : CodecLaws pbUser := FieldCodec_laws pbUser.

Definition demo_entropy : entropy :=
  MkEntropy (Ok "0123456789abcdef") (uuid16_num 5) (100 * second) (100 * second) (100 * second).
Definition demo_auth : AuthService := NewAuthService (NewUserRepository ∅) (60 * second).
Definition demo_registered : AuthService * result error string :=
  Register demo_auth demo_entropy "a@b.c" "Correct-Horse-42".

Lemma ComparePassword_HashPassword_witness :
  ∃ h, HashPassword (Ok "0123456789abcdef") "Correct-Horse-42" = Ok h ∧
       ComparePassword "Correct-Horse-42" h = Some (Ok true).
Proof.
  destruct (HashPassword (Ok "0123456789abcdef") "Correct-Horse-42") as [h|] eqn:E;
    [|discriminate E].
  exists h. split; [reflexivity|]. exact (proj2 (ComparePassword_HashPassword _ _ _ E)).
Defined.

Lemma CreateUser_correct_witness :
  GetUserByEmail (CreateUser (NewUserRepository ∅) (uuid16_num 5) 0 "a@b.c" "h").1 "a@b.c" =
    Ok (MkUser (uuid_String (uuid16_num 5)) "a@b.c" "h" ["user"] (time_Unix (Unix 0) 0)).
Proof.
  exact (proj1 (proj2 (proj1 (CreateUser_correct (NewUserRepository ∅) (uuid16_num 5) 0 "a@b.c" "h"
    (CreateUser (NewUserRepository ∅) (uuid16_num 5) 0 "a@b.c" "h").1
    (uuid_String (uuid16_num 5)) None ltac:(vm_refl))))).
Defined.

Lemma Register_then_Login_witness :
  ∃ s' tok, demo_registered = (s', Ok tok) ∧
    Login s' (200 * second) (200 * second) "a@b.c" "guess" = Some (Err ErrInvalidCredentials).
Proof.
  assert (demo_registered =
    (demo_registered.1, Ok (match demo_registered.2 with Ok t => t | Err _ => "" end))) as E
    by vm_refl.
  eexists _, _. split; [exact E|].
  refine (proj1 (proj2 (Register_then_Login demo_auth demo_entropy "a@b.c" "Correct-Horse-42" _ _
    "0123456789abcdef" E eq_refl)) (200 * second) (200 * second) "guess" _).
  discriminate.
Defined.

Lemma Register_policy_witness :
  ∃ msg, server_Register demo_auth demo_entropy "a@b.c" "correct-horse-42" =
    (demo_auth, Err (Some (StatusError InvalidArgument msg))).
Proof.
  apply (proj2 (Register_policy demo_auth demo_entropy "a@b.c" "correct-horse-42")). discriminate.
Defined.

Lemma AuthInterceptor_gate_witness :
  (∃ msg, serve_call (λ c m h, h c) true 0 Unary (MkContext None None None)
     "/chat.ChatService/PostMessage" (λ ctx, Ok tt) = Err (StatusError Unauthenticated msg)) ∧
  serve_call (λ c m h, h c) true 0 Streaming (MkContext None None None)
    "/chat.ChatService/Connect" (λ ctx, Ok (cx_UserIDKey ctx)) = Ok None.
Proof.
  split.
  - destruct (AuthInterceptor_gate (λ c m h, h c) 0 (MkContext None None None)
      "/chat.ChatService/PostMessage" Unary (λ ctx, Ok tt)) as [(md & v & r & c & H & _)|H];
      [reflexivity|do 1 right; left|discriminate H|exact H].
  - refine (proj2 (AuthInterceptor_gate (λ c m h, h c) 0 (MkContext None None None)
      "/chat.ChatService/Connect" Streaming (λ ctx, Ok (cx_UserIDKey ctx)) _ _));
      [reflexivity|do 2 right; left].
Defined.

(** Two overlapping registrations of one address on the concrete store. *)
Example overlapping_accounts :
  let data n := match Marshal (MkPbUser n "a@b.c" "h" 0 ["user"]) with Ok b => b | Err _ => "" end in
  match create_user_txn "a@b.c" (data "first") (NewTransaction (∅ : @DB MapBadger)),
        create_user_txn "a@b.c" (data "second") (NewTransaction (∅ : @DB MapBadger)) with
  | Ok t1, Ok t2 =>
      let! db1 := txn_Commit ∅ t1 in
      let! db2 := txn_Commit db1 t2 in
      let! u := GetUserByEmail (NewUserRepository db2) "a@b.c" in Ok (us_ID u)
  | _, _ => Err EOF
  end = Ok "second".
Proof. vm_compute; reflexivity. Qed.

Example interceptor_admits :
  match demo_registered.2 with
  | Ok tok => AuthInterceptor true (120 * second)
      (MkContext (Some {["authorization" := ["Bearer " +:+ tok]]}) None None)
      "/chat.ChatService/PostMessage" (λ ctx, Ok (cx_UserIDKey ctx, cx_RolesKey ctx))
  | Err e => Err e
  end = Ok (Some (uuid_String (uuid16_num 5)), Some ["user"]).
Proof. vm_refl. Qed.
