(* ===== verification/SharedStore.v ===== *)
(** * SharedStore: one database, four repositories

    [cmd/master/main.go] opens one database and gives it to the repositories of
    messages, analyses, file tasks and users.  Each keeps its records under its own
    keys; this file shows that they do not disturb each other, whatever the order of
    their operations and whichever of them fail. *)

From Stdlib Require Import String.
From S2P Require Import Prelude Errors Env Store Text Domain Mime MessageStore AnalysisStore TaskQueue Auth.

(** ** Key spaces *)

Create HintDb spaces.

Inductive space := Messages | Analyses | Tasks | Users.
#[export] Instance space_eq_dec : EqDecision space.
Proof. solve_decision. Defined.

Definition space_of (k : string) : option space :=
  if String.prefix "msg:" k then Some Messages
  else if String.prefix "analysis:" k || String.prefix "idx:msg:" k then Some Analyses
  else if String.prefix "work:" k then Some Tasks
  else if String.prefix "user:" k then Some Users
  else None.

Lemma space_msg s : space_of ("msg:" +:+ s) = Some Messages.
Proof. by destruct s. Qed.
Lemma space_an s : space_of ("analysis:" +:+ s) = Some Analyses.
Proof. by destruct s. Qed.
Lemma space_idx s : space_of ("idx:msg:" +:+ s) = Some Analyses.
Proof. by destruct s. Qed.
Lemma space_work s : space_of ("work:" +:+ s) = Some Tasks.
Proof. by destruct s. Qed.
Lemma space_user s : space_of ("user:" +:+ s) = Some Users.
Proof. by destruct s. Qed.

(** The two stores agree on the keys of a space. *)
Definition agree (sp : space) (m m' : gmap string string) : Prop :=
  ∀ k, space_of k = Some sp → m' !! k = m !! k.

#[export] Instance agree_equivalence sp : Equivalence (agree sp).
Proof.
  split; [by intros m k|by intros m m' H k Hk; rewrite H|].
  intros m1 m2 m3 H1 H2 k Hk. by rewrite H2, H1.
Qed.

Lemma agree_insert sp sp' m k v : space_of k = Some sp → sp' ≠ sp → agree sp' m (<[k := v]> m).
Proof. intros Hk Hne k' Hk'. apply lookup_insert_ne. congruence. Qed.
Lemma agree_delete sp sp' m k : space_of k = Some sp → sp' ≠ sp → agree sp' m (delete k m).
Proof. intros Hk Hne k' Hk'. apply lookup_delete_ne. congruence. Qed.

Section SharedStore.
Context {B : Badger} {BL : BadgerLaws B} {U : Uuid} {UL : UuidLaws U}
        {T : Timestamppb} {TL : TimestamppbLaws T} {UT : UnicodeTables}
        {BG : Bluge} {BGL : BlugeLaws BG}
        {CM : Codec pbMessage} {CML : CodecLaws pbMessage}
        {CA : Codec pbAnalysis} {CAL : CodecLaws pbAnalysis}
        {CT : Codec pbFileTask} {CTL : CodecLaws pbFileTask}
        {CU : Codec pbUser} {CUL : CodecLaws pbUser}.

Lemma space_message dm : space_of (message_key dm) = Some Messages.
Proof. exact (space_msg _). Qed.
Lemma space_room room k : String.prefix (room_prefix room) k = true → space_of k = Some Messages.
Proof. intros [s ->]%prefix_spec. exact (space_msg _). Qed.
Lemma space_analysis a : space_of (an_key a) = Some Analyses.
Proof. exact (space_an _). Qed.
Lemma space_index u : space_of (index_key u) = Some Analyses.
Proof. exact (space_idx _). Qed.
Lemma space_pending t : space_of (pending_key t) = Some Tasks.
Proof. exact (space_work _). Qed.
Lemma space_processing t : space_of (processing_key t) = Some Tasks.
Proof. exact (space_work _). Qed.
Lemma space_account e : space_of (user_key e) = Some Users.
Proof. exact (space_user _). Qed.

#[local] Hint Resolve space_message space_analysis space_index space_pending space_processing
  space_account agree_insert agree_delete : spaces.

(** ** What a well-formed store is *)

(** An account's record is readable and is that of its address. *)
Definition users_ok (m : gmap string string) : Prop :=
  ∀ email v, m !! user_key email = Some v → ∃ u, Unmarshal v = Ok u ∧ pu_Email u = email.

Definition space_ok (sp : space) (m : gmap string string) : Prop :=
  match sp with
  | Messages => messages_ok m
  | Analyses => store_ok m
  | Tasks => tasks_ok m
  | Users => users_ok m
  end.
Definition well_formed (m : gmap string string) : Prop := ∀ sp, space_ok sp m.

Lemma well_formed_empty : well_formed ∅.
Proof.
  intros []; [intros room k v|split|intros k v|intros email v]; intros; by rewrite lookup_empty in *.
Qed.

(** Each invariant is about the keys of its space. *)
#[export] Instance space_ok_agree sp : Proper (agree sp ==> impl) (space_ok sp).
Proof.
  intros m m' Ha Hok. destruct sp; cbn [space_ok] in *.
  - intros room k v Hk Hp. rewrite Ha in Hk by (by eapply space_room). by eapply Hok.
  - destruct Hok as [Hp Hi]. split.
    + intros k v Hk Hpre. rewrite Ha in Hk; [by eapply Hp|].
      apply prefix_spec in Hpre as [s ->]. apply space_an.
    + intros u k Hk. rewrite Ha in Hk by apply space_index.
      destruct (Hi _ _ Hk) as (a & -> & Hu & v & Hv & Hd). exists a. split_and!; [done|done|].
      exists v. by rewrite Ha by apply space_analysis.
  - intros k v Hk Hp. rewrite Ha in Hk; [by eapply Hok|]. apply prefix_spec in Hp as [s ->].
    exact (space_work _).
  - intros email v Hk. rewrite Ha in Hk by apply space_account. by eapply Hok.
Qed.

(** ** The operations *)

Record shared_store := MkSharedStore { sh_db : DB; sh_writer : Writer }.
Abbreviation keys s := (db_map (sh_db s)).

(** The operations that write. *)
Inductive store_op :=
| PutMessage (dm : DiskMessage)
| PutAnalysis (a : Analysis)
| PutBatch (batch : list Analysis)
| PutTask (t : FileTask)
| TakeTask (t : FileTask)
| PutUser (fresh : uuid) (now : time) (email hash : string).

Definition op_space (op : store_op) : space :=
  match op with
  | PutMessage _ => Messages
  | PutAnalysis _ | PutBatch _ => Analyses
  | PutTask _ | TakeTask _ => Tasks
  | PutUser _ _ _ _ => Users
  end.

(** One operation of one repository, with the error it returns.  A batch that fails may
    have written a part of its sets, or all of them when the search index refuses it
    after the flush. *)
Inductive store_step (s : shared_store) : store_op → option error → shared_store → Prop :=
| sp_message limit dm r err :
    room_ok (dm_Room dm) → StoreMessage (NewMessageRepository (sh_db s) limit) dm = (r, err) →
    store_step s (PutMessage dm) err (MkSharedStore (mr_db r) (sh_writer s))
| sp_analysis l1 l2 a r err :
    StoreAnalysis (NewAnalysisRepository (sh_db s) (sh_writer s) l1 l2) a = Some (r, err) →
    store_step s (PutAnalysis a) err (MkSharedStore (ar_db r) (ar_writer r))
| sp_batch l1 l2 batch r err :
    StoreBatch (NewAnalysisRepository (sh_db s) (sh_writer s) l1 l2) batch = Some (r, err) →
    store_step s (PutBatch batch) err (MkSharedStore (ar_db r) (ar_writer r))
| sp_task t f err :
    task_ok t → EnqueueTask (NewFileTaskRepository (sh_db s)) t = (f, err) →
    store_step s (PutTask t) err (MkSharedStore (tr_db f) (sh_writer s))
| sp_mark t f err :
    MarkAsProcessing (NewFileTaskRepository (sh_db s)) t = (f, err) →
    store_step s (TakeTask t) err (MkSharedStore (tr_db f) (sh_writer s))
| sp_user fresh now email hash u id err :
    CreateUser (NewUserRepository (sh_db s)) fresh now email hash = (u, (id, err)) →
    store_step s (PutUser fresh now email hash) err (MkSharedStore (ur_db u) (sh_writer s)).

(** The states reached from an empty database, with the operations and their outcomes. *)
Inductive store_trace : list (store_op * option error) → shared_store → Prop :=
| st_empty db w : db_map db = ∅ → store_trace [] (MkSharedStore db w)
| st_step trace s op err s' : store_trace trace s → store_step s op err s' →
    store_trace (trace ++ [(op, err)]) s'.

(** What an operation may write: keys of its space. *)
Lemma store_effect_agree sp m a : sp ≠ Analyses → agree sp m (store_effect m a).
Proof.
  intros Hne. unfold store_effect. destruct (bytes_of a); [|done].
  etrans; [|by eauto with spaces]. by eauto with spaces.
Qed.

Lemma batch_sets_agree sp m l n : sp ≠ Analyses →
  agree sp m (apply_sets m (take n (l ≫= batch_sets))).
Proof.
  intros Hne. apply apply_sets_ind; [done|]. intros m' [k v] Hin Ha.
  etrans; [exact Ha|]. apply (agree_insert Analyses); [|done].
  apply list_elem_of_bind in Hin as (a & Hin & _). unfold batch_sets in Hin.
  destruct (bytes_of a); [|by inversion Hin].
  apply elem_of_cons in Hin as [[= -> ->]|Hin]; [apply space_analysis|].
  apply list_elem_of_singleton in Hin as [= -> ->]. apply space_index.
Qed.

Lemma store_step_frame s op err s' sp : store_step s op err s' → sp ≠ op_space op →
  agree sp (keys s) (keys s').
Proof.
  destruct 1 as [limit dm r err _ H|l1 l2 a r err H|l1 l2 batch r err H|t f err _ H|t f err H
                |fresh now email hash u id err H]; cbn [sh_db op_space]; intros Hne.
  - destruct err; [by apply StoreMessage_err in H as ->|].
    apply StoreMessage_map in H as (b & _ & -> & _). by eauto with spaces.
  - destruct err; [apply StoreAnalysis_atomic in H as [->| ->]; [done|]|
      apply StoreAnalysis_effect in H as (_ & -> & _)]; by apply store_effect_agree.
  - apply StoreBatch_sets in H as (j & n & _ & ->). by apply batch_sets_agree.
  - destruct err; [by apply EnqueueTask_err in H as ->|].
    apply EnqueueTask_map in H as (b & _ & ->). by eauto with spaces.
  - destruct err; [by apply MarkAsProcessing_err in H as ->|].
    apply MarkAsProcessing_map in H as (_ & b & _ & ->).
    etrans; [|by eauto with spaces]. by eauto with spaces.
  - destruct err; [by apply CreateUser_err in H as ->|].
    apply CreateUser_map in H as (_ & _ & b & _ & ->). by eauto with spaces.
Qed.

Lemma store_step_ok s op err s' : store_step s op err s' →
  space_ok (op_space op) (keys s) → space_ok (op_space op) (keys s').
Proof.
  destruct 1 as [limit dm r err Hr H|l1 l2 a r err H|l1 l2 batch r err H|t f err Ht H|t f err H
                |fresh now email hash u id err H]; cbn [sh_db op_space space_ok]; intros Hok.
  - pose proof (StoreMessage_preserves (NewMessageRepository (sh_db s) limit) dm Hok Hr) as Hp.
    by rewrite H in Hp.
  - destruct err; [apply StoreAnalysis_atomic in H as [->| ->]; [done|]|
      apply StoreAnalysis_effect in H as (_ & -> & _)]; by apply store_effect_ok.
  - by apply StoreBatch_store_ok in H.
  - pose proof (EnqueueTask_preserves (NewFileTaskRepository (sh_db s)) t Hok Ht) as Hp.
    by rewrite H in Hp.
  - destruct err; [by apply MarkAsProcessing_err in H as ->|].
    apply MarkAsProcessing_map in H as (_ & b & _ & ->). by apply tasks_ok_mark.
  - destruct err; [by apply CreateUser_err in H as ->|].
    apply CreateUser_map in H as (_ & _ & b & Hb & ->).
    intros email' v [[Hk <-]|[_ Hv]]%lookup_insert_Some; [|by eapply Hok].
    apply user_key_inj in Hk as <-. eexists. split; [by eapply Unmarshal_Marshal|done].
Qed.

Lemma store_step_well_formed s op err s' : store_step s op err s' →
  well_formed (keys s) → well_formed (keys s').
Proof.
  intros Hs Hok sp. destruct (decide (sp = op_space op)) as [->|Hne]; [by eapply store_step_ok|].
  by rewrite <- (store_step_frame _ _ _ _ _ Hs Hne).
Qed.

Lemma store_trace_ok trace s : store_trace trace s → well_formed (keys s).
Proof.
  induction 1 as [db w Hdb|]; [cbn; rewrite Hdb; apply well_formed_empty|].
  by eapply store_step_well_formed.
Qed.

(** C11. The repositories share one database without disturbing each other.  In every
    state they can bring the database to from an empty one, one operation after the other
    in any order and with any of them failing (a batch of analyses possibly half-way, or
    after its flush), every record under a key of one of them is readable and is
    the record of that key: a message under its room, time and identifier; an analysis
    under its namespace, time and entity, with every pointer leading to an analysis of
    its entity; a task in the queue; an account under its address.  And an operation of
    one repository changes no key of another. *)
Theorem shared_store_well_formed trace s : store_trace trace s →
  well_formed (keys s) ∧
  ∀ op err s', store_step s op err s' → ∀ sp, sp ≠ op_space op → agree sp (keys s) (keys s').
Proof.
  intros Hr. split; [by eapply store_trace_ok|].
  intros op err s' Hs sp Hne. by eapply store_step_frame.
Qed.
End SharedStore.

(** ** A database with records of each kind *)

#[local] Existing Instance Latin1Tables.

Definition with_analyses : @shared_store MapBadger MapBluge :=
  MkSharedStore (ar_db (stored_analyses None)) (ar_writer (stored_analyses None)).
Definition with_message : @shared_store MapBadger MapBluge :=
  MkSharedStore (mr_db (StoreMessage (NewMessageRepository (sh_db with_analyses) None)
                          (demo_message 1 7 1000)).1) (sh_writer with_analyses).
Definition with_task : @shared_store MapBadger MapBluge :=
  MkSharedStore (tr_db (EnqueueTask (NewFileTaskRepository (sh_db with_message))
                          (demo_task "a" NORMAL (10 ^ 18))).1) (sh_writer with_message).
Definition with_user : @shared_store MapBadger MapBluge :=
  MkSharedStore (ur_db (CreateUser (NewUserRepository (sh_db with_task)) (uuid16_num 5) 0 "a@b.c" "h").1)
    (sh_writer with_task).

Definition with_user_trace : list (store_op * option error) :=
  [(PutBatch demo_analyses, None); (PutMessage (demo_message 1 7 1000), None);
   (PutTask (demo_task "a" NORMAL (10 ^ 18)), None); (PutUser (uuid16_num 5) 0 "a@b.c" "h", None)].

Lemma with_user_reachable : store_trace with_user_trace with_user.
Proof.
  apply (st_step (take 3 with_user_trace) with_task).
  { apply (st_step (take 2 with_user_trace) with_message).
    { apply (st_step (take 1 with_user_trace) with_analyses).
      { apply (st_step [] (MkSharedStore ∅ (ar_writer (empty_analyses None)))); [by constructor|].
        apply (sp_batch _ None 10 demo_analyses (stored_analyses None) None).
        apply stored_analyses_batch. }
      eapply (sp_message _ None _ (StoreMessage (NewMessageRepository _ None) _).1); [|vm_refl]. unfold room_ok, in_s. simpl. lia. }
    eapply (sp_task _ _ (EnqueueTask (NewFileTaskRepository _) _).1); [|vm_refl]. apply demo_task_ok. by right. }
  eapply (sp_user _ _ _ _ _ (CreateUser (NewUserRepository _) _ _ _ _).1 (uuid16_String (uuid16_num 5))).
  vm_refl.
Qed.

Lemma shared_store_well_formed_witness :
  well_formed (db_map (sh_db with_user)) ∧ size (db_map (sh_db with_user)) = 9%nat.
Proof.
  split; [|vm_compute; reflexivity].
  exact (proj1 (shared_store_well_formed with_user_trace with_user with_user_reachable)).
Defined.
