(* ===== verification/Contents.v ===== *)
(** * Contents: what the database means

    The repositories promise their clients something simpler than keys and bytes: maps of
    messages, analyses, tasks and accounts.  [contents] is that abstract state,
    [spec_step] what an operation may do to it, and [represents] relates it to the keys
    of the one database ([SharedStore]).  Every operation is simulated, and every reader
    answers from the abstract maps. *)

From Stdlib Require Import Ascii String.
From S2P Require Import Prelude Errors Env Store Text Domain Mime MessageStore AnalysisStore TaskQueue.
From S2P Require Import Auth SharedStore.

(** ** A map kept under encoded keys *)

Section KeptAs.
Context {K A : Type} `{Countable K} (enc : K → string) (rel : K → string → A → Prop).

(** Every key of the abstract map holds bytes that mean its value, and no other key of
    the form is in use. *)
Definition kept_as (m : gmap string string) (c : gmap K A) : Prop :=
  ∀ k, option_Forall2 (rel k) (m !! enc k) (c !! k).

Lemma kept_as_empty : kept_as ∅ ∅.
Proof. intros k. rewrite !lookup_empty. constructor. Qed.

Lemma kept_as_lookup m c k v : kept_as m c → m !! enc k = Some v → ∃ a, c !! k = Some a ∧ rel k v a.
Proof. intros Hk Hv. specialize (Hk k). rewrite Hv in Hk. inversion Hk; eauto. Qed.

Lemma kept_as_lookup_2 m c k a : kept_as m c → c !! k = Some a → ∃ v, m !! enc k = Some v ∧ rel k v a.
Proof. intros Hk Hv. specialize (Hk k). rewrite Hv in Hk. inversion Hk; eauto. Qed.

Lemma kept_as_None m c k : kept_as m c → m !! enc k = None ↔ c !! k = None.
Proof. intros Hk. specialize (Hk k). split; intros E; rewrite E in Hk; by inversion Hk. Qed.

Lemma kept_as_insert `{!Inj (=) (=) enc} m c k v a :
  rel k v a → kept_as m c → kept_as (<[enc k := v]> m) (<[k := a]> c).
Proof.
  intros Hr Hk k'. destruct (decide (k' = k)) as [->|Hne].
  - rewrite !lookup_insert_eq. by constructor.
  - rewrite !lookup_insert_ne; [apply Hk|congruence|]. intros ?%(inj enc). congruence.
Qed.

Lemma kept_as_delete `{!Inj (=) (=) enc} m c k :
  kept_as m c → kept_as (delete (enc k) m) (delete k c).
Proof.
  intros Hk k'. destruct (decide (k' = k)) as [->|Hne].
  - rewrite !lookup_delete_eq. by constructor.
  - rewrite !lookup_delete_ne; [apply Hk|congruence|]. intros ?%(inj enc). congruence.
Qed.

(** Writing elsewhere does not matter. *)
Lemma kept_as_frame m m' c : (∀ k, m' !! enc k = m !! enc k) → kept_as m c → kept_as m' c.
Proof. intros Hm Hk k. rewrite Hm. apply Hk. Qed.

(** When the values carry their keys, the values are the records found under them. *)
Definition values (c : gmap K A) : list A := (map_to_list c).*2.

Context (id_of : A → K) (rel_id : ∀ k v a, rel k v a → id_of a = k)
  (rel_fun : ∀ k v a a', rel k v a → rel k v a' → a = a').

Lemma values_NoDup m c : kept_as m c → NoDup (values c).
Proof.
  intros Hk. apply (NoDup_fmap_1 id_of). unfold values.
  replace (id_of <$> (map_to_list c).*2) with (map_to_list c).*1; [apply NoDup_fst_map_to_list|].
  rewrite <- list_fmap_compose. apply list_fmap_ext. intros i [k a] Hi%list_elem_of_lookup_2.
  apply elem_of_map_to_list in Hi. destruct (kept_as_lookup_2 _ _ _ _ Hk Hi) as (v & _ & Hr).
  cbn. by erewrite rel_id.
Qed.

Lemma elem_of_values m c a : kept_as m c →
  a ∈ values c ↔ ∃ v, m !! enc (id_of a) = Some v ∧ rel (id_of a) v a.
Proof.
  intros Hk. unfold values. rewrite list_elem_of_fmap. split.
  - intros ([k a'] & -> & Hi%elem_of_map_to_list). cbn.
    destruct (kept_as_lookup_2 _ _ _ _ Hk Hi) as (v & Hv & Hr).
    rewrite (rel_id _ _ _ Hr). eauto.
  - intros (v & Hv & Hr). destruct (kept_as_lookup _ _ _ _ Hk Hv) as (a' & Hc & Hr').
    exists (id_of a, a'). split; [by eapply rel_fun|by apply elem_of_map_to_list].
Qed.

(** A list of the records found under their keys is the list of the values. *)
Lemma values_Permutation (P : A → bool) m c l : kept_as m c → NoDup l →
  (∀ a, a ∈ l ↔ P a = true ∧ ∃ v, m !! enc (id_of a) = Some v ∧ rel (id_of a) v a) →
  l ≡ₚ List.filter P (values c).
Proof.
  intros Hk Hl Hel. apply NoDup_Permutation; [done| |].
  - apply NoDup_ListNoDup, List.NoDup_filter, NoDup_ListNoDup. by eapply values_NoDup.
  - intros a. rewrite Hel, elem_of_lfilter, (elem_of_values m c a Hk). tauto.
Qed.
End KeptAs.

Section Contents.
Context {B : Badger} {BL : BadgerLaws B} {U : Uuid} {UL : UuidLaws U}
        {T : Timestamppb} {TL : TimestamppbLaws T} {UT : UnicodeTables}
        {BG : Bluge} {BGL : BlugeLaws BG}
        {CM : Codec pbMessage} {CML : CodecLaws pbMessage}
        {CA : Codec pbAnalysis} {CAL : CodecLaws pbAnalysis}
        {CT : Codec pbFileTask} {CTL : CodecLaws pbFileTask}
        {CU : Codec pbUser} {CUL : CodecLaws pbUser}.

Definition uuid_of_string (s : string) : option uuid :=
  match uuid_Parse s with Ok u => Some u | Err _ => None end.
Lemma uuid_of_String u : uuid_of_string (uuid_String u) = Some u.
Proof. unfold uuid_of_string. by rewrite uuid_Parse_String. Qed.
#[export] Instance uuid_countable : Countable uuid :=
  inj_countable uuid_String uuid_of_string uuid_of_String.

(** ** The abstract state *)

Abbreviation message_id := (Z * Z * uuid)%type.
Abbreviation analysis_id := (string * Z * uuid)%type.
Abbreviation task_id := (Z * Z * string)%type.

Record contents := MkContents {
  c_messages : gmap message_id DiskMessage;
  c_analyses : gmap analysis_id Analysis;
  (** the analysis last stored for an entity *)
  c_latest : gmap uuid analysis_id;
  c_pending : gmap task_id FileTask;
  c_processing : gmap string FileTask;
  c_users : gmap string User;
}.

Definition no_contents : contents := MkContents ∅ ∅ ∅ ∅ ∅ ∅.

Definition message_id_of (dm : DiskMessage) : message_id :=
  (dm_Room dm, UnixNano (dm_At dm), dm_ID dm).
Definition analysis_id_of (a : Analysis) : analysis_id :=
  (an_Namespace a, UnixNano (an_At a), an_EntityId a).
Definition task_id_of (t : FileTask) : task_id :=
  (tk_Priority t, UnixNano (tk_CreatedAt t), tk_ID t).

Definition put_message (c : contents) (dm : DiskMessage) : contents :=
  MkContents (<[message_id_of dm := dm]> (c_messages c)) (c_analyses c) (c_latest c) (c_pending c)
    (c_processing c) (c_users c).
Definition put_analysis (c : contents) (a : Analysis) : contents :=
  MkContents (c_messages c) (<[analysis_id_of a := canonical a]> (c_analyses c))
    (<[an_EntityId a := analysis_id_of a]> (c_latest c)) (c_pending c) (c_processing c) (c_users c).
(** The record of an analysis, its entity still leading to an older one. *)
Definition put_record (c : contents) (a : Analysis) : contents :=
  MkContents (c_messages c) (<[analysis_id_of a := canonical a]> (c_analyses c))
    (c_latest c) (c_pending c) (c_processing c) (c_users c).
Definition put_task (c : contents) (t : FileTask) : contents :=
  MkContents (c_messages c) (c_analyses c) (c_latest c) (<[task_id_of t := t]> (c_pending c))
    (c_processing c) (c_users c).
Definition take_task (c : contents) (t : FileTask) : contents :=
  MkContents (c_messages c) (c_analyses c) (c_latest c) (delete (task_id_of t) (c_pending c))
    (<[tk_ID t := fromPbFileTask (toPbFileTask t)]> (c_processing c)) (c_users c).
Definition put_user (c : contents) (u : User) : contents :=
  MkContents (c_messages c) (c_analyses c) (c_latest c) (c_pending c) (c_processing c)
    (<[us_Email u := u]> (c_users c)).

(** What an operation that succeeds does; it cannot succeed otherwise. *)
Definition spec_effect (c : contents) (op : store_op) : option contents :=
  match op with
  | PutMessage dm => Some (put_message c dm)
  | PutAnalysis a => Some (put_analysis c a)
  | PutBatch batch => Some (foldl put_analysis c batch)
  | PutTask t => Some (put_task c t)
  | TakeTask t => if c_pending c !! task_id_of t is Some _ then Some (take_task c t) else None
  | PutUser fresh now email hash =>
      if c_users c !! email is Some _ then None
      else Some (put_user c (MkUser (uuid_String fresh) email hash ["user"] (time_Unix (Unix now) 0)))
  end.

Inductive spec_step (c : contents) : store_op → option error → contents → Prop :=
| spec_done op c' : spec_effect c op = Some c' → spec_step c op None c'
| spec_failed op e : spec_step c op (Some e) c
(** the analysis is kept, and the search index refused it *)
| spec_unindexed a e : spec_step c (PutAnalysis a) (Some e) (put_analysis c a)
(** a batch that failed half-way, or whose analyses the index refused after they were
    kept: the first of them are kept, the last of these possibly as a record only *)
| spec_part batch n e :
    spec_step c (PutBatch batch) (Some e) (foldl put_analysis c (take n batch))
| spec_part_record batch n a e : batch !! n = Some a →
    spec_step c (PutBatch batch) (Some e) (put_record (foldl put_analysis c (take n batch)) a).

Inductive spec_trace : list (store_op * option error) → contents → Prop :=
| spec_start : spec_trace [] no_contents
| spec_next trace c op err c' : spec_trace trace c → spec_step c op err c' →
    spec_trace (trace ++ [(op, err)]) c'.

(** ** The keys *)

Definition message_enc (k : message_id) : string :=
  room_prefix k.1.1 +:+ fmt_pad 19 k.1.2 +:+ ":" +:+ uuid_String k.2.
Definition analysis_enc (k : analysis_id) : string :=
  analysis_prefix k.1.1 +:+ fmt_pad 19 k.1.2 +:+ ":" +:+ uuid_String k.2.
Definition pending_enc (k : task_id) : string :=
  pending_prefix +:+ fmt_d k.1.1 +:+ ":" +:+ fmt_d k.1.2 +:+ ":" +:+ k.2.
Definition processing_enc (id : string) : string := "work:processing:" +:+ id.

Lemma message_enc_of dm : message_key dm = message_enc (message_id_of dm).
Proof. done. Qed.
Lemma analysis_enc_of a : an_key a = analysis_enc (analysis_id_of a).
Proof. done. Qed.
Lemma pending_enc_of t : pending_key t = pending_enc (task_id_of t).
Proof. done. Qed.

#[local] Instance message_enc_inj : Inj (=) (=) message_enc.
Proof.
  intros [[r1 n1] u1] [[r2 n2] u2]. unfold message_enc. cbn [fst snd].
  intros [-> Hk]%room_prefix_inj.
  apply sep_inj in Hk as [Hn%fmt_pad_inj Hu%uuid_String_inj];
    [by subst|apply fmt_pad_lacks; simpl; by auto with lia..].
Qed.

#[local] Instance analysis_enc_inj : Inj (=) (=) analysis_enc.
Proof.
  intros [[s1 n1] u1] [[s2 n2] u2]. unfold analysis_enc, analysis_prefix. cbn [fst snd].
  rewrite !str_app_assoc. intros Hk. apply str_app_inj_len in Hk as [Hk Hu%uuid_String_inj];
    [|by rewrite !uuid_String_length].
  apply str_app_inj_len in Hk as [Hk _]; [|done]. rewrite <- !str_app_assoc in Hk.
  injection Hk as Hk. apply sep_inj_r in Hk as [-> Hn%fmt_pad_inj];
    [by subst|apply fmt_pad_lacks; simpl; by auto with lia..].
Qed.

#[local] Instance pending_enc_inj : Inj (=) (=) pending_enc.
Proof.
  intros [[p1 n1] i1] [[p2 n2] i2]. unfold pending_enc. cbn [fst snd]. intros Hk.
  injection Hk as Hk.
  apply sep_inj in Hk as [Hp%fmt_pad_inj Hk]; [|apply fmt_pad_lacks; simpl; by auto with lia..].
  apply sep_inj in Hk as [Hn%fmt_pad_inj Hi]; [|apply fmt_pad_lacks; simpl; by auto with lia..].
  by subst.
Qed.

#[local] Instance processing_enc_inj : Inj (=) (=) processing_enc.
Proof. by intros i1 i2 [= ?]. Qed.
#[local] Instance index_key_inj' : Inj (=) (=) index_key.
Proof. intros u v. apply index_key_inj. Qed.
#[local] Instance user_key_inj' : Inj (=) (=) user_key.
Proof. intros e1 e2. apply user_key_inj. Qed.

(** ** The simulation relation *)

Definition message_bytes (k : message_id) (v : string) (dm : DiskMessage) : Prop :=
  decode_message v = Ok dm ∧ message_id_of dm = k.
Definition analysis_bytes (k : analysis_id) (v : string) (a : Analysis) : Prop :=
  decode_analysis v = Ok a ∧ analysis_id_of a = k.
Definition pointer_bytes (u : uuid) (v : string) (k : analysis_id) : Prop :=
  v = analysis_enc k ∧ k.2 = u.
Definition pending_bytes (k : task_id) (v : string) (t : FileTask) : Prop :=
  decode_task v = Ok t ∧ task_id_of t = k.
Definition processing_bytes (id : string) (v : string) (t : FileTask) : Prop := decode_task v = Ok t.
Definition user_bytes (email : string) (v : string) (u : User) : Prop :=
  ∃ pb, Unmarshal v = Ok pb ∧ toUserStruct pb = u.

Lemma message_bytes_id k v dm : message_bytes k v dm → message_id_of dm = k.
Proof. by intros []. Qed.
Lemma message_bytes_fun k v a b : message_bytes k v a → message_bytes k v b → a = b.
Proof. intros [Ha _] [Hb _]. congruence. Qed.
Lemma analysis_bytes_id k v a : analysis_bytes k v a → analysis_id_of a = k.
Proof. by intros []. Qed.
Lemma analysis_bytes_fun k v a b : analysis_bytes k v a → analysis_bytes k v b → a = b.
Proof. intros [Ha _] [Hb _]. congruence. Qed.
Lemma pending_bytes_id k v t : pending_bytes k v t → task_id_of t = k.
Proof. by intros []. Qed.
Lemma pending_bytes_fun k v a b : pending_bytes k v a → pending_bytes k v b → a = b.
Proof. intros [Ha _] [Hb _]. congruence. Qed.

Record represents (m : gmap string string) (c : contents) : Prop := {
  rp_messages : kept_as message_enc message_bytes m (c_messages c);
  rp_analyses : kept_as analysis_enc analysis_bytes m (c_analyses c);
  rp_latest : kept_as index_key pointer_bytes m (c_latest c);
  rp_pending : kept_as pending_enc pending_bytes m (c_pending c);
  rp_processing : kept_as processing_enc processing_bytes m (c_processing c);
  rp_users : kept_as user_key user_bytes m (c_users c);
}.

(** Keys of different kinds differ. *)
Ltac other_key := intros ?; rewrite ?lookup_insert_ne, ?lookup_delete_ne by done; done.
Ltac kept_frame H := refine (kept_as_frame _ _ _ _ _ _ H); other_key.

Lemma represents_put_message m c dm b : represents m c → decode_message b = Ok dm →
  represents (<[message_key dm := b]> m) (put_message c dm).
Proof.
  intros [Hm Ha Hl Hp Hw Hu] Hb. rewrite message_enc_of.
  split; [by apply (kept_as_insert _ _ _ _ (message_id_of dm))|kept_frame Ha|kept_frame Hl|kept_frame Hp|kept_frame Hw|kept_frame Hu].
Qed.

Lemma represents_put_analysis m c a b : represents m c → bytes_of a = Some b →
  represents (store_effect m a) (put_analysis c a).
Proof.
  intros [Hm Ha Hl Hp Hw Hu] Hb. unfold store_effect. rewrite Hb, analysis_enc_of.
  split; [kept_frame Hm| | |kept_frame Hp|kept_frame Hw|kept_frame Hu]; cbn [put_analysis c_analyses c_latest].
  - apply (kept_as_insert _ _ _ _ (analysis_id_of a) b (canonical a)) in Ha; [kept_frame Ha|].
    split; [by apply decode_bytes_of|done].
  - apply (kept_as_insert _ _ _ _ (an_EntityId a)); [done|]. kept_frame Hl.
Qed.

Lemma represents_put_record m c a b : represents m c → bytes_of a = Some b →
  represents (<[an_key a := b]> m) (put_record c a).
Proof.
  intros [Hm Ha Hl Hp Hw Hu] Hb. rewrite analysis_enc_of.
  split; [kept_frame Hm| |kept_frame Hl|kept_frame Hp|kept_frame Hw|kept_frame Hu]; cbn [put_record c_analyses].
  apply (kept_as_insert _ _ _ _ (analysis_id_of a) b (canonical a)); [|done].
  split; [by apply decode_bytes_of|done].
Qed.

Lemma represents_put_analyses l : ∀ m c, represents m c → Forall (λ a, is_Some (bytes_of a)) l →
  represents (foldl store_effect m l) (foldl put_analysis c l).
Proof.
  induction l as [|a l IH]; intros m c Hr Hl; [done|]. inversion Hl as [|? ? [b Hb] Hl']; subst.
  cbn [foldl]. eauto using represents_put_analysis.
Qed.

Lemma represents_put_task m c t b : represents m c → decode_task b = Ok t →
  represents (<[pending_key t := b]> m) (put_task c t).
Proof.
  intros [Hm Ha Hl Hp Hw Hu] Hb. rewrite pending_enc_of.
  split; [kept_frame Hm|kept_frame Ha|kept_frame Hl|by apply (kept_as_insert _ _ _ _ (task_id_of t))|kept_frame Hw|kept_frame Hu].
Qed.

Lemma represents_take_task m c t b : represents m c → Marshal (toPbFileTask t) = Ok b →
  represents (<[processing_key t := b]> (delete (pending_key t) m)) (take_task c t).
Proof.
  intros [Hm Ha Hl Hp Hw Hu] Hb. rewrite pending_enc_of.
  change (processing_key t) with (processing_enc (tk_ID t)).
  split; [kept_frame Hm|kept_frame Ha|kept_frame Hl| | |kept_frame Hu].
  - apply (kept_as_delete _ _ _ _ (task_id_of t)) in Hp. kept_frame Hp.
  - refine (kept_as_insert _ _ _ _ (tk_ID t) b _ _ _); [|kept_frame Hw]. unfold processing_bytes, decode_task.
    by rewrite (Unmarshal_Marshal _ _ Hb).
Qed.

Lemma represents_put_user m c b pb : represents m c → Unmarshal b = Ok pb →
  represents (<[user_key (pu_Email pb) := b]> m) (put_user c (toUserStruct pb)).
Proof.
  intros [Hm Ha Hl Hp Hw Hu] Hb.
  split; [kept_frame Hm|kept_frame Ha|kept_frame Hl|kept_frame Hp|kept_frame Hw|].
  cbn [put_user c_users toUserStruct us_Email]. refine (kept_as_insert _ _ _ _ (pu_Email pb) b _ _ _); [|done]. by exists pb.
Qed.

Lemma represents_empty : represents ∅ no_contents.
Proof. split; apply kept_as_empty. Qed.

(** ** Every operation is simulated *)

Abbreviation keys s := (db_map (sh_db s)).

Lemma store_step_simulated s op err s' c : represents (keys s) c → store_step s op err s' →
  ∃ c', spec_step c op err c' ∧ represents (keys s') c'.
Proof.
  intros Hr. destruct 1 as [limit dm r err Hroom H|l1 l2 a r err H|l1 l2 batch r err H
    |t f err Ht H|t f err H|fresh now email hash u id err H]; cbn [sh_db];
    destruct err as [e|].
  - exists c. split; [by constructor|]. by apply StoreMessage_err in H as ->.
  - apply StoreMessage_map in H as (b & Hb & -> & _). eexists. split; [by apply spec_done|].
    apply represents_put_message; [done|]. by apply decode_Marshal.
  - apply StoreAnalysis_atomic in H as [->| ->]; [exists c; split; [by constructor|done]|].
    destruct (bytes_of a) as [b|] eqn:Hb.
    + exists (put_analysis c a). split; [by apply spec_unindexed|by eapply represents_put_analysis].
    + exists c. split; [by constructor|]. unfold store_effect. by rewrite Hb.
  - apply StoreAnalysis_effect in H as ([b Hb] & -> & _). eexists. split; [by apply spec_done|].
    by eapply represents_put_analysis.
  - apply StoreBatch_sets in H as (j & n & Hj & ->). cbn [ar_db].
    assert (∀ k, represents (foldl store_effect (keys s) (take k (take j batch)))
      (foldl put_analysis c (take (k `min` j) batch))) as Hk.
    { intros k. rewrite <- take_take. apply represents_put_analyses; [done|]. by apply Forall_take. }
    destruct (take_batch_sets (take j batch) (keys s) n) as (k & [->|(a & b & Ha & Hb & ->)]);
      specialize (Hk k); [eexists; split; [apply spec_part|exact Hk]|].
    apply lookup_take_Some in Ha as [Ha Hlt]. rewrite (Nat.min_l k j) in Hk by lia.
    eexists. split; [by apply spec_part_record|]. by apply represents_put_record.
  - apply StoreBatch_effect in H as (Hb & -> & _). eexists. split; [by apply spec_done|].
    by apply represents_put_analyses.
  - exists c. split; [by constructor|]. by apply EnqueueTask_err in H as ->.
  - apply EnqueueTask_map in H as (b & Hb & ->). eexists. split; [by apply spec_done|].
    apply represents_put_task; [done|]. by apply decode_Marshal_task.
  - exists c. split; [by constructor|]. by apply MarkAsProcessing_err in H as ->.
  - apply MarkAsProcessing_map in H as ([v Hv] & b & Hb & ->). rewrite pending_enc_of in Hv.
    destruct (kept_as_lookup _ _ _ _ _ _ (rp_pending _ _ Hr) Hv) as (t' & Ht' & _).
    eexists. split; [apply spec_done; cbn; by rewrite Ht'|]. by apply represents_take_task.
  - exists c. split; [by constructor|]. by apply CreateUser_err in H as ->.
  - apply CreateUser_map in H as (Hn & -> & b & Hb & ->).
    apply (kept_as_None _ _ _ _ _ (rp_users _ _ Hr)) in Hn.
    eexists. split; [apply spec_done; cbn; by rewrite Hn|].
    exact (represents_put_user _ _ _ _ Hr (Unmarshal_Marshal _ _ Hb)).
Qed.

(** ** Every reader answers from the contents *)

Definition room_messages (c : contents) (room : RoomID) : list DiskMessage :=
  List.filter (λ dm, bool_decide (dm_Room dm = room)) (values (c_messages c)).
Definition namespace_analyses (c : contents) (ns : string) : list Analysis :=
  List.filter (λ a, bool_decide (an_Namespace a = ns)) (values (c_analyses c)).

(** What the clients of the repositories see of a database whose contents are [c]. *)
Record answers (db : DB) (w : Writer) (c : contents) : Prop := {
  (** following the cursors of a room, to the end, whatever the page size *)
  ans_history limit room fuel : limit ≠ Some 0 → (size (db_map db) < fuel)%nat →
    ∃ msgs, walk fuel (NewMessageRepository db limit) room None = Ok msgs ∧
      msgs ≡ₚ room_messages c room ∧
      (Forall (λ dm, modern (dm_At dm)) msgs → StronglySorted (λ a b, dm_At b ≤ dm_At a) msgs);
  (** following the cursors of a namespace, when no namespace holds the separator *)
  ans_scan l1 l2 ns fuel : (∀ n, l1 = Some n → 0 < n) → (size (db_map db) < fuel)%nat →
    lacks ":" ns = true → Forall (λ a, lacks ":" (an_Namespace a) = true) (values (c_analyses c)) →
    ∃ ans, scan_walk fuel (NewAnalysisRepository db w l1 l2) ns None = Ok ans ∧
      ans ≡ₚ namespace_analyses c ns ∧
      (Forall (λ a, modern (an_At a)) ans → StronglySorted (λ a b, an_At b ≤ an_At a) ans);
  (** the analysis last stored for an entity, under its namespace only *)
  ans_fetch l1 l2 ns u :
    match c_latest c !! u ≫= (c_analyses c !!.) with
    | Some a => an_EntityId a = u ∧
        FetchFullByEntityId (NewAnalysisRepository db w l1 l2) ns u =
          if String.eqb (an_Namespace a) ns then Ok a else Err (foreign ns u)
    | None => ∃ msg, FetchFullByEntityId (NewAnalysisRepository db w l1 l2) ns u =
        Err (Wrapped msg ErrKeyNotFound)
    end;
  (** the head of the queue, by priority and age *)
  ans_batch limit : ∃ all, GetNextBatch (NewFileTaskRepository db) limit =
      Ok (take (Z.to_nat limit) all) ∧ all ≡ₚ values (c_pending c) ∧
      (Forall (λ t, recent (tk_CreatedAt t)) all → StronglySorted due_before all);
  (** the account of an address *)
  ans_user email : GetUserByEmail (NewUserRepository db) email =
    match c_users c !! email with Some u => Ok u | None => Err ErrKeyNotFound end;
}.

Section Answers.
Context {BR : BadgerReads B} (db : DB) (w : Writer) (c : contents).
Abbreviation m := (db_map db).
Context (Hr : represents m c) (Hok : well_formed m).

Lemma represented_history limit room fuel : limit ≠ Some 0 → (size m < fuel)%nat →
  ∃ msgs, walk fuel (NewMessageRepository db limit) room None = Ok msgs ∧
    msgs ≡ₚ room_messages c room ∧
    (Forall (λ dm, modern (dm_At dm)) msgs → StronglySorted (λ a b, dm_At b ≤ dm_At a) msgs).
Proof.
  intros Hl Hf. destruct (walk_history (NewMessageRepository db limit) room fuel (Hok Messages) Hl Hf)
    as (msgs & Hw & Hn & He & Hs).
  exists msgs. split_and!; [done| |].
  - apply (values_Permutation _ _ message_id_of message_bytes_id message_bytes_fun _ _ _ _ (rp_messages _ _ Hr)); [by eapply NoDup_fmap_1|].
    intros dm. rewrite He, bool_decide_eq_true. unfold stored, message_bytes. naive_solver.
  - intros Hm. apply (sorted_by_time room); [done|]. rewrite Forall_forall in Hm.
    intros dm Hdm. split; [by apply He|by apply Hm].
Qed.

Lemma represented_scan l1 l2 ns fuel : (∀ n, l1 = Some n → 0 < n) → (size m < fuel)%nat →
  lacks ":" ns = true → Forall (λ a, lacks ":" (an_Namespace a) = true) (values (c_analyses c)) →
  ∃ ans, scan_walk fuel (NewAnalysisRepository db w l1 l2) ns None = Ok ans ∧
    ans ≡ₚ namespace_analyses c ns ∧
    (Forall (λ a, modern (an_At a)) ans → StronglySorted (λ a b, an_At b ≤ an_At a) ans).
Proof.
  intros Hl Hf Hns Hall.
  assert (∀ a, analysis_stored m a ↔ a ∈ values (c_analyses c)) as Hst.
  { intros a. rewrite (elem_of_values _ _ analysis_id_of analysis_bytes_id analysis_bytes_fun _ _ a (rp_analyses _ _ Hr)).
    unfold analysis_stored, analysis_bytes. naive_solver. }
  destruct (scan_walk_enumerates (NewAnalysisRepository db w l1 l2) ns fuel (Hok Analyses))
    as (ans & Hw & Hn & He & Hs); [|done|done|].
  { apply isolated_colon_free; [done|]. rewrite Forall_forall in Hall. intros a Ha%Hst. by apply Hall. }
  exists ans. split_and!; [done| |by rewrite Forall_forall in *].
  apply NoDup_Permutation; [by eapply NoDup_fmap_1| |].
  - apply NoDup_ListNoDup, List.NoDup_filter, NoDup_ListNoDup.
    exact (values_NoDup _ _ analysis_id_of analysis_bytes_id _ _ (rp_analyses _ _ Hr)).
  - intros a. unfold namespace_analyses. rewrite He, elem_of_lfilter, bool_decide_eq_true, Hst. naive_solver.
Qed.

Lemma represented_fetch l1 l2 ns u :
  match c_latest c !! u ≫= (c_analyses c !!.) with
  | Some a => an_EntityId a = u ∧
      FetchFullByEntityId (NewAnalysisRepository db w l1 l2) ns u =
        if String.eqb (an_Namespace a) ns then Ok a else Err (foreign ns u)
  | None => ∃ msg, FetchFullByEntityId (NewAnalysisRepository db w l1 l2) ns u =
      Err (Wrapped msg ErrKeyNotFound)
  end.
Proof.
  destruct (c_latest c !! u) as [k|] eqn:Hl; cbn [mbind option_bind].
  - destruct (kept_as_lookup_2 _ _ _ _ _ _ (rp_latest _ _ Hr) Hl) as (v & Hv & -> & Hu).
    destruct (pointer_ok _ (Hok Analyses) _ _ Hv) as (a & Ha & Hau & b & Hb & Hd).
    rewrite analysis_enc_of in Ha. apply (inj analysis_enc) in Ha. subst k.
    rewrite analysis_enc_of in Hb.
    destruct (kept_as_lookup _ _ _ _ _ _ (rp_analyses _ _ Hr) Hb) as (a' & Ha' & Hd' & _).
    rewrite Hd in Hd'. injection Hd' as <-. rewrite Ha'. split; [done|]. rewrite <- Hau.
    apply (Fetch_current (NewAnalysisRepository db w l1 l2)). split; [by rewrite Hau|by exists b].
  - apply Fetch_missing. by apply (kept_as_None _ _ _ _ _ (rp_latest _ _ Hr)).
Qed.

Lemma represented_batch limit : ∃ all, GetNextBatch (NewFileTaskRepository db) limit =
    Ok (take (Z.to_nat limit) all) ∧ all ≡ₚ values (c_pending c) ∧
    (Forall (λ t, recent (tk_CreatedAt t)) all → StronglySorted due_before all).
Proof.
  destruct (GetNextBatch_correct (NewFileTaskRepository db) limit (Hok Tasks)) as (all & Hg & He & Hn & Hs).
  exists all. split_and!; [done| |by rewrite Forall_forall].
  rewrite <- (lfilter_all (λ _, true) (values _)) by done.
  apply (values_Permutation _ _ task_id_of pending_bytes_id pending_bytes_fun _ _ _ _ (rp_pending _ _ Hr));
    [by eapply NoDup_fmap_1|].
  intros t. rewrite He. unfold pending, pending_bytes. naive_solver.
Qed.

Lemma represented_user email : GetUserByEmail (NewUserRepository db) email =
  match c_users c !! email with Some u => Ok u | None => Err ErrKeyNotFound end.
Proof.
  rewrite GetUserByEmail_map. cbn [ur_db]. destruct (c_users c !! email) as [u|] eqn:Hu.
  - destruct (kept_as_lookup_2 _ _ _ _ _ _ (rp_users _ _ Hr) Hu) as (v & -> & pb & -> & <-). done.
  - by apply (kept_as_None _ _ _ _ _ (rp_users _ _ Hr)) in Hu as ->.
Qed.

Lemma represented_answers : answers db w c.
Proof.
  split; [exact represented_history|exact represented_scan|exact represented_fetch
         |exact represented_batch|exact represented_user].
Qed.
End Answers.

Lemma store_trace_represents trace s : store_trace trace s →
  ∃ c, spec_trace trace c ∧ represents (keys s) c.
Proof.
  induction 1 as [db w Hdb|trace s op err s' _ (c & Hc & Hr) Hs].
  - exists no_contents. split; [constructor|]. cbn. rewrite Hdb. apply represents_empty.
  - destruct (store_step_simulated _ _ _ _ _ Hr Hs) as (c' & Hc' & Hr'). exists c'.
    split; [by econstructor|done].
Qed.


End Contents.

(** ** A database with records of each kind *)

#[local] Existing Instance Latin1Tables.

