(* ===== verification/Contract.v ===== *)
(** * Contract: the interface of the registry ([contract/contract.go])

    The orchestrator and the fan-out are given a [contract.IRegistry].  [IRegistry] is that
    interface, and [RegistrySpec] what they rely on: a registry stands for the set of live
    connections, each in a room with a sink.  [Registry] implements it; [Chat], [Fanout]
    and [Live] are proved against it. *)

From S2P Require Import Prelude Errors Env Domain.

Class IRegistry (Sink : Type) := {
  registry : Type;
  reg_GetSinksForRoom : registry → RoomID → list Sink;
  reg_Subscribe : registry → string → RoomID → Sink → registry;
  reg_Unsubscribe : registry → string → RoomID → registry;
}.

(** Each live connection: its room and its sink. *)
Abbreviation connections Sink := (gmap string (RoomID * Sink)).

Section Connections.
Context {Sink : Type}.

Definition room_sinks (c : connections Sink) (room : RoomID) : list Sink :=
  snd ∘ snd <$> List.filter (λ e, bool_decide (e.2.1 = room)) (map_to_list c).

Inductive client_op := Join (p : string) (room : RoomID) (sink : Sink) | Leave (p : string) (room : RoomID).

(** What a connection may do: join when it is new, leave the room it is in. *)
Inductive connection_step : connections Sink → client_op → connections Sink → Prop :=
| step_join c p room sink : c !! p = None →
    connection_step c (Join p room sink) (<[p := (room, sink)]> c)
| step_leave c p room sink : c !! p = Some (room, sink) →
    connection_step c (Leave p room) (delete p c).

Inductive connection_trace : connections Sink → list client_op → connections Sink → Prop :=
| trace_nil c : connection_trace c [] c
| trace_cons c1 op c2 ops c3 : connection_step c1 op c2 → connection_trace c2 ops c3 →
    connection_trace c1 (op :: ops) c3.

Definition apply_op {I : IRegistry Sink} (r : registry) (op : client_op) : registry :=
  match op with
  | Join p room sink => reg_Subscribe r p room sink
  | Leave p room => reg_Unsubscribe r p room
  end.
End Connections.

(** The contract: the relation between a registry and the connections it stands for is
    kept by what connections may do, and determines the sinks of a room. *)
Class RegistrySpec {Sink} (I : IRegistry Sink) := {
  holds : registry → connections Sink → Prop;
  holds_step r c op c' : holds r c → connection_step c op c' → holds (apply_op r op) c';
  holds_sinks r c room : holds r c → reg_GetSinksForRoom r room ≡ₚ room_sinks c room;
}.

Lemma holds_trace {Sink} {I : IRegistry Sink} {R : RegistrySpec I} c ops c' : connection_trace c ops c' →
  ∀ r, holds r c → holds (foldl apply_op r ops) c'.
Proof. induction 1; intros r Hr; simpl; [done|]. eauto using holds_step. Qed.
