(* ===== verification/Registry.v ===== *)
(** * Registry: [runtime/registry.go]

    Who is connected, and which rooms they are in.  The registry keeps two
    maps; what its clients rely on is simpler: a set of live connections, each
    in a room with a sink.  [refines] relates the two, and every operation of
    a well-behaved client (a connection joins one room once and leaves that
    room, as [ChatServer.Connect] does) preserves it. *)

From S2P Require Import Prelude Errors Env Domain Contract.

Section Registry.
(** An event sink: here only its identity matters. *)
Context {Sink : Type}.

Record Registry := MkRegistry {
  Sessions : gmap string Sink;
  RoomMembers : gmap Z (gset string);
}.

Definition NewRegistry : Registry := MkRegistry ∅ ∅.

(** The sinks of the members that have a session (in the iteration order of
    the member set, which Go leaves unspecified). *)
Definition GetSinksForRoom (r : Registry) (roomID : RoomID) : list Sink :=
  match RoomMembers r !! roomID with
  | None => []
  | Some members => omap (λ participantID, Sessions r !! participantID) (elements members)
  end.

Definition Subscribe (r : Registry) (participantID : string) (roomID : RoomID) (sink : Sink)
  : Registry :=
  let sessions := <[participantID := sink]> (Sessions r) in
  let rooms := match RoomMembers r !! roomID with
               | Some _ => RoomMembers r
               | None => <[roomID := ∅]> (RoomMembers r)
               end in
  let members := default ∅ (rooms !! roomID) in
  MkRegistry sessions (<[roomID := {[participantID]} ∪ members]> rooms).

Definition Unsubscribe (r : Registry) (participantID : string) (roomID : RoomID) : Registry :=
  let sessions := delete participantID (Sessions r) in
  match RoomMembers r !! roomID with
  | None => MkRegistry sessions (RoomMembers r)
  | Some members =>
      let members := members ∖ {[participantID]} in
      if (size members =? 0)%nat then MkRegistry sessions (delete roomID (RoomMembers r))
      else MkRegistry sessions (<[roomID := members]> (RoomMembers r))
  end.

(** ** Membership *)

(** The room's members; an absent room has none. *)
Definition members (r : Registry) (room : RoomID) : gset string :=
  default ∅ (RoomMembers r !! room).

(** No empty sets are kept. *)
Definition no_empty_rooms (r : Registry) : Prop :=
  ∀ room s, RoomMembers r !! room = Some s → s ≠ ∅.

Lemma members_Subscribe r p room sink room' :
  members (Subscribe r p room sink) room' =
    if decide (room' = room) then {[p]} ∪ members r room else members r room'.
Proof.
  unfold members, Subscribe; simpl. destruct (decide (room' = room)) as [->|Hne].
  - rewrite lookup_insert_eq. simpl.
    destruct (RoomMembers r !! room) as [s|] eqn:E; simpl; [by rewrite E|].
    by rewrite lookup_insert_eq.
  - rewrite lookup_insert_ne by done.
    destruct (RoomMembers r !! room); [done|]. by rewrite lookup_insert_ne.
Qed.

Lemma members_Unsubscribe r p room room' :
  members (Unsubscribe r p room) room' =
    if decide (room' = room) then members r room ∖ {[p]} else members r room'.
Proof.
  unfold members, Unsubscribe.
  destruct (RoomMembers r !! room) as [s|] eqn:E; simpl.
  - destruct (Nat.eqb_spec (size (s ∖ {[p]})) 0) as [H0|H0]; simpl;
      destruct (decide (room' = room)) as [->|Hne];
      rewrite ?lookup_delete_eq, ?lookup_delete_ne, ?lookup_insert_eq, ?lookup_insert_ne by done;
      try done; simpl. apply size_empty_iff in H0. set_solver.
  - destruct (decide (room' = room)) as [->|]; [|done]. rewrite E. simpl. set_solver.
Qed.

Lemma Sessions_Unsubscribe r p room : Sessions (Unsubscribe r p room) = delete p (Sessions r).
Proof. unfold Unsubscribe. repeat case_match; done. Qed.

Lemma no_empty_Subscribe r p room sink : no_empty_rooms r → no_empty_rooms (Subscribe r p room sink).
Proof.
  intros Hr room' s. unfold Subscribe; simpl. rewrite lookup_insert_Some.
  intros [[<- <-]|[Hne Hs]]; [set_solver|].
  destruct (RoomMembers r !! room) eqn:E; [by eapply Hr|].
  rewrite lookup_insert_ne in Hs by done. by eapply Hr.
Qed.

Lemma no_empty_Unsubscribe r p room : no_empty_rooms r → no_empty_rooms (Unsubscribe r p room).
Proof.
  intros Hr room' s. unfold Unsubscribe. destruct (RoomMembers r !! room) as [ms|] eqn:E; [|by eapply Hr].
  destruct (Nat.eqb_spec (size (ms ∖ {[p]})) 0) as [H0|H0]; simpl.
  - rewrite lookup_delete_Some. intros [_ Hs]. by eapply Hr.
  - rewrite lookup_insert_Some. intros [[<- <-]|[_ Hs]]; [|by eapply Hr].
    intros He. apply H0. rewrite He. apply size_empty.
Qed.

Lemma GetSinksForRoom_members r room :
  GetSinksForRoom r room = omap (λ p, Sessions r !! p) (elements (members r room)).
Proof.
  unfold GetSinksForRoom, members. destruct (RoomMembers r !! room); simpl; [done|].
  by rewrite elements_empty.
Qed.

(** ** The abstract view: live connections *)

Definition refines (r : Registry) (c : connections Sink) : Prop :=
  no_empty_rooms r ∧ Sessions r = snd <$> c ∧
  ∀ room p, p ∈ members r room ↔ ∃ sink, c !! p = Some (room, sink).

#[global] Instance RegistryI : IRegistry Sink := {|
  registry := Registry;
  reg_GetSinksForRoom := GetSinksForRoom;
  reg_Subscribe := Subscribe;
  reg_Unsubscribe := Unsubscribe;
|}.

Lemma refines_step r c op c' : refines r c → connection_step c op c' → refines (apply_op r op) c'.
Proof.
  intros (He & Hs & Hm). inversion 1 as [? p room sink Hp|? p room sink Hp]; subst;
    cbn [apply_op reg_Subscribe reg_Unsubscribe RegistryI].
  - split_and!; [by apply no_empty_Subscribe| |].
    + unfold Subscribe. cbn [Sessions]. by rewrite Hs, fmap_insert.
    + intros room' p'. rewrite members_Subscribe. destruct (decide (p' = p)) as [->|Hne].
      * rewrite lookup_insert_eq. destruct (decide (room' = room)) as [->|Hne].
        -- split; [by exists sink|set_solver].
        -- rewrite Hm, Hp. naive_solver.
      * rewrite lookup_insert_ne, <- Hm by done. case_decide; set_solver.
  - split_and!; [by apply no_empty_Unsubscribe| |].
    + by rewrite Sessions_Unsubscribe, Hs, fmap_delete.
    + intros room' p'. rewrite members_Unsubscribe. destruct (decide (p' = p)) as [->|Hne].
      * rewrite lookup_delete_eq. case_decide; subst; [set_solver|]. rewrite Hm, Hp. naive_solver.
      * rewrite lookup_delete_ne, <- Hm by done. case_decide; set_solver.
Qed.

Lemma refines_new : refines NewRegistry ∅.
Proof.
  split_and!; simpl.
  - intros ? s Hs. simpl in Hs. by rewrite lookup_empty in Hs.
  - by rewrite fmap_empty.
  - intros ? p. unfold members. simpl. rewrite !lookup_empty. simpl. set_solver.
Qed.

Lemma refines_sinks r c room : refines r c →
  GetSinksForRoom r room ≡ₚ room_sinks c room.
Proof.
  unfold room_sinks. intros (_ & Hs & Hm). rewrite GetSinksForRoom_members, Hs.
  set (l := List.filter _ _).
  assert (elements (members r room) ≡ₚ l.*1) as ->.
  { apply NoDup_Permutation; [apply NoDup_elements| |].
    - subst l. pose proof (NoDup_fst_map_to_list c) as Hnd.
      induction (map_to_list c) as [|e es IH]; simpl; [constructor|].
      apply NoDup_cons in Hnd as [Hn Hnd]. case_match; [|by apply IH].
      apply NoDup_cons. split; [|by apply IH].
      intros (e' & He & [He' _]%elem_of_lfilter)%list_elem_of_fmap.
      apply Hn. rewrite He. by apply list_elem_of_fmap_2.
    - intros p. rewrite elem_of_elements, Hm, list_elem_of_fmap. split.
      + intros [sink Hp]. exists (p, (room, sink)). split; [done|]. apply elem_of_lfilter.
        split; [by apply elem_of_map_to_list|]. by apply bool_decide_eq_true.
      + intros ([p' [room' sink]] & -> & [Hp%elem_of_map_to_list Hr%bool_decide_eq_true]%elem_of_lfilter).
        simpl in *. subst. by exists sink. }
  assert (∀ e, e ∈ l → c !! e.1 = Some e.2) as Hl.
  { intros [p v] [Hp%elem_of_map_to_list _]%elem_of_lfilter. done. }
  clearbody l. induction l as [|[p v] l IH]; [done|].
  pose proof (Hl (p, v) ltac:(left)) as Hp. simpl in *. rewrite lookup_fmap, Hp. simpl.
  f_equiv. apply IH.
  intros e He. apply Hl. by right.
Qed.

#[global] Instance Registry_spec : RegistrySpec RegistryI :=
  {| holds := refines; holds_step := refines_step; holds_sinks := refines_sinks |}.

(** C17. The registry implements the set of live connections: after any
    interleaving of joins and leaves by connections that each enter one room,
    the sinks of a room are exactly those of the connections in it, each once,
    and no room without members is kept. *)
Theorem registry_refines_connections ops c room :
  connection_trace ∅ ops c →
  let r := foldl apply_op NewRegistry ops in
  GetSinksForRoom r room ≡ₚ room_sinks c room ∧ no_empty_rooms r.
Proof.
  intros Ht r. assert (refines r c) as Hr by exact (holds_trace _ _ _ Ht NewRegistry refines_new).
  split; [by apply refines_sinks|apply Hr].
Qed.

(** Outside that discipline the two maps disagree: a participant of two rooms
    who leaves one keeps its membership of the other but loses its session, so
    it receives nothing there any more. *)
Theorem leaving_one_room_silences_the_other p room1 room2 sink : room1 ≠ room2 →
  let r := foldl apply_op NewRegistry [Join p room1 sink; Join p room2 sink; Leave p room1] in
  p ∈ members r room2 ∧ GetSinksForRoom r room2 = [].
Proof.
  intros Hne r. assert (p ∈ members r room2) as Hp.
  { subst r. cbn [foldl apply_op reg_Subscribe reg_Unsubscribe RegistryI]. rewrite members_Unsubscribe.
    destruct (decide (room2 = room1)); [congruence|]. rewrite members_Subscribe.
    destruct (decide (room2 = room2)); [set_solver|done]. }
  split; [done|]. rewrite GetSinksForRoom_members. subst r.
  cbn [foldl apply_op reg_Subscribe reg_Unsubscribe RegistryI]. rewrite Sessions_Unsubscribe. simpl.
  rewrite !delete_insert_eq, delete_empty. induction (elements _); [done|]. simpl.
  by rewrite lookup_empty.
Qed.

End Registry.

(** Three connections, one of which leaves. *)
Lemma registry_refines_connections_witness :
  let ops := [Join "a" 1 10%nat; Join "b" 1 20%nat; Join "c" 2 30%nat; Leave "a" 1] in
  GetSinksForRoom (foldl apply_op NewRegistry ops) 1 ≡ₚ
    room_sinks (delete "a" (<["c" := (2, 30%nat)]> (<["b" := (1, 20%nat)]>
      (<["a" := (1, 10%nat)]> (∅ : gmap string (Z * nat)))))) 1.
Proof.
  refine (proj1 (registry_refines_connections
    [Join "a" 1 10%nat; Join "b" 1 20%nat; Join "c" 2 30%nat; Leave "a" 1] _ 1 _)).
  eapply trace_cons; [apply step_join; reflexivity|].
  eapply trace_cons; [apply step_join; reflexivity|].
  eapply trace_cons; [apply step_join; reflexivity|].
  eapply trace_cons; [eapply step_leave; reflexivity|]. apply trace_nil.
Defined.
