(* ===== verification/Chat.v ===== *)
(** * Chat: the path of a message

    [infrastructure/grpc/server/chat_server.go], [services/chat_service.go],
    the message operations of [runtime/orchestrator.go],
    [runtime/workers/pool_unit.go], [runtime/workers/moderation.go],
    [runtime/workers/event_fanout.go], [sink/disk_sink.go] and
    [sink/grpc_sink.go]: a posted command goes through the command channel, a
    pool worker, the moderation channel, the moderation worker and the event
    channel to the fan-out, which hands it to the sinks of the room and to the
    history.  The case a [select] takes is an explicit argument; workers that
    hold a message between receiving and sending it are part of the state. *)

From S2P Require Import Prelude Errors Env Store Text Domain Moderation MessageStore Contract Registry.

Section Chat.
Context {B : Badger} {BL : BadgerLaws B} {U : Uuid} {UL : UuidLaws U}
        {T : Timestamppb} {TL : TimestamppbLaws T}
        {C : Codec pbMessage} {CL : CodecLaws pbMessage}
        {UT : UnicodeTables} {A : AhoCorasick} {AL : AhoCorasickLaws A}.

(** ** Workers *)

(** [chat.Command]. *)
Inductive Command :=
| CmdPostMessage (c : PostMessageCommand)
| CmdGetMessage (c : GetMessageCommand).

(** [fresh] and [now] are [uuid.New()] and [time.Now()]. *)
Definition toMessagePostedEvent (fresh : uuid) (now : time) (c : PostMessageCommand) : Event :=
  MkEvent DomainType now
    (PayloadMessagePosted
       (MkMessagePosted fresh (pmc_Room c) (pmc_UserID c) (pmc_Content c) (pmc_CreatedAt c))).

(** One round of [PoolUnitWorker.Run] on a received command: what it goes on to
    send.  An unknown room is only logged. *)
Definition PoolUnitWorker_receive (fresh : uuid) (now : time) (command : Command) : option Event :=
  match command with
  | CmdPostMessage c => Some (toMessagePostedEvent fresh now c)
  | CmdGetMessage _ => None
  end.

(** [processAndSanitize]; [score] is the random score of [decide].  [None] is
    a panic of the censor.  The identifier of the posted message is not copied
    to the sanitized one. *)
Definition processAndSanitize (m : Moderator) (now : time) (score : float64) (evt : MessagePosted)
  : option Event :=
  match Censor m (mp_Content evt) with
  | None => None
  | Some (sanitized, foundWords) =>
      Some (MkEvent DomainType now
        (PayloadSanitized
           (MkSanitizedMessage uuid_Nil (mp_Room evt) (mp_Author evt) sanitized foundWords
              (mp_At evt) score)))
  end.

(** One round of [ModerationWorker.Run] on a received event: [None] a panic,
    [Some None] nothing to send. *)
Definition ModerationWorker_receive (m : Moderator) (now : time) (score : float64) (e : Event)
  : option (option Event) :=
  match ev_Payload e with
  | PayloadMessagePosted evt => Some <$> processAndSanitize m now score evt
  | _ => Some None
  end.

(** ** Sinks *)

(** [DiskSink]. *)
Definition sink_toDiskMessage (event : SanitizedMessage) : DiskMessage :=
  MkDiskMessage (sm_ID event) (sm_Room event) (sm_Author event) (sm_Content event) (sm_At event)
    (sm_ToxicityScore event).
Definition DiskSink_Consume (repository : MessageRepository) (e : DomainEvent)
  : MessageRepository * option error :=
  match e with
  | EvSanitizedMessage evt => StoreMessage repository (sink_toDiskMessage evt)
  | _ => (repository, None)
  end.

(** [Sink]: the buffer of a connected user. *)
Record GrpcSink := MkGrpcSink { ConnectedUserEvent : list DomainEvent; gs_bufferSize : nat }.
Definition NewGrpcSink (bufferSize : nat) : GrpcSink := MkGrpcSink [] bufferSize.
Inductive sink_case := SinkCtxDone (err : error) | SinkSent | SinkTimedOut.
(** The cases of its [select] that can fire: the send when the buffer has room, the end
    of the context once it was cancelled.  The timer counts while the buffer is full: a
    positive timeout does not run out before the [select] is reached, and a send that
    waits takes place as soon as there is room. *)
Definition sink_full (s : GrpcSink) : bool :=
  (gs_bufferSize s <=? length (ConnectedUserEvent s))%nat.
Definition sink_ready (cancelled : bool) (s : GrpcSink) (c : sink_case) : bool :=
  match c with
  | SinkSent => negb (sink_full s)
  | SinkTimedOut => sink_full s
  | SinkCtxDone _ => cancelled
  end.
Definition GrpcSink_Consume (s : GrpcSink) (c : sink_case) (e : DomainEvent)
  : GrpcSink * option error :=
  match c with
  | SinkCtxDone err => (s, Some err)
  | SinkSent => (MkGrpcSink (ConnectedUserEvent s ++ [e]) (gs_bufferSize s), None)
  | SinkTimedOut => (s, None)
  end.

(** ** Fan-out *)

(** The sinks an event is handed to: those of the room, then the history. *)
Inductive target (Sink : Type) := RoomSink (s : Sink) | DiskTarget.
#[global] Arguments RoomSink {Sink} s.
#[global] Arguments DiskTarget {Sink}.

Definition Fanout `{IRegistry Sink} (r : registry) (evt : DomainEvent) : list (target Sink) :=
  (RoomSink <$> reg_GetSinksForRoom r (event_RoomID evt)) ++ [DiskTarget].

(** The type switch of [EventFanoutWorker.Run]: who consumes an event. *)
Inductive route := RouteDomain (e : DomainEvent) | RouteFile (e : FileAnalyzerEvent) | RouteNone.
Definition fanout_route (e : Event) : route :=
  match ev_Payload e with
  | PayloadMessagePosted m => RouteDomain (EvMessagePosted m)
  | PayloadSanitized m => RouteDomain (EvSanitizedMessage m)
  | PayloadFileAnalyse f => RouteFile (EvFileAnalyse f)
  | PayloadAnalysisSegment s => RouteFile (EvAnalysisSegment s)
  | _ => RouteNone
  end.

(** ** The orchestrator's message operations *)

Record MessageHub {Sink : Type} {I : IRegistry Sink} := MkMessageHub {
  o_rooms : gmap Z Room;
  o_registry : registry;
  o_globalCommands : list Command;
  o_bufferSize : nat;
  o_maxContentLength : Z;
  o_messageRepository : MessageRepository;
}.
#[global] Arguments MessageHub Sink {I}.
#[global] Arguments MkMessageHub Sink {I}.

Section Hub.
Context {Sink : Type} {I : IRegistry Sink}.
Implicit Types o : MessageHub Sink.

Definition RegisterRoom o (room : Room) : MessageHub Sink :=
  match o_rooms o !! rm_ID room with
  | Some _ => o
  | None => MkMessageHub Sink (<[rm_ID room := room]> (o_rooms o)) (o_registry o)
              (o_globalCommands o) (o_bufferSize o) (o_maxContentLength o) (o_messageRepository o)
  end.

Definition with_registry o (r : registry) : MessageHub Sink :=
  MkMessageHub Sink (o_rooms o) r (o_globalCommands o) (o_bufferSize o) (o_maxContentLength o)
    (o_messageRepository o).
Definition RegisterParticipant o (pID : string) (roomID : RoomID) (sink : Sink) : MessageHub Sink :=
  with_registry o (reg_Subscribe (o_registry o) pID roomID sink).
Definition UnregisterParticipant o (pID : string) (roomID : RoomID) : MessageHub Sink :=
  with_registry o (reg_Unsubscribe (o_registry o) pID roomID).

(** The case [PostMessage]'s [select] takes. *)
Inductive post_case := PostCtxDone (err : error) | PostEnqueued | PostTimer.
Definition post_ready o (c : post_case) : bool :=
  match c with PostEnqueued => (length (o_globalCommands o) <? o_bufferSize o)%nat | _ => true end.

Definition PostMessage o (c : post_case) (cmd : PostMessageCommand)
  : MessageHub Sink * option error :=
  if o_maxContentLength o <? strlen (pmc_Content cmd) then (o, Some ErrContentTooLarge)
  else
    match c with
    | PostCtxDone err => (o, Some err)
    | PostEnqueued =>
        (MkMessageHub Sink (o_rooms o) (o_registry o)
           (o_globalCommands o ++ [CmdPostMessage cmd]) (o_bufferSize o) (o_maxContentLength o)
           (o_messageRepository o), None)
    | PostTimer => (o, Some ErrServerOverloaded)
    end.

Definition orch_fromDiskMessage (messages : list DiskMessage) : list Message :=
  (λ item, MkMessage (dm_ID item) (dm_Author item) (dm_Content item) (dm_At item)) <$> messages.
Definition orch_GetMessages o (cmd : GetMessageCommand)
  : result error (list Message * option string) :=
  let! (messages, cursor) := GetMessages (o_messageRepository o) (gmc_Room cmd) (gmc_Cursor cmd) in
  Ok (orch_fromDiskMessage messages, cursor).

(** ** [services/chat_service.go] and [chat_server.go] *)

Definition JoinRoom o (userID : string) (roomID : RoomID) (sink : Sink) : MessageHub Sink :=
  RegisterParticipant (RegisterRoom o (NewRoom roomID)) userID roomID sink.
Definition LeaveRoom o (userID : string) (roomID : RoomID) : MessageHub Sink :=
  UnregisterParticipant o userID roomID.

Record pbMessageResponse := MkPbMessageResponse {
  mrs_MessageId : string; mrs_Author : string; mrs_Content : string; mrs_CreatedAt : Timestamp;
}.
Definition toMessageResponse (messages : list Message) : list pbMessageResponse :=
  (λ item, MkPbMessageResponse (uuid_String (ms_ID item)) (ms_SenderID item) (ms_Content item)
             (timestamppb_New (ms_CreatedAt item))) <$> messages.
(** [GetMessage]: on an error the response carries no message. *)
Definition server_GetMessage o (room : Z) (cursor : option string)
  : list pbMessageResponse * option string * option error :=
  match orch_GetMessages o (MkGetMessageCommand room cursor) with
  | Ok (messages, cursor) => (toMessageResponse messages, cursor, None)
  | Err e => ([], None, Some e)
  end.

(** [PostMessage] of the server; [userID] is a fresh identifier. *)
Definition server_PostMessage o (c : post_case) (userID : string) (now : time) (roomId : Z)
    (content : string) : MessageHub Sink * option error :=
  let command := MkPostMessageCommand roomId userID content now in
  let '(o, err) := PostMessage o c command in
  (o, MapToGRPCError err).

(** [Connect]: what its loop receives, and what it sends; [None] while it is
    still connected. *)
Inductive connect_signal :=
| StreamDone
| StreamEvent (e : DomainEvent) (send_err : option error).
Definition toChatEvent (e : SanitizedMessage) : pbMessageResponse :=
  MkPbMessageResponse (uuid_String (sm_ID e)) (sm_Author e) (sm_Content e)
    (timestamppb_New (sm_At e)).
Fixpoint connect_loop (signals : list connect_signal) (sent : list pbMessageResponse)
  : list pbMessageResponse * option (option error) :=
  match signals with
  | [] => (sent, None)
  | StreamDone :: _ => (sent, Some None)
  | StreamEvent (EvSanitizedMessage e) None :: signals => connect_loop signals (sent ++ [toChatEvent e])
  | StreamEvent (EvSanitizedMessage e) (Some err) :: _ => (sent, Some (Some err))
  | StreamEvent _ _ :: signals => connect_loop signals sent
  end.
Definition Connect o (userID : string) (roomID : RoomID) (sink : Sink)
    (signals : list connect_signal)
  : MessageHub Sink * list pbMessageResponse * option (option error) :=
  let o := JoinRoom o userID roomID sink in
  match connect_loop signals [] with
  | (sent, None) => (o, sent, None)
  | (sent, Some ret) => (LeaveRoom o userID roomID, sent, Some ret)
  end.

End Hub.

(** ** Posting under backpressure *)

Section Posting.
Context {Sink : Type} {I : IRegistry Sink}.
Implicit Types o : MessageHub Sink.

Definition with_commands o (cs : list Command) : MessageHub Sink :=
  MkMessageHub Sink (o_rooms o) (o_registry o) cs (o_bufferSize o) (o_maxContentLength o)
    (o_messageRepository o).

(** What the clients and the pool workers do to the command channel: a call of
    the server's [PostMessage] with the case its [select] takes, and a receive. *)
Inductive hub_op :=
| ClientPosts (c : post_case) (userID : string) (now : time) (roomId : Z) (content : string)
| WorkerTakes.

(** A sequence of them: the answers to the clients and the commands taken, in
    order; [None] when a case that was not ready is given. *)
Fixpoint hub_run o (ops : list hub_op) (answers : list (PostMessageCommand * option error))
    (taken : list Command)
  : option (MessageHub Sink * list (PostMessageCommand * option error) * list Command) :=
  match ops with
  | [] => Some (o, answers, taken)
  | ClientPosts c userID now roomId content :: ops =>
      if post_ready o c then
        let '(o, err) := server_PostMessage o c userID now roomId content in
        hub_run o ops (answers ++ [(MkPostMessageCommand roomId userID content now, err)]) taken
      else None
  | WorkerTakes :: ops =>
      match o_globalCommands o with
      | command :: rest => hub_run (with_commands o rest) ops answers (taken ++ [command])
      | [] => None
      end
  end.

(** The commands whose clients were told that they were accepted. *)
Definition accepted (answers : list (PostMessageCommand * option error)) : list PostMessageCommand :=
  omap (λ a, match a.2 with None => Some a.1 | Some _ => None end) answers.

(** What the client of a post is answered. *)
Definition post_answer o (c : post_case) (content : string) : option error :=
  if o_maxContentLength o <? strlen content
  then Some (StatusError InvalidArgument "content  too large")
  else match c with
       | PostEnqueued => None
       | PostTimer => Some (StatusError ResourceExhausted "too many messages, please backoff")
       | PostCtxDone Canceled => Some (StatusError CodeCanceled "client canceled the request")
       | PostCtxDone DeadlineExceeded => Some (StatusError CodeDeadlineExceeded "request took too long")
       | PostCtxDone e => MapToGRPCError (Some e)
       end.

Lemma server_PostMessage_answer o c userID now roomId content :
  let cmd := MkPostMessageCommand roomId userID content now in
  server_PostMessage o c userID now roomId content =
    (match post_answer o c content with
     | None => with_commands o (o_globalCommands o ++ [CmdPostMessage cmd])
     | Some _ => o
     end, post_answer o c content).
Proof.
  cbv zeta. unfold server_PostMessage, PostMessage, post_answer. cbn [pmc_Content].
  destruct (o_maxContentLength o <? strlen content); [reflexivity|].
  destruct c as [e| |]; [|reflexivity|reflexivity].
  assert (∀ e, MapToGRPCError (Some e) ≠ None) as Hn by done.
  destruct e; reflexivity.
Qed.

Lemma hub_run_spec ops : ∀ o answers taken o' answers' taken',
  hub_run o ops answers taken = Some (o', answers', taken') →
  taken ++ o_globalCommands o = CmdPostMessage <$> accepted answers →
  (length (o_globalCommands o) ≤ o_bufferSize o)%nat →
  taken' ++ o_globalCommands o' = CmdPostMessage <$> accepted answers' ∧
  (length (o_globalCommands o') ≤ o_bufferSize o')%nat.
Proof.
  induction ops as [|[c userID now roomId content|] ops IH]; intros o answers taken o' answers' taken' Hr Hq Hl;
    cbn [hub_run] in Hr; [by simplify_eq| |].
  - destruct (post_ready o c) eqn:Hrdy; [|done]. rewrite server_PostMessage_answer in Hr.
    destruct (post_answer o c content) as [e|] eqn:Ha.
    + apply IH in Hr; [done| |done]. unfold accepted. rewrite omap_app. cbn. by rewrite app_nil_r.
    + assert (c = PostEnqueued) as ->.
      { unfold post_answer in Ha. case_match; [done|]. destruct c as [e| |]; [by destruct e|done|done]. }
      apply Nat.ltb_lt in Hrdy. apply IH in Hr; [done| |].
      * unfold accepted in *. rewrite omap_app. cbn. by rewrite fmap_app, <- Hq, app_assoc.
      * cbn. rewrite length_app. simpl. lia.
  - destruct (o_globalCommands o) as [|x rest] eqn:Hc; [done|]. apply IH in Hr; [done| |cbn in *; lia].
    cbn. by rewrite <- app_assoc.
Qed.

(** C34. Posting is bounded.  Whatever the clients post through the server and the
    workers receive, in any order: the command channel never exceeds its buffer, and what
    the workers received followed by what is still queued are exactly the commands whose
    clients were told they were accepted, in the order of acceptance.  And the client of
    a post is told InvalidArgument when the content is too long, whatever the load;
    otherwise it is accepted and queued at the end, or told ResourceExhausted (the wait
    ran out), Canceled or DeadlineExceeded (its context ended), and then nothing changed. *)
Theorem PostMessage_backpressure o ops o' answers taken :
  o_globalCommands o = [] → hub_run o ops [] [] = Some (o', answers, taken) →
  taken ++ o_globalCommands o' = CmdPostMessage <$> accepted answers ∧
  (length (o_globalCommands o') ≤ o_bufferSize o')%nat ∧
  ∀ c userID now roomId content, post_ready o' c = true →
    let cmd := MkPostMessageCommand roomId userID content now in
    let '(o'', answer) := server_PostMessage o' c userID now roomId content in
    (length (o_globalCommands o'') ≤ o_bufferSize o'')%nat ∧
    answer = post_answer o' c content ∧
    o'' = match answer with
          | None => with_commands o' (o_globalCommands o' ++ [CmdPostMessage cmd])
          | Some _ => o'
          end.
Proof.
  intros Ho Hr. destruct (hub_run_spec ops o [] [] o' answers taken Hr) as [Hq Hl];
    [by rewrite Ho|rewrite Ho; simpl; lia|].
  split_and!; [done|done|]. intros c userID now roomId content Hrdy cmd.
  rewrite server_PostMessage_answer. split_and!; [|done|by case_match].
  destruct (post_answer o' c content) eqn:Ha; [done|].
  assert (c = PostEnqueued) as ->.
  { unfold post_answer in Ha. case_match; [done|]. destruct c as [e| |]; [by destruct e|done|done]. }
  apply Nat.ltb_lt in Hrdy. cbn. rewrite length_app. simpl. lia.
Qed.
End Posting.

(** ** Leaving cleans up *)

(** C35. A connection never outlives its stream.  Whatever registry the orchestrator was
    given, as long as it meets its contract: while a user is connected, the registry holds
    the connections it held before and the user's; whenever [Connect] returns, by
    disconnection or by a failed send, it holds the connections it held before.  So the
    sinks of a room are at all times those of its connections, and a user who left
    receives nothing. *)
Theorem Connect_unregisters {Sink} {I : IRegistry Sink} {R : RegistrySpec I} (o : MessageHub Sink) c userID roomID sink
    signals o' sent ret :
  holds (o_registry o) c → c !! userID = None →
  Connect o userID roomID sink signals = (o', sent, ret) →
  let c' := match ret with Some _ => c | None => <[userID := (roomID, sink)]> c end in
  holds (o_registry o') c' ∧
  ∀ room, reg_GetSinksForRoom (o_registry o') room ≡ₚ room_sinks c' room.
Proof.
  intros Hc Hu HC c'. cut (holds (o_registry o') c'); [intros Hh; split; [done|intros; by apply holds_sinks]|].
  pose proof (holds_step _ _ _ _ Hc (step_join c userID roomID sink Hu)) as Hj. cbn [apply_op] in Hj.
  assert (o_registry (RegisterRoom o (NewRoom roomID)) = o_registry o) as Hr
    by (unfold RegisterRoom; by case_match).
  rewrite <- Hr in Hj. unfold Connect in HC.
  destruct (connect_loop signals []) as [sent' [ret'|]]; injection HC as <- _ <-; [|exact Hj].
  refine (eq_rect _ _ (holds_step _ _ _ _ Hj (step_leave _ userID roomID sink _)) _ _);
    [apply lookup_insert_eq|by apply delete_insert_id].
Qed.

(** ** The pipeline as a transition system *)

(** The command an event of the moderation channel was made from. *)
Definition posted_from (c : PostMessageCommand) (e : Event) : Prop :=
  ∃ fresh now, e = toMessagePostedEvent fresh now c.
(** The sanitized form of a command: same room, author and time, the content
    as the censor leaves it, the words it found. *)
Definition sanitized_from (m : Moderator) (c : PostMessageCommand) (s : SanitizedMessage) : Prop :=
  sm_Room s = pmc_Room c ∧ sm_Author s = pmc_UserID c ∧ sm_At s = pmc_CreatedAt c ∧
  sm_ID s = uuid_Nil ∧ Censor m (pmc_Content c) = Some (sm_Content s, sm_CensoredWords s).

Section Pipeline.
Context {Sink : Type} {I : IRegistry Sink}.

(** The chat part of the running system.  [pl_pool] and [pl_moderating] are
    the events workers hold between receiving and sending; [pl_accepted]
    records the commands [PostMessage] took and [pl_lost] the events a worker
    abandoned at shutdown.  The event channel also carries the events of
    files; they are left out here. *)
Record pipeline := MkPipeline {
  pl_hub : MessageHub Sink;
  pl_pool : list Event;
  pl_moderation : list Event;
  pl_moderating : list Event;
  pl_events : list Event;
  pl_fanned : list DomainEvent;
  pl_cancelled : bool;
  pl_accepted : list PostMessageCommand;
  pl_lost : list Event;
}.

Context (m : Moderator) (numWorkers eventBuffer : nat).

(** What happens next: a call of [PostMessage] and the case its [select]
    takes, a round of a worker up to its send, a send, a send given up
    because the context ended, the fan-out taking an event, the shutdown. *)
Inductive pipe_label :=
| Posts (c : post_case) (cmd : PostMessageCommand)
| PoolReceives (fresh : uuid) (now : time)
| PoolSends (i : nat)
| PoolAbandons (i : nat)
| ModerationReceives (now : time) (score : float64)
| ModerationSends (i : nat)
| ModerationAbandons (i : nat)
| FanoutTakes
| Shutdown.

(** One step; [None] when the label is not possible.  A worker whose function
    has nothing to send goes on to its next round without the message, and one
    that panics is restarted without it; the fan-out hands on what it routes
    as a domain event, and nothing else. *)
Definition pipe_step (s : pipeline) (l : pipe_label) : option pipeline :=
  let '(MkPipeline o po mo md ev fa ca ac lo) := s in
  match l with
  | Posts c cmd =>
      if post_ready o c then
        match PostMessage o c cmd with
        | (o, None) => Some (MkPipeline o po mo md ev fa ca (ac ++ [cmd]) lo)
        | (o, Some _) => Some (MkPipeline o po mo md ev fa ca ac lo)
        end
      else None
  | PoolReceives fresh now =>
      match o_globalCommands o with
      | command :: cs =>
          if (length po <? numWorkers)%nat then
            Some (MkPipeline (with_commands o cs)
                    (po ++ option_list (PoolUnitWorker_receive fresh now command)) mo md ev fa ca ac lo)
          else None
      | [] => None
      end
  | PoolSends i =>
      match po !! i with
      | Some e => if (length mo <? o_bufferSize o)%nat
                  then Some (MkPipeline o (delete i po) (mo ++ [e]) md ev fa ca ac lo) else None
      | None => None
      end
  | PoolAbandons i =>
      match po !! i, ca with
      | Some e, true => Some (MkPipeline o (delete i po) mo md ev fa ca ac (lo ++ [e]))
      | _, _ => None
      end
  | ModerationReceives now score =>
      match mo, md with
      | e :: mo, [] =>
          Some (MkPipeline o po mo
                  match ModerationWorker_receive m now score e with
                  | Some out => option_list out
                  | None => []
                  end ev fa ca ac lo)
      | _, _ => None
      end
  | ModerationSends i =>
      match md !! i with
      | Some e => if (length ev <? eventBuffer)%nat
                  then Some (MkPipeline o po mo (delete i md) (ev ++ [e]) fa ca ac lo) else None
      | None => None
      end
  | ModerationAbandons i =>
      match md !! i, ca with
      | Some e, true => Some (MkPipeline o po mo (delete i md) ev fa ca ac (lo ++ [e]))
      | _, _ => None
      end
  | FanoutTakes =>
      match ev with
      | e :: ev =>
          Some (MkPipeline o po mo md ev
                  (fa ++ match fanout_route e with RouteDomain d => [d] | _ => [] end) ca ac lo)
      | [] => None
      end
  | Shutdown => Some (MkPipeline o po mo md ev fa true ac lo)
  end.

Definition pipe_init (o : MessageHub Sink) : pipeline := MkPipeline o [] [] [] [] [] false [] [].

Inductive pipe_reachable : pipeline → Prop :=
| reach_init o : o_globalCommands o = [] → pipe_reachable (pipe_init o)
| reach_step s l s' : pipe_reachable s → pipe_step s l = Some s' → pipe_reachable s'.

Fixpoint pipe_exec (s : pipeline) (ls : list pipe_label) : option pipeline :=
  match ls with
  | [] => Some s
  | l :: ls => match pipe_step s l with Some s => pipe_exec s ls | None => None end
  end.

Lemma pipe_exec_reachable ls : ∀ s s', pipe_reachable s → pipe_exec s ls = Some s' → pipe_reachable s'.
Proof.
  induction ls as [|l ls IH]; intros s s' Hs He; cbn [pipe_exec] in He; [by simplify_eq|].
  destruct (pipe_step s l) eqn:Hl; [|done]. eapply IH; [by eapply reach_step|done].
Qed.

Definition sanitized_event (c : PostMessageCommand) (e : Event) : Prop :=
  ∃ s, ev_Payload e = PayloadSanitized s ∧ sanitized_from m c s.
Definition sanitized_domain (c : PostMessageCommand) (d : DomainEvent) : Prop :=
  ∃ s, d = EvSanitizedMessage s ∧ sanitized_from m c s.

(** Where the accepted commands are: fanned out, in the command channel, with a
    pool worker, in the moderation channel, with the moderation worker, in the
    event channel, or abandoned. *)
Record places := MkPlaces {
  at_out : list PostMessageCommand; at_commands : list PostMessageCommand;
  at_pool : list PostMessageCommand; at_moderation : list PostMessageCommand;
  at_moderating : list PostMessageCommand; at_events : list PostMessageCommand;
  at_lost : list PostMessageCommand;
}.
Definition everywhere (p : places) : list PostMessageCommand :=
  at_out p ++ at_commands p ++ at_pool p ++ at_moderation p ++ at_moderating p ++ at_events p ++
  at_lost p.

(** Every accepted command is in exactly one place, in the form it has there. *)
Record placed (s : pipeline) (p : places) : Prop := {
  pd_accepted : pl_accepted s ≡ₚ everywhere p;
  pd_out : Forall2 sanitized_domain (at_out p) (pl_fanned s);
  pd_commands : o_globalCommands (pl_hub s) = CmdPostMessage <$> at_commands p;
  pd_pool : Forall2 posted_from (at_pool p) (pl_pool s);
  pd_moderation : Forall2 posted_from (at_moderation p) (pl_moderation s);
  pd_moderating : Forall2 sanitized_event (at_moderating p) (pl_moderating s);
  pd_events : Forall2 sanitized_event (at_events p) (pl_events s);
  pd_lost : Forall2 (λ c e, posted_from c e ∨ sanitized_event c e) (at_lost p) (pl_lost s);
  pd_running : pl_cancelled s = false → pl_lost s = [];
}.

Definition pipe_bounds (s : pipeline) : Prop :=
  (length (o_globalCommands (pl_hub s)) ≤ o_bufferSize (pl_hub s) ∧
   length (pl_pool s) ≤ numWorkers ∧ length (pl_moderation s) ≤ o_bufferSize (pl_hub s) ∧
   length (pl_moderating s) ≤ 1 ∧ length (pl_events s) ≤ eventBuffer)%nat.

Section Invariant.
Context (words : list string) (cc : rune) (Hm : NewModerator words cc = Ok m).

Lemma moderation_sanitizes c e now score : posted_from c e →
  ∃ e', ModerationWorker_receive m now score e = Some (Some e') ∧ sanitized_event c e'.
Proof.
  intros (f & n & ->). unfold ModerationWorker_receive, toMessagePostedEvent, processAndSanitize. simpl.
  destruct (Censor_total words cc m (pmc_Content c) Hm) as [[w fw] Ec]. rewrite Ec. simpl.
  eexists. split; [done|]. eexists. split; [done|]. by split_and!.
Qed.

Lemma sanitized_route c e : sanitized_event c e →
  ∃ d, fanout_route e = RouteDomain d ∧ sanitized_domain c d.
Proof.
  intros (s & Hp & Hs). unfold fanout_route. rewrite Hp. eexists. split; [done|]. by exists s.
Qed.

Lemma pool_posts fresh now c :
  ∃ e, PoolUnitWorker_receive fresh now (CmdPostMessage c) = Some e ∧ posted_from c e.
Proof. eexists. split; [done|]. by exists fresh, now. Qed.

(** Taking the [i]-th event out of a worker's hands. *)
Lemma Forall2_take_out {X Y} (P : X → Y → Prop) l k i y : Forall2 P l k → k !! i = Some y →
  ∃ x, P x y ∧ Forall2 P (delete i l) (delete i k) ∧ l ≡ₚ x :: delete i l.
Proof.
  intros HF Hi. destruct (Forall2_lookup_r _ _ _ _ _ HF Hi) as (x & Hx & HP). exists x.
  split_and!; [done|by apply Forall2_delete|by apply delete_Permutation].
Qed.

(** Open a state and its places; close what a step leaves alone. *)
Ltac open_pipe s p :=
  destruct s as [o po mo md ev fa ca ac lo], p as [p1 p2 p3 p4 p5 p6 p7]; cbn [pipe_step];
  intros [Ha H1 H2 H3 H4 H5 H6 H7 H8] (B1 & B2 & B3 & B4 & B5) Hs;
  cbn [pl_hub pl_pool pl_moderation pl_moderating pl_events pl_fanned pl_cancelled pl_accepted pl_lost
       at_out at_commands at_pool at_moderation at_moderating at_events at_lost] in *.
Ltac solve_places Ha :=
  split; cbn; try done; [unfold everywhere in *; cbn in *;
    repeat match goal with H : ?l ≡ₚ _ :: delete _ ?l |- _ => rewrite H in *; clear H end;
    rewrite Ha; solve_Permutation|..].
Ltac solve_bounds :=
  repeat match goal with H : (_ <? _)%nat = true |- _ => apply Nat.ltb_lt in H end;
  split_and!; cbn in *; rewrite ?length_app, ?length_delete by (by eexists); simpl in *; try lia.

Lemma placed_post s c cmd s' p : placed s p → pipe_bounds s → pipe_step s (Posts c cmd) = Some s' →
  pipe_bounds s' ∧ ∃ p', placed s' p'.
Proof.
  open_pipe s p. destruct (post_ready o c) eqn:Hr; [|done]. unfold PostMessage in Hs.
  destruct (o_maxContentLength o <? strlen (pmc_Content cmd));
    [by simplify_eq; split; [|exists (MkPlaces p1 p2 p3 p4 p5 p6 p7)]|].
  destruct c; simplify_eq; try (by split; [|exists (MkPlaces p1 p2 p3 p4 p5 p6 p7)]).
  unfold post_ready in Hr. split; [solve_bounds|].
  exists (MkPlaces p1 (p2 ++ [cmd]) p3 p4 p5 p6 p7). solve_places Ha. by rewrite H2, fmap_app.
Qed.

Lemma placed_pool s l s' p : placed s p → pipe_bounds s → pipe_step s l = Some s' →
  match l with PoolReceives _ _ | PoolSends _ | PoolAbandons _ => True | _ => False end →
  pipe_bounds s' ∧ ∃ p', placed s' p'.
Proof.
  open_pipe s p. intros Hl. destruct l as [|fresh now|i|i| | | | |]; try done; clear Hl.
  - destruct p2 as [|c p2]; rewrite H2 in Hs; [done|]. cbn [fmap list_fmap] in Hs.
    destruct (length po <? numWorkers)%nat eqn:Hw; [|done].
    destruct (pool_posts fresh now c) as (e & Ee & He). rewrite Ee in Hs. cbn [option_list] in Hs.
    simplify_eq. rewrite H2 in B1. split; [solve_bounds|].
    exists (MkPlaces p1 p2 (p3 ++ [c]) p4 p5 p6 p7). solve_places Ha. apply Forall2_app; [done|by constructor].
  - destruct (po !! i) as [e|] eqn:Hi; [|done]. destruct (length mo <? o_bufferSize o)%nat eqn:Hw; [|done].
    simplify_eq. destruct (Forall2_take_out _ _ _ _ _ H3 Hi) as (c & He & HF & HP).
    split; [solve_bounds|]. exists (MkPlaces p1 p2 (delete i p3) (p4 ++ [c]) p5 p6 p7).
    solve_places Ha. apply Forall2_app; [done|by constructor].
  - destruct (po !! i) as [e|] eqn:Hi; [|done]. destruct ca; [|done].
    simplify_eq. destruct (Forall2_take_out _ _ _ _ _ H3 Hi) as (c & He & HF & HP).
    split; [solve_bounds|]. exists (MkPlaces p1 p2 (delete i p3) p4 p5 p6 (p7 ++ [c])).
    solve_places Ha. apply Forall2_app; [done|]. constructor; [by left|done].
Qed.

Lemma placed_moderation s l s' p : placed s p → pipe_bounds s → pipe_step s l = Some s' →
  match l with ModerationReceives _ _ | ModerationSends _ | ModerationAbandons _ => True | _ => False end →
  pipe_bounds s' ∧ ∃ p', placed s' p'.
Proof.
  open_pipe s p. intros Hl. destruct l as [| | | |now score|i|i| |]; try done; clear Hl.
  - destruct mo as [|e mo]; [done|]. destruct md; [|done]. inversion H4 as [|c ? p4' ? Hc H4']; subst.
    destruct (moderation_sanitizes c e now score Hc) as (e' & Ee & He). rewrite Ee in Hs.
    apply Forall2_nil_inv_r in H5 as ->. cbn [option_list] in Hs. simplify_eq.
    split; [solve_bounds|]. exists (MkPlaces p1 p2 p3 p4' [c] p6 p7). solve_places Ha. by constructor.
  - destruct (md !! i) as [e|] eqn:Hi; [|done]. destruct (length ev <? eventBuffer)%nat eqn:Hw; [|done].
    simplify_eq. destruct (Forall2_take_out _ _ _ _ _ H5 Hi) as (c & He & HF & HP).
    split; [solve_bounds|]. exists (MkPlaces p1 p2 p3 p4 (delete i p5) (p6 ++ [c]) p7).
    solve_places Ha. apply Forall2_app; [done|by constructor].
  - destruct (md !! i) as [e|] eqn:Hi; [|done]. destruct ca; [|done].
    simplify_eq. destruct (Forall2_take_out _ _ _ _ _ H5 Hi) as (c & He & HF & HP).
    split; [solve_bounds|]. exists (MkPlaces p1 p2 p3 p4 (delete i p5) p6 (p7 ++ [c])).
    solve_places Ha. apply Forall2_app; [done|]. constructor; [by right|done].
Qed.

Lemma placed_end s l s' p : placed s p → pipe_bounds s → pipe_step s l = Some s' →
  match l with FanoutTakes | Shutdown => True | _ => False end →
  pipe_bounds s' ∧ ∃ p', placed s' p'.
Proof.
  open_pipe s p. intros Hl. destruct l; try done; clear Hl.
  - destruct ev as [|e ev]; [done|]. inversion H6 as [|c ? p6' ? Hc H6']; subst.
    destruct (sanitized_route c e Hc) as (d & Ed & Hd). rewrite Ed in Hs. simplify_eq.
    split; [solve_bounds|]. exists (MkPlaces (p1 ++ [c]) p2 p3 p4 p5 p6' p7).
    solve_places Ha. apply Forall2_app; [done|by constructor].
  - simplify_eq. split; [by split_and!|]. by exists (MkPlaces p1 p2 p3 p4 p5 p6 p7).
Qed.

Lemma pipe_inv_reachable s : pipe_reachable s → pipe_bounds s ∧ ∃ p, placed s p.
Proof.
  induction 1 as [o Ho|s l s' _ [HB [p Hp]] Hl].
  - split; [split_and!; cbn; rewrite ?Ho; simpl; lia|].
    exists (MkPlaces [] [] [] [] [] [] []). split; cbn; try done; by constructor.
  - destruct l; first [by eapply placed_post|by eapply placed_pool|by eapply placed_moderation|by eapply placed_end].
Qed.

(** How far the messages in transit are from the fan-out. *)
Definition pipe_weight (s : pipeline) : nat :=
  5 * length (o_globalCommands (pl_hub s)) + 4 * length (pl_pool s) + 3 * length (pl_moderation s) +
  2 * length (pl_moderating s) + length (pl_events s).

Definition pipe_idle (s : pipeline) : Prop :=
  o_globalCommands (pl_hub s) = [] ∧ pl_pool s = [] ∧ pl_moderation s = [] ∧
  pl_moderating s = [] ∧ pl_events s = [].

(** The steps of the workers. *)
Definition by_worker (l : pipe_label) : bool :=
  match l with Posts _ _ | Shutdown => false | _ => true end.

Lemma option_list_length {X} (x : option X) : (length (option_list x) ≤ 1)%nat.
Proof. destruct x; simpl; lia. Qed.

Lemma pipe_step_weight s l s' : pipe_step s l = Some s' → by_worker l = true →
  (pipe_weight s' < pipe_weight s)%nat.
Proof.
  destruct s as [o po mo md ev fa ca ac lo]. intros Hs Hw.
  destruct l as [|fresh now|i|i|now score|i|i| |]; try done; clear Hw; cbn [pipe_step] in Hs.
  - destruct (o_globalCommands o) as [|x cs] eqn:Hc; [done|]. case_match; [|done]. simplify_eq.
    pose proof (option_list_length (PoolUnitWorker_receive fresh now x)).
    unfold pipe_weight; cbn. rewrite Hc, length_app. simpl. lia.
  - destruct (po !! i) eqn:Hi; [|done]. case_match; [|done]. simplify_eq.
    apply delete_Permutation, Permutation_length in Hi. unfold pipe_weight; cbn.
    rewrite Hi, length_app. simpl. lia.
  - destruct (po !! i) eqn:Hi; [|done]. destruct ca; [|done]. simplify_eq.
    apply delete_Permutation, Permutation_length in Hi. unfold pipe_weight; cbn. rewrite Hi. simpl. lia.
  - destruct mo as [|e mo]; [done|]. destruct md; [|done]. simplify_eq. unfold pipe_weight; cbn.
    case_match; simpl; [|lia]. pose proof (option_list_length o0). lia.
  - destruct (md !! i) eqn:Hi; [|done]. case_match; [|done]. simplify_eq.
    apply delete_Permutation, Permutation_length in Hi. unfold pipe_weight; cbn.
    rewrite Hi, length_app. simpl. lia.
  - destruct (md !! i) eqn:Hi; [|done]. destruct ca; [|done]. simplify_eq.
    apply delete_Permutation, Permutation_length in Hi. unfold pipe_weight; cbn. rewrite Hi. simpl. lia.
  - destruct ev as [|e ev]; [done|]. simplify_eq. unfold pipe_weight; cbn. lia.
Qed.

(** Unless nothing is in transit, some worker can go on. *)
Lemma pipe_progress s (fresh : uuid) : (0 < numWorkers)%nat → (0 < eventBuffer)%nat →
  (0 < o_bufferSize (pl_hub s))%nat →
  pipe_idle s ∨ ∃ l s', by_worker l = true ∧ pipe_step s l = Some s'.
Proof.
  destruct s as [o po mo md ev fa ca ac lo]. intros Hw He Hb. unfold pipe_idle.
  apply Nat.ltb_lt in Hw, He, Hb. cbn in *.
  destruct ev as [|e ev]; [|right; by exists FanoutTakes; eexists].
  destruct md as [|e md].
  2: { right. exists (ModerationSends 0). eexists. split; [done|].
       cbn. by rewrite He. }
  destruct mo as [|e mo]; [|right; by exists (ModerationReceives 0 f64_zero); eexists].
  destruct po as [|e po].
  2: { right. exists (PoolSends 0). eexists. split; [done|].
       cbn. by rewrite Hb. }
  destruct (o_globalCommands o) as [|x cs] eqn:Hc; [by left|right].
  exists (PoolReceives fresh 0). eexists. split; [done|].
  cbn. by rewrite Hw.
Qed.

End Invariant.
End Pipeline.

(** ** Fan-out and history *)

(** Fan-out reaches everyone concerned, once: for live connections, an
    event is handed to the sink of every connection in its room and to no
    other, each once, and once to the history. *)
Theorem Fanout_targets {Sink} {I : IRegistry Sink} {R : RegistrySpec I} (r : registry) (c : connections Sink) evt :
  holds r c → Fanout r evt ≡ₚ DiskTarget :: (RoomSink <$> room_sinks c (event_RoomID evt)).
Proof. intros Hr. unfold Fanout. by rewrite (holds_sinks _ _ _ Hr), Permutation_app_comm. Qed.

(** The history sink fed with a sequence of events. *)
Fixpoint consume_all (repo : MessageRepository) (es : list DomainEvent)
  : MessageRepository * option error :=
  match es with
  | [] => (repo, None)
  | e :: es =>
      match DiskSink_Consume repo e with
      | (repo, None) => consume_all repo es
      | other => other
      end
  end.

Lemma consume_all_stored msgs : ∀ repo repo',
  messages_ok (db_map (mr_db repo)) → Forall (λ s, room_ok (sm_Room s)) msgs →
  consume_all repo (EvSanitizedMessage <$> msgs) = (repo', None) →
  messages_ok (db_map (mr_db repo')) ∧
  ∀ k v, k ∉ (message_key ∘ sink_toDiskMessage <$> msgs) →
         db_map (mr_db repo) !! k = Some v → db_map (mr_db repo') !! k = Some v.
Proof.
  induction msgs as [|s msgs IH]; intros repo repo' Hok Hr Hc; simpl in Hc.
  { simplify_eq. split; [done|naive_solver]. }
  apply Forall_cons in Hr as [Hrs Hr].
  destruct (StoreMessage repo (sink_toDiskMessage s)) as [r1 [e|]] eqn:E; [done|].
  pose proof (StoreMessage_preserves repo (sink_toDiskMessage s) Hok Hrs) as Hok1.
  rewrite E in Hok1. cbn [fst] in Hok1. destruct (IH _ _ Hok1 Hr Hc) as [Hok' Hk]. split; [done|].
  intros k v Hnin Hv. rewrite fmap_cons in Hnin. apply not_elem_of_cons in Hnin as [Hne Hnin].
  apply Hk; [done|]. apply StoreMessage_map in E as (b & _ & -> & _).
  by rewrite lookup_insert_ne by (simpl in Hne; congruence).
Qed.

Lemma consume_all_all msgs : ∀ repo repo',
  messages_ok (db_map (mr_db repo)) → Forall (λ s, room_ok (sm_Room s)) msgs →
  NoDup (message_key ∘ sink_toDiskMessage <$> msgs) →
  consume_all repo (EvSanitizedMessage <$> msgs) = (repo', None) →
  ∀ s, s ∈ msgs → stored (db_map (mr_db repo')) (sink_toDiskMessage s).
Proof.
  induction msgs as [|s msgs IH]; intros repo repo' Hok Hr Hnd Hc x Hx; [by inversion Hx|].
  rewrite fmap_cons in Hnd. apply NoDup_cons in Hnd as [Hn Hnd].
  apply Forall_cons in Hr as [Hrs Hr]. simpl in Hc.
  destruct (StoreMessage repo (sink_toDiskMessage s)) as [r1 [e|]] eqn:E; [done|].
  pose proof (StoreMessage_preserves repo (sink_toDiskMessage s) Hok Hrs) as Hok1.
  rewrite E in Hok1. cbn [fst] in Hok1. apply elem_of_cons in Hx as [->|Hx]; [|by eapply IH].
  destruct (consume_all_stored _ _ _ Hok1 Hr Hc) as [_ Hk].
  apply StoreMessage_map in E as (b & Hb & Hm & _). exists b.
  split; [|by apply decode_Marshal]. apply Hk; [done|]. simpl. by rewrite Hm, lookup_insert_eq.
Qed.

Lemma sink_keys_NoDup msgs :
  NoDup ((λ s, (sm_Room s, UnixNano (sm_At s), sm_ID s)) <$> msgs) →
  NoDup (message_key ∘ sink_toDiskMessage <$> msgs).
Proof.
  intros Hnd. induction msgs as [|s msgs IH]; [constructor|]. rewrite fmap_cons in *.
  apply NoDup_cons in Hnd as [Hn Hnd]. apply NoDup_cons. split; [|by apply IH].
  intros (s' & He & Hin)%list_elem_of_fmap. apply Hn, list_elem_of_fmap. exists s'.
  split; [|done]. apply message_key_inj in He as (Hr & Ht & Hid). simpl in *. congruence.
Qed.

(** The history keeps every message that differs in room, nanosecond or
    identifier from the others: when the history sink has consumed a sequence
    of sanitized messages without error, each of them is stored under its room
    with its content, and what was stored before under other keys still is. *)
Theorem DiskSink_keeps_all msgs repo repo' :
  messages_ok (db_map (mr_db repo)) → Forall (λ s, room_ok (sm_Room s)) msgs →
  NoDup ((λ s, (sm_Room s, UnixNano (sm_At s), sm_ID s)) <$> msgs) →
  consume_all repo (EvSanitizedMessage <$> msgs) = (repo', None) →
  messages_ok (db_map (mr_db repo')) ∧
  (∀ s, s ∈ msgs → stored (db_map (mr_db repo')) (sink_toDiskMessage s)) ∧
  (∀ dm, message_key dm ∉ (message_key ∘ sink_toDiskMessage <$> msgs) →
     stored (db_map (mr_db repo)) dm → stored (db_map (mr_db repo')) dm).
Proof.
  intros Hok Hr Hnd Hc. destruct (consume_all_stored _ _ _ Hok Hr Hc) as [Hok' Hk].
  split_and!; [done| |].
  - eapply consume_all_all; [exact Hok|exact Hr|by apply sink_keys_NoDup|exact Hc].
  - intros dm Hnin (v & Hv & Hd). exists v. split; [|done]. by apply Hk.
Qed.

End Chat.

(** ** Witnesses *)

Definition demo_hub : MessageHub nat :=
  MkMessageHub nat ∅ (NewRegistry : @registry nat RegistryI) [] 1 10 (demo_repo (Some 2)).
Definition demo_command (content : string) (at_ : Z) : PostMessageCommand :=
  MkPostMessageCommand 7 "bob" content at_.

(** A message is accepted, a second one finds the channel full, a third is too long; then
    a worker takes the first. *)
Definition demo_posts : list hub_op :=
  [ClientPosts PostEnqueued "bob" 5 7 "hi"; ClientPosts PostTimer "eve" 6 7 "hey";
   ClientPosts PostTimer "bob" 7 7 "far too long"; WorkerTakes].

Definition demo_answers : list (PostMessageCommand * option error) :=
  [(MkPostMessageCommand 7 "bob" "hi" 5, None);
   (MkPostMessageCommand 7 "eve" "hey" 6,
      Some (StatusError ResourceExhausted "too many messages, please backoff"));
   (MkPostMessageCommand 7 "bob" "far too long" 7,
      Some (StatusError InvalidArgument "content  too large"))].

Lemma demo_posts_run :
  hub_run demo_hub demo_posts [] [] =
    Some (demo_hub, demo_answers, [CmdPostMessage (MkPostMessageCommand 7 "bob" "hi" 5)]).
Proof. reflexivity. Qed.

Lemma PostMessage_backpressure_witness :
  [CmdPostMessage (MkPostMessageCommand 7 "bob" "hi" 5)] = CmdPostMessage <$> accepted demo_answers ∧
  (server_PostMessage demo_hub (PostCtxDone Canceled) "bob" 8 7 "hi").2 =
    Some (StatusError CodeCanceled "client canceled the request").
Proof.
  destruct (PostMessage_backpressure demo_hub demo_posts demo_hub demo_answers _ eq_refl demo_posts_run)
    as (H1 & _ & H2).
  split; [exact H1|].
  exact (proj1 (proj2 (H2 (PostCtxDone Canceled) "bob" 8 7 "hi" eq_refl))).
Defined.

Lemma Connect_unregisters_witness :
  reg_GetSinksForRoom (o_registry (Connect demo_hub "u1" 7 42%nat [StreamDone]).1.1) 7 ≡ₚ
    room_sinks (∅ : connections nat) 7.
Proof.
  exact (proj2 (Connect_unregisters demo_hub ∅ "u1" 7 42%nat [StreamDone]
    (Connect demo_hub "u1" 7 42%nat [StreamDone]).1.1 [] (Some None) refines_new eq_refl eq_refl) 7).
Defined.

(** A message posted, moderated and fanned out. *)
Definition demo_sanitized : SanitizedMessage :=
  MkSanitizedMessage uuid_Nil 7 "bob" "you *****!" ["idiot"] 5 f64_zero.
Definition demo_labels : list pipe_label :=
  [Posts PostEnqueued (demo_command "you 1d!0t!" 5); Posts PostTimer (demo_command "late" 6);
   PoolReceives (uuid16_num 1) 6; PoolSends 0; ModerationReceives 7 f64_zero; ModerationSends 0;
   FanoutTakes].
Definition demo_pipeline : @pipeline _ HexUuid nat _ :=
  MkPipeline demo_hub [] [] [] [] [EvSanitizedMessage demo_sanitized] false
    [demo_command "you 1d!0t!" 5] [].

Lemma demo_pipeline_exec :
  pipe_exec (U := HexUuid) demo_moderator 1 1 (pipe_init demo_hub) demo_labels = Some demo_pipeline.
Proof. vm_refl. Qed.

Lemma demo_pipeline_reachable : pipe_reachable demo_moderator 1 1 demo_pipeline.
Proof.
  eapply (pipe_exec_reachable _ _ _ _ (pipe_init demo_hub)); [by apply reach_init|exact demo_pipeline_exec].
Qed.

Lemma demo_moderator_built : NewModerator ["idiot"] 42 = Ok demo_moderator.
Proof. vm_refl. Qed.


Lemma Fanout_targets_witness :
  Fanout (NewRegistry : @registry nat RegistryI) (EvSanitizedMessage demo_sanitized) ≡ₚ [DiskTarget].
Proof.
  exact (Fanout_targets (U := HexUuid) (NewRegistry : @registry nat RegistryI) ∅
    (EvSanitizedMessage demo_sanitized) refines_new).
Defined.

Lemma DiskSink_keeps_all_witness :
  stored (db_map (mr_db (consume_all (demo_repo None) [EvSanitizedMessage demo_sanitized]).1))
    (sink_toDiskMessage demo_sanitized).
Proof.
  refine (proj1 (proj2 (DiskSink_keeps_all [demo_sanitized] (demo_repo None)
    (consume_all (demo_repo None) [EvSanitizedMessage demo_sanitized]).1
    (demo_repo_ok None) _ _ _)) demo_sanitized _).
  - constructor; [unfold room_ok, in_s; simpl; lia|constructor].
  - apply NoDup_singleton.
  - vm_refl.
  - left.
Defined.

(** The identifier that is dropped in [processAndSanitize] was what told two
    messages of one nanosecond apart: the second overwrites the first. *)
Definition post_and_store (r : MessageRepository) (fresh : uuid) (content : string)
  : MessageRepository :=
  match processAndSanitize demo_moderator 0 f64_zero (MkMessagePosted fresh 7 "bob" content 5) with
  | Some e => match fanout_route e with RouteDomain d => (DiskSink_Consume r d).1 | _ => r end
  | None => r
  end.
Example same_nanosecond_collision :
  match walk 5 (post_and_store (post_and_store (NewMessageRepository ∅ None) (uuid16_num 1) "hello")
                  (uuid16_num 2) "goodbye") 7 None with
  | Ok l => dm_Content <$> l
  | Err _ => []
  end = ["goodbye"].
Proof. vm_refl. Qed.
