(* ===== verification/Fanout.v ===== *)
(** * Fanout: the loop of [runtime/workers/event_fanout.go]

    The whole round of [EventFanoutWorker.Run]: the type switch ([fanout_route]), the
    deliveries it starts ([Fanout]), the file events it hands to the analysis sink, and
    the copy it offers to the telemetry channel.  The registry ([contract.IRegistry]) may
    change between two rounds; each round sees the one of its time. *)

From Stdlib Require Import String.
From S2P Require Import Prelude Errors Env Domain Contract Chat.

Section Fanout.
Context {U : Uuid} {Sink : Type} {I : IRegistry Sink}.

(** The case the [select] on the telemetry channel takes. *)
Inductive telemetry_case := TelemetryDone | TelemetrySent | TelemetryLost.

(** What the worker has done: the deliveries it started, each in a goroutine of its own,
    the file events it passed on, and the telemetry channel. *)
Record fanout_effects := MkFanoutEffects {
  fe_deliveries : list (target Sink * DomainEvent);
  fe_files : list FileAnalyzerEvent;
  fe_telemetry : list Event;
}.

Definition telemetry_ready (cancelled : bool) (cap : nat) (x : fanout_effects) (c : telemetry_case)
  : bool :=
  let room := (length (fe_telemetry x) <? cap)%nat in
  match c with
  | TelemetryDone => cancelled
  | TelemetrySent => room
  | TelemetryLost => negb cancelled && negb room
  end.

(** [handleFileEvent]: an error of the sink is only logged. *)
Definition handleFileEvent (x : fanout_effects) (e : FileAnalyzerEvent) : fanout_effects :=
  MkFanoutEffects (fe_deliveries x) (fe_files x ++ [e]) (fe_telemetry x).

Definition start_Fanout (r : registry) (x : fanout_effects) (e : DomainEvent) : fanout_effects :=
  MkFanoutEffects (fe_deliveries x ++ ((λ s, (s, e)) <$> Fanout r e)) (fe_files x)
    (fe_telemetry x).

Definition fanout_round (r : registry) (c : telemetry_case) (evt : Event)
    (x : fanout_effects) : fanout_effects :=
  let x := match fanout_route evt with
           | RouteDomain e => start_Fanout r x e
           | RouteFile e => handleFileEvent x e
           | RouteNone => x
           end in
  match c with
  | TelemetrySent => MkFanoutEffects (fe_deliveries x) (fe_files x) (fe_telemetry x ++ [evt])
  | TelemetryDone | TelemetryLost => x
  end.

(** A round: the registry it saw, the case its [select] took, and the event. *)
Abbreviation round := (registry * telemetry_case * Event)%type.

(** [Run] until the channel is closed and drained: its rounds in order. *)
Definition EventFanoutWorker_Run (rounds : list round)
    (x : fanout_effects) : fanout_effects :=
  foldl (λ x '(r, c, evt), fanout_round r c evt x) x rounds.

Definition round_deliveries (r : round)
  : list (target Sink * DomainEvent) :=
  match fanout_route r.2 with
  | RouteDomain e => (λ s, (s, e)) <$> Fanout r.1.1 e
  | _ => []
  end.
Definition round_files (r : round) : list FileAnalyzerEvent :=
  match fanout_route r.2 with RouteFile e => [e] | _ => [] end.
Definition round_telemetry (r : round) : list Event :=
  match r.1.2 with TelemetrySent => [r.2] | _ => [] end.

(** Whatever happens to telemetry, and also after the shutdown began, every event taken
    from the channel is dispatched, in order: a domain event to all its sinks, a file
    event to the analysis sink. *)
Theorem fanout_drains rounds x :
  let x' := EventFanoutWorker_Run rounds x in
  fe_deliveries x' = fe_deliveries x ++ (rounds ≫= round_deliveries) ∧
  fe_files x' = fe_files x ++ (rounds ≫= round_files) ∧
  fe_telemetry x' = fe_telemetry x ++ (rounds ≫= round_telemetry).
Proof.
  cbv zeta. unfold EventFanoutWorker_Run. revert x.
  induction rounds as [|[[r c] evt] rounds IH]; intros x; [by rewrite !app_nil_r|].
  cbn [foldl]. rewrite !bind_cons. destruct (IH (fanout_round r c evt x)) as (-> & -> & ->).
  unfold fanout_round, round_deliveries at 2, round_files at 2, round_telemetry at 2. cbn [fst snd].
  destruct (fanout_route evt), c; cbn [start_Fanout handleFileEvent fe_deliveries fe_files fe_telemetry];
    rewrite <- ?app_assoc; done.
Qed.

(** Telemetry is best effort: what it receives is a sub-sequence of the events, and all
    of them while there is room and no shutdown. *)
Fixpoint rounds_ready (cancelled : bool) (cap : nat)
    (rounds : list round) (x : fanout_effects) : bool :=
  match rounds with
  | [] => true
  | (r, c, evt) :: rounds =>
      telemetry_ready cancelled cap x c && rounds_ready cancelled cap rounds (fanout_round r c evt x)
  end.

Lemma telemetry_complete cap rounds : ∀ x,
  rounds_ready false cap rounds x = true → (length (fe_telemetry x) + length rounds ≤ cap)%nat →
  fe_telemetry (EventFanoutWorker_Run rounds x) = fe_telemetry x ++ rounds.*2.
Proof.
  induction rounds as [|[[r c] evt] rounds IH]; intros x Hr Hl; [by rewrite app_nil_r|].
  cbn [rounds_ready length] in *. apply andb_true_iff in Hr as [Hc Hr].
  unfold telemetry_ready in Hc. rewrite (proj2 (Nat.ltb_lt _ _)) in Hc by lia.
  destruct c; [done| |done]. cbn [EventFanoutWorker_Run foldl].
  fold (EventFanoutWorker_Run rounds (fanout_round r TelemetrySent evt x)).
  assert (fe_telemetry (fanout_round r TelemetrySent evt x) = fe_telemetry x ++ [evt]) as Ht
    by (unfold fanout_round; by destruct (fanout_route evt)).
  rewrite IH; [|done|rewrite Ht, length_app; simpl; lia]. by rewrite Ht, <- app_assoc.
Qed.
End Fanout.
