(* ===== verification/Supervisor.v ===== *)
(** * Supervisor: [runtime/workers/supervisor.go]

    Each worker runs in a supervision loop: it is restarted after a panic or
    an error, never after a clean return, and the loop ends once the context
    is cancelled.  The loop is a state machine whose inputs are what the
    environment decides (how the worker's [Run] ends, which timer fires, which
    ready case a [select] takes); the loops interleave and share the context
    and the telemetry channel. *)

From S2P Require Import Prelude Errors Env Domain.

Section Supervisor.
Context {U : Uuid}.

(** ** State *)

(** Where a supervision loop is: at its head, inside [worker.Run], after it,
    waiting to restart, or gone. *)
Inductive phase := Checking | Executing | Deciding (err : option error) | Waiting | Exited.

Record loop := MkLoop { lp_name : string; lp_phase : phase; lp_runs : nat }.

(** What the loops share: the context, and the telemetry channel with its
    capacity ([None] is a nil channel). *)
Record shared := MkShared {
  sh_cancelled : bool;
  sh_telemetry : option (list Event * nat);
}.

Record Supervisor := MkSupervisor {
  sv_shared : shared;
  sv_Cancel : bool;  (* [Cancel] is set, by [Run] *)
  sv_workers : list string;
  sv_loops : list loop;
}.

Definition NewSupervisor (telemetryChan : option (list Event * nat)) : Supervisor :=
  MkSupervisor (MkShared false telemetryChan) false [] [].

Definition Add (s : Supervisor) (workers : list string) : Supervisor :=
  MkSupervisor (sv_shared s) (sv_Cancel s) (sv_workers s ++ workers) (sv_loops s).

(** [Start]: a new loop. *)
Definition Start (s : Supervisor) (worker : string) : Supervisor :=
  MkSupervisor (sv_shared s) (sv_Cancel s) (sv_workers s)
    (sv_loops s ++ [MkLoop worker Checking 0]).

(** [Run], up to [wg.Wait()]. *)
Definition Run (s : Supervisor) : Supervisor :=
  foldl Start (MkSupervisor (sv_shared s) true (sv_workers s) (sv_loops s)) (sv_workers s).

(** The wait group's counter, and the end of [Run]. *)
Definition wg_count (s : Supervisor) : nat :=
  length (List.filter (λ l, match lp_phase l with Exited => false | _ => true end) (sv_loops s)).
Definition Run_returns (s : Supervisor) : bool := (wg_count s =? 0)%nat.

Definition Stop (s : Supervisor) : Supervisor :=
  if sv_Cancel s then
    MkSupervisor (MkShared true (sh_telemetry (sv_shared s))) (sv_Cancel s) (sv_workers s)
      (sv_loops s)
  else s.

(** ** One loop *)

(** [done_first]: the choice of [select] when both cases are ready. *)
Definition sendRestartEvent (sh : shared) (workerName : string) (now : time) (done_first : bool)
  : shared :=
  match sh_telemetry sh with
  | None => sh
  | Some (q, cap) =>
      let room := (length q <? cap)%nat in
      if sh_cancelled sh && (done_first || negb room) then sh
      else if room then
        MkShared (sh_cancelled sh)
          (Some (q ++ [MkEvent RestartedAfterPanicType now (PayloadRestarted workerName)], cap))
      else sh
  end.

Inductive loop_input :=
| LCheck                                      (* the test at the head of the loop *)
| LReturn (err : option error)                (* [worker.Run] returns *)
| LPanic (now : time) (done_first : bool)     (* [worker.Run] panics *)
| LDecide                                     (* the tests after [worker.Run] *)
| LTimer                                      (* the restart delay elapses *)
| LDone.                                      (* the context is done while waiting *)

Definition with_phase (l : loop) (p : phase) : loop := MkLoop (lp_name l) p (lp_runs l).

Definition loop_step (sh : shared) (l : loop) (i : loop_input) : option (shared * loop) :=
  match lp_phase l, i with
  | Checking, LCheck =>
      if sh_cancelled sh then Some (sh, with_phase l Exited)
      else Some (sh, MkLoop (lp_name l) Executing (S (lp_runs l)))
  | Executing, LReturn err => Some (sh, with_phase l (Deciding err))
  | Executing, LPanic now done_first =>
      Some (sendRestartEvent sh (lp_name l) now done_first,
            with_phase l (Deciding (Some ErrWorkerPanic)))
  | Deciding err, LDecide =>
      match err with
      | None => Some (sh, with_phase l Exited)
      | Some _ => if sh_cancelled sh then Some (sh, with_phase l Exited)
                  else Some (sh, with_phase l Waiting)
      end
  | Waiting, LTimer => Some (sh, with_phase l Checking)
  | Waiting, LDone => if sh_cancelled sh then Some (sh, with_phase l Exited) else None
  | _, _ => None
  end.

(** A step of the system: a loop moves, or the context is cancelled. *)
Inductive sup_step : Supervisor → Supervisor → Prop :=
| step_loop s k l i sh l' :
    sv_loops s !! k = Some l → loop_step (sv_shared s) l i = Some (sh, l') →
    sup_step s (MkSupervisor sh (sv_Cancel s) (sv_workers s) (<[k := l']> (sv_loops s)))
| step_stop s : sup_step s (Stop s).

Inductive sup_steps : Supervisor → Supervisor → Prop :=
| steps_refl s : sup_steps s s
| steps_cons s1 s2 s3 : sup_step s1 s2 → sup_steps s2 s3 → sup_steps s1 s3.

(** ** Lemmas *)

Lemma sendRestartEvent_cancelled sh n t d : sh_cancelled (sendRestartEvent sh n t d) = sh_cancelled sh.
Proof. unfold sendRestartEvent. repeat case_match; done. Qed.

Lemma loop_step_cancelled sh l i sh' l' :
  loop_step sh l i = Some (sh', l') → sh_cancelled sh' = sh_cancelled sh.
Proof.
  unfold loop_step. intros H. repeat case_match; simplify_eq; try done.
  apply sendRestartEvent_cancelled.
Qed.

(** Own steps a loop can still make once the context is cancelled. *)
Definition rank (l : loop) : nat :=
  match lp_phase l with Exited => 0 | Checking => 1 | Deciding _ => 1 | Waiting => 2 | Executing => 2 end.

Lemma loop_step_after_cancel sh l i sh' l' :
  sh_cancelled sh = true → loop_step sh l i = Some (sh', l') →
  (rank l' < rank l)%nat ∧ lp_runs l' = lp_runs l.
Proof.
  unfold loop_step, rank. intros Hc H. rewrite Hc in H.
  repeat case_match; simplify_eq/=; try done; split; lia || done.
Qed.

Lemma loop_step_name sh l i sh' l' :
  loop_step sh l i = Some (sh', l') → lp_name l' = lp_name l ∧ (lp_runs l ≤ lp_runs l')%nat.
Proof. unfold loop_step. intros H. repeat case_match; simplify_eq/=; split; done || lia. Qed.

(** A loop that has exited stays so. *)
Lemma exited_final sh l i : lp_phase l = Exited → loop_step sh l i = None.
Proof. unfold loop_step. by intros ->; destruct i. Qed.

(** The worker runs again only from the head of the loop, uncancelled. *)
Lemma new_run_uncancelled sh l i sh' l' :
  loop_step sh l i = Some (sh', l') → lp_runs l' ≠ lp_runs l →
  i = LCheck ∧ lp_phase l = Checking ∧ sh_cancelled sh = false ∧ lp_runs l' = S (lp_runs l).
Proof. unfold loop_step. intros H Hr. repeat case_match; simplify_eq/=; try done. Qed.

Fixpoint loop_run (sh : shared) (l : loop) (ins : list loop_input) : option (shared * loop) :=
  match ins with
  | [] => Some (sh, l)
  | i :: ins => '(sh, l) ← loop_step sh l i; loop_run sh l ins
  end.

Lemma loop_run_app ins1 : ∀ ins2 sh l,
  loop_run sh l (ins1 ++ ins2) = '(sh, l) ← loop_run sh l ins1; loop_run sh l ins2.
Proof.
  induction ins1 as [|i ins1 IH]; intros ins2 sh l; simpl; [done|].
  destruct (loop_step sh l i) as [[sh' l']|]; simpl; auto.
Qed.

(** How a run of the worker crashes. *)
Inductive crash := CrashError (e : error) | CrashPanic (now : time) (done_first : bool).
Definition crash_input (c : crash) : loop_input :=
  match c with CrashError e => LReturn (Some e) | CrashPanic t d => LPanic t d end.
(** One crash and its recovery: the worker is executing again. *)
Definition crash_cycle (c : crash) : list loop_input := [crash_input c; LDecide; LTimer; LCheck].
Definition is_panic (c : crash) : bool := match c with CrashPanic _ _ => true | _ => false end.

(** C19. Self-healing: however often and in whatever way a worker crashes,
    each crash is followed by a new run after the restart delay, as long as
    the context is live; every panic reports one restart event while the
    telemetry channel has room, and none otherwise. *)
Theorem crashes_are_restarted crashes sh l q cap :
  lp_phase l = Executing → sh_cancelled sh = false → sh_telemetry sh = Some (q, cap) →
  (length q ≤ cap)%nat →
  ∃ sh' l' q', loop_run sh l (crashes ≫= crash_cycle) = Some (sh', l') ∧
    lp_phase l' = Executing ∧ lp_runs l' = (lp_runs l + length crashes)%nat ∧
    sh_cancelled sh' = false ∧ sh_telemetry sh' = Some (q', cap) ∧
    length q' = Nat.min cap (length q + length (List.filter is_panic crashes)).
Proof.
  revert sh l q. induction crashes as [|c crashes IH]; intros sh l q Hp Hc Ht Hq.
  { exists sh, l, q. simpl. split_and!; [done|done|lia|done|done|lia]. }
  pose (sh1 := match c with
               | CrashError _ => sh
               | CrashPanic t d => sendRestartEvent sh (lp_name l) t d
               end).
  pose (l1 := MkLoop (lp_name l) Executing (S (lp_runs l))).
  assert (loop_run sh l (crash_cycle c) = Some (sh1, l1)) as Hcycle.
  { assert (sh_cancelled sh1 = false) as Hc1
      by (subst sh1; destruct c; by rewrite ?sendRestartEvent_cancelled).
    assert (∃ e, loop_step sh l (crash_input c) = Some (sh1, with_phase l (Deciding (Some e))))
      as [e He] by (unfold loop_step; rewrite Hp; destruct c; by eexists).
    unfold crash_cycle. cbn [loop_run]. rewrite He. cbn [mbind option_bind].
    unfold loop_step; simpl. rewrite Hc1. simpl. by rewrite Hc1. }
  assert (∃ q1, sh_telemetry sh1 = Some (q1, cap) ∧
    length q1 = Nat.min cap (length q + if is_panic c then 1 else 0) ∧ sh_cancelled sh1 = false)
    as (q1 & Ht1 & Hq1 & Hc1).
  { subst sh1. destruct c as [e|t d]; simpl; [exists q; split_and!; [done|lia|done]|].
    unfold sendRestartEvent. rewrite Ht, Hc. simpl.
    destruct (Nat.ltb_spec (length q) cap); simpl; eexists; (split_and!; [done| |done]);
      rewrite ?length_app; simpl; lia. }
  destruct (IH sh1 l1 q1) as (sh' & l' & q' & Hr & Hp' & Hruns & Hc' & Ht' & Hq'); [done..|lia|].
  exists sh', l', q'. rewrite bind_cons, loop_run_app, Hcycle. simpl.
  split_and!; [done|done|subst l1; simpl in *; lia|done|done|].
  rewrite Hq', Hq1. destruct (is_panic c); simpl; lia.
Qed.

Lemma sup_step_cancelled s s' : sup_step s s' → sh_cancelled (sv_shared s) = true →
  sh_cancelled (sv_shared s') = true.
Proof.
  intros H Hc. destruct H as [s k l i sh l' Hk Hl|s]; simpl.
  - rewrite <- Hc. by eapply loop_step_cancelled.
  - unfold Stop. by case_match.
Qed.

Lemma sup_step_loops s s' k l : sup_step s s' → sv_loops s !! k = Some l →
  ∃ l', sv_loops s' !! k = Some l' ∧ lp_name l' = lp_name l ∧ (lp_runs l ≤ lp_runs l')%nat ∧
    (lp_phase l = Exited → l' = l) ∧
    (sh_cancelled (sv_shared s) = true → lp_runs l' = lp_runs l ∧ (rank l' ≤ rank l)%nat).
Proof.
  intros H Hk. destruct H as [s k' l0 i sh l' Hk' Hl|s]; simpl.
  - destruct (decide (k = k')) as [<-|Hne].
    + simplify_eq. exists l'. destruct (loop_step_name _ _ _ _ _ Hl) as [Hn Hr].
      rewrite list_lookup_insert_eq by (by eapply lookup_lt_Some). split_and!; [done|done|done| |].
      * intros He. by rewrite exited_final in Hl.
      * intros Hc. destruct (loop_step_after_cancel _ _ _ _ _ Hc Hl). split; [done|lia].
    + exists l. rewrite list_lookup_insert_ne by done. done.
  - exists l. unfold Stop. split_and!; try done; by case_match.
Qed.

(** C25. A worker that returned cleanly is never run again, and a cancelled
    supervisor starts no new run: along every interleaving, the loop of a
    finished worker never moves; from cancellation on, the number of runs of
    every worker is constant and the loop's remaining own steps (at most two:
    the end of [worker.Run] and the test after it) only decrease. *)
Theorem finished_and_cancelled_stay_down s s' k l :
  sup_steps s s' → sv_loops s !! k = Some l →
  ∃ l', sv_loops s' !! k = Some l' ∧ lp_name l' = lp_name l ∧
    (lp_phase l = Exited → l' = l) ∧
    (sh_cancelled (sv_shared s) = true →
       sh_cancelled (sv_shared s') = true ∧ lp_runs l' = lp_runs l ∧ (rank l' ≤ rank l ≤ 2)%nat).
Proof.
  intros Hs. revert l. induction Hs as [s|s1 s2 s3 H12 H23 IH]; intros l Hk.
  { exists l. split_and!; try done. intros. split_and!; try done. unfold rank. case_match; lia. }
  destruct (sup_step_loops _ _ _ _ H12 Hk) as (l2 & Hk2 & Hn2 & Hr2 & He2 & Hc2).
  destruct (IH _ Hk2) as (l3 & Hk3 & Hn3 & He3 & Hc3).
  exists l3. split_and!; [done|congruence| |].
  - intros He. specialize (He2 He). subst. auto.
  - intros Hc. destruct (Hc2 Hc) as [Hr Hrk].
    destruct (Hc3 (sup_step_cancelled _ _ H12 Hc)) as (? & ? & ?).
    split_and!; [done|congruence|lia|unfold rank; case_match; lia].
Qed.

(** Once the context is cancelled and a loop is outside [worker.Run], it exits
    by itself. *)
Lemma cancelled_exits sh l : sh_cancelled sh = true → lp_phase l ≠ Executing →
  ∃ ins sh' l', loop_run sh l ins = Some (sh', l') ∧ lp_phase l' = Exited ∧ (length ins ≤ 2)%nat.
Proof.
  intros Hc Hp. destruct (lp_phase l) as [| |err| |] eqn:E; try done.
  - exists [LCheck]. unfold loop_run, loop_step. rewrite E, Hc. simpl. eauto 10.
  - exists [LDecide]. unfold loop_run, loop_step. rewrite E, Hc. simpl.
    destruct err; simpl; eauto 10.
  - exists [LDone]. unfold loop_run, loop_step. rewrite E, Hc. simpl. eauto 10.
  - exists []. simpl. eauto 10.
Qed.

(** [Run] starts every registered worker once, in order. *)
Lemma Run_loops s : sv_loops (Run s) = sv_loops s ++ ((λ w, MkLoop w Checking 0) <$> sv_workers s).
Proof.
  unfold Run.
  assert (∀ ws s0, sv_loops (foldl Start s0 ws) = sv_loops s0 ++ ((λ w, MkLoop w Checking 0) <$> ws))
    as H; [|by rewrite H].
  induction ws as [|w ws IH]; intros s0; simpl; [by rewrite app_nil_r|].
  rewrite IH. simpl. by rewrite <- app_assoc.
Qed.

End Supervisor.

(** ** Witnesses *)

Lemma crashes_are_restarted_witness :
  ∃ sh' l', loop_run (MkShared false (Some ([], 1%nat))) (MkLoop "w" Executing 1)
    ([CrashPanic 5 false; CrashError EOF; CrashPanic 6 true] ≫= crash_cycle) = Some (sh', l') ∧
    lp_runs l' = 4%nat.
Proof.
  destruct (crashes_are_restarted (U := HexUuid) [CrashPanic 5 false; CrashError EOF; CrashPanic 6 true]
    (MkShared false (Some ([], 1%nat))) (MkLoop "w" Executing 1) [] 1)
    as (sh' & l' & q' & H1 & _ & H2 & _);
    [reflexivity|reflexivity|reflexivity|exact (Nat.le_0_l 1)|].
  exists sh', l'. exact (conj H1 H2).
Defined.

Lemma finished_and_cancelled_stay_down_witness :
  let s := MkSupervisor (MkShared (U := HexUuid) true None) true ["w"] [MkLoop "w" Executing 1] in
  let s' := MkSupervisor (MkShared (U := HexUuid) true None) true ["w"]
              [MkLoop "w" (Deciding (Some EOF)) 1] in
  ∃ l', sv_loops s' !! 0%nat = Some l' ∧ lp_runs l' = 1%nat.
Proof.
  destruct (finished_and_cancelled_stay_down
    (MkSupervisor (MkShared (U := HexUuid) true None) true ["w"] [MkLoop "w" Executing 1])
    (MkSupervisor (MkShared (U := HexUuid) true None) true ["w"]
       [MkLoop "w" (Deciding (Some EOF)) 1]) 0 (MkLoop "w" Executing 1))
    as (l' & H1 & _ & _ & H2); [|reflexivity|].
  - eapply steps_cons; [|apply steps_refl].
    apply (step_loop (MkSupervisor (MkShared true None) true ["w"] [MkLoop "w" Executing 1]) 0
      (MkLoop "w" Executing 1) (LReturn (Some EOF)) (MkShared true None)
      (MkLoop "w" (Deciding (Some EOF)) 1)); reflexivity.
  - exists l'. split; [exact H1|]. destruct (H2 eq_refl) as (_ & H3 & _). exact H3.
Defined.
