(* ===== verification/Path.v ===== *)
(** * Path: [path/filepath] on Unix, as the scanner and the accumulator use it

    [Clean] and [Join], and the lemmas on joining a directory with a plain
    file name. *)

From Stdlib Require Import Ascii String.
From S2P Require Import Prelude Text.

(** ** [filepath.Clean], [filepath.Join] *)

(** The stack of path elements, innermost first. *)
Fixpoint clean_elems (rooted : bool) (elems : list string) (stack : list string) : list string :=
  match elems with
  | [] => reverse stack
  | e :: elems =>
      if String.eqb e "" || String.eqb e "." then clean_elems rooted elems stack
      else if String.eqb e ".." then
        match stack with
        | top :: stack' =>
            if String.eqb top ".." then clean_elems rooted elems (e :: stack)
            else clean_elems rooted elems stack'
        | [] => if rooted then clean_elems rooted elems [] else clean_elems rooted elems [e]
        end
      else clean_elems rooted elems (e :: stack)
  end.

Definition render (rooted : bool) (elems : list string) : string :=
  let p := (if rooted then "/" else "") +:+ Join elems "/" in
  if String.eqb p "" then "." else p.

Definition Clean (path : string) : string :=
  let rooted := String.prefix "/" path in
  render rooted (clean_elems rooted (split_on "/" path) []).

(** [filepath.Join(a, b)]: empty elements are ignored. *)
Definition filepath_Join (a b : string) : string :=
  match List.filter (λ e, negb (String.eqb e "")) [a; b] with
  | [] => ""
  | l => Clean (Join l "/")
  end.

(** ** Joining a plain name *)

(** A name that is a path element of its own. *)
Definition plain_name (n : string) : Prop :=
  n ≠ "" ∧ n ≠ "." ∧ n ≠ ".." ∧ lacks "/" n = true.

Lemma clean_elems_app rooted l1 : ∀ l2 st,
  clean_elems rooted (l1 ++ l2) st = clean_elems rooted l2 (reverse (clean_elems rooted l1 st)).
Proof.
  induction l1 as [|e l1 IH]; intros l2 st; simpl; [by rewrite reverse_involutive|].
  repeat case_match; apply IH.
Qed.

Lemma clean_elems_plain rooted n st : plain_name n →
  clean_elems rooted [n] st = reverse st ++ [n].
Proof.
  intros (H1 & H2 & H3 & _). cbn [clean_elems].
  rewrite (proj2 (String.eqb_neq n "")), (proj2 (String.eqb_neq n ".")),
    (proj2 (String.eqb_neq n "..")) by done. by rewrite reverse_cons.
Qed.

Lemma split_on_snoc x s n : lacks x n = true → split_on x (s +:+ String x n) = split_on x s ++ [n].
Proof.
  intros Hn. induction s as [|c s IH]; simpl.
  - rewrite (split_on_last x n Hn). by rewrite Ascii.eqb_refl.
  - rewrite IH. destruct (split_on x s) as [|p ps] eqn:E; simpl.
    + destruct s; simpl in E; repeat case_match; done.
    + by case_match.
Qed.

Lemma prefix_slash_app s t : s ≠ "" → String.prefix "/" (s +:+ t) = String.prefix "/" s.
Proof. destruct s as [|c s]; [done|]. intros _. cbn [String.append String.prefix].
  destruct (ascii_dec "/" c); [by destruct (s +:+ t), s|done]. Qed.

(** A plain name is added as the last element. *)
Lemma filepath_Join_plain d n : plain_name n → d ≠ "" →
  filepath_Join d n = render (String.prefix "/" d)
    (clean_elems (String.prefix "/" d) (split_on "/" d) [] ++ [n]).
Proof.
  intros Hn Hd. pose proof Hn as (Hn1 & _ & _ & Hn4). unfold filepath_Join. simpl.
  rewrite (proj2 (String.eqb_neq d "")), (proj2 (String.eqb_neq n "")) by done. simpl.
  unfold Join, Clean. simpl. rewrite prefix_slash_app by done.
  rewrite split_on_snoc by done. rewrite clean_elems_app, clean_elems_plain by done.
  by rewrite reverse_involutive.
Qed.

Lemma Join_snoc l n : l ≠ [] → Join (l ++ [n]) "/" = Join l "/" +:+ "/" +:+ n.
Proof.
  induction l as [|e [|e' l] IH]; intros H; [done|done|].
  change (Join ((e :: e' :: l) ++ [n]) "/") with (e +:+ "/" +:+ Join ((e' :: l) ++ [n]) "/").
  rewrite IH by done. change (Join (e :: e' :: l) "/") with (e +:+ "/" +:+ Join (e' :: l) "/").
  by rewrite <- !str_app_assoc.
Qed.

Lemma str_app_cancel_l a b c : a +:+ b = a +:+ c → b = c.
Proof. induction a as [|x a IH]; simpl; [done|]. intros [= H]. auto. Qed.

Lemma render_snoc_inj rooted l n1 n2 : n1 ≠ "" → n2 ≠ "" →
  render rooted (l ++ [n1]) = render rooted (l ++ [n2]) → n1 = n2.
Proof.
  intros H1 H2. unfold render. destruct l as [|e l].
  - simpl. destruct rooted; simpl; [by intros [= ?]|].
    by rewrite (proj2 (String.eqb_neq n1 "")), (proj2 (String.eqb_neq n2 "")).
  - rewrite !Join_snoc by done.
    assert (∀ n, n ≠ "" → String.eqb ((if rooted then "/" else "") +:+ Join (e :: l) "/" +:+ "/" +:+ n)
      "" = false) as Hne.
    { intros n Hn. apply String.eqb_neq. intros He. apply (f_equal String.length) in He.
      rewrite !str_length_app in He. simpl in He. lia. }
    rewrite !Hne by done. intros H. do 2 apply str_app_cancel_l in H. by injection H.
Qed.

(** Distinct plain names in one directory are distinct paths. *)
Lemma filepath_Join_inj d n1 n2 : d ≠ "" → plain_name n1 → plain_name n2 →
  filepath_Join d n1 = filepath_Join d n2 → n1 = n2.
Proof.
  intros Hd Hn1 Hn2. rewrite !filepath_Join_plain by done.
  apply render_snoc_inj; [apply Hn1|apply Hn2].
Qed.

Example join_examples :
  (filepath_Join "/tmp/lab" "a.tmp", filepath_Join "/tmp/lab/" "../b", filepath_Join "" "x") =
  ("/tmp/lab/a.tmp", "/tmp/b", "x").
Proof. reflexivity. Qed.
