(* ===== verification/Transfer.v ===== *)
(** * Transfer: fetching a file from the scanner

    [runtime/workers/file_downloader_scanner.go] reads a file and emits
    metadata, chunks and a signature; [file_downloader_server.go] sends them
    over gRPC; [runtime/workers/file_downloader_master.go] receives them and
    [services/file_accumulator.go] rebuilds the file and checks it.  The
    operating system's answers (stat, open, read, create, write) and the cases
    the [select]s take are arguments. *)

From Stdlib Require Import Ascii String.
From S2P Require Import Prelude Errors Env Store Text Domain Mime Path.

(** ** Environment *)

(** SHA-256 of the bytes written to the hash; [mimetype.Detect] on a buffer;
    the struct validator on a request. *)
Class TransferEnv := {
  sha256_Sum : string → string;
  mimetype_Detect : string → string;
  validate_download : FileDownloaderRequest → option error;
}.

Record FileInfo := MkFileInfo { fi_Size : Z; fi_IsDir : bool; fi_IsRegular : bool }.

(** What the operating system answers while one file is processed; [os_reads]
    are the results of the successive [Read]s of the streaming loop. *)
Record file_os := MkFileOs {
  os_Stat : result error FileInfo;
  os_Open : option error;
  os_sniff : result error string;
  os_Seek : option error;
  os_reads : list (string * option error);
}.

Section Transfer.
Context {E : TransferEnv}.

(** ** The scanner's side *)

Record FileDownloaderScannerWorker := MkScannerWorker { sw_chunkSizeKb : Z; sw_maxFileSizeMb : Z }.

Definition metadata_response (raw : string) (eff : MIME) (size : Z) : FileDownloaderResponse :=
  MkFileDownloaderResponse (Some (MkFileMetadata raw eff size)) None None None.
Definition chunk_response (c : string) : FileDownloaderResponse :=
  MkFileDownloaderResponse None (Some (MkFileChunk c)) None None.
Definition signature_response (s : string) : FileDownloaderResponse :=
  MkFileDownloaderResponse None None (Some (MkFileSignature s)) None.
Definition error_response (msg : string) (code : ErrorCode) : FileDownloaderResponse :=
  MkFileDownloaderResponse None None None (Some (MkFileError msg code)).

(** [ctx k = Some e]: the [select] of the [k]-th send takes [ctx.Done()]. *)
Definition ctx_cases := nat → option error.

Definition sendError (ctx : ctx_cases) (msg : string) (code : ErrorCode)
  : list FileDownloaderResponse :=
  match ctx 0%nat with Some _ => [] | None => [error_response msg code] end.

(** The streaming loop: the responses sent, the bytes hashed, and the error
    that ends the function, if any.  [None]: the answers of the operating
    system ran out before the end of the file. *)
Fixpoint stream_chunks (ctx : ctx_cases) (k : nat) (reads : list (string * option error))
    (hashed : string) (out : list FileDownloaderResponse)
  : option (list FileDownloaderResponse * string * option error) :=
  match reads with
  | [] => None
  | (data, err) :: reads =>
      let '(sent, cancelled) :=
        if String.eqb data "" then ([], None)
        else match ctx k with
             | Some e => ([], Some e)
             | None => ([chunk_response data], None)
             end in
      let hashed := if String.eqb data "" then hashed else hashed +:+ data in
      let k := if String.eqb data "" then k else S k in
      match cancelled with
      | Some e => Some (out, hashed, Some e)
      | None =>
          match err with
          | Some EOF => Some (out ++ sent, hashed, None)
          | Some e => Some (out ++ sent, hashed, Some e)
          | None => stream_chunks ctx k reads hashed (out ++ sent)
          end
      end
  end.

Definition Process (s : FileDownloaderScannerWorker) (ctx : ctx_cases) (os : file_os)
    (request : FileDownloaderRequest) : option (list FileDownloaderResponse * option error) :=
  match validate_download request with
  | Some err => Some (sendError ctx "Invalid path parameters" InvalidFilePath, Some err)
  | None =>
  match os_Stat os with
  | Err err => Some (sendError ctx ("file not found at: " +:+ fdr_Path request) NotFound, Some err)
  | Ok fileInfo =>
      let maxFileSize := uint64 (int64 (sw_maxFileSizeMb s * MB)) in
      let fileSize := uint64 (fi_Size fileInfo) in
      if maxFileSize <? fileSize then
        let msg := "file is too large: " +:+ fmt_d fileSize +:+ " bytes (limit is " +:+
                   fmt_d maxFileSize +:+ ")" in
        Some (sendError ctx msg FileTooLarge, Some (Opaque msg))
      else if fi_IsDir fileInfo || negb (fi_IsRegular fileInfo) then
        let msg := "entry" +:+ fdr_Path request +:+ " is not a file" in
        Some (sendError ctx msg NotFile, Some (Opaque msg))
      else
  match os_Open os with
  | Some err => Some (sendError ctx ("access denied to " +:+ fdr_Path request) AccessDenied, Some err)
  | None =>
  match os_sniff os with
  | Err err => Some ([], Some err)
  | Ok sniffBuf =>
      let rawMimeType := mimetype_Detect sniffBuf in
      let effectiveMimeType := ToMIME rawMimeType in
      let out := match ctx 0%nat with
                 | Some _ => []
                 | None => [metadata_response rawMimeType effectiveMimeType fileSize]
                 end in
      match os_Seek os with
      | Some err => Some (out, Some err)
      | None =>
          match stream_chunks ctx 1 (os_reads os) "" out with
          | None => None
          | Some (out, _, Some err) => Some (out, Some err)
          | Some (out, hashed, None) =>
              let signature := sha256_Sum hashed in
              match ctx (S (length out)) with
              | Some e => Some (out, Some e)
              | None => Some (out ++ [signature_response (hex_encode signature)], None)
              end
          end
      end
  end
  end
  end
  end.

(** ** The wire *)

Inductive pbControl :=
| PbMetadata (RawMimeType EffectiveMimeType : string) (Size : Z)
| PbChunk (Data : string)
| PbSignature (Sha256 : string)
| PbError (Message : string) (Code : Z).
Definition pbResponse := option pbControl.

Definition toPbResponse (resp : FileDownloaderResponse) : pbResponse :=
  match fr_FileMetadata resp with
  | Some m => Some (PbMetadata (fm_RawMimeType m) (fm_EffectiveMimeType m) (fm_Size m))
  | None =>
  match fr_FileChunk resp with
  | Some c => Some (PbChunk (fc_Chunk c))
  | None =>
  match fr_FileSignature resp with
  | Some s => Some (PbSignature (fs_Sha256 s))
  | None =>
  match fr_FileError resp with
  | Some e => Some (PbError (fe_Message e) (int32 (fe_ErrorCode e)))
  | None => None
  end end end end.

Definition fromPbResponse (pbResp : pbResponse) : FileDownloaderResponse :=
  match pbResp with
  | Some (PbMetadata raw eff size) => metadata_response raw (ToMIME eff) size
  | Some (PbChunk data) => chunk_response data
  | Some (PbSignature sha) => signature_response sha
  | Some (PbError msg code) => error_response msg code
  | None => MkFileDownloaderResponse None None None None
  end.

Record pbRequest := MkPbRequest { pr_DriveId : string; pr_FileId : string; pr_Path : string }.

Definition fromPbRequest (req : pbRequest) : FileDownloaderRequest :=
  MkFileDownloaderRequest (pr_DriveId req) (pr_FileId req) (pr_Path req).

(** The receiving goroutine of [Download]: the requests it forwards, and the
    error it reports when it ends ([None] while it runs; [Some None] when the
    master has finished). *)
Fixpoint Download_receiver (recvs : list (result error pbRequest))
    (requestChan : list FileDownloaderRequest)
  : list FileDownloaderRequest * option (option error) :=
  match recvs with
  | [] => (requestChan, None)
  | Err EOF :: _ => (requestChan, Some None)
  | Err err :: _ => (requestChan, Some (Some err))
  | Ok req :: recvs =>
      let request := fromPbRequest req in
      match validate_download request with
      | Some err => (requestChan, Some (Some err))
      | None => Download_receiver recvs (requestChan ++ [request])
      end
  end.

(** The sending goroutine of [Download]: what its [select] receives. *)
Inductive sender_signal :=
| SenderDone (err : error)
| SenderClosed
| SenderResponse (r : FileDownloaderResponse) (send_err : option error).
(** What it sent, and the error it reports when it ends ([None] while it
    runs; [Some None] is a clean end). *)
Fixpoint Download_sender (signals : list sender_signal) (sent : list pbResponse)
  : list pbResponse * option (option error) :=
  match signals with
  | [] => (sent, None)
  | SenderDone err :: _ => (sent, Some (Some err))
  | SenderClosed :: _ => (sent, Some None)
  | SenderResponse r (Some err) :: _ => (sent, Some (Some err))
  | SenderResponse r None :: signals =>
      let sent := sent ++ [toPbResponse r] in
      match fr_FileSignature r, fr_FileError r with
      | None, None => Download_sender signals sent
      | _, _ => (sent, Some None)
      end
  end.

(** ** The accumulator *)

Record FileBuffer := MkFileBuffer { fb_Path : string; fb_EffectiveMimeType : MIME }.

(** [fa_disk] is the content of the files under the temporary directory. *)
Record FileAccumulator := MkFileAccumulator {
  fa_tempDir : string;
  fa_buffers : gmap FileID FileBuffer;
  fa_hash : gmap FileID string;
  fa_tmpFileLocationChan : list TmpFileLocation;
  fa_disk : gmap string string;
}.

(** Answers of the operating system: [os.Create]; [File.Write], which on an
    error has written some bytes; and the case of the final [select]. *)
Record acc_os := MkAccOs {
  ac_Create : option error;
  ac_Write : option (nat * error);
  ac_ctx : option error;
}.

Definition tmp_path (a : FileAccumulator) (fileID : FileID) : string :=
  filepath_Join (fa_tempDir a) (fileID +:+ ".tmp").

(** [finalize]. *)
Definition finalize (a : FileAccumulator) (fileID : FileID) (expectedSha : string)
  : FileAccumulator * result error (string * MIME) :=
  let fileBuffer := fa_buffers a !! fileID in
  let h := fa_hash a !! fileID in
  let a := MkFileAccumulator (fa_tempDir a) (delete fileID (fa_buffers a))
             (delete fileID (fa_hash a)) (fa_tmpFileLocationChan a) (fa_disk a) in
  match fileBuffer with
  | None => (a, Err (Opaque ("cannot finalize: buffer not found for " +:+ fileID)))
  | Some fileBuffer =>
      let actualSha := hex_encode (sha256_Sum (default "" h)) in
      if negb (String.eqb actualSha expectedSha)
      then (a, Err (Opaque ("integrity check failed for " +:+ fileID +:+ ": got " +:+ actualSha +:+
                            ", want " +:+ expectedSha)))
      else (a, Ok (fb_Path fileBuffer, fb_EffectiveMimeType fileBuffer))
  end.

Definition disk_append (d : gmap string string) (path data : string) : gmap string string :=
  <[path := default "" (d !! path) +:+ data]> d.

Definition ProcessResponse (a : FileAccumulator) (os : acc_os) (driveID : string) (fileID : FileID)
    (resp : FileDownloaderResponse) : FileAccumulator * option error :=
  match fr_FileMetadata resp with
  | Some md =>
      let path := tmp_path a fileID in
      match ac_Create os with
      | Some err => (a, Some (Errorf ("failed to create temp file for " +:+ fileID +:+ ": ") err))
      | None =>
          (MkFileAccumulator (fa_tempDir a)
             (<[fileID := MkFileBuffer path (fm_EffectiveMimeType md)]> (fa_buffers a))
             (<[fileID := ""]> (fa_hash a)) (fa_tmpFileLocationChan a)
             (<[path := ""]> (fa_disk a)), None)
      end
  | None =>
  match fr_FileChunk resp with
  | Some c =>
      match fa_buffers a !! fileID, fa_hash a !! fileID with
      | Some fileBuffer, Some h =>
          match ac_Write os with
          | Some (n, err) =>
              (MkFileAccumulator (fa_tempDir a) (fa_buffers a) (fa_hash a)
                 (fa_tmpFileLocationChan a)
                 (disk_append (fa_disk a) (fb_Path fileBuffer) (String.substring 0 n (fc_Chunk c))),
               Some (Errorf ("failed to write chunk for " +:+ fileID +:+ ": ") err))
          | None =>
              (MkFileAccumulator (fa_tempDir a) (fa_buffers a)
                 (<[fileID := h +:+ fc_Chunk c]> (fa_hash a)) (fa_tmpFileLocationChan a)
                 (disk_append (fa_disk a) (fb_Path fileBuffer) (fc_Chunk c)), None)
          end
      | _, _ => (a, Some (Opaque ("no active buffer found for file " +:+ fileID)))
      end
  | None =>
  match fr_FileSignature resp with
  | Some s =>
      match finalize a fileID (fs_Sha256 s) with
      | (a, Err err) => (a, Some err)
      | (a, Ok (tmpPath, mimeType)) =>
          match ac_ctx os with
          | Some err => (a, Some err)
          | None =>
              (MkFileAccumulator (fa_tempDir a) (fa_buffers a) (fa_hash a)
                 (fa_tmpFileLocationChan a ++ [MkTmpFileLocation driveID fileID tmpPath mimeType])
                 (fa_disk a), None)
          end
      end
  | None => (a, None)
  end end end.

(** ** The master's side *)

(** The receiving loop of [handleDownload]: the results of [Recv] (a missing
    one is a stream still waiting), with the operating system's answers. *)
Fixpoint recv_loop (a : FileAccumulator) (req : FileDownloaderRequest)
    (recvs : list (result error pbResponse * acc_os)) : FileAccumulator :=
  match recvs with
  | [] => a
  | (Err _, _) :: _ => a
  | (Ok resp, os) :: recvs =>
      match ProcessResponse a os (fdr_DriveID req) (fdr_FileID req) (fromPbResponse resp) with
      | (a, Some _) => a
      | (a, None) => recv_loop a req recvs
      end
  end.

(** What is sent does not carry the drive. *)
Definition download_request (req : FileDownloaderRequest) : pbRequest :=
  MkPbRequest "" (fdr_FileID req) (fdr_Path req).

(** [open_err] and [send_err]: the errors of opening the stream and of sending
    the request. *)
Definition handleDownload (a : FileAccumulator) (req : FileDownloaderRequest)
    (open_err : option error) (send_err : pbRequest → option error)
    (recvs : list (result error pbResponse * acc_os)) : FileAccumulator :=
  match open_err with
  | Some _ => a
  | None =>
      match send_err (download_request req) with
      | Some _ => a
      | None => recv_loop a req recvs
      end
  end.

(** ** Reading a file *)

Definition str_concat (l : list string) : string := foldr (λ a b, a +:+ b) "" l.

(** The successive reads deliver [content] and then end the file; a read may be
    short, empty, or come with the end-of-file mark. *)
Definition reads_yield (content : string) (reads : list (string * option error)) : Prop :=
  ∃ pre final, reads = ((λ d, (d, None)) <$> pre) ++ [(final, Some EOF)] ∧
    content = str_concat pre +:+ final.

Definition no_cancel : ctx_cases := λ _, None.

Lemma stream_chunks_yield content reads : reads_yield content reads →
  ∀ k hashed out, ∃ chunks,
    stream_chunks no_cancel k reads hashed out =
      Some (out ++ (chunk_response <$> chunks), hashed +:+ content, None) ∧
    str_concat chunks = content.
Proof.
  intros (pre & final & -> & ->). induction pre as [|d pre IH]; intros k hashed out;
    rewrite ?fmap_nil, ?fmap_cons; cbn [app stream_chunks].
  - destruct (String.eqb_spec final "") as [->|].
    + exists []. simpl. by rewrite !app_nil_r, str_app_nil_r.
    + exists [final]. simpl. by rewrite str_app_nil_r.
  - destruct (String.eqb_spec d "") as [->|].
    + rewrite app_nil_r. apply IH.
    + destruct (IH (S k) (hashed +:+ d) (out ++ [chunk_response d])) as (cs & Hc & Hcc).
      exists (d :: cs). change (no_cancel k) with (@None error). cbv iota beta.
      rewrite Hc, <- app_assoc. cbn [str_concat foldr]. fold (str_concat cs) (str_concat pre).
      rewrite Hcc. split; [|by rewrite str_app_assoc].
      by rewrite <- !str_app_assoc.
Qed.

(** A request for a regular, readable file within the size limit. *)
Record readable (s : FileDownloaderScannerWorker) (req : FileDownloaderRequest) (os : file_os)
    (content : string) : Prop := {
  rd_valid : validate_download req = None;
  rd_stat : ∃ fi, os_Stat os = Ok fi ∧ fi_IsDir fi = false ∧ fi_IsRegular fi = true ∧
            uint64 (fi_Size fi) ≤ uint64 (int64 (sw_maxFileSizeMb s * MB));
  rd_open : os_Open os = None;
  rd_sniff : ∃ buf, os_sniff os = Ok buf;
  rd_seek : os_Seek os = None;
  rd_reads : reads_yield content (os_reads os);
}.

Lemma Process_readable s req os content : readable s req os content →
  ∃ raw size chunks, Process s no_cancel os req =
    Some (metadata_response raw (ToMIME raw) size :: (chunk_response <$> chunks) ++
          [signature_response (hex_encode (sha256_Sum content))], None) ∧
    str_concat chunks = content.
Proof.
  intros [Hv (fi & Hst & Hd & Hreg & Hsz) Ho [buf Hsn] Hsk Hr]. unfold Process.
  rewrite Hv, Hst, Hd, Hreg, Ho, Hsn, Hsk.
  rewrite (proj2 (Z.ltb_ge _ _) Hsz). cbn [orb negb].
  destruct (stream_chunks_yield _ _ Hr 1 ""
    [metadata_response (mimetype_Detect buf) (ToMIME (mimetype_Detect buf)) (uint64 (fi_Size fi))])
    as (cs & Hs & Hc).
  change (no_cancel ?k) with (@None error). cbv iota. rewrite Hs.
  change (no_cancel ?k) with (@None error).
  eexists _, _, cs. split; [|exact Hc]. reflexivity.
Qed.

(** ** The wire carries responses faithfully *)

Lemma wire_metadata raw m size :
  fromPbResponse (toPbResponse (metadata_response raw (ToMIME m) size)) =
    metadata_response raw (ToMIME m) size.
Proof. simpl. by rewrite ToMIME_idem. Qed.
Lemma wire_chunk c : fromPbResponse (toPbResponse (chunk_response c)) = chunk_response c.
Proof. done. Qed.
Lemma wire_signature c : fromPbResponse (toPbResponse (signature_response c)) = signature_response c.
Proof. done. Qed.

Lemma sender_stream chunks sig : ∀ sent,
  Download_sender ((λ r, SenderResponse r None) <$>
     ((chunk_response <$> chunks) ++ [signature_response sig])) sent =
  (sent ++ (toPbResponse <$> ((chunk_response <$> chunks) ++ [signature_response sig])), Some None).
Proof.
  induction chunks as [|c chunks IH]; intros sent; [done|].
  rewrite !fmap_cons. cbn [app]. rewrite !fmap_cons.
  cbn [Download_sender chunk_response fr_FileSignature fr_FileError].
  rewrite IH. by rewrite <- app_assoc.
Qed.

(** ** Accumulating *)

Definition fine : acc_os := MkAccOs None None None.
Definition received (r : FileDownloaderResponse) : result error pbResponse * acc_os :=
  (Ok (toPbResponse r), fine).

Lemma accumulate_chunks chunks : ∀ a req rest b h,
  fa_buffers a !! fdr_FileID req = Some b → fa_hash a !! fdr_FileID req = Some h →
  fa_disk a !! fb_Path b = Some h →
  ∃ a', recv_loop a req ((received <$> (chunk_response <$> chunks)) ++ rest) =
          recv_loop a' req rest ∧
    fa_tempDir a' = fa_tempDir a ∧ fa_buffers a' = fa_buffers a ∧
    fa_tmpFileLocationChan a' = fa_tmpFileLocationChan a ∧
    fa_hash a' = <[fdr_FileID req := h +:+ str_concat chunks]> (fa_hash a) ∧
    fa_disk a' = <[fb_Path b := h +:+ str_concat chunks]> (fa_disk a).
Proof.
  induction chunks as [|c chunks IH]; intros a req rest b h Hb Hh Hd.
  { exists a. simpl. rewrite str_app_nil_r, !insert_id by done. done. }
  rewrite !fmap_cons. cbn [app]. unfold received at 1. cbn [recv_loop].
  unfold ProcessResponse. cbn [toPbResponse fromPbResponse chunk_response fr_FileMetadata fr_FileChunk fc_Chunk].
  rewrite Hb, Hh. cbn [fine ac_Write].
  match goal with |- context [recv_loop ?x req] => set (a1 := x) end.
  destruct (IH a1 req rest b (h +:+ c)) as (a' & He & Ht & Hbf & Hl & Hhs & Hdk).
  - done.
  - simpl. by rewrite lookup_insert_eq.
  - simpl. unfold disk_append. by rewrite Hd, lookup_insert_eq.
  - exists a'. rewrite He, Ht, Hbf, Hl, Hhs, Hdk. simpl. unfold disk_append.
    rewrite Hd. simpl. rewrite !insert_insert_eq, !str_app_assoc. done.
Qed.

(** The whole stream of one file. *)
Lemma accumulate_file raw size chunks a req :
  let path := tmp_path a (fdr_FileID req) in
  recv_loop a req (received <$> (metadata_response raw (ToMIME raw) size ::
      (chunk_response <$> chunks) ++
      [signature_response (hex_encode (sha256_Sum (str_concat chunks)))])) =
  MkFileAccumulator (fa_tempDir a) (delete (fdr_FileID req) (fa_buffers a))
    (delete (fdr_FileID req) (fa_hash a))
    (fa_tmpFileLocationChan a ++
       [MkTmpFileLocation (fdr_DriveID req) (fdr_FileID req) path (ToMIME raw)])
    (<[path := str_concat chunks]> (fa_disk a)).
Proof.
  cbv zeta. rewrite fmap_cons, fmap_app. unfold received at 1. cbn [recv_loop].
  rewrite wire_metadata. unfold ProcessResponse at 1.
  cbn [metadata_response fr_FileMetadata fm_EffectiveMimeType fine ac_Create].
  match goal with |- context [recv_loop ?x req] => set (a1 := x) end.
  destruct (accumulate_chunks chunks a1 req
    (received <$> [signature_response (hex_encode (sha256_Sum (str_concat chunks)))])
    (MkFileBuffer (tmp_path a (fdr_FileID req)) (ToMIME raw)) "")
    as (a' & He & Ht & Hb & Hl & Hh & Hd); [simpl; by rewrite lookup_insert_eq..|].
  rewrite He, fmap_cons, fmap_nil.
  unfold received. cbn [recv_loop]. rewrite wire_signature. unfold ProcessResponse, finalize.
  cbn [signature_response fr_FileMetadata fr_FileChunk fr_FileSignature fs_Sha256].
  rewrite Ht, Hb, Hh, Hl, Hd. subst a1.
  cbn [fa_tempDir fa_buffers fa_hash fa_disk fa_tmpFileLocationChan fb_Path].
  rewrite !lookup_insert_eq. cbn [default from_option id].
  change ("" +:+ str_concat chunks) with (str_concat chunks).
  rewrite String.eqb_refl. cbn [negb fine ac_ctx].
  cbn [fa_tempDir fa_buffers fa_hash fa_disk fa_tmpFileLocationChan fb_Path fb_EffectiveMimeType].
  by rewrite !insert_insert_eq, !delete_insert_eq.
Qed.

(** C3. A file that can be read on the scanner arrives intact: the request
    the master sends reaches the scanner's workers; the responses the scanner
    emits for it, sent over the wire and accumulated by the master without I/O
    errors, rebuild the file byte for byte under its temporary path, pass the
    integrity check and announce it exactly once with the drive it was
    requested for; the transfer's bookkeeping is gone and every other transfer
    is untouched; the server's sending loop ends cleanly with the signature. *)
Theorem download_roundtrip s req os content a :
  let request := fromPbRequest (download_request req) in
  readable s request os content →
  Download_receiver [Ok (download_request req)] [] = ([request], None) ∧
  ∃ out mime, Process s no_cancel os request = Some (out, None) ∧
    Download_sender ((λ r, SenderResponse r None) <$> out) [] = (toPbResponse <$> out, Some None) ∧
    let a' := handleDownload a req None (λ _, None) (received <$> out) in
    let path := tmp_path a (fdr_FileID req) in
    fa_disk a' !! path = Some content ∧
    fa_tmpFileLocationChan a' = fa_tmpFileLocationChan a ++
      [MkTmpFileLocation (fdr_DriveID req) (fdr_FileID req) path mime] ∧
    fa_buffers a' = delete (fdr_FileID req) (fa_buffers a) ∧
    fa_hash a' = delete (fdr_FileID req) (fa_hash a) ∧
    (∀ p, p ≠ path → fa_disk a' !! p = fa_disk a !! p).
Proof.
  intros request Hr. split.
  { cbn [Download_receiver]. fold request. by rewrite (rd_valid _ _ _ _ Hr). }
  destruct (Process_readable _ _ _ _ Hr) as (raw & size & chunks & Hp & Hc).
  eexists _, (ToMIME raw). split; [exact Hp|]. split.
  { rewrite fmap_cons. cbn [Download_sender metadata_response fr_FileSignature fr_FileError].
    by rewrite sender_stream. }
  unfold handleDownload. cbv zeta. rewrite <- Hc, accumulate_file.
  cbn [fa_disk fa_tmpFileLocationChan fa_buffers fa_hash].
  split_and!; [by rewrite lookup_insert_eq|done|done|done|].
  intros p Hne. by rewrite lookup_insert_ne by done.
Qed.

(** ** Integrity *)

Definition valid_id (id : FileID) : Prop := plain_name (id +:+ ".tmp").

(** What is on disk for an open transfer is what has been hashed, unless a write of it
    has failed ([torn]). *)
Definition acc_inv (torn : gset FileID) (a : FileAccumulator) : Prop :=
  fa_tempDir a ≠ "" ∧
  ∀ id b, fa_buffers a !! id = Some b →
    valid_id id ∧ fb_Path b = tmp_path a id ∧
    ∃ h, fa_hash a !! id = Some h ∧ (id ∉ torn → fa_disk a !! fb_Path b = Some h).

(** The transfers torn after a response: a failed write tears its transfer, until it is
    closed or opened again. *)
Definition torn_after (torn : gset FileID) (a : FileAccumulator) (os : acc_os) (id : FileID)
    (resp : FileDownloaderResponse) : gset FileID :=
  match fr_FileMetadata resp, fr_FileChunk resp, fr_FileSignature resp with
  | Some _, _, _ => if ac_Create os then torn else torn ∖ {[id]}
  | None, Some _, _ =>
      match fa_buffers a !! id, ac_Write os with Some _, Some _ => torn ∪ {[id]} | _, _ => torn end
  | None, None, Some _ => torn ∖ {[id]}
  | None, None, None => torn
  end.

Lemma tmp_path_inj a id1 id2 : fa_tempDir a ≠ "" → valid_id id1 → valid_id id2 →
  tmp_path a id1 = tmp_path a id2 → id1 = id2.
Proof.
  intros Hd H1 H2 He. apply filepath_Join_inj in He; [|done..].
  by apply str_app_inj_len in He as [He _].
Qed.

Lemma finalize_spec torn a id sha a' r : acc_inv torn a → finalize a id sha = (a', r) →
  a' = MkFileAccumulator (fa_tempDir a) (delete id (fa_buffers a)) (delete id (fa_hash a))
         (fa_tmpFileLocationChan a) (fa_disk a) ∧
  ∀ p m, r = Ok (p, m) → p = tmp_path a id ∧
    (id ∉ torn → ∃ content, fa_disk a !! p = Some content ∧ sha = hex_encode (sha256_Sum content)).
Proof.
  intros [_ Hinv] Hf. unfold finalize in Hf.
  destruct (fa_buffers a !! id) as [b|] eqn:Hb; [|by simplify_eq].
  destruct (Hinv _ _ Hb) as (_ & Hp & h & Hh & Hd). rewrite Hh in Hf. simpl in Hf.
  destruct (String.eqb_spec (hex_encode (sha256_Sum h)) sha); simplify_eq/=; [|done].
  split; [done|]. intros p m [= <- <-]. split; [done|]. intros Ht. exists h. auto.
Qed.

(** Closing a transfer, or opening it afresh, keeps the invariant. *)
Lemma acc_inv_close torn a id l : acc_inv torn a →
  acc_inv (torn ∖ {[id]}) (MkFileAccumulator (fa_tempDir a) (delete id (fa_buffers a))
    (delete id (fa_hash a)) l (fa_disk a)).
Proof.
  intros [Hdir Hi]. split; [done|]. cbn [fa_buffers fa_hash fa_disk].
  intros id' b' [Hne Hb]%lookup_delete_Some.
  destruct (Hi _ _ Hb) as (Hv & Hp & h & Hh & Hd). split_and!; [done|done|]. exists h.
  rewrite lookup_delete_ne by done. split; [done|]. intros Ht. apply Hd. set_solver.
Qed.

Lemma acc_inv_open torn a id mime : acc_inv torn a → valid_id id →
  acc_inv (torn ∖ {[id]}) (MkFileAccumulator (fa_tempDir a)
    (<[id := MkFileBuffer (tmp_path a id) mime]> (fa_buffers a)) (<[id := ""]> (fa_hash a))
    (fa_tmpFileLocationChan a) (<[tmp_path a id := ""]> (fa_disk a))).
Proof.
  intros [Hdir Hi] Hid. split; [done|]. intros id' b' Hb'. cbn [fa_buffers] in Hb'.
  apply lookup_insert_Some in Hb' as [[<- <-]|[Hne Hb]]; cbn [fa_hash fa_disk fb_Path].
  - split_and!; [done|done|]. exists "". by rewrite !lookup_insert_eq.
  - destruct (Hi _ _ Hb) as (Hv & Hp & h & Hh & Hd). split_and!; [done|done|]. exists h.
    rewrite lookup_insert_ne by done. split; [done|]. intros Ht. rewrite lookup_insert_ne.
    + apply Hd. set_solver.
    + rewrite Hp. intros He%tmp_path_inj; done.
Qed.

(** A write, of all the bytes or of some of them, concerns its own transfer only. *)
Lemma acc_inv_write torn torn' a id b h h' data : acc_inv torn a →
  fa_buffers a !! id = Some b → fa_hash a !! id = Some h → torn ⊆ torn' →
  (id ∉ torn' → h' = h +:+ data) →
  acc_inv torn' (MkFileAccumulator (fa_tempDir a) (fa_buffers a) (<[id := h']> (fa_hash a))
    (fa_tmpFileLocationChan a) (disk_append (fa_disk a) (fb_Path b) data)).
Proof.
  intros [Hdir Hi] Hb Hh Ht Hh'. destruct (Hi _ _ Hb) as (Hv & Hp & h0 & Hh0 & Hd). simplify_eq.
  split; [done|]. intros id' b' Hb'. cbn [fa_buffers fa_hash fa_disk] in *.
  destruct (Hi _ _ Hb') as (Hv' & Hp' & h1 & Hh1 & Hd'). split_and!; [done|done|].
  unfold disk_append. destruct (decide (id' = id)) as [->|Hne].
  - simplify_eq. exists h'. rewrite lookup_insert_eq. split; [done|]. intros Hn.
    rewrite lookup_insert_eq, Hd by set_solver. cbn [default from_option]. by rewrite (Hh' Hn).
  - exists h1. rewrite lookup_insert_ne by done. split; [done|]. intros Hn. rewrite lookup_insert_ne.
    + apply Hd'. set_solver.
    + rewrite Hp, Hp'. intros He%tmp_path_inj; done.
Qed.

(** C27. Only verified files are announced: whatever responses arrive for identifiers
    that are plain file names, in whatever interleaving of transfers and whatever the
    operating system answers, the bytes on disk of every open transfer are the bytes hashed
    so far, except for the transfers one of whose writes has failed; a failed write is
    always reported to the caller, which ends the download; and a location is sent only
    for a signature, at which point the transfer is closed, and, when no write of the
    transfer has failed, only if the signature is the SHA-256 of the file on disk. *)
Theorem ProcessResponse_integrity torn a os driveID id resp a' err :
  acc_inv torn a → valid_id id → ProcessResponse a os driveID id resp = (a', err) →
  let torn' := torn_after torn a os id resp in
  acc_inv torn' a' ∧ (torn' ⊆ torn ∨ err ≠ None) ∧
  (fa_tmpFileLocationChan a' = fa_tmpFileLocationChan a ∨
   ∃ sha mime, fr_FileSignature resp = Some (MkFileSignature sha) ∧
     fa_tmpFileLocationChan a' = fa_tmpFileLocationChan a ++
       [MkTmpFileLocation driveID id (tmp_path a id) mime] ∧
     fa_buffers a' !! id = None ∧ err = None ∧
     (id ∉ torn → ∃ content, fa_disk a' !! tmp_path a id = Some content ∧
        sha = hex_encode (sha256_Sum content))).
Proof.
  intros Hinv Hid. unfold ProcessResponse, torn_after.
  destruct (fr_FileMetadata resp) as [md|].
  { destruct (ac_Create os); intros [= <- <-]; [by auto|].
    split_and!; [by apply acc_inv_open|left; set_solver|by left]. }
  destruct (fr_FileChunk resp) as [c|].
  { destruct (fa_buffers a !! id) as [b|] eqn:Hb; [|intros [= <- <-]; by auto].
    destruct (proj2 Hinv _ _ Hb) as (_ & _ & h & Hh & _). rewrite Hh.
    destruct (ac_Write os) as [[n e]|]; intros [= <- <-]; (split_and!; [|by auto|by left]).
    - rewrite <- (insert_id _ _ _ Hh). apply (acc_inv_write torn _ a id b h); set_solver.
    - by apply (acc_inv_write torn _ a id b h). }
  destruct (fr_FileSignature resp) as [[sha]|]; [|intros [= <- <-]; by auto].
  cbn [fs_Sha256]. destruct (finalize a id sha) as [a1 r] eqn:Hf.
  destruct (finalize_spec _ _ _ _ _ _ Hinv Hf) as (-> & Hr).
  assert (torn ∖ {[id]} ⊆ torn ∨ err ≠ None) as Hsub by (left; set_solver).
  destruct r as [[p m]|e]; [|intros [= <- <-]; split_and!; [by apply acc_inv_close|done|by left]].
  destruct (ac_ctx os); intros [= <- <-]; (split_and!; [by apply (acc_inv_close torn a id)|done|]);
    [by left|right]. destruct (Hr _ _ eq_refl) as (-> & Hok).
  exists sha, m. cbn. split_and!; [done|done|by rewrite lookup_delete_eq|done|exact Hok].
Qed.

(** A file that cannot be fetched, for a reason the worker reports. *)
Definition refused (s : FileDownloaderScannerWorker) (req : FileDownloaderRequest) (os : file_os)
  : Prop :=
  validate_download req ≠ None ∨ (∃ e, os_Stat os = Err e) ∨
  (∃ fi, os_Stat os = Ok fi ∧
     (uint64 (int64 (sw_maxFileSizeMb s * MB)) < uint64 (fi_Size fi) ∨
      fi_IsDir fi = true ∨ fi_IsRegular fi = false ∨ os_Open os ≠ None)).

(** Refusals are reported: a request that is invalid, names a missing
    file, an oversized file, something that is not a regular file, or a file
    that cannot be opened is answered with exactly one error response, of the
    corresponding code, and no content. *)
Theorem Process_refuses s os req :
  refused s req os →
  ∃ msg code err, Process s no_cancel os req = Some ([error_response msg code], Some err) ∧
    code = (match validate_download req with
            | Some _ => InvalidFilePath
            | None =>
                match os_Stat os with
                | Err _ => NotFound
                | Ok fi =>
                    if uint64 (int64 (sw_maxFileSizeMb s * MB)) <? uint64 (fi_Size fi) then FileTooLarge
                    else if fi_IsDir fi || negb (fi_IsRegular fi) then NotFile
                    else AccessDenied
                end
            end).
Proof.
  unfold refused. intros H. unfold Process, sendError, no_cancel.
  destruct (validate_download req); [by eexists _, _, _|].
  destruct (os_Stat os) as [fi|e]; [|by eexists _, _, _].
  destruct (Z.ltb_spec (uint64 (int64 (sw_maxFileSizeMb s * MB))) (uint64 (fi_Size fi))) as [Hlt|Hge];
    [by eexists _, _, _|].
  destruct (fi_IsDir fi || negb (fi_IsRegular fi)) eqn:Hk; [by eexists _, _, _|].
  apply orb_false_iff in Hk as [Hd Hreg%negb_false_iff].
  destruct (os_Open os) eqn:Ho; [by eexists _, _, _|]. exfalso.
  destruct H as [H|[[e He]|(fi' & He & H)]]; [done|done|]. simplify_eq.
  destruct H as [H|[H|[H|H]]]; [lia|congruence|congruence|done].
Qed.

(** An empty file is not refused but never answered: sniffing it fails with
    the end-of-file error and nothing is sent. *)
Theorem Process_empty_file_is_silent s req os fi :
  validate_download req = None → os_Stat os = Ok fi →
  fi_IsDir fi = false → fi_IsRegular fi = true →
  uint64 (fi_Size fi) ≤ uint64 (int64 (sw_maxFileSizeMb s * MB)) →
  os_Open os = None → os_sniff os = Err EOF →
  Process s no_cancel os req = Some ([], Some EOF).
Proof.
  intros Hv Hst Hd Hr Hs Ho Hsn. unfold Process. rewrite Hv, Hst, Hd, Hr, Ho, Hsn.
  by rewrite (proj2 (Z.ltb_ge _ _) Hs).
Qed.

End Transfer.

(** ** A concrete environment *)

(** A hash that only has to be a function, a detector that sees text, and a
    validator that refuses the empty path. *)
Definition demo_transfer : TransferEnv := {|
  sha256_Sum := λ s, fmt_d (Z.of_nat (String.length s)) +:+ s;
  mimetype_Detect := λ _, "text/plain";
  validate_download := λ r, if String.eqb (fdr_Path r) "" then Some (Opaque "Path: required") else None;
|}.

Definition demo_scanner : FileDownloaderScannerWorker := MkScannerWorker 64 1.
Definition demo_request : FileDownloaderRequest := MkFileDownloaderRequest "drive" "f1" "/a/b.txt".
Definition demo_file : file_os :=
  MkFileOs (Ok (MkFileInfo 5 false true)) None (Ok "hello") None
    [("hel", None); ("", None); ("lo", Some EOF)].
Definition demo_accumulator : FileAccumulator :=
  MkFileAccumulator "/tmp/chat" ∅ ∅ [] ∅.

Definition demo_wire_request : FileDownloaderRequest := fromPbRequest (download_request demo_request).

Lemma download_roundtrip_witness :
  ∃ out mime,
    Process (E := demo_transfer) demo_scanner no_cancel demo_file demo_wire_request = Some (out, None) ∧
    let a' := handleDownload (E := demo_transfer) demo_accumulator demo_request None (λ _, None)
                (received <$> out) in
    fa_disk a' !! "/tmp/chat/f1.tmp" = Some "hello" ∧
    fa_tmpFileLocationChan a' = [MkTmpFileLocation "drive" "f1" "/tmp/chat/f1.tmp" mime].
Proof.
  assert (readable (E := demo_transfer) demo_scanner demo_wire_request demo_file "hello") as Hr.
  { split; try done.
    - eexists. split; [done|]. repeat split; vm_compute; discriminate.
    - by eexists.
    - by exists ["hel"; ""], "lo". }
  pose proof (download_roundtrip (E := demo_transfer) demo_scanner demo_request demo_file "hello"
    demo_accumulator Hr) as (_ & out & mime & Hp & _ & Hd & Hl & _).
  exists out, mime. split; [exact Hp|]. split; [exact Hd|exact Hl].
Defined.

(** The accumulator after the metadata and the content of one transfer. *)
Definition demo_open : FileAccumulator :=
  MkFileAccumulator "/tmp/chat" {["f1" := MkFileBuffer "/tmp/chat/f1.tmp" "text/plain"]}
    {["f1" := "hello"]} [] {["/tmp/chat/f1.tmp" := "hello"]}.

Lemma ProcessResponse_integrity_witness :
  let '(a', err) := ProcessResponse (E := demo_transfer) demo_open fine "drive" "f1"
                      (signature_response (hex_encode "5hello")) in
  err = None ∧ fa_tmpFileLocationChan a' =
    [MkTmpFileLocation "drive" "f1" "/tmp/chat/f1.tmp" "text/plain"] ∧ acc_inv ∅ a'.
Proof.
  destruct (ProcessResponse (E := demo_transfer) demo_open fine "drive" "f1"
              (signature_response (hex_encode "5hello"))) as [a' err] eqn:Hp.
  assert (acc_inv ∅ demo_open) as Hinv.
  { split; [done|]. intros id b Hb. unfold demo_open in Hb. cbn [fa_buffers] in Hb.
    apply lookup_singleton_Some in Hb as [<- <-]. split_and!; [by vm_compute|done|].
    by exists "hello". }
  assert (valid_id "f1") as Hv by (by vm_compute).
  pose proof (ProcessResponse_integrity (E := demo_transfer) ∅ demo_open fine "drive" "f1" _ a' err
    Hinv Hv Hp) as [Hi _].
  vm_compute in Hp. injection Hp as <- <-. split; [done|]. split; [done|exact Hi].
Defined.

(** After a failed write, the bytes on disk are not those hashed, and a signature of the
    bytes hashed would still announce the file. *)
Lemma torn_transfer :
  let '(a1, err) := ProcessResponse (E := demo_transfer) demo_open
    (MkAccOs None (Some (2%nat, Opaque "no space left on device")) None) "drive" "f1" (chunk_response " world") in
  let '(a2, _) := ProcessResponse (E := demo_transfer) a1 fine "drive" "f1"
    (signature_response (hex_encode "5hello")) in
  err ≠ None ∧ fa_disk a2 !! "/tmp/chat/f1.tmp" = Some "hello w" ∧
  length (fa_tmpFileLocationChan a2) = 1%nat.
Proof. by vm_compute. Qed.
