(* ===== verification/Downloads.v ===== *)
(** * Downloads: one transfer after the other

    The [Run] loops of [runtime/workers/file_downloader_scanner.go] and
    [runtime/workers/file_downloader_master.go], and the channel of responses that
    the streams of [file_downloader_server.go] share.  The functions that handle
    one request are those of [Transfer]. *)

From Stdlib Require Import Ascii String.
From S2P Require Import Prelude Errors Env Store Text Domain Mime Path Transfer.

Section Downloads.
Context {E : TransferEnv}.

(** ** The loops *)

(** What the [select] of the scanner's worker receives; the error of [Process] is
    only logged.  The result is [None] while a file is being read. *)
Inductive scanner_signal :=
| ScannerDone (err : error)
| ScannerRequest (ctx : ctx_cases) (os : file_os) (request : FileDownloaderRequest).
Fixpoint FileDownloaderScannerWorker_Run (s : FileDownloaderScannerWorker)
    (signals : list scanner_signal) (responseChan : list FileDownloaderResponse)
  : option (list FileDownloaderResponse * option error) :=
  match signals with
  | [] => Some (responseChan, None)
  | ScannerDone err :: _ => Some (responseChan, Some err)
  | ScannerRequest ctx os request :: signals =>
      '(out, _) ← Process s ctx os request;
      FileDownloaderScannerWorker_Run s signals (responseChan ++ out)
  end.

(** What the [select] of the master's worker receives; the error it returns, or
    [None] while it runs. *)
Inductive master_signal :=
| MasterDone (err : error)
| MasterClosed
| MasterRequest (req : FileDownloaderRequest) (open_err : option error)
    (send_err : pbRequest → option error) (recvs : list (result error pbResponse * acc_os)).
Fixpoint FileDownloaderMasterWorker_Run (a : FileAccumulator) (signals : list master_signal)
  : FileAccumulator * option (option error) :=
  match signals with
  | [] => (a, None)
  | MasterDone err :: _ => (a, Some (Some err))
  | MasterClosed :: _ => (a, Some None)
  | MasterRequest req open_err send_err recvs :: signals =>
      FileDownloaderMasterWorker_Run (handleDownload a req open_err send_err recvs) signals
  end.

(** ** The shared channel

    The responses a stream takes from the channel, up to one that ends a file, and
    what is left for the next stream. *)
Definition terminal (r : FileDownloaderResponse) : bool :=
  bool_decide (is_Some (fr_FileSignature r)) || bool_decide (is_Some (fr_FileError r)).
Fixpoint stream_take (chan : list FileDownloaderResponse)
  : list FileDownloaderResponse * list FileDownloaderResponse :=
  match chan with
  | [] => ([], [])
  | r :: chan =>
      if terminal r then ([r], chan)
      else let '(taken, rest) := stream_take chan in (r :: taken, rest)
  end.

(** It is what the sending goroutine does. *)
Lemma stream_take_sender chan : ∀ sent,
  (Download_sender ((λ r, SenderResponse r None) <$> chan) sent).1 =
  sent ++ (toPbResponse <$> (stream_take chan).1).
Proof.
  induction chan as [|r chan IH]; intros sent; [by rewrite app_nil_r|].
  rewrite fmap_cons. cbn [Download_sender stream_take]. unfold terminal.
  destruct (fr_FileSignature r), (fr_FileError r); try done.
  cbn [is_Some]. rewrite !bool_decide_eq_false_2 by (by intros []). cbn [orb].
  rewrite IH. destruct (stream_take chan) as [taken rest]. cbn [fst].
  by rewrite fmap_cons, <- app_assoc.
Qed.

Fixpoint streams (n : nat) (chan : list FileDownloaderResponse)
  : list (list FileDownloaderResponse) :=
  match n with
  | O => []
  | S n => let '(taken, rest) := stream_take chan in taken :: streams n rest
  end.

(** ** Every file arrives *)

Record download := MkDownload {
  dl_req : FileDownloaderRequest; dl_os : file_os; dl_content : string }.
Definition dl_wire (d : download) : FileDownloaderRequest := fromPbRequest (download_request (dl_req d)).
Definition dl_id (d : download) : FileID := fdr_FileID (dl_req d).

Definition scanner_signals (files : list download) : list scanner_signal :=
  (λ d, ScannerRequest no_cancel (dl_os d) (dl_wire d)) <$> files.
Definition master_signals (files : list download) (chan : list FileDownloaderResponse)
  : list master_signal :=
  zip_with (λ d out, MasterRequest (dl_req d) None (λ _, None) (received <$> out)) files
    (streams (length files) chan).

(** The responses of a file. *)
Definition responses (raw : string) (size : Z) (chunks : list string) : list FileDownloaderResponse :=
  metadata_response raw (ToMIME raw) size :: (chunk_response <$> chunks) ++
  [signature_response (hex_encode (sha256_Sum (str_concat chunks)))].

Lemma stream_take_responses raw size chunks rest :
  stream_take (responses raw size chunks ++ rest) = (responses raw size chunks, rest).
Proof.
  unfold responses. cbn [app stream_take]. cbn.
  enough (stream_take (((chunk_response <$> chunks) ++
    [signature_response (hex_encode (sha256_Sum (str_concat chunks)))]) ++ rest) =
    ((chunk_response <$> chunks) ++
      [signature_response (hex_encode (sha256_Sum (str_concat chunks)))], rest)) as -> by done.
  generalize (hex_encode (sha256_Sum (str_concat chunks))). intros sig.
  induction chunks as [|c chunks IH]; [done|]. rewrite fmap_cons. cbn [app stream_take]. cbn.
  by rewrite IH.
Qed.

(** What the scanner puts on the channel. *)
Definition answered (d : download) (out : list FileDownloaderResponse) : Prop :=
  ∃ raw size chunks, out = responses raw size chunks ∧ str_concat chunks = dl_content d.

Lemma scanner_Run_answers s files :
  Forall (λ d, readable s (dl_wire d) (dl_os d) (dl_content d)) files →
  ∃ outs, Forall2 answered files outs ∧ ∀ out,
    FileDownloaderScannerWorker_Run s (scanner_signals files) out = Some (out ++ concat outs, None).
Proof.
  induction 1 as [|d files Hd _ (outs & HF & Hrun)].
  { exists []. split; [constructor|]. intros out. by rewrite app_nil_r. }
  destruct (Process_readable _ _ _ _ Hd) as (raw & size & chunks & Hp & Hc).
  exists (responses raw size chunks :: outs). split.
  { constructor; [|done]. by exists raw, size, chunks. }
  intros out. unfold scanner_signals. rewrite fmap_cons. cbn [FileDownloaderScannerWorker_Run].
  rewrite Hp. cbn [mbind option_bind]. fold (scanner_signals files).
  rewrite Hrun, <- Hc, <- app_assoc. done.
Qed.

Definition announced (a : FileAccumulator) : list (string * FileID * string) :=
  (λ l, (tl_DriveID l, tl_FileID l, tl_TmpFilePath l)) <$> fa_tmpFileLocationChan a.

(** What a sequence of transfers does to the accumulator. *)
Record fetched (files : list download) (a a' : FileAccumulator) : Prop := {
  ft_tempDir : fa_tempDir a' = fa_tempDir a;
  ft_content d : d ∈ files → fa_disk a' !! tmp_path a (dl_id d) = Some (dl_content d);
  ft_others p : (∀ d, d ∈ files → p ≠ tmp_path a (dl_id d)) → fa_disk a' !! p = fa_disk a !! p;
  ft_announced : announced a' = announced a ++
    ((λ d, (fdr_DriveID (dl_req d), dl_id d, tmp_path a (dl_id d))) <$> files);
  ft_open id : is_Some (fa_buffers a' !! id) ↔ is_Some (fa_buffers a !! id) ∧ id ∉ dl_id <$> files;
}.

Lemma fetched_one d out a : answered d out →
  fetched [d] a (handleDownload a (dl_req d) None (λ _, None) (received <$> out)).
Proof.
  intros (raw & size & chunks & -> & Hc). unfold handleDownload, responses.
  rewrite accumulate_file, Hc. split; cbn [fa_tempDir fa_disk fa_buffers]; [done|..].
  - intros d' ->%list_elem_of_singleton. by rewrite lookup_insert_eq.
  - intros p Hp. rewrite lookup_insert_ne; [done|]. intros <-. by apply (Hp d); [left|].
  - unfold announced. cbn [fa_tmpFileLocationChan]. by rewrite fmap_app.
  - intros id. cbn. rewrite list_elem_of_singleton, lookup_delete_is_Some. naive_solver.
Qed.

Lemma fetched_nil a : fetched [] a a.
Proof. split; [done|by intros ? ?%elem_of_nil|done|by rewrite app_nil_r|set_solver]. Qed.

Lemma fetched_app files1 files2 a a1 a2 : fa_tempDir a ≠ "" → NoDup (dl_id <$> files1 ++ files2) →
  Forall (λ d, valid_id (dl_id d)) (files1 ++ files2) →
  fetched files1 a a1 → fetched files2 a1 a2 → fetched (files1 ++ files2) a a2.
Proof.
  intros Hdir Hnd Hv [H1 H2 H3 H4 H5] [G1 G2 G3 G4 G5].
  assert (∀ id, tmp_path a1 id = tmp_path a id) as Hp by (intros; unfold tmp_path; by rewrite H1).
  setoid_rewrite Hp in G2. setoid_rewrite Hp in G3. setoid_rewrite Hp in G4.
  rewrite fmap_app in Hnd. apply NoDup_app in Hnd as (_ & Hdis & _).
  rewrite Forall_forall in Hv. setoid_rewrite elem_of_app in Hv.
  split; [congruence|..].
  - intros d' [Hd|Hd]%elem_of_app; [|by apply G2]. rewrite G3; [by apply H2|].
    intros d2 Hd2 Heq. apply tmp_path_inj in Heq; auto. apply (Hdis (dl_id d'));
      [by apply list_elem_of_fmap_2|]. rewrite Heq. by apply list_elem_of_fmap_2.
  - intros p Hall. setoid_rewrite elem_of_app in Hall. rewrite G3, H3; auto.
  - by rewrite G4, H4, fmap_app, app_assoc.
  - intros id. rewrite G5, H5, fmap_app, not_elem_of_app. tauto.
Qed.

Lemma master_Run_fetches files outs a : Forall2 answered files outs → fa_tempDir a ≠ "" →
  NoDup (dl_id <$> files) → Forall (λ d, valid_id (dl_id d)) files →
  fetched files a (FileDownloaderMasterWorker_Run a (master_signals files (concat outs))).1.
Proof.
  intros HF. revert a. induction HF as [|d out files outs Hd HF IH]; intros a Hdir Hnd Hv.
  { apply fetched_nil. }
  assert (master_signals (d :: files) (concat (out :: outs)) =
    MasterRequest (dl_req d) None (λ _, None) (received <$> out) ::
    master_signals files (concat outs)) as ->.
  { destruct Hd as (raw & size & chunks & -> & _). unfold master_signals.
    cbn [length streams concat]. by rewrite stream_take_responses. }
  cbn [FileDownloaderMasterWorker_Run]. pose proof (fetched_one d out a Hd) as H1.
  apply (fetched_app [d] _ _ _ _ Hdir Hnd Hv H1). apply IH.
  - by rewrite (ft_tempDir _ _ _ H1).
  - by apply NoDup_cons in Hnd as [_ ?].
  - by apply Forall_cons in Hv as [_ ?].
Qed.

(** Any number of transfers, one after the other: when the files can be read,
    the responses the scanner's worker puts on the one channel all streams share are
    taken apart by the streams into those of each file, and the master's worker
    rebuilds every file byte for byte under its own path, announces each once, in
    order and with its drive, leaves no transfer open, and touches no other file. *)
Theorem downloads_in_sequence s files a :
  Forall (λ d, readable s (dl_wire d) (dl_os d) (dl_content d)) files →
  fa_tempDir a ≠ "" → NoDup (dl_id <$> files) → Forall (λ d, valid_id (dl_id d)) files →
  ∃ chan, FileDownloaderScannerWorker_Run s (scanner_signals files) [] = Some (chan, None) ∧
    let a' := (FileDownloaderMasterWorker_Run a (master_signals files chan)).1 in
    (∀ d, d ∈ files → fa_disk a' !! tmp_path a (dl_id d) = Some (dl_content d)) ∧
    (∀ p, (∀ d, d ∈ files → p ≠ tmp_path a (dl_id d)) → fa_disk a' !! p = fa_disk a !! p) ∧
    announced a' = announced a ++
      ((λ d, (fdr_DriveID (dl_req d), dl_id d, tmp_path a (dl_id d))) <$> files) ∧
    (∀ id, is_Some (fa_buffers a' !! id) ↔ is_Some (fa_buffers a !! id) ∧ id ∉ dl_id <$> files).
Proof.
  intros Hr Hdir Hnd Hv. destruct (scanner_Run_answers s files Hr) as (outs & HF & Hrun).
  exists (concat outs). split; [apply Hrun|].
  by destruct (master_Run_fetches files outs a HF Hdir Hnd Hv).
Qed.

(** ** A transfer that is given up

    The responses do not name their file.  When the master gives up a transfer (its
    temporary file cannot be created, say), its stream stops being read and its
    sender stops after [k] responses; the others stay on the shared channel. *)

Lemma leftover raw size chunks k rest : (0 < k < length (responses raw size chunks))%nat →
  ∃ r taken, stream_take (drop k (responses raw size chunks) ++ rest) = (r :: taken, rest) ∧
    ((∃ c, r = chunk_response c) ∨ (∃ sig, r = signature_response sig)).
Proof.
  unfold responses. destruct k as [|k]; [lia|]. cbn [length drop]. rewrite length_app, length_fmap.
  cbn [length]. intros [_ Hk]. revert k Hk.
  generalize (hex_encode (sha256_Sum (str_concat chunks))). intros sig.
  induction chunks as [|c chunks IH]; intros k Hk; cbn [length] in Hk.
  { assert (k = 0)%nat as -> by lia. cbn. eexists _, []. split; [done|]. right. by eexists. }
  rewrite fmap_cons. cbn [app]. destruct k as [|k]; [|cbn [drop]; apply IH; lia].
  cbn [drop app stream_take]. change (terminal (chunk_response c)) with false. cbv iota.
  destruct (IH 0%nat ltac:(lia)) as (r & taken & Ht & _). rewrite drop_0 in Ht. rewrite Ht.
  eexists _, _. split; [done|]. left. by eexists.
Qed.

(** The next file is refused although it can be read, and the one after it is
    announced with the content of its predecessor: the signature that comes with the
    content is the right one for it. *)
Theorem given_up_transfer_shifts_the_next d1 d2 d3 o1 o2 o3 k a :
  answered d1 o1 → answered d2 o2 → answered d3 o3 → (0 < k < length o1)%nat →
  fa_buffers a !! dl_id d2 = None →
  let a' := (FileDownloaderMasterWorker_Run a
               (master_signals [d2; d3] (drop k o1 ++ o2 ++ o3))).1 in
  fa_disk a' !! tmp_path a (dl_id d3) = Some (dl_content d2) ∧
  announced a' = announced a ++ [(fdr_DriveID (dl_req d3), dl_id d3, tmp_path a (dl_id d3))].
Proof.
  intros (raw & size & chunks & -> & _) H2 _ Hk Hb. destruct H2 as (raw2 & size2 & chunks2 & -> & Hc).
  destruct (leftover raw size chunks k (responses raw2 size2 chunks2 ++ o3) Hk)
    as (r & taken & Ht & Hr).
  unfold master_signals. cbn [length streams]. rewrite Ht, stream_take_responses.
  cbn [zip_with FileDownloaderMasterWorker_Run fst].
  set (a1 := handleDownload a (dl_req d2) None (λ _, None) (received <$> r :: taken)).
  assert (fa_tempDir a1 = fa_tempDir a ∧ fa_tmpFileLocationChan a1 = fa_tmpFileLocationChan a)
    as [Hdir Hloc].
  { subst a1. unfold handleDownload. rewrite fmap_cons. unfold dl_id in Hb.
    destruct Hr as [[c ->]|[sig ->]]; cbn [received recv_loop]; unfold ProcessResponse, finalize;
      cbn [toPbResponse fromPbResponse chunk_response signature_response fr_FileMetadata
           fr_FileChunk fr_FileSignature]; by rewrite Hb. }
  unfold handleDownload. unfold responses. rewrite accumulate_file.
  cbn [fa_disk]. unfold announced. cbn [fa_tmpFileLocationChan]. rewrite Hloc, fmap_app.
  unfold tmp_path. rewrite Hdir. split; [by rewrite lookup_insert_eq, Hc|done].
Qed.
End Downloads.

(** ** Witness *)

Definition demo_downloads : list download :=
  [MkDownload demo_request demo_file "hello";
   MkDownload (MkFileDownloaderRequest "drive" "f2" "/a/c.txt")
     (MkFileOs (Ok (MkFileInfo 2 false true)) None (Ok "ok") None [("ok", Some EOF)]) "ok"].

Lemma demo_downloads_readable :
  Forall (λ d, readable (E := demo_transfer) demo_scanner (dl_wire d) (dl_os d) (dl_content d))
    demo_downloads.
Proof.
  apply Forall_cons; split; [|apply Forall_singleton].
  - split; [done|eexists|done|by eexists|done|by exists ["hel"; ""], "lo"].
    split; [done|]. repeat split; vm_compute; discriminate.
  - split; [done|eexists|done|by eexists|done|by exists [], "ok"].
    split; [done|]. repeat split; vm_compute; discriminate.
Qed.

Lemma downloads_in_sequence_witness : ∃ chan,
  FileDownloaderScannerWorker_Run (E := demo_transfer) demo_scanner
    (scanner_signals demo_downloads) [] = Some (chan, None) ∧
  let a' := (FileDownloaderMasterWorker_Run (E := demo_transfer) demo_accumulator
               (master_signals demo_downloads chan)).1 in
  announced a' = [("drive", "f1", "/tmp/chat/f1.tmp"); ("drive", "f2", "/tmp/chat/f2.tmp")].
Proof.
  destruct (downloads_in_sequence (E := demo_transfer) demo_scanner demo_downloads
    demo_accumulator demo_downloads_readable) as (chan & Hr & _ & _ & Ha & _).
  - discriminate.
  - apply (bool_decide_unpack _). by vm_compute.
  - by repeat constructor.
  - exists chan. split; [exact Hr|exact Ha].
Defined.
