(* ===== verification/Exchange.v ===== *)
(** * Exchange: transfers under every interleaving

    The master's worker, the stream it opens, the goroutines of
    [FileDownloaderServer.Download] at its other end, the scanner's workers that share one
    channel of requests and one of responses, and the channel of announcements, as a
    transition system: a step is one operation on a channel or on the stream.  One
    iteration of [FileDownloaderMasterWorker.Run] is [ds_open], a [ds_recv] for each
    response it processes and [ds_close]; [ds_accept] and [ds_reject] are the receiving
    goroutine, [ds_stream] the sending one; an iteration of
    [FileDownloaderScannerWorker.Run] is [ds_take], the [ds_put] steps and [ds_end];
    [ds_consume] is the receiver of the announcements.  There is no cancellation and no
    I/O error on the master; the sending goroutine of a rejected request is gone before the
    next stream opens. *)

From Stdlib Require Import Ascii String.
From S2P Require Import Prelude Errors Env Store Text Domain Mime Path Transfer Downloads.

Section Exchange.
Context {E : TransferEnv}.
Variable s : FileDownloaderScannerWorker.
(** The buffers of the scanner's two channels and of the master's announcements. *)
Variables cap lcap : nat.

Inductive worker_phase := Waiting | Sending (rest : list FileDownloaderResponse).

(** The request of a stream: on its way, passed on to the workers, or invalid. *)
Inductive request_phase := ReqSent | Accepted | Rejected (err : error).

(** A stream: its file, its request, whether its sending goroutine runs, the responses
    on the wire and those the master has processed. *)
Record stream := MkStream {
  st_file : download;
  st_phase : request_phase;
  st_sending : bool;
  st_wire : list pbResponse;
  st_got : list pbResponse;
}.

Record download_system := MkDownloadSystem {
  ds_pending : list download;
  ds_current : option stream;
  ds_requests : list download;
  ds_workers : list worker_phase;
  ds_chan : list FileDownloaderResponse;
  ds_acc : FileAccumulator;
  ds_taken : list TmpFileLocation;
  ds_done : list download;
}.

Definition set_chan (a : FileAccumulator) (l : list TmpFileLocation) : FileAccumulator :=
  MkFileAccumulator (fa_tempDir a) (fa_buffers a) (fa_hash a) l (fa_disk a).

(** The master's processing of one response of the wire. *)
Definition process_pb (a : FileAccumulator) (d : download) (pb : pbResponse)
  : FileAccumulator * option error :=
  ProcessResponse a fine (fdr_DriveID (dl_req d)) (dl_id d) (fromPbResponse pb).

Inductive ds_step : download_system → download_system → Prop :=
| ds_open d pend rq ws ch a tk dn :
    ds_step (MkDownloadSystem (d :: pend) None rq ws ch a tk dn)
            (MkDownloadSystem pend (Some (MkStream d ReqSent true [] [])) rq ws ch a tk dn)
| ds_accept pend d sd wi got rq ws ch a tk dn :
    validate_download (dl_wire d) = None → (length rq < cap)%nat →
    ds_step (MkDownloadSystem pend (Some (MkStream d ReqSent sd wi got)) rq ws ch a tk dn)
            (MkDownloadSystem pend (Some (MkStream d Accepted sd wi got)) (rq ++ [d]) ws ch a tk dn)
| ds_reject pend d sd wi got rq ws ch a tk dn err :
    validate_download (dl_wire d) = Some err →
    ds_step (MkDownloadSystem pend (Some (MkStream d ReqSent sd wi got)) rq ws ch a tk dn)
            (MkDownloadSystem pend (Some (MkStream d (Rejected err) false wi got)) rq ws ch a tk dn)
| ds_take pend cur d rq ws i ch a tk dn out err :
    ws !! i = Some Waiting → Process s no_cancel (dl_os d) (dl_wire d) = Some (out, err) →
    ds_step (MkDownloadSystem pend cur (d :: rq) ws ch a tk dn)
            (MkDownloadSystem pend cur rq (<[i := Sending out]> ws) ch a tk dn)
| ds_put pend cur rq ws i r rest ch a tk dn :
    (length ch < cap)%nat → ws !! i = Some (Sending (r :: rest)) →
    ds_step (MkDownloadSystem pend cur rq ws ch a tk dn)
            (MkDownloadSystem pend cur rq (<[i := Sending rest]> ws) (ch ++ [r]) a tk dn)
| ds_end pend cur rq ws i ch a tk dn :
    ws !! i = Some (Sending []) →
    ds_step (MkDownloadSystem pend cur rq ws ch a tk dn)
            (MkDownloadSystem pend cur rq (<[i := Waiting]> ws) ch a tk dn)
| ds_stream pend d ph wi wi' ended got rq ws r ch a tk dn :
    Download_sender [SenderResponse r None] wi = (wi', ended) →
    ds_step (MkDownloadSystem pend (Some (MkStream d ph true wi got)) rq ws (r :: ch) a tk dn)
            (MkDownloadSystem pend (Some (MkStream d ph (bool_decide (ended = None)) wi' got))
               rq ws ch a tk dn)
(** an announcement waits for room in its channel *)
| ds_recv pend d ph sd pb wi got rq ws ch a a' tk dn :
    process_pb a d pb = (a', None) → (length (fa_tmpFileLocationChan a') ≤ lcap)%nat →
    ds_step (MkDownloadSystem pend (Some (MkStream d ph sd (pb :: wi) got)) rq ws ch a tk dn)
            (MkDownloadSystem pend (Some (MkStream d ph sd wi (got ++ [pb]))) rq ws ch a' tk dn)
(** the master gives the transfer up when a response cannot be processed *)
| ds_fail pend d ph sd pb wi got rq ws ch a a' err tk dn :
    process_pb a d pb = (a', Some err) →
    ds_step (MkDownloadSystem pend (Some (MkStream d ph sd (pb :: wi) got)) rq ws ch a tk dn)
            (MkDownloadSystem pend None rq ws ch a' tk (dn ++ [d]))
(** the end of the stream: clean after its last response, or with the error of the request *)
| ds_close pend d ph got rq ws ch a tk dn :
    ph ≠ ReqSent →
    ds_step (MkDownloadSystem pend (Some (MkStream d ph false [] got)) rq ws ch a tk dn)
            (MkDownloadSystem pend None rq ws ch a tk (dn ++ [d]))
| ds_consume pend cur rq ws ch a l ls tk dn :
    fa_tmpFileLocationChan a = l :: ls →
    ds_step (MkDownloadSystem pend cur rq ws ch a tk dn)
            (MkDownloadSystem pend cur rq ws ch (set_chan a ls) (tk ++ [l]) dn).

Definition ds_start (n : nat) (files : list download) (a : FileAccumulator) : download_system :=
  MkDownloadSystem files None [] (replicate n Waiting) [] a [] [].

Inductive ds_run (x : download_system) : nat → download_system → Prop :=
| ds_run_start : ds_run x 0 x
| ds_run_step k y z : ds_run x k y → ds_step y z → ds_run x (S k) z.

(** The accumulator with all that was ever announced: what was taken, then the channel. *)
Definition ds_view (x : download_system) : FileAccumulator :=
  set_chan (ds_acc x) (ds_taken x ++ fa_tmpFileLocationChan (ds_acc x)).

(** ** Every execution ends *)

Definition file_answer (d : download) : list FileDownloaderResponse :=
  match Process s no_cancel (dl_os d) (dl_wire d) with Some (out, _) => out | None => [] end.

Definition phase_weight (w : worker_phase) : nat :=
  match w with Waiting => 0 | Sending rest => 1 + 4 * length rest end.
Definition file_weight (d : download) : nat := 4 * length (file_answer d).
Definition stream_weight (st : stream) : nat :=
  (match st_phase st with ReqSent => 4 + file_weight (st_file st) | _ => 1 end) +
  2 * length (st_wire st).

(** What is left to do: every step takes something from it. *)
Definition ds_weight (x : download_system) : nat :=
  sum_list_with (λ d, 5 + file_weight d)%nat (ds_pending x) +
  (match ds_current x with None => 0 | Some st => stream_weight st end) +
  sum_list_with (λ d, 2 + file_weight d)%nat (ds_requests x) +
  sum_list_with phase_weight (ds_workers x) + 3 * length (ds_chan x) +
  length (fa_tmpFileLocationChan (ds_acc x)).

Lemma sum_insert {A} (f : A → nat) l i x y : l !! i = Some x →
  (sum_list_with f (<[i := y]> l) + f x = sum_list_with f l + f y)%nat.
Proof.
  intros (l1 & l2 & -> & ->)%list_elem_of_split_length.
  rewrite insert_app_r_alt, Nat.sub_diag by done. cbn. rewrite !sum_list_with_app. cbn. lia.
Qed.

(** [ProcessResponse] adds at most one announcement and does not look at the others. *)
Lemma finalize_chan a id sha l : finalize (set_chan a l) id sha =
  (set_chan (finalize a id sha).1 l, (finalize a id sha).2).
Proof.
  unfold finalize. cbn [set_chan fa_buffers fa_hash]. destruct (fa_buffers a !! id); [|done].
  by destruct (negb _).
Qed.

Ltac no_announcement :=
  exists []; split; [by rewrite app_nil_r|]; split; [simpl; lia|]; intros l; by rewrite app_nil_r.

Lemma process_chan a d pb a' err : process_pb a d pb = (a', err) →
  ∃ added, fa_tmpFileLocationChan a' = fa_tmpFileLocationChan a ++ added ∧ (length added ≤ 1)%nat ∧
    ∀ l, process_pb (set_chan a l) d pb = (set_chan a' (l ++ added), err).
Proof.
  unfold process_pb, ProcessResponse. set (r := fromPbResponse pb). intros H.
  destruct (fr_FileMetadata r).
  { cbn [fine ac_Create] in *. simplify_eq. no_announcement. }
  destruct (fr_FileChunk r).
  { cbn [set_chan fa_buffers fa_hash fine ac_Write] in *.
    destruct (fa_buffers a !! dl_id d), (fa_hash a !! dl_id d); injection H as <- <-; no_announcement. }
  destruct (fr_FileSignature r) as [sg|].
  2: { simplify_eq. no_announcement. }
  assert (fa_tmpFileLocationChan (finalize a (dl_id d) (fs_Sha256 sg)).1 = fa_tmpFileLocationChan a) as Hl
    by (unfold finalize; destruct (fa_buffers a !! _); [by destruct (negb _)|done]).
  setoid_rewrite finalize_chan. destruct (finalize a (dl_id d) (fs_Sha256 sg)) as [a1 [[p m]|e]];
    cbn [fst snd fine ac_ctx] in *; simplify_eq; cbn.
  - exists [MkTmpFileLocation (fdr_DriveID (dl_req d)) (dl_id d) p m]. rewrite Hl.
    split; [done|]. split; [simpl; lia|done].
  - exists []. split; [by rewrite Hl, app_nil_r|]. split; [simpl; lia|]. intros l. by rewrite app_nil_r.
Qed.

Lemma ds_step_weight x y : ds_step x y → (ds_weight y < ds_weight x)%nat.
Proof.
  unfold ds_weight, stream_weight.
  destruct 1 as [| | |pend cur d rq ws i ch a tk dn out err Hi Hp|pend cur rq ws i r rest ch a tk dn _ Hi
                |pend cur rq ws i ch a tk dn Hi|pend d ph wi wi' ended got rq ws r ch a tk dn Hs
                |pend d ph sd pb wi got rq ws ch a a' tk dn Hp|pend d ph sd pb wi got rq ws ch a a' err tk dn Hp
                |pend d ph got rq ws ch a tk dn Hph|pend cur rq ws ch a l ls tk dn Hl];
    cbn [ds_pending ds_current ds_requests ds_workers ds_chan ds_acc st_phase st_file st_wire];
    rewrite ?sum_list_with_app, ?length_app; cbn [sum_list_with length]; try lia.
  - pose proof (sum_insert phase_weight _ _ _ (Sending out) Hi) as Hw. cbn [phase_weight] in Hw.
    assert (file_weight d = 4 * length out)%nat by (unfold file_weight, file_answer; by rewrite Hp). lia.
  - pose proof (sum_insert phase_weight _ _ _ (Sending rest) Hi) as Hw.
    cbn [phase_weight length] in Hw. lia.
  - pose proof (sum_insert phase_weight _ _ _ Waiting Hi) as Hw. cbn [phase_weight length] in Hw. lia.
  - assert (length wi' = S (length wi)).
    { cbn [Download_sender] in Hs. destruct (fr_FileSignature r), (fr_FileError r); simplify_eq;
        rewrite length_app; simpl; lia. }
    destruct ph; lia.
  - destruct (process_chan _ _ _ _ _ Hp) as (added & -> & Hl & _). rewrite length_app. destruct ph; lia.
  - destruct (process_chan _ _ _ _ _ Hp) as (added & -> & Hl & _). rewrite length_app. destruct ph; lia.
  - destruct ph; lia.
  - cbn [set_chan fa_tmpFileLocationChan]. rewrite Hl. simpl. lia.
Qed.

(** ** One file at a time *)

Definition quiet (w : worker_phase) : Prop := w = Waiting ∨ w = Sending [].

(** Whether the scanner can read the file. *)
Definition served (d : download) : bool :=
  match Process s no_cancel (dl_os d) (dl_wire d) with Some (_, None) => true | _ => false end.

(** A file is readable, or refused for a reason the worker reports. *)
Definition file_ok (d : download) : Prop :=
  readable s (dl_wire d) (dl_os d) (dl_content d) ∨ refused s (dl_wire d) (dl_os d).

Lemma file_ok_answer d : file_ok d →
  (served d = true ∧ answered d (file_answer d)) ∨
  (served d = false ∧ ∃ msg code, file_answer d = [error_response msg code]).
Proof.
  unfold served, file_answer. intros [Hr|Hr].
  - left. destruct (Process_readable _ _ _ _ Hr) as (raw & size & chunks & -> & Hc).
    split; [done|]. exists raw, size, chunks. split; [by unfold responses; rewrite Hc|done].
  - right. destruct (Process_refuses _ _ _ Hr) as (msg & code & err & -> & _). eauto.
Qed.

Lemma file_ok_Process d : file_ok d →
  ∃ out err, Process s no_cancel (dl_os d) (dl_wire d) = Some (out, err).
Proof.
  intros [Hr|Hr].
  - destruct (Process_readable _ _ _ _ Hr) as (? & ? & ? & -> & _). eauto.
  - destruct (Process_refuses _ _ _ Hr) as (? & ? & ? & -> & _). eauto.
Qed.

(** Only the last response of a file ends its stream. *)
Lemma terminal_last d got r rest : file_ok d → file_answer d = got ++ r :: rest →
  terminal r = bool_decide (rest = []).
Proof.
  intros Hd He. destruct (file_ok_answer d Hd) as [[_ (raw & size & chunks & Ha & _)]|(_ & msg & code & Ha)];
    rewrite Ha in He; clear Ha.
  - unfold responses in He. destruct got as [|g got].
    { injection He as <- <-. symmetry. apply bool_decide_eq_false.
      by destruct (chunk_response <$> chunks). }
    injection He as _ He. revert He. generalize (hex_encode (sha256_Sum (str_concat chunks))).
    intros sig. revert got. induction chunks as [|c chunks IH]; intros got He.
    + destruct got as [|? [|? ?]]; [by injection He as <- <-|done|done].
    + rewrite fmap_cons in He. destruct got as [|g' got]; [|injection He as _ He; by eapply IH].
      injection He as <- <-. symmetry. apply bool_decide_eq_false. by destruct (chunk_response <$> chunks).
  - destruct got as [|? [|? ?]]; [by injection He as <- <-|done|done].
Qed.

(** One worker holds [rest], the others nothing. *)
Definition holding (ws : list worker_phase) (rest : list FileDownloaderResponse) : Prop :=
  (rest = [] ∧ ∀ j w, ws !! j = Some w → quiet w) ∨
  (∃ i, ws !! i = Some (Sending rest) ∧ ∀ j w, j ≠ i → ws !! j = Some w → quiet w).

Lemma holding_idle n : holding (replicate n Waiting) [].
Proof. left. split; [done|]. intros j w [-> _]%lookup_replicate_1. by left. Qed.

Lemma quiet_insert (ws : list worker_phase) i w : ∀ j w',
  j ≠ i → <[i := w]> ws !! j = Some w' → ws !! j = Some w'.
Proof. intros j w' Hj. by rewrite list_lookup_insert_ne. Qed.

Lemma holding_take ws i out : holding ws [] → ws !! i = Some Waiting →
  holding (<[i := Sending out]> ws) out.
Proof.
  intros Hh Hi. right. exists i. split; [apply list_lookup_insert_eq; by eapply lookup_lt_Some|].
  intros j w Hj Hw%quiet_insert; [|done]. destruct Hh as [[_ Hq]|(k & Hk & Hq)]; [by eapply Hq|].
  destruct (decide (j = k)) as [->|]; [|by eapply Hq]. rewrite Hw in Hk. simplify_eq. by right.
Qed.

Lemma holding_put ws i r rest held : holding ws held → ws !! i = Some (Sending (r :: rest)) →
  held = r :: rest ∧ holding (<[i := Sending rest]> ws) rest.
Proof.
  intros Hh Hi. destruct Hh as [[_ Hq]|(k & Hk & Hq)].
  { destruct (Hq _ _ Hi); simplify_eq. }
  destruct (decide (i = k)) as [->|Hik]; [|by destruct (Hq _ _ Hik Hi); simplify_eq].
  rewrite Hk in Hi. simplify_eq. split; [done|]. right. exists k.
  split; [apply list_lookup_insert_eq; by eapply lookup_lt_Some|].
  intros j w Hj Hw%quiet_insert; [by eapply Hq|done].
Qed.

Lemma holding_end ws i held : holding ws held → ws !! i = Some (Sending []) →
  holding (<[i := Waiting]> ws) held.
Proof.
  intros Hh Hi.
  assert (∀ P : nat → Prop, (∀ j w, P j → ws !! j = Some w → quiet w) →
    ∀ j w, P j → <[i := Waiting]> ws !! j = Some w → quiet w) as Hins.
  { intros P HP j w Hj Hw. destruct (decide (j = i)) as [->|Hne].
    - rewrite list_lookup_insert_eq in Hw by (by eapply lookup_lt_Some). simplify_eq. by left.
    - apply quiet_insert in Hw; eauto. }
  destruct Hh as [[-> Hq]|(k & Hk & Hq)].
  { left. split; [done|]. intros j w. apply (Hins (λ _, True)); eauto. }
  destruct (decide (i = k)) as [->|Hik].
  - rewrite Hi in Hk. simplify_eq. left. split; [done|]. intros j w.
    apply (Hins (λ _, True)); [|done]. intros j' w' _ Hw'. destruct (decide (j' = k)) as [->|];
      [|eauto]. rewrite Hi in Hw'. simplify_eq. by right.
  - right. exists k. rewrite list_lookup_insert_ne by done. split; [done|]. apply Hins. eauto.
Qed.

Lemma holding_some ws : holding ws [] → (0 < length ws)%nat →
  ∃ i, ws !! i = Some Waiting ∨ ws !! i = Some (Sending []).
Proof.
  intros Hh [w Hw]%lookup_lt_is_Some_2. destruct Hh as [[_ Hq]|(i & Hi & _)]; [|by exists i; right].
  exists 0%nat. destruct (Hq _ _ Hw) as [->| ->]; auto.
Qed.

(** ** Processing a prefix *)

(** The first responses of a stream, as long as none is an error. *)
Fixpoint recv_steps (a : FileAccumulator) (d : download) (pbs : list pbResponse)
  : option FileAccumulator :=
  match pbs with
  | [] => Some a
  | pb :: pbs => match process_pb a d pb with (a, None) => recv_steps a d pbs | _ => None end
  end.

Lemma recv_steps_app l1 l2 d : ∀ a, recv_steps a d (l1 ++ l2) = recv_steps a d l1 ≫= λ a, recv_steps a d l2.
Proof.
  induction l1 as [|pb l1 IH]; intros a; [done|]. cbn [app recv_steps].
  destruct (process_pb a d pb) as [a' [e|]]; [done|apply IH].
Qed.

(** It is what [handleDownload] does. *)
Lemma recv_steps_handle a d out a' : recv_steps a d (toPbResponse <$> out) = Some a' →
  handleDownload a (dl_req d) None (λ _, None) (received <$> out) = a'.
Proof.
  unfold handleDownload. revert a. induction out as [|r out IH]; intros a H; [by injection H|].
  change (recv_steps a d (toPbResponse r :: (toPbResponse <$> out)) = Some a') in H. rewrite fmap_cons.
  cbn [recv_steps] in H.
  destruct (process_pb a d (toPbResponse r)) as [a1 [e|]] eqn:Hp; [done|].
  unfold received at 1. cbn [recv_loop]. unfold process_pb, dl_id in Hp. rewrite Hp. by apply IH.
Qed.

Lemma steps_chunks chunks d : ∀ a b h,
  fa_buffers a !! dl_id d = Some b → fa_hash a !! dl_id d = Some h →
  ∃ a', recv_steps a d (toPbResponse <$> (chunk_response <$> chunks)) = Some a' ∧
    fa_buffers a' = fa_buffers a ∧ fa_hash a' = <[dl_id d := h +:+ str_concat chunks]> (fa_hash a).
Proof.
  induction chunks as [|c chunks IH]; intros a b h Hb Hh.
  { exists a. simpl. by rewrite str_app_nil_r, insert_id. }
  rewrite !fmap_cons. cbn [recv_steps]. unfold process_pb at 1, ProcessResponse.
  cbn [toPbResponse fromPbResponse chunk_response fr_FileMetadata fr_FileChunk fc_Chunk].
  rewrite Hb, Hh. cbn [fine ac_Write].
  match goal with |- context [recv_steps ?x d] => set (a1 := x) end.
  destruct (IH a1 b (h +:+ c)) as (a' & H1 & H2 & H3); [done|simpl; by rewrite lookup_insert_eq|].
  exists a'. rewrite H2, H3. subst a1. cbn in *. split_and!; [done|done|]. by rewrite insert_insert_eq, str_app_assoc.
Qed.

(** No response of a file is an error for the master. *)
Lemma steps_file a d : file_ok d → is_Some (recv_steps a d (toPbResponse <$> file_answer d)).
Proof.
  intros Hd. destruct (file_ok_answer d Hd) as [[_ (raw & size & chunks & -> & _)]|(_ & msg & code & ->)];
    [|by eexists].
  unfold responses. rewrite fmap_cons, fmap_app. cbn [recv_steps]. unfold process_pb at 1.
  rewrite wire_metadata. unfold ProcessResponse. cbn [metadata_response fr_FileMetadata fine ac_Create].
  match goal with |- context [recv_steps ?x d] => set (a1 := x) end. rewrite recv_steps_app.
  destruct (steps_chunks chunks d a1 (MkFileBuffer (tmp_path a (dl_id d)) (ToMIME raw)) "")
    as (a' & -> & Hb & Hh); [simpl; by rewrite lookup_insert_eq..|].
  cbn [mbind option_bind recv_steps fmap list_fmap]. unfold process_pb. rewrite wire_signature.
  unfold ProcessResponse, finalize.
  cbn [signature_response fr_FileMetadata fr_FileChunk fr_FileSignature fs_Sha256].
  rewrite Hb, Hh. subst a1. cbn [fa_buffers fa_hash]. rewrite !lookup_insert_eq. cbn [default from_option id].
  change ("" +:+ str_concat chunks) with (str_concat chunks). rewrite String.eqb_refl. by eexists.
Qed.

Lemma steps_prefix a d pre post : file_ok d → pre ++ post = toPbResponse <$> file_answer d →
  is_Some (recv_steps a d pre).
Proof.
  intros Hd He. destruct (steps_file a d Hd) as [a' Ha]. rewrite <- He, recv_steps_app in Ha.
  destruct (recv_steps a d pre); [by eexists|done].
Qed.

(** A transfer touches its own temporary file and its own bookkeeping only. *)
Definition own_buffer (a : FileAccumulator) (d : download) : Prop :=
  ∀ b, fa_buffers a !! dl_id d = Some b → fb_Path b = tmp_path a (dl_id d).
Record only (d : download) (a a' : FileAccumulator) : Prop := {
  on_tempDir : fa_tempDir a' = fa_tempDir a;
  on_own : own_buffer a' d;
  on_disk p : p ≠ tmp_path a (dl_id d) → fa_disk a' !! p = fa_disk a !! p;
  on_buffers id : id ≠ dl_id d → fa_buffers a' !! id = fa_buffers a !! id;
}.

Lemma process_only a d pb a' err : own_buffer a d → process_pb a d pb = (a', err) → only d a a'.
Proof.
  intros Hown. unfold process_pb, ProcessResponse. set (r := fromPbResponse pb). intros H.
  assert (only d a a) as Hsame by done.
  destruct (fr_FileMetadata r).
  { cbn [fine ac_Create] in H. simplify_eq. split; cbn; [done| |intros; by rewrite lookup_insert_ne..].
    intros b. cbn. rewrite lookup_insert_eq. by intros [= <-]. }
  destruct (fr_FileChunk r).
  { cbn [fine ac_Write] in H. destruct (fa_buffers a !! dl_id d) as [b|] eqn:Hb; [|by simplify_eq].
    destruct (fa_hash a !! dl_id d); simplify_eq; [|done].
    pose proof (Hown _ Hb) as Hp. split; cbn; [done|done| |done].
    intros p Hne. unfold disk_append. rewrite lookup_insert_ne; [done|]. congruence. }
  destruct (fr_FileSignature r) as [sg|]; [|by simplify_eq].
  assert (∀ a1 (o : result error (string * MIME)) l, finalize a (dl_id d) (fs_Sha256 sg) = (a1, o) →
    only d a a1 ∧ only d a (set_chan a1 l)) as Hf.
  { intros a1 o l. unfold finalize. intros Hf.
    assert (a1 = MkFileAccumulator (fa_tempDir a) (delete (dl_id d) (fa_buffers a))
      (delete (dl_id d) (fa_hash a)) (fa_tmpFileLocationChan a) (fa_disk a)) as ->
      by (by repeat case_match; simplify_eq).
    split; split; try done; cbn; try (intros; by rewrite lookup_delete_ne);
      intros b; cbn; by rewrite lookup_delete_eq. }
  destruct (finalize a (dl_id d) (fs_Sha256 sg)) as [a1 [[p m]|e]] eqn:Ef; cbn [fine ac_ctx] in H;
    simplify_eq;
    [exact (proj2 (Hf a1 _ _ eq_refl))
    |exact (proj1 (Hf a' _ [] eq_refl))].
Qed.

Lemma recv_steps_only d pbs : ∀ a a', own_buffer a d → recv_steps a d pbs = Some a' → only d a a'.
Proof.
  induction pbs as [|pb pbs IH]; intros a a' Hown H; cbn [recv_steps] in H; [by simplify_eq|].
  destruct (process_pb a d pb) as [a1 [e|]] eqn:Hp; [done|].
  destruct (process_only _ _ _ _ _ Hown Hp) as [H1 H2 H3 H4].
  destruct (IH a1 a' H2 H) as [G1 G2 G3 G4].
  assert (tmp_path a1 (dl_id d) = tmp_path a (dl_id d)) as Hpath by (unfold tmp_path; by rewrite H1).
  split; [congruence|done| |].
  - intros p Hne. rewrite G3 by congruence. by apply H3.
  - intros id Hne. rewrite G4 by done. by apply H4.
Qed.

(** ** The invariant *)

(** The transfer in progress: its request is on its way, is waiting or was rejected, or
    its responses are on their way: processed, on the wire, on the channel, with a worker. *)
Definition in_progress (x : download_system) (st : stream) : Prop :=
  let d := st_file st in
  match st_phase st with
  | ReqSent => st_sending st = true ∧ st_wire st = [] ∧ st_got st = [] ∧ ds_requests x = [] ∧
      holding (ds_workers x) [] ∧ ds_chan x = []
  | Rejected _ => validate_download (dl_wire d) ≠ None ∧ st_sending st = false ∧ st_wire st = [] ∧
      st_got st = [] ∧ ds_requests x = [] ∧ holding (ds_workers x) [] ∧ ds_chan x = []
  | Accepted =>
      (st_sending st = true ∧ st_wire st = [] ∧ st_got st = [] ∧ ds_requests x = [d] ∧
         holding (ds_workers x) [] ∧ ds_chan x = []) ∨
      (ds_requests x = [] ∧ ∃ sent rest, holding (ds_workers x) rest ∧
         sent ++ ds_chan x ++ rest = file_answer d ∧
         st_got st ++ st_wire st = toPbResponse <$> sent ∧
         st_sending st = negb (bool_decide (ds_chan x ++ rest = [])))
  end.

Definition at_hand (x : download_system) : list download :=
  match ds_current x with Some st => [st_file st] | None => [] end.

Record ds_inv (files : list download) (a : FileAccumulator) (x : download_system) : Prop := {
  di_files : ds_done x ++ at_hand x ++ ds_pending x = files;
  di_acc : ∃ acc, fetched (List.filter served (ds_done x)) a acc ∧
    match ds_current x with
    | None => ds_view x = acc
    | Some st => recv_steps acc (st_file st) (st_got st) = Some (ds_view x)
    end;
  di_current : match ds_current x with
               | None => ds_requests x = [] ∧ holding (ds_workers x) [] ∧ ds_chan x = []
               | Some st => in_progress x st
               end;
}.

Lemma set_chan_self a : set_chan a (fa_tmpFileLocationChan a) = a.
Proof. by destruct a. Qed.

(** A step of the master's worker seen from the accumulator with all announcements. *)
Lemma process_view a tk d pb a' err : process_pb a d pb = (a', err) →
  process_pb (set_chan a (tk ++ fa_tmpFileLocationChan a)) d pb =
    (set_chan a' (tk ++ fa_tmpFileLocationChan a'), err).
Proof.
  intros (added & -> & _ & Hl)%process_chan. by rewrite Hl, app_assoc.
Qed.

Section Files.
Context (files : list download) (a : FileAccumulator).
Hypothesis files_ok : Forall file_ok files.
Hypothesis dir_ok : fa_tempDir a ≠ "".
Hypothesis ids_ok : NoDup (dl_id <$> files) ∧ Forall (λ d, valid_id (dl_id d)) files.

Lemma ds_inv_start n : ds_inv files a (ds_start n files a).
Proof.
  split; [done| |].
  - exists a. split; [apply fetched_nil|]. apply set_chan_self.
  - split_and!; [done|apply holding_idle|done].
Qed.

Lemma served_ids l : NoDup (dl_id <$> l) → NoDup (dl_id <$> List.filter served l).
Proof.
  induction l as [|d l IH]; [done|]. rewrite fmap_cons. intros [Hn Hl]%NoDup_cons.
  cbn [List.filter]. case_match; [|by apply IH]. rewrite fmap_cons. apply NoDup_cons.
  split; [|by apply IH]. intros (x & Hx & [Hin _]%elem_of_lfilter)%list_elem_of_fmap.
  apply Hn. rewrite Hx. by apply list_elem_of_fmap_2.
Qed.

(** The end of a transfer: a file that is served is fetched, one that is refused leaves
    the accumulator as it was. *)
Lemma transfer_over d acc acc' dn : file_ok d → NoDup (dl_id <$> dn ++ [d]) →
  Forall (λ d, valid_id (dl_id d)) (dn ++ [d]) → fetched (List.filter served dn) a acc →
  recv_steps acc d (toPbResponse <$> file_answer d) = Some acc' →
  fetched (List.filter served (dn ++ [d])) a acc'.
Proof.
  intros Hd Hnd%served_ids Hv Ha Hst.
  assert (Forall (λ d, valid_id (dl_id d)) (List.filter served (dn ++ [d]))) as Hv'.
  { rewrite Forall_forall in *. intros x [Hx _]%elem_of_lfilter. auto. }
  rewrite List.filter_app in *. cbn [List.filter] in *.
  destruct (file_ok_answer d Hd) as [[Hs Hans]|(Hs & msg & code & Herr)]; rewrite Hs in *.
  - apply (fetched_app _ _ a acc); [done..|]. rewrite <- (recv_steps_handle _ _ _ _ Hst).
    by apply fetched_one.
  - rewrite Herr in Hst. injection Hst as <-. by rewrite app_nil_r.
Qed.

Lemma rejected_not_served d : validate_download (dl_wire d) ≠ None → served d = false.
Proof. unfold served, Process. by destruct (validate_download (dl_wire d)). Qed.

Lemma done_ids dn d pend : dn ++ d :: pend = files →
  NoDup (dl_id <$> dn ++ [d]) ∧ Forall (λ d, valid_id (dl_id d)) (dn ++ [d]).
Proof.
  intros <-. destruct ids_ok as [Hnd Hv]. rewrite cons_middle, app_assoc in Hnd, Hv.
  rewrite fmap_app in Hnd. apply NoDup_app in Hnd as [Hnd _]. by apply Forall_app in Hv as [Hv _].
Qed.

(** The end of a stream. *)
Lemma ds_inv_close pend d ph got rq ws ch acc tk dn :
  ds_inv files a (MkDownloadSystem pend (Some (MkStream d ph false [] got)) rq ws ch acc tk dn) →
  ph ≠ ReqSent →
  ds_inv files a (MkDownloadSystem pend None rq ws ch acc tk (dn ++ [d])).
Proof.
  intros [Hf (acc0 & Hft & Hst) Hc] Hph. cbn in Hf, Hst, Hft, Hc.
  destruct (done_ids _ _ _ Hf) as [Hnd Hv].
  assert (file_ok d) as Hd by (rewrite Forall_forall in files_ok; apply files_ok; rewrite <- Hf; set_solver).
  split; cbn; [by rewrite <- app_assoc|..]; destruct ph as [| |err]; cbn in Hc;
    [done| | |done| |].
  - destruct Hc as [(? & _)|(-> & sent & rest & Hh & Hg & Hs & Hb)]; [done|].
    exists (ds_view (MkDownloadSystem pend None [] ws ch acc tk (dn ++ [d]))). split; [|done].
    symmetry in Hb. apply negb_false_iff, bool_decide_eq_true, app_eq_nil in Hb as [Hch Hr].
    subst ch rest. rewrite !app_nil_r in Hg. rewrite app_nil_r in Hs. subst sent. cbn in Hs. rewrite Hs in Hst.
    by eapply transfer_over.
  - destruct Hc as (Hrej & _ & _ & -> & _). cbn in Hst. injection Hst as ->. eexists.
    split; [|done]. rewrite List.filter_app. cbn [List.filter].
    by rewrite (rejected_not_served d Hrej), app_nil_r.
  - destruct Hc as [(? & _)|(-> & sent & rest & Hh & Hg & Hs & Hb)]; [done|].
    symmetry in Hb. apply negb_false_iff, bool_decide_eq_true, app_eq_nil in Hb as [Hch Hr].
    by subst ch rest.
  - by destruct Hc as (_ & _ & _ & _ & ? & ? & ?).
Qed.

(** A response processed; none is an error. *)
Lemma ds_inv_recv pend d ph sd pb wi got rq ws ch acc acc' err tk dn :
  ds_inv files a (MkDownloadSystem pend (Some (MkStream d ph sd (pb :: wi) got)) rq ws ch acc tk dn) →
  process_pb acc d pb = (acc', err) →
  err = None ∧
  ds_inv files a (MkDownloadSystem pend (Some (MkStream d ph sd wi (got ++ [pb]))) rq ws ch acc' tk dn).
Proof.
  intros [Hf (acc0 & Hft & Hst) Hc] Hp. cbn in Hf, Hst, Hft, Hc.
  assert (file_ok d) as Hd by (rewrite Forall_forall in files_ok; apply files_ok; rewrite <- Hf; set_solver).
  destruct ph as [| |e]; cbn in Hc.
  { by destruct Hc as (_ & ? & _). }
  2: { by destruct Hc as (_ & _ & ? & _). }
  destruct Hc as [(_ & ? & _)|(-> & sent & rest & Hh & Hg & Hs & Hb)]; [done|]. cbn in Hs, Hg, Hh, Hb.
  rewrite cons_middle, app_assoc in Hs.
  destruct (steps_prefix acc0 d (got ++ [pb]) (wi ++ (toPbResponse <$> (ch ++ rest))) Hd) as [acc1 H1].
  { rewrite app_assoc, Hs, <- fmap_app, <- Hg. done. }
  rewrite recv_steps_app, Hst in H1. cbn [mbind option_bind recv_steps] in H1.
  apply (process_view _ tk) in Hp. unfold ds_view in H1. cbn [ds_acc ds_taken] in H1. rewrite Hp in H1.
  destruct err; [done|]. split; [done|]. split; cbn; [done| |].
  - exists acc0. split; [done|]. rewrite recv_steps_app, Hst. cbn [mbind option_bind recv_steps].
    unfold ds_view. cbn [ds_acc ds_taken]. by rewrite Hp.
  - right. split; [done|]. exists sent, rest. by split_and!.
Qed.

Lemma ds_inv_stream pend d ph wi wi' ended got rq ws r ch acc tk dn :
  ds_inv files a (MkDownloadSystem pend (Some (MkStream d ph true wi got)) rq ws (r :: ch) acc tk dn) →
  Download_sender [SenderResponse r None] wi = (wi', ended) →
  ds_inv files a (MkDownloadSystem pend (Some (MkStream d ph (bool_decide (ended = None)) wi' got))
                    rq ws ch acc tk dn).
Proof.
  intros [Hf Ha Hc] Hs. cbn in Hf, Hc.
  assert (file_ok d) as Hd by (rewrite Forall_forall in files_ok; apply files_ok; rewrite <- Hf; set_solver).
  destruct ph as [| |e]; cbn in Hc.
  { by destruct Hc as (_ & _ & _ & _ & _ & ?). }
  2: { by destruct Hc as (_ & _ & _ & _ & _ & _ & ?). }
  destruct Hc as [(_ & _ & _ & _ & _ & ?)|(-> & sent & rest & Hh & Hg & Hw & Hb)]; [done|]. cbn in Hg, Hh, Hw, Hb.
  assert (wi' = wi ++ [toPbResponse r] ∧ bool_decide (ended = None) = negb (terminal r)) as [-> ->].
  { cbn [Download_sender] in Hs. unfold terminal.
    destruct (fr_FileSignature r), (fr_FileError r); simplify_eq; done. }
  split; [done|exact Ha|]. right. split; [done|]. exists (sent ++ [r]), rest. cbn.
  split_and!; [done|by rewrite <- app_assoc|by rewrite app_assoc, Hw, fmap_app|].
  f_equal. exact (terminal_last d sent r (ch ++ rest) Hd (eq_sym Hg)).
Qed.

(** The steps of the scanner's workers. *)
Lemma ds_inv_take pend cur d rq ws i ch acc tk dn out err :
  ds_inv files a (MkDownloadSystem pend cur (d :: rq) ws ch acc tk dn) →
  ws !! i = Some Waiting → Process s no_cancel (dl_os d) (dl_wire d) = Some (out, err) →
  ds_inv files a (MkDownloadSystem pend cur rq (<[i := Sending out]> ws) ch acc tk dn).
Proof.
  intros [Hf Ha Hc] Hi Hp. cbn in Hf, Hc. destruct cur as [[d' ph sd wi got]|]; [|by destruct Hc].
  split; [done|exact Ha|]. destruct ph as [| |e]; cbn in Hc |- *.
  { by destruct Hc as (_ & _ & _ & ? & _). }
  2: { by destruct Hc as (_ & _ & _ & _ & ? & _). }
  destruct Hc as [(-> & -> & -> & Hr & Hh & ->)|[? _]]; [|done]. injection Hr as -> ->.
  right. split; [done|]. exists [], out.
  assert (file_answer d' = out) as Hout by (unfold file_answer; by rewrite Hp).
  split_and!; [by apply holding_take|done|done|]. symmetry. apply negb_true_iff, bool_decide_eq_false.
  assert (file_ok d') as Hd by (rewrite Forall_forall in files_ok; apply files_ok; rewrite <- Hf; set_solver).
  destruct (file_ok_answer d' Hd) as [[_ (? & ? & ? & Hr & _)]|(_ & ? & ? & Hr)]; rewrite <- Hout, Hr; done.
Qed.

Lemma ds_inv_put pend cur rq ws i r rest ch acc tk dn :
  ds_inv files a (MkDownloadSystem pend cur rq ws ch acc tk dn) → ws !! i = Some (Sending (r :: rest)) →
  ds_inv files a (MkDownloadSystem pend cur rq (<[i := Sending rest]> ws) (ch ++ [r]) acc tk dn).
Proof.
  intros [Hf Ha Hc] Hi. cbn in Hf, Hc.
  assert (∀ held, holding ws held → held = r :: rest ∧ holding (<[i := Sending rest]> ws) rest) as Hput
    by (intros held Hh; by apply holding_put).
  destruct cur as [[d' ph sd wi got]|]; [|by destruct Hc as (_ & [? _]%Hput & _)].
  split; [done|exact Ha|]. destruct ph as [| |e]; cbn in Hc |- *.
  { by destruct Hc as (_ & _ & _ & _ & [? _]%Hput & _). }
  2: { by destruct Hc as (_ & _ & _ & _ & _ & [? _]%Hput & _). }
  destruct Hc as [(_ & _ & _ & _ & [? _]%Hput & _)|(-> & sent & held & [-> Hh]%Hput & Hg & Hw & Hb)]; [done|].
  right. split; [done|]. exists sent, rest. rewrite <- !app_assoc. by split_and!.
Qed.

Lemma ds_inv_end pend cur rq ws i ch acc tk dn :
  ds_inv files a (MkDownloadSystem pend cur rq ws ch acc tk dn) → ws !! i = Some (Sending []) →
  ds_inv files a (MkDownloadSystem pend cur rq (<[i := Waiting]> ws) ch acc tk dn).
Proof.
  intros [Hf Ha Hc] Hi. split; [done|exact Ha|]. cbn in Hc |- *.
  destruct cur as [[d' ph sd wi got]|]; [|naive_solver eauto using holding_end].
  destruct ph as [| |e]; cbn in Hc |- *; [naive_solver eauto using holding_end| |naive_solver eauto using holding_end].
  destruct Hc as [(? & ? & ? & ? & ? & ?)|(? & sent & held & ? & ?)]; [left|right];
    [by eauto 10 using holding_end|]. split; [done|]. exists sent, held. eauto using holding_end.
Qed.

Lemma ds_inv_step x y : ds_inv files a x → ds_step x y → ds_inv files a y.
Proof.
  intros HI Hs.
  destruct Hs as [d pend rq ws ch acc tk dn|pend d sd wi got rq ws ch acc tk dn Hv Hl
                 |pend d sd wi got rq ws ch acc tk dn err Hv| | | | | |pend d ph sd pb wi got rq ws ch acc acc' err tk dn Hp
                 | |pend cur rq ws ch acc l ls tk dn Hl];
    [| | |by eapply ds_inv_take|by eapply ds_inv_put|by eapply ds_inv_end|by eapply ds_inv_stream
    |by eapply ds_inv_recv| |by eapply ds_inv_close|].
  - destruct HI as [Hf (acc0 & Hft & Hst) Hc]. cbn in Hc. destruct Hc as (-> & Hh & ->).
    split; [done| |by split_and!].
    exists acc0. split; [done|]. cbn in *. f_equal. by rewrite <- Hst.
  - destruct HI as [Hf Ha Hc]. cbn in Hc. destruct Hc as (-> & -> & -> & -> & Hh & ->). split; [done|exact Ha|]. left. by split_and!.
  - destruct HI as [Hf Ha Hc]. cbn in Hc. destruct Hc as (Hsd & -> & -> & -> & Hh & ->). split; [done|exact Ha|].
    split_and!; cbn; [congruence|done..].
  - by destruct (ds_inv_recv _ _ _ _ _ _ _ _ _ _ _ _ _ _ _ HI Hp).
  - destruct HI as [Hf (acc0 & Hft & Hst) Hc]. split; [done| |by destruct cur as [[d [| |] ? ? ?]|]].
    exists acc0. split; [done|].
    assert (ds_view (MkDownloadSystem pend cur rq ws ch (set_chan acc ls) (tk ++ [l]) dn) =
      ds_view (MkDownloadSystem pend cur rq ws ch acc tk dn)) as ->; [|done].
    unfold ds_view, set_chan. cbn. by rewrite Hl, <- app_assoc.
Qed.

Lemma ds_weight_start n : ds_weight (ds_start n files a) =
  (sum_list_with (λ d, 5 + 4 * length (file_answer d)) files + length (fa_tmpFileLocationChan a))%nat.
Proof.
  unfold ds_weight. cbn. assert (sum_list_with phase_weight (replicate n Waiting) = 0)%nat as ->;
    [by induction n|]. unfold file_weight. lia.
Qed.

Lemma ds_inv_run n k x : ds_run (ds_start n files a) k x →
  ds_inv files a x ∧ (k + ds_weight x ≤ ds_weight (ds_start n files a))%nat ∧
  length (ds_workers x) = n.
Proof.
  induction 1 as [|k y z _ (IH1 & IH2 & IH3) Hs].
  { split_and!; [apply ds_inv_start|lia|apply length_replicate]. }
  split_and!; [by eapply ds_inv_step|apply ds_step_weight in Hs; lia|].
  destruct Hs; cbn in *; rewrite ?length_insert; done.
Qed.

(** The master can process the next response, or an announcement has to be taken first. *)
Lemma recv_progress pend d ph sd pb wi got rq ws ch acc tk dn : (0 < lcap)%nat →
  ∃ y, ds_step (MkDownloadSystem pend (Some (MkStream d ph sd (pb :: wi) got)) rq ws ch acc tk dn) y.
Proof.
  intros Hl. destruct (process_pb acc d pb) as [acc' [e|]] eqn:Hp; [eexists; by eapply ds_fail|].
  destruct (decide (length (fa_tmpFileLocationChan acc') ≤ lcap)%nat); [eexists; by eapply ds_recv|].
  destruct (process_chan _ _ _ _ _ Hp) as (added & He & Ha & _). rewrite He, length_app in n.
  destruct (fa_tmpFileLocationChan acc) as [|l ls] eqn:Hc; [simpl in n; lia|]. eexists. by eapply ds_consume.
Qed.

(** Nothing blocks: until every file has been handled, some step is possible. *)
Lemma ds_progress x : (0 < cap)%nat → (0 < lcap)%nat → (0 < length (ds_workers x))%nat →
  ds_inv files a x → (ds_done x = files ∧ ds_current x = None) ∨ ∃ y, ds_step x y.
Proof.
  intros Hcap Hlcap Hn [Hf _ Hc]. destruct x as [pend cur rq ws ch acc tk dn].
  cbn [ds_pending ds_current ds_requests ds_workers ds_chan ds_acc ds_done at_hand] in *.
  destruct cur as [[d ph sd wi got]|].
  2: { destruct pend as [|d pend]; [left; by rewrite app_nil_r in Hf|right; eexists; apply ds_open]. }
  right. cbn in Hf, Hc.
  assert (file_ok d) as Hd by (rewrite Forall_forall in files_ok; apply files_ok; rewrite <- Hf; set_solver).
  destruct ph as [| |e]; cbn in Hc.
  - destruct Hc as (_ & _ & _ & -> & _). destruct (validate_download (dl_wire d)) eqn:Hv;
      [eexists; by eapply ds_reject|eexists; by eapply ds_accept].
  - destruct Hc as [(_ & _ & _ & -> & Hh & _)|(-> & sent & rest & Hh & Hg & Hw & Hb)].
    + destruct (holding_some ws Hh Hn) as [i [Hi|Hi]]; [|eexists; by eapply ds_end].
      destruct (file_ok_Process d Hd) as (out & err & Hp). eexists. by eapply ds_take.
    + destruct wi as [|pb wi]; [|by apply recv_progress].
      destruct sd; [|eexists; by apply ds_close].
      destruct ch as [|r ch].
      * destruct rest as [|r rest]; [done|]. destruct Hh as [[? _]|(i & Hi & _)]; [done|].
        eexists. by eapply ds_put.
      * destruct (Download_sender [SenderResponse r None] []) as [wi' ended] eqn:Hs.
        eexists. by eapply ds_stream.
  - destruct Hc as (_ & -> & -> & _). eexists. by apply ds_close.
Qed.

(** What a moment of an execution looks like. *)
Lemma ds_moment x : ds_inv files a x →
  ∃ acc, fetched (List.filter served (ds_done x)) a acc ∧
    match ds_current x with
    | None => ds_view x = acc
    | Some st =>
        recv_steps acc (st_file st) (st_got st) = Some (ds_view x) ∧
        (∃ rest, st_got st ++ rest = toPbResponse <$> file_answer (st_file st)) ∧
        (fa_buffers a = ∅ → only (st_file st) acc (ds_view x))
    end.
Proof.
  intros [Hf (acc & Hft & Hst) Hc]. exists acc. split; [done|].
  destruct (ds_current x) as [st|]; [|done]. split_and!; [done| |].
  - unfold in_progress in Hc. destruct st as [d [| |e] sd wi got]; cbn in *;
      [destruct Hc as (_ & _ & -> & _); by eexists| |destruct Hc as (_ & _ & _ & -> & _); by eexists].
    destruct Hc as [(_ & _ & -> & _)|(_ & sent & rest & _ & Hg & Hw & _)]; [by eexists|].
    exists (wi ++ (toPbResponse <$> (ds_chan x ++ rest))). by rewrite app_assoc, Hw, <- fmap_app, Hg.
  - intros He. apply (recv_steps_only _ (st_got st)); [|done]. intros b Hb.
    assert (is_Some (fa_buffers acc !! dl_id (st_file st))) as [[v Hv] _]%(ft_open _ _ _ Hft) by by eexists.
    by rewrite He, lookup_empty in Hv.
Qed.
End Files.

(** C10. Transfers under every interleaving.  Let the files of the queue be readable, or
    refused for a reason the scanner reports (an empty file is neither), or their request
    invalid, with any number of scanner workers sharing the two bounded channels, a
    bounded channel of announcements, no cancellation, no I/O error on the master, its
    accumulator idle at the start, distinct well-formed identifiers, and the goroutines of
    a stream ended by an invalid request gone before the next stream is opened.  In
    every execution, at every moment, the files handled so far are a prefix of the queue,
    and those of them that could be read are on the master's disk byte for byte, each under
    its own path, announced once, in order and with its drive; the transfer in progress,
    if any, has processed the first responses of its file, in order, and touched no other
    file and no other bookkeeping; nothing else was touched.  Every execution ends within
    the number of steps the files require; nothing blocks before every file has been
    handled, as long as the announcements are taken; and a refused or rejected file
    disturbs no other. *)
Theorem downloads_interleaved files a n k x :
  Forall file_ok files → fa_tempDir a ≠ "" → fa_buffers a = ∅ → NoDup (dl_id <$> files) →
  Forall (λ d, valid_id (dl_id d)) files → (0 < cap)%nat → (0 < lcap)%nat → (0 < n)%nat →
  ds_run (ds_start n files a) k x →
  (∃ rest, ds_done x ++ rest = files) ∧
  (∃ acc, fetched (List.filter served (ds_done x)) a acc ∧
     match ds_current x with
     | None => ds_view x = acc
     | Some st =>
         recv_steps acc (st_file st) (st_got st) = Some (ds_view x) ∧
         (∃ rest, st_got st ++ rest = toPbResponse <$> file_answer (st_file st)) ∧
         only (st_file st) acc (ds_view x)
     end) ∧
  (k ≤ sum_list_with (λ d, 5 + 4 * length (file_answer d)) files + length (fa_tmpFileLocationChan a))%nat ∧
  ((∀ y, ¬ ds_step x y) → ds_done x = files ∧ ds_current x = None).
Proof.
  intros Hok Hdir He Hnd Hv Hcap Hlcap Hn Hr.
  destruct (ds_inv_run files a Hok Hdir (conj Hnd Hv) n k x Hr) as (Hi & Hk & Hw).
  split_and!; [by eexists; apply Hi| | |].
  - destruct (ds_moment files a x Hi) as (acc & Hft & Hm). exists acc. split; [done|].
    destruct (ds_current x); [|done]. destruct Hm as (? & ? & ?). auto.
  - rewrite ds_weight_start in Hk. lia.
  - intros Hstuck. destruct (ds_progress files a Hok Hdir (conj Hnd Hv) x Hcap Hlcap) as [?|[y Hy]];
      [lia|done|done|]. by destruct (Hstuck y).
Qed.

(** ** A schedule

    With one worker, the steps in an order that never has more than one response on
    the channel. *)
Definition ds_next (x : download_system) : option download_system :=
  let '(MkDownloadSystem pend cur rq ws ch a tk dn) := x in
  match fa_tmpFileLocationChan a with
  | l :: ls => Some (MkDownloadSystem pend cur rq ws ch (set_chan a ls) (tk ++ [l]) dn)
  | [] =>
  match cur with
  | None =>
      match ws, pend with
      | [Sending []], _ => Some (MkDownloadSystem pend cur rq [Waiting] ch a tk dn)
      | _, d :: pend => Some (MkDownloadSystem pend (Some (MkStream d ReqSent true [] [])) rq ws ch a tk dn)
      | _, [] => None
      end
  | Some (MkStream d ReqSent sd wi got) =>
      match validate_download (dl_wire d) with
      | Some err =>
          Some (MkDownloadSystem pend (Some (MkStream d (Rejected err) false wi got)) rq ws ch a tk dn)
      | None =>
          if decide (length rq < cap)%nat
          then Some (MkDownloadSystem pend (Some (MkStream d Accepted sd wi got)) (rq ++ [d]) ws ch a tk dn)
          else None
      end
  | Some (MkStream d ph sd (pb :: wi) got) =>
      match process_pb a d pb with
      | (a', None) =>
          if decide (length (fa_tmpFileLocationChan a') ≤ lcap)%nat
          then Some (MkDownloadSystem pend (Some (MkStream d ph sd wi (got ++ [pb]))) rq ws ch a' tk dn)
          else None
      | (a', Some _) => Some (MkDownloadSystem pend None rq ws ch a' tk (dn ++ [d]))
      end
  | Some (MkStream d ph false [] got) => Some (MkDownloadSystem pend None rq ws ch a tk (dn ++ [d]))
  | Some (MkStream d ph true [] got) =>
      match ch, ws, rq with
      | r :: ch, _, _ =>
          let '(wi, ended) := Download_sender [SenderResponse r None] [] in
          Some (MkDownloadSystem pend (Some (MkStream d ph (bool_decide (ended = None)) wi got)) rq ws ch a tk dn)
      | [], [Sending (r :: rest)], _ =>
          if decide (0 < cap)%nat then Some (MkDownloadSystem pend cur rq [Sending rest] [r] a tk dn) else None
      | [], [Waiting], d' :: rq =>
          '(out, _) ← Process s no_cancel (dl_os d') (dl_wire d');
          Some (MkDownloadSystem pend cur rq [Sending out] ch a tk dn)
      | [], [Sending []], _ => Some (MkDownloadSystem pend cur rq [Waiting] ch a tk dn)
      | _, _, _ => None
      end
  end
  end.

Lemma ds_next_step x y : ds_next x = Some y → ds_step x y.
Proof.
  destruct x as [pend cur rq ws ch a tk dn]. cbn [ds_next].
  destruct (fa_tmpFileLocationChan a) as [|l ls] eqn:Hl; [|intros [= <-]; by apply ds_consume].
  destruct cur as [[d ph sd wi got]|].
  - destruct ph as [| |e].
    + destruct (validate_download (dl_wire d)) eqn:Hv; [intros [= <-]; by apply ds_reject|].
      case_decide; [|done]. intros [= <-]. by apply ds_accept.
    + destruct wi as [|pb wi].
      * destruct sd; [|intros [= <-]; by apply ds_close].
        destruct ch as [|r ch].
        -- destruct ws as [|[|[|r rest]] [|]]; try done.
           ++ destruct rq as [|d' rq]; [done|].
              destruct (Process s no_cancel (dl_os d') (dl_wire d')) as [[out err]|] eqn:Hp; [|done].
              intros [= <-]. by apply (ds_take _ _ _ _ [Waiting] 0 _ _ _ _ out err).
           ++ intros [= <-]. by apply (ds_end _ _ _ [Sending []] 0).
           ++ case_decide; [|done]. intros [= <-]. by apply (ds_put _ _ _ [Sending (r :: rest)] 0 r rest []).
        -- destruct (Download_sender [SenderResponse r None] []) as [wi ended] eqn:Hs.
           intros [= <-]. by apply ds_stream.
      * destruct sd, (process_pb a d pb) as [a' [e|]] eqn:Hp; try case_decide; try done;
          intros [= <-]; first [by eapply ds_fail|by apply ds_recv].
    + destruct wi as [|pb wi].
      * destruct sd; [|intros [= <-]; by apply ds_close].
        destruct ch as [|r ch].
        -- destruct ws as [|[|[|r rest]] [|]]; try done.
           ++ destruct rq as [|d' rq]; [done|].
              destruct (Process s no_cancel (dl_os d') (dl_wire d')) as [[out err]|] eqn:Hp; [|done].
              intros [= <-]. by apply (ds_take _ _ _ _ [Waiting] 0 _ _ _ _ out err).
           ++ intros [= <-]. by apply (ds_end _ _ _ [Sending []] 0).
           ++ case_decide; [|done]. intros [= <-]. by apply (ds_put _ _ _ [Sending (r :: rest)] 0 r rest []).
        -- destruct (Download_sender [SenderResponse r None] []) as [wi ended] eqn:Hs.
           intros [= <-]. by apply ds_stream.
      * destruct sd, (process_pb a d pb) as [a' [e'|]] eqn:Hp; try case_decide; try done;
          intros [= <-]; first [by eapply ds_fail|by apply ds_recv].
  - destruct ws as [|[|[|r rest]] [|]]; destruct pend; try done; intros [= <-];
      try apply ds_open; by apply (ds_end _ _ _ [Sending []] 0).
Qed.

Fixpoint ds_exec (fuel : nat) (x : download_system) : nat * download_system :=
  match fuel, ds_next x with
  | S fuel, Some y => let '(k, z) := ds_exec fuel y in (S k, z)
  | _, _ => (0%nat, x)
  end.

Lemma ds_run_cons x y k z : ds_step x y → ds_run y k z → ds_run x (S k) z.
Proof.
  intros Hs. induction 1; eapply ds_run_step; eauto using ds_run_start.
Qed.

Lemma ds_exec_run fuel x : ds_run x (ds_exec fuel x).1 (ds_exec fuel x).2.
Proof.
  revert x. induction fuel as [|fuel IH]; intros x; cbn [ds_exec]; [apply ds_run_start|].
  destruct (ds_next x) as [y|] eqn:Hy; [|apply ds_run_start]. specialize (IH y).
  destruct (ds_exec fuel y) as [k z]. eapply ds_run_cons; [by apply ds_next_step|done].
Qed.
End Exchange.

(** ** Witness *)

#[local] Existing Instance demo_transfer.

(** Two readable files, and between them one that is too large and one whose request is
    invalid. *)
Definition mixed_downloads : list download :=
  match demo_downloads with
  | [d1; d2] =>
      [d1; MkDownload (MkFileDownloaderRequest "drive" "f3" "/a/big")
             (MkFileOs (Ok (MkFileInfo 2000000 false true)) None (Ok "hello") None []) "";
       MkDownload (MkFileDownloaderRequest "drive" "f4" "") demo_file ""; d2]
  | l => l
  end.

Lemma mixed_ok : Forall (file_ok demo_scanner) mixed_downloads.
Proof.
  pose proof demo_downloads_readable as H. inversion H as [|d1 l H1 H']; subst.
  inversion H' as [|d2 l2 H2 _]; subst. constructor; [by left|]. constructor; [|constructor].
  - right. right. right. eexists. split; [reflexivity|]. left. reflexivity.
  - right. left. discriminate.
  - constructor; [by left|constructor].
Qed.

Definition demo_exchange : nat * download_system :=
  ds_exec demo_scanner 1 1 80 (ds_start 1 mixed_downloads demo_accumulator).

Lemma demo_served : List.filter (served demo_scanner) (ds_done demo_exchange.2) = demo_downloads.
Proof. vm_refl. Qed.

Lemma demo_over : ds_current demo_exchange.2 = None.
Proof. vm_refl. Qed.

Lemma downloads_interleaved_witness :
  Forall (λ d, fa_disk (ds_view demo_exchange.2) !! tmp_path demo_accumulator (dl_id d) =
               Some (dl_content d)) demo_downloads.
Proof.
  destruct (downloads_interleaved demo_scanner 1 1 mixed_downloads demo_accumulator 1
    demo_exchange.1 demo_exchange.2) as (_ & (acc & Hf & Hm) & _).
  - exact mixed_ok.
  - discriminate.
  - reflexivity.
  - apply (bool_decide_unpack (NoDup _)). vm_compute. exact I.
  - by repeat constructor.
  - exact (le_n 1).
  - exact (le_n 1).
  - exact (le_n 1).
  - exact (ds_exec_run demo_scanner 1 1 80 _).
  - rewrite demo_over in Hm. rewrite demo_served in Hf. rewrite Hm.
    apply Forall_forall. exact (ft_content _ _ _ Hf).
Defined.
