(* ===== verification/Fetching.v ===== *)
(** * Fetching: from the queue to the master's disk

    The worker that drains the queue ([TaskQueue.FileTransferWorker_Run], against the
    interface of the repository) and the transfers it starts ([Exchange]), together. *)

From Stdlib Require Import Ascii String.
From S2P Require Import Prelude Errors Env Store Text Domain Mime Path TaskQueue Transfer Downloads Exchange.

Section Fetching.
Context {E : TransferEnv} {I : IFileTaskRepository} {Q : TaskQueueSpec I}.
Variable s : FileDownloaderScannerWorker.
Variables cap lcap : nat.

(** Task [t] is answered by download [d], whose file, if it could be read, is intact
    under the path of the task. *)
Definition task_fetched (a a' : FileAccumulator) (t : FileTask) (d : download) : Prop :=
  dl_req d = request_of t ∧
  (served s d = true → fa_disk a' !! tmp_path a (tk_ID t) = Some (dl_content d)).

Lemma requests_ids files (tasks : list FileTask) : dl_req <$> files = request_of <$> tasks →
  dl_id <$> files = tk_ID <$> tasks ∧ Forall2 (λ t d, dl_req d = request_of t) tasks files.
Proof.
  revert files. induction tasks as [|t tasks IH]; intros [|d files] H; try done.
  rewrite !fmap_cons in H. injection H as Hd H. destruct (IH files H) as [Hi HF].
  rewrite !fmap_cons, Hi. split; [|by constructor]. f_equal. unfold dl_id. by rewrite Hd.
Qed.

Lemma task_fetched_ids a a' tasks files : Forall2 (task_fetched a a') tasks files →
  dl_id <$> files = tk_ID <$> tasks.
Proof.
  induction 1 as [|t d ts ds [Htd _] _ IH]; [done|]. rewrite !fmap_cons, IH. f_equal.
  unfold dl_id. by rewrite Htd.
Qed.

(** Every queued file is fetched.  Let the queue be polled at least as often as it
    has tasks, and the transfers run under any interleaving of the scanner's workers until
    nothing is left to do.  Then the queue is empty, every queued file that could be read
    is on the master's disk, byte for byte under the path of its task, and announced once,
    in the order of the queue and with its drive; no other file is touched
    and no transfer is left open.  (The operations of the repository succeed.) *)
Theorem queued_files_are_fetched w k err w' requests files a n j x :
  queue_ok (fw_repo w) → 0 < fw_pendingFileBatchSize w → (length (queue (fw_repo w)) ≤ k)%nat →
  FileTransferWorker_Run (repeat PollTick k ++ [PollDone err]) w [] = (w', requests, Some err) →
  dl_req <$> files = requests → Forall (file_ok s) files → fa_tempDir a ≠ "" →
  NoDup (tk_ID <$> queue (fw_repo w)) → Forall valid_id (tk_ID <$> queue (fw_repo w)) →
  (0 < cap)%nat → (0 < lcap)%nat → (0 < n)%nat →
  ds_run s cap lcap (ds_start n files a) j x → (∀ y, ¬ ds_step s cap lcap x y) →
  queue (fw_repo w') = [] ∧
  Forall2 (task_fetched a (ds_acc x)) (queue (fw_repo w)) files ∧
  announced (ds_view x) = announced a ++
    ((λ d, (fdr_DriveID (dl_req d), dl_id d, tmp_path a (dl_id d))) <$> List.filter (served s) files) ∧
  (∀ p, (∀ t, t ∈ queue (fw_repo w) → p ≠ tmp_path a (tk_ID t)) →
     fa_disk (ds_acc x) !! p = fa_disk a !! p) ∧
  (∀ id, is_Some (fa_buffers (ds_acc x) !! id) → is_Some (fa_buffers a !! id)).
Proof.
  intros Hq Hb Hk HR Hreq Hok Hdir Hnd Hv Hcap Hlcap Hn Hrun Hstuck.
  destruct (Run_ticks k w [] Hq Hb Hk) as (w1 & HR1 & _ & Hq1).
  rewrite (Run_app _ _ _ _ _ _ HR1) in HR. injection HR as <- Hreqs. cbn [app] in Hreqs.
  rewrite <- Hreqs in Hreq. destruct (requests_ids files _ Hreq) as [Hids HF].
  rewrite <- Hids in Hnd, Hv.
  apply (Forall_fmap dl_id) in Hv. change (Forall (λ d, valid_id (dl_id d)) files) in Hv.
  destruct (ds_inv_run s cap lcap files a Hok Hdir (conj Hnd Hv) n j x Hrun) as (Hi & _ & Hw).
  destruct (ds_progress s cap lcap files a Hok Hdir (conj Hnd Hv) x Hcap Hlcap) as [[Hdone Hcur]|[y Hy]];
    [lia|done| |by destruct (Hstuck y)].
  destruct (di_acc _ _ _ _ Hi) as (acc & Ha & Hacc). rewrite Hcur in Hacc. rewrite Hdone in Ha. subst acc.
  split_and!; [done| |apply Ha| |].
  - apply Forall2_same_length_lookup_2; [by eapply Forall2_length|].
    intros i t d Ht Hd. pose proof (Forall2_lookup_lr _ _ _ _ _ _ HF Ht Hd) as Htd.
    split; [done|]. intros Hs. replace (tk_ID t) with (dl_id d) by (unfold dl_id; by rewrite Htd).
    apply (ft_content _ _ _ Ha). apply elem_of_lfilter. split; [by eapply list_elem_of_lookup_2|done].
  - intros p Hp. apply (ft_others _ _ _ Ha). intros d [Hd _]%elem_of_lfilter.
    destruct (Forall2_elem_of_r _ _ _ _ HF Hd) as (t & Ht & Htd).
    replace (dl_id d) with (tk_ID t) by (unfold dl_id; by rewrite Htd). by apply Hp.
  - intros id Ho. by apply (ft_open _ _ _ Ha).
Qed.
End Fetching.

(** ** A queue of three files *)

#[local] Existing Instances demo_transfer TaskRepositoryI.

Definition fetch_spec : TaskQueueSpec (TaskRepositoryI (B := MapBadger)) :=
  TaskRepository_spec.
Definition fetch_worker : @FileTransferWorker (TaskRepositoryI (B := MapBadger)) :=
  @NewFileTransferWorker (TaskRepositoryI (B := MapBadger)) demo_tasks 2.
Definition fetch_tasks : list FileTask := pending_tasks (db_map (tr_db demo_tasks)).
Definition hello (t : FileTask) : download := MkDownload (request_of t) demo_file "hello".
Definition fetch_files : list download := hello <$> fetch_tasks.
(** The transfers of files, one after the other. *)
Definition transfers (files : list download) : nat * download_system :=
  ds_exec demo_scanner 1 1 80 (ds_start 1 files demo_accumulator).
Definition fetch_end : nat * download_system := transfers fetch_files.

Lemma fetch_polled : ∃ w',
  FileTransferWorker_Run (repeat PollTick 3 ++ [PollDone Canceled]) fetch_worker [] =
    (w', dl_req <$> fetch_files, Some Canceled).
Proof.
  destruct (@Run_ticks _ fetch_spec 3 fetch_worker [] demo_tasks_ok eq_refl) as (w' & HR & _);
    [vm_compute; lia|].
  exists w'. rewrite (Run_app _ _ _ _ _ _ HR). unfold fetch_files. by rewrite <- list_fmap_compose.
Qed.

Lemma hello_ok t : tk_Path t ≠ "" → file_ok demo_scanner (hello t).
Proof.
  intros Hp%String.eqb_neq. left.
  split; [cbn; by rewrite Hp|eexists|done|by eexists|done|by exists ["hel"; ""], "lo"].
  split; [done|]. repeat split; vm_compute; discriminate.
Qed.

Lemma fetch_ok : Forall (file_ok demo_scanner) fetch_files.
Proof.
  unfold fetch_files. apply Forall_fmap. eapply Forall_impl; [|apply hello_ok].
  apply (bool_decide_unpack _). by vm_compute.
Qed.

Lemma fetch_ids : Forall valid_id (tk_ID <$> fetch_tasks).
Proof.
  assert (tk_ID <$> fetch_tasks = ["b"; "c"; "a"]) as -> by vm_refl. by repeat constructor.
Qed.

(** Nothing is left to do. *)
Definition at_rest (x : download_system) : bool :=
  match x with
  | MkDownloadSystem [] None [] [Waiting] [] a _ _ => bool_decide (fa_tmpFileLocationChan a = [])
  | _ => false
  end.

Lemma at_rest_stuck x y : at_rest x = true → ¬ ds_step demo_scanner 1 1 x y.
Proof.
  intros Hx. destruct x as [[|? ?] [?|] [|? ?] [|[|?] [|? ?]] [|? ?] a tk dn]; try done.
  apply bool_decide_eq_true in Hx. intros Hs.
  inversion Hs as [| | | |? ? ? ? [|i] ? ? ? ? ? ? _ Hi|? ? ? ? [|i] ? ? ? ? Hi| | | | |]; try done. congruence.
Qed.

Lemma queued_files_are_fetched_witness :
  Forall2 (task_fetched demo_scanner demo_accumulator (ds_acc fetch_end.2)) fetch_tasks fetch_files.
Proof.
  destruct fetch_polled as [w' HR].
  refine (proj1 (proj2 (@queued_files_are_fetched demo_transfer _ fetch_spec demo_scanner 1 1
    fetch_worker 3 Canceled w' _ fetch_files demo_accumulator 1 fetch_end.1 fetch_end.2
    demo_tasks_ok eq_refl _ HR eq_refl fetch_ok _ _ _ (le_n 1) (le_n 1) (le_n 1) _ (λ y, at_rest_stuck _ y _)))).
  - vm_compute. lia.
  - discriminate.
  - apply (bool_decide_unpack (NoDup _)). vm_compute. exact I.
  - exact fetch_ids.
  - exact (ds_exec_run demo_scanner 1 1 80 _).
  - vm_compute. reflexivity.
Defined.
