(* ===== verification/Monitoring.v ===== *)
(** * Monitoring: telemetry handlers, statistics and node health

    [observability/monitoring.go] (the live statistics of a node),
    [domain/monitoring.go] with [infrastructure/grpc/server/monitoring_server.go]
    (the master's view of the nodes), the telemetry handlers of [domain/event]
    and the workers that feed them: [telemetry.go], [channel_capacity.go],
    [health_monitoring.go] and [heartbeat.go] of [runtime/workers].  What the
    operating system reports about processes and memory, and the clock, are
    arguments; the handlers' warnings are outputs. *)

From Stdlib Require Import String.
From S2P Require Import Prelude Errors Env Domain.

(** ** [observability/monitoring.go] *)

Record RecentBatchInfo := MkRecentBatchInfo {
  rb_ID : string; rb_Path : string; rb_Mime : string; rb_Status : string; rb_Timestamp : string;
}.

Record MonitoringStats := MkMonitoringStats {
  mst_ScannerDiskSpeed : float64; mst_FilesFound : Z;
  mst_MasterNetSpeed : float64; mst_ProcessingCount : Z; mst_MaxCapacity : Z;
  mst_AllocMemMb : Z; mst_NumGC : Z; mst_CurrentQueueSize : Z;
  mst_RecentBatches : list RecentBatchInfo;
}.

Record MonitoringManager := MkMonitoringManager {
  mm_latestStats : MonitoringStats;
  mm_ScannerBytes : Z; mm_MasterBytes : Z; mm_FilesFound : Z; mm_SkippedItem : Z;
  mm_DirsScanned : Z; mm_ErrorCount : Z;
  mm_LastCheck : time;
}.

Definition NewMonitoringManager (now : time) : MonitoringManager :=
  MkMonitoringManager (MkMonitoringStats f64_zero 0 f64_zero 0 0 0 0 0 []) 0 0 0 0 0 0 now.

Definition with_stats (mm : MonitoringManager) (s : MonitoringStats) : MonitoringManager :=
  MkMonitoringManager s (mm_ScannerBytes mm) (mm_MasterBytes mm) (mm_FilesFound mm)
    (mm_SkippedItem mm) (mm_DirsScanned mm) (mm_ErrorCount mm) (mm_LastCheck mm).

Definition IncrErrorCount (mm : MonitoringManager) : MonitoringManager :=
  MkMonitoringManager (mm_latestStats mm) (mm_ScannerBytes mm) (mm_MasterBytes mm)
    (mm_FilesFound mm) (mm_SkippedItem mm) (mm_DirsScanned mm) (uint64 (mm_ErrorCount mm + 1))
    (mm_LastCheck mm).
Definition IncrDirsScanned (mm : MonitoringManager) : MonitoringManager :=
  MkMonitoringManager (mm_latestStats mm) (mm_ScannerBytes mm) (mm_MasterBytes mm)
    (mm_FilesFound mm) (mm_SkippedItem mm) (uint64 (mm_DirsScanned mm + 1)) (mm_ErrorCount mm)
    (mm_LastCheck mm).
Definition IncrSkippedItems (mm : MonitoringManager) : MonitoringManager :=
  MkMonitoringManager (mm_latestStats mm) (mm_ScannerBytes mm) (mm_MasterBytes mm)
    (mm_FilesFound mm) (uint64 (mm_SkippedItem mm + 1)) (mm_DirsScanned mm) (mm_ErrorCount mm)
    (mm_LastCheck mm).
Definition IncrFileFound (mm : MonitoringManager) : MonitoringManager :=
  MkMonitoringManager (mm_latestStats mm) (mm_ScannerBytes mm) (mm_MasterBytes mm)
    (uint64 (mm_FilesFound mm + 1)) (mm_SkippedItem mm) (mm_DirsScanned mm) (mm_ErrorCount mm)
    (mm_LastCheck mm).
Definition IncrScannerBytes (mm : MonitoringManager) (n : Z) : MonitoringManager :=
  MkMonitoringManager (mm_latestStats mm) (uint64 (mm_ScannerBytes mm + n)) (mm_MasterBytes mm)
    (mm_FilesFound mm) (mm_SkippedItem mm) (mm_DirsScanned mm) (mm_ErrorCount mm)
    (mm_LastCheck mm).
Definition IncrMasterBytes (mm : MonitoringManager) (n : Z) : MonitoringManager :=
  MkMonitoringManager (mm_latestStats mm) (mm_ScannerBytes mm) (uint64 (mm_MasterBytes mm + n))
    (mm_FilesFound mm) (mm_SkippedItem mm) (mm_DirsScanned mm) (mm_ErrorCount mm)
    (mm_LastCheck mm).

(** [clock] is the formatted time of day. *)
Definition AddBatch (mm : MonitoringManager) (clock id path mime status : string)
  : MonitoringManager :=
  let s := mm_latestStats mm in
  let batches := MkRecentBatchInfo id path mime status clock :: mst_RecentBatches s in
  let batches := if (20 <? length batches)%nat then take 20 batches else batches in
  with_stats mm (MkMonitoringStats (mst_ScannerDiskSpeed s) (mst_FilesFound s)
    (mst_MasterNetSpeed s) (mst_ProcessingCount s) (mst_MaxCapacity s) (mst_AllocMemMb s)
    (mst_NumGC s) (mst_CurrentQueueSize s) batches).

Definition speed (bytes : Z) (duration : float64) : float64 :=
  f64_div (f64_div (f64_div (f64_of_Z bytes) (f64_of_Z 1024)) (f64_of_Z 1024)) duration.

(** [alloc] and [numGC] are read from the Go runtime. *)
Definition updateStats (mm : MonitoringManager) (now : time) (alloc numGC : Z)
  : MonitoringManager :=
  let duration := duration_Seconds (now - mm_LastCheck mm) in
  let s := mm_latestStats mm in
  let positive := f64_ltb f64_zero duration in
  let disk := if positive then speed (mm_ScannerBytes mm) duration else mst_ScannerDiskSpeed s in
  let net := if positive then speed (mm_MasterBytes mm) duration else mst_MasterNetSpeed s in
  MkMonitoringManager
    (MkMonitoringStats disk (mm_FilesFound mm) net (mst_ProcessingCount s) (mst_MaxCapacity s)
       (alloc / 1024 / 1024) numGC (mst_CurrentQueueSize s) (mst_RecentBatches s))
    (if positive then 0 else mm_ScannerBytes mm) (if positive then 0 else mm_MasterBytes mm)
    (mm_FilesFound mm) (mm_SkippedItem mm) (mm_DirsScanned mm) (mm_ErrorCount mm) now.

Definition MergeExternalStats (mm : MonitoringManager) (stats : MonitoringStats)
  : MonitoringManager :=
  let s := mm_latestStats mm in
  with_stats mm (MkMonitoringStats (mst_ScannerDiskSpeed s) (mst_FilesFound s)
    (mst_MasterNetSpeed s) (mst_ProcessingCount stats) (mst_MaxCapacity stats)
    (mst_AllocMemMb s) (mst_NumGC s) (mst_CurrentQueueSize stats)
    (if (0 <? length (mst_RecentBatches stats))%nat then mst_RecentBatches stats
     else mst_RecentBatches s)).

Definition GetLatest (mm : MonitoringManager) : MonitoringStats := mm_latestStats mm.

Definition UpdateQueue (mm : MonitoringManager) (size max : Z) : MonitoringManager :=
  let s := mm_latestStats mm in
  with_stats mm (MkMonitoringStats (mst_ScannerDiskSpeed s) (mst_FilesFound s)
    (mst_MasterNetSpeed s) (mst_ProcessingCount s) max (mst_AllocMemMb s)
    (mst_NumGC s) size (mst_RecentBatches s)).

(** What [Listen]'s [select] receives. *)
Inductive listen_signal :=
| ListenDone
| ListenTick (now : time) (alloc numGC : Z)
| ListenStats (s : option MonitoringStats).
(** The manager, and whether [Listen] has returned. *)
Fixpoint Listen (signals : list listen_signal) (mm : MonitoringManager)
  : MonitoringManager * bool :=
  match signals with
  | [] => (mm, false)
  | ListenDone :: _ => (mm, true)
  | ListenTick now alloc numGC :: signals => Listen signals (updateStats mm now alloc numGC)
  | ListenStats None :: _ => (mm, true)
  | ListenStats (Some stats) :: signals => Listen signals (MergeExternalStats mm stats)
  end.

(** ** [domain/monitoring.go] *)

Definition MASTER : string := "MASTER".
Definition SCANNER : string := "SCANNER".
Definition SPECIALIST : string := "SPECIALIST".
Definition ALIVE : string := "ALIVE".
Definition DEAD : string := "DEAD".
Definition GHOST : string := "GHOST".

Record NodeHealth := MkNodeHealth {
  nh_ID : string; nh_Type : string; nh_Status : string; nh_PIDStatus : PIDStatus; nh_PID : Z;
  nh_CPU : float64; nh_RAM : Z; nh_LastSeen : time; nh_ItemsProcessed : Z; nh_CurrentLoad : Z;
  nh_QueueSize : Z; nh_MaxCapacity : Z; nh_CurrentItemName : string;
}.

(** [GlobalMonitoring.Nodes]. *)
Abbreviation GlobalMonitoring := (gmap string NodeHealth).

Definition with_status (n : NodeHealth) (status : string) (seen : time) : NodeHealth :=
  MkNodeHealth (nh_ID n) (nh_Type n) status (nh_PIDStatus n) (nh_PID n) (nh_CPU n) (nh_RAM n)
    seen (nh_ItemsProcessed n) (nh_CurrentLoad n) (nh_QueueSize n) (nh_MaxCapacity n)
    (nh_CurrentItemName n).

Definition UpdateNode (m : GlobalMonitoring) (now : time) (n : NodeHealth) : GlobalMonitoring :=
  <[nh_ID n := with_status n ALIVE now]> m.

Definition GetSnapshot (m : GlobalMonitoring) (now : time) : gmap string NodeHealth :=
  (λ n, if 15 * second <? now - nh_LastSeen n then with_status n GHOST (nh_LastSeen n) else n) <$> m.

(** ** Reports: [heartbeat.go] and [monitoring_server.go] *)

Record NodeStatus := MkNodeStatus {
  ns_NodeId : string; ns_NodeType : string; ns_Pid : Z; ns_PidStatus : string;
  ns_CpuPercent : float64; ns_RamBytes : Z; ns_ItemsProcessed : Z; ns_CurrentLoad : Z;
  ns_QueueSize : Z; ns_MaxCapacity : Z; ns_CurrentItemName : string;
}.

Definition ReportStatus (m : GlobalMonitoring) (now : time) (req : NodeStatus) : GlobalMonitoring :=
  UpdateNode m now
    (MkNodeHealth (ns_NodeId req) (ns_NodeType req) "" (ToPIDStatus (ns_PidStatus req))
       (ns_Pid req) (ns_CpuPercent req) (ns_RamBytes req) zero_time (ns_ItemsProcessed req)
       (ns_CurrentLoad req) (ns_QueueSize req) (ns_MaxCapacity req) (ns_CurrentItemName req)).

(** What the operating system says about a process. *)
Record process_os := MkProcessOs {
  po_NewProcess : option error;
  po_Status : result error string;
  po_CPUPercent : result error float64;
  po_MemoryInfo : result error Z;
}.

Definition getScannerSelfStats (p : process_os) : result error (Z * float64 * string) :=
  let! rss := po_MemoryInfo p in
  let! cpuPercent := po_CPUPercent p in
  let! status := po_Status p in
  Ok (rss, cpuPercent, status).

(** One tick of the heartbeat: the status reported, if any. *)
Definition heartbeat (mm : MonitoringManager) (pid : Z) (p : process_os) : option NodeStatus :=
  match getScannerSelfStats p with
  | Err _ => None
  | Ok (rss, cpu, status) =>
      let localStats := GetLatest mm in
      Some (MkNodeStatus "scanner-01" SCANNER (int64 pid) status cpu rss
              (mst_FilesFound localStats) 0 (uint32 (mst_CurrentQueueSize localStats))
              (mst_MaxCapacity localStats) "")
  end.

(** ** [domain/event]: the counter and the handlers *)

Record Counter := MkCounter { eventCount : gmap EventType Z; wordHits : gmap string Z }.
Definition NewCounter : Counter := MkCounter ∅ ∅.

(** [m[k]++] on a [map[string]uint64]. *)
Definition bump (m : gmap string Z) (k : string) : gmap string Z :=
  <[k := uint64 (default 0 (m !! k) + 1)]> m.

Definition Increment (c : Counter) (evt : EventType) : Counter :=
  MkCounter (bump (eventCount c) evt) (wordHits c).
Definition IncrementHits (c : Counter) (word : string) : Counter :=
  MkCounter (eventCount c) (bump (wordHits c) word).
Definition Get (c : Counter) (evt : EventType) : Z := default 0 (eventCount c !! evt).

Section Handlers.
Context {U : Uuid}.

Inductive Handler :=
| ChannelCapacityHandler (lowCapacityThreshold : Z)
| ProcessTrackerHandler
| CensoredHandler
| LatencyHandler (latencyThreshold : duration)
| MessageSentHandler
| WorkerRestartedAfterPanicHandler.

Inductive warning := LowCapacity (left_ : Z) | HighLatency (lead : duration).

(** What the handlers share. *)
Record handler_state := MkHandlerState {
  hs_counter : Counter; hs_monitoring : MonitoringManager; hs_warnings : list warning;
}.
Definition with_counter (s : handler_state) (c : Counter) : handler_state :=
  MkHandlerState c (hs_monitoring s) (hs_warnings s).
Definition warn (s : handler_state) (w : warning) : handler_state :=
  MkHandlerState (hs_counter s) (hs_monitoring s) (hs_warnings s ++ [w]).

Definition capacity_Handle (low : Z) (s : handler_state) (e : Event) : handler_state :=
  if String.eqb (ev_Type e) ChannelCapacityType then
    match ev_Payload e with
    | PayloadCapacity payload =>
        let stats := MkMonitoringStats f64_zero 0 f64_zero 0 (uint32 (cc_Capacity payload)) 0 0
                       (cc_Length payload) [] in
        let s := MkHandlerState (hs_counter s) (MergeExternalStats (hs_monitoring s) stats)
                   (hs_warnings s) in
        if cc_Capacity payload <=? 0 then s
        else
          let capacityLeft := cc_Capacity payload - cc_Length payload in
          if (0 <? capacityLeft) && (capacityLeft <=? low) then warn s (LowCapacity capacityLeft)
          else s
    | _ => s
    end
  else s.

Definition censored_Handle (s : handler_state) (e : Event) : handler_state :=
  if String.eqb (ev_Type e) CensorshipHitType then
    match ev_Payload e with
    | PayloadSanitized payload =>
        match sm_CensoredWords payload with
        | [] => s
        | words =>
            with_counter s (foldl IncrementHits (Increment (hs_counter s) CensorshipHitType) words)
        end
    | _ => s
    end
  else s.

Definition latency_Handle (threshold : duration) (now : time) (s : handler_state) (e : Event)
  : handler_state :=
  match ev_Payload e with
  | PayloadSanitized payload =>
      let leadTime := now - sm_At payload in
      if threshold <? leadTime then warn s (HighLatency leadTime) else s
  | _ => s
  end.

(** An event with another payload is logged and counted all the same. *)
Definition message_sent_Handle (s : handler_state) (e : Event) : handler_state :=
  if String.eqb (ev_Type e) MessageSentType
  then with_counter s (Increment (hs_counter s) MessageSentType)
  else s.

Definition restarted_Handle (s : handler_state) (e : Event) : handler_state :=
  if String.eqb (ev_Type e) RestartedAfterPanicType then
    match ev_Payload e with
    | PayloadRestarted _ => with_counter s (Increment (hs_counter s) RestartedAfterPanicType)
    | _ => s
    end
  else s.

(** [ProcessTrackerHandler] only logs. *)
Definition Handle (now : time) (e : Event) (s : handler_state) (h : Handler) : handler_state :=
  match h with
  | ChannelCapacityHandler low => capacity_Handle low s e
  | ProcessTrackerHandler => s
  | CensoredHandler => censored_Handle s e
  | LatencyHandler threshold => latency_Handle threshold now s e
  | MessageSentHandler => message_sent_Handle s e
  | WorkerRestartedAfterPanicHandler => restarted_Handle s e
  end.

(** [TelemetryWorker.handle]. *)
Definition telemetry_handle (handlers : list Handler) (now : time) (s : handler_state) (e : Event)
  : handler_state := foldl (Handle now e) s handlers.

(** The handlers the orchestrator installs. *)
Definition telemetry_handlers (low : Z) (latency : duration) : list Handler :=
  [ChannelCapacityHandler low; ProcessTrackerHandler; CensoredHandler; LatencyHandler latency;
   MessageSentHandler; WorkerRestartedAfterPanicHandler].

(** What [TelemetryWorker.Run] receives: the cancellation does not end it. *)
Inductive telemetry_signal :=
| TelemetryDone
| TelemetryTick (received : option (time * Event)).  (* [None]: the inner [ctx.Done()] *)
Fixpoint TelemetryWorker_Run (handlers : list Handler) (signals : list telemetry_signal)
    (s : handler_state) : handler_state :=
  match signals with
  | [] => s
  | TelemetryDone :: signals => TelemetryWorker_Run handlers signals s
  | TelemetryTick None :: signals => TelemetryWorker_Run handlers signals s
  | TelemetryTick (Some (now, e)) :: signals =>
      TelemetryWorker_Run handlers signals (telemetry_handle handlers now s e)
  end.

(** ** Feeding telemetry *)

(** A channel of events with its capacity; a send that has a [default] case
    drops when the channel is full. *)
Record event_chan := MkEventChan { ch_events : list Event; ch_cap : nat }.
Definition try_send (c : event_chan) (e : Event) : event_chan * bool :=
  if (length (ch_events c) <? ch_cap c)%nat
  then (MkEventChan (ch_events c ++ [e]) (ch_cap c), true) else (c, false).

Definition toCapacityEvent (now : time) (name : string) (capacity length : Z) : Event :=
  MkEvent ChannelCapacityType now (PayloadCapacity (MkChannelCapacity name capacity length)).

(** One tick of [ChannelCapacityWorker.Run]: the channels with their capacity
    and length ([None] when the value is not a channel); [done k]: the [k]-th
    [select] takes [ctx.Done()] and the worker returns. *)
Fixpoint report_capacities (now : time) (channels : list (string * option (Z * Z)))
    (done : nat → bool) (k : nat) (c : event_chan) : event_chan * bool :=
  match channels with
  | [] => (c, false)
  | (_, None) :: channels => report_capacities now channels done k c
  | (name, Some (capacity, len)) :: channels =>
      if done k then (c, true)
      else report_capacities now channels done (S k)
             (fst (try_send c (toCapacityEvent now name capacity len)))
  end.

Definition toProcessTrackerEvent (now : time) (pid : Z) (metric : Metric) (status : string)
    (cpu : float64) (ram : Z) : Event :=
  MkEvent PIDTrackerType now (PayloadTracker (MkProcessTracker pid metric (ToPIDStatus status) cpu ram)).

Record HealthMonitoringWorker := MkHealthMonitoringWorker {
  hw_globalMonitor : GlobalMonitoring;
  hw_telemetryChan : event_chan;
  hw_processes : gmap Z Metric;
}.

(** One process of a tick. *)
Definition check_process (w : HealthMonitoringWorker) (now : time) (pid : Z) (metric : Metric)
    (p : process_os) : HealthMonitoringWorker :=
  match po_NewProcess p with
  | Some _ =>
      MkHealthMonitoringWorker (hw_globalMonitor w) (hw_telemetryChan w) (delete pid (hw_processes w))
  | None =>
      match po_Status p, po_CPUPercent p, po_MemoryInfo p with
      | Ok status, Ok cpu, Ok ram =>
          match try_send (hw_telemetryChan w) (toProcessTrackerEvent now pid metric status cpu ram) with
          | (c, true) =>
              MkHealthMonitoringWorker
                (UpdateNode (hw_globalMonitor w) now
                   (MkNodeHealth metric SPECIALIST "" (ToPIDStatus status) (int64 pid) cpu ram
                      zero_time 0 0 0 0 ""))
                c (hw_processes w)
          | (_, false) => w
          end
      | _, _, _ => w
      end
  end.

(** The loop of a tick over the map, in the order it is iterated; [done k]: the
    [select] of the [k]-th process takes [ctx.Done()] and [Run] returns.  A
    process only reaches that [select] when all its figures are available. *)
Fixpoint check_processes (w : HealthMonitoringWorker) (now : time) (order : list (Z * Metric))
    (os : Z → process_os) (done : nat → bool) (k : nat) : HealthMonitoringWorker * bool :=
  match order with
  | [] => (w, false)
  | (pid, metric) :: order =>
      let p := os pid in
      let asked := match po_NewProcess p, po_Status p, po_CPUPercent p, po_MemoryInfo p with
                   | None, Ok _, Ok _, Ok _ => true
                   | _, _, _, _ => false
                   end in
      if asked && done k then (w, true)
      else check_processes (check_process w now pid metric p) now order os done (S k)
  end.

Inductive health_signal :=
| HealthDone
| HealthTick (now : time) (order : list (Z * Metric)) (os : Z → process_os) (done : nat → bool)
| HealthTrack (p : Process).
Fixpoint HealthMonitoringWorker_Run (signals : list health_signal) (w : HealthMonitoringWorker)
  : HealthMonitoringWorker * bool :=
  match signals with
  | [] => (w, false)
  | HealthDone :: _ => (w, true)
  | HealthTick now order os done :: signals =>
      match check_processes w now order os done 0 with
      | (w, true) => (w, true)
      | (w, false) => HealthMonitoringWorker_Run signals w
      end
  | HealthTrack p :: signals =>
      HealthMonitoringWorker_Run signals
        (MkHealthMonitoringWorker (hw_globalMonitor w) (hw_telemetryChan w)
           (<[pr_PID p := pr_Metric p]> (hw_processes w)))
  end.

(** ** What the counters count *)

(** The words a telemetry event hits, and the event types it counts for. *)
Definition hit_words (e : Event) : list string :=
  if String.eqb (ev_Type e) CensorshipHitType then
    match ev_Payload e with PayloadSanitized p => sm_CensoredWords p | _ => [] end
  else [].
Definition counts_for (e : Event) : list EventType :=
  match hit_words e with [] => [] | _ => [CensorshipHitType] end ++
  (if String.eqb (ev_Type e) MessageSentType then [MessageSentType] else []) ++
  match ev_Payload e with
  | PayloadRestarted _ =>
      if String.eqb (ev_Type e) RestartedAfterPanicType then [RestartedAfterPanicType] else []
  | _ => []
  end.

Definition occurrences (k : string) (l : list string) : Z :=
  Z.of_nat (length (List.filter (String.eqb k) l)).

Lemma occurrences_app k l1 l2 : occurrences k (l1 ++ l2) = occurrences k l1 + occurrences k l2.
Proof. unfold occurrences. rewrite List.filter_app, length_app. lia. Qed.

Lemma occurrences_cons k x l :
  occurrences k (x :: l) = (if String.eqb k x then 1 else 0) + occurrences k l.
Proof. unfold occurrences. simpl. case_match; simpl; lia. Qed.

(** A map holds, modulo 2^64, how often each key occurs. *)
Definition tallies (m : gmap string Z) (l : list string) : Prop :=
  ∀ k, default 0 (m !! k) = uint64 (occurrences k l).
Definition counter_tallies (c : Counter) (types words : list string) : Prop :=
  tallies (eventCount c) types ∧ tallies (wordHits c) words.

Lemma bump_tallies m l k : tallies m l → tallies (bump m k) (l ++ [k]).
Proof.
  intros H k'. unfold bump. rewrite occurrences_app, occurrences_cons. unfold occurrences at 2.
  destruct (String.eqb_spec k' k) as [->|Hne]; simpl.
  - rewrite lookup_insert_eq. simpl. rewrite H. unfold wrap_u.
    rewrite Zplus_mod_idemp_l. f_equal.
  - rewrite lookup_insert_ne by done. by rewrite H, Z.add_0_r.
Qed.

Lemma hits_tally words : ∀ c ts ws, counter_tallies c ts ws →
  counter_tallies (foldl IncrementHits c words) ts (ws ++ words).
Proof.
  induction words as [|w words IH]; intros c ts ws [H1 H2]; simpl; [by rewrite app_nil_r|].
  replace (ws ++ w :: words) with ((ws ++ [w]) ++ words) by by rewrite <- app_assoc.
  apply IH. split; [done|]. by apply bump_tallies.
Qed.

(** One event through the installed handlers. *)
Lemma telemetry_handle_tally low latency now s e ts ws :
  counter_tallies (hs_counter s) ts ws →
  counter_tallies (hs_counter (telemetry_handle (telemetry_handlers low latency) now s e))
    (ts ++ counts_for e) (ws ++ hit_words e).
Proof.
  intros H. unfold telemetry_handle, telemetry_handlers. cbn [foldl Handle].
  set (s1 := capacity_Handle low s e).
  assert (hs_counter s1 = hs_counter s) as H1.
  { subst s1. unfold capacity_Handle. by repeat case_match. }
  assert (counter_tallies (hs_counter (censored_Handle s1 e))
            (ts ++ match hit_words e with [] => [] | _ => [CensorshipHitType] end)
            (ws ++ hit_words e)) as H2.
  { unfold censored_Handle, hit_words. rewrite <- H1 in H.
    destruct (String.eqb (ev_Type e) CensorshipHitType); [|by rewrite !app_nil_r].
    destruct (ev_Payload e); rewrite ?app_nil_r; try done.
    destruct (sm_CensoredWords m) as [|w words] eqn:Hw; rewrite ?app_nil_r; [done|].
    apply hits_tally. destruct H. split; [|done]. by apply bump_tallies. }
  set (s2 := censored_Handle s1 e) in *.
  set (s3 := latency_Handle latency now s2 e).
  assert (hs_counter s3 = hs_counter s2) as H3.
  { subst s3. unfold latency_Handle. by repeat case_match. }
  rewrite <- H3 in H2. unfold counts_for. rewrite !app_assoc.
  set (ts1 := ts ++ _) in *.
  assert (counter_tallies (hs_counter (message_sent_Handle s3 e))
    (ts1 ++ (if String.eqb (ev_Type e) MessageSentType then [MessageSentType] else []))
    (ws ++ hit_words e)) as H4.
  { unfold message_sent_Handle. destruct (String.eqb (ev_Type e) MessageSentType);
      [|by rewrite app_nil_r].
    destruct H2. split; [|done]. by apply bump_tallies. }
  unfold restarted_Handle. set (ts2 := ts1 ++ _) in *.
  destruct (String.eqb (ev_Type e) RestartedAfterPanicType), (ev_Payload e);
    rewrite ?app_nil_r; try done.
  destruct H4. split; [|done]. by apply bump_tallies.
Qed.

(** The events that reach the handlers. *)
Definition delivered (signals : list telemetry_signal) : list Event :=
  flat_map (λ s, match s with TelemetryTick (Some (_, e)) => [e] | _ => [] end) signals.

Lemma telemetry_run_tally low latency signals : ∀ s ts ws,
  counter_tallies (hs_counter s) ts ws →
  counter_tallies
    (hs_counter (TelemetryWorker_Run (telemetry_handlers low latency) signals s))
    (ts ++ flat_map counts_for (delivered signals)) (ws ++ flat_map hit_words (delivered signals)).
Proof.
  induction signals as [|sg signals IH]; intros s ts ws H; [by rewrite !app_nil_r|].
  destruct sg as [|[[now e]|]]; cbn [TelemetryWorker_Run]; [by apply IH| |by apply IH].
  unfold delivered. cbn [flat_map app]. fold (delivered signals). rewrite !app_assoc.
  apply IH. by apply telemetry_handle_tally.
Qed.

(** The telemetry counters are exact (modulo 2^64): after any run of the
    telemetry worker, each event type has been counted as often as an event it
    counts for was delivered, each censored word as often as it occurs in the
    censorship hits, whatever the order and whatever other events arrive. *)
Theorem telemetry_counters low latency signals mm :
  let s := TelemetryWorker_Run (telemetry_handlers low latency) signals
             (MkHandlerState NewCounter mm []) in
  (∀ t, Get (hs_counter s) t = uint64 (occurrences t (flat_map counts_for (delivered signals)))) ∧
  (∀ w, default 0 (wordHits (hs_counter s) !! w) =
          uint64 (occurrences w (flat_map hit_words (delivered signals)))).
Proof.
  exact (telemetry_run_tally low latency signals (MkHandlerState NewCounter mm []) [] []
    (conj (λ k, eq_refl) (λ k, eq_refl))).
Qed.

(** What the moderation pipeline emits is typed [DOMAIN_TYPE], so the
    censorship counters never move on it. *)
Theorem pipeline_events_hit_nothing now (m : SanitizedMessage) :
  let e := MkEvent DomainType now (PayloadSanitized m) in
  hit_words e = [] ∧ counts_for e = [].
Proof. done. Qed.

End Handlers.

(** ** Recent batches *)

Lemma AddBatch_keeps mm l (adds : list RecentBatchInfo) :
  mst_RecentBatches (mm_latestStats mm) = take 20 l →
  mst_RecentBatches (mm_latestStats (foldl (λ mm b,
      AddBatch mm (rb_Timestamp b) (rb_ID b) (rb_Path b) (rb_Mime b) (rb_Status b)) mm adds)) =
    take 20 (rev adds ++ l).
Proof.
  revert mm l. induction adds as [|b adds IH]; intros mm l H; [done|].
  cbn [foldl rev]. rewrite <- app_assoc. cbn [app]. apply (IH _ (b :: l)).
  unfold AddBatch, with_stats. cbn [mm_latestStats mst_RecentBatches]. rewrite H.
  destruct b as [i p m st ts]. cbn [rb_ID rb_Path rb_Mime rb_Status rb_Timestamp].
  assert (∀ x : RecentBatchInfo, take 20 (x :: take 20 l) = take 20 (x :: l)) as Ht.
  { intros x. cbn [take]. f_equal. by rewrite take_take. }
  rewrite Ht. case_match eqn:Hlen; [done|]. apply Nat.ltb_ge in Hlen.
  rewrite <- Ht. symmetry. by apply take_ge.
Qed.

(** ** Node health *)

Definition report_of (now : time) (r : NodeStatus) (status : string) : NodeHealth :=
  MkNodeHealth (ns_NodeId r) (ns_NodeType r) status (ToPIDStatus (ns_PidStatus r)) (ns_Pid r)
    (ns_CpuPercent r) (ns_RamBytes r) now (ns_ItemsProcessed r) (ns_CurrentLoad r)
    (ns_QueueSize r) (ns_MaxCapacity r) (ns_CurrentItemName r).

Definition last_report (id : string) (reports : list (time * NodeStatus))
  : option (time * NodeStatus) :=
  last (List.filter (λ r, String.eqb (ns_NodeId (snd r)) id) reports).

Lemma reports_lookup id reports :
  foldl (λ m r, ReportStatus m (fst r) (snd r)) ∅ reports !! id =
    (λ r, report_of (fst r) (snd r) ALIVE) <$> last_report id reports.
Proof.
  induction reports as [|[t r] reports IH] using rev_ind; [done|].
  rewrite foldl_app. cbn [foldl fst snd]. unfold last_report. rewrite List.filter_app.
  cbn [List.filter snd]. unfold ReportStatus at 1, UpdateNode. cbn [nh_ID].
  destruct (String.eqb_spec (ns_NodeId r) id) as [<-|Hne].
  - rewrite lookup_insert_eq, last_snoc. done.
  - rewrite lookup_insert_ne by done. rewrite app_nil_r. exact IH.
Qed.

(** The snapshot the master serves shows for every node exactly its last
    report, whatever the interleaving of reports: marked alive when it is at
    most fifteen seconds old and as a ghost after that, and nothing for a node
    that never reported. *)
Theorem snapshot_last_report reports now id :
  GetSnapshot (foldl (λ m r, ReportStatus m (fst r) (snd r)) ∅ reports) now !! id =
    (λ r, report_of (fst r) (snd r)
            (if now - fst r <=? 15 * second then ALIVE else GHOST)) <$> last_report id reports.
Proof.
  unfold GetSnapshot. rewrite lookup_fmap, reports_lookup.
  destruct (last_report id reports) as [[t r]|]; [|done].
  cbn [fmap option_fmap option_map fst snd]. f_equal. cbn [nh_LastSeen report_of].
  rewrite Z.leb_antisym. by destruct (15 * second <? now - t).
Qed.
