(* ===== verification/Health.v ===== *)
(** * Health: heartbeats, the master's monitoring server and the console reporter

    The loop of [runtime/workers/heartbeat.go], the server of
    [infrastructure/grpc/server/monitoring_server.go] that receives its reports and
    serves the snapshot, and [runtime/workers/reporter.go], which prints the statistics of
    a node.  What a tick reports and what a snapshot shows are those of [Monitoring]. *)

From Stdlib Require Import Ascii String SpecFloat.
From S2P Require Import Prelude Errors Env Domain Monitoring.

(** ** [MonitoringServer] *)

Record MonitoringServer := MkMonitoringServer { ms_monitor : GlobalMonitoring }.
Definition NewMonitoringServer (m : GlobalMonitoring) : MonitoringServer := MkMonitoringServer m.

Definition server_ReportStatus (s : MonitoringServer) (now : time) (req : NodeStatus)
  : MonitoringServer * option error :=
  (MkMonitoringServer (ReportStatus (ms_monitor s) now req), None).

(** [handleMonitoring]: the type of the content and the value that is encoded. *)
Definition handleMonitoring (s : MonitoringServer) (now : time) : string * gmap string NodeHealth :=
  ("application/json", GetSnapshot (ms_monitor s) now).

(** [Start]: the address it listens on and what each path is served by. *)
Inductive http_handler := MonitoringAPI | StaticFiles (dir : string).
Definition MonitoringServer_Start (port : Z) : string * list (string * http_handler) :=
  (":" +:+ fmt_d port, [("/api/monitoring", MonitoringAPI); ("/", StaticFiles "./ui")]).

(** ** [HeartbeatWorker] *)

(** What its [select] receives; a tick with the statistics and the process of its time,
    and the error of the call to the master. *)
Inductive heartbeat_signal :=
| HeartbeatDone (err : error)
| HeartbeatTick (now : time) (monitoring : MonitoringManager) (p : process_os)
    (report_err : option error).

(** The reports that reached the master, with their times, and the error it returns
    ([None] while it runs). *)
Fixpoint heartbeat_loop (pid : Z) (signals : list heartbeat_signal)
    (reports : list (time * NodeStatus)) : list (time * NodeStatus) * option error :=
  match signals with
  | [] => (reports, None)
  | HeartbeatDone err :: _ => (reports, Some err)
  | HeartbeatTick now mm p report_err :: signals =>
      match heartbeat mm pid p, report_err with
      | Some status, None => heartbeat_loop pid signals (reports ++ [(now, status)])
      | _, _ => heartbeat_loop pid signals reports
      end
  end.
(** [new_err] is the error of [process.NewProcess]. *)
Definition HeartbeatWorker_Run (pid : Z) (new_err : option error) (signals : list heartbeat_signal)
  : list (time * NodeStatus) * option error :=
  match new_err with
  | Some err => ([], Some err)
  | None => heartbeat_loop pid signals []
  end.

(** ** A node is alive while its heartbeats arrive *)

Lemma heartbeat_loop_reports pid signals : ∀ reports,
  (heartbeat_loop pid signals reports).1 = reports ++ (heartbeat_loop pid signals []).1.
Proof.
  induction signals as [|[err|now mm p e] signals IH]; intros reports;
    cbn [heartbeat_loop]; [by rewrite app_nil_r..|].
  destruct (heartbeat mm pid p) as [r|], e; try apply IH. rewrite IH, (IH ([] ++ [(now, r)])).
  cbn [app]. by rewrite <- app_assoc.
Qed.

Lemma heartbeat_reports_id pid signals :
  Forall (λ r, ns_NodeId r.2 = "scanner-01") (heartbeat_loop pid signals []).1.
Proof.
  induction signals as [|[err|now mm p e] signals IH]; cbn [heartbeat_loop]; [constructor..|].
  destruct (heartbeat mm pid p) as [r|] eqn:Hr, e; [done| |done..].
  rewrite heartbeat_loop_reports. apply Forall_app. split; [|done]. constructor; [|done].
  unfold heartbeat in Hr. destruct (getScannerSelfStats p) as [[[rss cpu] status]|]; [|done].
  by injection Hr as <-.
Qed.

(** The master's state after the reports of all nodes, in the order they arrive. *)
Definition reported (s : MonitoringServer) (reports : list (time * NodeStatus)) : MonitoringServer :=
  foldl (λ s r, (server_ReportStatus s r.1 r.2).1) s reports.

Lemma reported_monitor reports :
  ms_monitor (reported (NewMonitoringServer ∅) reports) =
  foldl (λ m r, ReportStatus m (fst r) (snd r)) ∅ reports.
Proof.
  unfold reported, NewMonitoringServer. generalize (∅ : GlobalMonitoring).
  induction reports as [|r reports IH]; intros m; [done|]. apply IH.
Qed.

(** The page shows the scanner as of its last heartbeat that arrived, whatever the other
    nodes report meanwhile: alive for fifteen seconds (three ticks of five seconds), a
    ghost from then on, and not at all before the first. *)
Theorem heartbeat_shown pid signals reports now :
  List.filter (λ r, String.eqb (ns_NodeId r.2) "scanner-01") reports =
    (HeartbeatWorker_Run pid None signals).1 →
  (handleMonitoring (reported (NewMonitoringServer ∅) reports) now).2 !! "scanner-01" =
    (λ r, report_of r.1 r.2 (if now - r.1 <=? 15 * second then ALIVE else GHOST)) <$>
      last (HeartbeatWorker_Run pid None signals).1.
Proof.
  intros Hr. unfold handleMonitoring. cbn [snd].
  rewrite reported_monitor, snapshot_last_report. unfold last_report. by rewrite Hr.
Qed.

(** ** [ReporterWorker] *)

Definition minute : duration := 60 * second.
Definition hour : duration := 60 * minute.

(** [d.Round(time.Second)] of a duration that is not negative: half a second goes up. *)
Definition round_second (d : duration) : duration :=
  let r := d mod second in
  if r + r <? second then d - r else d + second - r.

(** [Duration.String] of a whole number of seconds that is not negative. *)
Definition duration_String (d : duration) : string :=
  let s := fmt_d (d mod minute / second) +:+ "s" in
  let m := fmt_d (d / minute mod 60) +:+ "m" in
  if d <? minute then s
  else if d <? hour then m +:+ s
  else fmt_d (d / hour) +:+ "h" +:+ m +:+ s.

(** [n * 2^e] in hundredths, to the nearest, halves to the even one. *)
Definition hundredths (n : positive) (e : Z) : Z :=
  if 0 <=? e then 100 * Zpos n * 2 ^ e
  else
    let q := 100 * Zpos n / 2 ^ (- e) in
    let r := (100 * Zpos n) mod 2 ^ (- e) in
    match 2 * r ?= 2 ^ (- e) with
    | Lt => q
    | Gt => q + 1
    | Eq => if Z.even q then q else q + 1
    end.
(** The verb [%.2f]. *)
Definition fmt_f2 (f : float64) : string :=
  match f with
  | S754_nan => "NaN"
  | S754_infinity s => if s then "-Inf" else "+Inf"
  | S754_zero s => if s then "-0.00" else "0.00"
  | S754_finite s n e =>
      let h := hundredths n e in
      (if s then "-" else "") +:+ fmt_d (h / 100) +:+ "." +:+ fmt_pad 2 (h mod 100)
  end.

Definition carriage_return : string := String (ascii_of_nat 13) "".
Definition newline : string := String (ascii_of_nat 10) "".

(** [printStats]: what it writes; [since] is the time since the start. *)
Definition printStats (monitoring : MonitoringManager) (since : duration) : string :=
  let stats := GetLatest monitoring in
  carriage_return +:+ "📊 [" +:+ duration_String (round_second since) +:+ "] RAM: " +:+
  fmt_d (mst_AllocMemMb stats) +:+ "MB | Disk: " +:+ fmt_f2 (mst_ScannerDiskSpeed stats) +:+
  " MB/s | Net: " +:+ fmt_f2 (mst_MasterNetSpeed stats) +:+ " MB/s | Files: " +:+
  fmt_d (mst_FilesFound stats) +:+ " | Queue: " +:+ fmt_d (mst_CurrentQueueSize stats).

Inductive reporter_signal :=
| ReporterDone (since : duration) (monitoring : MonitoringManager) (err : error)
| ReporterTick (since : duration) (monitoring : MonitoringManager).

(** What [Run] has written, the wait group, and the error it returned ([None] while it
    runs). *)
Fixpoint ReporterWorker_Run (signals : list reporter_signal) (out : list string) (workersWG : Z)
  : list string * Z * option error :=
  match signals with
  | [] => (out, workersWG, None)
  | ReporterDone since mm err :: _ =>
      (out ++ [printStats mm since] ++ [newline +:+ "🏁 Reporter stopped." +:+ newline],
       workersWG - 1, Some err)
  | ReporterTick since mm :: signals =>
      ReporterWorker_Run signals (out ++ [printStats mm since]) workersWG
  end.

(** Rounding goes to the nearest second. *)
Lemma round_second_nearest d : 0 ≤ d →
  round_second d mod second = 0 ∧ 2 * Z.abs (round_second d - d) ≤ second.
Proof.
  intros Hd. unfold round_second. pose proof (Z.mod_pos_bound d second eq_refl) as Hr.
  pose proof (Z.div_mod d second ltac:(done)) as Hdm.
  case_match eqn:Hc; [apply Z.ltb_lt in Hc|apply Z.ltb_ge in Hc].
  - split; [|lia]. rewrite Hdm at 1. rewrite Z.add_simpl_r, Z.mul_comm. by apply Z.mod_mul.
  - split; [|lia]. replace (d + second - d mod second) with ((d / second + 1) * second) by lia.
    by apply Z.mod_mul.
Qed.

(** The hundredths are within half of one of the number. *)
Lemma hundredths_nearest n e : e < 0 →
  2 * Z.abs (hundredths n e * 2 ^ (- e) - 100 * Zpos n) ≤ 2 ^ (- e).
Proof.
  intros He. unfold hundredths. rewrite (proj2 (Z.leb_gt _ _)) by lia.
  assert (0 < 2 ^ (- e)) as Hp by (apply Z.pow_pos_nonneg; lia).
  pose proof (Z.mod_pos_bound (100 * Zpos n) _ Hp) as Hr.
  pose proof (Z.div_mod (100 * Zpos n) (2 ^ (- e)) ltac:(lia)) as Hdm.
  destruct (Z.compare_spec (2 * ((100 * Zpos n) mod 2 ^ (- e))) (2 ^ (- e)));
    [destruct (Z.even _)|..]; nia.
Qed.

Example printStats_line :
  printStats (MkMonitoringManager
      (MkMonitoringStats (f64_div (f64_of_Z 5) (f64_of_Z 8)) 3 f64_zero 0 10 64 2 7 []) 0 0 0 0 0 0 0)
    (3725 * second + 400000000) =
  carriage_return +:+ "📊 [1h2m5s] RAM: 64MB | Disk: 0.62 MB/s | Net: 0.00 MB/s | Files: 3 | Queue: 7".
Proof. vm_refl. Qed.
