(* ===== verification/Scanner.v ===== *)
(** * Scanner: the parallel directory walk

    [runtime/workers/file_scanner.go] and [services/scanner_control_service.go]
    with [infrastructure/grpc/server/scanner_controller_server.go].  The
    scanner workers share a bounded channel of directories, which they both
    consume and feed, and a bounded channel of file requests.  A worker is a
    state machine whose inputs are what the environment decides; the workers
    interleave.  The file system is a parameter. *)

From Stdlib Require Import String.
From S2P Require Import Prelude Errors Env Text Domain Mime Path Monitoring.

(** ** The file system *)

Inductive entry_type := TRegular | TDir | TSymlink | TOther.
Record DirEntry := MkDirEntry {
  de_Name : string; de_Type : entry_type;
  de_Info : result error Z;  (* [Info().Size()] *)
}.

(** [os.ReadDir]; the first bytes of a file, at most 64, or [None] when it
    cannot be opened; [mimetype.Detect]. *)
Class ScanEnv := {
  ReadDir : string → result error (list DirEntry);
  ReadMagic : string → option string;
  magic_Detect : string → string;
}.

(** ** State *)

Record FileScannerWorker := MkFileScannerWorker {
  fw_driveID : string; fw_lowThreshold : Z; fw_hardThreshold : Z;
}.

Record scan_shared := MkScanShared {
  ss_dirChan : list string; ss_dirCap : nat; ss_dirClosed : bool;
  ss_fileChan : list FileAnalyzerRequest; ss_fileCap : nat;
  ss_scanWG : Z; ss_workersWG : Z;
  ss_monitoring : MonitoringManager;
}.
Definition with_dirs (s : scan_shared) (l : list string) : scan_shared :=
  MkScanShared l (ss_dirCap s) (ss_dirClosed s) (ss_fileChan s) (ss_fileCap s) (ss_scanWG s)
    (ss_workersWG s) (ss_monitoring s).
Definition with_files (s : scan_shared) (l : list FileAnalyzerRequest) : scan_shared :=
  MkScanShared (ss_dirChan s) (ss_dirCap s) (ss_dirClosed s) l (ss_fileCap s) (ss_scanWG s)
    (ss_workersWG s) (ss_monitoring s).
Definition scanWG_Add (s : scan_shared) (n : Z) : scan_shared :=
  MkScanShared (ss_dirChan s) (ss_dirCap s) (ss_dirClosed s) (ss_fileChan s) (ss_fileCap s)
    (ss_scanWG s + n) (ss_workersWG s) (ss_monitoring s).
Definition workersWG_Done (s : scan_shared) : scan_shared :=
  MkScanShared (ss_dirChan s) (ss_dirCap s) (ss_dirClosed s) (ss_fileChan s) (ss_fileCap s)
    (ss_scanWG s) (ss_workersWG s - 1) (ss_monitoring s).
Definition monitor (s : scan_shared) (f : MonitoringManager → MonitoringManager) : scan_shared :=
  MkScanShared (ss_dirChan s) (ss_dirCap s) (ss_dirClosed s) (ss_fileChan s) (ss_fileCap s)
    (ss_scanWG s) (ss_workersWG s) (f (ss_monitoring s)).

(** ** Triggering a scan *)

Record ScanRequest := MkScanRequest { sr_Path : string }.
Record ScanResponse := MkScanResponse { sr_Started : bool }.

(** [None] while the send blocks. *)
Definition TriggerScan (s : scan_shared) (req : ScanRequest) : option (scan_shared * ScanResponse) :=
  let s := scanWG_Add s 1 in
  if (length (ss_dirChan s) <? ss_dirCap s)%nat
  then Some (with_dirs s (ss_dirChan s ++ [sr_Path req]), MkScanResponse true)
  else None.

(** The gRPC server in front of it. *)
Record pbScanRequest := MkPbScanRequest { psr_Path : string }.
Record pbScanResponse := MkPbScanResponse { psp_Started : bool }.
Definition fromScanRequestPb (req : pbScanRequest) : ScanRequest := MkScanRequest (psr_Path req).
Definition toPbScanResponse (resp : ScanResponse) : pbScanResponse :=
  MkPbScanResponse (sr_Started resp).
Definition server_TriggerScan (s : scan_shared) (req : pbScanRequest)
  : option (scan_shared * pbScanResponse) :=
  '(s, response) ← TriggerScan s (fromScanRequestPb req); Some (s, toPbScanResponse response).

Section Scanner.
Context {UT : UnicodeTables} {E : ScanEnv}.
Variable w : FileScannerWorker.

(** ** The worker *)

(** [int(float64(cap) * float64(limit) / 100.0)]. *)
Definition buildBackPressureLimit (cap limit : Z) : Z :=
  f64_trunc (f64_div (f64_mul (f64_of_Z cap) (f64_of_Z limit)) (f64_of_Z 100)).

(** The pause [throttle] makes. *)
Definition throttle_pause (s : scan_shared) : duration :=
  let usage := Z.of_nat (length (ss_fileChan s)) in
  let softLimit := buildBackPressureLimit (Z.of_nat (ss_fileCap s)) (fw_lowThreshold w) in
  let hardLimit := buildBackPressureLimit (Z.of_nat (ss_fileCap s)) (fw_hardThreshold w) in
  if hardLimit <? usage then 200 * millisecond
  else if softLimit <? usage then 20 * millisecond
  else 0.

(** [processFile] up to its [select]: the request to send, if any. *)
Definition processFile (path : string) (entry : DirEntry) (now : time)
  : option FileAnalyzerRequest :=
  match de_Info entry with
  | Err _ => None
  | Ok size =>
      let magicBytes := default "" (ReadMagic path) in
      let mimeType := magic_Detect magicBytes in
      if snd (IsAuthorized mimeType)
      then Some (MkFileAnalyzerRequest path (fw_driveID w) (uint64 size) 0 mimeType magicBytes now
                   LOCALFIXED)
      else None
  end.

(** Where a worker is: at the [select] of [Run], inside [throttle], in the loop
    of [handleDirectory], at one of its two sends, or gone. *)
Inductive scan_phase :=
| Idle
| Throttling (dir : string)
| Looping (dir : string) (entries : list DirEntry)
| SendingDir (dir sub : string) (entries : list DirEntry)
| SendingFile (dir : string) (req : FileAnalyzerRequest) (entries : list DirEntry)
| Returned (err : option error)
| Panicked.

Inductive scan_input :=
| CtxDone (err : error)
| Receive                                  (* a directory, or the closed channel *)
| PauseOver                                (* the pause, if there is one, is over *)
| NextEntry (now : time)
| Sent (clock : string).

(** One step of [Run] and the functions it calls; [None] when the input is not
    possible in that phase. *)
Definition scanner_step (s : scan_shared) (p : scan_phase) (i : scan_input)
  : option (scan_shared * scan_phase) :=
  match p, i with
  | Idle, CtxDone err => Some (workersWG_Done s, Returned (Some err))
  | Idle, Receive =>
      match ss_dirChan s with
      | currentDir :: rest => Some (with_dirs s rest, Throttling currentDir)
      | [] => if ss_dirClosed s then Some (workersWG_Done s, Returned None) else None
      end
  | Throttling _, CtxDone err =>
      if 0 <? throttle_pause s then Some (workersWG_Done s, Returned (Some err)) else None
  | Throttling currentDir, PauseOver =>
      match ReadDir currentDir with
      | Err _ => Some (scanWG_Add (monitor s IncrErrorCount) (-1), Idle)
      | Ok entries => Some (monitor s IncrDirsScanned, Looping currentDir entries)
      end
  | Looping currentDir [], NextEntry _ => Some (scanWG_Add s (-1), Idle)
  | Looping currentDir (entry :: entries), NextEntry now =>
      let fullPath := filepath_Join currentDir (de_Name entry) in
      match de_Type entry with
      | TSymlink => Some (monitor s IncrSkippedItems, Looping currentDir entries)
      | TDir => Some (scanWG_Add s 1, SendingDir currentDir fullPath entries)
      | TRegular =>
          match processFile fullPath entry now with
          | None => Some (s, Looping currentDir entries)
          | Some req => Some (s, SendingFile currentDir req entries)
          end
      | TOther => Some (monitor s IncrSkippedItems, Looping currentDir entries)
      end
  | SendingDir currentDir fullPath entries, CtxDone _ => Some (scanWG_Add s (-1), Idle)
  | SendingDir currentDir fullPath entries, Sent _ =>
      if ss_dirClosed s then Some (workersWG_Done (scanWG_Add s (-1)), Panicked)
      else if (length (ss_dirChan s) <? ss_dirCap s)%nat
      then Some (with_dirs s (ss_dirChan s ++ [fullPath]), Looping currentDir entries)
      else None
  | SendingFile currentDir req entries, CtxDone _ => Some (s, Looping currentDir entries)
  | SendingFile currentDir req entries, Sent clock =>
      if (length (ss_fileChan s) <? ss_fileCap s)%nat
      then Some (monitor (with_files s (ss_fileChan s ++ [req])) (λ mm,
                   AddBatch (IncrFileFound (IncrScannerBytes mm (fa_Size req))) clock "file-id"
                     (fa_Path req) (fa_MimeType req) "scanned"),
                 Looping currentDir entries)
      else None
  | _, _ => None
  end.

(** ** What a scan visits *)

Inductive visit :=
| VDir (d : string) | VDenied (d : string) | VSkipped (p : string) | VIgnored (p : string)
| VFile (r : FileAnalyzerRequest).

(** The request without the time of the scan. *)
Definition untimed (r : FileAnalyzerRequest) : FileAnalyzerRequest :=
  MkFileAnalyzerRequest (fa_Path r) (fa_DriveID r) (fa_Size r) (fa_Attributes r) (fa_MimeType r)
    (fa_MagicBytes r) 0 (fa_SourceType r).

Definition visit_entry (rec : string → option (list visit)) (d : string) (e : DirEntry)
  : option (list visit) :=
  let p := filepath_Join d (de_Name e) in
  match de_Type e with
  | TSymlink | TOther => Some [VSkipped p]
  | TDir => rec p
  | TRegular => Some [match processFile p e 0 with Some r => VFile r | None => VIgnored p end]
  end.

(** The depth-first walk of the tree under [d], to depth [n]. *)
Fixpoint tree (n : nat) (d : string) : option (list visit) :=
  match n with
  | O => None
  | S n =>
      match ReadDir d with
      | Err _ => Some [VDenied d]
      | Ok es => (λ ls, VDir d :: concat ls) <$> mapM (visit_entry (tree n) d) es
      end
  end.

(** The tree under [d] is finite and its walk is [l]. *)
Definition visits (d : string) (l : list visit) : Prop := ∃ n, tree n d = Some l.
Definition entry_visits (d : string) (e : DirEntry) (l : list visit) : Prop :=
  ∃ n, visit_entry (tree n) d e = Some l.

Definition is_dir_visit (v : visit) : bool :=
  match v with VDir _ | VDenied _ => true | _ => false end.
Definition files_of (l : list visit) : list FileAnalyzerRequest :=
  flat_map (λ v, match v with VFile r => [r] | _ => [] end) l.
Definition count (f : visit → bool) (l : list visit) : Z := Z.of_nat (length (List.filter f l)).

(** ** The workers together *)

Record scan_system := MkScanSystem {
  sy_shared : scan_shared;
  sy_workers : list scan_phase;
  sy_sent : list FileAnalyzerRequest;  (* taken from [fileChan] by the sender *)
}.

(** What a step of a worker visits. *)
Definition step_visits (p : scan_phase) (i : scan_input) : list visit :=
  match p, i with
  | Throttling d, PauseOver => match ReadDir d with Err _ => [VDenied d] | Ok _ => [VDir d] end
  | Looping d (e :: _), NextEntry now =>
      let p := filepath_Join d (de_Name e) in
      match de_Type e with
      | TSymlink | TOther => [VSkipped p]
      | TDir => []
      | TRegular => match processFile p e now with Some _ => [] | None => [VIgnored p] end
      end
  | SendingFile _ req _, Sent _ => [VFile (untimed req)]
  | _, _ => []
  end.

Definition is_cancel (i : scan_input) : bool :=
  match i with CtxDone _ => true | _ => false end.

(** Steps without cancellation. *)
Inductive scan_step : scan_system → list visit → scan_system → Prop :=
| step_worker s s' pre p p' post i sent :
    is_cancel i = false → scanner_step s p i = Some (s', p') →
    scan_step (MkScanSystem s (pre ++ p :: post) sent) (step_visits p i)
              (MkScanSystem s' (pre ++ p' :: post) sent)
| step_sender s ws r rest sent :
    ss_fileChan s = r :: rest →
    scan_step (MkScanSystem s ws sent) [] (MkScanSystem (with_files s rest) ws (sent ++ [r])).

(** [scan_run a k log b]: [k] steps from [a] to [b], visiting [log]. *)
Inductive scan_run (a : scan_system) : nat → list visit → scan_system → Prop :=
| run_start : scan_run a 0 [] a
| run_step k log b l c : scan_run a k log b → scan_step b l c → scan_run a (S k) (log ++ l) c.

Definition quiescent (s : scan_system) : Prop :=
  ss_dirChan (sy_shared s) = [] ∧ Forall (λ p, p = Idle) (sy_workers s).

Definition emitted (s : scan_system) : list FileAnalyzerRequest :=
  sy_sent s ++ ss_fileChan (sy_shared s).

(** ** The walk of a tree *)

Lemma mapM_mono {A B} (f g : A → option B) (l : list A) ls :
  (∀ x y, f x = Some y → g x = Some y) → mapM f l = Some ls → mapM g l = Some ls.
Proof.
  intros Hfg. rewrite !mapM_Some. intros H. induction H; constructor; auto.
Qed.

Lemma visit_entry_mono f g d e l :
  (∀ x y, f x = Some y → g x = Some y) → visit_entry f d e = Some l → visit_entry g d e = Some l.
Proof. intros Hfg. unfold visit_entry. destruct (de_Type e); auto. Qed.

Lemma tree_mono n m d l : (n ≤ m)%nat → tree n d = Some l → tree m d = Some l.
Proof.
  revert m d l. induction n as [|n IH]; intros m d l Hm; [done|].
  destruct m as [|m]; [lia|]. cbn [tree]. destruct (ReadDir d) as [es|]; [|done].
  intros (ls & Hls & ->)%fmap_Some. apply fmap_Some. exists ls. split; [|done].
  eapply mapM_mono; [|exact Hls]. intros e y. apply visit_entry_mono.
  intros x z. apply IH. lia.
Qed.

Lemma visits_denied d e l : ReadDir d = Err e → visits d l → l = [VDenied d].
Proof. intros Hr [[|n] Hn]; simpl in Hn; [done|]. rewrite Hr in Hn. by simplify_eq. Qed.

Lemma visits_entries d es l : ReadDir d = Ok es → visits d l →
  ∃ ls, l = VDir d :: concat ls ∧ Forall2 (entry_visits d) es ls.
Proof.
  intros Hr [[|n] Hn]; [done|]. cbn [tree] in Hn. rewrite Hr in Hn.
  apply fmap_Some in Hn as (ls & Hls & ->). exists ls. split; [done|].
  apply mapM_Some in Hls. eapply Forall2_impl; [exact Hls|]. intros e y He. by exists n.
Qed.

Lemma visits_head d l : visits d l → ∃ v l', l = v :: l' ∧ is_dir_visit v = true.
Proof.
  intros Hv. destruct (ReadDir d) as [es|e] eqn:Hr.
  - destruct (visits_entries _ _ _ Hr Hv) as (ls & -> & _). by eexists _, _.
  - rewrite (visits_denied _ _ _ Hr Hv). by eexists _, _.
Qed.

Lemma entry_visits_dir d e l : de_Type e = TDir → entry_visits d e l →
  visits (filepath_Join d (de_Name e)) l.
Proof. intros Ht [n Hn]. unfold visit_entry in Hn. rewrite Ht in Hn. by exists n. Qed.

(** The time of the scan changes nothing else. *)
Lemma processFile_untimed p e now :
  processFile p e 0 = untimed <$> processFile p e now.
Proof. unfold processFile. destruct (de_Info e); [|done]. by case_match. Qed.

(** ** What is still to be visited *)

Definition entries_pending (d : string) (es : list DirEntry) (l : list visit) : Prop :=
  ∃ ls, Forall2 (entry_visits d) es ls ∧ l = concat ls.

Definition phase_pending (p : scan_phase) (l : list visit) : Prop :=
  match p with
  | Idle => l = []
  | Throttling d => visits d l
  | Looping d es => entries_pending d es l
  | SendingDir d sub es => ∃ l1 l2, visits sub l1 ∧ entries_pending d es l2 ∧ l = l1 ++ l2
  | SendingFile d r es => ∃ l2, entries_pending d es l2 ∧ l = VFile (untimed r) :: l2
  | Returned _ | Panicked => False
  end.

Lemma entries_pending_cons d e es l : entries_pending d (e :: es) l →
  ∃ l1 l2, entry_visits d e l1 ∧ entries_pending d es l2 ∧ l = l1 ++ l2.
Proof.
  intros (ls & HF & ->). apply Forall2_cons_inv_l in HF as (l1 & ls' & He & HF & ->).
  exists l1, (concat ls'). split; [done|]. split; [by exists ls'|done].
Qed.

(** Weights that every step lowers: five per visit ahead, less what has
    already been done of the next one. *)
Definition dir_weight (l : list visit) : Z := 5 * Z.of_nat (length l) - 2.
Definition phase_weight (p : scan_phase) (l : list visit) : Z :=
  5 * Z.of_nat (length l) +
  match p with
  | Idle | Returned _ | Panicked => 0
  | Throttling _ => -3
  | Looping _ _ => 1
  | SendingDir _ _ _ | SendingFile _ _ _ => 0
  end.
Definition sum_weights (l : list Z) : Z := foldr Z.add 0 l.
Definition queue_weight (qs : list (list visit)) : Z := sum_weights (dir_weight <$> qs).

Lemma sum_weights_app l1 l2 : sum_weights (l1 ++ l2) = sum_weights l1 + sum_weights l2.
Proof. unfold sum_weights. induction l1; simpl; lia. Qed.

Lemma sum_weights_cons x l : sum_weights (x :: l) = x + sum_weights l.
Proof. done. Qed.

Lemma queue_weight_snoc qs q : queue_weight (qs ++ [q]) = queue_weight qs + dir_weight q.
Proof. unfold queue_weight. rewrite fmap_app, sum_weights_app. simpl. lia. Qed.

Lemma queue_weight_cons q qs : queue_weight (q :: qs) = dir_weight q + queue_weight qs.
Proof. done. Qed.

Ltac weigh :=
  rewrite ?queue_weight_cons, ?queue_weight_snoc; unfold phase_weight, dir_weight;
  rewrite ?length_app; cbn [length ss_fileChan with_dirs with_files monitor scanWG_Add]; lia.

(** A step of a worker conserves the visits: what it visits plus what is left
    is what was left, and the weight goes down. *)
Definition conserves (s : scan_shared) (p : scan_phase) (i : scan_input) (s' : scan_shared)
    (p' : scan_phase) (qs : list (list visit)) (l : list visit) : Prop :=
  ∃ qs' l', Forall2 visits (ss_dirChan s') qs' ∧ phase_pending p' l' ∧
    step_visits p i ++ concat qs' ++ l' ≡ₚ concat qs ++ l ∧
    queue_weight qs' + phase_weight p' l' + Z.of_nat (length (ss_fileChan s')) <
      queue_weight qs + phase_weight p l + Z.of_nat (length (ss_fileChan s)).

Lemma entry_step_pending s d en es now s' p' qs l :
  scanner_step s (Looping d (en :: es)) (NextEntry now) = Some (s', p') →
  Forall2 visits (ss_dirChan s) qs → phase_pending (Looping d (en :: es)) l →
  conserves s (Looping d (en :: es)) (NextEntry now) s' p' qs l.
Proof.
  intros Hs HF Hl. simpl in Hs. unfold conserves.
  apply entries_pending_cons in Hl as (l1 & l2 & He & Hp & ->).
  unfold step_visits. destruct (de_Type en) eqn:Ht.
  - destruct He as [n He]. unfold visit_entry in He. rewrite Ht in He. simplify_eq.
    rewrite (processFile_untimed _ _ now).
    destruct (processFile (filepath_Join d (de_Name en)) en now) as [r|] eqn:Hpf; simplify_eq/=.
    + exists qs, (VFile (untimed r) :: l2). split_and!; [done|by exists l2|done|].
      weigh.
    + exists qs, l2. split_and!; [done|done| |weigh].
      by rewrite <- Permutation_middle.
  - simplify_eq/=. apply entry_visits_dir in He; [|done].
    exists qs, (l1 ++ l2). split_and!; [done|by exists l1, l2|done|weigh].
  - simplify_eq/=. destruct He as [n He]. unfold visit_entry in He. rewrite Ht in He. simplify_eq.
    exists qs, l2. split_and!; [done|done| |weigh].
    cbn [app]. by rewrite <- Permutation_middle.
  - simplify_eq/=. destruct He as [n He]. unfold visit_entry in He. rewrite Ht in He. simplify_eq.
    exists qs, l2. split_and!; [done|done| |weigh].
    cbn [app]. by rewrite <- Permutation_middle.
Qed.

Lemma scanner_step_pending s p i s' p' qs l :
  scanner_step s p i = Some (s', p') → is_cancel i = false → ss_dirClosed s = false →
  Forall2 visits (ss_dirChan s) qs → phase_pending p l →
  conserves s p i s' p' qs l.
Proof.
  intros Hs Hc Hcl HF Hl. destruct p as [|d|d [|en es]|d sub es|d r es|e|], i as [e'| | |now|clock];
    try (by eapply entry_step_pending); unfold conserves; simpl in Hs; try done.
  - (* a directory is received *)
    simpl in Hl. subst l. destruct (ss_dirChan s) as [|d rest] eqn:Hd;
      [by rewrite Hcl in Hs|]. simplify_eq/=.
    apply Forall2_cons_inv_l in HF as (q & qs' & Hq & HF & ->).
    exists qs', q. split_and!; [done|done|by rewrite app_nil_r, Permutation_app_comm|].
    weigh.
  - (* the directory is read *)
    destruct (visits_head _ _ Hl) as (v & l0 & El & _).
    destruct (ReadDir d) as [es|e] eqn:Hr; simplify_eq/=.
    + destruct (visits_entries _ _ _ Hr Hl) as (ls & [= -> ->] & HFe).
      exists qs, (concat ls). split_and!; [done|by exists ls| |weigh].
      by rewrite Hr, <- Permutation_middle.
    + apply (visits_denied _ _ _ Hr) in Hl as [= -> ->].
      exists qs, []. split_and!; [done|done| |weigh].
      rewrite Hr, app_nil_r. apply Permutation_cons_append.
  - (* the directory is done *)
    simplify_eq/=. destruct Hl as (ls & HFe & ->). apply Forall2_nil_inv_l in HFe as ->.
    exists qs, []. split_and!; [done|done|done|weigh].
  - (* a directory is queued *)
    rewrite Hcl in Hs. destruct (_ <? _)%nat; simplify_eq/=.
    destruct Hl as (l1 & l2 & Hv & Hp & ->).
    exists (qs ++ [l1]), l2. split_and!.
    + by apply Forall2_app; [|constructor].
    + done.
    + rewrite concat_app. simpl. by rewrite app_nil_r, <- app_assoc.
    + weigh.
  - (* a file is queued *)
    destruct (_ <? _)%nat; simplify_eq/=. destruct Hl as (l2 & Hp & ->).
    exists qs, l2. split_and!; [done|done|by rewrite <- Permutation_middle|].
    weigh.
Qed.

(** ** What a step does to the counters *)

Definition is_file (v : visit) : bool := match v with VFile _ => true | _ => false end.
Definition is_scanned (v : visit) : bool := match v with VDir _ => true | _ => false end.
Definition is_denied (v : visit) : bool := match v with VDenied _ => true | _ => false end.
Definition is_skipped (v : visit) : bool := match v with VSkipped _ => true | _ => false end.
Definition bytes_of (l : list visit) : Z := sum_weights (fa_Size <$> files_of l).

(** The counters agree with what has been visited, modulo 2^64. *)
Record tallied (mm : MonitoringManager) (log : list visit) : Prop := {
  td_files : mm_FilesFound mm = uint64 (count is_file log);
  td_dirs : mm_DirsScanned mm = uint64 (count is_scanned log);
  td_errors : mm_ErrorCount mm = uint64 (count is_denied log);
  td_skipped : mm_SkippedItem mm = uint64 (count is_skipped log);
  td_bytes : mm_ScannerBytes mm = uint64 (bytes_of log);
}.

Lemma count_app f l1 l2 : count f (l1 ++ l2) = count f l1 + count f l2.
Proof. unfold count. rewrite List.filter_app, length_app. lia. Qed.
Lemma files_of_app l1 l2 : files_of (l1 ++ l2) = files_of l1 ++ files_of l2.
Proof. apply flat_map_app. Qed.
Lemma bytes_of_app l1 l2 : bytes_of (l1 ++ l2) = bytes_of l1 + bytes_of l2.
Proof. unfold bytes_of. by rewrite files_of_app, fmap_app, sum_weights_app. Qed.

Lemma uint64_add a b : uint64 (uint64 a + b) = uint64 (a + b).
Proof. unfold wrap_u. apply Zplus_mod_idemp_l. Qed.

Ltac tally := intros [Hf Hd He Hk Hb]; split;
  cbn [IncrErrorCount IncrDirsScanned IncrSkippedItems IncrFileFound IncrScannerBytes AddBatch
       with_stats mm_FilesFound mm_DirsScanned mm_ErrorCount mm_SkippedItem mm_ScannerBytes];
  rewrite ?count_app, ?bytes_of_app, ?Hf, ?Hd, ?He, ?Hk, ?Hb, ?uint64_add;
  rewrite ?Z.add_0_r; reflexivity.

Lemma tallied_dir mm log d : tallied mm log → tallied (IncrDirsScanned mm) (log ++ [VDir d]).
Proof. tally. Qed.
Lemma tallied_denied mm log d : tallied mm log → tallied (IncrErrorCount mm) (log ++ [VDenied d]).
Proof. tally. Qed.
Lemma tallied_skipped mm log d : tallied mm log → tallied (IncrSkippedItems mm) (log ++ [VSkipped d]).
Proof. tally. Qed.
Lemma tallied_ignored mm log d : tallied mm log → tallied mm (log ++ [VIgnored d]).
Proof. tally. Qed.
Lemma tallied_file mm log r clock : tallied mm log →
  tallied (AddBatch (IncrFileFound (IncrScannerBytes mm (fa_Size r))) clock "file-id" (fa_Path r)
             (fa_MimeType r) "scanned") (log ++ [VFile (untimed r)]).
Proof.
  intros [Hf Hd He Hk Hb]. split;
  cbn [IncrErrorCount IncrDirsScanned IncrSkippedItems IncrFileFound IncrScannerBytes AddBatch
       with_stats mm_FilesFound mm_DirsScanned mm_ErrorCount mm_SkippedItem mm_ScannerBytes];
  rewrite ?count_app, ?bytes_of_app, ?Hf, ?Hd, ?He, ?Hk, ?Hb, ?uint64_add;
  try (rewrite ?Z.add_0_r; reflexivity).
  assert (bytes_of [VFile (untimed r)] = fa_Size r) as -> by (apply Z.add_0_r). done.
Qed.

(** The share of the wait group a worker holds. *)
Definition wg_of (p : scan_phase) : Z :=
  match p with
  | Idle | Returned _ | Panicked => 0
  | Throttling _ | Looping _ _ | SendingFile _ _ _ => 1
  | SendingDir _ _ _ => 2
  end.

Lemma scanner_step_effect s p i s' p' log :
  scanner_step s p i = Some (s', p') → is_cancel i = false → ss_dirClosed s = false →
  ss_dirClosed s' = false ∧ ss_dirCap s' = ss_dirCap s ∧ ss_fileCap s' = ss_fileCap s ∧
  ss_scanWG s' - wg_of p' - Z.of_nat (length (ss_dirChan s')) =
    ss_scanWG s - wg_of p - Z.of_nat (length (ss_dirChan s)) ∧
  (tallied (ss_monitoring s) log → tallied (ss_monitoring s') (log ++ step_visits p i)) ∧
  untimed <$> ss_fileChan s' = (untimed <$> ss_fileChan s) ++ files_of (step_visits p i).
Proof.
  intros Hs Hc Hcl. destruct p as [|d|d [|en es]|d sub es|d r es|e|], i as [e'| | |now|clock];
    simpl in Hs; try done.
  - destruct (ss_dirChan s) as [|d rest] eqn:Hd; [by rewrite Hcl in Hs|]. simplify_eq.
    cbn [with_dirs ss_dirClosed ss_dirCap ss_fileCap ss_scanWG ss_dirChan ss_monitoring ss_fileChan
         step_visits wg_of length files_of flat_map].
    rewrite !app_nil_r. split_and!; try done. lia.
  - cbn [step_visits]. destruct (ReadDir d); simplify_eq; simpl; rewrite app_nil_r;
      split_and!; try done; try lia; [apply tallied_dir|apply tallied_denied].
  - simplify_eq. simpl. rewrite !app_nil_r. split_and!; try done. lia.
  - cbn [step_visits]. destruct (de_Type en).
    + destruct (processFile (filepath_Join d (de_Name en)) en now); simplify_eq; simpl;
        rewrite !app_nil_r; split_and!; try done. apply tallied_ignored.
    + simplify_eq. simpl. rewrite !app_nil_r. split_and!; try done. lia.
    + simplify_eq. simpl. rewrite app_nil_r. split_and!; try done. apply tallied_skipped.
    + simplify_eq. simpl. rewrite app_nil_r. split_and!; try done. apply tallied_skipped.
  - rewrite Hcl in Hs. destruct (_ <? _)%nat; simplify_eq. simpl. rewrite !app_nil_r, length_app.
    split_and!; try done. simpl. lia.
  - destruct (_ <? _)%nat; simplify_eq. cbn [step_visits monitor with_files ss_dirClosed ss_dirCap
      ss_fileCap ss_scanWG ss_dirChan ss_monitoring ss_fileChan wg_of files_of flat_map app].
    rewrite fmap_app. split_and!; try done. apply tallied_file.
Qed.

(** ** The invariant of a scan *)

Definition workers_weight (ps : list scan_phase) (ls : list (list visit)) : Z :=
  sum_weights (zip_with phase_weight ps ls).

Lemma workers_weight_split pre p post lpre l lpost : length pre = length lpre →
  workers_weight (pre ++ p :: post) (lpre ++ l :: lpost) =
    workers_weight pre lpre + phase_weight p l + workers_weight post lpost.
Proof.
  intros H. unfold workers_weight. rewrite zip_with_app by done. rewrite sum_weights_app.
  cbn [zip_with]. rewrite sum_weights_cons. lia.
Qed.

Record scan_inv (total : list visit) (dcap fcap : nat) (k : nat) (log : list visit)
    (s : scan_system) : Prop := {
  iv_open : ss_dirClosed (sy_shared s) = false;
  iv_dcap : ss_dirCap (sy_shared s) = dcap;
  iv_fcap : ss_fileCap (sy_shared s) = fcap;
  iv_pending : ∃ qs ls, Forall2 visits (ss_dirChan (sy_shared s)) qs ∧
    Forall2 phase_pending (sy_workers s) ls ∧ log ++ concat qs ++ concat ls ≡ₚ total ∧
    Z.of_nat k + queue_weight qs + workers_weight (sy_workers s) ls +
      Z.of_nat (length (ss_fileChan (sy_shared s))) ≤ 5 * Z.of_nat (length total);
  iv_wg : ss_scanWG (sy_shared s) =
    Z.of_nat (length (ss_dirChan (sy_shared s))) + sum_weights (wg_of <$> sy_workers s);
  iv_tally : tallied (ss_monitoring (sy_shared s)) log;
  iv_emitted : untimed <$> emitted s = files_of log;
}.

Lemma scan_inv_step total dcap fcap k log a l b :
  scan_inv total dcap fcap k log a → scan_step a l b →
  scan_inv total dcap fcap (S k) (log ++ l) b.
Proof.
  intros [Ho Hdc Hfc (qs & ls & HFq & HFl & HP & Hw) Hwg Ht He] Hs.
  destruct Hs as [s s' pre p p' post i sent Hc Hs|s ws r rest sent Hr];
    cbn [sy_shared sy_workers] in *.
  - destruct (scanner_step_effect _ _ _ _ _ log Hs Hc Ho) as (Ho' & Hdc' & Hfc' & Hwg' & Ht' & He').
    apply Forall2_app_inv_l in HFl as (lpre & lrest & HF1 & HF2 & ->).
    apply Forall2_cons_inv_l in HF2 as (lp & lpost & Hp & HF2 & ->).
    destruct (scanner_step_pending _ _ _ _ _ _ _ Hs Hc Ho HFq Hp) as (qs' & l' & HFq' & Hp' & HP' & Hw').
    assert (length pre = length lpre) as Hlen by by eapply Forall2_length.
    split; cbn [sy_shared sy_workers]; [done|congruence|congruence| | |by apply Ht'|].
    + exists qs', (lpre ++ l' :: lpost). split_and!; [done| | |].
      * apply Forall2_app; [done|]. by constructor.
      * rewrite <- HP, <- app_assoc. apply Permutation_app_head.
        rewrite !concat_app. cbn [concat].
        transitivity ((step_visits p i ++ concat qs' ++ l') ++ concat lpre ++ concat lpost);
          [|rewrite HP']; solve_Permutation.
      * rewrite workers_weight_split in Hw |- * by done. lia.
    + rewrite !fmap_app, !fmap_cons, !sum_weights_app, !sum_weights_cons in *. lia.
    + unfold emitted in *. cbn [sy_shared sy_sent] in *. rewrite fmap_app in *. by rewrite He', files_of_app, app_assoc, He.
  - split; cbn [sy_shared sy_workers]; try done; rewrite ?app_nil_r; [|done|].
    + exists qs, ls. split_and!; try done. rewrite Hr in Hw.
      cbn [length with_files ss_fileChan] in *. lia.
    + rewrite <- He. unfold emitted. cbn. by rewrite Hr, <- app_assoc.
Qed.

(** ** Scans *)

(** A scan of [root] is triggered on an idle scanner. *)
Definition fresh_scan (dcap fcap n : nat) (now : time) : scan_shared :=
  MkScanShared [] dcap false [] fcap 0 (Z.of_nat n) (NewMonitoringManager now).

Definition scan_reaches (root : string) (dcap fcap n : nat) (now : time) (k : nat)
    (log : list visit) (s : scan_system) : Prop :=
  ∃ s0 resp, TriggerScan (fresh_scan dcap fcap n now) (MkScanRequest root) = Some (s0, resp) ∧
    scan_run (MkScanSystem s0 (replicate n Idle) []) k log s.

Lemma idle_weights n : workers_weight (replicate n Idle) (replicate n []) = 0 ∧
  sum_weights (wg_of <$> replicate n Idle) = 0 ∧ concat (replicate n (@nil visit)) = [] ∧
  Forall2 phase_pending (replicate n Idle) (replicate n []).
Proof.
  unfold workers_weight. induction n as [|n (H1 & H2 & H3 & H4)]; [by split_and!|].
  cbn [replicate]. rewrite fmap_cons. cbn [zip_with concat app].
  rewrite !sum_weights_cons, H1, H2. split_and!; [done|done|done|by constructor].
Qed.

Lemma scan_reaches_inv root dcap fcap n now k log s total :
  visits root total → scan_reaches root dcap fcap n now k log s →
  scan_inv total dcap fcap k log s.
Proof.
  intros Hv (s0 & resp & Ht & Hr). unfold TriggerScan in Ht.
  destruct (_ <? _)%nat; [|done]. injection Ht as <- <-.
  destruct (idle_weights n) as (Hw & Hg & Hc & Hp).
  induction Hr as [|k log b l c _ IH Hs]; [|by eapply scan_inv_step].
  split; cbn [sy_shared sy_workers scanWG_Add with_dirs fresh_scan ss_dirClosed ss_dirCap
    ss_fileCap ss_dirChan ss_scanWG ss_monitoring ss_fileChan app]; try done.
  - exists [total], (replicate n []). rewrite Hc, Hw. cbn [concat app]. rewrite !app_nil_r.
    split_and!; [by constructor|done|done|]. unfold queue_weight, dir_weight. simpl. lia.
  - by rewrite Hg.
Qed.

Lemma sum_wg_nonneg ps : 0 ≤ sum_weights (wg_of <$> ps).
Proof.
  induction ps as [|p ps IH]; [done|]. rewrite fmap_cons, sum_weights_cons. destruct p; simpl; lia.
Qed.

Lemma sum_wg_zero ps : Forall (λ p, ∀ e, p ≠ Returned e ∧ p ≠ Panicked) ps →
  sum_weights (wg_of <$> ps) = 0 ↔ Forall (λ p, p = Idle) ps.
Proof.
  induction 1 as [|p ps Hp _ IH]; [done|]. rewrite fmap_cons, sum_weights_cons. rewrite Forall_cons, <- IH.
  pose proof (sum_wg_nonneg ps). destruct p; simpl; split; try lia; try (by intros []); try done.
  all: by destruct (Hp None); try done; destruct (Hp err).
Qed.

Lemma pending_running ps ls : Forall2 phase_pending ps ls →
  Forall (λ p, ∀ e, p ≠ Returned e ∧ p ≠ Panicked) ps.
Proof. induction 1 as [|p l ps ls Hp]; constructor; [|done]. by destruct p. Qed.

Lemma quiescent_done s qs ls : quiescent s →
  Forall2 visits (ss_dirChan (sy_shared s)) qs → Forall2 phase_pending (sy_workers s) ls →
  concat qs ++ concat ls = [].
Proof.
  intros [Hd Hi] Hq Hl. rewrite Hd in Hq. apply Forall2_nil_inv_l in Hq as ->. simpl.
  induction Hl as [|p l ps ls Hp _ IH]; [done|]. apply Forall_cons in Hi as [-> Hi].
  simpl in *. subst l. by apply IH.
Qed.

Lemma files_of_perm l1 l2 : l1 ≡ₚ l2 → files_of l1 ≡ₚ files_of l2.
Proof.
  induction 1 as [|x l1 l2 _ IH|x y l|l1 l2 l3 _ IH1 _ IH2]; [done| | |by rewrite IH1].
  - unfold files_of. simpl. by apply Permutation_app_head.
  - unfold files_of. simpl. rewrite !app_assoc. apply Permutation_app_tail, Permutation_app_comm.
Qed.

Lemma count_perm f l1 l2 : l1 ≡ₚ l2 → count f l1 = count f l2.
Proof.
  unfold count. induction 1 as [|x l1 l2 _ IH|x y l|l1 l2 l3 _ IH1 _ IH2]; simpl;
    try (repeat case_match); simpl; try lia.
Qed.

Lemma sum_weights_perm l1 l2 : l1 ≡ₚ l2 → sum_weights l1 = sum_weights l2.
Proof. unfold sum_weights. induction 1; simpl; lia. Qed.

Lemma tallied_perm mm l1 l2 : l1 ≡ₚ l2 → tallied mm l1 → tallied mm l2.
Proof.
  intros HP [? ? ? ? Hb]. split; rewrite <- ?(count_perm _ _ _ HP); try done.
  rewrite Hb. f_equal. apply sum_weights_perm. by rewrite (files_of_perm _ _ HP).
Qed.

(** When nothing is queued and every worker is idle, the tree has been visited. *)
Lemma scan_quiescent root total dcap fcap n now k log s :
  visits root total → scan_reaches root dcap fcap n now k log s → quiescent s →
  log ≡ₚ total ∧ untimed <$> emitted s ≡ₚ files_of total ∧
  tallied (ss_monitoring (sy_shared s)) total.
Proof.
  intros Hv Hr Hq. destruct (scan_reaches_inv _ _ _ _ _ _ _ _ _ Hv Hr)
    as [_ _ _ (qs & ls & HFq & HFl & HP & _) _ Ht He].
  rewrite (quiescent_done _ _ _ Hq HFq HFl), app_nil_r in HP.
  split_and!; [done|by rewrite He; apply files_of_perm|by eapply tallied_perm].
Qed.

(** C4. A scan is complete and exact however its workers interleave: the
    wait group reaches zero exactly when no directory is queued and every
    worker is idle; at that point every entry of the tree has been visited
    exactly once, the file requests emitted are exactly those of the
    authorized regular files of the tree, and the counters agree. *)
Theorem scan_complete root total dcap fcap n now k log s :
  visits root total → scan_reaches root dcap fcap n now k log s →
  (ss_scanWG (sy_shared s) = 0 ↔ quiescent s) ∧
  (quiescent s →
     log ≡ₚ total ∧ untimed <$> emitted s ≡ₚ files_of total ∧
     tallied (ss_monitoring (sy_shared s)) total).
Proof.
  intros Hv Hr. split; [|by apply (scan_quiescent root total dcap fcap n now k log s)].
  destruct (scan_reaches_inv _ _ _ _ _ _ _ _ _ Hv Hr) as [_ _ _ (qs & ls & _ & HFl & _) Hwg _ _].
  rewrite Hwg. pose proof (sum_wg_nonneg (sy_workers s)). unfold quiescent.
  rewrite <- (sum_wg_zero _ (pending_running _ _ HFl)), <- length_zero_iff_nil. lia.
Qed.

(** ** Scans end *)

Lemma phase_weight_nonneg p l : phase_pending p l → 0 ≤ phase_weight p l.
Proof.
  unfold phase_weight. destruct p; simpl; try lia.
  intros (v & l' & -> & _)%visits_head. cbn [length]. lia.
Qed.

Lemma queue_weight_nonneg ds qs : Forall2 visits ds qs → 0 ≤ queue_weight qs.
Proof.
  induction 1 as [|d q ds qs (v & l' & -> & _)%visits_head _ IH]; [done|].
  rewrite queue_weight_cons. unfold dir_weight. cbn [length]. lia.
Qed.

Lemma workers_weight_nonneg ps ls : Forall2 phase_pending ps ls → 0 ≤ workers_weight ps ls.
Proof.
  unfold workers_weight. induction 1 as [|p l ps ls Hp _ IH]; [done|]. cbn [zip_with].
  rewrite sum_weights_cons. apply phase_weight_nonneg in Hp. lia.
Qed.

Lemma count_nonneg f l : 0 ≤ count f l.
Proof. unfold count. lia. Qed.

(** Every queued directory is still to be visited. *)
Lemma queued_dirs ds qs : Forall2 visits ds qs →
  Z.of_nat (length ds) ≤ count is_dir_visit (concat qs).
Proof.
  induction 1 as [|d q ds qs (v & l' & -> & Hv)%visits_head _ IH]; [done|].
  cbn [concat length]. change ((v :: l') ++ concat qs) with ([v] ++ l' ++ concat qs).
  rewrite !count_app. assert (count is_dir_visit [v] = 1) as ->.
  { unfold count. simpl. by rewrite Hv. }
  pose proof (count_nonneg is_dir_visit l'). lia.
Qed.

(** A worker that is not idle can move, or waits for room. *)
Lemma worker_moves s p l : phase_pending p l → p ≠ Idle → ss_dirClosed s = false →
  (∃ i s' p', is_cancel i = false ∧ scanner_step s p i = Some (s', p')) ∨
  (∃ d sub es, p = SendingDir d sub es ∧ (ss_dirCap s ≤ length (ss_dirChan s))%nat) ∨
  (∃ d r es, p = SendingFile d r es ∧ (ss_fileCap s ≤ length (ss_fileChan s))%nat).
Proof.
  intros Hp Hi Hc. destruct p as [|d|d [|en es]|d sub es|d r es|e|]; try done.
  - left. exists PauseOver. simpl. destruct (ReadDir d); by eexists _, _.
  - left. by eexists (NextEntry 0), _, _.
  - left. exists (NextEntry 0). simpl. destruct (de_Type en); try (by eexists _, _).
    destruct (processFile _ _ _); by eexists _, _.
  - destruct (Nat.lt_ge_cases (length (ss_dirChan s)) (ss_dirCap s)) as [Hlt|Hge].
    + left. exists (Sent ""). simpl. rewrite Hc, (proj2 (Nat.ltb_lt _ _) Hlt). by eexists _, _.
    + right. left. by eexists _, _, _.
  - destruct (Nat.lt_ge_cases (length (ss_fileChan s)) (ss_fileCap s)) as [Hlt|Hge].
    + left. exists (Sent ""). simpl. rewrite (proj2 (Nat.ltb_lt _ _) Hlt). by eexists _, _.
    + right. right. by eexists _, _, _.
Qed.

Lemma all_idle_or_split ps : Forall (λ p, p = Idle) ps ∨
  ∃ pre p post, ps = pre ++ p :: post ∧ p ≠ Idle.
Proof.
  induction ps as [|p ps [IH|(pre & q & post & -> & Hq)]]; [by left| |].
  - destruct p; [left; by constructor|right; eexists [], _, ps; by split..].
  - right. by exists (p :: pre), q, post.
Qed.

Lemma system_moves s pre p post sent i s' p' : is_cancel i = false →
  scanner_step s p i = Some (s', p') →
  ∃ l c, scan_step (MkScanSystem s (pre ++ p :: post) sent) l c.
Proof. intros. eexists _, _. by eapply step_worker. Qed.

Lemma scan_progress total dcap fcap k log s :
  scan_inv total dcap fcap k log s → sy_workers s ≠ [] →
  count is_dir_visit total ≤ Z.of_nat dcap → (0 < fcap)%nat →
  quiescent s ∨ ∃ l c, scan_step s l c.
Proof.
  intros [Ho Hdc Hfc (qs & ls & HFq & HFl & HP & _) _ _ _] Hn Hd Hf.
  destruct s as [s ws sent]. cbn [sy_shared sy_workers] in *.
  destruct (ss_fileChan s) as [|r rest] eqn:Hfiles;
    [|right; eexists _, _; by apply step_sender].
  destruct (all_idle_or_split ws) as [Hidle|(pre & p & post & -> & Hp)].
  - destruct (ss_dirChan s) as [|d rest] eqn:Hds; [by left|]. right.
    destruct ws as [|p ws]; [done|]. apply Forall_cons in Hidle as [-> _].
    apply (system_moves s [] Idle ws sent Receive (with_dirs s rest) (Throttling d)); [done|].
    simpl. by rewrite Hds.
  - right. apply Forall2_app_inv_l in HFl as (lpre & lrest & _ & HF2 & ->).
    apply Forall2_cons_inv_l in HF2 as (lp & lpost & Hpp & _ & ->).
    destruct (worker_moves s p lp Hpp Hp Ho)
      as [(i & s' & p' & Hi & Hs)|[(d & sub & es & -> & Hge)|(d & r & es & -> & Hge)]].
    + by eapply system_moves.
    + exfalso. destruct Hpp as (l1 & l2 & Hv & _ & ->).
      pose proof (queued_dirs _ _ HFq). pose proof (count_perm is_dir_visit _ _ HP) as Hcnt.
      assert (Forall2 visits [sub] [l1]) as Hsub%queued_dirs by by constructor.
      cbn [concat length] in Hsub. rewrite app_nil_r in Hsub.
      rewrite !concat_app in Hcnt. cbn [concat] in Hcnt. rewrite !count_app in Hcnt.
      pose proof (count_nonneg is_dir_visit log). pose proof (count_nonneg is_dir_visit l2).
      pose proof (count_nonneg is_dir_visit (concat lpre)).
      pose proof (count_nonneg is_dir_visit (concat lpost)). lia.
    + exfalso. rewrite Hfiles in Hge. simpl in Hge. lia.
Qed.

Lemma scan_run_workers a k log b : scan_run a k log b →
  length (sy_workers b) = length (sy_workers a).
Proof.
  induction 1 as [|k log b l c _ IH Hs]; [done|]. rewrite <- IH.
  destruct Hs; cbn [sy_workers]; [|done]. by rewrite !length_app.
Qed.

(** C29. A scan of a finite tree always ends: it takes at most five steps per
    entry of the tree, whatever the interleaving; and when the directory
    channel can hold the directories of the tree, it never blocks before it is
    complete (there being at least one worker and some room for files). *)
Theorem scan_terminates root total dcap fcap n now k log s :
  visits root total → scan_reaches root dcap fcap n now k log s →
  Z.of_nat k ≤ 5 * Z.of_nat (length total) ∧
  ((0 < n)%nat → count is_dir_visit total ≤ Z.of_nat dcap → (0 < fcap)%nat →
     quiescent s ∨ ∃ l s', scan_step s l s').
Proof.
  intros Hv Hr. pose proof (scan_reaches_inv _ _ _ _ _ _ _ _ _ Hv Hr) as Hinv. split.
  - destruct (iv_pending _ _ _ _ _ _ Hinv) as (qs & ls & HFq & HFl & _ & Hw).
    apply queue_weight_nonneg in HFq. apply workers_weight_nonneg in HFl. lia.
  - intros Hn Hd Hf. eapply scan_progress; [exact Hinv| |done|done].
    destruct Hr as (s0 & resp & _ & Hr%scan_run_workers). cbn [sy_workers] in Hr.
    rewrite length_replicate in Hr. destruct (sy_workers s); [simpl in Hr; lia|done].
Qed.

(** ** One worker on its own *)

Fixpoint run_inputs (s : scan_shared) (p : scan_phase) (ins : list scan_input)
  : option (scan_shared * scan_phase) :=
  match ins with
  | [] => Some (s, p)
  | i :: ins =>
      match scanner_step s p i with
      | Some (s, p) => run_inputs s p ins
      | None => None
      end
  end.

Lemma run_inputs_run ins : ∀ s p s' p' a k log,
  run_inputs s p ins = Some (s', p') → forallb (λ i, negb (is_cancel i)) ins = true →
  scan_run a k log (MkScanSystem s [p] []) →
  ∃ k' log', scan_run a k' log' (MkScanSystem s' [p'] []).
Proof.
  induction ins as [|i ins IH]; intros s p s' p' a k log Hr Hc Ha; cbn [run_inputs] in Hr.
  { simplify_eq. by eexists _, _. }
  cbn [forallb] in Hc. apply andb_true_iff in Hc as [Hi%negb_true_iff Hc].
  destruct (scanner_step s p i) as [[s1 p1]|] eqn:Hs; [|done].
  eapply IH; [exact Hr|exact Hc|]. eapply run_step; [exact Ha|].
  apply (step_worker s s1 [] p p1 [] i []); done.
Qed.

End Scanner.
#[global] Arguments scan_step {UT E} w _ _ _.

(** ** A concrete file system *)

(** [/r] holds an image, a symbolic link and a directory [d], which holds a
    PDF file, a file whose type is not authorized and a directory that cannot be
    read. *)
Definition demo_fs : ScanEnv := {|
  ReadDir := λ d,
    if String.eqb d "/r" then
      Ok [MkDirEntry "a.png" TRegular (Ok 5); MkDirEntry "l" TSymlink (Ok 0);
          MkDirEntry "d" TDir (Ok 0)]
    else if String.eqb d "/r/d" then
      Ok [MkDirEntry "b.pdf" TRegular (Ok 9); MkDirEntry "c.bin" TRegular (Ok 3);
          MkDirEntry "x" TDir (Ok 0)]
    else Err (Opaque "permission denied");
  ReadMagic := λ p, if String.eqb p "/r/d/c.bin" then None else Some (String.substring 0 8 p);
  magic_Detect := λ m,
    if String.eqb m "" then "application/octet-stream"
    else if String.eqb m "/r/a.png" then "image/png" else "application/pdf";
|}.
Definition demo_worker : FileScannerWorker := MkFileScannerWorker "drive" 50 80.

Definition demo_tree : list visit :=
  Eval vm_compute in
    default [] (tree (UT := Latin1Tables) (E := demo_fs) demo_worker 3 "/r").

Lemma demo_visits : visits (UT := Latin1Tables) (E := demo_fs) demo_worker "/r" demo_tree.
Proof. exists 3%nat. vm_compute. reflexivity. Qed.

Definition demo_inputs : list scan_input :=
  let file := [NextEntry 7; Sent "12:00:00"] in
  [Receive; PauseOver] ++ file ++ [NextEntry 7] ++ file ++ [NextEntry 7] ++
  [Receive; PauseOver] ++ file ++ [NextEntry 7] ++ file ++ [NextEntry 7] ++
  [Receive; PauseOver].
Definition demo_start (cap : nat) : scan_shared :=
  scanWG_Add (with_dirs (fresh_scan cap 10 1 0) ["/r"]) 1.
Definition demo_final : scan_shared :=
  Eval vm_compute in
    default (demo_start 4) (fst <$> run_inputs (UT := Latin1Tables) (E := demo_fs) demo_worker (demo_start 4) Idle demo_inputs).

Lemma demo_scan : ∃ k log, scan_reaches (UT := Latin1Tables) (E := demo_fs) demo_worker "/r" 4 10 1 0
  k log (MkScanSystem demo_final [Idle] []).
Proof.
  assert (run_inputs (UT := Latin1Tables) (E := demo_fs) demo_worker (demo_start 4) Idle demo_inputs = Some (demo_final, Idle)) as Hr by vm_refl.
  destruct (run_inputs_run _ _ _ _ _ _ _ _ _ Hr eq_refl (run_start _ _)) as (k & log & Hk).
  exists k, log. by exists (demo_start 4), (MkScanResponse true).
Qed.

Lemma scan_complete_witness :
  untimed <$> ss_fileChan demo_final ≡ₚ files_of demo_tree ∧
  length (ss_fileChan demo_final) = 2%nat ∧ tallied (ss_monitoring demo_final) demo_tree.
Proof.
  destruct demo_scan as (k & log & Hk).
  destruct (scan_complete (UT := Latin1Tables) (E := demo_fs) demo_worker "/r" demo_tree 4 10 1 0 k log
    _ demo_visits Hk) as [_ H].
  destruct H as (_ & He & Ht); [split; [reflexivity|by repeat constructor]|].
  split; [exact He|]. split; [reflexivity|exact Ht].
Defined.

Lemma scan_terminates_witness :
  ∃ k log, scan_reaches (UT := Latin1Tables) (E := demo_fs) demo_worker "/r" 4 10 1 0 k log
    (MkScanSystem demo_final [Idle] []) ∧ Z.of_nat k ≤ 35.
Proof.
  destruct demo_scan as (k & log & Hk). exists k, log. split; [exact Hk|].
  exact (proj1 (scan_terminates (UT := Latin1Tables) (E := demo_fs) demo_worker "/r" demo_tree 4 10 1 0
    k log _ demo_visits Hk)).
Defined.

(** Without that room a scan can block for ever: a directory with more
    sub-directories than the channel holds fills it, and the only worker waits
    to queue the next one while nobody is left to take them out. *)
Definition wide_fs : ScanEnv := {|
  ReadDir := λ d, if String.eqb d "/r" then Ok [MkDirEntry "a" TDir (Ok 0); MkDirEntry "b" TDir (Ok 0)]
                  else Ok [];
  ReadMagic := λ _, None;
  magic_Detect := λ _, "text/plain";
|}.
Definition stuck : scan_system :=
  MkScanSystem (scanWG_Add (with_dirs (monitor (demo_start 1) IncrDirsScanned) ["/r/a"]) 2)
    [SendingDir "/r" "/r/b" []] [].

Theorem scan_can_block :
  (∃ k log, scan_reaches (UT := Latin1Tables) (E := wide_fs) demo_worker "/r" 1 10 1 0 k log stuck) ∧
  ¬ quiescent stuck ∧
  ∀ l s', ¬ scan_step (UT := Latin1Tables) (E := wide_fs) demo_worker stuck l s'.
Proof.
  split; [|split].
  - assert (run_inputs (UT := Latin1Tables) (E := wide_fs) demo_worker (demo_start 1) Idle
      [Receive; PauseOver; NextEntry 0; Sent ""; NextEntry 0] =
      Some (sy_shared stuck, SendingDir "/r" "/r/b" [])) as Hr by vm_refl.
    destruct (run_inputs_run _ _ _ _ _ _ _ _ _ Hr eq_refl (run_start _ _)) as (k & log & Hk).
    exists k, log. by exists (demo_start 1), (MkScanResponse true).
  - intros [Hd _]. done.
  - intros l s' Hs. remember stuck as st eqn:Est. unfold stuck in Est.
    destruct Hs as [s s1 pre p p' post i sent Hc Hst|s ws r rest sent Hr]; injection Est as -> Hw ->;
      [|done].
    destruct pre as [|q [|q' pre]]; [injection Hw as -> ->|done..].
    destruct i; discriminate.
Qed.
