(* ===== verification/Analyze.v ===== *)
(** * Analyze: streaming file metadata to the master

    [runtime/workers/file_sender.go] on the scanner,
    [infrastructure/grpc/server/file_analyzer_server.go] and
    [services/analyzer_service.go] on the master.  The cases the [select]s
    take, the results of the stream's operations, fresh identifiers and the
    clock are arguments. *)

From Stdlib Require Import String.
From S2P Require Import Prelude Errors Env Domain Mime Monitoring.

(** The struct validator on a request. *)
Class AnalyzeValidator := { validate_request : FileAnalyzerRequest → option error }.

Section Analyze.
Context {U : Uuid} {TS : Timestamppb} {V : AnalyzeValidator}.

(** ** The wire *)

(** [pb.SourceType]. *)
Definition SourceType_UNSPECIFIED : Z := 0.
Definition SourceType_LOCAL_FIXED : Z := 1.
Definition SourceType_REMOVABLE : Z := 2.
Definition SourceType_NETWORK : Z := 3.

Record pbFileAnalyzerRequest := MkPbFileAnalyzerRequest {
  pa_Path : string; pa_DriveId : string; pa_Size : Z; pa_Attributes : Z; pa_MimeType : string;
  pa_MagicBytes : string; pa_ScannedAt : option Timestamp; pa_SourceType : Z;
}.
Record pbFileAnalyzerResponse := MkPbFileAnalyzerResponse {
  pa_FilesReceived : Z; pa_BytesProcessed : Z; pa_EndedAt : option Timestamp;
}.

Definition toPbSourceType (st : SourceType) : Z :=
  if String.eqb st UNSPECIFIED then SourceType_UNSPECIFIED
  else if String.eqb st LOCALFIXED then SourceType_LOCAL_FIXED
  else if String.eqb st REMOVABLE then SourceType_REMOVABLE
  else if String.eqb st NETWORK then SourceType_NETWORK
  else SourceType_UNSPECIFIED.

Definition toSourceType (st : Z) : SourceType :=
  if st =? SourceType_UNSPECIFIED then UNSPECIFIED
  else if st =? SourceType_LOCAL_FIXED then LOCALFIXED
  else if st =? SourceType_REMOVABLE then REMOVABLE
  else if st =? SourceType_NETWORK then NETWORK
  else UNSPECIFIED.

Definition toPbFileAnalyzerRequest (req : FileAnalyzerRequest) : pbFileAnalyzerRequest :=
  MkPbFileAnalyzerRequest (fa_Path req) (fa_DriveID req) (fa_Size req) (fa_Attributes req)
    (fa_MimeType req) (fa_MagicBytes req) (Some (timestamppb_New (fa_ScannedAt req)))
    (toPbSourceType (fa_SourceType req)).

Definition fromPbFileAnalyzerRequest (req : pbFileAnalyzerRequest) : FileAnalyzerRequest :=
  MkFileAnalyzerRequest (pa_Path req) (pa_DriveId req) (pa_Size req) (pa_Attributes req)
    (pa_MimeType req) (pa_MagicBytes req) (AsTime (pa_ScannedAt req))
    (toSourceType (pa_SourceType req)).

(** ** The sender *)

(** What the sending goroutine receives: the progress ticker, the
    cancellation, a request with the outcome of acquiring a slot and of
    [Send], or the end of the channel. *)
Inductive send_signal :=
| SendTick
| SendDone (err : error)
| SendFile (req : FileAnalyzerRequest) (no_slot : option error) (send_err : option error)
| SendClosed.

(** What was sent, the monitoring, and the value put on [sendErrChan] ([None]
    while it runs).  A slot is released on every path that acquired one, so
    the semaphore is empty between two requests. *)
Fixpoint sending (signals : list send_signal) (sent : list pbFileAnalyzerRequest)
    (mm : MonitoringManager)
  : list pbFileAnalyzerRequest * MonitoringManager * option (option error) :=
  match signals with
  | [] => (sent, mm, None)
  | SendTick :: signals => sending signals sent mm
  | SendDone err :: _ => (sent, mm, Some (Some err))
  | SendClosed :: _ => (sent, mm, Some None)
  | SendFile req (Some err) _ :: _ => (sent, mm, Some (Some err))
  | SendFile req None (Some err) :: _ => (sent, mm, Some (Some (Errorf "send error: " err)))
  | SendFile req None None :: signals =>
      sending signals (sent ++ [toPbFileAnalyzerRequest req]) (IncrMasterBytes mm (fa_Size req))
  end.

Definition is_failure (e : option error) : bool :=
  match e with None | Some Canceled => false | Some _ => true end.

(** [FileSenderWorker.Run]; [None] while the goroutine runs.  [final] is the
    result of [CloseAndRecv]. *)
Definition FileSenderWorker_Run (open_err : option error) (signals : list send_signal)
    (final : result error pbFileAnalyzerResponse) (mm : MonitoringManager)
  : list pbFileAnalyzerRequest * MonitoringManager * option (option error) :=
  match open_err with
  | Some err => ([], mm, Some (Some (Errorf "unable to open the stream to analyze files: " err)))
  | None =>
      match sending signals [] mm with
      | (sent, mm, None) => (sent, mm, None)
      | (sent, mm, Some sendErr) =>
          let ret :=
            match final with
            | Ok _ => sendErr
            | Err err =>
                if is_failure sendErr then sendErr
                else if bool_decide (err = EOF) || bool_decide (sendErr = Some Canceled) then sendErr
                else Some (Errorf "error receiving final response: " err)
            end in
          (sent, mm, Some ret)
      end
  end.

(** ** The service *)

Record AnalyzerService := MkAnalyzerService {
  az_eventChan : list Event;
  az_countAnalyzedFiles : CountAnalyzedFiles;
}.

Definition toEvent (fresh : uuid) (now : time) (request : FileAnalyzerRequest) : Event :=
  MkEvent FileAnalyzeType now
    (PayloadFileAnalyse (MkFileAnalyse fresh (fa_Path request) (fa_DriveID request)
       (fa_Size request) (fa_Attributes request) (fa_MimeType request)
       (ToMIME (fa_MimeType request)) (fa_MagicBytes request) (fa_ScannedAt request)
       (fa_SourceType request))).

Definition increment (c : CountAnalyzedFiles) (fileSize : Z) : CountAnalyzedFiles :=
  MkCountAnalyzedFiles (uint64 (FilesReceived c + 1)) (uint64 (BytesProcessed c + fileSize)).

(** [ctx]: the error of the context when the [select] takes [ctx.Done()]. *)
Definition service_Analyze (s : AnalyzerService) (ctx : option error) (fresh : uuid) (now : time)
    (request : FileAnalyzerRequest) : AnalyzerService * option error :=
  match validate_request request with
  | Some err => (s, Some err)
  | None =>
      match ctx with
      | Some err => (s, Some err)
      | None =>
          (MkAnalyzerService (az_eventChan s ++ [toEvent fresh now request])
             (increment (az_countAnalyzedFiles s) (fa_Size request)), None)
      end
  end.

(** ** The server *)

(** One [Recv], with what the service needs for it. *)
Record server_recv := MkServerRecv {
  rv_result : result error (option pbFileAnalyzerRequest);
  rv_ctx : option error; rv_fresh : uuid; rv_now : time;
}.
(** How the handler ends: with a response, or with an error. *)
Inductive stream_end := Responded (r : pbFileAnalyzerResponse) | StreamFailed (err : error).

Fixpoint server_Analyze (s : AnalyzerService) (recvs : list server_recv)
  : AnalyzerService * option stream_end :=
  match recvs with
  | [] => (s, None)
  | r :: recvs =>
      match rv_result r with
      | Err EOF =>
          (s, Some (Responded (MkPbFileAnalyzerResponse
                (FilesReceived (az_countAnalyzedFiles s)) (BytesProcessed (az_countAnalyzedFiles s))
                (Some (timestamppb_New (rv_now r))))))
      | Err err => (s, Some (StreamFailed err))
      | Ok None => server_Analyze s recvs
      | Ok (Some request) =>
          match service_Analyze s (rv_ctx r) (rv_fresh r) (rv_now r)
                  (fromPbFileAnalyzerRequest request) with
          | (s, Some err) =>
              if Is err Canceled || Is err DeadlineExceeded then (s, Some (StreamFailed err))
              else server_Analyze s recvs
          | (s, None) => server_Analyze s recvs
          end
      end
  end.

(** ** The wire keeps requests *)

Definition known_source (st : SourceType) : Prop := st ∈ [UNSPECIFIED; LOCALFIXED; REMOVABLE; NETWORK].

Lemma source_roundtrip st : known_source st → toSourceType (toPbSourceType st) = st.
Proof.
  unfold known_source. rewrite !elem_of_cons. intros [->|[->|[->|[->|[]%not_elem_of_nil]]]]; done.
Qed.

Lemma request_roundtrip `{!TimestamppbLaws TS} req : known_source (fa_SourceType req) →
  fromPbFileAnalyzerRequest (toPbFileAnalyzerRequest req) = req.
Proof.
  intros H. unfold fromPbFileAnalyzerRequest, toPbFileAnalyzerRequest. simpl.
  rewrite (AsTime_New (fa_ScannedAt req)), source_roundtrip by done. by destruct req.
Qed.

(** ** A whole stream *)

Definition valid (req : FileAnalyzerRequest) : bool :=
  match validate_request req with None => true | Some _ => false end.
Definition total_size (reqs : list FileAnalyzerRequest) : Z := foldr (λ r n, fa_Size r + n) 0 reqs.

Lemma sending_all reqs rest : ∀ sent mm,
  sending (((λ r, SendFile r None None) <$> reqs) ++ rest) sent mm =
  sending rest (sent ++ (toPbFileAnalyzerRequest <$> reqs))
    (foldl (λ mm r, IncrMasterBytes mm (fa_Size r)) mm reqs).
Proof.
  induction reqs as [|r reqs IH]; intros sent mm; [by rewrite app_nil_r|].
  rewrite !fmap_cons. cbn [app sending foldl]. by rewrite IH, <- app_assoc.
Qed.

Lemma master_bytes reqs : ∀ mm b, mm_MasterBytes mm = uint64 b →
  mm_MasterBytes (foldl (λ mm r, IncrMasterBytes mm (fa_Size r)) mm reqs) =
    uint64 (b + total_size reqs).
Proof.
  induction reqs as [|r reqs IH]; intros mm b H; simpl; [by rewrite Z.add_0_r|].
  rewrite (IH _ (b + fa_Size r)); [f_equal; lia|]. simpl. rewrite H. unfold wrap_u.
  apply Zplus_mod_idemp_l.
Qed.

(** What the server receives when nothing goes wrong. *)
Definition stream_recvs (reqs : list (FileAnalyzerRequest * (uuid * time))) : list server_recv :=
  (λ p, MkServerRecv (Ok (Some (toPbFileAnalyzerRequest p.1))) None p.2.1 p.2.2) <$> reqs.

(** Validation errors are of the validator's own type, never the context's. *)
Class AnalyzeValidatorLaws : Prop :=
  validate_not_ctx : ∀ r e, validate_request r = Some e →
    Is e Canceled = false ∧ Is e DeadlineExceeded = false.

Lemma server_stream `{!TimestamppbLaws TS} `{!AnalyzeValidatorLaws} reqs rest : ∀ s f b,
  Forall (λ p, known_source (fa_SourceType p.1)) reqs →
  az_countAnalyzedFiles s = MkCountAnalyzedFiles (uint64 f) (uint64 b) →
  let ok := List.filter (λ p, valid p.1) reqs in
  server_Analyze s (stream_recvs reqs ++ rest) =
  server_Analyze (MkAnalyzerService
      (az_eventChan s ++ ((λ p, toEvent p.2.1 p.2.2 p.1) <$> ok))
      (MkCountAnalyzedFiles (uint64 (f + Z.of_nat (length ok)))
         (uint64 (b + total_size (fst <$> ok))))) rest.
Proof.
  induction reqs as [|[r [u t]] reqs IH]; intros s f b Hk Hc; cbv zeta.
  { simpl. rewrite app_nil_r, !Z.add_0_r, <- Hc. by destruct s. }
  apply Forall_cons in Hk as [Hr Hk]. unfold stream_recvs. rewrite fmap_cons.
  cbn [app server_Analyze rv_result rv_ctx rv_fresh rv_now fst snd List.filter] in *.
  fold (stream_recvs reqs). rewrite request_roundtrip by done. unfold service_Analyze.
  destruct (validate_request r) as [e|] eqn:Hv.
  - assert (valid r = false) as -> by (unfold valid; by rewrite Hv).
    destruct (validate_not_ctx _ _ Hv) as [-> ->]. by apply IH.
  - assert (valid r = true) as -> by (unfold valid; by rewrite Hv).
    rewrite (IH _ (f + 1) (b + fa_Size r)); [|done|].
    + rewrite !fmap_cons. cbn [az_eventChan length total_size foldr fst snd].
      fold (total_size (fst <$> List.filter (λ p, valid p.1) reqs)).
      rewrite <- app_assoc. cbn [app]. do 3 f_equal; f_equal; lia.
    + rewrite Hc. unfold increment, wrap_u. simpl. by rewrite !Zplus_mod_idemp_l.
Qed.

(** C36. Nothing is lost between the scanner and the master: when the file
    channel is drained and closed without errors, the sender puts every request
    on the wire in order and returns without error, and the server turns exactly
    the valid ones, in order and unchanged, into analysis events, skipping the
    invalid ones without ending the stream; its summary is the number and the
    size of the files accepted since the service started, modulo 2^64. *)
Theorem analyze_stream `{!TimestamppbLaws TS} `{!AnalyzeValidatorLaws} reqs mm now last f b :
  let sent := fst <$> reqs in
  let ok := List.filter (λ p, valid p.1) reqs in
  let counts := MkCountAnalyzedFiles (uint64 f) (uint64 b) in
  Forall (λ p, known_source (fa_SourceType p.1)) reqs →
  mm_MasterBytes mm = 0 →
  ∃ mm' response,
    server_Analyze (MkAnalyzerService [] counts)
      (stream_recvs reqs ++ [MkServerRecv (Err EOF) None last now]) =
      (MkAnalyzerService ((λ p, toEvent p.2.1 p.2.2 p.1) <$> ok)
         (MkCountAnalyzedFiles (pa_FilesReceived response) (pa_BytesProcessed response)),
       Some (Responded response)) ∧
    pa_FilesReceived response = uint64 (f + Z.of_nat (length ok)) ∧
    pa_BytesProcessed response = uint64 (b + total_size (fst <$> ok)) ∧
    FileSenderWorker_Run None (((λ r, SendFile r None None) <$> sent) ++ [SendClosed])
      (Ok response) mm =
      (toPbFileAnalyzerRequest <$> sent, mm', Some None) ∧
    mm_MasterBytes mm' = uint64 (total_size sent).
Proof.
  intros sent ok counts Hk Hm.
  exists (foldl (λ mm r, IncrMasterBytes mm (fa_Size r)) mm sent),
    (MkPbFileAnalyzerResponse (uint64 (f + Z.of_nat (length ok)))
       (uint64 (b + total_size (fst <$> ok))) (Some (timestamppb_New now))).
  split_and!; [|done|done| |].
  - by rewrite (server_stream reqs _ (MkAnalyzerService [] counts) f b Hk eq_refl).
  - unfold FileSenderWorker_Run. by rewrite sending_all.
  - by rewrite (master_bytes _ _ 0 Hm).
Qed.

(** An error of the stream or of the context is never hidden: the sender returns
    it, except a cancellation or an end of stream after everything was sent. *)
Lemma sender_reports open_err signals final mm sent mm' ret :
  FileSenderWorker_Run open_err signals final mm = (sent, mm', Some ret) →
  ret = None → open_err = None ∧ (∀ e, final = Err e → e = EOF).
Proof.
  unfold FileSenderWorker_Run. intros H ->. destruct open_err; [done|]. split; [done|].
  intros e ->. destruct (sending signals [] mm) as [[? ?] [sendErr|]]; [|done].
  destruct (is_failure sendErr) eqn:Hf; [by simplify_eq/=|].
  destruct (bool_decide_reflect (e = EOF)) as [->|]; [done|].
  destruct (bool_decide_reflect (sendErr = Some Canceled)) as [->|]; by simplify_eq/=.
Qed.

End Analyze.

(** ** A concrete validator *)

Definition demo_validator : AnalyzeValidator := {|
  validate_request := λ r,
    if String.eqb (fa_DriveID r) "" then Some (Opaque "DriveID: required") else None
|}.
Lemma demo_validator_laws : AnalyzeValidatorLaws (V := demo_validator).
Proof. intros r e. simpl. case_match; [|done]. by intros [= <-]. Qed.

Definition demo_file_request (drive : string) (size : Z) : FileAnalyzerRequest :=
  MkFileAnalyzerRequest "/r/a" drive size 0 "application/pdf" "%PDF" 7 LOCALFIXED.

Lemma analyze_stream_witness :
  ∃ response : pbFileAnalyzerResponse,
    pa_FilesReceived response = 2 ∧ pa_BytesProcessed response = 14 ∧
    snd (server_Analyze (V := demo_validator) (MkAnalyzerService [] NewCountAnalyzedFiles)
      (stream_recvs [(demo_file_request "d" 5, (uuid16_nil, 1));
                     (demo_file_request "" 3, (uuid16_nil, 2));
                     (demo_file_request "d" 9, (uuid16_nil, 3))] ++
       [MkServerRecv (Err EOF) None uuid16_nil 4])) = Some (Responded response).
Proof.
  pose proof (analyze_stream (V := demo_validator)
    (TimestamppbLaws0 := PairTimestamp_laws) (H := demo_validator_laws)
    [(demo_file_request "d" 5, (uuid16_nil, 1)); (demo_file_request "" 3, (uuid16_nil, 2));
     (demo_file_request "d" 9, (uuid16_nil, 3))] (NewMonitoringManager 0) 4 uuid16_nil 0 0)
    as H.
  destruct H as (mm' & response & Hs & Hf & Hb & _ & _).
  - repeat constructor.
  - reflexivity.
  - exists response. split; [exact Hf|]. split; [exact Hb|]. exact (f_equal snd Hs).
Defined.
