(* ===== verification/Jobs.v ===== *)
(** * Jobs: analysing files with the specialists

    [runtime/workers/file_tmp_job.go] (the queue of downloaded files and its
    capacity), [Broadcast] of [runtime/coordinator.go] and
    [infrastructure/grpc/client/specialist_client.go].  The job worker is
    verified with the coordinator it asks; the order in which Go iterates a map, the operating system's answers and the specialists' replies are
    arguments. *)

From Stdlib Require Import String.
From S2P Require Import Prelude Errors Env Domain.

Section Jobs.
Context {U : Uuid}.

(** ** The job worker *)

Record FileJob := MkFileJob {
  fj_DriveID : string; fj_TmpFilePath : string; fj_EffectiveMimeType : MIME; fj_IsRunning : bool;
  fj_CreatedAt : time;
}.

(** [jw_disk] are the temporary files present. *)
Record FileTmpJobWorker := MkFileTmpJobWorker {
  jw_maxFileToProcess : Z;
  jw_processingFileCount : Z;
  jw_eventChan : list Event;
  jw_jobs : gmap FileID FileJob;
  jw_disk : gset string;
}.

Definition NewFileTmpJobWorker (maxFileToProcess : Z) (disk : gset string) : FileTmpJobWorker :=
  MkFileTmpJobWorker maxFileToProcess 0 [] ∅ disk.

Definition GetState (w : FileTmpJobWorker) : Z * Z :=
  (jw_processingFileCount w, jw_maxFileToProcess w).

Definition with_jobs (w : FileTmpJobWorker) (count : Z) (jobs : gmap FileID FileJob)
  : FileTmpJobWorker :=
  MkFileTmpJobWorker (jw_maxFileToProcess w) count (jw_eventChan w) jobs (jw_disk w).

Definition addJob (w : FileTmpJobWorker) (now : time) (loc : TmpFileLocation) : FileTmpJobWorker :=
  match jw_jobs w !! tl_FileID loc with
  | None =>
      with_jobs w (jw_processingFileCount w)
        (<[tl_FileID loc := MkFileJob (tl_DriveID loc) (tl_TmpFilePath loc)
                              (tl_EffectiveMimeType loc) false now]> (jw_jobs w))
  | Some _ => w
  end.

(** [deleteFile]; [rm] is what [os.Remove] answers. *)
Definition deleteFile (w : FileTmpJobWorker) (rm : string → option error) (path : string)
  : FileTmpJobWorker * option error :=
  match rm path with
  | Some err =>
      (w, if Is err ErrNotExist then None else Some (Errorf "failed to remove tmp file: " err))
  | None =>
      (MkFileTmpJobWorker (jw_maxFileToProcess w) (jw_processingFileCount w) (jw_eventChan w)
         (jw_jobs w) (jw_disk w ∖ {[path]}), None)
  end.

(** One file of [processJobs]; [broadcast] is what the coordinator answers. *)
Definition processJob (w : FileTmpJobWorker) (broadcast : SpecialistRequest → option error)
    (rm : string → option error) (fileID : FileID) (fileJob : FileJob)
  : FileTmpJobWorker * bool :=
  let request := MkSpecialistRequest fileID (fj_TmpFilePath fileJob) (fj_EffectiveMimeType fileJob) in
  let count := uint32 (jw_processingFileCount w + 1) in
  match broadcast request with
  | Some _ =>
      let '(w, _) := deleteFile (with_jobs w (uint32 (count - 1)) (jw_jobs w)) rm
                       (fj_TmpFilePath fileJob) in
      (with_jobs w (jw_processingFileCount w) (delete fileID (jw_jobs w)), false)
  | None =>
      (with_jobs w count
         (<[fileID := MkFileJob (fj_DriveID fileJob) (fj_TmpFilePath fileJob)
                        (fj_EffectiveMimeType fileJob) true (fj_CreatedAt fileJob)]> (jw_jobs w)),
       true)
  end.

(** The loop over the map, in the order it is iterated. *)
Fixpoint process_loop (w : FileTmpJobWorker) (nbrOfFile : Z)
    (broadcast : SpecialistRequest → option error) (rm : string → option error)
    (order : list (FileID * FileJob)) : FileTmpJobWorker :=
  match order with
  | [] => w
  | (fileID, fileJob) :: order =>
      if nbrOfFile =? 0 then w
      else if fj_IsRunning fileJob then process_loop w nbrOfFile broadcast rm order
      else
        match processJob w broadcast rm fileID fileJob with
        | (w, true) => process_loop w (uint32 (nbrOfFile - 1)) broadcast rm order
        | (w, false) => process_loop w nbrOfFile broadcast rm order
        end
  end.

Definition processJobs (w : FileTmpJobWorker) (broadcast : SpecialistRequest → option error)
    (rm : string → option error) (order : list (FileID * FileJob)) : FileTmpJobWorker :=
  if decide (jw_jobs w = ∅) then w
  else
    let nbrOfFile := uint32 (jw_maxFileToProcess w - jw_processingFileCount w) in
    if nbrOfFile <=? 0 then w else process_loop w nbrOfFile broadcast rm order.

Definition removeJob (w : FileTmpJobWorker) (resp : SpecialistResponse)
  : FileTmpJobWorker * option (string * string) :=
  let job := jw_jobs w !! srp_FileID resp in
  let count := if 0 <? jw_processingFileCount w then uint32 (jw_processingFileCount w - 1)
               else jw_processingFileCount w in
  (with_jobs w count (delete (srp_FileID resp) (jw_jobs w)),
   (λ j, (fj_DriveID j, fj_TmpFilePath j)) <$> job).

Definition toAnalysisMetric (results : list SpecialistResult) : list AnalysisMetric :=
  (λ r, MkAnalysisMetric (srs_ID r) (srs_Resp r) (srs_SpecialistErr r)) <$> results.

Definition job_toEvent (now : time) (driveID : string) (resp : SpecialistResponse) : Event :=
  MkEvent AnalysisSegmentType now
    (PayloadAnalysisSegment (MkAnalysisSegment driveID (srp_FileID resp)
       (toAnalysisMetric (srp_Res resp)))).

(** [ctx]: the error when the final [select] takes [ctx.Done()]. *)
Definition handleSpecialistResponse (w : FileTmpJobWorker) (ctx : option error)
    (rm : string → option error) (now : time) (response : SpecialistResponse)
  : FileTmpJobWorker * option error :=
  let '(w, job) := removeJob w response in
  let '(driveID, filePath) := default ("", "") job in
  let '(w, _) := deleteFile w rm filePath in
  match ctx with
  | Some err => (w, Some err)
  | None =>
      (MkFileTmpJobWorker (jw_maxFileToProcess w) (jw_processingFileCount w)
         (jw_eventChan w ++ [job_toEvent now driveID response]) (jw_jobs w) (jw_disk w), None)
  end.

(** What [Run]'s [select] receives. *)
Inductive job_signal :=
| JobDone (err : error)
| JobLocation (now : time) (loc : TmpFileLocation)
| JobTick (broadcast : SpecialistRequest → option error) (rm : string → option error)
    (order : list (FileID * FileJob))
| JobResponse (ctx : option error) (rm : string → option error) (now : time)
    (resp : SpecialistResponse).
(** One turn of the loop: [inr err] when [Run] returns. *)
Definition job_turn (w : FileTmpJobWorker) (s : job_signal)
  : FileTmpJobWorker * option error :=
  match s with
  | JobDone err => (w, Some err)
  | JobLocation now loc => (addJob w now loc, None)
  | JobTick broadcast rm order => (processJobs w broadcast rm order, None)
  | JobResponse ctx rm now resp => handleSpecialistResponse w ctx rm now resp
  end.

(** ** Capacity *)

Definition running_jobs (w : FileTmpJobWorker) : gmap FileID FileJob :=
  filter (λ kv : FileID * FileJob, fj_IsRunning kv.2 = true) (jw_jobs w).
Definition running (w : FileTmpJobWorker) : Z := Z.of_nat (size (running_jobs w)).

Definition start_job (j : FileJob) : FileJob :=
  MkFileJob (fj_DriveID j) (fj_TmpFilePath j) (fj_EffectiveMimeType j) true (fj_CreatedAt j).
Definition job_request (id : FileID) (j : FileJob) : SpecialistRequest :=
  MkSpecialistRequest id (fj_TmpFilePath j) (fj_EffectiveMimeType j).

(** The counter is the number of files the specialists have. *)
Definition jobs_ok (w : FileTmpJobWorker) : Prop :=
  in_u 32 (jw_maxFileToProcess w) ∧
  jw_processingFileCount w = running w ∧ running w ≤ jw_maxFileToProcess w.

Lemma running_lookup w id j : running_jobs w !! id = Some j ↔
  jw_jobs w !! id = Some j ∧ fj_IsRunning j = true.
Proof. unfold running_jobs. by rewrite map_lookup_filter_Some. Qed.

Lemma running_lookup_None w id j : jw_jobs w !! id = Some j → fj_IsRunning j = false →
  running_jobs w !! id = None.
Proof.
  intros Hj Hr. unfold running_jobs. apply map_lookup_filter_None. right. intros j' Hj'.
  simplify_eq/=. by rewrite Hr.
Qed.

(** Starting, refusing, finishing and adding a job. *)
Lemma running_start w c id j : jw_jobs w !! id = Some j → fj_IsRunning j = false →
  running (with_jobs w c (<[id := start_job j]> (jw_jobs w))) = running w + 1.
Proof.
  intros Hj Hr. unfold running, running_jobs. cbn [jw_jobs with_jobs].
  rewrite map_filter_insert_True by done.
  rewrite map_size_insert_None; [lia|by eapply running_lookup_None].
Qed.

Lemma running_refuse w c id j : jw_jobs w !! id = Some j → fj_IsRunning j = false →
  running (with_jobs w c (delete id (jw_jobs w))) = running w.
Proof.
  intros Hj Hr. unfold running, running_jobs. cbn [jw_jobs with_jobs].
  rewrite map_filter_delete, delete_id; [done|by eapply running_lookup_None].
Qed.

Lemma running_finish w c id j : jw_jobs w !! id = Some j → fj_IsRunning j = true →
  running (with_jobs w c (delete id (jw_jobs w))) = running w - 1 ∧ 0 < running w.
Proof.
  intros Hj Hr. assert (running_jobs w !! id = Some j) as Hl by by apply running_lookup.
  unfold running, running_jobs in *. cbn [jw_jobs with_jobs]. rewrite map_filter_delete.
  rewrite map_size_delete_Some by eauto.
  assert (size (filter (λ kv : FileID * FileJob, fj_IsRunning kv.2 = true) (jw_jobs w)) ≠ 0%nat)
    by (apply map_size_ne_0_lookup; eauto).
  lia.
Qed.

Lemma running_add w c id j : jw_jobs w !! id = None → fj_IsRunning j = false →
  running (with_jobs w c (<[id := j]> (jw_jobs w))) = running w.
Proof.
  intros Hn Hr. unfold running, running_jobs. cbn [jw_jobs with_jobs].
  rewrite map_filter_insert_False by (simpl; by rewrite Hr). by rewrite delete_id.
Qed.

Lemma deleteFile_frame w rm path :
  let w' := fst (deleteFile w rm path) in
  jw_maxFileToProcess w' = jw_maxFileToProcess w ∧
  jw_processingFileCount w' = jw_processingFileCount w ∧ jw_jobs w' = jw_jobs w ∧
  jw_eventChan w' = jw_eventChan w.
Proof. unfold deleteFile. by case_match. Qed.

Lemma running_jobs_eq w w' : jw_jobs w' = jw_jobs w → running w' = running w.
Proof. unfold running, running_jobs. by intros ->. Qed.

(** What becomes of a job in one pass. *)
Definition job_outcome (w' : FileTmpJobWorker) (broadcast : SpecialistRequest → option error)
    (id : FileID) (j : FileJob) : Prop :=
  (jw_jobs w' !! id = Some j ∧
     (fj_IsRunning j = true ∨ jw_processingFileCount w' = jw_maxFileToProcess w')) ∨
  (fj_IsRunning j = false ∧ broadcast (job_request id j) = None ∧
     jw_jobs w' !! id = Some (start_job j)) ∨
  (fj_IsRunning j = false ∧ broadcast (job_request id j) ≠ None ∧ jw_jobs w' !! id = None).

(** One job that is not running. *)
Lemma processJob_spec w broadcast rm id j :
  jobs_ok w → jw_jobs w !! id = Some j → fj_IsRunning j = false →
  running w < jw_maxFileToProcess w →
  let '(w', started) := processJob w broadcast rm id j in
  jobs_ok w' ∧ jw_maxFileToProcess w' = jw_maxFileToProcess w ∧
  jw_processingFileCount w' = jw_processingFileCount w + (if started then 1 else 0) ∧
  (started = true ∧ broadcast (job_request id j) = None ∧
     jw_jobs w' = <[id := start_job j]> (jw_jobs w) ∨
   started = false ∧ broadcast (job_request id j) ≠ None ∧ jw_jobs w' = delete id (jw_jobs w)).
Proof.
  intros (Hm & Hc & Hle) Hj Hr Hlt. unfold processJob. fold (job_request id j).
  assert (0 ≤ running w) by (unfold running; lia).
  assert (uint32 (jw_processingFileCount w + 1) = jw_processingFileCount w + 1) as ->.
  { apply wrap_u_id. unfold in_u in *. lia. }
  destruct (broadcast (job_request id j)) as [e|] eqn:Hb.
  - assert (uint32 (jw_processingFileCount w + 1 - 1) = jw_processingFileCount w) as ->.
    { replace (jw_processingFileCount w + 1 - 1) with (jw_processingFileCount w) by lia.
      apply wrap_u_id. unfold in_u in *. lia. }
    pose proof (deleteFile_frame (with_jobs w (jw_processingFileCount w) (jw_jobs w)) rm
                  (fj_TmpFilePath j)) as (E1 & E2 & E3 & _).
    destruct (deleteFile _ rm (fj_TmpFilePath j)) as [w1 e1]. cbn [fst] in *.
    cbn [with_jobs jw_maxFileToProcess jw_processingFileCount jw_jobs] in *.
    rewrite E3. split_and!; [|done|lia|by right].
    pose proof (running_refuse w (jw_processingFileCount w) id j Hj Hr) as Hrr.
    unfold jobs_ok, running, running_jobs in *.
    cbn [with_jobs jw_maxFileToProcess jw_processingFileCount jw_jobs] in *.
    rewrite E1, E2. split_and!; [done|lia|lia].
  - cbn [with_jobs jw_maxFileToProcess jw_processingFileCount jw_jobs]. fold (start_job j).
    split_and!; [|done|done|by left].
    pose proof (running_start w (jw_processingFileCount w + 1) id j Hj Hr) as Hrs.
    unfold jobs_ok. cbn [with_jobs jw_maxFileToProcess jw_processingFileCount] in *.
    split_and!; [done|lia|lia].
Qed.

Lemma process_loop_spec broadcast rm order : ∀ w n,
  jobs_ok w → NoDup order.*1 → (∀ id j, (id, j) ∈ order → jw_jobs w !! id = Some j) →
  n = jw_maxFileToProcess w - jw_processingFileCount w →
  let w' := process_loop w n broadcast rm order in
  jobs_ok w' ∧ jw_maxFileToProcess w' = jw_maxFileToProcess w ∧
  (∀ id j, (id, j) ∈ order → job_outcome w' broadcast id j) ∧
  (∀ id, id ∉ order.*1 → jw_jobs w' !! id = jw_jobs w !! id).
Proof.
  induction order as [|[id j] order IH]; intros w n Hok Hnd Hin Hn; cbn [process_loop].
  { cbv zeta. split_and!; [done|done| |done]. intros ? ? []%elem_of_nil. }
  pose proof Hok as (Hm & Hc & Hle).
  rewrite fmap_cons in Hnd. apply NoDup_cons in Hnd as [Hni Hnd]. cbn [fst] in Hni.
  assert (jw_jobs w !! id = Some j) as Hj by (apply Hin; by left).
  destruct (Z.eqb_spec n 0) as [H0|H0].
  { cbv zeta. split_and!; [done|done| |done]. intros id' j' Hin'. left. split; [by apply Hin|].
    right. lia. }
  destruct (fj_IsRunning j) eqn:Hr.
  - destruct (IH w n Hok Hnd) as (H1 & H2 & H3 & H4); [intros; apply Hin; by right|done|].
    split_and!; [done|done| |].
    + intros id' j' [[= -> ->]|Hin']%elem_of_cons; [|by apply H3].
      left. rewrite H4 by done. split; [done|by left].
    + intros id' Hni'. apply H4. by intros ?; apply Hni'; rewrite fmap_cons; right.
  - pose proof (processJob_spec w broadcast rm id j Hok Hj Hr ltac:(lia)) as Hp.
    destruct (processJob w broadcast rm id j) as [w1 started].
    destruct Hp as (Hok1 & Hm1 & Hc1 & Ho).
    assert (∀ id', id' ≠ id → jw_jobs w1 !! id' = jw_jobs w !! id') as Hother.
    { intros id' Hne. destruct Ho as [(_ & _ & ->)|(_ & _ & ->)];
        [by rewrite lookup_insert_ne|by rewrite lookup_delete_ne]. }
    assert (∀ n', n' = jw_maxFileToProcess w1 - jw_processingFileCount w1 →
      let w' := process_loop w1 n' broadcast rm order in
      jobs_ok w' ∧ jw_maxFileToProcess w' = jw_maxFileToProcess w ∧
      (∀ id0 j0, (id0, j0) ∈ (id, j) :: order → job_outcome w' broadcast id0 j0) ∧
      (∀ id0, id0 ∉ ((id, j) :: order).*1 → jw_jobs w' !! id0 = jw_jobs w !! id0)) as Hnext.
    { intros n' Hn'. destruct (IH w1 n' Hok1 Hnd) as (H1 & H2 & H3 & H4); [|done|].
      - intros id' j' Hin'. rewrite Hother; [apply Hin; by right|].
        intros ->. apply Hni. apply list_elem_of_fmap. by exists (id, j').
      - split_and!; [done|congruence| |].
        + intros id' j' [[= -> ->]|Hin']%elem_of_cons; [|by apply H3]. right.
          rewrite H4 by done. destruct Ho as [(_ & Hb & ->)|(_ & Hb & ->)].
          * left. by rewrite lookup_insert_eq.
          * right. by rewrite lookup_delete_eq.
        + intros id' Hni'. rewrite fmap_cons in Hni'. cbn [fst] in Hni'.
          apply not_elem_of_cons in Hni' as [Hne Hni']. rewrite H4, Hother; done. }
    destruct started; apply Hnext; [|lia].
    rewrite wrap_u_id; [lia|]. unfold in_u in *. assert (0 ≤ running w) by (unfold running; lia). lia.
Qed.

(** A pass sends no event. *)
Lemma processJobs_events w broadcast rm order :
  jw_eventChan (processJobs w broadcast rm order) = jw_eventChan w.
Proof.
  assert (∀ order w n, jw_eventChan (process_loop w n broadcast rm order) = jw_eventChan w) as Hl.
  { clear. induction order as [|[id j] order IH]; intros w n; [done|]. cbn [process_loop].
    case_match; [done|]. case_match; [done|]. unfold processJob, deleteFile.
    repeat case_match; simplify_eq; rewrite IH; done. }
  unfold processJobs. repeat case_match; [done|done|apply Hl].
Qed.

(** A pass over the jobs, in any order. *)
Lemma processJobs_pass w broadcast rm order :
  jobs_ok w → order ≡ₚ map_to_list (jw_jobs w) →
  let w' := processJobs w broadcast rm order in
  jobs_ok w' ∧ jw_maxFileToProcess w' = jw_maxFileToProcess w ∧
  (∀ id j, jw_jobs w !! id = Some j → job_outcome w' broadcast id j) ∧
  (∀ id, jw_jobs w !! id = None → jw_jobs w' !! id = None).
Proof.
  intros Hok Hp. unfold processJobs. pose proof Hok as (Hm & Hc & Hle).
  assert (0 ≤ running w) by (unfold running; lia).
  destruct (decide (jw_jobs w = ∅)) as [He|He].
  { cbv zeta. split_and!; [done|done| |done]. intros id j. by rewrite He. }
  rewrite wrap_u_id by (unfold in_u in *; lia).
  destruct (Z.leb_spec (jw_maxFileToProcess w - jw_processingFileCount w) 0) as [H0|H0].
  { cbv zeta. split_and!; [done|done| |done]. intros id j Hj. left. split; [done|]. right. lia. }
  destruct (process_loop_spec broadcast rm order w
    (jw_maxFileToProcess w - jw_processingFileCount w) Hok) as (H1 & H2 & H3 & H4).
  - rewrite Hp. apply NoDup_fst_map_to_list.
  - intros id j. rewrite Hp. apply elem_of_map_to_list.
  - done.
  - cbv zeta. split_and!; [done|done| |].
    + intros id j Hj. apply H3. rewrite Hp. by apply elem_of_map_to_list.
    + intros id Hn. rewrite H4; [done|]. rewrite Hp.
      intros ([id' j] & -> & Hj)%list_elem_of_fmap. apply elem_of_map_to_list in Hj. by simplify_eq/=.
Qed.

(** When everything is accepted, no job comes or goes. *)
Lemma accepted_size w w' broadcast :
  (∀ id j, jw_jobs w !! id = Some j → fj_IsRunning j = false → broadcast (job_request id j) = None) →
  (∀ id j, jw_jobs w !! id = Some j → job_outcome w' broadcast id j) →
  (∀ id, jw_jobs w !! id = None → jw_jobs w' !! id = None) →
  size (jw_jobs w') = size (jw_jobs w).
Proof.
  intros Hb Ho Hn. rewrite <- !size_dom. f_equal. apply set_eq. intros id. rewrite !elem_of_dom. split.
  - intros Hs. destruct (jw_jobs w !! id) eqn:Hj; [by eexists|]. rewrite Hn in Hs by done. by destruct Hs.
  - intros [j Hj]. destruct (Ho _ _ Hj) as [[-> _]|[(_ & _ & ->)|(Hr & Hx & _)]];
      [by eexists|by eexists|]. by rewrite Hb in Hx.
Qed.

(** A pass over the jobs uses the free capacity, whatever order the map is
    iterated in: every job that was running still is; every other job is either
    accepted by the coordinator and now running, or refused and dropped, or
    left as it was, which happens only when the capacity is exhausted; no job
    appears; and when the coordinator accepts everything, as many jobs run as
    there are jobs, up to the maximum. *)
Theorem processJobs_fills w broadcast rm order :
  jobs_ok w → order ≡ₚ map_to_list (jw_jobs w) →
  let w' := processJobs w broadcast rm order in
  (∀ id j, jw_jobs w !! id = Some j → job_outcome w' broadcast id j) ∧
  (∀ id, jw_jobs w !! id = None → jw_jobs w' !! id = None) ∧
  ((∀ id j, jw_jobs w !! id = Some j → fj_IsRunning j = false → broadcast (job_request id j) = None) →
     running w' = Z.min (jw_maxFileToProcess w) (Z.of_nat (size (jw_jobs w)))).
Proof.
  intros Hok Hp. destruct (processJobs_pass w broadcast rm order Hok Hp) as (Hok' & Hm & Ho & Hn).
  cbv zeta in *. split_and!; [done|done|]. intros Hb.
  set (w' := processJobs w broadcast rm order) in *. destruct Hok' as (_ & Hc & Hle).
  pose proof (accepted_size w w' broadcast Hb Ho Hn) as Hsize.
  destruct (decide (running w' = jw_maxFileToProcess w')) as [Hfull|Hfree].
  - assert (size (running_jobs w') ≤ size (jw_jobs w'))%nat by apply map_size_filter.
    unfold running in *. lia.
  - assert (running_jobs w' = jw_jobs w') as Hall.
    { unfold running_jobs. apply map_filter_id. intros id j' Hj'. cbn [snd].
      destruct (jw_jobs w !! id) as [j|] eqn:Hj; [|by rewrite Hn in Hj'].
      destruct (Ho _ _ Hj) as [[Hx [Hr|Hr]]|[(_ & _ & Hx)|(Hnr & Hx & _)]]; simplify_eq/=; try done.
      - congruence.
      - by rewrite Hb in Hx. }
    unfold running in *. rewrite Hall in *. lia.
Qed.

(** ** The specialist client *)

Record SpecialistClient := MkSpecialistClient {
  sp_Id : Metric; sp_Pid : Z; sp_Port : Z; sp_LastHealth : time; sp_Capabilities : list MIME;
}.

Definition CanHandle (s : SpecialistClient) (mimeType : MIME) : bool :=
  existsb (String.eqb mimeType) (sp_Capabilities s).

Inductive pbSpecialistRequest :=
| PbSpecMetadata (MessageId FileName MimeType : string)
| PbSpecChunk (Chunk : string).
Record pbPage := MkPbPage { pp_Number : Z; pp_Content : string }.
(** [pb.SpecialistResponse.Response]; [None] when it is not set. *)
Inductive pbSpecialistResponse :=
| PbDocumentData (Title Author : string) (PageCount : Z) (Language : string) (Pages : list pbPage)
| PbScore (Score : float64) (Label : string)
| PbAudio (Transcription : string) (DurationSec : float64) (Language : string).

Definition fromPbPage (pages : list pbPage) : list Page :=
  (λ p, MkPage (pp_Number p) (pp_Content p)) <$> pages.

Definition fromPbSpecialistResponse (response : option pbSpecialistResponse) : Response :=
  match response with
  | Some (PbDocumentData t a n l ps) => MkResponse (DocumentValue (MkDocumentData t a n l (fromPbPage ps)))
  | Some (PbScore s l) => MkResponse (ScoreValue (MkScore s l))
  | Some (PbAudio t d l) => MkResponse (AudioValue (MkAudioData t d l))
  | None => MkResponse NoResponse
  end.

Definition chunkSize : Z := 32 * 1024.

(** The slices [Chunk[i:end]] of the loop, from [i] on; every turn moves [i], so
    the length of the data bounds the number of turns. *)
Fixpoint chunks_from (fuel : nat) (size i : nat) (data : string) : list string :=
  match fuel with
  | O => []
  | S fuel =>
      if (i <? String.length data)%nat then
        let end_ := if (String.length data <? i + size)%nat then String.length data else (i + size)%nat in
        String.substring i (end_ - i) data :: chunks_from fuel size (i + size) data
      else []
  end.

Definition request_entries (request : Request) : list pbSpecialistRequest :=
  match rq_Metadata request with
  | Some md => [PbSpecMetadata (md_MessageID md) (md_FileName md) (md_EffectiveMimeType md)]
  | None => []
  end ++
  (PbSpecChunk <$> chunks_from (String.length (rq_Chunk request)) (Z.to_nat chunkSize) 0
                     (rq_Chunk request)).

(** Send the entries until one fails; [send k] is the error of the [k]-th. *)
Fixpoint send_entries (send : nat → option error) (k : nat) (entries : list pbSpecialistRequest)
  : list pbSpecialistRequest * option error :=
  match entries with
  | [] => ([], None)
  | e :: entries =>
      match send k with
      | Some err => ([], Some err)
      | None => let '(sent, err) := send_entries send (S k) entries in (e :: sent, err)
      end
  end.

(** [SpecialistClient.Analyze]: what it sent and what it returns. *)
Definition client_Analyze (open_err : option error) (send : nat → option error)
    (final : result error (option pbSpecialistResponse)) (request : Request)
  : list pbSpecialistRequest * result error Response :=
  match open_err with
  | Some err => ([], Err err)
  | None =>
      match send_entries send 0 (request_entries request) with
      | (sent, Some err) => (sent, Err err)
      | (sent, None) =>
          match final with
          | Err err => (sent, Err err)
          | Ok response => (sent, Ok (fromPbSpecialistResponse response))
          end
      end
  end.

Lemma send_entries_ok send entries : ∀ k, (∀ i, (i < length entries)%nat → send (k + i)%nat = None) →
  send_entries send k entries = (entries, None).
Proof.
  induction entries as [|e entries IH]; intros k H; [done|]. cbn [send_entries].
  pose proof (H 0%nat ltac:(simpl; lia)) as H0. rewrite Nat.add_0_r in H0. rewrite H0.
  rewrite (IH (S k)); [done|]. intros i Hi. replace (S k + i)%nat with (k + S i)%nat by lia.
  apply H. simpl. lia.
Qed.

Lemma send_entries_err send entries n err : ∀ k, (n < length entries)%nat →
  (∀ i, (i < n)%nat → send (k + i)%nat = None) → send (k + n)%nat = Some err →
  send_entries send k entries = (take n entries, Some err).
Proof.
  revert n. induction entries as [|e entries IH]; intros n k Hn Hok Herr; [simpl in Hn; lia|].
  cbn [send_entries]. destruct n as [|n].
  - rewrite Nat.add_0_r in Herr. by rewrite Herr.
  - pose proof (Hok 0%nat ltac:(lia)) as H0. rewrite Nat.add_0_r in H0. rewrite H0.
    rewrite (IH n (S k)); [done|simpl in Hn; lia| |].
    + intros i Hi. replace (S k + i)%nat with (k + S i)%nat by lia. apply Hok. lia.
    + by replace (S k + n)%nat with (k + S n)%nat by lia.
Qed.

Definition concat_strings (l : list string) : string := foldr String.append "" l.

Lemma substring_split data : ∀ i n, (i + n ≤ String.length data)%nat →
  String.substring i n data +:+ String.substring (i + n) (String.length data - (i + n)) data =
    String.substring i (String.length data - i) data.
Proof.
  induction data as [|c data IH]; intros i n H; simpl in *.
  { assert (i = 0 ∧ n = 0)%nat as [-> ->] by lia. done. }
  destruct i as [|i]; simpl.
  - destruct n as [|n]; simpl; [done|]. f_equal.
    specialize (IH 0%nat n ltac:(lia)). by rewrite Nat.sub_0_r in IH.
  - apply (IH i n). lia.
Qed.

Lemma substring_length data : ∀ i n, (i + n ≤ String.length data)%nat →
  String.length (String.substring i n data) = n.
Proof.
  induction data as [|c data IH]; intros i n H; simpl in *.
  { assert (i = 0 ∧ n = 0)%nat as [-> ->] by lia. done. }
  destruct i as [|i]; simpl; [|apply IH; lia].
  destruct n as [|n]; simpl; [done|]. f_equal. apply (IH 0%nat). lia.
Qed.

Lemma substring_all data : String.substring 0 (String.length data) data = data.
Proof. induction data; simpl; [done|]. by f_equal. Qed.

(** The pieces are the data, none is empty or too long, and all but the last are
    full. *)
Lemma chunks_from_spec data size : (0 < size)%nat → ∀ fuel i,
  (String.length data - i ≤ fuel)%nat →
  let cs := chunks_from fuel size i data in
  concat_strings cs = String.substring i (String.length data - i) data ∧
  Forall (λ c, (0 < String.length c ≤ size)%nat) cs ∧
  (∀ c k, cs !! k = Some c → (S k < length cs)%nat → String.length c = size).
Proof.
  intros Hs. induction fuel as [|fuel IH]; intros i Hf; cbn [chunks_from].
  { cbv zeta. replace (String.length data - i)%nat with 0%nat by lia.
    split_and!; [|constructor|done]. clear. revert i. induction data; intros [|i]; simpl; done. }
  destruct (Nat.ltb_spec i (String.length data)) as [Hi|Hi].
  2:{ cbv zeta. replace (String.length data - i)%nat with 0%nat by lia.
    split_and!; [|constructor|done]. clear. revert i. induction data; intros [|i]; simpl; done. }
  set (end_ := if (String.length data <? i + size)%nat then String.length data else (i + size)%nat).
  assert (i < end_ ≤ String.length data ∧ end_ ≤ i + size)%nat as Hend.
  { subst end_. destruct (Nat.ltb_spec (String.length data) (i + size)); lia. }
  destruct (IH (i + size)%nat ltac:(lia)) as (Hc & HF & Hfull). cbv zeta in *.
  split_and!.
  - cbn [concat_strings foldr]. fold (concat_strings (chunks_from fuel size (i + size) data)).
    rewrite Hc. subst end_. destruct (Nat.ltb_spec (String.length data) (i + size)) as [Hlt|Hge].
    + replace (String.length data - (i + size))%nat with 0%nat by lia.
      assert (∀ (d : string) (j : nat), String.substring j 0 d = "") as ->.
      { clear. intros d. induction d; intros [|j]; simpl; done. }
      by rewrite str_app_nil_r.
    + replace (i + size - i)%nat with size by lia. apply substring_split. lia.
  - constructor; [|done]. rewrite substring_length; lia.
  - intros c [|k] Hk Hl; [|cbn [length] in Hl; apply (Hfull c k); [done|lia]].
    injection Hk as <-. rewrite substring_length by lia. subst end_.
    destruct (Nat.ltb_spec (String.length data) (i + size)) as [Hlt|Hge]; [|lia].
    exfalso. cbn [length] in Hl. destruct fuel as [|fuel]; simpl in Hl; [lia|].
    destruct (Nat.ltb_spec (i + size) (String.length data)); simpl in Hl; lia.
Qed.

(** C40. A specialist receives the file whole: when the stream works, the client
    sends the metadata first and then the content in pieces whose concatenation is
    the file, none empty and none above 32 KB, and returns the specialist's answer;
    when the [n]-th message cannot be sent, exactly the messages before it were sent
    and its error is returned. *)
Theorem client_Analyze_streams send final request md :
  rq_Metadata request = Some md →
  let entries := request_entries request in
  (∃ cs, entries = PbSpecMetadata (md_MessageID md) (md_FileName md) (md_EffectiveMimeType md) ::
                     (PbSpecChunk <$> cs) ∧
     concat_strings cs = rq_Chunk request ∧
     Forall (λ c, 0 < strlen c ≤ chunkSize) cs) ∧
  ((∀ k, send k = None) →
     client_Analyze None send final request =
       (entries, match final with Ok r => Ok (fromPbSpecialistResponse r) | Err e => Err e end)) ∧
  (∀ n err, (n < length entries)%nat → (∀ k, (k < n)%nat → send k = None) → send n = Some err →
     client_Analyze None send final request = (take n entries, Err err)).
Proof.
  intros Hmd entries. assert (0 < Z.to_nat chunkSize)%nat as Hpos by (unfold chunkSize; lia).
  split_and!.
  - eexists. unfold entries, request_entries. rewrite Hmd. split; [done|].
    destruct (chunks_from_spec (rq_Chunk request) (Z.to_nat chunkSize) Hpos
      (String.length (rq_Chunk request)) 0 ltac:(lia)) as (Hc & HF & _).
    split.
    + rewrite Hc, Nat.sub_0_r. apply substring_all.
    + eapply Forall_impl; [exact HF|]. cbv beta. intros c. lia.
  - intros Hok. unfold client_Analyze. fold entries. rewrite send_entries_ok by (intros; apply Hok).
    by destruct final.
  - intros n err Hn Hok Herr. unfold client_Analyze. fold entries.
    by rewrite (send_entries_err send entries n err 0 Hn Hok Herr).
Qed.

(** ** The coordinator *)

Record Coordinator := MkCoordinator {
  co_specialists : gmap Metric SpecialistClient;
  co_processTrackerChan : list Process;
  co_maxFileSizeMB : Z;
}.

Definition NewCoordinator (maxFileSizeMB : Z) : Coordinator := MkCoordinator ∅ [] maxFileSizeMB.

Definition coordinator_Add (m : Coordinator) (s : SpecialistClient) : Coordinator :=
  MkCoordinator (<[sp_Id s := s]> (co_specialists m)) (co_processTrackerChan m) (co_maxFileSizeMB m).

(** Go slices: an array in the store, a length and a capacity.  [append] writes
    in place when there is room and moves to a larger array otherwise. *)
Record slice := MkSlice { sl_array : nat; sl_len : nat; sl_cap : nat }.
Record store := MkStore { st_arrays : gmap nat (list SpecialistResult); st_next : nat }.

Definition no_result : SpecialistResult := MkSpecialistResult None None None.
Definition go_make (h : store) (n : nat) : store * slice :=
  (MkStore (<[st_next h := replicate n no_result]> (st_arrays h)) (S (st_next h)),
   MkSlice (st_next h) n n).
Definition read (h : store) (s : slice) : list SpecialistResult :=
  take (sl_len s) (default [] (st_arrays h !! sl_array s)).
Definition go_append (h : store) (s : slice) (x : SpecialistResult) : store * slice :=
  if (sl_len s <? sl_cap s)%nat then
    (MkStore (alter (λ a, <[sl_len s := x]> a) (sl_array s) (st_arrays h)) (st_next h),
     MkSlice (sl_array s) (S (sl_len s)) (sl_cap s))
  else
    let cap := (2 * sl_cap s + 1)%nat in
    (MkStore (<[st_next h := read h s ++ x :: replicate (cap - S (sl_len s)) no_result]>
                (st_arrays h)) (S (st_next h)),
     MkSlice (st_next h) (S (sl_len s)) cap).

(** A broadcast in progress: the variable [results], the copy [res] its last
    goroutine was given, and the specialists that have not answered. *)
Record broadcast := MkBroadcast {
  bc_fileID : FileID; bc_store : store; bc_results : slice; bc_res : slice;
  bc_waiting : list (SpecialistClient * Request);
}.

(** The operating system's answers to [Stat] (the size) and [ReadFile]. *)
Record file_answers := MkFileAnswers { fs_Stat : result error Z; fs_ReadFile : result error string }.

(** The request each target is sent. *)
Definition requests_for (fresh : Metric → string) (req : SpecialistRequest) (data : string)
    (targets : list SpecialistClient) : list (SpecialistClient * Request) :=
  (λ s, (s, MkRequest (Some (MkMetadata (fresh (sp_Id s)) (sr_Path req)
                               (sr_EffectiveMimeType req))) data)) <$> targets.

(** [Broadcast]: its error, or the analyses it starts ([None] when no specialist
    handles the type).  [order] is the iteration of [specialists] and [fresh] the
    identifiers drawn. *)
Definition Broadcast (m : Coordinator) (validate : SpecialistRequest → option error)
    (os : file_answers) (order : list SpecialistClient) (fresh : Metric → string)
    (req : SpecialistRequest) : option error * option broadcast :=
  match validate req with
  | Some err => (Some err, None)
  | None =>
  match fs_Stat os with
  | Err err => (Some (Errorf ("file not found at : " +:+ sr_Path req +:+ ", err : ") err), None)
  | Ok size =>
      if int64 (co_maxFileSizeMB m * MB) <? size
      then (Some (Opaque ("file " +:+ sr_Path req +:+ " is too large (" +:+ fmt_d size +:+ " bytes)")),
            None)
      else
  match fs_ReadFile os with
  | Err err => (Some (Errorf ("failed to read file " +:+ sr_Path req +:+ ": ") err), None)
  | Ok data =>
      let targets := List.filter (λ s, CanHandle s (sr_EffectiveMimeType req)) order in
      match targets with
      | [] => (None, None)
      | _ =>
          let '(h, results) := go_make (MkStore ∅ 0) (length targets) in
          (None, Some (MkBroadcast (sr_FileID req) h results results
                         (requests_for fresh req data targets)))
      end
  end end end.

(** One specialist answers: its goroutine appends to [results]. *)
Definition answer (b : broadcast) (s : SpecialistClient) (r : result error Response)
    (rest : list (SpecialistClient * Request)) : broadcast :=
  let result :=
    match r with
    | Err err => MkSpecialistResult (Some (sp_Id s)) None (Some err)
    | Ok resp => MkSpecialistResult (Some (sp_Id s)) (Some resp) None
    end in
  let '(h, results) := go_append (bc_store b) (bc_results b) result in
  MkBroadcast (bc_fileID b) h results (bc_res b) rest.

Inductive answers : broadcast → broadcast → Prop :=
| answers_done b : answers b b
| answers_next b s q r pre post b' :
    bc_waiting b = pre ++ (s, q) :: post → answers (answer b s r (pre ++ post)) b' → answers b b'.

(** What the last goroutine sends once all have answered. *)
Definition broadcast_response (b : broadcast) : option SpecialistResponse :=
  match bc_waiting b with
  | [] => Some (MkSpecialistResponse (bc_fileID b) (read (bc_store b) (bc_res b)))
  | _ => None
  end.

(** Only specialists that handle the type are asked, each with the whole file. *)
Lemma Broadcast_targets m validate os order fresh req b :
  Broadcast m validate os order fresh req = (None, Some b) →
  bc_waiting b ≠ [] ∧
  ∀ s q, (s, q) ∈ bc_waiting b → s ∈ order ∧ CanHandle s (sr_EffectiveMimeType req) = true ∧
    fs_ReadFile os = Ok (rq_Chunk q).
Proof.
  unfold Broadcast. intros H. destruct (validate req); [done|]. destruct (fs_Stat os) as [size|]; [|done].
  destruct (_ <? _); [done|]. destruct (fs_ReadFile os) as [data|]; [|done].
  destruct (List.filter _ order) as [|t ts] eqn:Hf; [done|]. cbn [go_make] in H. injection H as <-.
  cbn [bc_waiting]. split; [done|].
  change (_ :: requests_for fresh req data ts) with (requests_for fresh req data (t :: ts)).
  rewrite <- Hf. unfold requests_for.
  intros s q (s' & [= <- ->] & Hs)%list_elem_of_fmap.
  apply list_elem_of_In, List.filter_In in Hs as [Hs Hc]. by rewrite list_elem_of_In.
Qed.

(** The array [res] points to is never written. *)
Definition detached (b : broadcast) (n : nat) : Prop :=
  read (bc_store b) (bc_res b) = replicate n no_result ∧
  (sl_array (bc_res b) < st_next (bc_store b))%nat ∧
  (sl_array (bc_results b) = sl_array (bc_res b) → sl_cap (bc_results b) ≤ sl_len (bc_results b))%nat.

Lemma answer_detached b s r rest n : detached b n → detached (answer b s r rest) n.
Proof.
  intros (Hr & Hlt & Hal). unfold answer, go_append.
  destruct (Nat.ltb_spec (sl_len (bc_results b)) (sl_cap (bc_results b))) as [Hroom|Hfull];
    unfold detached; cbn [bc_store bc_res bc_results st_next st_arrays sl_array sl_len sl_cap].
  - assert (sl_array (bc_results b) ≠ sl_array (bc_res b)) as Hne by (intros He; specialize (Hal He); lia).
    split_and!; [|done|done]. unfold read. cbn [st_arrays]. rewrite lookup_alter_ne by done. exact Hr.
  - split_and!; [|lia|lia]. unfold read. cbn [st_arrays]. rewrite lookup_insert_ne by lia. exact Hr.
Qed.

(** The response never carries what the specialists found: its results are the
    zero values the slice was made with, because the goroutines append to
    [results] after [res] was copied from it. *)
Theorem Broadcast_response_is_blank m validate os order fresh req b b' resp :
  Broadcast m validate os order fresh req = (None, Some b) → answers b b' →
  broadcast_response b' = Some resp →
  ∀ r, r ∈ srp_Res resp → r = no_result.
Proof.
  intros Hb Ha Hr.
  assert (∃ n, detached b n) as [n Hd].
  { unfold Broadcast in Hb. destruct (validate req); [done|].
    destruct (fs_Stat os) as [size|]; [|done].
    destruct (_ <? _); [done|]. destruct (fs_ReadFile os) as [data|]; [|done].
    destruct (List.filter _ order) as [|t ts]; [done|]. cbn [go_make] in Hb. injection Hb as <-.
    exists (length (t :: ts)). unfold detached, read.
    cbn [bc_store bc_res bc_results st_arrays st_next sl_array sl_len sl_cap].
    rewrite lookup_insert_eq. cbn [default from_option id].
    split_and!; [|lia|lia]. apply take_ge. by rewrite length_replicate. }
  assert (detached b' n) as [Hrd _].
  { clear Hr Hb. induction Ha; [done|]. apply IHHa. by apply answer_detached. }
  unfold broadcast_response in Hr. destruct (bc_waiting b'); [|done]. injection Hr as <-.
  cbn [srp_Res]. rewrite Hrd. intros r. apply elem_of_replicate_inv.
Qed.

(** A file no specialist handles is accepted and never answered: its job keeps
    its place for good. *)
Theorem unhandled_type_keeps_its_place m validate os order fresh req data :
  validate req = None → fs_ReadFile os = Ok data →
  (∃ size, fs_Stat os = Ok size ∧ size ≤ int64 (co_maxFileSizeMB m * MB)) →
  (∀ s, s ∈ order → CanHandle s (sr_EffectiveMimeType req) = false) →
  Broadcast m validate os order fresh req = (None, None).
Proof.
  intros Hv Hf (size & Hst & Hsz) Hc. unfold Broadcast. rewrite Hv, Hst, Hf.
  rewrite (proj2 (Z.ltb_ge _ _) Hsz).
  assert (List.filter (λ s, CanHandle s (sr_EffectiveMimeType req)) order = []) as ->; [|done].
  induction order as [|s order IH]; [done|]. cbn [List.filter].
  rewrite (Hc s) by by left. apply IH. intros s' Hs'. apply Hc. by right.
Qed.

(** ** Runs of the worker *)

(** What the coordinator answers to a request; [world] gives, for each request, the
    answers of the operating system, the order the specialists are iterated in and the
    identifiers drawn. *)
Definition ask (m : Coordinator) (validate : SpecialistRequest → option error)
    (world : SpecialistRequest → file_answers * list SpecialistClient * (Metric → string))
    (req : SpecialistRequest) : option error * option broadcast :=
  let '(os, order, fresh) := world req in Broadcast m validate os order fresh req.

(** The analyses a pass starts: [process_loop] again, keeping what the coordinator
    started. *)
Fixpoint process_starts (w : FileTmpJobWorker) (nbrOfFile : Z)
    (bc : SpecialistRequest → option error * option broadcast) (rm : string → option error)
    (order : list (FileID * FileJob)) : list broadcast :=
  match order with
  | [] => []
  | (fileID, fileJob) :: order =>
      if nbrOfFile =? 0 then []
      else if fj_IsRunning fileJob then process_starts w nbrOfFile bc rm order
      else
        match processJob w (λ r, (bc r).1) rm fileID fileJob with
        | (w, true) =>
            option_list (bc (job_request fileID fileJob)).2 ++
            process_starts w (uint32 (nbrOfFile - 1)) bc rm order
        | (w, false) => process_starts w nbrOfFile bc rm order
        end
  end.

Definition starts (w : FileTmpJobWorker) (bc : SpecialistRequest → option error * option broadcast)
    (rm : string → option error) (order : list (FileID * FileJob)) : list broadcast :=
  if decide (jw_jobs w = ∅) then []
  else
    let nbrOfFile := uint32 (jw_maxFileToProcess w - jw_processingFileCount w) in
    if nbrOfFile <=? 0 then [] else process_starts w nbrOfFile bc rm order.

(** The signals the worker receives when the coordinator has the analyses [out] under way:
    a tick iterates the jobs and asks the coordinator, which may start analyses; a response
    is that of an analysis all of whose specialists have answered, and each analysis sends
    one ([Broadcast] sends nothing for a file no specialist handles, nor when the context
    ends: such an analysis stays in [out] or was never there). *)
Inductive coordinated (m : Coordinator) (validate : SpecialistRequest → option error)
    (w : FileTmpJobWorker) : list broadcast → job_signal → list broadcast → Prop :=
| co_done out err : coordinated m validate w out (JobDone err) out
| co_location out now loc : coordinated m validate w out (JobLocation now loc) out
| co_tick out world rm order : order ≡ₚ map_to_list (jw_jobs w) →
    coordinated m validate w out (JobTick (λ r, (ask m validate world r).1) rm order)
      (out ++ starts w (ask m validate world) rm order)
| co_response pre b post b' resp ctx rm now : answers b b' → broadcast_response b' = Some resp →
    coordinated m validate w (pre ++ b :: post) (JobResponse ctx rm now resp) (pre ++ post).

(** The reachable states of the worker, with the analyses under way. *)
Inductive job_reachable (max : Z) (disk : gset string) : list broadcast → FileTmpJobWorker → Prop :=
| job_start : job_reachable max disk [] (NewFileTmpJobWorker max disk)
| job_next m validate out w s out' w' err : job_reachable max disk out w →
    coordinated m validate w out s out' → job_turn w s = (w', err) → job_reachable max disk out' w'.

(** The analyses under way are for running jobs, one each. *)
Definition started_ok (out : list broadcast) (w : FileTmpJobWorker) : Prop :=
  NoDup (bc_fileID <$> out) ∧ ∀ b, b ∈ out → is_Some (running_jobs w !! bc_fileID b).

(** What the rest of the worker relies on, and [coordinated] gives: a response is for a
    file the specialists have. *)
Definition signal_ok (w : FileTmpJobWorker) (s : job_signal) : Prop :=
  match s with
  | JobTick _ _ order => order ≡ₚ map_to_list (jw_jobs w)
  | JobResponse _ _ _ resp => ∃ j, running_jobs w !! srp_FileID resp = Some j
  | _ => True
  end.

Lemma ask_started m validate world r b : (ask m validate world r).2 = Some b →
  (ask m validate world r).1 = None ∧ bc_fileID b = sr_FileID r.
Proof.
  unfold ask, Broadcast. destruct (world r) as [[os order] fresh].
  repeat case_match; intros [= <-]; done.
Qed.

Lemma answers_fileID b b' : answers b b' → bc_fileID b' = bc_fileID b.
Proof.
  induction 1 as [|b s q r pre post b' Hw _ IH]; [done|]. rewrite IH. unfold answer.
  by destruct (go_append _ _ _).
Qed.

Lemma response_fileID b b' resp : answers b b' → broadcast_response b' = Some resp →
  srp_FileID resp = bc_fileID b.
Proof.
  intros Ha Hr. rewrite <- (answers_fileID _ _ Ha). unfold broadcast_response in Hr.
  destruct (bc_waiting b'); [|done]. by injection Hr as <-.
Qed.

Lemma coordinated_signal m validate w out s out' : started_ok out w →
  coordinated m validate w out s out' → signal_ok w s.
Proof.
  intros Hok Hc. destruct Hc as [| | |pre b post b' resp ctx rm now Ha Hr]; try done.
  destruct Hok as [_ Hrun].
  cbn [signal_ok]. rewrite (response_fileID _ _ _ Ha Hr).
  apply Hrun, elem_of_app. right. by left.
Qed.

(** One job of a pass: refused, or running with the analysis the coordinator started. *)
Lemma processJob_jobs w (bc : SpecialistRequest → option error * option broadcast) rm id j : ∃ w' b, processJob w (λ r, (bc r).1) rm id j = (w', b) ∧
  match (bc (job_request id j)).1 with
  | Some _ => b = false ∧ jw_jobs w' = delete id (jw_jobs w)
  | None => b = true ∧ jw_jobs w' = <[id := start_job j]> (jw_jobs w)
  end.
Proof.
  unfold processJob, deleteFile. fold (job_request id j).
  destruct (bc (job_request id j)).1; [|by do 2 eexists].
  destruct (rm (fj_TmpFilePath j)); by do 2 eexists.
Qed.

Lemma running_other w w' id id' : id' ≠ id → jw_jobs w' !! id' = jw_jobs w !! id' →
  is_Some (running_jobs w !! id') ↔ is_Some (running_jobs w' !! id').
Proof. intros Hne He. unfold is_Some. setoid_rewrite running_lookup. by rewrite He. Qed.

(** Every running job has its analysis under way. *)
Definition all_started (out : list broadcast) (w : FileTmpJobWorker) : Prop :=
  ∀ id, is_Some (running_jobs w !! id) → id ∈ bc_fileID <$> out.

Section Pass.
Context (m : Coordinator) (validate : SpecialistRequest → option error).
Context (world : SpecialistRequest → file_answers * list SpecialistClient * (Metric → string)).
Abbreviation bc := (ask m validate world).

(** One job that is not running. *)
Lemma processJob_started w out id j rm : started_ok out w → jw_jobs w !! id = Some j →
  fj_IsRunning j = false → ∃ w' b, processJob w (λ r, (bc r).1) rm id j = (w', b) ∧
  (∀ id', id' ≠ id → jw_jobs w' !! id' = jw_jobs w !! id') ∧
  let out' := out ++ (if b then option_list (bc (job_request id j)).2 else []) in
  started_ok out' w' ∧
  ((∃ b, bc (job_request id j) = (None, Some b)) → all_started out w → all_started out' w').
Proof.
  intros [Hnd Hrun] Hj Hnr. destruct (processJob_jobs w bc rm id j) as (w' & b & Hp & Hjobs).
  exists w', b. split; [done|].
  assert (∀ id', id' ≠ id → jw_jobs w' !! id' = jw_jobs w !! id') as Hother.
  { intros id' Hne. destruct (bc (job_request id j)).1; destruct Hjobs as [_ ->];
      [by rewrite lookup_delete_ne|by rewrite lookup_insert_ne]. }
  assert (running_jobs w !! id = None) as Hnone by by eapply running_lookup_None.
  assert (∀ b, b ∈ out → bc_fileID b ≠ id) as Hne.
  { intros b0 Hb <-. destruct (Hrun b0 Hb). congruence. }
  split; [done|]. cbv zeta.
  assert (∀ b0, b0 ∈ out → is_Some (running_jobs w' !! bc_fileID b0)) as Hrun'.
  { intros b0 Hb. apply (running_other w w' id); [by apply Hne|by apply Hother, Hne|by apply Hrun]. }
  destruct (bc (job_request id j)) as [[e|] ob] eqn:Hbc; cbn [fst snd] in Hjobs |- *;
    destruct Hjobs as [-> Hjobs].
  { rewrite app_nil_r. split; [done|]. by intros [? ?]. }
  assert (running_jobs w' !! id = Some (start_job j)) as Hst.
  { apply running_lookup. by rewrite Hjobs, lookup_insert_eq. }
  assert (∀ b0, ob = Some b0 → bc_fileID b0 = id) as Hid.
  { intros b0 ->. assert ((bc (job_request id j)).2 = Some b0) as Hs by by rewrite Hbc.
    by apply ask_started in Hs as [_ ->]. }
  split; [split|].
  - rewrite fmap_app. apply NoDup_app.
    split_and!; [done| |destruct ob; [apply NoDup_singleton|apply NoDup_nil_2]].
    intros x (b0 & -> & Hb)%list_elem_of_fmap. destruct ob as [b1|]; cbn; [|apply not_elem_of_nil].
    rewrite list_elem_of_singleton, (Hid b1 eq_refl). by apply Hne.
  - intros b0 [Hb|Hb]%elem_of_app; [by apply Hrun'|]. destruct ob as [b1|]; cbn in Hb; [|by apply elem_of_nil in Hb].
    apply list_elem_of_singleton in Hb as ->. rewrite (Hid b1 eq_refl), Hst. by eexists.
  - intros [b1 [= ->]] Hall id' Hr. rewrite fmap_app, elem_of_app. cbn. rewrite list_elem_of_singleton.
    destruct (decide (id' = id)) as [->|Hne']; [right; by rewrite (Hid b1 eq_refl)|left].
    apply Hall. eapply running_other; [exact Hne'|by apply Hother|done].
Qed.

Lemma process_starts_ok rm order : ∀ w n out, started_ok out w → NoDup order.*1 →
  (∀ id j, (id, j) ∈ order → jw_jobs w !! id = Some j) →
  let w' := process_loop w n (λ r, (bc r).1) rm order in
  let out' := out ++ process_starts w n bc rm order in
  started_ok out' w' ∧
  ((∀ id j, (id, j) ∈ order → fj_IsRunning j = false → ∃ b, bc (job_request id j) = (None, Some b)) →
     all_started out w → all_started out' w').
Proof.
  induction order as [|[id j] order IH]; intros w n out Hok Hnd Hin; cbn [process_loop process_starts].
  { rewrite app_nil_r. by split. }
  rewrite fmap_cons in Hnd. apply NoDup_cons in Hnd as [Hni Hnd]. cbn [fst] in Hni.
  assert (jw_jobs w !! id = Some j) as Hj by (apply Hin; by left).
  assert (∀ id' j', (id', j') ∈ order → id' ≠ id) as Hne.
  { intros id' j' Hin' ->. apply Hni. apply list_elem_of_fmap. by exists (id, j'). }
  destruct (n =? 0); [rewrite app_nil_r; by split|].
  destruct (fj_IsRunning j) eqn:Hr.
  { destruct (IH w n out Hok Hnd) as [H1 H2]; [intros; apply Hin; by right|].
    split; [done|]. intros Hall. apply H2. intros id' j' ? ?. apply Hall; [by right|done]. }
  destruct (processJob_started w out id j rm Hok Hj Hr) as (w1 & b & -> & Hother & Hok1 & Hall1).
  assert (∀ id' j', (id', j') ∈ order → jw_jobs w1 !! id' = Some j') as Hin1.
  { intros id' j' Hin'. rewrite Hother by by eapply Hne. apply Hin. by right. }
  destruct b; cbn [app] in *; [|rewrite app_nil_r in Hok1, Hall1].
  - destruct (IH w1 (uint32 (n - 1)) _ Hok1 Hnd Hin1) as [H1 H2]. rewrite app_assoc. split; [done|].
    intros Hb Hall. apply H2; [|apply Hall1; [apply Hb; [by left|done]|done]]. intros; apply Hb; [by right|done].
  - destruct (IH w1 n _ Hok1 Hnd Hin1) as [H1 H2]. split; [done|].
    intros Hb Hall. apply H2; [|apply Hall1; [apply Hb; [by left|done]|done]]. intros; apply Hb; [by right|done].
Qed.

(** A whole pass. *)
Lemma starts_ok w out rm order : started_ok out w → order ≡ₚ map_to_list (jw_jobs w) →
  let w' := processJobs w (λ r, (bc r).1) rm order in
  started_ok (out ++ starts w bc rm order) w' ∧
  ((∀ id j, jw_jobs w !! id = Some j → fj_IsRunning j = false →
      ∃ b, bc (job_request id j) = (None, Some b)) →
     all_started out w → all_started (out ++ starts w bc rm order) w').
Proof.
  intros Hok Hp. unfold processJobs, starts. case_decide; [rewrite app_nil_r; by split|].
  case_match; [rewrite app_nil_r; by split|].
  destruct (process_starts_ok rm order w (uint32 (jw_maxFileToProcess w - jw_processingFileCount w)) out Hok)
    as [H1 H2].
  - rewrite Hp. apply NoDup_fst_map_to_list.
  - intros id j. rewrite Hp. apply elem_of_map_to_list.
  - split; [done|]. intros Hb. apply H2. intros id j. rewrite Hp, elem_of_map_to_list. apply Hb.
Qed.
End Pass.

Lemma addJob_ok w now loc : jobs_ok w → jobs_ok (addJob w now loc).
Proof.
  intros (Hm & Hc & Hle). unfold addJob. destruct (jw_jobs w !! tl_FileID loc) eqn:Hl; [done|].
  unfold jobs_ok. rewrite running_add by done.
  by cbn [with_jobs jw_maxFileToProcess jw_processingFileCount].
Qed.

(** A response for a running job closes it: the job and its file are gone, one
    place is free, and its drive is on the event. *)
Lemma response_closes_job w ctx rm now resp j w' err :
  jobs_ok w → running_jobs w !! srp_FileID resp = Some j →
  handleSpecialistResponse w ctx rm now resp = (w', err) →
  jobs_ok w' ∧ jw_jobs w' = delete (srp_FileID resp) (jw_jobs w) ∧
  jw_processingFileCount w' = jw_processingFileCount w - 1 ∧
  (rm (fj_TmpFilePath j) = None → fj_TmpFilePath j ∉ jw_disk w') ∧
  (ctx = None → err = None ∧ jw_eventChan w' = jw_eventChan w ++ [job_toEvent now (fj_DriveID j) resp]).
Proof.
  intros (Hm & Hc & Hle) [Hj Hr]%running_lookup H.
  destruct (running_finish w (jw_processingFileCount w - 1) _ _ Hj Hr) as [Hrun Hpos].
  unfold handleSpecialistResponse, removeJob in H. rewrite Hj in H.
  cbn [fmap option_fmap option_map default from_option id] in H.
  rewrite (proj2 (Z.ltb_lt 0 (jw_processingFileCount w))) in H by lia.
  rewrite wrap_u_id in H by (unfold in_u in *; lia).
  set (w1 := with_jobs w (jw_processingFileCount w - 1) (delete (srp_FileID resp) (jw_jobs w))) in *.
  assert (jobs_ok w1) as Hok1.
  { unfold jobs_ok. rewrite Hrun. unfold w1.
    cbn [with_jobs jw_maxFileToProcess jw_processingFileCount]. clearbody w1.
    split_and!; [done|lia|lia]. }
  unfold deleteFile in H. destruct (rm (fj_TmpFilePath j)) as [e|], ctx as [e'|]; injection H as <- <-;
    (split_and!; [exact Hok1|done|done|try done|try done]); cbn; set_solver.
Qed.

Lemma job_turn_ok w s w' err : jobs_ok w → signal_ok w s → job_turn w s = (w', err) →
  jobs_ok w' ∧ jw_maxFileToProcess w' = jw_maxFileToProcess w.
Proof.
  intros Hok Hs H. destruct s as [e|now loc|bc rm order|ctx rm now resp]; cbn [job_turn] in H.
  - by injection H as <- <-.
  - injection H as <- <-. split; [by apply addJob_ok|]. unfold addJob. by case_match.
  - injection H as <- <-. by destruct (processJobs_pass w bc rm order Hok Hs) as (? & ? & _).
  - destruct Hs as [j Hj]. split; [by eapply response_closes_job|].
    unfold handleSpecialistResponse, removeJob, deleteFile in H.
    repeat case_match; simplify_eq/=; done.
Qed.

(** An answered analysis is closed together with its job. *)
Lemma started_ok_response w pre b post b' resp ctx rm now w' err :
  started_ok (pre ++ b :: post) w → answers b b' → broadcast_response b' = Some resp →
  handleSpecialistResponse w ctx rm now resp = (w', err) →
  started_ok (pre ++ post) w' ∧
  (all_started (pre ++ b :: post) w → all_started (pre ++ post) w').
Proof.
  intros [Hnd Hrun] Ha Hr Hh. pose proof (response_fileID _ _ _ Ha Hr) as Hid.
  assert (jw_jobs w' = delete (bc_fileID b) (jw_jobs w)) as Hjobs.
  { rewrite <- Hid. unfold handleSpecialistResponse, removeJob, deleteFile in Hh.
    repeat case_match; simplify_eq/=; done. }
  rewrite fmap_app, fmap_cons in Hnd. apply NoDup_app in Hnd as (H1 & H2 & [H3 H4]%NoDup_cons).
  assert (∀ b0, b0 ∈ pre ++ post → bc_fileID b0 ≠ bc_fileID b) as Hne.
  { intros b0 [Hb|Hb]%elem_of_app Heq; [apply (H2 (bc_fileID b0)); [by apply list_elem_of_fmap_2|]; rewrite Heq; by left|].
    apply H3. rewrite <- Heq. by apply list_elem_of_fmap_2. }
  split; [split|].
  - rewrite fmap_app. apply NoDup_app. split_and!; [done| |done]. intros x Hx Hx'. apply (H2 x Hx). by right.
  - intros b0 Hb. eapply (running_other w); [by apply Hne|rewrite Hjobs, lookup_delete_ne; [done|]|apply Hrun; set_solver].
    intros He. by apply (Hne b0 Hb).
  - intros Hall id Hr'. destruct (decide (id = bc_fileID b)) as [->|Hn].
    { destruct Hr' as [j [Hj _]%running_lookup]. by rewrite Hjobs, lookup_delete_eq in Hj. }
    assert (is_Some (running_jobs w !! id)) as Hw.
    { eapply running_other; [exact Hn| |exact Hr']. by rewrite Hjobs, lookup_delete_ne. }
    apply Hall in Hw. set_solver.
Qed.

(** A new job is not running. *)
Lemma addJob_running w now loc id :
  is_Some (running_jobs (addJob w now loc) !! id) ↔ is_Some (running_jobs w !! id).
Proof.
  unfold addJob. destruct (jw_jobs w !! tl_FileID loc) eqn:Hl; [done|].
  unfold is_Some. setoid_rewrite running_lookup. cbn [with_jobs jw_jobs].
  destruct (decide (id = tl_FileID loc)) as [->|]; [|by rewrite lookup_insert_ne].
  rewrite lookup_insert_eq, Hl. split; [by intros (j & [= <-] & ?)|by intros (j & ? & _)].
Qed.

Lemma coordinated_started m validate w out s out' w' err : started_ok out w →
  coordinated m validate w out s out' → job_turn w s = (w', err) → started_ok out' w'.
Proof.
  intros Hok Hc Ht. destruct Hc as [out e|out now loc|out world rm order Hp|pre b post b' resp ctx rm now Ha Hr];
    cbn [job_turn] in Ht.
  - by injection Ht as <- _.
  - injection Ht as <- _. destruct Hok as [Hnd Hrun]. split; [done|]. intros b Hb.
    by apply addJob_running, Hrun.
  - injection Ht as <- _. by apply starts_ok.
  - by apply (started_ok_response _ _ _ _ _ _ _ _ _ _ _ Hok Ha Hr Ht).
Qed.

(** C12. The capacity is respected in every reachable state, whatever files arrive,
    whatever the coordinator answers to the requests, whatever the operating system
    answers, and whichever order maps are iterated in, the responses being those the
    coordinator's analyses send, one each: the number reported as processing is exactly the
    number of jobs the specialists have, and it never exceeds the configured maximum, so the
    unsigned difference that gives the free capacity never wraps around; and the analyses
    under way are for such jobs, at most one for each. *)
Theorem job_capacity max disk out w :
  in_u 32 max → job_reachable max disk out w →
  GetState w = (running w, max) ∧ 0 ≤ running w ≤ max ∧
  NoDup (bc_fileID <$> out) ∧ ∀ b, b ∈ out → is_Some (running_jobs w !! bc_fileID b).
Proof.
  intros Hm Hr.
  assert (jobs_ok w ∧ jw_maxFileToProcess w = max ∧ started_ok out w) as ((_ & Hc & Hle) & Hmax & Hst).
  { induction Hr as [|m validate out w s out' w' err _ (Hok & IH & Hst) Hs Ht].
    - split; [|split; [done|]]; [split_and!; [done|done|exact (proj1 Hm)]|].
      split; [apply NoDup_nil_2|by intros ? ?%elem_of_nil].
    - destruct (job_turn_ok _ _ _ _ Hok (coordinated_signal _ _ _ _ _ _ Hst Hs) Ht) as [Hok' Hmax].
      split; [done|]. split; [congruence|by eapply coordinated_started]. }
  unfold GetState. rewrite Hc, Hmax in *. split_and!; [done|unfold running in *; lia|lia|apply Hst|apply Hst].
Qed.

(** A response for a file the worker does not know would lower the count all the same, and
    be passed on without a drive: [removeJob] does not ask whether it found the job.  The
    count is exact only because the coordinator sends no such response. *)
Lemma unknown_response_lowers_count w rm now resp : jobs_ok w → 0 < running w →
  jw_jobs w !! srp_FileID resp = None →
  let w' := (handleSpecialistResponse w None rm now resp).1 in
  running w' = running w ∧ jw_processingFileCount w' = running w' - 1 ∧
  jw_eventChan w' = jw_eventChan w ++ [job_toEvent now "" resp].
Proof.
  intros (Hm & Hc & Hle) Hpos Hn. unfold handleSpecialistResponse, removeJob. rewrite Hn.
  rewrite (proj2 (Z.ltb_lt 0 (jw_processingFileCount w))) by lia.
  rewrite wrap_u_id by (unfold in_u in *; lia). rewrite delete_id by done.
  cbn [fmap option_fmap option_map default from_option]. unfold deleteFile.
  assert (∀ w', jw_jobs w' = jw_jobs w → running w' = running w) as Hsame by (intros; by apply running_jobs_eq).
  destruct (rm ""); cbn; (split_and!; [by apply Hsame|rewrite Hsame by done; lia|done]).
Qed.

End Jobs.

(** ** Concrete runs *)

Definition demo_loc (id : string) : TmpFileLocation :=
  MkTmpFileLocation "drive" id ("/tmp/" +:+ id) ApplicationPDF.
Definition demo_jobs : FileTmpJobWorker :=
  addJob (addJob (addJob (NewFileTmpJobWorker 2 ∅) 1 (demo_loc "a")) 2 (demo_loc "b")) 3 (demo_loc "c").
Definition accept_all : SpecialistRequest → option error := λ _, None.
Definition rm_fine : string → option error := λ _, None.

Lemma processJobs_fills_witness :
  running (processJobs demo_jobs accept_all rm_fine (map_to_list (jw_jobs demo_jobs))) = 2.
Proof.
  pose proof (processJobs_fills demo_jobs accept_all rm_fine (map_to_list (jw_jobs demo_jobs)))
    as H.
  destruct H as (_ & _ & H).
  - split; [by split; vm_compute|]. split; [reflexivity|]. vm_compute. discriminate.
  - reflexivity.
  - rewrite H; [reflexivity|]. intros r. reflexivity.
Defined.

(** A coordinator with one specialist, for PDF files. *)
Definition demo_specialist : SpecialistClient := MkSpecialistClient MetricPDF 7 9000 0 [ApplicationPDF].
Definition demo_coordinator : Coordinator := coordinator_Add (NewCoordinator 1) demo_specialist.
Definition demo_world : SpecialistRequest → file_answers * list SpecialistClient * (Metric → string) :=
  λ _, (MkFileAnswers (Ok 5) (Ok "hello"), [demo_specialist], λ _, "id").
Definition demo_ask : SpecialistRequest → option error * option broadcast :=
  ask demo_coordinator accept_all demo_world.
Definition demo_order : list (FileID * FileJob) := map_to_list (jw_jobs demo_jobs).
Definition demo_ticked : FileTmpJobWorker := processJobs demo_jobs (λ r, (demo_ask r).1) rm_fine demo_order.

Lemma demo_reachable :
  job_reachable 2 ∅ (starts demo_jobs demo_ask rm_fine demo_order) demo_ticked.
Proof.
  assert (∀ out w now loc, job_reachable 2 ∅ out w → job_reachable 2 ∅ out (addJob w now loc)) as Hadd.
  { intros out w now loc Hw. apply (job_next 2 ∅ demo_coordinator accept_all out w (JobLocation now loc) out _ None);
      [done|apply co_location|done]. }
  apply (job_next 2 ∅ demo_coordinator accept_all [] demo_jobs
    (JobTick (λ r, (demo_ask r).1) rm_fine demo_order) _ _ None); [|by apply (co_tick _ _ demo_jobs [])|done].
  do 3 apply Hadd. apply job_start.
Qed.

Lemma job_capacity_witness : GetState demo_ticked = (2, 2) ∧
  length (starts demo_jobs demo_ask rm_fine demo_order) = 2%nat.
Proof.
  assert (in_u 32 2) as Hm by (split; vm_compute; [discriminate|reflexivity]).
  pose proof (job_capacity 2 ∅ _ _ Hm demo_reachable) as [H _]. rewrite H. split; vm_refl.
Defined.

Definition demo_analysis_request : Request :=
  MkRequest (Some (MkMetadata "m" "/tmp/a" ApplicationPDF)) "hello".

Lemma client_Analyze_streams_witness :
  client_Analyze None (λ _, None) (Ok (Some (PbScore f64_zero "ok"))) demo_analysis_request =
    (request_entries demo_analysis_request, Ok (MkResponse (ScoreValue (MkScore f64_zero "ok")))) ∧
  client_Analyze None (λ k, if (k =? 1)%nat then Some EOF else None) (Ok None) demo_analysis_request =
    ([PbSpecMetadata "m" "/tmp/a" ApplicationPDF], Err EOF).
Proof.
  split.
  - destruct (client_Analyze_streams (λ _, None) (Ok (Some (PbScore f64_zero "ok")))
      demo_analysis_request _ eq_refl) as (_ & H & _).
    apply H. intros k. reflexivity.
  - destruct (client_Analyze_streams (λ k, if (k =? 1)%nat then Some EOF else None) (Ok None)
      demo_analysis_request _ eq_refl) as (_ & _ & H).
    rewrite (H 1%nat EOF); [reflexivity|vm_compute; lia| |reflexivity].
    intros [|k] Hk; [reflexivity|lia].
Defined.
