(* ===== verification/TmpFiles.v ===== *)
(** * TmpFiles: the life of a temporary file

    The job worker ([Jobs]) is told of a file that was fetched to the disk, hands it to the
    specialists and removes it.  Here its runs are followed with the locations it was told
    of: a file stays on the disk exactly as long as its job is kept. *)

From S2P Require Import Prelude Errors Env Store Text Domain Mime Jobs.

Lemma NoDup_fmap_inj_elem {A K} (f : A → K) l x y :
  NoDup (f <$> l) → x ∈ l → y ∈ l → f x = f y → x = y.
Proof.
  intros Hnd [i Hi]%list_elem_of_lookup [j Hj]%list_elem_of_lookup Heq.
  assert (i = j) as -> by (eapply NoDup_lookup; [exact Hnd|by rewrite list_lookup_fmap, Hi|];
    by rewrite list_lookup_fmap, Hj, Heq). congruence.
Qed.

Section TmpFiles.
Context {U : Uuid}.

(** Removing a file succeeds. *)
Definition removes (s : job_signal) : Prop :=
  match s with
  | JobTick _ rm _ | JobResponse _ rm _ _ => ∀ p, rm p = None
  | _ => True
  end.

Definition announced_by (s : job_signal) : list TmpFileLocation :=
  match s with JobLocation _ loc => [loc] | _ => [] end.

(** A run, with the analyses under way and the locations received. *)
Inductive job_run (max : Z) (disk : gset string)
  : list broadcast → list TmpFileLocation → FileTmpJobWorker → Prop :=
| jr_start : job_run max disk [] [] (NewFileTmpJobWorker max disk)
| jr_turn m validate out locs w s out' w' err : job_run max disk out locs w →
    coordinated m validate w out s out' → removes s → job_turn w s = (w', err) →
    job_run max disk out' (locs ++ announced_by s) w'.

Lemma job_run_started max disk out locs w : job_run max disk out locs w → started_ok out w.
Proof.
  induction 1; [|by eapply coordinated_started].
  split; [apply NoDup_nil_2|by intros ? ?%elem_of_nil].
Qed.

(** The answers handed to the event channel. *)
Definition segments (events : list Event) : list AnalysisSegment :=
  omap (λ e, match ev_Payload e with PayloadAnalysisSegment s => Some s | _ => None end) events.

Record tmp_inv (disk : gset string) (locs : list TmpFileLocation) (w : FileTmpJobWorker) : Prop := {
  ti_jobs id j : jw_jobs w !! id = Some j →
    ∃ loc, loc ∈ locs ∧ tl_FileID loc = id ∧ fj_TmpFilePath j = tl_TmpFilePath loc ∧
           fj_DriveID j = tl_DriveID loc;
  ti_disk p : p ∈ jw_disk w ↔ p ∈ disk ∧
    ∀ loc, loc ∈ locs → tl_TmpFilePath loc = p → is_Some (jw_jobs w !! tl_FileID loc);
  ti_once : NoDup (as_FileID <$> segments (jw_eventChan w));
  ti_answers seg : seg ∈ segments (jw_eventChan w) → jw_jobs w !! as_FileID seg = None ∧
    ∃ loc, loc ∈ locs ∧ tl_FileID loc = as_FileID seg ∧ tl_DriveID loc = as_DriveID seg;
}.

Lemma tmp_inv_start max disk : tmp_inv disk [] (NewFileTmpJobWorker max disk).
Proof. split; [done|set_solver|constructor|set_solver]. Qed.

(** A job is closed and its file removed. *)
Lemma tmp_inv_forget disk locs w w' id j : NoDup (tl_FileID <$> locs) → tmp_inv disk locs w →
  jw_jobs w !! id = Some j → jw_jobs w' = delete id (jw_jobs w) →
  jw_disk w' = jw_disk w ∖ {[fj_TmpFilePath j]} → jw_eventChan w' = jw_eventChan w →
  tmp_inv disk locs w'.
Proof.
  intros Hnd [Hj Hd Ho Ha] Hid Ejobs Edisk Eev.
  destruct (Hj id j Hid) as (lj & Hlj & Hljid & Hljp & _).
  split; rewrite ?Ejobs, ?Eev; [| |done|].
  - intros id' j' [_ Hl]%lookup_delete_Some. by apply Hj.
  - intros p. rewrite Edisk, elem_of_difference, Hd, elem_of_singleton. split.
    + intros [[Hp Hall] Hne]. split; [done|]. intros loc Hloc Hlp.
      rewrite lookup_delete_ne; [by apply Hall|]. intros Heq.
      assert (loc = lj) as -> by (eapply NoDup_fmap_inj_elem; [exact Hnd|done|done|congruence]).
      congruence.
    + intros [Hp Hall]. split; [split; [done|]|].
      * intros loc Hloc Hlp. destruct (Hall loc Hloc Hlp) as [x [_ Hx]%lookup_delete_Some]. by eexists.
      * intros ->. destruct (Hall lj Hlj) as [x Hx]; [done|].
        rewrite Hljid, lookup_delete_eq in Hx. done.
  - intros seg Hseg. destruct (Ha seg Hseg) as [Hn Hl]. split; [|done].
    rewrite lookup_delete_None. by right.
Qed.

(** A job is handed to the specialists. *)
Lemma tmp_inv_started disk locs w w' id j : tmp_inv disk locs w →
  jw_jobs w !! id = Some j → jw_jobs w' = <[id := start_job j]> (jw_jobs w) →
  jw_disk w' = jw_disk w → jw_eventChan w' = jw_eventChan w → tmp_inv disk locs w'.
Proof.
  intros [Hj Hd Ho Ha] Hid Ejobs Edisk Eev.
  assert (∀ x, is_Some (jw_jobs w' !! x) ↔ is_Some (jw_jobs w !! x)) as Hsame.
  { intros x. rewrite Ejobs, lookup_insert_is_Some'. split; [intros [<-|?]; [by eexists|done]|by right]. }
  split; rewrite ?Eev; [| |done|].
  - intros id' j'. rewrite Ejobs. intros [[<- <-]|[_ Hl]]%lookup_insert_Some; [exact (Hj id j Hid)|by apply Hj].
  - intros p. rewrite Edisk, Hd. setoid_rewrite Hsame. done.
  - intros seg Hseg. destruct (Ha seg Hseg) as [Hn Hl]. split; [|done].
    apply eq_None_not_Some. by rewrite Hsame, <- eq_None_not_Some.
Qed.

Lemma tmp_inv_add disk locs w now loc : NoDup (tl_FileID <$> locs ++ [loc]) →
  tmp_inv disk locs w → tmp_inv disk (locs ++ [loc]) (addJob w now loc).
Proof.
  intros Hnd [Hj Hd Ho Ha]. rewrite fmap_app in Hnd. apply NoDup_app in Hnd as (_ & Hdis & _).
  assert (∀ l, l ∈ locs → tl_FileID l ≠ tl_FileID loc) as Hne.
  { intros l Hl Heq. apply (Hdis (tl_FileID l)); [by apply list_elem_of_fmap_2|]. rewrite Heq. set_solver. }
  unfold addJob. destruct (jw_jobs w !! tl_FileID loc) as [j|] eqn:Hl.
  { destruct (Hj _ _ Hl) as (l & Hin & Heq & _). by destruct (Hne l Hin). }
  split; cbn [with_jobs jw_jobs jw_disk jw_eventChan]; [| |done|].
  - intros id j [[<- <-]|[_ Hx]]%lookup_insert_Some; [exists loc; set_solver|].
    destruct (Hj _ _ Hx) as (l & ? & ?). exists l. set_solver.
  - intros p. rewrite Hd. split.
    + intros [Hp Hall]. split; [done|]. intros l [Hin| ->%list_elem_of_singleton]%elem_of_app Hlp.
      * rewrite lookup_insert_ne by (apply not_eq_sym; auto). by apply Hall.
      * by rewrite lookup_insert_eq.
    + intros [Hp Hall]. split; [done|]. intros l Hin Hlp.
      specialize (Hall l ltac:(set_solver) Hlp).
      by rewrite lookup_insert_ne in Hall by (apply not_eq_sym; auto).
  - intros seg Hseg. destruct (Ha seg Hseg) as [Hn (l & Hin & Hid & Hdr)].
    split; [|exists l; set_solver]. rewrite lookup_insert_ne; [done|]. rewrite <- Hid. apply not_eq_sym. auto.
Qed.

Lemma process_loop_tmp disk locs broadcast rm order : NoDup (tl_FileID <$> locs) →
  (∀ p, rm p = None) → ∀ w n, NoDup order.*1 →
  (∀ id j, (id, j) ∈ order → jw_jobs w !! id = Some j) → tmp_inv disk locs w →
  tmp_inv disk locs (process_loop w n broadcast rm order).
Proof.
  intros Hlocs Hrm. induction order as [|[id j] order IH]; intros w n Hnd Hin Hinv; [done|].
  cbn [process_loop]. rewrite fmap_cons in Hnd. apply NoDup_cons in Hnd as [Hni Hnd]. cbn [fst] in Hni.
  pose proof (Hin id j ltac:(by left)) as Hj.
  assert (∀ w', (∀ id', id' ≠ id → jw_jobs w' !! id' = jw_jobs w !! id') →
    ∀ id' j', (id', j') ∈ order → jw_jobs w' !! id' = Some j') as Hrest.
  { intros w' Hw id' j' Hin'. rewrite Hw; [apply Hin; by right|].
    intros ->. apply Hni. apply list_elem_of_fmap. by exists (id, j'). }
  case_match; [done|]. case_match; [apply IH; [done|by apply Hrest|done]|].
  unfold processJob, deleteFile. rewrite Hrm. destruct (broadcast _).
  - apply IH; [done|apply Hrest|].
    + intros id' Hne. cbn. by rewrite lookup_delete_ne.
    + by eapply (tmp_inv_forget _ _ w).
  - apply IH; [done|apply Hrest|].
    + intros id' Hne. cbn. by rewrite lookup_insert_ne.
    + by eapply (tmp_inv_started _ _ w).
Qed.

Lemma tmp_inv_answered disk locs w now resp j : NoDup (tl_FileID <$> locs) → tmp_inv disk locs w →
  jw_jobs w !! srp_FileID resp = Some j →
  tmp_inv disk locs (MkFileTmpJobWorker (jw_maxFileToProcess w) (jw_processingFileCount w)
    (jw_eventChan w ++ [job_toEvent now (fj_DriveID j) resp]) (delete (srp_FileID resp) (jw_jobs w))
    (jw_disk w ∖ {[fj_TmpFilePath j]})).
Proof.
  intros Hnd Hinv Hj. destruct (ti_jobs _ _ _ Hinv _ _ Hj) as (l & Hl & Hid & _ & Hdr).
  pose proof (ti_answers _ _ _ Hinv) as Ha.
  destruct (tmp_inv_forget disk locs w (MkFileTmpJobWorker (jw_maxFileToProcess w) (jw_processingFileCount w)
    (jw_eventChan w) (delete (srp_FileID resp) (jw_jobs w)) (jw_disk w ∖ {[fj_TmpFilePath j]})) _ _
    Hnd Hinv Hj eq_refl eq_refl eq_refl) as [Hj' Hd' Ho' Ha'].
  split; [exact Hj'|exact Hd'| |]; cbn [jw_eventChan jw_jobs] in *;
    unfold segments in *; rewrite omap_app.
  - rewrite fmap_app. apply NoDup_app. split_and!; [done| |apply NoDup_singleton].
    intros id (seg & -> & Hseg)%list_elem_of_fmap. destruct (Ha seg Hseg) as [Hn _].
    cbn. rewrite list_elem_of_singleton. intros E. congruence.
  - intros seg [Hseg|Hseg]%elem_of_app; [by apply Ha'|].
    cbn in Hseg. apply list_elem_of_singleton in Hseg as ->. cbn. rewrite lookup_delete_eq.
    split; [done|]. by exists l.
Qed.

Lemma job_run_inv max disk out locs w : job_run max disk out locs w → NoDup (tl_FileID <$> locs) →
  tmp_inv disk locs w.
Proof.
  intros Hr Hnd. induction Hr as [|m validate out locs w s out' w' err Hr IH Hc Hrm Ht]; [apply tmp_inv_start|].
  assert (NoDup (tl_FileID <$> locs)) as Hnd'
    by (rewrite fmap_app in Hnd; by apply NoDup_app in Hnd as [? _]).
  pose proof (coordinated_signal _ _ _ _ _ _ (job_run_started _ _ _ _ _ Hr) Hc) as Hs. clear Hc.
  specialize (IH Hnd'). destruct s as [e|now loc|bc rm order|ctx rm now resp];
    cbn [job_turn announced_by signal_ok removes] in *; rewrite ?app_nil_r in *.
  - by injection Ht as <- _.
  - injection Ht as <- _. by apply tmp_inv_add.
  - injection Ht as <- _. unfold processJobs. case_match; [done|]. case_match; [done|].
    apply process_loop_tmp; [done|done| | |done].
    + rewrite Hs. apply NoDup_fst_map_to_list.
    + intros id j. rewrite Hs. apply elem_of_map_to_list.
  - destruct Hs as (j & [Hj _]%running_lookup).
    unfold handleSpecialistResponse, removeJob, deleteFile in Ht. rewrite Hj in Ht. cbn in Ht.
    rewrite Hrm in Ht. destruct ctx as [e|]; injection Ht as <- _.
    + by eapply (tmp_inv_forget _ _ w).
    + destruct (tmp_inv_answered disk locs w now resp j Hnd' IH Hj) as [? ? ? ?]. by split.
Qed.

(** C13. A temporary file lives exactly as long as its job.  In every run of the job
    worker in which the files it is told of have different identifiers and removing a file
    succeeds, whatever the coordinator answers to its requests and whichever order the jobs
    are iterated in, the responses being those the coordinator's analyses send, one each: a
    file is on the disk if it was there and its job, if it has one, is still kept, and a
    file whose job was refused or answered is gone; no other file is removed; every answer
    is for a file it was told of, with its drive, and there is at most one for each. *)
Theorem tmp_files_follow_jobs max disk out locs w :
  job_run max disk out locs w → NoDup (tl_FileID <$> locs) →
  (∀ p, p ∈ jw_disk w ↔ p ∈ disk ∧
     ∀ loc, loc ∈ locs → tl_TmpFilePath loc = p → is_Some (jw_jobs w !! tl_FileID loc)) ∧
  NoDup (as_FileID <$> segments (jw_eventChan w)) ∧
  (∀ seg, seg ∈ segments (jw_eventChan w) → jw_jobs w !! as_FileID seg = None ∧
     ∃ loc, loc ∈ locs ∧ tl_FileID loc = as_FileID seg ∧ tl_DriveID loc = as_DriveID seg).
Proof. intros Hr Hnd. by destruct (job_run_inv _ _ _ _ _ Hr Hnd) as [_ Hd Ho Ha]. Qed.

(** ** Every file is answered *)

Section Smooth.
Context (m : Coordinator) (validate : SpecialistRequest → option error).

(** Every file that waits is accepted, and some specialist handles it. *)
Definition handled (w : FileTmpJobWorker)
    (world : SpecialistRequest → file_answers * list SpecialistClient * (Metric → string)) : Prop :=
  ∀ id j, jw_jobs w !! id = Some j → fj_IsRunning j = false →
    ∃ b, ask m validate world (job_request id j) = (None, Some b).

(** A pass in which nothing is refused, and an answer, without cancellation. *)
Inductive smooth_tick (out : list broadcast) (w : FileTmpJobWorker)
  : list broadcast → FileTmpJobWorker → Prop :=
| st_tick world rm order : order ≡ₚ map_to_list (jw_jobs w) → (∀ p, rm p = None) → handled w world →
    smooth_tick out w (out ++ starts w (ask m validate world) rm order)
      (processJobs w (λ r, (ask m validate world r).1) rm order).
Inductive smooth_answer (w : FileTmpJobWorker)
  : list broadcast → list broadcast → FileTmpJobWorker → Prop :=
| st_answer pre b post b' resp rm now w' err : answers b b' → broadcast_response b' = Some resp →
    (∀ p, rm p = None) → handleSpecialistResponse w None rm now resp = (w', err) →
    smooth_answer w (pre ++ b :: post) (pre ++ post) w'.

(** A run in which nothing is refused. *)
Inductive smooth_run (max : Z) (disk : gset string)
  : list broadcast → list TmpFileLocation → FileTmpJobWorker → Prop :=
| sr_start : smooth_run max disk [] [] (NewFileTmpJobWorker max disk)
| sr_location out locs w now loc : smooth_run max disk out locs w →
    smooth_run max disk out (locs ++ [loc]) (addJob w now loc)
| sr_tick out locs w out' w' : smooth_run max disk out locs w → smooth_tick out w out' w' →
    smooth_run max disk out' locs w'
| sr_answer out locs w out' w' : smooth_run max disk out locs w → smooth_answer w out out' w' →
    smooth_run max disk out' locs w'.

Lemma smooth_run_run max disk out locs w : smooth_run max disk out locs w → job_run max disk out locs w.
Proof.
  induction 1 as [|out locs w now loc _ IH|out locs w out' w' _ IH Ht|out locs w out' w' _ IH Ha];
    [apply jr_start| | |].
  - by apply (jr_turn _ _ m validate out locs w (JobLocation now loc) out _ None); [|apply co_location|..].
  - destruct Ht as [world rm order Hp Hrm _]. rewrite <- (app_nil_r locs).
    by apply (jr_turn _ _ m validate out locs w (JobTick (λ r, (ask m validate world r).1) rm order) _ _ None);
      [|apply co_tick|..].
  - destruct Ha as [pre b post b' resp rm now w' err Ha Hr Hrm Hh]. rewrite <- (app_nil_r locs).
    by eapply (jr_turn _ _ m validate _ locs w (JobResponse None rm now resp)); [|by eapply co_response|..].
Qed.

(** A waiting file has its answer, or a job; a running one has its analysis under way. *)
Definition covered (locs : list TmpFileLocation) (w : FileTmpJobWorker) : Prop :=
  ∀ loc, loc ∈ locs → is_Some (jw_jobs w !! tl_FileID loc) ∨
    tl_FileID loc ∈ as_FileID <$> segments (jw_eventChan w).

Record smooth_inv (max : Z) (out : list broadcast) (locs : list TmpFileLocation) (w : FileTmpJobWorker)
  : Prop := {
  si_ok : jobs_ok w;
  si_max : jw_maxFileToProcess w = max;
  si_started : started_ok out w;
  si_all : all_started out w;
  si_covered : covered locs w;
}.

Lemma handled_accepts w world : handled w world → ∀ id j, jw_jobs w !! id = Some j →
  fj_IsRunning j = false → (ask m validate world (job_request id j)).1 = None.
Proof. intros Hh id j Hj Hr. by destruct (Hh id j Hj Hr) as [b ->]. Qed.

Lemma smooth_inv_tick max out locs w out' w' : smooth_inv max out locs w →
  smooth_tick out w out' w' → smooth_inv max out' locs w'.
Proof.
  intros [Hok Hmax Hst Hall Hcov] [world rm order Hp Hrm Hh].
  destruct (processJobs_pass w (λ r, (ask m validate world r).1) rm order Hok Hp) as (Hok' & Hm' & Ho & _).
  destruct (starts_ok m validate world w out rm order Hst Hp) as [Hst' Hall'].
  split; [done|congruence|done|by apply Hall'|]. intros l Hl.
  destruct (Hcov l Hl) as [[j Hj]|Ha]; [left|right; by rewrite processJobs_events].
  destruct (Ho _ _ Hj) as [[-> _]|[(_ & _ & ->)|(Hr & Hx & _)]]; [by eexists|by eexists|].
  by rewrite (handled_accepts _ _ Hh _ _ Hj Hr) in Hx.
Qed.

Lemma smooth_inv_answer max out locs w out' w' : smooth_inv max out locs w →
  smooth_answer w out out' w' → smooth_inv max out' locs w' ∧
  length out = S (length out') ∧ size (jw_jobs w) = S (size (jw_jobs w')).
Proof.
  intros [Hok Hmax Hst Hall Hcov] Ha. destruct Ha as [pre b post b' resp rm now w' err Ha Hr Hrm Hh].
  destruct (started_ok_response _ _ _ _ _ _ _ _ _ _ _ Hst Ha Hr Hh) as [Hst' Hall'].
  assert (∃ j, running_jobs w !! srp_FileID resp = Some j) as [j Hj].
  { rewrite (response_fileID _ _ _ Ha Hr). apply Hst, elem_of_app. right. by left. }
  destruct (response_closes_job _ _ _ _ _ _ _ _ Hok Hj Hh) as (Hok' & Hjobs & _ & _ & Hev).
  destruct (Hev eq_refl) as [_ Hch].
  assert (jw_maxFileToProcess w' = jw_maxFileToProcess w) as Hm'.
  { apply (job_turn_ok w (JobResponse None rm now resp) w' err Hok); [by exists j|done]. }
  split; [split; [done|congruence|done|by apply Hall'|]|split].
  - intros l Hl. rewrite Hch. unfold segments. rewrite omap_app, fmap_app.
    destruct (decide (tl_FileID l = srp_FileID resp)) as [->|Hne].
    + right. apply elem_of_app. right. by left.
    + rewrite Hjobs, lookup_delete_ne by done. destruct (Hcov l Hl); [by left|right].
      apply elem_of_app. by left.
  - rewrite !length_app. simpl. lia.
  - apply running_lookup in Hj as [Hj _]. rewrite Hjobs, map_size_delete_Some by (by eexists).
    assert (size (jw_jobs w) ≠ 0%nat) by (intros H0%map_size_empty_inv; by rewrite H0 in Hj). lia.
Qed.

Lemma smooth_inv_add max out locs w now loc : smooth_inv max out locs w →
  smooth_inv max out (locs ++ [loc]) (addJob w now loc).
Proof.
  intros [Hok Hmax [Hnd Hst] Hall Hcov]. split; [by apply addJob_ok| | | |].
  - unfold addJob. by case_match.
  - split; [done|]. intros b Hb. by apply addJob_running, Hst.
  - intros id Hid%addJob_running. by apply Hall.
  - unfold addJob. intros l [Hl| ->%list_elem_of_singleton]%elem_of_app.
    + destruct (Hcov l Hl) as [Hj|Ha]; [left|right; by case_match].
      case_match; [done|]. cbn. rewrite lookup_insert_is_Some'. by right.
    + left. case_match eqn:Hj; [by rewrite Hj|]. cbn. by rewrite lookup_insert_eq.
Qed.

Lemma smooth_run_inv max disk out locs w : in_u 32 max → smooth_run max disk out locs w →
  smooth_inv max out locs w.
Proof.
  intros Hm. induction 1 as [|out locs w now loc _ IH|out locs w out' w' _ IH Ht|out locs w out' w' _ IH Ha].
  - split; [|done| | |by intros ? ?%elem_of_nil].
    + split_and!; [done|done|exact (proj1 Hm)].
    + split; [apply NoDup_nil_2|by intros ? ?%elem_of_nil].
    + intros id [j [Hj _]%running_lookup]. cbn in Hj. by rewrite lookup_empty in Hj.
  - by apply smooth_inv_add.
  - by eapply smooth_inv_tick.
  - by eapply smooth_inv_answer.
Qed.

(** As many analyses are under way as jobs are running. *)
Lemma started_length out w : started_ok out w → all_started out w →
  length out = size (running_jobs w).
Proof.
  intros [Hnd Hst] Hall. rewrite <- (length_fmap bc_fileID), <- size_dom.
  rewrite <- (size_list_to_set (C := gset FileID)) by done. f_equal. apply set_eq. intros id. rewrite elem_of_list_to_set, elem_of_dom. split; [|apply Hall].
  intros (b & -> & Hb)%list_elem_of_fmap. by apply Hst.
Qed.

(** The answers to all that is under way, one after the other and in any order. *)
Inductive all_answers : list broadcast → FileTmpJobWorker → FileTmpJobWorker → Prop :=
| aa_done w : all_answers [] w w
| aa_next out w out1 w1 w' : smooth_answer w out out1 w1 → all_answers out1 w1 w' → all_answers out w w'.

(** One round: a tick, and the answers to all that is then under way. *)
Inductive job_round : list broadcast * FileTmpJobWorker → list broadcast * FileTmpJobWorker → Prop :=
| jr_round out w out1 w1 w' : smooth_tick out w out1 w1 → all_answers out1 w1 w' →
    job_round (out, w) ([], w').

Lemma all_answers_smooth max disk locs out w w' : in_u 32 max → all_answers out w w' →
  smooth_run max disk out locs w →
  smooth_run max disk [] locs w' ∧ (size (jw_jobs w') + length out = size (jw_jobs w))%nat.
Proof.
  intros Hm. induction 1 as [w|out w out1 w1 w' Ha _ IH]; intros Hr; [split; [done|simpl; lia]|].
  destruct (smooth_inv_answer _ _ _ _ _ _ (smooth_run_inv _ _ _ _ _ Hm Hr) Ha) as (_ & Hl & Hs).
  destruct IH as [Hr' Hs']; [by eapply sr_answer|]. split; [done|lia].
Qed.

Lemma job_round_smooth max disk locs out w x : 0 < max → in_u 32 max →
  smooth_run max disk out locs w → job_round (out, w) x →
  ∃ w', x = ([], w') ∧ smooth_run max disk [] locs w' ∧ (size (jw_jobs w') ≤ size (jw_jobs w) - 1)%nat.
Proof.
  intros Hpos Hm Hr Hx. inversion Hx as [? ? out1 w1 w' Ht Ha]; subst. exists w'. split; [done|].
  assert (smooth_run max disk out1 locs w1) as Hr1 by by eapply sr_tick.
  destruct (all_answers_smooth _ _ _ _ _ _ Hm Ha Hr1) as [Hr' Hs]. split; [done|].
  destruct (smooth_run_inv _ _ _ _ _ Hm Hr1) as [_ _ Hst Hall _].
  rewrite (started_length _ _ Hst Hall) in Hs.
  destruct (smooth_run_inv _ _ _ _ _ Hm Hr) as [Hok Hmax _ _ _].
  destruct Ht as [world rm order Hp Hrm Hh].
  pose proof (handled_accepts _ _ Hh) as Hacc.
  destruct (processJobs_fills w (λ r, (ask m validate world r).1) rm order Hok Hp) as (Ho & Hn & Hrun).
  specialize (Hrun Hacc). pose proof (accepted_size w _ _ Hacc Ho Hn) as Hsize. unfold running in Hrun. lia.
Qed.

(** C14. Every file is answered.  Let the maximum be above zero, the files the worker is
    told of have different identifiers, removing a file succeed, the context not be
    cancelled, and each file that waits be accepted by the coordinator and handled by some
    specialist (a file no specialist handles is accepted and never answered:
    [unhandled_type_keeps_its_place]).  From any state the job worker then reaches, as many
    rounds as there are jobs are enough, a round being a tick and the answers to all the
    analyses under way, in any order: no job is left, every file the worker was told of has
    been answered exactly once, with its drive, and is gone from the disk; and no other
    file is. *)
Theorem every_file_is_answered max disk out locs w k w' : 0 < max → in_u 32 max →
  smooth_run max disk out locs w → NoDup (tl_FileID <$> locs) →
  nsteps job_round k (out, w) ([], w') → (size (jw_jobs w) ≤ k)%nat →
  jw_jobs w' = ∅ ∧
  as_FileID <$> segments (jw_eventChan w') ≡ₚ tl_FileID <$> locs ∧
  (∀ seg, seg ∈ segments (jw_eventChan w') →
     ∃ loc, loc ∈ locs ∧ tl_FileID loc = as_FileID seg ∧ tl_DriveID loc = as_DriveID seg) ∧
  jw_disk w' = disk ∖ list_to_set (tl_TmpFilePath <$> locs).
Proof.
  intros Hpos Hm Hr Hnd Hk Hle.
  assert (smooth_run max disk [] locs w' ∧ (size (jw_jobs w') ≤ size (jw_jobs w) - k)%nat) as [Hr' Hs].
  { clear Hle. revert out w Hr Hk. induction k as [|k IH]; intros out w Hr Hk; inversion Hk as [|? ? x ? Hx Hk']; subst.
    - split; [done|lia].
    - destruct (job_round_smooth _ _ _ _ _ _ Hpos Hm Hr Hx) as (w1 & -> & Hr1 & Hs1).
      destruct (IH _ _ Hr1 Hk') as [? ?]. split; [done|lia]. }
  assert (jw_jobs w' = ∅) as Hempty by (apply map_size_empty_inv; lia).
  pose proof (si_covered _ _ _ _ (smooth_run_inv _ _ _ _ _ Hm Hr')) as Hcov.
  destruct (job_run_inv _ _ _ _ _ (smooth_run_run _ _ _ _ _ Hr') Hnd) as [_ Hd Ho Ha].
  split_and!; [done| | |].
  - apply NoDup_Permutation; [done|done|]. intros id. split.
    + intros (seg & -> & Hseg)%list_elem_of_fmap. destruct (Ha seg Hseg) as (_ & loc & Hl & <- & _).
      by apply list_elem_of_fmap_2.
    + intros (loc & -> & Hl)%list_elem_of_fmap. destruct (Hcov loc Hl) as [Hj|?]; [|done].
      rewrite Hempty, lookup_empty in Hj. by destruct Hj.
  - intros seg Hseg. by destruct (Ha seg Hseg).
  - apply set_eq. intros p. rewrite Hd, elem_of_difference, elem_of_list_to_set, list_elem_of_fmap.
    rewrite Hempty. setoid_rewrite lookup_empty. split.
    + intros [Hp Hall]. split; [done|]. intros (loc & -> & Hl). by destruct (Hall loc Hl eq_refl).
    + intros [Hp Hall]. split; [done|]. intros loc Hl <-. destruct Hall. eauto.
Qed.
End Smooth.
End TmpFiles.

(** ** Two files: one is answered, the other is refused *)

Definition tmp_disk : gset string := {["/tmp/a"; "/tmp/b"; "/tmp/c"]}.
Definition refuse_b (r : SpecialistRequest) : option error :=
  if String.eqb (sr_FileID r) "b" then Some (Opaque "refused") else None.
Definition tmp_ask : SpecialistRequest → option error * option broadcast :=
  ask demo_coordinator refuse_b demo_world.
Definition tmp_waiting : FileTmpJobWorker :=
  addJob (addJob (NewFileTmpJobWorker 2 tmp_disk) 5 (demo_loc "a")) 6 (demo_loc "b").
Definition tmp_ticked : FileTmpJobWorker :=
  processJobs tmp_waiting (λ r, (tmp_ask r).1) rm_fine (map_to_list (jw_jobs tmp_waiting)).

(** An analysis whose only specialist answers. *)
Definition answer_once (b : broadcast) : broadcast :=
  match bc_waiting b with
  | [(s, q)] => answer b s (Ok (MkResponse (ScoreValue (MkScore f64_zero "ok")))) []
  | _ => b
  end.
Lemma answer_once_answers b : answers b (answer_once b).
Proof.
  unfold answer_once. destruct (bc_waiting b) as [|[s q] [|? ?]] eqn:Hw; try apply answers_done.
  eapply (answers_next b s q _ [] []); [exact Hw|apply answers_done].
Qed.
Definition response_of (b : broadcast) : SpecialistResponse :=
  default (MkSpecialistResponse "" []) (broadcast_response (answer_once b)).
Definition tmp_started : list broadcast :=
  starts tmp_waiting tmp_ask rm_fine (map_to_list (jw_jobs tmp_waiting)).
Definition answer_first (w : FileTmpJobWorker) (out : list broadcast) : FileTmpJobWorker :=
  match out with b :: _ => (handleSpecialistResponse w None rm_fine 7 (response_of b)).1 | [] => w end.
Definition tmp_end : FileTmpJobWorker := answer_first tmp_ticked tmp_started.

Lemma tmp_run : job_run (U := HexUuid) 2 tmp_disk [] [demo_loc "a"; demo_loc "b"] tmp_end.
Proof.
  assert (job_run (U := HexUuid) 2 tmp_disk tmp_started [demo_loc "a"; demo_loc "b"] tmp_ticked) as Hr.
  { apply (jr_turn _ _ demo_coordinator refuse_b [] [demo_loc "a"; demo_loc "b"] tmp_waiting
      (JobTick (λ r, (tmp_ask r).1) rm_fine (map_to_list (jw_jobs tmp_waiting))) tmp_started _ None);
      [|by apply (co_tick _ _ tmp_waiting [] demo_world)|done|done].
    apply (jr_turn _ _ demo_coordinator refuse_b [] [demo_loc "a"]
      (addJob (NewFileTmpJobWorker 2 tmp_disk) 5 (demo_loc "a")) (JobLocation 6 (demo_loc "b")) [] _ None);
      [|apply co_location|done|done].
    by apply (jr_turn _ _ demo_coordinator refuse_b [] [] (NewFileTmpJobWorker 2 tmp_disk) (JobLocation 5 (demo_loc "a")) [] _ None);
      [apply jr_start|apply co_location|..]. }
  unfold tmp_end. destruct tmp_started as [|b [|? ?]] eqn:Hb; try discriminate Hb.
  assert (broadcast_response (answer_once b) = Some (response_of b)) as Hresp by (injection Hb as <-; vm_refl).
  cbn [answer_first]. destruct (handleSpecialistResponse tmp_ticked None rm_fine 7 (response_of b)) as [w err] eqn:Hh.
  eapply (jr_turn _ _ demo_coordinator refuse_b [b] [demo_loc "a"; demo_loc "b"] tmp_ticked
    (JobResponse None rm_fine 7 (response_of b)) []); [exact Hr| |done|exact Hh].
  exact (co_response _ _ _ [] b [] _ _ _ _ _ (answer_once_answers b) Hresp).
Qed.

Lemma tmp_files_follow_jobs_witness :
  "/tmp/b" ∉ jw_disk tmp_end ∧ as_FileID <$> segments (jw_eventChan tmp_end) = ["a"].
Proof.
  destruct (tmp_files_follow_jobs (U := HexUuid) 2 tmp_disk []
    [demo_loc "a"; demo_loc "b"] tmp_end) as (Hd & _ & _).
  - exact tmp_run.
  - apply (bool_decide_unpack (NoDup _)). vm_compute. exact I.
  - split; [|vm_compute; reflexivity]. rewrite Hd. intros [_ H].
    destruct (H (demo_loc "b")) as [j Hj]; [right; left|reflexivity|discriminate Hj].
Defined.

(** ** Two files and room for one *)

Definition tick_all (w : FileTmpJobWorker) : FileTmpJobWorker :=
  processJobs w (λ r, (demo_ask r).1) rm_fine (map_to_list (jw_jobs w)).
Definition started_all (w : FileTmpJobWorker) : list broadcast :=
  starts w demo_ask rm_fine (map_to_list (jw_jobs w)).
Definition round_of (w : FileTmpJobWorker) : FileTmpJobWorker := answer_first (tick_all w) (started_all w).

(** A round with one analysis. *)
Lemma round_of_round w : map_Forall (λ _ j, CanHandle demo_specialist (fj_EffectiveMimeType j) = true) (jw_jobs w) →
  length (started_all w) = 1%nat →
  Forall (λ b, broadcast_response (answer_once b) = Some (response_of b)) (started_all w) →
  job_round (U := HexUuid) demo_coordinator accept_all ([], w) ([], round_of w).
Proof.
  unfold round_of. intros Hpdf Hl Hresp.
  apply (jr_round demo_coordinator accept_all [] w (started_all w) (tick_all w)).
  { apply (st_tick demo_coordinator accept_all [] w demo_world rm_fine); [done|done|].
    intros id j Hj _. specialize (Hpdf id j Hj). unfold ask, Broadcast. cbn -[CanHandle] in *.
    rewrite Hpdf. by eexists. }
  destruct (started_all w) as [|b [|? ?]]; try discriminate Hl. apply Forall_cons in Hresp as [Hresp _].
  cbn [answer_first].
  destruct (handleSpecialistResponse (tick_all w) None rm_fine 7 (response_of b)) as [w' err] eqn:Hh.
  eapply aa_next; [|apply aa_done].
  by eapply (st_answer (tick_all w) [] b []); [apply answer_once_answers|exact Hresp| |exact Hh].
Qed.

Definition narrow : FileTmpJobWorker :=
  addJob (addJob (NewFileTmpJobWorker 1 tmp_disk) 5 (demo_loc "a")) 6 (demo_loc "b").

Lemma narrow_run : smooth_run (U := HexUuid) demo_coordinator accept_all 1 tmp_disk []
  [demo_loc "a"; demo_loc "b"] narrow.
Proof. apply (sr_location _ _ _ _ [] [demo_loc "a"]), (sr_location _ _ _ _ [] []), sr_start. Qed.

Lemma narrow_rounds : nsteps (job_round (U := HexUuid) demo_coordinator accept_all) 2 ([], narrow)
  ([], round_of (round_of narrow)).
Proof.
  eapply nsteps_l; [apply round_of_round|eapply nsteps_l; [apply round_of_round|apply nsteps_O]];
    try (by vm_compute; repeat constructor);
    apply (bool_decide_unpack (map_Forall _ _)); vm_compute; exact I.
Qed.

Lemma every_file_is_answered_witness :
  as_FileID <$> segments (jw_eventChan (round_of (round_of narrow))) ≡ₚ ["a"; "b"] ∧
  "/tmp/a" ∉ jw_disk (round_of (round_of narrow)).
Proof.
  destruct (every_file_is_answered (U := HexUuid) demo_coordinator accept_all 1 tmp_disk []
    [demo_loc "a"; demo_loc "b"] narrow 2 (round_of (round_of narrow))) as (_ & Ha & _ & Hd).
  - reflexivity.
  - split; vm_compute; [discriminate|reflexivity].
  - exact narrow_run.
  - apply (bool_decide_unpack (NoDup _)). vm_compute. exact I.
  - exact narrow_rounds.
  - vm_compute. lia.
  - split; [exact Ha|]. rewrite Hd, elem_of_difference, elem_of_list_to_set. intros [_ Hn].
    apply Hn. left.
Defined.
