(* ===== verification/Sink.v ===== *)
(** * Sink: storing scanned files and enriching them

    [sink/analysis_sink.go].  Files are buffered and stored in batches, by size
    or after a timeout; authorized ones are queued for the specialists; a
    specialist's answer is merged into the stored analysis.  Each critical
    section is a function, so that the calls and the timer can interleave
    between them; fresh identifiers and the clock are arguments. *)

From Stdlib Require Import String.
From S2P Require Import Prelude Errors Env Store Text Domain Mime AnalysisStore TaskQueue.

Section Sink.
Context {B : Badger} {BL : BadgerLaws B} {U : Uuid} {UL : UuidLaws U}
        {T : Timestamppb} {TL : TimestamppbLaws T} {UT : UnicodeTables}
        {BG : Bluge} {BGL : BlugeLaws BG}
        {C : Codec pbAnalysis} {CL : CodecLaws pbAnalysis} {CT : Codec pbFileTask}.

(** ** Building analyses *)

(** The result of one specialist, in [buildFinalAnalysis]; [None] is the panic
    on a missing response. *)
Definition merge_result (ap : Analysis * FileDetails) (res : SpecialistResult)
  : option (Analysis * FileDetails) :=
  let '(analysis, payload) := ap in
  let with_ a summary tags scores :=
    MkAnalysis (an_ID a) (an_EntityId a) (an_Namespace a) (an_At a) summary tags scores
      (an_Payload a) (an_Version a) in
  let content p c := MkFileDetails (fd_Filename p) (fd_MimeType p) (fd_Size p) c in
  match srs_Resp res with
  | None => None
  | Some resp => Some
      match OneOf resp with
      | AudioValue data =>
          (with_ analysis "Audio Transcription" (an_Tags analysis) (an_Scores analysis),
           content payload (ad_Transcription data))
      | DocumentValue data =>
          (with_ analysis
             (if String.eqb (dd_Title data) "" then an_Summary analysis else dd_Title data)
             (if String.eqb (dd_Author data) "" then an_Tags analysis
              else an_Tags analysis ++ ["author:" +:+ dd_Author data]) (an_Scores analysis),
           match dd_Pages data with [] => payload | p :: _ => content payload (pg_Content p) end)
      | ScoreValue data =>
          match srs_ID res with
          | Some id =>
              (with_ analysis (an_Summary analysis) (an_Tags analysis ++ [sc_Label data])
                 (<[id := sc_Score data]> (an_Scores analysis)), payload)
          | None => (analysis, payload)
          end
      | _ => (analysis, payload)
      end
  end.

Fixpoint merge_results (ap : Analysis * FileDetails) (l : list SpecialistResult)
  : option (Analysis * FileDetails) :=
  match l with
  | [] => Some ap
  | r :: l => match merge_result ap r with Some ap => merge_results ap l | None => None end
  end.

Definition file_room : string := "file-room".

Definition buildFinalAnalysis (version : uuid) (evt : FileAnalyse) (resp : SpecialistResponse)
  : option Analysis :=
  let analysis :=
    MkAnalysis (fy_Id evt) (fy_Id evt) file_room (fy_ScannedAt evt) (fy_Path evt)
      [fy_RawMimeType evt; fy_SourceType evt] ∅ NilPayload version in
  let payload := MkFileDetails (fy_Path evt) (fy_RawMimeType evt) (fy_Size evt) "" in
  match merge_results (analysis, payload) (srp_Res resp) with
  | None => None
  | Some (a, payload) =>
      Some (MkAnalysis (an_ID a) (an_EntityId a) (an_Namespace a) (an_At a) (an_Summary a)
              (an_Tags a) (an_Scores a) (FileP payload) (an_Version a))
  end.

(** ** State *)

(** [a.timer]: nil, running, or fired with its flush not yet started. *)
Inductive timer := NoTimer | Armed | Fired.

Record AnalysisSink := MkAnalysisSink {
  sk_timer : timer;
  sk_analysisRepository : AnalysisRepository;
  sk_fileTaskRepository : FileTaskRepository;
  sk_events : list FileAnalyse;
  sk_maxAnalyzedEvent : Z;
}.

Definition NewAnalysisSink (r : AnalysisRepository) (t : FileTaskRepository) (max : Z)
  : AnalysisSink := MkAnalysisSink NoTimer r t [] max.

Definition with_buffer (a : AnalysisSink) (t : timer) (events : list FileAnalyse) : AnalysisSink :=
  MkAnalysisSink t (sk_analysisRepository a) (sk_fileTaskRepository a) events
    (sk_maxAnalyzedEvent a).
Definition with_repos (a : AnalysisSink) (r : AnalysisRepository) (t : FileTaskRepository)
  : AnalysisSink :=
  MkAnalysisSink (sk_timer a) r t (sk_events a) (sk_maxAnalyzedEvent a).

(** ** Storing a batch *)

Definition task_of (now : time) (evt : FileAnalyse) : FileTask :=
  MkFileTask (uuid_String (fy_Id evt)) (fy_DriveID evt) (fy_Path evt) (fy_RawMimeType evt)
    (fy_EffectiveMimeType evt) (fy_Size evt) NORMAL now 0.

(** The loop of [processAndStore]; [fresh k] are the version and the time of
    the [k]-th event.  An error of [EnqueueTask] is only logged. *)
Fixpoint process_events (tasks : FileTaskRepository) (fresh : nat → uuid * time) (k : nat)
    (events : list FileAnalyse) (acc : list Analysis) : option (FileTaskRepository * list Analysis) :=
  match events with
  | [] => Some (tasks, acc)
  | evt :: events =>
      match buildFinalAnalysis (fst (fresh k)) evt (MkSpecialistResponse "" []) with
      | None => None
      | Some analysis =>
          let tasks := if snd (IsAuthorized (fy_RawMimeType evt))
                       then fst (EnqueueTask tasks (task_of (snd (fresh k)) evt)) else tasks in
          process_events tasks fresh (S k) events (acc ++ [analysis])
      end
  end.

Definition processAndStore (a : AnalysisSink) (fresh : nat → uuid * time) (events : list FileAnalyse)
  : option (AnalysisSink * option error) :=
  match process_events (sk_fileTaskRepository a) fresh 0 events [] with
  | None => None
  | Some (tasks, []) => Some (with_repos a (sk_analysisRepository a) tasks, None)
  | Some (tasks, allAnalyses) =>
      match StoreBatch (sk_analysisRepository a) allAnalyses with
      | None => None
      | Some (repo, err) => Some (with_repos a repo tasks, err)
      end
  end.

(** ** Buffering *)

(** The critical section of [handleNewFile]: the sink, and whether it must be
    flushed. *)
Definition append_event (a : AnalysisSink) (e : FileAnalyse) : AnalysisSink * bool :=
  let events := sk_events a ++ [e] in
  let t := if (length events =? 1)%nat then
             match sk_timer a with NoTimer => Armed | t => t end
           else sk_timer a in
  (with_buffer a t events, sk_maxAnalyzedEvent a <=? Z.of_nat (length events)).

(** The critical section of [flush]: the sink and the batch to store. *)
Definition swap_buffer (a : AnalysisSink) : AnalysisSink * list FileAnalyse :=
  (with_buffer a NoTimer [], sk_events a).

Definition flush (a : AnalysisSink) (fresh : nat → uuid * time)
  : option (AnalysisSink * option error) :=
  match swap_buffer a with
  | (a, []) => Some (a, None)
  | (a, batchEvents) => processAndStore a fresh batchEvents
  end.

Definition handleNewFile (a : AnalysisSink) (fresh : nat → uuid * time) (e : FileAnalyse)
  : option (AnalysisSink * option error) :=
  let '(a, isFull) := append_event a e in
  if isFull then flush a fresh else Some (a, None).

(** ** Enrichment *)

Definition enrich_one (a : Analysis) (result : AnalysisMetric) : Analysis :=
  match am_SpecialistErr result, am_Resp result with
  | None, Some resp =>
      match OneOf resp with
      | ScoreValue data =>
          match am_ID result with
          | Some id =>
              MkAnalysis (an_ID a) (an_EntityId a) (an_Namespace a) (an_At a) (an_Summary a)
                (if String.eqb (sc_Label data) "" then an_Tags a else an_Tags a ++ [sc_Label data])
                (<[id := sc_Score data]> (an_Scores a)) (an_Payload a) (an_Version a)
          | None => a
          end
      | AudioValue data =>
          match an_Payload a with
          | FileP details =>
              MkAnalysis (an_ID a) (an_EntityId a) (an_Namespace a) (an_At a) (an_Summary a)
                (an_Tags a) (an_Scores a)
                (FileP (MkFileDetails (fd_Filename details) (fd_MimeType details) (fd_Size details)
                          (ad_Transcription data))) (an_Version a)
          | _ => a
          end
      | DocumentValue data =>
          MkAnalysis (an_ID a) (an_EntityId a) (an_Namespace a) (an_At a)
            (if String.eqb (dd_Title data) "" then an_Summary a else dd_Title data)
            (if String.eqb (dd_Author data) "" then an_Tags a
             else an_Tags a ++ ["author:" +:+ dd_Author data])
            (an_Scores a) (an_Payload a) (an_Version a)
      | _ => a
      end
  | _, _ => a
  end.

Definition handleAnalysisSegment (s : AnalysisSink) (version : uuid) (segment : AnalysisSegment)
  : option (AnalysisSink * option error) :=
  match uuid_Parse (as_FileID segment) with
  | Err err => Some (s, Some (Errorf "invalid file ID format: " err))
  | Ok fileID =>
      match FetchFullByEntityId (sk_analysisRepository s) (as_DriveID segment) fileID with
      | Err err => Some (s, Some (Errorf "could not fetch analysis for enrichment: " err))
      | Ok analysis =>
          let a := foldl enrich_one analysis (as_Metrics segment) in
          let a := MkAnalysis (an_ID a) (an_EntityId a) (an_Namespace a) (an_At a) (an_Summary a)
                     (an_Tags a) (an_Scores a) (an_Payload a) version in
          match StoreAnalysis (sk_analysisRepository s) a with
          | None => None
          | Some (repo, Some err) =>
              Some (with_repos s repo (sk_fileTaskRepository s),
                    Some (Errorf "failed to save enriched analysis: " err))
          | Some (repo, None) => Some (with_repos s repo (sk_fileTaskRepository s), None)
          end
      end
  end.

(** [Consume]. *)
Definition AnalysisSink_Consume (s : AnalysisSink) (fresh : nat → uuid * time) (e : FileAnalyzerEvent)
  : option (AnalysisSink * option error) :=
  match e with
  | EvFileAnalyse evt => handleNewFile s fresh evt
  | EvAnalysisSegment seg => handleAnalysisSegment s (fst (fresh 0%nat)) seg
  end.

(** ** Interleaving *)

(** The sink with the flushes that have been decided but not started, the
    batches taken from the buffer but not stored yet, the batches stored, and those
    whose storing failed: the error is returned and the batch dropped. *)
Record sink_system := MkSinkSystem {
  sy_sink : AnalysisSink;
  sy_flushes : nat;
  sy_taken : list (list FileAnalyse);
  sy_stored : list (list FileAnalyse);
  sy_failed : list (list FileAnalyse);
}.

(** The steps, with the event consumed if there is one. *)
Inductive sink_step : sink_system → list FileAnalyse → sink_system → Prop :=
| sk_consume a f tk st fl e a' full :
    append_event a e = (a', full) →
    sink_step (MkSinkSystem a f tk st fl) [e]
      (MkSinkSystem a' (if full then S f else f) tk st fl)
| sk_fire a f tk st fl :
    sk_timer a = Armed →
    sink_step (MkSinkSystem a f tk st fl) []
      (MkSinkSystem (with_buffer a Fired (sk_events a)) (S f) tk st fl)
| sk_flush a f tk st fl a' batch :
    swap_buffer a = (a', batch) →
    sink_step (MkSinkSystem a (S f) tk st fl) []
      (MkSinkSystem a' f (match batch with [] => tk | _ => tk ++ [batch] end) st fl)
| sk_store a f pre batch post st fl fresh a' :
    processAndStore a fresh batch = Some (a', None) →
    sink_step (MkSinkSystem a f (pre ++ batch :: post) st fl) []
      (MkSinkSystem a' f (pre ++ post) (st ++ [batch]) fl)
| sk_fail a f pre batch post st fl fresh a' err :
    processAndStore a fresh batch = Some (a', Some err) →
    sink_step (MkSinkSystem a f (pre ++ batch :: post) st fl) []
      (MkSinkSystem a' f (pre ++ post) st (fl ++ [batch])).

Inductive sink_run (a : sink_system) : list FileAnalyse → sink_system → Prop :=
| sink_run_start : sink_run a [] a
| sink_run_step l b e c : sink_run a l b → sink_step b e c → sink_run a (l ++ e) c.

Definition sink_inv (consumed : list FileAnalyse) (s : sink_system) : Prop :=
  concat (sy_stored s) ++ concat (sy_failed s) ++ concat (sy_taken s) ++ sk_events (sy_sink s) ≡ₚ
    consumed ∧
  Forall (λ b, b ≠ []) (sy_taken s) ∧
  (sk_events (sy_sink s) ≠ [] →
     sk_timer (sy_sink s) = Armed ∨ sk_timer (sy_sink s) = Fired) ∧
  (sk_timer (sy_sink s) = Fired → (0 < sy_flushes s)%nat) ∧
  (sk_maxAnalyzedEvent (sy_sink s) ≤ Z.of_nat (length (sk_events (sy_sink s))) →
     sk_events (sy_sink s) ≠ [] → (0 < sy_flushes s)%nat).

Lemma processAndStore_buffer a fresh batch a' err :
  processAndStore a fresh batch = Some (a', err) →
  sk_timer a' = sk_timer a ∧ sk_events a' = sk_events a ∧
  sk_maxAnalyzedEvent a' = sk_maxAnalyzedEvent a.
Proof.
  unfold processAndStore. intros H. destruct (process_events _ _ _ _ _) as [[tasks [|x l]]|]; [| |done].
  - by injection H as <- <-.
  - destruct (StoreBatch _ _) as [[r e]|]; [|done]. by injection H as <- <-.
Qed.

Lemma sink_inv_step consumed a e b : sink_inv consumed a → sink_step a e b → sink_inv (consumed ++ e) b.
Proof.
  intros (HP & Hne & Ht & Hf & Hm) Hs.
  destruct Hs as [a f tk st fl e a' full Ha|a f tk st fl Ha|a f tk st fl a' batch Ha
                 |a f pre batch post st fl fresh a' Ha|a f pre batch post st fl fresh a' err Ha];
    cbn [sy_sink sy_flushes sy_taken sy_stored sy_failed] in *; unfold sink_inv;
    cbn [sy_sink sy_flushes sy_taken sy_stored sy_failed]; rewrite ?app_nil_r.
  4-5: destruct (processAndStore_buffer _ _ _ _ _ Ha) as (-> & -> & ->);
    apply Forall_app in Hne as [Hn1 Hn2]; apply Forall_cons in Hn2 as [_ Hn2];
    (split_and!; [|by apply Forall_app|done|done|done]);
    rewrite <- HP, !concat_app; cbn [concat]; rewrite app_nil_r; solve_Permutation.
  - unfold append_event in Ha. injection Ha as <- <-. cbn [with_buffer sk_events sk_timer sk_maxAnalyzedEvent].
    split_and!; [by rewrite <- HP, !app_assoc|done| | |].
    + intros _. rewrite length_app. cbn [length]. destruct (sk_events a) as [|x l] eqn:He.
      * simpl. destruct (sk_timer a); auto.
      * destruct (Ht ltac:(done)) as [->| ->]; case_match; auto.
    + intros Hfi. assert (0 < f)%nat as Hpos; [|destruct (_ <=? _); lia]. apply Hf.
      destruct (_ =? 1)%nat; [|done]. by destruct (sk_timer a).
    + intros Hmax _. rewrite (proj2 (Z.leb_le _ _) Hmax). lia.
  - cbn [with_buffer sk_events sk_timer sk_maxAnalyzedEvent]. split_and!; auto; lia.
  - unfold swap_buffer in Ha. injection Ha as <- <-.
    cbn [with_buffer sk_events sk_timer sk_maxAnalyzedEvent]. rewrite app_nil_r.
    destruct (sk_events a) as [|x l] eqn:He.
    + rewrite app_nil_r in HP. split_and!; done.
    + split_and!; [|apply Forall_app; split; [done|by constructor]|done|done|done].
      rewrite <- HP, concat_app. cbn [concat]. by rewrite app_nil_r.
Qed.

Lemma sink_step_max a e b : sink_step a e b →
  sk_maxAnalyzedEvent (sy_sink b) = sk_maxAnalyzedEvent (sy_sink a).
Proof.
  destruct 1 as [? ? ? ? ? ? ? ? Ha|? ? ? ? ? Ha|? ? ? ? ? ? ? Ha|? ? ? ? ? ? ? ? ? Ha
                |? ? ? ? ? ? ? ? ? ? Ha];
    cbn [sy_sink]; [by injection Ha as <- <-|done|by injection Ha as <- <-|..];
    by apply processAndStore_buffer in Ha as (_ & _ & ->).
Qed.

Definition sink_start (r : AnalysisRepository) (t : FileTaskRepository) (max : Z) : sink_system :=
  MkSinkSystem (NewAnalysisSink r t max) 0 [] [] [].

Lemma sink_run_inv r t max consumed s : sink_run (sink_start r t max) consumed s →
  sink_inv consumed s ∧ sk_maxAnalyzedEvent (sy_sink s) = max.
Proof.
  induction 1 as [|l b e c _ [IH Hmx] Hs]; [by split_and!|].
  split; [by eapply sink_inv_step|]. by rewrite (sink_step_max _ _ _ Hs).
Qed.

(** C26. No scanned file is forgotten or stored twice, however the calls, the timer
    and the writes interleave: at any time the files consumed are exactly those in
    the batches stored, in the batches whose write failed, in the batches being
    stored, and in the buffer; a buffer that is not empty has its timer running or a
    flush on the way, and a full one always has a flush on the way. *)
Theorem sink_conserves_events r t max consumed s :
  sink_run (sink_start r t max) consumed s →
  concat (sy_stored s) ++ concat (sy_failed s) ++ concat (sy_taken s) ++ sk_events (sy_sink s) ≡ₚ
    consumed ∧
  (sk_events (sy_sink s) ≠ [] → sk_timer (sy_sink s) = Armed ∨ (0 < sy_flushes s)%nat) ∧
  (max ≤ Z.of_nat (length (sk_events (sy_sink s))) → sk_events (sy_sink s) ≠ [] →
     (0 < sy_flushes s)%nat).
Proof.
  intros [(HP & _ & Ht & Hf & Hm) <-]%sink_run_inv. split_and!; [done| |done].
  intros He. destruct (Ht He) as [Ha|Hfi]; [by left|right; auto].
Qed.

(** ** What is stored *)

Definition scanned_analysis (version : uuid) (evt : FileAnalyse) : Analysis :=
  MkAnalysis (fy_Id evt) (fy_Id evt) file_room (fy_ScannedAt evt) (fy_Path evt)
    [fy_RawMimeType evt; fy_SourceType evt] ∅
    (FileP (MkFileDetails (fy_Path evt) (fy_RawMimeType evt) (fy_Size evt) "")) version.

Lemma build_scanned version evt :
  buildFinalAnalysis version evt (MkSpecialistResponse "" []) = Some (scanned_analysis version evt).
Proof. done. Qed.

Lemma process_events_spec fresh events : ∀ tasks k acc, ∃ tasks',
  process_events tasks fresh k events acc =
    Some (tasks', acc ++ imap (λ i e, scanned_analysis (fst (fresh (k + i)%nat)) e) events).
Proof.
  induction events as [|e events IH]; intros tasks k acc; cbn [process_events imap].
  { exists tasks. by rewrite app_nil_r. }
  rewrite build_scanned. cbv zeta.
  destruct (IH (if snd (IsAuthorized (fy_RawMimeType e))
                then fst (EnqueueTask tasks (task_of (snd (fresh k)) e)) else tasks)
              (S k) (acc ++ [scanned_analysis (fst (fresh k)) e])) as [tasks' Ht].
  exists tasks'. rewrite Ht, <- app_assoc. cbn [app].
  rewrite Nat.add_0_r. do 4 f_equal. apply imap_ext. intros i x _. simpl. by rewrite <- Nat.add_succ_comm.
Qed.

(** Everything in the store belongs to the room of scanned files. *)
Definition only_file_room (m : gmap string string) : Prop :=
  ∀ a, current m a → an_Namespace a = file_room.

Lemma store_effect_room m a : only_file_room m → an_Namespace a = file_room →
  only_file_room (store_effect m a).
Proof.
  intros Hm Ha a' Hc. destruct (decide (an_EntityId a' = an_EntityId a)) as [He|Hne].
  - unfold store_effect in Hc. destruct (bytes_of a) as [b|] eqn:Hb; [|by apply Hm].
    pose proof (store_effect_current m a b Hb) as Hcur. unfold store_effect in Hcur. rewrite Hb in Hcur.
    destruct Hc as [Hi (v & Hv & Hd)]. destruct Hcur as [Hi' (v' & Hv' & Hd')].
    rewrite He in Hi. cbn [canonical an_EntityId] in Hi'.
    assert (an_key a' = an_key (canonical a)) as Hk by congruence.
    rewrite Hk in Hv. assert (v = v') as -> by congruence.
    assert (a' = canonical a) as -> by congruence. done.
  - apply Hm. by apply (store_effect_current_ne m a a' Hne).
Qed.

Lemma processAndStore_room a fresh batch a' :
  only_file_room (db_map (ar_db (sk_analysisRepository a))) →
  processAndStore a fresh batch = Some (a', None) →
  only_file_room (db_map (ar_db (sk_analysisRepository a'))).
Proof.
  intros Hm. unfold processAndStore.
  destruct (process_events_spec fresh batch (sk_fileTaskRepository a) 0 []) as [tasks ->].
  cbn [app]. set (l := imap _ batch). intros H.
  destruct l as [|x l'] eqn:El; [by injection H as <-|]. rewrite <- El in H.
  destruct (StoreBatch (sk_analysisRepository a) l) as [[r [e|]]|] eqn:Hs; [done| |done].
  injection H as <-. cbn [with_repos sk_analysisRepository].
  apply StoreBatch_effect in Hs as (_ & -> & _).
  assert (Forall (λ a, an_Namespace a = file_room) l) as HF.
  { subst l. clear. apply Forall_forall. intros y Hy.
    apply elem_of_lookup_imap in Hy as (i & e & -> & _). done. }
  clear El. revert Hm. generalize (db_map (ar_db (sk_analysisRepository a))).
  induction HF as [|y l Hy _ IH]; intros m Hm; [done|]. apply IH. by apply store_effect_room.
Qed.

(** The specialists' answers are never merged: scanned files are stored under
    ["file-room"], and the segment looks for them under the drive. *)
Theorem enrichment_is_refused s version segment :
  store_ok (db_map (ar_db (sk_analysisRepository s))) →
  only_file_room (db_map (ar_db (sk_analysisRepository s))) →
  as_DriveID segment ≠ file_room →
  ∃ err, handleAnalysisSegment s version segment = Some (s, Some err).
Proof.
  intros Hok Hm Hd. unfold handleAnalysisSegment.
  destruct (uuid_Parse (as_FileID segment)) as [id|e]; [|by eexists].
  destruct (FetchFullByEntityId _ _ id) as [a|e] eqn:Hf; [|by eexists].
  apply Fetch_Ok in Hf as (Hc & _ & Hns); [|done]. by rewrite (Hm _ Hc) in Hns.
Qed.

(** For the room's own name the answers are merged and nothing else changes. *)
Lemma enrichment_merges s version segment s' fileID :
  store_ok (db_map (ar_db (sk_analysisRepository s))) →
  uuid_Parse (as_FileID segment) = Ok fileID →
  handleAnalysisSegment s version segment = Some (s', None) →
  ∃ a, FetchFullByEntityId (sk_analysisRepository s) (as_DriveID segment) fileID = Ok a ∧
    let e := foldl enrich_one a (as_Metrics segment) in
    db_map (ar_db (sk_analysisRepository s')) =
      store_effect (db_map (ar_db (sk_analysisRepository s)))
        (MkAnalysis (an_ID e) (an_EntityId e) (an_Namespace e) (an_At e) (an_Summary e)
           (an_Tags e) (an_Scores e) (an_Payload e) version) ∧
    an_EntityId e = an_EntityId a ∧ an_Namespace e = an_Namespace a ∧ an_At e = an_At a.
Proof.
  intros Hok Hp H. unfold handleAnalysisSegment in H. rewrite Hp in H.
  destruct (FetchFullByEntityId _ _ fileID) as [a|e] eqn:Hf; [|done]. exists a. split; [done|].
  destruct (StoreAnalysis _ _) as [[r [e|]]|] eqn:Hs; [done| |done]. injection H as <-.
  apply StoreAnalysis_effect in Hs as (_ & Hs & _). split; [exact Hs|]. clear.
  revert a. induction (as_Metrics segment) as [|m ms IH]; intros a; [done|]. cbn [foldl].
  destruct (IH (enrich_one a m)) as (-> & -> & ->). unfold enrich_one. by repeat case_match.
Qed.

End Sink.

(** ** A concrete run *)

Definition demo_event (n : N) : FileAnalyse :=
  MkFileAnalyse (uuid16_num n) "/r/a.pdf" "drive" 10 0 "application/pdf" ApplicationPDF "%PDF"
    (10 ^ 18) LOCALFIXED.
Definition demo_sink : AnalysisSink :=
  NewAnalysisSink (B := MapBadger) (BG := MapBluge) (empty_analyses None)
    (NewFileTaskRepository (B := MapBadger) ∅) 2.
Definition demo_fresh : nat → uuid16 * time := λ k, (uuid16_num (N.of_nat k), 10 ^ 18).

Lemma sink_conserves_events_witness :
  ∃ s : sink_system, sy_stored s = [[demo_event 1; demo_event 2]] ∧
    concat (sy_stored s) ++ concat (sy_failed s) ++ concat (sy_taken s) ++ sk_events (sy_sink s) ≡ₚ
      [demo_event 1; demo_event 2; demo_event 3].
Proof.
  pose (a1 := fst (append_event demo_sink (demo_event 1))).
  pose (a2 := fst (append_event a1 (demo_event 2))).
  pose (a3 := fst (swap_buffer a2)).
  pose (a4 := fst (append_event a3 (demo_event 3))).
  assert (match processAndStore (UT := Latin1Tables) a4 demo_fresh [demo_event 1; demo_event 2] with
          | Some (_, None) => true | _ => false end = true) as Hok by vm_refl.
  destruct (processAndStore (UT := Latin1Tables) a4 demo_fresh [demo_event 1; demo_event 2])
    as [[a5 [err|]]|] eqn:H5; [discriminate Hok| |discriminate Hok].
  assert (sink_run (UT := Latin1Tables) (MkSinkSystem demo_sink 0 [] [] [])
    [demo_event 1; demo_event 2; demo_event 3]
    (MkSinkSystem a5 0 [] [[demo_event 1; demo_event 2]] [])) as Hr.
  { change [demo_event 1; demo_event 2; demo_event 3] with
      ((((([] ++ [demo_event 1]) ++ [demo_event 2]) ++ []) ++ [demo_event 3]) ++ []).
    eapply sink_run_step; [|exact (sk_store a4 0 [] _ [] [] [] demo_fresh a5 H5)].
    eapply sink_run_step; [|exact (sk_consume a3 0 _ [] [] (demo_event 3) a4 false eq_refl)].
    eapply sink_run_step; [|exact (sk_flush a2 0 [] [] [] a3 [demo_event 1; demo_event 2] eq_refl)].
    eapply sink_run_step; [|exact (sk_consume a1 0 [] [] [] (demo_event 2) a2 true eq_refl)].
    eapply sink_run_step; [|exact (sk_consume demo_sink 0 [] [] [] (demo_event 1) a1 false eq_refl)].
    apply sink_run_start. }
  pose proof (sink_conserves_events (UT := Latin1Tables) _ _ _ _ _ Hr) as [HP _].
  exists (MkSinkSystem a5 0 [] [[demo_event 1; demo_event 2]] []). split; [reflexivity|exact HP].
Defined.
