(* ===== verification/Indexing.v ===== *)
(** * Indexing: from a directory tree to the store and the queue

    The parts that turn the files of a drive into analyses, together: the scanner
    ([Scanner]), the stream to the master ([Analyze]), the fan-out ([Chat]) and the
    sink ([Sink]) with the analysis repository and the task queue. *)

From Stdlib Require Import String.
From S2P Require Import Prelude Errors Env Store Text Domain Mime AnalysisStore TaskQueue Monitoring.
From S2P Require Import Chat Path Scanner Analyze Sink.

(** ** What a scan can emit *)

Section Emitted.
Context {UT : UnicodeTables} {E : ScanEnv}.
Variable w : Scanner.FileScannerWorker.

(** A request made from a regular file whose type is authorized. *)
Definition well_emitted (r : FileAnalyzerRequest) : Prop :=
  fa_SourceType r = LOCALFIXED ∧ fa_DriveID r = fw_driveID w ∧
  snd (IsAuthorized (fa_MimeType r)) = true.

Lemma tree_well_emitted n : ∀ d l, tree w n d = Some l → Forall well_emitted (files_of l).
Proof.
  induction n as [|n IH]; intros d l Hl; [done|]. cbn [tree] in Hl.
  destruct (ReadDir d) as [es|]; [|by simplify_eq; constructor].
  apply fmap_Some in Hl as (ls & Hls & ->). apply mapM_Some in Hls.
  change (files_of (VDir d :: concat ls)) with (files_of (concat ls)).
  induction Hls as [|e l es ls He _ IHs]; [constructor|]. cbn [concat].
  rewrite files_of_app. apply Forall_app. split; [|done]. unfold visit_entry in He.
  destruct (de_Type e); try (simplify_eq; by constructor); [|by eapply IH].
  destruct (processFile w _ e 0) as [r|] eqn:Hp; simplify_eq; [|by constructor].
  constructor; [|constructor]. unfold processFile in Hp. destruct (de_Info e); [|done].
  destruct (snd (IsAuthorized _)) eqn:Ha; simplify_eq. by split_and!.
Qed.
End Emitted.

(** ** What a sink run leaves *)

Section Indexing.
Context {B : Badger} {BL : BadgerLaws B} {U : Uuid} {UL : UuidLaws U}
        {T : Timestamppb} {TL : TimestamppbLaws T} {UT : UnicodeTables}
        {BG : Bluge} {BGL : BlugeLaws BG}
        {C : Codec pbAnalysis} {CL : CodecLaws pbAnalysis}
        {CT : Codec pbFileTask} {CTL : CodecLaws pbFileTask}.

Abbreviation analyses a := (db_map (ar_db (sk_analysisRepository a))).
Abbreviation tasks a := (db_map (tr_db (sk_fileTaskRepository a))).

Definition indexed (m : gmap string string) (e : FileAnalyse) : Prop :=
  ∃ version, current m (canonical (scanned_analysis version e)).
(** Waiting in the queue, if its type is authorized. *)
Definition queued (m : gmap string string) (e : FileAnalyse) : Prop :=
  snd (IsAuthorized (fy_RawMimeType e)) = true → ∃ now, pending m (task_of now e).

(** The events of a batch whose task could not be enqueued: the loop of [processAndStore]
    logs the error and goes on. *)
Fixpoint unqueued (ts : FileTaskRepository) (fresh : nat → uuid * time) (k : nat)
    (events : list FileAnalyse) : list FileAnalyse :=
  match events with
  | [] => []
  | evt :: events =>
      if snd (IsAuthorized (fy_RawMimeType evt)) then
        match EnqueueTask ts (task_of (snd (fresh k)) evt) with
        | (ts, Some _) => evt :: unqueued ts fresh (S k) events
        | (ts, None) => unqueued ts fresh (S k) events
        end
      else unqueued ts fresh (S k) events
  end.

(** Enqueueing [e] failed on the way from [s0] to [s]: in the write of a batch. *)
Definition enqueue_failed (s0 s : sink_system) (e : FileAnalyse) : Prop :=
  ∃ before b s1 fresh batch err after,
    sink_run s0 before b ∧ batch ∈ sy_taken b ∧
    processAndStore (sy_sink b) fresh batch = Some (sy_sink s1, err) ∧
    e ∈ unqueued (sk_fileTaskRepository (sy_sink b)) fresh 0 batch ∧
    sink_step b [] s1 ∧ sink_run s1 after s.

Lemma pending_key_task now1 e1 now2 e2 :
  pending_key (task_of now1 e1) = pending_key (task_of now2 e2) → fy_Id e1 = fy_Id e2.
Proof.
  unfold pending_key, task_of. cbn [tk_ID]. rewrite !str_app_assoc. intros H.
  apply str_app_inj_len in H as [_ H]; [by apply uuid_String_inj|]. by rewrite !uuid_String_length.
Qed.

Lemma task_of_ok now e : fy_EffectiveMimeType e = ToMIME (fy_RawMimeType e) → task_ok (task_of now e).
Proof.
  intros He. unfold task_ok. cbn [task_of tk_EffectiveMimeType tk_Priority tk_RetryCount].
  rewrite He, ToMIME_idem. split_and!; [done|by right|]. unfold in_s. simpl. lia.
Qed.

(** A queued file stays queued when another one is enqueued. *)
Lemma queued_other f e e' now : queued (db_map (tr_db f)) e → fy_Id e ≠ fy_Id e' →
  queued (db_map (tr_db (EnqueueTask f (task_of now e')).1)) e.
Proof.
  intros Hq Hne Ha. destruct (EnqueueTask f (task_of now e')) as [f' [err|]] eqn:Hf; cbn [fst].
  { apply EnqueueTask_err in Hf as ->. by apply Hq. }
  destruct (Hq Ha) as (now' & v & Hv & Hd). exists now', v. split; [|done].
  apply EnqueueTask_map in Hf as (b & _ & ->). rewrite lookup_insert_ne; [done|].
  intros Hk%pending_key_task. congruence.
Qed.

Lemma queued_self f e now f' : fy_EffectiveMimeType e = ToMIME (fy_RawMimeType e) →
  EnqueueTask f (task_of now e) = (f', None) → queued (db_map (tr_db f')) e.
Proof.
  intros He (b & Hb & Hm)%EnqueueTask_map _. exists now, b. rewrite Hm, lookup_insert_eq.
  split; [done|]. apply decode_Marshal_task; [by apply task_of_ok|done].
Qed.

Definition resolved (e : FileAnalyse) : Prop := fy_EffectiveMimeType e = ToMIME (fy_RawMimeType e).

Lemma process_events_queue fresh events : ∀ ts k acc ts' acc',
  Forall resolved events → NoDup (fy_Id <$> events) →
  process_events ts fresh k events acc = Some (ts', acc') →
  Forall (λ e, queued (db_map (tr_db ts')) e ∨ e ∈ unqueued ts fresh k events) events ∧
  (∀ e, fy_Id e ∉ fy_Id <$> events → queued (db_map (tr_db ts)) e → queued (db_map (tr_db ts')) e).
Proof.
  induction events as [|e events IH]; intros ts k acc ts' acc' Hr Hnd Hp.
  { cbn [process_events] in Hp. by simplify_eq. }
  apply Forall_cons in Hr as [He Hr]. rewrite fmap_cons in *. apply NoDup_cons in Hnd as [Hn Hnd].
  cbn [process_events] in Hp. rewrite build_scanned in Hp. cbv zeta in Hp.
  destruct (IH _ _ _ _ _ Hr Hnd Hp) as [Hall Hkeep]. cbn [unqueued]. split.
  - destruct (snd (IsAuthorized (fy_RawMimeType e))) eqn:Ha.
    + destruct (EnqueueTask ts _) as [ts1 [err|]] eqn:Hq; cbn [fst] in Hall, Hkeep.
      * constructor; [right; by left|]. eapply Forall_impl; [exact Hall|]. intros e' [?|?]; [by left|right; by right].
      * constructor; [|done]. left. apply Hkeep; [done|]. by eapply queued_self.
    + constructor; [|done]. left. intros Hc. congruence.
  - intros e' [Hne Hnin]%not_elem_of_cons Hq. apply Hkeep; [done|].
    case_match; [|done]. by apply queued_other.
Qed.

Lemma indexed_other m a e : indexed m e → an_EntityId a ≠ fy_Id e → indexed (store_effect m a) e.
Proof.
  intros [v Hc] Hne. exists v. apply store_effect_current_ne; [|done]. simpl. congruence.
Qed.

(** The analyses of a batch, whatever their versions. *)
Lemma indexed_batch l events : ∀ m,
  Forall2 (λ a e, ∃ v, a = scanned_analysis v e) l events → Forall (λ a, is_Some (AnalysisStore.bytes_of a)) l →
  NoDup (fy_Id <$> events) →
  Forall (indexed (foldl store_effect m l)) events ∧
  (∀ e, fy_Id e ∉ fy_Id <$> events → indexed m e → indexed (foldl store_effect m l) e).
Proof.
  intros m HF. revert m. induction HF as [|a e l events [v ->] HF IH]; intros m Hb Hnd; [done|].
  apply Forall_cons in Hb as [[b Hb] Hbs]. rewrite fmap_cons in *.
  apply NoDup_cons in Hnd as [Hn Hnd]. cbn [foldl].
  destruct (IH (store_effect m (scanned_analysis v e)) Hbs Hnd) as [Hall Hkeep]. split.
  - constructor; [|done]. apply Hkeep; [done|]. exists v. by eapply store_effect_current.
  - intros e' [Hne Hnin]%not_elem_of_cons Hi. apply Hkeep; [done|]. by apply indexed_other.
Qed.

Lemma imap_scanned fresh events : ∀ k : nat,
  Forall2 (λ a e, ∃ v, a = scanned_analysis v e)
    (imap (λ i e, scanned_analysis (fst (fresh (k + i)%nat : uuid * time)) e) events) events.
Proof.
  induction events as [|e events IH]; intros k; [constructor|]. rewrite imap_cons.
  constructor; [by eexists|]. rewrite (imap_ext _ (λ i e, scanned_analysis (fresh (S k + i)%nat).1 e));
    [apply IH|]. intros i x _. simpl. by rewrite Nat.add_succ_r.
Qed.

(** A batch stored without error is in the store, and in the queue but for the tasks that
    could not be enqueued; the files stored and queued before still are. *)
Lemma processAndStore_indexes a fresh batch a' :
  Forall resolved batch → NoDup (fy_Id <$> batch) →
  processAndStore a fresh batch = Some (a', None) →
  Forall (λ e, indexed (analyses a') e ∧
    (queued (tasks a') e ∨ e ∈ unqueued (sk_fileTaskRepository a) fresh 0 batch)) batch ∧
  (∀ e, fy_Id e ∉ fy_Id <$> batch →
     (indexed (analyses a) e → indexed (analyses a') e) ∧ (queued (tasks a) e → queued (tasks a') e)).
Proof.
  intros Hr Hnd. unfold processAndStore.
  destruct (process_events_spec fresh batch (sk_fileTaskRepository a) 0 []) as [ts Hp].
  destruct (process_events_queue _ _ _ _ _ _ _ Hr Hnd Hp) as [Hq Hqk]. rewrite Hp. cbn [app].
  pose proof (imap_scanned fresh batch 0) as HF. cbn [Nat.add] in HF |- *.
  set (l := imap _ batch) in *. intros H.
  destruct l as [|x l'] eqn:El.
  { injection H as <-. cbn [with_repos sk_analysisRepository sk_fileTaskRepository].
    assert (batch = []) as -> by (inversion HF; done). split; [constructor|auto]. }
  rewrite <- El in H, HF. destruct (StoreBatch _ l) as [[r [err|]]|] eqn:Hs; [done| |done].
  injection H as <-. cbn [with_repos sk_analysisRepository sk_fileTaskRepository].
  apply StoreBatch_effect in Hs as (Hb & -> & _).
  destruct (indexed_batch l batch (analyses a) HF Hb Hnd) as [Hi Hik]. split; [|auto].
  apply Forall_forall. intros e He. rewrite Forall_forall in Hi, Hq. auto.
Qed.

Lemma enqueue_failed_step s0 s l s' e : enqueue_failed s0 s e → sink_step s l s' →
  enqueue_failed s0 s' e.
Proof.
  intros (before & b & s1 & fresh & batch & err & after & ? & ? & ? & ? & ? & ?) Hs.
  exists before, b, s1, fresh, batch, err, (after ++ l).
  split_and!; [done..|]. by eapply sink_run_step.
Qed.

Lemma sink_run_indexes r t max consumed s : let s0 := sink_start r t max in sink_run s0 consumed s →
  Forall resolved consumed → NoDup (fy_Id <$> consumed) → sy_failed s = [] →
  Forall (λ e, indexed (analyses (sy_sink s)) e ∧
    (queued (tasks (sy_sink s)) e ∨ enqueue_failed s0 s e)) (concat (sy_stored s)).
Proof.
  intros s0. induction 1 as [|l b e c Hrun IH Hs]; intros Hr Hnd Hf; [constructor|].
  apply Forall_app in Hr as [Hr _]. rewrite fmap_app in Hnd. apply NoDup_app in Hnd as (Hnd & _ & _).
  assert (sy_failed b = [] → Forall (λ e, indexed (analyses (sy_sink b)) e ∧
    (queued (tasks (sy_sink b)) e ∨ enqueue_failed s0 c e)) (concat (sy_stored b))) as IH'.
  { intros Hfb. eapply Forall_impl; [by apply IH|]. intros e' [? [?|?]]; [by auto|].
    split; [done|right]. by eapply enqueue_failed_step. }
  clear IH. destruct (sink_run_inv _ _ _ _ _ Hrun) as [[HP _] _]. pose proof Hs as Hs'.
  destruct Hs as [a f tk st fl e a' full Ha|a f tk st fl Ha|a f tk st fl a' batch Ha
                 |a f pre batch post st fl fresh a' Ha|a f pre batch post st fl fresh a' err Ha];
    cbn [sy_sink sy_flushes sy_taken sy_stored sy_failed] in *.
  - injection Ha as <- <-. by apply IH'.
  - by apply IH'.
  - injection Ha as <- <-. by apply IH'.
  - specialize (IH' Hf). subst fl. rewrite concat_app in HP. cbn [concat app] in HP.
    rewrite <- HP in Hr, Hnd. rewrite !fmap_app in Hnd. rewrite !Forall_app in Hr.
    destruct Hr as (_ & (_ & Hr & _) & _).
    apply NoDup_app in Hnd as (_ & Hdis & Hnd). apply NoDup_app in Hnd as (Hnd & _ & _).
    apply NoDup_app in Hnd as (_ & _ & Hnd). apply NoDup_app in Hnd as (Hnd & _ & _).
    destruct (processAndStore_indexes a fresh batch a' Hr Hnd Ha) as [Hb Hk].
    rewrite concat_app. cbn [concat]. rewrite app_nil_r. apply Forall_app. split.
    + apply Forall_forall. intros e He. rewrite Forall_forall in IH'. destruct (IH' e He) as [Hi Hq].
      assert (fy_Id e ∉ fy_Id <$> batch) as [Hki Hkq]%Hk.
      { intros Hin. apply (Hdis (fy_Id e)); [by apply list_elem_of_fmap_2|]. set_solver. }
      split; [by apply Hki|]. destruct Hq; auto.
    + eapply Forall_impl; [exact Hb|]. intros e [Hi [Hq|Hq]]; [by auto|]. split; [done|right].
      eexists _, _, (MkSinkSystem a' f (pre ++ post) (st ++ [batch]) []), fresh, batch, None, [].
      split_and!; [exact Hrun| |exact Ha|exact Hq|exact Hs'|].
      * cbn. set_solver.
      * apply sink_run_start.
  - by destruct fl.
Qed.

(** ** From the tree to the store *)

Context {SE : ScanEnv} {AV : AnalyzeValidator} {AVL : AnalyzeValidatorLaws}.
Variable w : Scanner.FileScannerWorker.

(** The files the fan-out hands to the sink. *)
Definition routed (events : list Event) : list FileAnalyse :=
  omap (λ e, match fanout_route e with RouteFile (EvFileAnalyse f) => Some f | _ => None end) events.

(** The file an event is about, as the scan sees it. *)
Definition event_file (e : FileAnalyse) : FileAnalyzerRequest :=
  MkFileAnalyzerRequest (fy_Path e) (fy_DriveID e) (fy_Size e) (fy_Attributes e)
    (fy_RawMimeType e) (fy_MagicBytes e) 0 (fy_SourceType e).

Definition event_of (p : FileAnalyzerRequest * (uuid * time)) : FileAnalyse :=
  MkFileAnalyse p.2.1 (fa_Path p.1) (fa_DriveID p.1) (fa_Size p.1) (fa_Attributes p.1)
    (fa_MimeType p.1) (ToMIME (fa_MimeType p.1)) (fa_MagicBytes p.1) (fa_ScannedAt p.1)
    (fa_SourceType p.1).

Lemma routed_events reqs : routed ((λ p, toEvent p.2.1 p.2.2 p.1) <$> reqs) = event_of <$> reqs.
Proof. induction reqs as [|p reqs IH]; [done|]. rewrite !fmap_cons. unfold routed in *. cbn. by rewrite IH. Qed.

(** The master's side of the stream, while the scanner sends [reqs]. *)
Definition received (reqs : list (FileAnalyzerRequest * (uuid * time))) : AnalyzerService :=
  (server_Analyze (MkAnalyzerService [] NewCountAnalyzedFiles) (stream_recvs reqs)).1.

Lemma stream_routed reqs :
  Forall (λ p, fa_SourceType p.1 = LOCALFIXED ∧ valid p.1 = true) reqs →
  routed (az_eventChan (received reqs)) = event_of <$> reqs.
Proof.
  intros HF. unfold received. rewrite <- (app_nil_r (stream_recvs reqs)).
  assert (List.filter (λ p, valid p.1) reqs = reqs) as Hok.
  { apply lfilter_all. intros p Hp. rewrite Forall_forall in HF. by apply HF. }
  rewrite (server_stream reqs [] _ 0 0), Hok; [apply routed_events|eapply Forall_impl; [exact HF|]|done].
  intros p [-> _]. unfold known_source. set_solver.
Qed.

(** A drive has been indexed: a scan of its finite tree is over and its channel drained,
    however its workers interleaved; the stream brought the requests to the master, which
    gave each a fresh identifier and a time ([reqs]); the sink consumed the events, in any
    order and with any interleaving of its buffering, its timer and its writes, and its
    writes succeeded. *)
Record indexing_over (root : string) (total : list visit)
    (reqs : list (FileAnalyzerRequest * (uuid * time)))
    (r : AnalysisRepository) (t : FileTaskRepository) (max : Z) (sk : sink_system) : Prop := {
  ix_visits : visits w root total;
  ix_scan : ∃ dcap fcap n now k log s, scan_reaches w root dcap fcap n now k log s ∧
    quiescent s ∧ ss_fileChan (sy_shared s) = [] ∧ reqs.*1 = sy_sent s;
  ix_valid : Forall (λ q, valid q = true) reqs.*1;
  ix_ids : NoDup (reqs.*2).*1;
  ix_sink : ∃ consumed, consumed ≡ₚ routed (az_eventChan (received reqs)) ∧
    sink_run (sink_start r t max) consumed sk;
  ix_stored : sy_failed sk = [] ∧ sy_taken sk = [] ∧ sk_events (sy_sink sk) = [];
}.

(** The events of the drive, and that the sink stored them. *)
Lemma indexing_events root total reqs r t max sk :
  indexing_over root total reqs r t max sk → let evts := event_of <$> reqs in
  event_file <$> evts ≡ₚ files_of total ∧ NoDup (fy_Id <$> evts) ∧
  Forall (λ e, resolved e ∧ snd (IsAuthorized (fy_RawMimeType e)) = true) evts ∧
  ∃ consumed, sink_run (sink_start r t max) consumed sk ∧ consumed ≡ₚ evts ∧
    concat (sy_stored sk) ≡ₚ evts.
Proof.
  intros [Hv (dcap & fcap & n & now & k & log & s & Hr & Hq & Hch & Hreq) Hval Hid
    (consumed & Hc & Hrun) (Hf & Ht & Hb)] evts.
  destruct (scan_quiescent _ _ _ _ _ _ _ _ _ _ Hv Hr Hq) as (_ & Hem & _).
  unfold emitted in Hem. rewrite Hch, app_nil_r, <- Hreq, <- list_fmap_compose in Hem.
  destruct Hv as [d Hd]. apply tree_well_emitted in Hd.
  assert (Forall (well_emitted w) (untimed <$> reqs.*1)) as Hwe
    by (rewrite <- list_fmap_compose; by rewrite Hem).
  rewrite Forall_forall in Hwe, Hval.
  assert (∀ p, p ∈ reqs → well_emitted w (untimed p.1)) as Hw
    by (intros p Hp; apply Hwe; by do 2 apply list_elem_of_fmap_2).
  rewrite (stream_routed reqs) in Hc; [|apply Forall_forall; intros p Hp; split].
  2: { by destruct (Hw p Hp) as (? & _). }
  2: { apply Hval. by apply list_elem_of_fmap_2. }
  destruct (sink_run_inv _ _ _ _ _ Hrun) as [[HP _] _].
  rewrite Hf, Ht, Hb in HP. cbn [concat app] in HP. rewrite app_nil_r in HP.
  split_and!.
  - subst evts. rewrite <- Hem, <- list_fmap_compose. done.
  - assert (fy_Id <$> evts = (reqs.*2).*1) as -> by (subst evts; by rewrite <- !list_fmap_compose). done.
  - apply Forall_forall. intros e (p & -> & Hp)%list_elem_of_fmap. split; [done|].
    by destruct (Hw p Hp) as (_ & _ & ?).
  - exists consumed. split_and!; [done|done|]. by rewrite HP.
Qed.

(** What became of them. *)
Lemma indexing_stored root total reqs r t max sk :
  indexing_over root total reqs r t max sk →
  Forall (λ e, indexed (analyses (sy_sink sk)) e ∧
    (queued (tasks (sy_sink sk)) e ∨ enqueue_failed (sink_start r t max) sk e)) (event_of <$> reqs).
Proof.
  intros Hix. destruct (indexing_events _ _ _ _ _ _ _ Hix) as (_ & Hnd & Hau & c & Hrun & Hc & Hst).
  rewrite <- Hst. eapply sink_run_indexes; [exact Hrun| | |apply (ix_stored _ _ _ _ _ _ _ Hix)].
  - rewrite Hc. eapply Forall_impl; [exact Hau|]. by intros ? [].
  - by rewrite Hc.
Qed.

End Indexing.

(** ** The files of a small drive *)

#[local] Existing Instances Latin1Tables demo_fs demo_validator demo_validator_laws.

Definition sent_files : list FileAnalyzerRequest := ss_fileChan demo_final.

Lemma demo_drained : ∃ k log, scan_reaches demo_worker "/r" 4 10 1 0 k log
  (MkScanSystem (with_files demo_final []) [Idle] sent_files).
Proof.
  destruct demo_scan as (k & log & s0 & resp & Ht & Hr).
  destruct (ss_fileChan demo_final) as [|r1 [|r2 [|? ?]]] eqn:Hc; try discriminate Hc.
  assert (with_files (with_files demo_final [r2]) [] = with_files demo_final []) as Hw by reflexivity.
  do 2 eexists. exists s0, resp. split; [exact Ht|]. unfold sent_files. rewrite Hc, <- Hw.
  eapply run_step; [eapply run_step; [exact Hr|]|].
  - by apply (step_sender demo_worker demo_final [Idle] r1 [r2] []).
  - by apply (step_sender demo_worker (with_files demo_final [r2]) [Idle] r2 [] [r1]).
Qed.

Definition stream_requests : list (FileAnalyzerRequest * (uuid16 * time)) :=
  zip sent_files [(uuid16_num 1, 10 ^ 18); (uuid16_num 2, 10 ^ 18)].
Definition stream_events : list FileAnalyse := map (event_of (U := HexUuid)) stream_requests.

(** An event that fills the buffer, its flush and its write. *)
Lemma sink_one s0 l a a1 a2 a' e st :
  append_event a e = (a1, true) → swap_buffer a1 = (a2, [e]) →
  processAndStore a2 demo_fresh [e] = Some (a', None) →
  sink_run s0 l (MkSinkSystem a 0 [] st []) →
  sink_run s0 (l ++ [e]) (MkSinkSystem a' 0 [] (st ++ [[e]]) []).
Proof.
  intros H1 H2 H3 Hr. rewrite <- (app_nil_r (l ++ [e])), <- (app_nil_r ((l ++ [e]) ++ [])).
  eapply sink_run_step; [|exact (sk_store a2 0 [] [e] [] st [] demo_fresh a' H3)].
  eapply sink_run_step; [|exact (sk_flush a1 0 [] st [] a2 [e] H2)].
  eapply sink_run_step; [exact Hr|exact (sk_consume a 0 [] st [] e a1 true H1)].
Qed.

(** The sink after an event that fills its buffer. *)
Definition sink_after (a : AnalysisSink) (e : FileAnalyse) : AnalysisSink :=
  match processAndStore (swap_buffer (append_event a e).1).1 demo_fresh [e] with
  | Some (a', _) => a'
  | None => a
  end.
Definition demo_sink (events : list FileAnalyse) : AnalysisSink :=
  foldl sink_after (NewAnalysisSink (empty_analyses None) (NewFileTaskRepository (B := MapBadger) ∅) 1)
    events.
Definition stores (a : AnalysisSink) (e : FileAnalyse) : bool :=
  match processAndStore (swap_buffer (append_event a e).1).1 demo_fresh [e] with
  | Some (_, None) => (sk_maxAnalyzedEvent a =? 1) && bool_decide (sk_events a = [])
  | _ => false
  end.

Lemma sink_after_run l a e st : stores a e = true →
  sink_run (sink_start (empty_analyses None) (NewFileTaskRepository (B := MapBadger) ∅) 1) l
    (MkSinkSystem a 0 [] st []) →
  sink_run (sink_start (empty_analyses None) (NewFileTaskRepository (B := MapBadger) ∅) 1) (l ++ [e])
    (MkSinkSystem (sink_after a e) 0 [] (st ++ [[e]]) []).
Proof.
  unfold stores, sink_after. intros Hs Hr.
  destruct (processAndStore (U := HexUuid) _ demo_fresh [e]) as [[a' [err|]]|] eqn:H; try done.
  apply andb_true_iff in Hs as [Hm%Z.eqb_eq He%bool_decide_eq_true].
  eapply (sink_one _ _ a (append_event a e).1); [| |exact H|exact Hr];
    unfold append_event, swap_buffer; cbn; rewrite He; [by rewrite Hm|done].
Qed.

(** The events arrive in the other order. *)
Definition demo_sink_end : sink_system :=
  MkSinkSystem (demo_sink (rev stream_events)) 0 [] ((λ e, [e]) <$> rev stream_events) [].

Lemma demo_sink_run :
  sink_run (sink_start (empty_analyses None) (NewFileTaskRepository (B := MapBadger) ∅) 1)
    (rev stream_events) demo_sink_end ∧ sk_events (sy_sink demo_sink_end) = [].
Proof.
  split; [|vm_refl]. unfold demo_sink_end.
  destruct (rev stream_events) as [|e1 [|e2 [|? ?]]] eqn:Ev; try discriminate Ev.
  assert (stores (demo_sink []) e1 && stores (demo_sink [e1]) e2 = true) as [H1 H2]%andb_true_iff
    by (injection Ev as <- <-; vm_compute; reflexivity).
  exact (sink_after_run [e1] _ e2 [[e1]] H2 (sink_after_run [] _ e1 [] H1 (sink_run_start _))).
Qed.

Lemma demo_stream : rev stream_events ≡ₚ routed (az_eventChan (received (U := HexUuid) stream_requests)).
Proof.
  rewrite (stream_routed (U := HexUuid) stream_requests); [by rewrite <- Permutation_rev|repeat constructor].
Qed.

Lemma demo_ids : NoDup ((stream_requests.*2).*1 : list uuid16).
Proof. apply (bool_decide_unpack (NoDup _)). vm_compute. exact I. Qed.

Lemma demo_indexing : indexing_over (U := HexUuid) demo_worker "/r" demo_tree stream_requests
  (empty_analyses None) (NewFileTaskRepository (B := MapBadger) ∅) 1 demo_sink_end.
Proof.
  destruct demo_drained as (k & log & Hk). destruct demo_sink_run as [Hr Hb].
  split; [exact demo_visits| |by repeat constructor|exact demo_ids| |split_and!; [reflexivity|reflexivity|exact Hb]].
  - eexists 4%nat, 10%nat, 1%nat, 0, k, log, _. split; [exact Hk|]. split_and!; [|done..].
    split; [reflexivity|by repeat constructor].
  - exists (rev stream_events). split; [exact demo_stream|exact Hr].
Qed.

