(* ===== verification/Archive.v ===== *)
(** * Archive: from a directory tree to the master's disk

    Both halves of the way of a file, together: a drive is scanned and its files are
    indexed and queued ([Indexing]), the queue is drained and the files are transferred
    ([Fetching]).  What connects them is the queue: it holds one task per file. *)

From Stdlib Require Import Ascii String.
From S2P Require Import Prelude Errors Env Store Text Domain Mime AnalysisStore TaskQueue Monitoring.
From S2P Require Import Chat Path Scanner Analyze Sink Indexing Transfer Downloads Exchange Fetching.

(** ** The queue a sink leaves *)

Section Queue.
Context {B : Badger} {BL : BadgerLaws B} {U : Uuid} {UL : UuidLaws U}
        {T : Timestamppb} {TL : TimestamppbLaws T} {UT : UnicodeTables}
        {BG : Bluge} {BGL : BlugeLaws BG}
        {C : Codec pbAnalysis} {CL : CodecLaws pbAnalysis}
        {CT : Codec pbFileTask} {CTL : CodecLaws pbFileTask}.

Abbreviation tasks a := (db_map (tr_db (sk_fileTaskRepository a))).

(** The queue holds tasks of these files only, at most one for each. *)
Record queue_of (m : gmap string string) (events : list FileAnalyse) : Prop := {
  qo_ok : tasks_ok m;
  qo_from t : pending m t → ∃ now e, e ∈ events ∧ t = task_of now e;
  qo_once t1 t2 : pending m t1 → pending m t2 → tk_ID t1 = tk_ID t2 → t1 = t2;
}.

Lemma queue_of_weaken m l1 l2 : l1 ⊆ l2 → queue_of m l1 → queue_of m l2.
Proof. intros Hl [Hok Hf Ho]. split; [done| |done]. intros t (now & e & He & ->)%Hf. eauto. Qed.

Lemma pending_insert_inv m t b t' : task_ok t → Marshal (toPbFileTask t) = Ok b →
  pending (<[pending_key t := b]> m) t' → t' = t ∨ pending m t'.
Proof.
  intros Ht Hb (v & [[Hk <-]|[_ Hv]]%lookup_insert_Some & Hd); [|right; by exists v].
  left. rewrite (decode_Marshal_task t) in Hd by done. congruence.
Qed.

Lemma queue_of_enqueue f e now events : resolved e → fy_Id e ∉ fy_Id <$> events →
  queue_of (db_map (tr_db f)) events →
  queue_of (db_map (tr_db (EnqueueTask f (task_of now e)).1)) (events ++ [e]).
Proof.
  intros He Hn Hq. destruct (EnqueueTask f (task_of now e)) as [f' [err|]] eqn:Hf; cbn [fst].
  { apply EnqueueTask_err in Hf as ->. eapply queue_of_weaken; [|exact Hq]. set_solver. }
  apply EnqueueTask_map in Hf as (b & Hb & ->). pose proof (task_of_ok now e He) as Hok.
  destruct Hq as [Htk Hfrom Honce]. split; [by apply tasks_ok_insert| |].
  - intros t [->|(now' & e' & He' & ->)%Hfrom]%pending_insert_inv; [..|done|done]; set_solver.
  - assert (∀ t, pending (db_map (tr_db f)) t → tk_ID t ≠ tk_ID (task_of now e)) as Hne.
    { intros t (now' & e' & He' & ->)%Hfrom Heq%uuid_String_inj. apply Hn. rewrite <- Heq.
      by apply list_elem_of_fmap_2. }
    intros t1 t2 [->|H1]%pending_insert_inv [->|H2]%pending_insert_inv Heq; try done;
      [by destruct (Hne t2 H2)|by destruct (Hne t1 H1)|by apply Honce].
Qed.

Lemma process_events_queue_of fresh events : ∀ before ts k acc ts' acc',
  Forall resolved events → NoDup (fy_Id <$> before ++ events) → queue_of (db_map (tr_db ts)) before →
  process_events ts fresh k events acc = Some (ts', acc') →
  queue_of (db_map (tr_db ts')) (before ++ events).
Proof.
  induction events as [|e events IH]; intros before ts k acc ts' acc' Hr Hnd Hq Hp.
  { cbn [process_events] in Hp. simplify_eq. by rewrite app_nil_r. }
  apply Forall_cons in Hr as [He Hr]. cbn [process_events] in Hp. rewrite build_scanned in Hp.
  cbv zeta in Hp. rewrite cons_middle, app_assoc in Hnd |- *.
  refine (IH _ _ _ _ _ _ Hr Hnd _ Hp). rewrite fmap_app in Hnd. apply NoDup_app in Hnd as [Hnd _].
  rewrite fmap_app in Hnd. apply NoDup_app in Hnd as (_ & Hdis & _).
  case_match; [apply queue_of_enqueue; [done| |done]|eapply queue_of_weaken; [|exact Hq]; set_solver].
  intros Hin. apply (Hdis _ Hin). set_solver.
Qed.

Lemma processAndStore_queue_of a fresh before batch a' err :
  Forall resolved batch → NoDup (fy_Id <$> before ++ batch) → queue_of (tasks a) before →
  processAndStore a fresh batch = Some (a', err) → queue_of (tasks a') (before ++ batch).
Proof.
  intros Hr Hnd Hq. unfold processAndStore.
  destruct (process_events _ fresh 0 batch []) as [[ts acc]|] eqn:Hp; [|done].
  apply (process_events_queue_of _ _ before) in Hp; [|done..].
  intros H. destruct acc as [|x acc]; [by injection H as <-|].
  destruct (StoreBatch _ _) as [[r e]|]; [|done]. by injection H as <-.
Qed.

Lemma sink_run_queue_of r t max consumed s : sink_run (sink_start r t max) consumed s →
  Forall resolved consumed → NoDup (fy_Id <$> consumed) → queue_of (db_map (tr_db t)) [] →
  queue_of (tasks (sy_sink s)) (concat (sy_stored s) ++ concat (sy_failed s)).
Proof.
  induction 1 as [|consumed_so_far b e c Hrun IH Hs]; intros Hr Hnd Hq; [done|].
  apply Forall_app in Hr as [Hr _]. rewrite fmap_app in Hnd. apply NoDup_app in Hnd as (Hnd & _ & _).
  destruct (sink_run_inv _ _ _ _ _ Hrun) as [[HP _] _]. specialize (IH Hr Hnd Hq).
  assert (∀ a f pre batch post st fl fresh a' err,
    b = MkSinkSystem a f (pre ++ batch :: post) st fl →
    processAndStore a fresh batch = Some (a', err) →
    queue_of (tasks a') ((concat st ++ concat fl) ++ batch)) as Hstore.
  { intros a f pre batch post st fl fresh a' err -> Ha. cbn [sy_sink sy_taken sy_stored sy_failed] in *.
    assert (∃ rest, consumed_so_far ≡ₚ ((concat st ++ concat fl) ++ batch) ++ rest) as [rest HP'].
    { exists (concat pre ++ concat post ++ sk_events a). rewrite <- HP, concat_app. cbn [concat].
      solve_Permutation. }
    rewrite HP', Forall_app in Hr. rewrite HP', fmap_app in Hnd. apply NoDup_app in Hnd as [Hnd _].
    destruct Hr as [[_ Hr]%Forall_app _]. by eapply processAndStore_queue_of. }
  destruct Hs as [a f tk st fl e a' full Ha|a f tk st fl Ha|a f tk st fl a' batch Ha
                 |a f pre batch post st fl fresh a' Ha|a f pre batch post st fl fresh a' err Ha];
    cbn [sy_sink sy_flushes sy_taken sy_stored sy_failed] in *.
  - by injection Ha as <- <-.
  - done.
  - by injection Ha as <- <-.
  - eapply queue_of_weaken; [|by eapply Hstore]. rewrite concat_app. cbn [concat]. set_solver.
  - eapply queue_of_weaken; [|by eapply Hstore]. rewrite (concat_app fl). cbn [concat]. set_solver.
Qed.

(** The tasks of the queue are those of events, at most once each. *)
Lemma queue_of_ids m events : queue_of m events →
  NoDup (tk_ID <$> pending_tasks m) ∧
  ∀ t, t ∈ pending_tasks m → ∃ e, e ∈ events ∧ tk_ID t = uuid_String (fy_Id e).
Proof.
  intros [Hok Hfrom Honce]. split.
  - apply NoDup_fmap_2_strong; [|by eapply NoDup_fmap_1, pending_tasks_NoDup].
    intros t1 t2 H1 H2. apply Honce; by apply elem_of_pending_tasks.
  - intros t Ht. apply elem_of_pending_tasks in Ht as (now & e & He & ->)%Hfrom; [|done]. by exists e.
Qed.

Lemma queue_of_length m events : queue_of m events →
  (length (pending_tasks m) ≤ length events)%nat.
Proof.
  intros [Hnd Hin]%queue_of_ids. rewrite <- (length_fmap tk_ID (pending_tasks m)).
  rewrite <- (length_fmap (uuid_String ∘ fy_Id) events). apply submseteq_length, NoDup_submseteq; [done|].
  intros id (t & -> & (e & He & ->)%Hin)%list_elem_of_fmap. by apply (list_elem_of_fmap_2 (uuid_String ∘ fy_Id)).
Qed.

Lemma uuid_valid_id u : valid_id (uuid_String u).
Proof.
  assert (∀ s, (4 < String.length s)%nat → s ≠ "" ∧ s ≠ "." ∧ s ≠ "..") as Hlong
    by (intros s Hs; split_and!; intros ->; simpl in Hs; lia).
  destruct (Hlong (uuid_String u +:+ ".tmp")) as (? & ? & ?);
    [rewrite str_length_app, uuid_String_length; simpl; lia|].
  split_and!; [done..|]. by rewrite str_forall_app, uuid_String_lacks.
Qed.
End Queue.

(** ** The whole way *)

Section Archive.
Context {B : Badger} {BL : BadgerLaws B} {BR : BadgerReliable B} {U : Uuid} {UL : UuidLaws U}
        {T : Timestamppb} {TL : TimestamppbLaws T} {UT : UnicodeTables}
        {BG : Bluge} {BGL : BlugeLaws BG}
        {C : Codec pbAnalysis} {CL : CodecLaws pbAnalysis}
        {CT : Codec pbFileTask} {CTL : CodecLaws pbFileTask}
        {SE : ScanEnv} {AV : AnalyzeValidator} {AVL : AnalyzeValidatorLaws} {E : TransferEnv}.
Variable w : Scanner.FileScannerWorker.
Variable s : FileDownloaderScannerWorker.
Variables cap lcap : nat.

#[local] Existing Instance TaskRepositoryI.
#[local] Instance queue_spec : TaskQueueSpec TaskRepositoryI := TaskRepository_spec.

(** The task of [e] cannot be encoded: its path, say, is not valid UTF-8. *)
Definition unencodable (e : FileAnalyse) : Prop :=
  ∃ now err, Marshal (toPbFileTask (task_of now e)) = Err err.

(** The store's writes succeed: enqueueing fails only for a task that cannot be encoded. *)
Lemma unqueued_unencodable fresh events : ∀ ts k e,
  e ∈ unqueued ts fresh k events → unencodable e.
Proof.
  induction events as [|e events IH]; intros ts k e' H; [by apply elem_of_nil in H|].
  cbn [unqueued] in H. case_match; [|by eapply IH].
  destruct (EnqueueTask ts (task_of (fresh k).2 e)) as [ts' [err|]] eqn:Hq; [|by eapply IH].
  apply elem_of_cons in H as [->|H]; [|by eapply IH]. exists (fresh k).2.
  unfold EnqueueTask, Update in Hq. destruct (Marshal (toPbFileTask (task_of _ e))) as [b|err'];
    [|by eexists]. exfalso.
  destruct (Set_succeeds (NewTransaction (tr_db ts)) (pending_key (task_of (fresh k).2 e)) b)
    as [t' Ht]; [apply pending_key_ne|]. rewrite Ht in Hq.
  destruct (Commit_succeeds (tr_db ts) t') as [db Hdb]. by rewrite Hdb in Hq.
Qed.

(** One transfer was made for file [e]; if the file could be read, its content is on the
    disk under its identifier. *)
Definition transferred (files : list download) (a a' : FileAccumulator) (e : FileAnalyse) : Prop :=
  ∃ d, d ∈ files ∧ dl_id d = uuid_String (fy_Id e) ∧
    fdr_Path (dl_req d) = fy_Path e ∧ fdr_DriveID (dl_req d) = fy_DriveID e ∧
    (served s d = true → fa_disk a' !! tmp_path a (uuid_String (fy_Id e)) = Some (dl_content d)).

(** File [e] is indexed, and transferred unless its task cannot be encoded. *)
Definition archived (r : AnalysisRepository) (files : list download) (a a' : FileAccumulator)
    (e : FileAnalyse) : Prop :=
  (∃ version, FetchFullByEntityId r file_room (fy_Id e) = Ok (canonical (scanned_analysis version e))) ∧
  (transferred files a a' e ∨ unencodable e).

(** The queue after the indexing, for a queue that was empty before. *)
Lemma indexing_queue root total reqs r t max sk : indexing_over w root total reqs r t max sk →
  tasks_ok (db_map (tr_db t)) → pending_tasks (db_map (tr_db t)) = [] →
  let m := db_map (tr_db (sk_fileTaskRepository (sy_sink sk))) in
  queue_of m (event_of <$> reqs) ∧
  Forall (λ e, (∃ now, pending m (task_of now e)) ∨ unencodable e) (event_of <$> reqs).
Proof.
  intros Hix Hok Hempty m.
  destruct (indexing_events _ _ _ _ _ _ _ _ Hix) as (_ & Hnd & Hau & c & Hsink & Hc & Hst).
  pose proof (indexing_stored _ _ _ _ _ _ _ _ Hix) as Hall.
  destruct (ix_stored _ _ _ _ _ _ _ _ Hix) as (Hfail & _). split.
  - apply (queue_of_weaken _ (concat (sy_stored sk) ++ concat (sy_failed sk))).
    { rewrite Hfail, app_nil_r. intros e. by rewrite Hst. }
    eapply sink_run_queue_of; [exact Hsink|rewrite Hc|by rewrite Hc|].
    + eapply Forall_impl; [exact Hau|]. by intros ? [].
    + split; [done|..]; intros t'; [|intros ?]; intros Ht%elem_of_pending_tasks; try done;
        rewrite Hempty in Ht; by apply elem_of_nil in Ht.
  - rewrite Forall_forall in *. intros e He. destruct (Hall e He) as [_ [Hq|Hq]].
    + left. apply Hq. by apply Hau.
    + right. destruct Hq as (? & ? & ? & ? & ? & ? & ? & _ & _ & _ & Hq & _).
      by eapply unqueued_unencodable.
Qed.

End Archive.

(** ** The files of a small drive *)

#[local] Existing Instances Latin1Tables demo_fs demo_validator demo_validator_laws demo_transfer
  TaskRepositoryI.

Definition archive_worker : @FileTransferWorker (TaskRepositoryI (B := MapBadger)) :=
  @NewFileTransferWorker (TaskRepositoryI (B := MapBadger))
    (sk_fileTaskRepository (sy_sink demo_sink_end)) 2.
Definition archive_files : list download :=
  hello <$> pending_tasks (db_map (tr_db (sk_fileTaskRepository (sy_sink demo_sink_end)))).
Definition archive_end : nat * download_system := transfers archive_files.

Lemma archive_ok : Forall (file_ok demo_scanner) archive_files.
Proof.
  unfold archive_files. apply Forall_fmap. eapply Forall_impl; [|apply hello_ok].
  apply (bool_decide_unpack _). by vm_compute.
Qed.

Lemma archive_tasks_ok : tasks_ok (db_map (tr_db (sk_fileTaskRepository (sy_sink demo_sink_end)))).
Proof.
  refine (qo_ok _ _ (proj1 (indexing_queue demo_worker _ _ _ _ _ _ _ demo_indexing _ _)));
    [|done]. intros k v Hk. cbn in Hk. by rewrite lookup_empty in Hk.
Qed.

Lemma archive_polled : ∃ fw',
  FileTransferWorker_Run (repeat PollTick 2 ++ [PollDone Canceled]) archive_worker [] =
    (fw', dl_req <$> archive_files, Some Canceled).
Proof.
  destruct (@Run_ticks _ TaskRepository_spec 2 archive_worker [] archive_tasks_ok eq_refl)
    as (fw' & HR & _); [vm_compute; lia|].
  exists fw'. rewrite (Run_app _ _ _ _ _ _ HR). unfold archive_files. by rewrite <- list_fmap_compose.
Qed.

