(* ===== verification/Conversation.v ===== *)
(** * Conversation: from the commands of a room to its history

    The chat pipeline ([Chat]), the history sink and the paging of the history
    ([MessageStore]) together: what a client that posts messages and then reads the
    room back through the server sees. *)

From Stdlib Require Import String.
From S2P Require Import Prelude Errors Env Store Text MessageStore Moderation Domain Contract Registry Chat.

Section Conversation.
Context {B : Badger} {BL : BadgerLaws B} {U : Uuid} {UL : UuidLaws U}
        {T : Timestamppb} {TL : TimestamppbLaws T}
        {C : Codec pbMessage} {CL : CodecLaws pbMessage}
        {UT : UnicodeTables} {A : AhoCorasick} {AL : AhoCorasickLaws A}.

(** ** The history of the messages a sink consumed *)

(** Nothing is stored that was not consumed. *)
Lemma consume_all_stored_inv msgs : ∀ repo repo' dm,
  Forall (λ s, room_ok (sm_Room s)) msgs →
  consume_all repo (EvSanitizedMessage <$> msgs) = (repo', None) →
  stored (db_map (mr_db repo')) dm →
  dm ∈ sink_toDiskMessage <$> msgs ∨ stored (db_map (mr_db repo)) dm.
Proof.
  induction msgs as [|s msgs IH]; intros repo repo' dm Hr Hc Hd; simpl in Hc.
  { simplify_eq. by right. }
  apply Forall_cons in Hr as [Hrs Hr]. rewrite fmap_cons, elem_of_cons.
  destruct (StoreMessage repo (sink_toDiskMessage s)) as [r1 [e|]] eqn:E; [done|].
  destruct (IH _ _ _ Hr Hc Hd) as [?|Hs]; [tauto|].
  pose proof (StoreMessage_stored_inv repo (sink_toDiskMessage s) dm) as Hi.
  rewrite E in Hi. cbn [fst] in Hi. destruct (Hi Hrs Hs); tauto.
Qed.

Lemma consume_all_limit es : ∀ repo repo',
  consume_all repo es = (repo', None) →
  mr_limitMessages repo' = mr_limitMessages repo ∧
  (size (db_map (mr_db repo')) ≤ size (db_map (mr_db repo)) + length es)%nat.
Proof.
  induction es as [|e es IH]; intros repo repo' Hc; cbn [consume_all length] in *.
  { simplify_eq. split; [done|lia]. }
  destruct (DiskSink_Consume repo e) as [r1 [err|]] eqn:E; [done|].
  destruct (IH _ _ Hc) as [-> Hs].
  destruct e as [m|m]; cbn [DiskSink_Consume] in E; [by simplify_eq; split; [|lia]|].
  apply StoreMessage_map in E as (b & _ & Hm & ->). split; [done|].
  rewrite Hm, map_size_insert in Hs. case_match; simpl in Hs; lia.
Qed.

(** ** Reading it back *)

(** A client that follows the cursors of the server until a page is empty. *)
Fixpoint read_history {Sink} {I : IRegistry Sink} (fuel : nat) (o : MessageHub Sink) (room : Z) (cursor : option string)
  : list pbMessageResponse * option error :=
  match fuel with
  | O => ([], None)
  | S fuel =>
      match server_GetMessage o room cursor with
      | ([], _, err) => ([], err)
      | (page, next, Some err) => (page, Some err)
      | (page, next, None) =>
          let '(rest, err) := read_history fuel o room next in (page ++ rest, err)
      end
  end.

Definition as_responses (msgs : list DiskMessage) : list pbMessageResponse :=
  toMessageResponse (orch_fromDiskMessage msgs).

Lemma read_history_walk {Sink} {I : IRegistry Sink} (o : MessageHub Sink) room fuel : ∀ cursor msgs,
  walk fuel (o_messageRepository o) room cursor = Ok msgs →
  read_history fuel o room cursor = (as_responses msgs, None).
Proof.
  induction fuel as [|fuel IH]; intros cursor msgs Hw; cbn [walk read_history] in *.
  { by simplify_eq. }
  unfold server_GetMessage, orch_GetMessages. cbn [gmc_Room gmc_Cursor].
  destruct (GetMessages _ room cursor) as [[page next]|e]; [|done]. cbn [res_bind] in *.
  destruct page as [|dm page]; [by simplify_eq|].
  destruct (walk fuel _ room next) as [rest|e] eqn:Hr; [|done]. cbn [res_bind] in Hw. simplify_eq.
  rewrite (IH _ _ Hr). unfold as_responses, toMessageResponse, orch_fromDiskMessage.
  by rewrite <- !fmap_app.
Qed.

Definition in_room (room : Z) (dm : DiskMessage) : bool := dm_Room dm =? room.

(** The history of a room, once the sink has consumed [msgs]. *)
Lemma consumed_history `{!BadgerReads B} msgs repo repo' room fuel :
  db_map (mr_db repo) = ∅ → mr_limitMessages repo ≠ Some 0 →
  Forall (λ s, room_ok (sm_Room s)) msgs →
  NoDup ((λ s, (sm_Room s, UnixNano (sm_At s), sm_ID s)) <$> msgs) →
  consume_all repo (EvSanitizedMessage <$> msgs) = (repo', None) → (length msgs < fuel)%nat →
  ∃ h, walk fuel repo' room None = Ok h ∧
    h ≡ₚ List.filter (in_room room) (sink_toDiskMessage <$> msgs) ∧
    StronglySorted (λ a b, String.le (message_key b) (message_key a)) h.
Proof.
  intros He Hl Hr Hnd%sink_keys_NoDup Hc Hf.
  assert (messages_ok (db_map (mr_db repo))) as Hok.
  { intros r k v Hk. rewrite He, lookup_empty in Hk. done. }
  destruct (consume_all_stored _ _ _ Hok Hr Hc) as [Hok' _].
  destruct (consume_all_limit _ _ _ Hc) as [Hl' Hs]. rewrite length_fmap, He, map_size_empty in Hs.
  destruct (walk_history repo' room fuel Hok') as (h & Hw & Hn & Hel & Hsort); [congruence|lia|].
  exists h. split_and!; [done| |done]. apply NoDup_Permutation.
  - by apply NoDup_fmap_1 in Hn.
  - apply NoDup_ListNoDup, List.NoDup_filter, NoDup_ListNoDup. rewrite list_fmap_compose in Hnd.
    by apply NoDup_fmap_1 in Hnd.
  - intros dm. rewrite Hel, elem_of_lfilter. unfold in_room. rewrite Z.eqb_eq. split.
    + intros [Hd Hst]. split; [|done].
      destruct (consume_all_stored_inv _ _ _ _ Hr Hc Hst) as [?|(v & Hv & _)]; [done|].
      by rewrite He, lookup_empty in Hv.
    + intros [Hin Hd]. split; [done|]. apply list_elem_of_fmap in Hin as (x & -> & Hx).
      exact (consume_all_all _ _ _ Hok Hr Hnd Hc x Hx).
Qed.

(** What the server answers for a command: the author, the content as the censor leaves
    it, and the time of the post. *)
Definition response_of (m : Moderator) (c : PostMessageCommand) (r : pbMessageResponse) : Prop :=
  mrs_Author r = pmc_UserID c ∧ mrs_CreatedAt r = timestamppb_New (pmc_CreatedAt c) ∧
  ∃ words, Censor m (pmc_Content c) = Some (mrs_Content r, words).

(** ** The conversation *)

Section Pipe.
Context {Sink : Type} {I : IRegistry Sink} (m : Moderator) (numWorkers eventBuffer : nat).

Lemma fanned_messages words cc (s : pipeline) order : NewModerator words cc = Ok m →
  pipe_reachable m numWorkers eventBuffer s → pl_cancelled s = false → pipe_idle s →
  order ≡ₚ pl_fanned s →
  ∃ cs msgs, order = EvSanitizedMessage <$> msgs ∧ cs ≡ₚ pl_accepted s ∧
    Forall2 (sanitized_from m) cs msgs.
Proof.
  intros Hmod [_ [p [Ha Ho Hc Hpo Hm Hmd He Hl Hrun]]]%(pipe_inv_reachable _ _ _ _ _ Hmod) Hcan
    (E1 & E2 & E3 & E4 & E5) Hord.
  destruct p as [p1 p2 p3 p4 p5 p6 p7]. unfold everywhere in Ha. cbn in *.
  rewrite E1 in Hc. rewrite E2 in Hpo. rewrite E3 in Hm. rewrite E4 in Hmd. rewrite E5 in He.
  rewrite (Hrun Hcan) in Hl. symmetry in Hc. apply fmap_nil_inv in Hc as ->.
  apply Forall2_nil_inv_r in Hpo as ->, Hm as ->, Hmd as ->, He as ->, Hl as ->.
  cbn [app] in Ha. rewrite app_nil_r in Ha. apply Forall2_flip in Ho.
  destruct (Permutation_Forall2 (symmetry Hord) Ho) as (cs & Hcs & HF). exists cs.
  assert (∃ msgs, order = EvSanitizedMessage <$> msgs ∧ Forall2 (sanitized_from m) cs msgs)
    as (msgs & ? & ?); [|exists msgs; split_and!; [done|by rewrite <- Hcs|done]].
  clear -HF. induction HF as [|d c order cs (x & -> & Hx) _ (msgs & -> & IH)]; [by exists []|].
  exists (x :: msgs). by split; [|constructor].
Qed.

Lemma sanitized_keys cs msgs : Forall2 (sanitized_from m) cs msgs →
  NoDup ((λ c, (pmc_Room c, UnixNano (pmc_CreatedAt c))) <$> cs) →
  NoDup ((λ s, (sm_Room s, UnixNano (sm_At s), sm_ID s)) <$> msgs).
Proof.
  intros HF Hnd. apply (NoDup_fmap_1 fst). rewrite <- list_fmap_compose.
  replace (fst ∘ _ <$> msgs) with ((λ c, (pmc_Room c, UnixNano (pmc_CreatedAt c))) <$> cs); [done|].
  clear Hnd. induction HF as [|c x cs msgs (Hr & _ & Ha & _) _ IH]; [done|].
  rewrite !fmap_cons, IH. simpl. by rewrite Hr, Ha.
Qed.

(** The disk messages of a room and the commands they come from. *)
Lemma sanitized_room cs msgs room : Forall2 (sanitized_from m) cs msgs →
  Forall2 (λ c dm, dm_Room dm = pmc_Room c ∧ dm_At dm = pmc_CreatedAt c ∧
             ∀ r, as_responses [dm] = [r] → response_of m c r)
    (List.filter (λ c, pmc_Room c =? room) cs)
    (List.filter (in_room room) (sink_toDiskMessage <$> msgs)).
Proof.
  induction 1 as [|c x cs msgs (Hr & Ha & Ht & _ & Hc) _ IH]; [constructor|].
  rewrite fmap_cons. cbn [List.filter in_room]. unfold in_room at 1. cbn [sink_toDiskMessage dm_Room].
  rewrite Hr. case_match; [|done]. constructor; [|done]. split_and!; [done..|].
  intros r [= <-]. unfold response_of. cbn. rewrite Ha, Ht. eauto.
Qed.

End Pipe.
End Conversation.

(** ** A concrete conversation *)

#[local] Existing Instances Latin1Tables.

Definition history_after (order : list DomainEvent) : MessageRepository :=
  (consume_all (NewMessageRepository (∅ : @DB MapBadger) (Some 1)) order).1.
Definition reading_hub : MessageHub nat :=
  MkMessageHub nat ∅ (NewRegistry : @registry nat RegistryI) [] 1 100 (history_after (pl_fanned demo_pipeline)).

Lemma reading_hub_stored :
  consume_all (NewMessageRepository (∅ : @DB MapBadger) (Some 1)) (pl_fanned demo_pipeline) =
  (o_messageRepository reading_hub, None).
Proof. vm_refl. Qed.

