(* ===== verification/Live.v ===== *)
(** * Live: from the commands of a room to the streams of its participants

    The fan-out ([Fanout]), the buffer of a connected user and the loop of [Connect]
    ([Chat]) behind the chat pipeline: what a participant receives while connected. *)

From Stdlib Require Import String.
From S2P Require Import Prelude Errors Env Store Text MessageStore Moderation Domain Contract Registry Chat Fanout Conversation.

(** ** The deliveries to one connection *)

Section Deliveries.
Context {U : Uuid} {Sink : Type} `{!EqDecision Sink} {I : IRegistry Sink} {R : RegistrySpec I}.

Definition to_sink (su : Sink) (l : list (target Sink * DomainEvent)) : list DomainEvent :=
  omap (λ p, match p.1 with
             | RoomSink s => if decide (s = su) then Some p.2 else None
             | DiskTarget => None
             end) l.

(** The sink is that of one connection, in that room. *)
Definition connected (su : Sink) (room : RoomID) (r : registry) : Prop :=
  ∃ (c : connections Sink) u, holds r c ∧ c !! u = Some (room, su) ∧
    ∀ u' room', c !! u' = Some (room', su) → u' = u.

Lemma to_sink_app su l1 l2 : to_sink su (l1 ++ l2) = to_sink su l1 ++ to_sink su l2.
Proof. apply omap_app. Qed.

Lemma to_sink_launched su e (sinks : list Sink) :
  to_sink su ((λ s, (s, e)) <$> ((RoomSink <$> sinks) ++ [DiskTarget])) =
  replicate (length (List.filter (λ s, bool_decide (s = su)) sinks)) e.
Proof.
  rewrite fmap_app, to_sink_app. cbn [to_sink omap list_omap fmap list_fmap fst]. rewrite app_nil_r.
  induction sinks as [|s sinks IH]; [done|]. rewrite !fmap_cons. cbn [to_sink omap list_omap fst snd].
  fold (to_sink su ((λ s, (s, e)) <$> (RoomSink <$> sinks))). cbn [List.filter].
  destruct (decide (s = su)) as [->|Hne].
  - rewrite bool_decide_eq_true_2 by done. cbn [length replicate]. by rewrite <- IH.
  - rewrite bool_decide_eq_false_2 by done. exact IH.
Qed.

(** An event of its room is launched once towards a connection, another one never. *)
Lemma round_to_sink su room r e : connected su room r →
  to_sink su ((λ s, (s, e)) <$> Fanout r e) = if event_RoomID e =? room then [e] else [].
Proof.
  intros (c & u & Hr & Hu & Huniq). unfold Fanout. rewrite to_sink_launched.
  pose proof (holds_sinks r c (event_RoomID e) Hr) as Hs. unfold room_sinks in Hs.
  rewrite (Permutation_length (lfilter_Permutation (λ s, bool_decide (s = su)) _ _ Hs)).
  set (M := List.filter _ (map_to_list c)).
  assert (List.filter (λ s, bool_decide (s = su)) (snd ∘ snd <$> M) =
          snd ∘ snd <$> List.filter (λ p, bool_decide (p.2.2 = su)) M) as ->.
  { clearbody M. induction M as [|p M IH]; [done|]. rewrite fmap_cons. cbn [List.filter compose].
    case_match; [by rewrite fmap_cons, IH|exact IH]. }
  rewrite length_fmap.
  assert (List.filter (λ p, bool_decide (p.2.2 = su)) M ≡ₚ
          if event_RoomID e =? room then [(u, (room, su))] else []) as ->.
  { subst M. apply NoDup_Permutation.
    - do 2 apply NoDup_ListNoDup, List.NoDup_filter, NoDup_ListNoDup. apply NoDup_map_to_list.
    - case_match; [apply NoDup_singleton|constructor].
    - intros [u' [room' s']]. rewrite !elem_of_lfilter, !bool_decide_eq_true, elem_of_map_to_list.
      cbn [fst snd]. destruct (Z.eqb_spec (event_RoomID e) room) as [He|He].
      + rewrite list_elem_of_singleton. split; [intros [[Hc ->] ->]|intros [= -> -> ->]; by rewrite He].
        by rewrite (Huniq _ _ Hc), He.
      + rewrite elem_of_nil. split; [|done]. intros [[Hc ->] ->]. apply He.
        pose proof (Huniq _ _ Hc) as ->. rewrite Hu in Hc. by injection Hc. }
  by case_match.
Qed.
End Deliveries.

(** ** The buffer and the stream of a connection *)

Section Stream.
Context {U : Uuid} {T : Timestamppb}.

(** [lv_pending] are the deliveries started and not over, each with whether it found the
    buffer full and waits; [lv_lost] those that were given up, with the case their
    [select] took; [lv_cancelled] whether the context of the worker ended. *)
Record live := MkLive {
  lv_pending : list (DomainEvent * bool);
  lv_sink : GrpcSink;
  lv_sent : list pbMessageResponse;
  lv_cancelled : bool;
  lv_lost : list (DomainEvent * sink_case);
}.

(** A delivery finds the buffer full and waits; its [select] takes a case that is ready,
    the timer only if it waited; the loop of the connection sends an event. *)
Inductive live_step : live → live → Prop :=
| lv_wait pre e post sink sent ca lost :
    sink_full sink = true →
    live_step (MkLive (pre ++ (e, false) :: post) sink sent ca lost)
              (MkLive (pre ++ (e, true) :: post) sink sent ca lost)
| lv_consume pre e w post sink c sink' err sent ca lost :
    sink_ready ca sink c = true → (c = SinkTimedOut → w = true) →
    GrpcSink_Consume sink c e = (sink', err) →
    live_step (MkLive (pre ++ (e, w) :: post) sink sent ca lost)
              (MkLive (pre ++ post) sink' sent ca
                 (lost ++ match c with SinkSent => [] | _ => [(e, c)] end))
| lv_send pending e rest n sent sent' ca lost :
    connect_loop [StreamEvent e None] sent = (sent', None) →
    live_step (MkLive pending (MkGrpcSink (e :: rest) n) sent ca lost)
              (MkLive pending (MkGrpcSink rest n) sent' ca lost).

Definition live_start (events : list DomainEvent) (bufferSize : nat) : live :=
  MkLive ((λ e, (e, false)) <$> events) (NewGrpcSink bufferSize) [] false [].
Definition live_cancel (x : live) : live :=
  MkLive (lv_pending x) (lv_sink x) (lv_sent x) true (lv_lost x).

(** A run of [k] steps, in which the context may end at any time. *)
Inductive live_run (x : live) : nat → live → Prop :=
| live_run_start : live_run x 0 x
| live_run_step k y z : live_run x k y → live_step y z → live_run x (S k) z
| live_run_cancel k y : live_run x k y → live_run x k (live_cancel y).

(** What the stream sends for an event. *)
Definition sent_for (e : DomainEvent) : list pbMessageResponse :=
  match e with EvSanitizedMessage m => [toChatEvent m] | EvMessagePosted _ => [] end.

Lemma connect_loop_one e sent : connect_loop [StreamEvent e None] sent = (sent ++ sent_for e, None).
Proof. destruct e; cbn [connect_loop sent_for]; [by rewrite app_nil_r|done]. Qed.

(** Every event is in one place: pending, in the buffer, sent or lost; and an event is
    lost for a reason: it waited and its timer ran out, or the context ended. *)
Record live_inv (events : list DomainEvent) (n : nat) (x : live) : Prop := {
  li_size : gs_bufferSize (lv_sink x) = n;
  li_room : (length (ConnectedUserEvent (lv_sink x)) ≤ n)%nat;
  li_events : ∃ sent_events, lv_sent x = sent_events ≫= sent_for ∧
    (lv_pending x).*1 ++ ConnectedUserEvent (lv_sink x) ++ sent_events ++ (lv_lost x).*1 ≡ₚ events;
  li_reason : Forall (λ l, l.2 = SinkTimedOut ∨ lv_cancelled x = true) (lv_lost x);
  li_fits : (length events ≤ n)%nat →
    Forall (λ p, p.2 = false) (lv_pending x) ∧ Forall (λ l, l.2 ≠ SinkTimedOut) (lv_lost x);
}.

Definition live_weight (x : live) : nat :=
  list_sum ((λ p : DomainEvent * bool, if p.2 then 2%nat else 3%nat) <$> lv_pending x) +
  length (ConnectedUserEvent (lv_sink x)).

(** The buffer is not full while an event that fits in it is pending. *)
Lemma live_fits events n pre e w post sink sent ca lost :
  live_inv events n (MkLive (pre ++ (e, w) :: post) sink sent ca lost) → (length events ≤ n)%nat →
  sink_full sink = false.
Proof.
  intros [Hn _ (se & _ & HP) _ _] Hle. apply Permutation_length in HP. cbn in *.
  rewrite !length_app, !length_fmap, length_app in HP. simpl in HP.
  unfold sink_full. apply Nat.leb_gt. rewrite Hn. lia.
Qed.

Lemma live_inv_wait events n pre e post sink sent ca lost :
  live_inv events n (MkLive (pre ++ (e, false) :: post) sink sent ca lost) → sink_full sink = true →
  live_inv events n (MkLive (pre ++ (e, true) :: post) sink sent ca lost).
Proof.
  intros HI Hf. pose proof (live_fits _ _ _ _ _ _ _ _ _ _ HI) as Hfit.
  destruct HI as [Hn Hl (se & Hs & HP) Hr _]. split; cbn in *; [done|done| |done|].
  - exists se. split; [done|]. rewrite <- HP. rewrite !fmap_app, !fmap_cons. done.
  - intros Hle. rewrite Hfit in Hf; done.
Qed.

Lemma live_inv_consume events n pre e w post sink c sink' err sent ca lost :
  live_inv events n (MkLive (pre ++ (e, w) :: post) sink sent ca lost) →
  sink_ready ca sink c = true → (c = SinkTimedOut → w = true) → GrpcSink_Consume sink c e = (sink', err) →
  live_inv events n (MkLive (pre ++ post) sink' sent ca
    (lost ++ match c with SinkSent => [] | _ => [(e, c)] end)).
Proof.
  intros [Hn Hl (se & Hs & HP) Hr Hfit] Hrdy Hw Hc. cbn in *.
  rewrite fmap_app, fmap_cons in HP. cbn [fst] in HP.
  assert ((length events ≤ n)%nat → Forall (λ p, p.2 = false) (pre ++ post) ∧ w = false ∧
    Forall (λ l, l.2 ≠ SinkTimedOut) lost) as Hfit'.
  { intros [[H1 [H2 H3]%Forall_cons]%Forall_app H4]%Hfit. split_and!; [by apply Forall_app|done|done]. }
  destruct c as [ce| |]; cbn in Hc, Hrdy; injection Hc as <- <-; split; cbn; rewrite ?app_nil_r; try done.
  - exists se. split; [done|]. rewrite <- HP, !fmap_app, fmap_cons. cbn. solve_Permutation.
  - apply Forall_app. split; [done|]. constructor; [by right|constructor].
  - intros (H1 & _ & H3)%Hfit'. split; [done|]. apply Forall_app. by split; [|repeat constructor].
  - unfold sink_full in Hrdy. apply negb_true_iff, Nat.leb_gt in Hrdy. rewrite length_app. simpl. lia.
  - exists se. split; [done|]. rewrite <- HP, fmap_app. solve_Permutation.
  - intros (H1 & _ & H3)%Hfit'. done.
  - exists se. split; [done|]. rewrite <- HP, !fmap_app, fmap_cons. cbn. solve_Permutation.
  - apply Forall_app. split; [done|]. constructor; [by left|constructor].
  - intros (_ & H2 & _)%Hfit'. rewrite (Hw eq_refl) in H2. done.
Qed.

Lemma live_inv_step events n x y : live_inv events n x → live_step x y → live_inv events n y.
Proof.
  intros HI Hst. destruct Hst as [| |pending e rest n' sent sent' ca lost Hc];
    [by eapply live_inv_wait|by eapply live_inv_consume|].
  rewrite connect_loop_one in Hc. injection Hc as <-.
  destruct HI as [Hn Hl (se & Hs & HP) Hr Hfit]. cbn in *. split; cbn; [done|lia| |done|done].
  exists (se ++ [e]). split; [by rewrite bind_app, <- Hs; cbn; rewrite app_nil_r|].
  rewrite <- HP. solve_Permutation.
Qed.

Lemma live_step_weight x y : live_step x y → (live_weight y < live_weight x)%nat.
Proof.
  unfold live_weight. destruct 1 as [| pre e w post sink c sink' err sent ca lost _ _ Hc|];
    cbn; rewrite ?fmap_app, ?fmap_cons, ?list_sum_app; simpl; try lia.
  destruct c; cbn in Hc; injection Hc as <- <-; cbn; rewrite ?length_app; destruct w; simpl; lia.
Qed.

Lemma live_inv_run events n k x : live_run (live_start events n) k x →
  live_inv events n x ∧ (k + live_weight x ≤ 3 * length events)%nat.
Proof.
  induction 1 as [|k y z _ [IH1 IH2] Hs|k y _ [[Hn Hl HP Hr Hfit] IH2]].
  - split; [split; cbn|].
    + done.
    + lia.
    + exists []. split; [done|]. cbn. rewrite <- list_fmap_compose, list_fmap_id, app_nil_r. done.
    + constructor.
    + intros _. split; [by apply Forall_fmap, Forall_true|constructor].
    + unfold live_weight; cbn. rewrite <- list_fmap_compose. clear.
      induction events as [|e l IH]; [done|]. rewrite fmap_cons. simpl in *. lia.
  - split; [by eapply live_inv_step|]. apply live_step_weight in Hs. lia.
  - split; [|done]. split; try done. cbn. eapply Forall_impl; [exact Hr|]. by right.
Qed.

(** With room in the buffer, some step is possible until everything is over. *)
Lemma live_progress n x : (0 < n)%nat → gs_bufferSize (lv_sink x) = n →
  (lv_pending x = [] ∧ ConnectedUserEvent (lv_sink x) = []) ∨ ∃ y, live_step x y.
Proof.
  intros Hn Hb. destruct x as [pending [buf n'] sent ca lost]. cbn in *. subst n'.
  destruct buf as [|e buf]; [|right; eexists; eapply lv_send, connect_loop_one].
  destruct pending as [|[e w] pending]; [by left|right]. eexists.
  eapply (lv_consume [] e w pending _ SinkSent); [|done|done]. by destruct n; [lia|].
Qed.
End Stream.

(** ** The stream of a participant *)

Section Live.
Context {B : Badger} {BL : BadgerLaws B} {U : Uuid} {UL : UuidLaws U}
        {T : Timestamppb} {TL : TimestamppbLaws T}
        {C : Codec pbMessage} {CL : CodecLaws pbMessage}
        {UT : UnicodeTables} {A : AhoCorasick} {AL : AhoCorasickLaws A}.
Context (m : Moderator) (numWorkers eventBuffer : nat).
Context {Sink : Type} `{!EqDecision Sink} {I : IRegistry Sink} {R : RegistrySpec I}.

(** The domain events of the rounds. *)
Definition round_events (rounds : list (registry * telemetry_case * Event)) : list DomainEvent :=
  omap (λ r, match fanout_route r.2 with RouteDomain e => Some e | _ => None end) rounds.

Lemma rounds_to_sink su room rounds : Forall (λ r, connected su room r.1.1) rounds →
  to_sink su (rounds ≫= round_deliveries) =
  List.filter (λ e, event_RoomID e =? room) (round_events rounds).
Proof.
  induction 1 as [|[[r c] evt] rounds Hc _ IH]; [done|]. rewrite bind_cons, to_sink_app, IH.
  unfold round_deliveries at 1, round_events. cbn [fst snd omap list_omap] in *.
  fold (round_events rounds). destruct (fanout_route evt) as [e|e|]; [|done|done].
  rewrite (round_to_sink su room) by done. cbn [List.filter]. by case_match.
Qed.

(** The events of a room and the commands they come from. *)
Lemma sanitized_events_room cs msgs room : Forall2 (sanitized_from m) cs msgs →
  Forall2 (λ c e, ∃ x, e = EvSanitizedMessage x ∧ response_of m c (toChatEvent x))
    (List.filter (λ c, pmc_Room c =? room) cs)
    (List.filter (λ e, event_RoomID e =? room) (EvSanitizedMessage <$> msgs)).
Proof.
  induction 1 as [|c x cs msgs (Hr & Ha & Ht & _ & Hc) _ IH]; [constructor|].
  rewrite fmap_cons. cbn [List.filter event_RoomID]. rewrite Hr.
  case_match; [|done]. constructor; [|done]. exists x. split; [done|].
  unfold response_of. cbn. rewrite Ha, Ht. eauto.
Qed.

End Live.

(** ** A connected user *)

#[local] Existing Instances Latin1Tables.

Definition live_registry : @registry nat RegistryI := Subscribe NewRegistry "u1" 7 42%nat.
Definition live_rounds : list (@registry nat RegistryI * telemetry_case * Event) :=
  [(live_registry, TelemetryLost, MkEvent DomainType 7 (PayloadSanitized demo_sanitized))].
Definition no_effects : @fanout_effects HexUuid nat := MkFanoutEffects [] [] [].

Lemma live_connected : connected 42%nat 7 live_registry.
Proof.
  exists {["u1" := (7, 42%nat)]}, "u1". split_and!.
  - apply (refines_step NewRegistry ∅ (Join "u1" 7 42%nat)); [apply refines_new|by apply step_join].
  - apply lookup_singleton_eq.
  - by intros u' room' [<- _]%lookup_singleton_Some.
Qed.

Definition live_end : live := MkLive [] (NewGrpcSink 1) [toChatEvent demo_sanitized] false [].

Lemma live_demo : live_run (live_start
  (to_sink 42%nat (fe_deliveries (EventFanoutWorker_Run live_rounds no_effects))) 1) 2 live_end.
Proof.
  assert (to_sink 42%nat (fe_deliveries (EventFanoutWorker_Run live_rounds no_effects)) =
          [EvSanitizedMessage demo_sanitized]) as -> by vm_refl.
  eapply live_run_step; [eapply live_run_step; [apply live_run_start|]|].
  - by eapply (lv_consume [] _ _ [] _ SinkSent).
  - by apply lv_send.
Qed.

