(* ===== verification/Startup.v ===== *)
(** * Startup: loading the word lists

    [CharacterRune] of [internal/config.go], [runtime/loader.go], and the
    preparation of the moderator in [runtime/orchestrator.go].  The embedded file
    system is an argument; the order in which Go iterates the set of words is
    arbitrary. *)

From Stdlib Require Import Ascii String.
From S2P Require Import Prelude Errors Env Text Moderation Domain.

(** ** [internal/config.go] *)

(** [quote] is the [%q] verb. *)
Definition CharacterRune (quote : string → string) (str : string) : result error rune :=
  match runes str with
  | [r] => Ok r
  | _ => Err (Opaque ("CHARACTER_REPLACEMENT must be a single character, got " +:+ quote str))
  end.

(** ** [bufio.Scanner] with [ScanLines] *)

Definition newline : ascii := byte_of 10.
Definition carriage_return : string := String (byte_of 13) "".
(** A line of 64 KB or more does not fit the scanner's buffer. *)
Definition MaxScanTokenSize : Z := 64 * 1024.

(** The lines of the data; what follows the last newline is a line only when it
    is not empty. *)
Fixpoint drop_last_empty (l : list string) : list string :=
  match l with
  | [] => []
  | [s] => if String.eqb s "" then [] else [s]
  | s :: l => s :: drop_last_empty l
  end.
Definition scan_lines (data : string) : result error (list string) :=
  let lines := drop_last_empty (split_on newline data) in
  if existsb (λ s, MaxScanTokenSize <=? strlen s) lines
  then Err (Opaque "bufio.Scanner: token too long")
  else Ok ((λ s, TrimSuffix s carriage_return) <$> lines).

Section Startup.
Context {UT : UnicodeTables} {AC : AhoCorasick}.

(** ** [runtime/loader.go] *)

Record embed_FS := MkEmbedFS {
  em_ReadDir : string → result error (list (string * bool));  (* name, [IsDir] *)
  em_ReadFile : string → result error string;
}.
Record CensoredData := MkCensoredData { cd_Words : list string; cd_Languages : list string }.

(** The order in which the set of words is iterated. *)
Variable range_words : gset string → list string.
Hypothesis range_words_perm : ∀ s, range_words s ≡ₚ elements s.

Fixpoint add_lines (lines : list string) (words : gset string) : gset string :=
  match lines with
  | [] => words
  | text :: lines =>
      let line := TrimSpace text in
      add_lines lines (if String.eqb line "" then words else {[line]} ∪ words)
  end.

Fixpoint load_entries (fs : embed_FS) (path : string) (entries : list (string * bool))
    (languages : list string) (words : gset string) : result error (list string * gset string) :=
  match entries with
  | [] => Ok (languages, words)
  | (name, true) :: entries => load_entries fs path entries languages words
  | (name, false) :: entries =>
      let languages := languages ++ [TrimSuffix name ".txt"] in
      let! data := em_ReadFile fs (path +:+ "/" +:+ name) in
      let! lines := scan_lines data in
      load_entries fs path entries languages (add_lines lines words)
  end.

Definition LoadAll (fs : embed_FS) (path : string) : result error CensoredData :=
  let! entries := em_ReadDir fs path in
  let! (languages, words) := load_entries fs path entries [] ∅ in
  if (size words =? 0)%nat then Err ErrEmptyWords
  else Ok (MkCensoredData (range_words words) languages).

(** ** [runtime/orchestrator.go] *)

Definition prepareModeration (fs : embed_FS) (path : string) (charReplacement : rune)
  : result error Moderator :=
  let! data := LoadAll fs path in NewModerator (cd_Words data) charReplacement.

(** ** The words loaded *)

Lemma elem_of_add_lines w lines : ∀ words,
  w ∈ add_lines lines words ↔ w ∈ words ∨ (w ≠ "" ∧ ∃ text, text ∈ lines ∧ w = TrimSpace text).
Proof.
  induction lines as [|text lines IH]; intros words; cbn [add_lines].
  - split; [by left|]. intros [H|(_ & t & []%elem_of_nil & _)]. done.
  - rewrite IH. setoid_rewrite elem_of_cons. destruct (String.eqb_spec (TrimSpace text) "") as [He|Hne].
    + split; [intros [H|(Hw & t & Ht & ->)]; [by left|]|intros [H|(Hw & t & [->|Ht] & ->)]; [by left|done|]].
      * right. split; [done|]. exists t. auto.
      * right. split; [done|]. by exists t.
    + rewrite elem_of_union, elem_of_singleton. split.
      * intros [[->|H]|(Hw & t & Ht & ->)]; [|by left|]; right; (split; [done|]); eexists; eauto.
      * intros [H|(Hw & t & [->|Ht] & ->)]; [by left; right|by left; left|right]. split; [done|]. by exists t.
Qed.

(** A line of one of the files. *)
Definition listed_line (fs : embed_FS) (path : string) (entries : list (string * bool)) (text : string)
  : Prop :=
  ∃ name data lines, (name, false) ∈ entries ∧ em_ReadFile fs (path +:+ "/" +:+ name) = Ok data ∧
    scan_lines data = Ok lines ∧ text ∈ lines.

Lemma load_entries_words fs path entries : ∀ langs words langs' words',
  load_entries fs path entries langs words = Ok (langs', words') →
  ∀ w, w ∈ words' ↔ w ∈ words ∨ (w ≠ "" ∧ ∃ text, listed_line fs path entries text ∧ w = TrimSpace text).
Proof.
  induction entries as [|[name [|]] entries IH]; intros langs words langs' words' H w;
    cbn [load_entries] in H.
  - simplify_eq. split; [by left|]. intros [Hw|(_ & t & (n & d & ls & []%elem_of_nil & _) & _)]. done.
  - rewrite (IH _ _ _ _ H). apply or_iff_compat_l, and_iff_compat_l.
    split; intros (t & (n & d & ls & Hn & Hl) & Hw); exists t; (split; [|done]); exists n, d, ls;
      (split; [|done]); [by right|].
    apply elem_of_cons in Hn as [[=]|Hn]. done.
  - inv_res H. inv_res H. rewrite (IH _ _ _ _ H), elem_of_add_lines. split.
    + intros [[Hw|(Hw & t & Ht & ->)]|(Hw & t & (n & d & ls & Hn & Hl) & ->)]; [by left|right|right];
        (split; [done|]); exists t; (split; [|done]).
      * eexists name, _, _. split; [left|]. done.
      * exists n, d, ls. split; [by right|done].
    + intros [Hw|(Hw & t & (n & d & ls & [[= ->]|Hn]%elem_of_cons & Hf & Hs & Ht) & ->)]; [by left; left| |].
      * left. right. split; [done|]. exists t. split; [congruence|done].
      * right. split; [done|]. exists t. split; [|done]. by exists n, d, ls.
Qed.

(** The words loaded are the trimmed non-empty lines of the word lists, each once,
    and there is at least one. *)
Theorem LoadAll_words fs path d :
  LoadAll fs path = Ok d →
  ∃ entries, em_ReadDir fs path = Ok entries ∧ NoDup (cd_Words d) ∧ cd_Words d ≠ [] ∧
    ∀ w, w ∈ cd_Words d ↔ w ≠ "" ∧ ∃ text, listed_line fs path entries text ∧ w = TrimSpace text.
Proof.
  unfold LoadAll. intros H. inv_res H. destruct (load_entries _ _ _ _ _) as [[langs words]|e'] eqn:El; [|done].
  cbn [res_bind] in H. destruct (Nat.eqb_spec (size words) 0) as [Hz|Hz]; [done|]. injection H as <-.
  eexists. split; [done|]. cbn [cd_Words]. split_and!.
  - rewrite range_words_perm. apply NoDup_elements.
  - intros Hn. apply Hz. pose proof (range_words_perm words) as Hp. rewrite Hn in Hp.
    apply Permutation_length in Hp. by symmetry.
  - intros w. rewrite range_words_perm, elem_of_elements, (load_entries_words _ _ _ _ _ _ _ El).
    set_solver.
Qed.

End Startup.

Example lines_and_words :
  scan_lines ("one" +:+ carriage_return +:+ String newline (String newline "two")) =
    Ok ["one"; ""; "two"] ∧
  scan_lines (String newline "") = Ok [""] ∧ scan_lines "" = Ok [].
Proof. split_and!; reflexivity. Qed.
