(* ===== verification/Strconv.v ===== *)
(** * Strconv: the number parsers of [strconv] the code uses

    [ParseFloat(s, 64)] and [ParseInt(s, 10, 64)].  A decimal or hexadecimal
    floating-point number is read exactly, and rounded once to [float64]; an
    infinite result is a range error, as in Go. *)

From Stdlib Require Import Ascii String SpecFloat.
From S2P Require Import Prelude Errors Env Text.

Fixpoint bytes_of_string (s : string) : list Z :=
  match s with EmptyString => [] | String c s => byte_val c :: bytes_of_string s end.

Definition ErrSyntax : error := Opaque "invalid syntax".
Definition ErrRange : error := Opaque "value out of range".

(** [lower]: the ASCII letter in lower case. *)
Definition lower_byte (c : Z) : Z := Z.lor c 32.

(** ** [ParseFloat] *)

(** The exact values read: an integer over a power of the base. *)
Record mantissa := MkMantissa {
  ma_value : Z; ma_frac : Z; ma_dot : bool; ma_digits : bool; ma_underscore : bool }.

Definition digit_of (hex : bool) (c : Z) : option Z :=
  if between 48 57 c then Some (c - 48)
  else if hex && between 97 102 (lower_byte c) then Some (lower_byte c - 97 + 10)
  else None.

Fixpoint scan_mantissa (hex : bool) (l : list Z) (a : mantissa) : mantissa * list Z :=
  match l with
  | [] => (a, [])
  | c :: l' =>
      let '(MkMantissa v f dot digits _) := a in
      if c =? 95 then scan_mantissa hex l' (MkMantissa v f dot digits true)
      else if c =? 46 then
        if dot then (a, l)
        else scan_mantissa hex l' (MkMantissa v f true digits (ma_underscore a))
      else
        match digit_of hex c with
        | Some d =>
            scan_mantissa hex l'
              (MkMantissa (v * (if hex then 16 else 10) + d) (if dot then f + 1 else f) dot true
                 (ma_underscore a))
        | None => (a, l)
        end
  end.

(** The exponent stops growing at 10000. *)
Fixpoint scan_exponent (l : list Z) (e : Z) (under : bool) : Z * bool * list Z :=
  match l with
  | [] => (e, under, [])
  | c :: l' =>
      if c =? 95 then scan_exponent l' e true
      else if between 48 57 c
      then scan_exponent l' (if e <? 10000 then e * 10 + (c - 48) else e) under
      else (e, under, l)
  end.

Definition read_exponent (hex : bool) (l : list Z) : option (Z * bool * list Z) :=
  match l with
  | c :: l' =>
      if lower_byte c =? (if hex then 112 else 101) then
        let '(sign, l'') :=
          match l' with
          | 43 :: l'' => (1, l'')
          | 45 :: l'' => (-1, l'')
          | _ => (1, l')
          end in
        match l'' with
        | d :: _ =>
            if between 48 57 d then
              let '(e, under, rest) := scan_exponent l'' 0 false in Some (sign * e, under, rest)
            else None
        | [] => None
        end
      else if hex then None else Some (0, false, l)
  | [] => if hex then None else Some (0, false, [])
  end.

(** [underscoreOK]: underscores only between digits, or after a base prefix. *)
Inductive seen := SawStart | SawDigit | SawUnderscore | SawOther.
Fixpoint underscores_from (hex : bool) (saw : seen) (l : list Z) : bool :=
  match l with
  | [] => match saw with SawUnderscore => false | _ => true end
  | c :: l =>
      if bool_decide (is_Some (digit_of hex c)) then underscores_from hex SawDigit l
      else if c =? 95 then
        match saw with SawDigit => underscores_from hex SawUnderscore l | _ => false end
      else match saw with SawUnderscore => false | _ => underscores_from hex SawOther l end
  end.
Definition drop_sign (l : list Z) : list Z :=
  match l with
  | c :: l' => if one_of [43; 45] c then l' else l
  | [] => l
  end.
Definition underscoreOK (l : list Z) : bool :=
  match drop_sign l with
  | 48 :: c :: l' =>
      if one_of [98; 111; 120] (lower_byte c)
      then underscores_from (lower_byte c =? 120) SawDigit l'
      else underscores_from false SawStart (48 :: c :: l')
  | l => underscores_from false SawStart l
  end.

(** [neg * value * 10 ^ exp] or [neg * value * 2 ^ exp], rounded to nearest. *)
Definition f64_ratio (neg : bool) (n d : positive) : float64 :=
  f64_div (S754_finite neg n 0) (S754_finite false d 0).
Definition f64_assemble (hex neg : bool) (value exp : Z) : float64 :=
  match value with
  | Z.pos n =>
      if hex then binary_normalize 53 1024 (if neg then Z.neg n else Z.pos n) exp neg
      else if 0 <=? exp then f64_ratio neg (n * Z.to_pos (10 ^ exp)) 1
      else f64_ratio neg n (Z.to_pos (10 ^ (- exp)))
  | _ => S754_zero neg
  end.

Definition read_float (l : list Z) : option float64 :=
  let neg := match l with 45 :: _ => true | _ => false end in
  let l0 := drop_sign l in
  let '(hex, l1) :=
    match l0 with
    | 48 :: x :: c :: l' => if lower_byte x =? 120 then (true, c :: l') else (false, l0)
    | _ => (false, l0)
    end in
  let '(a, l2) := scan_mantissa hex l1 (MkMantissa 0 0 false false false) in
  if negb (ma_digits a) then None
  else
    match read_exponent hex l2 with
    | Some (e, under, []) =>
        if (ma_underscore a || under) && negb (underscoreOK l) then None
        else Some (f64_assemble hex neg (ma_value a) (e - (if hex then 4 else 1) * ma_frac a))
    | _ => None
    end.

(** [special]: the infinities and NaN, in any case. *)
Definition special (l : list Z) : option float64 :=
  let w := lower_byte <$> drop_sign l in
  let inf := bytes_of_string "inf" in
  let infinity := bytes_of_string "infinity" in
  if bool_decide (w = inf ∨ w = infinity)
  then Some (S754_infinity (match l with 45 :: _ => true | _ => false end))
  else if bool_decide (lower_byte <$> l = bytes_of_string "nan") then Some S754_nan
  else None.

Definition ParseFloat (s : string) : result error float64 :=
  let l := bytes_of_string s in
  match special l with
  | Some f => Ok f
  | None =>
      match read_float l with
      | Some (S754_infinity _) => Err ErrRange
      | Some f => Ok f
      | None => Err ErrSyntax
      end
  end.

(** ** [ParseInt] in base ten, 64 bits *)

Fixpoint scan_uint (l : list Z) (n : Z) : option Z :=
  match l with
  | [] => Some n
  | c :: l => if between 48 57 c then scan_uint l (n * 10 + (c - 48)) else None
  end.

Definition ParseInt (s : string) : result error Z :=
  let l := bytes_of_string s in
  let neg := match l with c :: _ => c =? 45 | [] => false end in
  match drop_sign l with
  | [] => Err ErrSyntax
  | l' =>
      match scan_uint l' 0 with
      | None => Err ErrSyntax
      | Some n =>
          if neg then if n <=? 2 ^ 63 then Ok (- n) else Err ErrRange
          else if n <? 2 ^ 63 then Ok n else Err ErrRange
      end
  end.

Lemma bytes_of_string_app s t :
  bytes_of_string (s +:+ t) = bytes_of_string s ++ bytes_of_string t.
Proof. induction s as [|c s IH]; [done|]. simpl. by rewrite IH. Qed.

Lemma scan_uint_digits w : ∀ n acc rest, 0 ≤ n < 10 ^ Z.of_nat w →
  scan_uint (bytes_of_string (digits w n) ++ rest) acc =
  scan_uint rest (acc * 10 ^ Z.of_nat w + n).
Proof.
  induction w as [|w IH]; intros n acc rest Hn.
  { simpl in *. f_equal. lia. }
  rewrite Nat2Z.inj_succ, Z.pow_succ_r in * by lia.
  cbn [digits]. rewrite bytes_of_string_app, <- app_assoc, IH by (split; [apply Z.div_pos; lia|];
    apply Z.div_lt_upper_bound; lia).
  pose proof (Z.mod_pos_bound n 10 ltac:(lia)). cbn [bytes_of_string app scan_uint].
  rewrite byte_val_digit by lia. unfold between.
  rewrite !(proj2 (Z.leb_le _ _)) by lia. cbn [andb]. f_equal.
  pose proof (Z.div_mod n 10). lia.
Qed.

Lemma bytes_of_digits w : ∀ n, Forall (λ c, 48 ≤ c ≤ 57) (bytes_of_string (digits w n)).
Proof.
  induction w as [|w IH]; intros n; [constructor|].
  cbn [digits]. rewrite bytes_of_string_app. apply Forall_app. split; [apply IH|].
  pose proof (Z.mod_pos_bound n 10 ltac:(lia)). cbn [bytes_of_string].
  rewrite byte_val_digit by lia. constructor; [lia|constructor].
Qed.
Lemma length_bytes_of_string s : length (bytes_of_string s) = String.length s.
Proof. induction s as [|c s IH]; simpl; congruence. Qed.

(** Reading back a number written with [%0wd]. *)
Lemma ParseInt_pad w z : (1 ≤ w)%nat → 0 ≤ z < 10 ^ Z.of_nat w → z < 2 ^ 63 →
  ParseInt (fmt_pad w z) = Ok z.
Proof.
  intros Hw Hz Hmax. rewrite fmt_pad_fits by done. unfold ParseInt.
  pose proof (scan_uint_digits w z 0 [] Hz) as Hs. rewrite app_nil_r in Hs.
  pose proof (bytes_of_digits w z) as HF. pose proof (length_bytes_of_string (digits w z)) as Hl.
  rewrite digits_length in Hl.
  destruct (bytes_of_string (digits w z)) as [|c l]; [simpl in Hl; lia|].
  inversion_clear HF as [|? ? Hc]. unfold drop_sign, one_of. cbn [existsb].
  rewrite !(proj2 (Z.eqb_neq _ _)) by lia. cbn [orb]. rewrite Hs. cbn [scan_uint].
  rewrite (proj2 (Z.ltb_lt _ _)) by lia. f_equal; lia.
Qed.

Example ParseFloat_examples :
  ParseFloat "0.5" = Ok (f64_ratio false 1 2) ∧ ParseFloat "-1_0e-1" = Ok (f64_of_Z (-1)) ∧
  ParseFloat "0x1p4" = Ok (f64_of_Z 16) ∧ ParseFloat "+Inf" = Ok (S754_infinity false) ∧
  ParseFloat "1e309" = Err ErrRange ∧ ParseFloat "1e" = Err ErrSyntax ∧
  ParseFloat ".5." = Err ErrSyntax ∧ ParseFloat "" = Err ErrSyntax ∧
  ParseFloat "1e-400" = Ok (S754_zero false) ∧ ParseFloat "0x1" = Err ErrSyntax.
Proof. by vm_compute. Qed.
