(* ===== verification/Search.v ===== *)
(** * Search: the search queries ([domain/search/search.go])

    [NewSearchQuery] reads a command line: flags with a value, a command that
    starts with a slash, and search terms.  The theorem is the round trip: a
    line printed from items is read back into what the items say. *)

From Stdlib Require Import Ascii String.
From S2P Require Import Prelude Errors Env Text Strconv.

Record Query := MkQuery {
  q_RawInput : string; q_Terms : string; q_Filters : gmap string float64; q_RoomID : string;
  q_Limit : Z }.

Section Search.
Context {UT : UnicodeTables}.

Definition set_flag (q : Query) (key val : string) : Query :=
  if String.eqb key "room"
  then MkQuery (q_RawInput q) (q_Terms q) (q_Filters q) val (q_Limit q)
  else
    match ParseFloat val with
    | Ok score =>
        MkQuery (q_RawInput q) (q_Terms q) (<[key := score]> (q_Filters q)) (q_RoomID q) (q_Limit q)
    | Err _ => q
    end.

(** The loop over the parts: a flag takes the next part with it. *)
Fixpoint query_loop (parts : list string) (q : Query) (textTerms : list string)
  : Query * list string :=
  match parts with
  | [] => (q, textTerms)
  | part :: rest =>
      let no_flag (_ : unit) :=
        query_loop rest q (if String.prefix "/" part then textTerms else textTerms ++ [part]) in
      if String.prefix "--" part then
        match rest with
        | val :: rest' => query_loop rest' (set_flag q (TrimPrefix part "--") val) textTerms
        | [] => no_flag tt
        end
      else no_flag tt
  end.

Definition NewSearchQuery (input : string) : Query :=
  let query := MkQuery input "" ∅ "" 10 in
  let '(query, textTerms) := query_loop (Fields input) query [] in
  MkQuery (q_RawInput query) (Join textTerms " ") (q_Filters query) (q_RoomID query)
    (q_Limit query).

(** ** Printing a command line

    A word is a non-empty sequence of characters that are not spaces. *)

Inductive item :=
| Command (name : list rune)
| Term (word : list rune)
| Flag (key value : list rune).

Definition plain (w : list rune) : Prop :=
  w ≠ [] ∧ Forall (λ r, valid_rune r = true ∧ IsSpace r = false) w.

Definition slash : rune := 47.
Definition dash : rune := 45.

(** The words an item is printed as. *)
Definition item_words (i : item) : list (list rune) :=
  match i with
  | Command name => [slash :: name]
  | Term w => [w]
  | Flag key value => [dash :: dash :: key; value]
  end.

Definition item_ok (i : item) : Prop :=
  Forall plain (item_words i) ∧
  match i with
  | Term w => ∀ r rest, w = r :: rest → r ≠ slash ∧ (r = dash → head rest ≠ Some dash)
  | _ => True
  end.

Definition print_words (ws : list (list rune)) : string := Join (of_runes <$> ws) " ".
Definition print_items (l : list item) : string := print_words (l ≫= item_words).

Definition terms_of (l : list item) : list string :=
  l ≫= λ i, match i with Term w => [of_runes w] | _ => [] end.
Definition flags_of (l : list item) : list (string * string) :=
  l ≫= λ i, match i with Flag k v => [(of_runes k, of_runes v)] | _ => [] end.

(** ** Reading it back *)

Lemma of_runes_cons r rs : of_runes (r :: rs) = encode_rune r +:+ of_runes rs.
Proof. done. Qed.

Lemma fields_word w s cur :
  Forall (λ r, valid_rune r = true ∧ IsSpace r = false) w →
  fields_aux (chunks (of_runes w +:+ s)) cur = fields_aux (chunks s) (cur +:+ of_runes w).
Proof.
  intros Hw. revert cur. induction Hw as [|r w [Hv Hsp] _ IH]; intros cur.
  - change (of_runes []) with "". by rewrite str_app_nil_r.
  - rewrite of_runes_cons, <- str_app_assoc, chunks_encode_rune by done. simpl.
    by rewrite Hsp, IH, str_app_assoc.
Qed.

Lemma encode_rune_nonempty r : encode_rune r ≠ "".
Proof. unfold encode_rune. repeat case_match; done. Qed.

Lemma of_runes_nonempty w : w ≠ [] → String.eqb (of_runes w) "" = false.
Proof.
  destruct w as [|r w]; [done|]. intros _. rewrite of_runes_cons. apply String.eqb_neq.
  pose proof (encode_rune_nonempty r). by destruct (encode_rune r).
Qed.

Lemma fields_space s cur : cur ≠ "" → fields_aux (chunks (String " " s)) cur =
  cur :: fields_aux (chunks s) "".
Proof.
  intros Hc. simpl. change (IsSpace (byte_val " ")) with true. cbn match.
  by rewrite (proj2 (String.eqb_neq cur "") Hc).
Qed.

Lemma concat_cons a b l :
  String.concat " " (a :: b :: l) = a +:+ String " " (String.concat " " (b :: l)).
Proof. done. Qed.

Lemma Fields_print ws : Forall plain ws → Fields (print_words ws) = of_runes <$> ws.
Proof.
  unfold Fields, print_words, Join.
  induction 1 as [|w ws [Hne Hw] Hws IH]; [done|].
  destruct ws as [|w' ws].
  - simpl. pose proof (fields_word w "" "" Hw) as E. rewrite str_app_nil_r in E. rewrite E.
    simpl. by rewrite of_runes_nonempty.
  - rewrite !fmap_cons in *. rewrite concat_cons, fields_word by done.
    change ("" +:+ of_runes w) with (of_runes w). rewrite fields_space.
    + by rewrite IH.
    + intros E. pose proof (of_runes_nonempty w Hne) as Hn. by rewrite E in Hn.
Qed.

(** The first characters decide what a word is. *)
Lemma encode_rune_head r : valid_rune r = true → ∃ c s, encode_rune r = String c s ∧
  (r < 128 → byte_val c = r ∧ s = "") ∧ (128 ≤ r → 128 ≤ byte_val c).
Proof.
  intros Hv. unfold encode_rune. rewrite Hv. unfold valid_rune in Hv.
  rewrite orb_true_iff, !between_true in Hv.
  assert (0 ≤ r / 64 < 64 * 64 * 64 ∧ 0 ≤ r / 4096 ∧ 0 ≤ r / 262144) by
    (split_and!; (apply Z.div_pos || apply Z.div_lt_upper_bound); lia).
  repeat case_match; z_bool; (do 2 eexists; split; [done|]); split; intros ?; try lia.
  - by rewrite byte_val_of by lia.
  - pose proof (Z.div_lt_upper_bound r 64 32). rewrite byte_val_of; lia.
  - pose proof (Z.div_lt_upper_bound r 4096 16). rewrite byte_val_of; lia.
  - pose proof (Z.div_lt_upper_bound r 262144 16). rewrite byte_val_of; lia.
Qed.

Lemma prefix_nil s : String.prefix "" s = true.
Proof. by destruct s. Qed.

Lemma prefix_rune c p w : byte_val c < 128 → Forall (λ r, valid_rune r = true) w →
  String.prefix (String c p) (of_runes w) =
  match w with r :: w' => (r =? byte_val c) && String.prefix p (of_runes w') | [] => false end.
Proof.
  intros Hc Hw. destruct w as [|r w']; [done|]. apply Forall_cons in Hw as [Hv Hw].
  rewrite of_runes_cons. destruct (encode_rune_head r Hv) as (c' & s & -> & Hlo & Hhi).
  cbn [String.append String.prefix].
  destruct (ascii_dec c c') as [<-|Hne].
  - destruct (Z.lt_ge_cases r 128) as [Hr|Hr]; [|specialize (Hhi Hr); lia].
    destruct (Hlo Hr) as [E ->]. by rewrite E, Z.eqb_refl.
  - destruct (Z.eqb_spec r (byte_val c)) as [->|]; [|done].
    destruct (Hlo Hc) as [E ->]. destruct Hne. rewrite <- (byte_of_val c), <- E.
    apply byte_of_val.
Qed.

Lemma plain_valid w : plain w → Forall (λ r, valid_rune r = true) w.
Proof. intros [_ Hw]. eapply Forall_impl; [exact Hw|]. by intros r []. Qed.

Lemma loop_items l : Forall item_ok l → ∀ q terms,
  query_loop (of_runes <$> (l ≫= item_words)) q terms =
  (fold_left (λ q '(k, v), set_flag q k v) (flags_of l) q, terms ++ terms_of l).
Proof.
  induction 1 as [|i l [Hp Hi] Hl IH]; intros q terms; [by rewrite app_nil_r|].
  rewrite bind_cons, fmap_app. destruct i as [name|w|key value]; cbn [item_words fmap list_fmap app] in *.
  - apply Forall_singleton, plain_valid in Hp. cbn [query_loop].
    rewrite !prefix_rune by done. simpl. by rewrite prefix_nil, IH.
  - pose proof (proj1 (Forall_singleton plain w) Hp) as [Hne _].
    pose proof (plain_valid w (proj1 (Forall_singleton plain w) Hp)) as Hw. cbn [query_loop].
    destruct w as [|r w]; [done|].
    destruct (Hi r w eq_refl) as [Hs Hd].
    assert (String.prefix "--" (of_runes (r :: w)) = false) as ->.
    { rewrite prefix_rune by done. destruct (Z.eqb_spec r (byte_val "-")) as [->|]; [|done].
      apply Forall_cons in Hw as [_ Hw]. rewrite prefix_rune by done.
      destruct w as [|r' w]; [done|]. destruct (Z.eqb_spec r' (byte_val "-")) as [->|]; [|done].
      by destruct Hd. }
    rewrite prefix_rune by done. destruct (Z.eqb_spec r (byte_val "/")); [done|]. cbn [andb].
    by rewrite IH, <- app_assoc.
  - apply Forall_cons in Hp as [Hk _]. apply plain_valid in Hk as Hkv. cbn [query_loop].
    apply Forall_cons in Hkv as [_ Hkv'].
    assert (of_runes (dash :: dash :: key) = "--" +:+ of_runes key) as -> by done.
    rewrite (prefix_app "--"). unfold TrimPrefix. rewrite (prefix_app "--").
    rewrite (str_drop_app "--"). by rewrite IH.
Qed.

(** What the flags set: the last room, and the last number given for a key. *)
Definition number_for (k : string) (f : string * string) : option float64 :=
  if bool_decide (f.1 = k ∧ k ≠ "room")
  then match ParseFloat f.2 with Ok x => Some x | Err _ => None end
  else None.

Lemma set_flags_spec fs : ∀ q,
  let q' := fold_left (λ q '(k, v), set_flag q k v) fs q in
  q_RawInput q' = q_RawInput q ∧ q_Limit q' = q_Limit q ∧
  q_RoomID q' = default (q_RoomID q) (last (List.filter (λ f, String.eqb f.1 "room") fs).*2) ∧
  ∀ k, q_Filters q' !! k =
    match last (omap (number_for k) fs) with Some x => Some x | None => q_Filters q !! k end.
Proof.
  induction fs as [|[key v] fs IH]; intros q; [done|]. cbn [fold_left].
  destruct (IH (set_flag q key v)) as (-> & -> & -> & Hf). cbv zeta.
  assert (q_RawInput (set_flag q key v) = q_RawInput q ∧ q_Limit (set_flag q key v) = q_Limit q)
    as [-> ->] by (unfold set_flag; repeat case_match; done).
  split_and!; [done..| |].
  - cbn [List.filter fst]. unfold set_flag. destruct (String.eqb_spec key "room") as [->|].
    + rewrite fmap_cons, last_cons. by destruct (last _).
    + by case_match.
  - intros k. rewrite Hf. cbn [omap list_omap]. unfold number_for at 2, set_flag. cbn [fst snd].
    destruct (String.eqb_spec key "room") as [->|Hr].
    + rewrite bool_decide_false by naive_solver. done.
    + case_bool_decide as Hk.
      * destruct Hk as [-> _]. destruct (ParseFloat v) as [x|e]; [|done].
        rewrite last_cons. destruct (last (omap _ fs)); [done|]. apply lookup_insert_eq.
      * destruct (last (omap _ fs)); [done|]. destruct (ParseFloat v); [|done]. simpl.
        apply lookup_insert_ne. naive_solver.
Qed.

(** C37. Reading a printed command line: the terms are the words that are neither
    commands nor flags, in order; the room is the last one given; a filter has
    the last value given for its key that is a number, other values being
    dropped; the limit is the default. *)
Theorem NewSearchQuery_print l : Forall item_ok l →
  let q := NewSearchQuery (print_items l) in
  q_RawInput q = print_items l ∧ q_Terms q = Join (terms_of l) " " ∧ q_Limit q = 10 ∧
  q_RoomID q = default "" (last (List.filter (λ f, String.eqb f.1 "room") (flags_of l)).*2) ∧
  ∀ k, q_Filters q !! k = last (omap (number_for k) (flags_of l)).
Proof.
  intros Hl.
  assert (Fields (print_items l) = of_runes <$> (l ≫= item_words)) as Hw.
  { apply Fields_print, Forall_bind. eapply Forall_impl; [exact Hl|]. by intros i []. }
  unfold NewSearchQuery. rewrite Hw, loop_items by done.
  destruct (set_flags_spec (flags_of l) (MkQuery (print_items l) "" ∅ "" 10))
    as (HR & HL & Hr & Hf).
  split_and!; [exact HR|done|exact HL|exact Hr|]. intros k. etrans; [apply Hf|].
  by destruct (last (omap _ _)).
Qed.

(** A flag at the end of the line, with no value, is taken as a search term. *)
Example trailing_flag_is_a_term :
  q_Terms (NewSearchQuery "/find invoice --business") = "invoice --business".
Proof. by vm_compute. Qed.

End Search.

(** [/find café --business 0.5 --room 12 --business high] *)
Definition demo_line : list item :=
  [Command [102; 105; 110; 100]; Term [99; 97; 102; 233];
   Flag [98; 117; 115; 105; 110; 101; 115; 115] [48; 46; 53]; Flag [114; 111; 111; 109] [49; 50];
   Flag [98; 117; 115; 105; 110; 101; 115; 115] [104; 105; 103; 104]].

Lemma demo_line_ok : Forall (@item_ok Latin1Tables) demo_line.
Proof. repeat constructor; try done. all: naive_solver. Qed.

Lemma demo_line_flags :
  last (List.filter (λ f, String.eqb f.1 "room") (flags_of demo_line)).*2 = Some "12" ∧
  last (omap (number_for "business") (flags_of demo_line)) = Some (f64_ratio false 1 2).
Proof. by vm_compute. Qed.

Lemma NewSearchQuery_print_witness :
  q_RoomID (@NewSearchQuery Latin1Tables (print_items demo_line)) = "12" ∧
  q_Filters (@NewSearchQuery Latin1Tables (print_items demo_line)) !! "business" =
    Some (f64_ratio false 1 2).
Proof.
  destruct (@NewSearchQuery_print Latin1Tables demo_line demo_line_ok) as (_ & _ & _ & Hr & Hf).
  split.
  - etrans; [exact Hr|]. by rewrite (proj1 demo_line_flags).
  - etrans; [apply Hf|]. apply demo_line_flags.
Defined.
