(* ===== verification/Vectorize.v ===== *)
(** * Vectorize: the features of a message ([ai/vectorize.go])

    A message is lowered, cut into words, and every word is hashed into one
    component of a vector of zeros and ones.  [None] is a panic: a negative
    size, or a division by a size of zero.  The specification of a component is
    [Features_lookup]: it is one exactly when some word hashes to it. *)

From Stdlib Require Import Ascii String SpecFloat.
From S2P Require Import Prelude Errors Env Text.

(** ** [hash/fnv]: FNV-1a on 32 bits *)

Definition fnv_offset32 : Z := 2166136261.
Definition fnv_prime32 : Z := 16777619.
Definition fnv_step (h : Z) (c : ascii) : Z := wrap_u 32 (Z.lxor h (byte_val c) * fnv_prime32).
Fixpoint fnv_write (h : Z) (s : string) : Z :=
  match s with EmptyString => h | String c s => fnv_write (fnv_step h c) s end.
Definition fnv32a (s : string) : Z := fnv_write fnv_offset32 s.

Lemma fnv_write_range s : ∀ h, 0 ≤ h < 2 ^ 32 → 0 ≤ fnv_write h s < 2 ^ 32.
Proof.
  induction s as [|c s IH]; simpl; [done|]. intros h _. apply IH, wrap_u_range. lia.
Qed.

Lemma fnv32a_range s : 0 ≤ fnv32a s < 2 ^ 32.
Proof. apply fnv_write_range. unfold fnv_offset32. lia. Qed.

(** ** The vectorizer *)

Definition f64_one : float64 := f64_of_Z 1.

Record Vectorizer := NewVectorizer { vz_size : Z }.

(** The component of a word: [int(h.Sum32()) % v.size]; the remainder of Go
    truncates, and the hash, a 32-bit value, is not negative. *)
Definition bucket (size : Z) (w : string) : Z := Z.rem (fnv32a w) size.

Fixpoint mark (size : Z) (words : list string) (vec : list float64) : option (list float64) :=
  match words with
  | [] => Some vec
  | w :: words =>
      if size =? 0 then None
      else
        let idx := bucket size w in
        if (0 <=? idx) && (idx <? Z.of_nat (length vec))
        then mark size words (<[Z.to_nat idx := f64_one]> vec)
        else None
  end.

Section Features.
Context {UT : UnicodeTables}.

Definition words_of (text : string) : list string := Fields (strings_ToLower text).

Definition Features (v : Vectorizer) (text : string) : option (list float64) :=
  if vz_size v <? 0 then None
  else mark (vz_size v) (words_of text) (replicate (Z.to_nat (vz_size v)) f64_zero).

(** ** What the vector holds *)

Lemma bucket_range size w : 0 < size → 0 ≤ bucket size w < size.
Proof.
  intros Hs. unfold bucket. pose proof (fnv32a_range w).
  rewrite Z.rem_mod_nonneg by lia. apply Z.mod_pos_bound. lia.
Qed.

Lemma mark_spec size words : 0 < size → ∀ vec, Z.of_nat (length vec) = size →
  ∃ vec', mark size words vec = Some vec' ∧ length vec' = length vec ∧
    ∀ i, vec' !! i = if bool_decide (Z.of_nat i ∈ bucket size <$> words) then Some f64_one
                     else vec !! i.
Proof.
  intros Hs. induction words as [|w words IH]; intros vec Hl; cbn [mark].
  - exists vec. split_and!; [done..|]. intros i. by rewrite bool_decide_false by apply not_elem_of_nil.
  - pose proof (bucket_range size w Hs) as Hb.
    rewrite (proj2 (Z.eqb_neq _ _)), (proj2 (Z.leb_le _ _)), (proj2 (Z.ltb_lt _ _)) by lia.
    cbn [andb].
    destruct (IH (<[Z.to_nat (bucket size w) := f64_one]> vec)) as (vec' & Hm & Hl' & Hv);
      [by rewrite length_insert|].
    exists vec'. split_and!; [done|by rewrite Hl', length_insert|]. intros i.
    rewrite Hv, fmap_cons. destruct (decide (Z.of_nat i ∈ bucket size <$> words)) as [Hi|Hi].
    + by rewrite !bool_decide_true by set_solver.
    + rewrite (bool_decide_false _ Hi). case_bool_decide as Hi'.
      * apply elem_of_cons in Hi' as [Hi'|]; [|done].
        replace (Z.to_nat (bucket size w)) with i by lia. apply list_lookup_insert_eq. lia.
      * rewrite list_lookup_insert_ne; [done|]. intros <-. apply Hi'. rewrite Z2Nat.id by lia.
        set_solver.
Qed.

(** Every message has a vector, of the size of the vectorizer, and a component
    is one exactly when a word of the message hashes to it. *)
Lemma Features_lookup v text : 0 < vz_size v → ∃ vec,
  Features v text = Some vec ∧ Z.of_nat (length vec) = vz_size v ∧
  ∀ i, (Z.of_nat i < vz_size v) →
    vec !! i = Some (if bool_decide (Z.of_nat i ∈ bucket (vz_size v) <$> words_of text)
                     then f64_one else f64_zero).
Proof.
  intros Hs. unfold Features. rewrite (proj2 (Z.ltb_ge _ _)) by lia.
  destruct (mark_spec (vz_size v) (words_of text) Hs
              (replicate (Z.to_nat (vz_size v)) f64_zero)) as (vec & -> & Hl & Hv);
    [rewrite length_replicate; lia|].
  rewrite length_replicate in Hl.
  exists vec. split_and!; [done|lia|]. intros i Hi. rewrite Hv.
  case_bool_decide; [done|]. apply lookup_replicate_2. lia.
Qed.
End Features.

(** The hash of the empty input and of the letter [a], from the definition of
    FNV-1a. *)
Example fnv32a_vectors : fnv32a "" = 2166136261 ∧ fnv32a "a" = 3826002220.
Proof. by vm_compute. Qed.
