(* ===== verification/Trees.v ===== *)
(** * Trees: decision trees over a feature vector

    The shape of the generated code of [ai/model.go]: nested conditionals
    [if input[i] < t { ... } else { ... }] that end in the assignment of a
    constant.  A tree is data; [tree_eval] is the code it stands for.  The
    constants are written as in the source, and converted to [float64] where
    they are used. *)

From Stdlib Require Import SpecFloat Number.
From S2P Require Import Prelude Errors Env.

(** ** Constants

    A decimal constant is a numerator and a number of decimals. *)

Record dec := Dec { d_num : Z; d_scale : N }.

Definition dec_of_number (n : Number.number) : option dec :=
  match n with
  | Number.Decimal (Decimal.Decimal i f) =>
      Some (Dec (Z.of_int (Decimal.app_int i f)) (N.of_nat (Decimal.nb_digits f)))
  | _ => None
  end.
Definition number_of_dec (_ : dec) : option Number.number := None.

Declare Scope dec_scope.
Delimit Scope dec_scope with dec.
Bind Scope dec_scope with dec.
Number Notation dec dec_of_number number_of_dec : dec_scope.

(** The [float64] nearest to a constant: the quotient of two integers, rounded
    once, when both are representable, which [exact_dec] tests. *)
Definition f64_of_dec (d : dec) : float64 :=
  f64_div (f64_of_Z (d_num d)) (f64_of_Z (10 ^ Z.of_N (d_scale d))).

Definition exact_dec (d : dec) : bool :=
  (Z.abs (d_num d) <? 2 ^ 53) && (d_scale d <=? 22)%N.

(** ** Trees *)

Inductive tree :=
| Leaf (v : dec)
| Split (i : N) (t : dec) (low high : tree).
#[global] Arguments Leaf v%_dec.
#[global] Arguments Split i%_N t%_dec low high.

(** [None] is the panic of an index out of range. *)
Fixpoint tree_eval (input : list float64) (t : tree) : option float64 :=
  match t with
  | Leaf v => Some (f64_of_dec v)
  | Split i c low high =>
      match input !! N.to_nat i with
      | None => None
      | Some x => if f64_ltb x (f64_of_dec c) then tree_eval input low else tree_eval input high
      end
  end.

(** Checks on the splits of a tree and on all its constants. *)
Fixpoint tree_splits (ok : N → dec → bool) (t : tree) : bool :=
  match t with
  | Leaf _ => true
  | Split i c low high => ok i c && tree_splits ok low && tree_splits ok high
  end.
Fixpoint tree_exact (t : tree) : bool :=
  match t with
  | Leaf v => exact_dec v
  | Split _ c low high => exact_dec c && tree_exact low && tree_exact high
  end.

Lemma tree_splits_Split ok i c low high : tree_splits ok (Split i c low high) = true →
  ok i c = true ∧ tree_splits ok low = true ∧ tree_splits ok high = true.
Proof. simpl. rewrite !andb_true_iff. tauto. Qed.

(** A tree whose indices are below the length of the input is evaluated. *)
Lemma tree_eval_total bound input t :
  (bound ≤ length input)%nat →
  tree_splits (λ i _, (i <? N.of_nat bound)%N) t = true → is_Some (tree_eval input t).
Proof.
  intros Hb. induction t as [v|i c low IHl high IHh]; cbn [tree_eval]; [done|].
  intros (Hi%N.ltb_lt & Hlow & Hhigh)%tree_splits_Split.
  destruct (input !! N.to_nat i) as [x|] eqn:Hx; [|apply lookup_ge_None in Hx; lia].
  destruct (f64_ltb _ _); auto.
Qed.

(** Two inputs that agree on the indices of a tree have the same value. *)
Lemma tree_eval_agree (seen : N → bool) input1 input2 t :
  (∀ i, seen i = true → input1 !! N.to_nat i = input2 !! N.to_nat i) →
  tree_splits (λ i _, seen i) t = true → tree_eval input1 t = tree_eval input2 t.
Proof.
  intros Hag. induction t as [v|i c low IHl high IHh]; cbn [tree_eval]; [done|].
  intros (Hi & Hlow & Hhigh)%tree_splits_Split. rewrite (Hag i Hi).
  destruct (input2 !! _) as [x|]; [|done]. destruct (f64_ltb _ _); auto.
Qed.

(** ** Splits that cannot be taken

    [prune keep t] drops the upper branch of the splits [keep] rejects. *)
Fixpoint prune (keep : N → dec → bool) (t : tree) : tree :=
  match t with
  | Leaf v => Leaf v
  | Split i c low high =>
      if keep i c then Split i c (prune keep low) (prune keep high) else prune keep low
  end.

Lemma prune_eval keep (low : dec → bool) input t :
  (∀ c i x, low c = true → input !! i = Some x → f64_ltb x (f64_of_dec c) = true) →
  tree_splits (λ i c, keep i c || low c) t = true →
  is_Some (tree_eval input t) → tree_eval input (prune keep t) = tree_eval input t.
Proof.
  intros Hlow. induction t as [v|i c l IHl h IHh]; cbn [prune tree_eval]; [done|].
  intros (Hk & ? & ?)%tree_splits_Split.
  destruct (input !! N.to_nat i) as [x|] eqn:Hx; [|by intros []].
  intros Hs. destruct (keep i c).
  - cbn [tree_eval]. rewrite Hx. destruct (f64_ltb _ _); auto.
  - rewrite (Hlow c _ x Hk Hx) in Hs |- *. auto.
Qed.

(** The number of conditionals of a tree. *)
Fixpoint conditionals (t : tree) : Z :=
  match t with Leaf _ => 0 | Split _ _ low high => 1 + conditionals low + conditionals high end.
