(* ===== verification/Forest1.v ===== *)
(** * Forest1: trees 0 to 49 of the decision forest ([ai/model.go])

    The variables [var0] to [var49] of [PredictToxicity], one tree each, with
    the indices, thresholds and constants of the source.  The sub-tree [varK_n] is the
    conditional of line [n] of the source. *)

From S2P Require Import Prelude Trees.

Definition var0_452 : tree :=
  Split 288 1.0 (Split 979 1.0 (Split 435 1.0 (Split 540 1.0 (Leaf 0.05) (Leaf (-0.045454547)))
  (Leaf (-0.06666667))) (Split 670 1.0 (Leaf 0.06363636) (Leaf 0.0))) (Leaf (-0.0998005)).

Definition var0_420 : tree :=
  Split 300 1.0 (Split 36 1.0 (Split 819 1.0 (Split 156 1.0 (Split 800 1.0 (Split 670 1.0 (Leaf
  (-0.042857144)) (Leaf (-0.011111111))) (Leaf 0.0)) (Leaf 0.020000001)) (Leaf 0.033333335)) (Leaf
  0.042857144)) (Leaf 0.07333334).

Definition var0_475 : tree :=
  Split 812 1.0 (Split 540 1.0 (Split 14 1.0 (Split 141 1.0 (Split 789 1.0 (Leaf (-0.09970157))
  (Leaf (-0.025))) (Leaf 0.0)) (Leaf 0.0)) (Split 36 1.0 (Leaf 0.0) (Leaf (-0.020000001)))) (Leaf
  0.033333335).

Definition var0_383 : tree :=
  Split 355 1.0 (Split 92 1.0 (Split 255 1.0 (Split 404 1.0 (Split 5 1.0 (Leaf 0.08539326) (Leaf
  (-0.011111111))) (Leaf (-0.025))) (Split 607 1.0 (Split 617 1.0 (Leaf 0.05294118) (Leaf 0.0))
  (Leaf (-0.00909091)))) (Leaf (-0.025))) (Split 300 1.0 (Leaf (-0.040000003)) (Leaf 0.05)).

Definition var0_190 : tree :=
  Split 870 1.0 (Split 979 1.0 (Split 819 1.0 (Split 986 1.0 (Split 67 1.0 (Split 72 1.0 (Split 419
  1.0 (Split 814 1.0 (Leaf (-0.08471338)) (Leaf (-0.00909091))) (Leaf 0.011111111)) (Leaf
  0.00909091)) (Leaf 0.025)) (Leaf 0.033333335)) (Leaf 0.03846154)) (Leaf 0.046666667)) (Split 435
  1.0 (Split 77 1.0 (Leaf 0.014285715) (Leaf 0.05555556)) (Leaf 0.0)).

Definition var0_233 : tree :=
  Split 979 1.0 (Split 99 1.0 (Split 799 1.0 (Split 780 1.0 (Split 55 1.0 (Split 330 1.0 (Split 157
  1.0 (Split 709 1.0 (Split 986 1.0 (Leaf (-0.071428575)) (Leaf 0.014285715)) (Split 789 1.0 (Leaf
  0.0625) (Leaf (-0.011111111)))) (Leaf 0.05555556)) (Split 479 1.0 (Split 104 1.0 (Leaf
  0.081818186) (Leaf 0.011111111)) (Leaf 0.0))) (Split 36 1.0 (Leaf 0.07894737) (Split 104 1.0
  (Leaf 0.036842104) (Leaf 0.0)))) (Split 517 1.0 (Split 104 1.0 (Split 300 2.0 (Split 485 1.0
  (Split 655 1.0 (Leaf 0.09325843) (Leaf 0.03846154)) (Leaf 0.0)) (Leaf 0.0)) (Split 8 1.0 (Split
  300 1.0 (Leaf (-0.033333335)) (Leaf 0.00909091)) (Leaf 0.05))) (Leaf (-0.045454547)))) (Split 73
  1.0 (Split 736 1.0 (Split 36 1.0 (Split 138 1.0 (Leaf 0.08217822) (Leaf 0.011111111)) (Split 742
  1.0 (Split 976 1.0 (Split 670 1.0 (Leaf 0.07037037) (Leaf 0.014285715)) (Split 16 1.0 (Leaf
  (-0.025)) (Leaf 0.0))) (Leaf (-0.033333335)))) (Leaf (-0.05))) (Leaf (-0.05)))) (Split 479 1.0
  (Split 158 1.0 (Split 924 1.0 (Split 65 1.0 (Split 562 1.0 (Split 971 1.0 (Split 670 2.0 (Leaf
  0.08742138) (Leaf 0.011111111)) (Leaf 0.0)) (Leaf (-0.025))) (Split 435 1.0 (Leaf (-0.033333335))
  (Leaf 0.033333335))) (Leaf (-0.033333335))) (Leaf (-0.02727273))) (Leaf (-0.05)))) (Split 740 1.0
  (Split 912 1.0 (Split 43 1.0 var0_383 (Leaf (-0.020000001))) var0_420) (Leaf (-0.060000002))).

Definition var0 : tree :=
  Split 968 1.0 (Split 430 1.0 (Split 540 1.0 (Split 517 1.0 (Split 178 1.0 (Split 65 1.0 (Split 73
  1.0 (Split 479 1.0 (Split 435 1.0 (Split 473 1.0 (Split 498 1.0 (Split 670 1.0 (Leaf 0.08694696)
  (Leaf 0.017845118)) (Split 979 1.0 (Leaf (-0.031707317)) (Leaf 0.080000006))) (Split 979 1.0
  (Split 819 1.0 (Leaf (-0.062962964)) (Leaf 0.060000002)) (Leaf 0.05714286))) (Split 979 1.0
  (Split 99 1.0 (Split 780 1.0 (Leaf (-0.013643178)) (Leaf 0.08579882)) (Split 944 1.0 (Leaf
  0.090374336) (Leaf (-0.025)))) (Split 149 1.0 (Split 980 1.0 (Leaf 0.08902743) (Leaf
  0.007692308)) (Leaf (-0.011111111))))) (Split 979 1.0 (Split 780 1.0 (Split 950 1.0 (Split 156
  1.0 (Leaf (-0.092307694)) (Leaf (-0.020000001))) (Leaf 0.011111111)) (Leaf 0.025)) (Leaf
  0.05555556))) (Split 979 1.0 (Split 267 1.0 (Split 653 1.0 (Split 780 1.0 (Split 507 1.0 (Leaf
  (-0.089393936)) (Leaf (-0.025))) (Leaf (-0.011111111))) (Leaf 0.0)) (Split 300 1.0 (Leaf
  (-0.033333335)) (Leaf 0.025))) (Leaf 0.05555556))) (Split 979 1.0 (Split 14 1.0 (Split 799 1.0
  (Split 93 1.0 (Split 986 1.0 (Split 99 1.0 (Leaf (-0.089573465)) (Leaf (-0.00909091))) (Leaf
  0.025)) (Leaf 0.033333335)) (Split 300 1.0 (Leaf 0.011111111) (Leaf 0.05))) (Split 452 1.0 (Leaf
  0.060000002) (Leaf 0.011111111))) (Leaf 0.08857143))) (Split 979 1.0 (Split 306 1.0 (Split 99 1.0
  (Split 209 1.0 (Split 819 1.0 (Split 542 1.0 (Split 701 1.0 (Leaf (-0.093220346)) (Leaf
  (-0.025))) (Leaf (-0.025))) (Leaf 0.0)) (Leaf 0.0)) (Split 345 1.0 (Leaf 0.00909091) (Leaf
  (-0.05)))) (Leaf 0.0)) (Split 300 1.0 (Leaf 0.020000001) (Leaf 0.06666667)))) var0_190) var0_233)
  var0_452) var0_475.

Definition var1_651 : tree :=
  Split 986 1.0 (Split 72 1.0 (Split 694 1.0 (Split 419 1.0 (Split 814 1.0 (Leaf (-0.0806612))
  (Leaf (-0.0088017685))) (Leaf 0.010802657)) (Leaf 0.012864095)) (Leaf 0.0088017685)) (Leaf
  0.032228287).

Definition var1_922 : tree :=
  Split 288 1.0 (Split 979 1.0 (Split 435 1.0 (Split 540 1.0 (Leaf 0.048353825) (Leaf
  (-0.044022974))) (Leaf (-0.06449301))) (Split 670 1.0 (Leaf 0.061651953) (Leaf 0.0))) (Leaf
  (-0.09506041)).

Definition var1_945 : tree :=
  Split 812 1.0 (Split 540 1.0 (Split 14 1.0 (Split 141 1.0 (Split 300 1.0 (Split 435 1.0 (Leaf
  (-0.09501305)) (Leaf (-0.030608324))) (Leaf (-0.03101543))) (Leaf 0.0)) (Leaf 0.0)) (Split 36 1.0
  (Leaf 0.0) (Leaf (-0.01940119)))) (Leaf 0.03241249).

Definition var1_846 : tree :=
  Split 740 1.0 (Split 912 1.0 (Split 43 1.0 (Split 355 1.0 (Split 5 1.0 (Split 255 1.0 (Split 49
  1.0 (Split 248 1.0 (Leaf 0.08196468) (Leaf 0.008749366)) (Split 435 1.0 (Leaf 0.0343466) (Leaf
  (-0.0020104037)))) (Split 607 1.0 (Split 452 1.0 (Leaf 0.012778573) (Leaf 0.06245332)) (Leaf
  (-0.0088017685)))) (Leaf (-0.010802662))) (Split 435 1.0 (Leaf (-0.011002965)) (Leaf
  0.011225306))) (Leaf (-0.01940119))) (Split 300 1.0 (Split 679 1.0 (Split 819 1.0 (Split 574 1.0
  (Split 156 1.0 (Split 670 1.0 (Leaf (-0.04281433)) (Leaf (-0.010802662))) (Leaf 0.010556157))
  (Leaf 0.03215124)) (Leaf 0.038959686)) (Leaf 0.055215456)) (Leaf 0.07023875))) (Leaf
  (-0.05823196)).

Definition var1_691 : tree :=
  Split 979 1.0 (Split 99 1.0 (Split 799 1.0 (Split 780 1.0 (Split 55 1.0 (Split 330 1.0 (Split 157
  1.0 (Split 709 1.0 (Split 986 1.0 (Leaf (-0.06795502)) (Leaf 0.013653685)) (Split 976 1.0 (Leaf
  0.0608807) (Leaf (-0.012032983)))) (Leaf 0.053427666)) (Split 479 1.0 (Split 104 1.0 (Leaf
  0.07834023) (Leaf 0.010802657)) (Leaf 0.0))) (Split 36 1.0 (Leaf 0.07538802) (Split 104 1.0 (Leaf
  0.035397463) (Leaf 0.0)))) (Split 517 1.0 (Split 104 1.0 (Split 300 2.0 (Split 485 1.0 (Split 655
  1.0 (Leaf 0.088992834) (Leaf 0.037139844)) (Leaf 0.0)) (Leaf 0.0)) (Split 435 1.0 (Leaf
  0.027195388) (Leaf (-0.007996455)))) (Leaf (-0.044022974)))) (Split 36 1.0 (Split 529 1.0 (Split
  104 1.0 (Split 284 1.0 (Split 776 1.0 (Leaf 0.08392718) (Leaf 0.01821314)) (Leaf 0.00957151))
  (Split 300 1.0 (Leaf (-0.008979436)) (Leaf 0.05828593))) (Leaf (-0.011932906))) (Split 452 1.0
  (Split 141 1.0 (Split 300 1.0 (Split 156 1.0 (Leaf 0.0060526137) (Leaf (-0.009664997))) (Leaf
  0.037145883)) (Leaf (-0.03348584))) (Split 670 1.0 (Leaf 0.07113135) (Leaf 0.0109329745)))))
  (Split 158 1.0 (Split 924 1.0 (Split 65 1.0 (Split 300 2.0 (Split 540 3.0 (Split 112 1.0 (Split
  178 1.0 (Leaf 0.08156575) (Leaf 0.018155543)) (Leaf 0.017398944)) (Leaf 0.015125751)) (Leaf
  (-0.0014986075))) (Split 435 1.0 (Leaf (-0.032412495)) (Leaf 0.03241249))) (Leaf (-0.032412495)))
  (Leaf (-0.026408136)))) var1_846.

Definition var1 : tree :=
  Split 968 1.0 (Split 430 1.0 (Split 540 1.0 (Split 517 1.0 (Split 178 1.0 (Split 65 1.0 (Split 73
  1.0 (Split 479 1.0 (Split 833 1.0 (Split 156 1.0 (Split 365 1.0 (Split 979 1.0 (Leaf 0.013082112)
  (Leaf 0.08070823)) (Split 789 1.0 (Leaf 0.095452) (Leaf (-0.013008128)))) (Split 473 1.0 (Split
  435 1.0 (Leaf 0.09054803) (Leaf 0.052042075)) (Split 678 1.0 (Leaf (-0.013040505)) (Leaf
  (-0.04833707))))) (Split 300 1.0 (Leaf 0.09530133) (Split 36 1.0 (Split 435 1.0 (Leaf
  0.0063337605) (Leaf 0.019407054)) (Leaf (-0.011195512))))) (Split 979 1.0 (Split 950 1.0 (Split
  156 1.0 (Leaf (-0.08297677)) (Leaf (-0.019268114))) (Leaf 0.010802657)) (Leaf 0.0540359))) (Split
  979 1.0 (Split 267 1.0 (Split 653 1.0 (Split 780 1.0 (Leaf (-0.08415296)) (Leaf (-0.010802662)))
  (Leaf 0.0)) (Leaf (-0.007437089))) (Leaf 0.0540359))) (Split 979 1.0 (Split 14 1.0 (Split 799 1.0
  (Split 93 1.0 (Split 55 1.0 (Split 20 1.0 (Leaf (-0.085442044)) (Leaf (-0.01370118))) (Leaf
  0.012523236)) (Leaf 0.03241249)) (Leaf 0.037486445)) (Split 452 1.0 (Leaf 0.05823196) (Leaf
  0.010802657))) (Leaf 0.08479866))) (Split 979 1.0 (Split 306 1.0 (Split 99 1.0 (Split 209 1.0
  (Split 819 1.0 (Leaf (-0.0871191)) (Leaf 0.0)) (Leaf 0.0)) (Leaf (-0.01954904))) (Leaf 0.0))
  (Split 300 1.0 (Leaf 0.01940118) (Leaf 0.06449301)))) (Split 870 1.0 (Split 979 1.0 (Split 819
  1.0 var1_651 (Leaf 0.037139844)) (Leaf 0.04497382)) (Split 435 1.0 (Split 77 1.0 (Leaf
  0.013776018) (Leaf 0.0540359)) (Leaf 0.0)))) var1_691) var1_922) var1_945.

Definition var2_1293 : tree :=
  Split 300 1.0 (Split 679 1.0 (Split 819 1.0 (Split 574 1.0 (Split 435 1.0 (Leaf (-0.039354626))
  (Leaf 0.0008652743)) (Leaf 0.031275157)) (Leaf 0.03781561)) (Leaf 0.053715598)) (Leaf 0.06742263).

Definition var2_1384 : tree :=
  Split 288 1.0 (Split 979 1.0 (Split 435 1.0 (Split 540 1.0 (Leaf 0.046799514) (Leaf
  (-0.0426637))) (Leaf (-0.062479563))) (Split 670 1.0 (Leaf 0.059804082) (Leaf 0.0))) (Leaf
  (-0.090963885)).

Definition var2_1407 : tree :=
  Split 812 1.0 (Split 540 1.0 (Split 14 1.0 (Split 141 1.0 (Split 300 1.0 (Split 435 1.0 (Leaf
  (-0.09091334)) (Leaf (-0.029788781))) (Leaf (-0.030181294))) (Leaf 0.0)) (Leaf 0.0)) (Split 36
  1.0 (Leaf 0.0) (Leaf (-0.018822497)))) (Leaf 0.03152663).

Definition var2_1321 : tree :=
  Split 330 1.0 (Split 870 1.0 (Split 979 1.0 (Split 819 1.0 (Split 438 1.0 (Split 415 1.0 (Split
  814 1.0 (Split 67 1.0 (Split 986 1.0 (Leaf (-0.07868452)) (Leaf (-0.0017154504))) (Leaf
  0.012611871)) (Leaf 0.0011021708)) (Leaf 0.015606453)) (Split 255 1.0 (Leaf 0.029794035) (Leaf
  (-0.007622909)))) (Leaf 0.02667324)) (Split 300 1.0 (Leaf 0.0066515203) (Leaf 0.053073585)))
  (Split 670 1.0 (Split 36 1.0 (Split 789 1.0 (Leaf 0.031854928) (Leaf 0.00056431454)) (Leaf
  (-0.018908067))) (Leaf 0.055827867))) (Split 435 1.0 (Leaf 0.06423839) (Leaf 0.018373704)).

Definition var2_1130 : tree :=
  Split 979 1.0 (Split 99 1.0 (Split 780 1.0 (Split 799 1.0 (Split 55 1.0 (Split 330 1.0 (Split 709
  1.0 (Split 157 1.0 (Leaf (-0.060956504)) (Leaf 0.05144007)) (Split 77 1.0 (Leaf 0.067950405)
  (Leaf 0.008914279))) (Split 479 1.0 (Leaf 0.06844882) (Leaf 0.0))) (Split 113 1.0 (Split 255 1.0
  (Split 392 1.0 (Leaf 0.07737499) (Leaf 0.007708552)) (Leaf 0.009061831)) (Leaf 0.007759226)))
  (Split 36 1.0 (Split 574 1.0 (Split 494 1.0 (Split 725 1.0 (Leaf 0.074739546) (Leaf 0.023696704))
  (Leaf 0.023562718)) (Leaf 0.01365983)) (Split 452 1.0 (Split 670 1.0 (Split 678 1.0 (Leaf
  0.0038811055) (Leaf 0.03856752)) (Leaf (-0.016711583))) (Split 670 1.0 (Leaf 0.06694039) (Leaf
  0.010629685))))) (Split 104 1.0 (Split 300 2.0 (Split 485 1.0 (Leaf 0.08259128) (Leaf 0.0)) (Leaf
  0.0)) (Split 435 1.0 (Leaf 0.026333928) (Leaf (-0.0142145995))))) (Split 158 1.0 (Split 924 1.0
  (Split 65 1.0 (Split 540 2.0 (Split 653 1.0 (Leaf 0.08204722) (Leaf 0.01637143)) (Split 800 1.0
  (Split 540 3.0 (Leaf 0.064179055) (Leaf 0.0073195025)) (Leaf (-0.0038586364)))) (Split 435 1.0
  (Leaf (-0.03152663)) (Leaf 0.03152663))) (Leaf (-0.03152663))) (Leaf (-0.025576835)))) (Split 740
  1.0 (Split 912 1.0 (Split 43 1.0 (Split 355 1.0 (Split 404 1.0 (Split 255 1.0 (Split 5 1.0 (Leaf
  0.076351315) (Leaf (-0.010503116))) (Split 607 1.0 (Leaf 0.03707402) (Leaf (-0.008522054))))
  (Leaf (-0.012729469))) (Split 435 1.0 (Leaf (-0.010697711)) (Leaf 0.010913613))) (Leaf
  (-0.018822497))) var2_1293) (Leaf (-0.056575518))).

Definition var2 : tree :=
  Split 968 1.0 (Split 430 1.0 (Split 517 1.0 (Split 540 1.0 (Split 178 1.0 (Split 65 1.0 (Split 73
  1.0 (Split 479 1.0 (Split 36 1.0 (Split 776 1.0 (Split 980 1.0 (Split 473 1.0 (Leaf 0.07744413)
  (Leaf (-0.03952114))) (Split 979 1.0 (Leaf (-0.061773982)) (Leaf 0.029372478))) (Split 979 1.0
  (Split 799 1.0 (Leaf (-0.05338437)) (Leaf 0.04168037)) (Split 300 1.0 (Leaf 0.028430754) (Leaf
  0.0761195)))) (Split 979 1.0 (Split 99 1.0 (Split 780 1.0 (Leaf (-0.017131248)) (Leaf
  0.073954806)) (Leaf 0.081664376)) (Split 215 1.0 (Split 42 1.0 (Leaf 0.07774194) (Leaf
  (-0.015847092))) (Leaf (-0.025287678))))) (Split 979 1.0 (Split 950 1.0 (Split 156 1.0 (Leaf
  (-0.07939969)) (Leaf (-0.018565597))) (Leaf 0.010503123)) (Leaf 0.052601963))) (Split 979 1.0
  (Split 267 1.0 (Split 653 1.0 (Split 780 1.0 (Leaf (-0.08050315)) (Leaf (-0.010503116))) (Leaf
  0.0)) (Leaf (-0.007179876))) (Leaf 0.052601963))) (Split 979 1.0 (Split 14 1.0 (Split 799 1.0
  (Split 93 1.0 (Split 55 1.0 (Split 20 1.0 (Leaf (-0.08169917)) (Leaf (-0.013250752))) (Leaf
  0.012173636)) (Leaf 0.03152663)) (Leaf 0.036211576)) (Split 452 1.0 (Leaf 0.056575518) (Leaf
  0.010503123))) (Leaf 0.08145218))) (Split 979 1.0 (Split 306 1.0 (Split 99 1.0 (Split 209 1.0
  (Split 819 1.0 (Leaf (-0.08334142)) (Leaf 0.0)) (Leaf 0.0)) (Leaf (-0.018835343))) (Leaf 0.0))
  (Split 300 1.0 (Leaf 0.0188225) (Leaf 0.062479563)))) var2_1130) var2_1321) var2_1384) var2_1407.

Definition var3_1617 : tree :=
  Split 141 1.0 (Split 608 1.0 (Split 300 2.0 (Split 976 1.0 (Leaf 0.0825766) (Split 128 1.0 (Leaf
  0.013371224) (Leaf 0.05053779))) (Leaf 0.023011621)) (Leaf 0.0071634627)) (Leaf 0.0010735659).

Definition var3_1843 : tree :=
  Split 300 1.0 (Split 679 1.0 (Split 574 1.0 (Split 819 1.0 (Split 156 1.0 (Leaf (-0.03409854))
  (Leaf 0.010462965)) (Leaf 0.030277824)) (Leaf 0.03685852)) (Leaf 0.05229975)) (Leaf 0.06484487).

Definition var3_1934 : tree :=
  Split 288 1.0 (Split 979 1.0 (Split 435 1.0 (Split 540 1.0 (Leaf 0.045328647) (Leaf
  (-0.041370746))) (Leaf (-0.060608532))) (Split 670 1.0 (Leaf 0.058078565) (Leaf 0.0))) (Leaf
  (-0.08739143)).

Definition var3_1957 : tree :=
  Split 812 1.0 (Split 540 1.0 (Split 14 1.0 (Split 141 1.0 (Leaf (-0.087250404)) (Leaf 0.0)) (Leaf
  0.0)) (Split 36 1.0 (Leaf 0.0) (Leaf (-0.01826307)))) (Leaf 0.030673696).

Definition var3_1640 : tree :=
  Split 149 1.0 (Split 432 1.0 (Split 296 1.0 (Split 345 1.0 (Split 77 1.0 (Split 841 1.0 (Leaf
  0.08285019) (Leaf 0.020326115)) (Split 300 1.0 (Leaf 0.0016634001) (Leaf 0.05378873))) (Leaf
  0.012976328)) (Leaf 0.0022308652)) (Leaf (-0.0068932003))) (Leaf (-0.014912853)).

Definition var3_1871 : tree :=
  Split 330 1.0 (Split 870 1.0 (Split 979 1.0 (Split 819 1.0 (Split 438 1.0 (Split 415 1.0 (Split
  814 1.0 (Split 67 1.0 (Split 760 1.0 (Leaf (-0.07524045)) (Leaf 0.0065727695)) (Leaf
  0.012259691)) (Leaf 0.001065436)) (Leaf 0.015163948)) (Split 255 1.0 (Leaf 0.028829757) (Leaf
  (-0.0074137608)))) (Leaf 0.025738025)) (Split 300 1.0 (Leaf 0.006441212) (Leaf 0.051692553)))
  (Split 670 1.0 (Split 36 1.0 (Split 789 1.0 (Leaf 0.030813739) (Leaf 0.000547397)) (Leaf
  (-0.018346136))) (Leaf 0.054297626))) (Split 435 1.0 (Leaf 0.062249947) (Leaf 0.01782984)).

Definition var3_1672 : tree :=
  Split 979 1.0 (Split 99 1.0 (Split 780 1.0 (Split 799 1.0 (Split 55 1.0 (Split 330 1.0 (Split 709
  1.0 (Split 157 1.0 (Leaf (-0.05821846)) (Leaf 0.049577247)) (Split 77 1.0 (Leaf 0.065745436)
  (Leaf 0.008668713))) (Split 479 1.0 (Leaf 0.06581691) (Leaf 0.0))) (Split 113 1.0 (Split 255 1.0
  (Split 392 1.0 (Leaf 0.07424047) (Leaf 0.00749696)) (Leaf 0.008812117)) (Leaf 0.0075461627)))
  (Split 36 1.0 (Split 104 1.0 (Split 284 1.0 (Split 494 1.0 (Leaf 0.075553715) (Leaf 0.007150703))
  (Leaf 0.007872632)) (Split 300 1.0 (Leaf (-0.010799082)) (Leaf 0.058304008))) (Split 452 1.0
  (Split 670 1.0 (Split 789 1.0 (Leaf 0.0034522226) (Leaf 0.037947062)) (Leaf (-0.016155263)))
  (Split 670 1.0 (Leaf 0.06481349) (Leaf 0.01033514))))) (Split 104 1.0 (Split 300 2.0 (Split 485
  1.0 (Split 655 1.0 (Leaf 0.08229603) (Leaf 0.0370884)) (Leaf 0.0)) (Leaf 0.0)) (Split 435 1.0
  (Leaf 0.02550557) (Leaf (-0.013707613))))) (Split 158 1.0 (Split 924 1.0 (Split 65 1.0 (Split 540
  2.0 (Split 653 1.0 (Leaf 0.07870364) (Leaf 0.015891643)) (Split 800 1.0 (Split 540 3.0 (Leaf
  0.06176685) (Leaf 0.007087748)) (Leaf (-0.0037296421)))) (Split 435 1.0 (Leaf (-0.030673701))
  (Leaf 0.030673696))) (Leaf (-0.030673701))) (Leaf (-0.024776947)))) (Split 740 1.0 (Split 912 1.0
  (Split 43 1.0 (Split 355 1.0 (Split 404 1.0 (Split 255 1.0 (Split 5 1.0 (Leaf 0.07313867) (Leaf
  (-0.010212212))) (Split 607 1.0 (Leaf 0.035641737) (Leaf (-0.008251399)))) (Leaf (-0.012373683)))
  (Split 435 1.0 (Leaf (-0.0104012685)) (Leaf 0.010610938))) (Leaf (-0.01826307))) var3_1843) (Leaf
  (-0.055020005))).

Definition var3 : tree :=
  Split 968 1.0 (Split 430 1.0 (Split 517 1.0 (Split 540 1.0 (Split 435 1.0 (Split 178 1.0 (Split
  73 1.0 (Split 65 1.0 (Split 670 1.0 (Split 498 1.0 (Split 479 1.0 (Split 473 1.0 (Leaf
  0.07600667) (Leaf (-0.035238843))) (Split 14 1.0 (Leaf (-0.064357236)) (Leaf (-0.008655592))))
  (Split 979 1.0 (Split 55 1.0 (Leaf (-0.043476373)) (Leaf 0.05494926)) (Split 498 2.0 (Leaf
  0.07482813) (Leaf 0.020442834)))) (Split 979 1.0 (Split 780 1.0 (Split 99 1.0 (Leaf
  (-0.038187597)) (Leaf 0.079216875)) (Leaf 0.08056455)) (Split 113 1.0 (Split 392 1.0 (Leaf
  0.069573514) (Leaf 0.0149861155)) (Leaf 0.0034137287)))) (Split 979 1.0 (Split 986 1.0 (Split 799
  1.0 (Split 93 1.0 (Leaf (-0.07107832)) (Leaf 0.030673696)) (Leaf 0.042701587)) (Leaf
  0.055077255)) (Leaf 0.072401))) (Split 964 1.0 (Split 156 1.0 (Split 267 1.0 (Leaf
  (-0.077022985)) (Leaf (-0.026548399))) (Leaf (-0.022718316))) (Leaf (-0.008757121)))) (Split 979
  1.0 (Split 99 1.0 (Split 209 1.0 (Split 267 1.0 (Leaf (-0.0775994)) (Leaf (-0.0194361))) (Leaf
  0.0)) (Leaf 0.010564371)) (Split 300 1.0 (Leaf 0.009498713) (Leaf 0.050454553)))) (Split 979 1.0
  (Split 99 1.0 (Split 780 1.0 (Split 799 1.0 (Split 55 1.0 (Split 709 1.0 (Split 407 1.0 (Leaf
  (-0.05959743)) (Leaf 0.029499918)) (Split 300 1.0 (Leaf 0.02364805) (Leaf 0.06915934))) (Split
  608 1.0 (Split 964 1.0 (Leaf 0.074072085) (Leaf (-0.002502382))) (Leaf (-0.013164408)))) (Split
  128 1.0 (Split 284 1.0 (Split 1019 1.0 (Leaf 0.08353051) (Leaf 0.018141879)) (Leaf 0.011882882))
  (Leaf 0.015233477))) (Split 65 1.0 (Split 117 1.0 (Split 300 2.0 (Leaf 0.08100997) (Leaf
  0.018408118)) (Leaf 0.016077789)) (Leaf (-0.026763761)))) var3_1617) var3_1640)) var3_1672)
  var3_1871) var3_1934) var3_1957.

Definition var4_2132 : tree :=
  Split 65 1.0 (Split 670 1.0 (Split 77 1.0 (Split 117 1.0 (Leaf 0.080815345) (Leaf 0.032833442))
  (Leaf 0.025335789)) (Split 8 1.0 (Leaf 0.0041772285) (Leaf 0.055942625))) (Leaf (-0.025926018)).

Definition var4_2155 : tree :=
  Split 141 1.0 (Split 608 1.0 (Split 300 2.0 (Split 976 1.0 (Leaf 0.07923915) (Split 128 1.0 (Leaf
  0.012932827) (Leaf 0.04929089))) (Leaf 0.022306707)) (Leaf 0.0069670975)) (Leaf 0.0010343491).

Definition var4_2377 : tree :=
  Split 300 1.0 (Split 679 1.0 (Split 819 1.0 (Split 36 1.0 (Split 822 1.0 (Leaf (-0.03620786))
  (Leaf 0.012901842)) (Leaf 0.024570063)) (Leaf 0.03582491)) (Leaf 0.050960787)) (Leaf 0.06247249).

Definition var4_2468 : tree :=
  Split 288 1.0 (Split 979 1.0 (Split 435 1.0 (Split 540 1.0 (Leaf 0.043933805) (Leaf
  (-0.040138807))) (Leaf (-0.058864523))) (Split 670 1.0 (Leaf 0.056462992) (Leaf 0.0))) (Leaf
  (-0.08425146)).

Definition var4_2178 : tree :=
  Split 149 1.0 (Split 432 1.0 (Split 296 1.0 (Split 345 1.0 (Split 77 1.0 (Split 841 1.0 (Leaf
  0.079669215) (Leaf 0.019712793)) (Split 300 1.0 (Leaf 0.0016109452) (Leaf 0.05239528))) (Leaf
  0.0126014715)) (Leaf 0.002160544)) (Leaf (-0.006684338))) (Leaf (-0.014491587)).

Definition var4_2491 : tree :=
  Split 812 1.0 (Split 540 1.0 (Split 14 1.0 (Split 141 1.0 (Split 300 1.0 (Split 435 1.0 (Leaf
  (-0.084197715)) (Leaf (-0.026722118))) (Leaf (-0.027091855))) (Leaf 0.0)) (Leaf 0.0)) (Split 36
  1.0 (Leaf 0.0) (Leaf (-0.017722055)))) (Leaf 0.029851804).

Definition var4_2405 : tree :=
  Split 330 1.0 (Split 870 1.0 (Split 979 1.0 (Split 819 1.0 (Split 438 1.0 (Split 415 1.0 (Split
  814 1.0 (Split 986 1.0 (Split 67 1.0 (Leaf (-0.07236283)) (Leaf 0.011917873)) (Leaf
  0.0008500984)) (Leaf 0.0010299155)) (Leaf 0.014735018)) (Split 255 1.0 (Leaf 0.02790457) (Leaf
  (-0.0072104596)))) (Leaf 0.024841363)) (Split 300 1.0 (Leaf 0.0062376265) (Leaf 0.050385512)))
  (Split 670 1.0 (Split 36 1.0 (Split 789 1.0 (Leaf 0.02981607) (Leaf 0.00053098693)) (Leaf
  (-0.017802719))) (Leaf 0.052853692))) (Split 435 1.0 (Leaf 0.060400695) (Leaf 0.017303709)).

Definition var4_2210 : tree :=
  Split 979 1.0 (Split 99 1.0 (Split 780 1.0 (Split 799 1.0 (Split 55 1.0 (Split 330 1.0 (Split 709
  1.0 (Split 157 1.0 (Leaf (-0.055688303)) (Leaf 0.04782587)) (Split 77 1.0 (Leaf 0.06370923) (Leaf
  0.008430082))) (Split 479 1.0 (Leaf 0.063398525) (Leaf 0.0))) (Split 113 1.0 (Split 255 1.0
  (Split 392 1.0 (Leaf 0.07140534) (Leaf 0.007291287)) (Leaf 0.008569469)) (Leaf 0.00733906)))
  (Split 36 1.0 (Split 574 1.0 (Split 494 1.0 (Split 725 1.0 (Leaf 0.06917142) (Leaf 0.020661471))
  (Leaf 0.022393432)) (Leaf 0.011747705)) (Split 452 1.0 (Split 670 1.0 (Split 678 1.0 (Leaf
  0.0032305033) (Leaf 0.037008546)) (Leaf (-0.015618865))) (Split 670 1.0 (Leaf 0.062846184) (Leaf
  0.010049063))))) (Split 104 1.0 (Split 300 2.0 (Split 485 1.0 (Split 655 1.0 (Leaf 0.07932391)
  (Leaf 0.03585631)) (Leaf 0.0)) (Leaf 0.0)) (Split 435 1.0 (Leaf 0.024708463) (Leaf
  (-0.013219619))))) (Split 158 1.0 (Split 924 1.0 (Split 65 1.0 (Split 540 2.0 (Split 653 1.0
  (Leaf 0.07570643) (Leaf 0.0154270325)) (Split 800 1.0 (Split 540 3.0 (Leaf 0.059535395) (Leaf
  0.0068634315)) (Leaf (-0.003604979)))) (Split 435 1.0 (Leaf (-0.029851804)) (Leaf 0.029851804)))
  (Leaf (-0.029851804))) (Leaf (-0.024006777)))) (Split 740 1.0 (Split 912 1.0 (Split 43 1.0 (Split
  355 1.0 (Split 404 1.0 (Split 255 1.0 (Split 49 1.0 (Leaf 0.071498685) (Leaf 0.017286269)) (Split
  396 1.0 (Leaf 0.005833247) (Leaf 0.052036203))) (Leaf (-0.012028387))) (Split 435 1.0 (Leaf
  (-0.01011335)) (Leaf 0.010316996))) (Leaf (-0.017722055))) var4_2377) (Leaf (-0.05355599))).

Definition var4 : tree :=
  Split 968 1.0 (Split 430 1.0 (Split 517 1.0 (Split 540 1.0 (Split 435 1.0 (Split 178 1.0 (Split
  73 1.0 (Split 65 1.0 (Split 833 1.0 (Split 156 1.0 (Split 560 1.0 (Split 979 1.0 (Leaf
  0.0021452762) (Leaf 0.071218766)) (Split 120 1.0 (Leaf 0.023043497) (Leaf 0.08556053))) (Split
  473 1.0 (Split 385 1.0 (Leaf 0.08084347) (Leaf (-0.044651102))) (Split 86 1.0 (Leaf
  (-0.017793681)) (Leaf (-0.040908884))))) (Split 812 1.0 (Split 300 1.0 (Leaf 0.08546638) (Leaf
  0.01180455)) (Leaf (-0.02728403)))) (Split 979 1.0 (Split 986 1.0 (Split 799 1.0 (Split 93 1.0
  (Leaf (-0.068273194)) (Leaf 0.029851804)) (Leaf 0.041406993)) (Leaf 0.05359251)) (Leaf
  0.07005736))) (Split 964 1.0 (Split 156 1.0 (Split 267 1.0 (Leaf (-0.07410807)) (Leaf
  (-0.025711818))) (Leaf (-0.02202422))) (Leaf (-0.008517102)))) (Split 979 1.0 (Split 99 1.0
  (Split 209 1.0 (Split 267 1.0 (Leaf (-0.07466876)) (Leaf (-0.018852435))) (Leaf 0.0)) (Leaf
  0.010226878)) (Split 300 1.0 (Leaf 0.00923653) (Leaf 0.04921187)))) (Split 979 1.0 (Split 99 1.0
  (Split 780 1.0 (Split 799 1.0 (Split 55 1.0 (Split 709 1.0 (Split 407 1.0 (Leaf (-0.056762237))
  (Leaf 0.028296009)) (Split 300 1.0 (Leaf 0.022830268) (Leaf 0.06685924))) (Split 608 1.0 (Split
  964 1.0 (Leaf 0.07084436) (Leaf (-0.0024272099))) (Leaf (-0.012795773)))) (Split 128 1.0 (Split
  284 1.0 (Split 1019 1.0 (Leaf 0.079915605) (Leaf 0.017604912)) (Leaf 0.011552567)) (Leaf
  0.014730356))) var4_2132) var4_2155) var4_2178)) var4_2210) var4_2405) var4_2468) var4_2491.

Definition var5_2702 : tree :=
  Split 65 1.0 (Split 670 1.0 (Split 77 1.0 (Split 117 1.0 (Leaf 0.077774644) (Leaf 0.031767562))
  (Leaf 0.024550658)) (Split 8 1.0 (Leaf 0.004016425) (Leaf 0.05445726))) (Leaf (-0.025119478)).

Definition var5_2951 : tree :=
  Split 300 1.0 (Split 679 1.0 (Split 574 1.0 (Split 819 1.0 (Split 435 1.0 (Leaf (-0.035485025))
  (Leaf 0.002140518)) (Leaf 0.028523803)) (Leaf 0.03505738)) (Leaf 0.0496923)) (Leaf 0.060278144).

Definition var5_3042 : tree :=
  Split 288 1.0 (Split 979 1.0 (Split 435 1.0 (Split 540 1.0 (Leaf 0.042608406) (Leaf
  (-0.03896312))) (Leaf (-0.057234157))) (Split 670 1.0 (Leaf 0.05494647) (Leaf 0.0))) (Leaf
  (-0.08147268)).

Definition var5_2725 : tree :=
  Split 141 1.0 (Split 608 1.0 (Split 300 2.0 (Split 976 1.0 (Split 950 1.0 (Leaf 0.07720727) (Leaf
  0.025200156)) (Split 128 1.0 (Leaf 0.0125094205) (Leaf 0.04810701))) (Leaf 0.021626556)) (Leaf
  0.0067762)) (Leaf 0.0009965593).

Definition var5_2752 : tree :=
  Split 149 1.0 (Split 432 1.0 (Split 296 1.0 (Split 345 1.0 (Split 948 1.0 (Split 980 1.0 (Leaf
  0.07651537) (Leaf 0.023855753)) (Leaf 0.02114291)) (Leaf 0.012237928)) (Leaf 0.0020924385)) (Leaf
  (-0.0064819204))) (Leaf (-0.014083114)).

Definition var5_3065 : tree :=
  Split 812 1.0 (Split 540 1.0 (Split 14 1.0 (Split 141 1.0 (Split 300 1.0 (Split 435 1.0 (Leaf
  (-0.08141544)) (Leaf (-0.0260358))) (Leaf (-0.026393494))) (Leaf 0.0)) (Leaf 0.0)) (Split 36 1.0
  (Leaf 0.0) (Leaf (-0.017198687)))) (Leaf 0.029059207).

Definition var5_2979 : tree :=
  Split 330 1.0 (Split 870 1.0 (Split 979 1.0 (Split 819 1.0 (Split 438 1.0 (Split 415 1.0 (Split
  760 1.0 (Split 814 1.0 (Split 986 1.0 (Leaf (-0.06968702)) (Leaf 0.0008217647)) (Leaf
  0.000995583)) (Leaf 0.008571133)) (Leaf 0.014319152)) (Split 255 1.0 (Leaf 0.027016116) (Leaf
  (-0.007012828)))) (Leaf 0.023980983)) (Split 300 1.0 (Leaf 0.0060405354) (Leaf 0.04914636)))
  (Split 670 1.0 (Split 36 1.0 (Split 789 1.0 (Leaf 0.02885913) (Leaf 0.0005150706)) (Leaf
  (-0.017277034))) (Leaf 0.05148871))) (Split 435 1.0 (Leaf 0.058675688) (Leaf 0.016794583)).

Definition var5_2780 : tree :=
  Split 979 1.0 (Split 99 1.0 (Split 780 1.0 (Split 799 1.0 (Split 55 1.0 (Split 330 1.0 (Split 709
  1.0 (Split 157 1.0 (Leaf (-0.05333771)) (Leaf 0.046174433)) (Split 77 1.0 (Leaf 0.061822087)
  (Leaf 0.008198177))) (Split 479 1.0 (Leaf 0.061164875) (Leaf 0.0))) (Split 113 1.0 (Split 255 1.0
  (Split 392 1.0 (Leaf 0.06882426) (Leaf 0.0070913504)) (Leaf 0.008333667)) (Leaf 0.0071377433)))
  (Split 36 1.0 (Split 104 1.0 (Split 725 1.0 (Split 494 1.0 (Leaf 0.07189111) (Leaf 0.015030368))
  (Leaf 0.015949797)) (Split 300 1.0 (Leaf (-0.012400518)) (Leaf 0.054996617))) (Split 452 1.0
  (Split 670 1.0 (Split 789 1.0 (Leaf 0.0028355177) (Leaf 0.036433768)) (Leaf (-0.015101527)))
  (Split 670 1.0 (Leaf 0.061020065) (Leaf 0.009771186))))) (Split 104 1.0 (Split 857 1.0 (Split 485
  1.0 (Leaf 0.07428893) (Leaf 0.0)) (Leaf 0.0022150984)) (Split 435 1.0 (Leaf 0.02394092) (Leaf
  (-0.012749794))))) (Split 158 1.0 (Split 924 1.0 (Split 65 1.0 (Split 540 2.0 (Split 653 1.0
  (Split 340 1.0 (Leaf 0.074189045) (Leaf 0.02386707)) (Leaf 0.014977)) (Split 800 1.0 (Split 540
  3.0 (Leaf 0.05746169) (Leaf 0.0066463053)) (Leaf (-0.0034845073)))) (Split 435 1.0 (Leaf
  (-0.029059216)) (Leaf 0.029059207))) (Leaf (-0.029059216))) (Leaf (-0.023264755)))) (Split 740
  1.0 (Split 912 1.0 (Split 43 1.0 (Split 77 1.0 (Split 5 1.0 (Split 404 1.0 (Split 149 1.0 (Leaf
  0.06677332) (Leaf 0.0018131955)) (Leaf (-0.011693225))) (Leaf (-0.011914364))) (Split 156 1.0
  (Split 435 1.0 (Leaf (-0.027546262)) (Leaf 0.0012276416)) (Leaf 0.04958802))) (Leaf
  (-0.017198687))) var5_2951) (Leaf (-0.052175112))).

Definition var5 : tree :=
  Split 968 1.0 (Split 430 1.0 (Split 517 1.0 (Split 540 1.0 (Split 435 1.0 (Split 833 1.0 (Split
  156 1.0 (Split 560 1.0 (Split 979 1.0 (Split 99 1.0 (Split 780 1.0 (Split 799 1.0 (Leaf
  (-0.03852982)) (Leaf 0.07070308)) (Split 77 1.0 (Leaf 0.078385994) (Leaf 0.0065311277))) (Split
  178 1.0 (Split 174 1.0 (Leaf 0.081553414) (Leaf 0.010350037)) (Leaf 0.00084592))) (Split 250 1.0
  (Split 77 1.0 (Split 296 1.0 (Leaf 0.072011076) (Leaf (-0.007237525))) (Split 23 1.0 (Leaf
  (-0.020734856)) (Leaf 0.023365235))) (Split 617 1.0 (Leaf 0.023942973) (Leaf (-0.0513272)))))
  (Split 120 1.0 (Split 659 1.0 (Leaf 0.015284846) (Leaf (-0.007928534))) (Leaf 0.08263333)))
  (Split 473 1.0 (Split 607 1.0 (Split 912 1.0 (Split 178 1.0 (Split 65 1.0 (Leaf 0.078854166)
  (Leaf (-0.014198454))) (Leaf (-0.024266152))) (Split 979 1.0 (Split 99 1.0 (Leaf (-0.039051637))
  (Leaf 0.05378111)) (Leaf 0.06297561))) (Split 1019 1.0 (Split 979 1.0 (Split 912 1.0 (Leaf
  0.0034681165) (Leaf 0.049366616)) (Split 659 1.0 (Leaf 0.059750956) (Leaf (-0.00017411214))))
  (Leaf (-0.056382068)))) (Split 86 1.0 (Split 678 1.0 (Leaf (-0.0050957813)) (Leaf
  (-0.034169212))) (Leaf (-0.03969828))))) (Split 812 1.0 (Split 300 1.0 (Leaf 0.082535736) (Leaf
  0.011419497)) (Leaf (-0.026422052)))) (Split 979 1.0 (Split 99 1.0 (Split 780 1.0 (Split 799 1.0
  (Split 55 1.0 (Split 709 1.0 (Split 407 1.0 (Leaf (-0.05414569)) (Leaf 0.027150115)) (Split 300
  1.0 (Leaf 0.022044865) (Leaf 0.06473926))) (Split 608 1.0 (Split 964 1.0 (Leaf 0.06791418) (Leaf
  (-0.0023543076))) (Leaf (-0.012438069)))) (Split 128 1.0 (Split 284 1.0 (Split 1019 1.0 (Leaf
  0.076684624) (Leaf 0.017085422)) (Leaf 0.011231863)) (Leaf 0.014244856))) var5_2702) var5_2725)
  var5_2752)) var5_2780) var5_2979) var5_3042) var5_3065.

Definition var6_3276 : tree :=
  Split 65 1.0 (Split 670 1.0 (Split 77 1.0 (Split 117 1.0 (Leaf 0.07504045) (Leaf 0.03074613))
  (Leaf 0.023793904)) (Split 8 1.0 (Leaf 0.0038618036) (Leaf 0.053058445))) (Leaf (-0.024342434)).

Definition var6_3299 : tree :=
  Split 940 1.0 (Split 996 1.0 (Split 608 1.0 (Split 452 2.0 (Split 976 1.0 (Leaf 0.075255714)
  (Leaf 0.03339171)) (Leaf 0.015012616)) (Leaf 0.0065906057)) (Leaf 0.0014651923)) (Leaf
  (-0.019646317)).

Definition var6_3616 : tree :=
  Split 288 1.0 (Split 979 1.0 (Split 435 1.0 (Split 540 1.0 (Leaf 0.04134661) (Leaf
  (-0.037839405))) (Leaf (-0.055705823))) (Split 670 1.0 (Leaf 0.053519465) (Leaf 0.0))) (Leaf
  (-0.07899863)).

Definition var6_3322 : tree :=
  Split 149 1.0 (Split 432 1.0 (Split 296 1.0 (Split 345 1.0 (Split 77 1.0 (Split 841 1.0 (Leaf
  0.07433522) (Leaf 0.01706887)) (Split 300 1.0 (Leaf (-0.00060493464)) (Leaf 0.04922439))) (Leaf
  0.011885304)) (Leaf 0.0020264748)) (Leaf (-0.006285745))) (Leaf (-0.013686973)).

Definition var6_3639 : tree :=
  Split 812 1.0 (Split 540 1.0 (Split 14 1.0 (Split 141 1.0 (Split 300 1.0 (Split 435 1.0 (Leaf
  (-0.07893787)) (Leaf (-0.025371706))) (Leaf (-0.025717935))) (Leaf 0.0)) (Leaf 0.0)) (Split 36
  1.0 (Leaf 0.0) (Leaf (-0.016692242)))) (Leaf 0.028294325).

Definition var6_3354 : tree :=
  Split 870 1.0 (Split 979 1.0 (Split 819 1.0 (Split 986 1.0 (Split 72 1.0 (Split 694 1.0 (Split
  419 1.0 (Split 42 1.0 (Leaf (-0.06654299)) (Leaf (-0.014402467))) (Leaf 0.013538988)) (Leaf
  0.019452425)) (Leaf 0.016204936)) (Leaf 0.030531842)) (Leaf 0.03253138)) (Leaf 0.039630875))
  (Split 77 1.0 (Leaf 0.014718868) (Leaf 0.034576774)).

Definition var6_3556 : tree :=
  Split 740 1.0 (Split 912 1.0 (Split 43 1.0 (Split 355 1.0 (Split 796 1.0 (Split 5 1.0 (Split 404
  1.0 (Split 255 1.0 (Leaf 0.066315964) (Leaf 0.02401223)) (Leaf (-0.011367852))) (Leaf
  (-0.011582543))) (Leaf (-0.009107215))) (Split 435 1.0 (Leaf (-0.011165722)) (Leaf 0.008190255)))
  (Leaf (-0.016692242))) (Split 300 1.0 (Split 679 1.0 (Split 574 1.0 (Split 819 1.0 (Split 435 1.0
  (Leaf (-0.036632303)) (Leaf 0.0020640302)) (Leaf 0.027777314)) (Leaf 0.03407716)) (Leaf
  0.048488542)) (Leaf 0.05823902))) (Leaf (-0.050869968)).

Definition var6_3393 : tree :=
  Split 979 1.0 (Split 99 1.0 (Split 799 1.0 (Split 780 1.0 (Split 55 1.0 (Split 330 1.0 (Split 986
  1.0 (Split 157 1.0 (Split 819 1.0 (Leaf (-0.055884745)) (Leaf (-0.0025669055))) (Leaf
  0.04461302)) (Split 36 1.0 (Split 392 1.0 (Leaf (-0.022386132)) (Leaf 0.037169192)) (Split 300
  1.0 (Leaf 0.054790683) (Leaf 0.016748084)))) (Split 479 1.0 (Split 104 1.0 (Leaf 0.066663705)
  (Leaf 0.0044405228)) (Leaf 0.0))) (Split 36 1.0 (Split 789 1.0 (Leaf 0.067367606) (Split 300 1.0
  (Leaf 0.0003449812) (Leaf 0.04455544))) (Split 156 1.0 (Split 435 1.0 (Leaf 0.0026120364) (Leaf
  0.01264481)) (Leaf 0.03418523)))) (Split 517 1.0 (Split 104 1.0 (Split 485 1.0 (Split 822 1.0
  (Split 655 1.0 (Leaf 0.07408897) (Leaf 0.03334583)) (Leaf 0.01622204)) (Leaf 0.0)) (Split 435 1.0
  (Leaf 0.023201378) (Leaf (-0.0058574867)))) (Leaf (-0.034777638)))) (Split 104 1.0 (Split 494 1.0
  (Split 937 1.0 (Split 357 1.0 (Split 537 1.0 (Split 284 1.0 (Leaf 0.06865036) (Leaf 0.011516662))
  (Leaf (-0.013902861))) (Leaf (-0.0070035006))) (Leaf (-0.010530491))) (Split 435 1.0 (Leaf
  (-0.02173312)) (Leaf 0.025396276))) (Split 300 1.0 (Leaf (-0.015880628)) (Leaf 0.031050382))))
  (Split 158 1.0 (Split 924 1.0 (Split 65 1.0 (Split 300 2.0 (Split 702 1.0 (Split 147 1.0 (Split
  112 1.0 (Leaf 0.06734019) (Leaf 0.011591065)) (Leaf 0.0020725837)) (Leaf 0.0018138854)) (Leaf
  (-0.0058792043))) (Split 435 1.0 (Leaf (-0.028294325)) (Leaf 0.028294325))) (Leaf
  (-0.028294325))) (Leaf (-0.02254942)))) var6_3556.

Definition var6 : tree :=
  Split 968 1.0 (Split 430 1.0 (Split 540 1.0 (Split 517 1.0 (Split 435 1.0 (Split 833 1.0 (Split
  156 1.0 (Split 560 1.0 (Split 979 1.0 (Split 99 1.0 (Split 780 1.0 (Split 55 1.0 (Leaf
  (-0.036370993)) (Leaf 0.07244746)) (Split 77 1.0 (Leaf 0.07534521) (Leaf 0.0063528866))) (Split
  178 1.0 (Split 174 1.0 (Leaf 0.0783964) (Leaf 0.010065517)) (Leaf 0.00082053273))) (Split 250 1.0
  (Split 77 1.0 (Split 296 1.0 (Leaf 0.069463976) (Leaf (-0.0069677406))) (Split 23 1.0 (Leaf
  (-0.019973183)) (Leaf 0.02278415))) (Split 617 1.0 (Leaf 0.023344459) (Leaf (-0.049557045)))))
  (Split 120 1.0 (Split 659 1.0 (Leaf 0.014688389) (Leaf (-0.0077117304))) (Leaf 0.08003371)))
  (Split 473 1.0 (Split 607 1.0 (Split 912 1.0 (Split 178 1.0 (Split 36 1.0 (Leaf 0.076978564)
  (Leaf 0.043149855)) (Leaf (-0.023387102))) (Split 979 1.0 (Split 99 1.0 (Leaf (-0.037234403))
  (Leaf 0.052427884)) (Leaf 0.061237533))) (Split 1019 1.0 (Split 979 1.0 (Split 99 1.0 (Leaf
  0.0032743793) (Leaf 0.048334606)) (Split 659 1.0 (Leaf 0.057902254) (Leaf (-0.00016936018))))
  (Leaf (-0.054867513)))) (Split 86 1.0 (Split 678 1.0 (Leaf (-0.004893444)) (Leaf (-0.033224043)))
  (Leaf (-0.03854228))))) (Split 812 1.0 (Split 300 1.0 (Leaf 0.07993231) (Leaf 0.011047388)) (Leaf
  (-0.025593266)))) (Split 979 1.0 (Split 99 1.0 (Split 780 1.0 (Split 799 1.0 (Split 55 1.0 (Split
  709 1.0 (Split 224 1.0 (Leaf (-0.051482994)) (Leaf 0.038407393)) (Split 300 1.0 (Leaf
  0.021290092) (Leaf 0.062778))) (Split 608 1.0 (Split 964 1.0 (Leaf 0.06523647) (Leaf
  (-0.0022835915))) (Leaf (-0.012090913)))) (Split 128 1.0 (Split 284 1.0 (Split 1019 1.0 (Leaf
  0.0737754) (Leaf 0.016582686)) (Leaf 0.01092046)) (Leaf 0.013776237))) var6_3276) var6_3299)
  var6_3322)) var6_3354) var6_3393) var6_3616) var6_3639.

Definition var7_4078 : tree :=
  Split 288 1.0 (Split 979 1.0 (Split 435 1.0 (Split 540 1.0 (Leaf 0.040143237) (Leaf
  (-0.036763847))) (Leaf (-0.054269325))) (Split 670 1.0 (Leaf 0.052173533) (Leaf 0.0))) (Leaf
  (-0.0767841)).

Definition var7_4101 : tree :=
  Split 812 1.0 (Split 540 1.0 (Split 14 1.0 (Split 141 1.0 (Split 300 1.0 (Split 435 1.0 (Leaf
  (-0.07671972)) (Leaf (-0.024728749))) (Leaf (-0.025064075))) (Leaf 0.0)) (Leaf 0.0)) (Split 36
  1.0 (Leaf 0.0) (Leaf (-0.016202025)))) (Leaf 0.02755565).

Definition var7_4015 : tree :=
  Split 330 1.0 (Split 870 1.0 (Split 979 1.0 (Split 819 1.0 (Split 438 1.0 (Split 714 1.0 (Split
  67 1.0 (Split 814 1.0 (Split 760 1.0 (Leaf (-0.065120175)) (Leaf 0.010017409)) (Leaf
  0.0031382057)) (Leaf 0.014573804)) (Leaf 0.014049279)) (Split 255 1.0 (Leaf 0.027006064) (Leaf
  (-0.005963787)))) (Leaf 0.022167359)) (Split 300 1.0 (Leaf 0.0048291623) (Leaf 0.047042836)))
  (Split 670 1.0 (Split 36 1.0 (Split 789 1.0 (Leaf 0.027322128) (Leaf 0.00066276296)) (Leaf
  (-0.016629098))) (Leaf 0.05042366))) (Split 435 1.0 (Leaf 0.056265455) (Leaf 0.015647776)).

Definition var7_3832 : tree :=
  Split 979 1.0 (Split 99 1.0 (Split 780 1.0 (Split 799 1.0 (Split 55 1.0 (Split 330 1.0 (Split 709
  1.0 (Split 345 1.0 (Leaf (-0.049318288)) (Leaf 0.030645013)) (Split 77 1.0 (Leaf 0.061493035)
  (Leaf 0.00951212))) (Split 479 1.0 (Leaf 0.05725351) (Leaf 0.0))) (Split 113 1.0 (Split 255 1.0
  (Split 392 1.0 (Leaf 0.0648203) (Leaf 0.0053589446)) (Leaf 0.00750927)) (Leaf 0.0061235963)))
  (Split 36 1.0 (Split 574 1.0 (Split 494 1.0 (Split 725 1.0 (Leaf 0.062683634) (Leaf 0.01783259))
  (Leaf 0.020911971)) (Leaf 0.008925217)) (Split 452 1.0 (Split 128 1.0 (Split 812 1.0 (Leaf
  (-0.015331628)) (Leaf 0.027904242)) (Leaf 0.030718287)) (Split 670 1.0 (Leaf 0.0579031) (Leaf
  0.008446689))))) (Split 104 1.0 (Split 857 1.0 (Split 485 1.0 (Split 333 1.0 (Split 655 1.0 (Leaf
  0.07449406) (Leaf 0.0318937)) (Leaf 0.022838369)) (Leaf 0.0)) (Leaf 0.00050052255)) (Split 435
  1.0 (Leaf 0.022488395) (Leaf (-0.012054386))))) (Split 158 1.0 (Split 924 1.0 (Split 65 1.0
  (Split 540 2.0 (Split 653 1.0 (Split 527 1.0 (Leaf 0.0698655) (Leaf 0.021038814)) (Leaf
  0.012913451)) (Split 800 1.0 (Split 540 3.0 (Leaf 0.053591985) (Leaf 0.00490212)) (Leaf
  (-0.005314944)))) (Split 435 1.0 (Leaf (-0.02755565)) (Leaf 0.02755565))) (Leaf (-0.02755565)))
  (Leaf (-0.021859437)))) (Split 740 1.0 (Split 178 1.0 (Split 5 1.0 (Split 43 1.0 (Split 248 1.0
  (Split 77 1.0 (Split 404 1.0 (Leaf 0.05914681) (Leaf (-0.011051953))) (Split 452 1.0 (Leaf
  0.027758557) (Leaf (-0.019526867)))) (Leaf (-0.013667806))) (Leaf (-0.016202025))) (Leaf
  (-0.019139145))) (Split 912 1.0 (Leaf 0.007954434) (Leaf (-0.028871609)))) (Leaf (-0.049633943))).

Definition var7 : tree :=
  Split 968 1.0 (Split 430 1.0 (Split 517 1.0 (Split 540 1.0 (Split 178 1.0 (Split 65 1.0 (Split 73
  1.0 (Split 833 1.0 (Split 156 1.0 (Split 365 1.0 (Split 979 1.0 (Split 99 1.0 (Leaf
  (-0.0067682075)) (Leaf 0.0736297)) (Split 250 1.0 (Leaf 0.06460171) (Leaf (-0.012652214))))
  (Split 120 1.0 (Split 789 1.0 (Leaf 0.02568656) (Leaf (-0.016438475))) (Leaf 0.07771194))) (Split
  473 1.0 (Split 435 1.0 (Split 776 1.0 (Leaf 0.07334557) (Leaf 0.0022156702)) (Split 979 1.0 (Leaf
  0.022765128) (Leaf 0.069204226))) (Split 529 1.0 (Split 678 1.0 (Leaf (-0.01368202)) (Leaf
  (-0.05231455))) (Leaf 0.006523079)))) (Split 300 1.0 (Leaf 0.07736538) (Split 36 1.0 (Split 435
  1.0 (Leaf 0.0012401658) (Leaf 0.016033243)) (Leaf (-0.008580764))))) (Split 979 1.0 (Split 267
  1.0 (Split 776 1.0 (Split 780 1.0 (Split 655 1.0 (Leaf (-0.07150892)) (Leaf (-0.022234324)))
  (Leaf (-0.013768953))) (Leaf 0.00025207587)) (Leaf (-0.0030341032))) (Leaf 0.04808366))) (Split
  979 1.0 (Split 14 1.0 (Split 799 1.0 (Split 93 1.0 (Split 55 1.0 (Split 20 1.0 (Leaf
  (-0.07151833)) (Leaf (-0.007186135))) (Leaf 0.010594346)) (Leaf 0.029124985)) (Leaf 0.029975424))
  (Split 452 1.0 (Leaf 0.05036201) (Leaf 0.012279838))) (Leaf 0.06969338))) (Split 979 1.0 (Split
  306 1.0 (Split 267 1.0 (Split 543 1.0 (Split 113 1.0 (Leaf (-0.07150844)) (Leaf (-0.02266643)))
  (Leaf (-0.02081335))) (Split 300 1.0 (Leaf 0.0074405083) (Leaf (-0.0515449)))) (Leaf
  0.003158761)) (Split 300 1.0 (Leaf 0.0137772085) (Leaf 0.05467826)))) var7_3832) var7_4015)
  var7_4078) var7_4101.

Definition var8_4616 : tree :=
  Split 288 1.0 (Split 979 1.0 (Split 435 1.0 (Split 540 1.0 (Leaf 0.03899366) (Leaf
  (-0.03573298))) (Leaf (-0.05291576))) (Split 670 1.0 (Leaf 0.05090124) (Leaf 0.0))) (Leaf
  (-0.07479235)).

Definition var8_4639 : tree :=
  Split 812 1.0 (Split 540 1.0 (Split 14 1.0 (Split 141 1.0 (Split 300 1.0 (Split 435 1.0 (Leaf
  (-0.07472425)) (Leaf (-0.02410594))) (Leaf (-0.024430864))) (Leaf 0.0)) (Leaf 0.0)) (Split 36 1.0
  (Leaf 0.0) (Leaf (-0.015727395)))) (Leaf 0.02684184).

Definition var8_4291 : tree :=
  Split 979 1.0 (Split 780 1.0 (Split 99 1.0 (Split 55 1.0 (Split 799 1.0 (Leaf (-0.027886827))
  (Leaf 0.05124935)) (Split 300 1.0 (Leaf 0.013398814) (Leaf 0.06234047))) (Leaf 0.0637965)) (Leaf
  0.07151773)) (Split 392 1.0 (Split 721 1.0 (Split 488 1.0 (Leaf 0.07466646) (Leaf 0.02369991))
  (Leaf 0.017797472)) (Leaf 0.023298655)).

Definition var8_4350 : tree :=
  Split 870 1.0 (Split 979 1.0 (Split 819 1.0 (Split 986 1.0 (Split 72 1.0 (Split 694 1.0 (Split
  419 1.0 (Split 42 1.0 (Leaf (-0.062269535)) (Leaf (-0.011987926))) (Leaf 0.0138343815)) (Leaf
  0.020330844)) (Leaf 0.017399803)) (Leaf 0.030449787)) (Leaf 0.030765438)) (Split 300 1.0 (Leaf
  0.014956149) (Leaf 0.045967508))) (Split 77 1.0 (Leaf 0.013696687) (Leaf 0.03302474)).

Definition var8_4556 : tree :=
  Split 740 1.0 (Split 912 1.0 (Split 592 1.0 (Split 355 1.0 (Split 796 1.0 (Split 404 1.0 (Split 5
  1.0 (Split 43 1.0 (Leaf 0.060818832) (Leaf (-0.0071302177))) (Leaf (-0.010728997))) (Leaf
  (-0.01074521))) (Leaf (-0.010231571))) (Split 435 1.0 (Leaf (-0.012329196)) (Leaf 0.0063429563)))
  (Leaf (-0.020974403))) (Split 300 1.0 (Split 679 1.0 (Split 819 1.0 (Split 36 1.0 (Split 822 1.0
  (Leaf (-0.036641948)) (Leaf 0.013050936)) (Leaf 0.020834103)) (Leaf 0.03158085)) (Leaf
  0.04598766)) (Leaf 0.054766845))) (Leaf (-0.04846113)).

Definition var8_4393 : tree :=
  Split 979 1.0 (Split 99 1.0 (Split 799 1.0 (Split 780 1.0 (Split 55 1.0 (Split 330 1.0 (Split 986
  1.0 (Split 157 1.0 (Split 819 1.0 (Leaf (-0.051855218)) (Leaf (-0.0002986528))) (Leaf
  0.044770714)) (Split 36 1.0 (Split 392 1.0 (Leaf (-0.019735392)) (Leaf 0.0371254)) (Leaf
  0.04796884))) (Split 607 1.0 (Split 104 1.0 (Leaf 0.06438601) (Leaf 0.0029909115)) (Leaf
  0.000569858))) (Split 36 1.0 (Split 789 1.0 (Leaf 0.06352359) (Split 300 1.0 (Leaf
  (-0.001098117)) (Leaf 0.04222953))) (Split 156 1.0 (Split 435 1.0 (Leaf 0.0015460717) (Leaf
  0.011012614)) (Leaf 0.03246466)))) (Split 517 1.0 (Split 104 1.0 (Split 485 1.0 (Split 822 1.0
  (Split 655 1.0 (Leaf 0.069932364) (Leaf 0.031294003)) (Leaf 0.014558268)) (Leaf 0.0)) (Split 670
  1.0 (Split 435 1.0 (Leaf 0.03473517) (Leaf (-0.009147005))) (Leaf (-0.010321512)))) (Leaf
  (-0.03238688)))) (Split 104 1.0 (Split 494 1.0 (Split 357 1.0 (Split 537 1.0 (Split 937 1.0
  (Split 284 1.0 (Leaf 0.06482827) (Leaf 0.009709627)) (Leaf (-0.009725145))) (Leaf
  (-0.013708398))) (Leaf (-0.007730859))) (Split 435 1.0 (Leaf (-0.021171434)) (Leaf 0.023805737)))
  (Split 300 1.0 (Leaf (-0.016894633)) (Leaf 0.029085169)))) (Split 158 1.0 (Split 924 1.0 (Split
  65 1.0 (Split 300 2.0 (Split 702 1.0 (Split 147 1.0 (Split 112 1.0 (Leaf 0.06322252) (Leaf
  0.010120287)) (Leaf 0.00080884463)) (Leaf 0.00032496263)) (Leaf (-0.0065127457))) (Split 435 1.0
  (Leaf (-0.026841834)) (Leaf 0.02684184))) (Leaf (-0.026841834))) (Leaf (-0.021193564))))
  var8_4556.

Definition var8 : tree :=
  Split 968 1.0 (Split 430 1.0 (Split 540 1.0 (Split 517 1.0 (Split 833 1.0 (Split 156 1.0 (Split
  365 1.0 (Split 979 1.0 (Split 99 1.0 (Split 780 1.0 (Split 799 1.0 (Split 55 1.0 (Leaf
  (-0.045769572)) (Leaf 0.066000156)) (Split 178 1.0 (Leaf 0.069777004) (Leaf (-0.027057204))))
  (Split 65 1.0 (Split 630 1.0 (Leaf 0.07064251) (Leaf (-0.008282634))) (Leaf (-0.034561776))))
  (Split 178 1.0 (Split 944 1.0 (Split 357 1.0 (Leaf 0.07277931) (Leaf 0.013560225)) (Leaf
  (-0.03036224))) (Leaf (-0.027112348)))) (Split 296 1.0 (Split 77 1.0 (Split 250 1.0 (Split 766
  1.0 (Leaf 0.06558948) (Leaf (-0.027138341))) (Split 617 1.0 (Leaf 0.028400838) (Leaf
  (-0.047465637)))) (Split 300 1.0 (Split 23 1.0 (Leaf (-0.042985853)) (Leaf 0.020636704)) (Leaf
  0.039095383))) (Split 104 1.0 (Leaf 0.038983073) (Leaf (-0.04270206))))) (Split 120 1.0 (Split
  979 1.0 (Split 789 1.0 (Split 435 1.0 (Leaf (-0.0150116235)) (Leaf 0.004104078)) (Leaf
  (-0.03310861))) (Leaf 0.042051468)) (Leaf 0.07562794))) (Split 435 1.0 (Split 473 1.0 (Split 607
  1.0 (Split 912 1.0 (Split 36 1.0 (Split 69 1.0 (Leaf 0.07253904) (Leaf (-0.0573406))) (Split 64
  1.0 (Leaf 0.041902468) (Leaf (-0.035162624)))) (Split 979 1.0 (Split 99 1.0 (Leaf (-0.038065188))
  (Leaf 0.049711645)) (Leaf 0.057772268))) (Split 1019 1.0 (Split 964 1.0 (Split 979 1.0 (Leaf
  0.013671129) (Leaf 0.04928695)) (Leaf (-0.021726958))) (Leaf (-0.054423213)))) (Split 86 1.0
  (Split 678 1.0 (Leaf (-0.0043064402)) (Leaf (-0.031169472))) (Leaf (-0.037048213)))) var8_4291))
  (Split 452 1.0 (Split 36 1.0 (Split 435 1.0 (Split 300 1.0 (Leaf 0.07552864) (Leaf 0.012278376))
  (Leaf 0.017108195)) (Leaf (-0.022570783))) (Leaf (-0.028840223)))) var8_4350) var8_4393)
  var8_4616) var8_4639.

Definition var9_5162 : tree :=
  Split 288 1.0 (Split 979 1.0 (Split 435 1.0 (Split 540 1.0 (Leaf 0.037893753) (Leaf
  (-0.03474371))) (Leaf (-0.051637262))) (Split 670 1.0 (Leaf 0.04969599) (Leaf 0.0))) (Leaf
  (-0.07299328)).

Definition var9_5185 : tree :=
  Split 812 1.0 (Split 540 1.0 (Split 14 1.0 (Split 141 1.0 (Split 300 1.0 (Split 670 1.0 (Leaf
  (-0.07292704)) (Leaf (-0.02498741))) (Leaf (-0.023817336))) (Leaf 0.0)) (Leaf 0.0)) (Split 36 1.0
  (Leaf 0.0) (Leaf (-0.015267745)))) (Leaf 0.026151603).

Definition var9_4880 : tree :=
  Split 870 1.0 (Split 979 1.0 (Split 819 1.0 (Split 986 1.0 (Split 72 1.0 (Split 694 1.0 (Split
  419 1.0 (Split 42 1.0 (Leaf (-0.060285565)) (Leaf (-0.01156161))) (Leaf 0.013449596)) (Leaf
  0.019740134)) (Leaf 0.01682791)) (Leaf 0.029470578)) (Leaf 0.029784292)) (Split 300 1.0 (Leaf
  0.014520614) (Leaf 0.04494182))) (Split 77 1.0 (Leaf 0.013181592) (Leaf 0.03212671)).

Definition var9_5090 : tree :=
  Split 740 1.0 (Split 912 1.0 (Split 592 1.0 (Split 77 1.0 (Split 404 1.0 (Split 5 1.0 (Split 966
  1.0 (Split 149 1.0 (Leaf 0.05998048) (Leaf (-0.010703682))) (Split 300 1.0 (Leaf (-0.0023078204))
  (Leaf 0.008412334))) (Leaf (-0.010431587))) (Leaf (-0.010447334))) (Split 156 1.0 (Split 435 1.0
  (Leaf (-0.02934432)) (Leaf (-0.0027747652))) (Leaf 0.04495608))) (Leaf (-0.02036759))) (Split 300
  1.0 (Split 679 1.0 (Split 574 1.0 (Split 819 1.0 (Split 156 1.0 (Split 670 1.0 (Leaf
  (-0.036407348)) (Leaf (-0.0070055015))) (Leaf 0.011250354)) (Leaf 0.024737261)) (Leaf
  0.030918766)) (Leaf 0.04496123)) (Leaf 0.05307708))) (Leaf (-0.047346283)).

Definition var9_4923 : tree :=
  Split 979 1.0 (Split 99 1.0 (Split 799 1.0 (Split 780 1.0 (Split 55 1.0 (Split 330 1.0 (Split 986
  1.0 (Split 709 1.0 (Split 157 1.0 (Leaf (-0.048982583)) (Leaf 0.043282624)) (Split 789 1.0 (Leaf
  0.05456845) (Leaf (-0.00872177)))) (Split 36 1.0 (Split 392 1.0 (Leaf (-0.019023353)) (Leaf
  0.036057334)) (Leaf 0.046012998))) (Split 607 1.0 (Split 104 1.0 (Leaf 0.06246009) (Leaf
  0.0029094357)) (Leaf 0.0005543969))) (Split 36 1.0 (Split 789 1.0 (Leaf 0.061611433) (Split 300
  1.0 (Leaf (-0.0010682025)) (Leaf 0.041364457))) (Split 156 1.0 (Split 435 1.0 (Leaf 0.0014974314)
  (Leaf 0.010697271)) (Leaf 0.031593453)))) (Split 517 1.0 (Split 104 1.0 (Split 485 1.0 (Split 822
  1.0 (Split 655 1.0 (Leaf 0.068099126) (Leaf 0.030309025)) (Leaf 0.014131975)) (Leaf 0.0)) (Split
  670 1.0 (Split 435 1.0 (Leaf 0.033767905) (Leaf (-0.008894829))) (Leaf (-0.010036081)))) (Leaf
  (-0.03152505)))) (Split 104 1.0 (Split 494 1.0 (Split 357 1.0 (Split 537 1.0 (Split 937 1.0
  (Split 284 1.0 (Leaf 0.06266703) (Leaf 0.009432396)) (Leaf (-0.009459687))) (Leaf
  (-0.013328117))) (Leaf (-0.0074969567))) (Split 435 1.0 (Leaf (-0.020534337)) (Leaf 0.02321248)))
  (Split 300 1.0 (Leaf (-0.016251108)) (Leaf 0.028179)))) (Split 158 1.0 (Split 924 1.0 (Split 65
  1.0 (Split 300 2.0 (Split 702 1.0 (Split 147 1.0 (Split 112 1.0 (Leaf 0.061211076) (Leaf
  0.009832599)) (Leaf 0.0007869008)) (Leaf 0.00031614443)) (Leaf (-0.00631744))) (Split 435 1.0
  (Leaf (-0.02615161)) (Leaf 0.026151603))) (Leaf (-0.02615161))) (Leaf (-0.020550651)))) var9_5090.

Definition var9 : tree :=
  Split 968 1.0 (Split 430 1.0 (Split 540 1.0 (Split 517 1.0 (Split 833 1.0 (Split 156 1.0 (Split
  365 1.0 (Split 979 1.0 (Split 99 1.0 (Split 780 1.0 (Split 799 1.0 (Split 55 1.0 (Leaf
  (-0.043595176)) (Leaf 0.06335717)) (Split 178 1.0 (Leaf 0.06702815) (Leaf (-0.026363257))))
  (Split 65 1.0 (Split 73 1.0 (Leaf 0.06811411) (Leaf (-0.013634364))) (Leaf (-0.033619184))))
  (Split 178 1.0 (Split 944 1.0 (Split 357 1.0 (Leaf 0.07046028) (Leaf 0.01307781)) (Leaf
  (-0.029379526))) (Leaf (-0.026159285)))) (Split 296 1.0 (Split 77 1.0 (Split 668 1.0 (Split 250
  1.0 (Leaf 0.063609585) (Leaf (-0.012014534))) (Leaf (-0.029396096))) (Split 300 1.0 (Split 23 1.0
  (Leaf (-0.041238885)) (Leaf 0.020135103)) (Leaf 0.03801771))) (Split 104 1.0 (Leaf 0.037884742)
  (Leaf (-0.04097369))))) (Split 120 1.0 (Split 979 1.0 (Split 789 1.0 (Split 435 1.0 (Leaf
  (-0.014451205)) (Leaf 0.003977588)) (Leaf (-0.032212105))) (Leaf 0.041193977)) (Leaf
  0.07374892))) (Split 178 1.0 (Split 435 1.0 (Split 473 1.0 (Split 607 1.0 (Split 912 1.0 (Split
  36 1.0 (Leaf 0.0706275) (Leaf 0.03748128)) (Split 979 1.0 (Leaf (-0.017668853)) (Leaf
  0.056373674))) (Split 979 1.0 (Split 912 1.0 (Leaf (-0.005608572)) (Leaf 0.04635302)) (Split 659
  1.0 (Leaf 0.052910008) (Leaf (-0.0035160382))))) (Split 86 1.0 (Split 678 1.0 (Leaf
  (-0.0041354652)) (Leaf (-0.030336723))) (Leaf (-0.036005683)))) (Split 979 1.0 (Split 780 1.0
  (Split 99 1.0 (Split 55 1.0 (Leaf (-0.013504631)) (Leaf 0.048207592)) (Split 156 2.0 (Leaf
  0.06647362) (Leaf 0.019955225))) (Leaf 0.06949081)) (Split 392 1.0 (Split 721 1.0 (Split 488 1.0
  (Leaf 0.072616525) (Leaf 0.023110691)) (Leaf 0.01737365)) (Leaf 0.02259473)))) (Split 670 1.0
  (Split 822 1.0 (Leaf (-0.0482411)) (Leaf (-0.007680694))) (Leaf 0.01636081)))) (Split 452 1.0
  (Split 36 1.0 (Split 435 1.0 (Split 300 1.0 (Leaf 0.073643826) (Leaf 0.011924595)) (Leaf
  0.016539289)) (Leaf (-0.021891207))) (Leaf (-0.027923191)))) var9_4880) var9_4923) var9_5162)
  var9_5185.

Definition var10_5712 : tree :=
  Split 288 1.0 (Split 979 1.0 (Split 435 1.0 (Split 540 1.0 (Leaf 0.036839798) (Leaf
  (-0.033793215))) (Leaf (-0.05042691))) (Split 670 1.0 (Leaf 0.04855194) (Leaf 0.0))) (Leaf
  (-0.071361944)).

Definition var10_5735 : tree :=
  Split 812 1.0 (Split 540 1.0 (Split 14 1.0 (Split 141 1.0 (Split 300 1.0 (Split 435 1.0 (Leaf
  (-0.0712867)) (Leaf (-0.022408163))) (Leaf (-0.023222601))) (Leaf 0.0)) (Leaf 0.0)) (Split 36 1.0
  (Leaf 0.0) (Leaf (-0.014822495)))) (Leaf 0.02548379).

Definition var10_5371 : tree :=
  Split 979 1.0 (Split 780 1.0 (Split 99 1.0 (Split 55 1.0 (Split 799 1.0 (Leaf (-0.025934694))
  (Leaf 0.050118655)) (Split 300 1.0 (Leaf 0.011625408) (Leaf 0.0594153))) (Split 156 2.0 (Leaf
  0.064719625) (Leaf 0.019473517))) (Leaf 0.06763031)) (Split 392 1.0 (Split 721 1.0 (Split 1019
  1.0 (Leaf 0.070909105) (Leaf 0.021850137)) (Leaf 0.016961062)) (Leaf 0.021914363)).

Definition var10_5434 : tree :=
  Split 870 1.0 (Split 979 1.0 (Split 819 1.0 (Split 986 1.0 (Split 72 1.0 (Split 694 1.0 (Split
  419 1.0 (Split 615 1.0 (Leaf (-0.057941347)) (Leaf 0.0076657394)) (Leaf 0.013076166)) (Leaf
  0.01916879)) (Leaf 0.016276574)) (Leaf 0.02853069)) (Leaf 0.02884212)) (Split 300 1.0 (Leaf
  0.01409858) (Leaf 0.043962047))) (Split 77 1.0 (Leaf 0.012686543) (Leaf 0.031261977)).

Definition var10_5660 : tree :=
  Split 740 1.0 (Split 178 1.0 (Split 15 1.0 (Split 631 1.0 (Split 77 1.0 (Split 43 1.0 (Split 248
  1.0 (Split 776 1.0 (Leaf 0.056507815) (Leaf (-0.0030815136))) (Leaf (-0.016969565))) (Leaf
  (-0.016569277))) (Split 156 1.0 (Split 300 1.0 (Leaf (-0.025803927)) (Leaf 0.011755506)) (Leaf
  0.034714654))) (Leaf (-0.02064748))) (Split 912 1.0 (Leaf 0.020909557) (Leaf (-0.03316362))))
  (Split 912 1.0 (Leaf 0.0037232873) (Leaf (-0.027314086)))) (Leaf (-0.046284676)).

Definition var10_5477 : tree :=
  Split 979 1.0 (Split 99 1.0 (Split 799 1.0 (Split 780 1.0 (Split 55 1.0 (Split 330 1.0 (Split 986
  1.0 (Split 345 1.0 (Split 819 1.0 (Leaf (-0.048445687)) (Leaf 0.001931216)) (Split 178 1.0 (Leaf
  0.070268124) (Leaf (-0.05010676)))) (Split 36 1.0 (Split 392 1.0 (Leaf (-0.018338645)) (Leaf
  0.035033043)) (Split 300 1.0 (Leaf 0.05128562) (Leaf 0.015001907)))) (Split 607 1.0 (Split 104
  1.0 (Leaf 0.060667485) (Leaf 0.002830185)) (Leaf 0.0005393561))) (Split 36 1.0 (Split 789 1.0
  (Leaf 0.059828606) (Split 300 1.0 (Leaf (-0.0010390946)) (Leaf 0.040533904))) (Split 156 1.0
  (Split 300 1.0 (Leaf 0.010407355) (Leaf 0.0014410476)) (Leaf 0.030753633)))) (Split 517 1.0
  (Split 104 1.0 (Split 485 1.0 (Split 822 1.0 (Split 655 1.0 (Leaf 0.06641154) (Leaf 0.029362425))
  (Leaf 0.013718675)) (Leaf 0.0)) (Split 670 1.0 (Split 435 1.0 (Leaf 0.032838423) (Leaf
  (-0.0086498))) (Leaf (-0.009758821)))) (Leaf (-0.030693887)))) (Split 138 1.0 (Split 540 2.0
  (Split 995 1.0 (Split 976 1.0 (Leaf 0.058988925) (Leaf 0.010743189)) (Leaf (-0.010202315)))
  (Split 678 1.0 (Split 36 1.0 (Split 670 1.0 (Split 435 1.0 (Leaf (-0.02690123)) (Leaf
  0.0037482243)) (Leaf 0.0437214)) (Leaf (-0.035148673))) (Split 435 1.0 (Leaf 0.05119985) (Leaf
  0.011015836)))) (Split 36 1.0 (Leaf 0.0019246591) (Leaf (-0.017839292))))) (Split 158 1.0 (Split
  924 1.0 (Split 65 1.0 (Split 300 2.0 (Split 397 1.0 (Split 670 2.0 (Split 937 1.0 (Leaf
  0.060670014) (Leaf 0.0026673859)) (Leaf 0.00090523827)) (Split 300 1.0 (Leaf 0.01901167) (Leaf
  (-0.0032101993)))) (Leaf (-0.0061280844))) (Split 435 1.0 (Leaf (-0.02548379)) (Leaf
  0.02548379))) (Leaf (-0.02548379))) (Leaf (-0.019929621)))) var10_5660.

Definition var10 : tree :=
  Split 968 1.0 (Split 430 1.0 (Split 540 1.0 (Split 517 1.0 (Split 833 1.0 (Split 156 1.0 (Split
  365 1.0 (Split 979 1.0 (Split 99 1.0 (Split 780 1.0 (Split 799 1.0 (Split 55 1.0 (Leaf
  (-0.04155822)) (Leaf 0.06091885)) (Split 178 1.0 (Leaf 0.064505965) (Leaf (-0.025691742))))
  (Split 65 1.0 (Split 73 1.0 (Leaf 0.06584872) (Leaf (-0.013252698))) (Leaf (-0.032712255))))
  (Split 178 1.0 (Split 944 1.0 (Split 357 1.0 (Leaf 0.068336315) (Leaf 0.012612671)) (Leaf
  (-0.028436756))) (Leaf (-0.02524582)))) (Split 296 1.0 (Split 77 1.0 (Split 345 1.0 (Split 766
  1.0 (Leaf 0.061704107) (Leaf (-0.028435532))) (Leaf (-0.017308151))) (Split 300 1.0 (Split 23 1.0
  (Leaf (-0.039592423)) (Leaf 0.019647589)) (Leaf 0.03698378))) (Split 104 1.0 (Leaf 0.036832165)
  (Leaf (-0.039344005))))) (Split 120 1.0 (Split 979 1.0 (Split 789 1.0 (Split 435 1.0 (Leaf
  (-0.013912528)) (Leaf 0.0038550056)) (Leaf (-0.03134829))) (Leaf 0.040370457)) (Leaf
  0.07204785))) (Split 435 1.0 (Split 473 1.0 (Split 607 1.0 (Split 912 1.0 (Split 65 1.0 (Split 64
  1.0 (Leaf 0.06824749) (Leaf (-0.008500832))) (Split 678 1.0 (Leaf (-0.037540272)) (Leaf
  0.010249425))) (Split 979 1.0 (Split 99 1.0 (Leaf (-0.03546899)) (Leaf 0.04911174)) (Leaf
  0.055057563))) (Split 1019 1.0 (Split 964 1.0 (Split 979 1.0 (Leaf 0.0131160235) (Leaf
  0.046638783)) (Leaf (-0.021742964))) (Leaf (-0.052876677)))) (Split 86 1.0 (Split 678 1.0 (Leaf
  (-0.0039712726)) (Leaf (-0.029533593))) (Leaf (-0.035005543)))) var10_5371)) (Split 452 1.0
  (Split 36 1.0 (Split 435 1.0 (Split 300 1.0 (Leaf 0.07193672) (Leaf 0.011581401)) (Leaf
  0.015990455)) (Leaf (-0.021235118))) (Leaf (-0.027041903)))) var10_5434) var10_5477) var10_5712)
  var10_5735.

Definition var11_6258 : tree :=
  Split 288 1.0 (Split 979 1.0 (Split 435 1.0 (Split 540 1.0 (Leaf 0.035828512) (Leaf
  (-0.032878954))) (Leaf (-0.049278587))) (Split 670 1.0 (Leaf 0.047463853) (Leaf 0.0))) (Leaf
  (-0.06987753)).

Definition var11_6281 : tree :=
  Split 812 1.0 (Split 540 1.0 (Split 14 1.0 (Split 141 1.0 (Split 300 1.0 (Split 670 1.0 (Leaf
  (-0.06980325)) (Leaf (-0.023260817))) (Leaf (-0.02264581))) (Leaf 0.0)) (Leaf 0.0)) (Split 36 1.0
  (Leaf 0.0) (Leaf (-0.014391092)))) (Leaf 0.02483729).

Definition var11_5964 : tree :=
  Split 870 1.0 (Split 979 1.0 (Split 819 1.0 (Split 986 1.0 (Split 72 1.0 (Split 694 1.0 (Split
  419 1.0 (Split 42 1.0 (Leaf (-0.05671651)) (Leaf (-0.009266566))) (Leaf 0.012713707)) (Leaf
  0.018616004)) (Leaf 0.015744893)) (Leaf 0.027627734)) (Leaf 0.027936516)) (Split 300 1.0 (Leaf
  0.01368954) (Leaf 0.04302485))) (Split 77 1.0 (Leaf 0.012210657) (Leaf 0.030428553)).

Definition var11_6186 : tree :=
  Split 740 1.0 (Split 912 1.0 (Split 355 1.0 (Split 592 1.0 (Split 49 1.0 (Split 735 1.0 (Split 5
  1.0 (Split 149 1.0 (Leaf 0.05717026) (Leaf (-0.005426829))) (Leaf (-0.010855723))) (Leaf
  (-0.0085092755))) (Split 36 1.0 (Split 435 1.0 (Leaf 0.001915918) (Leaf (-0.02576688))) (Leaf
  0.041690927))) (Leaf (-0.021013947))) (Split 435 1.0 (Leaf (-0.014017827)) (Leaf 0.003331843)))
  (Split 300 1.0 (Split 679 1.0 (Split 574 1.0 (Split 819 1.0 (Split 156 1.0 (Split 670 1.0 (Leaf
  (-0.03606845)) (Leaf (-0.006963876))) (Leaf 0.009965971)) (Leaf 0.022704422)) (Leaf 0.029400164))
  (Leaf 0.0427795)) (Leaf 0.05016765))) (Leaf (-0.04527208)).

Definition var11_6007 : tree :=
  Split 979 1.0 (Split 99 1.0 (Split 799 1.0 (Split 780 1.0 (Split 55 1.0 (Split 330 1.0 (Split 986
  1.0 (Split 751 1.0 (Split 575 1.0 (Leaf (-0.046331502)) (Leaf 0.02450199)) (Split 789 1.0 (Leaf
  0.046007596) (Leaf (-0.05119769)))) (Split 36 1.0 (Split 392 1.0 (Leaf (-0.017679965)) (Leaf
  0.034049783)) (Split 300 1.0 (Leaf 0.04956789) (Leaf 0.014577918)))) (Split 607 1.0 (Split 104
  1.0 (Leaf 0.05899213) (Leaf 0.002753094)) (Leaf 0.00052472914))) (Split 36 1.0 (Split 65 1.0
  (Leaf 0.056259286) (Leaf 0.016631113)) (Split 156 1.0 (Split 435 1.0 (Leaf 0.0012834802) (Leaf
  0.010226171)) (Leaf 0.029943397)))) (Split 517 1.0 (Split 104 1.0 (Split 485 1.0 (Split 822 1.0
  (Split 655 1.0 (Leaf 0.064851314) (Leaf 0.028451825)) (Leaf 0.013317913)) (Leaf 0.0)) (Split 670
  1.0 (Split 435 1.0 (Leaf 0.031944346) (Leaf (-0.008411683))) (Leaf (-0.009489478)))) (Leaf
  (-0.02989161)))) (Split 138 1.0 (Split 995 1.0 (Split 540 2.0 (Split 976 1.0 (Split 16 2.0 (Split
  912 1.0 (Leaf 0.060696926) (Leaf 0.024941023)) (Leaf 0.017760606)) (Leaf 0.010391354)) (Split 678
  1.0 (Split 36 1.0 (Split 670 1.0 (Leaf (-0.009570203)) (Leaf 0.042798296)) (Leaf (-0.034163605)))
  (Split 435 1.0 (Leaf 0.047109075) (Leaf 0.010704488)))) (Leaf (-0.009661839))) (Split 36 1.0
  (Leaf 0.0018725531) (Leaf (-0.017335283))))) (Split 158 1.0 (Split 924 1.0 (Split 65 1.0 (Split
  300 2.0 (Split 702 1.0 (Split 147 1.0 (Split 800 1.0 (Leaf 0.05943075) (Leaf 0.022331508)) (Leaf
  0.00016037848)) (Leaf (-0.0011008302))) (Leaf (-0.00594449))) (Split 435 1.0 (Leaf (-0.02483729))
  (Leaf 0.02483729))) (Leaf (-0.02483729))) (Leaf (-0.019329494)))) var11_6186.

Definition var11 : tree :=
  Split 968 1.0 (Split 430 1.0 (Split 540 1.0 (Split 517 1.0 (Split 833 1.0 (Split 156 1.0 (Split
  365 1.0 (Split 979 1.0 (Split 99 1.0 (Split 780 1.0 (Split 799 1.0 (Split 55 1.0 (Leaf
  (-0.039644077)) (Leaf 0.058656704)) (Split 972 1.0 (Leaf 0.062173884) (Leaf (-0.02672325))))
  (Split 65 1.0 (Split 630 1.0 (Leaf 0.06389318) (Leaf (-0.0112987505))) (Leaf (-0.031838737))))
  (Split 178 1.0 (Split 944 1.0 (Split 357 1.0 (Leaf 0.06638039) (Leaf 0.012164137)) (Leaf
  (-0.027531613))) (Leaf (-0.02436958)))) (Split 250 1.0 (Split 77 1.0 (Split 668 1.0 (Split 345
  1.0 (Leaf 0.059872627) (Leaf (-0.016627101))) (Leaf (-0.030564874))) (Split 300 1.0 (Split 23 1.0
  (Leaf (-0.038037576)) (Leaf 0.019173611)) (Leaf 0.035990432))) (Split 617 1.0 (Leaf 0.020225704)
  (Leaf (-0.04753941))))) (Split 120 1.0 (Split 979 1.0 (Split 789 1.0 (Split 435 1.0 (Leaf
  (-0.013394633)) (Leaf 0.0037362042)) (Leaf (-0.030515358))) (Leaf 0.039578643)) (Leaf
  0.07050226))) (Split 178 1.0 (Split 1019 1.0 (Split 670 1.0 (Split 435 1.0 (Split 473 1.0 (Split
  776 1.0 (Leaf 0.06649878) (Leaf 0.00029426784)) (Split 300 1.0 (Leaf (-0.006340315)) (Leaf
  (-0.031572714)))) (Split 979 1.0 (Split 617 1.0 (Leaf 0.02921473) (Leaf (-0.04484087))) (Split
  392 1.0 (Leaf 0.06631603) (Leaf 0.016981464)))) (Split 979 1.0 (Split 780 1.0 (Split 879 1.0
  (Leaf (-0.020611754)) (Leaf 0.048838284)) (Leaf 0.046854127)) (Leaf 0.055092674))) (Split 979 1.0
  (Split 799 1.0 (Split 780 1.0 (Split 679 1.0 (Leaf (-0.047827058)) (Leaf 0.021772554)) (Leaf
  0.03971335)) (Leaf 0.042152133)) (Leaf 0.05133549))) (Split 670 1.0 (Split 822 1.0 (Leaf
  (-0.047427576)) (Leaf (-0.008206591))) (Leaf 0.015669374)))) (Split 452 1.0 (Split 36 1.0 (Split
  435 1.0 (Split 300 1.0 (Leaf 0.07038482) (Leaf 0.011248436)) (Leaf 0.015460826)) (Leaf
  (-0.020601425))) (Leaf (-0.02619434)))) var11_5964) var11_6007) var11_6258) var11_6281.

Definition var12_6784 : tree :=
  Split 288 1.0 (Split 979 1.0 (Split 435 1.0 (Split 540 1.0 (Leaf 0.03485688) (Leaf
  (-0.03199862))) (Leaf (-0.048186846))) (Split 670 1.0 (Leaf 0.04642709) (Leaf 0.0))) (Leaf
  (-0.068522476)).

Definition var12_6683 : tree :=
  Split 284 1.0 (Split 141 1.0 (Split 544 1.0 (Split 112 1.0 (Split 529 1.0 (Leaf 0.06265572) (Leaf
  0.0133249005)) (Leaf (-0.0012476792))) (Leaf 0.0034647204)) (Split 452 1.0 (Split 300 1.0 (Leaf
  0.015327009) (Leaf (-0.029000685))) (Leaf 0.03741165))) (Leaf (-0.014041674)).

Definition var12_6807 : tree :=
  Split 812 1.0 (Split 540 1.0 (Split 14 1.0 (Split 141 1.0 (Split 300 1.0 (Split 435 1.0 (Leaf
  (-0.068439215)) (Leaf (-0.020838505))) (Leaf (-0.022086192))) (Leaf 0.0)) (Leaf 0.0)) (Split 36
  1.0 (Leaf 0.0) (Leaf (-0.013973035)))) (Leaf 0.0242111).

Definition var12_6490 : tree :=
  Split 870 1.0 (Split 979 1.0 (Split 819 1.0 (Split 330 1.0 (Split 72 1.0 (Split 1002 1.0 (Split
  556 1.0 (Split 714 1.0 (Leaf (-0.05456212)) (Leaf 0.009502919)) (Leaf 0.0096544875)) (Leaf
  0.009975572)) (Leaf 0.015232016)) (Leaf 0.035091784)) (Leaf 0.02706529)) (Split 300 1.0 (Leaf
  0.013293013) (Leaf 0.042127162))) (Split 77 1.0 (Leaf 0.011753107) (Leaf 0.029624624)).

Definition var12_6732 : tree :=
  Split 740 1.0 (Split 178 1.0 (Split 15 1.0 (Split 631 1.0 (Split 77 1.0 (Split 43 1.0 (Split 248
  1.0 (Split 776 1.0 (Leaf 0.05329916) (Leaf (-0.0042679403))) (Leaf (-0.018213535))) (Leaf
  (-0.017390575))) (Split 156 1.0 (Split 300 1.0 (Leaf (-0.025948599)) (Leaf 0.0101936655)) (Leaf
  0.032730065))) (Leaf (-0.020804403))) (Split 912 1.0 (Leaf 0.018767474) (Leaf (-0.032233145))))
  (Split 1018 1.0 (Leaf (-0.023217237)) (Leaf 0.008926681))) (Leaf (-0.04430468)).

Definition var12_6533 : tree :=
  Split 979 1.0 (Split 99 1.0 (Split 799 1.0 (Split 780 1.0 (Split 55 1.0 (Split 330 1.0 (Split 819
  1.0 (Split 575 1.0 (Split 157 1.0 (Leaf (-0.04490195)) (Leaf 0.044781268)) (Split 494 1.0 (Leaf
  0.034482308) (Leaf (-0.0023334841)))) (Split 71 1.0 (Split 104 1.0 (Leaf 0.05870322) (Leaf
  0.0063078413)) (Leaf (-0.06586988)))) (Split 607 1.0 (Split 104 1.0 (Leaf 0.057420295) (Leaf
  0.002678105)) (Leaf 0.000510497))) (Split 36 1.0 (Split 789 1.0 (Leaf 0.05671069) (Split 300 1.0
  (Leaf (-0.0021160764)) (Leaf 0.03865188))) (Split 156 1.0 (Split 300 1.0 (Leaf 0.009949829) (Leaf
  0.0012339227)) (Leaf 0.0291611)))) (Split 517 1.0 (Split 104 1.0 (Split 485 1.0 (Split 822 1.0
  (Split 655 1.0 (Leaf 0.063402936) (Leaf 0.02757506)) (Leaf 0.012929256)) (Leaf 0.0)) (Split 670
  1.0 (Split 435 1.0 (Leaf 0.031083494) (Leaf (-0.008180287))) (Leaf (-0.009227794)))) (Leaf
  (-0.02911656)))) (Split 36 1.0 (Split 529 1.0 (Split 104 1.0 (Split 284 1.0 (Split 776 1.0 (Split
  812 1.0 (Leaf 0.06582) (Leaf 0.025685057)) (Leaf 0.0066874363)) (Leaf 0.00078275363)) (Split 300
  1.0 (Leaf (-0.013118691)) (Leaf 0.04554411))) (Leaf (-0.016097598))) (Split 452 1.0 (Split 742
  1.0 (Split 976 1.0 (Split 670 1.0 (Leaf 0.03893319) (Leaf (-0.017103268))) (Leaf (-0.022073034)))
  (Leaf (-0.03477366))) (Split 670 1.0 (Leaf 0.05638767) (Leaf 0.0050816685))))) (Split 441 1.0
  (Split 104 1.0 var12_6683 (Split 452 1.0 (Split 255 1.0 (Split 435 1.0 (Leaf (-0.03956872)) (Leaf
  (-0.0007227128))) (Leaf 0.020315558)) (Leaf 0.036977574))) (Leaf (-0.023029853)))) var12_6732.

Definition var12 : tree :=
  Split 968 1.0 (Split 430 1.0 (Split 540 1.0 (Split 517 1.0 (Split 833 1.0 (Split 156 1.0 (Split
  365 1.0 (Split 979 1.0 (Split 99 1.0 (Split 780 1.0 (Split 799 1.0 (Split 55 1.0 (Leaf
  (-0.037840333)) (Leaf 0.056547124)) (Split 178 1.0 (Leaf 0.060072865) (Leaf (-0.026622204))))
  (Split 65 1.0 (Split 73 1.0 (Leaf 0.061846387) (Leaf (-0.014251086))) (Leaf (-0.030996585))))
  (Split 178 1.0 (Split 944 1.0 (Split 655 1.0 (Leaf 0.064722724) (Leaf 0.013670106)) (Leaf
  (-0.026661957))) (Leaf (-0.023528425)))) (Split 104 1.0 (Split 766 1.0 (Split 77 1.0 (Split 345
  1.0 (Leaf 0.059697505) (Leaf (-0.0069035175))) (Split 300 1.0 (Leaf (-0.013422254)) (Leaf
  0.031546306))) (Leaf (-0.03951716))) (Split 296 1.0 (Split 537 1.0 (Split 349 1.0 (Leaf
  0.04832236) (Leaf (-0.0046778913))) (Leaf (-0.028142521))) (Leaf (-0.040008582))))) (Split 120
  1.0 (Split 979 1.0 (Split 789 1.0 (Split 435 1.0 (Leaf (-0.012896622)) (Leaf 0.0036210676)) (Leaf
  (-0.029711632))) (Leaf 0.038816474)) (Leaf 0.069093265))) (Split 178 1.0 (Split 997 1.0 (Split
  543 1.0 (Split 979 1.0 (Split 99 1.0 (Split 780 1.0 (Leaf (-0.013060833)) (Leaf 0.06734913))
  (Split 930 1.0 (Leaf 0.06625604) (Leaf (-0.002208933)))) (Split 617 1.0 (Split 303 1.0 (Leaf
  0.06675438) (Leaf 0.025053207)) (Split 518 1.0 (Leaf 0.0032112568) (Leaf 0.046361875)))) (Split
  452 1.0 (Leaf 0.06980806) (Leaf 0.015886737))) (Leaf 0.06977704)) (Split 670 1.0 (Split 300 2.0
  (Leaf (-0.045871)) (Leaf (-0.007336402))) (Leaf 0.015233911)))) (Split 452 1.0 (Split 36 1.0
  (Split 435 1.0 (Split 300 1.0 (Leaf 0.06896923) (Leaf 0.010925361)) (Leaf 0.014949612)) (Leaf
  (-0.019989124))) (Leaf (-0.025378633)))) var12_6490) var12_6533) var12_6784) var12_6807.

Definition var13_7346 : tree :=
  Split 288 1.0 (Split 979 1.0 (Split 435 1.0 (Split 540 1.0 (Leaf 0.03392222) (Leaf
  (-0.031150127))) (Leaf (-0.047146864))) (Split 670 1.0 (Leaf 0.045437496) (Leaf 0.0))) (Leaf
  (-0.06728191)).

Definition var13_7369 : tree :=
  Split 812 1.0 (Split 540 1.0 (Split 55 1.0 (Split 14 1.0 (Leaf (-0.06712228)) (Leaf 0.0)) (Leaf
  (-0.0045162924))) (Split 36 1.0 (Leaf 0.0) (Leaf (-0.013567827)))) (Leaf 0.023604278).

Definition var13_6989 : tree :=
  Split 979 1.0 (Split 780 1.0 (Split 99 1.0 (Split 55 1.0 (Split 799 1.0 (Leaf (-0.024469776))
  (Leaf 0.04880009)) (Split 300 1.0 (Leaf 0.010829085) (Leaf 0.057642628))) (Split 156 2.0 (Leaf
  0.06105374) (Leaf 0.018087616))) (Leaf 0.06357006)) (Split 392 1.0 (Split 721 1.0 (Split 488 1.0
  (Leaf 0.06661897) (Leaf 0.0181562)) (Leaf 0.013492353)) (Leaf 0.018877838)).

Definition var13_7052 : tree :=
  Split 870 1.0 (Split 979 1.0 (Split 819 1.0 (Split 986 1.0 (Split 72 1.0 (Split 694 1.0 (Split
  419 1.0 (Split 42 1.0 (Leaf (-0.05360892)) (Leaf (-0.0069885426))) (Leaf 0.013413792)) (Leaf
  0.019277005)) (Leaf 0.014737137)) (Leaf 0.026989607)) (Leaf 0.02622646)) (Split 300 1.0 (Leaf
  0.012908565) (Leaf 0.04126623))) (Split 77 1.0 (Leaf 0.011313103) (Leaf 0.028848538)).

Definition var13_7270 : tree :=
  Split 740 1.0 (Split 912 1.0 (Split 355 1.0 (Split 592 1.0 (Split 49 1.0 (Split 404 1.0 (Split
  255 1.0 (Split 5 1.0 (Leaf 0.055390924) (Leaf (-0.011217724))) (Split 678 1.0 (Leaf 0.02845404)
  (Leaf (-0.015684722)))) (Leaf (-0.01445518))) (Split 36 1.0 (Split 435 1.0 (Leaf 0.00021055697)
  (Leaf (-0.02587372))) (Leaf 0.039794747))) (Leaf (-0.021567235))) (Split 435 1.0 (Leaf
  (-0.014694894)) (Leaf 0.0017885035))) (Split 300 1.0 (Split 679 1.0 (Split 574 1.0 (Split 819 1.0
  (Split 156 1.0 (Split 670 1.0 (Leaf (-0.035808977)) (Leaf (-0.006943138))) (Leaf 0.008587054))
  (Leaf 0.020835659)) (Leaf 0.028014839)) (Leaf 0.040811814)) (Leaf 0.047552552))) (Leaf
  (-0.043379065)).

Definition var13_7095 : tree :=
  Split 979 1.0 (Split 99 1.0 (Split 799 1.0 (Split 780 1.0 (Split 55 1.0 (Split 330 1.0 (Split 709
  1.0 (Split 986 1.0 (Split 345 1.0 (Leaf (-0.04277736)) (Leaf 0.03253521)) (Split 36 1.0 (Leaf
  0.0020911647) (Leaf 0.04294208))) (Split 976 1.0 (Leaf 0.057427406) (Leaf (-0.005900491))))
  (Split 607 1.0 (Split 104 1.0 (Leaf 0.05594022) (Leaf 0.0026051637)) (Leaf 0.00049664633)))
  (Split 36 1.0 (Split 641 1.0 (Leaf 0.053340044) (Leaf 0.014954827)) (Split 156 1.0 (Split 435 1.0
  (Leaf 0.0010862112) (Leaf 0.0097787)) (Leaf 0.02840521)))) (Split 517 1.0 (Split 104 1.0 (Split
  485 1.0 (Split 822 1.0 (Split 655 1.0 (Leaf 0.06205312) (Leaf 0.026730193)) (Leaf 0.012552288))
  (Leaf 0.0)) (Split 670 1.0 (Split 435 1.0 (Leaf 0.030253896) (Leaf (-0.0079553975))) (Leaf
  (-0.008973539)))) (Leaf (-0.028367236)))) (Split 36 1.0 (Split 529 1.0 (Split 104 1.0 (Split 284
  1.0 (Split 776 1.0 (Split 812 1.0 (Leaf 0.06422057) (Leaf 0.024927508)) (Leaf 0.0064996444))
  (Leaf 0.0007615083)) (Split 300 1.0 (Leaf (-0.012657607)) (Leaf 0.044565912))) (Leaf
  (-0.01564688))) (Split 452 1.0 (Split 742 1.0 (Split 976 1.0 (Split 670 1.0 (Leaf 0.037696727)
  (Leaf (-0.016535455))) (Leaf (-0.021409504))) (Leaf (-0.033801142))) (Split 670 1.0 (Leaf
  0.05503399) (Leaf 0.0049434225))))) (Split 158 1.0 (Split 924 1.0 (Split 65 1.0 (Split 300 2.0
  (Split 702 1.0 (Split 670 2.0 (Split 937 1.0 (Leaf 0.055117786) (Leaf 0.006138096)) (Leaf
  (-0.000528923))) (Leaf (-0.0016378694))) (Leaf (-0.006524606))) (Split 435 1.0 (Leaf
  (-0.024466395)) (Leaf 0.023109965))) (Leaf (-0.024879076))) (Leaf (-0.018987484)))) var13_7270.

Definition var13 : tree :=
  Split 968 1.0 (Split 430 1.0 (Split 540 1.0 (Split 517 1.0 (Split 833 1.0 (Split 156 1.0 (Split
  365 1.0 (Split 979 1.0 (Split 99 1.0 (Split 780 1.0 (Split 799 1.0 (Split 55 1.0 (Leaf
  (-0.036136415)) (Leaf 0.054570407)) (Split 972 1.0 (Leaf 0.058032352) (Leaf (-0.027749324))))
  (Split 65 1.0 (Split 630 1.0 (Leaf 0.060160514) (Leaf (-0.012462254))) (Leaf (-0.030183947))))
  (Split 178 1.0 (Split 944 1.0 (Split 357 1.0 (Leaf 0.06292309) (Leaf 0.009712854)) (Leaf
  (-0.025825813))) (Leaf (-0.022720372)))) (Split 250 1.0 (Split 668 1.0 (Split 296 1.0 (Split 77
  1.0 (Leaf 0.056957603) (Leaf 0.0028320416)) (Split 104 1.0 (Leaf 0.028210703) (Leaf
  (-0.033550207)))) (Leaf (-0.031108199))) (Split 617 1.0 (Leaf 0.018264113) (Leaf
  (-0.047596782))))) (Split 120 1.0 (Split 979 1.0 (Split 789 1.0 (Split 435 1.0 (Leaf
  (-0.01241763)) (Leaf 0.003509483)) (Leaf (-0.028935555))) (Leaf 0.038082056)) (Leaf 0.06780489)))
  (Split 435 1.0 (Split 473 1.0 (Split 607 1.0 (Split 912 1.0 (Split 36 1.0 (Split 69 1.0 (Leaf
  0.064370684) (Leaf (-0.061941255))) (Split 979 1.0 (Leaf 0.015264282) (Leaf 0.05622926))) (Split
  979 1.0 (Split 99 1.0 (Leaf (-0.035615243)) (Leaf 0.046167057)) (Leaf 0.05117473))) (Split 1019
  1.0 (Split 964 1.0 (Split 113 1.0 (Leaf 0.027625298) (Leaf (-0.016027799))) (Leaf
  (-0.023408404))) (Leaf (-0.050333925)))) (Split 86 1.0 (Split 678 1.0 (Leaf (-0.0038905647))
  (Leaf (-0.028233955))) (Leaf (-0.033427633)))) var13_6989)) (Split 452 1.0 (Split 36 1.0 (Split
  435 1.0 (Split 300 1.0 (Leaf 0.06767394) (Leaf 0.01061185)) (Leaf 0.014456056)) (Leaf
  (-0.019397255))) (Leaf (-0.024593074)))) var13_7052) var13_7095) var13_7346) var13_7369.

Definition var14_7860 : tree :=
  Split 288 1.0 (Split 979 1.0 (Split 435 1.0 (Split 540 1.0 (Leaf 0.03302213) (Leaf
  (-0.030331561))) (Leaf (-0.046154328))) (Split 670 1.0 (Leaf 0.044491317) (Leaf 0.0))) (Leaf
  (-0.06614313)).

Definition var14_7883 : tree :=
  Split 812 1.0 (Split 540 1.0 (Split 55 1.0 (Split 14 1.0 (Leaf (-0.065972954)) (Leaf 0.0)) (Leaf
  (-0.004390023))) (Split 36 1.0 (Leaf 0.0) (Leaf (-0.013175)))) (Leaf 0.023015944).

Definition var14_7570 : tree :=
  Split 870 1.0 (Split 979 1.0 (Split 819 1.0 (Split 330 1.0 (Split 72 1.0 (Split 1002 1.0 (Split
  615 1.0 (Split 438 1.0 (Leaf (-0.05177893)) (Leaf 0.0038577658)) (Leaf 0.011496058)) (Leaf
  0.010549696)) (Leaf 0.014259502)) (Leaf 0.034333255)) (Leaf 0.025418201)) (Split 300 1.0 (Leaf
  0.012535766) (Leaf 0.04043953))) (Split 77 1.0 (Leaf 0.010889916) (Leaf 0.028098766)).

Definition var14_7804 : tree :=
  Split 178 1.0 (Split 77 1.0 (Split 15 1.0 (Split 631 1.0 (Split 43 1.0 (Split 248 1.0 (Split 776
  1.0 (Split 404 1.0 (Leaf 0.05090341) (Leaf (-0.014047834))) (Split 789 1.0 (Leaf 0.013662404)
  (Leaf (-0.021288956)))) (Leaf (-0.019365102))) (Leaf (-0.018016307))) (Leaf (-0.020924164)))
  (Split 912 1.0 (Leaf 0.016753947) (Leaf (-0.03133576)))) (Split 156 1.0 (Split 300 1.0 (Leaf
  (-0.029449413)) (Leaf 0.0021942954)) (Leaf 0.03069788))) (Split 1018 1.0 (Leaf (-0.029731205))
  (Leaf 0.008522857)).

Definition var14_7613 : tree :=
  Split 979 1.0 (Split 99 1.0 (Split 799 1.0 (Split 780 1.0 (Split 55 1.0 (Split 330 1.0 (Split 819
  1.0 (Split 751 1.0 (Split 438 1.0 (Leaf (-0.04235696)) (Leaf 0.035253044)) (Split 789 1.0 (Leaf
  0.05144849) (Leaf (-0.048138093)))) (Split 475 1.0 (Split 104 1.0 (Leaf 0.057754427) (Leaf
  0.0075402814)) (Leaf (-0.0630886)))) (Split 607 1.0 (Split 104 1.0 (Leaf 0.054541748) (Leaf
  0.0025342053)) (Leaf 0.00048317583))) (Split 36 1.0 (Split 789 1.0 (Leaf 0.053927112) (Split 300
  1.0 (Leaf (-0.0030991638)) (Leaf 0.03693756))) (Split 156 1.0 (Split 300 1.0 (Leaf 0.009515168)
  (Leaf 0.0010429634)) (Leaf 0.027674338)))) (Split 517 1.0 (Split 435 1.0 (Split 976 1.0 (Leaf
  0.0633352) (Leaf 0.021279132)) (Split 789 1.0 (Split 540 2.0 (Split 300 1.0 (Leaf 0.05344505)
  (Leaf 0.0021211747)) (Leaf (-0.0011740585))) (Leaf (-0.037740853)))) (Leaf (-0.027642269))))
  (Split 138 1.0 (Split 540 2.0 (Split 995 1.0 (Split 976 1.0 (Split 16 2.0 (Split 822 1.0 (Leaf
  0.058996916) (Leaf 0.029218523)) (Leaf 0.015189762)) (Leaf 0.009171027)) (Leaf (-0.009533499)))
  (Split 678 1.0 (Split 36 1.0 (Split 670 1.0 (Split 435 1.0 (Leaf (-0.026315445)) (Leaf
  0.0019435786)) (Leaf 0.040107988)) (Leaf (-0.033203937))) (Split 435 1.0 (Leaf 0.04710796) (Leaf
  0.009058527)))) (Split 36 1.0 (Leaf 0.00090514467) (Leaf (-0.017407404))))) (Split 441 1.0 (Split
  104 1.0 (Split 284 1.0 (Split 141 1.0 (Split 112 1.0 (Split 529 1.0 (Split 178 1.0 (Leaf
  0.059663422) (Leaf 0.016881485)) (Leaf 0.011504886)) (Leaf 0.0049458137)) (Split 255 1.0 (Leaf
  (-0.010875878)) (Leaf 0.036154654))) (Leaf (-0.014278824))) (Split 452 1.0 (Split 255 1.0 (Split
  435 1.0 (Leaf (-0.038178217)) (Leaf (-0.0021334908))) (Leaf 0.019149339)) (Leaf 0.035102446)))
  (Leaf (-0.022541603)))) var14_7804.

Definition var14 : tree :=
  Split 968 1.0 (Split 430 1.0 (Split 540 1.0 (Split 517 1.0 (Split 833 1.0 (Split 156 1.0 (Split
  365 1.0 (Split 979 1.0 (Split 99 1.0 (Split 780 1.0 (Split 799 1.0 (Split 55 1.0 (Leaf
  (-0.034523282)) (Leaf 0.052710023)) (Split 337 1.0 (Leaf 0.056166183) (Leaf (-0.029484946))))
  (Split 65 1.0 (Split 77 1.0 (Leaf 0.058956545) (Leaf (-0.0017222837))) (Leaf (-0.029399112))))
  (Split 178 1.0 (Split 944 1.0 (Split 655 1.0 (Leaf 0.061488) (Leaf 0.0112287)) (Leaf
  (-0.025021363))) (Leaf (-0.02194363)))) (Split 104 1.0 (Split 766 1.0 (Split 77 1.0 (Split 996
  1.0 (Leaf 0.057264924) (Leaf 0.012930046)) (Split 300 1.0 (Leaf (-0.012996078)) (Leaf
  0.030656938))) (Leaf (-0.040138863))) (Split 296 1.0 (Split 537 1.0 (Split 349 1.0 (Leaf
  0.045380082) (Leaf (-0.0051544425))) (Leaf (-0.028958282))) (Leaf (-0.037318777))))) (Split 120
  1.0 (Split 979 1.0 (Split 789 1.0 (Split 435 1.0 (Leaf (-0.011956866)) (Leaf 0.0034013425)) (Leaf
  (-0.02818569))) (Leaf 0.03737367)) (Leaf 0.066623546))) (Split 178 1.0 (Split 997 1.0 (Split 543
  1.0 (Split 979 1.0 (Split 99 1.0 (Split 780 1.0 (Leaf (-0.013567281)) (Leaf 0.064649455)) (Split
  1018 1.0 (Leaf 0.06368709) (Leaf (-0.004088235)))) (Split 617 1.0 (Split 303 1.0 (Leaf
  0.064060375) (Leaf 0.022653831)) (Split 156 2.0 (Leaf 0.0009041141) (Leaf 0.044409137)))) (Split
  452 1.0 (Leaf 0.06730087) (Leaf 0.014828016))) (Leaf 0.06726553)) (Split 670 1.0 (Split 822 1.0
  (Split 300 1.0 (Leaf (-0.018819874)) (Leaf (-0.05230645))) (Leaf (-0.007629692))) (Leaf
  0.014597251)))) (Split 812 1.0 (Split 435 1.0 (Split 300 1.0 (Leaf 0.066492565) (Leaf
  0.011147744)) (Leaf (-0.0026383782))) (Leaf (-0.028872272)))) var14_7570) var14_7613) var14_7860)
  var14_7883.

Definition var15_8410 : tree :=
  Split 288 1.0 (Split 979 1.0 (Split 435 1.0 (Split 540 1.0 (Leaf 0.032154396) (Leaf
  (-0.02954118))) (Leaf (-0.045205392))) (Split 670 1.0 (Leaf 0.043585237) (Leaf 0.0))) (Leaf
  (-0.0650952)).

Definition var15_8433 : tree :=
  Split 812 1.0 (Split 540 1.0 (Split 617 1.0 (Split 789 1.0 (Split 435 1.0 (Split 670 1.0 (Leaf
  (-0.06496214)) (Leaf (-0.019579628))) (Leaf (-0.017122764))) (Leaf (-0.016436884))) (Leaf
  (-0.002032527))) (Split 36 1.0 (Leaf 0.0) (Leaf (-0.012794112)))) (Leaf 0.022445282).

Definition var15_8265 : tree :=
  Split 65 1.0 (Split 300 2.0 (Split 397 1.0 (Split 800 1.0 (Split 653 1.0 (Leaf 0.05536374) (Leaf
  0.0036521254)) (Split 540 2.0 (Leaf 0.02905497) (Leaf (-0.005410538)))) (Split 300 1.0 (Leaf
  0.015660858) (Leaf (-0.0064298543)))) (Leaf (-0.007039416))) (Split 435 1.0 (Leaf (-0.024103422))
  (Leaf 0.021638619)).

Definition var15_8072 : tree :=
  Split 870 1.0 (Split 979 1.0 (Split 819 1.0 (Split 986 1.0 (Split 72 1.0 (Split 694 1.0 (Split
  419 1.0 (Split 814 1.0 (Leaf (-0.050490666)) (Leaf 0.0053422046)) (Leaf 0.013738587)) (Leaf
  0.019854335)) (Leaf 0.013798388)) (Leaf 0.026361993)) (Leaf 0.024638863)) (Split 300 1.0 (Leaf
  0.012174199) (Leaf 0.03964478))) (Split 77 1.0 (Leaf 0.01048284) (Leaf 0.02737391)).

Definition var15_8306 : tree :=
  Split 740 1.0 (Split 300 1.0 (Split 912 1.0 (Split 355 1.0 (Split 141 1.0 (Split 592 1.0 (Split
  796 1.0 (Split 5 1.0 (Leaf 0.04852601) (Leaf (-0.011532655))) (Leaf (-0.016220741))) (Leaf
  (-0.022049759))) (Split 540 2.0 (Leaf (-0.035376396)) (Leaf 0.019535368))) (Leaf (-0.04666431)))
  (Split 679 1.0 (Split 574 1.0 (Split 819 1.0 (Split 156 1.0 (Split 670 1.0 (Leaf (-0.035455905))
  (Leaf (-0.006835534))) (Leaf 0.00730588)) (Leaf 0.019097507)) (Leaf 0.026737645)) (Leaf
  0.039015133))) (Split 104 1.0 (Split 995 1.0 (Split 759 1.0 (Split 985 1.0 (Split 879 1.0 (Split
  284 1.0 (Leaf 0.06813308) (Leaf 0.018599123)) (Leaf 0.01513378)) (Leaf 0.011887455)) (Split 435
  1.0 (Leaf (-0.008794503)) (Leaf 0.03499364))) (Leaf (-0.00560837))) (Split 976 1.0 (Split 300 2.0
  (Split 540 2.0 (Split 156 1.0 (Leaf 0.02391732) (Leaf (-0.012953976))) (Leaf (-0.021353014)))
  (Leaf 0.03503723)) (Leaf 0.04109095)))) (Leaf (-0.04255449)).

Definition var15_8115 : tree :=
  Split 979 1.0 (Split 99 1.0 (Split 799 1.0 (Split 780 1.0 (Split 55 1.0 (Split 330 1.0 (Split 709
  1.0 (Split 986 1.0 (Split 157 1.0 (Leaf (-0.03975283)) (Leaf 0.04575222)) (Split 104 1.0 (Leaf
  0.03722249) (Leaf (-0.003341604)))) (Split 976 1.0 (Leaf 0.05667266) (Leaf (-0.0048839133))))
  (Split 607 1.0 (Split 104 1.0 (Leaf 0.05321609) (Leaf 0.0024651864)) (Leaf 0.000470068))) (Split
  36 1.0 (Split 789 1.0 (Split 392 1.0 (Leaf 0.05537361) (Leaf 0.016493347)) (Split 300 1.0 (Leaf
  (-0.0030144544)) (Leaf 0.036268193))) (Split 156 1.0 (Split 435 1.0 (Leaf 0.00090450555) (Leaf
  0.009353474)) (Leaf 0.026967196)))) (Split 517 1.0 (Split 435 1.0 (Split 104 1.0 (Split 607 1.0
  (Leaf 0.06394569) (Leaf 0.014424334)) (Leaf 0.01539725)) (Split 789 1.0 (Split 540 2.0 (Split 300
  1.0 (Leaf 0.05210365) (Leaf 0.002053551)) (Leaf (-0.0011367123))) (Leaf (-0.03668501)))) (Leaf
  (-0.026940385)))) (Split 36 1.0 (Split 529 1.0 (Split 104 1.0 (Split 284 1.0 (Split 776 1.0
  (Split 812 1.0 (Leaf 0.061859723) (Leaf 0.02318092)) (Leaf 0.0056042094)) (Leaf
  (-0.00037240388))) (Split 300 1.0 (Leaf (-0.012682641)) (Leaf 0.04289597))) (Leaf (-0.01574147)))
  (Split 452 1.0 (Split 742 1.0 (Split 976 1.0 (Split 670 1.0 (Leaf 0.035359647) (Leaf
  (-0.016270876))) (Leaf (-0.020950897))) (Leaf (-0.03330276))) (Split 670 1.0 (Leaf 0.053067755)
  (Leaf 0.0042208727))))) (Split 924 1.0 (Split 158 1.0 var15_8265 (Leaf (-0.018650396))) (Leaf
  (-0.025234474)))) var15_8306.

Definition var15 : tree :=
  Split 968 1.0 (Split 430 1.0 (Split 540 1.0 (Split 517 1.0 (Split 833 1.0 (Split 156 1.0 (Split
  365 1.0 (Split 979 1.0 (Split 99 1.0 (Split 780 1.0 (Split 799 1.0 (Split 55 1.0 (Leaf
  (-0.032993134)) (Leaf 0.050952006)) (Split 178 1.0 (Leaf 0.05448555) (Leaf (-0.028892888))))
  (Split 65 1.0 (Split 630 1.0 (Leaf 0.056884643) (Leaf (-0.013900968))) (Leaf (-0.028640537))))
  (Split 178 1.0 (Split 944 1.0 (Split 357 1.0 (Leaf 0.059905063) (Leaf 0.0074581965)) (Leaf
  (-0.024246925))) (Leaf (-0.021196539)))) (Split 250 1.0 (Split 668 1.0 (Split 766 1.0 (Split 296
  1.0 (Leaf 0.05360132) (Leaf (-0.006942117))) (Leaf (-0.02886355))) (Leaf (-0.031321254))) (Split
  617 1.0 (Leaf 0.016437072) (Leaf (-0.047340136))))) (Split 120 1.0 (Split 979 1.0 (Split 789 1.0
  (Split 435 1.0 (Leaf (-0.0115135545)) (Leaf 0.0032965373)) (Leaf (-0.02746071))) (Leaf
  0.03668974)) (Leaf 0.06553759))) (Split 178 1.0 (Split 997 1.0 (Split 543 1.0 (Split 979 1.0
  (Split 99 1.0 (Split 780 1.0 (Leaf (-0.012862277)) (Leaf 0.06316935)) (Split 930 1.0 (Leaf
  0.062349062) (Leaf (-0.0040856707)))) (Split 617 1.0 (Split 721 1.0 (Leaf 0.06274758) (Leaf
  0.021602454)) (Split 518 1.0 (Leaf 0.00080125517) (Leaf 0.043624233)))) (Split 452 1.0 (Leaf
  0.06616189) (Leaf 0.014484716))) (Leaf 0.066118665)) (Split 670 1.0 (Split 300 2.0 (Leaf
  (-0.04407514)) (Leaf (-0.006854232))) (Leaf 0.014195238)))) (Split 452 1.0 (Split 36 1.0 (Split
  435 1.0 (Split 300 1.0 (Leaf 0.065393396) (Leaf 0.010184593)) (Leaf 0.014066388)) (Leaf
  (-0.019607894))) (Leaf (-0.023447728)))) var15_8072) var15_8115) var15_8410) var15_8433.

Definition var16_8932 : tree :=
  Split 288 1.0 (Split 979 1.0 (Split 435 1.0 (Split 540 1.0 (Leaf 0.03131703) (Leaf
  (-0.028777404))) (Leaf (-0.044296604))) (Split 670 1.0 (Leaf 0.04271624) (Leaf 0.0))) (Leaf
  (-0.06412869)).

Definition var16_8955 : tree :=
  Split 812 1.0 (Split 540 1.0 (Split 55 1.0 (Split 435 1.0 (Leaf (-0.06394158)) (Leaf
  (-0.018562077))) (Leaf (-0.003508312))) (Split 36 1.0 (Leaf 0.0) (Leaf (-0.012424756)))) (Leaf
  0.02189153).

Definition var16_8646 : tree :=
  Split 870 1.0 (Split 979 1.0 (Split 330 1.0 (Split 819 1.0 (Split 1002 1.0 (Split 438 1.0 (Split
  99 1.0 (Split 435 2.0 (Leaf (-0.050158788)) (Leaf (-0.009044624))) (Leaf 0.0068177343)) (Leaf
  0.012006457)) (Leaf 0.010798906)) (Leaf 0.023886932)) (Leaf 0.033593293)) (Split 300 1.0 (Leaf
  0.011823497) (Leaf 0.038879886))) (Split 77 1.0 (Leaf 0.010091214) (Leaf 0.02667267)).

Definition var16_8868 : tree :=
  Split 740 1.0 (Split 330 1.0 (Split 912 1.0 (Split 355 1.0 (Split 43 1.0 (Split 255 1.0 (Split 49
  1.0 (Split 540 3.0 (Leaf 0.04988138) (Leaf (-0.012209475))) (Split 435 1.0 (Leaf 0.01004056)
  (Leaf (-0.017260814)))) (Split 396 1.0 (Split 36 1.0 (Leaf (-0.0330451)) (Leaf 0.0063610966))
  (Leaf 0.038679276))) (Leaf (-0.031432938))) (Leaf (-0.024441978))) (Split 300 1.0 (Split 36 1.0
  (Split 822 1.0 (Leaf (-0.022342345)) (Leaf 0.009573233)) (Leaf 0.027973145)) (Split 607 1.0 (Leaf
  0.0409233) (Leaf 0.010959527)))) (Leaf 0.06610485)) (Leaf (-0.041701075)).

Definition var16_8689 : tree :=
  Split 979 1.0 (Split 99 1.0 (Split 799 1.0 (Split 780 1.0 (Split 55 1.0 (Split 330 1.0 (Split 479
  1.0 (Split 986 1.0 (Split 575 1.0 (Leaf (-0.034308545)) (Leaf 0.0346349)) (Split 104 1.0 (Leaf
  0.041592177) (Leaf 0.001900373))) (Split 267 1.0 (Split 168 1.0 (Leaf (-0.068018585)) (Leaf
  (-0.012770715))) (Leaf 0.010874118))) (Split 607 1.0 (Split 104 1.0 (Leaf 0.051955607) (Leaf
  0.0023980502)) (Leaf 0.0004573188))) (Split 36 1.0 (Split 641 1.0 (Leaf 0.049520627) (Leaf
  0.013259159)) (Split 156 1.0 (Split 300 1.0 (Leaf 0.009102068) (Leaf 0.00086707884)) (Leaf
  0.026282592)))) (Split 517 1.0 (Split 435 1.0 (Split 976 1.0 (Leaf 0.060734387) (Leaf
  0.01946346)) (Split 789 1.0 (Split 540 2.0 (Split 300 1.0 (Leaf 0.05082355) (Leaf 0.0019880754))
  (Leaf (-0.0011005665))) (Leaf (-0.035670955)))) (Leaf (-0.026260426)))) (Split 138 1.0 (Split 540
  2.0 (Split 995 1.0 (Split 976 1.0 (Split 800 1.0 (Split 822 1.0 (Leaf 0.058955777) (Leaf
  0.02327442)) (Leaf 0.02218973)) (Leaf 0.008486851)) (Leaf (-0.009194544))) (Split 678 1.0 (Split
  36 1.0 (Split 670 1.0 (Split 435 1.0 (Leaf (-0.025745904)) (Leaf 0.0009775958)) (Leaf
  0.038540952)) (Leaf (-0.03228223))) (Split 435 1.0 (Leaf 0.045227733) (Leaf 0.008191099))))
  (Split 36 1.0 (Leaf 0.00045940126) (Leaf (-0.017177278))))) (Split 924 1.0 (Split 158 1.0 (Split
  65 1.0 (Split 300 2.0 (Split 540 3.0 (Split 800 1.0 (Split 653 1.0 (Leaf 0.053857137) (Leaf
  0.0035488214)) (Split 540 2.0 (Leaf 0.031202499) (Leaf (-0.013610314)))) (Leaf 0.0031745613))
  (Leaf (-0.006828777))) (Split 435 1.0 (Leaf (-0.023500381)) (Leaf 0.021108588))) (Leaf
  (-0.018092891))) (Leaf (-0.024595961)))) var16_8868.

Definition var16 : tree :=
  Split 968 1.0 (Split 430 1.0 (Split 540 1.0 (Split 517 1.0 (Split 833 1.0 (Split 156 1.0 (Split
  365 1.0 (Split 979 1.0 (Split 99 1.0 (Split 780 1.0 (Split 799 1.0 (Split 55 1.0 (Leaf
  (-0.031539217)) (Leaf 0.0492845)) (Split 874 1.0 (Leaf 0.052760173) (Leaf (-0.03176738)))) (Split
  65 1.0 (Split 77 1.0 (Leaf 0.055870857) (Leaf (-0.0037166893))) (Leaf (-0.027906794)))) (Split
  178 1.0 (Split 944 1.0 (Split 655 1.0 (Leaf 0.05864069) (Leaf 0.008966605)) (Leaf
  (-0.023500934))) (Leaf (-0.02047757)))) (Split 104 1.0 (Split 766 1.0 (Split 77 1.0 (Split 345
  1.0 (Leaf 0.05416117) (Leaf (-0.012643036))) (Split 300 1.0 (Leaf (-0.014635431)) (Leaf
  0.02850837))) (Leaf (-0.037700344))) (Split 296 1.0 (Split 537 1.0 (Split 349 1.0 (Leaf
  0.042654645) (Leaf (-0.0058615943))) (Leaf (-0.029270366))) (Leaf (-0.035706975))))) (Split 120
  1.0 (Split 979 1.0 (Split 789 1.0 (Split 435 1.0 (Leaf (-0.011086987)) (Leaf 0.0031949591)) (Leaf
  (-0.026759377))) (Leaf 0.036028814)) (Leaf 0.06453696))) (Split 997 1.0 (Split 543 1.0 (Split 979
  1.0 (Split 99 1.0 (Split 780 1.0 (Split 55 1.0 (Leaf (-0.025126858)) (Leaf 0.05506822)) (Split 47
  1.0 (Leaf 0.06476664) (Leaf 0.01559165))) (Split 1018 1.0 (Leaf 0.061655518) (Leaf
  (-0.0048689055)))) (Split 617 1.0 (Split 303 1.0 (Split 721 1.0 (Leaf 0.063399136) (Leaf
  0.02097696)) (Split 300 1.0 (Leaf (-0.00288294)) (Leaf 0.03614101))) (Split 156 2.0 (Split 300
  1.0 (Leaf (-0.016041523)) (Leaf 0.014127924)) (Leaf 0.042917114)))) (Split 452 1.0 (Leaf
  0.065189324) (Leaf (-0.0023042734)))) (Leaf 0.06497184))) (Split 812 1.0 (Split 435 1.0 (Split
  300 1.0 (Leaf 0.06439195) (Leaf 0.010852507)) (Leaf (-0.0025915317))) (Leaf (-0.028358549))))
  var16_8646) var16_8689) var16_8932) var16_8955.

Definition var17_9490 : tree :=
  Split 288 1.0 (Split 979 1.0 (Split 435 1.0 (Split 540 1.0 (Leaf 0.03050823) (Leaf
  (-0.028038776))) (Leaf (-0.043424886))) (Split 670 1.0 (Leaf 0.041881587) (Leaf 0.0))) (Leaf
  (-0.06323541)).

Definition var17_9513 : tree :=
  Split 812 1.0 (Split 540 1.0 (Split 617 1.0 (Split 789 1.0 (Split 435 1.0 (Split 670 1.0 (Leaf
  (-0.06308692)) (Leaf (-0.017611342))) (Leaf (-0.016277976))) (Leaf (-0.015352206))) (Leaf
  (-0.0014103863))) (Split 36 1.0 (Leaf 0.0) (Leaf (-0.012066521)))) (Leaf 0.021353958).

Definition var17_9164 : tree :=
  Split 986 1.0 (Split 870 1.0 (Split 979 1.0 (Split 819 1.0 (Split 72 1.0 (Split 694 1.0 (Split
  419 1.0 (Split 42 1.0 (Leaf (-0.048275393)) (Leaf (-0.001894179))) (Leaf 0.013991316)) (Leaf
  0.020044252)) (Leaf 0.014174354)) (Leaf 0.023161009)) (Split 300 1.0 (Leaf 0.0033803897) (Leaf
  0.038142946))) (Split 77 1.0 (Leaf 0.004932838) (Leaf 0.025993872))) (Leaf 0.034256097).

Definition var17_9359 : tree :=
  Split 441 1.0 (Split 104 1.0 (Split 284 1.0 (Split 141 1.0 (Split 112 1.0 (Split 529 1.0 (Split
  178 1.0 (Leaf 0.056442775) (Leaf 0.015486689)) (Leaf 0.008499823)) (Leaf 0.0021685332)) (Split
  678 1.0 (Leaf 0.025353018) (Leaf (-0.018701455)))) (Leaf (-0.015425858))) (Split 452 1.0 (Split
  255 1.0 (Split 435 1.0 (Leaf (-0.03711646)) (Leaf (-0.003702006))) (Leaf 0.016955404)) (Leaf
  0.032134663))) (Leaf (-0.02206806)).

Definition var17_9406 : tree :=
  Split 178 1.0 (Split 77 1.0 (Split 300 1.0 (Split 631 1.0 (Split 15 1.0 (Split 355 1.0 (Split 776
  1.0 (Split 255 1.0 (Leaf 0.044567186) (Leaf (-0.0015729992))) (Leaf (-0.026748357))) (Leaf
  (-0.030056117))) (Split 912 1.0 (Leaf (-0.0062393486)) (Leaf (-0.030389154)))) (Leaf
  (-0.040069003))) (Split 995 1.0 (Split 104 1.0 (Split 879 1.0 (Split 529 1.0 (Split 49 1.0 (Leaf
  0.065628015) (Leaf 0.021911751)) (Leaf 0.011305696)) (Leaf 0.013721287)) (Split 976 1.0 (Split
  156 1.0 (Split 540 2.0 (Leaf 0.024507927) (Leaf (-0.009622362))) (Leaf (-0.0073083225))) (Leaf
  0.03966983))) (Leaf (-0.0064694146)))) (Split 156 1.0 (Split 300 1.0 (Leaf (-0.029377071)) (Leaf
  0.00027073213)) (Leaf 0.028160661))) (Split 1018 1.0 (Leaf (-0.029853348)) (Leaf 0.0081623625)).

Definition var17_9207 : tree :=
  Split 979 1.0 (Split 99 1.0 (Split 799 1.0 (Split 780 1.0 (Split 55 1.0 (Split 330 1.0 (Split 819
  1.0 (Split 345 1.0 (Split 438 1.0 (Leaf (-0.03823002)) (Leaf 0.04099333)) (Split 178 1.0 (Leaf
  0.07487427) (Leaf (-0.045110792)))) (Split 776 1.0 (Split 104 1.0 (Leaf 0.058255732) (Leaf
  0.009974709)) (Leaf (-0.059850838)))) (Split 607 1.0 (Split 104 1.0 (Leaf 0.050753605) (Leaf
  0.002332733)) (Leaf 0.0004449107))) (Split 36 1.0 (Split 789 1.0 (Split 392 1.0 (Leaf 0.05314964)
  (Leaf 0.014939614)) (Split 300 1.0 (Leaf (-0.0038911717)) (Leaf 0.034752816))) (Split 156 1.0
  (Split 435 1.0 (Leaf 0.0007373031) (Leaf 0.008949236)) (Leaf 0.025619427)))) (Split 517 1.0
  (Split 104 1.0 (Split 435 1.0 (Split 607 1.0 (Leaf 0.061700147) (Leaf 0.013330172)) (Split 300
  1.0 (Leaf 0.035059877) (Leaf (-0.0029465277)))) (Split 670 1.0 (Split 435 1.0 (Leaf 0.025849072)
  (Leaf (-0.008056501))) (Leaf (-0.009280829)))) (Leaf (-0.025601322)))) (Split 36 1.0 (Split 529
  1.0 (Split 104 1.0 (Split 284 1.0 (Split 776 1.0 (Split 812 1.0 (Leaf 0.05978158) (Leaf
  0.021525802)) (Leaf 0.0048352825)) (Leaf (-0.0012701432))) (Split 300 1.0 (Leaf (-0.012695449))
  (Leaf 0.04134604))) (Leaf (-0.015833786))) (Split 452 1.0 (Split 128 1.0 (Split 812 1.0 (Split
  156 1.0 (Leaf (-0.033714887)) (Leaf (-0.0009794881))) (Leaf 0.021711519)) (Leaf 0.025248056))
  (Split 670 1.0 (Leaf 0.05133856) (Leaf 0.003530604))))) var17_9359) var17_9406.

Definition var17 : tree :=
  Split 968 1.0 (Split 430 1.0 (Split 540 1.0 (Split 517 1.0 (Split 833 1.0 (Split 156 1.0 (Split
  365 1.0 (Split 979 1.0 (Split 99 1.0 (Split 780 1.0 (Split 799 1.0 (Split 55 1.0 (Leaf
  (-0.030155672)) (Leaf 0.047697406)) (Split 337 1.0 (Leaf 0.05115613) (Leaf (-0.031944316))))
  (Split 65 1.0 (Split 73 1.0 (Leaf 0.053894173) (Leaf (-0.018956551))) (Leaf (-0.027196584))))
  (Split 178 1.0 (Split 944 1.0 (Split 980 1.0 (Leaf 0.05658738) (Leaf (-0.015115204))) (Leaf
  (-0.022781951))) (Leaf (-0.01978533)))) (Split 250 1.0 (Split 668 1.0 (Split 77 1.0 (Split 345
  1.0 (Leaf 0.051499456) (Leaf (-0.022078741))) (Split 452 1.0 (Leaf (-0.016246498)) (Leaf
  0.04192968))) (Leaf (-0.031663273))) (Split 617 1.0 (Leaf 0.014754869) (Leaf (-0.047256153)))))
  (Split 120 1.0 (Split 979 1.0 (Split 789 1.0 (Split 435 1.0 (Leaf (-0.010676473)) (Leaf
  0.0030965186)) (Leaf (-0.026080538))) (Leaf 0.03538957)) (Leaf 0.06361295))) (Split 997 1.0
  (Split 543 1.0 (Split 979 1.0 (Split 99 1.0 (Split 780 1.0 (Split 799 1.0 (Leaf (-0.023406671))
  (Leaf 0.059181627)) (Split 995 1.0 (Leaf 0.06383131) (Leaf 0.016261155))) (Split 930 1.0 (Split
  16 1.0 (Leaf 0.06299658) (Leaf 0.020560294)) (Leaf (-0.004846961)))) (Split 617 1.0 (Split 303
  1.0 (Split 721 1.0 (Leaf 0.06224662) (Leaf 0.020369614)) (Split 300 1.0 (Leaf (-0.0027975382))
  (Leaf 0.035514604))) (Split 518 1.0 (Split 104 1.0 (Leaf 0.008019239) (Leaf (-0.012299046)))
  (Leaf 0.042129118)))) (Split 452 1.0 (Leaf 0.0642201) (Leaf (-0.002234515)))) (Split 128 1.0
  (Split 812 1.0 (Leaf 0.06418235) (Leaf 0.017288735)) (Leaf 0.022375671)))) (Split 812 1.0 (Split
  435 1.0 (Split 300 1.0 (Leaf 0.06345918) (Leaf 0.010500754)) (Leaf (-0.0024915722))) (Leaf
  (-0.027467743)))) var17_9164) var17_9207) var17_9490) var17_9513.

Definition var18_10048 : tree :=
  Split 288 1.0 (Split 979 1.0 (Split 435 1.0 (Split 540 1.0 (Leaf 0.029726345) (Leaf
  (-0.027323967))) (Leaf (-0.042587455))) (Split 670 1.0 (Leaf 0.04107886) (Leaf 0.0))) (Leaf
  (-0.06240818)).

Definition var18_10071 : tree :=
  Split 812 1.0 (Split 540 1.0 (Split 55 1.0 (Split 435 1.0 (Leaf (-0.062199753)) (Leaf
  (-0.017650811))) (Leaf (-0.0026889904))) (Split 36 1.0 (Leaf 0.0) (Leaf (-0.011719022)))) (Leaf
  0.020831913).

Definition var18_9929 : tree :=
  Split 924 1.0 (Split 158 1.0 (Split 65 1.0 (Split 300 2.0 (Split 702 1.0 (Split 147 1.0 (Split
  112 1.0 (Leaf 0.049143385) (Leaf 0.0021071548)) (Leaf (-0.0041292575))) (Leaf (-0.0050116703)))
  (Leaf (-0.0072723837))) (Split 435 1.0 (Leaf (-0.023151962)) (Leaf 0.01981285))) (Leaf
  (-0.017768135))) (Leaf (-0.024900746)).

Definition var18_9734 : tree :=
  Split 870 1.0 (Split 979 1.0 (Split 330 1.0 (Split 819 1.0 (Split 438 1.0 (Split 435 2.0 (Split
  694 1.0 (Split 99 1.0 (Leaf (-0.04795344)) (Leaf 0.016306613)) (Leaf 0.019462727)) (Leaf
  (-0.0013036239))) (Leaf 0.012518066)) (Leaf 0.022459816)) (Leaf 0.032782637)) (Split 300 1.0
  (Leaf 0.011240544) (Leaf 0.03743222))) (Split 77 1.0 (Leaf 0.009447732) (Leaf 0.0253364)).

Definition var18_9964 : tree :=
  Split 740 1.0 (Split 330 1.0 (Split 300 1.0 (Split 912 1.0 (Split 355 1.0 (Split 141 1.0 (Split
  592 1.0 (Split 796 1.0 (Leaf 0.03968944) (Leaf (-0.017009996))) (Leaf (-0.022949247))) (Split 540
  2.0 (Leaf (-0.045023944)) (Leaf 0.018125882))) (Leaf (-0.043445103))) (Split 679 1.0 (Split 574
  1.0 (Split 435 1.0 (Leaf (-0.03405428)) (Split 156 1.0 (Leaf (-0.0048114248)) (Leaf
  0.0033061074))) (Leaf 0.02518626)) (Leaf 0.037766572))) (Split 104 1.0 (Split 678 1.0 (Split 641
  1.0 (Leaf 0.06427219) (Leaf 0.010364254)) (Split 976 1.0 (Leaf 0.019265) (Leaf
  (-0.00019994726)))) (Split 822 1.0 (Split 540 2.0 (Split 156 1.0 (Leaf 0.027666558) (Leaf
  (-0.0071655945))) (Leaf (-0.013942673))) (Leaf 0.037400268)))) (Leaf 0.06397791)) (Leaf
  (-0.0409124)).

Definition var18_9777 : tree :=
  Split 979 1.0 (Split 99 1.0 (Split 799 1.0 (Split 780 1.0 (Split 55 1.0 (Split 330 1.0 (Split 479
  1.0 (Split 986 1.0 (Split 575 1.0 (Leaf (-0.0318257)) (Leaf 0.034223482)) (Split 908 1.0 (Leaf
  0.03663285) (Leaf (-0.008807488)))) (Split 267 1.0 (Split 168 1.0 (Leaf (-0.06573123)) (Leaf
  (-0.011975142))) (Leaf 0.011639861))) (Split 300 1.0 (Split 540 2.0 (Leaf 0.056480538) (Leaf
  0.010555616)) (Split 452 1.0 (Leaf (-0.0036469612)) (Leaf 0.018104022)))) (Split 36 1.0 (Split 16
  1.0 (Split 540 2.0 (Leaf 0.05290967) (Leaf 0.02030651)) (Leaf 0.011786024)) (Split 156 1.0 (Split
  300 1.0 (Leaf 0.008709297) (Leaf 0.000705256)) (Leaf 0.02497669)))) (Split 517 1.0 (Split 104 1.0
  (Split 435 1.0 (Split 607 1.0 (Leaf 0.060625374) (Leaf 0.0130183045)) (Split 300 1.0 (Leaf
  0.03404347) (Leaf (-0.0028514788)))) (Split 670 1.0 (Split 435 1.0 (Leaf 0.02519463) (Leaf
  (-0.007835326))) (Leaf (-0.009025498)))) (Leaf (-0.024962083)))) (Split 138 1.0 (Split 540 2.0
  (Split 995 1.0 (Split 976 1.0 (Split 1018 1.0 (Split 822 1.0 (Leaf 0.05458616) (Leaf
  0.024937963)) (Leaf 0.012877317)) (Leaf 0.007638482)) (Leaf (-0.0090390025))) (Split 678 1.0
  (Split 36 1.0 (Split 670 1.0 (Split 435 1.0 (Leaf (-0.025173767)) (Leaf 0.00008247993)) (Leaf
  0.03710302)) (Leaf (-0.031506926))) (Split 435 1.0 (Leaf 0.043718543) (Leaf 0.0074567026))))
  (Split 36 1.0 (Leaf 0.00005415685) (Leaf (-0.016928963))))) var18_9929) var18_9964.

Definition var18 : tree :=
  Split 968 1.0 (Split 430 1.0 (Split 540 1.0 (Split 517 1.0 (Split 833 1.0 (Split 156 1.0 (Split
  365 1.0 (Split 979 1.0 (Split 99 1.0 (Split 780 1.0 (Split 799 1.0 (Split 55 1.0 (Leaf
  (-0.028837357)) (Leaf 0.04618207)) (Split 178 1.0 (Leaf 0.049769145) (Leaf (-0.030883355))))
  (Split 65 1.0 (Split 77 1.0 (Leaf 0.05308519) (Leaf (-0.0052785384))) (Leaf (-0.026508713))))
  (Split 178 1.0 (Split 944 1.0 (Split 357 1.0 (Leaf 0.056004107) (Leaf 0.0033385772)) (Leaf
  (-0.02208863))) (Leaf (-0.019118512)))) (Split 104 1.0 (Split 766 1.0 (Split 996 1.0 (Split 300
  1.0 (Leaf 0.044743165) (Leaf 0.061041232)) (Split 789 1.0 (Leaf 0.021381695) (Leaf
  (-0.03299048)))) (Leaf (-0.038183484))) (Split 296 1.0 (Split 537 1.0 (Split 349 1.0 (Leaf
  0.04014124) (Leaf (-0.0060958033))) (Leaf (-0.029842312))) (Leaf (-0.03617641))))) (Split 120 1.0
  (Split 979 1.0 (Split 789 1.0 (Split 435 1.0 (Leaf (-0.010281369)) (Leaf 0.0030011071)) (Leaf
  (-0.025423134))) (Leaf 0.03477078)) (Leaf 0.06275799))) (Split 997 1.0 (Split 543 1.0 (Split 979
  1.0 (Split 99 1.0 (Split 55 1.0 (Split 780 1.0 (Leaf (-0.02315206)) (Leaf 0.058931913)) (Split
  156 3.0 (Leaf 0.060061585) (Leaf (-0.010405729)))) (Split 1018 1.0 (Leaf 0.059399128) (Leaf
  (-0.005620181)))) (Split 617 1.0 (Split 303 1.0 (Split 721 1.0 (Leaf 0.061166894) (Leaf
  0.019779757)) (Split 300 1.0 (Leaf (-0.0027146954)) (Leaf 0.034907445))) (Split 156 2.0 (Split
  300 1.0 (Leaf (-0.015680945)) (Leaf 0.013544797)) (Leaf 0.041497737)))) (Split 452 1.0 (Leaf
  0.06332425) (Leaf (-0.0021668742)))) (Split 128 1.0 (Split 812 1.0 (Leaf 0.06328654) (Leaf
  0.016897766)) (Leaf 0.021835873)))) (Split 812 1.0 (Split 435 1.0 (Split 300 1.0 (Leaf
  0.06259506) (Leaf 0.010160665)) (Leaf (-0.0023954727))) (Leaf (-0.026611133)))) var18_9734)
  var18_9777) var18_10048) var18_10071.

Definition var19_10578 : tree :=
  Split 288 1.0 (Split 979 1.0 (Split 678 1.0 (Split 435 1.0 (Split 300 1.0 (Leaf 0.049229395)
  (Leaf (-0.008665554))) (Leaf (-0.039583024))) (Leaf (-0.04692461))) (Split 670 1.0 (Leaf
  0.040305838) (Leaf 0.0))) (Leaf (-0.06164073)).

Definition var19_10605 : tree :=
  Split 812 1.0 (Split 540 1.0 (Split 617 1.0 (Split 789 1.0 (Split 435 1.0 (Split 670 1.0 (Leaf
  (-0.06147492)) (Leaf (-0.015752751))) (Leaf (-0.015478796))) (Leaf (-0.014335579))) (Leaf
  (-0.00083724904))) (Split 36 1.0 (Leaf 0.0) (Leaf (-0.011381911)))) (Leaf 0.020324761).

Definition var19_10477 : tree :=
  Split 104 1.0 (Split 284 1.0 (Split 141 1.0 (Split 112 1.0 (Split 529 1.0 (Leaf 0.055669017)
  (Leaf 0.0068095885)) (Leaf 0.002047518)) (Split 678 1.0 (Leaf 0.023548335) (Leaf
  (-0.019203277)))) (Leaf (-0.015513274))) (Split 452 1.0 (Split 435 1.0 (Leaf (-0.026706142))
  (Leaf 0.01123099)) (Leaf 0.03060384)).

Definition var19_10284 : tree :=
  Split 986 1.0 (Split 870 1.0 (Split 979 1.0 (Split 819 1.0 (Split 72 1.0 (Split 1002 1.0 (Split
  419 1.0 (Split 42 1.0 (Leaf (-0.045997113)) (Leaf (-0.00039748216))) (Leaf 0.014205719)) (Leaf
  0.01628207)) (Leaf 0.014408322)) (Leaf 0.021782171)) (Split 300 1.0 (Leaf 0.0029816797) (Leaf
  0.0367461))) (Split 77 1.0 (Leaf 0.004400763) (Leaf 0.024699245))) (Leaf 0.033522073).

Definition var19_10518 : tree :=
  Split 178 1.0 (Split 330 1.0 (Split 77 1.0 (Split 43 1.0 (Split 300 1.0 (Split 631 1.0 (Split 15
  1.0 (Split 776 1.0 (Leaf 0.034865793) (Leaf (-0.03456677))) (Split 912 1.0 (Leaf (-0.0071043097))
  (Leaf (-0.029442346)))) (Leaf (-0.039737616))) (Split 995 1.0 (Split 985 1.0 (Split 104 1.0 (Leaf
  0.05839319) (Leaf 0.02444749)) (Leaf (-0.0021714289))) (Leaf (-0.00721357)))) (Leaf
  (-0.032247733))) (Split 156 1.0 (Leaf (-0.03257451)) (Leaf 0.02334486))) (Leaf 0.06255357))
  (Split 1018 1.0 (Leaf (-0.029086236)) (Leaf 0.007907637)).

Definition var19_10327 : tree :=
  Split 979 1.0 (Split 99 1.0 (Split 799 1.0 (Split 780 1.0 (Split 55 1.0 (Split 330 1.0 (Split 709
  1.0 (Split 157 1.0 (Split 819 1.0 (Leaf (-0.035460975)) (Leaf 0.009799996)) (Leaf 0.047584128))
  (Split 789 1.0 (Leaf 0.058505993) (Leaf (-0.0026008354)))) (Split 607 1.0 (Split 104 1.0 (Leaf
  0.04889989) (Leaf 0.0014045271)) (Leaf (-0.00019908801)))) (Split 36 1.0 (Split 789 1.0 (Split
  392 1.0 (Split 156 1.0 (Leaf 0.055711646) (Leaf 0.018031769)) (Leaf 0.013852797)) (Leaf
  0.017872594)) (Split 156 1.0 (Split 435 1.0 (Leaf 0.000583626) (Leaf 0.00856481)) (Leaf
  0.024353435)))) (Split 517 1.0 (Split 104 1.0 (Split 435 1.0 (Split 607 1.0 (Leaf 0.05961463)
  (Leaf 0.012714057)) (Split 300 1.0 (Leaf 0.033058252) (Leaf (-0.0027595179)))) (Split 670 1.0
  (Split 435 1.0 (Leaf 0.024560442) (Leaf (-0.007620351))) (Leaf (-0.008777387)))) (Leaf
  (-0.0243418)))) (Split 36 1.0 (Split 529 1.0 (Split 104 1.0 (Split 284 1.0 (Split 776 1.0 (Split
  812 1.0 (Leaf 0.05793335) (Leaf 0.019910943)) (Leaf 0.004090426)) (Leaf (-0.002034202))) (Split
  435 1.0 (Split 452 1.0 (Leaf (-0.0015398989)) (Leaf (-0.016912483))) (Leaf 0.042345487))) (Leaf
  (-0.015874328))) (Split 452 1.0 (Split 128 1.0 (Split 812 1.0 (Split 156 1.0 (Leaf (-0.0332874))
  (Leaf (-0.0017085582))) (Leaf 0.020782672)) (Leaf 0.024132412)) (Split 670 1.0 (Leaf 0.049701985)
  (Leaf 0.0029149964))))) (Split 924 1.0 (Split 441 1.0 var19_10477 (Leaf (-0.021583881))) (Leaf
  (-0.024272824)))) var19_10518.

Definition var19 : tree :=
  Split 968 1.0 (Split 430 1.0 (Split 540 1.0 (Split 517 1.0 (Split 833 1.0 (Split 156 1.0 (Split
  365 1.0 (Split 979 1.0 (Split 99 1.0 (Split 780 1.0 (Split 799 1.0 (Split 55 1.0 (Leaf
  (-0.027579764)) (Leaf 0.044731047)) (Split 972 1.0 (Leaf 0.048249464) (Leaf (-0.034713563))))
  (Split 65 1.0 (Split 630 1.0 (Leaf 0.051338267) (Leaf (-0.018191135))) (Leaf (-0.025842076))))
  (Split 178 1.0 (Split 944 1.0 (Split 655 1.0 (Leaf 0.054923784) (Leaf 0.004866488)) (Leaf
  (-0.021419724))) (Leaf (-0.018475918)))) (Split 104 1.0 (Split 766 1.0 (Split 996 1.0 (Split 77
  1.0 (Leaf 0.05114418) (Leaf 0.002785037)) (Split 789 1.0 (Leaf 0.020677868) (Leaf
  (-0.031705678)))) (Leaf (-0.036852002))) (Split 296 1.0 (Split 537 1.0 (Split 349 1.0 (Leaf
  0.03903758) (Leaf (-0.0059319497))) (Leaf (-0.028611554))) (Leaf (-0.034803446))))) (Split 120
  1.0 (Split 822 1.0 (Split 435 1.0 (Leaf (-0.019206874)) (Leaf 0.004886083)) (Leaf 0.023779951))
  (Leaf 0.061965406))) (Split 997 1.0 (Split 543 1.0 (Split 979 1.0 (Split 99 1.0 (Split 55 1.0
  (Split 799 1.0 (Leaf (-0.022558494)) (Leaf 0.05801606)) (Split 156 3.0 (Leaf 0.058460534) (Leaf
  (-0.010117594)))) (Split 930 1.0 (Split 16 1.0 (Leaf 0.060965713) (Leaf 0.018644748)) (Leaf
  (-0.005536401)))) (Split 617 1.0 (Split 303 1.0 (Split 721 1.0 (Leaf 0.060152024) (Leaf
  0.019206783)) (Split 300 1.0 (Leaf (-0.0026343272)) (Leaf 0.034318473))) (Split 156 2.0 (Split
  300 1.0 (Leaf (-0.015159236)) (Leaf 0.013145215)) (Leaf 0.040752582)))) (Split 452 1.0 (Leaf
  0.062494595) (Leaf (-0.0021012898)))) (Split 128 1.0 (Split 812 1.0 (Leaf 0.062456977) (Leaf
  0.01651641)) (Leaf 0.0213106)))) (Split 812 1.0 (Split 435 1.0 (Split 300 1.0 (Leaf 0.06179291)
  (Leaf 0.009831816)) (Leaf (-0.0023030904))) (Leaf (-0.025786862)))) var19_10284) var19_10327)
  var19_10578) var19_10605.

Definition var20_10791 : tree :=
  Split 120 1.0 (Split 979 1.0 (Split 822 1.0 (Split 479 1.0 (Split 16 1.0 (Leaf (-0.021865185))
  (Leaf (-0.0019234378))) (Leaf (-0.0438833))) (Leaf 0.010821971)) (Leaf 0.03670239)) (Leaf
  0.061229385).

Definition var20_10948 : tree :=
  Split 288 1.0 (Split 979 1.0 (Split 678 1.0 (Split 435 1.0 (Split 300 1.0 (Leaf 0.04816715) (Leaf
  (-0.008439957))) (Leaf (-0.038862806))) (Leaf (-0.045955736))) (Split 670 1.0 (Leaf 0.03956051)
  (Leaf 0.0))) (Leaf (-0.060927518)).

Definition var20_10975 : tree :=
  Split 812 1.0 (Split 540 1.0 (Split 55 1.0 (Split 435 1.0 (Split 300 1.0 (Leaf (-0.06074515))
  (Leaf (-0.018310605))) (Leaf (-0.016792646))) (Leaf (-0.0019267958))) (Split 36 1.0 (Leaf 0.0)
  (Leaf (-0.011054817)))) (Leaf 0.019831905).

Definition var20_10814 : tree :=
  Split 958 1.0 (Split 997 1.0 (Split 979 1.0 (Split 780 1.0 (Split 99 1.0 (Split 55 1.0 (Split 799
  1.0 (Split 709 1.0 (Leaf (-0.02854572)) (Leaf 0.0645351)) (Split 574 1.0 (Leaf 0.05018059) (Leaf
  (-0.02806302)))) (Split 419 1.0 (Split 435 2.0 (Leaf 0.058146447) (Leaf (-0.0041878293))) (Leaf
  (-0.008366237)))) (Split 617 1.0 (Split 300 1.0 (Leaf 0.05947117) (Split 156 2.0 (Leaf
  0.010361498) (Leaf 0.039387282))) (Leaf 0.00046929027))) (Split 721 1.0 (Split 976 1.0 (Leaf
  0.06271037) (Split 540 1.0 (Leaf 0.03588697) (Leaf (-0.0011870732)))) (Leaf 0.007823292))) (Split
  41 1.0 (Split 559 1.0 (Split 104 1.0 (Split 178 1.0 (Split 303 1.0 (Leaf 0.058855653) (Leaf
  0.025213763)) (Leaf 0.010567723)) (Split 255 1.0 (Split 812 1.0 (Leaf 0.012539865) (Leaf
  0.0472113)) (Leaf (-0.03304434)))) (Leaf (-0.027375385))) (Leaf (-0.02677447)))) (Split 452 1.0
  (Split 540 1.0 (Leaf 0.033905927) (Leaf (-0.01732681))) (Leaf 0.061568815))) (Split 800 1.0
  (Split 540 1.0 (Leaf (-0.005820726)) (Leaf 0.024984447)) (Leaf 0.06163901)).

Definition var20 : tree :=
  Split 968 1.0 (Split 430 1.0 (Split 833 1.0 (Split 156 1.0 (Split 365 1.0 (Split 979 1.0 (Split
  99 1.0 (Split 780 1.0 (Split 799 1.0 (Split 55 1.0 (Split 709 1.0 (Split 751 1.0 (Leaf
  (-0.033545125)) (Leaf 0.057312574)) (Split 77 1.0 (Leaf 0.09622195) (Leaf (-0.022891046))))
  (Split 619 1.0 (Split 702 1.0 (Leaf 0.046746463) (Leaf (-0.03162582))) (Leaf (-0.040383223))))
  (Split 178 1.0 (Split 874 1.0 (Split 50 1.0 (Leaf 0.04445814) (Leaf (-0.050137013))) (Leaf
  (-0.04314303))) (Leaf (-0.031175306)))) (Split 65 1.0 (Split 517 1.0 (Split 758 1.0 (Split 300
  2.0 (Leaf 0.050704118) (Leaf (-0.0023925598))) (Leaf (-0.018670795))) (Leaf (-0.020409262)))
  (Leaf (-0.04456463)))) (Split 479 1.0 (Split 944 1.0 (Split 158 1.0 (Split 65 1.0 (Split 178 1.0
  (Leaf 0.05186112) (Leaf (-0.0054786056))) (Split 678 1.0 (Leaf (-0.018833796)) (Leaf
  0.010016436))) (Leaf (-0.032143112))) (Leaf (-0.033249166))) (Leaf (-0.078548595)))) (Split 77
  1.0 (Split 621 1.0 (Split 668 1.0 (Split 250 1.0 (Split 56 1.0 (Split 5 1.0 (Leaf 0.045875236)
  (Leaf (-0.027366096))) (Leaf (-0.044641983))) (Split 617 1.0 (Split 300 1.0 (Leaf (-0.008401497))
  (Leaf 0.016955754)) (Leaf (-0.040312167)))) (Split 452 1.0 (Leaf (-0.04857921)) (Leaf
  (-0.01082142)))) (Leaf (-0.074373044))) (Split 300 1.0 (Split 23 1.0 (Split 670 1.0 (Leaf
  (-0.050901588)) (Leaf 0.0005884064)) (Leaf 0.0072246096)) (Split 789 1.0 (Split 912 1.0 (Leaf
  0.011066276) (Leaf 0.036416285)) (Leaf (-0.008027921)))))) var20_10791) var20_10814) (Split 670
  1.0 (Split 976 1.0 (Split 641 1.0 (Split 435 1.0 (Leaf 0.06102539) (Leaf 0.011667642)) (Leaf
  (-0.016519917))) (Leaf (-0.022207517))) (Leaf (-0.044955462)))) var20_10948) var20_10975.

Definition var21_11157 : tree :=
  Split 120 1.0 (Split 979 1.0 (Split 822 1.0 (Split 479 1.0 (Split 16 1.0 (Leaf (-0.021046294))
  (Leaf (-0.0018734013))) (Leaf (-0.043006167))) (Leaf 0.010532269)) (Leaf 0.036058433)) (Leaf
  0.060544748).

Definition var21_11314 : tree :=
  Split 288 1.0 (Split 979 1.0 (Split 678 1.0 (Split 435 1.0 (Split 300 1.0 (Leaf 0.047149766)
  (Leaf (-0.008220332))) (Leaf (-0.038166866))) (Leaf (-0.045024157))) (Split 670 1.0 (Leaf
  0.038841065) (Leaf 0.0))) (Leaf (-0.06026364)).

Definition var21_11341 : tree :=
  Split 812 1.0 (Split 540 1.0 (Split 55 1.0 (Split 435 1.0 (Split 300 1.0 (Leaf (-0.06007067))
  (Leaf (-0.017874328))) (Leaf (-0.016297052))) (Leaf (-0.0018729117))) (Split 36 1.0 (Leaf 0.0)
  (Leaf (-0.010737421)))) (Leaf 0.019352805).

Definition var21_11180 : tree :=
  Split 958 1.0 (Split 997 1.0 (Split 979 1.0 (Split 780 1.0 (Split 99 1.0 (Split 55 1.0 (Split 799
  1.0 (Split 709 1.0 (Leaf (-0.027211344)) (Leaf 0.062586345)) (Split 574 1.0 (Leaf 0.04852992)
  (Leaf (-0.027230581)))) (Split 419 1.0 (Split 435 2.0 (Leaf 0.05671568) (Leaf (-0.0040737772)))
  (Leaf (-0.008138414)))) (Split 617 1.0 (Split 300 1.0 (Leaf 0.05840514) (Split 156 2.0 (Leaf
  0.010020844) (Leaf 0.038710307))) (Leaf 0.00045430326))) (Split 721 1.0 (Split 976 1.0 (Leaf
  0.061640788) (Split 540 1.0 (Leaf 0.035283815) (Leaf (-0.0011525889)))) (Leaf 0.007642512)))
  (Split 41 1.0 (Split 559 1.0 (Split 104 1.0 (Split 178 1.0 (Split 303 1.0 (Leaf 0.057820927)
  (Leaf 0.024432568)) (Leaf 0.010261616)) (Split 255 1.0 (Split 812 1.0 (Leaf 0.012072611) (Leaf
  0.04633915)) (Leaf (-0.0320423)))) (Leaf (-0.026614172))) (Leaf (-0.02591345)))) (Split 452 1.0
  (Split 540 1.0 (Leaf 0.033066195) (Leaf (-0.0168621))) (Leaf 0.060842436))) (Split 800 1.0 (Split
  540 1.0 (Leaf (-0.005667628)) (Leaf 0.024287457)) (Leaf 0.060926158)).

Definition var21 : tree :=
  Split 968 1.0 (Split 430 1.0 (Split 833 1.0 (Split 156 1.0 (Split 365 1.0 (Split 979 1.0 (Split
  99 1.0 (Split 780 1.0 (Split 799 1.0 (Split 55 1.0 (Split 709 1.0 (Split 986 1.0 (Leaf
  (-0.03231765)) (Leaf 0.05111257)) (Split 77 1.0 (Leaf 0.09097174) (Leaf (-0.022335274)))) (Split
  619 1.0 (Split 702 1.0 (Leaf 0.045347262) (Leaf (-0.030641079))) (Leaf (-0.03901593)))) (Split
  178 1.0 (Split 874 1.0 (Split 50 1.0 (Leaf 0.043026734) (Leaf (-0.048557412))) (Leaf
  (-0.041641142))) (Leaf (-0.030017007)))) (Split 65 1.0 (Split 517 1.0 (Split 758 1.0 (Split 300
  2.0 (Leaf 0.049430687) (Leaf (-0.0023041049))) (Leaf (-0.018051019))) (Leaf (-0.019809017)))
  (Leaf (-0.043334316)))) (Split 479 1.0 (Split 944 1.0 (Split 158 1.0 (Split 65 1.0 (Split 178 1.0
  (Leaf 0.050638266) (Leaf (-0.0052628596))) (Split 678 1.0 (Leaf (-0.018126572)) (Leaf
  0.009728557))) (Leaf (-0.031169085))) (Leaf (-0.032166768))) (Leaf (-0.07550772)))) (Split 77 1.0
  (Split 621 1.0 (Split 668 1.0 (Split 250 1.0 (Split 56 1.0 (Split 5 1.0 (Leaf 0.04467539) (Leaf
  (-0.026259078))) (Leaf (-0.042852063))) (Split 617 1.0 (Split 300 1.0 (Leaf (-0.008174331)) (Leaf
  0.016552245)) (Leaf (-0.038897697)))) (Split 452 1.0 (Leaf (-0.047023043)) (Leaf
  (-0.010519019)))) (Leaf (-0.071829185))) (Split 300 1.0 (Split 23 1.0 (Split 670 1.0 (Leaf
  (-0.048890702)) (Leaf 0.00057241914)) (Leaf 0.0070220963)) (Split 789 1.0 (Split 540 1.0 (Leaf
  0.036007803) (Leaf 0.010487818)) (Leaf (-0.0078069926)))))) var21_11157) var21_11180) (Split 670
  1.0 (Split 976 1.0 (Split 641 1.0 (Split 435 1.0 (Leaf 0.060321737) (Leaf 0.0112594925)) (Leaf
  (-0.016050227))) (Leaf (-0.021585591))) (Leaf (-0.04369148)))) var21_11314) var21_11341.

Definition var22_11527 : tree :=
  Split 120 1.0 (Split 979 1.0 (Split 822 1.0 (Split 479 1.0 (Split 16 1.0 (Leaf (-0.02025996))
  (Leaf (-0.0018246679))) (Leaf (-0.042163383))) (Leaf 0.010250579)) (Leaf 0.035434667)) (Leaf
  0.05990693).

Definition var22_11672 : tree :=
  Split 288 1.0 (Split 979 1.0 (Split 678 1.0 (Split 435 1.0 (Split 300 1.0 (Leaf 0.046173926)
  (Leaf (-0.008006515))) (Leaf (-0.03749369))) (Leaf (-0.0441274))) (Split 670 1.0 (Leaf
  0.03814584) (Leaf 0.0))) (Leaf (-0.05964477)).

Definition var22_11699 : tree :=
  Split 812 1.0 (Split 540 1.0 (Split 55 1.0 (Split 435 1.0 (Split 300 1.0 (Leaf (-0.05944065))
  (Leaf (-0.017449679))) (Leaf (-0.015816715))) (Leaf (-0.0018205332))) (Split 36 1.0 (Leaf 0.0)
  (Leaf (-0.010429411)))) (Leaf 0.01888693).

Definition var22_11550 : tree :=
  Split 958 1.0 (Split 997 1.0 (Split 979 1.0 (Split 330 1.0 (Split 780 1.0 (Split 99 1.0 (Split 55
  1.0 (Split 799 1.0 (Leaf (-0.025223568)) (Leaf 0.03667267)) (Split 419 1.0 (Leaf 0.04967333)
  (Leaf (-0.007916933)))) (Split 617 1.0 (Split 300 1.0 (Leaf 0.056985) (Leaf 0.022890031)) (Leaf
  (-0.0035966218)))) (Split 976 1.0 (Split 908 1.0 (Leaf 0.059499532) (Leaf 0.012920553)) (Leaf
  0.016365845))) (Leaf 0.06761069)) (Split 41 1.0 (Split 559 1.0 (Split 104 1.0 (Split 178 1.0
  (Split 721 1.0 (Leaf 0.05645578) (Leaf 0.017455256)) (Leaf 0.009964484)) (Split 255 1.0 (Split
  812 1.0 (Leaf 0.011621498) (Leaf 0.045500167)) (Leaf (-0.03107751)))) (Leaf (-0.025877012)))
  (Leaf (-0.025084252)))) (Split 540 1.0 (Split 128 1.0 (Leaf 0.06020537) (Leaf 0.018378353))
  (Split 452 1.0 (Leaf (-0.016410189)) (Leaf 0.030651076)))) (Split 800 1.0 (Split 540 1.0 (Leaf
  (-0.005518594)) (Leaf 0.02361215)) (Leaf 0.0602626)).

Definition var22 : tree :=
  Split 968 1.0 (Split 430 1.0 (Split 833 1.0 (Split 156 1.0 (Split 365 1.0 (Split 979 1.0 (Split
  99 1.0 (Split 780 1.0 (Split 799 1.0 (Split 55 1.0 (Split 709 1.0 (Split 751 1.0 (Leaf
  (-0.031045565)) (Leaf 0.055637956)) (Split 77 1.0 (Leaf 0.086378686) (Leaf (-0.021795325))))
  (Split 619 1.0 (Split 1019 1.0 (Leaf 0.04411192) (Leaf (-0.029071165))) (Leaf (-0.03770755))))
  (Split 517 1.0 (Split 178 1.0 (Split 874 1.0 (Leaf 0.042650774) (Leaf (-0.03856423))) (Leaf
  (-0.027250363))) (Split 678 1.0 (Leaf (-0.031028086)) (Leaf 0.0045295595)))) (Split 65 1.0 (Split
  517 1.0 (Split 758 1.0 (Split 300 2.0 (Leaf 0.048201647) (Leaf (-0.002218964))) (Leaf
  (-0.0174538))) (Leaf (-0.019226894))) (Leaf (-0.042155605)))) (Split 479 1.0 (Split 944 1.0
  (Split 158 1.0 (Split 65 1.0 (Split 178 1.0 (Leaf 0.04945599) (Leaf (-0.0050556776))) (Split 678
  1.0 (Leaf (-0.01744834)) (Leaf 0.009449027))) (Leaf (-0.030231217))) (Leaf (-0.031129718))) (Leaf
  (-0.07270438)))) (Split 77 1.0 (Split 621 1.0 (Split 668 1.0 (Split 250 1.0 (Split 766 1.0 (Split
  56 1.0 (Leaf 0.043468762) (Leaf (-0.04115742))) (Leaf (-0.0328128))) (Split 670 1.0 (Split 300
  1.0 (Leaf (-0.053067166)) (Leaf 0.0050156326)) (Leaf 0.016718376))) (Split 452 1.0 (Leaf
  (-0.04554203)) (Leaf (-0.010225373)))) (Leaf (-0.06944616))) (Split 300 1.0 (Split 23 1.0 (Split
  670 1.0 (Leaf (-0.04699884)) (Leaf 0.0005568633)) (Leaf 0.0068252953)) (Split 789 1.0 (Split 912
  1.0 (Leaf 0.010171577) (Leaf 0.03539699)) (Leaf (-0.007592281)))))) var22_11527) var22_11550)
  (Split 670 1.0 (Split 976 1.0 (Split 641 1.0 (Split 435 1.0 (Leaf 0.05966414) (Leaf 0.010866001))
  (Leaf (-0.0155947795))) (Leaf (-0.02098315))) (Leaf (-0.042479362)))) var22_11672) var22_11699.

Definition var23_11893 : tree :=
  Split 120 1.0 (Split 979 1.0 (Split 822 1.0 (Split 479 1.0 (Split 16 1.0 (Leaf (-0.019504566))
  (Leaf (-0.0017772028))) (Leaf (-0.041352544))) (Leaf 0.009976655)) (Leaf 0.034829978)) (Leaf
  0.059311856).

Definition var23_12038 : tree :=
  Split 288 1.0 (Split 979 1.0 (Split 678 1.0 (Split 435 1.0 (Split 300 1.0 (Leaf 0.045236643)
  (Leaf (-0.007798349))) (Leaf (-0.03684191))) (Leaf (-0.043263238))) (Split 670 1.0 (Leaf
  0.037473347) (Leaf 0.0))) (Leaf (-0.059067022)).

Definition var23_12065 : tree :=
  Split 812 1.0 (Split 540 1.0 (Split 617 1.0 (Split 789 1.0 (Split 435 1.0 (Split 670 1.0 (Leaf
  (-0.058862776)) (Leaf (-0.012571645))) (Leaf (-0.01397214))) (Leaf (-0.012793697))) (Leaf
  0.000046498753)) (Split 36 1.0 (Leaf 0.0) (Leaf (-0.010130457)))) (Leaf 0.018433781).

Definition var23_11916 : tree :=
  Split 958 1.0 (Split 997 1.0 (Split 979 1.0 (Split 330 1.0 (Split 780 1.0 (Split 99 1.0 (Split 55
  1.0 (Split 799 1.0 (Leaf (-0.024043735)) (Leaf 0.035331212)) (Split 419 1.0 (Leaf 0.048350457)
  (Leaf (-0.007701598)))) (Split 617 1.0 (Split 300 1.0 (Leaf 0.05600816) (Leaf 0.022190478)) (Leaf
  (-0.0034836219)))) (Split 976 1.0 (Split 908 1.0 (Leaf 0.058587153) (Leaf 0.012622282)) (Leaf
  0.015888903))) (Leaf 0.06621658)) (Split 41 1.0 (Split 559 1.0 (Split 104 1.0 (Split 178 1.0
  (Split 303 1.0 (Leaf 0.05593049) (Leaf 0.021921102)) (Leaf 0.00967604)) (Split 255 1.0 (Split 812
  1.0 (Leaf 0.011186024) (Leaf 0.044691753)) (Leaf (-0.030148102)))) (Leaf (-0.025162939))) (Leaf
  (-0.024285391)))) (Split 452 1.0 (Split 540 1.0 (Leaf 0.031041428) (Leaf (-0.01597069))) (Split
  678 1.0 (Leaf 0.027052065) (Leaf 0.059728634)))) (Split 800 1.0 (Split 540 1.0 (Leaf
  (-0.005373515)) (Leaf 0.022957712)) (Leaf 0.059643995)).

Definition var23 : tree :=
  Split 968 1.0 (Split 430 1.0 (Split 833 1.0 (Split 156 1.0 (Split 365 1.0 (Split 979 1.0 (Split
  99 1.0 (Split 780 1.0 (Split 799 1.0 (Split 55 1.0 (Split 709 1.0 (Split 819 1.0 (Leaf
  (-0.030223949)) (Leaf 0.041849244)) (Split 77 1.0 (Leaf 0.08232092) (Leaf (-0.021270582))))
  (Split 789 1.0 (Split 702 1.0 (Leaf 0.045356326) (Leaf (-0.030587558))) (Split 300 1.0 (Leaf
  (-0.0425948)) (Leaf 0.021816155)))) (Split 517 1.0 (Split 178 1.0 (Split 877 1.0 (Leaf
  0.04151247) (Leaf (-0.03571867))) (Leaf (-0.026249213))) (Split 678 1.0 (Split 300 1.0 (Leaf
  (-0.011977232)) (Leaf (-0.03778222))) (Leaf 0.0044084424)))) (Split 65 1.0 (Split 517 1.0 (Split
  758 1.0 (Split 300 2.0 (Leaf 0.04701228) (Leaf (-0.0021370032))) (Leaf (-0.016878163))) (Leaf
  (-0.018662207))) (Leaf (-0.04102455)))) (Split 479 1.0 (Split 36 2.0 (Split 158 1.0 (Split 562
  1.0 (Split 971 1.0 (Leaf 0.04698896) (Leaf (-0.03022015))) (Leaf (-0.020029267))) (Leaf
  (-0.029327497))) (Leaf (-0.023600748))) (Leaf (-0.070113026)))) (Split 77 1.0 (Split 621 1.0
  (Split 668 1.0 (Split 300 1.0 (Split 149 1.0 (Split 766 1.0 (Leaf 0.035730578) (Leaf
  (-0.05539931))) (Leaf (-0.043348324))) (Split 296 1.0 (Split 94 1.0 (Leaf 0.053866204) (Leaf
  (-0.008300213))) (Split 104 1.0 (Leaf 0.03638014) (Leaf (-0.05530109))))) (Split 452 1.0 (Leaf
  (-0.044130873)) (Leaf (-0.009940206)))) (Leaf (-0.06721055))) (Split 300 1.0 (Split 23 1.0 (Split
  670 1.0 (Leaf (-0.045214426)) (Leaf 0.0005417324)) (Leaf 0.006634043)) (Split 789 1.0 (Split 540
  1.0 (Leaf 0.03501476) (Leaf 0.00962471)) (Leaf (-0.007383596)))))) var23_11893) var23_11916)
  (Split 670 1.0 (Split 976 1.0 (Split 641 1.0 (Split 435 1.0 (Leaf 0.05904847) (Leaf 0.010486588))
  (Leaf (-0.015153058))) (Leaf (-0.020399427))) (Leaf (-0.04131557)))) var23_12038) var23_12065.

Definition var24_12259 : tree :=
  Split 120 1.0 (Split 979 1.0 (Split 822 1.0 (Split 479 1.0 (Split 16 1.0 (Leaf (-0.01877862))
  (Leaf (-0.0017309753))) (Leaf (-0.040571485))) (Leaf 0.009710268)) (Leaf 0.034243334)) (Leaf
  0.058755882).

Definition var24_12404 : tree :=
  Split 288 1.0 (Split 979 1.0 (Split 678 1.0 (Split 435 1.0 (Split 300 1.0 (Leaf 0.044335216)
  (Leaf (-0.007595672))) (Leaf (-0.03621028))) (Leaf (-0.042429622))) (Split 670 1.0 (Leaf
  0.036822204) (Leaf 0.0))) (Leaf (-0.058526933)).

Definition var24_12431 : tree :=
  Split 812 1.0 (Split 540 1.0 (Split 55 1.0 (Split 435 1.0 (Split 300 1.0 (Leaf (-0.058300108))
  (Leaf (-0.016561667))) (Leaf (-0.015056962))) (Leaf (-0.0011334894))) (Split 36 1.0 (Leaf 0.0)
  (Leaf (-0.0098402975)))) (Leaf 0.017992914).

Definition var24_12282 : tree :=
  Split 958 1.0 (Split 997 1.0 (Split 979 1.0 (Split 330 1.0 (Split 780 1.0 (Split 99 1.0 (Split 55
  1.0 (Split 799 1.0 (Leaf (-0.022920458)) (Leaf 0.03404053)) (Split 518 1.0 (Leaf 0.052768655)
  (Leaf 0.012853724))) (Split 617 1.0 (Split 300 1.0 (Leaf 0.0550722) (Leaf 0.021510536)) (Leaf
  (-0.0033742003)))) (Split 976 1.0 (Split 908 1.0 (Leaf 0.05772412) (Leaf 0.012331188)) (Leaf
  0.015425502))) (Leaf 0.06491151)) (Split 41 1.0 (Split 559 1.0 (Split 104 1.0 (Split 178 1.0
  (Split 303 1.0 (Leaf 0.055025917) (Leaf 0.021238236)) (Leaf 0.009396021)) (Split 255 1.0 (Split
  812 1.0 (Leaf 0.01076571) (Leaf 0.0439116)) (Leaf (-0.02925234)))) (Leaf (-0.02447104))) (Leaf
  (-0.02351548)))) (Split 452 1.0 (Split 540 1.0 (Leaf 0.030287325) (Leaf (-0.015543224))) (Split
  678 1.0 (Leaf 0.026297687) (Leaf 0.059150226)))) (Split 800 1.0 (Split 540 1.0 (Leaf
  (-0.005232286)) (Leaf 0.022323363)) (Leaf 0.059066486)).

Definition var24 : tree :=
  Split 968 1.0 (Split 430 1.0 (Split 833 1.0 (Split 156 1.0 (Split 365 1.0 (Split 979 1.0 (Split
  99 1.0 (Split 780 1.0 (Split 799 1.0 (Split 55 1.0 (Split 709 1.0 (Split 986 1.0 (Leaf
  (-0.028818)) (Leaf 0.05131166)) (Split 77 1.0 (Leaf 0.07870459) (Leaf (-0.020760464)))) (Split
  619 1.0 (Split 1019 1.0 (Leaf 0.041654013) (Leaf (-0.029025638))) (Leaf (-0.03780475)))) (Split
  50 1.0 (Split 178 1.0 (Split 874 1.0 (Leaf 0.03930894) (Leaf (-0.040229756))) (Leaf
  (-0.026970247))) (Leaf (-0.04895293)))) (Split 65 1.0 (Split 517 1.0 (Split 758 1.0 (Split 300
  2.0 (Leaf 0.045858487) (Leaf (-0.0020581044))) (Leaf (-0.016323188))) (Leaf (-0.018114334)))
  (Leaf (-0.039937627)))) (Split 479 1.0 (Split 944 1.0 (Split 65 1.0 (Split 158 1.0 (Split 517 1.0
  (Leaf 0.047134265) (Leaf (-0.011816043))) (Leaf (-0.028456096))) (Split 678 1.0 (Split 540 1.0
  (Leaf (-0.038252965)) (Leaf 0.011755988)) (Leaf 0.008167568))) (Leaf (-0.031014914))) (Leaf
  (-0.06771126)))) (Split 77 1.0 (Split 621 1.0 (Split 668 1.0 (Split 300 1.0 (Split 345 1.0 (Split
  149 1.0 (Leaf 0.03487706) (Leaf (-0.041470103))) (Leaf (-0.04253663))) (Split 296 1.0 (Split 94
  1.0 (Leaf 0.05289274) (Leaf (-0.00800977))) (Split 104 1.0 (Leaf 0.035746798) (Leaf
  (-0.053307623))))) (Split 452 1.0 (Leaf (-0.042784717)) (Leaf (-0.00966326)))) (Leaf
  (-0.06511014))) (Split 300 1.0 (Split 23 1.0 (Split 670 1.0 (Leaf (-0.043527395)) (Leaf
  0.00052700756)) (Leaf 0.0064481758)) (Split 452 1.0 (Split 540 1.0 (Leaf 0.017098) (Leaf
  (-0.015044031))) (Leaf 0.035768766))))) var24_12259) var24_12282) (Split 670 1.0 (Split 812 1.0
  (Split 435 1.0 (Split 300 1.0 (Leaf 0.058480002) (Leaf 0.024597824)) (Leaf 0.00461298)) (Leaf
  (-0.018970776))) (Leaf (-0.040196914)))) var24_12404) var24_12431.

Definition var25_12621 : tree :=
  Split 120 1.0 (Split 979 1.0 (Split 822 1.0 (Split 479 1.0 (Split 16 1.0 (Leaf (-0.01808075))
  (Leaf (-0.0016859452))) (Leaf (-0.03981824))) (Leaf 0.009451187)) (Leaf 0.03367378)) (Leaf
  0.058235765).

Definition var25_12747 : tree :=
  Split 670 1.0 (Split 976 1.0 (Split 641 1.0 (Split 435 1.0 (Split 300 1.0 (Leaf 0.058032364)
  (Leaf 0.023465483)) (Leaf 0.009959838)) (Leaf (-0.014756327))) (Leaf (-0.020371884))) (Leaf
  (-0.03912049)).

Definition var25_12770 : tree :=
  Split 288 1.0 (Split 979 1.0 (Split 678 1.0 (Split 435 1.0 (Split 300 1.0 (Leaf 0.04346722) (Leaf
  (-0.007398333))) (Leaf (-0.03559764))) (Leaf (-0.0416247))) (Split 670 1.0 (Leaf 0.036191177)
  (Leaf 0.0))) (Leaf (-0.058021396)).

Definition var25_12797 : tree :=
  Split 812 1.0 (Split 540 1.0 (Split 55 1.0 (Split 435 1.0 (Split 300 1.0 (Leaf (-0.057781644))
  (Leaf (-0.016171355))) (Leaf (-0.014614472))) (Leaf (-0.0011017843))) (Split 36 1.0 (Leaf 0.0)
  (Leaf (-0.009558636)))) (Leaf 0.017563865).

Definition var25_12644 : tree :=
  Split 958 1.0 (Split 997 1.0 (Split 979 1.0 (Split 330 1.0 (Split 780 1.0 (Split 99 1.0 (Split 55
  1.0 (Split 799 1.0 (Leaf (-0.02185051)) (Leaf 0.03279745)) (Split 518 1.0 (Leaf 0.051614184)
  (Leaf 0.012382872))) (Split 617 1.0 (Split 300 1.0 (Leaf 0.054172825) (Leaf 0.020849608)) (Leaf
  (-0.0032682456)))) (Split 976 1.0 (Split 908 1.0 (Leaf 0.056905564) (Leaf 0.012047068)) (Leaf
  0.01497525))) (Leaf 0.06368592)) (Split 41 1.0 (Split 559 1.0 (Split 104 1.0 (Split 721 1.0
  (Split 303 1.0 (Leaf 0.054482084) (Leaf 0.02057541)) (Leaf 0.013722971)) (Split 812 1.0 (Split 36
  1.0 (Leaf (-0.015125247)) (Leaf 0.036580186)) (Leaf 0.044245437))) (Leaf (-0.02380046))) (Leaf
  (-0.022773199)))) (Split 452 1.0 (Split 435 1.0 (Leaf 0.031808227) (Leaf (-0.0128368875))) (Split
  678 1.0 (Leaf 0.025564283) (Leaf 0.05860954)))) (Split 800 1.0 (Split 540 1.0 (Leaf
  (-0.0050947955)) (Leaf 0.021708352)) (Leaf 0.0585266)).

Definition var25 : tree :=
  Split 968 1.0 (Split 430 1.0 (Split 833 1.0 (Split 156 1.0 (Split 365 1.0 (Split 979 1.0 (Split
  99 1.0 (Split 780 1.0 (Split 799 1.0 (Split 55 1.0 (Split 709 1.0 (Split 751 1.0 (Leaf
  (-0.027676327)) (Leaf 0.055407323)) (Split 77 1.0 (Leaf 0.075456224) (Leaf (-0.020264413))))
  (Split 789 1.0 (Split 702 1.0 (Leaf 0.04299699) (Leaf (-0.030475814))) (Split 300 1.0 (Leaf
  (-0.042553604)) (Leaf 0.020106878)))) (Split 517 1.0 (Split 939 1.0 (Split 877 1.0 (Leaf
  0.038558234) (Leaf (-0.03586232))) (Leaf (-0.040570766))) (Split 678 1.0 (Leaf (-0.030157)) (Leaf
  0.0032407176)))) (Split 65 1.0 (Split 517 1.0 (Split 758 1.0 (Split 300 2.0 (Leaf 0.044736665)
  (Leaf (-0.0019821485))) (Leaf (-0.015788002))) (Leaf (-0.017582672))) (Leaf (-0.03889169))))
  (Split 479 1.0 (Split 36 2.0 (Split 158 1.0 (Split 562 1.0 (Split 473 1.0 (Leaf 0.044922315)
  (Leaf (-0.028478608))) (Leaf (-0.02078725))) (Leaf (-0.027615322))) (Leaf (-0.02367274))) (Leaf
  (-0.06547945)))) (Split 77 1.0 (Split 621 1.0 (Split 668 1.0 (Split 300 1.0 (Split 766 1.0 (Split
  989 1.0 (Leaf 0.03398418) (Leaf (-0.028140659))) (Leaf (-0.05467732))) (Split 296 1.0 (Split 759
  1.0 (Leaf 0.052369546) (Leaf 0.0012959026)) (Split 104 1.0 (Leaf 0.035132952) (Leaf
  (-0.05143726))))) (Split 452 1.0 (Leaf (-0.04149911)) (Leaf (-0.009394273)))) (Leaf
  (-0.06313388))) (Split 776 1.0 (Split 670 1.0 (Split 452 1.0 (Split 435 1.0 (Split 678 1.0 (Leaf
  (-0.018727003)) (Leaf (-0.06048528))) (Leaf (-0.017901907))) (Leaf 0.013444753)) (Leaf
  0.016009955)) (Leaf 0.03573431)))) var25_12621) var25_12644) var25_12747) var25_12770)
  var25_12797.

Definition var26_12987 : tree :=
  Split 120 1.0 (Split 979 1.0 (Split 822 1.0 (Split 479 1.0 (Split 16 1.0 (Leaf (-0.017409662))
  (Leaf (-0.0016420906))) (Leaf (-0.03909101))) (Leaf 0.0091992)) (Leaf 0.03312044)) (Leaf
  0.057748575).

Definition var26_13159 : tree :=
  Split 812 1.0 (Split 540 1.0 (Split 435 1.0 (Split 300 1.0 (Leaf (-0.057215422)) (Leaf
  (-0.015791122))) (Leaf (-0.010123524))) (Split 36 1.0 (Leaf 0.0) (Leaf (-0.009285199)))) (Leaf
  0.01714624).

Definition var26_13132 : tree :=
  Split 288 1.0 (Split 979 1.0 (Split 678 1.0 (Split 435 1.0 (Split 300 1.0 (Leaf 0.04263045) (Leaf
  (-0.007206192))) (Leaf (-0.035002958))) (Leaf (-0.04084678))) (Split 670 1.0 (Leaf 0.0355791)
  (Leaf 0.0))) (Leaf (-0.057547607)).

Definition var26_13010 : tree :=
  Split 958 1.0 (Split 997 1.0 (Split 979 1.0 (Split 330 1.0 (Split 780 1.0 (Split 99 1.0 (Split 55
  1.0 (Split 709 1.0 (Leaf (-0.018610759)) (Leaf 0.06285188)) (Split 518 1.0 (Leaf 0.050506223)
  (Leaf 0.011928528))) (Split 617 1.0 (Split 300 1.0 (Leaf 0.05330624) (Leaf 0.020207148)) (Leaf
  (-0.003165643)))) (Split 976 1.0 (Split 995 1.0 (Leaf 0.056582432) (Leaf 0.013562828)) (Leaf
  0.014537747))) (Leaf 0.06253151)) (Split 41 1.0 (Split 559 1.0 (Split 104 1.0 (Split 178 1.0
  (Split 721 1.0 (Leaf 0.05292343) (Leaf 0.013321011)) (Leaf 0.0075485646)) (Split 255 1.0 (Split
  812 1.0 (Leaf 0.0104688285) (Leaf 0.04240967)) (Leaf (-0.028262977)))) (Leaf (-0.02315037)))
  (Leaf (-0.022057315)))) (Split 540 1.0 (Split 128 1.0 (Leaf 0.057942253) (Leaf 0.01594459))
  (Split 452 1.0 (Leaf (-0.0151663665)) (Leaf 0.027221143)))) (Split 800 1.0 (Split 540 1.0 (Leaf
  (-0.0049609514)) (Leaf 0.021111978)) (Leaf 0.058021225)).

Definition var26 : tree :=
  Split 968 1.0 (Split 430 1.0 (Split 833 1.0 (Split 156 1.0 (Split 365 1.0 (Split 979 1.0 (Split
  99 1.0 (Split 780 1.0 (Split 799 1.0 (Split 55 1.0 (Split 709 1.0 (Split 819 1.0 (Leaf
  (-0.026976982)) (Leaf 0.042349745)) (Split 77 1.0 (Leaf 0.07251745) (Leaf (-0.019781915))))
  (Split 815 1.0 (Split 789 1.0 (Leaf 0.042121116) (Leaf (-0.0069079692))) (Leaf (-0.038348205))))
  (Split 50 1.0 (Split 178 1.0 (Split 874 1.0 (Leaf 0.037086546) (Leaf (-0.04006016))) (Leaf
  (-0.027290061))) (Leaf (-0.0483335)))) (Split 65 1.0 (Split 517 1.0 (Split 73 1.0 (Split 300 2.0
  (Leaf 0.04361884) (Leaf (-0.0019090269))) (Leaf (-0.01769032))) (Leaf (-0.017066663))) (Leaf
  (-0.03788392)))) (Split 479 1.0 (Split 944 1.0 (Split 178 1.0 (Split 65 1.0 (Split 517 1.0 (Leaf
  0.04586304) (Leaf (-0.012812333))) (Split 36 1.0 (Leaf 0.0052391114) (Leaf (-0.029254569))))
  (Split 789 1.0 (Split 435 1.0 (Leaf 0.0012591792) (Leaf (-0.037153892))) (Leaf 0.012109065)))
  (Leaf (-0.03086234))) (Leaf (-0.06340036)))) (Split 77 1.0 (Split 621 1.0 (Split 250 1.0 (Split
  668 1.0 (Split 5 1.0 (Split 56 1.0 (Leaf 0.03939863) (Leaf (-0.043674197))) (Leaf (-0.03142598)))
  (Split 452 1.0 (Leaf (-0.040269997)) (Leaf (-0.009133006)))) (Split 670 1.0 (Split 300 1.0 (Leaf
  (-0.054515313)) (Leaf 0.00089189794)) (Leaf 0.014167271))) (Leaf (-0.06127171))) (Split 776 1.0
  (Split 670 1.0 (Split 452 1.0 (Split 435 1.0 (Split 678 1.0 (Leaf (-0.018114222)) (Leaf
  (-0.058860432))) (Leaf (-0.017272918))) (Leaf 0.013065455)) (Leaf 0.015537746)) (Leaf
  0.035105117)))) var26_12987) var26_13010) (Split 670 1.0 (Split 812 1.0 (Split 435 1.0 (Split 300
  1.0 (Leaf 0.05743992) (Leaf 0.023527415)) (Leaf 0.004293131)) (Leaf (-0.018412111))) (Leaf
  (-0.038083673)))) var26_13132) var26_13159.

Definition var27_13341 : tree :=
  Split 300 1.0 (Split 23 1.0 (Split 670 1.0 (Split 678 1.0 (Leaf (-0.048767507)) (Leaf
  (-0.014395708))) (Leaf (-0.00034482696))) (Leaf 0.0069132783)) (Split 789 1.0 (Leaf 0.025915762)
  (Leaf (-0.007259529))).

Definition var27_13365 : tree :=
  Split 120 1.0 (Split 979 1.0 (Split 822 1.0 (Split 479 1.0 (Split 16 1.0 (Leaf (-0.01676415))
  (Leaf (-0.0015993764))) (Leaf (-0.038388174))) (Leaf 0.0089540975)) (Leaf 0.032582518)) (Leaf
  0.057291664).

Definition var27_13495 : tree :=
  Split 670 1.0 (Split 976 1.0 (Split 641 1.0 (Split 435 1.0 (Split 300 1.0 (Leaf 0.05706165) (Leaf
  0.022370156)) (Leaf 0.0094631)) (Leaf (-0.014367135))) (Leaf (-0.020329043))) (Leaf
  (-0.03708407)).

Definition var27_13518 : tree :=
  Split 288 1.0 (Split 979 1.0 (Split 435 1.0 (Split 540 1.0 (Leaf 0.025344241) (Leaf
  (-0.023955513))) (Leaf (-0.03641377))) (Split 670 1.0 (Leaf 0.034984957) (Leaf 0.0))) (Leaf
  (-0.05710305)).

Definition var27_13541 : tree :=
  Split 812 1.0 (Split 540 1.0 (Split 55 1.0 (Split 435 1.0 (Split 670 1.0 (Leaf (-0.05684047))
  (Leaf (-0.015750283))) (Leaf (-0.013888269))) (Leaf 0.00002891039)) (Split 36 1.0 (Leaf 0.0)
  (Leaf (-0.009019731)))) (Leaf 0.016739648).

Definition var27_13388 : tree :=
  Split 958 1.0 (Split 997 1.0 (Split 979 1.0 (Split 330 1.0 (Split 780 1.0 (Split 99 1.0 (Split 55
  1.0 (Split 799 1.0 (Leaf (-0.02015513)) (Leaf 0.032279264)) (Split 419 1.0 (Leaf 0.043986943)
  (Leaf (-0.009642662)))) (Split 617 1.0 (Split 300 1.0 (Leaf 0.05246904) (Leaf 0.019582631)) (Leaf
  (-0.0030662883)))) (Split 976 1.0 (Split 908 1.0 (Leaf 0.055413373) (Leaf 0.0110811135)) (Leaf
  0.014112622))) (Leaf 0.061441023)) (Split 41 1.0 (Split 104 1.0 (Split 559 1.0 (Split 178 1.0
  (Split 303 1.0 (Leaf 0.052570052) (Leaf 0.018269915)) (Leaf 0.007330307)) (Leaf (-0.022519998)))
  (Split 255 1.0 (Split 812 1.0 (Split 540 1.0 (Leaf 0.024709972) (Leaf (-0.012777756))) (Leaf
  0.041703135)) (Leaf (-0.027436389)))) (Leaf (-0.021366658)))) (Split 452 1.0 (Split 435 1.0 (Leaf
  0.030417938) (Leaf (-0.012789334))) (Split 678 1.0 (Leaf 0.023793284) (Leaf 0.057632983))))
  (Split 800 1.0 (Split 540 1.0 (Leaf (-0.0048306487)) (Leaf 0.020533558)) (Leaf 0.057547588)).

Definition var27 : tree :=
  Split 968 1.0 (Split 430 1.0 (Split 833 1.0 (Split 156 1.0 (Split 365 1.0 (Split 979 1.0 (Split
  99 1.0 (Split 780 1.0 (Split 799 1.0 (Split 55 1.0 (Split 709 1.0 (Split 986 1.0 (Leaf
  (-0.025694195)) (Leaf 0.051173724)) (Split 77 1.0 (Leaf 0.069841325) (Leaf (-0.019312477))))
  (Split 619 1.0 (Split 1019 1.0 (Leaf 0.038304273) (Leaf (-0.030059336))) (Leaf (-0.038357865))))
  (Split 517 1.0 (Split 939 1.0 (Split 742 1.0 (Leaf 0.03698173) (Leaf (-0.024903854))) (Leaf
  (-0.04045245))) (Split 678 1.0 (Split 300 1.0 (Leaf (-0.012154641)) (Leaf (-0.037111707))) (Leaf
  0.0021652582)))) (Split 65 1.0 (Split 517 1.0 (Split 117 1.0 (Split 300 2.0 (Leaf 0.043586336)
  (Leaf (-0.0058640805))) (Split 435 1.0 (Leaf 0.0139281005) (Leaf (-0.010775018)))) (Leaf
  (-0.016565777))) (Leaf (-0.036911793)))) (Split 479 1.0 (Split 944 1.0 (Split 178 1.0 (Split 158
  1.0 (Split 65 1.0 (Leaf 0.04441572) (Leaf (-0.0095665))) (Leaf (-0.02815395))) (Split 789 1.0
  (Split 435 1.0 (Leaf 0.0012179419) (Leaf (-0.036146324))) (Leaf 0.011831304))) (Leaf
  (-0.029880945))) (Leaf (-0.061458826)))) (Split 77 1.0 (Split 621 1.0 (Split 300 1.0 (Split 776
  1.0 (Split 15 1.0 (Split 345 1.0 (Leaf 0.03328727) (Leaf (-0.04338045))) (Leaf (-0.036477726)))
  (Split 452 1.0 (Leaf (-0.051449385)) (Leaf (-0.0001689439)))) (Split 104 1.0 (Split 94 1.0 (Split
  357 1.0 (Leaf 0.05423401) (Leaf (-0.0037652103))) (Leaf (-0.016660837))) (Split 296 1.0 (Split
  435 1.0 (Leaf 0.033303894) (Leaf (-0.006449964))) (Leaf (-0.051021617))))) (Leaf (-0.05951451)))
  var27_13341)) var27_13365) var27_13388) var27_13495) var27_13518) var27_13541.

Definition var28_13723 : tree :=
  Split 120 1.0 (Split 979 1.0 (Split 540 1.0 (Split 789 1.0 (Split 435 1.0 (Leaf (-0.0042892895))
  (Leaf 0.004667359)) (Leaf (-0.021385683))) (Leaf (-0.038738687))) (Leaf 0.032059263)) (Leaf
  0.056862663).

Definition var28_13853 : tree :=
  Split 670 1.0 (Split 976 1.0 (Split 641 1.0 (Split 435 1.0 (Split 300 1.0 (Leaf 0.056617945)
  (Leaf 0.021698983)) (Leaf 0.009133525)) (Leaf (-0.0139609305))) (Leaf (-0.01976667))) (Leaf
  (-0.036119506)).

Definition var28_13895 : tree :=
  Split 812 1.0 (Split 540 1.0 (Split 55 1.0 (Split 435 1.0 (Split 300 1.0 (Leaf (-0.056404557))
  (Leaf (-0.01466872))) (Leaf (-0.013480942))) (Leaf 0.00002809864)) (Split 36 1.0 (Leaf 0.0) (Leaf
  (-0.008761994)))) (Leaf 0.016343687).

Definition var28_13746 : tree :=
  Split 958 1.0 (Split 997 1.0 (Split 979 1.0 (Split 330 1.0 (Split 780 1.0 (Split 99 1.0 (Split 55
  1.0 (Split 709 1.0 (Leaf (-0.017088352)) (Leaf 0.06156618)) (Split 435 2.0 (Leaf 0.043017488)
  (Leaf (-0.010089452)))) (Split 617 1.0 (Split 300 1.0 (Leaf 0.05165819) (Leaf 0.018975565)) (Leaf
  (-0.0029700727)))) (Split 976 1.0 (Split 995 1.0 (Leaf 0.055140056) (Leaf 0.012499443)) (Leaf
  0.013699529))) (Leaf 0.06040808)) (Split 41 1.0 (Split 104 1.0 (Split 559 1.0 (Split 721 1.0
  (Split 303 1.0 (Leaf 0.05210011) (Leaf 0.01769351)) (Leaf 0.011380938)) (Leaf (-0.021908605)))
  (Split 812 1.0 (Split 36 1.0 (Split 540 1.0 (Leaf 0.010111122) (Leaf (-0.04090248))) (Leaf
  0.035634004)) (Leaf 0.042293336))) (Leaf (-0.020700123)))) (Split 540 1.0 (Split 128 1.0 (Leaf
  0.05700937) (Leaf 0.015106889)) (Split 452 1.0 (Leaf (-0.014791533)) (Leaf 0.025748406)))) (Split
  800 1.0 (Split 540 1.0 (Leaf (-0.0047037913)) (Leaf 0.01997245)) (Leaf 0.057103153)).

Definition var28 : tree :=
  Split 968 1.0 (Split 430 1.0 (Split 833 1.0 (Split 156 1.0 (Split 365 1.0 (Split 979 1.0 (Split
  99 1.0 (Split 780 1.0 (Split 799 1.0 (Split 55 1.0 (Split 709 1.0 (Split 751 1.0 (Leaf
  (-0.024664411)) (Leaf 0.054849077)) (Split 77 1.0 (Leaf 0.067389645) (Leaf (-0.01885563))))
  (Split 815 1.0 (Split 789 1.0 (Leaf 0.039966464) (Leaf (-0.0080373315))) (Leaf (-0.03782345))))
  (Split 50 1.0 (Split 874 1.0 (Split 178 1.0 (Leaf 0.034958757) (Leaf (-0.026981806))) (Leaf
  (-0.039879527))) (Leaf (-0.04725997)))) (Split 65 1.0 (Split 498 1.0 (Split 435 2.0 (Split 117
  1.0 (Leaf 0.042289507) (Leaf (-0.004188718))) (Leaf (-0.016215628))) (Split 435 1.0 (Leaf
  0.013033825) (Leaf (-0.023774667)))) (Leaf (-0.035973035)))) (Split 479 1.0 (Split 36 2.0 (Split
  158 1.0 (Split 562 1.0 (Split 141 1.0 (Leaf 0.043716352) (Leaf 0.0027691794)) (Leaf
  (-0.02294862))) (Leaf (-0.027323676))) (Leaf (-0.024733922))) (Leaf (-0.05964148)))) (Split 77
  1.0 (Split 621 1.0 (Split 250 1.0 (Split 668 1.0 (Split 149 1.0 (Split 5 1.0 (Leaf 0.037573487)
  (Leaf (-0.031356495))) (Leaf (-0.034508552))) (Split 452 1.0 (Leaf (-0.039008066)) (Leaf
  (-0.009601334)))) (Split 670 1.0 (Split 300 1.0 (Leaf (-0.053771365)) (Leaf (-0.0005153594)))
  (Leaf 0.013269386))) (Leaf (-0.057854004))) (Split 300 1.0 (Split 23 1.0 (Split 670 1.0 (Split
  678 1.0 (Leaf (-0.04720646)) (Leaf (-0.013984116))) (Leaf (-0.0003354512))) (Leaf 0.0067197094))
  (Split 789 1.0 (Leaf 0.025174944) (Leaf (-0.0070605786)))))) var28_13723) var28_13746)
  var28_13853) (Split 288 1.0 (Split 435 1.0 (Split 540 1.0 (Leaf 0.031304967) (Split 979 1.0 (Leaf
  (-0.023366211)) (Leaf 0.019704811))) (Leaf (-0.024683397))) (Leaf (-0.056685425)))) var28_13895.

Definition var29_14085 : tree :=
  Split 296 1.0 (Split 540 3.0 (Split 537 1.0 (Split 494 1.0 (Split 678 1.0 (Leaf 0.03675282) (Leaf
  0.009023192)) (Leaf (-0.023023624))) (Leaf (-0.03380565))) (Leaf (-0.04889409))) (Leaf
  (-0.041076433)).

Definition var29_14273 : tree :=
  Split 812 1.0 (Split 540 1.0 (Split 435 1.0 (Split 300 1.0 (Leaf (-0.055906024)) (Leaf
  (-0.014326717))) (Leaf (-0.00908985))) (Split 36 1.0 (Leaf 0.0) (Leaf (-0.008511734)))) (Leaf
  0.01595803).

Definition var29_14128 : tree :=
  Split 958 1.0 (Split 997 1.0 (Split 979 1.0 (Split 330 1.0 (Split 780 1.0 (Split 99 1.0 (Split 55
  1.0 (Split 799 1.0 (Leaf (-0.018602224)) (Leaf 0.03172419)) (Split 518 1.0 (Leaf 0.047733482)
  (Leaf 0.008955426))) (Split 617 1.0 (Split 300 1.0 (Leaf 0.05087098) (Leaf 0.018385483)) (Leaf
  (-0.0028768957)))) (Split 976 1.0 (Split 908 1.0 (Leaf 0.05405071) (Leaf 0.010171271)) (Leaf
  0.013298123))) (Leaf 0.05942707)) (Split 41 1.0 (Split 104 1.0 (Split 559 1.0 (Split 178 1.0
  (Split 303 1.0 (Leaf 0.051042236) (Leaf 0.017133854)) (Leaf 0.0056115603)) (Leaf (-0.021315495)))
  (Split 255 1.0 (Split 36 1.0 (Split 812 1.0 (Leaf (-0.003527245)) (Leaf 0.034402627)) (Leaf
  0.04104089)) (Leaf (-0.026484562)))) (Leaf (-0.020056682)))) (Split 452 1.0 (Split 435 1.0 (Leaf
  0.029101243) (Leaf (-0.012736236))) (Split 678 1.0 (Leaf 0.022104712) (Leaf 0.05677368)))) (Split
  800 1.0 (Split 540 1.0 (Leaf (-0.004580293)) (Leaf 0.019428033)) (Leaf 0.056685638)).

Definition var29 : tree :=
  Split 968 1.0 (Split 430 1.0 (Split 833 1.0 (Split 156 1.0 (Split 190 1.0 (Split 979 1.0 (Split
  99 1.0 (Split 780 1.0 (Split 799 1.0 (Split 55 1.0 (Split 709 1.0 (Split 819 1.0 (Leaf
  (-0.02426966)) (Leaf 0.04209165)) (Split 77 1.0 (Leaf 0.06763741) (Leaf (-0.018410938)))) (Split
  619 1.0 (Split 702 1.0 (Leaf 0.036523424) (Leaf (-0.032834265))) (Leaf (-0.037557337)))) (Split
  517 1.0 (Split 877 1.0 (Split 939 1.0 (Leaf 0.034755655) (Leaf (-0.040266145))) (Leaf
  (-0.03882381))) (Split 678 1.0 (Leaf (-0.029893989)) (Leaf 0.0011763613)))) (Split 65 1.0 (Split
  517 1.0 (Split 758 1.0 (Split 630 1.0 (Leaf 0.040709034) (Leaf (-0.011174461))) (Leaf
  (-0.018246466))) (Leaf (-0.016737452))) (Leaf (-0.035065588)))) (Split 479 1.0 (Split 36 2.0
  (Split 141 1.0 (Split 862 1.0 (Split 473 1.0 (Leaf 0.04253375) (Leaf (-0.032327052))) (Leaf
  (-0.033639617))) (Split 435 1.0 (Split 452 1.0 (Leaf 0.0036030472) (Leaf 0.039481994)) (Split 678
  1.0 (Leaf (-0.00019243993)) (Leaf (-0.054608133))))) (Leaf (-0.023732252))) (Leaf
  (-0.057936527)))) (Split 104 1.0 (Split 300 1.0 (Split 766 1.0 (Split 776 1.0 (Split 912 1.0
  (Split 149 1.0 (Leaf 0.03318509) (Leaf (-0.042789556))) (Split 819 1.0 (Leaf (-0.014270944))
  (Leaf 0.039530277))) (Split 452 1.0 (Leaf (-0.042037535)) (Leaf (-0.005327424)))) (Leaf
  (-0.059382256))) (Split 759 1.0 (Split 357 1.0 (Split 1019 1.0 (Split 77 1.0 (Leaf 0.05490417)
  (Leaf 0.017739668)) (Split 452 1.0 (Leaf (-0.01259211)) (Leaf 0.03173172))) (Leaf
  (-0.008304195))) (Split 300 2.0 (Leaf (-0.023092462)) (Leaf 0.014006241)))) var29_14085)) (Split
  120 1.0 (Split 678 1.0 (Split 300 1.0 (Split 659 1.0 (Leaf (-0.031185998)) (Leaf 0.017827643))
  (Leaf 0.04304594)) (Leaf (-0.039837178))) (Leaf 0.056459397))) var29_14128) (Split 670 1.0 (Split
  812 1.0 (Split 435 1.0 (Split 300 1.0 (Leaf 0.056095343) (Leaf 0.02229454)) (Leaf 0.0038685487))
  (Leaf (-0.017842516))) (Leaf (-0.035188)))) (Split 288 1.0 (Split 678 1.0 (Split 435 1.0 (Split
  300 1.0 (Leaf 0.042603903) (Leaf (-0.001754136))) (Leaf (-0.02723825))) (Leaf (-0.031643186)))
  (Leaf (-0.05629267)))) var29_14273.

Definition var30_14601 : tree :=
  Split 670 1.0 (Split 976 1.0 (Split 641 1.0 (Split 435 1.0 (Split 300 1.0 (Leaf 0.05580434) (Leaf
  0.020692458)) (Leaf 0.008680968)) (Leaf (-0.013588256))) (Leaf (-0.01972136))) (Leaf
  (-0.03428772)).

Definition var30_14452 : tree :=
  Split 452 1.0 (Split 607 1.0 (Split 300 2.0 (Split 981 1.0 (Leaf (-0.045262672)) (Leaf
  0.03274594)) (Leaf 0.036624543)) (Leaf 0.035628937)) (Split 908 1.0 (Split 36 1.0 (Leaf
  0.04416701) (Leaf 0.0035054765)) (Leaf (-0.008623332))).

Definition var30_14643 : tree :=
  Split 812 1.0 (Split 540 1.0 (Split 55 1.0 (Split 435 1.0 (Split 670 1.0 (Leaf (-0.05561581))
  (Leaf (-0.013894873))) (Leaf (-0.012819442))) (Leaf 0.001088608)) (Split 36 1.0 (Leaf 0.0) (Leaf
  (-0.008268728)))) (Leaf 0.015582323).

Definition var30_14502 : tree :=
  Split 958 1.0 (Split 997 1.0 (Split 979 1.0 (Split 330 1.0 (Split 780 1.0 (Split 99 1.0 (Split
  709 1.0 (Split 55 1.0 (Leaf (-0.015697926)) (Leaf 0.03617091)) (Leaf 0.060279127)) (Split 141 1.0
  (Split 284 1.0 (Leaf 0.045688193) (Leaf 0.01012755)) (Leaf (-0.0011525421)))) (Split 976 1.0
  (Split 995 1.0 (Leaf 0.053816944) (Leaf 0.011497014)) (Leaf 0.012908067))) (Leaf 0.05849303))
  (Split 392 1.0 (Split 327 1.0 (Split 178 1.0 (Split 104 1.0 (Split 721 1.0 (Leaf 0.04924584)
  (Leaf 0.009525994)) (Split 812 1.0 (Leaf 0.010701659) (Leaf 0.04249156))) (Leaf
  (-0.00018586002))) (Leaf (-0.010646219))) (Split 435 1.0 (Leaf 0.0067058443) (Leaf
  (-0.012401204))))) (Split 540 1.0 (Split 128 1.0 (Leaf 0.05618273) (Leaf 0.01432381)) (Split 452
  1.0 (Leaf (-0.01441916)) (Leaf 0.02434826)))) (Split 800 1.0 (Split 540 1.0 (Leaf (-0.004460058))
  (Leaf 0.018899722)) (Leaf 0.05629298)).

Definition var30 : tree :=
  Split 968 1.0 (Split 430 1.0 (Split 833 1.0 (Split 156 1.0 (Split 190 1.0 (Split 979 1.0 (Split
  99 1.0 (Split 780 1.0 (Split 986 1.0 (Split 799 1.0 (Split 819 1.0 (Split 709 1.0 (Leaf
  (-0.022387495)) (Leaf 0.058996547)) (Split 697 1.0 (Leaf 0.06142794) (Leaf (-0.0563724)))) (Split
  742 1.0 (Split 874 1.0 (Leaf 0.029606467) (Leaf (-0.039611425))) (Split 300 1.0 (Leaf
  (-0.03826307)) (Leaf (-0.010522145))))) (Split 670 1.0 (Split 938 1.0 (Split 435 1.0 (Leaf
  0.072887905) (Leaf 0.02043785)) (Leaf (-0.0104511855))) (Split 104 1.0 (Leaf 0.0017640183) (Leaf
  (-0.00030465747))))) (Split 65 1.0 (Split 498 1.0 (Split 670 1.0 (Split 435 2.0 (Leaf 0.04248721)
  (Leaf (-0.016785145))) (Split 8 1.0 (Leaf (-0.0063288123)) (Leaf 0.043229397))) (Split 435 1.0
  (Leaf 0.011932707) (Leaf (-0.023786511)))) (Leaf (-0.034187615)))) (Split 479 1.0 (Split 178 1.0
  (Split 944 1.0 (Split 517 1.0 (Split 65 1.0 (Leaf 0.042231884) (Leaf (-0.011942214))) (Split 36
  1.0 (Leaf 0.007358326) (Leaf (-0.03939705)))) (Leaf (-0.03002663))) (Split 540 1.0 (Leaf
  (-0.02196933)) (Leaf 0.0051791994))) (Leaf (-0.05633352)))) (Split 986 1.0 (Split 104 1.0 (Split
  300 1.0 (Split 659 1.0 (Split 766 1.0 (Split 776 1.0 (Leaf 0.02016635) (Leaf (-0.03592101)))
  (Leaf (-0.057244807))) (Split 608 1.0 (Split 529 1.0 (Leaf 0.05251671) (Leaf 0.011835415)) (Leaf
  (-0.01159054)))) (Split 94 1.0 (Split 357 1.0 (Split 996 1.0 (Leaf 0.051492393) (Leaf
  0.007263335)) (Leaf (-0.0073474194))) (Leaf (-0.024647154)))) var30_14452) (Leaf 0.05786116)))
  (Split 120 1.0 (Split 678 1.0 (Split 300 1.0 (Split 659 1.0 (Leaf (-0.030179376)) (Leaf
  0.017279463)) (Leaf 0.04142216)) (Leaf (-0.038679507))) (Leaf 0.056079905))) var30_14502)
  var30_14601) (Split 288 1.0 (Split 979 1.0 (Split 435 1.0 (Split 540 1.0 (Leaf 0.023544874) (Leaf
  (-0.022686927))) (Leaf (-0.034952763))) (Leaf 0.022939345)) (Leaf (-0.055922903)))) var30_14643.

Definition var31_14983 : tree :=
  Split 670 1.0 (Split 976 1.0 (Split 641 1.0 (Split 435 1.0 (Split 300 1.0 (Leaf 0.055429853)
  (Leaf 0.020075923)) (Leaf 0.008378965)) (Leaf (-0.013204639))) (Leaf (-0.019178197))) (Leaf
  (-0.033417005)).

Definition var31_15025 : tree :=
  Split 812 1.0 (Split 540 1.0 (Split 55 1.0 (Split 435 1.0 (Split 670 1.0 (Leaf (-0.05524978))
  (Leaf (-0.013571692))) (Leaf (-0.012443952))) (Leaf 0.0010581552)) (Split 36 1.0 (Leaf 0.0) (Leaf
  (-0.008032746)))) (Leaf 0.01521626).

Definition var31_14826 : tree :=
  Split 452 1.0 (Split 607 1.0 (Split 300 2.0 (Split 981 1.0 (Leaf (-0.042510275)) (Leaf
  0.03222961)) (Leaf 0.03601582)) (Leaf 0.034870476)) (Split 540 2.0 (Split 855 1.0 (Split 36 1.0
  (Leaf 0.04388931) (Leaf 0.009032994)) (Leaf (-0.0021743383))) (Leaf (-0.016188968))).

Definition var31_14880 : tree :=
  Split 958 1.0 (Split 997 1.0 (Split 979 1.0 (Split 330 1.0 (Split 780 1.0 (Split 99 1.0 (Split
  709 1.0 (Split 799 1.0 (Leaf (-0.01550947)) (Leaf 0.031359226)) (Leaf 0.0585849)) (Split 617 1.0
  (Split 300 1.0 (Leaf 0.049477886) (Leaf 0.016943168)) (Leaf (-0.0036188972)))) (Split 976 1.0
  (Split 908 1.0 (Leaf 0.052794337) (Leaf 0.00931398)) (Leaf 0.01252905))) (Leaf 0.057601538))
  (Split 41 1.0 (Split 559 1.0 (Split 104 1.0 (Split 303 1.0 (Split 721 1.0 (Leaf 0.04998447) (Leaf
  0.009241349)) (Split 300 1.0 (Leaf (-0.014849273)) (Leaf 0.039899684))) (Split 812 1.0 (Split 36
  1.0 (Leaf (-0.014335704)) (Leaf 0.03418569)) (Leaf 0.04042981))) (Leaf (-0.021801678))) (Leaf
  (-0.019749025)))) (Split 452 1.0 (Split 435 1.0 (Leaf 0.027851015) (Leaf (-0.0126786325))) (Split
  678 1.0 (Leaf 0.020493062) (Leaf 0.05601413)))) (Split 800 1.0 (Split 540 1.0 (Leaf
  (-0.004342998)) (Leaf 0.01838695)) (Leaf 0.055923283)).

Definition var31 : tree :=
  Split 968 1.0 (Split 430 1.0 (Split 833 1.0 (Split 156 1.0 (Split 190 1.0 (Split 979 1.0 (Split
  99 1.0 (Split 780 1.0 (Split 986 1.0 (Split 438 1.0 (Split 799 1.0 (Split 55 1.0 (Leaf
  (-0.022129145)) (Leaf 0.028709805)) (Split 742 1.0 (Leaf 0.025531774) (Leaf (-0.030608878))))
  (Split 357 1.0 (Split 678 1.0 (Leaf 0.08499422) (Leaf (-0.00664735))) (Leaf (-0.013016865))))
  (Split 670 1.0 (Split 938 1.0 (Split 789 1.0 (Leaf 0.06674687) (Leaf 0.0068374686)) (Leaf
  (-0.010177766))) (Split 104 1.0 (Leaf 0.0017193813) (Leaf (-0.00029638814))))) (Split 65 1.0
  (Split 517 1.0 (Split 8 1.0 (Split 435 1.0 (Leaf 0.03892807) (Leaf 0.012176625)) (Split 36 1.0
  (Leaf 0.05800913) (Leaf (-0.0058334786)))) (Leaf (-0.016682668))) (Leaf (-0.033337425)))) (Split
  479 1.0 (Split 178 1.0 (Split 141 1.0 (Split 562 1.0 (Split 158 1.0 (Leaf 0.041779634) (Leaf
  (-0.02779882))) (Leaf (-0.025138984))) (Split 452 1.0 (Split 678 1.0 (Leaf (-0.011750898)) (Leaf
  (-0.04239446))) (Leaf 0.04042329))) (Split 435 1.0 (Split 540 1.0 (Leaf 0.0067233415) (Leaf
  (-0.006729757))) (Leaf (-0.02630434)))) (Leaf (-0.054823197)))) (Split 986 1.0 (Split 104 1.0
  (Split 300 1.0 (Split 659 1.0 (Split 766 1.0 (Split 449 1.0 (Leaf 0.018747201) (Leaf
  (-0.05674055))) (Leaf (-0.05523168))) (Split 608 1.0 (Split 529 1.0 (Leaf 0.051682897) (Leaf
  0.011558586)) (Leaf (-0.011267794)))) (Split 94 1.0 (Split 357 1.0 (Split 996 1.0 (Leaf
  0.0507289) (Leaf 0.0070179063)) (Leaf (-0.007077593))) (Leaf (-0.023755651)))) var31_14826) (Leaf
  0.057186544))) (Split 120 1.0 (Split 678 1.0 (Split 300 1.0 (Split 659 1.0 (Leaf (-0.029206296))
  (Leaf 0.016748881)) (Leaf 0.03986755)) (Leaf (-0.03756293))) (Leaf 0.055722404))) var31_14880)
  var31_14983) (Split 288 1.0 (Split 678 1.0 (Split 435 1.0 (Split 300 1.0 (Leaf 0.041085716) (Leaf
  (-0.0017032599))) (Leaf (-0.026314288))) (Leaf (-0.03090157))) (Leaf (-0.055574384))))
  var31_15025.

Definition var32_15201 : tree :=
  Split 607 1.0 (Split 452 1.0 (Split 537 1.0 (Leaf (-0.018514447)) (Leaf (-0.0675598))) (Split 36
  1.0 (Leaf 0.036613684) (Leaf (-0.013563036)))) (Split 452 1.0 (Leaf 0.038903676) (Leaf
  0.009171333)).

Definition var32_15369 : tree :=
  Split 670 1.0 (Split 812 1.0 (Split 36 1.0 (Split 300 1.0 (Leaf 0.054977518) (Split 156 1.0
  (Split 435 1.0 (Leaf (-0.0152821755)) (Leaf 0.008694079)) (Leaf 0.051937547))) (Leaf
  (-0.008136532))) (Leaf (-0.01727894))) (Leaf (-0.032574326)).

Definition var32_15415 : tree :=
  Split 812 1.0 (Split 540 1.0 (Split 55 1.0 (Split 435 1.0 (Split 300 1.0 (Leaf (-0.0548997))
  (Leaf (-0.01260035))) (Leaf (-0.012079584))) (Leaf 0.0010285577)) (Split 36 1.0 (Leaf 0.0) (Leaf
  (-0.007803589)))) (Leaf 0.014859532).

Definition var32_15266 : tree :=
  Split 958 1.0 (Split 997 1.0 (Split 979 1.0 (Split 330 1.0 (Split 780 1.0 (Split 99 1.0 (Split 55
  1.0 (Split 799 1.0 (Leaf (-0.016625045)) (Leaf 0.029990375)) (Split 518 1.0 (Leaf 0.046308953)
  (Leaf 0.007851374))) (Split 617 1.0 (Split 300 1.0 (Leaf 0.048745066) (Leaf 0.016410334)) (Leaf
  (-0.0035053242)))) (Split 976 1.0 (Split 995 1.0 (Leaf 0.052591678) (Leaf 0.010551792)) (Leaf
  0.012160768))) (Leaf 0.056748647)) (Split 392 1.0 (Split 327 1.0 (Split 178 1.0 (Split 104 1.0
  (Split 303 1.0 (Leaf 0.048317455) (Leaf 0.014645803)) (Split 300 1.0 (Leaf 0.03764261) (Leaf
  0.008143273))) (Leaf (-0.0015193527))) (Leaf (-0.011392911))) (Split 300 1.0 (Leaf (-0.01082819))
  (Leaf 0.008544966)))) (Split 452 1.0 (Split 435 1.0 (Leaf 0.027228072) (Leaf (-0.0122981)))
  (Split 678 1.0 (Leaf 0.01991747) (Leaf 0.055664934)))) (Split 800 1.0 (Split 540 1.0 (Leaf
  (-0.004229029)) (Leaf 0.01788918)) (Leaf 0.05557483)).

Definition var32 : tree :=
  Split 968 1.0 (Split 430 1.0 (Split 833 1.0 (Split 156 1.0 (Split 190 1.0 (Split 979 1.0 (Split
  99 1.0 (Split 780 1.0 (Split 986 1.0 (Split 438 1.0 (Split 819 1.0 (Split 799 1.0 (Leaf
  (-0.020610629)) (Leaf 0.021419501)) (Split 60 1.0 (Leaf 0.056927778) (Leaf (-0.054569382))))
  (Split 357 1.0 (Split 678 1.0 (Leaf 0.08038847) (Leaf (-0.006434578))) (Leaf (-0.012711897))))
  (Split 435 1.0 (Split 776 1.0 (Split 517 1.0 (Leaf 0.06628536) (Leaf 0.014289886)) (Leaf
  (-0.0037132723))) (Split 789 1.0 (Split 540 1.0 (Leaf 0.032953374) (Leaf 0.011652137)) (Leaf
  (-0.012918663))))) (Split 65 1.0 (Split 8 1.0 (Split 670 1.0 (Split 630 1.0 (Leaf 0.03349706)
  (Leaf (-0.03370869))) (Split 995 1.0 (Leaf (-0.019235613)) (Leaf 0.034995582))) (Split 36 1.0
  (Leaf 0.05730587) (Leaf (-0.010236387)))) (Leaf (-0.032513507)))) (Split 479 1.0 (Split 36 2.0
  (Split 141 1.0 (Split 473 1.0 (Split 562 1.0 (Leaf 0.04011951) (Leaf (-0.02413225))) (Leaf
  (-0.03424446))) (Split 435 1.0 (Split 452 1.0 (Leaf 0.0035988619) (Leaf 0.037575863)) (Split 678
  1.0 (Leaf (-0.0014667654)) (Leaf (-0.052246895))))) (Leaf (-0.025004013))) (Leaf (-0.05339731))))
  (Split 986 1.0 (Split 540 1.0 (Split 104 1.0 (Split 996 1.0 (Split 300 1.0 (Split 989 1.0 (Leaf
  0.02977301) (Leaf (-0.062223054))) (Split 759 1.0 (Leaf 0.051939964) (Leaf (-0.012058704))))
  (Split 789 1.0 (Split 300 1.0 (Leaf (-0.026124531)) (Leaf 0.03374354)) (Leaf (-0.049781423))))
  var32_15201) (Split 819 1.0 (Split 330 1.0 (Split 396 1.0 (Split 255 1.0 (Leaf (-0.0004343212))
  (Leaf (-0.048674654))) (Leaf 0.049259383)) (Leaf 0.050641682)) (Leaf 0.05210218))) (Leaf
  0.056545284))) (Split 120 1.0 (Split 678 1.0 (Split 300 1.0 (Split 659 1.0 (Leaf (-0.028265296))
  (Leaf 0.016235253)) (Leaf 0.038378693)) (Leaf (-0.036484957))) (Leaf 0.05538524))) var32_15266)
  var32_15369) (Split 288 1.0 (Split 678 1.0 (Split 435 1.0 (Split 300 1.0 (Leaf 0.04003246) (Leaf
  (-0.0016560995))) (Leaf (-0.02561213))) (Leaf (-0.030191923))) (Leaf (-0.05524556)))) var32_15415.

Definition var33_15753 : tree :=
  Split 812 1.0 (Split 540 1.0 (Split 435 1.0 (Split 300 1.0 (Leaf (-0.054462917)) (Leaf
  (-0.01230962))) (Leaf (-0.007859051))) (Split 36 1.0 (Leaf 0.0) (Leaf (-0.00758103)))) (Leaf
  0.01451184).

Definition var33_15620 : tree :=
  Split 958 1.0 (Split 997 1.0 (Split 979 1.0 (Split 330 1.0 (Split 780 1.0 (Split 709 1.0 (Split
  99 1.0 (Split 575 1.0 (Leaf (-0.012174751)) (Leaf 0.06599304)) (Split 141 1.0 (Leaf 0.041186832)
  (Leaf (-0.00222719)))) (Leaf 0.057407893)) (Split 976 1.0 (Split 908 1.0 (Leaf 0.051625248) (Leaf
  0.008506087)) (Leaf 0.011802917))) (Leaf 0.055930853)) (Split 392 1.0 (Split 327 1.0 (Split 178
  1.0 (Split 104 1.0 (Split 721 1.0 (Leaf 0.047039844) (Leaf 0.007512018)) (Split 812 1.0 (Leaf
  0.009725046) (Leaf 0.04093682))) (Leaf (-0.0014713309))) (Leaf (-0.01105981))) (Split 300 1.0
  (Leaf (-0.010423935)) (Leaf 0.008345678)))) (Split 540 1.0 (Split 128 1.0 (Leaf 0.05511207) (Leaf
  0.013206392)) (Split 452 1.0 (Leaf (-0.014066896)) (Leaf 0.022251336)))) (Split 800 1.0 (Split
  540 1.0 (Leaf (-0.004118071)) (Leaf 0.0174059)) (Leaf 0.055246044)).

Definition var33 : tree :=
  Split 968 1.0 (Split 430 1.0 (Split 833 1.0 (Split 156 1.0 (Split 190 1.0 (Split 979 1.0 (Split
  479 1.0 (Split 99 1.0 (Split 780 1.0 (Split 986 1.0 (Split 709 1.0 (Split 55 1.0 (Leaf
  (-0.015328023)) (Leaf 0.029289836)) (Split 77 1.0 (Leaf 0.064493544) (Leaf (-0.018537363))))
  (Split 912 1.0 (Split 938 1.0 (Leaf 0.056496944) (Leaf (-0.011237441))) (Leaf (-0.009731771))))
  (Split 65 1.0 (Split 498 1.0 (Split 435 2.0 (Leaf 0.03714784) (Leaf (-0.017992875))) (Split 435
  1.0 (Leaf 0.010042732) (Leaf (-0.023831768)))) (Leaf (-0.029732859)))) (Split 65 1.0 (Split 944
  1.0 (Split 517 1.0 (Split 178 1.0 (Leaf 0.039728247) (Leaf (-0.012519351))) (Split 36 1.0 (Leaf
  0.0051221107) (Leaf (-0.03970322)))) (Leaf (-0.030010203))) (Split 678 1.0 (Split 540 1.0 (Leaf
  (-0.040756457)) (Leaf 0.0062776417)) (Leaf 0.0040934794)))) (Split 937 1.0 (Split 459 1.0 (Split
  759 1.0 (Split 330 1.0 (Split 148 1.0 (Leaf (-0.063074216)) (Leaf (-0.013300314))) (Leaf
  (-0.010752385))) (Leaf (-0.01071134))) (Leaf (-0.008982835))) (Split 36 1.0 (Leaf (-0.021344613))
  (Leaf 0.018349042)))) (Split 77 1.0 (Split 621 1.0 (Split 668 1.0 (Split 250 1.0 (Split 5 1.0
  (Split 56 1.0 (Leaf 0.03341668) (Leaf (-0.046139248))) (Leaf (-0.034779422))) (Split 300 1.0
  (Leaf (-0.04146266)) (Leaf 0.00088868395))) (Leaf (-0.0406693))) (Leaf (-0.05594455))) (Split 300
  1.0 (Split 679 1.0 (Split 36 1.0 (Leaf (-0.04677747)) (Leaf 0.0037198626)) (Leaf 0.0066708536))
  (Split 540 1.0 (Leaf 0.02384718) (Leaf (-0.0059387325)))))) (Split 120 1.0 (Split 36 1.0 (Split
  822 1.0 (Split 908 1.0 (Leaf (-0.044974085)) (Leaf 0.012131254)) (Leaf 0.032021035)) (Leaf
  0.027385984)) (Leaf 0.05506694))) var33_15620) (Split 670 1.0 (Split 812 1.0 (Split 435 1.0
  (Split 300 1.0 (Leaf 0.05461607) (Leaf 0.021182425)) (Leaf 0.0026736876)) (Leaf (-0.016787875)))
  (Leaf (-0.031758267)))) (Split 288 1.0 (Split 979 1.0 (Split 452 1.0 (Split 540 1.0 (Leaf
  (-0.00276359)) (Leaf (-0.03834333))) (Leaf 0.011611833)) (Leaf 0.02145341)) (Leaf
  (-0.054934975)))) var33_15753.

Definition var34_16065 : tree :=
  Split 670 1.0 (Split 976 1.0 (Split 641 1.0 (Split 435 1.0 (Split 300 1.0 (Leaf 0.054419197)
  (Leaf 0.019345604)) (Leaf 0.007065111)) (Leaf (-0.012908945))) (Leaf (-0.018771261))) (Leaf
  (-0.030967528)).

Definition var34_16107 : tree :=
  Split 812 1.0 (Split 540 1.0 (Split 55 1.0 (Split 435 1.0 (Split 670 1.0 (Leaf (-0.054262277))
  (Leaf (-0.011891106))) (Leaf (-0.011495975))) (Leaf 0.0020181078)) (Split 36 1.0 (Leaf 0.0) (Leaf
  (-0.00736488)))) (Leaf 0.014172916).

Definition var34_15966 : tree :=
  Split 958 1.0 (Split 997 1.0 (Split 979 1.0 (Split 330 1.0 (Split 53 1.0 (Split 575 1.0 (Split 99
  1.0 (Split 55 1.0 (Leaf (-0.012408264)) (Leaf 0.034282736)) (Split 617 1.0 (Leaf 0.03995126)
  (Leaf (-0.004127194)))) (Leaf 0.063443854)) (Split 518 1.0 (Split 678 1.0 (Leaf 0.067334205)
  (Leaf (-0.0012512495))) (Leaf 0.010678693))) (Leaf 0.05514499)) (Split 559 1.0 (Split 41 1.0
  (Split 104 1.0 (Split 303 1.0 (Split 721 1.0 (Leaf 0.04808154) (Leaf 0.007285093)) (Split 300 1.0
  (Leaf (-0.016570775)) (Leaf 0.038194325))) (Split 255 1.0 (Split 36 1.0 (Leaf 0.007809132) (Leaf
  0.0387551)) (Leaf (-0.02643922)))) (Leaf (-0.019935898))) (Leaf (-0.023056297)))) (Split 452 1.0
  (Split 435 1.0 (Leaf 0.026061032) (Leaf (-0.012244472))) (Split 678 1.0 (Leaf 0.018406006) (Leaf
  0.055028606)))) (Split 800 1.0 (Split 540 1.0 (Leaf (-0.0040100343)) (Leaf 0.016936617)) (Leaf
  0.054935504)).

Definition var34 : tree :=
  Split 968 1.0 (Split 430 1.0 (Split 833 1.0 (Split 156 1.0 (Split 190 1.0 (Split 979 1.0 (Split
  479 1.0 (Split 99 1.0 (Split 330 1.0 (Split 780 1.0 (Split 799 1.0 (Split 55 1.0 (Leaf
  (-0.016106915)) (Leaf 0.030550987)) (Split 517 1.0 (Leaf 0.0275074) (Leaf (-0.028111085))))
  (Split 8 1.0 (Split 65 1.0 (Leaf 0.023456154) (Leaf (-0.044692766))) (Split 36 1.0 (Leaf
  0.056058027) (Leaf 0.00041322518)))) (Split 104 1.0 (Split 662 1.0 (Split 964 1.0 (Leaf
  0.070748195) (Leaf 0.020559376)) (Leaf 0.005563286)) (Leaf 0.007325391))) (Split 65 1.0 (Split
  944 1.0 (Split 517 1.0 (Split 924 1.0 (Leaf 0.03799853) (Leaf (-0.032796945))) (Split 36 1.0
  (Leaf 0.00495606) (Leaf (-0.03858667)))) (Leaf (-0.029060153))) (Split 678 1.0 (Split 540 1.0
  (Leaf (-0.03934926)) (Leaf 0.0061104735)) (Leaf 0.003976059)))) (Split 937 1.0 (Split 459 1.0
  (Split 759 1.0 (Split 330 1.0 (Split 148 1.0 (Leaf (-0.061981745)) (Leaf (-0.012986833))) (Leaf
  (-0.010465721))) (Leaf (-0.010460194))) (Leaf (-0.008775722))) (Split 36 1.0 (Leaf
  (-0.020834854)) (Leaf 0.017756768)))) (Split 986 1.0 (Split 300 1.0 (Split 659 1.0 (Split 330 1.0
  (Split 77 1.0 (Split 776 1.0 (Leaf 0.01313996) (Leaf (-0.043510035))) (Split 670 1.0 (Leaf
  (-0.042604882)) (Leaf (-0.0018019354)))) (Leaf 0.052795447)) (Split 608 1.0 (Split 540 1.0 (Leaf
  0.05187104) (Split 976 1.0 (Leaf 0.03560516) (Leaf (-0.0020340004)))) (Leaf (-0.0113157695))))
  (Split 296 1.0 (Split 738 1.0 (Split 357 1.0 (Split 94 1.0 (Leaf 0.045356873) (Leaf
  (-0.022625897))) (Leaf (-0.01596392))) (Leaf (-0.05176965))) (Leaf (-0.039877225)))) (Leaf
  0.055636495))) (Split 120 1.0 (Split 678 1.0 (Split 300 1.0 (Split 659 1.0 (Leaf (-0.026516488))
  (Leaf 0.014830216)) (Leaf 0.037303936)) (Leaf (-0.035059743))) (Leaf 0.054766107))) var34_15966)
  var34_16065) (Split 288 1.0 (Split 678 1.0 (Split 435 1.0 (Split 300 1.0 (Leaf 0.038665) (Leaf
  (-0.0011951417))) (Leaf (-0.025089493))) (Leaf (-0.029409075))) (Leaf (-0.054641314))))
  var34_16107.

Definition var35_16439 : tree :=
  Split 670 1.0 (Split 976 1.0 (Split 641 1.0 (Split 435 1.0 (Split 300 1.0 (Leaf 0.054113973)
  (Leaf 0.018772004)) (Leaf 0.0068199425)) (Leaf (-0.012544559))) (Leaf (-0.018257333))) (Leaf
  (-0.030200914)).

Definition var35_16481 : tree :=
  Split 812 1.0 (Split 435 1.0 (Split 36 1.0 (Split 300 1.0 (Leaf (-0.0539473)) (Leaf 0.009988126))
  (Leaf 0.007970081)) (Split 65 1.0 (Leaf 0.0024602793) (Leaf (-0.018351419)))) (Leaf 0.013842476).

Definition var35_16332 : tree :=
  Split 958 1.0 (Split 997 1.0 (Split 979 1.0 (Split 780 1.0 (Split 986 1.0 (Split 157 1.0 (Split
  99 1.0 (Split 799 1.0 (Leaf (-0.013750829)) (Leaf 0.030966554)) (Split 141 1.0 (Leaf 0.040243994)
  (Leaf (-0.0045521986)))) (Leaf 0.06660284)) (Split 912 1.0 (Leaf 0.06436767) (Leaf
  0.0020847397))) (Split 976 1.0 (Split 995 1.0 (Leaf 0.051838785) (Leaf 0.013150269)) (Split 540
  1.0 (Leaf 0.03150698) (Leaf (-0.005940515))))) (Split 392 1.0 (Split 862 1.0 (Split 178 1.0
  (Split 104 1.0 (Split 303 1.0 (Leaf 0.046241887) (Leaf 0.01234652)) (Split 300 1.0 (Leaf
  0.036260393) (Leaf 0.006716013))) (Leaf (-0.0027966343))) (Leaf (-0.012171878))) (Split 435 1.0
  (Leaf 0.0050493027) (Leaf (-0.012948099))))) (Split 540 1.0 (Split 156 2.0 (Split 979 1.0 (Leaf
  0.008682352) (Leaf 0.029566178)) (Leaf 0.05466829)) (Split 452 1.0 (Leaf (-0.013703278)) (Leaf
  0.021016246)))) (Split 800 1.0 (Split 540 1.0 (Leaf (-0.0039048542)) (Leaf 0.016480856)) (Leaf
  0.054641873)).

Definition var35 : tree :=
  Split 968 1.0 (Split 430 1.0 (Split 833 1.0 (Split 156 1.0 (Split 190 1.0 (Split 979 1.0 (Split
  479 1.0 (Split 99 1.0 (Split 330 1.0 (Split 986 1.0 (Split 819 1.0 (Split 780 1.0 (Leaf
  (-0.013590658)) (Leaf 0.025891963)) (Split 60 1.0 (Leaf 0.057068076) (Leaf (-0.05290825))))
  (Split 950 1.0 (Split 912 1.0 (Leaf 0.055427875) (Leaf (-0.010535135))) (Leaf (-0.02757725))))
  (Split 104 1.0 (Split 662 1.0 (Split 267 1.0 (Leaf 0.06845723) (Leaf 0.016350402)) (Leaf
  0.005398659)) (Leaf 0.0071093775))) (Split 178 1.0 (Split 141 1.0 (Split 862 1.0 (Split 473 1.0
  (Leaf 0.038025502) (Leaf (-0.03587383))) (Leaf (-0.037035007))) (Split 452 1.0 (Split 964 1.0
  (Leaf (-0.03243519)) (Leaf (-0.0020190747))) (Leaf 0.0381414))) (Split 540 1.0 (Leaf
  (-0.022018006)) (Leaf 0.0035022951)))) (Split 937 1.0 (Split 459 1.0 (Split 330 1.0 (Split 759
  1.0 (Split 148 1.0 (Leaf (-0.06094302)) (Leaf (-0.012680943))) (Leaf (-0.0102150375))) (Leaf
  (-0.010186936))) (Leaf (-0.008573487))) (Split 36 1.0 (Leaf (-0.020337967)) (Leaf 0.01718509))))
  (Split 986 1.0 (Split 540 1.0 (Split 104 1.0 (Split 996 1.0 (Split 300 1.0 (Split 989 1.0 (Leaf
  0.027520312) (Leaf (-0.060949236))) (Split 759 1.0 (Leaf 0.050406415) (Leaf (-0.013207758))))
  (Split 789 1.0 (Split 300 1.0 (Leaf (-0.026808336)) (Leaf 0.032047544)) (Leaf (-0.048797943))))
  (Split 789 1.0 (Split 452 1.0 (Split 607 1.0 (Leaf (-0.046986125)) (Leaf 0.03341436)) (Split 300
  1.0 (Leaf 0.03816388) (Leaf 0.00039218736))) (Leaf 0.04015788))) (Split 819 1.0 (Split 330 1.0
  (Split 396 1.0 (Split 255 1.0 (Leaf (-0.0024763902)) (Leaf (-0.04822426))) (Leaf 0.047742613))
  (Leaf 0.04870632)) (Leaf 0.050418008))) (Leaf 0.055066105))) (Split 120 1.0 (Split 36 1.0 (Split
  822 1.0 (Split 908 1.0 (Leaf (-0.043098953)) (Leaf 0.011680992)) (Leaf 0.03035487)) (Leaf
  0.026681809)) (Leaf 0.054481503))) var35_16332) var35_16439) (Split 288 1.0 (Split 979 1.0 (Split
  452 1.0 (Split 540 1.0 (Leaf (-0.0027507201)) (Leaf (-0.03743672))) (Leaf 0.011284783)) (Leaf
  0.020463495)) (Leaf (-0.05436335)))) var35_16481.

Definition var36_16839 : tree :=
  Split 55 1.0 (Split 540 1.0 (Split 16 1.0 (Split 435 1.0 (Split 300 1.0 (Leaf (-0.053737294))
  (Leaf (-0.011597468))) (Leaf 0.0029497799)) (Leaf (-0.0036101334))) (Leaf (-0.0044809086))) (Leaf
  0.009021896).

Definition var36_16793 : tree :=
  Split 670 1.0 (Split 812 1.0 (Split 36 1.0 (Split 300 1.0 (Leaf 0.053704675) (Split 156 1.0
  (Split 435 1.0 (Leaf (-0.015579008)) (Leaf 0.008450716)) (Leaf 0.050410368))) (Leaf
  (-0.009226604))) (Leaf (-0.016254885))) (Leaf (-0.029457305)).

Definition var36_16694 : tree :=
  Split 958 1.0 (Split 997 1.0 (Split 979 1.0 (Split 330 1.0 (Split 53 1.0 (Split 575 1.0 (Split
  780 1.0 (Split 709 1.0 (Leaf (-0.009906112)) (Leaf 0.054562416)) (Split 976 1.0 (Leaf 0.04587451)
  (Leaf 0.008909982))) (Leaf 0.061479617)) (Split 36 1.0 (Split 678 1.0 (Leaf 0.06129663) (Leaf
  0.012957525)) (Leaf 0.008582179))) (Leaf 0.054165192)) (Split 559 1.0 (Split 41 1.0 (Split 104
  1.0 (Split 300 1.0 (Split 303 1.0 (Leaf 0.037723143) (Leaf (-0.016414749))) (Leaf 0.054414637))
  (Split 812 1.0 (Split 540 1.0 (Leaf 0.016122645) (Leaf (-0.026464513))) (Leaf 0.03838357))) (Leaf
  (-0.019548763))) (Leaf (-0.02342431)))) (Split 540 1.0 (Split 156 2.0 (Split 979 1.0 (Leaf
  0.008429583) (Leaf 0.029142141)) (Leaf 0.054389205)) (Split 452 1.0 (Leaf (-0.013339885)) (Leaf
  0.020544725)))) (Split 800 1.0 (Split 540 1.0 (Leaf (-0.0038024434)) (Leaf 0.016038174)) (Leaf
  0.054363932)).

Definition var36 : tree :=
  Split 968 1.0 (Split 430 1.0 (Split 833 1.0 (Split 156 1.0 (Split 190 1.0 (Split 979 1.0 (Split
  479 1.0 (Split 330 1.0 (Split 65 1.0 (Split 517 1.0 (Split 178 1.0 (Split 73 1.0 (Leaf
  0.0075095417) (Leaf (-0.048125368))) (Split 819 1.0 (Leaf (-0.048142668)) (Leaf 0.036247626)))
  (Split 870 1.0 (Split 438 1.0 (Leaf (-0.035536017)) (Leaf 0.03785175)) (Split 36 1.0 (Leaf
  0.041537255) (Leaf (-0.02272446))))) (Split 996 1.0 (Split 518 1.0 (Split 603 1.0 (Leaf
  (-0.0493226)) (Leaf 0.018583624)) (Leaf 0.015629387)) (Leaf 0.017435646))) (Split 104 1.0 (Split
  662 1.0 (Split 267 1.0 (Split 822 1.0 (Leaf 0.06791605) (Leaf 0.028603753)) (Leaf 0.015987113))
  (Leaf 0.0052389274)) (Leaf 0.013726152))) (Split 937 1.0 (Split 459 1.0 (Split 330 1.0 (Split 759
  1.0 (Split 148 1.0 (Leaf (-0.05995169)) (Leaf (-0.012382452))) (Leaf (-0.009975719))) (Leaf
  (-0.0099158))) (Leaf (-0.008376008))) (Split 36 1.0 (Leaf (-0.019853534)) (Leaf 0.016633186))))
  (Split 986 1.0 (Split 300 1.0 (Split 659 1.0 (Split 330 1.0 (Split 449 1.0 (Split 540 1.0 (Leaf
  0.016505858) (Leaf (-0.007584023))) (Leaf (-0.05468459))) (Leaf 0.05159385)) (Split 608 1.0
  (Split 540 1.0 (Split 812 1.0 (Leaf 0.053767677) (Leaf 0.02039249)) (Split 435 1.0 (Leaf
  0.0343437) (Leaf (-0.0035851137)))) (Leaf (-0.011306802)))) (Split 104 1.0 (Split 94 1.0 (Split
  357 1.0 (Split 996 1.0 (Leaf 0.047785502) (Leaf 0.0039511514)) (Leaf (-0.009762396))) (Leaf
  (-0.02510398))) (Split 296 1.0 (Split 36 1.0 (Split 537 1.0 (Leaf 0.030448953) (Leaf
  (-0.01631813))) (Leaf (-0.014342137))) (Leaf (-0.050961412))))) (Leaf 0.054519363))) (Split 120
  1.0 (Split 678 1.0 (Split 300 1.0 (Split 659 1.0 (Leaf (-0.02486794)) (Leaf 0.013508162)) (Leaf
  0.036256656)) (Leaf (-0.03372901))) (Leaf 0.054211944))) var36_16694) var36_16793) (Split 288 1.0
  (Split 678 1.0 (Split 435 1.0 (Split 300 1.0 (Leaf 0.037363496) (Leaf (-0.00075728196))) (Leaf
  (-0.024579145))) (Leaf (-0.02865698))) (Leaf (-0.054099977)))) var36_16839.

Definition var37_17161 : tree :=
  Split 812 1.0 (Split 540 1.0 (Split 55 1.0 (Split 435 1.0 (Split 670 1.0 (Leaf (-0.053407896))
  (Leaf (-0.010981123))) (Leaf (-0.011035586))) (Leaf 0.0026005013)) (Leaf (-0.0043241526))) (Leaf
  0.013781615).

Definition var37_17028 : tree :=
  Split 958 1.0 (Split 997 1.0 (Split 979 1.0 (Split 330 1.0 (Split 53 1.0 (Split 986 1.0 (Split
  709 1.0 (Split 99 1.0 (Leaf (-0.010101812)) (Leaf 0.032363273)) (Leaf 0.05316123)) (Leaf
  0.053587437)) (Split 518 1.0 (Split 678 1.0 (Leaf 0.0640226) (Leaf (-0.001656862))) (Leaf
  0.009286007))) (Leaf 0.053442705)) (Split 559 1.0 (Split 41 1.0 (Split 104 1.0 (Split 300 1.0
  (Split 303 1.0 (Leaf 0.0369121) (Leaf (-0.01580991))) (Leaf 0.053915467)) (Split 812 1.0 (Split
  36 1.0 (Leaf (-0.015510543)) (Leaf 0.032296676)) (Leaf 0.037797015))) (Leaf (-0.01895181))) (Leaf
  (-0.022786243)))) (Split 540 1.0 (Split 156 2.0 (Split 979 1.0 (Leaf 0.008184095) (Leaf
  0.028726665)) (Leaf 0.054124754)) (Split 452 1.0 (Leaf (-0.012986218)) (Leaf 0.020084558))))
  (Split 800 1.0 (Split 540 1.0 (Leaf (-0.0037027304)) (Leaf 0.015608131)) (Leaf 0.05410057)).

Definition var37 : tree :=
  Split 968 1.0 (Split 430 1.0 (Split 833 1.0 (Split 156 1.0 (Split 190 1.0 (Split 979 1.0 (Split
  479 1.0 (Split 99 1.0 (Split 986 1.0 (Split 780 1.0 (Split 709 1.0 (Split 751 1.0 (Leaf
  (-0.012715909)) (Leaf 0.05602422)) (Split 77 1.0 (Leaf 0.06310608) (Leaf (-0.016961053)))) (Split
  8 1.0 (Split 65 1.0 (Leaf 0.022533892) (Leaf (-0.045076337))) (Split 36 1.0 (Leaf 0.05507287)
  (Leaf 0.0019268327)))) (Split 950 1.0 (Split 938 1.0 (Split 912 1.0 (Leaf 0.057697922) (Leaf
  (-0.0026590233))) (Leaf (-0.009042479))) (Leaf (-0.02656427)))) (Split 36 2.0 (Split 950 1.0
  (Split 158 1.0 (Split 562 1.0 (Leaf 0.035296354) (Leaf (-0.027600689))) (Leaf (-0.030626962)))
  (Leaf (-0.029714255))) (Leaf (-0.026147058)))) (Split 937 1.0 (Split 459 1.0 (Split 330 1.0
  (Split 759 1.0 (Split 148 1.0 (Leaf (-0.05900213)) (Leaf (-0.012091157))) (Leaf (-0.009742095)))
  (Leaf (-0.009652076))) (Leaf (-0.008183169))) (Split 36 1.0 (Leaf (-0.019381167)) (Leaf
  0.01610027)))) (Split 986 1.0 (Split 77 1.0 (Split 250 1.0 (Split 5 1.0 (Split 621 1.0 (Split 668
  1.0 (Leaf 0.027397538) (Leaf (-0.03998218))) (Leaf (-0.055215146))) (Leaf (-0.04543533))) (Split
  641 1.0 (Leaf (-0.045146316)) (Leaf (-0.005940491)))) (Split 822 1.0 (Split 300 1.0 (Split 678
  1.0 (Leaf (-0.046169568)) (Leaf (-0.014590313))) (Split 540 1.0 (Leaf 0.018226262) (Leaf
  (-0.013091328)))) (Leaf 0.024594473))) (Leaf 0.053994067))) (Split 120 1.0 (Split 36 1.0 (Split
  822 1.0 (Split 908 1.0 (Leaf (-0.04133345)) (Leaf 0.011247249)) (Leaf 0.028786054)) (Leaf
  0.025991831)) (Leaf 0.053956367))) var37_17028) (Split 670 1.0 (Split 435 1.0 (Split 812 1.0
  (Split 300 1.0 (Leaf 0.05339957) (Leaf 0.020189425)) (Leaf (-0.01579578))) (Leaf 0.0016394502))
  (Leaf (-0.028735677)))) (Split 288 1.0 (Split 678 1.0 (Split 435 1.0 (Split 540 1.0 (Leaf
  0.041729566) (Leaf 0.00397314)) (Leaf (-0.023926627))) (Leaf (-0.028011141))) (Leaf
  (-0.05385014)))) var37_17161.

Definition var38_17551 : tree :=
  Split 55 1.0 (Split 540 1.0 (Split 16 1.0 (Split 435 1.0 (Split 300 1.0 (Leaf (-0.053208884))
  (Leaf (-0.010711729))) (Leaf 0.0031804405)) (Leaf (-0.0034687289))) (Leaf (-0.0041728714))) (Leaf
  0.008620258).

Definition var38_17378 : tree :=
  Split 958 1.0 (Split 997 1.0 (Split 979 1.0 (Split 780 1.0 (Split 55 1.0 (Split 799 1.0 (Split
  157 1.0 (Split 99 1.0 (Leaf (-0.015615105)) (Leaf 0.03278696)) (Leaf 0.064333454)) (Split 574 1.0
  (Split 964 1.0 (Leaf 0.044592913) (Leaf (-0.011849212))) (Leaf (-0.03596839)))) (Split 518 1.0
  (Split 641 1.0 (Split 55 2.0 (Leaf 0.05408094) (Leaf 0.0074730455)) (Leaf 0.010171569)) (Split
  300 1.0 (Leaf (-0.03243966)) (Split 435 1.0 (Leaf 0.004938992) (Leaf 0.038896903))))) (Split 617
  1.0 (Split 679 1.0 (Split 995 1.0 (Leaf 0.051695593) (Leaf 0.013356954)) (Leaf 0.0070229094))
  (Leaf 0.0062391357))) (Split 392 1.0 (Split 862 1.0 (Split 540 1.0 (Split 617 1.0 (Split 303 1.0
  (Leaf 0.048335385) (Leaf 0.0056009362)) (Split 678 1.0 (Leaf (-0.009466559)) (Leaf 0.032099076)))
  (Split 1018 1.0 (Split 104 1.0 (Leaf 0.035749745) (Leaf (-0.000525673))) (Leaf (-0.030592604))))
  (Leaf (-0.013642206))) (Split 435 1.0 (Leaf 0.0034156095) (Leaf (-0.013496979))))) (Split 540 1.0
  (Split 156 2.0 (Split 979 1.0 (Leaf 0.007945678) (Leaf 0.028319502)) (Leaf 0.053873915)) (Split
  452 1.0 (Leaf (-0.012642006)) (Leaf 0.01963543)))) (Split 800 1.0 (Split 540 1.0 (Leaf
  (-0.0036056451)) (Leaf 0.015190315)) (Leaf 0.05385073)).

Definition var38 : tree :=
  Split 968 1.0 (Split 430 1.0 (Split 833 1.0 (Split 156 1.0 (Split 190 1.0 (Split 979 1.0 (Split
  479 1.0 (Split 330 1.0 (Split 65 1.0 (Split 517 1.0 (Split 178 1.0 (Split 73 1.0 (Leaf
  0.007228482) (Leaf (-0.046743575))) (Split 819 1.0 (Leaf (-0.046800002)) (Leaf 0.035443034)))
  (Split 870 1.0 (Split 438 1.0 (Leaf (-0.034290787)) (Leaf 0.036696926)) (Split 36 1.0 (Leaf
  0.04016297) (Leaf (-0.02187799))))) (Split 679 1.0 (Split 603 1.0 (Split 518 1.0 (Leaf
  (-0.047731355)) (Leaf 0.008374925)) (Leaf 0.018329402)) (Split 678 1.0 (Leaf 0.003139114) (Leaf
  0.021045933)))) (Split 104 1.0 (Split 662 1.0 (Split 267 1.0 (Split 822 1.0 (Leaf 0.066605665)
  (Leaf 0.027974788)) (Leaf 0.015687378)) (Leaf 0.0050596143)) (Leaf 0.013256348))) (Split 937 1.0
  (Split 459 1.0 (Split 330 1.0 (Split 759 1.0 (Split 148 1.0 (Leaf (-0.058089394)) (Leaf
  (-0.011806876))) (Leaf (-0.009514021))) (Leaf (-0.009395557))) (Leaf (-0.007994858))) (Split 36
  1.0 (Leaf (-0.0189205)) (Leaf 0.015585604)))) (Split 986 1.0 (Split 300 1.0 (Split 659 1.0 (Split
  330 1.0 (Split 345 1.0 (Split 819 1.0 (Leaf 0.004955513) (Leaf 0.051681813)) (Leaf
  (-0.055699565))) (Leaf 0.050612595)) (Split 608 1.0 (Split 540 1.0 (Split 678 1.0 (Leaf
  0.052952033) (Leaf 0.019016206)) (Split 976 1.0 (Leaf 0.03341383) (Leaf (-0.0035452028)))) (Leaf
  (-0.011091736)))) (Split 104 1.0 (Split 94 1.0 (Split 357 1.0 (Split 996 1.0 (Leaf 0.046768896)
  (Leaf 0.002889659)) (Leaf (-0.010157429))) (Leaf (-0.02518699))) (Split 296 1.0 (Split 36 1.0
  (Split 537 1.0 (Leaf 0.029008994) (Leaf (-0.015405059))) (Leaf (-0.014052085))) (Leaf
  (-0.050003648))))) (Leaf 0.053488225))) (Split 120 1.0 (Split 678 1.0 (Split 300 1.0 (Split 659
  1.0 (Leaf (-0.023312895)) (Leaf 0.0122638475)) (Leaf 0.035237886)) (Leaf (-0.032482915))) (Leaf
  0.053713776))) var38_17378) (Split 670 1.0 (Split 435 1.0 (Split 812 1.0 (Split 300 1.0 (Leaf
  0.053125795) (Leaf 0.019542122)) (Leaf (-0.015350749))) (Leaf 0.00157781)) (Leaf
  (-0.028035065)))) (Split 288 1.0 (Split 979 1.0 (Split 452 1.0 (Split 540 1.0 (Leaf
  (-0.0030297402)) (Leaf (-0.036417495))) (Leaf 0.010938661)) (Leaf 0.019591024)) (Leaf
  (-0.053612877)))) var38_17551.

Definition var39_17745 : tree :=
  Split 120 1.0 (Split 540 1.0 (Split 789 1.0 (Split 822 1.0 (Split 435 1.0 (Leaf (-0.0098245405))
  (Leaf 0.015445019)) (Leaf 0.019009724)) (Leaf (-0.017347133))) (Leaf (-0.028965274))) (Leaf
  0.053483248).

Definition var39_17901 : tree :=
  Split 812 1.0 (Split 540 1.0 (Split 55 1.0 (Split 435 1.0 (Split 670 1.0 (Leaf (-0.05289644))
  (Leaf (-0.010336413))) (Leaf (-0.010753243))) (Leaf 0.0022870267)) (Leaf (-0.004026872))) (Leaf
  0.013725052).

Definition var39_17768 : tree :=
  Split 958 1.0 (Split 997 1.0 (Split 979 1.0 (Split 330 1.0 (Split 55 1.0 (Split 709 1.0 (Split
  780 1.0 (Split 575 1.0 (Leaf (-0.010566692)) (Leaf 0.06009571)) (Split 976 1.0 (Leaf 0.04479948)
  (Leaf 0.010370461))) (Leaf 0.053742725)) (Split 435 2.0 (Split 419 1.0 (Split 537 1.0 (Leaf
  0.047730554) (Leaf 0.0076713497)) (Leaf (-0.006037326))) (Leaf (-0.011656296)))) (Leaf
  0.052582275)) (Split 559 1.0 (Split 41 1.0 (Split 104 1.0 (Split 300 1.0 (Split 303 1.0 (Leaf
  0.035310183) (Leaf (-0.015543868))) (Leaf 0.05313923)) (Split 812 1.0 (Split 36 1.0 (Leaf
  (-0.015820395)) (Leaf 0.03153464)) (Leaf 0.03702633))) (Leaf (-0.018785905))) (Leaf
  (-0.023064543)))) (Split 452 1.0 (Split 435 1.0 (Leaf 0.024006493) (Leaf (-0.011478959))) (Split
  678 1.0 (Leaf 0.015391931) (Leaf 0.05371934)))) (Split 800 1.0 (Split 540 1.0 (Leaf
  (-0.0035111175)) (Leaf 0.014784329)) (Leaf 0.053613473)).

Definition var39 : tree :=
  Split 968 1.0 (Split 430 1.0 (Split 833 1.0 (Split 156 1.0 (Split 365 1.0 (Split 979 1.0 (Split
  819 1.0 (Split 986 1.0 (Split 8 1.0 (Split 709 1.0 (Split 799 1.0 (Split 751 1.0 (Leaf
  (-0.014763626)) (Leaf 0.05235765)) (Split 50 1.0 (Leaf 0.023312887) (Leaf (-0.054779947))))
  (Split 77 1.0 (Split 678 1.0 (Leaf 0.06328398) (Leaf 0.017146157)) (Leaf (-0.016142048)))) (Split
  300 1.0 (Split 498 1.0 (Split 36 1.0 (Leaf 0.05495989) (Leaf 0.015921384)) (Leaf (-0.021081528)))
  (Split 435 1.0 (Split 104 1.0 (Leaf 0.014928169) (Leaf (-0.005866957))) (Leaf (-0.030189876)))))
  (Split 776 1.0 (Split 938 1.0 (Split 912 1.0 (Split 789 1.0 (Leaf 0.060546964) (Leaf
  0.015010006)) (Leaf (-0.0052710013))) (Leaf (-0.008992131))) (Leaf (-0.003966318)))) (Split 60
  1.0 (Split 104 1.0 (Split 682 1.0 (Split 522 1.0 (Split 65 1.0 (Leaf 0.070529036) (Leaf
  0.012044792)) (Leaf 0.00028348286)) (Leaf (-0.0016136958))) (Split 435 1.0 (Leaf 0.034340203)
  (Leaf (-0.026358053)))) (Leaf (-0.05186953)))) (Split 986 1.0 (Split 540 1.0 (Split 104 1.0
  (Split 300 1.0 (Split 989 1.0 (Split 449 1.0 (Leaf 0.025584463) (Leaf (-0.0599039))) (Leaf
  (-0.0572644))) (Split 996 1.0 (Split 759 1.0 (Leaf 0.04844289) (Leaf (-0.015313051))) (Leaf
  (-0.0092365695)))) (Split 789 1.0 (Split 452 1.0 (Split 607 1.0 (Leaf (-0.046201497)) (Leaf
  0.0322209)) (Split 300 1.0 (Leaf 0.03621153) (Leaf (-0.00010897762)))) (Leaf 0.0389536))) (Split
  819 1.0 (Split 330 1.0 (Split 396 1.0 (Split 912 1.0 (Leaf (-0.00089923956)) (Leaf
  (-0.032084223))) (Leaf 0.046364553)) (Leaf 0.046731297)) (Leaf 0.048455283))) (Leaf 0.05294637)))
  var39_17745) var39_17768) (Split 300 1.0 (Leaf 0.05222419) (Split 156 1.0 (Split 678 1.0 (Leaf
  (-0.010791098)) (Leaf 0.0015336097)) (Leaf 0.034811504)))) (Split 288 1.0 (Split 678 1.0 (Split
  435 1.0 (Split 540 1.0 (Leaf 0.04085734) (Leaf 0.003845806)) (Leaf (-0.02344617))) (Leaf
  (-0.02730505))) (Leaf (-0.053387303)))) var39_17901.

Definition var40_18083 : tree :=
  Split 120 1.0 (Split 540 1.0 (Split 789 1.0 (Split 822 1.0 (Split 435 1.0 (Leaf (-0.0094930455))
  (Leaf 0.015027359)) (Leaf 0.018565837)) (Leaf (-0.016884409))) (Leaf (-0.028380526))) (Leaf
  0.05326392).

Definition var40_18263 : tree :=
  Split 812 1.0 (Split 540 1.0 (Split 55 1.0 (Split 435 1.0 (Split 670 1.0 (Leaf (-0.052655008))
  (Leaf (-0.010099523))) (Leaf (-0.010438602))) (Leaf 0.0022231583)) (Leaf (-0.00388597))) (Leaf
  0.013405825).

Definition var40_18217 : tree :=
  Split 670 1.0 (Split 36 1.0 (Split 812 1.0 (Split 300 1.0 (Leaf 0.05263695) (Split 156 1.0 (Split
  435 1.0 (Leaf (-0.015976584)) (Leaf 0.008357635)) (Leaf 0.048126146))) (Leaf (-0.015739417)))
  (Leaf (-0.010725805))) (Leaf (-0.028126478)).

Definition var40_18106 : tree :=
  Split 958 1.0 (Split 997 1.0 (Split 979 1.0 (Split 986 1.0 (Split 157 1.0 (Split 780 1.0 (Split
  709 1.0 (Split 799 1.0 (Leaf (-0.0109058935)) (Leaf 0.029570878)) (Leaf 0.05209918)) (Split 617
  1.0 (Split 682 1.0 (Leaf 0.046277102) (Leaf 0.00675231)) (Leaf 0.0052984706))) (Leaf 0.0625621))
  (Split 812 1.0 (Leaf 0.06011414) (Leaf 0.005406575))) (Split 617 1.0 (Split 540 1.0 (Split 721
  1.0 (Split 608 1.0 (Split 303 1.0 (Leaf 0.050707042) (Leaf (-0.00073118374))) (Leaf
  0.0053541134)) (Leaf (-0.0018686479))) (Split 1018 1.0 (Split 104 1.0 (Split 540 2.0 (Leaf
  0.043118443) (Leaf 0.009968544)) (Split 300 1.0 (Leaf (-0.017223638)) (Leaf (-0.0044013946))))
  (Leaf (-0.03592747)))) (Split 678 1.0 (Split 300 1.0 (Split 540 1.0 (Leaf (-0.030351302)) (Leaf
  (-0.006593494))) (Leaf 0.00387863)) (Leaf 0.034712054)))) (Split 540 1.0 (Split 156 2.0 (Leaf
  0.020495312) (Leaf 0.05341099)) (Leaf 0.002695161))) (Split 800 1.0 (Split 540 1.0 (Leaf
  (-0.0034190812)) (Leaf 0.014389792)) (Leaf 0.05338789)).

Definition var40 : tree :=
  Split 968 1.0 (Split 430 1.0 (Split 833 1.0 (Split 156 1.0 (Split 365 1.0 (Split 979 1.0 (Split
  99 1.0 (Split 438 1.0 (Split 819 1.0 (Split 780 1.0 (Split 799 1.0 (Split 55 1.0 (Leaf
  (-0.017608026)) (Leaf 0.026875783)) (Split 877 1.0 (Leaf 0.023485277) (Leaf (-0.04158954))))
  (Split 8 1.0 (Split 435 1.0 (Leaf 0.0296992) (Leaf (-0.0015021178))) (Split 36 1.0 (Leaf
  0.053451397) (Leaf (-0.0017091567))))) (Split 60 1.0 (Split 509 1.0 (Split 65 1.0 (Leaf
  0.06146091) (Leaf (-0.0020264343))) (Leaf (-0.040241193))) (Leaf (-0.05093332)))) (Split 357 1.0
  (Split 678 1.0 (Split 607 1.0 (Split 36 1.0 (Leaf 0.0873911) (Leaf 0.0342879)) (Leaf
  0.0053890655)) (Leaf 0.000014789085)) (Leaf (-0.011655032)))) (Split 479 1.0 (Split 944 1.0
  (Split 924 1.0 (Split 65 1.0 (Split 473 1.0 (Leaf 0.034822248) (Leaf (-0.036593646))) (Split 678
  1.0 (Leaf (-0.020272987)) (Leaf 0.003214992))) (Leaf (-0.033933967))) (Leaf (-0.02948078))) (Leaf
  (-0.044202983)))) (Split 986 1.0 (Split 77 1.0 (Split 250 1.0 (Split 659 1.0 (Split 494 1.0
  (Split 668 1.0 (Leaf 0.021831462) (Leaf (-0.05638939))) (Split 452 1.0 (Leaf (-0.05338786)) (Leaf
  0.01632329))) (Split 540 1.0 (Leaf 0.051322665) (Split 976 1.0 (Leaf 0.035392117) (Leaf
  (-0.007159711))))) (Split 617 1.0 (Leaf (-0.008598138)) (Leaf (-0.04805122)))) (Split 670 1.0
  (Split 452 1.0 (Split 23 1.0 (Split 435 1.0 (Leaf (-0.058963295)) (Leaf (-0.01897448))) (Leaf
  (-0.003865568))) (Leaf 0.012053366)) (Leaf 0.01334426))) (Leaf 0.05247442))) var40_18083)
  var40_18106) var40_18217) (Split 288 1.0 (Split 979 1.0 (Split 452 1.0 (Split 540 1.0 (Leaf
  (-0.0032257163)) (Leaf (-0.035649944))) (Leaf 0.010620371)) (Leaf 0.019085199)) (Leaf
  (-0.05317259)))) var40_18263.

Definition var41_18465 : tree :=
  Split 392 1.0 (Split 540 1.0 (Split 721 1.0 (Split 617 1.0 (Split 608 1.0 (Leaf 0.048307348)
  (Leaf 0.0035490987)) (Split 104 1.0 (Leaf 0.023013843) (Leaf (-0.016171416)))) (Leaf
  (-0.0018093803))) (Split 1018 1.0 (Split 104 1.0 (Split 518 1.0 (Leaf 0.037936404) (Leaf
  (-0.010858793))) (Split 300 1.0 (Leaf 0.0038096607) (Leaf (-0.0042689787)))) (Leaf
  (-0.029485662)))) (Split 435 1.0 (Leaf 0.002120693) (Leaf (-0.014358056))).

Definition var41 : tree :=
  Split 968 1.0 (Split 430 1.0 (Split 833 1.0 (Split 156 1.0 (Split 365 1.0 (Split 986 1.0 (Split
  330 1.0 (Split 819 1.0 (Split 178 1.0 (Split 345 1.0 (Split 65 1.0 (Split 517 1.0 (Leaf
  0.00089798553) (Leaf (-0.029182348))) (Split 733 1.0 (Leaf (-0.04497106)) (Leaf 0.043762144)))
  (Split 979 1.0 (Split 641 1.0 (Leaf 0.10354572) (Leaf (-0.007902174))) (Leaf (-0.020900901))))
  (Split 113 1.0 (Split 284 1.0 (Split 104 2.0 (Leaf (-0.04966063)) (Leaf 0.010684378)) (Leaf
  0.024542801)) (Leaf 0.032670464))) (Split 697 1.0 (Split 509 1.0 (Split 65 1.0 (Split 517 1.0
  (Leaf 0.061158616) (Leaf (-0.0047977804))) (Split 36 1.0 (Leaf 0.021605274) (Leaf
  (-0.016063916)))) (Leaf (-0.023457175))) (Leaf (-0.04635895)))) (Split 479 1.0 (Split 662 1.0
  (Split 104 1.0 (Leaf 0.05979104) (Split 435 1.0 (Leaf 0.03120841) (Leaf (-0.01399744)))) (Leaf
  0.0033428066)) (Leaf (-0.009205522)))) (Split 950 1.0 (Split 879 1.0 (Split 938 1.0 (Split 776
  1.0 (Split 912 1.0 (Split 540 2.0 (Leaf 0.060667254) (Leaf 0.014371243)) (Leaf 0.0055962815))
  (Leaf 0.0011712268)) (Leaf (-0.0062137754))) (Leaf (-0.0035027482))) (Leaf (-0.015502009))))
  (Split 120 1.0 (Split 540 1.0 (Split 789 1.0 (Split 822 1.0 (Split 435 1.0 (Leaf (-0.009172644))
  (Leaf 0.014621252)) (Leaf 0.018133525)) (Leaf (-0.016434772))) (Leaf (-0.027808337))) (Leaf
  0.05305503))) (Split 958 1.0 (Split 997 1.0 (Split 979 1.0 (Split 330 1.0 (Split 53 1.0 (Split
  575 1.0 (Split 55 1.0 (Split 99 1.0 (Leaf (-0.010921478)) (Leaf 0.03159064)) (Split 300 1.0 (Leaf
  0.007239961) (Leaf 0.044942867))) (Leaf 0.058257986)) (Split 36 1.0 (Split 678 1.0 (Leaf
  0.057959747) (Leaf 0.012317669)) (Leaf 0.007044417))) (Leaf 0.051725198)) var41_18465) (Split 452
  1.0 (Split 435 1.0 (Leaf 0.022985233) (Leaf (-0.011460327))) (Split 678 1.0 (Leaf 0.014420948)
  (Leaf 0.05328383)))) (Split 800 1.0 (Split 540 1.0 (Leaf (-0.0033294645)) (Leaf 0.014006338))
  (Leaf 0.053173166)))) (Split 435 1.0 (Split 812 1.0 (Split 300 1.0 (Leaf 0.05232934) (Leaf
  0.00953179)) (Leaf (-0.020219741))) (Leaf (-0.006766385)))) (Split 288 1.0 (Split 979 1.0 (Split
  435 1.0 (Split 540 1.0 (Leaf 0.020198498) (Leaf (-0.019461457))) (Leaf (-0.031554397))) (Leaf
  0.01852993)) (Leaf (-0.052967962)))) (Split 55 1.0 (Split 540 1.0 (Split 16 1.0 (Split 435 1.0
  (Leaf (-0.052360106)) (Leaf 0.003694711)) (Leaf (-0.003314323))) (Leaf (-0.0037499813))) (Leaf
  0.008127334)).

Definition var42_18821 : tree :=
  Split 670 1.0 (Split 435 1.0 (Split 812 1.0 (Split 540 1.0 (Split 300 1.0 (Leaf 0.05230391) (Leaf
  0.00695505)) (Leaf 0.009851046)) (Leaf (-0.014727652))) (Leaf 0.00048799743)) (Leaf
  (-0.027782172)).

Definition var42_18767 : tree :=
  Split 559 1.0 (Split 41 1.0 (Split 104 1.0 (Split 300 1.0 (Split 303 1.0 (Leaf 0.032950886) (Leaf
  (-0.016192827))) (Leaf 0.052133735)) (Split 812 1.0 (Split 36 1.0 (Leaf (-0.016297346)) (Leaf
  0.030612081)) (Leaf 0.036131896))) (Leaf (-0.01965919))) (Leaf (-0.023486335)).

Definition var42 : tree :=
  Split 968 1.0 (Split 430 1.0 (Split 833 1.0 (Split 156 1.0 (Split 365 1.0 (Split 986 1.0 (Split
  330 1.0 (Split 819 1.0 (Split 178 1.0 (Split 73 1.0 (Split 517 1.0 (Split 65 1.0 (Leaf
  0.0038682022) (Leaf (-0.038509574))) (Split 870 1.0 (Leaf (-0.032311153)) (Leaf 0.028856194)))
  (Split 255 1.0 (Split 517 1.0 (Leaf (-0.051525988)) (Leaf 0.010062563)) (Leaf 0.011820941)))
  (Split 113 1.0 (Split 284 1.0 (Split 267 1.0 (Leaf (-0.049088445)) (Leaf (-0.0012304161))) (Leaf
  0.023835454)) (Leaf 0.031425003))) (Split 776 1.0 (Split 509 1.0 (Split 65 1.0 (Split 517 1.0
  (Leaf 0.05936421) (Leaf (-0.004640726))) (Split 36 1.0 (Leaf 0.02092292) (Leaf (-0.015604329))))
  (Leaf (-0.022764534))) (Leaf (-0.0456571)))) (Split 479 1.0 (Split 662 1.0 (Split 104 1.0 (Leaf
  0.058651555) (Split 435 1.0 (Leaf 0.03049708) (Leaf (-0.013640063)))) (Leaf 0.0032486783)) (Leaf
  (-0.008962486)))) (Split 950 1.0 (Split 879 1.0 (Split 776 1.0 (Split 938 1.0 (Split 912 1.0
  (Split 435 1.0 (Leaf 0.063159645) (Leaf 0.036656525)) (Leaf 0.0054415367)) (Leaf (-0.006036054)))
  (Leaf 0.0011323359)) (Leaf (-0.0033928656))) (Leaf (-0.014998078)))) (Split 120 1.0 (Split 540
  1.0 (Split 789 1.0 (Split 822 1.0 (Split 435 1.0 (Leaf (-0.008862953)) (Leaf 0.014226349)) (Leaf
  0.0177124)) (Leaf (-0.015997788))) (Leaf (-0.027248297))) (Leaf 0.052855786))) (Split 958 1.0
  (Split 997 1.0 (Split 979 1.0 (Split 986 1.0 (Split 157 1.0 (Split 780 1.0 (Split 709 1.0 (Split
  799 1.0 (Leaf (-0.010471325)) (Leaf 0.028642336)) (Leaf 0.05093605)) (Split 976 1.0 (Split 995
  1.0 (Leaf 0.049018245) (Leaf 0.008052635)) (Leaf 0.012650055))) (Leaf 0.06067151)) (Leaf
  0.05196482)) var42_18767) (Split 540 1.0 (Split 156 2.0 (Leaf 0.019556483) (Leaf 0.052991636))
  (Leaf 0.0021860094))) (Split 800 1.0 (Split 540 1.0 (Leaf (-0.0032422084)) (Leaf 0.013633615))
  (Leaf 0.052968528)))) var42_18821) (Split 288 1.0 (Split 452 1.0 (Split 979 1.0 (Split 540 1.0
  (Leaf (-0.0032313585)) (Leaf (-0.03469346))) (Leaf 0.00871646)) (Leaf 0.021785548)) (Leaf
  (-0.052772697)))) (Split 812 1.0 (Split 540 1.0 (Split 435 1.0 (Split 670 1.0 (Leaf
  (-0.052028265)) (Leaf (-0.013670816))) (Leaf (-0.0067374907))) (Leaf (-0.0036187456))) (Leaf
  0.013359444)).

Definition var43_19057 : tree :=
  Split 120 1.0 (Split 540 1.0 (Split 789 1.0 (Split 822 1.0 (Split 435 1.0 (Leaf (-0.008563623))
  (Leaf 0.013842319)) (Leaf 0.017302101)) (Leaf (-0.015573032))) (Leaf (-0.026700038))) (Leaf
  0.05266552).

Definition var43_19080 : tree :=
  Split 958 1.0 (Split 997 1.0 (Split 979 1.0 (Split 330 1.0 (Split 53 1.0 (Split 575 1.0 (Split 55
  1.0 (Split 23 1.0 (Leaf (-0.010505326)) (Leaf 0.03179499)) (Split 300 1.0 (Leaf 0.007124496)
  (Leaf 0.04414843))) (Leaf 0.05652512)) (Split 518 1.0 (Split 678 1.0 (Leaf 0.061146893) (Leaf
  (-0.0022502586))) (Leaf 0.007825444))) (Leaf 0.050914295)) (Split 617 1.0 (Split 540 1.0 (Split
  721 1.0 (Split 608 1.0 (Split 303 1.0 (Leaf 0.049452208) (Leaf (-0.0024916732))) (Leaf
  0.004509431)) (Leaf (-0.0030229478))) (Split 1018 1.0 (Split 104 1.0 (Split 540 2.0 (Leaf
  0.041265946) (Leaf 0.008568085)) (Split 300 1.0 (Leaf (-0.01682906)) (Leaf (-0.004278558))))
  (Leaf (-0.034587067)))) (Split 678 1.0 (Split 300 1.0 (Split 540 1.0 (Leaf (-0.030237531)) (Leaf
  (-0.007233811))) (Leaf 0.002572053)) (Leaf 0.033698276)))) (Split 452 1.0 (Split 435 1.0 (Leaf
  0.022010334) (Leaf (-0.011421441))) (Split 678 1.0 (Leaf 0.013500877) (Leaf 0.052888926))))
  (Split 800 1.0 (Split 540 1.0 (Leaf (-0.003157245)) (Leaf 0.013271286)) (Leaf 0.052773245)).

Definition var43 : tree :=
  Split 968 1.0 (Split 430 1.0 (Split 833 1.0 (Split 156 1.0 (Split 365 1.0 (Split 979 1.0 (Split
  479 1.0 (Split 99 1.0 (Split 286 1.0 (Split 780 1.0 (Split 157 1.0 (Split 799 1.0 (Leaf
  (-0.0117820045)) (Leaf 0.02291543)) (Split 678 1.0 (Leaf 0.07190155) (Leaf (-0.00084817456))))
  (Split 8 1.0 (Split 65 1.0 (Leaf 0.0217217) (Leaf (-0.0421452))) (Split 36 1.0 (Leaf 0.052727975)
  (Leaf 0.00085970265)))) (Split 678 1.0 (Split 812 1.0 (Split 36 1.0 (Leaf 0.08160981) (Leaf
  0.026733298)) (Leaf 0.019686034)) (Leaf 0.0070805224))) (Split 158 1.0 (Split 562 1.0 (Split 36
  2.0 (Split 950 1.0 (Leaf 0.03372299) (Leaf (-0.028995886))) (Leaf (-0.025954975))) (Leaf
  (-0.029714247))) (Leaf (-0.031805832)))) (Split 937 1.0 (Split 759 1.0 (Split 659 1.0 (Split 330
  1.0 (Split 148 1.0 (Leaf (-0.055578914)) (Leaf (-0.011289856))) (Leaf (-0.008726011))) (Leaf
  (-0.006483835))) (Leaf (-0.008009945))) (Split 36 1.0 (Leaf (-0.017714856)) (Leaf 0.014857659))))
  (Split 77 1.0 (Split 621 1.0 (Split 300 1.0 (Split 659 1.0 (Split 776 1.0 (Split 149 1.0 (Leaf
  0.016079728) (Leaf (-0.054062624))) (Split 452 1.0 (Leaf (-0.056633312)) (Leaf (-0.0044867177))))
  (Split 912 1.0 (Split 498 1.0 (Leaf 0.047717746) (Leaf 0.009443759)) (Leaf 0.0043293135))) (Split
  104 1.0 (Split 759 1.0 (Split 357 1.0 (Leaf 0.047092956) (Leaf (-0.014423624))) (Split 300 2.0
  (Leaf (-0.029480446)) (Leaf 0.009340262))) (Split 296 1.0 (Split 36 1.0 (Leaf 0.025863169) (Leaf
  (-0.01150658))) (Leaf (-0.044094156))))) (Leaf (-0.054341115))) (Split 670 1.0 (Split 452 1.0
  (Split 23 1.0 (Leaf (-0.03796808)) (Leaf (-0.0037797585))) (Leaf 0.011297534)) (Leaf
  0.0128133735)))) var43_19057) var43_19080) (Split 435 1.0 (Split 812 1.0 (Split 300 1.0 (Leaf
  0.05185864) (Leaf 0.009113803)) (Leaf (-0.019143587))) (Leaf (-0.0064078397)))) (Split 288 1.0
  (Split 678 1.0 (Split 435 1.0 (Split 540 1.0 (Leaf 0.039568834) (Leaf 0.0037579145)) (Leaf
  (-0.022942541))) (Leaf (-0.026553994))) (Leaf (-0.05258612)))) (Split 55 1.0 (Split 540 1.0
  (Split 16 1.0 (Split 435 1.0 (Leaf (-0.05190711)) (Leaf 0.0037816558)) (Leaf (-0.0032160468)))
  (Leaf (-0.0034920834))) (Leaf 0.0085860845)).

Definition var44_19501 : tree :=
  Split 670 1.0 (Split 36 1.0 (Split 641 1.0 (Split 300 1.0 (Leaf 0.051764853) (Split 435 1.0 (Leaf
  (-0.005534305)) (Leaf 0.029484976))) (Leaf (-0.012488893))) (Leaf (-0.011676478))) (Leaf
  (-0.027454857)).

Definition var44_19398 : tree :=
  Split 958 1.0 (Split 997 1.0 (Split 979 1.0 (Split 986 1.0 (Split 157 1.0 (Split 780 1.0 (Split
  99 1.0 (Split 799 1.0 (Leaf (-0.01154202)) (Leaf 0.027233904)) (Split 141 1.0 (Leaf 0.03798557)
  (Leaf (-0.0064758235)))) (Split 976 1.0 (Split 995 1.0 (Leaf 0.048492253) (Leaf 0.007851402))
  (Leaf 0.012052808))) (Leaf 0.058896787)) (Leaf 0.0507026)) (Split 392 1.0 (Split 540 1.0 (Split
  721 1.0 (Split 617 1.0 (Split 608 1.0 (Leaf 0.04687891) (Leaf 0.0027676295)) (Split 104 1.0 (Leaf
  0.02162965) (Leaf (-0.016105903)))) (Leaf (-0.002926489))) (Split 36 1.0 (Split 1018 1.0 (Split
  104 1.0 (Leaf 0.020190706) (Leaf (-0.0141671365))) (Leaf (-0.03797363))) (Leaf 0.043733563)))
  (Split 435 1.0 (Leaf 0.0009769162) (Leaf (-0.015096112))))) (Split 540 1.0 (Split 156 2.0 (Leaf
  0.018664302) (Leaf 0.052609857)) (Leaf 0.0017119624))) (Split 800 1.0 (Split 540 1.0 (Leaf
  (-0.0030745175)) (Leaf 0.012919026)) (Leaf 0.052586656)).

Definition var44 : tree :=
  Split 968 1.0 (Split 430 1.0 (Split 833 1.0 (Split 156 1.0 (Split 365 1.0 (Split 986 1.0 (Split
  330 1.0 (Split 819 1.0 (Split 678 1.0 (Split 438 1.0 (Split 479 1.0 (Split 517 1.0 (Leaf
  0.001989983) (Leaf (-0.026588438))) (Split 937 1.0 (Leaf (-0.052626062)) (Leaf 0.0027294564)))
  (Split 357 1.0 (Split 607 1.0 (Leaf 0.07013398) (Leaf 0.009066009)) (Leaf (-0.025961045))))
  (Split 419 1.0 (Split 799 1.0 (Split 822 1.0 (Leaf (-0.03253192)) (Leaf 0.007968678)) (Split 23
  1.0 (Leaf 0.03152496) (Leaf (-0.050767887)))) (Split 452 1.0 (Leaf 0.024565212) (Leaf
  0.06818514)))) (Split 697 1.0 (Split 509 1.0 (Split 65 1.0 (Split 517 1.0 (Leaf 0.057760444)
  (Leaf (-0.004274469))) (Split 36 1.0 (Leaf 0.02053473) (Leaf (-0.015026557)))) (Leaf
  (-0.022331817))) (Leaf (-0.044787724)))) (Split 479 1.0 (Split 662 1.0 (Split 104 1.0 (Leaf
  0.057667684) (Split 435 1.0 (Leaf 0.02961186) (Leaf (-0.013458542)))) (Leaf 0.0032124787)) (Leaf
  (-0.0084959)))) (Split 950 1.0 (Split 879 1.0 (Split 776 1.0 (Split 938 1.0 (Split 912 1.0 (Split
  540 2.0 (Leaf 0.058288176) (Leaf 0.012323236)) (Leaf 0.005078771)) (Leaf (-0.0057404824))) (Leaf
  0.0012163303)) (Leaf (-0.003770645))) (Leaf (-0.01467508)))) (Split 120 1.0 (Split 540 1.0 (Split
  789 1.0 (Split 822 1.0 (Split 435 1.0 (Leaf (-0.008274308)) (Leaf 0.013468842)) (Leaf
  0.016902275)) (Leaf (-0.015160111))) (Leaf (-0.026163211))) (Leaf 0.05248359))) var44_19398)
  var44_19501) (Split 288 1.0 (Split 452 1.0 (Split 979 1.0 (Split 540 1.0 (Leaf (-0.0034084846))
  (Leaf (-0.03398716))) (Leaf 0.008501906)) (Leaf 0.021235937)) (Leaf (-0.052407604)))) (Split 812
  1.0 (Split 540 1.0 (Split 55 1.0 (Split 435 1.0 (Leaf (-0.05160548)) (Leaf (-0.010044488))) (Leaf
  0.0024876655)) (Leaf (-0.003369847))) (Leaf 0.013313638)).

Definition var45_19741 : tree :=
  Split 559 1.0 (Split 41 1.0 (Split 104 1.0 (Split 300 1.0 (Split 303 1.0 (Leaf 0.030675262) (Leaf
  (-0.016869904))) (Leaf 0.0512059)) (Split 812 1.0 (Split 540 1.0 (Leaf 0.011638438) (Leaf
  (-0.023434624))) (Leaf 0.03528383))) (Leaf (-0.020264918))) (Leaf (-0.023937844)).

Definition var45 : tree :=
  Split 968 1.0 (Split 430 1.0 (Split 833 1.0 (Split 156 1.0 (Split 365 1.0 (Split 986 1.0 (Split
  330 1.0 (Split 819 1.0 (Split 178 1.0 (Split 345 1.0 (Split 65 1.0 (Split 438 1.0 (Leaf
  (-0.0029480124)) (Leaf 0.054445773)) (Split 733 1.0 (Leaf (-0.042328123)) (Leaf 0.043965828)))
  (Split 979 1.0 (Split 641 1.0 (Leaf 0.096688956) (Leaf (-0.007286127))) (Leaf (-0.02113477))))
  (Split 113 1.0 (Split 284 1.0 (Split 104 2.0 (Leaf (-0.047154095)) (Leaf 0.012094925)) (Leaf
  0.023396576)) (Leaf 0.03075027))) (Split 776 1.0 (Split 509 1.0 (Split 65 1.0 (Split 517 1.0
  (Leaf 0.056069016) (Leaf (-0.004134853))) (Split 36 1.0 (Leaf 0.019888928) (Leaf
  (-0.014598225)))) (Leaf (-0.02167725))) (Leaf (-0.044073083)))) (Split 479 1.0 (Split 662 1.0
  (Split 104 1.0 (Leaf 0.05656108) (Split 435 1.0 (Leaf 0.028938038) (Leaf (-0.013115632)))) (Leaf
  0.0031220592)) (Leaf (-0.008271982)))) (Split 950 1.0 (Split 879 1.0 (Split 776 1.0 (Split 938
  1.0 (Split 912 1.0 (Split 435 1.0 (Leaf 0.061063524) (Leaf 0.033683952)) (Leaf 0.004938708))
  (Leaf (-0.0055768373))) (Leaf 0.001175955)) (Leaf (-0.0036528322))) (Leaf (-0.01420182)))) (Split
  120 1.0 (Split 540 1.0 (Split 789 1.0 (Split 822 1.0 (Split 435 1.0 (Leaf (-0.007994662)) (Leaf
  0.013105604)) (Leaf 0.0165126)) (Leaf (-0.014758641))) (Leaf (-0.025637496))) (Leaf
  0.052309375))) (Split 958 1.0 (Split 997 1.0 (Split 979 1.0 (Split 143 1.0 (Split 780 1.0 (Split
  709 1.0 (Split 55 1.0 (Split 99 1.0 (Leaf (-0.010569825)) (Leaf 0.029957607)) (Split 537 1.0
  (Leaf 0.036907185) (Leaf (-0.013336797)))) (Leaf 0.050567355)) (Split 976 1.0 (Split 995 1.0
  (Leaf 0.048310317) (Leaf 0.008821207)) (Leaf 0.01075964))) (Leaf 0.059940685)) var45_19741)
  (Split 452 1.0 (Split 435 1.0 (Leaf 0.021079479) (Leaf (-0.011364148))) (Split 678 1.0 (Leaf
  0.012629329) (Leaf 0.052529044)))) (Split 800 1.0 (Split 540 1.0 (Leaf (-0.0029939634)) (Leaf
  0.012576523)) (Leaf 0.052408118)))) (Split 435 1.0 (Split 812 1.0 (Split 540 1.0 (Split 300 1.0
  (Leaf 0.05169174) (Leaf 0.0007881689)) (Leaf (-0.00079527666))) (Leaf (-0.01857226))) (Leaf
  (-0.0066457875)))) (Split 288 1.0 (Split 678 1.0 (Split 435 1.0 (Split 540 1.0 (Leaf 0.03877948)
  (Leaf 0.0037003022)) (Leaf (-0.022466917))) (Leaf (-0.025889808))) (Leaf (-0.052236557)))) (Split
  55 1.0 (Split 540 1.0 (Split 16 1.0 (Split 435 1.0 (Leaf (-0.05147601)) (Leaf 0.0039606653))
  (Leaf (-0.0029348768))) (Leaf (-0.0032518783))) (Leaf 0.00820573)).

Definition var46_20007 : tree :=
  Split 120 1.0 (Split 540 1.0 (Split 789 1.0 (Split 822 1.0 (Split 435 1.0 (Leaf (-0.007724374))
  (Leaf 0.012752311)) (Leaf 0.01613276)) (Leaf (-0.014368256))) (Leaf (-0.025122596))) (Leaf
  0.052142303).

Definition var46_20030 : tree :=
  Split 958 1.0 (Split 997 1.0 (Split 330 1.0 (Split 53 1.0 (Split 986 1.0 (Split 143 1.0 (Split
  673 1.0 (Split 979 1.0 (Leaf (-0.0068905214)) (Leaf 0.018314876)) (Leaf 0.059891608)) (Leaf
  0.05892027)) (Split 812 1.0 (Leaf 0.05726545) (Leaf 0.007441976))) (Split 16 1.0 (Split 36 1.0
  (Leaf 0.056441482) (Leaf 0.014642444)) (Leaf 0.00569311))) (Leaf 0.052335825)) (Split 540 1.0
  (Split 156 2.0 (Leaf 0.017816618) (Leaf 0.052260417)) (Leaf 0.0012707093))) (Split 800 1.0 (Split
  540 1.0 (Leaf (-0.0029155277)) (Leaf 0.012243479)) (Leaf 0.05223704)).

Definition var46 : tree :=
  Split 968 1.0 (Split 430 1.0 (Split 833 1.0 (Split 156 1.0 (Split 365 1.0 (Split 979 1.0 (Split
  479 1.0 (Split 99 1.0 (Split 709 1.0 (Split 55 1.0 (Split 751 1.0 (Split 799 1.0 (Leaf
  (-0.011642258)) (Leaf 0.023611292)) (Split 540 2.0 (Leaf 0.059622254) (Leaf (-0.03051278))))
  (Split 674 1.0 (Split 16 1.0 (Leaf 0.03726093) (Leaf (-0.0074419365))) (Leaf (-0.04796053))))
  (Split 77 1.0 (Split 104 1.0 (Split 435 1.0 (Leaf 0.06720997) (Leaf 0.031357497)) (Leaf
  0.013841952)) (Leaf (-0.014303057)))) (Split 473 1.0 (Split 562 1.0 (Split 158 1.0 (Split 924 1.0
  (Leaf 0.032196168) (Leaf (-0.033527818))) (Leaf (-0.030585))) (Leaf (-0.029278386))) (Leaf
  (-0.037781026)))) (Split 950 1.0 (Split 267 1.0 (Split 330 1.0 (Split 721 1.0 (Split 522 1.0
  (Leaf (-0.055171926)) (Leaf (-0.012865364))) (Leaf (-0.010531659))) (Leaf (-0.008054077))) (Leaf
  0.003705265)) (Split 540 1.0 (Leaf 0.033334445) (Leaf (-0.030134035))))) (Split 540 1.0 (Split 7
  1.0 (Split 250 1.0 (Split 345 1.0 (Split 808 1.0 (Split 766 1.0 (Leaf 0.030958667) (Leaf
  (-0.039618414))) (Leaf (-0.041888956))) (Leaf (-0.035490982))) (Split 617 1.0 (Leaf 0.001265408)
  (Leaf (-0.046736766)))) (Leaf (-0.04828518))) (Split 396 1.0 (Split 330 1.0 (Split 819 1.0 (Split
  912 1.0 (Split 540 3.0 (Leaf 0.0049668765) (Leaf (-0.050821163))) (Split 36 1.0 (Leaf
  (-0.039781485)) (Leaf 0.011696543))) (Leaf 0.04146373)) (Leaf 0.04474916)) (Leaf 0.046790387))))
  var46_20007) var46_20030) (Split 435 1.0 (Split 812 1.0 (Split 540 1.0 (Split 300 1.0 (Leaf
  0.051489484) (Leaf 0.00076327985)) (Leaf (-0.0007719041))) (Leaf (-0.018030114))) (Leaf
  (-0.0063884333)))) (Split 288 1.0 (Split 979 1.0 (Split 452 1.0 (Split 540 1.0 (Leaf
  (-0.0035722484)) (Leaf (-0.033308126))) (Leaf 0.0094931945)) (Leaf 0.017477235)) (Leaf
  (-0.052072417)))) (Split 812 1.0 (Split 540 1.0 (Split 617 1.0 (Split 300 1.0 (Leaf
  (-0.05099822)) (Leaf (-0.014380204))) (Leaf 0.0036773898)) (Leaf (-0.0031380248))) (Leaf
  0.013269606)).

Definition var47_20367 : tree :=
  Split 670 1.0 (Split 36 1.0 (Split 641 1.0 (Split 300 1.0 (Leaf 0.051145084) (Split 435 1.0 (Leaf
  (-0.0050435304)) (Leaf 0.02905992))) (Leaf (-0.01161827))) (Leaf (-0.011855437))) (Leaf
  (-0.027166152)).

Definition var47_20299 : tree :=
  Split 53 1.0 (Split 986 1.0 (Split 143 1.0 (Split 673 1.0 (Split 178 1.0 (Leaf 0.000024714831)
  (Leaf (-0.04095585))) (Leaf 0.05798142)) (Leaf 0.05755319)) (Split 812 1.0 (Leaf 0.056310095)
  (Leaf 0.0072464803))) (Split 518 1.0 (Split 678 1.0 (Leaf 0.05853359) (Leaf 0.0058884057)) (Leaf
  0.010776653)).

Definition var47 : tree :=
  Split 968 1.0 (Split 430 1.0 (Split 833 1.0 (Split 156 1.0 (Split 365 1.0 (Split 986 1.0 (Split
  330 1.0 (Split 73 1.0 (Split 517 1.0 (Split 178 1.0 (Split 479 1.0 (Split 65 1.0 (Leaf
  0.00698349) (Leaf (-0.033318844))) (Split 937 1.0 (Leaf (-0.046275277)) (Leaf 0.00020239272)))
  (Split 819 1.0 (Split 113 1.0 (Leaf (-0.042074036)) (Leaf 0.014169541)) (Leaf 0.024633288)))
  (Split 870 1.0 (Split 45 1.0 (Split 526 1.0 (Leaf (-0.032793004)) (Leaf 0.03461596)) (Leaf
  0.033134226)) (Split 36 1.0 (Split 789 1.0 (Leaf 0.046540376) (Leaf 0.014287415)) (Leaf
  (-0.01536036))))) (Split 655 1.0 (Split 855 1.0 (Split 964 1.0 (Split 796 1.0 (Leaf
  (-0.05318699)) (Leaf (-0.008797771))) (Leaf (-0.004749445))) (Leaf 0.0059458446)) (Leaf
  0.0103522185))) (Split 479 1.0 (Split 662 1.0 (Split 104 1.0 (Leaf 0.055485316) (Split 300 1.0
  (Leaf 0.020884221) (Leaf (-0.0016409637)))) (Leaf 0.0033618924)) (Leaf (-0.007842013)))) (Split
  950 1.0 (Split 879 1.0 (Split 938 1.0 (Split 776 1.0 (Split 912 1.0 (Split 435 1.0 (Leaf
  0.06007551) (Leaf 0.032575678)) (Leaf 0.0048224055)) (Leaf 0.0014533893)) (Leaf (-0.005343952)))
  (Leaf (-0.0038078874))) (Leaf (-0.013605391)))) (Split 120 1.0 (Split 540 1.0 (Split 789 1.0
  (Split 822 1.0 (Split 435 1.0 (Leaf (-0.007463129)) (Leaf 0.012408665)) (Leaf 0.015762448)) (Leaf
  (-0.013988614))) (Leaf (-0.024618218))) (Leaf 0.051981848))) (Split 958 1.0 (Split 997 1.0 (Split
  330 1.0 var47_20299 (Leaf 0.051805735)) (Split 386 1.0 (Split 281 1.0 (Split 36 1.0 (Split 540
  1.0 (Leaf 0.00013880615) (Leaf (-0.016853036))) (Leaf 0.023397325)) (Leaf 0.0359049)) (Leaf
  0.05206997))) (Split 800 1.0 (Split 540 1.0 (Leaf (-0.0028391504)) (Leaf 0.011919605)) (Leaf
  0.052072883)))) var47_20367) (Split 288 1.0 (Split 452 1.0 (Split 670 1.0 (Split 300 1.0 (Leaf
  (-0.0049135084)) (Leaf 0.010183974)) (Leaf (-0.02910829))) (Leaf 0.020373628)) (Leaf
  (-0.051914662)))) (Split 55 1.0 (Split 540 1.0 (Split 16 1.0 (Split 435 1.0 (Leaf (-0.051069785))
  (Leaf 0.0048293592)) (Leaf (-0.0027077587))) (Leaf (-0.003028143))) (Leaf 0.008692543)).

Definition var48_20627 : tree :=
  Split 120 1.0 (Split 540 1.0 (Split 789 1.0 (Split 822 1.0 (Split 435 1.0 (Leaf (-0.0072106295))
  (Leaf 0.012074399)) (Leaf 0.015401371)) (Leaf (-0.013619381))) (Leaf (-0.024124108))) (Leaf
  0.05182748).

Definition var48_20583 : tree :=
  Split 104 1.0 (Split 759 1.0 (Split 357 1.0 (Split 1019 1.0 (Split 985 1.0 (Leaf 0.047777634)
  (Leaf 0.00020982919)) (Leaf (-0.006996417))) (Leaf (-0.015331263))) (Split 300 2.0 (Leaf
  (-0.029361457)) (Leaf 0.008359598))) (Split 296 1.0 (Split 300 2.0 (Split 822 1.0 (Split 678 1.0
  (Leaf 0.0029922735) (Leaf (-0.038556762))) (Leaf 0.033488575)) (Leaf 0.035501428)) (Leaf
  (-0.048004832))).

Definition var48_20650 : tree :=
  Split 958 1.0 (Split 997 1.0 (Split 330 1.0 (Split 53 1.0 (Split 986 1.0 (Split 23 1.0 (Split 819
  1.0 (Split 55 1.0 (Leaf (-0.007007485)) (Leaf 0.032776613)) (Split 780 1.0 (Leaf 0.050136503)
  (Leaf 0.010486118))) (Split 529 1.0 (Split 824 1.0 (Leaf 0.043058816) (Leaf (-0.023764642)))
  (Leaf (-0.034820266)))) (Split 812 1.0 (Leaf 0.05538878) (Leaf 0.00705615))) (Split 518 1.0
  (Split 678 1.0 (Leaf 0.057241846) (Leaf 0.00571666)) (Leaf 0.010435988))) (Leaf 0.05128798))
  (Split 386 1.0 (Split 281 1.0 (Split 36 1.0 (Split 540 1.0 (Leaf 0.00013479246) (Leaf
  (-0.01638546))) (Leaf 0.022910966)) (Leaf 0.035359025)) (Leaf 0.051912304))) (Split 800 1.0
  (Split 540 1.0 (Leaf (-0.002764784)) (Leaf 0.011604618)) (Leaf 0.051915098)).

Definition var48 : tree :=
  Split 968 1.0 (Split 430 1.0 (Split 833 1.0 (Split 156 1.0 (Split 365 1.0 (Split 979 1.0 (Split 8
  1.0 (Split 709 1.0 (Split 286 1.0 (Split 157 1.0 (Split 55 1.0 (Split 575 1.0 (Leaf
  (-0.011033497)) (Leaf 0.058545288)) (Split 674 1.0 (Leaf 0.029086625) (Leaf (-0.045962106))))
  (Split 435 1.0 (Split 678 1.0 (Leaf 0.07330329) (Leaf 0.0017751771)) (Split 300 1.0 (Leaf
  (-0.006572301)) (Leaf 0.038301524)))) (Split 678 1.0 (Split 812 1.0 (Split 36 1.0 (Leaf
  0.07286673) (Leaf 0.026685987)) (Leaf 0.021327069)) (Leaf 0.009458496))) (Split 77 1.0 (Split 678
  1.0 (Split 540 1.0 (Leaf 0.063288815) (Leaf 0.022527514)) (Leaf 0.021323124)) (Leaf
  (-0.013537191)))) (Split 300 1.0 (Split 498 1.0 (Split 36 1.0 (Split 517 1.0 (Split 103 1.0 (Leaf
  0.058452368) (Leaf 0.008434157)) (Leaf 0.012332032)) (Split 678 1.0 (Split 435 1.0 (Leaf
  0.0048462185) (Leaf (-0.0010701482))) (Leaf 0.03966676))) (Leaf (-0.009919216))) (Split 53 1.0
  (Split 435 1.0 (Split 452 1.0 (Leaf 0.002211044) (Leaf (-0.017583009))) (Leaf (-0.03373652)))
  (Leaf 0.03422236)))) (Split 300 1.0 (Split 659 1.0 (Split 812 1.0 (Split 776 1.0 (Split 117 1.0
  (Split 345 1.0 (Leaf 0.009677176) (Leaf (-0.06314693))) (Leaf (-0.06583444))) (Leaf
  (-0.05195973))) (Split 912 1.0 (Split 574 1.0 (Split 16 1.0 (Leaf 0.05314154) (Leaf 0.015573657))
  (Leaf (-0.013148824))) (Leaf (-0.033926312)))) (Split 912 1.0 (Split 498 1.0 (Leaf 0.044153716)
  (Leaf 0.0090921605)) (Leaf 0.0032970705))) var48_20583)) var48_20627) var48_20650) (Split 435 1.0
  (Split 812 1.0 (Split 540 1.0 (Split 300 1.0 (Leaf 0.051105358) (Leaf 0.0010421551)) (Leaf
  (-0.00074185553))) (Leaf (-0.017510517))) (Leaf (-0.006622766)))) (Split 288 1.0 (Split 979 1.0
  (Split 435 1.0 (Split 540 1.0 (Leaf 0.01831189) (Leaf (-0.017639542))) (Leaf (-0.03019555)))
  (Leaf 0.017135067)) (Leaf (-0.0517628)))) (Split 812 1.0 (Split 540 1.0 (Split 435 1.0 (Split 670
  1.0 (Leaf (-0.050760508)) (Leaf (-0.00935943))) (Leaf (-0.0060024722))) (Leaf (-0.0029220998)))
  (Leaf 0.013224207)).

Definition var49_20939 : tree :=
  Split 575 1.0 (Split 780 1.0 (Split 709 1.0 (Split 799 1.0 (Split 55 1.0 (Leaf (-0.011699313))
  (Leaf 0.03052937)) (Split 574 1.0 (Leaf 0.03456189) (Leaf (-0.037563324)))) (Leaf 0.049298372))
  (Split 976 1.0 (Split 995 1.0 (Leaf 0.047660958) (Leaf 0.008227072)) (Leaf 0.010725551))) (Leaf
  0.05510677).

Definition var49_20973 : tree :=
  Split 392 1.0 (Split 540 1.0 (Split 721 1.0 (Split 617 1.0 (Split 608 1.0 (Leaf 0.04544426) (Leaf
  0.0007134856)) (Split 104 1.0 (Leaf 0.01926047) (Leaf (-0.017005263)))) (Leaf (-0.006387288)))
  (Split 36 1.0 (Split 1018 1.0 (Split 104 1.0 (Leaf 0.017124524) (Leaf (-0.014973707))) (Leaf
  (-0.038262233))) (Leaf 0.042183865))) (Split 435 1.0 (Leaf (-0.0010949533)) (Leaf (-0.01662166))).

Definition var49 : tree :=
  Split 968 1.0 (Split 430 1.0 (Split 833 1.0 (Split 156 1.0 (Split 365 1.0 (Split 986 1.0 (Split
  819 1.0 (Split 73 1.0 (Split 438 1.0 (Split 479 1.0 (Split 517 1.0 (Split 178 1.0 (Leaf
  0.0033969407) (Leaf (-0.037131343))) (Split 870 1.0 (Leaf (-0.029450959)) (Leaf 0.026908493)))
  (Split 267 1.0 (Split 128 1.0 (Leaf (-0.049822465)) (Leaf (-0.00487454))) (Leaf 0.010809554)))
  (Split 77 1.0 (Split 607 1.0 (Split 16 1.0 (Leaf 0.06851329) (Leaf 0.0145273255)) (Leaf
  0.011486162)) (Leaf (-0.0064690583)))) (Split 255 1.0 (Split 517 1.0 (Split 141 1.0 (Split 776
  1.0 (Leaf (-0.05433572)) (Leaf 0.0058808923)) (Leaf 0.0005706464)) (Leaf 0.012587152)) (Leaf
  0.0070778294))) (Split 697 1.0 (Split 509 1.0 (Split 65 1.0 (Split 517 1.0 (Split 540 2.0 (Leaf
  0.057930257) (Leaf 0.015543959)) (Leaf 0.0021022453)) (Split 36 1.0 (Leaf 0.020771775) (Leaf
  (-0.011030547)))) (Leaf (-0.021241639))) (Leaf (-0.043314863)))) (Split 950 1.0 (Split 879 1.0
  (Split 776 1.0 (Split 938 1.0 (Split 244 1.0 (Split 670 1.0 (Leaf 0.05574397) (Leaf 0.020033468))
  (Leaf 0.0018747367)) (Leaf (-0.0052229855))) (Leaf 0.0011932611)) (Leaf (-0.003985879))) (Leaf
  (-0.013230394)))) (Split 120 1.0 (Split 540 1.0 (Split 789 1.0 (Split 822 1.0 (Split 435 1.0
  (Leaf (-0.0069665797)) (Leaf 0.01174924)) (Leaf 0.015049256)) (Leaf (-0.013260232))) (Leaf
  (-0.02364001))) (Leaf 0.05167873))) (Split 958 1.0 (Split 997 1.0 (Split 979 1.0 var49_20939
  var49_20973) (Split 386 1.0 (Split 281 1.0 (Split 36 1.0 (Split 540 1.0 (Leaf 0.00013089) (Leaf
  (-0.015930971))) (Leaf 0.022434821)) (Leaf 0.034824073)) (Leaf 0.05176052))) (Split 800 1.0
  (Split 540 1.0 (Leaf (-0.0026923695)) (Leaf 0.011298258)) (Leaf 0.051763203)))) (Split 435 1.0
  (Split 812 1.0 (Split 540 1.0 (Split 300 1.0 (Leaf 0.05091638) (Leaf 0.0010092775)) (Leaf
  (-0.0007201237))) (Leaf (-0.017002461))) (Leaf (-0.0063666436)))) (Split 288 1.0 (Split 452 1.0
  (Split 670 1.0 (Split 300 1.0 (Leaf (-0.004799628)) (Leaf 0.00983913)) (Leaf (-0.02857031)))
  (Leaf 0.019951751)) (Leaf (-0.051616352)))) (Split 55 1.0 (Split 540 1.0 (Split 16 1.0 (Split 435
  1.0 (Leaf (-0.050677117)) (Leaf 0.0048629306)) (Leaf (-0.002660426))) (Leaf (-0.002819761)))
  (Leaf 0.009088436)).
