(* ===== verification/Forest2.v ===== *)
(** * Forest2: trees 50 to 99 of the decision forest ([ai/model.go])

    The variables [var50] to [var99] of [PredictToxicity], one tree each, with
    the indices, thresholds and constants of the source.  The sub-tree [varK_n] is the
    conditional of line [n] of the source. *)

From S2P Require Import Prelude Trees.

Definition var50_21253 : tree :=
  Split 53 1.0 (Split 679 1.0 (Split 575 1.0 (Split 99 1.0 (Split 55 1.0 (Leaf (-0.008112)) (Leaf
  0.030399576)) (Split 1018 1.0 (Leaf 0.03590031) (Leaf (-0.0069027967)))) (Leaf 0.052945804))
  (Split 178 1.0 (Split 20 1.0 (Split 537 1.0 (Leaf 0.027541468) (Leaf (-0.023031145))) (Leaf
  0.07720796)) (Leaf (-0.029419681)))) (Split 16 1.0 (Split 36 1.0 (Leaf 0.053038668) (Leaf
  0.011956958)) (Leaf 0.0038369342)).

Definition var50 : tree :=
  Split 968 1.0 (Split 430 1.0 (Split 833 1.0 (Split 156 1.0 (Split 365 1.0 (Split 330 1.0 (Split
  986 1.0 (Split 819 1.0 (Split 678 1.0 (Split 980 1.0 (Split 65 1.0 (Split 751 1.0 (Leaf
  0.0013445801) (Leaf 0.062894)) (Split 518 1.0 (Leaf (-0.03828227)) (Leaf 0.028479386))) (Split
  655 1.0 (Split 537 1.0 (Leaf (-0.05449748)) (Leaf 0.009377574)) (Leaf 0.01474561))) (Split 419
  1.0 (Split 799 1.0 (Split 822 1.0 (Leaf (-0.03079465)) (Leaf 0.0075945617)) (Split 23 1.0 (Leaf
  0.030306885) (Leaf (-0.049227692)))) (Split 452 1.0 (Leaf 0.024107853) (Leaf 0.066490486))))
  (Split 776 1.0 (Split 509 1.0 (Split 65 1.0 (Split 517 1.0 (Leaf 0.052859057) (Leaf
  (-0.0025683537))) (Split 36 1.0 (Leaf 0.020118741) (Leaf (-0.012657513)))) (Leaf (-0.020627063)))
  (Leaf (-0.042702526)))) (Split 950 1.0 (Split 879 1.0 (Split 670 1.0 (Split 938 1.0 (Split 912
  1.0 (Leaf 0.052973982) (Leaf 0.0030812072)) (Leaf (-0.00507518))) (Split 300 1.0 (Leaf
  (-0.0035675396)) (Leaf 0.017430266))) (Leaf (-0.006279929))) (Leaf (-0.015552374)))) (Split 479
  1.0 (Split 104 1.0 (Split 662 1.0 (Split 964 1.0 (Leaf 0.056073602) (Leaf 0.020485003)) (Leaf
  0.0054085543)) (Split 670 1.0 (Leaf 0.02856715) (Leaf (-0.0031858434)))) (Leaf (-0.006399487))))
  (Split 120 1.0 (Split 540 1.0 (Split 789 1.0 (Leaf 0.005937329) (Leaf (-0.012910861))) (Leaf
  (-0.023165688))) (Leaf 0.05153516))) (Split 958 1.0 (Split 997 1.0 (Split 330 1.0 var50_21253
  (Leaf 0.050722312)) (Split 386 1.0 (Split 281 1.0 (Split 36 1.0 (Split 540 1.0 (Leaf
  0.0001271038) (Leaf (-0.015489181))) (Leaf 0.021968663)) (Leaf 0.034299765)) (Leaf 0.051614143)))
  (Split 800 1.0 (Split 540 1.0 (Leaf (-0.0026218572)) (Leaf 0.01100026)) (Leaf 0.05161673))))
  (Split 435 1.0 (Split 812 1.0 (Split 540 1.0 (Split 300 1.0 (Leaf 0.050730765) (Leaf
  0.0009774308)) (Leaf (-0.0006990278))) (Leaf (-0.016510373))) (Leaf (-0.0061205286)))) (Split 288
  1.0 (Split 979 1.0 (Split 435 1.0 (Split 540 1.0 (Leaf 0.017805288) (Leaf (-0.017292975))) (Leaf
  (-0.02975066))) (Leaf 0.016806329)) (Leaf (-0.051474888)))) (Split 55 1.0 (Split 540 1.0 (Split
  16 1.0 (Split 435 1.0 (Leaf (-0.050480228)) (Leaf 0.004723772)) (Leaf (-0.0025848232))) (Leaf
  (-0.0027209898))) (Leaf 0.008812925)).

Definition var51_21607 : tree :=
  Split 670 1.0 (Split 976 1.0 (Split 641 1.0 (Split 435 1.0 (Split 300 1.0 (Leaf 0.05055185) (Leaf
  0.019101176)) (Leaf 0.0038612839)) (Leaf (-0.0105626425))) (Leaf (-0.020370917))) (Leaf
  (-0.02708438)).

Definition var51 : tree :=
  Split 968 1.0 (Split 430 1.0 (Split 833 1.0 (Split 156 1.0 (Split 365 1.0 (Split 330 1.0 (Split
  479 1.0 (Split 178 1.0 (Split 517 1.0 (Split 73 1.0 (Split 43 1.0 (Split 65 1.0 (Leaf
  0.008947367) (Leaf (-0.028790155))) (Split 679 1.0 (Leaf (-0.058638353)) (Leaf (-0.002358251))))
  (Split 255 1.0 (Split 653 1.0 (Leaf (-0.04697794)) (Leaf 0.013758768)) (Leaf 0.016605143)))
  (Split 870 1.0 (Split 45 1.0 (Split 438 1.0 (Leaf (-0.03082711)) (Leaf 0.027799428)) (Leaf
  0.033956923)) (Split 36 1.0 (Split 789 1.0 (Leaf 0.045611482) (Leaf 0.013669535)) (Leaf
  0.00013778695)))) (Split 113 1.0 (Split 819 1.0 (Split 284 1.0 (Split 267 1.0 (Leaf
  (-0.04399465)) (Leaf 0.005340389)) (Leaf 0.025022889)) (Leaf 0.020710904)) (Leaf 0.031608835)))
  (Split 937 1.0 (Split 659 1.0 (Split 725 1.0 (Split 522 1.0 (Split 148 1.0 (Leaf (-0.051096268))
  (Leaf (-0.007495217))) (Leaf (-0.0075929747))) (Leaf (-0.0031823255))) (Leaf (-0.0034084667)))
  (Split 36 1.0 (Leaf (-0.011033292)) (Leaf 0.014161226)))) (Split 479 1.0 (Split 104 1.0 (Split
  662 1.0 (Split 964 1.0 (Leaf 0.055045176) (Leaf 0.02002927)) (Leaf 0.0052488386)) (Split 670 1.0
  (Leaf 0.027799487) (Leaf (-0.003103941)))) (Leaf (-0.006231926)))) (Split 120 1.0 (Split 540 1.0
  (Split 789 1.0 (Leaf 0.005693573) (Leaf (-0.012570977))) (Leaf (-0.022700924))) (Leaf
  0.051396307))) (Split 958 1.0 (Split 997 1.0 (Split 330 1.0 (Split 53 1.0 (Split 986 1.0 (Split
  157 1.0 (Split 979 1.0 (Split 23 1.0 (Leaf (-0.0084174555)) (Leaf 0.027656619)) (Split 392 1.0
  (Leaf 0.022035925) (Leaf (-0.025385508)))) (Leaf 0.056564827)) (Split 812 1.0 (Leaf 0.0542847)
  (Leaf 0.0066649253))) (Split 518 1.0 (Split 678 1.0 (Leaf 0.055110794) (Leaf 0.0044099023)) (Leaf
  0.008729608))) (Leaf 0.050225414)) (Split 386 1.0 (Split 281 1.0 (Split 36 1.0 (Split 540 1.0
  (Leaf 0.00012342891) (Leaf (-0.015059711))) (Leaf 0.021512266)) (Leaf 0.03378583)) (Leaf
  0.051472742))) (Split 800 1.0 (Split 540 1.0 (Leaf (-0.0025531964)) (Leaf 0.010710376)) (Leaf
  0.051475216)))) var51_21607) (Split 288 1.0 (Split 452 1.0 (Split 670 1.0 (Split 300 1.0 (Leaf
  (-0.0046906224)) (Leaf 0.009508081)) (Leaf (-0.028050104))) (Leaf 0.019546231)) (Leaf
  (-0.051337976)))) (Split 812 1.0 (Split 540 1.0 (Split 55 1.0 (Split 435 1.0 (Leaf (-0.05018537))
  (Leaf (-0.009114509))) (Leaf 0.0030069384)) (Leaf (-0.0026256724))) (Leaf 0.013446701)).

Definition var52_21822 : tree :=
  Split 958 1.0 (Split 997 1.0 (Split 330 1.0 (Split 53 1.0 (Split 679 1.0 (Split 575 1.0 (Split 99
  1.0 (Split 55 1.0 (Leaf (-0.007812996)) (Leaf 0.029620374)) (Split 1018 1.0 (Leaf 0.035193484)
  (Leaf (-0.006708906)))) (Leaf 0.05139042)) (Split 178 1.0 (Split 20 1.0 (Split 537 1.0 (Leaf
  0.026360739) (Leaf (-0.02249685))) (Leaf 0.07500534)) (Leaf (-0.028710669)))) (Split 518 1.0
  (Split 678 1.0 (Split 36 1.0 (Leaf 0.057830073) (Leaf 0.016663637)) (Leaf 0.004281604)) (Leaf
  0.008454806))) (Leaf 0.049737487)) (Split 386 1.0 (Split 281 1.0 (Split 36 1.0 (Split 540 1.0
  (Leaf 0.000119859025) (Leaf (-0.014642212))) (Leaf 0.021065407)) (Leaf 0.033282027)) (Leaf
  0.051335882))) (Split 800 1.0 (Split 540 1.0 (Leaf (-0.0024863358)) (Leaf 0.010428368)) (Leaf
  0.051338274)).

Definition var52 : tree :=
  Split 968 1.0 (Split 430 1.0 (Split 833 1.0 (Split 156 1.0 (Split 365 1.0 (Split 986 1.0 (Split
  819 1.0 (Split 678 1.0 (Split 286 1.0 (Split 980 1.0 (Split 438 1.0 (Split 479 1.0 (Leaf
  0.0012014535) (Leaf (-0.043388024))) (Split 357 1.0 (Leaf 0.06381222) (Leaf (-0.02678307))))
  (Split 655 1.0 (Split 517 1.0 (Leaf (-0.05665956)) (Leaf 0.0011076988)) (Leaf 0.014338321)))
  (Split 277 1.0 (Split 36 1.0 (Split 812 1.0 (Leaf 0.07415156) (Leaf 0.025002668)) (Leaf
  0.013810103)) (Leaf 0.007192465))) (Split 419 1.0 (Split 799 1.0 (Split 330 1.0 (Split 822 1.0
  (Leaf (-0.02946796)) (Leaf 0.0072255856)) (Leaf 0.043688532)) (Split 23 1.0 (Split 617 1.0 (Leaf
  0.033951487) (Leaf 0.0032397069)) (Leaf (-0.04733722)))) (Split 452 1.0 (Leaf 0.023399884) (Leaf
  0.0641475)))) (Split 697 1.0 (Split 509 1.0 (Split 937 1.0 (Split 435 1.0 (Split 682 1.0 (Leaf
  0.05905331) (Leaf 0.009375307)) (Split 104 1.0 (Leaf 0.039138317) (Leaf (-0.02440381)))) (Leaf
  (-0.0012767457))) (Leaf (-0.020244304))) (Leaf (-0.042222507)))) (Split 950 1.0 (Split 879 1.0
  (Split 776 1.0 (Split 938 1.0 (Split 435 1.0 (Split 540 2.0 (Leaf 0.05826537) (Leaf 0.009005212))
  (Split 789 1.0 (Leaf 0.03628267) (Leaf (-0.018018767)))) (Leaf (-0.0051847566))) (Leaf
  0.00010348129)) (Leaf (-0.0037520514))) (Leaf (-0.012342867)))) (Split 120 1.0 (Split 540 1.0
  (Split 789 1.0 (Leaf 0.0054598455) (Leaf (-0.012240297))) (Leaf (-0.022245495))) (Leaf
  0.05126178))) var52_21822) (Split 435 1.0 (Split 812 1.0 (Split 540 1.0 (Split 300 1.0 (Leaf
  0.050373014) (Leaf 0.00069638557)) (Leaf (-0.00073524617))) (Leaf (-0.01593001))) (Leaf
  (-0.005779288)))) (Split 288 1.0 (Split 979 1.0 (Split 452 1.0 (Split 540 1.0 (Leaf
  (-0.0033833333)) (Leaf (-0.03176799))) (Leaf 0.008295788)) (Leaf 0.01649037)) (Leaf
  (-0.051205207)))) (Split 300 1.0 (Split 36 1.0 (Split 435 1.0 (Leaf (-0.049868476)) (Leaf
  0.009211539)) (Leaf 0.0157098)) (Leaf (-0.00013017673))).

Definition var53_22128 : tree :=
  Split 872 1.0 (Split 679 1.0 (Split 979 1.0 (Split 300 1.0 (Leaf (-0.015931068)) (Split 435 1.0
  (Leaf (-0.0019147955)) (Leaf 0.020577898))) (Leaf 0.03165851)) (Leaf (-0.029076863))) (Leaf
  0.051202048).

Definition var53_22151 : tree :=
  Split 670 1.0 (Split 36 1.0 (Split 641 1.0 (Split 300 1.0 (Leaf 0.05001195) (Split 435 1.0 (Leaf
  (-0.0046316385)) (Leaf 0.028853018))) (Leaf (-0.010039648))) (Leaf (-0.012763812))) (Leaf
  (-0.026641501)).

Definition var53 : tree :=
  Split 968 1.0 (Split 430 1.0 (Split 833 1.0 (Split 386 1.0 (Split 958 1.0 (Split 365 1.0 (Split
  330 1.0 (Split 979 1.0 (Split 709 1.0 (Split 780 1.0 (Split 157 1.0 (Split 99 1.0 (Leaf
  (-0.010351232)) (Leaf 0.021999931)) (Split 45 1.0 (Leaf 0.06658652) (Leaf (-0.0034412171))))
  (Split 8 1.0 (Split 65 1.0 (Leaf 0.02294752) (Leaf (-0.03234821))) (Split 36 1.0 (Leaf
  0.052274406) (Leaf 0.012059764)))) (Split 976 1.0 (Split 659 1.0 (Split 678 1.0 (Leaf 0.06270376)
  (Leaf 0.028288364)) (Leaf 0.006416559)) (Leaf (-0.0027922092)))) (Split 540 1.0 (Split 296 1.0
  (Split 345 1.0 (Split 980 1.0 (Leaf 0.028522536) (Leaf (-0.03146304))) (Leaf (-0.042860243)))
  (Split 435 1.0 (Leaf (-0.04870599)) (Leaf (-0.010581609)))) (Split 396 1.0 (Split 36 1.0 (Split
  267 1.0 (Leaf (-0.017082695)) (Leaf 0.03327632)) (Split 303 1.0 (Leaf 0.029251685) (Leaf
  (-0.015342802)))) (Leaf 0.047550406)))) (Split 479 1.0 (Split 65 1.0 (Split 662 1.0 (Split 104
  1.0 (Split 138 1.0 (Leaf 0.055354435) (Leaf 0.012099432)) (Split 670 1.0 (Leaf 0.030229067) (Leaf
  (-0.0031440612)))) (Leaf 0.014808408)) (Leaf 0.007318658)) (Leaf (-0.005497615)))) (Split 120 1.0
  (Split 540 1.0 (Split 822 1.0 (Split 789 1.0 (Split 435 1.0 (Leaf (-0.0073092147)) (Leaf
  0.012484281)) (Leaf (-0.011918538))) (Leaf 0.01623325)) (Leaf (-0.021799207))) (Leaf
  0.05113119))) (Split 543 1.0 (Split 976 1.0 (Split 607 1.0 (Split 812 1.0 (Split 300 1.0 (Leaf
  (-0.013700171)) (Leaf (-0.037370484))) (Leaf 0.0026835639)) (Leaf 0.00727242)) (Leaf
  0.035702728)) (Leaf 0.05120181))) var53_22128) var53_22151) (Split 288 1.0 (Split 979 1.0 (Split
  452 1.0 (Split 540 1.0 (Leaf (-0.0032807037)) (Leaf (-0.031273965))) (Leaf 0.008082362)) (Leaf
  0.016011788)) (Leaf (-0.05107621)))) (Split 812 1.0 (Split 540 1.0 (Split 55 1.0 (Split 435 1.0
  (Leaf (-0.04980323)) (Leaf (-0.009033337))) (Leaf 0.0037014845)) (Leaf (-0.0022564658))) (Leaf
  0.014070257)).

Definition var54 : tree :=
  Split 968 1.0 (Split 430 1.0 (Split 833 1.0 (Split 386 1.0 (Split 958 1.0 (Split 365 1.0 (Split
  330 1.0 (Split 53 1.0 (Split 986 1.0 (Split 751 1.0 (Split 438 1.0 (Split 99 1.0 (Leaf
  (-0.0069270777)) (Leaf 0.022463834)) (Split 104 1.0 (Leaf 0.054410465) (Leaf 0.004230086)))
  (Split 36 1.0 (Split 540 2.0 (Leaf 0.06863536) (Leaf (-0.013680111))) (Split 855 1.0 (Leaf
  0.0049168686) (Leaf (-0.063391015))))) (Split 664 1.0 (Split 950 1.0 (Split 879 1.0 (Leaf
  0.04696064) (Leaf (-0.007983199))) (Leaf (-0.014399494))) (Leaf (-0.03008966)))) (Split 77 1.0
  (Split 345 1.0 (Split 532 1.0 (Split 989 1.0 (Leaf 0.045831267) (Leaf (-0.008607702))) (Leaf
  (-0.012188551))) (Leaf (-0.02552081))) (Leaf (-0.04007304)))) (Split 479 1.0 (Split 65 1.0 (Split
  662 1.0 (Split 104 1.0 (Split 138 1.0 (Leaf 0.054556955) (Leaf 0.011826518)) (Split 670 1.0 (Leaf
  0.029542744) (Leaf (-0.0030633206)))) (Leaf 0.0143463705)) (Leaf 0.007135828)) (Leaf
  (-0.0053544496)))) (Split 120 1.0 (Split 540 1.0 (Split 822 1.0 (Split 789 1.0 (Split 435 1.0
  (Leaf (-0.007061865)) (Leaf 0.012145084)) (Leaf (-0.011605452))) (Leaf 0.015857859)) (Leaf
  (-0.021361856))) (Leaf 0.051004153))) (Split 543 1.0 (Split 976 1.0 (Split 607 1.0 (Split 812 1.0
  (Split 300 1.0 (Leaf (-0.013184181)) (Leaf (-0.036245946))) (Leaf 0.002613639)) (Leaf
  0.0070766876)) (Leaf 0.03483985)) (Leaf 0.05107289))) (Split 872 1.0 (Split 679 1.0 (Split 979
  1.0 (Split 540 1.0 (Split 300 1.0 (Leaf (-0.0056262123)) (Leaf 0.019033562)) (Leaf
  (-0.019601384))) (Leaf 0.031198556)) (Leaf (-0.028295401))) (Leaf 0.051073134))) (Split 435 1.0
  (Split 812 1.0 (Split 540 1.0 (Split 300 1.0 (Leaf 0.05002376) (Leaf 0.0009738666)) (Leaf
  (-0.0007090228))) (Leaf (-0.015497706))) (Leaf (-0.0060346983)))) (Split 288 1.0 (Split 979 1.0
  (Split 452 1.0 (Leaf (-0.01974216)) (Leaf 0.007874451)) (Leaf 0.015546973)) (Leaf
  (-0.050950617)))) (Split 812 1.0 (Split 540 1.0 (Split 55 1.0 (Split 435 1.0 (Leaf (-0.04961026))
  (Leaf (-0.008769028))) (Leaf 0.0035985985)) (Leaf (-0.0021773248))) (Leaf 0.0137432655)).

Definition var55_22592 : tree :=
  Split 872 1.0 (Split 679 1.0 (Split 979 1.0 (Split 540 1.0 (Split 300 1.0 (Leaf (-0.005454305))
  (Leaf 0.018352244)) (Leaf (-0.019045373))) (Leaf 0.0307478)) (Leaf (-0.027534181))) (Leaf
  0.050947625).

Definition var55 : tree :=
  Split 968 1.0 (Split 833 1.0 (Split 430 1.0 (Split 386 1.0 (Split 958 1.0 (Split 365 1.0 (Split
  979 1.0 (Split 780 1.0 (Split 157 1.0 (Split 575 1.0 (Split 99 1.0 (Split 345 1.0 (Leaf
  (-0.010101814)) (Leaf 0.051736306)) (Split 479 1.0 (Leaf 0.023633655) (Leaf (-0.04792921))))
  (Split 86 1.0 (Split 659 1.0 (Leaf 0.071025625) (Leaf (-0.0072862804))) (Leaf (-0.024411075))))
  (Split 45 1.0 (Split 47 1.0 (Leaf 0.06717036) (Leaf 0.011950692)) (Leaf (-0.0034247022)))) (Split
  8 1.0 (Split 65 1.0 (Split 532 1.0 (Split 630 1.0 (Leaf 0.027093321) (Leaf (-0.02825529))) (Leaf
  (-0.0340182))) (Leaf (-0.032161295))) (Split 36 1.0 (Leaf 0.05180472) (Leaf 0.013342343))))
  (Split 621 1.0 (Split 300 1.0 (Split 912 1.0 (Split 345 1.0 (Split 56 1.0 (Leaf 0.018234542)
  (Leaf (-0.06282012))) (Leaf (-0.051741835))) (Split 679 1.0 (Split 36 1.0 (Leaf (-0.037538655))
  (Leaf 0.01246498)) (Leaf 0.034503914))) (Split 296 1.0 (Split 738 1.0 (Split 432 1.0 (Leaf
  0.04134725) (Leaf (-0.028785398))) (Leaf (-0.049997933))) (Leaf (-0.04507048)))) (Leaf
  (-0.0666199)))) (Split 120 1.0 (Split 540 1.0 (Split 822 1.0 (Split 789 1.0 (Split 435 1.0 (Leaf
  (-0.006822798)) (Leaf 0.011815138)) (Leaf (-0.011300777))) (Leaf 0.015491773)) (Leaf
  (-0.020933261))) (Leaf 0.05088032))) (Split 543 1.0 (Split 976 1.0 (Split 607 1.0 (Split 812 1.0
  (Split 300 1.0 (Leaf (-0.012687397)) (Leaf (-0.035156343))) (Leaf 0.0025455344)) (Leaf
  0.0068862475)) (Leaf 0.03400144)) (Leaf 0.050947357))) var55_22592) (Split 288 1.0 (Split 670 1.0
  (Split 979 1.0 (Split 540 1.0 (Leaf 0.001308484) (Leaf (-0.01139854))) (Leaf 0.030740185)) (Leaf
  (-0.019804856))) (Leaf (-0.05082808)))) (Split 435 1.0 (Split 812 1.0 (Split 540 1.0 (Split 300
  1.0 (Leaf 0.04984753) (Leaf 0.0009432059)) (Leaf (-0.0006883957))) (Leaf (-0.015052708))) (Leaf
  (-0.005801938)))) (Split 300 1.0 (Split 36 1.0 (Split 435 1.0 (Leaf (-0.049264845)) (Leaf
  0.009296017)) (Leaf 0.015571046)) (Leaf 0.0010804518)).

Definition var56_22848 : tree :=
  Split 670 1.0 (Split 976 1.0 (Split 641 1.0 (Split 435 1.0 (Split 300 1.0 (Leaf 0.049677324)
  (Leaf 0.019099636)) (Leaf 0.0035064078)) (Leaf (-0.009318553))) (Leaf (-0.020444915))) (Leaf
  (-0.02640302)).

Definition var56 : tree :=
  Split 968 1.0 (Split 833 1.0 (Split 430 1.0 (Split 386 1.0 (Split 958 1.0 (Split 365 1.0 (Split
  330 1.0 (Split 73 1.0 (Split 178 1.0 (Split 345 1.0 (Split 53 1.0 (Split 751 1.0 (Leaf
  (-0.00091642624)) (Leaf 0.051913936)) (Split 77 1.0 (Leaf 0.042207897) (Leaf (-0.037697516))))
  (Split 979 1.0 (Split 641 1.0 (Leaf 0.090046965) (Leaf (-0.0042641074))) (Leaf (-0.035703566))))
  (Split 819 1.0 (Split 113 1.0 (Split 284 1.0 (Leaf (-0.040246066)) (Leaf 0.024112714)) (Split 156
  1.0 (Leaf 0.031349) (Leaf (-0.017635053)))) (Leaf 0.025002629))) (Split 733 1.0 (Split 141 1.0
  (Split 255 1.0 (Split 776 1.0 (Leaf (-0.05083211)) (Leaf (-0.0012531041))) (Leaf 0.0040157214))
  (Leaf 0.0069968733)) (Leaf 0.026639855))) (Split 479 1.0 (Split 529 1.0 (Split 209 1.0 (Split 397
  1.0 (Split 138 1.0 (Leaf 0.05156597) (Leaf 0.011627416)) (Leaf 0.011095404)) (Leaf 0.010441454))
  (Leaf 0.0078093694)) (Leaf (-0.0049520885)))) (Split 120 1.0 (Split 540 1.0 (Split 822 1.0 (Split
  789 1.0 (Split 435 1.0 (Leaf (-0.0065917387)) (Leaf 0.011494178)) (Leaf (-0.011004272))) (Leaf
  0.015134725)) (Leaf (-0.020513237))) (Leaf 0.050759345))) (Split 543 1.0 (Split 976 1.0 (Split
  607 1.0 (Split 812 1.0 (Split 300 1.0 (Leaf (-0.01220911)) (Leaf (-0.0341005))) (Leaf
  0.0024792126)) (Leaf 0.0067009586)) (Leaf 0.03318652)) (Leaf 0.05082486))) (Split 872 1.0 (Split
  435 1.0 (Split 300 1.0 (Leaf (-0.020653533)) (Leaf 0.0040751523)) (Split 300 1.0 (Leaf
  0.005769233) (Leaf 0.021047039))) (Leaf 0.050825145))) (Split 288 1.0 (Split 435 1.0 (Split 540
  1.0 (Leaf 0.023261461) (Split 104 1.0 (Leaf (-0.0116913235)) (Leaf 0.004672451))) (Leaf
  (-0.018459965))) (Leaf (-0.050708253)))) var56_22848) (Split 812 1.0 (Split 540 1.0 (Split 55 1.0
  (Split 435 1.0 (Leaf (-0.04923051)) (Leaf (-0.008712808))) (Leaf 0.004251991)) (Leaf
  (-0.0018404216))) (Leaf 0.01434873)).

Definition var57_23052 : tree :=
  Split 872 1.0 (Split 679 1.0 (Split 979 1.0 (Split 670 1.0 (Split 300 1.0 (Leaf (-0.011796623))
  (Leaf 0.024655854)) (Leaf (-0.02531124))) (Leaf 0.030368999)) (Leaf (-0.026634797))) (Leaf
  0.050705384).

Definition var57 : tree :=
  Split 968 1.0 (Split 833 1.0 (Split 430 1.0 (Split 386 1.0 (Split 958 1.0 (Split 365 1.0 (Split
  979 1.0 (Split 709 1.0 (Split 780 1.0 (Split 157 1.0 (Split 799 1.0 (Split 55 1.0 (Leaf
  (-0.010954226)) (Leaf 0.027415816)) (Split 73 1.0 (Leaf 0.024975918) (Leaf (-0.06586144))))
  (Split 45 1.0 (Split 47 1.0 (Leaf 0.06397422) (Leaf 0.011154112)) (Leaf (-0.0035300888)))) (Split
  8 1.0 (Split 65 1.0 (Split 532 1.0 (Leaf 0.02437899) (Leaf (-0.03312305))) (Leaf (-0.03142303)))
  (Split 36 1.0 (Leaf 0.051291954) (Leaf 0.01284329)))) (Split 976 1.0 (Split 659 1.0 (Split 678
  1.0 (Leaf 0.061464936) (Leaf 0.027499711)) (Leaf 0.006372314)) (Leaf 0.0014972158))) (Split 621
  1.0 (Split 300 1.0 (Split 912 1.0 (Split 345 1.0 (Split 766 1.0 (Leaf 0.017561538) (Leaf
  (-0.057361033))) (Leaf (-0.047725968))) (Split 679 1.0 (Split 36 1.0 (Leaf (-0.035486553)) (Leaf
  0.01205312)) (Leaf 0.033966735))) (Split 296 1.0 (Split 738 1.0 (Split 432 1.0 (Leaf 0.040570218)
  (Leaf (-0.02818138))) (Leaf (-0.04785832))) (Split 435 1.0 (Leaf (-0.049910616)) (Leaf
  (-0.014746609))))) (Leaf (-0.06476444)))) (Split 120 1.0 (Split 540 1.0 (Split 822 1.0 (Split 789
  1.0 (Split 435 1.0 (Leaf (-0.0063684187)) (Leaf 0.011181958)) (Leaf (-0.010715699))) (Leaf
  0.014786449)) (Leaf (-0.020101616))) (Leaf 0.0506409))) (Split 543 1.0 (Split 976 1.0 (Split 36
  1.0 (Split 435 1.0 (Leaf (-0.024635036)) (Leaf (-0.004711468))) (Split 540 1.0 (Leaf 0.018042278)
  (Leaf (-0.013136121)))) (Leaf 0.032394174)) (Leaf 0.050705075))) var57_23052) (Split 288 1.0
  (Split 452 1.0 (Split 670 1.0 (Split 300 1.0 (Leaf (-0.0042240866)) (Leaf 0.009518231)) (Leaf
  (-0.027209923))) (Leaf 0.018364625)) (Leaf (-0.050590824)))) (Split 435 1.0 (Split 812 1.0 (Split
  540 1.0 (Split 300 1.0 (Leaf 0.049502276) (Leaf 0.00066057337)) (Leaf (-0.0007282915))) (Leaf
  (-0.014535976))) (Leaf (-0.005476174)))) (Split 300 1.0 (Split 36 1.0 (Split 435 1.0 (Leaf
  (-0.048841786)) (Leaf 0.009202003)) (Leaf 0.015238169)) (Leaf 0.0016205354)).

Definition var58_23286 : tree :=
  Split 872 1.0 (Split 679 1.0 (Split 979 1.0 (Split 540 1.0 (Split 300 1.0 (Leaf (-0.004507944))
  (Leaf 0.016673025)) (Leaf (-0.018406251))) (Leaf 0.02993449)) (Leaf (-0.025917847))) (Leaf
  0.050588).

Definition var58_23324 : tree :=
  Split 670 1.0 (Split 36 1.0 (Split 641 1.0 (Split 300 1.0 (Leaf 0.04910031) (Split 435 1.0 (Leaf
  (-0.0044091637)) (Leaf 0.028466513))) (Leaf (-0.008849139))) (Leaf (-0.0133095635))) (Leaf
  (-0.025988042)).

Definition var58 : tree :=
  Split 968 1.0 (Split 833 1.0 (Split 430 1.0 (Split 386 1.0 (Split 958 1.0 (Split 365 1.0 (Split
  330 1.0 (Split 267 1.0 (Split 819 1.0 (Split 733 1.0 (Split 99 1.0 (Split 438 1.0 (Leaf
  (-0.007831221)) (Leaf 0.046368048)) (Split 479 1.0 (Leaf 0.023914969) (Leaf (-0.046734165))))
  (Split 77 1.0 (Split 300 1.0 (Leaf 0.023438597) (Leaf 0.059530545)) (Leaf (-0.039461315))))
  (Split 697 1.0 (Split 104 1.0 (Split 20 1.0 (Leaf 0.048002407) (Leaf 0.005133686)) (Split 435 1.0
  (Leaf 0.03247662) (Leaf (-0.028403098)))) (Leaf (-0.038935248)))) (Split 517 1.0 (Split 482 1.0
  (Split 357 1.0 (Split 457 1.0 (Leaf 0.0344537) (Leaf (-0.034224004))) (Leaf (-0.03181021))) (Leaf
  (-0.047911182))) (Split 156 1.0 (Split 16 1.0 (Split 435 1.0 (Leaf (-0.05295488)) (Leaf
  (-0.015780395))) (Leaf (-0.0014435386))) (Leaf 0.043894347)))) (Split 479 1.0 (Split 65 1.0
  (Split 662 1.0 (Split 104 1.0 (Split 0 1.0 (Leaf 0.053129893) (Leaf 0.010472677)) (Split 300 1.0
  (Leaf 0.02770598) (Leaf (-0.0014029633)))) (Leaf 0.013067891)) (Leaf 0.0062526874)) (Leaf
  (-0.004538223)))) (Split 120 1.0 (Split 540 1.0 (Split 822 1.0 (Split 789 1.0 (Split 435 1.0
  (Leaf (-0.0061525865)) (Leaf 0.010878229)) (Leaf (-0.010434837))) (Leaf 0.014446705)) (Leaf
  (-0.019698221))) (Leaf 0.050524663))) (Split 543 1.0 (Split 976 1.0 (Split 36 1.0 (Split 435 1.0
  (Leaf (-0.023782557)) (Leaf (-0.0045658643))) (Split 540 1.0 (Leaf 0.01765324) (Leaf
  (-0.012806252)))) (Leaf 0.031623527)) (Leaf 0.05058768))) var58_23286) (Split 288 1.0 (Split 979
  1.0 (Split 452 1.0 (Leaf (-0.019110896)) (Leaf 0.0074029635)) (Leaf 0.015382332)) (Leaf
  (-0.05047548)))) var58_23324) (Split 812 1.0 (Split 540 1.0 (Split 55 1.0 (Split 435 1.0 (Leaf
  (-0.048848066)) (Leaf (-0.008662152))) (Leaf 0.0048701847)) (Leaf (-0.0015222431))) (Leaf
  0.014936191)).

Definition var59 : tree :=
  Split 968 1.0 (Split 833 1.0 (Split 430 1.0 (Split 386 1.0 (Split 958 1.0 (Split 365 1.0 (Split
  986 1.0 (Split 73 1.0 (Split 178 1.0 (Split 345 1.0 (Split 65 1.0 (Split 517 1.0 (Leaf
  0.0051126992) (Leaf (-0.020700848))) (Split 979 1.0 (Leaf (-0.035540204)) (Leaf 0.022296952)))
  (Split 979 1.0 (Split 641 1.0 (Leaf 0.08568633) (Leaf 0.0041968673)) (Leaf (-0.028721372))))
  (Split 819 1.0 (Split 113 1.0 (Split 284 1.0 (Leaf (-0.03852403)) (Leaf 0.023194438)) (Split 540
  1.0 (Leaf (-0.012085098)) (Leaf 0.029890988))) (Leaf 0.023866344))) (Split 655 1.0 (Split 141 1.0
  (Split 776 1.0 (Split 255 1.0 (Leaf (-0.050288927)) (Leaf (-0.009374518))) (Leaf
  (-0.00041679462))) (Leaf 0.006352632)) (Leaf 0.015705604))) (Split 664 1.0 (Split 950 1.0 (Split
  879 1.0 (Split 670 1.0 (Split 244 1.0 (Leaf 0.051080633) (Leaf (-0.00070222793))) (Split 104 1.0
  (Leaf 0.024807198) (Leaf (-0.004375334)))) (Leaf (-0.0060409354))) (Leaf (-0.011735933))) (Leaf
  (-0.028813293)))) (Split 120 1.0 (Split 540 1.0 (Split 822 1.0 (Split 789 1.0 (Split 435 1.0
  (Leaf (-0.005943987)) (Leaf 0.010582758)) (Leaf (-0.010161461))) (Leaf 0.0141152395)) (Leaf
  (-0.019302895))) (Leaf 0.05041034))) (Split 543 1.0 (Split 976 1.0 (Split 607 1.0 (Split 812 1.0
  (Split 300 1.0 (Leaf (-0.010643764)) (Leaf (-0.032451253))) (Leaf 0.0027963307)) (Leaf
  0.0067768083)) (Leaf 0.03087379)) (Leaf 0.05047236))) (Split 872 1.0 (Split 435 1.0 (Split 300
  1.0 (Leaf (-0.019526443)) (Leaf 0.0036244788)) (Leaf 0.016816685)) (Leaf 0.050472703))) (Split
  288 1.0 (Split 435 1.0 (Split 540 1.0 (Leaf 0.022965768) (Split 104 1.0 (Leaf (-0.011434582))
  (Leaf 0.0044962256))) (Leaf (-0.018048322))) (Leaf (-0.05036191)))) (Split 435 1.0 (Split 812 1.0
  (Split 540 1.0 (Split 300 1.0 (Leaf 0.04915703) (Leaf 0.0009357074)) (Leaf (-0.00070405594)))
  (Leaf (-0.014162664))) (Leaf (-0.005739914)))) (Split 812 1.0 (Split 540 1.0 (Split 55 1.0 (Split
  435 1.0 (Leaf (-0.048651304)) (Leaf (-0.008408632))) (Leaf 0.004735241)) (Leaf (-0.0014687545)))
  (Leaf 0.014587677)).

Definition var60_23734 : tree :=
  Split 872 1.0 (Split 679 1.0 (Split 979 1.0 (Split 540 1.0 (Split 300 1.0 (Leaf (-0.004167817))
  (Leaf 0.01565994)) (Leaf (-0.017777104))) (Leaf 0.029532615)) (Leaf (-0.025100594))) (Leaf
  0.05035916).

Definition var60 : tree :=
  Split 968 1.0 (Split 833 1.0 (Split 430 1.0 (Split 386 1.0 (Split 958 1.0 (Split 365 1.0 (Split
  330 1.0 (Split 267 1.0 (Split 479 1.0 (Split 55 1.0 (Split 99 1.0 (Split 709 1.0 (Leaf
  (-0.005428202)) (Leaf 0.047263667)) (Split 944 1.0 (Leaf 0.02561419) (Leaf (-0.045211107))))
  (Split 596 1.0 (Split 789 1.0 (Leaf 0.03739149) (Leaf (-0.0042297137))) (Leaf (-0.072881594))))
  (Split 950 1.0 (Split 682 1.0 (Split 14 1.0 (Leaf (-0.047119737)) (Leaf (-0.009974454))) (Leaf
  (-0.0077258185))) (Leaf 0.004858037))) (Split 517 1.0 (Split 482 1.0 (Split 630 1.0 (Split 678
  1.0 (Leaf 0.036276024) (Leaf 0.00876941)) (Leaf (-0.038447987))) (Leaf (-0.04697954))) (Split 156
  1.0 (Split 16 1.0 (Split 435 1.0 (Leaf (-0.051790744)) (Leaf (-0.014926913))) (Leaf
  (-0.000775816))) (Leaf 0.0430603)))) (Split 479 1.0 (Split 529 1.0 (Split 209 1.0 (Split 138 1.0
  (Split 104 1.0 (Leaf 0.05113588) (Leaf 0.02072035)) (Leaf 0.011680316)) (Leaf 0.009263742)) (Leaf
  0.0066463733)) (Leaf (-0.0045531676)))) (Split 120 1.0 (Split 540 1.0 (Split 822 1.0 (Split 789
  1.0 (Split 435 1.0 (Leaf (-0.0057423916)) (Leaf 0.010295315)) (Leaf (-0.009895361))) (Leaf
  0.013791825)) (Leaf (-0.018915478))) (Leaf 0.05029763))) (Split 543 1.0 (Split 976 1.0 (Split 36
  1.0 (Split 435 1.0 (Leaf (-0.022614736)) (Leaf (-0.0041887867))) (Split 540 1.0 (Leaf
  0.017352453) (Leaf (-0.012078227)))) (Leaf 0.030144198)) (Leaf 0.050358802))) var60_23734) (Split
  288 1.0 (Split 979 1.0 (Split 452 1.0 (Leaf (-0.01875736)) (Leaf 0.0072282515)) (Leaf
  0.015159937)) (Leaf (-0.050249826)))) (Split 435 1.0 (Split 812 1.0 (Split 540 1.0 (Split 300 1.0
  (Leaf 0.048979294) (Leaf 0.0009063093)) (Leaf (-0.00068371283))) (Leaf (-0.013758625))) (Leaf
  (-0.0055190157)))) (Split 300 1.0 (Split 36 1.0 (Split 435 1.0 (Leaf (-0.048216596)) (Leaf
  0.00925644)) (Leaf 0.015056518)) (Leaf 0.0026704073)).

Definition var61_23976 : tree :=
  Split 872 1.0 (Split 679 1.0 (Split 670 1.0 (Split 517 1.0 (Split 435 1.0 (Split 300 1.0 (Leaf
  (-0.012332923)) (Leaf 0.017433006)) (Leaf 0.046940617)) (Leaf (-0.010785887))) (Leaf
  (-0.017384069))) (Leaf (-0.024424773))) (Leaf 0.05024711).

Definition var61 : tree :=
  Split 968 1.0 (Split 833 1.0 (Split 430 1.0 (Split 386 1.0 (Split 958 1.0 (Split 365 1.0 (Split
  819 1.0 (Split 733 1.0 (Split 286 1.0 (Split 751 1.0 (Split 438 1.0 (Split 479 1.0 (Leaf
  (-0.0035578161)) (Leaf (-0.045018233))) (Split 540 2.0 (Leaf 0.047848113) (Leaf (-0.020175336))))
  (Split 36 1.0 (Split 789 1.0 (Leaf 0.0663312) (Leaf 0.004358723)) (Split 540 1.0 (Leaf
  (-0.0034636222)) (Leaf (-0.028781513))))) (Split 912 1.0 (Split 678 1.0 (Split 277 1.0 (Leaf
  0.06954455) (Leaf 0.0053365584)) (Leaf 0.017910859)) (Leaf (-0.022356542)))) (Split 104 1.0
  (Split 300 1.0 (Split 670 1.0 (Split 435 1.0 (Leaf 0.025462164) (Leaf 0.060124245)) (Leaf
  (-0.011294252))) (Split 678 1.0 (Split 284 1.0 (Leaf 0.07046614) (Leaf 0.022571044)) (Split 16
  1.0 (Leaf 0.03504746) (Leaf 0.007522821)))) (Split 435 1.0 (Split 540 1.0 (Leaf (-0.0063151047))
  (Leaf (-0.021007039))) (Leaf 0.012884006)))) (Split 697 1.0 (Split 104 1.0 (Split 682 1.0 (Split
  20 1.0 (Split 156 2.0 (Leaf 0.052582245) (Leaf 0.0068021812)) (Leaf 0.0076193847)) (Leaf
  0.010872784)) (Split 435 1.0 (Split 641 1.0 (Split 800 1.0 (Leaf 0.04772951) (Leaf 0.00645284))
  (Leaf (-0.007789007))) (Split 540 1.0 (Leaf (-0.005734395)) (Leaf (-0.028631648))))) (Leaf
  (-0.038050275)))) (Split 120 1.0 (Split 822 1.0 (Split 300 1.0 (Leaf (-0.009160556)) (Leaf
  0.00054695347)) (Leaf 0.008723699)) (Leaf 0.050186247))) (Split 543 1.0 (Split 976 1.0 (Split 36
  1.0 (Split 435 1.0 (Leaf (-0.021831831)) (Leaf (-0.004059151))) (Split 540 1.0 (Leaf 0.016979001)
  (Leaf (-0.011775411)))) (Leaf 0.029434044)) (Leaf 0.050246734))) var61_23976) (Split 288 1.0
  (Split 670 1.0 (Split 435 1.0 (Split 540 1.0 (Leaf 0.017111635) (Leaf 0.005332924)) (Leaf
  (-0.0047231596))) (Leaf (-0.019104451))) (Leaf (-0.05013895)))) (Split 435 1.0 (Split 812 1.0
  (Split 540 1.0 (Split 300 1.0 (Leaf 0.048800122) (Leaf 0.0008778362)) (Leaf (-0.0006639552)))
  (Leaf (-0.013366702))) (Leaf (-0.0053066793)))) (Split 812 1.0 (Split 540 1.0 (Split 55 1.0
  (Split 435 1.0 (Leaf (-0.04825848)) (Leaf (-0.008379157))) (Leaf 0.0053161336)) (Leaf
  (-0.0011791422))) (Leaf 0.015158593)).

Definition var62_24228 : tree :=
  Split 670 1.0 (Split 36 1.0 (Split 641 1.0 (Split 300 1.0 (Leaf 0.048354223) (Split 435 1.0 (Leaf
  (-0.0039345645)) (Leaf 0.028161813))) (Leaf (-0.008003442))) (Leaf (-0.013545009))) (Leaf
  (-0.02596238)).

Definition var62 : tree :=
  Split 968 1.0 (Split 833 1.0 (Split 430 1.0 (Split 386 1.0 (Split 958 1.0 (Split 365 1.0 (Split
  986 1.0 (Split 73 1.0 (Split 53 1.0 (Split 438 1.0 (Split 751 1.0 (Split 99 1.0 (Leaf
  (-0.0042866226)) (Leaf 0.021887146)) (Split 36 1.0 (Leaf 0.058424015) (Leaf (-0.021094784))))
  (Split 540 2.0 (Split 255 1.0 (Leaf 0.05333833) (Leaf (-0.0032503915))) (Leaf (-0.016208863))))
  (Split 77 1.0 (Split 345 1.0 (Split 532 1.0 (Leaf 0.042329665) (Leaf (-0.014032428))) (Leaf
  (-0.024108065))) (Leaf (-0.044984113)))) (Split 655 1.0 (Split 141 1.0 (Split 776 1.0 (Split 255
  1.0 (Leaf (-0.04921366)) (Leaf (-0.008845165))) (Leaf (-0.00014720463))) (Leaf 0.0062339595))
  (Leaf 0.014787502))) (Split 664 1.0 (Split 950 1.0 (Split 879 1.0 (Split 148 1.0 (Split 244 1.0
  (Leaf 0.0484724) (Leaf 0.0010758095)) (Leaf (-0.0007574535))) (Leaf (-0.0058535296))) (Leaf
  (-0.011582094))) (Leaf (-0.02785234)))) (Split 120 1.0 (Split 822 1.0 (Split 300 1.0 (Leaf
  (-0.008806758)) (Leaf 0.00052976835)) (Leaf 0.008498122)) (Leaf 0.050075915))) (Split 543 1.0
  (Split 976 1.0 (Split 607 1.0 (Split 812 1.0 (Split 300 1.0 (Leaf (-0.009239073)) (Leaf
  (-0.030905906))) (Leaf 0.003066724)) (Leaf 0.0068220324)) (Leaf 0.028742656)) (Leaf 0.05013587)))
  (Split 872 1.0 (Split 679 1.0 (Split 979 1.0 (Split 540 1.0 (Split 300 1.0 (Leaf (-0.003910284))
  (Leaf 0.014651894)) (Leaf (-0.01730575))) (Leaf 0.02902644)) (Leaf (-0.02376653))) (Leaf
  0.050136264))) (Split 288 1.0 (Split 979 1.0 (Split 452 1.0 (Leaf (-0.018366477)) (Leaf
  0.006965832)) (Leaf 0.015011421)) (Leaf (-0.05002901)))) var62_24228) (Split 300 1.0 (Split 36
  1.0 (Split 435 1.0 (Leaf (-0.047764894)) (Leaf 0.009149683)) (Leaf 0.014714727)) (Leaf
  0.0031059994)).

Definition var63_24416 : tree :=
  Split 872 1.0 (Split 679 1.0 (Split 670 1.0 (Split 517 1.0 (Split 435 1.0 (Split 300 1.0 (Leaf
  (-0.01208398)) (Leaf 0.01675388)) (Leaf 0.045656286)) (Leaf (-0.010433025))) (Leaf
  (-0.017068362))) (Leaf (-0.023125462))) (Leaf 0.050026346).

Definition var63 : tree :=
  Split 968 1.0 (Split 833 1.0 (Split 430 1.0 (Split 386 1.0 (Split 958 1.0 (Split 365 1.0 (Split
  979 1.0 (Split 575 1.0 (Split 780 1.0 (Split 709 1.0 (Split 799 1.0 (Split 55 1.0 (Leaf
  (-0.010590141)) (Leaf 0.026125124)) (Split 73 1.0 (Leaf 0.023581706) (Leaf (-0.06083997))))
  (Split 976 1.0 (Split 659 1.0 (Leaf 0.054543205) (Leaf 0.0047648144)) (Leaf 0.0002756749)))
  (Split 8 1.0 (Split 65 1.0 (Split 532 1.0 (Leaf 0.023580398) (Leaf (-0.031974334))) (Leaf
  (-0.028761921))) (Split 36 1.0 (Leaf 0.05082866) (Leaf 0.012753573)))) (Split 659 1.0 (Split 950
  1.0 (Split 540 2.0 (Leaf 0.06805412) (Leaf 0.018618507)) (Leaf 0.008519473)) (Leaf
  (-0.0065728477)))) (Split 621 1.0 (Split 300 1.0 (Split 659 1.0 (Split 345 1.0 (Split 540 1.0
  (Leaf 0.015168212) (Leaf (-0.0077015604))) (Leaf (-0.051545568))) (Split 540 2.0 (Split 607 1.0
  (Leaf 0.045551818) (Leaf 0.011939189)) (Leaf (-0.024071794)))) (Split 296 1.0 (Split 738 1.0
  (Split 432 1.0 (Leaf 0.039517224) (Leaf (-0.02777713))) (Leaf (-0.045751087))) (Split 435 1.0
  (Leaf (-0.047587097)) (Leaf (-0.014188389))))) (Leaf (-0.06260103)))) (Split 120 1.0 (Split 822
  1.0 (Split 300 1.0 (Leaf (-0.008466358)) (Leaf 0.00051311817)) (Leaf 0.008278406)) (Leaf
  0.04996636))) (Split 543 1.0 (Split 976 1.0 (Split 36 1.0 (Split 435 1.0 (Leaf (-0.020768503))
  (Leaf (-0.0037231406))) (Leaf 0.0030405736)) (Leaf 0.028069397)) (Leaf 0.05002592))) var63_24416)
  (Split 288 1.0 (Split 670 1.0 (Split 435 1.0 (Split 540 1.0 (Leaf 0.017016303) (Leaf
  0.0051626572)) (Leaf (-0.0045791357))) (Leaf (-0.018792609))) (Leaf (-0.049919736)))) (Split 435
  1.0 (Split 812 1.0 (Split 540 1.0 (Split 300 1.0 (Leaf 0.048443556) (Leaf 0.0011384349)) (Leaf
  (-0.0006420143))) (Leaf (-0.013041622))) (Leaf (-0.0055725593)))) (Split 812 1.0 (Split 540 1.0
  (Split 55 1.0 (Split 435 1.0 (Leaf (-0.047854956)) (Leaf (-0.008352941))) (Leaf 0.0058641457))
  (Leaf (-0.00090649066))) (Leaf 0.015712049)).

Definition var64 : tree :=
  Split 968 1.0 (Split 833 1.0 (Split 430 1.0 (Split 386 1.0 (Split 958 1.0 (Split 365 1.0 (Split
  330 1.0 (Split 178 1.0 (Split 345 1.0 (Split 53 1.0 (Split 979 1.0 (Split 575 1.0 (Leaf
  (-0.0050213668)) (Leaf 0.056015432)) (Split 540 1.0 (Leaf 0.02118908) (Leaf (-0.0026371265))))
  (Split 77 1.0 (Split 532 1.0 (Leaf 0.040738598) (Leaf (-0.013817956))) (Leaf (-0.036020227))))
  (Split 979 1.0 (Split 641 1.0 (Split 679 1.0 (Leaf 0.0860771) (Leaf 0.02169489)) (Leaf
  (-0.005825899))) (Leaf (-0.02826256)))) (Split 819 1.0 (Split 113 1.0 (Split 284 1.0 (Split 104
  2.0 (Leaf (-0.0402291)) (Leaf 0.020342547)) (Leaf 0.022122081)) (Split 540 1.0 (Leaf
  (-0.011404448)) (Leaf 0.029437954))) (Leaf 0.015596995))) (Split 479 1.0 (Split 529 1.0 (Split
  209 1.0 (Split 1019 1.0 (Split 104 1.0 (Leaf 0.050277174) (Leaf 0.016673544)) (Leaf 0.010715065))
  (Leaf 0.008797888)) (Leaf 0.006132992)) (Leaf (-0.0034124746)))) (Split 120 1.0 (Split 822 1.0
  (Split 300 1.0 (Leaf (-0.008138863)) (Leaf 0.0004969946)) (Leaf 0.008064402)) (Leaf 0.04985733)))
  (Split 543 1.0 (Split 976 1.0 (Split 607 1.0 (Split 812 1.0 (Split 300 1.0 (Leaf (-0.008396052))
  (Leaf (-0.029831007))) (Leaf 0.003128896)) (Leaf 0.0067814128)) (Leaf 0.027413672)) (Leaf
  0.049916636))) (Split 872 1.0 (Split 679 1.0 (Split 979 1.0 (Split 540 1.0 (Split 300 1.0 (Leaf
  (-0.003662049)) (Leaf 0.013695906)) (Leaf (-0.016847141))) (Leaf 0.028543053)) (Leaf
  (-0.02250118))) (Leaf 0.049917072))) (Split 288 1.0 (Split 979 1.0 (Split 540 1.0 (Leaf
  (-0.0016917413)) (Leaf (-0.018105624))) (Leaf 0.014864393)) (Leaf (-0.04981087)))) (Split 435 1.0
  (Split 812 1.0 (Split 540 1.0 (Split 300 1.0 (Leaf 0.048257705) (Leaf 0.001102703)) (Leaf
  (-0.00062352035))) (Leaf (-0.012671328))) (Leaf (-0.0053584627)))) (Split 812 1.0 (Split 540 1.0
  (Split 55 1.0 (Split 435 1.0 (Leaf (-0.04764423)) (Leaf (-0.008108402))) (Leaf 0.0057023386))
  (Leaf (-0.0008745923))) (Leaf 0.015344101)).

Definition var65_24906 : tree :=
  Split 670 1.0 (Split 976 1.0 (Split 641 1.0 (Split 435 1.0 (Split 300 1.0 (Leaf 0.048084807)
  (Leaf 0.019561738)) (Leaf 0.0029147372)) (Leaf (-0.0074015423))) (Leaf (-0.021093529))) (Leaf
  (-0.025750747)).

Definition var65 : tree :=
  Split 968 1.0 (Split 833 1.0 (Split 430 1.0 (Split 386 1.0 (Split 958 1.0 (Split 365 1.0 (Split
  819 1.0 (Split 733 1.0 (Split 286 1.0 (Split 751 1.0 (Split 438 1.0 (Split 479 1.0 (Leaf
  (-0.0034103692)) (Leaf (-0.04397959))) (Split 432 1.0 (Leaf 0.04374063) (Leaf (-0.028328096))))
  (Split 36 1.0 (Split 789 1.0 (Leaf 0.061163653) (Leaf 0.0024321561)) (Split 300 1.0 (Leaf
  (-0.017447239)) (Leaf (-0.0030672045))))) (Split 452 2.0 (Split 617 1.0 (Split 277 1.0 (Leaf
  0.062069196) (Leaf 0.0052003306)) (Leaf 0.00887209)) (Leaf 0.0018687182))) (Split 104 1.0 (Split
  300 1.0 (Split 670 1.0 (Split 435 1.0 (Leaf 0.02407213) (Leaf 0.058790576)) (Leaf (-0.01151302)))
  (Split 93 1.0 (Split 678 1.0 (Leaf 0.06994279) (Leaf 0.025949627)) (Leaf 0.01654953))) (Split 435
  1.0 (Split 812 1.0 (Leaf (-0.0071834372)) (Leaf (-0.02177384))) (Leaf 0.012347267)))) (Split 60
  1.0 (Split 104 1.0 (Split 517 1.0 (Split 20 1.0 (Split 472 1.0 (Leaf 0.049799394) (Leaf
  0.0012093688)) (Leaf 0.0068182643)) (Leaf 0.009334349)) (Split 435 1.0 (Split 641 1.0 (Leaf
  0.03853404) (Leaf (-0.00687214))) (Split 540 1.0 (Leaf (-0.0021278344)) (Leaf (-0.0276743)))))
  (Leaf (-0.03906702)))) (Split 120 1.0 (Split 822 1.0 (Split 300 1.0 (Split 435 1.0 (Leaf
  (-0.008936807)) (Leaf (-0.0028310127))) (Leaf 0.00048137858)) (Leaf 0.0078559555)) (Leaf
  0.04974855))) (Split 543 1.0 (Split 976 1.0 (Split 36 1.0 (Split 435 1.0 (Leaf (-0.019763429))
  (Leaf (-0.0034115375))) (Leaf 0.0032412552)) (Leaf 0.026774907)) (Leaf 0.049807753))) (Split 872
  1.0 (Split 300 1.0 (Split 435 1.0 (Leaf (-0.017389206)) (Leaf 0.0043403837)) (Split 678 1.0 (Leaf
  0.02006635) (Leaf (-0.0019874747)))) (Leaf 0.049808208))) (Split 288 1.0 (Split 435 1.0 (Split
  540 1.0 (Leaf 0.022270966) (Leaf (-0.0046756505))) (Leaf (-0.017414115))) (Leaf (-0.04970215))))
  var65_24906) (Split 300 1.0 (Split 36 1.0 (Split 435 1.0 (Leaf (-0.04708633)) (Leaf 0.009179919))
  (Leaf 0.014500171)) (Leaf 0.0040079467)).

Definition var66 : tree :=
  Split 968 1.0 (Split 833 1.0 (Split 430 1.0 (Split 386 1.0 (Split 958 1.0 (Split 365 1.0 (Split
  986 1.0 (Split 73 1.0 (Split 43 1.0 (Split 286 1.0 (Split 980 1.0 (Split 65 1.0 (Leaf
  0.0031219851) (Leaf (-0.027017206))) (Split 141 1.0 (Leaf (-0.041421663)) (Leaf 0.03235306)))
  (Split 678 1.0 (Split 682 1.0 (Leaf 0.062094983) (Leaf 0.007030303)) (Leaf 0.01666253))) (Split
  64 1.0 (Split 822 1.0 (Split 452 2.0 (Leaf (-0.06011055)) (Leaf (-0.014335103))) (Leaf
  (-0.008863911))) (Leaf 0.019617198))) (Split 655 1.0 (Split 855 1.0 (Split 141 1.0 (Split 303 1.0
  (Leaf (-0.046856087)) (Leaf (-0.005293822))) (Leaf (-0.007067594))) (Leaf 0.006313062)) (Leaf
  0.014481509))) (Split 664 1.0 (Split 950 1.0 (Split 879 1.0 (Split 670 1.0 (Split 244 1.0 (Leaf
  0.048834648) (Leaf (-0.0008570145))) (Split 104 1.0 (Leaf 0.023037033) (Leaf (-0.0049289013))))
  (Leaf (-0.0059710005))) (Leaf (-0.011574479))) (Leaf (-0.026672656)))) (Split 120 1.0 (Split 822
  1.0 (Split 300 1.0 (Split 435 1.0 (Leaf (-0.00863187)) (Leaf (-0.0027490433))) (Leaf
  0.000466249)) (Leaf 0.0076529207)) (Leaf 0.049639788))) (Split 543 1.0 (Split 976 1.0 (Split 36
  1.0 (Split 435 1.0 (Leaf (-0.019077549)) (Leaf (-0.0033056762))) (Leaf 0.0031312897)) (Leaf
  0.026152555)) (Leaf 0.049698997))) (Split 872 1.0 (Split 679 1.0 (Split 979 1.0 (Split 540 1.0
  (Split 300 1.0 (Leaf (-0.0032547924)) (Leaf 0.012930478)) (Leaf (-0.01645144))) (Leaf
  0.028155092)) (Leaf (-0.021667652))) (Leaf 0.04969948))) (Split 288 1.0 (Split 670 1.0 (Split 435
  1.0 (Leaf 0.01353577) (Leaf (-0.0041126763))) (Leaf (-0.018376606))) (Leaf (-0.049593337))))
  (Split 435 1.0 (Split 812 1.0 (Split 540 1.0 (Split 300 1.0 (Leaf 0.0478837) (Leaf 0.0008036783))
  (Leaf (-0.00066650537))) (Leaf (-0.012254211))) (Leaf (-0.0050508576)))) (Split 812 1.0 (Split
  540 1.0 (Split 55 1.0 (Split 435 1.0 (Leaf (-0.047218863)) (Leaf (-0.008100138))) (Leaf
  0.0062161637)) (Leaf (-0.0006275437))) (Leaf 0.01588171)).

Definition var67_25336 : tree :=
  Split 819 1.0 (Split 113 1.0 (Split 284 1.0 (Split 104 2.0 (Split 99 1.0 (Split 655 1.0 (Split
  267 1.0 (Split 1018 1.0 (Leaf (-0.047824793)) (Leaf (-0.0063687894))) (Split 452 1.0 (Leaf
  0.017852394) (Leaf (-0.025398767)))) (Leaf 0.009270215)) (Split 679 1.0 (Split 435 1.0 (Leaf
  0.025877489) (Leaf (-0.014948552))) (Leaf (-0.029996583)))) (Leaf 0.019778842)) (Leaf
  0.021445973)) (Split 540 1.0 (Leaf (-0.010937167)) (Leaf 0.028429916))) (Leaf 0.014414971).

Definition var67 : tree :=
  Split 968 1.0 (Split 833 1.0 (Split 430 1.0 (Split 178 1.0 (Split 517 1.0 (Split 73 1.0 (Split
  479 1.0 (Split 65 1.0 (Split 43 1.0 (Split 776 1.0 (Split 630 1.0 (Split 980 1.0 (Leaf
  0.017076423) (Leaf (-0.030904291))) (Split 641 1.0 (Leaf (-0.049870867)) (Leaf 0.0334292)))
  (Split 655 1.0 (Split 741 1.0 (Leaf (-0.029498756)) (Leaf 0.044822212)) (Leaf 0.062884875)))
  (Split 822 1.0 (Split 452 2.0 (Split 607 1.0 (Leaf (-0.061609983)) (Leaf (-0.01738773))) (Leaf
  (-0.013946955))) (Leaf 0.0057241255))) (Split 93 1.0 (Split 979 1.0 (Split 518 1.0 (Split 759 1.0
  (Leaf (-0.038914837)) (Leaf 0.023278223)) (Leaf 0.028654745)) (Split 540 1.0 (Leaf 0.043583926)
  (Leaf (-0.020364178)))) (Leaf 0.053395208))) (Split 937 1.0 (Split 659 1.0 (Split 14 1.0 (Split
  682 1.0 (Split 522 1.0 (Leaf (-0.04496364)) (Leaf (-0.0063058706))) (Leaf (-0.0048924596))) (Leaf
  (-0.0065551894))) (Leaf 0.0005818846)) (Split 36 1.0 (Leaf (-0.00542643)) (Leaf 0.012850337))))
  (Split 255 1.0 (Split 141 1.0 (Split 653 1.0 (Split 979 1.0 (Split 679 1.0 (Split 877 1.0 (Leaf
  (-0.051400017)) (Leaf (-0.006180529))) (Leaf (-0.007054998))) (Leaf 0.0056179333)) (Leaf
  0.0077422573)) (Leaf 0.0070869187)) (Leaf 0.011975112))) (Split 870 1.0 (Split 392 1.0 (Split 814
  1.0 (Split 617 1.0 (Split 42 1.0 (Split 148 1.0 (Split 653 1.0 (Leaf (-0.03625309)) (Leaf
  0.00923824)) (Leaf 0.02099326)) (Leaf 0.029364392)) (Split 435 1.0 (Split 36 1.0 (Leaf
  (-0.029153794)) (Leaf (-0.0065188534))) (Leaf 0.078522384))) (Leaf 0.06095012)) (Split 452 1.0
  (Split 435 1.0 (Leaf (-0.0054583643)) (Leaf 0.02200259)) (Leaf 0.065323316))) (Split 670 1.0
  (Split 36 1.0 (Leaf 0.026631445) (Leaf 0.0063884156)) (Leaf 0.06541365)))) var67_25336) (Split
  288 1.0 (Split 979 1.0 (Split 540 1.0 (Leaf (-0.0021295743)) (Leaf (-0.017657965))) (Leaf
  0.014838554)) (Leaf (-0.04948419)))) (Split 36 1.0 (Split 452 1.0 (Split 435 1.0 (Split 300 1.0
  (Leaf 0.04740457) (Leaf 0.00083787687)) (Leaf 0.0083268965)) (Leaf (-0.012705165))) (Leaf
  (-0.017765438)))) (Split 812 1.0 (Split 540 1.0 (Split 55 1.0 (Split 435 1.0 (Leaf (-0.04699528))
  (Leaf (-0.007862943))) (Leaf 0.006045103)) (Leaf (-0.0006054483))) (Leaf 0.015509575)).

Definition var68_25636 : tree :=
  Split 670 1.0 (Split 976 1.0 (Split 641 1.0 (Split 435 1.0 (Split 300 1.0 (Leaf 0.04750436) (Leaf
  0.01929654)) (Leaf 0.0029726864)) (Leaf (-0.0070813964))) (Leaf (-0.020836398))) (Leaf
  (-0.025544131)).

Definition var68_25590 : tree :=
  Split 872 1.0 (Split 679 1.0 (Split 670 1.0 (Split 517 1.0 (Split 435 1.0 (Split 300 1.0 (Leaf
  (-0.011414073)) (Leaf 0.015638871)) (Leaf 0.044300925)) (Leaf (-0.009583999))) (Leaf
  (-0.016901761))) (Leaf (-0.021448484))) (Leaf 0.049553152).

Definition var68 : tree :=
  Split 968 1.0 (Split 833 1.0 (Split 430 1.0 (Split 386 1.0 (Split 958 1.0 (Split 365 1.0 (Split
  330 1.0 (Split 267 1.0 (Split 1002 1.0 (Split 709 1.0 (Split 819 1.0 (Split 678 1.0 (Leaf
  (-0.0025117148)) (Leaf (-0.02185429))) (Split 60 1.0 (Leaf 0.035299025) (Leaf (-0.04175921))))
  (Split 104 1.0 (Split 435 1.0 (Leaf 0.05805356) (Leaf 0.021064399)) (Leaf (-0.0017808628))))
  (Split 532 1.0 (Split 950 1.0 (Split 494 1.0 (Leaf 0.04871169) (Leaf (-0.0042589135))) (Leaf
  (-0.017646154))) (Leaf (-0.033894937)))) (Split 517 1.0 (Split 482 1.0 (Split 357 1.0 (Split 457
  1.0 (Leaf 0.031037575) (Leaf (-0.03362549))) (Leaf (-0.032535788))) (Leaf (-0.0460249))) (Split
  156 1.0 (Split 16 1.0 (Split 435 1.0 (Leaf (-0.050334554)) (Leaf (-0.014010015))) (Leaf
  (-0.00035768183))) (Leaf 0.04139202)))) (Split 479 1.0 (Split 662 1.0 (Split 104 1.0 (Split 138
  1.0 (Split 0 1.0 (Leaf 0.050844576) (Leaf 0.011113885)) (Leaf 0.007979635)) (Split 435 1.0 (Leaf
  0.026574736) (Leaf (-0.008644427)))) (Leaf 0.010449293)) (Leaf (-0.0018138171)))) (Split 120 1.0
  (Split 822 1.0 (Split 789 1.0 (Split 435 1.0 (Leaf (-0.007915163)) (Leaf 0.00887099)) (Leaf
  (-0.010678129))) (Leaf 0.007013908)) (Leaf 0.04949312))) (Split 543 1.0 (Split 976 1.0 (Split 607
  1.0 (Split 540 1.0 (Split 435 1.0 (Leaf (-0.0070876377)) (Leaf 0.0022187915)) (Leaf
  (-0.023377832))) (Leaf 0.0066688205)) (Leaf 0.02515087)) (Leaf 0.04955263))) var68_25590) (Split
  288 1.0 (Split 452 1.0 (Split 670 1.0 (Split 300 1.0 (Leaf (-0.0039165877)) (Leaf 0.009371081))
  (Leaf (-0.02602736))) (Leaf 0.017525751)) (Leaf (-0.049374454)))) var68_25636) (Split 300 1.0
  (Split 36 1.0 (Split 435 1.0 (Leaf (-0.046363093)) (Leaf 0.009193978)) (Leaf 0.01426626)) (Leaf
  0.0048206937)).

Definition var69_25828 : tree :=
  Split 872 1.0 (Split 679 1.0 (Split 670 1.0 (Split 517 1.0 (Split 435 1.0 (Split 300 1.0 (Leaf
  (-0.011084946)) (Leaf 0.01525203)) (Leaf 0.04323638)) (Leaf (-0.009360127))) (Leaf
  (-0.01648301))) (Leaf (-0.020869441))) (Leaf 0.04944381).

Definition var69 : tree :=
  Split 968 1.0 (Split 833 1.0 (Split 430 1.0 (Split 386 1.0 (Split 958 1.0 (Split 365 1.0 (Split
  986 1.0 (Split 819 1.0 (Split 733 1.0 (Split 286 1.0 (Split 709 1.0 (Split 751 1.0 (Leaf
  (-0.0054571754)) (Leaf 0.039296914)) (Split 104 1.0 (Leaf 0.049368907) (Leaf 0.0010174637)))
  (Split 617 1.0 (Split 277 1.0 (Leaf 0.052549373) (Leaf 0.0042753182)) (Leaf 0.0065673958)))
  (Split 104 1.0 (Split 300 1.0 (Split 670 1.0 (Leaf 0.03085849) (Leaf (-0.01410899))) (Split 678
  1.0 (Leaf 0.06518868) (Leaf 0.024839133))) (Split 435 1.0 (Split 812 1.0 (Leaf (-0.0070631253))
  (Leaf (-0.02129442))) (Leaf 0.011062774)))) (Split 697 1.0 (Split 104 1.0 (Split 682 1.0 (Split
  20 1.0 (Leaf 0.046339523) (Leaf 0.0019220632)) (Leaf 0.001467294)) (Split 435 1.0 (Split 641 1.0
  (Leaf 0.0358009) (Leaf (-0.006741417))) (Split 540 1.0 (Leaf (-0.0055431067)) (Leaf
  (-0.029455036))))) (Leaf (-0.035785053)))) (Split 664 1.0 (Split 950 1.0 (Split 879 1.0 (Split
  574 1.0 (Split 435 1.0 (Leaf 0.050419) (Leaf 0.025456136)) (Leaf (-0.0012838417))) (Leaf
  (-0.005638461))) (Leaf (-0.011038641))) (Leaf (-0.026259262)))) (Split 120 1.0 (Split 822 1.0
  (Split 789 1.0 (Split 435 1.0 (Leaf (-0.0076335794)) (Leaf 0.0086199185)) (Leaf (-0.01039617)))
  (Leaf 0.006832698)) (Leaf 0.049383413))) (Split 543 1.0 (Split 976 1.0 (Split 36 1.0 (Split 435
  1.0 (Leaf (-0.018361283)) (Leaf (-0.0032000411))) (Leaf 0.0033052147)) (Leaf 0.024569822)) (Leaf
  0.049443256))) var69_25828) (Split 288 1.0 (Split 979 1.0 (Split 540 1.0 (Leaf (-0.002170566))
  (Leaf (-0.017301558))) (Leaf 0.014578323)) (Leaf (-0.049263902)))) (Split 36 1.0 (Split 452 1.0
  (Split 435 1.0 (Split 300 1.0 (Leaf 0.046965707) (Leaf 0.00068991096)) (Leaf 0.008152592)) (Leaf
  (-0.012214928))) (Leaf (-0.01734434)))) (Split 812 1.0 (Split 540 1.0 (Split 55 1.0 (Split 435
  1.0 (Leaf (-0.046541657)) (Leaf (-0.007870534))) (Leaf 0.006526089)) (Leaf (-0.0003824156)))
  (Leaf 0.01603126)).

Definition var70_26103 : tree :=
  Split 113 1.0 (Split 156 1.0 (Split 617 1.0 (Split 670 1.0 (Split 540 1.0 (Leaf 0.0663939) (Leaf
  0.010359035)) (Leaf 0.0023491215)) (Leaf (-0.008196181))) (Leaf (-0.027494548))) (Leaf
  0.08346274).

Definition var70_26220 : tree :=
  Split 670 1.0 (Split 976 1.0 (Split 641 1.0 (Split 435 1.0 (Split 300 1.0 (Leaf 0.047093626)
  (Leaf 0.01894524)) (Leaf 0.0028538967)) (Leaf (-0.0069558355))) (Leaf (-0.020441506))) (Leaf
  (-0.02516658)).

Definition var70_26126 : tree :=
  Split 407 1.0 (Split 979 1.0 (Split 156 1.0 (Split 452 2.0 (Split 300 2.0 (Split 36 1.0 (Leaf
  (-0.008394789)) (Leaf 0.03303438)) (Leaf 0.061033197)) (Leaf (-0.030615881))) (Leaf
  (-0.02950393))) (Leaf 0.04416212)) (Leaf 0.0758243).

Definition var70_26154 : tree :=
  Split 113 1.0 (Split 284 1.0 (Split 819 1.0 (Split 104 2.0 (Split 99 1.0 (Split 979 1.0 (Split
  655 1.0 (Split 14 1.0 (Leaf (-0.047058504)) (Leaf (-0.0012137167))) (Leaf 0.002757115)) (Split
  300 1.0 (Leaf (-0.020067532)) (Leaf 0.016369822))) (Split 679 1.0 (Split 435 1.0 (Leaf
  0.025106383) (Leaf (-0.014147976))) (Leaf (-0.02930905)))) (Leaf 0.019177327)) (Leaf
  0.010697924)) (Leaf 0.02085253)) (Split 540 1.0 (Leaf (-0.010448114)) (Leaf 0.028445903)).

Definition var70 : tree :=
  Split 968 1.0 (Split 833 1.0 (Split 430 1.0 (Split 178 1.0 (Split 104 1.0 (Split 65 1.0 (Split
  517 1.0 (Split 73 1.0 (Split 980 1.0 (Split 776 1.0 (Split 479 1.0 (Split 43 1.0 (Leaf
  0.01759278) (Leaf (-0.046681352))) (Split 950 1.0 (Leaf (-0.03314259)) (Leaf 0.015242281)))
  (Split 655 1.0 (Split 741 1.0 (Leaf (-0.029607821)) (Leaf 0.03800901)) (Leaf 0.050890308)))
  (Split 1018 1.0 (Split 655 1.0 (Split 812 1.0 (Leaf (-0.045549173)) (Leaf 0.006019227)) (Leaf
  0.019896045)) (Leaf 0.033087064))) (Split 452 1.0 (Split 985 1.0 (Split 679 1.0 (Split 655 1.0
  (Leaf (-0.050697524)) (Leaf (-0.009243441))) (Leaf (-0.008036782))) (Leaf 0.0018234536)) (Split
  36 1.0 (Leaf 0.00721299) (Leaf (-0.028979603))))) (Split 870 1.0 (Split 617 1.0 (Split 814 1.0
  (Split 1018 1.0 (Split 419 1.0 (Leaf (-0.029482568)) (Leaf 0.038898893)) (Leaf 0.037459195))
  (Leaf 0.050338786)) (Split 435 1.0 (Split 36 1.0 (Leaf (-0.023871299)) (Leaf (-0.0016813874)))
  (Leaf 0.08711632))) (Split 670 1.0 (Split 36 1.0 (Leaf 0.024565792) (Leaf 0.0064313496)) (Leaf
  0.063665845)))) (Split 93 1.0 (Split 733 1.0 (Split 908 1.0 (Split 979 1.0 (Split 679 1.0 (Split
  374 1.0 (Leaf (-0.043393128)) (Leaf 0.005819135)) (Leaf 0.023973977)) (Split 540 1.0 (Leaf
  0.032795873) (Leaf (-0.014992738)))) (Leaf 0.02080164)) (Leaf 0.051039916)) (Leaf 0.0570719)))
  (Split 822 1.0 (Split 255 1.0 (Split 329 1.0 (Split 267 1.0 (Split 156 1.0 (Split 86 1.0 (Split
  573 1.0 (Leaf (-0.03404802)) (Leaf 0.03889006)) (Split 540 1.0 (Leaf 0.0442783) (Leaf
  0.0040853205))) (Split 435 1.0 (Split 300 1.0 (Leaf (-0.03251497)) (Leaf 0.0046749)) (Split 36
  1.0 (Leaf 0.028055524) (Leaf 0.007575184)))) (Split 659 1.0 (Split 908 1.0 (Split 36 1.0 (Leaf
  0.01816231) (Leaf (-0.035164546))) (Leaf (-0.039359126))) (Leaf 0.05181616))) (Leaf 0.049131285))
  var70_26103) var70_26126)) var70_26154) (Split 288 1.0 (Split 435 1.0 (Split 540 1.0 (Leaf
  0.021567916) (Leaf (-0.004479084))) (Leaf (-0.017054431))) (Leaf (-0.049152307)))) var70_26220)
  (Split 812 1.0 (Split 540 1.0 (Split 55 1.0 (Split 435 1.0 (Leaf (-0.04630203)) (Leaf
  (-0.00764001))) (Leaf 0.0063470216)) (Leaf (-0.00036894414))) (Leaf 0.015655454)).

Definition var71 : tree :=
  Split 968 1.0 (Split 833 1.0 (Split 430 1.0 (Split 386 1.0 (Split 958 1.0 (Split 365 1.0 (Split
  330 1.0 (Split 630 1.0 (Split 267 1.0 (Split 575 1.0 (Split 1002 1.0 (Split 819 1.0 (Leaf
  (-0.004638701)) (Leaf 0.030571653)) (Split 532 1.0 (Leaf 0.041560035) (Leaf (-0.032773033))))
  (Split 979 1.0 (Split 659 1.0 (Leaf 0.062059354) (Leaf (-0.007716294))) (Leaf (-0.021545328))))
  (Split 517 1.0 (Split 482 1.0 (Split 678 1.0 (Leaf 0.03236818) (Leaf 0.006278424)) (Leaf
  (-0.04531))) (Split 156 1.0 (Split 16 1.0 (Leaf (-0.04270194)) (Leaf 0.0001833659)) (Leaf
  0.040090688)))) (Split 641 1.0 (Split 658 1.0 (Split 617 1.0 (Split 996 1.0 (Leaf (-0.06015223))
  (Leaf (-0.0047037955))) (Leaf (-0.0063771713))) (Leaf 0.010882556)) (Leaf 0.022326432))) (Split
  479 1.0 (Split 662 1.0 (Split 104 1.0 (Split 608 1.0 (Split 0 1.0 (Leaf 0.049857553) (Leaf
  0.011483536)) (Leaf 0.00816137)) (Split 435 1.0 (Leaf 0.026395861) (Leaf (-0.007901447)))) (Leaf
  0.009502263)) (Leaf (-0.0010524606)))) (Split 120 1.0 (Split 16 1.0 (Split 789 1.0 (Split 435 1.0
  (Leaf (-0.001513062)) (Leaf 0.009585563)) (Leaf (-0.0052355784))) (Leaf (-0.010324966))) (Leaf
  0.049233258))) (Split 543 1.0 (Split 976 1.0 (Split 36 1.0 (Split 435 1.0 (Leaf (-0.01777469))
  (Leaf (-0.0034221695))) (Leaf 0.0030802824)) (Leaf 0.023678048)) (Leaf 0.049293816))) (Split 872
  1.0 (Split 300 1.0 (Split 435 1.0 (Leaf (-0.01595017)) (Leaf 0.0032229961)) (Split 678 1.0 (Leaf
  0.01885737) (Leaf (-0.0015837246)))) (Leaf 0.049294394))) (Split 288 1.0 (Split 452 1.0 (Split
  670 1.0 (Split 540 1.0 (Leaf 0.0049757008) (Leaf (-0.0030392825))) (Leaf (-0.025573617))) (Leaf
  0.017253397)) (Leaf (-0.049039435)))) (Split 36 1.0 (Split 452 1.0 (Split 435 1.0 (Split 300 1.0
  (Leaf 0.046504807) (Leaf 0.00055068947)) (Leaf 0.007983958)) (Leaf (-0.011743161))) (Leaf
  (-0.016934847)))) (Split 300 1.0 (Split 36 1.0 (Split 435 1.0 (Leaf (-0.045585956)) (Leaf
  0.009193818)) (Leaf 0.014016231)) (Leaf 0.0055486467)).

Definition var72_26648 : tree :=
  Split 670 1.0 (Split 976 1.0 (Split 641 1.0 (Split 435 1.0 (Split 300 1.0 (Leaf 0.046663128)
  (Leaf 0.018601557)) (Leaf 0.002738412)) (Leaf (-0.006840476))) (Leaf (-0.020056803))) (Leaf
  (-0.024802027)).

Definition var72 : tree :=
  Split 968 1.0 (Split 833 1.0 (Split 430 1.0 (Split 386 1.0 (Split 958 1.0 (Split 365 1.0 (Split
  986 1.0 (Split 53 1.0 (Split 157 1.0 (Split 709 1.0 (Split 979 1.0 (Split 780 1.0 (Leaf
  (-0.007822713)) (Leaf 0.02226361)) (Split 540 1.0 (Leaf 0.017434495) (Leaf (-0.0038208605))))
  (Split 104 1.0 (Split 435 1.0 (Leaf 0.056214284) (Leaf 0.019021984)) (Leaf 0.003345449))) (Split
  45 1.0 (Split 435 1.0 (Leaf 0.06133913) (Split 300 1.0 (Leaf (-0.021677954)) (Leaf 0.039857496)))
  (Leaf (-0.014518193)))) (Split 77 1.0 (Split 345 1.0 (Split 989 1.0 (Split 532 1.0 (Leaf
  0.04021181) (Leaf (-0.013857685))) (Leaf (-0.013112264))) (Leaf (-0.022748755))) (Leaf
  (-0.04334068)))) (Split 664 1.0 (Split 950 1.0 (Split 879 1.0 (Split 148 1.0 (Split 244 1.0 (Leaf
  0.04507727) (Leaf (-0.00046294532))) (Leaf (-0.0029322885))) (Leaf (-0.005289297))) (Leaf
  (-0.010988127))) (Leaf (-0.025736963)))) (Split 120 1.0 (Split 16 1.0 (Split 789 1.0 (Split 435
  1.0 (Leaf (-0.0014567425)) (Leaf 0.009313923)) (Leaf (-0.0051034014))) (Leaf (-0.010057816)))
  (Leaf 0.04912132))) (Split 543 1.0 (Split 976 1.0 (Split 607 1.0 (Split 540 1.0 (Split 435 1.0
  (Leaf (-0.0059983744)) (Leaf 0.0017231416)) (Leaf (-0.022277106))) (Leaf 0.0065664533)) (Leaf
  0.0231337)) (Leaf 0.049182497))) (Split 872 1.0 (Split 679 1.0 (Split 670 1.0 (Split 540 1.0
  (Split 452 1.0 (Leaf 0.03241598) (Leaf (-0.0044671386))) (Leaf (-0.006847857))) (Leaf
  (-0.016000396))) (Leaf (-0.020486861))) (Leaf 0.049183108))) (Split 288 1.0 (Split 979 1.0 (Split
  540 1.0 (Leaf (-0.0026486001)) (Leaf (-0.01674863))) (Leaf 0.0145376)) (Leaf (-0.04892507))))
  var72_26648) (Split 812 1.0 (Split 540 1.0 (Split 55 1.0 (Split 435 1.0 (Leaf (-0.045814153))
  (Leaf (-0.0076615415))) (Leaf 0.0067963228)) (Leaf (-0.00016855834))) (Leaf 0.016160874)).

Definition var73_26845 : tree :=
  Split 113 1.0 (Split 156 1.0 (Split 607 1.0 (Split 36 1.0 (Split 300 1.0 (Leaf 0.039881404) (Leaf
  0.001972836)) (Leaf (-0.02321688))) (Leaf 0.060880043)) (Leaf (-0.026898587))) (Leaf 0.08109481).

Definition var73_26868 : tree :=
  Split 407 1.0 (Split 77 1.0 (Split 800 1.0 (Split 812 1.0 (Split 452 2.0 (Split 156 1.0 (Leaf
  0.04926782) (Leaf 0.00394834)) (Leaf (-0.01549874))) (Leaf (-0.013481192))) (Leaf
  (-0.021670293))) (Leaf (-0.029863108))) (Leaf 0.07260619).

Definition var73_26896 : tree :=
  Split 113 1.0 (Split 284 1.0 (Split 819 1.0 (Split 104 2.0 (Split 99 1.0 (Split 979 1.0 (Split
  655 1.0 (Split 14 1.0 (Leaf (-0.04610721)) (Leaf (-0.0009749271))) (Leaf 0.0023926364)) (Split
  300 1.0 (Leaf (-0.01923979)) (Leaf 0.015705839))) (Split 679 1.0 (Split 435 1.0 (Leaf
  0.024474192) (Leaf (-0.014016052))) (Leaf (-0.028529733)))) (Leaf 0.018918147)) (Leaf
  0.009242148)) (Leaf 0.020410271)) (Split 540 1.0 (Leaf (-0.010070342)) (Leaf 0.027881294)).

Definition var73 : tree :=
  Split 968 1.0 (Split 833 1.0 (Split 430 1.0 (Split 178 1.0 (Split 104 1.0 (Split 958 1.0 (Split
  872 1.0 (Split 190 1.0 (Split 733 1.0 (Split 345 1.0 (Split 99 1.0 (Split 438 1.0 (Leaf
  (-0.001513408)) (Leaf 0.048015594)) (Split 562 1.0 (Leaf 0.027863627) (Leaf (-0.039077614))))
  (Split 979 1.0 (Split 679 1.0 (Leaf 0.073608175) (Leaf (-0.0032264858))) (Leaf (-0.021418406))))
  (Split 77 1.0 (Split 99 1.0 (Split 600 1.0 (Leaf 0.052013602) (Leaf (-0.007952529))) (Leaf
  0.00006984538)) (Leaf (-0.019810984)))) (Split 120 1.0 (Split 36 1.0 (Split 822 1.0 (Leaf
  (-0.033477914)) (Leaf 0.026207397)) (Leaf 0.04175188)) (Leaf 0.04900803))) (Split 435 1.0 (Split
  452 1.0 (Split 540 1.0 (Leaf 0.00016335334) (Leaf 0.02830998)) (Leaf 0.049869906)) (Leaf
  (-0.028245363)))) (Split 543 1.0 (Split 976 1.0 (Split 36 1.0 (Split 435 1.0 (Leaf
  (-0.0125424815)) (Leaf 0.00042273896)) (Leaf 0.013457823)) (Leaf 0.02090196)) (Leaf
  0.049069967))) (Split 822 1.0 (Split 255 1.0 (Split 329 1.0 (Split 267 1.0 (Split 156 1.0 (Split
  86 1.0 (Split 573 1.0 (Leaf (-0.03260236)) (Leaf 0.03789281)) (Split 540 1.0 (Leaf 0.04291319)
  (Leaf 0.0039323634))) (Split 435 1.0 (Split 300 1.0 (Leaf (-0.030976225)) (Leaf 0.0043645483))
  (Split 36 1.0 (Leaf 0.027034586) (Leaf 0.007614394)))) (Split 659 1.0 (Split 908 1.0 (Split 36
  1.0 (Leaf 0.016552137) (Leaf (-0.034744557))) (Leaf (-0.038837995))) (Split 540 1.0 (Leaf
  0.01955102) (Leaf 0.062458225)))) (Leaf 0.04740101)) var73_26845) var73_26868)) var73_26896)
  (Split 288 1.0 (Split 435 1.0 (Split 540 1.0 (Leaf 0.021005435) (Leaf (-0.0042043887))) (Leaf
  (-0.016788997))) (Leaf (-0.04880898)))) (Split 36 1.0 (Split 452 1.0 (Split 435 1.0 (Split 300
  1.0 (Leaf 0.04601918) (Leaf 0.00041980008)) (Leaf 0.007820836)) (Leaf (-0.011288972))) (Leaf
  (-0.016536472)))) (Split 812 1.0 (Split 540 1.0 (Split 55 1.0 (Split 435 1.0 (Leaf (-0.04555549))
  (Leaf (-0.0074370876))) (Leaf 0.0066104345)) (Leaf (-0.00016261869))) (Leaf 0.015781917)).

Definition var74_27391 : tree :=
  Split 8 1.0 (Split 104 1.0 (Split 1018 1.0 (Split 912 1.0 (Split 392 1.0 (Split 537 1.0 (Split
  255 1.0 (Split 300 1.0 (Split 678 1.0 (Leaf (-0.0526434)) (Split 452 1.0 (Leaf (-0.023522614))
  (Leaf (-0.00042140327)))) (Split 36 1.0 (Leaf 0.002820297) (Leaf (-0.031302914)))) (Leaf
  0.017070834)) (Leaf 0.013398166)) (Leaf 0.0293672)) (Split 300 1.0 (Leaf (-0.0061952625)) (Leaf
  0.016890045))) (Leaf 0.029212667)) (Split 812 1.0 (Split 540 1.0 (Leaf (-0.019809367)) (Leaf
  0.010586938)) (Leaf 0.038818713))) (Leaf 0.07115487).

Definition var74_27312 : tree :=
  Split 327 1.0 (Split 575 1.0 (Split 979 1.0 (Split 255 1.0 (Split 799 1.0 (Split 780 1.0 (Split
  99 1.0 (Split 1002 1.0 (Split 679 1.0 (Split 303 1.0 (Leaf (-0.04792702)) (Leaf 0.02078253))
  (Split 300 1.0 (Leaf (-0.020396149)) (Leaf 0.016127246))) (Leaf 0.024516838)) (Split 141 1.0
  (Split 435 1.0 (Leaf (-0.003263722)) (Leaf 0.03038759)) (Leaf (-0.0087063955)))) (Split 300 1.0
  (Leaf 0.034619857) (Leaf (-0.0137714585)))) (Split 435 1.0 (Leaf 0.03497686) (Leaf
  (-0.00841665)))) (Split 300 1.0 (Leaf 0.02655146) (Leaf (-0.015535563)))) (Split 452 1.0 (Split
  156 1.0 (Split 435 1.0 (Leaf (-0.028363738)) (Leaf 0.0022094771)) (Leaf 0.012718369)) (Leaf
  0.030870503))) (Leaf 0.054615416)) (Leaf (-0.049056206)).

Definition var74_27170 : tree :=
  Split 329 1.0 (Split 267 1.0 (Split 780 1.0 (Split 607 1.0 (Split 822 1.0 (Split 281 1.0 (Split
  751 1.0 (Split 20 1.0 (Leaf (-0.036432188)) (Leaf 0.012386655)) (Split 540 2.0 (Leaf 0.044269394)
  (Leaf (-0.014343532)))) (Split 540 1.0 (Leaf (-0.038805973)) (Split 670 1.0 (Leaf 0.06299528)
  (Leaf 0.016803334)))) (Split 494 1.0 (Split 537 1.0 (Split 452 1.0 (Leaf 0.019662524) (Leaf
  0.044706438)) (Leaf (-0.035321027))) (Leaf (-0.04037153)))) (Split 435 1.0 (Split 16 1.0 (Split
  641 1.0 (Split 540 1.0 (Leaf (-0.006025526)) (Leaf (-0.0346438))) (Leaf 0.015580197)) (Leaf
  0.03434941)) (Split 659 1.0 (Split 36 1.0 (Leaf 0.058847435) (Leaf 0.01614966)) (Leaf
  (-0.019548994))))) (Split 540 1.0 (Leaf 0.043018267) (Split 8 1.0 (Split 300 1.0 (Leaf
  (-0.05771708)) (Leaf 0.0035829525)) (Leaf 0.03719981)))) (Split 659 1.0 (Split 540 1.0 (Split 435
  1.0 (Split 156 1.0 (Split 979 1.0 (Leaf 0.04459245) (Leaf 0.006006624)) (Leaf (-0.008181066)))
  (Leaf (-0.0012694208))) (Split 300 1.0 (Leaf (-0.025293117)) (Leaf 0.0022769026))) (Split 452 1.0
  (Leaf 0.06319546) (Leaf (-0.0068891244))))) (Split 435 1.0 (Leaf 0.06542442) (Leaf 0.009419733)).

Definition var74 : tree :=
  Split 42 1.0 (Split 1019 1.0 (Split 833 1.0 (Split 104 1.0 (Split 980 1.0 (Split 479 1.0 (Split
  517 1.0 (Split 178 1.0 (Split 65 1.0 (Split 776 1.0 (Split 73 1.0 (Split 43 1.0 (Leaf
  0.018482326) (Leaf (-0.0449237))) (Split 255 1.0 (Leaf (-0.03802065)) (Leaf 0.025467554))) (Split
  655 1.0 (Split 741 1.0 (Leaf (-0.02880761)) (Leaf 0.03668241)) (Leaf 0.048215654))) (Split 93 1.0
  (Split 733 1.0 (Split 908 1.0 (Leaf (-0.03465973)) (Leaf 0.024365002)) (Leaf 0.048123267)) (Leaf
  0.055004936))) (Split 819 1.0 (Split 435 1.0 (Split 537 1.0 (Split 23 1.0 (Leaf (-0.027552465))
  (Leaf 0.0068135383)) (Leaf 0.025666565)) (Split 789 1.0 (Leaf (-0.050274152)) (Leaf
  (-0.0126001835)))) (Leaf 0.017872674))) (Split 870 1.0 (Split 617 1.0 (Split 45 1.0 (Split 113
  1.0 (Split 1002 1.0 (Leaf (-0.027871985)) (Leaf 0.027048348)) (Leaf 0.031525515)) (Split 540 1.0
  (Leaf 0.03946626) (Leaf 0.0047232066))) (Split 435 1.0 (Split 36 1.0 (Leaf (-0.037018657)) (Leaf
  (-0.0013577249))) (Leaf 0.089157484))) (Leaf 0.035043392))) (Split 950 1.0 (Split 979 1.0 (Split
  617 1.0 (Split 330 1.0 (Split 128 1.0 (Split 23 1.0 (Leaf (-0.047073837)) (Leaf (-0.006491789)))
  (Leaf (-0.008212666))) (Leaf (-0.00078550645))) (Leaf (-0.0028298872))) (Leaf 0.012486288)) (Leaf
  0.016223595))) (Split 540 1.0 (Split 1018 1.0 (Split 36 2.0 (Split 989 1.0 (Split 0 1.0 (Split
  976 1.0 (Split 65 1.0 (Leaf (-0.058229156)) (Leaf (-0.015686369))) (Leaf (-0.013070869))) (Leaf
  (-0.008952096))) (Leaf 0.000115889896)) (Leaf 0.012024013)) (Leaf 0.020198178)) (Split 670 1.0
  (Leaf (-0.0056123533)) (Leaf 0.04038613)))) var74_27170) (Split 36 1.0 (Split 812 1.0 (Split 435
  1.0 (Leaf 0.04593388) (Leaf 0.015118516)) (Leaf (-0.0038303242))) (Leaf (-0.024841752))))
  var74_27312) var74_27391.

Definition var75_27694 : tree :=
  Split 670 1.0 (Split 976 1.0 (Split 641 1.0 (Split 435 1.0 (Split 300 1.0 (Leaf 0.045975547)
  (Leaf 0.018112397)) (Leaf 0.002639306)) (Leaf (-0.0071251653))) (Leaf (-0.020004397))) (Leaf
  (-0.024728226)).

Definition var75_27652 : tree :=
  Split 872 1.0 (Split 679 1.0 (Split 670 1.0 (Split 517 1.0 (Split 435 1.0 (Split 300 1.0 (Leaf
  (-0.010844178)) (Leaf 0.014528612)) (Leaf 0.041199226)) (Leaf (-0.008617397))) (Leaf
  (-0.015581632))) (Leaf (-0.020379975))) (Leaf 0.048911393).

Definition var75 : tree :=
  Split 968 1.0 (Split 833 1.0 (Split 430 1.0 (Split 386 1.0 (Split 678 1.0 (Split 190 1.0 (Split
  958 1.0 (Split 286 1.0 (Split 407 1.0 (Split 267 1.0 (Split 99 1.0 (Split 55 1.0 (Leaf
  (-0.0039168443)) (Leaf 0.02580576)) (Split 562 1.0 (Leaf 0.025744466) (Leaf (-0.042330384))))
  (Split 138 1.0 (Split 540 2.0 (Leaf 0.031350907) (Leaf (-0.031361934))) (Split 979 1.0 (Leaf
  (-0.014239448)) (Leaf 0.034183558)))) (Split 16 1.0 (Split 128 1.0 (Split 517 1.0 (Leaf
  0.06961928) (Leaf 0.011614372)) (Leaf 0.0040851636)) (Split 435 1.0 (Leaf (-0.010727095)) (Leaf
  0.006206826)))) (Split 277 1.0 (Split 617 1.0 (Split 1019 1.0 (Split 682 1.0 (Leaf 0.066674225)
  (Leaf 0.01880092)) (Leaf 0.002064977)) (Leaf 0.011064521)) (Leaf 0.0061152815))) (Split 543 1.0
  (Split 812 1.0 (Split 452 1.0 (Split 435 1.0 (Leaf 0.017756192) (Leaf (-0.024984403))) (Leaf
  (-0.025852883))) (Leaf 0.011533589)) (Leaf 0.048912585))) (Split 120 1.0 (Split 300 1.0 (Split 36
  1.0 (Leaf (-0.027816787)) (Leaf 0.013444394)) (Leaf 0.03388242)) (Leaf 0.048849367))) (Split 799
  1.0 (Split 819 1.0 (Split 481 1.0 (Split 822 1.0 (Split 55 1.0 (Split 780 1.0 (Split 979 1.0
  (Leaf (-0.031390827)) (Leaf (-0.0041916016))) (Split 679 1.0 (Leaf 0.026389552) (Leaf
  (-0.015933083)))) (Split 540 1.0 (Split 659 1.0 (Leaf 0.018415444) (Leaf 0.04503683)) (Leaf
  (-0.01728409)))) (Split 36 1.0 (Split 682 1.0 (Split 979 1.0 (Leaf (-0.030327732)) (Leaf
  0.012777052)) (Leaf 0.022037245)) (Split 36 2.0 (Split 14 1.0 (Leaf 0.064902715) (Leaf
  0.0008085432)) (Leaf (-0.0030284324))))) (Split 300 1.0 (Split 435 1.0 (Leaf 0.01372034) (Leaf
  (-0.017223485))) (Leaf 0.062079232))) (Split 300 1.0 (Leaf 0.05496837) (Leaf (-0.009056817))))
  (Split 23 1.0 (Split 426 1.0 (Split 617 1.0 (Split 812 1.0 (Leaf 0.05004623) (Leaf 0.01615014))
  (Leaf 0.00594114)) (Leaf (-0.013346893))) (Leaf (-0.028462464))))) var75_27652) (Split 288 1.0
  (Split 452 1.0 (Split 670 1.0 (Leaf 0.0018428628) (Leaf (-0.024980977))) (Leaf 0.017177843))
  (Leaf (-0.048561)))) var75_27694) (Split 300 1.0 (Split 36 1.0 (Split 435 1.0 (Leaf
  (-0.044440966)) (Leaf 0.009274303)) (Leaf 0.014014865)) (Leaf 0.006372484)).

Definition var76_27935 : tree :=
  Split 659 1.0 (Split 540 1.0 (Split 435 1.0 (Split 156 1.0 (Split 979 1.0 (Leaf 0.041846674)
  (Leaf 0.0053667454)) (Leaf (-0.008586441))) (Leaf (-0.0015742913))) (Split 300 1.0 (Leaf
  (-0.024829997)) (Leaf 0.0028230993))) (Split 452 1.0 (Leaf 0.059921514) (Leaf (-0.007023265))).

Definition var76_28087 : tree :=
  Split 8 1.0 (Split 104 1.0 (Split 655 1.0 (Split 452 1.0 (Split 77 1.0 (Split 662 1.0 (Split 300
  1.0 (Leaf (-0.051280893)) (Split 156 1.0 (Leaf (-0.017392455)) (Leaf 0.004724609))) (Leaf
  0.023609854)) (Leaf 0.0146442)) (Split 128 1.0 (Split 14 1.0 (Leaf (-0.024122646)) (Leaf
  0.0030227154)) (Leaf 0.03424475))) (Split 540 1.0 (Leaf 0.020780029) (Leaf 0.0013252065))) (Split
  812 1.0 (Split 540 1.0 (Leaf (-0.019070666)) (Leaf 0.009720324)) (Leaf 0.038175173))) (Leaf
  0.069530904).

Definition var76_28008 : tree :=
  Split 327 1.0 (Split 575 1.0 (Split 979 1.0 (Split 255 1.0 (Split 799 1.0 (Split 780 1.0 (Split
  99 1.0 (Split 1002 1.0 (Split 679 1.0 (Split 303 1.0 (Leaf (-0.046440817)) (Leaf 0.019982714))
  (Split 300 1.0 (Leaf (-0.01965764)) (Leaf 0.015632145))) (Leaf 0.023444198)) (Split 141 1.0
  (Split 435 1.0 (Leaf (-0.0034434819)) (Leaf 0.029907553)) (Leaf (-0.008951075)))) (Split 300 1.0
  (Leaf 0.034159344) (Leaf (-0.013566707)))) (Split 435 1.0 (Leaf 0.034238834) (Leaf
  (-0.008189607)))) (Split 300 1.0 (Leaf 0.02552788) (Leaf (-0.015072185)))) (Split 452 1.0 (Split
  156 1.0 (Split 435 1.0 (Leaf (-0.027413523)) (Leaf 0.0022263292)) (Leaf 0.012294994)) (Leaf
  0.030118195))) (Leaf 0.053000726)) (Leaf (-0.048797585)).

Definition var76 : tree :=
  Split 42 1.0 (Split 1019 1.0 (Split 833 1.0 (Split 19 1.0 (Split 104 1.0 (Split 980 1.0 (Split
  517 1.0 (Split 178 1.0 (Split 479 1.0 (Split 776 1.0 (Split 73 1.0 (Split 65 1.0 (Leaf
  0.017374104) (Leaf (-0.020761779))) (Split 255 1.0 (Leaf (-0.03704916)) (Leaf 0.025049089)))
  (Split 655 1.0 (Split 741 1.0 (Leaf (-0.026099874)) (Leaf 0.036090415)) (Leaf 0.046293285)))
  (Split 950 1.0 (Split 979 1.0 (Split 617 1.0 (Leaf (-0.0388393)) (Leaf (-0.0012202264))) (Leaf
  0.009222284)) (Leaf 0.015778651))) (Split 819 1.0 (Split 435 1.0 (Split 537 1.0 (Split 23 1.0
  (Leaf (-0.0266751)) (Leaf 0.0065057776)) (Leaf 0.024828762)) (Split 789 1.0 (Split 300 2.0 (Leaf
  (-0.05172814)) (Leaf (-0.014408323))) (Leaf (-0.012121579)))) (Leaf 0.017446185))) (Split 870 1.0
  (Split 617 1.0 (Split 392 1.0 (Split 47 1.0 (Split 775 1.0 (Leaf (-0.027337566)) (Leaf
  0.019862501)) (Leaf 0.036990214)) (Split 452 1.0 (Leaf (-0.007151983)) (Leaf 0.0577345))) (Split
  435 1.0 (Split 36 1.0 (Leaf (-0.036337845)) (Leaf (-0.0011036507))) (Leaf 0.08538449))) (Leaf
  0.03375986))) (Split 540 1.0 (Split 1018 1.0 (Split 36 2.0 (Split 989 1.0 (Split 0 1.0 (Split 976
  1.0 (Leaf (-0.054899532)) (Leaf (-0.012637024))) (Leaf (-0.008491595))) (Leaf 0.0001824786))
  (Leaf 0.011858734)) (Leaf 0.020116875)) (Split 670 1.0 (Leaf (-0.005312934)) (Leaf 0.03914789))))
  (Split 329 1.0 (Split 267 1.0 (Split 780 1.0 (Split 607 1.0 (Split 20 1.0 (Split 105 1.0 (Split
  870 1.0 (Leaf (-0.030341318)) (Leaf 0.020427644)) (Leaf 0.050610807)) (Split 77 1.0 (Split 452
  1.0 (Leaf 0.060973506) (Leaf 0.010130223)) (Leaf (-0.035131153)))) (Split 670 1.0 (Split 452 1.0
  (Split 912 1.0 (Leaf 0.014726681) (Leaf (-0.021286568))) (Split 678 1.0 (Leaf (-0.035105594))
  (Leaf 0.014659985))) (Leaf 0.04203514))) (Split 540 1.0 (Leaf 0.042103674) (Split 8 1.0 (Split
  300 1.0 (Leaf (-0.055289626)) (Leaf 0.003656229)) (Leaf 0.036528435)))) var76_27935) (Split 435
  1.0 (Leaf 0.06316697) (Leaf 0.008968853)))) (Split 641 1.0 (Split 435 1.0 (Split 156 1.0 (Split
  300 1.0 (Leaf (-0.07611546)) (Leaf (-0.021528326))) (Leaf (-0.014689261))) (Leaf
  (-0.0152380215))) (Leaf (-0.0061752014)))) (Split 36 1.0 (Split 812 1.0 (Split 435 1.0 (Leaf
  0.045389954) (Leaf 0.014742642)) (Leaf (-0.00355562))) (Leaf (-0.024188874)))) var76_28008)
  var76_28087.

Definition var77_28297 : tree :=
  Split 872 1.0 (Split 679 1.0 (Split 670 1.0 (Split 540 1.0 (Split 452 1.0 (Leaf 0.03786938) (Leaf
  (-0.0044147754))) (Leaf (-0.007934327))) (Leaf (-0.0152455885))) (Leaf (-0.020170698))) (Leaf
  0.04875324).

Definition var77_28320 : tree :=
  Split 641 1.0 (Split 658 1.0 (Split 617 1.0 (Split 996 1.0 (Split 452 1.0 (Leaf (-0.062633716))
  (Leaf (-0.027260179))) (Leaf (-0.0052122623))) (Leaf (-0.0036805149))) (Leaf 0.009824051)) (Leaf
  0.024754334).

Definition var77_28358 : tree :=
  Split 670 1.0 (Split 976 1.0 (Split 641 1.0 (Split 435 1.0 (Split 300 1.0 (Leaf 0.04548432) (Leaf
  0.017441332)) (Leaf 0.0025605166)) (Leaf (-0.007313059))) (Leaf (-0.019793598))) (Leaf
  (-0.024488894)).

Definition var77 : tree :=
  Split 968 1.0 (Split 833 1.0 (Split 430 1.0 (Split 630 1.0 (Split 386 1.0 (Split 678 1.0 (Split
  190 1.0 (Split 958 1.0 (Split 438 1.0 (Split 53 1.0 (Split 407 1.0 (Split 286 1.0 (Leaf
  (-0.0005514032)) (Leaf 0.047976676)) (Split 36 1.0 (Leaf 0.058480717) (Leaf 0.0045676557)))
  (Split 86 1.0 (Split 104 1.0 (Leaf 0.04505906) (Leaf (-0.009046773))) (Split 473 1.0 (Leaf
  (-0.00025775694)) (Leaf (-0.047278922))))) (Split 976 1.0 (Split 607 1.0 (Split 255 1.0 (Leaf
  0.057211976) (Leaf 0.00818445)) (Leaf (-0.0041523236))) (Leaf (-0.0038628199)))) (Split 543 1.0
  (Split 812 1.0 (Split 452 1.0 (Split 435 1.0 (Leaf 0.017065628) (Leaf (-0.024084669))) (Leaf
  (-0.025419626))) (Leaf 0.010755946)) (Leaf 0.048754435))) (Split 120 1.0 (Split 300 1.0 (Split 36
  1.0 (Leaf (-0.026991164)) (Leaf 0.012912586)) (Leaf 0.032227956)) (Leaf 0.048689697))) (Split 819
  1.0 (Split 799 1.0 (Split 481 1.0 (Split 575 1.0 (Split 979 1.0 (Split 55 1.0 (Leaf
  (-0.026982306)) (Leaf 0.020250663)) (Split 452 1.0 (Leaf (-0.011205311)) (Leaf 0.033298835)))
  (Split 540 1.0 (Leaf 0.063218676) (Leaf 0.008567109))) (Split 300 1.0 (Split 435 1.0 (Leaf
  0.0134458635) (Leaf (-0.013914414))) (Leaf 0.0604119))) (Split 23 1.0 (Split 426 1.0 (Split 617
  1.0 (Split 812 1.0 (Leaf 0.049036484) (Leaf 0.012209461)) (Leaf 0.004704047)) (Leaf
  (-0.012928116))) (Leaf (-0.029647512)))) (Split 300 1.0 (Leaf 0.053612735) (Split 156 1.0 (Leaf
  0.008826534) (Leaf (-0.008789762)))))) var77_28297) var77_28320) (Split 288 1.0 (Split 979 1.0
  (Split 540 1.0 (Leaf (-0.003359301)) (Leaf (-0.015933204))) (Leaf 0.014463866)) (Leaf
  (-0.04830548)))) var77_28358) (Split 300 1.0 (Split 36 1.0 (Split 435 1.0 (Leaf (-0.043749623))
  (Leaf 0.009018481)) (Leaf 0.013875238)) (Leaf 0.0063093426)).

Definition var78_28570 : tree :=
  Split 392 1.0 (Split 300 1.0 (Split 435 1.0 (Split 156 1.0 (Leaf (-0.07477384)) (Leaf
  (-0.012362349))) (Leaf (-0.028026143))) (Split 670 1.0 (Leaf (-0.022731427)) (Leaf
  0.0012002102))) (Leaf (-0.0057718353)).

Definition var78_28691 : tree :=
  Split 8 1.0 (Split 104 1.0 (Split 1018 1.0 (Split 912 1.0 (Split 392 1.0 (Split 537 1.0 (Split
  255 1.0 (Split 300 1.0 (Split 678 1.0 (Leaf (-0.052420128)) (Leaf (-0.014824276))) (Split 36 1.0
  (Leaf 0.0027882708) (Leaf (-0.030886864)))) (Leaf 0.016848331)) (Leaf 0.012914467)) (Leaf
  0.028799495)) (Split 300 1.0 (Leaf (-0.005441136)) (Leaf 0.016643072))) (Leaf 0.029259915))
  (Split 812 1.0 (Split 540 1.0 (Leaf (-0.018563638)) (Leaf 0.009180175)) (Leaf 0.03749074))) (Leaf
  0.06780588).

Definition var78_28608 : tree :=
  Split 327 1.0 (Split 575 1.0 (Split 979 1.0 (Split 255 1.0 (Split 799 1.0 (Split 780 1.0 (Split
  99 1.0 (Split 1002 1.0 (Split 679 1.0 (Split 303 1.0 (Leaf (-0.044969816)) (Leaf 0.018942712))
  (Split 300 1.0 (Leaf (-0.018954987)) (Leaf 0.015143259))) (Leaf 0.022399582)) (Split 141 1.0
  (Leaf 0.015804006) (Leaf (-0.0088064475)))) (Split 300 1.0 (Leaf 0.03363019) (Leaf
  (-0.013057972)))) (Split 435 1.0 (Leaf 0.033503093) (Leaf (-0.007922394)))) (Split 300 1.0 (Leaf
  0.024510665) (Leaf (-0.014507954)))) (Split 452 1.0 (Split 156 1.0 (Split 435 1.0 (Leaf
  (-0.026382888)) (Leaf 0.00217986)) (Leaf 0.011986735)) (Split 574 1.0 (Split 540 1.0 (Leaf
  0.037466012) (Leaf 0.010965517)) (Leaf 0.009837435)))) (Leaf 0.051143583)) (Leaf (-0.04852644)).

Definition var78 : tree :=
  Split 42 1.0 (Split 1019 1.0 (Split 833 1.0 (Split 19 1.0 (Split 980 1.0 (Split 479 1.0 (Split
  517 1.0 (Split 178 1.0 (Split 73 1.0 (Split 473 1.0 (Split 65 1.0 (Split 776 1.0 (Leaf 0.0151271)
  (Leaf (-0.015567227))) (Split 93 1.0 (Leaf (-0.022660363)) (Leaf 0.048913073))) (Split 937 1.0
  (Split 979 1.0 (Leaf (-0.03687448)) (Leaf 0.030813605)) (Leaf 0.029431809))) (Split 255 1.0
  (Split 141 1.0 (Split 653 1.0 (Leaf (-0.040622115)) (Leaf 0.0097716935)) (Leaf 0.007962918))
  (Leaf 0.032108277))) (Split 537 1.0 (Split 104 2.0 (Split 819 1.0 (Split 641 1.0 (Leaf
  (-0.033410802)) (Leaf 0.0036049772)) (Leaf 0.008946127)) (Leaf 0.020115381)) (Split 36 1.0 (Leaf
  (-0.0065549077)) (Leaf 0.02983532)))) (Split 392 1.0 (Split 870 1.0 (Split 617 1.0 (Split 47 1.0
  (Split 775 1.0 (Leaf (-0.028595531)) (Leaf 0.021622553)) (Leaf 0.027733669)) (Split 435 1.0
  (Split 36 1.0 (Leaf (-0.03845204)) (Leaf (-0.0031572487))) (Leaf 0.070789315))) (Leaf
  0.033171088)) (Split 452 1.0 (Split 435 1.0 (Leaf 0.001837427) (Leaf 0.017690893)) (Leaf
  0.05827694)))) (Split 937 1.0 (Split 979 1.0 (Split 812 1.0 (Split 330 1.0 (Split 522 1.0 (Split
  23 1.0 (Leaf (-0.045032404)) (Leaf (-0.007856519))) (Leaf (-0.008406614))) (Leaf 0.00034758518))
  (Leaf (-0.00012461773))) (Leaf 0.009479844)) (Split 36 1.0 (Leaf (-0.0015302395)) (Leaf
  0.019756777)))) (Split 141 1.0 (Split 822 1.0 (Split 776 1.0 (Split 733 1.0 (Split 537 1.0 (Split
  0 1.0 (Split 789 1.0 (Leaf (-0.058091532)) (Leaf (-0.015095137))) (Leaf 0.006309943)) (Leaf
  0.00416905)) (Leaf 0.010267833)) (Leaf 0.011887348)) (Leaf 0.012536734)) (Leaf 0.033259325)))
  var78_28570) (Split 36 1.0 (Split 812 1.0 (Split 435 1.0 (Leaf 0.04481336) (Leaf 0.01438189))
  (Leaf (-0.003285141))) (Leaf (-0.02355139)))) var78_28608) var78_28691.

Definition var79_29033 : tree :=
  Split 8 1.0 (Split 104 1.0 (Split 1018 1.0 (Split 912 1.0 (Split 392 1.0 (Split 537 1.0 (Split
  255 1.0 (Split 300 1.0 (Split 678 1.0 (Leaf (-0.05218525)) (Leaf (-0.014357887))) (Split 36 1.0
  (Leaf 0.002684955) (Leaf (-0.03019624)))) (Leaf 0.016396638)) (Leaf 0.0124703245)) (Leaf
  0.027887395)) (Split 300 1.0 (Leaf (-0.005261128)) (Leaf 0.016212776))) (Leaf 0.028516209))
  (Split 812 1.0 (Split 540 1.0 (Leaf (-0.018004535)) (Leaf 0.008847341)) (Leaf 0.036551613)))
  (Leaf 0.06621025).

Definition var79_28950 : tree :=
  Split 327 1.0 (Split 575 1.0 (Split 979 1.0 (Split 255 1.0 (Split 799 1.0 (Split 780 1.0 (Split
  99 1.0 (Split 1002 1.0 (Split 679 1.0 (Split 303 1.0 (Leaf (-0.04363429)) (Leaf 0.018338054))
  (Split 300 1.0 (Leaf (-0.018409444)) (Leaf 0.014601551))) (Leaf 0.021726726)) (Split 141 1.0
  (Leaf 0.0153662115) (Leaf (-0.008557975)))) (Split 300 1.0 (Leaf 0.033153594) (Leaf
  (-0.012682937)))) (Split 435 1.0 (Leaf 0.032999054) (Leaf (-0.0076521495)))) (Split 300 1.0 (Leaf
  0.02348735) (Leaf (-0.014074318)))) (Split 452 1.0 (Split 156 1.0 (Split 435 1.0 (Leaf
  (-0.025311962)) (Leaf 0.0021149397)) (Leaf 0.011702862)) (Split 574 1.0 (Split 540 1.0 (Leaf
  0.03692639) (Leaf 0.01071208)) (Leaf 0.009606075)))) (Leaf 0.049683675)) (Leaf (-0.04835104)).

Definition var79 : tree :=
  Split 42 1.0 (Split 1019 1.0 (Split 833 1.0 (Split 156 2.0 (Split 958 1.0 (Split 190 1.0 (Split
  819 1.0 (Split 733 1.0 (Split 438 1.0 (Split 479 1.0 (Split 53 1.0 (Split 751 1.0 (Leaf
  (-0.0035865635)) (Leaf 0.038626373)) (Split 397 1.0 (Leaf 0.034456447) (Leaf (-0.030156149))))
  (Split 979 1.0 (Split 721 1.0 (Leaf (-0.043350723)) (Leaf (-0.0008310186))) (Leaf 0.011259281)))
  (Split 255 1.0 (Split 432 1.0 (Split 104 1.0 (Leaf 0.05969883) (Leaf 0.0120039815)) (Leaf
  (-0.02577716))) (Split 822 1.0 (Leaf (-0.0021502036)) (Leaf (-0.025198767))))) (Split 901 1.0
  (Split 77 1.0 (Split 300 2.0 (Split 670 1.0 (Leaf 0.03861386) (Leaf (-0.00022420709))) (Leaf
  0.073411815)) (Leaf (-0.022743149))) (Leaf (-0.03017616)))) (Split 697 1.0 (Split 104 1.0 (Split
  20 1.0 (Split 345 1.0 (Split 517 1.0 (Leaf 0.052770436) (Leaf 0.010241101)) (Leaf
  (-0.0017589334))) (Leaf (-0.0010145009))) (Split 435 1.0 (Split 800 1.0 (Leaf 0.03536799) (Leaf
  (-0.012667412))) (Split 540 1.0 (Leaf (-0.004947692)) (Leaf (-0.025764054))))) (Leaf
  (-0.03651389)))) (Split 120 1.0 (Split 36 1.0 (Split 822 1.0 (Split 300 1.0 (Leaf (-0.037843186))
  (Leaf (-0.010693598))) (Leaf 0.024901204)) (Leaf 0.034141947)) (Leaf 0.04853157))) (Split 156 1.0
  (Split 36 1.0 (Split 435 1.0 (Leaf (-0.005033063)) (Leaf 0.029135838)) (Leaf (-0.020537706)))
  (Leaf 0.04770161))) (Split 872 1.0 (Split 71 1.0 (Split 128 1.0 (Split 494 1.0 (Split 641 1.0
  (Split 64 1.0 (Split 662 1.0 (Split 141 1.0 (Leaf 0.045175873) (Leaf 0.0043790066)) (Leaf
  (-0.019593878))) (Leaf (-0.016383436))) (Leaf (-0.030984854))) (Leaf (-0.031934675))) (Split 822
  1.0 (Split 678 1.0 (Leaf (-0.0111564165)) (Leaf (-0.036126405))) (Leaf 0.006779507))) (Leaf
  (-0.037256744))) (Leaf 0.048610877))) (Split 36 1.0 (Split 641 1.0 (Split 435 1.0 (Split 300 1.0
  (Leaf 0.04494059) (Leaf 0.014104376)) (Leaf 0.014391567)) (Leaf (-0.0026047553))) (Leaf
  (-0.022866718)))) var79_28950) var79_29033.

Definition var80_29271 : tree :=
  Split 8 1.0 (Split 964 1.0 (Split 255 1.0 (Split 822 1.0 (Split 537 1.0 (Split 670 1.0 (Split 655
  1.0 (Split 300 1.0 (Split 800 1.0 (Leaf (-0.050285228)) (Leaf (-0.0048875194))) (Split 789 1.0
  (Leaf (-0.009949077)) (Leaf (-0.03372632)))) (Leaf 0.0058903196)) (Split 128 1.0 (Leaf
  (-0.017215585)) (Leaf 0.035781045))) (Leaf 0.017729906)) (Leaf 0.019532988)) (Leaf 0.022533907))
  (Split 156 1.0 (Leaf 0.041779052) (Leaf (-0.018822497)))) (Leaf 0.06465485).

Definition var80 : tree :=
  Split 42 1.0 (Split 833 1.0 (Split 133 1.0 (Split 621 1.0 (Split 19 1.0 (Split 630 1.0 (Split 156
  2.0 (Split 678 1.0 (Split 473 1.0 (Split 190 1.0 (Split 958 1.0 (Split 99 1.0 (Leaf 0.0034669999)
  (Leaf 0.02788446)) (Split 156 1.0 (Leaf 0.00021834178) (Leaf 0.049150683))) (Split 120 1.0 (Split
  300 1.0 (Leaf (-0.008757343)) (Leaf 0.03050229)) (Leaf 0.048408195))) (Split 45 1.0 (Split 979
  1.0 (Split 128 1.0 (Leaf (-0.047003653)) (Leaf (-0.00093067094))) (Leaf 0.0108547155)) (Leaf
  0.03214529))) (Split 819 1.0 (Split 419 1.0 (Split 822 1.0 (Split 799 1.0 (Leaf (-0.021713546))
  (Leaf 0.020199126)) (Split 36 1.0 (Leaf (-0.006392649)) (Leaf 0.045180287))) (Leaf 0.049752325))
  (Split 300 1.0 (Leaf 0.050249547) (Leaf 0.01299985)))) (Split 872 1.0 (Split 494 1.0 (Split 641
  1.0 (Split 117 1.0 (Split 64 1.0 (Leaf 0.029427318) (Leaf (-0.016012153))) (Leaf (-0.018522603)))
  (Leaf (-0.031789362))) (Leaf (-0.02812751))) (Leaf 0.048488613))) (Split 452 1.0 (Split 617 1.0
  (Split 156 1.0 (Leaf (-0.059898477)) (Leaf (-0.003144955))) (Leaf 0.0019613635)) (Split 540 1.0
  (Leaf (-0.02409421)) (Leaf 0.024235493)))) (Split 392 1.0 (Split 300 1.0 (Split 435 1.0 (Split
  156 1.0 (Leaf (-0.07307563)) (Leaf (-0.011713259))) (Leaf (-0.027252315))) (Split 670 1.0 (Leaf
  (-0.024096629)) (Leaf 0.0011137553))) (Leaf (-0.0055358456)))) (Leaf (-0.06411646))) (Split 300
  1.0 (Split 799 1.0 (Split 452 1.0 (Leaf (-0.047877572)) (Leaf (-0.0065065683))) (Leaf
  0.015062051)) (Split 300 2.0 (Leaf 0.01500759) (Leaf (-0.006075578))))) (Split 670 1.0 (Split 976
  1.0 (Split 641 1.0 (Split 435 1.0 (Leaf 0.04485406) (Leaf 0.0024820156)) (Leaf (-0.0074928664)))
  (Leaf (-0.019850655))) (Leaf (-0.024597669)))) var80_29271.

Definition var81_29518 : tree :=
  Split 670 1.0 (Split 976 1.0 (Split 641 1.0 (Split 435 1.0 (Split 300 1.0 (Leaf 0.044411823)
  (Leaf 0.0156034855)) (Leaf 0.0023973098)) (Leaf (-0.007282698))) (Leaf (-0.019322697))) (Leaf
  (-0.024083154)).

Definition var81_29479 : tree :=
  Split 479 1.0 (Split 662 1.0 (Split 104 1.0 (Split 964 1.0 (Split 0 1.0 (Split 682 1.0 (Split 267
  1.0 (Split 780 1.0 (Leaf 0.054668356) (Leaf 0.017088031)) (Leaf 0.01467107)) (Leaf 0.016905803))
  (Leaf 0.01069308)) (Leaf 0.010992193)) (Split 435 1.0 (Leaf 0.028072668) (Leaf (-0.008188282))))
  (Leaf 0.006834294)) (Leaf 0.0008428694).

Definition var81 : tree :=
  Split 968 1.0 (Split 833 1.0 (Split 330 1.0 (Split 386 1.0 (Split 365 1.0 (Split 958 1.0 (Split
  986 1.0 (Split 1002 1.0 (Split 157 1.0 (Split 709 1.0 (Split 780 1.0 (Split 575 1.0 (Leaf
  (-0.007278648)) (Leaf 0.041761354)) (Split 8 1.0 (Leaf 0.014054455) (Leaf 0.04352758))) (Split
  104 1.0 (Split 435 1.0 (Leaf 0.05508222) (Leaf 0.020180373)) (Leaf 0.002738603))) (Split 45 1.0
  (Split 435 1.0 (Leaf 0.05746146) (Split 300 1.0 (Leaf (-0.026808066)) (Leaf 0.038011953))) (Leaf
  (-0.00404896)))) (Split 532 1.0 (Split 62 1.0 (Split 950 1.0 (Split 529 1.0 (Leaf 0.04685685)
  (Leaf 0.0036028482)) (Leaf (-0.019358834))) (Leaf (-0.01603424))) (Leaf (-0.030919218)))) (Split
  912 1.0 (Split 148 1.0 (Split 517 1.0 (Split 938 1.0 (Split 284 1.0 (Leaf 0.047474995) (Leaf
  (-0.006706846))) (Leaf (-0.009338725))) (Split 540 1.0 (Leaf 0.0053292606) (Leaf
  (-0.0061305445)))) (Leaf (-0.013958474))) (Leaf (-0.014745012)))) (Split 543 1.0 (Split 976 1.0
  (Split 36 1.0 (Split 435 1.0 (Leaf (-0.018166764)) (Leaf (-0.0024685075))) (Leaf 0.0022103072))
  (Leaf 0.02096156)) (Leaf 0.048351984))) (Split 120 1.0 (Split 540 1.0 (Split 789 1.0 (Split 300
  1.0 (Split 435 1.0 (Leaf 0.00831196) (Leaf (-0.0059735216))) (Leaf 0.017403362)) (Leaf
  (-0.008905293))) (Leaf (-0.021592217))) (Leaf 0.048282158))) (Split 872 1.0 (Split 435 1.0 (Split
  36 1.0 (Split 300 1.0 (Leaf (-0.028010419)) (Leaf 0.0013463678)) (Leaf 0.007772473)) (Leaf
  0.013667779)) (Leaf 0.048350286))) var81_29479) var81_29518) (Split 812 1.0 (Split 540 1.0 (Split
  55 1.0 (Split 435 1.0 (Leaf (-0.04308877)) (Leaf (-0.0056036464))) (Leaf 0.0064842305)) (Leaf
  0.0011158824)) (Leaf 0.016406694)).

Definition var82_29927 : tree :=
  Split 8 1.0 (Split 104 1.0 (Split 1018 1.0 (Split 912 1.0 (Split 392 1.0 (Split 537 1.0 (Split
  255 1.0 (Split 300 1.0 (Split 678 1.0 (Leaf (-0.05175217)) (Leaf (-0.013391139))) (Split 36 1.0
  (Leaf 0.003130322) (Leaf (-0.029111862)))) (Leaf 0.015191379)) (Leaf 0.011676513)) (Leaf
  0.026874885)) (Split 300 1.0 (Leaf (-0.0049254075)) (Leaf 0.015515794))) (Leaf 0.028099954))
  (Split 812 1.0 (Split 540 1.0 (Leaf (-0.016781306)) (Leaf 0.00877742)) (Leaf 0.035848673))) (Leaf
  0.06293978).

Definition var82_29844 : tree :=
  Split 327 1.0 (Split 575 1.0 (Split 979 1.0 (Split 255 1.0 (Split 855 1.0 (Split 99 1.0 (Split 14
  1.0 (Split 1002 1.0 (Split 1014 1.0 (Split 986 1.0 (Leaf (-0.041355353)) (Leaf 0.018310307))
  (Leaf 0.013703087)) (Leaf 0.021364948)) (Split 300 1.0 (Leaf (-0.009733433)) (Leaf 0.03113094)))
  (Split 540 1.0 (Leaf 0.020830398) (Leaf (-0.0014878984)))) (Split 789 1.0 (Leaf 0.027245054)
  (Leaf (-0.0147526255)))) (Split 23 1.0 (Split 300 1.0 (Leaf 0.02774412) (Leaf (-0.0015938891)))
  (Leaf (-0.01787868)))) (Split 452 1.0 (Split 156 1.0 (Split 435 1.0 (Leaf (-0.024573771)) (Leaf
  0.002341667)) (Leaf 0.011264691)) (Split 574 1.0 (Split 540 1.0 (Leaf 0.036330525) (Leaf
  0.010507356)) (Leaf 0.009373582)))) (Leaf 0.047018256)) (Leaf (-0.04791357)).

Definition var82_29714 : tree :=
  Split 329 1.0 (Split 267 1.0 (Split 780 1.0 (Split 607 1.0 (Split 822 1.0 (Split 281 1.0 (Split
  751 1.0 (Split 20 1.0 (Leaf (-0.03392386)) (Leaf 0.011060741)) (Split 540 2.0 (Leaf 0.042209752)
  (Leaf (-0.013185828)))) (Split 540 1.0 (Leaf (-0.03624321)) (Leaf 0.053102087))) (Split 494 1.0
  (Split 537 1.0 (Split 156 1.0 (Leaf 0.03356209) (Leaf 0.008568783)) (Leaf (-0.033891622))) (Leaf
  (-0.03768756)))) (Split 670 1.0 (Split 537 1.0 (Split 452 1.0 (Split 156 1.0 (Leaf 0.011128316)
  (Leaf (-0.019955961))) (Split 678 1.0 (Leaf (-0.03688048)) (Leaf (-0.0015098572)))) (Leaf
  0.027481902)) (Leaf 0.04049968))) (Split 540 1.0 (Leaf 0.040927395) (Split 300 1.0 (Split 452 1.0
  (Leaf (-0.038757097)) (Leaf 0.012540186)) (Leaf 0.002803638)))) (Split 659 1.0 (Split 540 1.0
  (Split 156 1.0 (Split 300 1.0 (Leaf 0.011693538) (Leaf 0.03297415)) (Leaf 0.00092938787)) (Split
  300 1.0 (Leaf (-0.02402001)) (Leaf 0.002881338))) (Split 452 1.0 (Leaf 0.057415094) (Leaf
  (-0.0070295185))))) (Split 435 1.0 (Leaf 0.06121388) (Leaf 0.008741442)).

Definition var82 : tree :=
  Split 42 1.0 (Split 1019 1.0 (Split 833 1.0 (Split 104 1.0 (Split 980 1.0 (Split 479 1.0 (Split
  776 1.0 (Split 178 1.0 (Split 517 1.0 (Split 73 1.0 (Split 65 1.0 (Split 43 1.0 (Leaf 0.0154884)
  (Leaf (-0.04419642))) (Split 733 1.0 (Leaf (-0.023552379)) (Leaf 0.046844285))) (Split 255 1.0
  (Split 141 1.0 (Leaf (-0.039295986)) (Leaf 0.019267919)) (Leaf 0.024017408))) (Split 870 1.0
  (Split 526 1.0 (Split 45 1.0 (Leaf (-0.020687701)) (Leaf 0.03310622)) (Leaf 0.04706608)) (Leaf
  0.037282642))) (Split 284 1.0 (Split 113 1.0 (Split 819 1.0 (Split 99 1.0 (Leaf (-0.034717984))
  (Leaf (-0.0002837367))) (Leaf 0.015263277)) (Leaf 0.028524697)) (Leaf 0.03580623))) (Split 655
  1.0 (Split 741 1.0 (Split 203 1.0 (Split 286 1.0 (Split 485 1.0 (Leaf (-0.034435045)) (Leaf
  0.015121713)) (Leaf 0.025890617)) (Leaf 0.039986614)) (Leaf 0.03590293)) (Leaf 0.04481993)))
  (Split 937 1.0 (Split 812 1.0 (Split 979 1.0 (Split 330 1.0 (Split 522 1.0 (Split 128 1.0 (Leaf
  (-0.045591228)) (Leaf (-0.011237687))) (Leaf (-0.007512239))) (Leaf 0.000821311)) (Leaf
  0.009117268)) (Leaf 0.004062182)) (Leaf 0.011877922))) (Split 540 1.0 (Split 1018 1.0 (Split 36
  2.0 (Split 989 1.0 (Split 979 1.0 (Split 156 1.0 (Split 812 1.0 (Leaf (-0.056736708)) (Leaf
  (-0.013975819))) (Leaf (-0.02230711))) (Leaf (-0.01586903))) (Leaf 0.0008243901)) (Leaf
  0.012312849)) (Leaf 0.018934283)) (Split 670 1.0 (Leaf (-0.0047832616)) (Leaf 0.038680296))))
  var82_29714) (Split 36 1.0 (Split 812 1.0 (Split 435 1.0 (Leaf 0.04359555) (Leaf 0.013820886))
  (Leaf (-0.0034688308))) (Leaf (-0.022595907)))) var82_29844) var82_29927.

Definition var83_30157 : tree :=
  Split 8 1.0 (Split 104 1.0 (Split 655 1.0 (Split 452 1.0 (Split 77 1.0 (Split 300 1.0 (Split 255
  1.0 (Split 678 1.0 (Leaf (-0.051246133)) (Leaf (-0.01604962))) (Leaf 0.0022393435)) (Split 912
  1.0 (Split 156 2.0 (Leaf (-0.004231571)) (Leaf (-0.016957976))) (Leaf 0.009423962))) (Leaf
  0.014954503)) (Split 128 1.0 (Split 14 1.0 (Leaf (-0.020983888)) (Leaf 0.0046442235)) (Leaf
  0.03496418))) (Split 540 1.0 (Leaf 0.01930297) (Leaf 0.0015525044))) (Split 812 1.0 (Split 659
  1.0 (Split 540 1.0 (Leaf (-0.011129945)) (Leaf 0.019826809)) (Leaf (-0.021058982))) (Leaf
  0.034955364))) (Leaf 0.06146686).

Definition var83 : tree :=
  Split 42 1.0 (Split 833 1.0 (Split 502 1.0 (Split 621 1.0 (Split 19 1.0 (Split 630 1.0 (Split 156
  2.0 (Split 819 1.0 (Split 678 1.0 (Split 473 1.0 (Split 958 1.0 (Split 190 1.0 (Leaf
  0.0036247948) (Leaf 0.040044263)) (Split 156 1.0 (Leaf (-0.0010435256)) (Leaf 0.04888947)))
  (Split 45 1.0 (Split 267 1.0 (Leaf (-0.04288284)) (Leaf 0.007627883)) (Leaf 0.03097251))) (Split
  419 1.0 (Split 822 1.0 (Split 799 1.0 (Leaf (-0.020879272)) (Leaf 0.020271031)) (Split 36 1.0
  (Leaf (-0.0047887764)) (Leaf 0.04276706))) (Leaf 0.047964167))) (Split 503 1.0 (Split 509 1.0
  (Split 985 1.0 (Split 517 1.0 (Leaf 0.04789264) (Leaf 0.0075814896)) (Leaf (-0.005616209))) (Leaf
  (-0.02416568))) (Split 60 1.0 (Leaf (-0.005104629)) (Leaf (-0.037788868))))) (Split 872 1.0
  (Split 641 1.0 (Split 494 1.0 (Split 117 1.0 (Split 71 1.0 (Leaf 0.028282816) (Leaf
  (-0.018968077))) (Leaf (-0.018065428))) (Leaf (-0.029312605))) (Leaf (-0.028577566))) (Leaf
  0.048197526))) (Split 641 1.0 (Split 452 1.0 (Split 617 1.0 (Split 156 1.0 (Leaf (-0.060106006))
  (Leaf (-0.0027223316))) (Leaf (-0.0014658791))) (Split 36 1.0 (Split 300 1.0 (Leaf 0.022337701)
  (Leaf (-0.024838692))) (Leaf (-0.039250765)))) (Leaf 0.025735632))) (Split 392 1.0 (Split 300 1.0
  (Leaf (-0.06060595)) (Split 670 1.0 (Leaf (-0.023404542)) (Leaf 0.0036958803))) (Leaf
  (-0.0050436924)))) (Leaf (-0.062436283))) (Split 60 1.0 (Split 435 1.0 (Leaf 0.0047094324) (Leaf
  (-0.037687078))) (Leaf (-0.04774301)))) (Split 670 1.0 (Split 976 1.0 (Split 641 1.0 (Split 435
  1.0 (Leaf 0.043958366) (Leaf 0.002317209)) (Leaf (-0.00723675))) (Leaf (-0.019119766))) (Leaf
  (-0.023878789)))) var83_30157.

Definition var84_30599 : tree :=
  Split 8 1.0 (Split 104 1.0 (Split 1018 1.0 (Split 452 1.0 (Split 300 1.0 (Split 964 1.0 (Split
  912 1.0 (Split 16 1.0 (Leaf (-0.049970623)) (Leaf (-0.0065378235))) (Leaf (-0.0028008495))) (Leaf
  0.014301176)) (Split 912 1.0 (Split 36 1.0 (Leaf 0.00029162812) (Leaf (-0.024989257))) (Leaf
  0.013451004))) (Split 128 1.0 (Split 678 1.0 (Leaf (-0.008256227)) (Leaf (-0.026834836))) (Leaf
  0.034470662))) (Leaf 0.02754775)) (Split 812 1.0 (Split 659 1.0 (Split 540 1.0 (Leaf
  (-0.010816305)) (Leaf 0.019169455)) (Leaf (-0.02058102))) (Leaf 0.034083948))) (Leaf 0.060036685).

Definition var84_30524 : tree :=
  Split 327 1.0 (Split 575 1.0 (Split 979 1.0 (Split 303 1.0 (Split 662 1.0 (Split 780 1.0 (Split
  855 1.0 (Split 1002 1.0 (Split 99 1.0 (Split 77 1.0 (Leaf (-0.039611127)) (Leaf (-0.0026795405)))
  (Split 435 1.0 (Leaf (-0.009794642)) (Leaf 0.01967028))) (Leaf 0.021191796)) (Split 36 1.0 (Leaf
  0.0265463) (Leaf (-0.009572231)))) (Split 300 1.0 (Leaf 0.03385928) (Leaf (-0.008867818)))) (Leaf
  0.025317106)) (Leaf 0.021825131)) (Split 452 1.0 (Split 156 1.0 (Split 435 1.0 (Leaf
  (-0.024128849)) (Leaf 0.002565073)) (Leaf 0.010835434)) (Split 574 1.0 (Split 540 1.0 (Leaf
  0.03581051) (Leaf 0.010146153)) (Leaf 0.008875607)))) (Leaf 0.045619972)) (Leaf (-0.047585413)).

Definition var84_30382 : tree :=
  Split 329 1.0 (Split 267 1.0 (Split 780 1.0 (Split 607 1.0 (Split 822 1.0 (Split 156 1.0 (Split
  20 1.0 (Split 60 1.0 (Leaf (-0.035046823)) (Leaf 0.0396342)) (Split 540 1.0 (Leaf 0.049507983)
  (Leaf (-0.014156912)))) (Split 113 1.0 (Split 659 1.0 (Leaf (-0.016686356)) (Leaf 0.043950386))
  (Leaf 0.059171725))) (Split 494 1.0 (Split 537 1.0 (Split 452 1.0 (Leaf 0.01784689) (Leaf
  0.042402413)) (Leaf (-0.033327967))) (Leaf (-0.03637)))) (Split 435 1.0 (Split 16 1.0 (Split 641
  1.0 (Split 36 1.0 (Leaf (-0.027486382)) (Leaf 0.00337274)) (Leaf 0.0149944825)) (Leaf
  0.033071637)) (Split 670 1.0 (Split 659 1.0 (Leaf 0.018450487) (Leaf (-0.018109111))) (Leaf
  0.077629715)))) (Split 540 1.0 (Leaf 0.04011435) (Split 300 1.0 (Split 452 1.0 (Leaf
  (-0.03765333)) (Leaf 0.012101025)) (Leaf 0.0026517163)))) (Split 659 1.0 (Split 540 1.0 (Split
  156 1.0 (Split 300 1.0 (Leaf 0.011121868) (Leaf 0.032197226)) (Leaf 0.0006989467)) (Split 138 1.0
  (Split 300 1.0 (Leaf 0.0017488562) (Leaf (-0.002341558))) (Leaf (-0.028028795)))) (Split 452 1.0
  (Leaf 0.05516779) (Leaf (-0.0070259646))))) (Split 435 1.0 (Leaf 0.059332173) (Leaf 0.008449352)).

Definition var84 : tree :=
  Split 42 1.0 (Split 1019 1.0 (Split 833 1.0 (Split 104 1.0 (Split 980 1.0 (Split 479 1.0 (Split
  776 1.0 (Split 819 1.0 (Split 65 1.0 (Split 178 1.0 (Split 517 1.0 (Split 73 1.0 (Leaf
  0.01286673) (Leaf (-0.03213323))) (Split 870 1.0 (Leaf (-0.016298829)) (Leaf 0.035784587)))
  (Split 459 1.0 (Split 435 1.0 (Leaf (-0.01694411)) (Leaf (-0.04387703))) (Leaf 0.027338594)))
  (Split 996 1.0 (Split 518 1.0 (Split 979 1.0 (Leaf (-0.035127234)) (Leaf 0.024311638)) (Leaf
  0.041249536)) (Leaf 0.033840027))) (Split 20 1.0 (Split 156 2.0 (Split 345 1.0 (Split 517 1.0
  (Leaf 0.05001511) (Leaf 0.010276786)) (Leaf (-0.0027401971))) (Leaf (-0.004575118))) (Leaf
  (-0.002504999)))) (Split 655 1.0 (Split 741 1.0 (Split 203 1.0 (Split 286 1.0 (Split 485 1.0
  (Leaf (-0.03304506)) (Leaf 0.014436463)) (Leaf 0.025391985)) (Leaf 0.03875275)) (Leaf
  0.035409655)) (Leaf 0.043032814))) (Split 950 1.0 (Split 979 1.0 (Split 435 1.0 (Split 36 1.0
  (Split 812 1.0 (Split 540 1.0 (Leaf (-0.025193868)) (Leaf (-0.0077139633))) (Leaf 0.0063430863))
  (Leaf (-0.04055499))) (Split 203 1.0 (Leaf (-0.05212562)) (Leaf (-0.012625937)))) (Leaf
  0.011647742)) (Leaf 0.015697977))) (Split 540 1.0 (Split 1018 1.0 (Split 36 2.0 (Split 989 1.0
  (Split 979 1.0 (Split 156 1.0 (Split 812 1.0 (Leaf (-0.05560654)) (Leaf (-0.013960815))) (Leaf
  (-0.021711463))) (Leaf (-0.015107631))) (Leaf 0.0013398983)) (Leaf 0.012095087)) (Leaf
  0.018625557)) (Split 670 1.0 (Leaf (-0.0044237897)) (Leaf 0.037561253)))) var84_30382) (Split 36
  1.0 (Split 812 1.0 (Split 435 1.0 (Leaf 0.042891253) (Leaf 0.0134942)) (Leaf (-0.003364386)))
  (Leaf (-0.022279346)))) var84_30524) var84_30599.

Definition var85_30829 : tree :=
  Split 8 1.0 (Split 104 1.0 (Split 655 1.0 (Split 452 1.0 (Split 77 1.0 (Split 300 1.0 (Split 255
  1.0 (Split 678 1.0 (Leaf (-0.050779354)) (Leaf (-0.015317935))) (Leaf 0.0022186004)) (Split 912
  1.0 (Split 156 2.0 (Leaf (-0.003962749)) (Leaf (-0.016311316))) (Leaf 0.008861968))) (Leaf
  0.015081055)) (Split 128 1.0 (Split 14 1.0 (Leaf (-0.01987593)) (Leaf 0.0046573044)) (Leaf
  0.03289288))) (Split 540 1.0 (Leaf 0.019074367) (Leaf 0.001972338))) (Split 812 1.0 (Split 659
  1.0 (Split 540 1.0 (Leaf (-0.010511394)) (Leaf 0.018535133)) (Leaf (-0.020113437))) (Leaf
  0.033233833))) (Leaf 0.05864919).

Definition var85 : tree :=
  Split 42 1.0 (Split 833 1.0 (Split 502 1.0 (Split 621 1.0 (Split 19 1.0 (Split 986 1.0 (Split 630
  1.0 (Split 157 1.0 (Split 386 1.0 (Split 1002 1.0 (Split 678 1.0 (Split 190 1.0 (Leaf
  0.0023559816) (Leaf 0.038695417)) (Split 419 1.0 (Leaf (-0.014251095)) (Leaf 0.045869593)))
  (Split 532 1.0 (Split 62 1.0 (Leaf 0.04246161) (Leaf (-0.00655684))) (Leaf (-0.029564593))))
  (Split 872 1.0 (Split 104 1.0 (Split 300 1.0 (Leaf (-0.01694127)) (Leaf 0.011757596)) (Leaf
  0.023413384)) (Leaf 0.048012696))) (Split 45 1.0 (Split 435 1.0 (Leaf 0.05642536) (Split 300 1.0
  (Leaf (-0.00808077)) (Leaf 0.036982376))) (Leaf 0.0035197723))) (Split 641 1.0 (Split 799 1.0
  (Split 617 1.0 (Split 452 1.0 (Split 156 1.0 (Leaf (-0.06149413)) (Leaf (-0.0025133807))) (Split
  540 1.0 (Leaf (-0.031130968)) (Leaf 0.003332067))) (Leaf (-0.00032018273))) (Leaf 0.0053736614))
  (Leaf 0.024736468))) (Split 664 1.0 (Split 950 1.0 (Split 912 1.0 (Split 574 1.0 (Split 517 1.0
  (Split 776 1.0 (Leaf 0.050564032) (Leaf 0.011919056)) (Leaf 0.007573259)) (Leaf (-0.0055010202)))
  (Leaf 0.0032691357)) (Leaf (-0.009935553))) (Leaf (-0.025408888)))) (Split 392 1.0 (Split 300 1.0
  (Leaf (-0.05910045)) (Split 670 1.0 (Leaf (-0.022516731)) (Leaf 0.0036604598))) (Leaf
  (-0.0047285864)))) (Leaf (-0.060784604))) (Split 60 1.0 (Split 435 1.0 (Leaf 0.0047623203) (Leaf
  (-0.03655278))) (Leaf (-0.047454312)))) (Split 670 1.0 (Split 976 1.0 (Split 641 1.0 (Split 435
  1.0 (Leaf 0.04330563) (Leaf 0.0022382133)) (Leaf (-0.007412425))) (Leaf (-0.018916082))) (Leaf
  (-0.023684077)))) var85_30829.

Definition var86_31099 : tree :=
  Split 8 1.0 (Split 964 1.0 (Split 438 1.0 (Split 14 1.0 (Split 670 1.0 (Split 16 1.0 (Split 537
  1.0 (Split 641 1.0 (Split 104 1.0 (Split 517 1.0 (Split 300 1.0 (Leaf (-0.05152736)) (Leaf
  (-0.017121201))) (Leaf (-0.008524137))) (Leaf (-0.009627585))) (Leaf 0.003548457)) (Leaf
  0.012292052)) (Split 678 1.0 (Leaf (-0.007990012)) (Leaf 0.026676405))) (Split 128 1.0 (Leaf
  (-0.0140672)) (Leaf 0.018711403))) (Leaf 0.015970284)) (Leaf 0.029146878)) (Split 156 1.0 (Leaf
  0.039168686) (Leaf (-0.01817614)))) (Leaf 0.05730412).

Definition var86 : tree :=
  Split 42 1.0 (Split 833 1.0 (Split 133 1.0 (Split 621 1.0 (Split 473 1.0 (Split 53 1.0 (Split 438
  1.0 (Split 386 1.0 (Split 958 1.0 (Split 190 1.0 (Split 99 1.0 (Split 345 1.0 (Leaf
  (-0.0029001052)) (Leaf 0.038633183)) (Split 562 1.0 (Leaf 0.022605892) (Leaf (-0.043956332))))
  (Split 120 1.0 (Split 36 1.0 (Leaf (-0.017295776)) (Leaf 0.031708594)) (Leaf 0.047854833)))
  (Split 543 1.0 (Split 300 1.0 (Split 812 1.0 (Leaf 0.010961344) (Leaf (-0.009729931))) (Leaf
  (-0.01718537))) (Leaf 0.048007857))) (Split 872 1.0 (Split 36 1.0 (Split 300 1.0 (Leaf
  (-0.016824586)) (Leaf 0.010573516)) (Leaf 0.0197176)) (Leaf 0.04787933))) (Split 255 1.0 (Split
  104 1.0 (Split 824 1.0 (Leaf 0.06060038) (Leaf 0.018443516)) (Split 300 1.0 (Leaf 0.027158055)
  (Leaf (-0.011145854)))) (Leaf (-0.020507805)))) (Split 345 1.0 (Split 617 1.0 (Split 670 1.0
  (Split 641 1.0 (Split 14 1.0 (Split 574 1.0 (Leaf 0.054243978) (Leaf 0.0067867646)) (Leaf
  0.010748489)) (Split 452 1.0 (Leaf 0.00089761254) (Leaf (-0.004286169)))) (Split 641 1.0 (Split
  300 1.0 (Split 540 1.0 (Leaf 0.019623322) (Leaf (-0.0144896405))) (Leaf (-0.041510254))) (Leaf
  0.04936403))) (Split 452 1.0 (Leaf (-0.03602087)) (Leaf 0.020711923))) (Leaf (-0.022213934))))
  (Split 937 1.0 (Split 819 1.0 (Split 529 1.0 (Split 979 1.0 (Split 267 1.0 (Split 452 2.0 (Split
  156 1.0 (Leaf (-0.054134663)) (Leaf (-0.027087152))) (Leaf 0.00030389582)) (Leaf
  (-0.0025201447))) (Leaf 0.009596802)) (Leaf 0.01492098)) (Leaf 0.02667501)) (Leaf 0.021466183)))
  (Leaf (-0.05915941))) (Split 300 1.0 (Split 799 1.0 (Split 452 1.0 (Leaf (-0.04679982)) (Leaf
  (-0.0068084635))) (Leaf 0.015175122)) (Split 300 2.0 (Leaf 0.015158433) (Leaf (-0.0060720867)))))
  (Split 670 1.0 (Split 976 1.0 (Split 641 1.0 (Split 435 1.0 (Leaf 0.04291506) (Leaf
  0.0021620684)) (Leaf (-0.0072044814))) (Leaf (-0.018415697))) (Leaf (-0.023194892)))) var86_31099.

Definition var87_31328 : tree :=
  Split 392 1.0 (Split 300 1.0 (Split 156 1.0 (Split 435 1.0 (Split 678 1.0 (Leaf (-0.07451927))
  (Leaf (-0.019501444))) (Leaf (-0.016050754))) (Leaf (-0.018426023))) (Split 670 1.0 (Leaf
  (-0.020034786)) (Leaf 0.0014193578))) (Leaf (-0.0044854707)).

Definition var87_31457 : tree :=
  Split 8 1.0 (Split 964 1.0 (Split 438 1.0 (Split 979 1.0 (Split 128 1.0 (Split 537 1.0 (Split 16
  1.0 (Split 14 1.0 (Split 607 1.0 (Split 104 1.0 (Leaf (-0.051648375)) (Leaf (-0.017245756)))
  (Leaf (-0.002836001))) (Leaf 0.011118778)) (Leaf 0.01054234)) (Leaf 0.008138373)) (Split 452 1.0
  (Split 36 1.0 (Leaf (-0.021119777)) (Leaf 0.00049718)) (Leaf 0.03127833))) (Split 36 1.0 (Leaf
  0.027571414) (Leaf (-0.029169967)))) (Leaf 0.028264983)) (Split 156 1.0 (Leaf 0.03764564) (Leaf
  (-0.01772408)))) (Leaf 0.056000996).

Definition var87_31374 : tree :=
  Split 327 1.0 (Split 575 1.0 (Split 979 1.0 (Split 138 1.0 (Split 855 1.0 (Split 780 1.0 (Split
  303 1.0 (Split 822 1.0 (Split 99 1.0 (Split 799 1.0 (Leaf (-0.042386718)) (Leaf
  (-0.00060380425))) (Split 540 1.0 (Leaf 0.01839094) (Leaf (-0.010485175)))) (Split 300 1.0 (Leaf
  0.02654777) (Leaf (-0.012215082)))) (Leaf 0.017620897)) (Split 300 1.0 (Leaf 0.032440584) (Leaf
  (-0.008803996)))) (Split 789 1.0 (Leaf 0.0324795) (Leaf (-0.015252485)))) (Split 16 1.0 (Leaf
  0.0252692) (Leaf (-0.014553231)))) (Split 452 1.0 (Split 156 1.0 (Split 435 1.0 (Leaf
  (-0.023504844)) (Leaf 0.0029449405)) (Leaf 0.010543076)) (Split 574 1.0 (Split 540 1.0 (Leaf
  0.035251096) (Leaf 0.010013446)) (Leaf 0.008650112)))) (Leaf 0.044377834)) (Leaf (-0.047063995)).

Definition var87 : tree :=
  Split 42 1.0 (Split 1019 1.0 (Split 833 1.0 (Split 19 1.0 (Split 980 1.0 (Split 104 1.0 (Split
  178 1.0 (Split 345 1.0 (Split 776 1.0 (Split 819 1.0 (Split 65 1.0 (Split 294 1.0 (Leaf
  0.008978545) (Leaf (-0.029637227))) (Split 733 1.0 (Leaf (-0.026252672)) (Leaf 0.045470357)))
  (Split 20 1.0 (Split 300 2.0 (Leaf 0.046646338) (Leaf (-0.0041180416))) (Leaf (-0.0034188756))))
  (Split 655 1.0 (Split 741 1.0 (Split 169 1.0 (Leaf (-0.02791443)) (Leaf 0.032132193)) (Leaf
  0.034900185)) (Leaf 0.035422426))) (Split 979 1.0 (Split 679 1.0 (Leaf 0.07180176) (Leaf
  0.005206954)) (Leaf (-0.029353311)))) (Split 459 1.0 (Split 537 1.0 (Split 819 1.0 (Split 53 1.0
  (Split 435 1.0 (Leaf (-0.02087594)) (Leaf (-0.04466767))) (Leaf 0.009743499)) (Leaf 0.007891806))
  (Leaf 0.009883861)) (Leaf 0.03175741))) (Split 329 1.0 (Split 659 1.0 (Split 8 1.0 (Split 754 1.0
  (Split 822 1.0 (Split 346 1.0 (Leaf (-0.023509173)) (Leaf 0.040442716)) (Split 537 1.0 (Leaf
  0.017377693) (Leaf (-0.033551376)))) (Leaf 0.046826433)) (Split 300 1.0 (Leaf 0.036281113) (Leaf
  (-0.010829013)))) (Split 357 1.0 (Split 113 1.0 (Split 117 1.0 (Split 452 2.0 (Leaf 0.03144303)
  (Leaf (-0.0155992275))) (Leaf (-0.025011757))) (Leaf (-0.025860792))) (Leaf (-0.03623299))))
  (Split 435 1.0 (Leaf 0.057664067) (Leaf 0.008031892)))) (Split 141 1.0 (Split 267 1.0 (Split 655
  1.0 (Split 36 2.0 (Split 682 1.0 (Split 23 1.0 (Split 812 1.0 (Leaf (-0.051272113)) (Leaf
  (-0.014300505))) (Leaf (-0.0068207914))) (Leaf (-0.00004158501))) (Leaf 0.01237955)) (Leaf
  0.009751905)) (Leaf 0.02178683)) (Leaf 0.03170566))) var87_31328) (Split 36 1.0 (Split 812 1.0
  (Split 435 1.0 (Split 300 1.0 (Leaf 0.042632848) (Leaf 0.014490333)) (Leaf 0.013316846)) (Leaf
  (-0.0032459404))) (Leaf (-0.022294775)))) var87_31374) var87_31457.

Definition var88_31691 : tree :=
  Split 8 1.0 (Split 104 1.0 (Split 1018 1.0 (Split 452 1.0 (Split 300 1.0 (Split 964 1.0 (Split
  912 1.0 (Split 16 1.0 (Leaf (-0.04881377)) (Leaf (-0.0062119784))) (Leaf (-0.0020467027))) (Leaf
  0.012250508)) (Split 156 2.0 (Split 128 1.0 (Leaf 0.013081387) (Leaf (-0.015500135))) (Leaf
  (-0.019355327)))) (Split 128 1.0 (Split 678 1.0 (Leaf (-0.0073293685)) (Leaf (-0.025596624)))
  (Leaf 0.031715456))) (Leaf 0.027336022)) (Split 812 1.0 (Split 659 1.0 (Split 540 1.0 (Leaf
  (-0.009754474)) (Leaf 0.017498096)) (Leaf (-0.01986303))) (Leaf 0.032274567))) (Leaf 0.054739174).

Definition var88 : tree :=
  Split 42 1.0 (Split 833 1.0 (Split 502 1.0 (Split 986 1.0 (Split 709 1.0 (Split 838 1.0 (Split
  386 1.0 (Split 1002 1.0 (Split 678 1.0 (Split 958 1.0 (Split 190 1.0 (Split 267 1.0 (Leaf
  (-0.0016417357)) (Leaf 0.021814184)) (Split 120 1.0 (Leaf 0.0010124893) (Leaf 0.04768874)))
  (Split 543 1.0 (Split 812 1.0 (Leaf (-0.011009018)) (Leaf 0.017428858)) (Leaf 0.04784651)))
  (Split 419 1.0 (Split 799 1.0 (Split 964 1.0 (Leaf (-0.021137077)) (Leaf 0.012187125)) (Split 23
  1.0 (Leaf 0.029313648) (Leaf (-0.03240241)))) (Leaf 0.04202651))) (Split 532 1.0 (Split 62 1.0
  (Split 580 1.0 (Split 156 1.0 (Leaf 0.033620987) (Leaf 0.06736138)) (Leaf (-0.0006104264))) (Leaf
  (-0.006169111))) (Leaf (-0.028856937)))) (Split 872 1.0 (Split 300 1.0 (Leaf (-0.0116267)) (Split
  678 1.0 (Leaf 0.015261545) (Leaf 0.0014363279))) (Leaf 0.047711834))) (Split 976 1.0 (Leaf
  (-0.05971211)) (Leaf (-0.016610252)))) (Split 976 1.0 (Split 141 1.0 (Split 678 1.0 (Leaf
  0.053160857) (Split 36 1.0 (Leaf 0.006565212) (Leaf 0.027753267))) (Leaf 0.0019268742)) (Leaf
  0.00078327704))) (Split 664 1.0 (Split 950 1.0 (Split 912 1.0 (Split 574 1.0 (Split 517 1.0
  (Split 435 1.0 (Leaf 0.050030317) (Split 789 1.0 (Leaf 0.03838642) (Leaf (-0.0129798995)))) (Leaf
  0.0072567323)) (Leaf (-0.00528873))) (Leaf 0.0028521742)) (Leaf (-0.010259306))) (Leaf
  (-0.024673194)))) (Split 60 1.0 (Split 435 1.0 (Leaf 0.0048051155) (Leaf (-0.03564715))) (Leaf
  (-0.046992444)))) (Split 435 1.0 (Split 812 1.0 (Split 540 1.0 (Split 300 1.0 (Leaf 0.04239678)
  (Leaf 0.011324084)) (Leaf (-0.004995802))) (Leaf (-0.012243769))) (Leaf (-0.004580387))))
  var88_31691.

Definition var89_31916 : tree :=
  Split 937 1.0 (Split 979 1.0 (Split 812 1.0 (Split 330 1.0 (Split 522 1.0 (Split 128 1.0 (Split
  617 1.0 (Leaf (-0.046288334)) (Leaf (-0.008062894))) (Leaf (-0.015878385))) (Leaf
  (-0.0069519165))) (Leaf 0.0008436967)) (Leaf (-0.0018484563))) (Leaf 0.008720621)) (Split 36 1.0
  (Leaf 0.0002682713) (Leaf 0.019736346)).

Definition var89_32037 : tree :=
  Split 8 1.0 (Split 104 1.0 (Split 1018 1.0 (Split 822 1.0 (Split 537 1.0 (Split 392 1.0 (Split
  255 1.0 (Split 300 1.0 (Split 128 1.0 (Leaf (-0.049833354)) (Leaf (-0.003356371))) (Split 789 1.0
  (Split 36 1.0 (Leaf 0.0054988666) (Leaf (-0.014892039))) (Leaf (-0.024525536)))) (Leaf
  0.012577352)) (Leaf 0.012953027)) (Leaf 0.016324362)) (Leaf 0.015655493)) (Leaf 0.026629994))
  (Split 812 1.0 (Split 659 1.0 (Split 540 1.0 (Leaf (-0.009478609)) (Leaf 0.016922984)) (Leaf
  (-0.019412894))) (Leaf 0.031471875))) (Leaf 0.053517856).

Definition var89_31966 : tree :=
  Split 968 1.0 (Split 575 1.0 (Split 979 1.0 (Split 419 1.0 (Split 662 1.0 (Split 303 1.0 (Split
  780 1.0 (Split 77 1.0 (Split 855 1.0 (Split 1002 1.0 (Leaf (-0.031883694)) (Leaf 0.01771315))
  (Split 36 1.0 (Leaf 0.024891034) (Leaf (-0.0055694673)))) (Split 678 1.0 (Leaf 0.020999275) (Leaf
  (-0.015971374)))) (Split 300 1.0 (Leaf 0.032891903) (Leaf (-0.0086473385)))) (Leaf 0.020253599))
  (Leaf 0.024608554)) (Leaf (-0.05609084))) (Split 452 1.0 (Split 156 1.0 (Split 435 1.0 (Leaf
  (-0.023004843)) (Leaf 0.0028622744)) (Leaf 0.011389464)) (Split 574 1.0 (Leaf 0.030277718) (Leaf
  0.008492383)))) (Leaf 0.043171775)) (Leaf (-0.047331277)).

Definition var89 : tree :=
  Split 42 1.0 (Split 1019 1.0 (Split 833 1.0 (Split 479 1.0 (Split 43 1.0 (Split 517 1.0 (Split
  178 1.0 (Split 473 1.0 (Split 73 1.0 (Split 944 1.0 (Split 621 1.0 (Split 630 1.0 (Leaf
  0.010930319) (Leaf (-0.032451373))) (Split 678 1.0 (Leaf (-0.06077319)) (Leaf (-0.015225879))))
  (Split 641 1.0 (Split 995 1.0 (Leaf (-0.0495806)) (Leaf (-0.0012263672))) (Leaf 0.010199113)))
  (Split 255 1.0 (Split 141 1.0 (Split 653 1.0 (Leaf (-0.038555264)) (Leaf 0.010372701)) (Leaf
  0.010874818)) (Leaf 0.031350255))) (Split 937 1.0 (Split 529 1.0 (Split 128 1.0 (Split 979 1.0
  (Leaf (-0.046714596)) (Leaf 0.007258518)) (Split 300 1.0 (Leaf 0.012296247) (Leaf
  (-0.027276028)))) (Leaf 0.021021752)) (Leaf 0.027230486))) (Split 537 1.0 (Split 641 1.0 (Split
  53 1.0 (Split 819 1.0 (Split 617 1.0 (Leaf (-0.027278317)) (Leaf (-0.05393823))) (Leaf
  0.006319017)) (Leaf 0.009618199)) (Split 435 1.0 (Leaf 0.028777424) (Leaf (-0.018536413))))
  (Split 36 1.0 (Leaf (-0.0059370114)) (Leaf 0.030394787)))) (Split 870 1.0 (Split 392 1.0 (Split
  526 1.0 (Split 335 1.0 (Split 623 1.0 (Split 989 1.0 (Leaf (-0.027442887)) (Leaf 0.024186185))
  (Leaf 0.03012451)) (Leaf 0.03614795)) (Leaf 0.04012018)) (Split 540 2.0 (Split 36 1.0 (Leaf
  (-0.009919807)) (Leaf 0.020116627)) (Leaf 0.06069039))) (Split 452 1.0 (Leaf 0.03975443) (Leaf
  0.00061473553)))) (Split 822 1.0 (Split 819 1.0 (Split 452 2.0 (Split 979 1.0 (Leaf
  (-0.056757834)) (Leaf (-0.016072193))) (Leaf (-0.001016484))) (Leaf 0.009083393)) (Leaf
  0.009062594))) var89_31916) (Split 36 1.0 (Split 641 1.0 (Split 660 1.0 (Leaf 0.031637754) (Leaf
  0.047005393)) (Leaf (-0.0022036198))) (Leaf (-0.021942254)))) var89_31966) var89_32037.

Definition var90_32331 : tree :=
  Split 662 1.0 (Split 479 1.0 (Split 104 1.0 (Split 964 1.0 (Split 0 1.0 (Split 682 1.0 (Split 267
  1.0 (Split 780 1.0 (Leaf 0.053895094) (Leaf 0.015829345)) (Leaf 0.015754325)) (Leaf
  0.0151949255)) (Leaf 0.010833665)) (Leaf 0.009067421)) (Split 435 1.0 (Leaf 0.028079817) (Leaf
  (-0.0075391876)))) (Leaf 0.00082224945)) (Leaf 0.0046136915).

Definition var90_32280 : tree :=
  Split 822 1.0 (Split 655 1.0 (Split 255 1.0 (Split 799 1.0 (Split 537 1.0 (Split 670 1.0 (Split
  517 1.0 (Split 14 1.0 (Split 985 1.0 (Split 678 1.0 (Leaf (-0.05107229)) (Leaf (-0.015116137)))
  (Leaf (-0.0032792226))) (Leaf 0.0023346536)) (Leaf 0.014241095)) (Split 128 1.0 (Leaf
  (-0.023242025)) (Leaf 0.03447475))) (Leaf 0.014144433)) (Leaf 0.023214804)) (Leaf 0.017336305))
  (Leaf 0.02409241)) (Split 540 1.0 (Leaf 0.0070506604) (Leaf 0.03705594)).

Definition var90 : tree :=
  Split 330 1.0 (Split 42 1.0 (Split 833 1.0 (Split 311 1.0 (Split 630 1.0 (Split 438 1.0 (Split
  479 1.0 (Split 53 1.0 (Split 517 1.0 (Split 19 1.0 (Split 286 1.0 (Split 386 1.0 (Leaf
  0.001704927) (Leaf 0.039288376)) (Split 540 1.0 (Leaf 0.058389094) (Leaf 0.022486163))) (Split
  392 1.0 (Split 156 1.0 (Leaf (-0.062414136)) (Leaf (-0.008969101))) (Leaf 0.011240933))) (Split
  870 1.0 (Split 814 1.0 (Split 392 1.0 (Leaf (-0.02648727)) (Leaf 0.028093014)) (Leaf 0.05289639))
  (Leaf 0.036345027))) (Split 86 1.0 (Split 617 1.0 (Split 532 1.0 (Split 178 1.0 (Leaf
  0.045487564) (Leaf (-0.0025198117))) (Leaf (-0.017747514))) (Split 452 1.0 (Leaf (-0.038025104))
  (Leaf 0.018618226))) (Split 473 1.0 (Leaf 0.0022487189) (Leaf (-0.032780282))))) (Split 979 1.0
  (Split 267 1.0 (Split 128 1.0 (Split 14 1.0 (Split 617 1.0 (Leaf (-0.050063934)) (Leaf
  (-0.0038641281))) (Leaf 0.0054203873)) (Split 435 1.0 (Leaf 0.017532343) (Leaf (-0.017741064))))
  (Leaf 0.011957087)) (Leaf 0.014702256))) (Split 255 1.0 (Split 912 1.0 (Split 607 1.0 (Split 976
  1.0 (Split 452 2.0 (Split 36 1.0 (Leaf 0.06493384) (Leaf 0.028410945)) (Leaf 0.015951218)) (Leaf
  0.0068318634)) (Leaf (-0.0047734287))) (Leaf (-0.0066179163))) (Leaf (-0.017216304)))) (Split 976
  1.0 (Split 617 1.0 (Split 789 1.0 (Split 156 1.0 (Split 812 1.0 (Leaf (-0.05571575)) (Leaf
  (-0.015997076))) (Leaf (-0.020167956))) (Leaf (-0.017538942))) (Leaf (-0.0014996042))) (Leaf
  0.01400138))) (Split 36 1.0 (Split 540 1.0 (Leaf (-0.046500027)) (Leaf (-0.0016159446))) (Leaf
  0.0050187106))) (Split 435 1.0 (Split 812 1.0 (Split 540 1.0 (Split 300 1.0 (Leaf 0.041719634)
  (Leaf 0.010769782)) (Leaf (-0.005160288))) (Leaf (-0.012137714))) (Leaf (-0.008288467))))
  var90_32280) var90_32331.

Definition var91_32561 : tree :=
  Split 662 1.0 (Split 479 1.0 (Split 104 1.0 (Split 964 1.0 (Split 0 1.0 (Split 682 1.0 (Split 267
  1.0 (Split 780 1.0 (Leaf 0.053222757) (Leaf 0.015497222)) (Leaf 0.015412867)) (Leaf 0.014842339))
  (Leaf 0.010592744)) (Leaf 0.008858613)) (Split 435 1.0 (Leaf 0.027458696) (Leaf
  (-0.0073380484)))) (Leaf 0.0008013481)) (Leaf 0.0044712923).

Definition var91 : tree :=
  Split 330 1.0 (Split 42 1.0 (Split 833 1.0 (Split 133 1.0 (Split 630 1.0 (Split 815 1.0 (Split
  621 1.0 (Split 178 1.0 (Split 345 1.0 (Split 575 1.0 (Split 43 1.0 (Split 912 1.0 (Leaf
  0.0049124095) (Leaf (-0.013413221))) (Split 452 2.0 (Leaf (-0.04670771)) (Leaf 0.013073712)))
  (Split 979 1.0 (Split 659 1.0 (Leaf 0.0594397) (Leaf (-0.014120172))) (Leaf (-0.018592393))))
  (Split 979 1.0 (Split 641 1.0 (Split 679 1.0 (Leaf 0.07538789) (Leaf 0.016020622)) (Leaf
  (-0.007272519))) (Leaf (-0.024152888)))) (Split 459 1.0 (Split 537 1.0 (Split 284 1.0 (Split 99
  1.0 (Leaf (-0.031503335)) (Leaf (-0.0009091396))) (Leaf 0.02054993)) (Split 36 1.0 (Leaf
  (-0.007979212)) (Leaf 0.0360734))) (Leaf 0.030622674))) (Leaf (-0.05633049))) (Split 452 1.0
  (Leaf (-0.05211317)) (Split 540 1.0 (Leaf (-0.029238073)) (Leaf 0.013968502)))) (Split 976 1.0
  (Split 617 1.0 (Split 789 1.0 (Leaf (-0.049139883)) (Leaf (-0.016988588))) (Leaf
  (-0.0014512662))) (Leaf 0.008439207))) (Split 300 1.0 (Split 799 1.0 (Split 452 1.0 (Leaf
  (-0.045646902)) (Leaf (-0.0080767935))) (Leaf 0.014760651)) (Split 300 2.0 (Leaf 0.013373195)
  (Leaf (-0.0061275545))))) (Split 435 1.0 (Split 812 1.0 (Split 540 1.0 (Split 300 1.0 (Leaf
  0.04134742) (Leaf 0.01046106)) (Leaf (-0.0050211377))) (Leaf (-0.011798405))) (Leaf
  (-0.007981124)))) (Split 822 1.0 (Split 655 1.0 (Split 255 1.0 (Split 799 1.0 (Split 537 1.0
  (Split 670 1.0 (Split 517 1.0 (Split 14 1.0 (Split 985 1.0 (Split 678 1.0 (Leaf (-0.050599225))
  (Leaf (-0.014646046))) (Leaf (-0.0031942434))) (Leaf 0.0022751826)) (Leaf 0.01379654)) (Split 128
  1.0 (Leaf (-0.022580555)) (Leaf 0.033372708))) (Leaf 0.013685017)) (Leaf 0.022719955)) (Leaf
  0.016751835)) (Leaf 0.023151731)) (Split 540 1.0 (Leaf 0.006822874) (Leaf 0.03598524))))
  var91_32561.

Definition var92_32835 : tree :=
  Split 662 1.0 (Split 479 1.0 (Split 104 1.0 (Split 964 1.0 (Split 0 1.0 (Split 682 1.0 (Split 267
  1.0 (Split 780 1.0 (Leaf 0.052559342) (Leaf 0.0151716)) (Leaf 0.015078521)) (Leaf 0.014497637))
  (Leaf 0.010357245)) (Leaf 0.008654554)) (Split 435 1.0 (Leaf 0.026849965) (Leaf (-0.007142292))))
  (Leaf 0.0007809763)) (Leaf 0.004333262).

Definition var92_32784 : tree :=
  Split 822 1.0 (Split 655 1.0 (Split 255 1.0 (Split 799 1.0 (Split 537 1.0 (Split 670 1.0 (Split
  517 1.0 (Split 14 1.0 (Split 985 1.0 (Split 678 1.0 (Leaf (-0.050100822)) (Leaf (-0.014189838)))
  (Leaf (-0.0031114656))) (Leaf 0.002217217)) (Leaf 0.013366453)) (Split 128 1.0 (Leaf
  (-0.021936154)) (Leaf 0.032309648))) (Leaf 0.013240948)) (Leaf 0.022236425)) (Leaf 0.016187513))
  (Leaf 0.022249362)) (Split 540 1.0 (Leaf 0.0066024247) (Leaf 0.034952037)).

Definition var92 : tree :=
  Split 330 1.0 (Split 42 1.0 (Split 833 1.0 (Split 709 1.0 (Split 986 1.0 (Split 386 1.0 (Split
  157 1.0 (Split 780 1.0 (Split 365 1.0 (Split 958 1.0 (Split 799 1.0 (Split 979 1.0 (Leaf
  (-0.009700414)) (Leaf 0.008360758)) (Split 463 1.0 (Leaf 0.019035408) (Leaf (-0.059938874))))
  (Split 543 1.0 (Split 979 1.0 (Leaf (-0.011513428)) (Leaf 0.0043328274)) (Leaf 0.047654536)))
  (Split 120 1.0 (Split 540 1.0 (Split 435 1.0 (Leaf 0.010793009) (Leaf (-0.0068052337))) (Leaf
  (-0.021256661))) (Leaf 0.047490817))) (Split 8 1.0 (Split 670 1.0 (Split 553 1.0 (Split 426 1.0
  (Leaf 0.024331972) (Leaf (-0.015088174))) (Leaf (-0.03496513))) (Split 995 1.0 (Split 540 1.0
  (Leaf (-0.032581504)) (Leaf (-0.006007992))) (Leaf 0.03265859))) (Split 36 1.0 (Leaf 0.05637285)
  (Leaf (-0.009670378))))) (Split 45 1.0 (Split 435 1.0 (Leaf 0.053499844) (Split 300 1.0 (Leaf
  (-0.02546451)) (Leaf 0.035392493))) (Leaf (-0.0046284604)))) (Split 872 1.0 (Split 300 1.0 (Leaf
  (-0.014944515)) (Split 678 1.0 (Leaf 0.0129020205) (Leaf 0.000027471155))) (Leaf 0.047397576)))
  (Split 664 1.0 (Split 985 1.0 (Split 148 1.0 (Split 517 1.0 (Split 244 1.0 (Split 296 1.0 (Split
  670 1.0 (Leaf 0.04896305) (Leaf 0.016294878)) (Leaf (-0.000044122524))) (Leaf (-0.0050796405)))
  (Split 540 1.0 (Leaf 0.0066736946) (Leaf (-0.004604585)))) (Leaf (-0.012158747))) (Leaf
  (-0.0071836594))) (Leaf (-0.024325876)))) (Split 976 1.0 (Split 141 1.0 (Split 678 1.0 (Leaf
  0.05202932) (Split 36 1.0 (Leaf 0.006287787) (Leaf 0.026612593))) (Leaf 0.002511019)) (Leaf
  (-0.00039872012)))) (Split 435 1.0 (Split 812 1.0 (Split 540 1.0 (Split 300 1.0 (Leaf 0.04096548)
  (Leaf 0.010161138)) (Leaf (-0.0048857457))) (Leaf (-0.011468895))) (Leaf (-0.00768527))))
  var92_32784) var92_32835.

Definition var93_33157 : tree :=
  Split 662 1.0 (Split 479 1.0 (Split 104 1.0 (Split 964 1.0 (Split 0 1.0 (Split 682 1.0 (Split 267
  1.0 (Split 780 1.0 (Split 452 2.0 (Leaf 0.054303106) (Leaf 0.018339263)) (Leaf 0.014852396))
  (Leaf 0.014751139)) (Leaf 0.014160672)) (Leaf 0.010127028)) (Leaf 0.008455174)) (Split 435 1.0
  (Leaf 0.02625345) (Leaf (-0.0069517805)))) (Leaf 0.000761122)) (Leaf 0.0041994727).

Definition var93_33040 : tree :=
  Split 812 1.0 (Split 822 1.0 (Split 655 1.0 (Split 452 1.0 (Split 77 1.0 (Split 156 1.0 (Leaf
  (-0.048459835)) (Leaf (-0.012104367))) (Leaf 0.008013574)) (Split 659 1.0 (Split 435 1.0 (Leaf
  (-0.019791728)) (Leaf 0.00026598276)) (Leaf 0.025568878))) (Leaf 0.017586201)) (Leaf 0.01941943))
  (Split 435 1.0 (Split 979 1.0 (Split 36 1.0 (Leaf (-0.007316723)) (Leaf 0.014890127)) (Leaf
  0.03387424)) (Leaf (-0.017677633))).

Definition var93_33087 : tree :=
  Split 300 1.0 (Split 655 1.0 (Split 49 1.0 (Split 498 1.0 (Split 36 1.0 (Split 979 1.0 (Split 517
  1.0 (Leaf 0.05987325) (Leaf 0.01751914)) (Leaf 0.0131940665)) (Split 679 1.0 (Split 435 1.0 (Leaf
  0.042162906) (Leaf 0.005030422)) (Leaf (-0.030717773)))) (Split 452 1.0 (Leaf (-0.016941776))
  (Leaf 0.017785974))) (Leaf (-0.019934198))) (Leaf (-0.02728889))) (Split 518 1.0 (Split 128 1.0
  (Leaf (-0.009438722)) (Leaf 0.009434379)) (Leaf (-0.029417306))).

Definition var93 : tree :=
  Split 330 1.0 (Split 833 1.0 (Split 8 1.0 (Split 42 1.0 (Split 55 1.0 (Split 575 1.0 (Split 407
  1.0 (Split 824 1.0 (Split 799 1.0 (Split 979 1.0 (Split 543 1.0 (Split 386 1.0 (Leaf
  (-0.010457391)) (Leaf 0.036846064)) (Split 800 1.0 (Leaf (-0.014139274)) (Leaf 0.046824824)))
  (Split 77 1.0 (Split 149 1.0 (Leaf 0.013702852) (Leaf (-0.048830006))) (Split 36 1.0 (Leaf
  (-0.046967093)) (Leaf 0.0024466736)))) (Split 463 1.0 (Split 50 1.0 (Split 874 1.0 (Leaf
  0.025639435) (Leaf (-0.05518501))) (Leaf (-0.05944578))) (Leaf (-0.05824035)))) (Split 432 1.0
  (Split 498 1.0 (Split 141 1.0 (Split 138 1.0 (Leaf 0.055105843) (Leaf (-0.0010657418))) (Leaf
  (-0.016215516))) (Leaf (-0.019999942))) (Leaf (-0.046893325)))) (Split 300 1.0 (Split 976 1.0
  (Leaf 0.07113225) (Leaf 0.01175071)) (Split 822 1.0 (Split 659 1.0 (Split 435 1.0 (Leaf
  (-0.019438287)) (Leaf (-0.0020328895))) (Leaf 0.013671713)) (Leaf 0.040461477)))) (Split 979 1.0
  (Split 659 1.0 (Split 950 1.0 (Split 494 1.0 (Split 300 1.0 (Split 435 1.0 (Leaf 0.051202323)
  (Leaf 0.00041858663)) (Leaf 0.071229234)) (Leaf 0.0064435787)) (Leaf 0.0014014867)) (Leaf
  (-0.013526584))) (Leaf (-0.015566428)))) (Split 972 1.0 (Split 815 1.0 (Split 702 1.0 (Split 509
  1.0 (Split 104 1.0 (Split 55 2.0 (Split 874 1.0 (Leaf 0.04097481) (Leaf (-0.012072485))) (Split
  300 1.0 (Leaf (-0.03695815)) (Leaf 0.01613235))) (Split 540 1.0 (Split 300 1.0 (Leaf 0.008956991)
  (Leaf (-0.001843028))) (Leaf (-0.009893948)))) (Leaf (-0.021060325))) (Leaf (-0.030170891)))
  (Leaf (-0.0363292))) (Leaf (-0.04636218)))) var93_33040) var93_33087) (Split 435 1.0 (Split 812
  1.0 (Split 540 1.0 (Split 300 1.0 (Leaf 0.040573437) (Leaf 0.009869769)) (Leaf (-0.004754)))
  (Leaf (-0.011148875))) (Leaf (-0.007400468)))) var93_33157.

Definition var94_33350 : tree :=
  Split 36 1.0 (Split 540 2.0 (Split 255 1.0 (Split 912 1.0 (Split 789 1.0 (Leaf 0.07075771) (Leaf
  (-0.0002870905))) (Leaf 0.0073838457)) (Leaf (-0.009653712))) (Leaf (-0.015123263))) (Split 300
  1.0 (Leaf (-0.017005501)) (Leaf (-0.0042536887))).

Definition var94_33487 : tree :=
  Split 540 2.0 (Split 472 1.0 (Split 255 1.0 (Split 607 1.0 (Split 980 1.0 (Split 976 1.0 (Split
  452 2.0 (Split 16 1.0 (Leaf 0.07127329) (Leaf 0.021537684)) (Leaf 0.0097166775)) (Leaf
  0.00781478)) (Leaf (-0.0007196993))) (Leaf (-0.0043706954))) (Split 435 1.0 (Leaf 0.006219929)
  (Leaf (-0.010539114)))) (Leaf (-0.018882303))) (Leaf (-0.017156474)).

Definition var94_33377 : tree :=
  Split 697 1.0 (Split 509 1.0 (Split 540 2.0 (Split 392 1.0 (Split 138 1.0 (Split 435 1.0 (Split
  498 1.0 (Split 950 1.0 (Split 128 1.0 (Leaf 0.06669741) (Leaf 0.0260382)) (Leaf 0.01084496))
  (Leaf 0.003215199)) (Split 822 1.0 (Split 23 1.0 (Split 912 1.0 (Leaf 0.039009474) (Leaf
  0.0063611725)) (Leaf 0.003916643)) (Leaf (-0.0006179879)))) (Leaf 0.0025050996)) (Leaf
  (-0.0068874704))) (Split 104 1.0 (Leaf 0.0018415669) (Leaf (-0.008382197)))) (Leaf
  (-0.023860073))) (Leaf (-0.036270928)).

Definition var94_33432 : tree :=
  Split 77 1.0 (Split 104 1.0 (Split 300 1.0 (Split 670 1.0 (Split 128 1.0 (Split 435 1.0 (Split 36
  1.0 (Split 659 1.0 (Leaf 0.008312722) (Leaf 0.0351897)) (Leaf 0.040366173)) (Leaf 0.053523522))
  (Leaf (-0.008683398))) (Split 540 1.0 (Leaf (-0.011817228)) (Leaf 0.0039998367))) (Split 682 1.0
  (Split 284 1.0 (Split 912 1.0 (Leaf 0.06931009) (Leaf 0.01986788)) (Leaf 0.015870256)) (Leaf
  0.0033594898))) (Split 300 1.0 (Leaf (-0.024090117)) (Leaf 0.012305371))) (Leaf (-0.028762365)).

Definition var94 : tree :=
  Split 438 1.0 (Split 733 1.0 (Split 819 1.0 (Split 751 1.0 (Split 99 1.0 (Split 872 1.0 (Split
  833 1.0 (Split 365 1.0 (Split 286 1.0 (Split 958 1.0 (Split 780 1.0 (Split 979 1.0 (Leaf
  (-0.012030567)) (Leaf 0.006142273)) (Split 8 1.0 (Leaf 0.010552417) (Leaf 0.04433144))) (Split
  543 1.0 (Split 812 1.0 (Leaf (-0.018266033)) (Leaf 0.006459267)) (Leaf 0.047363102))) (Split 617
  1.0 (Split 670 1.0 (Split 452 1.0 (Leaf 0.05109566) (Leaf 0.01837412)) (Leaf 0.008684288)) (Leaf
  0.0015459756))) (Split 120 1.0 (Split 300 1.0 (Split 435 1.0 (Leaf (-0.0005582967)) (Leaf
  (-0.020443786))) (Leaf 0.0075231763)) (Leaf 0.047374718))) (Split 452 1.0 (Split 36 1.0 (Split
  660 1.0 (Split 435 1.0 (Split 300 1.0 (Leaf 0.029774873) (Leaf 0.0047321054)) (Leaf
  0.0046797968)) (Leaf 0.04622739)) (Leaf (-0.03051093))) (Leaf (-0.024991682)))) (Split 452 1.0
  (Split 435 1.0 (Leaf 0.010602762) (Leaf (-0.019007033))) (Leaf 0.04669098))) (Split 141 1.0
  (Split 844 1.0 (Split 388 1.0 (Split 300 2.0 (Split 874 1.0 (Split 178 1.0 (Split 989 1.0 (Leaf
  0.037304346) (Leaf (-0.015069178))) (Split 36 1.0 (Leaf (-0.022339126)) (Leaf 0.013049624)))
  (Leaf (-0.024263572))) (Leaf (-0.025814777))) (Leaf (-0.029998947))) (Leaf (-0.028408146)))
  (Split 397 1.0 (Split 435 1.0 (Split 540 1.0 (Leaf 0.027353486) (Leaf (-0.013832894))) (Split 300
  1.0 (Leaf (-0.0020011745)) (Leaf (-0.019343732)))) (Leaf (-0.06597554))))) var94_33350)
  var94_33377) var94_33432) var94_33487.

Definition var95_33707 : tree :=
  Split 532 1.0 (Split 62 1.0 (Split 950 1.0 (Split 580 1.0 (Split 156 1.0 (Split 912 1.0 (Split 16
  1.0 (Split 1019 1.0 (Split 679 1.0 (Leaf 0.046247136) (Leaf 0.011192787)) (Leaf 0.009698718))
  (Leaf 0.0067011826)) (Leaf 0.001375721)) (Leaf 0.071168266)) (Leaf (-0.001069965))) (Leaf
  (-0.015694825))) (Leaf (-0.016166374))) (Leaf (-0.027904114)).

Definition var95_33765 : tree :=
  Split 664 1.0 (Split 985 1.0 (Split 148 1.0 (Split 244 1.0 (Split 517 1.0 (Split 296 1.0 (Split
  670 1.0 (Split 776 1.0 (Leaf 0.051021766) (Leaf 0.018329175)) (Split 104 1.0 (Leaf 0.017931385)
  (Leaf 0.0028056153))) (Leaf 0.0003086861)) (Split 540 1.0 (Leaf 0.014815065) (Leaf
  (-0.004089289)))) (Leaf (-0.0048471573))) (Leaf (-0.009885608))) (Leaf (-0.00554827))) (Leaf
  (-0.023194011)).

Definition var95 : tree :=
  Split 986 1.0 (Split 709 1.0 (Split 1002 1.0 (Split 819 1.0 (Split 838 1.0 (Split 1019 1.0 (Split
  775 1.0 (Split 473 1.0 (Split 73 1.0 (Split 43 1.0 (Split 751 1.0 (Split 872 1.0 (Leaf
  0.0012677801) (Leaf 0.038959734)) (Split 385 1.0 (Leaf 0.04997325) (Leaf (-0.04464684)))) (Split
  822 1.0 (Leaf (-0.047727842)) (Leaf 0.007630626))) (Split 255 1.0 (Split 141 1.0 (Split 776 1.0
  (Leaf (-0.0446573)) (Leaf 0.014072341)) (Leaf 0.014450967)) (Leaf 0.025827317))) (Split 870 1.0
  (Split 529 1.0 (Split 267 1.0 (Split 979 1.0 (Leaf (-0.04867411)) (Leaf 0.0050470796)) (Leaf
  0.0038105578)) (Leaf 0.025799945)) (Leaf 0.026227891))) (Split 128 1.0 (Split 16 1.0 (Split 517
  1.0 (Split 607 1.0 (Leaf (-0.047613483)) (Leaf (-0.0033180907))) (Leaf 0.00030822985)) (Leaf
  0.008198607)) (Leaf 0.019012224))) (Split 327 1.0 (Split 575 1.0 (Split 662 1.0 (Split 99 1.0
  (Split 979 1.0 (Split 780 1.0 (Leaf (-0.029933635)) (Leaf 0.014293875)) (Split 452 1.0 (Leaf
  (-0.013339485)) (Leaf 0.022174962))) (Split 141 1.0 (Leaf 0.029259238) (Leaf (-0.012295897))))
  (Leaf 0.025896428)) (Leaf 0.041614186)) (Leaf (-0.04646101)))) (Leaf (-0.056529332))) (Split 503
  1.0 (Split 509 1.0 (Split 435 1.0 (Split 138 1.0 (Split 682 1.0 (Split 937 1.0 (Split 950 1.0
  (Leaf 0.05626942) (Leaf 0.015129143)) (Leaf 0.0035831183)) (Leaf 0.0031492643)) (Leaf
  (-0.005023249))) (Split 104 1.0 (Split 300 1.0 (Split 912 1.0 (Split 670 1.0 (Split 36 1.0 (Leaf
  (-0.0035557614)) (Leaf 0.0025310593)) (Leaf 0.0153163895)) (Leaf 0.034810152)) (Split 678 1.0
  (Leaf 0.051450968) (Leaf 0.003680912))) (Split 540 1.0 (Leaf (-0.0049922243)) (Leaf
  (-0.027092678))))) (Leaf (-0.02318636))) (Leaf (-0.033653997)))) var95_33707) (Split 976 1.0
  (Split 141 1.0 (Split 678 1.0 (Leaf 0.0515521) (Split 36 1.0 (Leaf 0.0055410764) (Leaf
  0.025707815))) (Leaf 0.0026001947)) (Leaf 0.00091522495))) var95_33765.

Definition var96_33957 : tree :=
  Split 64 1.0 (Split 982 1.0 (Split 578 1.0 (Split 327 1.0 (Split 392 1.0 (Leaf 0.028994998) (Leaf
  0.0754691)) (Leaf (-0.012337788))) (Leaf (-0.021770855))) (Leaf (-0.022111477))) (Leaf
  (-0.031147946)).

Definition var96_33989 : tree :=
  Split 979 1.0 (Split 822 1.0 (Split 976 1.0 (Split 267 2.0 (Split 435 1.0 (Leaf 0.016206732)
  (Leaf (-0.008437527))) (Leaf (-0.018817773))) (Leaf (-0.032086164))) (Leaf (-0.041987695))) (Leaf
  0.03464147).

Definition var96_34013 : tree :=
  Split 660 1.0 (Split 435 1.0 (Split 812 1.0 (Split 540 1.0 (Split 300 1.0 (Leaf 0.03077898) (Leaf
  0.009638908)) (Leaf (-0.0054652123))) (Leaf (-0.011247318))) (Leaf (-0.007099792))) (Leaf
  0.04603642).

Definition var96_34055 : tree :=
  Split 662 1.0 (Split 479 1.0 (Split 104 1.0 (Split 964 1.0 (Split 682 1.0 (Leaf 0.04598047) (Leaf
  0.013673182)) (Leaf 0.007899375)) (Split 435 1.0 (Leaf 0.025647966) (Leaf (-0.0065540927))))
  (Leaf 0.00095115195)) (Leaf 0.003919925).

Definition var96 : tree :=
  Split 330 1.0 (Split 709 1.0 (Split 833 1.0 (Split 267 1.0 (Split 190 1.0 (Split 55 1.0 (Split
  407 1.0 (Split 575 1.0 (Split 99 1.0 (Split 799 1.0 (Split 780 1.0 (Split 979 1.0 (Leaf
  (-0.014031986)) (Leaf 0.0062368787)) (Split 8 1.0 (Leaf 0.012114937) (Leaf 0.043902613))) (Split
  463 1.0 (Split 50 1.0 (Leaf 0.02144495) (Leaf (-0.054993577))) (Leaf (-0.06101051)))) (Split 944
  1.0 (Split 397 1.0 (Split 624 1.0 (Leaf 0.024705922) (Leaf (-0.03347432))) (Split 141 1.0 (Leaf
  0.010559614) (Leaf (-0.060077544)))) (Leaf (-0.059722196)))) (Split 979 1.0 (Split 494 1.0 (Split
  950 1.0 (Leaf 0.053917557) (Leaf 0.0072506987)) (Leaf (-0.002616207))) (Leaf (-0.0072022597))))
  (Split 300 1.0 (Split 976 1.0 (Split 16 1.0 (Leaf 0.068898246) (Leaf 0.019673392)) (Leaf
  0.011486839)) (Split 822 1.0 (Split 678 1.0 (Split 104 1.0 (Leaf 0.0098716235) (Leaf
  (-0.0081972135))) (Leaf (-0.025077825))) (Leaf 0.03995082)))) (Split 903 1.0 (Split 619 1.0
  (Split 1019 1.0 (Split 104 1.0 (Split 972 1.0 (Split 721 1.0 (Leaf 0.037361436) (Leaf
  (-0.01634843))) (Leaf (-0.01661885))) (Split 540 1.0 (Leaf (-0.018227356)) (Leaf 0.0074811215)))
  (Leaf (-0.023055617))) (Leaf (-0.038736526))) (Leaf (-0.07049012)))) (Split 120 1.0 (Split 36 1.0
  (Split 822 1.0 (Split 300 1.0 (Leaf (-0.033919185)) (Leaf (-0.010344718))) (Leaf 0.020421447))
  (Leaf 0.029558301)) (Leaf 0.04721803))) (Split 138 1.0 (Split 482 1.0 (Split 540 2.0 var96_33957
  (Split 36 1.0 (Leaf 0.009552397) (Leaf (-0.04259557)))) (Leaf (-0.045808394))) var96_33989))
  var96_34013) (Split 104 1.0 (Split 435 1.0 (Split 77 1.0 (Leaf 0.05526153) (Leaf 0.014589776))
  (Split 300 1.0 (Leaf (-0.0033836968)) (Leaf 0.037877686))) (Leaf 0.0018254261))) var96_34055.

Definition var97_34239 : tree :=
  Split 979 1.0 (Split 267 1.0 (Split 156 1.0 (Split 721 1.0 (Split 330 1.0 (Split 617 1.0 (Leaf
  (-0.050414253)) (Leaf (-0.018445661))) (Leaf 0.0009270687)) (Leaf 0.002858045)) (Split 540 1.0
  (Leaf 0.012008949) (Leaf (-0.031975526)))) (Leaf 0.00852021)) (Leaf 0.012992308).

Definition var97_34270 : tree :=
  Split 77 1.0 (Split 300 2.0 (Split 104 1.0 (Split 721 1.0 (Split 141 1.0 (Split 99 1.0 (Split 855
  1.0 (Split 138 1.0 (Leaf 0.045692395) (Leaf 0.0128218625)) (Leaf 0.006534388)) (Leaf
  (-0.00639249))) (Leaf (-0.016350005))) (Leaf (-0.013045616))) (Split 300 1.0 (Leaf
  (-0.023378925)) (Leaf (-0.00013390073)))) (Leaf 0.069631085)) (Leaf (-0.027990256)).

Definition var97_34309 : tree :=
  Split 540 2.0 (Split 255 1.0 (Split 607 1.0 (Split 980 1.0 (Split 976 1.0 (Split 452 2.0 (Split
  16 1.0 (Split 77 1.0 (Leaf 0.06806474) (Leaf 0.02287631)) (Leaf 0.018987192)) (Leaf 0.009182315))
  (Leaf 0.007847868)) (Leaf (-0.0004959127))) (Leaf (-0.0042982693))) (Split 435 1.0 (Leaf
  0.0061583337) (Leaf (-0.010295219)))) (Leaf (-0.016562257)).

Definition var97 : tree :=
  Split 438 1.0 (Split 733 1.0 (Split 479 1.0 (Split 819 1.0 (Split 968 1.0 (Split 43 1.0 (Split
  751 1.0 (Split 286 1.0 (Split 365 1.0 (Split 872 1.0 (Split 99 1.0 (Split 958 1.0 (Leaf
  (-0.00428223)) (Leaf 0.03328421)) (Split 300 1.0 (Leaf 0.025256356) (Leaf (-0.0033570137))))
  (Split 77 1.0 (Split 607 1.0 (Leaf (-0.013570956)) (Leaf 0.025785917)) (Leaf 0.0478399))) (Split
  120 1.0 (Split 789 1.0 (Split 300 1.0 (Leaf (-0.0004603224)) (Leaf 0.011689612)) (Leaf
  (-0.010839042))) (Leaf 0.047061045))) (Split 1019 1.0 (Split 670 1.0 (Split 36 1.0 (Split 678 1.0
  (Leaf 0.0588089) (Leaf 0.0039266846)) (Leaf 0.018190708)) (Leaf 0.0060612294)) (Leaf
  0.0040325536))) (Split 789 1.0 (Split 255 1.0 (Split 976 1.0 (Split 156 1.0 (Leaf 0.06332195)
  (Leaf 0.01938588)) (Leaf (-0.0016055502))) (Leaf (-0.013486633))) (Split 540 1.0 (Leaf
  0.020200921) (Leaf (-0.03984108))))) (Split 822 1.0 (Split 452 2.0 (Leaf (-0.053022373)) (Leaf
  (-0.0038934485))) (Leaf 0.0060560177))) (Split 16 1.0 (Split 300 1.0 (Split 36 1.0 (Leaf
  (-0.041282795)) (Leaf 0.00471541)) (Leaf 0.013759847)) (Leaf 0.01577011))) (Split 697 1.0 (Split
  540 2.0 (Split 509 1.0 (Split 392 1.0 (Split 138 1.0 (Split 1019 1.0 (Split 435 1.0 (Split 950
  1.0 (Leaf 0.057376385) (Leaf 0.011176369)) (Split 452 1.0 (Leaf 0.01832693) (Leaf 0.048873287)))
  (Leaf 0.0023693785)) (Leaf 0.0028135716)) (Leaf (-0.0070407777))) (Leaf (-0.022793531))) (Leaf
  (-0.007945658))) (Leaf (-0.035094578)))) var97_34239) var97_34270) var97_34309.

Definition var98_34567 : tree :=
  Split 664 1.0 (Split 950 1.0 (Split 879 1.0 (Split 670 1.0 (Split 296 1.0 (Split 435 1.0 (Split
  540 1.0 (Leaf 0.054662343) (Leaf 0.022309165)) (Split 789 1.0 (Leaf 0.02645806) (Leaf
  (-0.0010505695)))) (Leaf 0.0031686944)) (Split 104 1.0 (Leaf 0.011659742) (Leaf (-0.006311039))))
  (Leaf (-0.003172428))) (Leaf (-0.011332))) (Leaf (-0.022198642)).

Definition var98_34520 : tree :=
  Split 532 1.0 (Split 62 1.0 (Split 950 1.0 (Split 580 1.0 (Split 156 1.0 (Split 912 1.0 (Split 16
  1.0 (Split 1019 1.0 (Split 452 1.0 (Split 300 1.0 (Leaf 0.051478993) (Leaf 0.022471456)) (Split
  641 1.0 (Leaf 0.008245104) (Leaf 0.025140673))) (Leaf 0.00929823)) (Leaf 0.0064904364)) (Leaf
  0.001182142)) (Leaf 0.06961886)) (Leaf (-0.0012291534))) (Leaf (-0.014587904))) (Leaf
  (-0.015617641))) (Leaf (-0.027427906)).

Definition var98 : tree :=
  Split 986 1.0 (Split 1002 1.0 (Split 709 1.0 (Split 157 1.0 (Split 833 1.0 (Split 481 2.0 (Split
  267 1.0 (Split 190 1.0 (Split 958 1.0 (Split 55 1.0 (Split 407 1.0 (Split 575 1.0 (Leaf
  (-0.008333369)) (Leaf 0.03811173)) (Split 300 1.0 (Leaf 0.050757993) (Leaf 0.0038371892))) (Split
  903 1.0 (Split 874 1.0 (Leaf 0.02547977) (Leaf (-0.036751788))) (Leaf (-0.06775846)))) (Split 543
  1.0 (Split 789 1.0 (Split 452 1.0 (Leaf (-0.00476868)) (Leaf (-0.027885217))) (Leaf 0.003398737))
  (Leaf 0.047142476))) (Split 120 1.0 (Split 36 1.0 (Split 300 1.0 (Leaf (-0.035834786)) (Leaf
  0.0039083655)) (Leaf 0.02785838)) (Leaf 0.04689948))) (Split 138 1.0 (Split 482 1.0 (Split 982
  1.0 (Split 64 1.0 (Split 392 1.0 (Leaf 0.022011032) (Leaf 0.06344923)) (Leaf (-0.032135893)))
  (Leaf (-0.039319698))) (Leaf (-0.044753853))) (Split 979 1.0 (Split 822 1.0 (Split 300 1.0 (Split
  267 2.0 (Leaf (-0.007836043)) (Leaf (-0.038075384))) (Split 452 1.0 (Leaf 0.008791204) (Leaf
  (-0.0020496903)))) (Leaf (-0.040901672))) (Leaf 0.03369871)))) (Split 16 1.0 (Leaf 0.07262761)
  (Leaf 0.012183682))) (Split 660 1.0 (Split 812 1.0 (Split 36 1.0 (Split 435 1.0 (Split 300 1.0
  (Leaf 0.029519398) (Leaf (-0.0014794174))) (Leaf 0.0065277973)) (Leaf (-0.0146293705))) (Leaf
  (-0.0236268))) (Leaf 0.045863044))) (Split 45 1.0 (Split 435 1.0 (Leaf 0.050495293) (Split 300
  1.0 (Leaf (-0.02245744)) (Leaf 0.03468439))) (Leaf (-0.0046487204)))) (Split 976 1.0 (Split 141
  1.0 (Split 678 1.0 (Leaf 0.050033756) (Split 36 1.0 (Leaf 0.004728802) (Leaf 0.02462106))) (Leaf
  0.0018425906)) (Leaf 0.00030068617))) var98_34520) var98_34567.

Definition var99_34865 : tree :=
  Split 662 1.0 (Split 479 1.0 (Split 104 1.0 (Split 964 1.0 (Split 682 1.0 (Leaf 0.04527047) (Leaf
  0.013159766)) (Leaf 0.0076820003)) (Split 435 1.0 (Leaf 0.025062663) (Leaf (-0.0066835047))))
  (Leaf 0.0011145988)) (Leaf 0.0037885238).

Definition var99_34763 : tree :=
  Split 812 1.0 (Split 537 1.0 (Split 392 1.0 (Split 138 1.0 (Split 822 1.0 (Split 517 1.0 (Split
  156 1.0 (Leaf (-0.04636034)) (Split 300 1.0 (Leaf (-0.019417783)) (Leaf (-0.006061793)))) (Leaf
  0.0018699704)) (Leaf 0.009602028)) (Leaf 0.016161485)) (Leaf 0.014996216)) (Leaf 0.018852787))
  (Split 435 1.0 (Split 979 1.0 (Split 36 1.0 (Leaf (-0.0062439106)) (Leaf 0.015578762)) (Leaf
  0.033333965)) (Leaf (-0.01647856))).

Definition var99_34810 : tree :=
  Split 300 1.0 (Split 655 1.0 (Split 49 1.0 (Split 498 1.0 (Split 36 1.0 (Split 979 1.0 (Split 617
  1.0 (Leaf 0.058831066) (Leaf 0.01868253)) (Leaf 0.011863743)) (Split 679 1.0 (Split 435 1.0 (Leaf
  0.041069586) (Leaf 0.0032572788)) (Leaf (-0.030607332)))) (Split 452 1.0 (Leaf (-0.016795684))
  (Leaf 0.017564854))) (Leaf (-0.021052865))) (Leaf (-0.02738419))) (Split 518 1.0 (Split 104 1.0
  (Split 128 1.0 (Leaf (-0.014488972)) (Leaf 0.008486734)) (Leaf 0.01676092)) (Leaf
  (-0.028100347))).

Definition var99 : tree :=
  Split 330 1.0 (Split 8 1.0 (Split 42 1.0 (Split 621 1.0 (Split 19 1.0 (Split 1019 1.0 (Split 117
  1.0 (Split 149 1.0 (Split 286 1.0 (Split 623 1.0 (Split 833 1.0 (Split 157 1.0 (Leaf
  0.0010946791) (Leaf 0.0408875)) (Split 36 1.0 (Leaf 0.03529423) (Leaf (-0.02263666)))) (Split 426
  1.0 (Split 776 1.0 (Leaf 0.0480981) (Leaf 0.0008391924)) (Leaf (-0.012917575)))) (Split 678 1.0
  (Split 682 1.0 (Split 36 1.0 (Leaf 0.05767539) (Leaf 0.014868937)) (Leaf 0.011090961)) (Leaf
  0.009990292))) (Split 156 1.0 (Split 138 1.0 (Leaf (-0.058306146)) (Leaf (-0.0033966159))) (Leaf
  (-0.008100905)))) (Split 396 1.0 (Split 14 1.0 (Split 812 1.0 (Split 452 2.0 (Split 517 1.0 (Leaf
  (-0.05158746)) (Leaf (-0.00024684734))) (Leaf 0.020990482)) (Split 678 1.0 (Split 540 1.0 (Leaf
  0.03805236) (Leaf (-0.0069959485))) (Leaf (-0.04384877)))) (Leaf 0.023258902)) (Leaf
  0.040509034))) (Split 968 1.0 (Split 575 1.0 (Split 662 1.0 (Split 979 1.0 (Split 255 1.0 (Split
  679 1.0 (Leaf (-0.025767192)) (Leaf 0.0063705007)) (Split 300 1.0 (Leaf 0.026414305) (Leaf
  (-0.029681876)))) (Split 678 1.0 (Split 452 1.0 (Leaf (-0.016406415)) (Leaf 0.0143198995)) (Leaf
  0.031196326))) (Leaf 0.025123)) (Leaf 0.038598426)) (Leaf (-0.046275694)))) (Split 392 1.0 (Split
  300 1.0 (Split 156 1.0 (Split 435 1.0 (Leaf (-0.06675331)) (Leaf (-0.017279884))) (Leaf
  (-0.017751096))) (Split 670 1.0 (Leaf (-0.021931155)) (Leaf 0.004496969))) (Leaf
  (-0.004019618)))) (Leaf (-0.05766309))) var99_34763) var99_34810) var99_34865.
