(* ===== verification/Forest3.v ===== *)
(** * Forest3: trees 100 to 149 of the decision forest ([ai/model.go])

    The variables [var100] to [var149] of [PredictToxicity], one tree each, with
    the indices, thresholds and constants of the source.  The sub-tree [varK_n] is the
    conditional of line [n] of the source. *)

From S2P Require Import Prelude Trees.

Definition var100_35045 : tree :=
  Split 979 1.0 (Split 937 1.0 (Split 156 1.0 (Split 330 1.0 (Split 14 1.0 (Split 617 1.0 (Leaf
  (-0.04666671)) (Leaf (-0.017113576))) (Leaf (-0.009117815))) (Leaf 0.0010863757)) (Split 540 1.0
  (Leaf 0.015396138) (Leaf (-0.031336546)))) (Leaf 0.0030470556)) (Leaf 0.013170086).

Definition var100_35083 : tree :=
  Split 540 2.0 (Split 255 1.0 (Split 607 1.0 (Split 980 1.0 (Split 976 1.0 (Split 452 2.0 (Split
  16 1.0 (Split 77 1.0 (Leaf 0.06643241) (Leaf 0.02144875)) (Leaf 0.018519996)) (Leaf 0.008643202))
  (Leaf 0.007741233)) (Leaf (-0.000036641002))) (Leaf (-0.0045761266))) (Split 435 1.0 (Leaf
  0.0054241624) (Leaf (-0.010091286)))) (Leaf (-0.016320786)).

Definition var100 : tree :=
  Split 438 1.0 (Split 389 1.0 (Split 479 1.0 (Split 60 1.0 (Split 819 1.0 (Split 117 1.0 (Split
  815 1.0 (Split 874 1.0 (Split 178 1.0 (Split 345 1.0 (Split 912 1.0 (Split 648 1.0 (Leaf
  0.005368991) (Leaf (-0.046835706))) (Split 267 1.0 (Leaf (-0.0167332)) (Leaf 0.029501578)))
  (Split 979 1.0 (Split 679 1.0 (Leaf 0.0716708) (Leaf 0.008376692)) (Leaf (-0.030069962)))) (Split
  284 1.0 (Split 47 1.0 (Split 209 1.0 (Leaf (-0.02916927)) (Leaf 0.015189861)) (Leaf 0.017489616))
  (Leaf 0.020553412))) (Split 679 1.0 (Split 16 1.0 (Split 1018 1.0 (Leaf (-0.053757936)) (Leaf
  (-0.010895489))) (Leaf 0.0013604485)) (Leaf 0.017614571))) (Split 452 1.0 (Leaf (-0.05035829))
  (Split 540 1.0 (Leaf (-0.026090672)) (Leaf 0.018379016)))) (Split 396 1.0 (Split 14 1.0 (Split
  357 1.0 (Split 452 2.0 (Split 47 1.0 (Split 812 1.0 (Leaf (-0.048998106)) (Leaf (-0.016902743)))
  (Leaf 0.003845583)) (Leaf 0.009933398)) (Leaf 0.015117245)) (Leaf 0.022418758)) (Leaf
  0.03049611))) (Split 509 1.0 (Split 540 2.0 (Split 392 1.0 (Split 733 1.0 (Split 138 1.0 (Split
  472 1.0 (Split 128 1.0 (Leaf 0.05145303) (Leaf 0.018340943)) (Leaf (-0.00065855304))) (Leaf
  0.0031720705)) (Leaf (-0.005889761))) (Leaf (-0.007006933))) (Split 435 1.0 (Leaf (-0.009688978))
  (Leaf 0.0036390044))) (Leaf (-0.022036329)))) (Split 452 1.0 (Split 435 1.0 (Split 104 1.0 (Leaf
  (-0.047383808)) (Leaf 0.007493072)) (Leaf (-0.000108769724))) (Leaf 0.029315878))) var100_35045)
  (Split 435 1.0 (Leaf (-0.04821768)) (Leaf 0.006552086))) var100_35083.

Definition var101_35323 : tree :=
  Split 540 2.0 (Split 36 1.0 (Split 255 1.0 (Split 996 1.0 (Split 789 1.0 (Split 912 1.0 (Leaf
  0.066180654) (Leaf 0.0058491426)) (Leaf 0.013952983)) (Leaf (-0.0036257685))) (Leaf
  (-0.008615876))) (Leaf (-0.006805651))) (Leaf (-0.02149908)).

Definition var101_35365 : tree :=
  Split 662 1.0 (Split 479 1.0 (Split 104 1.0 (Split 822 1.0 (Split 682 1.0 (Split 267 1.0 (Split
  780 1.0 (Leaf 0.05015697) (Leaf 0.015860315)) (Leaf 0.011673453)) (Leaf 0.010707424)) (Leaf
  0.01489311)) (Split 435 1.0 (Leaf 0.024536196) (Leaf (-0.006648288)))) (Leaf 0.0010588688)) (Leaf
  0.003628319).

Definition var101_35276 : tree :=
  Split 300 1.0 (Split 641 1.0 (Split 670 1.0 (Split 679 1.0 (Split 104 1.0 (Split 452 1.0 (Split
  156 1.0 (Split 540 1.0 (Leaf 0.04611076) (Leaf 0.010815792)) (Leaf 0.013375781)) (Leaf
  0.0015424931)) (Leaf (-0.01745057))) (Leaf (-0.020104533))) (Leaf (-0.028225467))) (Leaf
  0.04449536)) (Split 682 1.0 (Split 104 1.0 (Split 498 1.0 (Leaf 0.064847715) (Leaf 0.022512762))
  (Leaf 0.01617859)) (Leaf 0.007137891)).

Definition var101 : tree :=
  Split 330 1.0 (Split 385 1.0 (Split 751 1.0 (Split 733 1.0 (Split 438 1.0 (Split 479 1.0 (Split
  99 1.0 (Split 872 1.0 (Split 365 1.0 (Split 55 1.0 (Split 799 1.0 (Split 543 1.0 (Leaf
  (-0.006858556)) (Leaf 0.030683426)) (Split 877 1.0 (Leaf 0.018256405) (Leaf (-0.05598874))))
  (Split 596 1.0 (Split 674 1.0 (Leaf 0.026650025) (Leaf (-0.03931302))) (Leaf (-0.06595629))))
  (Split 120 1.0 (Split 435 1.0 (Leaf 0.003913165) (Leaf (-0.008530765))) (Leaf 0.046710003)))
  (Split 452 1.0 (Split 435 1.0 (Leaf 0.009329547) (Leaf (-0.018053025))) (Leaf 0.04595209)))
  (Split 141 1.0 (Split 562 1.0 (Split 862 1.0 (Split 300 2.0 (Split 388 1.0 (Leaf 0.031214816)
  (Leaf (-0.025807494))) (Leaf (-0.024968406))) (Leaf (-0.03668746))) (Leaf (-0.04096412))) (Split
  397 1.0 (Split 435 1.0 (Split 540 1.0 (Leaf 0.025503485) (Leaf (-0.0061457218))) (Split 300 1.0
  (Leaf (-0.002722003)) (Leaf (-0.02215261)))) (Leaf (-0.060545113))))) (Split 979 1.0 (Split 721
  1.0 (Split 156 1.0 (Split 822 1.0 (Split 617 1.0 (Leaf (-0.048259113)) (Leaf (-0.016597068)))
  (Leaf (-0.004702736))) (Split 540 1.0 (Leaf 0.0038914185) (Leaf (-0.030894244)))) (Leaf
  0.0036889908)) (Leaf 0.01246486))) (Split 540 2.0 (Split 255 1.0 (Split 451 1.0 (Split 980 1.0
  (Split 16 1.0 (Split 36 1.0 (Split 77 1.0 (Leaf 0.061669428) (Leaf 0.018020302)) (Leaf
  0.02267628)) (Leaf 0.016376762)) (Leaf 0.0011011855)) (Leaf (-0.009051948))) (Leaf
  (-0.007289762))) (Leaf (-0.02291683)))) var101_35276) var101_35323) (Split 1001 1.0 (Split 540
  1.0 (Split 435 1.0 (Leaf (-0.03006578)) (Leaf 0.00487496)) (Leaf (-0.06215759))) (Leaf
  0.008105937))) var101_35365.

Definition var102_35643 : tree :=
  Split 664 1.0 (Split 950 1.0 (Split 244 1.0 (Split 670 1.0 (Split 879 1.0 (Split 296 1.0 (Split
  985 1.0 (Split 776 1.0 (Split 49 1.0 (Split 76 1.0 (Leaf 0.051861823) (Leaf 0.013319782)) (Leaf
  0.008644751)) (Leaf 0.017119242)) (Leaf 0.0033896219)) (Leaf 0.00061272306)) (Leaf
  (-0.009351259))) (Split 104 1.0 (Leaf 0.013369568) (Leaf (-0.006083973)))) (Leaf
  (-0.0054590064))) (Leaf (-0.0118272565))) (Leaf (-0.021680841)).

Definition var102_35592 : tree :=
  Split 62 1.0 (Split 950 1.0 (Split 580 1.0 (Split 156 1.0 (Split 912 1.0 (Split 16 1.0 (Split 985
  1.0 (Split 435 1.0 (Split 670 1.0 (Split 540 1.0 (Leaf 0.040698443) (Leaf 0.011556069)) (Leaf
  0.007560772)) (Split 300 1.0 (Split 540 1.0 (Leaf 0.007586062) (Leaf (-0.008249364))) (Leaf
  0.026014227))) (Leaf 0.059685152)) (Leaf 0.006088907)) (Leaf (-0.0007411502))) (Leaf 0.06799266))
  (Leaf (-0.0014187171))) (Leaf (-0.0140795065))) (Leaf (-0.015432007)).

Definition var102 : tree :=
  Split 986 1.0 (Split 1002 1.0 (Split 709 1.0 (Split 838 1.0 (Split 824 1.0 (Split 73 1.0 (Split
  407 1.0 (Split 55 1.0 (Split 575 1.0 (Split 799 1.0 (Split 751 1.0 (Split 979 1.0 (Leaf
  (-0.0077443086)) (Leaf 0.0075552287)) (Split 385 1.0 (Leaf 0.041607197) (Leaf (-0.047021374))))
  (Split 463 1.0 (Split 50 1.0 (Leaf 0.02233809) (Leaf (-0.053800013))) (Leaf (-0.060019393))))
  (Split 979 1.0 (Split 494 1.0 (Split 670 1.0 (Leaf 0.05389723) (Leaf 0.0140121905)) (Leaf
  0.0010182763)) (Leaf (-0.014632781)))) (Split 16 1.0 (Split 815 1.0 (Split 789 1.0 (Split 537 1.0
  (Leaf 0.03620326) (Leaf (-0.02351621))) (Split 659 1.0 (Leaf (-0.021312442)) (Leaf 0.03387074)))
  (Leaf (-0.035034023))) (Split 435 1.0 (Split 452 1.0 (Leaf 0.024680814) (Leaf (-0.0135695785)))
  (Leaf (-0.04243217))))) (Split 908 1.0 (Split 16 1.0 (Split 812 1.0 (Split 517 1.0 (Split 156 1.0
  (Leaf 0.066277534) (Leaf 0.02131842)) (Leaf 0.009320242)) (Leaf (-0.013054847))) (Split 435 1.0
  (Leaf (-0.012531385)) (Leaf 0.011434445))) (Leaf (-0.03433821)))) (Split 733 1.0 (Split 141 1.0
  (Split 655 1.0 (Split 776 1.0 (Split 964 1.0 (Split 679 1.0 (Leaf (-0.054914303)) (Leaf
  (-0.011729359))) (Leaf (-0.006427292))) (Leaf 0.0145234065)) (Leaf 0.015271722)) (Leaf
  0.019004285)) (Leaf 0.030196954))) (Split 432 1.0 (Split 498 1.0 (Split 679 1.0 (Split 653 1.0
  (Split 141 1.0 (Split 138 1.0 (Split 540 2.0 (Leaf 0.063977964) (Leaf (-0.0014530481))) (Leaf
  0.005207098)) (Leaf (-0.007925517))) (Leaf (-0.013885326))) (Leaf (-0.015319076))) (Split 452 1.0
  (Leaf (-0.029445508)) (Leaf (-0.004017485)))) (Leaf (-0.04542951)))) (Leaf (-0.05359086))) (Split
  976 1.0 (Split 141 1.0 (Split 678 1.0 (Leaf 0.049174674) (Split 36 1.0 (Leaf 0.0042849453) (Leaf
  0.023640377))) (Leaf 0.001888087)) (Leaf (-0.00008019308)))) var102_35592) var102_35643.

Definition var103_35961 : tree :=
  Split 662 1.0 (Split 479 1.0 (Split 104 1.0 (Split 822 1.0 (Split 682 1.0 (Leaf 0.045448065)
  (Leaf 0.010385561)) (Leaf 0.014370136)) (Split 435 1.0 (Leaf 0.023922598) (Leaf
  (-0.0065537016)))) (Leaf 0.0012281517)) (Leaf 0.0034678846).

Definition var103_35840 : tree :=
  Split 655 1.0 (Split 255 1.0 (Split 128 1.0 (Split 979 1.0 (Split 537 1.0 (Split 65 1.0 (Split
  517 1.0 (Split 607 1.0 (Leaf (-0.048442483)) (Leaf (-0.009415697))) (Leaf (-0.00757856))) (Leaf
  (-0.0024048497))) (Leaf 0.012285421)) (Leaf 0.023868559)) (Split 452 1.0 (Split 979 1.0 (Leaf
  0.00045950277) (Leaf (-0.0273174))) (Leaf 0.03149539))) (Leaf 0.01793396)) (Leaf 0.022248207).

Definition var103_35894 : tree :=
  Split 73 1.0 (Split 911 1.0 (Split 117 1.0 (Split 560 1.0 (Split 545 1.0 (Split 517 1.0 (Split
  473 1.0 (Split 178 1.0 (Split 759 1.0 (Split 574 1.0 (Leaf 0.028030727) (Leaf 0.07447236)) (Split
  659 1.0 (Leaf (-0.02849014)) (Leaf 0.010323743))) (Split 36 1.0 (Split 435 1.0 (Leaf
  (-0.028635878)) (Leaf (-0.00027778614))) (Leaf 0.013260083))) (Split 678 1.0 (Leaf
  (-0.034529287)) (Leaf 0.00399065))) (Split 435 1.0 (Split 670 1.0 (Leaf (-0.006218455)) (Leaf
  0.02389696)) (Leaf (-0.038463127)))) (Leaf (-0.045947965))) (Leaf (-0.05148218))) (Leaf
  (-0.0386845))) (Leaf (-0.05828732))) (Leaf (-0.042136762)).

Definition var103 : tree :=
  Split 330 1.0 (Split 822 1.0 (Split 133 1.0 (Split 42 1.0 (Split 876 1.0 (Split 53 1.0 (Split 833
  1.0 (Split 958 1.0 (Split 156 2.0 (Split 678 1.0 (Split 560 1.0 (Split 812 1.0 (Leaf
  (-0.0031893451)) (Leaf 0.014999988)) (Split 435 1.0 (Leaf 0.0424192) (Leaf (-0.016758123))))
  (Split 419 1.0 (Split 964 1.0 (Leaf (-0.02134528)) (Leaf 0.010113134)) (Split 452 1.0 (Leaf
  0.021528488) (Leaf 0.059539568)))) (Split 300 1.0 (Split 156 3.0 (Split 281 1.0 (Leaf
  0.018662384) (Leaf (-0.02507464))) (Leaf (-0.04915752))) (Split 141 1.0 (Split 855 1.0 (Leaf
  0.046183705) (Leaf 0.001893366)) (Split 678 1.0 (Leaf 0.007943855) (Leaf (-0.0206044)))))) (Split
  800 1.0 (Split 36 1.0 (Split 156 1.0 (Split 435 1.0 (Leaf 0.007501525) (Leaf 0.024637014)) (Leaf
  (-0.011199137))) (Split 435 1.0 (Leaf 0.008062932) (Leaf (-0.02473515)))) (Leaf 0.046904486)))
  (Split 812 1.0 (Split 660 1.0 (Split 435 1.0 (Split 300 1.0 (Leaf 0.028710458) (Leaf
  0.0053001107)) (Leaf 0.0022169128)) (Leaf 0.045552097)) (Leaf (-0.023154626)))) (Split 989 1.0
  (Split 617 1.0 (Split 574 1.0 (Split 14 1.0 (Split 670 1.0 (Split 517 1.0 (Leaf 0.04851451) (Leaf
  0.008066924)) (Split 641 1.0 (Leaf (-0.0076594553)) (Leaf 0.047522724))) (Leaf (-0.009556395)))
  (Leaf (-0.01641114))) (Split 452 1.0 (Leaf (-0.036498398)) (Leaf 0.015226746))) (Leaf
  (-0.027262906)))) (Split 452 1.0 (Leaf (-0.059675742)) (Leaf 0.00094296894))) var103_35840)
  (Split 799 1.0 (Split 300 1.0 (Leaf (-0.045757044)) (Leaf (-0.0011519291))) (Leaf 0.0035963797)))
  var103_35894) var103_35961.

Definition var104_36137 : tree :=
  Split 104 1.0 (Split 141 1.0 (Split 912 1.0 (Split 99 1.0 (Split 789 1.0 (Leaf 0.034402974) (Leaf
  (-0.0069288597))) (Leaf (-0.006870898))) (Leaf (-0.010225343))) (Leaf (-0.016900048))) (Leaf
  (-0.020274317)).

Definition var104_36176 : tree :=
  Split 60 1.0 (Split 509 1.0 (Split 985 1.0 (Split 908 1.0 (Split 517 1.0 (Split 345 1.0 (Split 65
  1.0 (Split 540 2.0 (Split 498 1.0 (Split 435 1.0 (Leaf 0.058780808) (Leaf 0.03153192)) (Split 540
  1.0 (Leaf (-0.0337924)) (Leaf 0.044540755))) (Leaf 0.010341965)) (Split 36 1.0 (Leaf 0.013532953)
  (Leaf (-0.00076266995)))) (Leaf (-0.002719638))) (Leaf 0.0027482759)) (Leaf (-0.0029768476)))
  (Leaf (-0.014589614))) (Leaf (-0.022062471))) (Leaf (-0.032521356)).

Definition var104_36227 : tree :=
  Split 300 1.0 (Split 655 1.0 (Split 49 1.0 (Split 498 1.0 (Split 36 1.0 (Split 979 1.0 (Split 517
  1.0 (Leaf 0.05686891) (Leaf 0.016110295)) (Leaf 0.011248879)) (Split 679 1.0 (Split 435 1.0 (Leaf
  0.04048743) (Leaf 0.0033623786)) (Leaf (-0.029397493)))) (Split 452 1.0 (Leaf (-0.016719515))
  (Leaf 0.017818056))) (Leaf (-0.020296596))) (Leaf (-0.026034156))) (Split 518 1.0 (Split 104 1.0
  (Split 128 1.0 (Leaf (-0.013259199)) (Leaf 0.008424594)) (Leaf 0.017927038)) (Leaf
  (-0.026801927))).

Definition var104 : tree :=
  Split 8 1.0 (Split 819 1.0 (Split 130 1.0 (Split 733 1.0 (Split 801 1.0 (Split 286 1.0 (Split 386
  1.0 (Split 678 1.0 (Split 42 1.0 (Split 980 1.0 (Split 133 1.0 (Split 751 1.0 (Leaf 0.0011065815)
  (Leaf 0.038789596)) (Split 799 1.0 (Leaf (-0.039264586)) (Leaf 0.0027917996))) (Split 141 1.0
  (Split 655 1.0 (Leaf (-0.045072604)) (Leaf 0.016880266)) (Leaf 0.026912583))) (Split 812 1.0
  (Split 452 1.0 (Split 77 1.0 (Leaf (-0.039190635)) (Leaf 0.013084483)) (Split 435 1.0 (Leaf
  0.00050317607) (Leaf 0.016459174))) (Split 36 1.0 (Leaf (-0.00076020113)) (Leaf 0.022295093))))
  (Split 419 1.0 (Split 799 1.0 (Split 979 1.0 (Split 824 1.0 (Leaf (-0.024364708)) (Leaf
  0.03145085)) (Split 156 1.0 (Leaf (-0.0057827984)) (Leaf 0.03223829))) (Split 23 1.0 (Split 300
  1.0 (Leaf 0.011771401) (Leaf 0.03722204)) (Leaf (-0.032354977)))) (Split 540 1.0 (Leaf
  0.048619088) (Leaf 0.0113893505)))) (Split 872 1.0 (Split 670 1.0 (Split 300 1.0 (Leaf
  (-0.004860488)) (Leaf 0.021595607)) (Leaf (-0.015736233))) (Leaf 0.046404798))) (Split 529 1.0
  (Split 759 1.0 (Split 678 1.0 (Split 36 1.0 (Split 670 1.0 (Split 812 1.0 (Leaf 0.06410632) (Leaf
  0.0117875645)) (Leaf 0.017779157)) (Leaf 0.014844455)) (Leaf 0.012184401)) (Leaf 0.0028487348))
  (Leaf (-0.035436004)))) (Split 452 1.0 (Split 789 1.0 (Leaf (-0.06360315)) (Leaf (-0.012170295)))
  (Leaf 0.0015432461))) (Split 300 2.0 (Split 432 1.0 (Split 435 1.0 var104_36137 (Split 670 1.0
  (Leaf 0.057157543) (Leaf (-0.008797965)))) (Leaf (-0.02986767))) (Leaf 0.066070884))) (Leaf
  0.060029007)) var104_36176) var104_36227.

Definition var105_36461 : tree :=
  Split 664 1.0 (Split 985 1.0 (Split 148 1.0 (Split 908 1.0 (Split 517 1.0 (Split 296 1.0 (Split
  776 1.0 (Split 607 1.0 (Split 294 1.0 (Leaf 0.051145848) (Leaf 0.013227907)) (Leaf 0.019219106))
  (Leaf 0.014775122)) (Leaf 0.0031541472)) (Leaf 0.005827313)) (Split 435 1.0 (Leaf 0.025986914)
  (Leaf (-0.023445578)))) (Leaf (-0.010870195))) (Leaf (-0.0055371667))) (Leaf (-0.020949986)).

Definition var105 : tree :=
  Split 986 1.0 (Split 481 2.0 (Split 709 1.0 (Split 1002 1.0 (Split 838 1.0 (Split 157 1.0 (Split
  780 1.0 (Split 833 1.0 (Split 365 1.0 (Split 824 1.0 (Split 407 1.0 (Split 979 1.0 (Leaf
  (-0.007818238)) (Leaf 0.00666776)) (Split 908 1.0 (Leaf 0.043532062) (Leaf (-0.045660585))))
  (Split 432 1.0 (Split 498 1.0 (Leaf 0.039466556) (Leaf (-0.02926523))) (Leaf (-0.04445224))))
  (Split 120 1.0 (Split 435 1.0 (Leaf 0.0029379688) (Leaf (-0.011352355))) (Leaf 0.046402913)))
  (Split 660 1.0 (Split 641 1.0 (Split 36 1.0 (Split 435 1.0 (Leaf 0.024047682) (Leaf
  0.0064454935)) (Leaf (-0.01420015))) (Leaf (-0.023588045))) (Leaf 0.045341697))) (Split 43 1.0
  (Split 8 1.0 (Split 452 1.0 (Split 670 1.0 (Split 498 1.0 (Leaf 0.018228432) (Leaf
  (-0.026462367))) (Split 540 1.0 (Leaf (-0.02722166)) (Leaf (-0.0009205793)))) (Split 435 1.0
  (Split 678 1.0 (Leaf 0.02663841) (Leaf 0.0050505996)) (Leaf 0.045000296))) (Split 36 1.0 (Leaf
  0.05385557) (Leaf (-0.0015493314)))) (Leaf (-0.039976906)))) (Split 45 1.0 (Split 435 1.0 (Leaf
  0.047373097) (Split 300 1.0 (Leaf (-0.022162877)) (Leaf 0.03205029))) (Leaf (-0.0056889355))))
  (Leaf (-0.051871587))) (Split 62 1.0 (Split 950 1.0 (Split 156 1.0 (Split 912 1.0 (Split 617 1.0
  (Split 1019 1.0 (Split 641 1.0 (Split 670 1.0 (Leaf 0.031048268) (Leaf (-0.0011992577))) (Leaf
  0.057073433)) (Leaf 0.006578331)) (Leaf 0.001544597)) (Leaf 0.00019016425)) (Leaf 0.05311602))
  (Leaf (-0.01398678))) (Leaf (-0.0150492955)))) (Split 104 1.0 (Split 659 1.0 (Split 789 1.0 (Leaf
  0.049716488) (Leaf 0.015362652)) (Leaf (-0.0008747144))) (Leaf 0.0023177906))) (Split 16 1.0
  (Leaf 0.070059456) (Leaf 0.010973354))) var105_36461.

Definition var106_36653 : tree :=
  Split 435 1.0 (Split 452 1.0 (Split 670 1.0 (Split 36 1.0 (Split 979 1.0 (Leaf 0.008692733) (Leaf
  0.02730895)) (Leaf 0.045108363)) (Leaf (-0.005362659))) (Leaf (-0.01058661))) (Leaf 0.04515825).

Definition var106_36764 : tree :=
  Split 540 2.0 (Split 255 1.0 (Split 607 1.0 (Split 980 1.0 (Split 452 2.0 (Split 976 1.0 (Split
  16 1.0 (Split 77 1.0 (Leaf 0.063719235) (Leaf 0.019185273)) (Leaf 0.018090999)) (Leaf
  0.012144189)) (Leaf 0.008846869)) (Leaf 0.00022353193)) (Leaf (-0.005451514))) (Split 435 1.0
  (Leaf 0.005143139) (Leaf (-0.010594695)))) (Leaf (-0.014837152)).

Definition var106_36693 : tree :=
  Split 141 1.0 (Split 473 1.0 (Split 562 1.0 (Split 862 1.0 (Split 65 1.0 (Split 300 1.0 (Split
  924 1.0 (Split 345 1.0 (Split 989 1.0 (Leaf 0.043074373) (Leaf (-0.004239037))) (Leaf
  (-0.026392628))) (Leaf (-0.034614824))) (Split 776 1.0 (Split 16 1.0 (Split 789 1.0 (Leaf
  0.030798553) (Leaf (-0.0018162256))) (Leaf (-0.032675236))) (Leaf (-0.035298344)))) (Split 678
  1.0 (Split 540 1.0 (Leaf (-0.034940194)) (Leaf (-0.00039860766))) (Leaf 0.012223531))) (Leaf
  (-0.035132587))) (Leaf (-0.034105692))) (Leaf (-0.036039077))) (Split 397 1.0 (Split 435 1.0
  (Leaf 0.02074732) (Split 300 1.0 (Leaf (-0.0019607542)) (Leaf (-0.01457098)))) (Leaf
  (-0.05420683))).

Definition var106 : tree :=
  Split 944 1.0 (Split 438 1.0 (Split 99 1.0 (Split 733 1.0 (Split 872 1.0 (Split 630 1.0 (Split
  819 1.0 (Split 130 1.0 (Split 751 1.0 (Split 780 1.0 (Split 345 1.0 (Split 979 1.0 (Leaf
  (-0.0075952183)) (Leaf 0.007473574)) (Split 178 1.0 (Leaf 0.046745043) (Leaf (-0.03733627))))
  (Split 8 1.0 (Split 300 2.0 (Leaf 0.015863609) (Leaf (-0.023198243))) (Split 14 1.0 (Leaf
  0.05210047) (Leaf 0.009149655)))) (Split 36 1.0 (Split 540 2.0 (Split 912 1.0 (Leaf 0.050129253)
  (Leaf 0.003699978)) (Leaf (-0.016343622))) (Leaf (-0.013127309)))) (Split 156 1.0 (Split 36 1.0
  (Leaf 0.073094286) (Leaf 0.01974615)) (Leaf 0.019625645))) (Split 697 1.0 (Split 104 1.0 (Split
  128 1.0 (Split 392 1.0 (Split 498 1.0 (Leaf 0.047616806) (Leaf 0.010406396)) (Leaf
  (-0.0016777959))) (Split 976 1.0 (Split 36 1.0 (Leaf (-0.031349253)) (Leaf 0.018079465)) (Leaf
  0.04143508))) (Split 435 1.0 (Split 641 1.0 (Leaf 0.03006574) (Leaf (-0.0070660035))) (Split 36
  1.0 (Leaf (-0.0048304666)) (Leaf (-0.024446383))))) (Leaf (-0.03316954)))) (Split 641 1.0 (Split
  799 1.0 (Split 617 1.0 (Split 452 1.0 (Split 392 1.0 (Leaf (-0.06087429)) (Leaf (-0.017015759)))
  (Leaf (-0.022761771))) (Leaf 0.006450349)) (Leaf 0.0069373674)) (Leaf 0.02517876))) (Split 77 1.0
  (Split 607 1.0 (Split 540 1.0 (Leaf (-0.020801716)) (Leaf 0.016861727)) (Leaf 0.023641758)) (Leaf
  0.046350617))) (Split 104 1.0 (Split 77 1.0 (Split 300 1.0 var106_36653 (Split 682 1.0 (Leaf
  0.06042094) (Leaf 0.0012789423))) (Leaf (-0.025030006))) (Split 300 1.0 (Leaf (-0.028175632))
  (Leaf 0.0011032261)))) var106_36693) var106_36764) (Split 641 1.0 (Split 995 1.0 (Leaf
  (-0.045688182)) (Leaf (-0.00020036427))) (Leaf 0.010945311)).

Definition var107_37041 : tree :=
  Split 662 1.0 (Split 479 1.0 (Split 104 1.0 (Split 822 1.0 (Split 682 1.0 (Leaf 0.04458398) (Leaf
  0.010147894)) (Leaf 0.013576955)) (Split 435 1.0 (Leaf 0.023271728) (Leaf (-0.006397003)))) (Leaf
  0.001231762)) (Leaf 0.0033607834).

Definition var107_36963 : tree :=
  Split 178 1.0 (Split 517 1.0 (Split 473 1.0 (Split 128 1.0 (Split 824 1.0 (Leaf 0.025185062)
  (Leaf (-0.036710437))) (Split 679 1.0 (Leaf 0.06541491) (Leaf 0.010773108))) (Split 678 1.0 (Leaf
  (-0.033328112)) (Leaf 0.0038599495))) (Split 435 1.0 (Split 670 1.0 (Leaf (-0.005655467)) (Leaf
  0.023625234)) (Leaf (-0.03692324)))) (Split 36 1.0 (Split 435 1.0 (Split 300 1.0 (Leaf
  (-0.044373542)) (Leaf (-0.008449967))) (Leaf (-0.00003340041))) (Leaf 0.013362564)).

Definition var107 : tree :=
  Split 330 1.0 (Split 385 1.0 (Split 822 1.0 (Split 133 1.0 (Split 876 1.0 (Split 874 1.0 (Split
  55 1.0 (Split 824 1.0 (Split 570 1.0 (Split 658 1.0 (Split 958 1.0 (Split 45 1.0 (Leaf
  (-0.0029100226)) (Leaf 0.022364013)) (Split 800 1.0 (Leaf (-0.008944179)) (Leaf 0.04683444)))
  (Split 300 1.0 (Split 284 1.0 (Leaf 0.05723917) (Leaf (-0.009446794))) (Split 979 1.0 (Leaf
  (-0.010307805)) (Leaf 0.032364216)))) (Split 36 1.0 (Leaf (-0.056827623)) (Leaf 0.0087135285)))
  (Split 432 1.0 (Split 498 1.0 (Split 540 2.0 (Split 678 1.0 (Leaf 0.056627274) (Leaf
  0.016652836)) (Leaf (-0.015308589))) (Leaf (-0.029742299))) (Leaf (-0.042674903)))) (Split 674
  1.0 (Split 16 1.0 (Split 36 1.0 (Split 55 2.0 (Split 498 1.0 (Leaf 0.042613454) (Leaf
  (-0.010371461))) (Leaf (-0.01125448))) (Split 518 1.0 (Split 540 1.0 (Leaf 0.029847339) (Leaf
  (-0.008743273))) (Leaf (-0.021614911)))) (Split 435 1.0 (Split 300 1.0 (Leaf (-0.006164849))
  (Leaf 0.0136876255)) (Leaf (-0.032271136)))) (Leaf (-0.050342727)))) (Split 653 1.0 (Split 178
  1.0 (Split 104 1.0 (Split 659 1.0 (Split 789 1.0 (Leaf (-0.055495966)) (Leaf (-0.01611165)))
  (Leaf (-0.015006566))) (Leaf (-0.010460359))) (Leaf 0.007598643)) (Leaf 0.0151353))) (Split 452
  1.0 (Leaf (-0.057309505)) (Leaf 0.0012535647))) (Split 799 1.0 (Split 300 1.0 (Leaf
  (-0.044335995)) (Leaf 0.000029295832)) (Leaf 0.003595848))) (Split 73 1.0 (Split 911 1.0 (Split
  117 1.0 (Split 560 1.0 var107_36963 (Leaf (-0.050248157))) (Leaf (-0.037645943))) (Leaf
  (-0.056828614))) (Leaf (-0.041036036)))) (Split 1001 1.0 (Split 540 1.0 (Split 435 1.0 (Leaf
  (-0.028607557)) (Leaf 0.0055485303)) (Leaf (-0.059967745))) (Leaf 0.007893755))) var107_37041.

Definition var108_37217 : tree :=
  Split 912 1.0 (Split 16 1.0 (Split 996 1.0 (Split 789 1.0 (Split 670 1.0 (Leaf 0.032880984) (Leaf
  0.005681509)) (Leaf (-0.0030558617))) (Leaf 0.055120833)) (Leaf 0.007966239)) (Leaf
  (-0.000065557186)).

Definition var108_37275 : tree :=
  Split 664 1.0 (Split 950 1.0 (Split 670 1.0 (Split 879 1.0 (Split 294 1.0 (Split 296 1.0 (Split
  435 1.0 (Split 540 1.0 (Leaf 0.052109003) (Leaf 0.022891356)) (Split 789 1.0 (Leaf 0.029511426)
  (Leaf (-0.001516218)))) (Leaf 0.002986657)) (Leaf 0.003487618)) (Leaf (-0.009876364))) (Split 104
  1.0 (Leaf 0.01316037) (Leaf (-0.006618259)))) (Leaf (-0.0123020625))) (Leaf (-0.020207135)).

Definition var108 : tree :=
  Split 986 1.0 (Split 481 2.0 (Split 709 1.0 (Split 1002 1.0 (Split 157 1.0 (Split 833 1.0 (Split
  267 1.0 (Split 190 1.0 (Split 958 1.0 (Split 780 1.0 (Split 386 1.0 (Split 799 1.0 (Leaf
  (-0.008547987)) (Leaf 0.013115503)) (Split 872 1.0 (Leaf (-0.0042727618)) (Leaf 0.046078376)))
  (Split 8 1.0 (Split 670 1.0 (Leaf 0.015926678) (Leaf (-0.01319618))) (Split 36 1.0 (Leaf
  0.05348217) (Leaf (-0.003342148))))) (Split 543 1.0 (Split 812 1.0 (Split 156 1.0 (Leaf
  (-0.021641228)) (Leaf 0.007975417)) (Leaf 0.0030393624)) (Leaf 0.046595763))) (Split 120 1.0
  (Split 36 1.0 (Split 300 1.0 (Leaf (-0.034992713)) (Leaf 0.005190684)) (Leaf 0.026930744)) (Leaf
  0.04626363))) (Split 138 1.0 (Split 482 1.0 (Split 982 1.0 (Split 64 1.0 (Split 392 1.0 (Leaf
  0.020875221) (Leaf 0.060607314)) (Leaf (-0.03113516))) (Leaf (-0.037137974))) (Leaf
  (-0.043329686))) (Split 979 1.0 (Split 822 1.0 (Split 300 1.0 (Split 267 2.0 (Leaf
  (-0.0075276257)) (Leaf (-0.03823376))) (Split 452 1.0 (Leaf 0.008750757) (Leaf (-0.0012936007))))
  (Leaf (-0.039854903))) (Leaf 0.032438178)))) (Split 660 1.0 (Split 641 1.0 (Split 452 1.0 (Split
  36 1.0 (Leaf 0.025885707) (Leaf (-0.022534786))) (Leaf (-0.017636288))) (Leaf (-0.023368532)))
  (Leaf 0.04517996))) (Split 45 1.0 (Split 435 1.0 (Leaf 0.0457394) (Split 300 1.0 (Leaf
  (-0.021160906)) (Leaf 0.030632062))) (Leaf (-0.0059512556)))) (Split 62 1.0 (Split 950 1.0 (Split
  156 1.0 var108_37217 (Leaf 0.05159944)) (Leaf (-0.0132339215))) (Leaf (-0.014772065)))) (Split
  104 1.0 (Split 435 1.0 (Split 77 1.0 (Leaf 0.053075064) (Leaf 0.012108488)) (Split 300 1.0 (Leaf
  (-0.0063424)) (Leaf 0.035465043))) (Leaf 0.00234396))) (Split 16 1.0 (Leaf 0.06869657) (Leaf
  0.010734355))) var108_37275.

Definition var109 : tree :=
  Split 815 1.0 (Split 944 1.0 (Split 99 1.0 (Split 438 1.0 (Split 389 1.0 (Split 621 1.0 (Split
  630 1.0 (Split 648 1.0 (Split 870 1.0 (Split 517 1.0 (Split 178 1.0 (Split 473 1.0 (Leaf
  0.004211186) (Leaf (-0.02757971))) (Split 537 1.0 (Leaf (-0.025697703)) (Leaf 0.025395257)))
  (Split 814 1.0 (Split 392 1.0 (Leaf (-0.021405812)) (Leaf 0.029040053)) (Leaf 0.051200267)))
  (Split 976 1.0 (Split 86 1.0 (Split 659 1.0 (Leaf 0.04896005) (Leaf 0.007616875)) (Leaf
  (-0.017274218))) (Split 300 1.0 (Leaf (-0.0018630527)) (Leaf (-0.01837277))))) (Split 789 1.0
  (Split 517 1.0 (Leaf (-0.054372903)) (Leaf (-0.008452906))) (Leaf 0.0074561434))) (Split 452 1.0
  (Split 617 1.0 (Leaf (-0.051316228)) (Leaf 0.002779952)) (Split 540 1.0 (Leaf (-0.011787365))
  (Leaf 0.024507811)))) (Leaf (-0.05341925))) (Split 435 1.0 (Leaf (-0.048889734)) (Leaf
  0.006286211))) (Split 607 1.0 (Split 77 1.0 (Split 670 1.0 (Split 452 2.0 (Split 16 1.0 (Leaf
  0.055342235) (Leaf 0.011557623)) (Leaf 0.008188895)) (Split 540 1.0 (Leaf (-0.0053671426)) (Leaf
  0.012957039))) (Leaf 0.003532753)) (Leaf (-0.0061924434)))) (Split 641 1.0 (Split 473 1.0 (Split
  924 1.0 (Split 300 1.0 (Split 345 1.0 (Split 86 1.0 (Split 1005 1.0 (Split 441 1.0 (Split 203 1.0
  (Leaf 0.04151571) (Leaf (-0.00230446))) (Leaf (-0.0065618544))) (Leaf (-0.009999601))) (Leaf
  (-0.016772512))) (Leaf (-0.026858434))) (Split 16 1.0 (Split 995 1.0 (Split 789 1.0 (Split 300
  2.0 (Leaf 0.03182393) (Leaf 0.0006606437)) (Split 540 2.0 (Leaf 0.011763805) (Leaf
  (-0.01024901)))) (Leaf (-0.035959575))) (Leaf (-0.035678644)))) (Leaf (-0.029025493))) (Leaf
  (-0.03424342))) (Split 540 1.0 (Leaf 0.0005100492) (Split 452 1.0 (Leaf (-0.03107593)) (Leaf
  (-0.0077265874)))))) (Split 641 1.0 (Split 995 1.0 (Split 789 1.0 (Leaf (-0.04690052)) (Leaf
  (-0.016999226))) (Leaf (-0.00007193968))) (Leaf 0.010712459))) (Split 452 1.0 (Leaf
  (-0.047351178)) (Split 540 1.0 (Leaf (-0.02517791)) (Leaf 0.012809622))).

Definition var110_37743 : tree :=
  Split 678 1.0 (Split 277 1.0 (Split 682 1.0 (Split 1019 1.0 (Split 36 1.0 (Leaf 0.055770367)
  (Leaf 0.013445779)) (Leaf 0.004087678)) (Leaf 0.002605269)) (Leaf (-0.00018031427))) (Leaf
  0.00673789).

Definition var110 : tree :=
  Split 286 1.0 (Split 815 1.0 (Split 944 1.0 (Split 481 1.0 (Split 73 1.0 (Split 130 1.0 (Split 99
  1.0 (Split 513 1.0 (Split 150 1.0 (Split 42 1.0 (Split 958 1.0 (Split 872 1.0 (Leaf
  (-0.0018554904)) (Leaf 0.03401761)) (Split 543 1.0 (Leaf (-0.0019444239)) (Leaf 0.046404567)))
  (Split 603 1.0 (Split 607 1.0 (Leaf (-0.03219227)) (Leaf 0.0027057214)) (Leaf 0.026977682)))
  (Split 912 1.0 (Split 104 1.0 (Leaf 0.07388462) (Leaf 0.022073759)) (Leaf (-0.000014062708))))
  (Split 789 1.0 (Split 36 1.0 (Leaf 0.047146764) (Leaf 0.021394305)) (Leaf 0.0028364367))) (Split
  540 1.0 (Split 357 1.0 (Split 388 1.0 (Split 852 1.0 (Split 812 1.0 (Leaf 0.03902455) (Leaf
  0.0023531609)) (Leaf (-0.016246578))) (Leaf (-0.026369989))) (Leaf (-0.03295452))) (Split 812 1.0
  (Split 284 1.0 (Split 267 1.0 (Split 158 1.0 (Leaf 0.012210455) (Leaf (-0.028156152))) (Leaf
  (-0.03413197))) (Leaf (-0.04080349))) (Leaf 0.031185431)))) (Split 607 1.0 (Split 156 1.0 (Leaf
  0.06879799) (Leaf 0.01947784)) (Leaf (-0.0009842812)))) (Split 255 1.0 (Split 141 1.0 (Split 655
  1.0 (Split 855 1.0 (Split 679 1.0 (Split 128 1.0 (Split 812 1.0 (Leaf (-0.048244353)) (Leaf
  (-0.009999285))) (Leaf (-0.010230332))) (Leaf (-0.0070223245))) (Leaf (-0.0014371126))) (Leaf
  0.0055522784)) (Leaf 0.015019029)) (Leaf 0.019775953))) (Split 481 2.0 (Split 979 1.0 (Split 964
  1.0 (Split 53 1.0 (Split 799 1.0 (Split 300 1.0 (Split 156 1.0 (Split 976 1.0 (Leaf
  (-0.027894348)) (Leaf 0.0031873637)) (Leaf 0.0074180537)) (Split 16 1.0 (Split 435 1.0 (Leaf
  0.0037398357) (Leaf 0.032469552)) (Leaf (-0.023552816)))) (Leaf 0.03591208)) (Leaf 0.044178925))
  (Leaf 0.042900812)) (Split 641 1.0 (Leaf 0.046291437) (Leaf 0.0048544854))) (Split 16 1.0 (Leaf
  0.06724518) (Leaf 0.010289364)))) (Split 995 1.0 (Split 300 1.0 (Leaf (-0.04643703)) (Split 540
  1.0 (Leaf 0.009075311) (Leaf (-0.022930073)))) (Leaf (-0.00006995439)))) (Split 452 1.0 (Leaf
  (-0.05014775)) (Split 540 1.0 (Leaf (-0.02461342)) (Leaf 0.012449699)))) var110_37743.

Definition var111 : tree :=
  Split 737 1.0 (Split 301 1.0 (Split 438 1.0 (Split 479 1.0 (Split 621 1.0 (Split 389 1.0 (Split
  43 1.0 (Split 776 1.0 (Split 648 1.0 (Split 73 1.0 (Split 65 1.0 (Split 178 1.0 (Leaf
  0.0067814686) (Leaf (-0.017506609))) (Split 518 1.0 (Leaf (-0.019757897)) (Leaf 0.029969385)))
  (Split 255 1.0 (Split 141 1.0 (Leaf (-0.03524295)) (Leaf 0.014463434)) (Leaf 0.016949465)))
  (Split 789 1.0 (Split 517 1.0 (Leaf (-0.049927097)) (Leaf (-0.008268517))) (Leaf
  (-0.0076115117)))) (Split 655 1.0 (Split 741 1.0 (Split 679 1.0 (Split 55 1.0 (Leaf
  (-0.032671418)) (Leaf 0.034198575)) (Split 678 1.0 (Leaf 0.0300308) (Leaf (-0.013249311)))) (Leaf
  0.038542695)) (Split 912 1.0 (Leaf 0.071524166) (Leaf 0.0038119256)))) (Split 452 2.0 (Split 822
  1.0 (Split 607 1.0 (Leaf (-0.048900843)) (Leaf (-0.0076438314))) (Leaf 0.008351588)) (Leaf
  0.011038232))) (Split 435 1.0 (Leaf (-0.04701538)) (Leaf 0.011937178))) (Split 678 1.0 (Leaf
  (-0.05488487)) (Leaf (-0.016570253)))) (Split 979 1.0 (Split 937 1.0 (Split 156 1.0 (Split 330
  1.0 (Split 14 1.0 (Split 617 1.0 (Leaf (-0.045283075)) (Leaf (-0.016233569))) (Leaf
  (-0.00857813))) (Leaf 0.0013568954)) (Split 540 1.0 (Leaf 0.011130075) (Leaf (-0.029182253))))
  (Leaf 0.0031943505)) (Leaf 0.012104473))) (Split 540 2.0 (Split 607 1.0 (Split 255 1.0 (Split 980
  1.0 (Split 976 1.0 (Split 16 1.0 (Split 77 1.0 (Leaf 0.0595961) (Leaf 0.017879257)) (Leaf
  0.015824467)) (Leaf 0.0068858773)) (Leaf (-0.00039530566))) (Leaf 0.00032470629)) (Leaf
  (-0.0055415705))) (Leaf (-0.014754106)))) (Split 498 1.0 (Leaf (-0.04725882)) (Leaf
  (-0.012920569)))) (Leaf (-0.050648388)).

Definition var112_38090 : tree :=
  Split 540 2.0 (Split 36 1.0 (Split 255 1.0 (Split 452 1.0 (Split 138 1.0 (Split 77 1.0 (Leaf
  0.0642939) (Leaf 0.01911431)) (Leaf 0.006584318)) (Split 540 1.0 (Leaf 0.0048173056) (Leaf
  0.03140279))) (Leaf (-0.010178458))) (Leaf (-0.0076615526))) (Leaf (-0.020707201)).

Definition var112_38183 : tree :=
  Split 662 1.0 (Split 479 1.0 (Split 104 1.0 (Split 822 1.0 (Split 682 1.0 (Split 780 1.0 (Leaf
  0.045611374) (Leaf 0.013726479)) (Leaf 0.009559851)) (Leaf 0.013183218)) (Split 435 1.0 (Leaf
  0.022446884) (Leaf (-0.0060777776)))) (Leaf 0.0013226637)) (Leaf 0.0027727312).

Definition var112_38121 : tree :=
  Split 300 1.0 (Split 641 1.0 (Split 670 1.0 (Split 679 1.0 (Split 104 1.0 (Split 435 1.0 (Split
  452 1.0 (Split 36 1.0 (Leaf 0.010604894) (Leaf 0.033782344)) (Leaf (-0.010535055))) (Leaf
  0.042146392)) (Leaf (-0.016342524))) (Leaf (-0.021570843))) (Leaf (-0.027447104))) (Leaf
  0.04136894)) (Split 682 1.0 (Split 104 1.0 (Split 498 1.0 (Leaf 0.06076411) (Leaf 0.018386459))
  (Leaf 0.014927856)) (Leaf 0.0054465286)).

Definition var112 : tree :=
  Split 330 1.0 (Split 385 1.0 (Split 733 1.0 (Split 751 1.0 (Split 286 1.0 (Split 833 1.0 (Split
  53 1.0 (Split 533 1.0 (Split 407 1.0 (Split 190 1.0 (Split 575 1.0 (Split 709 1.0 (Leaf
  (-0.005875183)) (Leaf 0.035628084)) (Split 976 1.0 (Leaf 0.03966437) (Leaf (-0.009808671))))
  (Split 120 1.0 (Split 36 1.0 (Leaf (-0.022438675)) (Leaf 0.0339269)) (Leaf 0.046041664))) (Split
  908 1.0 (Split 300 1.0 (Split 976 1.0 (Leaf 0.059035577) (Leaf 0.00768037)) (Split 789 1.0 (Leaf
  0.0140137365) (Leaf (-0.016909568)))) (Leaf (-0.032280713)))) (Split 789 1.0 (Split 357 1.0
  (Split 435 1.0 (Leaf 0.063704655) (Leaf 0.001973737)) (Leaf (-0.022025293))) (Leaf
  (-0.01863504)))) (Split 77 1.0 (Split 397 1.0 (Split 950 1.0 (Split 670 1.0 (Split 574 1.0 (Leaf
  0.0415148) (Leaf (-0.020414999))) (Split 156 1.0 (Leaf (-0.010688848)) (Leaf 0.011058179))) (Leaf
  (-0.016286302))) (Leaf (-0.024010733))) (Leaf (-0.034244586)))) (Split 660 1.0 (Split 435 1.0
  (Split 540 1.0 (Split 812 1.0 (Split 300 1.0 (Leaf 0.027782977) (Leaf 0.007750235)) (Leaf
  (-0.008585735))) (Leaf (-0.009742052))) (Leaf (-0.007781435))) (Leaf 0.044919502))) (Split 277
  1.0 (Split 607 1.0 (Split 36 1.0 (Split 678 1.0 (Split 14 1.0 (Split 540 1.0 (Leaf 0.050616402)
  (Split 300 1.0 (Leaf 0.0024315661) (Leaf 0.028705006))) (Leaf 0.00800551)) (Leaf
  (-0.0036906016))) (Leaf (-0.0039786906))) (Leaf 0.067202345)) (Leaf (-0.0005039183))))
  var112_38090) var112_38121) (Split 1001 1.0 (Split 540 1.0 (Split 435 1.0 (Leaf (-0.027481973))
  (Leaf 0.0057245404)) (Leaf (-0.05854237))) (Leaf 0.00764062))) var112_38183.

Definition var113_38395 : tree :=
  Split 540 2.0 (Split 255 1.0 (Split 451 1.0 (Split 980 1.0 (Split 976 1.0 (Split 16 1.0 (Split 77
  1.0 (Leaf 0.05722898) (Leaf 0.017398322)) (Leaf 0.014369023)) (Leaf 0.013364293)) (Leaf
  0.0013043737)) (Leaf (-0.0066991993))) (Leaf (-0.007478071))) (Leaf (-0.014605552)).

Definition var113_38437 : tree :=
  Split 664 1.0 (Split 950 1.0 (Split 244 1.0 (Split 670 1.0 (Split 985 1.0 (Split 296 1.0 (Split
  517 1.0 (Split 776 1.0 (Leaf 0.046038505) (Leaf 0.0149377305)) (Leaf 0.014424234)) (Leaf
  0.00040073507)) (Leaf (-0.0028720784))) (Split 104 1.0 (Leaf 0.011595211) (Leaf
  (-0.0063287276)))) (Leaf (-0.0061339824))) (Leaf (-0.012248478))) (Leaf (-0.019670729)).

Definition var113 : tree :=
  Split 986 1.0 (Split 838 1.0 (Split 438 1.0 (Split 157 1.0 (Split 780 1.0 (Split 874 1.0 (Split
  799 1.0 (Split 55 1.0 (Split 99 1.0 (Split 345 1.0 (Split 979 1.0 (Split 575 1.0 (Leaf
  (-0.00925321)) (Leaf 0.03739617)) (Split 296 1.0 (Leaf 0.00914614) (Leaf (-0.05265559)))) (Split
  178 1.0 (Split 979 1.0 (Leaf 0.058459945) (Leaf (-0.033187784))) (Leaf (-0.03148834)))) (Split
  540 1.0 (Split 65 1.0 (Split 996 1.0 (Leaf 0.028754488) (Leaf (-0.034217384))) (Leaf
  (-0.024781208))) (Split 452 1.0 (Split 435 1.0 (Leaf (-0.026972923)) (Leaf 0.018520325)) (Split
  678 1.0 (Leaf 0.0450479) (Leaf (-0.012693456)))))) (Split 596 1.0 (Split 619 1.0 (Split 16 1.0
  (Split 721 1.0 (Leaf 0.033278) (Leaf (-0.021966396))) (Split 435 1.0 (Leaf 0.007140474) (Leaf
  (-0.03152825)))) (Leaf (-0.037273217))) (Leaf (-0.06176802)))) (Split 463 1.0 (Split 877 1.0
  (Split 73 1.0 (Split 50 1.0 (Split 105 1.0 (Leaf 0.029056622) (Leaf (-0.040667772))) (Leaf
  (-0.04948432))) (Leaf (-0.0456369))) (Leaf (-0.046354312))) (Leaf (-0.04821747)))) (Split 178 1.0
  (Split 822 1.0 (Split 617 1.0 (Split 517 1.0 (Split 479 1.0 (Leaf (-0.05718522)) (Leaf
  (-0.014417118))) (Leaf (-0.014986641))) (Leaf (-0.014795097))) (Leaf 0.012184636)) (Leaf
  0.013794285))) (Split 43 1.0 (Split 532 1.0 (Split 509 1.0 (Split 435 2.0 (Split 117 1.0 (Split
  932 1.0 (Split 178 1.0 (Leaf 0.032002702) (Leaf (-0.01700797))) (Leaf (-0.018301772))) (Split 670
  1.0 (Leaf 0.0004648503) (Leaf (-0.021504695)))) (Leaf (-0.0234606))) (Leaf (-0.019761482))) (Leaf
  (-0.021366576))) (Leaf (-0.03821322)))) (Split 45 1.0 (Split 435 1.0 (Leaf 0.04317069) (Split 300
  1.0 (Leaf (-0.013941543)) (Leaf 0.029876215))) (Leaf (-0.0055731903)))) var113_38395) (Split 36
  1.0 (Split 300 1.0 (Leaf (-0.046469215)) (Leaf (-0.0057710423))) (Leaf (-0.066322014))))
  var113_38437.

Definition var114_38672 : tree :=
  Split 870 1.0 (Split 529 1.0 (Split 498 1.0 (Split 267 1.0 (Split 156 1.0 (Split 995 1.0 (Leaf
  (-0.053691454)) (Leaf 0.0011296683)) (Split 300 1.0 (Leaf (-0.021185195)) (Leaf 0.0046366584)))
  (Leaf 0.0009906456)) (Leaf 0.00957146)) (Leaf 0.011005598)) (Leaf 0.02254426).

Definition var114_38703 : tree :=
  Split 697 1.0 (Split 509 1.0 (Split 985 1.0 (Split 908 1.0 (Split 392 1.0 (Split 540 2.0 (Split
  517 1.0 (Split 53 1.0 (Split 65 1.0 (Split 498 1.0 (Split 435 1.0 (Leaf 0.060625877) (Leaf
  0.02908313)) (Leaf 0.018890604)) (Leaf 0.005904867)) (Leaf 0.00011188254)) (Leaf 0.002986573))
  (Split 104 1.0 (Leaf 0.010821981) (Leaf (-0.0039192443)))) (Leaf (-0.0024876643))) (Leaf
  (-0.0042722365))) (Leaf (-0.013394623))) (Leaf (-0.020842116))) (Leaf (-0.028866038)).

Definition var114 : tree :=
  Split 819 1.0 (Split 473 1.0 (Split 775 1.0 (Split 53 1.0 (Split 833 1.0 (Split 345 1.0 (Split 65
  1.0 (Split 751 1.0 (Split 19 1.0 (Split 99 1.0 (Split 501 1.0 (Split 438 1.0 (Leaf
  (-0.0013326905)) (Leaf 0.03628816)) (Split 682 1.0 (Leaf (-0.0468521)) (Leaf 0.042619094)))
  (Split 641 1.0 (Split 944 1.0 (Leaf 0.02901348) (Leaf (-0.033609793))) (Split 141 1.0 (Leaf
  (-0.007161108)) (Leaf (-0.036164872))))) (Split 300 1.0 (Leaf (-0.05328194)) (Leaf
  (-0.009803898)))) (Split 385 1.0 (Split 540 2.0 (Split 23 1.0 (Split 77 1.0 (Leaf 0.054077175)
  (Leaf (-0.008314281))) (Leaf (-0.005625533))) (Leaf (-0.015457818))) (Leaf (-0.040420037))))
  (Split 77 1.0 (Split 908 1.0 (Split 733 1.0 (Split 979 1.0 (Split 679 1.0 (Leaf (-0.041472685))
  (Leaf 0.012583847)) (Split 540 1.0 (Leaf 0.036191694) (Leaf (-0.033496328)))) (Leaf 0.03419107))
  (Leaf 0.023952033)) (Split 36 1.0 (Leaf 0.048998367) (Leaf (-0.018449413))))) (Split 178 1.0
  (Split 979 1.0 (Split 641 1.0 (Split 679 1.0 (Split 169 1.0 (Leaf 0.06725529) (Leaf 0.021091063))
  (Leaf 0.0057686316)) (Leaf 0.0029881133)) (Leaf (-0.00958706))) (Leaf (-0.04036219)))) (Split 435
  1.0 (Split 812 1.0 (Split 300 1.0 (Leaf 0.03926414) (Leaf 0.0024051848)) (Leaf (-0.012055464)))
  (Leaf (-0.008778285)))) (Split 77 1.0 (Split 670 1.0 (Split 574 1.0 (Split 617 1.0 (Split 14 1.0
  (Split 47 1.0 (Split 517 1.0 (Split 641 1.0 (Leaf 0.05258261) (Leaf 0.014125732)) (Leaf
  0.008679931)) (Leaf (-0.010047431))) (Leaf (-0.0026229199))) (Leaf (-0.0040421393))) (Leaf
  (-0.0049464772))) (Split 300 1.0 (Split 540 1.0 (Leaf 0.017435094) (Leaf (-0.002449841))) (Leaf
  (-0.013659524)))) (Leaf (-0.030996649)))) (Split 459 1.0 (Split 16 1.0 (Split 267 1.0 (Split 812
  1.0 (Leaf (-0.04440443)) (Leaf (-0.014517657))) (Leaf 0.0044185803)) (Leaf 0.0075795124)) (Leaf
  0.04380529))) var114_38672) var114_38703.

Definition var115_38973 : tree :=
  Split 976 1.0 (Split 86 1.0 (Split 73 1.0 (Split 659 1.0 (Split 540 1.0 (Split 300 1.0 (Split 789
  1.0 (Split 452 1.0 (Leaf 0.048428934) (Leaf 0.012490994)) (Leaf 0.008297612)) (Split 156 1.0
  (Leaf 0.015646413) (Leaf 0.00087380083))) (Split 617 1.0 (Leaf 0.081691265) (Leaf 0.016555956)))
  (Split 435 1.0 (Leaf (-0.008252582)) (Leaf 0.017026506))) (Leaf (-0.0046871617))) (Split 473 1.0
  (Leaf (-0.016948037)) (Leaf 0.012656726))) (Split 435 1.0 (Leaf 0.00055992673) (Leaf
  (-0.032674618))).

Definition var115 : tree :=
  Split 870 1.0 (Split 912 1.0 (Split 911 1.0 (Split 286 1.0 (Split 980 1.0 (Split 389 1.0 (Split
  668 1.0 (Split 815 1.0 (Split 133 1.0 (Split 801 1.0 (Split 224 1.0 (Split 341 1.0 (Leaf
  0.0036169612) (Leaf 0.0401279)) (Split 659 1.0 (Leaf 0.07500559) (Leaf (-0.013077467)))) (Split
  36 1.0 (Split 540 1.0 (Leaf (-0.05648563)) (Leaf (-0.024869528))) (Leaf (-0.012321055)))) (Split
  789 1.0 (Split 36 1.0 (Split 979 1.0 (Leaf (-0.042158406)) (Leaf (-0.010636087))) (Leaf
  (-0.0055790152))) (Leaf 0.010496147))) (Split 659 1.0 (Split 452 1.0 (Leaf (-0.055740543)) (Leaf
  (-0.011102964))) (Leaf 0.0039990926))) (Split 540 2.0 (Leaf (-0.050258465)) (Leaf 0.0023868883)))
  (Split 435 1.0 (Leaf (-0.04594455)) (Leaf (-0.0092712585)))) (Split 141 1.0 (Split 655 1.0 (Split
  789 1.0 (Split 1019 1.0 (Split 682 1.0 (Leaf (-0.0500061)) (Leaf (-0.006023535))) (Leaf
  0.011932473)) (Leaf 0.007192567)) (Leaf 0.0114286505)) (Leaf 0.036412872))) (Split 678 1.0 (Split
  682 1.0 (Split 277 1.0 (Split 14 1.0 (Leaf 0.05778981) (Leaf 0.01260432)) (Leaf 0.0006054317))
  (Leaf (-0.0014851748))) (Leaf 0.0058997883))) (Split 435 1.0 (Split 789 1.0 (Split 812 1.0 (Leaf
  (-0.037867855)) (Leaf (-0.00044530217))) (Leaf (-0.07624938))) (Split 156 1.0 (Leaf 0.01195333)
  (Leaf (-0.012704504))))) (Split 481 1.0 (Split 267 1.0 (Split 623 1.0 (Split 1005 1.0 (Split 55
  1.0 (Split 780 1.0 (Split 799 1.0 (Split 503 1.0 (Split 938 1.0 (Split 819 1.0 (Leaf
  (-0.03639599)) (Leaf 0.021817151)) (Leaf 0.041132826)) (Leaf 0.02857988)) (Split 540 1.0 (Leaf
  0.032934513) (Leaf (-0.011731851)))) (Split 435 1.0 (Leaf 0.029668633) (Split 540 1.0 (Leaf
  0.0079086) (Leaf (-0.0031180175))))) (Split 300 1.0 (Leaf 0.039521903) (Leaf 0.0073901685)))
  (Leaf 0.030313632)) (Leaf 0.044320893)) (Split 16 1.0 (Split 435 1.0 (Split 300 1.0 (Leaf
  0.020637745) (Split 540 1.0 (Leaf (-0.014937028)) (Leaf 0.0013809811))) (Leaf 0.05513015)) (Leaf
  (-0.018008217)))) (Split 452 1.0 (Split 435 1.0 (Leaf (-0.0033957188)) (Leaf 0.009973125)) (Leaf
  0.057490945)))) var115_38973.

Definition var116_39315 : tree :=
  Split 950 1.0 (Split 62 1.0 (Split 617 1.0 (Split 702 1.0 (Split 985 1.0 (Split 498 1.0 (Split
  452 2.0 (Split 964 1.0 (Leaf 0.034551222) (Leaf 0.0107317595)) (Leaf 0.010960217)) (Leaf
  (-0.006652448))) (Leaf 0.06605429)) (Leaf (-0.001130586))) (Leaf (-0.0008965906))) (Leaf
  (-0.01847927))) (Leaf (-0.012016739)).

Definition var116_39224 : tree :=
  Split 482 1.0 (Split 36 1.0 (Split 911 1.0 (Split 178 1.0 (Split 659 1.0 (Split 517 1.0 (Split
  294 1.0 (Split 578 1.0 (Split 55 1.0 (Split 435 1.0 (Leaf 0.023449639) (Leaf 0.05666433)) (Leaf
  (-0.013560324))) (Leaf (-0.022669941))) (Leaf (-0.03372153))) (Split 540 1.0 (Leaf (-0.03466425))
  (Leaf 0.003592309))) (Split 789 1.0 (Split 452 1.0 (Leaf 0.06967243) (Leaf 0.024805278)) (Leaf
  0.014789811))) (Split 540 1.0 (Leaf 0.005936317) (Leaf (-0.03617811)))) (Leaf (-0.033036202)))
  (Split 540 1.0 (Split 16 1.0 (Split 908 1.0 (Split 36 2.0 (Split 979 1.0 (Split 641 1.0 (Leaf
  0.05571997) (Leaf (-0.0010541797))) (Leaf (-0.0030596114))) (Leaf (-0.0069457516))) (Leaf
  (-0.014672622))) (Leaf (-0.026349694))) (Split 128 1.0 (Split 607 1.0 (Leaf (-0.04070766)) (Leaf
  (-0.006148112))) (Leaf 0.0075059743)))) (Leaf (-0.041967552)).

Definition var116 : tree :=
  Split 1002 1.0 (Split 267 1.0 (Split 19 1.0 (Split 45 1.0 (Split 190 1.0 (Split 575 1.0 (Split
  958 1.0 (Split 55 1.0 (Split 407 1.0 (Split 799 1.0 (Split 979 1.0 (Split 386 1.0 (Leaf
  (-0.010011974)) (Leaf 0.033384293)) (Split 300 1.0 (Leaf (-0.0011790696)) (Leaf 0.020917395)))
  (Split 517 1.0 (Split 73 1.0 (Leaf 0.020577136) (Leaf (-0.045996778))) (Leaf (-0.032468915))))
  (Split 300 1.0 (Split 517 1.0 (Split 36 1.0 (Leaf 0.05065579) (Leaf 0.0130201625)) (Leaf
  0.0022648352)) (Split 16 1.0 (Split 678 1.0 (Leaf 0.019927982) (Leaf (-0.008390235))) (Leaf
  (-0.0131064))))) (Split 903 1.0 (Split 619 1.0 (Split 637 1.0 (Split 1019 1.0 (Leaf 0.031821627)
  (Leaf (-0.020992758))) (Leaf (-0.03355352))) (Leaf (-0.038239043))) (Leaf (-0.060869038))))
  (Split 543 1.0 (Split 452 1.0 (Split 36 1.0 (Leaf 0.018514281) (Leaf (-0.009020809))) (Leaf
  (-0.013834889))) (Leaf 0.046247836))) (Split 979 1.0 (Split 494 1.0 (Split 435 1.0 (Split 498 1.0
  (Split 540 1.0 (Leaf 0.06551013) (Split 300 1.0 (Leaf 0.031803858) (Leaf (-0.0011606679)))) (Leaf
  0.01891458)) (Split 300 1.0 (Leaf (-0.005717543)) (Leaf 0.05192786))) (Leaf (-0.00045703465)))
  (Leaf (-0.024941508)))) (Split 120 1.0 (Split 36 1.0 (Split 300 1.0 (Leaf (-0.031398155)) (Leaf
  0.010618193)) (Leaf 0.03953783)) (Leaf 0.045879662))) (Split 0 1.0 (Split 985 1.0 (Split 529 1.0
  (Split 47 1.0 (Split 178 1.0 (Split 908 1.0 (Split 357 1.0 (Split 617 1.0 (Leaf 0.045820396)
  (Leaf (-0.005754371))) (Leaf (-0.0129788965))) (Leaf (-0.0015985857))) (Leaf (-0.011948551)))
  (Leaf (-0.025207281))) (Split 452 1.0 (Leaf (-0.023494301)) (Leaf (-0.0032795535)))) (Split 452
  1.0 (Leaf (-0.035327613)) (Leaf (-0.0005361254)))) (Leaf (-0.031898815)))) (Split 641 1.0 (Split
  435 1.0 (Leaf (-0.06415286)) (Leaf (-0.0003330088))) (Split 435 1.0 (Leaf 0.02251621) (Leaf
  (-0.019770255))))) var116_39224) var116_39315.

Definition var117_39577 : tree :=
  Split 662 1.0 (Split 435 1.0 (Split 452 1.0 (Split 682 1.0 (Split 822 1.0 (Leaf 0.048941925)
  (Leaf 0.009152347)) (Leaf 0.010325221)) (Split 300 1.0 (Leaf 0.026631186) (Leaf
  (-0.0031881847)))) (Split 540 2.0 (Leaf 0.02568776) (Leaf (-0.013449072)))) (Leaf 0.0026393132).

Definition var117_39503 : tree :=
  Split 300 1.0 (Split 655 1.0 (Split 49 1.0 (Split 498 1.0 (Split 36 1.0 (Split 979 1.0 (Split 617
  1.0 (Split 678 1.0 (Leaf 0.058441192) (Leaf 0.018821267)) (Leaf 0.015025012)) (Leaf 0.008500684))
  (Split 435 1.0 (Leaf 0.02610517) (Leaf (-0.008618224)))) (Split 452 1.0 (Leaf (-0.016860891))
  (Leaf 0.01843004))) (Leaf (-0.023144504))) (Leaf (-0.027116075))) (Split 518 1.0 (Split 435 1.0
  (Split 128 1.0 (Leaf (-0.013333544)) (Leaf 0.008395473)) (Leaf 0.010674169)) (Leaf
  (-0.023084695))).

Definition var117 : tree :=
  Split 330 1.0 (Split 709 1.0 (Split 8 1.0 (Split 623 1.0 (Split 130 1.0 (Split 838 1.0 (Split 870
  1.0 (Split 912 1.0 (Split 911 1.0 (Split 1019 1.0 (Split 42 1.0 (Split 980 1.0 (Leaf
  0.0024263717) (Leaf (-0.029469905))) (Split 537 1.0 (Leaf (-0.029820228)) (Leaf 0.020612566)))
  (Split 979 1.0 (Split 655 1.0 (Leaf (-0.02665691)) (Leaf 0.030438272)) (Split 435 1.0 (Leaf
  0.0312667) (Leaf (-0.013827686))))) (Split 435 1.0 (Split 976 1.0 (Leaf (-0.058766402)) (Leaf
  (-0.010828791))) (Split 156 1.0 (Leaf 0.014098226) (Leaf (-0.012068388))))) (Split 481 1.0 (Split
  1005 1.0 (Split 407 1.0 (Split 624 1.0 (Leaf (-0.02385715)) (Leaf 0.041304477)) (Leaf
  0.040129688)) (Split 540 1.0 (Leaf 0.03385397) (Leaf 0.0022747028))) (Split 452 1.0 (Leaf
  (-0.0020654735)) (Leaf 0.056106295)))) (Split 976 1.0 (Split 537 1.0 (Split 392 1.0 (Split 86 1.0
  (Split 73 1.0 (Leaf 0.048311684) (Leaf (-0.001893801))) (Leaf 0.00011417861)) (Leaf
  (-0.010536498))) (Leaf (-0.014686026))) (Split 104 1.0 (Leaf (-0.0012233102)) (Leaf
  (-0.03216983))))) (Split 822 1.0 (Leaf (-0.052952625)) (Leaf (-0.014765635)))) (Split 540 2.0
  (Split 678 1.0 (Leaf 0.058971535) (Leaf 0.02070701)) (Leaf 0.010818387))) (Split 77 1.0 (Split
  908 1.0 (Split 776 1.0 (Split 1018 1.0 (Split 789 1.0 (Split 540 1.0 (Leaf 0.054512322) (Leaf
  0.015838271)) (Leaf 0.0139347715)) (Leaf 0.011475026)) (Leaf (-0.0030285215))) (Leaf
  (-0.0030975463))) (Leaf (-0.014059283)))) var117_39503) (Split 104 1.0 (Split 659 1.0 (Split 789
  1.0 (Split 435 1.0 (Leaf 0.05259338) (Leaf 0.022214245)) (Leaf 0.013289449)) (Leaf
  (-0.0021541107))) (Leaf (-0.00063115446)))) var117_39577.

Definition var118_39773 : tree :=
  Split 60 1.0 (Split 937 1.0 (Split 435 1.0 (Split 682 1.0 (Split 20 1.0 (Split 138 1.0 (Split
  1018 1.0 (Split 950 1.0 (Split 498 1.0 (Leaf 0.053703547) (Leaf 0.014521897)) (Leaf 0.015699323))
  (Leaf 0.014473635)) (Leaf (-0.0004155413))) (Leaf (-0.010642052))) (Leaf (-0.0024439476))) (Split
  104 1.0 (Split 300 1.0 (Split 812 1.0 (Split 36 1.0 (Split 540 1.0 (Leaf (-0.008275478)) (Leaf
  0.00093644636)) (Leaf 0.014910764)) (Leaf 0.027937088)) (Leaf 0.035341434)) (Leaf
  (-0.01783227)))) (Leaf (-0.0090876))) (Leaf (-0.03076142)).

Definition var118 : tree :=
  Split 301 1.0 (Split 737 1.0 (Split 819 1.0 (Split 733 1.0 (Split 8 1.0 (Split 130 1.0 (Split 801
  1.0 (Split 751 1.0 (Split 386 1.0 (Split 678 1.0 (Split 457 1.0 (Split 968 1.0 (Leaf
  0.0011136121) (Leaf (-0.03187452))) (Split 976 1.0 (Leaf (-0.05022129)) (Leaf 0.01226142)))
  (Split 419 1.0 (Split 86 2.0 (Leaf (-0.015604826)) (Leaf 0.052721806)) (Leaf 0.037200794)))
  (Split 300 1.0 (Leaf (-0.008580483)) (Split 156 1.0 (Leaf 0.011112112) (Leaf 0.04499065))))
  (Split 36 1.0 (Split 789 1.0 (Split 912 1.0 (Split 77 1.0 (Leaf 0.055710565) (Leaf
  0.00064224517)) (Leaf (-0.0014797382))) (Leaf (-0.0053711333))) (Leaf (-0.017617142)))) (Split
  452 1.0 (Split 789 1.0 (Leaf (-0.06004069)) (Leaf (-0.010540323))) (Leaf 0.0038332397))) (Split
  641 1.0 (Split 678 1.0 (Leaf 0.0633558) (Leaf 0.01662595)) (Leaf 0.016001659))) (Split 494 1.0
  (Split 721 1.0 (Split 537 1.0 (Split 498 1.0 (Split 517 1.0 (Split 800 1.0 (Split 128 1.0 (Leaf
  0.052458663) (Leaf 0.008593329)) (Leaf (-0.0052555124))) (Leaf (-0.0023500517))) (Leaf
  (-0.008426013))) (Leaf (-0.008977992))) (Leaf (-0.021810707))) (Leaf (-0.025097424)))) (Split 77
  1.0 (Split 300 2.0 (Split 435 1.0 (Split 950 1.0 (Split 799 1.0 (Split 540 1.0 (Split 36 1.0
  (Split 156 1.0 (Leaf 0.009735822) (Leaf (-0.017121768))) (Leaf 0.03529201)) (Split 452 1.0 (Split
  540 2.0 (Leaf (-0.027597135)) (Leaf (-0.005997517))) (Leaf 0.0011784233))) (Leaf 0.034810733))
  (Leaf 0.045414113)) (Split 670 1.0 (Leaf 0.05158929) (Leaf 0.004065251))) (Leaf 0.06078843))
  (Leaf (-0.02487831)))) var118_39773) (Leaf (-0.049102273))) (Split 498 1.0 (Leaf (-0.045442026))
  (Leaf (-0.011923037))).

Definition var119_40001 : tree :=
  Split 664 1.0 (Split 950 1.0 (Split 879 1.0 (Split 670 1.0 (Split 294 1.0 (Split 296 1.0 (Split
  435 1.0 (Split 540 1.0 (Leaf 0.05089243) (Leaf 0.020986158)) (Split 789 1.0 (Leaf 0.027815497)
  (Leaf (-0.002287728)))) (Leaf 0.002930925)) (Leaf 0.0021233622)) (Split 104 1.0 (Leaf
  0.008754179) (Leaf (-0.0061090128)))) (Leaf (-0.004628244))) (Leaf (-0.011835608))) (Leaf
  (-0.018461743)).

Definition var119 : tree :=
  Split 986 1.0 (Split 481 2.0 (Split 709 1.0 (Split 1002 1.0 (Split 59 1.0 (Split 838 1.0 (Split
  824 1.0 (Split 630 1.0 (Split 202 1.0 (Split 73 1.0 (Split 157 1.0 (Split 286 1.0 (Leaf
  (-0.0017376766)) (Leaf 0.03404443)) (Split 45 1.0 (Leaf 0.037962254) (Leaf (-0.005906302))))
  (Split 733 1.0 (Split 141 1.0 (Leaf (-0.039422058)) (Leaf 0.019568322)) (Leaf 0.027020235)))
  (Split 300 1.0 (Leaf 0.070910916) (Leaf 0.007430835))) (Split 617 1.0 (Split 452 1.0 (Leaf
  (-0.04584961)) (Split 540 1.0 (Leaf (-0.02628745)) (Leaf 0.008848819))) (Leaf 0.0026373784)))
  (Split 432 1.0 (Split 498 1.0 (Split 679 1.0 (Split 141 1.0 (Split 435 1.0 (Leaf 0.05544107)
  (Leaf 0.016226908)) (Leaf (-0.013279969))) (Leaf (-0.016250078))) (Leaf (-0.0284381))) (Leaf
  (-0.040164158)))) (Split 824 1.0 (Split 799 1.0 (Leaf (-0.0536065)) (Leaf (-0.01182963))) (Leaf
  (-0.01425933)))) (Leaf (-0.05719766))) (Split 62 1.0 (Split 950 1.0 (Split 156 1.0 (Split 912 1.0
  (Split 1019 1.0 (Split 16 1.0 (Split 670 1.0 (Split 789 1.0 (Leaf 0.037089657) (Leaf
  0.0049537644)) (Leaf 0.0085589)) (Leaf 0.0069032484)) (Leaf 0.0048323306)) (Leaf
  (-0.0006063029))) (Leaf 0.049450483)) (Leaf (-0.011988597))) (Leaf (-0.012525709)))) (Split 976
  1.0 (Split 104 1.0 (Split 435 1.0 (Split 77 1.0 (Leaf 0.051175363) (Leaf 0.008348907)) (Split 300
  1.0 (Leaf 0.00011243071) (Leaf 0.033794247))) (Leaf 0.005014639)) (Leaf (-0.0020512529)))) (Split
  16 1.0 (Leaf 0.065113746) (Leaf 0.008770643))) var119_40001.

Definition var120_40233 : tree :=
  Split 1001 1.0 (Split 540 1.0 (Split 435 1.0 (Split 670 1.0 (Split 36 1.0 (Leaf (-0.0029537815))
  (Leaf (-0.021666856))) (Leaf (-0.03442779))) (Leaf 0.0059644687)) (Leaf (-0.056737322))) (Leaf
  0.008892997).

Definition var120_40256 : tree :=
  Split 662 1.0 (Split 435 1.0 (Split 452 1.0 (Split 822 1.0 (Split 682 1.0 (Leaf 0.0520976) (Leaf
  0.008871535)) (Leaf 0.00796602)) (Split 300 1.0 (Leaf 0.026270056) (Leaf (-0.0031873465))))
  (Split 540 2.0 (Leaf 0.024786757) (Leaf (-0.013021206)))) (Leaf 0.002293576).

Definition var120_40194 : tree :=
  Split 300 1.0 (Split 641 1.0 (Split 670 1.0 (Split 679 1.0 (Split 104 1.0 (Split 452 1.0 (Split
  156 1.0 (Leaf 0.032927174) (Leaf 0.010109631)) (Leaf (-0.0017532347))) (Leaf (-0.01640312)))
  (Leaf (-0.021862097))) (Leaf (-0.02529858))) (Leaf 0.041441258)) (Split 682 1.0 (Split 518 1.0
  (Leaf 0.05313296) (Leaf 0.015923455)) (Leaf 0.0037265792)).

Definition var120 : tree :=
  Split 245 1.0 (Split 330 1.0 (Split 385 1.0 (Split 733 1.0 (Split 751 1.0 (Split 286 1.0 (Split
  824 1.0 (Split 407 1.0 (Split 833 1.0 (Split 55 1.0 (Split 799 1.0 (Split 780 1.0 (Leaf
  (-0.006471639)) (Leaf 0.016545106)) (Split 877 1.0 (Leaf 0.016617043) (Leaf (-0.053478956))))
  (Split 16 1.0 (Split 815 1.0 (Leaf 0.024693882) (Leaf (-0.0297821))) (Split 435 1.0 (Leaf
  0.00656341) (Leaf (-0.037174877))))) (Split 435 1.0 (Split 540 1.0 (Split 660 1.0 (Leaf
  0.023030126) (Leaf 0.044567112)) (Leaf (-0.01052595))) (Leaf (-0.011661929)))) (Split 908 1.0
  (Split 16 1.0 (Split 812 1.0 (Split 128 1.0 (Leaf 0.053707816) (Leaf 0.005508214)) (Leaf
  (-0.0128033925))) (Split 435 1.0 (Leaf (-0.008567248)) (Leaf 0.009361404))) (Leaf
  (-0.031392366)))) (Split 432 1.0 (Split 498 1.0 (Split 822 1.0 (Split 141 1.0 (Split 670 1.0
  (Leaf 0.048450675) (Leaf 0.0019185795)) (Leaf (-0.011827363))) (Leaf (-0.012103318))) (Leaf
  (-0.02199941))) (Leaf (-0.036859658)))) (Split 277 1.0 (Split 607 1.0 (Split 678 1.0 (Split 36
  1.0 (Split 435 1.0 (Split 300 1.0 (Leaf 0.031754848) (Leaf 0.0034323712)) (Leaf 0.060334723))
  (Leaf (-0.005184715))) (Leaf 0.0008153575)) (Leaf 0.0631487)) (Leaf (-0.0008061992)))) (Split 537
  1.0 (Split 36 1.0 (Split 77 1.0 (Split 912 1.0 (Split 678 1.0 (Leaf 0.05707384) (Leaf
  0.01924765)) (Leaf 0.0035378698)) (Leaf (-0.0057727224))) (Leaf (-0.007148098))) (Leaf
  (-0.024189692)))) var120_40194) var120_40233) var120_40256) (Split 979 1.0 (Leaf (-0.05133132))
  (Leaf (-0.007843721))).

Definition var121_40523 : tree :=
  Split 819 1.0 (Split 529 1.0 (Split 498 1.0 (Split 267 1.0 (Split 156 1.0 (Split 995 1.0 (Leaf
  (-0.05222055)) (Leaf 0.0007530632)) (Split 300 1.0 (Leaf (-0.020608412)) (Leaf 0.0050708284)))
  (Leaf 0.00035853047)) (Leaf 0.012612161)) (Leaf 0.011043654)) (Leaf 0.022977537).

Definition var121_40476 : tree :=
  Split 911 1.0 (Split 560 1.0 (Split 73 1.0 (Split 117 1.0 (Split 545 1.0 (Split 517 1.0 (Split
  574 1.0 (Split 178 1.0 (Leaf 0.022674168) (Leaf (-0.0097008))) (Split 14 1.0 (Leaf 0.075343534)
  (Leaf 0.01636382))) (Split 435 1.0 (Split 452 1.0 (Leaf 0.021767475) (Leaf (-0.018021297))) (Leaf
  (-0.03564303)))) (Leaf (-0.043610077))) (Leaf (-0.03411309))) (Leaf (-0.036090404))) (Leaf
  (-0.049849775))) (Leaf (-0.052755434)).

Definition var121_40554 : tree :=
  Split 976 1.0 (Split 86 1.0 (Split 540 1.0 (Split 300 1.0 (Split 789 1.0 (Split 452 1.0 (Split 36
  1.0 (Split 822 1.0 (Split 517 1.0 (Leaf 0.018538713) (Leaf 0.047507383)) (Leaf (-0.0010775878)))
  (Leaf 0.061073687)) (Leaf 0.011145103)) (Leaf 0.003572733)) (Split 300 2.0 (Split 679 1.0 (Leaf
  (-0.014481095)) (Leaf 0.00879466)) (Leaf 0.026336912))) (Split 617 1.0 (Leaf 0.074734986) (Leaf
  0.0010095027))) (Split 473 1.0 (Leaf (-0.016762452)) (Leaf 0.011859131))) (Split 104 1.0 (Leaf
  0.009014256) (Leaf (-0.031551827))).

Definition var121 : tree :=
  Split 301 1.0 (Split 870 1.0 (Split 473 1.0 (Split 822 1.0 (Split 658 1.0 (Split 65 1.0 (Split
  365 1.0 (Split 255 1.0 (Split 104 1.0 (Split 438 1.0 (Split 874 1.0 (Split 668 1.0 (Leaf
  0.00044396386) (Leaf (-0.05220138))) (Split 156 1.0 (Leaf (-0.048968777)) (Leaf (-0.009558494))))
  (Split 997 1.0 (Split 300 1.0 (Leaf 0.05344975) (Leaf 0.022564437)) (Leaf 0.005260517))) (Split
  294 1.0 (Split 329 1.0 (Split 156 1.0 (Leaf (-0.024302725)) (Leaf 0.0036982682)) (Leaf
  0.053179897)) (Split 678 1.0 (Leaf 0.063919775) (Leaf 0.0007539655)))) (Split 979 1.0 (Split 357
  1.0 (Split 294 1.0 (Split 148 1.0 (Leaf 0.037423853) (Leaf (-0.0234691))) (Leaf (-0.032092523)))
  (Leaf (-0.03423116))) (Split 540 1.0 (Split 452 1.0 (Split 156 1.0 (Leaf (-0.0042671696)) (Leaf
  0.0054963953)) (Leaf 0.02949256)) (Split 36 1.0 (Leaf (-0.049327094)) (Leaf (-0.0024314064))))))
  (Split 120 1.0 (Split 435 1.0 (Leaf (-0.0012990631)) (Leaf 0.024425123)) (Leaf 0.045704033)))
  (Split 518 1.0 (Split 772 1.0 (Split 979 1.0 (Split 819 1.0 (Split 337 1.0 (Split 77 1.0 (Leaf
  (-0.04217169)) (Leaf 0.00087568176)) (Leaf 0.01220091)) (Split 36 1.0 (Leaf 0.017434273) (Leaf
  (-0.0077229524)))) (Split 540 1.0 (Leaf 0.03809386) (Leaf (-0.025881914)))) (Leaf 0.03428155))
  (Leaf 0.026555512))) (Split 300 1.0 (Split 284 1.0 (Split 607 1.0 (Split 789 1.0 (Split 812 1.0
  (Split 452 1.0 (Leaf 0.08087718) (Split 540 1.0 (Leaf 0.0005882162) (Leaf 0.050805926))) (Leaf
  0.020505246)) (Leaf 0.0065014362)) (Leaf (-0.009954747))) (Leaf (-0.007988634))) (Split 300 2.0
  (Split 670 1.0 (Split 540 1.0 (Split 435 1.0 (Leaf 0.028769964) (Leaf (-0.014012751))) (Leaf
  (-0.012526527))) (Leaf (-0.0274237))) (Leaf 0.031161595)))) var121_40476) var121_40523)
  var121_40554) (Split 498 1.0 (Leaf (-0.04397858)) (Leaf (-0.011481364))).

Definition var122_40778 : tree :=
  Split 702 1.0 (Split 950 1.0 (Split 985 1.0 (Split 452 1.0 (Split 659 1.0 (Split 812 1.0 (Leaf
  0.03504258) (Leaf 0.008223734)) (Leaf 0.0083727045)) (Split 540 1.0 (Split 300 1.0 (Leaf
  0.025264243) (Leaf (-0.0020630122))) (Leaf (-0.009824944)))) (Leaf 0.062272627)) (Leaf
  (-0.0070963292))) (Leaf (-0.012425288)).

Definition var122_40831 : tree :=
  Split 664 1.0 (Split 950 1.0 (Split 879 1.0 (Split 670 1.0 (Split 294 1.0 (Split 296 1.0 (Split
  435 1.0 (Split 540 1.0 (Leaf 0.05007375) (Leaf 0.020321384)) (Split 789 1.0 (Leaf 0.026822692)
  (Leaf (-0.0016602073)))) (Leaf 0.002772049)) (Leaf 0.0023435212)) (Split 104 1.0 (Leaf
  0.008491538) (Leaf (-0.0056155813)))) (Leaf (-0.0041703316))) (Leaf (-0.011666786))) (Leaf
  (-0.018020762)).

Definition var122 : tree :=
  Split 986 1.0 (Split 344 1.0 (Split 245 1.0 (Split 1002 1.0 (Split 45 1.0 (Split 157 1.0 (Split
  473 1.0 (Split 386 1.0 (Split 678 1.0 (Split 457 1.0 (Split 376 1.0 (Split 112 1.0 (Leaf
  0.0012663704) (Leaf (-0.03597942))) (Split 141 1.0 (Leaf 0.051103402) (Leaf (-0.0065753474))))
  (Split 141 1.0 (Split 659 1.0 (Leaf (-0.05063031)) (Leaf (-0.0007007094))) (Leaf 0.013176993)))
  (Split 55 1.0 (Split 575 1.0 (Split 799 1.0 (Leaf (-0.018255409)) (Leaf 0.013094571)) (Split 36
  1.0 (Leaf 0.04195276) (Leaf 0.0035059326))) (Split 36 1.0 (Leaf 0.03178769) (Leaf 0.010416053))))
  (Split 300 1.0 (Leaf (-0.007337816)) (Split 156 1.0 (Leaf 0.009904621) (Leaf 0.046175417))))
  (Split 128 1.0 (Split 156 1.0 (Split 23 1.0 (Split 267 1.0 (Split 255 1.0 (Leaf (-0.05215889))
  (Leaf (-0.0046937657))) (Leaf 0.001153862)) (Leaf (-0.0006985747))) (Split 300 1.0 (Leaf
  (-0.015512115)) (Leaf 0.010680354))) (Split 670 1.0 (Split 452 1.0 (Leaf 0.0038773243) (Leaf
  0.021026071)) (Leaf (-0.008977026))))) (Split 435 1.0 (Leaf 0.041043535) (Split 300 1.0 (Leaf
  (-0.021799443)) (Leaf 0.027731935)))) (Split 0 1.0 (Split 284 1.0 (Split 985 1.0 (Split 178 1.0
  (Split 156 1.0 (Split 908 1.0 (Split 617 1.0 (Leaf 0.04431527) (Leaf (-0.004916876))) (Leaf
  (-0.01518822))) (Split 104 1.0 (Split 540 1.0 (Leaf (-0.0006907894)) (Leaf 0.045541745)) (Leaf
  (-0.010040392)))) (Leaf (-0.013581097))) (Split 452 1.0 (Leaf (-0.032079004)) (Leaf
  (-0.00013925854)))) (Leaf (-0.032185517))) (Leaf (-0.025495365)))) var122_40778) (Split 300 1.0
  (Leaf (-0.05323971)) (Leaf (-0.012969782)))) (Split 16 1.0 (Split 156 1.0 (Leaf (-0.049303867))
  (Leaf (-0.010315768))) (Leaf (-0.0071507483)))) var122_40831.

Definition var123_41030 : tree :=
  Split 979 1.0 (Split 822 1.0 (Split 300 1.0 (Split 267 2.0 (Split 908 1.0 (Leaf 0.013410101)
  (Leaf (-0.03274153))) (Leaf (-0.037359376))) (Split 452 1.0 (Leaf 0.016895315) (Leaf
  (-0.010820898)))) (Leaf (-0.03697447))) (Leaf 0.032212116).

Definition var123 : tree :=
  Split 481 2.0 (Split 737 1.0 (Split 267 1.0 (Split 19 1.0 (Split 621 1.0 (Split 311 1.0 (Split
  862 1.0 (Split 533 1.0 (Split 99 1.0 (Split 285 1.0 (Split 615 1.0 (Split 178 1.0 (Leaf
  0.0003609652) (Leaf (-0.023298742))) (Split 156 1.0 (Leaf (-0.049363244)) (Leaf
  (-0.0003336497)))) (Split 300 1.0 (Split 452 1.0 (Leaf 0.032003075) (Leaf 0.0077297236)) (Leaf
  0.05825145))) (Split 944 1.0 (Split 300 1.0 (Split 345 1.0 (Leaf 0.028747624) (Leaf
  (-0.03031384))) (Split 16 1.0 (Leaf 0.008135846) (Leaf (-0.041657012)))) (Leaf (-0.041644014))))
  (Split 670 1.0 (Split 435 1.0 (Split 789 1.0 (Split 659 1.0 (Leaf 0.07128078) (Leaf 0.01525794))
  (Leaf 0.007027679)) (Leaf (-0.0059845224))) (Leaf (-0.026714867)))) (Split 435 1.0 (Split 789 1.0
  (Leaf (-0.04942341)) (Leaf (-0.013726081))) (Split 452 1.0 (Leaf (-0.02214626)) (Leaf
  0.005180353)))) (Split 36 1.0 (Split 540 1.0 (Leaf (-0.047459707)) (Leaf (-0.0008144337))) (Leaf
  0.0060304455))) (Leaf (-0.050189532))) (Split 300 1.0 (Split 435 1.0 (Leaf (-0.06386795)) (Leaf
  (-0.010520748))) (Split 789 1.0 (Leaf (-0.001248448)) (Leaf (-0.0076619177))))) (Split 138 1.0
  (Split 540 2.0 (Split 64 1.0 (Split 640 1.0 (Split 776 1.0 (Split 303 1.0 (Split 105 1.0 (Split
  702 1.0 (Split 578 1.0 (Leaf 0.029499907) (Leaf (-0.021518467))) (Leaf (-0.020373449))) (Leaf
  (-0.02509359))) (Leaf (-0.018328816))) (Leaf (-0.017055044))) (Leaf 0.06458215)) (Leaf
  (-0.030268798))) (Split 36 1.0 (Leaf 0.0032425758) (Leaf (-0.036837723)))) var123_41030)) (Leaf
  (-0.048664235))) (Split 16 1.0 (Leaf 0.063559465) (Leaf 0.008373202)).

Definition var124_41271 : tree :=
  Split 976 1.0 (Split 104 1.0 (Split 77 1.0 (Split 435 1.0 (Leaf 0.05064809) (Split 300 1.0 (Leaf
  0.0010209827) (Leaf 0.033196613))) (Leaf 0.007664323)) (Leaf 0.005117646)) (Leaf (-0.0011324788)).

Definition var124_41229 : tree :=
  Split 617 1.0 (Split 678 1.0 (Split 682 1.0 (Split 300 1.0 (Split 36 1.0 (Leaf 0.05397276) (Leaf
  0.0055462457)) (Split 540 1.0 (Leaf 0.0064481855) (Leaf 0.01936472))) (Leaf 0.0070376433)) (Leaf
  0.0073420666)) (Leaf (-0.0035755795)).

Definition var124 : tree :=
  Split 709 1.0 (Split 513 1.0 (Split 286 1.0 (Split 944 1.0 (Split 481 1.0 (Split 824 1.0 (Split
  630 1.0 (Split 202 1.0 (Split 73 1.0 (Split 130 1.0 (Split 407 1.0 (Split 780 1.0 (Leaf
  (-0.0029804138)) (Leaf 0.018006062)) (Split 908 1.0 (Leaf 0.03771497) (Leaf (-0.029396636))))
  (Split 607 1.0 (Split 156 1.0 (Leaf 0.060190707) (Leaf 0.017060006)) (Leaf 0.0005479366))) (Split
  855 1.0 (Split 655 1.0 (Split 141 1.0 (Leaf (-0.042517297)) (Leaf 0.0074591557)) (Leaf
  0.014411661)) (Leaf 0.021885948))) (Split 300 1.0 (Leaf 0.06832181) (Leaf 0.007355151))) (Split
  540 1.0 (Leaf (-0.041592136)) (Split 452 1.0 (Leaf (-0.02986951)) (Leaf 0.016734932)))) (Split
  432 1.0 (Split 498 1.0 (Split 141 1.0 (Split 138 1.0 (Split 679 1.0 (Split 16 1.0 (Leaf
  0.052132368) (Leaf 0.0018085325)) (Leaf 0.00003729805)) (Leaf (-0.0025850085))) (Leaf
  (-0.014828715))) (Leaf (-0.02625342))) (Leaf (-0.040271316)))) (Split 481 2.0 (Split 979 1.0
  (Split 964 1.0 (Split 799 1.0 (Split 300 1.0 (Split 435 1.0 (Split 540 1.0 (Leaf (-0.013151734))
  (Leaf 0.01814404)) (Leaf (-0.03135092))) (Split 540 1.0 (Split 822 1.0 (Leaf (-0.011315453))
  (Leaf 0.015600893)) (Leaf 0.039908618))) (Leaf 0.034977313)) (Leaf 0.042003278)) (Leaf
  0.03872106)) (Split 16 1.0 (Leaf 0.06234158) (Leaf 0.00815045)))) (Split 995 1.0 (Split 435 1.0
  (Split 36 1.0 (Split 670 1.0 (Split 540 1.0 (Leaf 0.017084328) (Leaf (-0.02339617))) (Leaf
  (-0.04252406))) (Leaf (-0.049439255))) (Leaf (-0.05650283))) (Leaf 0.00022213625))) var124_41229)
  (Split 498 1.0 (Split 540 1.0 (Leaf 0.042121485) (Split 435 1.0 (Leaf 0.0021785363) (Leaf
  0.014994397))) (Leaf (-0.0054835915)))) var124_41271.

Definition var125_41506 : tree :=
  Split 937 1.0 (Split 979 1.0 (Split 14 1.0 (Split 659 1.0 (Leaf (-0.037786704)) (Leaf
  (-0.00040566735))) (Leaf (-0.0010914152))) (Leaf 0.009163923)) (Split 540 1.0 (Leaf
  0.00093401497) (Leaf 0.013603787)).

Definition var125_41529 : tree :=
  Split 452 2.0 (Split 822 1.0 (Split 36 1.0 (Split 607 1.0 (Split 540 1.0 (Split 670 1.0 (Split
  300 1.0 (Leaf (-0.012842669)) (Leaf (-0.0004800817))) (Leaf (-0.02742978))) (Leaf
  (-0.044615727))) (Leaf (-0.0003281741))) (Leaf (-0.056227397))) (Leaf 0.007509234)) (Leaf
  0.009841784).

Definition var125_41463 : tree :=
  Split 702 1.0 (Split 679 1.0 (Split 62 1.0 (Split 117 1.0 (Split 985 1.0 (Split 540 1.0 (Split
  1019 1.0 (Split 879 1.0 (Split 822 1.0 (Leaf 0.04024924) (Leaf 0.0117106205)) (Leaf
  0.0077981367)) (Leaf 0.0006764161)) (Split 104 1.0 (Leaf 0.025191117) (Leaf (-0.013815927))))
  (Leaf 0.05356763)) (Leaf 0.0013012576)) (Leaf (-0.0012778322))) (Leaf 0.00047509847)) (Leaf
  (-0.012145649)).

Definition var125 : tree :=
  Split 43 1.0 (Split 479 1.0 (Split 1002 1.0 (Split 59 1.0 (Split 1019 1.0 (Split 117 1.0 (Split
  825 1.0 (Split 124 1.0 (Split 55 1.0 (Split 958 1.0 (Split 870 1.0 (Split 517 1.0 (Leaf
  0.002759854) (Leaf (-0.014152898))) (Split 908 1.0 (Leaf 0.033116918) (Leaf (-0.023745086))))
  (Split 543 1.0 (Split 452 1.0 (Leaf 0.012746026) (Leaf (-0.018385153))) (Leaf 0.04608529)))
  (Split 300 1.0 (Split 435 1.0 (Split 670 1.0 (Leaf 0.0292336) (Leaf (-0.009304504))) (Split 540
  1.0 (Leaf (-0.032754224)) (Leaf 0.008709725))) (Split 912 1.0 (Split 104 1.0 (Leaf 0.04831807)
  (Leaf 0.001845225)) (Leaf 0.0007820182)))) (Split 964 1.0 (Split 435 1.0 (Split 678 1.0 (Leaf
  (-0.058136445)) (Leaf (-0.012988927))) (Split 300 1.0 (Leaf (-0.0038693564)) (Leaf
  0.0060220603))) (Leaf 0.035716847))) (Split 789 1.0 (Split 452 1.0 (Split 979 1.0 (Leaf
  (-0.052284878)) (Leaf (-0.013229792))) (Leaf (-0.014507133))) (Leaf (-0.0013571864)))) (Split 396
  1.0 (Split 14 1.0 (Split 679 1.0 (Split 99 1.0 (Split 789 1.0 (Split 517 1.0 (Leaf
  (-0.052732076)) (Leaf (-0.004318896))) (Split 812 1.0 (Leaf (-0.015058768)) (Leaf 0.014719932)))
  (Leaf 0.018373579)) (Split 540 1.0 (Leaf 0.03300431) (Leaf (-0.028997784)))) (Leaf 0.021698175))
  (Leaf 0.041418068))) (Split 327 1.0 (Split 780 1.0 (Split 445 1.0 (Split 575 1.0 (Split 662 1.0
  (Split 77 1.0 (Split 303 1.0 (Leaf (-0.025069222)) (Leaf 0.01924111)) (Split 452 1.0 (Leaf
  0.036066484) (Leaf (-0.023776574)))) (Leaf 0.026746651)) (Leaf 0.03403678)) (Leaf 0.034517866))
  (Leaf 0.025912736)) (Leaf (-0.043507572)))) (Leaf (-0.053718448))) var125_41463) var125_41506)
  var125_41529.

Definition var126_41764 : tree :=
  Split 1001 1.0 (Split 540 1.0 (Split 435 1.0 (Split 670 1.0 (Split 36 1.0 (Leaf (-0.0028782317))
  (Leaf (-0.020848462))) (Leaf (-0.03353588))) (Leaf 0.005716508)) (Leaf (-0.055156816))) (Leaf
  0.008058362).

Definition var126_41787 : tree :=
  Split 662 1.0 (Split 435 1.0 (Split 452 1.0 (Split 682 1.0 (Split 822 1.0 (Leaf 0.047703896)
  (Leaf 0.008362028)) (Leaf 0.009540746)) (Leaf 0.012955097)) (Split 540 2.0 (Leaf 0.024361156)
  (Leaf (-0.012666881)))) (Leaf 0.0018241735).

Definition var126_41709 : tree :=
  Split 911 1.0 (Split 560 1.0 (Split 73 1.0 (Split 117 1.0 (Split 501 1.0 (Split 807 1.0 (Split
  178 1.0 (Split 128 1.0 (Split 105 1.0 (Leaf 0.017620513) (Leaf 0.061873715)) (Split 679 1.0 (Leaf
  0.059017535) (Leaf 0.006051348))) (Split 36 1.0 (Split 435 1.0 (Leaf (-0.034237392)) (Leaf
  0.0008996796)) (Leaf 0.014970305))) (Split 452 1.0 (Leaf (-0.036987618)) (Leaf
  (-0.00051332905)))) (Leaf (-0.024616415))) (Leaf (-0.034327477))) (Leaf (-0.035663057))) (Leaf
  (-0.049116712))) (Leaf (-0.052927274)).

Definition var126 : tree :=
  Split 330 1.0 (Split 385 1.0 (Split 822 1.0 (Split 876 1.0 (Split 53 1.0 (Split 833 1.0 (Split
  812 1.0 (Split 958 1.0 (Split 156 2.0 (Split 202 1.0 (Split 365 1.0 (Split 682 1.0 (Leaf
  (-0.0074488013)) (Leaf 0.016203571)) (Split 120 1.0 (Leaf (-0.0026644212)) (Leaf 0.045496713)))
  (Leaf 0.06848533)) (Split 872 1.0 (Split 357 1.0 (Split 267 1.0 (Leaf (-0.002584359)) (Leaf
  0.047363766)) (Leaf 0.054149624)) (Leaf 0.04526816))) (Split 800 1.0 (Split 435 1.0 (Leaf
  0.0066175642) (Leaf (-0.014890741))) (Leaf 0.04591596))) (Split 552 1.0 (Split 838 1.0 (Split 678
  1.0 (Split 178 1.0 (Split 789 1.0 (Leaf 0.024726927) (Leaf (-0.0034794991))) (Split 300 1.0 (Leaf
  (-0.030549929)) (Leaf (-0.008882906)))) (Split 979 1.0 (Split 452 2.0 (Leaf (-0.008731722)) (Leaf
  (-0.040274937))) (Leaf 0.03102664))) (Leaf (-0.046783935))) (Leaf (-0.047943883)))) (Split 812
  1.0 (Split 660 1.0 (Split 435 1.0 (Split 300 1.0 (Leaf 0.025643323) (Leaf 0.001430394)) (Leaf
  0.0026267723)) (Leaf 0.04432461)) (Leaf (-0.02271814)))) (Split 77 1.0 (Split 989 1.0 (Split 617
  1.0 (Split 574 1.0 (Split 14 1.0 (Split 670 1.0 (Split 517 1.0 (Leaf 0.046606567) (Leaf
  0.0068044676)) (Split 641 1.0 (Leaf (-0.0075637326)) (Leaf 0.04595783))) (Leaf (-0.0077507384)))
  (Leaf (-0.014281317))) (Leaf (-0.012484191))) (Leaf (-0.024322024))) (Leaf (-0.031446867))))
  (Split 452 1.0 (Leaf (-0.055152293)) (Leaf 0.00049607846))) var126_41709) var126_41764)
  var126_41787.

Definition var127_41967 : tree :=
  Split 937 1.0 (Split 979 1.0 (Split 14 1.0 (Split 659 1.0 (Split 128 1.0 (Split 617 1.0 (Split
  203 1.0 (Leaf (-0.04316247)) (Leaf (-0.008925955))) (Leaf (-0.0111720245))) (Leaf
  (-0.014190668))) (Leaf (-0.00061945553))) (Leaf (-0.00083376345))) (Leaf 0.00896958)) (Split 540
  1.0 (Leaf 0.0008044772) (Leaf 0.013065453)).

Definition var127_42013 : tree :=
  Split 503 1.0 (Split 509 1.0 (Split 985 1.0 (Split 435 1.0 (Split 300 2.0 (Split 682 1.0 (Split
  540 2.0 (Split 498 1.0 (Split 950 1.0 (Split 138 1.0 (Split 128 1.0 (Leaf 0.05969981) (Leaf
  0.02034408)) (Leaf 0.014724857)) (Leaf 0.013262196)) (Leaf 0.0067949384)) (Leaf 0.007478954))
  (Leaf (-0.0006026413))) (Leaf (-0.006312785))) (Split 607 1.0 (Split 452 1.0 (Split 812 1.0
  (Split 36 1.0 (Split 540 1.0 (Leaf (-0.024455018)) (Leaf (-0.0033424185))) (Leaf 0.007963251))
  (Leaf 0.022460906)) (Leaf 0.027332459)) (Leaf 0.035716858))) (Leaf (-0.0127604185))) (Leaf
  (-0.020107767))) (Split 60 1.0 (Leaf (-0.0033307478)) (Leaf (-0.030950129))).

Definition var127 : tree :=
  Split 819 1.0 (Split 43 1.0 (Split 479 1.0 (Split 353 1.0 (Split 986 1.0 (Split 473 1.0 (Split 5
  1.0 (Split 498 1.0 (Split 65 1.0 (Split 245 1.0 (Split 294 1.0 (Split 971 1.0 (Leaf 0.005264896)
  (Leaf (-0.032295313))) (Split 104 1.0 (Leaf (-0.033430588)) (Leaf 0.023995405))) (Split 300 1.0
  (Leaf (-0.05202761)) (Leaf (-0.017481871)))) (Split 77 1.0 (Split 733 1.0 (Split 979 1.0 (Leaf
  (-0.032457184)) (Leaf 0.0092164315)) (Leaf 0.029936308)) (Split 435 1.0 (Leaf 0.053738743) (Leaf
  0.005963861)))) (Split 503 1.0 (Split 548 1.0 (Split 25 1.0 (Split 452 1.0 (Leaf (-0.030573774))
  (Leaf (-0.0070767403))) (Leaf 0.030575914)) (Leaf 0.03408499)) (Leaf 0.05747205))) (Split 607 1.0
  (Split 16 1.0 (Leaf (-0.059975743)) (Leaf (-0.0067755766))) (Leaf (-0.0033623222)))) (Split 879
  1.0 (Split 529 1.0 (Split 128 1.0 (Split 498 1.0 (Split 156 1.0 (Split 267 1.0 (Leaf
  (-0.05276955)) (Leaf (-0.0044274586))) (Leaf (-0.019360764))) (Leaf 0.008272186)) (Split 36 1.0
  (Leaf 0.016802799) (Leaf (-0.012905562)))) (Leaf 0.012009996)) (Leaf 0.030362502))) (Split 664
  1.0 (Split 517 1.0 (Split 912 1.0 (Split 776 1.0 (Split 296 1.0 (Split 435 1.0 (Split 607 1.0
  (Leaf 0.049552206) (Leaf 0.010283488)) (Split 540 1.0 (Leaf (-0.0030115035)) (Leaf 0.038730998)))
  (Leaf 0.002756329)) (Leaf (-0.0018890454))) (Leaf (-0.0006462118))) (Split 540 1.0 (Leaf
  0.009946765) (Leaf (-0.007185157)))) (Leaf (-0.017398113)))) (Leaf (-0.045762297))) var127_41967)
  (Split 452 2.0 (Split 822 1.0 (Leaf (-0.044510894)) (Leaf 0.006529711)) (Leaf 0.009948007)))
  var127_42013.

Definition var128_42327 : tree :=
  Split 976 1.0 (Split 104 1.0 (Split 77 1.0 (Split 435 1.0 (Leaf 0.050047826) (Split 300 1.0 (Leaf
  0.00134907) (Leaf 0.032615997))) (Leaf 0.007511571)) (Leaf 0.0050349953)) (Leaf (-0.001020084)).

Definition var128_42277 : tree :=
  Split 664 1.0 (Split 985 1.0 (Split 908 1.0 (Split 517 1.0 (Split 776 1.0 (Split 296 1.0 (Split
  607 1.0 (Split 294 1.0 (Leaf 0.049790483) (Leaf 0.010440745)) (Leaf 0.015062421)) (Leaf
  0.0026830167)) (Leaf 0.0042074225)) (Leaf 0.0026480563)) (Split 435 1.0 (Leaf 0.016277254) (Leaf
  (-0.021884225)))) (Leaf (-0.0062471963))) (Leaf (-0.016996307)).

Definition var128_42234 : tree :=
  Split 481 2.0 (Split 979 1.0 (Split 964 1.0 (Split 540 1.0 (Split 392 1.0 (Split 16 1.0 (Split
  452 1.0 (Split 435 1.0 (Leaf 0.016565355) (Leaf (-0.009047846))) (Leaf (-0.008941258))) (Leaf
  (-0.028557414))) (Leaf (-0.03515345))) (Split 452 1.0 (Leaf (-0.016314298)) (Leaf 0.05891278)))
  (Leaf 0.04066655)) (Leaf 0.037875514)) (Split 16 1.0 (Leaf 0.060974162) (Leaf 0.0077948878)).

Definition var128 : tree :=
  Split 709 1.0 (Split 944 1.0 (Split 986 1.0 (Split 481 1.0 (Split 73 1.0 (Split 99 1.0 (Split 345
  1.0 (Split 157 1.0 (Split 780 1.0 (Split 130 1.0 (Split 365 1.0 (Split 799 1.0 (Leaf
  (-0.0056739086)) (Leaf 0.013018966)) (Split 120 1.0 (Leaf (-0.000788634)) (Leaf 0.045265373)))
  (Split 678 1.0 (Leaf 0.05579179) (Leaf 0.01462006))) (Split 300 2.0 (Split 553 1.0 (Split 532 1.0
  (Leaf 0.023616968) (Leaf (-0.022989476))) (Leaf (-0.03166346))) (Leaf (-0.018440776)))) (Split
  435 1.0 (Split 976 1.0 (Split 678 1.0 (Leaf 0.043370154) (Leaf 0.007996186)) (Leaf
  (-0.002060222))) (Split 300 1.0 (Leaf (-0.009450119)) (Leaf 0.022858027)))) (Split 178 1.0 (Split
  979 1.0 (Split 641 1.0 (Split 679 1.0 (Split 169 1.0 (Leaf 0.06473405) (Leaf 0.019024199)) (Leaf
  0.0153833125)) (Leaf (-0.0029895005))) (Leaf (-0.033956397))) (Leaf (-0.030722672)))) (Split 641
  1.0 (Split 562 1.0 (Split 655 1.0 (Split 924 1.0 (Split 457 1.0 (Split 517 1.0 (Leaf 0.031549465)
  (Leaf (-0.013403505))) (Leaf (-0.027055403))) (Leaf (-0.030184258))) (Leaf (-0.022356953))) (Leaf
  (-0.04018445))) (Split 540 1.0 (Leaf (-0.008011648)) (Split 452 1.0 (Leaf (-0.02738157)) (Leaf
  (-0.0074302997)))))) (Split 255 1.0 (Split 141 1.0 (Split 655 1.0 (Split 679 1.0 (Split 452 1.0
  (Split 128 1.0 (Leaf (-0.04988007)) (Leaf (-0.00555885))) (Leaf (-0.019347198))) (Leaf
  (-0.0022874344))) (Leaf 0.0053233085)) (Leaf 0.015016289)) (Leaf 0.016446559))) var128_42234)
  var128_42277) (Split 641 1.0 (Split 995 1.0 (Leaf (-0.042042375)) (Leaf 0.00025583807)) (Leaf
  0.012415803))) var128_42327.

Definition var129_42514 : tree :=
  Split 277 1.0 (Split 14 1.0 (Split 156 1.0 (Split 812 1.0 (Split 670 1.0 (Split 659 1.0 (Split
  452 1.0 (Leaf 0.058865756) (Leaf 0.015832959)) (Leaf 0.014818983)) (Leaf 0.0139815165)) (Leaf
  0.009251229)) (Leaf 0.002939587)) (Leaf 0.0071485266)) (Leaf (-0.00021303022)).

Definition var129 : tree :=
  Split 149 1.0 (Split 286 1.0 (Split 513 1.0 (Split 570 1.0 (Split 255 1.0 (Split 438 1.0 (Split
  874 1.0 (Split 378 1.0 (Split 498 1.0 (Split 112 1.0 (Split 668 1.0 (Split 737 1.0 (Leaf
  0.0018426402) (Leaf (-0.05355041))) (Split 540 2.0 (Leaf (-0.054572877)) (Leaf 0.016015628)))
  (Split 679 1.0 (Split 104 1.0 (Leaf (-0.008097874)) (Leaf (-0.05494975))) (Leaf (-0.07647682))))
  (Split 503 1.0 (Split 679 1.0 (Split 349 1.0 (Leaf (-0.025124505)) (Leaf 0.028552292)) (Split 36
  1.0 (Leaf 0.021754049) (Leaf (-0.00894199)))) (Leaf 0.05266721))) (Split 812 1.0 (Leaf
  (-0.06857173)) (Leaf (-0.013703369)))) (Split 822 1.0 (Split 16 1.0 (Split 156 1.0 (Split 1018
  1.0 (Split 678 1.0 (Leaf (-0.05463302)) (Leaf (-0.015531823))) (Leaf 0.0014548841)) (Leaf
  (-0.0040991274))) (Leaf (-0.0025684664))) (Leaf 0.011370727))) (Split 540 2.0 (Split 607 1.0
  (Split 670 1.0 (Split 452 2.0 (Split 77 1.0 (Split 16 1.0 (Leaf 0.055166315) (Leaf 0.013336005))
  (Leaf 0.012084853)) (Leaf 0.0028991166)) (Leaf 0.006772449)) (Leaf (-0.007949108))) (Leaf
  (-0.013131564)))) (Split 522 1.0 (Split 294 1.0 (Split 357 1.0 (Split 300 2.0 (Split 354 1.0
  (Split 721 1.0 (Split 529 1.0 (Leaf 0.034883272) (Leaf (-0.005867004))) (Leaf (-0.018331997)))
  (Leaf (-0.023009602))) (Split 435 1.0 (Split 822 1.0 (Leaf (-0.0063040177)) (Leaf
  (-0.0012863586))) (Leaf (-0.029268024)))) (Leaf (-0.026862452))) (Leaf (-0.037981085))) (Leaf
  (-0.06400748)))) (Leaf (-0.042264875))) (Split 498 1.0 (Split 855 1.0 (Leaf 0.03957807) (Leaf
  0.008858277)) (Leaf (-0.0046262583)))) var129_42514) (Split 912 1.0 (Split 16 1.0 (Split 156 1.0
  (Split 452 1.0 (Leaf (-0.06459014)) (Leaf (-0.018090094))) (Leaf (-0.010815374))) (Leaf
  (-0.002786125))) (Leaf 0.010634838)).

Definition var130_42740 : tree :=
  Split 662 1.0 (Split 435 1.0 (Split 255 1.0 (Split 16 1.0 (Split 822 1.0 (Leaf 0.05128177) (Leaf
  0.014018393)) (Leaf 0.007291734)) (Leaf 0.008053505)) (Split 540 2.0 (Leaf 0.023793591) (Leaf
  (-0.012504016)))) (Leaf 0.0016013604).

Definition var130 : tree :=
  Split 331 1.0 (Split 330 1.0 (Split 267 1.0 (Split 19 1.0 (Split 621 1.0 (Split 862 1.0 (Split
  964 1.0 (Split 311 1.0 (Split 615 1.0 (Split 42 1.0 (Split 215 1.0 (Split 501 1.0 (Leaf
  0.0020637133) (Leaf (-0.030454615))) (Split 812 1.0 (Leaf (-0.05504619)) (Leaf 0.0024627429)))
  (Split 288 1.0 (Split 674 1.0 (Leaf (-0.003859406)) (Leaf (-0.043024402))) (Leaf
  (-0.044670638)))) (Split 156 1.0 (Split 435 1.0 (Leaf (-0.028494367)) (Leaf (-0.06142124))) (Leaf
  0.001454102))) (Split 36 1.0 (Leaf (-0.04550922)) (Leaf 0.0078056725))) (Split 141 1.0 (Split 908
  1.0 (Split 88 1.0 (Split 77 1.0 (Split 156 1.0 (Leaf 0.029147862) (Leaf 0.00019878747)) (Split
  156 1.0 (Leaf 0.074459665) (Leaf 0.024092421))) (Leaf (-0.040477805))) (Split 540 1.0 (Leaf
  (-0.04217401)) (Leaf 0.014108621))) (Split 36 1.0 (Split 452 1.0 (Leaf 0.023393877) (Leaf
  (-0.019350851))) (Leaf (-0.049677636))))) (Split 141 1.0 (Split 979 1.0 (Leaf (-0.046496063))
  (Leaf (-0.01150436))) (Leaf (-0.008323791)))) (Leaf (-0.04970708))) (Split 641 1.0 (Split 435 1.0
  (Leaf (-0.061947376)) (Leaf (-0.0013556379))) (Leaf 0.0020192794))) (Split 357 1.0 (Split 482 1.0
  (Split 517 1.0 (Split 617 1.0 (Split 457 1.0 (Split 244 1.0 (Split 327 1.0 (Split 803 1.0 (Split
  47 1.0 (Leaf 0.03108266) (Leaf (-0.015213323))) (Leaf (-0.028325459))) (Leaf (-0.023306813)))
  (Leaf (-0.032107484))) (Leaf (-0.03195958))) (Split 641 1.0 (Split 678 1.0 (Split 300 1.0 (Leaf
  (-0.0039631817)) (Leaf 0.025317451)) (Leaf (-0.030605704))) (Leaf (-0.03384876)))) (Split 156 1.0
  (Split 435 1.0 (Leaf (-0.037409365)) (Leaf (-0.0026865732))) (Leaf 0.037268262))) (Leaf
  (-0.039941195))) (Leaf (-0.033742886)))) var130_42740) (Split 452 1.0 (Leaf (-0.05663693)) (Leaf
  (-0.0026433452))).

Definition var131_42966 : tree :=
  Split 300 1.0 (Split 655 1.0 (Split 49 1.0 (Split 498 1.0 (Split 36 1.0 (Split 979 1.0 (Split 617
  1.0 (Split 678 1.0 (Split 679 1.0 (Leaf 0.059935104) (Leaf 0.017456733)) (Leaf 0.016798627))
  (Leaf 0.01348573)) (Leaf 0.0059128827)) (Split 435 1.0 (Leaf 0.024389837) (Leaf (-0.010162574))))
  (Split 452 1.0 (Leaf (-0.01572051)) (Leaf 0.018971061))) (Leaf (-0.019348506))) (Leaf
  (-0.023276044))) (Split 518 1.0 (Split 435 1.0 (Split 128 1.0 (Leaf (-0.012902408)) (Leaf
  0.008417416)) (Leaf 0.010440108)) (Leaf (-0.021080611))).

Definition var131 : tree :=
  Split 301 1.0 (Split 8 1.0 (Split 801 1.0 (Split 623 1.0 (Split 838 1.0 (Split 870 1.0 (Split 911
  1.0 (Split 912 1.0 (Split 224 1.0 (Split 980 1.0 (Split 389 1.0 (Split 648 1.0 (Leaf 0.002582128)
  (Leaf (-0.04223701))) (Split 435 1.0 (Leaf (-0.044893775)) (Leaf (-0.010999537)))) (Split 141 1.0
  (Split 655 1.0 (Leaf (-0.035481732)) (Leaf 0.020480676)) (Leaf 0.036345165))) (Split 659 1.0
  (Leaf 0.06636389) (Leaf (-0.011051874)))) (Split 16 1.0 (Split 267 1.0 (Split 55 1.0 (Split 799
  1.0 (Leaf (-0.025216768)) (Leaf 0.022899544)) (Split 300 1.0 (Leaf 0.037045904) (Leaf
  0.008347553))) (Split 300 1.0 (Leaf 0.038860757) (Leaf (-0.008802048)))) (Split 435 1.0 (Split
  800 1.0 (Split 23 1.0 (Leaf 0.0347197) (Leaf (-0.005966551))) (Leaf (-0.01785683))) (Leaf
  (-0.020452866))))) (Split 435 1.0 (Split 23 1.0 (Split 47 1.0 (Leaf (-0.058360763)) (Leaf
  (-0.017970206))) (Leaf 0.0025795847)) (Split 156 1.0 (Leaf 0.0182091) (Leaf (-0.01150412)))))
  (Split 452 2.0 (Split 976 1.0 (Split 300 1.0 (Split 138 1.0 (Split 617 1.0 (Split 822 1.0 (Leaf
  0.047119137) (Leaf 0.004061716)) (Leaf 0.00453872)) (Leaf (-0.0077402876))) (Split 540 1.0 (Split
  156 1.0 (Leaf (-0.016064387)) (Leaf 0.0006747139)) (Leaf 0.025403647))) (Leaf (-0.02345503)))
  (Leaf 0.07739367))) (Split 36 1.0 (Split 300 1.0 (Leaf (-0.041200753)) (Leaf (-0.009095597)))
  (Leaf (-0.060756046)))) (Split 426 1.0 (Split 776 1.0 (Split 23 1.0 (Split 812 1.0 (Split 104 1.0
  (Split 908 1.0 (Split 128 1.0 (Leaf 0.059338994) (Leaf 0.007564255)) (Leaf 0.006516742)) (Leaf
  0.01544639)) (Leaf 0.0068555363)) (Leaf (-0.0023832496))) (Leaf (-0.00586052))) (Leaf
  (-0.018062469)))) (Split 452 1.0 (Split 789 1.0 (Split 678 1.0 (Leaf (-0.05855291)) (Leaf
  (-0.014370087))) (Leaf (-0.00986003))) (Leaf 0.0054820394))) var131_42966) (Split 498 1.0 (Leaf
  (-0.042595696)) (Leaf (-0.009562391))).

Definition var132_43196 : tree :=
  Split 503 1.0 (Split 104 1.0 (Split 682 1.0 (Split 20 1.0 (Split 435 1.0 (Split 574 1.0 (Split
  498 1.0 (Split 533 1.0 (Split 128 1.0 (Leaf 0.060264762) (Leaf 0.020749994)) (Leaf 0.007966944))
  (Leaf 0.004495668)) (Leaf (-0.0090885945))) (Split 300 1.0 (Split 540 1.0 (Split 36 1.0 (Leaf
  (-0.0058285957)) (Leaf 0.005811507)) (Leaf 0.015845163)) (Leaf 0.033695094))) (Leaf
  (-0.005969383))) (Leaf (-0.0088169575))) (Split 435 1.0 (Split 641 1.0 (Leaf 0.027592346) (Leaf
  (-0.005593789))) (Leaf (-0.023170343)))) (Split 60 1.0 (Leaf (-0.0033583657)) (Leaf
  (-0.030595446))).

Definition var132 : tree :=
  Split 709 1.0 (Split 819 1.0 (Split 575 1.0 (Split 43 1.0 (Split 724 1.0 (Split 473 1.0 (Split
  682 1.0 (Split 872 1.0 (Split 678 1.0 (Split 958 1.0 (Split 751 1.0 (Split 255 1.0 (Leaf
  (-0.0019900396)) (Leaf 0.019053973)) (Split 77 1.0 (Leaf 0.03934983) (Leaf (-0.018633632))))
  (Split 156 1.0 (Split 435 1.0 (Leaf (-0.008030476)) (Leaf 0.013164848)) (Leaf 0.04522084)))
  (Split 481 1.0 (Split 800 1.0 (Split 201 1.0 (Leaf (-0.019193707)) (Leaf 0.037014708)) (Split 498
  1.0 (Leaf 0.021900829) (Leaf (-0.023099884)))) (Split 300 1.0 (Leaf 0.008522842) (Leaf
  0.04592545)))) (Split 452 1.0 (Split 435 1.0 (Leaf 0.011562297) (Leaf (-0.020539356))) (Leaf
  0.045477074))) (Split 178 1.0 (Split 422 1.0 (Split 294 1.0 (Split 972 1.0 (Split 117 1.0 (Leaf
  0.030220864) (Leaf (-0.027791131))) (Leaf (-0.0304644))) (Leaf (-0.038053945))) (Leaf
  (-0.04155584))) (Leaf (-0.030574415)))) (Split 937 1.0 (Split 979 1.0 (Split 452 2.0 (Split 529
  1.0 (Split 267 1.0 (Split 659 1.0 (Leaf (-0.046621654)) (Leaf (-0.01293951))) (Leaf
  0.0013978732)) (Leaf 0.012817464)) (Leaf 0.00041535465)) (Leaf 0.010536712)) (Leaf 0.022079408)))
  (Leaf (-0.054500587))) (Split 452 2.0 (Split 822 1.0 (Split 979 1.0 (Leaf (-0.05416864)) (Leaf
  (-0.017886115))) (Leaf 0.005514779)) (Leaf 0.009259731))) (Split 979 1.0 (Split 659 1.0 (Split
  300 1.0 (Split 435 1.0 (Split 678 1.0 (Split 976 1.0 (Leaf 0.053515952) (Leaf 0.0017053485))
  (Leaf (-0.0016158456))) (Leaf (-0.0058915317))) (Leaf 0.05588314)) (Leaf (-0.015156984))) (Leaf
  (-0.022847379)))) var132_43196) (Split 104 1.0 (Split 435 1.0 (Split 77 1.0 (Leaf 0.04996391)
  (Leaf 0.008799131)) (Split 300 1.0 (Leaf (-0.005441721)) (Leaf 0.031913616))) (Leaf
  0.0013448315)).

Definition var133_43458 : tree :=
  Split 128 1.0 (Split 104 1.0 (Split 659 1.0 (Split 36 1.0 (Split 678 1.0 (Split 435 1.0 (Leaf
  0.07676828) (Leaf 0.024084393)) (Leaf 0.013379643)) (Leaf 0.0073237135)) (Leaf (-0.0071223225)))
  (Leaf (-0.016256576))) (Split 980 1.0 (Leaf 0.010911508) (Leaf (-0.024289155))).

Definition var133 : tree :=
  Split 815 1.0 (Split 341 1.0 (Split 331 1.0 (Split 330 1.0 (Split 117 1.0 (Split 149 1.0 (Split
  570 1.0 (Split 255 1.0 (Split 682 1.0 (Split 833 1.0 (Split 958 1.0 (Split 202 1.0 (Leaf
  (-0.0022225764)) (Leaf 0.057074066)) (Split 543 1.0 (Leaf 0.00085582363) (Leaf 0.045473468)))
  (Split 435 1.0 (Split 660 1.0 (Leaf 0.020588262) (Leaf 0.044063184)) (Leaf (-0.013270459))))
  (Split 178 1.0 (Split 64 1.0 (Split 422 1.0 (Leaf 0.026048457) (Leaf (-0.03751644))) (Leaf
  (-0.040751915))) (Leaf (-0.028689003)))) (Split 294 1.0 (Split 64 1.0 (Split 357 1.0 (Split 354
  1.0 (Leaf 0.028480357) (Leaf (-0.025185332))) (Leaf (-0.026248548))) (Split 300 1.0 (Leaf
  (-0.0061490363)) (Leaf (-0.036672767)))) (Leaf (-0.036948517)))) (Split 36 1.0 (Leaf
  (-0.049547773)) (Leaf 0.014571815))) (Split 912 1.0 (Split 156 1.0 (Split 16 1.0 (Leaf
  (-0.060187753)) (Leaf (-0.010000449))) (Leaf (-0.009233688))) (Leaf 0.010507723))) (Split 435 1.0
  (Split 23 1.0 (Split 976 1.0 (Split 607 1.0 (Split 812 1.0 (Split 99 1.0 (Split 659 1.0 (Leaf
  (-0.06847287)) (Leaf (-0.016831784))) (Leaf (-0.011752724))) (Leaf (-0.015191984))) (Leaf
  (-0.005348088))) (Leaf 0.00985521)) (Leaf 0.021559201)) (Split 678 1.0 (Split 16 1.0 (Split 780
  1.0 (Split 452 1.0 (Split 540 1.0 (Leaf 0.023947908) (Leaf 0.0041442723)) (Leaf 0.044422865))
  (Leaf (-0.012204452))) (Leaf (-0.020482427))) (Leaf (-0.0371411))))) (Split 662 1.0 (Split 435
  1.0 (Split 255 1.0 (Split 822 1.0 (Split 789 1.0 (Leaf 0.05057128) (Leaf 0.009630834)) (Leaf
  0.012503612)) (Leaf 0.0071361596)) (Split 540 2.0 (Leaf 0.022984026) (Leaf (-0.012363412))))
  (Leaf 0.0014873394))) (Split 452 1.0 (Leaf (-0.055257957)) (Leaf (-0.006311312)))) var133_43458)
  (Split 452 1.0 (Leaf (-0.041559134)) (Split 435 1.0 (Leaf 0.011905685) (Leaf (-0.023701547)))).

Definition var134 : tree :=
  Split 709 1.0 (Split 513 1.0 (Split 286 1.0 (Split 900 1.0 (Split 815 1.0 (Split 944 1.0 (Split
  99 1.0 (Split 150 1.0 (Split 285 1.0 (Split 55 1.0 (Split 190 1.0 (Split 267 1.0 (Leaf
  (-0.004249448)) (Leaf 0.012418477)) (Split 120 1.0 (Leaf 0.0015516178) (Leaf 0.045040898)))
  (Split 596 1.0 (Split 674 1.0 (Leaf 0.02463634) (Leaf (-0.042927384))) (Leaf (-0.057828348))))
  (Split 300 1.0 (Split 435 1.0 (Leaf 0.0060989554) (Leaf 0.036673263)) (Leaf 0.053204577))) (Split
  912 1.0 (Split 104 1.0 (Leaf 0.068084165) (Leaf 0.019964566)) (Leaf 0.0025773318))) (Split 357
  1.0 (Split 624 1.0 (Split 397 1.0 (Split 473 1.0 (Split 65 1.0 (Leaf 0.028857348) (Leaf
  (-0.010662724))) (Leaf (-0.029863873))) (Split 141 1.0 (Leaf 0.0046030805) (Leaf (-0.04335722))))
  (Leaf (-0.028273815))) (Leaf (-0.030240307)))) (Split 995 1.0 (Split 435 1.0 (Split 36 1.0 (Split
  670 1.0 (Split 540 1.0 (Leaf 0.018896734) (Leaf (-0.022010885))) (Leaf (-0.040329482))) (Leaf
  (-0.047142867))) (Leaf (-0.054232534))) (Leaf 0.00020096482))) (Split 659 1.0 (Split 452 1.0
  (Leaf (-0.049780305)) (Leaf (-0.004345521))) (Leaf (-0.00037671695)))) (Leaf (-0.04702976)))
  (Split 16 1.0 (Split 682 1.0 (Split 104 1.0 (Split 14 1.0 (Split 678 1.0 (Split 300 1.0 (Leaf
  0.043663874) (Leaf 0.015701441)) (Leaf 0.008149668)) (Leaf 0.004784199)) (Leaf 0.002502999))
  (Leaf (-0.012468375))) (Leaf 0.0506202))) (Split 498 1.0 (Split 540 1.0 (Split 36 1.0 (Leaf
  0.04314742) (Leaf 0.015710376)) (Split 435 1.0 (Leaf 0.0010826793) (Leaf 0.013792582))) (Leaf
  (-0.0042398623)))) (Split 104 1.0 (Split 435 1.0 (Split 77 1.0 (Leaf 0.04939003) (Leaf
  0.008752025)) (Split 300 1.0 (Leaf (-0.00519009)) (Leaf 0.0313179))) (Leaf 0.0013706563)).

Definition var135_43954 : tree :=
  Split 494 1.0 (Split 655 1.0 (Split 537 1.0 (Split 77 1.0 (Split 679 1.0 (Split 498 1.0 (Split
  617 1.0 (Split 36 1.0 (Leaf 0.05094151) (Split 780 1.0 (Leaf 0.031265803) (Leaf (-0.011200248))))
  (Leaf 0.010772604)) (Leaf (-0.0040476997))) (Split 452 1.0 (Leaf (-0.006648678)) (Leaf
  0.019102102))) (Leaf (-0.0011151842))) (Leaf (-0.005073478))) (Leaf (-0.015591643))) (Leaf
  (-0.023778824)).

Definition var135_43887 : tree :=
  Split 104 1.0 (Split 937 1.0 (Split 357 1.0 (Split 996 1.0 (Split 759 1.0 (Split 985 1.0 (Split
  77 1.0 (Leaf 0.050422885) (Leaf 0.011116373)) (Leaf (-0.009634269))) (Leaf (-0.012325267))) (Leaf
  (-0.013111079))) (Leaf (-0.010767054))) (Leaf (-0.017516926))) (Split 296 1.0 (Split 300 2.0
  (Split 789 1.0 (Split 678 1.0 (Split 670 1.0 (Split 540 1.0 (Leaf 0.023586733) (Leaf
  (-0.026450569))) (Leaf (-0.015648518))) (Leaf (-0.024620363))) (Leaf 0.020822573)) (Leaf
  0.037085462)) (Leaf (-0.053774726))).

Definition var135 : tree :=
  Split 874 1.0 (Split 8 1.0 (Split 801 1.0 (Split 979 1.0 (Split 575 1.0 (Split 799 1.0 (Split 345
  1.0 (Split 353 1.0 (Split 55 1.0 (Split 824 1.0 (Split 637 1.0 (Split 407 1.0 (Leaf
  (-0.0067302934)) (Leaf 0.029499555)) (Split 517 1.0 (Leaf 0.048025686) (Leaf 0.0010335213)))
  (Split 432 1.0 (Split 653 1.0 (Leaf 0.03700692) (Leaf (-0.033008754))) (Leaf (-0.042162996))))
  (Split 674 1.0 (Split 16 1.0 (Split 815 1.0 (Leaf 0.0273933) (Leaf (-0.026294896))) (Split 435
  1.0 (Leaf 0.0050774068) (Leaf (-0.034765825)))) (Leaf (-0.032626312)))) (Leaf (-0.057174098)))
  (Split 178 1.0 (Split 641 1.0 (Split 679 1.0 (Split 169 1.0 (Leaf 0.061264127) (Leaf
  0.009426376)) (Leaf 0.011504306)) (Leaf (-0.004633165))) (Leaf (-0.034497757)))) (Split 50 1.0
  (Split 877 1.0 (Split 73 1.0 (Split 950 1.0 (Split 105 1.0 (Split 972 1.0 (Leaf 0.031118242)
  (Leaf (-0.03445541))) (Leaf (-0.04158496))) (Split 950 2.0 (Split 104 1.0 (Leaf (-0.029161766))
  (Leaf 0.0021715562)) (Leaf 0.0024251654))) (Leaf (-0.042453695))) (Leaf (-0.043237254))) (Leaf
  (-0.054380577)))) (Split 659 1.0 (Split 300 1.0 (Split 435 1.0 (Split 678 1.0 (Split 976 1.0
  (Leaf 0.051596936) (Leaf 0.0019529883)) (Leaf (-0.0014632319))) (Leaf (-0.016829573))) (Split 540
  1.0 (Leaf 0.062620245) (Leaf 0.022775726))) (Leaf (-0.014682415)))) (Split 300 1.0 (Split 912 1.0
  (Split 812 1.0 (Split 659 1.0 (Split 345 1.0 (Split 449 1.0 (Split 721 1.0 (Split 706 1.0 (Leaf
  0.005985078) (Leaf (-0.06143297))) (Leaf (-0.062370785))) (Leaf (-0.05960375))) (Leaf
  (-0.06610776))) (Split 607 1.0 (Split 976 1.0 (Leaf 0.04814351) (Leaf 0.0102870185)) (Leaf
  (-0.012871078)))) (Split 77 1.0 (Split 14 1.0 (Split 800 1.0 (Leaf 0.05153337) (Leaf
  0.0066056177)) (Leaf (-0.008625986))) (Leaf (-0.026554925)))) (Split 16 1.0 (Split 36 1.0 (Split
  670 1.0 (Leaf (-0.048389394)) (Leaf 0.005951624)) (Leaf (-0.000034724417))) (Leaf 0.03154704)))
  var135_43887)) (Split 452 1.0 (Split 789 1.0 (Leaf (-0.0525479)) (Leaf (-0.009363496))) (Leaf
  0.0055012284))) var135_43954) (Split 653 1.0 (Split 178 1.0 (Split 104 1.0 (Split 16 1.0 (Leaf
  (-0.042967577)) (Leaf (-0.0075054453))) (Leaf (-0.007653743))) (Leaf 0.009683449)) (Leaf
  0.016735163)).

Definition var136_44204 : tree :=
  Split 540 2.0 (Split 607 1.0 (Split 255 1.0 (Split 104 1.0 (Split 976 1.0 (Leaf 0.04984767) (Leaf
  0.008735989)) (Split 300 1.0 (Leaf 0.018282134) (Leaf (-0.002243238)))) (Leaf (-0.0018571959)))
  (Leaf (-0.008131934))) (Leaf (-0.013141692)).

Definition var136_44173 : tree :=
  Split 979 1.0 (Split 267 1.0 (Split 156 1.0 (Split 128 1.0 (Split 812 1.0 (Split 617 1.0 (Leaf
  (-0.043743085)) (Leaf (-0.008657146))) (Leaf (-0.0071098837))) (Leaf (-0.004552485))) (Split 300
  1.0 (Leaf (-0.009909573)) (Leaf 0.006477307))) (Leaf 0.0071611986)) (Leaf 0.011114987).

Definition var136 : tree :=
  Split 301 1.0 (Split 438 1.0 (Split 479 1.0 (Split 776 1.0 (Split 648 1.0 (Split 819 1.0 (Split
  43 1.0 (Split 117 1.0 (Split 621 1.0 (Split 870 1.0 (Split 517 1.0 (Split 473 1.0 (Leaf
  0.0038943347) (Leaf (-0.027164713))) (Split 526 1.0 (Leaf (-0.015605566)) (Leaf 0.051485997)))
  (Split 908 1.0 (Split 679 1.0 (Leaf 0.03788255) (Leaf (-0.006916739))) (Leaf (-0.020312598))))
  (Split 678 1.0 (Leaf (-0.05049575)) (Leaf (-0.013125694)))) (Split 396 1.0 (Split 14 1.0 (Split
  357 1.0 (Split 517 1.0 (Leaf (-0.03857488)) (Leaf 0.0017796552)) (Leaf 0.018561235)) (Leaf
  0.021810854)) (Leaf 0.032828264))) (Split 452 2.0 (Split 822 1.0 (Leaf (-0.044501826)) (Leaf
  (-0.0042777336))) (Leaf 0.009026035))) (Split 937 1.0 (Split 733 1.0 (Split 392 1.0 (Split 138
  1.0 (Split 472 1.0 (Split 950 1.0 (Leaf 0.039314736) (Leaf (-0.0009834667))) (Leaf
  (-0.001712887))) (Leaf (-0.00081193197))) (Split 435 1.0 (Leaf 0.0014253189) (Leaf
  (-0.0022639383)))) (Leaf (-0.008404924))) (Leaf (-0.009746748)))) (Split 789 1.0 (Split 517 1.0
  (Leaf (-0.046792775)) (Leaf (-0.008056189))) (Leaf (-0.0058828266)))) (Split 655 1.0 (Split 741
  1.0 (Split 480 1.0 (Split 679 1.0 (Split 20 1.0 (Split 485 1.0 (Split 392 1.0 (Split 0 1.0 (Leaf
  (-0.04098111)) (Leaf 0.005439686)) (Leaf 0.013150239)) (Leaf 0.013265354)) (Leaf 0.022773052))
  (Split 678 1.0 (Split 300 1.0 (Leaf (-0.010315175)) (Leaf 0.035955228)) (Leaf (-0.013423172))))
  (Leaf 0.042666964)) (Leaf 0.036694508)) (Leaf 0.052406847))) var136_44173) var136_44204) (Split
  498 1.0 (Leaf (-0.04141297)) (Leaf (-0.008336763))).

Definition var137_44436 : tree :=
  Split 872 1.0 (Split 641 1.0 (Split 670 1.0 (Split 574 1.0 (Split 71 1.0 (Split 859 1.0 (Split 64
  1.0 (Split 1019 1.0 (Leaf 0.0381734) (Leaf (-0.010566007))) (Leaf (-0.015637763))) (Leaf
  (-0.019516561))) (Leaf (-0.019903518))) (Leaf (-0.021921221))) (Split 518 1.0 (Leaf
  (-0.03119923)) (Leaf 0.012255858))) (Leaf (-0.030512739))) (Leaf 0.044852674).

Definition var137_44475 : tree :=
  Split 64 1.0 (Split 77 1.0 (Split 908 1.0 (Split 141 1.0 (Split 209 1.0 (Split 322 1.0 (Split 156
  1.0 (Split 517 1.0 (Split 702 1.0 (Leaf 0.038699497) (Leaf (-0.009049046))) (Leaf
  (-0.010530204))) (Split 20 1.0 (Split 979 1.0 (Leaf (-0.015951792)) (Leaf 0.011866869)) (Leaf
  0.034998406))) (Leaf (-0.026710138))) (Leaf (-0.02799198))) (Split 36 1.0 (Leaf 0.012987206)
  (Leaf (-0.0479951)))) (Split 678 1.0 (Split 540 1.0 (Leaf (-0.013175393)) (Leaf 0.015031168))
  (Leaf (-0.04677635)))) (Split 300 1.0 (Split 607 1.0 (Split 452 1.0 (Split 435 1.0 (Leaf
  0.09034996) (Leaf 0.0242608)) (Leaf 0.016138079)) (Leaf (-0.0022083928))) (Leaf (-0.010032194))))
  (Leaf (-0.03467081)).

Definition var137 : tree :=
  Split 737 1.0 (Split 630 1.0 (Split 964 1.0 (Split 156 2.0 (Split 678 1.0 (Split 605 1.0 (Split
  812 1.0 (Split 533 1.0 (Split 498 1.0 (Split 341 1.0 (Split 65 1.0 (Split 42 1.0 (Leaf
  0.0016685453) (Leaf (-0.025096957))) (Split 822 1.0 (Leaf (-0.027140412)) (Leaf 0.017485118)))
  (Split 980 1.0 (Split 77 1.0 (Leaf 0.05801443) (Leaf (-0.008690648))) (Leaf (-0.017630665))))
  (Split 435 1.0 (Split 679 1.0 (Split 1018 1.0 (Leaf (-0.03966827)) (Leaf 0.013215333)) (Split 452
  1.0 (Leaf (-0.019394966)) (Leaf 0.03372187))) (Split 156 1.0 (Split 908 1.0 (Leaf (-0.003194196))
  (Leaf (-0.035152882))) (Leaf 0.042400792)))) (Split 912 1.0 (Split 670 1.0 (Split 540 1.0 (Split
  659 1.0 (Leaf 0.06286565) (Leaf 0.0143284425)) (Leaf 0.01388468)) (Leaf 0.0029596826)) (Leaf
  (-0.0037120432)))) (Split 346 1.0 (Split 838 1.0 (Split 399 1.0 (Split 783 1.0 (Split 517 1.0
  (Leaf 0.022568842) (Leaf (-0.0120845))) (Leaf (-0.032997295))) (Leaf (-0.039268885))) (Leaf
  (-0.041455656))) (Leaf (-0.044327784)))) (Split 789 1.0 (Split 670 1.0 (Split 452 1.0 (Leaf
  (-0.07065328)) (Leaf (-0.018715052))) (Leaf (-0.013613793))) (Leaf 0.0025236115))) (Split 819 1.0
  (Split 419 1.0 (Split 574 1.0 (Split 799 1.0 (Split 659 1.0 (Split 979 1.0 (Split 575 1.0 (Leaf
  (-0.029367292)) (Leaf 0.03559845)) (Split 156 1.0 (Leaf (-0.011182687)) (Leaf 0.031472046)))
  (Split 607 1.0 (Split 509 1.0 (Leaf (-0.01571802)) (Leaf 0.019195592)) (Split 300 1.0 (Leaf
  0.0431451) (Leaf 0.011523328)))) (Split 452 1.0 (Split 300 1.0 (Split 540 1.0 (Leaf 0.0073776455)
  (Leaf (-0.01615831))) (Leaf 0.019829186)) (Leaf 0.036344018))) (Split 36 1.0 (Split 300 1.0
  (Split 670 1.0 (Split 540 1.0 (Leaf (-0.034010194)) (Leaf (-0.0039349264))) (Leaf 0.00071140064))
  (Leaf 0.029862097)) (Leaf 0.054426976))) (Leaf 0.035743896)) (Split 300 1.0 (Leaf 0.0429645)
  (Leaf 0.008953669)))) var137_44436) var137_44475) (Split 641 1.0 (Split 452 1.0 (Split 617 1.0
  (Leaf (-0.04423299)) (Leaf 0.0024589202)) (Split 128 1.0 (Leaf (-0.015888115)) (Leaf
  0.011126422))) (Leaf 0.031061804))) (Leaf (-0.044066157)).

Definition var138_44763 : tree :=
  Split 77 1.0 (Split 345 1.0 (Split 86 1.0 (Split 617 1.0 (Split 670 1.0 (Split 641 1.0 (Split 517
  1.0 (Split 574 1.0 (Split 104 1.0 (Split 178 1.0 (Leaf 0.05200493) (Leaf 0.012555892)) (Leaf
  0.0065458165)) (Leaf 0.0035168398)) (Leaf (-0.0029278488))) (Leaf (-0.007352459))) (Split 641 1.0
  (Split 300 1.0 (Split 540 1.0 (Leaf 0.016529594) (Leaf (-0.012282396))) (Leaf (-0.037439626)))
  (Leaf 0.044780485))) (Leaf (-0.008845271))) (Split 452 1.0 (Leaf (-0.014676715)) (Leaf
  0.0014932555))) (Leaf (-0.025501097))) (Leaf (-0.029246433)).

Definition var138 : tree :=
  Split 53 1.0 (Split 833 1.0 (Split 301 1.0 (Split 673 1.0 (Split 751 1.0 (Split 19 1.0 (Split 99
  1.0 (Split 345 1.0 (Split 799 1.0 (Split 979 1.0 (Split 575 1.0 (Split 824 1.0 (Leaf
  (-0.007961952)) (Leaf 0.022783449)) (Split 494 1.0 (Leaf 0.03737552) (Leaf (-0.005826373))))
  (Split 540 1.0 (Split 721 1.0 (Leaf 0.014837759) (Leaf (-0.043760117))) (Split 396 1.0 (Leaf
  (-0.012154879)) (Leaf 0.04187393)))) (Split 50 1.0 (Split 972 1.0 (Split 877 1.0 (Leaf
  0.021109736) (Leaf (-0.046164848))) (Leaf (-0.045916703))) (Leaf (-0.052961778)))) (Split 178 1.0
  (Split 979 1.0 (Split 641 1.0 (Split 679 1.0 (Leaf 0.05594629) (Leaf 0.0017700663)) (Leaf
  (-0.0042603742))) (Leaf (-0.016340207))) (Split 435 1.0 (Leaf (-0.031116521)) (Leaf
  (-0.008993674))))) (Split 562 1.0 (Split 641 1.0 (Split 65 1.0 (Split 944 1.0 (Split 388 1.0
  (Leaf 0.028443692) (Leaf (-0.02871314))) (Leaf (-0.026361689))) (Split 678 1.0 (Leaf
  (-0.022020193)) (Leaf 0.004338251))) (Split 540 1.0 (Leaf (-0.003355524)) (Split 452 1.0 (Leaf
  (-0.024635365)) (Leaf (-0.005889434))))) (Leaf (-0.04325169)))) (Split 435 1.0 (Split 979 1.0
  (Split 156 1.0 (Leaf (-0.058101434)) (Leaf (-0.00886785))) (Leaf (-0.0058240327))) (Leaf
  (-0.011026884)))) (Split 385 1.0 (Split 77 1.0 (Split 540 2.0 (Split 36 1.0 (Split 912 1.0 (Leaf
  0.04853965) (Leaf 0.007317442)) (Leaf 0.0073897736)) (Leaf (-0.007446311))) (Leaf
  (-0.010020102))) (Leaf (-0.04292513)))) (Split 670 1.0 (Split 976 1.0 (Split 36 1.0 (Split 678
  1.0 (Leaf 0.0685456) (Leaf (-0.001337881))) (Leaf 0.0024825453)) (Leaf (-0.011623155))) (Leaf
  (-0.013392429)))) (Split 300 1.0 (Leaf (-0.046387475)) (Leaf (-0.018068362)))) (Split 660 1.0
  (Split 641 1.0 (Split 36 1.0 (Leaf 0.022873132) (Leaf (-0.012567557))) (Leaf (-0.014019144)))
  (Leaf 0.043847885))) var138_44763.

Definition var139_45021 : tree :=
  Split 976 1.0 (Split 104 1.0 (Split 77 1.0 (Split 435 1.0 (Leaf 0.048346344) (Split 300 1.0 (Leaf
  0.0025698429) (Leaf 0.030808002))) (Leaf 0.0070280633)) (Leaf 0.0050633554)) (Leaf
  (-0.0012350262)).

Definition var139_44982 : tree :=
  Split 664 1.0 (Split 985 1.0 (Split 908 1.0 (Split 517 1.0 (Split 776 1.0 (Split 296 1.0 (Split
  607 1.0 (Split 294 1.0 (Leaf 0.04548475) (Leaf 0.010756983)) (Leaf 0.013400644)) (Leaf
  0.002015052)) (Leaf 0.0046050726)) (Leaf 0.0026430786)) (Split 435 1.0 (Leaf 0.016425643) (Leaf
  (-0.021157673)))) (Leaf (-0.0056346576))) (Leaf (-0.016141837)).

Definition var139 : tree :=
  Split 709 1.0 (Split 986 1.0 (Split 344 1.0 (Split 245 1.0 (Split 1002 1.0 (Split 45 1.0 (Split
  157 1.0 (Split 389 1.0 (Split 322 1.0 (Split 964 1.0 (Split 833 1.0 (Split 386 1.0 (Leaf
  (-0.0032256835)) (Leaf 0.031957928)) (Split 36 1.0 (Leaf 0.028908074) (Leaf (-0.018641915))))
  (Split 989 1.0 (Split 88 1.0 (Leaf 0.021412035) (Leaf (-0.041511618))) (Leaf (-0.040297773))))
  (Split 452 1.0 (Split 267 1.0 (Split 812 1.0 (Leaf (-0.053549822)) (Leaf (-0.016004125))) (Leaf
  (-0.0062483097))) (Split 659 1.0 (Leaf (-0.0026553164)) (Leaf 0.0055769808)))) (Split 789 1.0
  (Leaf (-0.04738501)) (Leaf 0.0015438803))) (Split 435 1.0 (Leaf 0.03836673) (Split 300 1.0 (Leaf
  (-0.0199085)) (Leaf 0.027067292)))) (Split 0 1.0 (Split 976 1.0 (Split 529 1.0 (Split 47 1.0
  (Split 16 1.0 (Split 912 1.0 (Leaf 0.040923003) (Leaf (-0.0027330567))) (Split 452 1.0 (Leaf
  0.020883603) (Leaf (-0.023869084)))) (Leaf (-0.027490964))) (Leaf (-0.022030486))) (Split 452 1.0
  (Split 36 1.0 (Leaf (-0.014631643)) (Leaf (-0.045197573))) (Leaf 0.021692371))) (Leaf
  (-0.025717637)))) (Split 702 1.0 (Split 950 1.0 (Split 985 1.0 (Split 452 1.0 (Split 659 1.0
  (Split 812 1.0 (Leaf 0.03334355) (Leaf 0.0055231033)) (Leaf 0.008466835)) (Split 540 1.0 (Split
  300 1.0 (Leaf 0.022612935) (Leaf (-0.0023309232))) (Leaf (-0.009790721)))) (Leaf 0.056986)) (Leaf
  (-0.006394684))) (Leaf (-0.011150985)))) (Split 979 1.0 (Leaf (-0.048337754)) (Leaf
  (-0.009419164)))) (Split 16 1.0 (Leaf (-0.043721687)) (Leaf (-0.0075782)))) var139_44982)
  var139_45021.

Definition var140_45201 : tree :=
  Split 1001 1.0 (Split 540 1.0 (Split 435 1.0 (Split 670 1.0 (Split 36 1.0 (Leaf (-0.0027320466))
  (Leaf (-0.019387126))) (Leaf (-0.032624993))) (Leaf 0.0057365764)) (Leaf (-0.053273726))) (Leaf
  0.008047433).

Definition var140_45224 : tree :=
  Split 662 1.0 (Split 540 2.0 (Split 822 1.0 (Split 255 1.0 (Split 300 1.0 (Leaf 0.04328577)
  (Split 452 1.0 (Leaf 0.029215828) (Leaf (-0.011440258)))) (Leaf 0.00886033)) (Leaf 0.00964732))
  (Leaf 0.0076487423)) (Leaf 0.0013633794).

Definition var140 : tree :=
  Split 724 1.0 (Split 330 1.0 (Split 385 1.0 (Split 733 1.0 (Split 751 1.0 (Split 738 1.0 (Split
  479 1.0 (Split 89 1.0 (Split 215 1.0 (Split 533 1.0 (Split 285 1.0 (Split 573 1.0 (Leaf
  (-0.0004717649)) (Leaf 0.03448535)) (Split 678 1.0 (Leaf 0.04623883) (Leaf 0.0011580252))) (Split
  812 1.0 (Split 807 1.0 (Leaf 0.046467733) (Leaf (-0.013747196))) (Leaf (-0.027349135)))) (Split
  141 1.0 (Split 452 1.0 (Leaf (-0.051662184)) (Leaf (-0.010834759))) (Leaf 0.0026431065))) (Split
  300 2.0 (Split 976 1.0 (Split 435 1.0 (Leaf (-0.053888727)) (Leaf (-0.01365568))) (Leaf
  (-0.01390332))) (Leaf 0.04729244))) (Split 979 1.0 (Split 522 1.0 (Split 14 1.0 (Split 937 1.0
  (Split 617 1.0 (Leaf (-0.038609985)) (Leaf (-0.012155731))) (Leaf (-0.004616898))) (Leaf
  0.000017609758)) (Leaf 0.006965985)) (Leaf 0.010375301))) (Split 678 1.0 (Leaf (-0.054256964))
  (Leaf (-0.013177116)))) (Split 537 1.0 (Split 255 1.0 (Split 540 2.0 (Split 36 1.0 (Split 912 1.0
  (Leaf 0.05206407) (Leaf 0.010052542)) (Leaf 0.000081110666)) (Leaf (-0.012689911))) (Leaf
  (-0.016267262))) (Leaf (-0.024025762)))) (Split 300 1.0 (Split 641 1.0 (Split 670 1.0 (Split 789
  1.0 (Split 679 1.0 (Split 36 1.0 (Split 156 1.0 (Split 540 1.0 (Leaf 0.0077188336) (Leaf
  0.002174739)) (Leaf (-0.0153298965))) (Leaf 0.026640886)) (Leaf (-0.02770451))) (Leaf
  0.040917117)) (Leaf (-0.023513671))) (Leaf 0.037635397)) (Split 682 1.0 (Split 498 1.0 (Leaf
  0.05206127) (Leaf 0.016776765)) (Leaf 0.0008514326)))) var140_45201) var140_45224) (Leaf
  (-0.048023492)).

Definition var141 : tree :=
  Split 481 2.0 (Split 737 1.0 (Split 331 1.0 (Split 330 1.0 (Split 267 1.0 (Split 2 1.0 (Split 621
  1.0 (Split 862 1.0 (Split 311 1.0 (Split 430 1.0 (Split 912 1.0 (Split 648 1.0 (Leaf 0.002467687)
  (Leaf (-0.03796865))) (Split 870 1.0 (Leaf (-0.013201862)) (Leaf 0.0556767))) (Split 288 1.0
  (Split 36 1.0 (Leaf (-0.014724043)) (Leaf (-0.0015988542))) (Leaf (-0.043558072)))) (Split 36 1.0
  (Split 540 1.0 (Leaf (-0.046630763)) (Leaf (-0.0024056642))) (Leaf 0.005878163))) (Split 141 1.0
  (Split 979 1.0 (Leaf (-0.04517078)) (Leaf (-0.011840264))) (Leaf (-0.0073826597)))) (Leaf
  (-0.0474588))) (Split 452 1.0 (Leaf (-0.062105734)) (Leaf (-0.015497771)))) (Split 357 1.0 (Split
  659 1.0 (Split 517 1.0 (Split 16 1.0 (Split 982 1.0 (Split 327 1.0 (Split 578 1.0 (Leaf
  0.024235975) (Leaf (-0.01922392))) (Leaf (-0.026871342))) (Leaf (-0.038227376))) (Split 435 1.0
  (Split 300 1.0 (Leaf (-0.046272658)) (Leaf 0.0066980137)) (Leaf 0.010280419))) (Split 16 1.0
  (Leaf (-0.03995633)) (Leaf 0.024768366))) (Split 789 1.0 (Split 855 1.0 (Split 452 1.0 (Split 300
  1.0 (Leaf 0.07795278) (Leaf 0.017059397)) (Split 300 1.0 (Leaf 0.0070249885) (Leaf 0.025971457)))
  (Leaf (-0.015572481))) (Leaf (-0.008560325)))) (Leaf (-0.03307432)))) (Split 435 1.0 (Split 662
  1.0 (Split 682 1.0 (Split 16 1.0 (Split 822 1.0 (Leaf 0.049739752) (Leaf 0.013357252)) (Leaf
  0.005796801)) (Leaf 0.006432259)) (Leaf 0.00069200265)) (Split 540 2.0 (Split 156 1.0 (Leaf
  0.009438312) (Leaf 0.029483054)) (Leaf (-0.011958296))))) (Split 452 1.0 (Leaf (-0.05430853))
  (Leaf (-0.0019127338)))) (Split 540 1.0 (Leaf (-0.049380194)) (Leaf (-0.016685905)))) (Split 16
  1.0 (Leaf 0.059299376) (Leaf 0.0065947995)).

Definition var142_45621 : tree :=
  Split 300 1.0 (Split 789 1.0 (Split 77 1.0 (Split 540 1.0 (Split 1018 1.0 (Leaf 0.041840814)
  (Leaf (-0.005413744))) (Leaf 0.0061944635)) (Leaf (-0.012723967))) (Leaf (-0.033857178))) (Leaf
  0.048591673).

Definition var142_45644 : tree :=
  Split 494 1.0 (Split 721 1.0 (Split 300 2.0 (Split 655 1.0 (Split 498 1.0 (Split 517 1.0 (Split
  23 1.0 (Split 670 1.0 (Split 104 1.0 (Leaf 0.04111108) (Leaf 0.011909812)) (Leaf 0.004733859))
  (Leaf 0.06911211)) (Leaf 0.0004991602)) (Split 452 1.0 (Leaf (-0.015017445)) (Leaf 0.018766617)))
  (Leaf (-0.014629898))) (Leaf (-0.01837383))) (Leaf (-0.022118025))) (Leaf (-0.023142)).

Definition var142 : tree :=
  Split 903 1.0 (Split 8 1.0 (Split 623 1.0 (Split 130 1.0 (Split 365 1.0 (Split 55 1.0 (Split 958
  1.0 (Split 979 1.0 (Split 575 1.0 (Split 799 1.0 (Split 345 1.0 (Split 157 1.0 (Leaf
  (-0.008147853)) (Leaf 0.02721865)) (Split 178 1.0 (Leaf 0.042545184) (Leaf (-0.03352518))))
  (Split 50 1.0 (Split 874 1.0 (Leaf 0.017295592) (Leaf (-0.047902536))) (Leaf (-0.051121116))))
  (Split 494 1.0 (Split 300 1.0 (Split 435 1.0 (Leaf 0.029400406) (Leaf (-0.01374837))) (Leaf
  0.048543062)) (Leaf (-0.009069546)))) (Split 300 1.0 (Split 16 1.0 (Split 659 1.0 (Split 721 1.0
  (Leaf (-0.0067871036)) (Leaf (-0.06616701))) (Split 607 1.0 (Leaf 0.033581566) (Leaf
  (-0.010331109)))) (Split 789 1.0 (Split 16 2.0 (Leaf 0.045929518) (Leaf 0.0132960705)) (Split 36
  1.0 (Leaf (-0.019781252)) (Leaf 0.012186102)))) (Split 296 1.0 (Split 738 1.0 (Split 357 1.0
  (Leaf 0.032948386) (Leaf (-0.023764871))) (Leaf (-0.04208627))) (Leaf (-0.04499767))))) (Split
  543 1.0 (Split 452 1.0 (Split 812 1.0 (Split 435 1.0 (Leaf 0.01584743) (Leaf (-0.0086155245)))
  (Leaf (-0.008788236))) (Leaf (-0.012758145))) (Leaf 0.045333374))) (Split 619 1.0 (Split 16 1.0
  (Split 670 1.0 (Split 1019 1.0 (Split 374 1.0 (Split 156 2.0 (Leaf 0.034165855) (Leaf
  (-0.0071644746))) (Leaf (-0.011581993))) (Leaf (-0.014089248))) (Split 540 1.0 (Split 435 1.0
  (Leaf (-0.040153172)) (Leaf (-0.0018451497))) (Leaf 0.028832907))) (Split 435 1.0 (Split 452 1.0
  (Leaf 0.021623371) (Leaf (-0.016405573))) (Leaf (-0.03211653)))) (Leaf (-0.032536454)))) (Split
  120 1.0 (Split 435 1.0 (Leaf 0.0038367708) (Leaf (-0.0042853975))) (Leaf 0.044872425))) (Split
  540 2.0 (Split 641 1.0 (Split 678 1.0 (Leaf 0.055787064) (Leaf 0.015643861)) (Leaf 0.014021197))
  (Leaf 0.0071178684))) var142_45621) var142_45644) (Leaf (-0.04880265)).

Definition var143_45913 : tree :=
  Split 976 1.0 (Split 104 1.0 (Split 77 1.0 (Split 435 1.0 (Leaf 0.04784386) (Split 300 1.0 (Leaf
  0.0025810227) (Leaf 0.030293314))) (Leaf 0.007081927)) (Leaf 0.004999094)) (Leaf (-0.0011370577)).

Definition var143_45839 : tree :=
  Split 8 1.0 (Split 452 1.0 (Split 14 1.0 (Split 435 1.0 (Split 300 1.0 (Split 976 1.0 (Split 540
  1.0 (Leaf 0.010953128) (Leaf 0.039726794)) (Leaf (-0.004121192))) (Leaf (-0.008141646))) (Split
  128 1.0 (Split 1018 1.0 (Split 537 1.0 (Split 36 1.0 (Split 540 1.0 (Leaf (-0.014287077)) (Leaf
  (-0.031509187))) (Leaf 0.0037540214)) (Leaf (-0.052345265))) (Leaf 0.017566139)) (Leaf
  0.021987703))) (Leaf 0.041544862)) (Split 435 1.0 (Split 678 1.0 (Leaf 0.02375917) (Leaf
  0.003441558)) (Leaf 0.04294932))) (Split 36 1.0 (Leaf 0.052578922) (Leaf (-0.004773162))).

Definition var143 : tree :=
  Split 709 1.0 (Split 838 1.0 (Split 780 1.0 (Split 301 1.0 (Split 648 1.0 (Split 870 1.0 (Split
  157 1.0 (Split 874 1.0 (Split 912 1.0 (Split 911 1.0 (Split 224 1.0 (Split 687 1.0 (Leaf
  0.0013828584) (Leaf (-0.028398765))) (Split 659 1.0 (Leaf 0.059449233) (Leaf (-0.009934465))))
  (Split 435 1.0 (Split 789 1.0 (Leaf (-0.025444025)) (Leaf (-0.06952999))) (Leaf 0.008009374)))
  (Split 1005 1.0 (Split 481 1.0 (Split 267 1.0 (Leaf (-0.020399386)) (Leaf 0.018456973)) (Split
  452 1.0 (Leaf 0.005244584) (Leaf 0.048479024))) (Split 540 1.0 (Leaf 0.041712433) (Leaf
  0.0027954734)))) (Split 178 1.0 (Split 16 1.0 (Split 104 1.0 (Split 77 1.0 (Leaf (-0.051104546))
  (Leaf (-0.016681481))) (Leaf (-0.0064936928))) (Leaf 0.00010203357)) (Leaf 0.012938096))) (Split
  45 1.0 (Split 47 1.0 (Split 36 1.0 (Leaf 0.04265019) (Leaf 0.009199304)) (Leaf (-0.0012654082)))
  (Leaf (-0.0068395534)))) (Split 789 1.0 (Split 452 2.0 (Split 679 1.0 (Split 976 1.0 (Split 86
  1.0 (Split 678 1.0 (Leaf 0.043165725) (Leaf 0.009690764)) (Leaf (-0.0035099883))) (Leaf
  (-0.015137056))) (Leaf (-0.011032986))) (Leaf 0.0644243)) (Split 517 1.0 (Split 300 1.0 (Leaf
  (-0.0040642484)) (Leaf (-0.017703122))) (Leaf 0.014729949)))) (Split 789 1.0 (Split 641 1.0 (Leaf
  (-0.05080387)) (Leaf (-0.0070540453))) (Leaf 0.006006412))) (Split 498 1.0 (Split 300 1.0 (Leaf
  (-0.052679587)) (Leaf (-0.015948093))) (Leaf (-0.007202916)))) var143_45839) (Split 36 1.0 (Split
  300 1.0 (Leaf (-0.038855918)) (Leaf (-0.0025119004))) (Leaf (-0.05815224)))) var143_45913.

Definition var144 : tree :=
  Split 570 1.0 (Split 149 1.0 (Split 286 1.0 (Split 900 1.0 (Split 733 1.0 (Split 378 1.0 (Split
  133 1.0 (Split 99 1.0 (Split 501 1.0 (Split 742 1.0 (Split 89 1.0 (Split 341 1.0 (Leaf
  0.0009813153) (Leaf 0.03359797)) (Split 300 1.0 (Leaf (-0.05090196)) (Leaf (-0.0058770673))))
  (Split 518 1.0 (Split 281 1.0 (Leaf (-0.033931177)) (Leaf 0.011535235)) (Leaf 0.01902805)))
  (Split 682 1.0 (Split 655 1.0 (Split 255 1.0 (Leaf (-0.047668137)) (Leaf 0.004454271)) (Leaf
  0.023259288)) (Leaf 0.04045751))) (Split 141 1.0 (Split 624 1.0 (Split 36 2.0 (Split 989 1.0
  (Leaf 0.026992971) (Leaf (-0.02251294))) (Leaf (-0.021518929))) (Leaf (-0.028047089))) (Split 397
  1.0 (Split 540 1.0 (Split 300 1.0 (Leaf 0.0018020079) (Leaf 0.015567717)) (Split 435 1.0 (Leaf
  (-0.012968081)) (Leaf 0.0036818602))) (Leaf (-0.04775129))))) (Split 156 1.0 (Split 979 1.0 (Leaf
  (-0.038193733)) (Leaf (-0.0063432003))) (Leaf (-0.0021026442)))) (Leaf (-0.051976383))) (Split
  104 1.0 (Split 300 2.0 (Split 435 1.0 (Split 641 1.0 (Split 812 1.0 (Split 540 1.0 (Split 300 1.0
  (Leaf 0.0007545151) (Leaf 0.021840904)) (Leaf (-0.020826017))) (Leaf 0.0322269)) (Leaf
  0.038285773)) (Split 670 1.0 (Leaf 0.04861577) (Leaf 0.004874765))) (Leaf 0.051956173)) (Split
  300 1.0 (Leaf (-0.016984006)) (Leaf 0.0009279487)))) (Leaf (-0.044116464))) (Split 277 1.0 (Split
  156 1.0 (Split 812 1.0 (Split 14 1.0 (Split 670 1.0 (Split 659 1.0 (Split 452 1.0 (Leaf
  0.05633933) (Leaf 0.01507209)) (Leaf 0.014972988)) (Leaf 0.012369151)) (Leaf 0.010737911)) (Leaf
  0.0019639912)) (Leaf 0.0033047851)) (Leaf (-0.0007151482)))) (Split 912 1.0 (Split 16 1.0 (Split
  452 1.0 (Leaf (-0.056225616)) (Leaf (-0.0053401026))) (Leaf (-0.002800327))) (Leaf 0.014517242)))
  (Split 156 1.0 (Split 435 1.0 (Leaf (-0.04645632)) (Leaf (-0.011400065))) (Leaf (-0.010123726))).

Definition var145_46341 : tree :=
  Split 503 1.0 (Split 104 1.0 (Split 682 1.0 (Split 20 1.0 (Split 128 1.0 (Split 435 1.0 (Split
  498 1.0 (Split 533 1.0 (Leaf 0.05937604) (Leaf 0.0076292357)) (Leaf 0.0022628258)) (Split 607 1.0
  (Split 300 1.0 (Split 540 1.0 (Leaf (-0.011608361)) (Leaf 0.011035502)) (Leaf 0.018102149)) (Leaf
  0.03562046))) (Split 452 1.0 (Leaf (-0.011167998)) (Leaf 0.02644745))) (Leaf (-0.0050223386)))
  (Leaf (-0.009881086))) (Split 435 1.0 (Split 641 1.0 (Leaf 0.025726063) (Leaf (-0.005527477)))
  (Leaf (-0.020030973)))) (Split 60 1.0 (Leaf (-0.0037689123)) (Leaf (-0.029328242))).

Definition var145 : tree :=
  Split 819 1.0 (Split 775 1.0 (Split 385 1.0 (Split 733 1.0 (Split 751 1.0 (Split 438 1.0 (Split
  143 1.0 (Split 286 1.0 (Split 224 1.0 (Split 365 1.0 (Split 780 1.0 (Split 386 1.0 (Leaf
  (-0.0045794854)) (Leaf 0.028414605)) (Split 8 1.0 (Leaf 0.009625717) (Leaf 0.03765781))) (Split
  120 1.0 (Split 435 1.0 (Leaf 0.005198506) (Leaf (-0.0074012764))) (Leaf 0.044636056))) (Split 659
  1.0 (Leaf 0.06344587) (Leaf (-0.023830896)))) (Split 670 1.0 (Split 540 1.0 (Split 14 1.0 (Split
  789 1.0 (Leaf 0.046727043) (Leaf 0.010522527)) (Leaf 0.0019496838)) (Split 607 1.0 (Split 435 1.0
  (Leaf (-0.013318918)) (Leaf 0.010574285)) (Leaf 0.03267586))) (Leaf 0.0031513113))) (Split 908
  1.0 (Split 435 1.0 (Split 670 1.0 (Split 812 1.0 (Leaf 0.030357761) (Leaf 0.0065533267)) (Leaf
  (-0.00867591))) (Split 540 1.0 (Leaf 0.062646285) (Leaf 0.016935188))) (Leaf (-0.035825696))))
  (Split 255 1.0 (Split 104 1.0 (Split 36 1.0 (Split 670 1.0 (Leaf 0.052331883) (Leaf 0.016818583))
  (Leaf 0.012085823)) (Split 300 1.0 (Split 540 1.0 (Leaf (-0.0013388097)) (Leaf 0.02043625)) (Leaf
  (-0.016534789)))) (Leaf (-0.008776679)))) (Split 77 1.0 (Split 678 1.0 (Split 36 1.0 (Split 138
  1.0 (Leaf 0.04970091) (Leaf 0.0068173455)) (Leaf (-0.0017772245))) (Split 540 1.0 (Leaf
  (-0.007428877)) (Leaf (-0.0008891839)))) (Leaf (-0.009966194)))) (Split 300 1.0 (Split 641 1.0
  (Split 670 1.0 (Split 435 1.0 (Split 679 1.0 (Split 452 1.0 (Split 36 1.0 (Leaf 0.0057189288)
  (Leaf 0.03113243)) (Leaf (-0.015899902))) (Leaf (-0.025390059))) (Leaf 0.035126016)) (Leaf
  (-0.022617044))) (Leaf 0.03580424)) (Split 498 1.0 (Leaf 0.049405772) (Leaf 0.010411999))))
  (Split 1001 1.0 (Split 540 1.0 (Split 300 1.0 (Leaf (-0.028395703)) (Leaf 0.000859451)) (Leaf
  (-0.052136112))) (Leaf 0.008353235))) (Split 459 1.0 (Split 16 1.0 (Split 517 1.0 (Leaf
  (-0.040803812)) (Leaf (-0.0006942196))) (Leaf 0.008434618)) (Leaf 0.0467384))) var145_46341.

Definition var146 : tree :=
  Split 724 1.0 (Split 815 1.0 (Split 331 1.0 (Split 330 1.0 (Split 630 1.0 (Split 430 1.0 (Split 2
  1.0 (Split 407 1.0 (Split 241 1.0 (Split 112 1.0 (Split 776 1.0 (Split 648 1.0 (Leaf 0.003167224)
  (Leaf (-0.037335034))) (Split 679 1.0 (Leaf (-0.021251947)) (Leaf 0.025971651))) (Split 607 1.0
  (Split 156 1.0 (Leaf (-0.04409786)) (Leaf (-0.008349749))) (Leaf 0.024350591))) (Leaf
  (-0.056689676))) (Split 908 1.0 (Split 16 1.0 (Split 812 1.0 (Split 128 1.0 (Leaf 0.05246379)
  (Leaf (-0.002943386))) (Leaf (-0.013910668))) (Split 435 1.0 (Leaf (-0.007021611)) (Leaf
  0.001816939))) (Leaf (-0.030330136)))) (Split 452 1.0 (Leaf (-0.053105947)) (Leaf
  (-0.014677954)))) (Split 452 1.0 (Split 288 1.0 (Leaf (-0.017754352)) (Leaf (-0.043237075)))
  (Leaf 0.011738002))) (Split 641 1.0 (Split 452 1.0 (Split 617 1.0 (Leaf (-0.043087512)) (Leaf
  0.0018500335)) (Split 540 1.0 (Leaf (-0.018421918)) (Leaf 0.005619315))) (Leaf 0.0293169)))
  (Split 662 1.0 (Split 435 1.0 (Split 255 1.0 (Split 789 1.0 (Split 822 1.0 (Leaf 0.04957496)
  (Leaf 0.009107753)) (Leaf 0.013008139)) (Leaf 0.005515072)) (Split 540 2.0 (Leaf 0.023432344)
  (Leaf (-0.011383662)))) (Leaf 0.0011641792))) (Leaf (-0.0460736))) (Split 452 1.0 (Split 435 1.0
  (Leaf (-0.046517637)) (Leaf (-0.017728243))) (Split 435 1.0 (Leaf 0.011438357) (Leaf
  (-0.023372954))))) (Leaf (-0.04681678)).

Definition var147_46713 : tree :=
  Split 664 1.0 (Split 985 1.0 (Split 908 1.0 (Split 517 1.0 (Split 776 1.0 (Split 296 1.0 (Split
  607 1.0 (Split 294 1.0 (Leaf 0.04473522) (Leaf 0.010513364)) (Leaf 0.012668693)) (Leaf
  0.0022073777)) (Leaf 0.0047393804)) (Leaf 0.001990184)) (Split 452 1.0 (Leaf (-0.014186739))
  (Leaf 0.017924486))) (Leaf (-0.005236234))) (Leaf (-0.014967717)).

Definition var147 : tree :=
  Split 986 1.0 (Split 344 1.0 (Split 876 1.0 (Split 53 1.0 (Split 833 1.0 (Split 668 1.0 (Split
  980 1.0 (Split 389 1.0 (Split 605 1.0 (Split 751 1.0 (Split 575 1.0 (Split 801 1.0 (Leaf
  0.00010252146) (Leaf (-0.041190457))) (Split 540 2.0 (Leaf 0.03855621) (Leaf (-0.013952041))))
  (Split 385 1.0 (Split 540 2.0 (Leaf 0.040449876) (Leaf (-0.012398644))) (Leaf (-0.040387407))))
  (Split 670 1.0 (Split 392 1.0 (Leaf (-0.056215543)) (Leaf (-0.007945633))) (Leaf
  (-0.0006717945)))) (Split 435 1.0 (Leaf (-0.04472161)) (Leaf 0.0031887614))) (Split 141 1.0
  (Split 655 1.0 (Split 537 1.0 (Split 36 2.0 (Split 540 1.0 (Leaf (-0.044585507)) (Leaf
  (-0.013404782))) (Leaf 0.01098274)) (Leaf 0.014940726)) (Split 36 1.0 (Leaf 0.027791822) (Leaf
  (-0.004920193)))) (Leaf 0.036004316))) (Split 540 2.0 (Split 607 1.0 (Split 156 1.0 (Leaf
  (-0.061156332)) (Leaf (-0.0051482916))) (Leaf (-0.0061215926))) (Leaf 0.01615116))) (Split 812
  1.0 (Split 36 1.0 (Split 660 1.0 (Leaf 0.025403379) (Leaf 0.043457698)) (Leaf (-0.012704317)))
  (Leaf (-0.022480542)))) (Split 77 1.0 (Split 345 1.0 (Split 989 1.0 (Split 617 1.0 (Split 14 1.0
  (Split 426 1.0 (Split 117 1.0 (Split 86 1.0 (Leaf 0.04134251) (Leaf (-0.0022464788))) (Leaf
  (-0.0027114784))) (Leaf (-0.004714927))) (Leaf (-0.009803316))) (Leaf (-0.00879811))) (Leaf
  (-0.017120322))) (Leaf (-0.025590716))) (Leaf (-0.031752955)))) (Split 452 1.0 (Leaf
  (-0.050643306)) (Leaf 0.015187812))) (Split 16 1.0 (Split 452 1.0 (Leaf (-0.045206666)) (Leaf
  (-0.013947605))) (Leaf (-0.0075171604)))) var147_46713.

Definition var148_46948 : tree :=
  Split 950 1.0 (Split 62 1.0 (Split 617 1.0 (Split 156 1.0 (Split 912 1.0 (Split 1019 1.0 (Split
  641 1.0 (Split 670 1.0 (Split 540 1.0 (Leaf 0.03110613) (Leaf (-0.00017830644))) (Leaf
  (-0.0020143783))) (Leaf 0.046189297)) (Leaf 0.001401954)) (Leaf (-0.0032062463))) (Leaf
  0.046548106)) (Leaf (-0.003447899))) (Leaf (-0.014525552))) (Leaf (-0.011448758)).

Definition var148 : tree :=
  Split 709 1.0 (Split 1002 1.0 (Split 59 1.0 (Split 322 1.0 (Split 178 1.0 (Split 345 1.0 (Split
  481 1.0 (Split 912 1.0 (Split 60 1.0 (Split 36 1.0 (Split 570 1.0 (Split 57 1.0 (Leaf
  0.0040968503) (Leaf (-0.05072215))) (Split 670 1.0 (Leaf (-0.049207695)) (Leaf (-0.017668))))
  (Split 23 1.0 (Split 679 1.0 (Leaf (-0.015241562)) (Leaf 0.018062245)) (Split 498 1.0 (Leaf
  0.034690198) (Leaf (-0.019005505))))) (Split 435 1.0 (Split 104 1.0 (Leaf (-0.044201203)) (Leaf
  (-0.010760415))) (Leaf 0.020663192))) (Split 870 1.0 (Split 682 1.0 (Split 780 1.0 (Split 819 1.0
  (Leaf (-0.021135611)) (Leaf 0.02375233)) (Split 435 1.0 (Leaf 0.027731586) (Leaf 0.003824638)))
  (Split 540 1.0 (Split 300 1.0 (Leaf 0.014493959) (Leaf (-0.006160434))) (Leaf 0.040344838)))
  (Leaf 0.055433284))) (Split 481 2.0 (Split 979 1.0 (Split 964 1.0 (Split 799 1.0 (Split 300 1.0
  (Leaf (-0.01396962)) (Leaf 0.009535607)) (Leaf 0.032317277)) (Leaf 0.037776504)) (Leaf
  0.036135353)) (Split 16 1.0 (Leaf 0.057822704) (Leaf 0.005918715)))) (Split 979 1.0 (Split 641
  1.0 (Split 679 1.0 (Split 169 1.0 (Leaf 0.056242418) (Leaf 0.0138091)) (Leaf 0.008909642)) (Leaf
  (-0.0048948457))) (Leaf (-0.030941224)))) (Split 113 1.0 (Split 979 1.0 (Split 819 1.0 (Split 99
  1.0 (Split 670 1.0 (Split 989 1.0 (Split 495 1.0 (Leaf (-0.039487477)) (Leaf (-0.001852062)))
  (Leaf (-0.0000059923923))) (Split 540 1.0 (Leaf (-0.023493527)) (Leaf 0.012602209))) (Split 36
  1.0 (Leaf (-0.012732054)) (Leaf 0.009780688))) (Leaf 0.0040581236)) (Split 300 1.0 (Split 789 1.0
  (Leaf 0.0029300079) (Leaf (-0.0107507575))) (Leaf 0.018338185))) (Leaf 0.026533967))) (Split 452
  1.0 (Split 267 1.0 (Split 812 1.0 (Leaf (-0.04819251)) (Leaf (-0.0135826515))) (Leaf
  (-0.005952798))) (Split 659 1.0 (Leaf 0.0016327279) (Leaf 0.0058543314)))) (Leaf (-0.051245164)))
  var148_46948) (Split 104 1.0 (Split 435 1.0 (Split 77 1.0 (Leaf 0.047901466) (Leaf 0.009262725))
  (Split 300 1.0 (Leaf (-0.0041709063)) (Leaf 0.029698377))) (Leaf 0.0014433347)).

Definition var149 : tree :=
  Split 724 1.0 (Split 815 1.0 (Split 331 1.0 (Split 330 1.0 (Split 874 1.0 (Split 341 1.0 (Split
  858 1.0 (Split 178 1.0 (Split 345 1.0 (Split 799 1.0 (Split 55 1.0 (Split 637 1.0 (Leaf
  (-0.0013867783)) (Leaf 0.039021093)) (Split 596 1.0 (Leaf 0.022009306) (Leaf (-0.05370916))))
  (Split 50 1.0 (Split 631 1.0 (Leaf 0.020226415) (Leaf (-0.043022588))) (Leaf (-0.047583614))))
  (Split 979 1.0 (Split 789 1.0 (Split 169 1.0 (Leaf 0.05238362) (Leaf 0.017896442)) (Leaf
  0.003905637)) (Leaf (-0.032327503)))) (Split 113 1.0 (Split 284 1.0 (Split 23 1.0 (Split 14 1.0
  (Leaf (-0.029749889)) (Leaf 0.004908588)) (Split 540 1.0 (Leaf 0.018471694) (Leaf
  (-0.017344842)))) (Leaf 0.027606502)) (Leaf 0.02535511))) (Split 540 1.0 (Leaf (-0.06521692))
  (Leaf 0.0063735694))) (Split 104 1.0 (Split 128 1.0 (Split 659 1.0 (Split 36 1.0 (Split 678 1.0
  (Leaf 0.068565734) (Leaf 0.010609175)) (Leaf 0.0055600824)) (Leaf (-0.0062449574))) (Leaf
  (-0.0023292068))) (Leaf (-0.020366494)))) (Split 653 1.0 (Split 178 1.0 (Split 104 1.0 (Split 678
  1.0 (Split 1018 1.0 (Split 517 1.0 (Leaf (-0.052591916)) (Leaf (-0.011073417))) (Leaf
  (-0.0063448213))) (Leaf (-0.015067232))) (Leaf (-0.0064125108))) (Leaf 0.008359349)) (Leaf
  0.016038086))) (Split 662 1.0 (Split 435 1.0 (Split 255 1.0 (Split 789 1.0 (Split 822 1.0 (Leaf
  0.04900168) (Leaf 0.008966594)) (Leaf 0.012698214)) (Leaf 0.005375176)) (Split 540 2.0 (Leaf
  0.022837274) (Leaf (-0.010830249)))) (Leaf 0.0010145503))) (Leaf (-0.044807598))) (Split 452 1.0
  (Split 435 1.0 (Leaf (-0.044831045)) (Leaf (-0.01707767))) (Split 435 1.0 (Leaf 0.01120372) (Leaf
  (-0.022857057))))) (Leaf (-0.045646805)).
