(* ===== verification/Forest4.v ===== *)
(** * Forest4: trees 150 to 199 of the decision forest ([ai/model.go])

    The variables [var150] to [var199] of [PredictToxicity], one tree each, with
    the indices, thresholds and constants of the source.  The sub-tree [varK_n] is the
    conditional of line [n] of the source. *)

From S2P Require Import Prelude Trees.

Definition var150_47334 : tree :=
  Split 872 1.0 (Split 670 1.0 (Split 357 1.0 (Split 452 1.0 (Split 964 1.0 (Split 255 1.0 (Split
  617 1.0 (Split 812 1.0 (Leaf 0.03486943) (Leaf (-0.008426382))) (Split 435 1.0 (Leaf 0.011650594)
  (Leaf (-0.012644328)))) (Leaf (-0.013396248))) (Leaf (-0.018195488))) (Split 156 3.0 (Split 679
  1.0 (Leaf (-0.0053130635)) (Leaf 0.036498528)) (Leaf (-0.06006212)))) (Leaf 0.055876713)) (Split
  518 1.0 (Leaf (-0.028311912)) (Leaf 0.007085167))) (Leaf 0.044351883).

Definition var150_47392 : tree :=
  Split 396 1.0 (Split 14 1.0 (Split 1019 1.0 (Split 679 1.0 (Split 99 1.0 (Split 812 1.0 (Split
  517 1.0 (Split 124 1.0 (Split 950 1.0 (Split 659 1.0 (Leaf (-0.06002143)) (Leaf (-0.016850254)))
  (Leaf (-0.012441405))) (Leaf (-0.004038103))) (Leaf 0.001587235)) (Split 540 1.0 (Leaf
  0.0065184855) (Leaf (-0.032931827)))) (Leaf 0.014764494)) (Split 540 1.0 (Leaf 0.03287437) (Leaf
  (-0.02548031)))) (Leaf 0.018529365)) (Leaf 0.020342696)) (Leaf 0.029026378).

Definition var150_47443 : tree :=
  Split 503 1.0 (Split 509 1.0 (Split 985 1.0 (Split 976 1.0 (Split 300 2.0 (Split 435 1.0 (Split
  682 1.0 (Split 540 2.0 (Split 128 1.0 (Split 65 1.0 (Split 912 1.0 (Leaf 0.05522589) (Leaf
  0.013781937)) (Leaf 0.009383905)) (Leaf 0.013374685)) (Leaf (-0.008129922))) (Leaf
  (-0.01231639))) (Split 607 1.0 (Split 540 1.0 (Split 36 1.0 (Split 300 1.0 (Leaf (-0.024123091))
  (Leaf (-0.0026967265))) (Leaf 0.0001430639)) (Leaf 0.013907152)) (Leaf 0.032854356))) (Leaf
  (-0.015160239))) (Leaf 0.046919204)) (Leaf (-0.011847586))) (Leaf (-0.018370673))) (Split 60 1.0
  (Leaf (-0.003953935)) (Leaf (-0.028037151))).

Definition var150 : tree :=
  Split 819 1.0 (Split 117 1.0 (Split 5 1.0 (Split 156 2.0 (Split 149 1.0 (Split 870 1.0 (Split 473
  1.0 (Split 682 1.0 (Split 971 1.0 (Split 322 1.0 (Split 0 1.0 (Split 501 1.0 (Leaf
  (-0.00012329528)) (Leaf (-0.032862242))) (Split 679 1.0 (Leaf 0.02440016) (Leaf (-0.016898163))))
  (Split 679 1.0 (Split 659 1.0 (Leaf (-0.055796545)) (Leaf 0.008843495)) (Leaf 0.011872271)))
  (Split 979 1.0 (Split 789 1.0 (Split 104 1.0 (Leaf (-0.04861665)) (Leaf (-0.011565145))) (Leaf
  (-0.0099979))) (Leaf 0.010769217))) (Split 178 1.0 (Split 422 1.0 (Split 294 1.0 (Split 976 1.0
  (Leaf 0.03172269) (Leaf (-0.0008171658))) (Leaf (-0.03666466))) (Leaf (-0.03672938))) (Split 670
  1.0 (Leaf (-0.034480575)) (Leaf (-0.0043490957))))) (Split 529 1.0 (Split 498 1.0 (Split 20 1.0
  (Split 267 1.0 (Split 995 1.0 (Leaf (-0.045727443)) (Leaf 0.00032521828)) (Leaf
  (-0.00026875475))) (Leaf 0.008883771)) (Leaf 0.010380563)) (Leaf 0.012294545))) (Split 976 1.0
  (Split 659 1.0 (Split 86 1.0 (Split 540 1.0 (Split 300 1.0 (Split 452 1.0 (Leaf 0.03761519) (Leaf
  0.001527666)) (Leaf 0.0043657813)) (Split 617 1.0 (Leaf 0.0732704) (Leaf 0.009831786))) (Split
  473 1.0 (Leaf (-0.021604558)) (Leaf 0.0164475))) (Split 435 1.0 (Leaf (-0.013154692)) (Leaf
  0.0118389055))) (Split 540 1.0 (Leaf (-0.018857433)) (Leaf 0.0022892633)))) (Split 912 1.0 (Split
  16 1.0 (Leaf (-0.05551793)) (Leaf (-0.0061045233))) (Leaf 0.009000286))) var150_47334) (Split 16
  1.0 (Leaf (-0.047408845)) (Leaf (-0.007406728)))) var150_47392) var150_47443.

Definition var151_47674 : tree :=
  Split 641 1.0 (Split 995 1.0 (Split 435 1.0 (Split 36 1.0 (Split 104 1.0 (Split 540 1.0 (Leaf
  0.0010799607) (Leaf (-0.0009080187))) (Leaf (-0.034703366))) (Leaf (-0.045472365))) (Leaf
  (-0.051323026))) (Leaf 0.0016543915)) (Leaf 0.01337414).

Definition var151 : tree :=
  Split 621 1.0 (Split 944 1.0 (Split 903 1.0 (Split 780 1.0 (Split 484 1.0 (Split 157 1.0 (Split
  301 1.0 (Split 438 1.0 (Split 479 1.0 (Split 776 1.0 (Split 648 1.0 (Split 630 1.0 (Leaf
  0.001707849) (Leaf (-0.030954896))) (Split 641 1.0 (Leaf (-0.045285854)) (Leaf (-0.008742117))))
  (Split 655 1.0 (Split 392 1.0 (Leaf (-0.026964767)) (Leaf 0.032372486)) (Leaf 0.051016923)))
  (Split 156 1.0 (Split 937 1.0 (Leaf (-0.039279565)) (Leaf 0.004952292)) (Split 435 1.0 (Leaf
  (-0.005918966)) (Leaf 0.0073222886)))) (Split 912 1.0 (Split 607 1.0 (Split 255 1.0 (Split 104
  1.0 (Leaf 0.050207507) (Leaf 0.011780082)) (Leaf (-0.008611409))) (Leaf (-0.013559952))) (Leaf
  (-0.0110961115)))) (Split 435 1.0 (Leaf (-0.017022273)) (Leaf (-0.052008886)))) (Split 47 1.0
  (Split 976 1.0 (Split 36 1.0 (Leaf 0.03927834) (Leaf 0.013316761)) (Leaf 0.0018910769)) (Leaf
  (-0.0014462287)))) (Leaf 0.06237979)) (Split 435 1.0 (Split 855 1.0 (Split 117 1.0 (Split 47 1.0
  (Split 607 1.0 (Split 300 1.0 (Split 678 1.0 (Split 995 1.0 (Leaf 0.045050964) (Leaf
  0.017025037)) (Leaf 0.014302864)) (Leaf 0.013580038)) (Split 300 1.0 (Leaf (-0.0072374404)) (Leaf
  0.018797394))) (Leaf (-0.0054468066))) (Leaf (-0.012456434))) (Leaf (-0.015109009))) (Split 452
  1.0 (Split 532 1.0 (Split 156 1.0 (Split 540 1.0 (Split 670 1.0 (Split 36 1.0 (Leaf 0.015597987)
  (Leaf 0.0005284645)) (Leaf (-0.0238578))) (Leaf (-0.02152857))) (Leaf 0.034077592)) (Leaf
  (-0.042507004))) (Split 300 1.0 (Leaf 0.041280728) (Leaf 0.008488027))))) (Leaf (-0.048743617)))
  var151_47674) (Leaf (-0.039960235)).

Definition var152 : tree :=
  Split 241 1.0 (Split 709 1.0 (Split 245 1.0 (Split 1002 1.0 (Split 59 1.0 (Split 498 1.0 (Split
  824 1.0 (Split 73 1.0 (Split 52 1.0 (Split 944 1.0 (Split 738 1.0 (Split 801 1.0 (Leaf 0.0023006)
  (Leaf (-0.038428087))) (Leaf (-0.04939584))) (Split 641 1.0 (Split 540 2.0 (Leaf (-0.045016423))
  (Leaf (-0.008981082))) (Leaf 0.013010748))) (Leaf (-0.051761653))) (Split 733 1.0 (Split 141 1.0
  (Split 655 1.0 (Split 679 1.0 (Leaf (-0.04267326)) (Leaf (-0.009049906))) (Leaf 0.014117337))
  (Leaf 0.029393995)) (Leaf 0.03321019))) (Split 432 1.0 (Split 141 1.0 (Split 822 1.0 (Split 679
  1.0 (Split 16 1.0 (Leaf 0.046497475) (Leaf (-0.0022192092))) (Leaf (-0.00188003))) (Leaf
  (-0.007297553))) (Leaf (-0.01645357))) (Leaf (-0.03671964)))) (Split 997 1.0 (Split 640 1.0
  (Split 679 1.0 (Split 937 1.0 (Split 979 1.0 (Split 113 1.0 (Leaf (-0.034308184)) (Leaf
  0.019531503)) (Split 300 1.0 (Leaf (-0.007887298)) (Leaf 0.02496775))) (Leaf 0.031881157)) (Split
  36 1.0 (Split 540 1.0 (Split 812 1.0 (Leaf (-0.0072157094)) (Leaf 0.029694611)) (Leaf
  0.039589398)) (Split 540 1.0 (Leaf 0.0019687244) (Leaf (-0.036682814))))) (Leaf 0.058906015))
  (Leaf 0.055252768))) (Leaf (-0.049953405))) (Split 950 1.0 (Split 702 1.0 (Split 985 1.0 (Split
  780 1.0 (Split 800 1.0 (Split 607 1.0 (Split 996 1.0 (Split 979 1.0 (Leaf 0.006351677) (Leaf
  0.031463888)) (Leaf 0.03832878)) (Leaf (-0.02114064))) (Leaf 0.037473064)) (Leaf 0.038931318))
  (Leaf 0.05392138)) (Leaf (-0.00973337))) (Leaf (-0.011469045)))) (Split 979 1.0 (Leaf
  (-0.046016958)) (Leaf (-0.004589263)))) (Split 435 1.0 (Split 104 1.0 (Leaf 0.04618472) (Leaf
  0.002329531)) (Split 300 1.0 (Leaf (-0.0041634496)) (Leaf 0.032390323)))) (Split 435 1.0 (Leaf
  (-0.049479812)) (Leaf (-0.012195951))).

Definition var153_48105 : tree :=
  Split 664 1.0 (Split 985 1.0 (Split 908 1.0 (Split 517 1.0 (Split 296 1.0 (Split 776 1.0 (Split
  607 1.0 (Split 294 1.0 (Leaf 0.04414479) (Leaf 0.010060267)) (Leaf 0.01227331)) (Leaf
  0.005173465)) (Leaf 0.0019878435)) (Leaf 0.0013684952)) (Split 452 1.0 (Leaf (-0.013833964))
  (Leaf 0.017570674))) (Leaf (-0.0043960004))) (Leaf (-0.014402694)).

Definition var153_48051 : tree :=
  Split 822 1.0 (Split 300 1.0 (Split 284 1.0 (Split 607 1.0 (Split 678 1.0 (Split 435 1.0 (Leaf
  0.07164697) (Leaf 0.02251542)) (Leaf 0.004395386)) (Leaf (-0.010804645))) (Leaf (-0.008018973)))
  (Split 300 2.0 (Split 976 1.0 (Split 36 1.0 (Split 435 1.0 (Leaf (-0.025207764)) (Leaf
  (-0.0026713859))) (Leaf 0.010553571)) (Leaf 0.016764982)) (Leaf 0.028602889))) (Leaf
  (-0.025115896)).

Definition var153 : tree :=
  Split 986 1.0 (Split 838 1.0 (Split 658 1.0 (Split 822 1.0 (Split 876 1.0 (Split 150 1.0 (Split
  668 1.0 (Split 65 1.0 (Split 365 1.0 (Split 344 1.0 (Split 45 1.0 (Split 55 1.0 (Leaf
  (-0.0023357274)) (Leaf 0.019564085)) (Split 0 1.0 (Leaf 0.024029233) (Leaf (-0.026890907))))
  (Leaf (-0.04617994))) (Split 120 1.0 (Split 435 1.0 (Leaf 0.0015350347) (Leaf 0.013312387)) (Leaf
  0.044353206))) (Split 77 1.0 (Split 908 1.0 (Split 979 1.0 (Split 996 1.0 (Leaf (-0.03608602))
  (Leaf 0.019182164)) (Split 540 1.0 (Leaf 0.038881827) (Leaf (-0.030203665)))) (Leaf 0.023308111))
  (Split 36 1.0 (Leaf 0.036227237) (Leaf (-0.008659599))))) (Split 540 2.0 (Split 156 1.0 (Split
  607 1.0 (Leaf (-0.06580533)) (Leaf (-0.0052194213))) (Leaf (-0.0066280547))) (Leaf 0.015891261)))
  (Split 156 1.0 (Leaf 0.04759791) (Leaf 0.014783317))) (Split 452 1.0 (Leaf (-0.05257654)) (Leaf
  0.000598959))) (Split 807 1.0 (Split 560 1.0 (Split 117 1.0 (Split 300 2.0 (Split 937 1.0 (Split
  128 1.0 (Split 600 1.0 (Split 318 1.0 (Leaf 0.015447442) (Leaf (-0.028934628))) (Leaf
  (-0.03628661))) (Split 670 1.0 (Leaf 0.050508775) (Leaf 0.0036573466))) (Leaf 0.055845864))
  (Split 452 1.0 (Split 822 2.0 (Split 156 1.0 (Split 789 1.0 (Leaf (-0.003954455)) (Leaf
  (-0.031898692))) (Leaf (-0.041739322))) (Leaf 0.012513033)) (Split 452 2.0 (Leaf 0.02182104)
  (Leaf (-0.00037996014))))) (Leaf (-0.033765003))) (Leaf (-0.046584006))) (Split 452 1.0 (Leaf
  (-0.04950347)) (Leaf (-0.005940586))))) var153_48051) (Split 36 1.0 (Split 300 1.0 (Leaf
  (-0.03726767)) (Leaf (-0.004722831))) (Leaf (-0.05589471)))) var153_48105.

Definition var154_48316 : tree :=
  Split 678 1.0 (Split 682 1.0 (Split 36 1.0 (Split 300 1.0 (Leaf 0.046317827) (Split 435 1.0 (Leaf
  (-0.0031532352)) (Leaf 0.024589298))) (Leaf 0.008998983)) (Leaf (-0.0028290038))) (Leaf
  0.0031036462).

Definition var154 : tree :=
  Split 513 1.0 (Split 286 1.0 (Split 900 1.0 (Split 737 1.0 (Split 99 1.0 (Split 378 1.0 (Split
  396 1.0 (Split 267 1.0 (Split 285 1.0 (Split 104 1.0 (Split 955 1.0 (Split 687 1.0 (Leaf
  (-0.0006325164)) (Leaf (-0.030259067))) (Leaf (-0.06167574))) (Split 107 1.0 (Split 255 1.0 (Leaf
  (-0.01805513)) (Leaf 0.020790674)) (Leaf 0.05670565))) (Split 435 1.0 (Split 300 1.0 (Leaf
  0.00955201) (Leaf 0.042251077)) (Leaf 0.058552053))) (Split 138 1.0 (Split 659 1.0 (Split 327 1.0
  (Split 392 1.0 (Leaf 0.010267042) (Leaf 0.051099557)) (Leaf (-0.033947673))) (Split 670 1.0
  (Split 452 1.0 (Leaf 0.060329128) (Leaf 0.020282395)) (Split 300 1.0 (Leaf 0.01734329) (Leaf
  (-0.012097003))))) (Split 979 1.0 (Split 36 1.0 (Split 908 1.0 (Leaf (-0.015186987)) (Leaf
  0.013700089)) (Leaf (-0.034118645))) (Leaf 0.028964251)))) (Split 517 1.0 (Split 43 1.0 (Split
  267 1.0 (Split 0 1.0 (Split 789 1.0 (Leaf 0.0374867) (Leaf 0.000943211)) (Leaf (-0.010418256)))
  (Leaf (-0.01633797))) (Leaf (-0.032822527))) (Split 36 1.0 (Leaf (-0.0081749335)) (Leaf
  (-0.039523046))))) (Leaf (-0.051376086))) (Split 357 1.0 (Split 624 1.0 (Split 112 1.0 (Split 397
  1.0 (Split 65 1.0 (Split 480 1.0 (Split 965 1.0 (Leaf 0.030036405) (Leaf (-0.01924197))) (Leaf
  (-0.023083663))) (Split 678 1.0 (Split 540 1.0 (Leaf (-0.03048423)) (Leaf 0.0011268576)) (Leaf
  0.0055191554))) (Split 141 1.0 (Leaf 0.004314722) (Leaf (-0.039002407)))) (Leaf (-0.03745371)))
  (Split 678 1.0 (Leaf (-0.007552518)) (Leaf (-0.030192137)))) (Leaf (-0.027260924)))) (Split 540
  1.0 (Leaf (-0.04900438)) (Leaf (-0.015743082)))) (Leaf (-0.04324008))) var154_48316) (Split 979
  1.0 (Split 540 1.0 (Split 36 1.0 (Leaf 0.026334187) (Leaf 0.008127169)) (Leaf (-0.00059874816)))
  (Leaf 0.04140766)).

Definition var155_48525 : tree :=
  Split 55 1.0 (Split 99 1.0 (Split 141 1.0 (Split 16 1.0 (Split 976 1.0 (Leaf (-0.04057348)) (Leaf
  0.001516181)) (Split 452 1.0 (Leaf 0.020129332) (Leaf (-0.0126832975)))) (Leaf 0.0119220475))
  (Leaf 0.015855327)) (Leaf 0.029572634).

Definition var155_48552 : tree :=
  Split 912 1.0 (Split 77 1.0 (Split 14 1.0 (Split 800 1.0 (Leaf 0.049102068) (Leaf 0.0081849685))
  (Split 452 1.0 (Leaf (-0.020306021)) (Leaf 0.016797101))) (Leaf (-0.023717994))) (Split 789 1.0
  (Leaf 0.031168336) (Leaf (-0.03841966))).

Definition var155_48599 : tree :=
  Split 979 1.0 (Split 659 1.0 (Split 540 2.0 (Split 498 1.0 (Split 435 1.0 (Split 540 1.0 (Leaf
  0.06701032) (Leaf 0.022305697)) (Split 300 1.0 (Leaf (-0.013106744)) (Leaf 0.049160935))) (Leaf
  (-0.004140924))) (Leaf 0.005724303)) (Leaf (-0.014594212))) (Leaf (-0.021741038)).

Definition var155 : tree :=
  Split 76 1.0 (Split 196 1.0 (Split 575 1.0 (Split 43 1.0 (Split 812 1.0 (Split 202 1.0 (Split 498
  1.0 (Split 682 1.0 (Split 958 1.0 (Split 824 1.0 (Split 286 1.0 (Split 396 1.0 (Leaf
  (-0.0041337716)) (Leaf 0.020879202)) (Split 678 1.0 (Leaf 0.036496986) (Leaf 0.0073528797)))
  (Split 432 1.0 (Split 141 1.0 (Leaf 0.035160493) (Leaf (-0.015565929))) (Leaf (-0.04117272))))
  (Split 156 1.0 (Split 435 1.0 (Leaf (-0.0014608348)) (Leaf (-0.007244424))) (Leaf 0.043801915)))
  (Split 976 1.0 (Split 178 1.0 (Split 64 1.0 (Split 422 1.0 (Leaf 0.032317523) (Leaf
  (-0.02785298))) (Leaf (-0.043491673))) (Leaf (-0.023201039))) (Split 36 1.0 (Split 300 1.0 (Split
  540 1.0 (Leaf 0.0056100604) (Leaf (-0.025413204))) (Leaf (-0.032922182))) (Leaf 0.013972848))))
  (Split 156 1.0 (Split 751 1.0 (Split 390 1.0 (Split 255 1.0 (Split 679 1.0 (Leaf (-0.035077114))
  (Leaf 0.009302619)) (Split 435 1.0 (Leaf (-0.006095517)) (Leaf 0.026707126))) (Leaf 0.026221046))
  (Leaf 0.023281323)) (Split 452 1.0 (Split 540 1.0 (Split 36 1.0 (Leaf (-0.027430564)) (Leaf
  0.0071385736)) (Leaf 0.012226568)) (Split 540 1.0 (Leaf 0.012880285) (Leaf 0.04539471))))) (Split
  452 1.0 (Leaf 0.059644856) (Leaf 0.006457317))) (Split 979 1.0 (Split 678 1.0 (Split 138 1.0
  (Split 617 1.0 (Split 655 1.0 (Split 742 1.0 (Split 300 2.0 (Leaf 0.020141646) (Leaf
  (-0.019011484))) (Leaf (-0.026296316))) (Leaf 0.058645826)) (Split 822 1.0 (Split 659 1.0 (Leaf
  (-0.030463746)) (Leaf (-0.008529673))) (Leaf (-0.0006307425)))) (Split 435 1.0 (Split 985 1.0
  (Split 300 1.0 (Leaf (-0.051655114)) (Leaf (-0.013622145))) (Leaf (-0.0026390513))) (Leaf
  0.017776728))) var155_48525) var155_48552)) (Split 452 2.0 (Split 822 1.0 (Split 607 1.0 (Split
  979 1.0 (Leaf (-0.04793906)) (Leaf (-0.014027178))) (Leaf (-0.013132587))) (Leaf 0.0063757054))
  (Leaf 0.008954788))) var155_48599) (Split 822 1.0 (Split 679 1.0 (Split 800 1.0 (Leaf
  (-0.05392564)) (Leaf (-0.0030763352))) (Leaf 0.0014507687)) (Leaf 0.033390775))) (Split 812 1.0
  (Split 300 1.0 (Leaf 0.04481968) (Leaf 0.0122676445)) (Leaf (-0.005419815))).

Definition var156 : tree :=
  Split 481 2.0 (Split 709 1.0 (Split 986 1.0 (Split 838 1.0 (Split 626 1.0 (Split 1002 1.0 (Split
  59 1.0 (Split 1019 1.0 (Split 605 1.0 (Split 117 1.0 (Split 658 1.0 (Split 668 1.0 (Leaf
  0.0009872743) (Leaf (-0.03791869))) (Split 822 1.0 (Leaf 0.033784144) (Leaf (-0.023441706))))
  (Split 396 1.0 (Split 14 1.0 (Leaf (-0.029396558)) (Leaf 0.018865285)) (Leaf 0.03645778))) (Split
  670 1.0 (Split 104 1.0 (Leaf (-0.057727408)) (Leaf (-0.00905536))) (Leaf 0.007821617))) (Split
  445 1.0 (Split 662 1.0 (Split 77 1.0 (Split 128 1.0 (Leaf (-0.025578154)) (Leaf 0.006198804))
  (Split 452 1.0 (Leaf 0.025449408) (Leaf (-0.016195772)))) (Leaf 0.029957524)) (Leaf
  0.035713434))) (Leaf (-0.050198644))) (Split 702 1.0 (Split 452 1.0 (Split 659 1.0 (Split 641 1.0
  (Leaf 0.0352772) (Leaf 0.011811562)) (Leaf 0.0061096638)) (Split 540 1.0 (Split 300 1.0 (Leaf
  0.016559128) (Leaf (-0.00080717367))) (Leaf (-0.0022773172)))) (Leaf (-0.009268896)))) (Leaf
  (-0.040867023))) (Split 36 1.0 (Split 300 1.0 (Leaf (-0.036710367)) (Leaf (-0.0065692957))) (Leaf
  (-0.054150462)))) (Split 912 1.0 (Split 670 1.0 (Split 435 1.0 (Split 517 1.0 (Split 540 1.0
  (Leaf 0.040027343) (Leaf 0.015380156)) (Leaf 0.0028196925)) (Split 540 1.0 (Leaf 0.0025938365)
  (Leaf 0.016132442))) (Split 104 1.0 (Leaf 0.0019130226) (Leaf (-0.007372699)))) (Leaf
  (-0.006102651)))) (Split 976 1.0 (Split 104 1.0 (Split 77 1.0 (Split 435 1.0 (Leaf 0.04625219)
  (Split 300 1.0 (Leaf 0.0031250082) (Leaf 0.028725777))) (Leaf 0.006275726)) (Leaf 0.0052758735))
  (Leaf (-0.0015358921)))) (Split 16 1.0 (Leaf 0.05653925) (Leaf 0.0049009128)).

Definition var157_48979 : tree :=
  Split 697 1.0 (Split 937 1.0 (Split 392 1.0 (Split 23 1.0 (Split 64 1.0 (Split 53 1.0 (Split 1018
  1.0 (Split 435 1.0 (Split 452 1.0 (Leaf 0.05304522) (Leaf 0.01935315)) (Split 300 1.0 (Leaf
  0.0071042464) (Leaf 0.024713194))) (Leaf (-0.00007145011))) (Leaf 0.0014169874)) (Leaf
  (-0.003916925))) (Split 435 1.0 (Leaf (-0.0010337514)) (Leaf 0.0030127342))) (Leaf
  (-0.0011999083))) (Leaf (-0.0130602615))) (Leaf (-0.028387487)).

Definition var157_49026 : tree :=
  Split 385 1.0 (Split 300 1.0 (Split 641 1.0 (Split 670 1.0 (Split 789 1.0 (Split 36 1.0 (Split
  156 1.0 (Split 452 1.0 (Split 540 1.0 (Leaf 0.010790224) (Leaf (-0.0027837993))) (Leaf
  0.002022138)) (Leaf (-0.01999829))) (Leaf 0.023973422)) (Leaf 0.03966356)) (Leaf (-0.020859657)))
  (Leaf 0.034782376)) (Split 678 1.0 (Split 104 1.0 (Leaf 0.051140267) (Leaf 0.010297057)) (Leaf
  0.007352619))) (Leaf (-0.028342504)).

Definition var157 : tree :=
  Split 353 1.0 (Split 733 1.0 (Split 819 1.0 (Split 130 1.0 (Split 8 1.0 (Split 801 1.0 (Split 474
  1.0 (Split 73 1.0 (Split 386 1.0 (Split 548 1.0 (Split 457 1.0 (Split 498 1.0 (Leaf
  (-0.0006521757)) (Leaf (-0.016983407))) (Split 799 1.0 (Leaf (-0.035120588)) (Leaf 0.020416178)))
  (Split 908 1.0 (Split 36 1.0 (Leaf 0.040056594) (Leaf (-0.0016372539))) (Leaf (-0.014125796))))
  (Split 872 1.0 (Split 435 1.0 (Split 300 1.0 (Leaf (-0.012079864)) (Leaf 0.0009701696)) (Leaf
  0.014607514)) (Leaf 0.044056043))) (Split 855 1.0 (Split 679 1.0 (Split 964 1.0 (Split 128 1.0
  (Leaf (-0.037063066)) (Leaf (-0.009552818))) (Leaf (-0.0031529076))) (Leaf (-0.0034849008)))
  (Leaf 0.021122273))) (Split 540 1.0 (Split 435 1.0 (Split 16 1.0 (Split 300 1.0 (Leaf
  (-0.01737794)) (Leaf 0.013062693)) (Leaf 0.022964535)) (Leaf 0.046251975)) (Split 452 1.0 (Leaf
  0.08309993) (Leaf 0.013805295)))) (Split 452 1.0 (Split 789 1.0 (Leaf (-0.05242569)) (Leaf
  (-0.0066380226))) (Leaf 0.0076603377))) (Split 494 1.0 (Split 300 1.0 (Split 655 1.0 (Split 498
  1.0 (Split 617 1.0 (Split 156 1.0 (Split 77 1.0 (Leaf 0.04733384) (Leaf 0.0067677707)) (Leaf
  0.006658815)) (Leaf 0.007514006)) (Split 452 1.0 (Leaf (-0.02084712)) (Leaf 0.018230667))) (Leaf
  (-0.01514169))) (Split 518 1.0 (Leaf 0.0092004165) (Leaf (-0.016456267)))) (Leaf
  (-0.025631443)))) (Split 435 1.0 (Leaf 0.047664843) (Leaf 0.012444014))) var157_48979)
  var157_49026) (Leaf (-0.036911868)).

Definition var158 : tree :=
  Split 570 1.0 (Split 430 1.0 (Split 2 1.0 (Split 112 1.0 (Split 196 1.0 (Split 702 1.0 (Split 322
  1.0 (Split 285 1.0 (Split 457 1.0 (Split 55 1.0 (Split 241 1.0 (Split 533 1.0 (Leaf 0.0016773287)
  (Leaf 0.033700433)) (Leaf (-0.048696313))) (Split 972 1.0 (Split 509 1.0 (Leaf 0.027720679) (Leaf
  (-0.027604965))) (Leaf (-0.03737288)))) (Split 45 1.0 (Split 799 1.0 (Split 517 1.0 (Leaf
  (-0.0422213)) (Leaf 0.009795057)) (Leaf 0.019923482)) (Leaf 0.022794778))) (Split 678 1.0 (Leaf
  0.04404736) (Leaf 0.0045811925))) (Split 452 1.0 (Split 979 1.0 (Leaf (-0.04460397)) (Leaf
  (-0.014833412))) (Leaf 0.0074760965))) (Split 128 1.0 (Split 540 2.0 (Split 20 1.0 (Split 607 1.0
  (Split 822 1.0 (Leaf (-0.057081647)) (Leaf (-0.006881613))) (Leaf 0.0013276961)) (Leaf
  0.004193078)) (Leaf 0.02605257)) (Leaf 0.016802456))) (Split 679 1.0 (Split 300 1.0 (Leaf
  (-0.05390209)) (Split 540 1.0 (Leaf (-0.022050163)) (Leaf 0.018349392))) (Leaf 0.021197075)))
  (Split 128 1.0 (Split 255 1.0 (Split 607 1.0 (Split 822 1.0 (Split 670 1.0 (Leaf (-0.04695058))
  (Leaf (-0.012930879))) (Leaf (-0.008376423))) (Leaf (-0.004950411))) (Leaf 0.015168629)) (Leaf
  0.023517739))) (Leaf (-0.04423194))) (Split 288 1.0 (Split 670 1.0 (Leaf 0.0043055317) (Leaf
  (-0.020469151))) (Leaf (-0.042970765)))) (Split 156 1.0 (Split 435 1.0 (Leaf (-0.044456895))
  (Leaf (-0.01020575))) (Leaf (-0.009358778))).

Definition var159_49385 : tree :=
  Split 540 2.0 (Split 255 1.0 (Split 607 1.0 (Split 980 1.0 (Split 452 2.0 (Split 976 1.0 (Split
  77 1.0 (Leaf 0.051175267) (Leaf 0.014168607)) (Leaf 0.004236258)) (Leaf 0.0035940025)) (Leaf
  (-0.0015792091))) (Leaf (-0.008475823))) (Leaf (-0.0052560107))) (Leaf (-0.012739437)).

Definition var159 : tree :=
  Split 438 1.0 (Split 479 1.0 (Split 621 1.0 (Split 353 1.0 (Split 874 1.0 (Split 99 1.0 (Split
  481 1.0 (Split 58 1.0 (Split 501 1.0 (Split 215 1.0 (Split 1008 1.0 (Split 180 1.0 (Leaf
  0.0014297703) (Leaf (-0.0505591))) (Split 659 1.0 (Leaf (-0.05019171)) (Leaf 0.025480384)))
  (Split 452 1.0 (Leaf (-0.045265883)) (Leaf (-0.006347487)))) (Split 655 1.0 (Split 812 1.0 (Split
  800 1.0 (Leaf (-0.0445982)) (Leaf 0.002450411)) (Leaf 0.020936614)) (Leaf 0.0183856))) (Leaf
  (-0.044282813))) (Split 721 1.0 (Split 481 2.0 (Split 855 1.0 (Split 979 1.0 (Split 104 1.0 (Leaf
  0.009065574) (Leaf (-0.027628958))) (Leaf 0.033563413)) (Leaf 0.051365383)) (Split 678 1.0 (Leaf
  0.056349374) (Leaf 0.015502817))) (Leaf (-0.020088505)))) (Split 659 1.0 (Split 8 1.0 (Split 822
  1.0 (Split 300 2.0 (Split 128 1.0 (Split 540 1.0 (Leaf 0.009632047) (Leaf (-0.015333894))) (Split
  141 1.0 (Leaf 0.04261547) (Leaf (-0.0052517517)))) (Leaf (-0.032946855))) (Leaf 0.03423629))
  (Leaf 0.040770642)) (Split 617 1.0 (Leaf 0.04821041) (Leaf 0.00050951)))) (Split 178 1.0 (Split
  16 1.0 (Split 104 1.0 (Leaf (-0.03941064)) (Leaf (-0.0079297405))) (Leaf 0.005985255)) (Leaf
  0.006763698))) (Leaf (-0.039314665))) (Leaf (-0.04292548))) (Split 979 1.0 (Split 156 1.0 (Split
  937 1.0 (Split 812 1.0 (Split 617 1.0 (Leaf (-0.03859185)) (Leaf (-0.011502233))) (Leaf
  (-0.009947448))) (Leaf 0.0017982256)) (Split 300 1.0 (Leaf (-0.009221466)) (Leaf 0.0072986498)))
  (Leaf 0.011351675))) var159_49385.

Definition var160 : tree :=
  Split 89 1.0 (Split 573 1.0 (Split 709 1.0 (Split 407 1.0 (Split 626 1.0 (Split 241 1.0 (Split
  874 1.0 (Split 1004 1.0 (Split 799 1.0 (Split 457 1.0 (Split 824 1.0 (Split 55 1.0 (Leaf
  (-0.0015347262)) (Leaf 0.018373568)) (Split 432 1.0 (Leaf 0.027907137) (Leaf (-0.03409572))))
  (Split 45 1.0 (Split 517 1.0 (Leaf (-0.041567538)) (Leaf 0.0065407525)) (Leaf 0.022071062)))
  (Split 540 1.0 (Split 463 1.0 (Split 517 1.0 (Leaf 0.032555975) (Leaf (-0.024102375))) (Leaf
  (-0.046349965))) (Split 679 1.0 (Split 293 1.0 (Leaf (-0.014123552)) (Leaf 0.025847001)) (Leaf
  0.029983675)))) (Split 540 1.0 (Leaf (-0.057881266)) (Leaf (-0.007428394)))) (Split 1018 1.0
  (Split 156 1.0 (Split 104 1.0 (Split 678 1.0 (Leaf (-0.046322353)) (Leaf (-0.01257316))) (Leaf
  (-0.010899101))) (Leaf 0.0042513935)) (Leaf 0.0024609054))) (Leaf (-0.051244844))) (Leaf
  (-0.043611374))) (Split 300 1.0 (Split 517 1.0 (Split 77 1.0 (Split 435 1.0 (Split 104 1.0 (Leaf
  (-0.001315274)) (Leaf 0.033983152)) (Leaf 0.046873376)) (Leaf 0.059222173)) (Leaf
  (-0.0035253603))) (Split 678 1.0 (Split 36 1.0 (Leaf 0.01925655) (Leaf (-0.01027778))) (Leaf
  (-0.009230576))))) (Split 976 1.0 (Split 104 1.0 (Split 77 1.0 (Leaf 0.043542225) (Leaf
  0.006480022)) (Leaf 0.0048739063)) (Leaf (-0.0011802344)))) (Split 435 1.0 (Split 156 1.0 (Split
  659 1.0 (Split 540 1.0 (Leaf 0.041549817) (Leaf 0.0006110295)) (Leaf 0.07798947)) (Leaf
  (-0.016072018))) (Leaf (-0.022970349)))) (Split 156 1.0 (Split 976 1.0 (Split 435 1.0 (Leaf
  (-0.0450346)) (Leaf (-0.010963639))) (Leaf (-0.0114830565))) (Leaf 0.01745696)).

Definition var161 : tree :=
  Split 513 1.0 (Split 737 1.0 (Split 630 1.0 (Split 321 1.0 (Split 548 1.0 (Split 389 1.0 (Split
  473 1.0 (Split 964 1.0 (Split 151 1.0 (Split 482 1.0 (Split 673 1.0 (Split 637 1.0 (Leaf
  0.000117118) (Leaf 0.035670463)) (Split 670 1.0 (Leaf 0.04751708) (Leaf (-0.020189648)))) (Split
  822 1.0 (Split 670 1.0 (Leaf (-0.04178604)) (Leaf (-0.010881516))) (Leaf (-0.0007228052)))) (Leaf
  (-0.050303455))) (Split 77 1.0 (Split 908 1.0 (Split 452 1.0 (Split 209 1.0 (Leaf 0.009168551)
  (Leaf (-0.033363193))) (Split 36 1.0 (Leaf 0.0435484) (Leaf (-0.005444705)))) (Split 678 1.0
  (Split 540 1.0 (Leaf (-0.0135519495)) (Leaf 0.01388131)) (Leaf (-0.0486353)))) (Split 300 1.0
  (Split 156 1.0 (Split 452 1.0 (Leaf 0.08191418) (Leaf 0.010382665)) (Leaf 0.002973125)) (Leaf
  (-0.011096766))))) (Split 937 1.0 (Split 529 1.0 (Split 128 1.0 (Split 979 1.0 (Split 800 1.0
  (Leaf (-0.043454077)) (Leaf (-0.0024283566))) (Leaf 0.006928421)) (Split 86 1.0 (Split 36 1.0
  (Leaf 0.020372575) (Leaf 0.004133823)) (Leaf (-0.015278965)))) (Leaf 0.015225212)) (Leaf
  0.024097657))) (Split 435 1.0 (Leaf (-0.040706404)) (Leaf (-0.01018618)))) (Split 1019 1.0 (Split
  267 1.0 (Split 36 1.0 (Leaf 0.04008953) (Leaf 0.0036293347)) (Leaf 0.011166338)) (Leaf
  (-0.024077708)))) (Split 300 1.0 (Split 452 1.0 (Leaf (-0.04970156)) (Leaf (-0.013780229))) (Leaf
  (-0.012739728)))) (Split 641 1.0 (Split 617 1.0 (Split 128 1.0 (Split 789 1.0 (Leaf
  (-0.04150096)) (Leaf (-0.009736738))) (Leaf (-0.0034056294))) (Leaf 0.0007971825)) (Leaf
  0.028398901))) (Split 540 1.0 (Leaf (-0.047776464)) (Leaf (-0.015266652)))) (Split 979 1.0 (Split
  540 1.0 (Split 36 1.0 (Leaf 0.025683159) (Leaf 0.0077681215)) (Leaf (-0.00085039716))) (Leaf
  0.04073702)).

Definition var162 : tree :=
  Split 724 1.0 (Split 833 1.0 (Split 53 1.0 (Split 407 1.0 (Split 241 1.0 (Split 709 1.0 (Split
  445 1.0 (Split 149 1.0 (Split 502 1.0 (Split 365 1.0 (Split 812 1.0 (Split 533 1.0 (Leaf
  (-0.0033819445)) (Leaf 0.032553356)) (Split 409 1.0 (Leaf 0.0075437077) (Leaf 0.060674995)))
  (Split 120 1.0 (Split 300 1.0 (Leaf (-0.0043881717)) (Leaf 0.00923598)) (Leaf 0.04413004))) (Leaf
  (-0.038786612))) (Split 912 1.0 (Split 156 1.0 (Leaf (-0.05526278)) (Leaf (-0.008486479))) (Leaf
  0.010615829))) (Split 678 1.0 (Split 540 1.0 (Split 300 1.0 (Leaf 0.005985713) (Leaf
  0.041457977)) (Split 435 1.0 (Leaf 0.07729559) (Leaf 0.018215163))) (Split 452 1.0 (Leaf
  0.0052261986) (Leaf (-0.03588517))))) (Split 435 1.0 (Split 104 1.0 (Leaf 0.044385757) (Leaf
  0.0023229197)) (Split 300 1.0 (Leaf (-0.005333051)) (Leaf 0.028441643)))) (Leaf (-0.051575553)))
  (Split 908 1.0 (Split 300 1.0 (Split 517 1.0 (Split 976 1.0 (Split 678 1.0 (Leaf 0.05462972)
  (Leaf 0.009663074)) (Leaf 0.010944129)) (Leaf (-0.0034305428))) (Split 678 1.0 (Split 36 1.0
  (Leaf 0.015300198) (Leaf (-0.0024122908))) (Leaf (-0.0060038357)))) (Leaf (-0.02940088)))) (Split
  357 1.0 (Split 989 1.0 (Split 617 1.0 (Split 679 1.0 (Split 670 1.0 (Split 517 1.0 (Split 86 1.0
  (Split 178 1.0 (Split 641 1.0 (Leaf 0.05240059) (Leaf 0.010160941)) (Leaf (-0.0012919578))) (Leaf
  (-0.0035747408))) (Leaf (-0.0018517979))) (Split 540 1.0 (Split 300 1.0 (Leaf 0.028359422) (Leaf
  (-0.0076959664))) (Leaf (-0.0204863)))) (Split 979 1.0 (Split 452 1.0 (Leaf (-0.014810102)) (Leaf
  0.031338207)) (Leaf (-0.017899519)))) (Leaf (-0.008271438))) (Leaf (-0.017646551))) (Leaf
  (-0.02724633)))) (Split 660 1.0 (Split 641 1.0 (Split 435 1.0 (Leaf 0.019716157) (Leaf
  (-0.009967901))) (Leaf (-0.016908396))) (Leaf 0.04318768))) (Leaf (-0.043914832)).

Definition var163 : tree :=
  Split 331 1.0 (Split 330 1.0 (Split 430 1.0 (Split 2 1.0 (Split 570 1.0 (Split 133 1.0 (Split 385
  1.0 (Split 404 1.0 (Split 630 1.0 (Split 321 1.0 (Split 112 1.0 (Split 196 1.0 (Leaf
  0.0033141319) (Leaf (-0.029476216))) (Split 607 1.0 (Leaf (-0.034022186)) (Leaf 0.019417299)))
  (Split 300 1.0 (Split 452 1.0 (Leaf (-0.04954795)) (Leaf (-0.013524574))) (Leaf (-0.012242123))))
  (Split 641 1.0 (Split 617 1.0 (Split 392 1.0 (Leaf (-0.03937944)) (Leaf (-0.0063579255))) (Leaf
  0.0054502026)) (Leaf 0.027092014))) (Split 435 1.0 (Split 540 1.0 (Leaf (-0.0014185456)) (Leaf
  (-0.02178838))) (Leaf (-0.054617178)))) (Split 1001 1.0 (Split 540 1.0 (Split 435 1.0 (Split 36
  1.0 (Leaf (-0.010235365)) (Leaf (-0.02656945))) (Leaf 0.009543108)) (Leaf (-0.049047083))) (Leaf
  0.008609617))) (Split 300 1.0 (Split 156 1.0 (Leaf (-0.036283474)) (Leaf (-0.007568465))) (Leaf
  0.005896432))) (Split 156 1.0 (Split 435 1.0 (Leaf (-0.044499323)) (Leaf (-0.012207123))) (Leaf
  (-0.00904237)))) (Leaf (-0.045046646))) (Split 288 1.0 (Split 670 1.0 (Leaf 0.0026983297) (Leaf
  (-0.024799513))) (Leaf (-0.042676874)))) (Split 662 1.0 (Split 435 1.0 (Split 789 1.0 (Split 822
  1.0 (Leaf 0.042864095) (Leaf 0.009763214)) (Leaf 0.013193406)) (Split 540 2.0 (Leaf 0.020167492)
  (Leaf (-0.010048645)))) (Leaf 0.0010089829))) (Split 452 1.0 (Leaf (-0.050869733)) (Leaf
  0.00025249572)).

Definition var164 : tree :=
  Split 738 1.0 (Split 76 1.0 (Split 267 1.0 (Split 862 1.0 (Split 19 1.0 (Split 958 1.0 (Split 812
  1.0 (Split 202 1.0 (Split 190 1.0 (Split 682 1.0 (Split 833 1.0 (Split 99 1.0 (Leaf
  (-0.0054786843)) (Leaf 0.013232459)) (Split 435 1.0 (Leaf 0.02815783) (Leaf (-0.01588312))))
  (Split 8 1.0 (Split 494 1.0 (Leaf 0.014951146) (Leaf (-0.033378996))) (Leaf 0.06293952))) (Split
  120 1.0 (Split 36 1.0 (Split 300 1.0 (Leaf (-0.027317299)) (Leaf (-0.0023935095))) (Leaf
  0.03198759)) (Leaf 0.043867145))) (Leaf 0.05914227)) (Split 552 1.0 (Split 385 1.0 (Split 409 1.0
  (Split 682 1.0 (Split 678 1.0 (Leaf 0.017086042) (Leaf (-0.0043150256))) (Split 36 1.0 (Leaf
  (-0.027373314)) (Leaf 0.018748842))) (Leaf 0.06608841)) (Leaf (-0.037411325))) (Leaf
  (-0.04906128)))) (Split 543 1.0 (Split 452 1.0 (Split 36 1.0 (Leaf 0.01158728) (Leaf
  (-0.006323802))) (Leaf (-0.014168187))) (Leaf 0.044878077))) (Split 435 1.0 (Split 300 1.0 (Leaf
  (-0.058563836)) (Leaf (-0.005032932))) (Split 540 1.0 (Leaf (-0.01063543)) (Leaf 0.014129914))))
  (Split 141 1.0 (Split 979 1.0 (Leaf (-0.044686805)) (Leaf (-0.011024751))) (Leaf
  (-0.0069399863)))) (Split 357 1.0 (Split 392 1.0 (Split 482 1.0 (Split 911 1.0 (Split 457 1.0
  (Split 517 1.0 (Split 124 1.0 (Split 966 1.0 (Split 16 1.0 (Leaf 0.024004852) (Leaf
  (-0.0019837415))) (Leaf (-0.021217292))) (Leaf (-0.036192484))) (Split 156 1.0 (Split 435 1.0
  (Leaf (-0.035031065)) (Leaf (-0.0028182769))) (Leaf 0.03451363))) (Leaf (-0.031459928))) (Leaf
  (-0.030050723))) (Leaf (-0.036770087))) (Split 540 1.0 (Leaf 0.017860804) (Leaf 0.063005716)))
  (Leaf (-0.031985022)))) (Split 16 1.0 (Split 670 1.0 (Leaf 0.04383753) (Leaf 0.01151804)) (Leaf
  (-0.0068248003)))) (Split 678 1.0 (Leaf (-0.043767355)) (Leaf (-0.011288374))).

Definition var165_50472 : tree :=
  Split 908 1.0 (Split 435 1.0 (Split 670 1.0 (Split 678 1.0 (Split 300 1.0 (Leaf 0.033642914)
  (Leaf 0.007753886)) (Leaf 0.00048019944)) (Leaf (-0.0062515736))) (Split 540 1.0 (Leaf
  0.05981207) (Leaf 0.015664823))) (Leaf (-0.021173578)).

Definition var165_50499 : tree :=
  Split 937 1.0 (Split 104 1.0 (Split 682 1.0 (Split 138 1.0 (Split 20 1.0 (Split 435 1.0 (Split
  498 1.0 (Split 156 1.0 (Split 128 1.0 (Leaf 0.054981925) (Leaf 0.016496044)) (Leaf 0.015653564))
  (Leaf 0.011083587)) (Split 678 1.0 (Split 300 1.0 (Split 36 1.0 (Leaf 0.005544886) (Leaf
  0.01648447)) (Leaf 0.041259464)) (Leaf (-0.0056725666)))) (Leaf (-0.0066478723))) (Leaf
  (-0.003061211))) (Leaf (-0.011441229))) (Split 435 1.0 (Leaf 0.016748114) (Leaf (-0.016206797))))
  (Leaf (-0.013030115)).

Definition var165 : tree :=
  Split 245 1.0 (Split 808 1.0 (Split 819 1.0 (Split 143 1.0 (Split 1002 1.0 (Split 178 1.0 (Split
  345 1.0 (Split 65 1.0 (Split 751 1.0 (Split 1008 1.0 (Split 5 1.0 (Split 224 1.0 (Leaf
  (-0.00039048513)) (Leaf 0.045520406)) (Leaf (-0.04745805))) (Split 912 1.0 (Leaf (-0.041075807))
  (Leaf (-0.009744846)))) (Split 659 1.0 (Split 36 1.0 (Split 435 1.0 (Leaf 0.016479885) (Leaf
  0.05479583)) (Leaf (-0.036284115))) (Leaf 0.0602637))) (Split 77 1.0 (Split 908 1.0 (Split 979
  1.0 (Split 679 1.0 (Leaf (-0.040036652)) (Leaf 0.013941868)) (Split 435 1.0 (Leaf 0.012888387)
  (Leaf 0.0010794017))) (Leaf 0.028633041)) (Split 435 1.0 (Leaf 0.046155628) (Leaf 0.004462497))))
  (Split 979 1.0 (Split 789 1.0 (Split 169 1.0 (Split 812 1.0 (Split 300 2.0 (Leaf 0.06081861)
  (Leaf 0.008437627)) (Leaf 0.01104403)) (Leaf 0.016751502)) (Leaf 0.0048257513)) (Leaf
  (-0.022231743)))) (Split 113 1.0 (Split 284 1.0 (Split 979 1.0 (Split 99 1.0 (Split 989 1.0
  (Split 495 1.0 (Leaf (-0.040340208)) (Leaf (-0.001995253))) (Leaf 0.002625309)) (Split 36 1.0
  (Leaf (-0.012772423)) (Leaf 0.008394829))) (Split 300 1.0 (Split 540 1.0 (Leaf (-0.00864242))
  (Leaf (-0.0000045507413))) (Leaf 0.01669027))) (Leaf 0.02734587)) (Leaf 0.02424143))) (Split 950
  1.0 (Split 912 1.0 (Split 702 1.0 (Split 65 1.0 (Split 985 1.0 (Split 540 1.0 (Split 607 1.0
  (Leaf 0.032549795) (Leaf 0.009762618)) (Split 670 1.0 (Leaf (-0.008439728)) (Leaf 0.027962415)))
  (Leaf 0.050141163)) (Leaf 0.00056709384)) (Leaf 0.00052563124)) (Split 540 1.0 (Leaf
  0.0015620178) (Leaf 0.0055219433))) (Leaf (-0.0043979636)))) var165_50472) var165_50499) (Split
  670 1.0 (Split 540 1.0 (Leaf (-0.05559475)) (Split 976 1.0 (Leaf 0.008069354) (Leaf
  (-0.022276295)))) (Leaf 0.013030755))) (Split 979 1.0 (Leaf (-0.04327268)) (Leaf (-0.00393803))).

Definition var166_50731 : tree :=
  Split 540 2.0 (Split 255 1.0 (Split 607 1.0 (Split 980 1.0 (Split 452 2.0 (Split 976 1.0 (Split
  77 1.0 (Leaf 0.050205667) (Leaf 0.013677031)) (Leaf 0.0045555807)) (Leaf 0.0034924496)) (Leaf
  (-0.0010359202))) (Leaf (-0.008482747))) (Leaf (-0.0050743483))) (Leaf (-0.012040803)).

Definition var166 : tree :=
  Split 438 1.0 (Split 479 1.0 (Split 353 1.0 (Split 621 1.0 (Split 255 1.0 (Split 215 1.0 (Split
  130 1.0 (Split 623 1.0 (Split 979 1.0 (Split 971 1.0 (Split 498 1.0 (Split 874 1.0 (Leaf
  0.000062312225) (Leaf (-0.03541203))) (Split 937 1.0 (Leaf (-0.021604253)) (Leaf 0.029138757)))
  (Split 128 1.0 (Split 789 1.0 (Leaf (-0.045320056)) (Leaf (-0.0062686787))) (Leaf 0.0022551017)))
  (Split 300 1.0 (Split 480 1.0 (Split 449 1.0 (Leaf 0.0041321223) (Leaf (-0.049717043))) (Leaf
  (-0.062710844))) (Split 296 1.0 (Split 357 1.0 (Leaf 0.03197187) (Leaf (-0.020053612))) (Leaf
  (-0.023768878))))) (Split 776 1.0 (Split 679 1.0 (Split 517 1.0 (Split 1018 1.0 (Leaf
  0.047003955) (Leaf 0.011843574)) (Leaf 0.009681071)) (Leaf (-0.007434588))) (Leaf
  (-0.014498201)))) (Split 641 1.0 (Leaf 0.04911443) (Leaf 0.011773322))) (Split 452 1.0 (Leaf
  (-0.045388117)) (Leaf (-0.009822363)))) (Split 522 1.0 (Split 294 1.0 (Split 580 1.0 (Split 978
  1.0 (Split 340 1.0 (Split 354 1.0 (Split 912 1.0 (Leaf 0.029824516) (Leaf (-0.0003859161))) (Leaf
  (-0.025473569))) (Leaf (-0.028466929))) (Leaf (-0.028245026))) (Leaf (-0.027801787))) (Leaf
  (-0.033857234))) (Leaf (-0.061568726)))) (Leaf (-0.04157911))) (Leaf (-0.038312886))) (Split 979
  1.0 (Split 156 1.0 (Split 937 1.0 (Split 812 1.0 (Split 617 1.0 (Leaf (-0.037835617)) (Leaf
  (-0.010884855))) (Leaf (-0.010224319))) (Leaf 0.0014103256)) (Split 300 1.0 (Leaf (-0.009118529))
  (Leaf 0.0070647285))) (Leaf 0.011280163))) var166_50731.

Definition var167_50942 : tree :=
  Split 8 1.0 (Split 14 1.0 (Split 452 1.0 (Split 964 1.0 (Split 435 1.0 (Split 300 1.0 (Split 976
  1.0 (Split 540 1.0 (Leaf 0.009584243) (Leaf 0.03682672)) (Leaf (-0.009163967))) (Leaf
  (-0.009839248))) (Split 128 1.0 (Split 1018 1.0 (Split 537 1.0 (Split 36 1.0 (Leaf (-0.02443195))
  (Leaf 0.0040375898)) (Leaf (-0.054262448))) (Leaf 0.017031152)) (Leaf 0.020934341))) (Leaf
  0.03626199)) (Split 36 1.0 (Leaf 0.032592643) (Leaf 0.0011553674))) (Split 156 1.0 (Leaf
  0.04366716) (Leaf 0.0042036194))) (Split 36 1.0 (Leaf 0.05157246) (Leaf (-0.007522151))).

Definition var167 : tree :=
  Split 903 1.0 (Split 780 1.0 (Split 157 1.0 (Split 301 1.0 (Split 870 1.0 (Split 473 1.0 (Split
  673 1.0 (Split 874 1.0 (Split 99 1.0 (Split 799 1.0 (Split 55 1.0 (Split 150 1.0 (Leaf
  (-0.0038369417)) (Leaf 0.043582276)) (Split 619 1.0 (Leaf 0.018965317) (Leaf (-0.03085043))))
  (Split 877 1.0 (Split 463 1.0 (Leaf 0.018326605) (Leaf (-0.042956736))) (Leaf (-0.04665837))))
  (Split 624 1.0 (Split 112 1.0 (Split 924 1.0 (Leaf 0.021218479) (Leaf (-0.02418333))) (Leaf
  (-0.035063993))) (Leaf (-0.025584916)))) (Split 16 1.0 (Split 104 1.0 (Split 156 1.0 (Leaf
  (-0.04258777)) (Leaf (-0.0068366267))) (Leaf (-0.004296475))) (Leaf 0.00017460372))) (Split 670
  1.0 (Split 36 1.0 (Split 678 1.0 (Split 104 1.0 (Leaf 0.06527168) (Leaf 0.006883272)) (Leaf
  (-0.0019206295))) (Leaf 0.0058411467)) (Split 36 1.0 (Leaf (-0.039651915)) (Leaf 0.008065982))))
  (Split 498 1.0 (Split 20 1.0 (Split 789 1.0 (Split 267 1.0 (Split 390 1.0 (Split 529 1.0 (Leaf
  (-0.043798633)) (Leaf (-0.00927627))) (Leaf (-0.0062312833))) (Leaf 0.0020369138)) (Split 36 1.0
  (Leaf (-0.021296153)) (Leaf 0.030417407))) (Leaf 0.009073715)) (Leaf 0.013372499))) (Split 452
  2.0 (Split 937 1.0 (Split 86 1.0 (Split 976 1.0 (Split 36 1.0 (Split 517 1.0 (Split 494 1.0 (Leaf
  (-0.008424652)) (Leaf 0.038489033)) (Leaf 0.032960407)) (Split 517 1.0 (Leaf 0.048116177) (Leaf
  0.009837991))) (Leaf (-0.025562933))) (Leaf (-0.023089582))) (Leaf 0.05938178)) (Leaf
  0.061155707))) (Split 498 1.0 (Split 300 1.0 (Leaf (-0.050230682)) (Leaf (-0.015902841))) (Leaf
  (-0.0039114985)))) (Split 45 1.0 (Split 47 1.0 (Split 36 1.0 (Leaf 0.0380332) (Leaf 0.012083783))
  (Leaf (-0.0011202858))) (Leaf (-0.0065948986)))) var167_50942) (Leaf (-0.043902826)).

Definition var168 : tree :=
  Split 89 1.0 (Split 573 1.0 (Split 709 1.0 (Split 626 1.0 (Split 407 1.0 (Split 1004 1.0 (Split
  575 1.0 (Split 190 1.0 (Split 43 1.0 (Split 1002 1.0 (Split 958 1.0 (Split 64 1.0 (Leaf
  (-0.001239451)) (Leaf (-0.026766678))) (Split 543 1.0 (Leaf (-0.0017298311)) (Leaf 0.044675138)))
  (Split 143 1.0 (Split 452 1.0 (Leaf 0.030023111) (Leaf 0.009402028)) (Leaf (-0.011761514))))
  (Split 452 2.0 (Split 104 1.0 (Split 979 1.0 (Leaf (-0.047322337)) (Leaf (-0.0071352706))) (Split
  300 1.0 (Leaf (-0.00014224155)) (Leaf (-0.014121294)))) (Leaf 0.01017823))) (Split 120 1.0 (Split
  36 1.0 (Split 300 1.0 (Leaf (-0.011658585)) (Leaf 0.0037558905)) (Leaf 0.022176692)) (Leaf
  0.04364064))) (Split 976 1.0 (Split 540 2.0 (Split 435 1.0 (Split 498 1.0 (Split 540 1.0 (Leaf
  0.0554923) (Leaf 0.020808347)) (Leaf 0.004853013)) (Split 300 1.0 (Leaf (-0.013479187)) (Leaf
  0.03529897))) (Leaf (-0.017346842))) (Leaf (-0.0058007645)))) (Split 540 1.0 (Leaf (-0.05597293))
  (Leaf (-0.007912244)))) (Split 300 1.0 (Split 517 1.0 (Split 540 1.0 (Split 77 1.0 (Split 435 1.0
  (Leaf 0.004086589) (Leaf 0.029916584)) (Leaf 0.045680117)) (Leaf 0.05482317)) (Leaf
  (-0.0004060304))) (Split 678 1.0 (Split 36 1.0 (Leaf 0.016392404) (Leaf (-0.009393585))) (Leaf
  (-0.008320681))))) (Leaf (-0.039881367))) (Split 976 1.0 (Split 104 1.0 (Leaf 0.039111774) (Leaf
  0.004961981)) (Leaf (-0.0014844537)))) (Split 435 1.0 (Split 156 1.0 (Split 659 1.0 (Split 540
  1.0 (Leaf 0.039898884) (Leaf 0.0012987026)) (Leaf 0.073888384)) (Leaf (-0.015240179))) (Leaf
  (-0.022031141)))) (Split 156 1.0 (Split 976 1.0 (Split 435 1.0 (Split 678 1.0 (Leaf
  (-0.046666723)) (Leaf (-0.013826375))) (Leaf (-0.010788398))) (Leaf (-0.011562189))) (Leaf
  0.017135901)).

Definition var169_51426 : tree :=
  Split 104 1.0 (Split 255 1.0 (Split 976 1.0 (Split 36 1.0 (Leaf 0.04648093) (Leaf 0.013378533))
  (Leaf 0.005486488)) (Leaf (-0.0062874327))) (Split 435 1.0 (Leaf 0.012252758) (Leaf
  (-0.015998742))).

Definition var169_51391 : tree :=
  Split 822 1.0 (Split 300 1.0 (Split 607 1.0 (Split 284 1.0 (Split 678 1.0 (Leaf 0.061899103)
  (Leaf 0.0036622123)) (Leaf (-0.009975025))) (Leaf (-0.009937814))) (Split 300 2.0 (Split 976 1.0
  (Split 36 1.0 (Leaf (-0.02040857)) (Leaf 0.008719031)) (Leaf 0.014151069)) (Leaf 0.026319558)))
  (Leaf (-0.025962908)).

Definition var169 : tree :=
  Split 838 1.0 (Split 438 1.0 (Split 658 1.0 (Split 822 1.0 (Split 196 1.0 (Split 958 1.0 (Split
  156 2.0 (Split 202 1.0 (Split 812 1.0 (Split 365 1.0 (Split 833 1.0 (Split 682 1.0 (Leaf
  (-0.0064632394)) (Leaf 0.013258018)) (Split 660 1.0 (Leaf 0.009094481) (Leaf 0.04275545))) (Split
  120 1.0 (Split 435 1.0 (Leaf (-0.000651049)) (Leaf 0.005945098)) (Leaf 0.043384295))) (Split 789
  1.0 (Split 178 1.0 (Split 522 1.0 (Leaf 0.018185217) (Leaf (-0.034461763))) (Leaf (-0.03472039)))
  (Split 976 1.0 (Split 495 1.0 (Leaf (-0.0216306)) (Leaf 0.018769247)) (Split 300 1.0 (Leaf
  0.054847717) (Leaf (-0.00068114395)))))) (Split 617 1.0 (Split 540 1.0 (Leaf (-0.000024569881))
  (Leaf 0.04227727)) (Leaf 0.068592556))) (Split 141 1.0 (Split 641 1.0 (Split 670 1.0 (Split 128
  1.0 (Split 812 1.0 (Leaf 0.03984581) (Leaf (-0.002779128))) (Leaf (-0.01301562))) (Leaf
  (-0.014916656))) (Leaf (-0.026661713))) (Split 452 1.0 (Split 678 1.0 (Leaf 0.009872765) (Leaf
  (-0.011222041))) (Leaf (-0.03960582))))) (Split 800 1.0 (Split 435 1.0 (Split 156 1.0 (Leaf
  (-0.0004267435)) (Leaf 0.0073939594)) (Split 300 1.0 (Leaf (-0.012476075)) (Leaf 0.0019657689)))
  (Leaf 0.04452112))) (Split 300 1.0 (Split 435 1.0 (Leaf (-0.054877788)) (Leaf (-0.022813799)))
  (Split 435 1.0 (Leaf 0.019519499) (Leaf (-0.031583484))))) (Split 807 1.0 (Split 560 1.0 (Split
  908 1.0 (Split 117 1.0 (Split 73 1.0 (Split 128 1.0 (Split 407 1.0 (Split 912 1.0 (Leaf
  0.017614344) (Leaf (-0.012808842))) (Leaf 0.054957934)) (Split 985 1.0 (Leaf 0.049493335) (Leaf
  0.014259802))) (Leaf (-0.03087526))) (Leaf (-0.030415012))) (Split 300 2.0 (Split 670 1.0 (Split
  979 1.0 (Split 452 1.0 (Leaf (-0.008212248)) (Leaf 0.0103807)) (Leaf 0.031310853)) (Leaf
  (-0.030972645))) (Leaf (-0.037472866)))) (Leaf (-0.045731656))) (Split 452 1.0 (Leaf
  (-0.045807492)) (Leaf (-0.0058892923))))) var169_51391) var169_51426) (Split 36 1.0 (Split 300
  1.0 (Leaf (-0.033589076)) (Leaf (-0.0011065789))) (Leaf (-0.052660998))).

Definition var170 : tree :=
  Split 724 1.0 (Split 815 1.0 (Split 341 1.0 (Split 331 1.0 (Split 330 1.0 (Split 430 1.0 (Split
  858 1.0 (Split 794 1.0 (Split 1019 1.0 (Split 876 1.0 (Split 55 1.0 (Split 533 1.0 (Leaf
  0.00072916184) (Leaf 0.030711696)) (Split 674 1.0 (Leaf 0.022515815) (Leaf (-0.03486621))))
  (Split 540 1.0 (Leaf (-0.050121892)) (Leaf 0.001546084))) (Split 311 1.0 (Split 445 1.0 (Split
  419 1.0 (Leaf (-0.007573098)) (Leaf (-0.04115838))) (Leaf 0.038385894)) (Leaf (-0.042235333))))
  (Split 300 1.0 (Leaf (-0.05035777)) (Leaf (-0.009878571)))) (Split 540 1.0 (Leaf (-0.05667382))
  (Leaf 0.0065771416))) (Split 288 1.0 (Split 435 1.0 (Leaf (-0.00094731123)) (Leaf
  (-0.017469687))) (Leaf (-0.042282697)))) (Split 662 1.0 (Split 104 1.0 (Split 255 1.0 (Split 822
  1.0 (Split 789 1.0 (Leaf 0.0457945) (Leaf 0.008529585)) (Leaf 0.005680487)) (Leaf
  (-0.0010790009))) (Leaf 0.006495174)) (Leaf 0.00096709235))) (Leaf (-0.042272806))) (Split 104
  1.0 (Split 128 1.0 (Split 659 1.0 (Split 36 1.0 (Split 435 1.0 (Leaf 0.06260199) (Leaf
  0.019178772)) (Leaf 0.0054899803)) (Leaf (-0.0060034646))) (Leaf (-0.0023192873))) (Leaf
  (-0.016848246)))) (Split 452 1.0 (Split 435 1.0 (Leaf (-0.0421346)) (Leaf (-0.016068118))) (Split
  435 1.0 (Leaf 0.01161615) (Leaf (-0.021711392))))) (Leaf (-0.042884197)).

Definition var171_51767 : tree :=
  Split 141 1.0 (Split 616 1.0 (Split 702 1.0 (Split 327 1.0 (Split 392 1.0 (Split 911 1.0 (Split
  105 1.0 (Split 64 1.0 (Split 965 1.0 (Leaf 0.021643259) (Leaf (-0.025535911))) (Leaf
  (-0.027824288))) (Leaf (-0.023735946))) (Leaf (-0.02878335))) (Leaf 0.05295667)) (Leaf
  (-0.020473015))) (Leaf (-0.033171047))) (Leaf (-0.030577242))) (Split 36 1.0 (Split 812 1.0
  (Split 300 1.0 (Leaf (-0.019071348)) (Leaf 0.0028764906)) (Leaf 0.009747325)) (Leaf
  (-0.03780302))).

Definition var171 : tree :=
  Split 481 2.0 (Split 737 1.0 (Split 267 1.0 (Split 862 1.0 (Split 19 1.0 (Split 99 1.0 (Split 396
  1.0 (Split 285 1.0 (Split 533 1.0 (Split 615 1.0 (Split 150 1.0 (Split 986 1.0 (Leaf
  (-0.0029260295)) (Leaf 0.02307987)) (Split 104 1.0 (Leaf 0.043732222) (Leaf 0.009206275))) (Split
  812 1.0 (Split 300 1.0 (Leaf (-0.053356808)) (Leaf (-0.01751563))) (Leaf 0.0011714598))) (Split
  670 1.0 (Split 540 1.0 (Split 789 1.0 (Leaf 0.057419624) (Leaf 0.0076729856)) (Split 36 1.0 (Leaf
  (-0.0028497768)) (Leaf 0.012499865))) (Leaf (-0.024961852)))) (Split 300 1.0 (Split 435 1.0 (Leaf
  0.0049898163) (Leaf 0.04098774)) (Leaf 0.049328633))) (Split 517 1.0 (Split 43 1.0 (Split 789 1.0
  (Split 0 1.0 (Split 653 1.0 (Leaf 0.038836505) (Leaf (-0.009716173))) (Leaf (-0.011893973)))
  (Split 300 1.0 (Leaf (-0.012396119)) (Leaf 0.009920316))) (Leaf (-0.029955778))) (Split 36 1.0
  (Leaf (-0.0066480855)) (Leaf (-0.03966615))))) (Split 300 1.0 (Split 345 1.0 (Split 655 1.0
  (Split 1005 1.0 (Split 641 1.0 (Split 912 1.0 (Leaf 0.034572225) (Leaf (-0.0017754441))) (Split
  540 1.0 (Leaf (-0.016016742)) (Leaf 0.0066938004))) (Leaf (-0.014268892))) (Leaf (-0.015699452)))
  (Leaf (-0.028684882))) (Split 16 1.0 (Split 284 1.0 (Split 300 2.0 (Split 789 1.0 (Leaf
  0.029722884) (Leaf (-0.007658711))) (Leaf (-0.014634422))) (Leaf (-0.029643387))) (Leaf
  (-0.041261777))))) (Split 435 1.0 (Split 300 1.0 (Leaf (-0.05687521)) (Leaf (-0.0042975354)))
  (Split 540 1.0 (Leaf (-0.012369533)) (Leaf 0.0139558315)))) (Split 141 1.0 (Split 979 1.0 (Leaf
  (-0.04334941)) (Leaf (-0.010682392))) (Leaf (-0.0067828665)))) var171_51767) (Split 540 1.0 (Leaf
  (-0.04491146)) (Leaf (-0.014384243)))) (Split 16 1.0 (Leaf 0.054405984) (Leaf 0.0039231754)).

Definition var172 : tree :=
  Split 513 1.0 (Split 286 1.0 (Split 818 1.0 (Split 378 1.0 (Split 146 1.0 (Split 738 1.0 (Split
  76 1.0 (Split 328 1.0 (Split 484 1.0 (Split 462 1.0 (Split 206 1.0 (Split 870 1.0 (Leaf
  (-0.00027745691)) (Leaf 0.021813056)) (Split 16 1.0 (Leaf (-0.034069773)) (Leaf 0.010290298)))
  (Leaf 0.049279105)) (Split 36 1.0 (Leaf 0.068168215) (Leaf 0.012792781))) (Split 659 1.0 (Leaf
  (-0.041772828)) (Leaf 0.0057911132))) (Split 16 1.0 (Split 670 1.0 (Leaf 0.045019407) (Leaf
  0.005175342)) (Leaf (-0.0072358283)))) (Split 678 1.0 (Leaf (-0.04435866)) (Leaf
  (-0.010949912)))) (Split 300 1.0 (Leaf (-0.041165408)) (Leaf (-0.00031552988)))) (Split 435 1.0
  (Leaf (-0.051689755)) (Leaf (-0.015462774)))) (Split 965 1.0 (Leaf (-0.04766323)) (Leaf
  (-0.012462914)))) (Split 16 1.0 (Split 682 1.0 (Split 104 1.0 (Split 300 1.0 (Split 678 1.0 (Leaf
  0.038348544) (Leaf (-0.004336042))) (Split 540 1.0 (Leaf 0.015643695) (Leaf (-0.0013080126))))
  (Leaf 0.00077019044)) (Leaf (-0.012748499))) (Leaf 0.045193087))) (Split 979 1.0 (Split 540 1.0
  (Split 36 1.0 (Split 435 1.0 (Leaf 0.028322643) (Leaf 0.009140417)) (Leaf 0.0063926512)) (Leaf
  (-0.000961539))) (Leaf 0.040149596)).

Definition var173_52177 : tree :=
  Split 8 1.0 (Split 14 1.0 (Split 995 1.0 (Split 659 1.0 (Split 23 1.0 (Split 45 1.0 (Split 964
  1.0 (Split 452 1.0 (Split 435 1.0 (Split 300 1.0 (Split 976 1.0 (Leaf 0.01223498) (Leaf
  (-0.027571712))) (Leaf (-0.0227506))) (Split 36 1.0 (Split 532 1.0 (Leaf (-0.02371626)) (Leaf
  (-0.05278909))) (Split 300 1.0 (Leaf (-0.002544278)) (Leaf (-0.009972254))))) (Split 435 1.0
  (Leaf 0.004492543) (Leaf 0.025490014))) (Leaf 0.017723545)) (Leaf 0.024065854)) (Leaf
  0.03506035)) (Split 36 1.0 (Leaf 0.039820064) (Leaf (-0.0022322624)))) (Leaf 0.03375324)) (Split
  156 1.0 (Leaf 0.04311066) (Leaf 0.004025766))) (Split 36 1.0 (Leaf 0.05118608) (Leaf
  (-0.0071659684))).

Definition var173 : tree :=
  Split 780 1.0 (Split 157 1.0 (Split 301 1.0 (Split 648 1.0 (Split 870 1.0 (Split 912 1.0 (Split
  911 1.0 (Split 224 1.0 (Split 687 1.0 (Split 673 1.0 (Split 776 1.0 (Split 522 1.0 (Leaf
  0.0017589336) (Leaf (-0.023606589))) (Split 655 1.0 (Leaf (-0.023598323)) (Leaf 0.06289863)))
  (Split 670 1.0 (Split 36 1.0 (Leaf 0.05645725) (Leaf 0.008627351)) (Leaf (-0.017492505)))) (Split
  396 1.0 (Split 822 1.0 (Split 113 1.0 (Leaf (-0.027222682)) (Leaf (-0.068650104))) (Leaf
  (-0.00064438774))) (Leaf 0.017028809))) (Split 452 1.0 (Split 659 1.0 (Leaf 0.035392746) (Leaf
  (-0.039947156))) (Leaf 0.083381645))) (Split 435 1.0 (Split 789 1.0 (Split 812 1.0 (Split 300 1.0
  (Leaf (-0.038348705)) (Leaf (-0.014336501))) (Leaf 0.0005348331)) (Leaf (-0.06397158))) (Leaf
  0.006029807))) (Split 16 1.0 (Split 267 1.0 (Split 623 1.0 (Split 799 1.0 (Split 55 1.0 (Split
  125 1.0 (Leaf (-0.02727445)) (Leaf 0.02422486)) (Split 300 1.0 (Leaf 0.03280532) (Leaf
  0.002210716))) (Leaf 0.019536039)) (Leaf 0.03467166)) (Split 435 1.0 (Split 540 1.0 (Split 300
  1.0 (Leaf (-0.0021741146)) (Leaf (-0.017946225))) (Leaf 0.018497955)) (Leaf 0.043622073))) (Split
  812 1.0 (Split 979 1.0 (Split 128 1.0 (Split 908 1.0 (Leaf (-0.030087683)) (Leaf 0.0138024585))
  (Leaf 0.022600431)) (Leaf 0.035786364)) (Leaf 0.042642284)))) (Split 912 1.0 (Split 789 1.0
  (Split 937 1.0 (Split 86 1.0 (Split 976 1.0 (Split 36 1.0 (Split 617 1.0 (Leaf 0.021093568) (Leaf
  (-0.011554588))) (Split 517 1.0 (Leaf 0.055064857) (Leaf 0.009416389))) (Leaf (-0.016341079)))
  (Leaf (-0.012057231))) (Leaf 0.057934195)) (Split 517 1.0 (Split 300 1.0 (Leaf (-0.017089603))
  (Leaf (-0.0047090086))) (Leaf (-0.0019773752)))) (Leaf 0.05865094))) (Split 789 1.0 (Split 641
  1.0 (Leaf (-0.048003938)) (Leaf (-0.0050811917))) (Leaf 0.007856245))) (Split 498 1.0 (Split 300
  1.0 (Leaf (-0.04935804)) (Leaf (-0.015261428))) (Leaf (-0.003468748)))) (Split 45 1.0 (Split 47
  1.0 (Split 36 1.0 (Leaf 0.036719054) (Leaf 0.012064986)) (Leaf (-0.0010169125))) (Leaf
  (-0.0059986)))) var173_52177.

Definition var174_52423 : tree :=
  Split 503 1.0 (Split 104 1.0 (Split 682 1.0 (Split 20 1.0 (Split 128 1.0 (Split 435 1.0 (Split
  498 1.0 (Split 533 1.0 (Leaf 0.05703003) (Leaf 0.004597101)) (Leaf (-0.00025668435))) (Split 678
  1.0 (Split 300 1.0 (Split 540 1.0 (Leaf 0.0026310608) (Leaf 0.012481695)) (Leaf 0.033439588))
  (Leaf (-0.007889315)))) (Split 452 1.0 (Leaf (-0.0129802665)) (Leaf 0.023778094))) (Leaf
  (-0.004422366))) (Leaf (-0.011787313))) (Split 435 1.0 (Split 641 1.0 (Leaf 0.0241767) (Leaf
  (-0.0046688165))) (Leaf (-0.017476449)))) (Leaf (-0.021453677)).

Definition var174 : tree :=
  Split 819 1.0 (Split 955 1.0 (Split 575 1.0 (Split 43 1.0 (Split 780 1.0 (Split 648 1.0 (Split
  130 1.0 (Split 872 1.0 (Split 678 1.0 (Split 640 1.0 (Split 407 1.0 (Split 874 1.0 (Leaf
  (-0.00040501548)) (Leaf (-0.034599226))) (Split 128 1.0 (Leaf 0.033712536) (Leaf
  (-0.009212915)))) (Split 138 1.0 (Split 670 1.0 (Leaf 0.05415482) (Leaf 0.004428416)) (Leaf
  (-0.028803525)))) (Split 419 1.0 (Split 86 2.0 (Split 1014 1.0 (Leaf (-0.012547339)) (Leaf
  (-0.058582373))) (Leaf 0.05055998)) (Leaf 0.03546543))) (Split 77 1.0 (Split 607 1.0 (Split 540
  1.0 (Leaf (-0.018451063)) (Leaf 0.012900243)) (Leaf 0.016273646)) (Leaf 0.04494138))) (Split 357
  1.0 (Leaf 0.025649521) (Leaf 0.058060575))) (Split 300 1.0 (Leaf (-0.043196943)) (Leaf
  (-0.005708858)))) (Split 435 2.0 (Split 670 1.0 (Split 426 1.0 (Split 49 1.0 (Split 630 1.0
  (Split 178 1.0 (Split 335 1.0 (Leaf 0.031872865) (Leaf (-0.005671529))) (Leaf (-0.013229971)))
  (Leaf (-0.015258773))) (Leaf (-0.018567448))) (Leaf (-0.013066443))) (Split 995 1.0 (Split 540
  1.0 (Split 435 1.0 (Leaf 0.00829754) (Leaf (-0.037434213))) (Split 300 1.0 (Leaf 0.017868439)
  (Leaf (-0.015740959)))) (Leaf 0.028861245))) (Leaf (-0.022538988)))) (Split 452 2.0 (Split 822
  1.0 (Split 979 1.0 (Leaf (-0.048612624)) (Leaf (-0.013293582))) (Leaf 0.0062738745)) (Leaf
  0.009033664))) (Split 979 1.0 (Split 494 1.0 (Split 950 1.0 (Split 435 1.0 (Split 452 2.0 (Leaf
  0.051785666) (Leaf 0.0068011517)) (Split 300 1.0 (Leaf (-0.0057999594)) (Leaf 0.031829234)))
  (Leaf (-0.0023365153))) (Leaf (-0.0068142586))) (Leaf (-0.02141979)))) (Leaf (-0.04600325)))
  var174_52423.

Definition var175_52634 : tree :=
  Split 156 1.0 (Split 812 1.0 (Split 670 1.0 (Split 452 1.0 (Split 659 1.0 (Leaf 0.042703137)
  (Leaf 0.011691856)) (Split 300 1.0 (Leaf 0.0015288845) (Leaf 0.012597336))) (Leaf 0.007983998))
  (Leaf 0.0012846091)) (Leaf 0.00090193).

Definition var175 : tree :=
  Split 149 1.0 (Split 286 1.0 (Split 900 1.0 (Split 733 1.0 (Split 378 1.0 (Split 980 1.0 (Split
  389 1.0 (Split 751 1.0 (Split 971 1.0 (Split 341 1.0 (Split 862 1.0 (Split 99 1.0 (Leaf
  (-0.0001533017)) (Leaf 0.016014928)) (Split 540 1.0 (Leaf (-0.04408468)) (Leaf (-0.015776578))))
  (Split 104 1.0 (Split 435 1.0 (Leaf 0.043767992) (Leaf 0.0049881465)) (Leaf (-0.010992535))))
  (Split 979 1.0 (Split 985 1.0 (Split 104 1.0 (Leaf (-0.04409005)) (Leaf (-0.0014846115))) (Leaf
  (-0.0014569819))) (Leaf 0.020060165))) (Split 77 1.0 (Split 537 1.0 (Split 976 1.0 (Split 678 1.0
  (Leaf 0.048065998) (Leaf 0.008627573)) (Leaf (-0.00648688))) (Leaf (-0.020480812))) (Leaf
  (-0.017333668)))) (Split 435 1.0 (Leaf (-0.042504627)) (Leaf (-0.009617417)))) (Split 789 1.0
  (Split 655 1.0 (Split 617 1.0 (Split 879 1.0 (Split 976 1.0 (Split 540 1.0 (Leaf (-0.046533596))
  (Leaf (-0.016200032))) (Leaf (-0.006047476))) (Leaf 0.010538161)) (Leaf 0.009405065)) (Leaf
  0.02204448)) (Split 36 1.0 (Leaf 0.01915746) (Leaf 0.0029703125)))) (Leaf (-0.047016084))) (Split
  104 1.0 (Split 99 1.0 (Split 435 1.0 (Split 300 2.0 (Split 950 1.0 (Split 812 1.0 (Split 670 1.0
  (Split 540 1.0 (Leaf 0.014517667) (Leaf (-0.008975753))) (Leaf (-0.032239616))) (Leaf
  0.028543282)) (Leaf 0.038735628)) (Leaf 0.047296952)) (Leaf 0.042220782)) (Leaf (-0.0042741406)))
  (Split 300 1.0 (Leaf (-0.016044665)) (Leaf 0.000033980836)))) (Leaf (-0.041678946)))
  var175_52634) (Split 912 1.0 (Split 16 1.0 (Split 156 1.0 (Leaf (-0.05075691)) (Leaf
  (-0.006339937))) (Leaf (-0.00336404))) (Leaf 0.011268509)).

Definition var176_52843 : tree :=
  Split 607 1.0 (Split 540 1.0 (Split 678 1.0 (Leaf 0.04664159) (Leaf 0.005653366)) (Split 452 1.0
  (Leaf (-0.006955176)) (Leaf 0.024734734))) (Split 540 1.0 (Leaf (-0.012656723)) (Leaf
  0.016393792)).

Definition var176_52866 : tree :=
  Split 296 1.0 (Split 738 1.0 (Split 94 1.0 (Split 357 1.0 (Split 284 1.0 (Split 937 1.0 (Leaf
  0.03893935) (Leaf (-0.003210378))) (Split 540 1.0 (Leaf (-0.004878717)) (Leaf (-0.016722705))))
  (Leaf (-0.01937044))) (Leaf (-0.026157964))) (Leaf (-0.03586973))) (Split 435 1.0 (Leaf
  (-0.041052606)) (Leaf (-0.007861645))).

Definition var176 : tree :=
  Split 481 2.0 (Split 89 1.0 (Split 573 1.0 (Split 709 1.0 (Split 979 1.0 (Split 8 1.0 (Split 345
  1.0 (Split 65 1.0 (Split 971 1.0 (Split 498 1.0 (Split 605 1.0 (Split 626 1.0 (Leaf
  0.00015541413) (Leaf (-0.049504597))) (Split 670 1.0 (Leaf (-0.05986578)) (Leaf (-0.010972595))))
  (Split 640 1.0 (Split 548 1.0 (Leaf (-0.023150994)) (Leaf 0.028159041)) (Leaf 0.054233458)))
  (Split 679 1.0 (Split 789 1.0 (Split 104 1.0 (Leaf (-0.045786764)) (Leaf (-0.01241183))) (Leaf
  (-0.0046969685))) (Leaf (-0.0033450306)))) (Split 77 1.0 (Split 498 1.0 (Split 518 1.0 (Split 517
  1.0 (Leaf (-0.033876125)) (Leaf 0.009499932)) (Leaf 0.0038622722)) (Split 36 1.0 (Leaf
  0.005103543) (Leaf 0.022312164))) (Split 435 1.0 (Leaf 0.028870245) (Leaf (-0.000036613343)))))
  (Split 178 1.0 (Split 641 1.0 (Split 679 1.0 (Split 169 1.0 (Leaf 0.05353238) (Leaf
  0.0035102589)) (Leaf 0.0053588348)) (Leaf (-0.0037860349))) (Leaf (-0.032498147)))) (Split 300
  1.0 (Split 498 1.0 (Split 36 1.0 (Split 128 1.0 (Split 617 1.0 (Split 678 1.0 (Leaf 0.051087257)
  (Leaf 0.011170605)) (Leaf 0.0067372373)) (Leaf 0.006627054)) (Split 678 1.0 (Leaf (-0.015851874))
  (Leaf 0.028656641))) (Leaf (-0.005120503))) (Split 300 2.0 (Split 128 1.0 (Leaf 0.010855853)
  (Leaf (-0.01072794))) (Leaf (-0.018711612))))) (Split 300 1.0 (Split 659 1.0 (Split 345 1.0
  (Split 77 1.0 (Split 449 1.0 (Split 631 1.0 (Split 113 1.0 (Leaf 0.0070004645) (Leaf
  (-0.036103465))) (Leaf (-0.054914035))) (Leaf (-0.050574053))) (Split 678 1.0 (Split 812 1.0
  (Leaf (-0.049714517)) (Leaf (-0.007833101))) (Leaf (-0.0025107588)))) (Leaf (-0.048167784)))
  var176_52843) var176_52866)) (Split 77 1.0 (Split 104 1.0 (Split 435 1.0 (Leaf 0.045248248) (Leaf
  0.019805452)) (Leaf 0.007920376)) (Leaf 0.0006462818))) (Split 435 1.0 (Split 156 1.0 (Split 659
  1.0 (Split 540 1.0 (Leaf 0.038094617) (Leaf 0.0015988011)) (Leaf 0.07045598)) (Leaf
  (-0.015007274))) (Leaf (-0.021187566)))) (Split 156 1.0 (Split 976 1.0 (Split 435 1.0 (Split 678
  1.0 (Leaf (-0.04759515)) (Leaf (-0.0127894925))) (Leaf (-0.009966481))) (Leaf (-0.010888944)))
  (Leaf 0.016521277))) (Split 16 1.0 (Leaf 0.053392906) (Leaf 0.0036859983)).

Definition var177_53111 : tree :=
  Split 678 1.0 (Split 912 1.0 (Split 55 1.0 (Split 14 1.0 (Split 964 1.0 (Leaf 0.049351472) (Leaf
  0.012064885)) (Leaf 0.009942764)) (Leaf (-0.010976058))) (Leaf (-0.008301418))) (Split 979 1.0
  (Split 300 1.0 (Split 452 1.0 (Leaf (-0.0064743333)) (Leaf 0.0021520748)) (Leaf 0.012208812))
  (Leaf 0.020086875)).

Definition var177 : tree :=
  Split 944 1.0 (Split 877 1.0 (Split 45 1.0 (Split 389 1.0 (Split 964 1.0 (Split 605 1.0 (Split
  124 1.0 (Split 157 1.0 (Split 676 1.0 (Split 615 1.0 (Split 457 1.0 (Split 16 1.0 (Leaf
  (-0.000826386)) (Leaf 0.011401887)) (Split 799 1.0 (Leaf (-0.035767492)) (Leaf 0.021244463)))
  (Split 36 1.0 (Leaf (-0.04692351)) (Leaf (-0.002818228)))) (Split 540 1.0 (Leaf 0.057794746)
  (Leaf 0.01668702))) (Split 435 1.0 (Split 678 1.0 (Leaf 0.039067272) (Leaf 0.010872765)) (Split
  300 1.0 (Leaf (-0.0205924)) (Leaf 0.023815988)))) (Split 435 1.0 (Split 16 1.0 (Split 36 1.0
  (Split 641 1.0 (Leaf (-0.060421567)) (Leaf (-0.0050627934))) (Leaf 0.004054654)) (Leaf
  0.008539066)) (Split 452 1.0 (Leaf (-0.008675618)) (Leaf 0.02870143)))) (Split 670 1.0 (Split 789
  1.0 (Leaf (-0.055919)) (Leaf (-0.01079112))) (Leaf 0.0027218678))) (Split 571 1.0 (Split 16 1.0
  (Split 141 1.0 (Split 77 1.0 (Split 989 1.0 (Split 322 1.0 (Split 64 1.0 (Leaf 0.020294754) (Leaf
  (-0.020347971))) (Leaf (-0.027371088))) (Leaf (-0.031925414))) (Split 607 1.0 (Leaf 0.07031661)
  (Leaf (-0.00236402)))) (Split 36 1.0 (Leaf (-0.006567073)) (Leaf (-0.03433944)))) (Split 678 1.0
  (Split 156 1.0 (Split 452 1.0 (Leaf (-0.0059305145)) (Leaf 0.0199813)) (Leaf (-0.02256432)))
  (Leaf (-0.035660803)))) (Leaf 0.06567942))) (Split 789 1.0 (Leaf (-0.044834334)) (Leaf
  0.0041289427))) (Split 976 1.0 (Split 0 1.0 (Split 529 1.0 (Split 178 1.0 var177_53111 (Leaf
  (-0.01617389))) (Leaf (-0.020267222))) (Leaf (-0.022804646))) (Split 452 1.0 (Leaf
  (-0.037522763)) (Leaf 0.01267231)))) (Split 36 1.0 (Split 77 1.0 (Leaf (-0.056058723)) (Leaf
  (-0.0013796899))) (Leaf 0.0030338438))) (Split 641 1.0 (Split 995 1.0 (Leaf (-0.03520667)) (Leaf
  0.00306818)) (Leaf 0.01296276)).

Definition var178 : tree :=
  Split 724 1.0 (Split 815 1.0 (Split 331 1.0 (Split 330 1.0 (Split 385 1.0 (Split 430 1.0 (Split 2
  1.0 (Split 751 1.0 (Split 215 1.0 (Split 733 1.0 (Split 738 1.0 (Split 877 1.0 (Leaf
  0.0011088351) (Leaf (-0.036267553))) (Split 678 1.0 (Leaf (-0.047046643)) (Leaf (-0.010162936))))
  (Split 300 1.0 (Split 679 1.0 (Leaf 0.017075071) (Leaf (-0.017690105))) (Split 678 1.0 (Leaf
  0.042842325) (Leaf 0.005555178)))) (Split 452 1.0 (Leaf (-0.040157907)) (Leaf (-0.012785914))))
  (Split 537 1.0 (Split 255 1.0 (Split 540 2.0 (Split 36 1.0 (Leaf 0.04370963) (Leaf
  (-0.00034809488))) (Leaf (-0.011664592))) (Leaf (-0.015789451))) (Leaf (-0.023895256)))) (Leaf
  (-0.042792834))) (Split 288 1.0 (Split 979 1.0 (Leaf (-0.010699428)) (Leaf 0.00056015514)) (Leaf
  (-0.04197709)))) (Split 1001 1.0 (Split 540 1.0 (Split 435 1.0 (Split 36 1.0 (Leaf
  (-0.009541065)) (Leaf (-0.024725625))) (Leaf 0.005899486)) (Leaf (-0.048114546))) (Leaf
  0.007816861))) (Split 662 1.0 (Split 435 1.0 (Split 789 1.0 (Split 822 1.0 (Leaf 0.04177208)
  (Leaf 0.008965823)) (Leaf 0.012587032)) (Split 540 2.0 (Leaf 0.020843163) (Leaf (-0.010099403))))
  (Leaf 0.00081224646))) (Leaf (-0.041196253))) (Split 452 1.0 (Split 435 1.0 (Leaf (-0.04110375))
  (Leaf (-0.015435322))) (Split 540 1.0 (Leaf (-0.021110946)) (Leaf 0.01160888)))) (Leaf
  (-0.041716598)).

Definition var179 : tree :=
  Split 986 1.0 (Split 344 1.0 (Split 848 1.0 (Split 858 1.0 (Split 328 1.0 (Split 484 1.0 (Split
  1002 1.0 (Split 67 1.0 (Split 833 1.0 (Split 386 1.0 (Split 678 1.0 (Split 376 1.0 (Leaf
  (-0.00028581158)) (Leaf 0.035622098)) (Split 55 1.0 (Leaf (-0.011590964)) (Leaf 0.02846909)))
  (Split 872 1.0 (Split 156 1.0 (Leaf 0.013212906) (Leaf (-0.01771623))) (Leaf 0.043369718)))
  (Split 641 1.0 (Split 660 1.0 (Split 435 1.0 (Leaf 0.019307813) (Leaf 0.0014522627)) (Leaf
  0.042483974)) (Leaf (-0.023777401)))) (Split 452 1.0 (Split 36 1.0 (Leaf 0.052560955) (Leaf
  0.0053618634)) (Leaf 0.0049289856))) (Split 62 1.0 (Split 156 1.0 (Split 912 1.0 (Split 16 1.0
  (Split 996 1.0 (Leaf 0.016796311) (Leaf 0.043706454)) (Leaf (-0.0002859134))) (Leaf
  (-0.0056947274))) (Leaf 0.042539712)) (Leaf (-0.006141246)))) (Split 36 1.0 (Leaf 0.07129219)
  (Leaf 0.011691528))) (Split 659 1.0 (Leaf (-0.035793412)) (Leaf (-0.004180962)))) (Split 540 1.0
  (Leaf (-0.058698703)) (Leaf 0.0068578385))) (Split 435 1.0 (Leaf (-0.048894595)) (Leaf
  0.0076406808))) (Split 156 1.0 (Leaf (-0.038922083)) (Leaf (-0.0093196435)))) (Split 912 1.0
  (Split 670 1.0 (Split 435 1.0 (Split 517 1.0 (Split 540 1.0 (Leaf 0.038859855) (Leaf
  0.014851396)) (Leaf 0.00175293)) (Split 540 1.0 (Leaf 0.00062366214) (Leaf 0.015505142))) (Split
  104 1.0 (Leaf 0.000751201) (Leaf (-0.006973825)))) (Leaf (-0.0069275596))).

Definition var180 : tree :=
  Split 570 1.0 (Split 838 1.0 (Split 438 1.0 (Split 479 1.0 (Split 353 1.0 (Split 285 1.0 (Split
  658 1.0 (Split 615 1.0 (Split 502 1.0 (Split 321 1.0 (Split 150 1.0 (Split 99 1.0 (Leaf
  (-0.0001814732)) (Leaf 0.015226695)) (Leaf 0.0428802)) (Split 498 1.0 (Leaf (-0.043069705)) (Leaf
  (-0.009629729)))) (Leaf (-0.036197525))) (Split 36 1.0 (Leaf (-0.041280482)) (Leaf
  (-0.0039278157)))) (Split 822 1.0 (Split 452 2.0 (Split 300 1.0 (Split 284 1.0 (Split 452 1.0
  (Leaf 0.06183206) (Leaf 0.021398008)) (Leaf (-0.0062374747))) (Split 678 1.0 (Split 540 1.0 (Leaf
  0.012882942) (Leaf (-0.023846459))) (Leaf 0.035089865))) (Split 540 1.0 (Leaf (-0.019259049))
  (Leaf (-0.00077427714)))) (Leaf (-0.025369037)))) (Split 16 1.0 (Split 300 1.0 (Split 540 1.0
  (Leaf 0.028072266) (Leaf (-0.0043006227))) (Leaf 0.054774802)) (Leaf 0.0017884875))) (Leaf
  (-0.03683673))) (Split 979 1.0 (Split 156 1.0 (Split 937 1.0 (Split 617 1.0 (Split 812 1.0 (Leaf
  (-0.036770917)) (Leaf (-0.011309461))) (Leaf (-0.010541303))) (Leaf 0.0013851091)) (Split 435 1.0
  (Leaf (-0.009021254)) (Leaf 0.0054588225))) (Leaf 0.011258654))) (Split 104 1.0 (Split 255 1.0
  (Split 976 1.0 (Split 36 1.0 (Leaf 0.045748897) (Leaf 0.013357632)) (Leaf 0.0062505766)) (Leaf
  (-0.006295157))) (Split 435 1.0 (Leaf 0.01189094) (Leaf (-0.015705116))))) (Split 36 1.0 (Split
  300 1.0 (Leaf (-0.031346772)) (Leaf (-0.0011031392))) (Leaf (-0.05099078)))) (Split 156 1.0
  (Split 435 1.0 (Leaf (-0.042549763)) (Leaf (-0.008673289))) (Leaf (-0.007909051))).

Definition var181_53787 : tree :=
  Split 104 1.0 (Split 300 1.0 (Split 452 1.0 (Split 979 1.0 (Split 670 1.0 (Leaf 0.009761547)
  (Leaf (-0.015259762))) (Leaf 0.030332675)) (Leaf (-0.015049106))) (Split 540 1.0 (Leaf
  0.017450271) (Leaf 0.05188313))) (Split 452 1.0 (Leaf (-0.019293325)) (Leaf (-0.00394416))).

Definition var181 : tree :=
  Split 53 1.0 (Split 58 1.0 (Split 833 1.0 (Split 407 1.0 (Split 241 1.0 (Split 709 1.0 (Split 474
  1.0 (Split 149 1.0 (Split 286 1.0 (Split 980 1.0 (Split 575 1.0 (Split 64 1.0 (Leaf
  (-0.0011041682)) (Leaf (-0.024921382))) (Split 789 1.0 (Leaf 0.016344361) (Leaf 0.04810036)))
  (Split 141 1.0 (Split 655 1.0 (Leaf (-0.031619214)) (Leaf 0.014429887)) (Leaf 0.028991258)))
  (Split 812 1.0 (Split 678 1.0 (Split 14 1.0 (Leaf 0.034556832) (Leaf 0.0067780525)) (Leaf
  0.008471302)) (Leaf 0.0039126673))) (Split 77 1.0 (Leaf (-0.044464596)) (Leaf 0.01032593)))
  (Split 540 1.0 (Split 435 1.0 (Split 607 1.0 (Split 678 1.0 (Split 300 1.0 (Leaf (-0.018071719))
  (Leaf 0.002115525)) (Leaf (-0.027499635))) (Leaf 0.037466872)) (Leaf 0.0475534)) (Leaf
  0.058535334))) (Split 435 1.0 (Split 104 1.0 (Leaf 0.04284806) (Leaf 0.0019336743)) (Leaf
  0.009810085))) (Leaf (-0.05063727))) (Split 908 1.0 (Split 300 1.0 (Split 517 1.0 (Split 976 1.0
  (Split 678 1.0 (Leaf 0.050429333) (Leaf 0.009154956)) (Leaf 0.010248596)) (Leaf 0.00051594514))
  (Split 678 1.0 (Split 36 1.0 (Leaf 0.013303364) (Leaf (-0.0021798967))) (Leaf (-0.0042455564))))
  (Leaf (-0.02880515)))) (Split 660 1.0 (Split 641 1.0 (Split 36 1.0 (Leaf 0.019352129) (Leaf
  (-0.011972654))) (Leaf (-0.016576795))) (Leaf 0.04220196))) (Leaf (-0.042009823))) (Split 77 1.0
  (Split 45 1.0 (Split 397 1.0 (Split 128 1.0 (Split 617 1.0 (Split 659 1.0 var181_53787 (Leaf
  0.03659873)) (Leaf (-0.02525346))) (Leaf 0.037808686)) (Leaf (-0.020397663))) (Leaf 0.042594012))
  (Leaf (-0.025480388))).

Definition var182 : tree :=
  Split 593 1.0 (Split 76 1.0 (Split 117 1.0 (Split 254 1.0 (Split 149 1.0 (Split 825 1.0 (Split
  206 1.0 (Split 870 1.0 (Split 849 1.0 (Split 1019 1.0 (Split 833 1.0 (Split 224 1.0 (Leaf
  0.0013002813) (Leaf 0.036099043)) (Split 435 1.0 (Leaf 0.031291794) (Leaf (-0.006094474))))
  (Split 311 1.0 (Split 529 1.0 (Leaf (-0.0061020185)) (Leaf (-0.038163483))) (Leaf
  (-0.04169538)))) (Leaf (-0.04954065))) (Split 812 1.0 (Split 976 1.0 (Split 518 1.0 (Split 670
  1.0 (Leaf 0.017231964) (Leaf 0.05644946)) (Leaf (-0.019788712))) (Leaf (-0.01698544))) (Leaf
  0.057675064))) (Split 392 1.0 (Split 452 1.0 (Leaf (-0.041007433)) (Split 36 1.0 (Leaf
  (-0.0236041)) (Leaf 0.013625923))) (Leaf 0.019985756))) (Split 789 1.0 (Split 670 1.0 (Split 812
  1.0 (Split 976 1.0 (Leaf (-0.051473744)) (Leaf (-0.01453238))) (Leaf (-0.0067725773))) (Leaf
  (-0.008544739))) (Leaf 0.007960626))) (Split 912 1.0 (Split 156 1.0 (Split 16 1.0 (Leaf
  (-0.050225705)) (Leaf (-0.010211247))) (Leaf (-0.0047143525))) (Leaf 0.011503461))) (Leaf
  (-0.0451135))) (Split 396 1.0 (Split 23 1.0 (Split 435 1.0 (Split 789 1.0 (Split 517 1.0 (Split
  976 1.0 (Split 99 1.0 (Split 659 1.0 (Leaf (-0.05843277)) (Leaf (-0.007206203))) (Leaf
  (-0.011485284))) (Leaf (-0.0066679614))) (Leaf (-0.0011161289))) (Leaf 0.0072297365)) (Split 678
  1.0 (Split 36 1.0 (Split 300 1.0 (Split 540 1.0 (Leaf (-0.020872286)) (Leaf (-0.002629458)))
  (Leaf 0.013496178)) (Leaf 0.029955281)) (Leaf (-0.033205852)))) (Leaf 0.017139887)) (Leaf
  0.025538355))) (Split 16 1.0 (Split 670 1.0 (Leaf 0.04133012) (Leaf 0.010579044)) (Leaf
  (-0.003689911)))) (Split 435 1.0 (Leaf (-0.053349555)) (Leaf (-0.00057046855))).

Definition var183 : tree :=
  Split 621 1.0 (Split 452 1.0 (Split 876 1.0 (Split 658 1.0 (Split 150 1.0 (Split 378 1.0 (Split
  462 1.0 (Split 958 1.0 (Split 341 1.0 (Split 52 1.0 (Split 202 1.0 (Split 1017 1.0 (Leaf
  (-0.0023791806)) (Leaf (-0.039263677))) (Split 617 1.0 (Leaf 0.019896211) (Leaf 0.06596809)))
  (Leaf (-0.043555994))) (Split 128 1.0 (Split 77 1.0 (Split 540 1.0 (Leaf 0.050489396) (Leaf
  0.003867449)) (Leaf (-0.010939272))) (Split 980 1.0 (Leaf 0.01023272) (Leaf (-0.021236626)))))
  (Split 800 1.0 (Split 435 1.0 (Leaf 0.0061000623) (Leaf (-0.011671375))) (Leaf 0.044283915)))
  (Leaf 0.057855763)) (Split 435 1.0 (Leaf (-0.0627063)) (Leaf (-0.016619395)))) (Leaf
  0.044330515)) (Split 679 1.0 (Split 300 1.0 (Split 77 1.0 (Split 104 1.0 (Split 255 1.0 (Leaf
  0.076404855) (Leaf 0.016403839)) (Leaf 0.01622093)) (Leaf 0.013055146)) (Split 104 1.0 (Leaf
  (-0.0017091138)) (Leaf (-0.009897714)))) (Leaf (-0.021341039)))) (Leaf (-0.0453855))) (Split 224
  1.0 (Split 1001 1.0 (Split 872 1.0 (Split 998 1.0 (Split 976 2.0 (Split 679 1.0 (Split 979 1.0
  (Split 981 1.0 (Split 780 1.0 (Split 575 1.0 (Leaf (-0.010983959)) (Leaf 0.033364918)) (Split 36
  1.0 (Leaf 0.032773454) (Leaf (-0.0006882229)))) (Leaf 0.0525952)) (Split 5 1.0 (Split 721 1.0
  (Split 996 1.0 (Leaf 0.026242292) (Leaf (-0.019812746))) (Split 540 1.0 (Leaf (-0.030247424))
  (Leaf (-0.0063160355)))) (Leaf (-0.0373141)))) (Split 517 1.0 (Split 113 1.0 (Split 800 1.0
  (Split 178 1.0 (Leaf 0.036664248) (Leaf (-0.01749298))) (Leaf (-0.013075011))) (Leaf
  (-0.026051005))) (Leaf (-0.02818792)))) (Split 540 1.0 (Leaf 0.015491903) (Leaf 0.067199126)))
  (Leaf 0.06912831)) (Split 156 1.0 (Leaf 0.010334726) (Leaf 0.043165296))) (Leaf 0.062632374))
  (Leaf 0.078053854))) (Leaf (-0.036234822)).

Definition var184_54365 : tree :=
  Split 300 1.0 (Split 641 1.0 (Split 679 1.0 (Split 670 1.0 (Split 452 1.0 (Split 812 1.0 (Split
  435 1.0 (Leaf 0.015832735) (Leaf 0.03548605)) (Leaf 0.0014764803)) (Leaf (-0.0068491586))) (Leaf
  (-0.017233824))) (Leaf (-0.026406188))) (Leaf 0.032054313)) (Split 498 1.0 (Leaf 0.044548582)
  (Leaf 0.0068553495)).

Definition var184_54415 : tree :=
  Split 503 1.0 (Split 104 1.0 (Split 682 1.0 (Split 20 1.0 (Split 128 1.0 (Split 435 1.0 (Split
  498 1.0 (Split 533 1.0 (Leaf 0.05634284) (Leaf 0.0050414037)) (Leaf 0.00013468378)) (Split 678
  1.0 (Split 300 1.0 (Split 540 1.0 (Leaf 0.002328065) (Leaf 0.012390755)) (Leaf 0.032450102))
  (Leaf (-0.0073629543)))) (Split 452 1.0 (Leaf (-0.012699738)) (Leaf 0.02300374))) (Leaf
  (-0.004267648))) (Leaf (-0.010606847))) (Split 435 1.0 (Split 641 1.0 (Leaf 0.024373738) (Leaf
  (-0.0040194257))) (Leaf (-0.016577272)))) (Leaf (-0.021406757)).

Definition var184 : tree :=
  Split 819 1.0 (Split 385 1.0 (Split 733 1.0 (Split 751 1.0 (Split 1008 1.0 (Split 143 1.0 (Split
  224 1.0 (Split 438 1.0 (Split 479 1.0 (Split 365 1.0 (Split 286 1.0 (Split 824 1.0 (Leaf
  (-0.0030039859)) (Leaf 0.019987551)) (Split 800 1.0 (Leaf 0.019822055) (Leaf 0.04699409))) (Split
  120 1.0 (Split 435 1.0 (Leaf 0.0065518836) (Leaf (-0.006111897))) (Leaf 0.043143198))) (Split 979
  1.0 (Split 937 1.0 (Split 540 1.0 (Leaf (-0.021946661)) (Leaf (-0.0416229))) (Leaf
  (-0.0045468356))) (Leaf 0.01083232))) (Split 104 1.0 (Split 255 1.0 (Split 36 1.0 (Split 670 1.0
  (Leaf 0.04798709) (Leaf 0.014002551)) (Leaf 0.009221331)) (Leaf (-0.0025868125))) (Split 300 1.0
  (Split 540 1.0 (Leaf (-0.0026167412)) (Leaf 0.01925206)) (Leaf (-0.015742991))))) (Split 659 1.0
  (Leaf 0.05078127) (Leaf (-0.019073904)))) (Split 908 1.0 (Split 435 1.0 (Split 670 1.0 (Split 812
  1.0 (Split 678 1.0 (Split 300 1.0 (Leaf 0.033502053) (Leaf 0.0057057044)) (Leaf 0.006027571))
  (Leaf 0.0031795148)) (Leaf (-0.0077196024))) (Split 540 1.0 (Leaf 0.058495145) (Leaf
  0.013845885))) (Leaf (-0.03424636)))) (Split 912 1.0 (Split 36 1.0 (Leaf (-0.04743194)) (Leaf
  (-0.0127675785))) (Leaf (-0.0059074224)))) (Split 789 1.0 (Split 659 1.0 (Split 36 1.0 (Split 435
  1.0 (Split 77 1.0 (Split 300 1.0 (Split 452 1.0 (Leaf 0.036447104) (Leaf 0.0061694873)) (Split
  540 1.0 (Leaf (-0.016595393)) (Leaf 0.02113374))) (Leaf (-0.004897746))) (Leaf 0.04667188)) (Leaf
  (-0.025274957))) (Leaf 0.053693246)) (Leaf (-0.010118126)))) var184_54365) (Split 1001 1.0 (Split
  540 1.0 (Split 300 1.0 (Leaf (-0.024875438)) (Leaf (-0.0009861798))) (Leaf (-0.047567297))) (Leaf
  0.0064190775))) var184_54415.

Definition var185_54624 : tree :=
  Split 908 1.0 (Split 435 1.0 (Split 670 1.0 (Split 678 1.0 (Split 812 1.0 (Split 300 1.0 (Leaf
  0.03505775) (Leaf 0.007026091)) (Leaf 0.0022180022)) (Leaf 0.00002422946)) (Leaf
  (-0.0058516217))) (Split 540 1.0 (Leaf 0.056675475) (Leaf 0.01428857))) (Leaf (-0.020043384)).

Definition var185_54655 : tree :=
  Split 937 1.0 (Split 138 1.0 (Split 733 1.0 (Split 392 1.0 (Split 540 2.0 (Split 452 2.0 (Split
  128 1.0 (Split 950 1.0 (Split 498 1.0 (Leaf 0.04292949) (Leaf 0.009499201)) (Leaf 0.0050238203))
  (Split 435 1.0 (Leaf 0.0035527663) (Leaf 0.014116274))) (Leaf (-0.0002769113))) (Leaf
  0.0015139758)) (Leaf (-0.001305146))) (Leaf (-0.010742003))) (Leaf (-0.0047685816))) (Leaf
  (-0.01396121)).

Definition var185 : tree :=
  Split 245 1.0 (Split 808 1.0 (Split 819 1.0 (Split 143 1.0 (Split 473 1.0 (Split 178 1.0 (Split
  345 1.0 (Split 65 1.0 (Split 751 1.0 (Split 53 1.0 (Split 19 1.0 (Split 99 1.0 (Leaf
  (-0.00067430845)) (Leaf 0.017213657)) (Split 300 1.0 (Leaf (-0.04243794)) (Leaf (-0.002550363))))
  (Split 294 1.0 (Split 912 1.0 (Leaf 0.028218225) (Leaf (-0.0031885002))) (Leaf (-0.012445438))))
  (Split 659 1.0 (Split 36 1.0 (Split 435 1.0 (Leaf 0.01701213) (Leaf 0.05078694)) (Leaf
  (-0.02847749))) (Leaf 0.056255568))) (Split 77 1.0 (Split 908 1.0 (Split 733 1.0 (Split 979 1.0
  (Leaf (-0.035851974)) (Leaf 0.006549974)) (Leaf 0.024300441)) (Leaf 0.026417542)) (Split 435 1.0
  (Leaf 0.044272877) (Leaf 0.005173647)))) (Split 979 1.0 (Split 789 1.0 (Split 169 1.0 (Split 812
  1.0 (Leaf 0.05290966) (Leaf 0.009788677)) (Leaf 0.016291535)) (Leaf 0.0055276505)) (Leaf
  (-0.018562073)))) (Split 77 1.0 (Split 209 1.0 (Split 641 1.0 (Split 53 1.0 (Split 1018 1.0
  (Split 99 1.0 (Leaf (-0.03441636)) (Leaf (-0.0056216675))) (Leaf 0.0013644457)) (Leaf
  0.014304792)) (Leaf 0.013359943)) (Leaf 0.018682076)) (Leaf 0.028022835))) (Split 937 1.0 (Split
  529 1.0 (Split 452 2.0 (Split 979 1.0 (Split 267 1.0 (Split 659 1.0 (Split 390 1.0 (Leaf
  (-0.04980974)) (Leaf (-0.00701924))) (Leaf (-0.011891892))) (Leaf 0.002028725)) (Leaf
  0.007480681)) (Leaf 0.008824792)) (Leaf 0.013403709)) (Leaf 0.024799729))) var185_54624)
  var185_54655) (Split 670 1.0 (Split 540 1.0 (Leaf (-0.05309242)) (Split 976 1.0 (Leaf
  0.009026618) (Leaf (-0.021106046)))) (Leaf 0.012301571))) (Split 979 1.0 (Leaf (-0.0407959))
  (Leaf (-0.0035032933))).

Definition var186_54869 : tree :=
  Split 156 1.0 (Split 976 1.0 (Split 435 1.0 (Split 16 1.0 (Split 540 1.0 (Leaf (-0.00015407204))
  (Leaf (-0.024516243))) (Leaf 0.019380221)) (Split 300 1.0 (Leaf (-0.03154361)) (Leaf
  0.00024473877))) (Leaf 0.02108493)) (Leaf 0.02832825).

Definition var186 : tree :=
  Split 737 1.0 (Split 274 1.0 (Split 481 1.0 (Split 73 1.0 (Split 794 1.0 (Split 799 1.0 (Split 0
  1.0 (Split 838 1.0 (Split 776 1.0 (Split 501 1.0 (Split 623 1.0 (Split 130 1.0 (Leaf
  0.0000230786) (Leaf 0.04641007)) (Split 104 1.0 (Leaf 0.03497022) (Leaf 0.0032780503))) (Split
  655 1.0 (Split 843 1.0 (Leaf (-0.03666036)) (Leaf 0.0017878807)) (Leaf 0.016801704))) (Split 655
  1.0 (Split 20 1.0 (Split 23 1.0 (Leaf (-0.030239716)) (Leaf 0.01701793)) (Leaf 0.031181587))
  (Leaf 0.04697516))) (Leaf (-0.043969274))) (Split 824 1.0 (Split 855 1.0 (Split 679 1.0 (Split 45
  1.0 (Split 997 1.0 (Leaf 0.01841117) (Leaf (-0.033220902))) (Leaf (-0.027062714))) (Leaf
  (-0.023762612))) (Leaf 0.052554835)) (Leaf 0.063185856))) (Split 50 1.0 (Split 517 1.0 (Split 463
  1.0 (Split 540 1.0 (Split 105 1.0 (Split 874 1.0 (Leaf 0.036755335) (Leaf (-0.024053283))) (Leaf
  (-0.026157094))) (Split 653 1.0 (Split 494 1.0 (Leaf 0.013935059) (Leaf (-0.03289423))) (Leaf
  (-0.03665237)))) (Leaf (-0.037822943))) (Split 678 1.0 (Leaf (-0.03970003)) (Leaf 0.01222784)))
  (Leaf (-0.047254484)))) (Leaf (-0.041200038))) (Split 855 1.0 (Split 255 1.0 (Split 23 1.0 (Split
  679 1.0 (Split 655 1.0 (Split 267 1.0 (Leaf (-0.038860645)) (Leaf (-0.010852872))) (Leaf
  (-0.0037781198))) (Leaf 0.0040624193)) (Leaf 0.007773492)) (Leaf 0.011556949)) (Leaf
  0.02651349))) (Split 721 1.0 (Split 481 2.0 (Split 979 1.0 (Split 964 1.0 var186_54869 (Leaf
  0.037040185)) (Leaf 0.034426652)) (Leaf 0.04734166)) (Leaf (-0.017381143)))) (Leaf
  (-0.037694763))) (Leaf (-0.03706513)).

Definition var187_55067 : tree :=
  Split 532 1.0 (Split 950 1.0 (Split 452 1.0 (Split 976 1.0 (Split 540 2.0 (Split 8 1.0 (Split 670
  1.0 (Leaf 0.012408408) (Leaf (-0.0084091555))) (Leaf 0.0320498)) (Leaf (-0.016334603))) (Leaf
  (-0.020344427))) (Leaf 0.034741204)) (Leaf (-0.02479705))) (Leaf (-0.033992734)).

Definition var187 : tree :=
  Split 903 1.0 (Split 365 1.0 (Split 944 1.0 (Split 780 1.0 (Split 484 1.0 (Split 157 1.0 (Split
  130 1.0 (Split 457 1.0 (Split 55 1.0 (Split 979 1.0 (Split 637 1.0 (Split 799 1.0 (Leaf
  (-0.005020055)) (Leaf 0.01238914)) (Split 141 1.0 (Leaf 0.04769608) (Leaf (-0.04081347)))) (Split
  300 1.0 (Split 659 1.0 (Leaf (-0.0029739828)) (Leaf 0.026813734)) (Split 296 1.0 (Leaf
  0.02369556) (Leaf (-0.0414601))))) (Split 972 1.0 (Split 670 1.0 (Split 509 1.0 (Leaf
  0.023956718) (Leaf (-0.022509893))) (Split 435 1.0 (Leaf (-0.023851769)) (Leaf 0.0062513077)))
  (Leaf (-0.026931196)))) (Split 799 1.0 (Split 517 1.0 (Split 659 1.0 (Split 452 1.0 (Leaf
  (-0.05544668)) (Leaf (-0.005257358))) (Leaf (-0.00046123235))) (Leaf 0.010640838)) (Leaf
  0.020808116))) (Split 357 1.0 (Split 267 1.0 (Split 435 1.0 (Split 540 1.0 (Leaf 0.02353462)
  (Leaf 0.00203903)) (Leaf (-0.00406624))) (Leaf 0.03902624)) (Leaf 0.055620056))) (Split 47 1.0
  (Split 976 1.0 (Split 267 1.0 (Split 36 1.0 (Leaf 0.037136536) (Leaf 0.012809073)) (Leaf
  0.008573822)) (Leaf 0.0009060038)) (Leaf (-0.0009089553)))) (Leaf 0.05789261)) (Split 435 1.0
  (Split 855 1.0 (Split 117 1.0 (Split 47 1.0 (Split 607 1.0 (Split 300 1.0 (Split 678 1.0 (Split
  995 1.0 (Leaf 0.043152317) (Leaf 0.013574094)) (Leaf 0.011747675)) (Leaf 0.012684266)) (Split 300
  1.0 (Leaf (-0.0101391105)) (Leaf 0.018653909))) (Leaf (-0.006468328))) (Leaf (-0.011281448)))
  (Leaf (-0.017172195))) var187_55067)) (Split 641 1.0 (Split 995 1.0 (Leaf (-0.036858734)) (Leaf
  0.0032223274)) (Leaf 0.012927693))) (Split 120 1.0 (Split 435 1.0 (Leaf 0.0058900993) (Leaf
  (-0.00297543))) (Leaf 0.042878885))) (Leaf (-0.04114201)).

Definition var188_55277 : tree :=
  Split 64 1.0 (Split 178 1.0 (Split 255 1.0 (Split 124 1.0 (Split 800 1.0 (Split 976 1.0 (Split
  517 1.0 (Split 641 1.0 (Split 357 1.0 (Leaf 0.043082573) (Leaf (-0.015546235))) (Leaf
  (-0.0058295103))) (Split 435 1.0 (Leaf (-0.025763368)) (Leaf 0.03179734))) (Split 540 1.0 (Split
  435 1.0 (Leaf (-0.013075358)) (Leaf 0.030758768)) (Split 435 1.0 (Leaf (-0.0058954707)) (Leaf
  (-0.033860784))))) (Split 156 1.0 (Leaf 0.006926965) (Leaf (-0.026714751)))) (Leaf
  (-0.028813323))) (Leaf (-0.026151968))) (Leaf (-0.032792713))) (Leaf (-0.032560658)).

Definition var188 : tree :=
  Split 513 1.0 (Split 422 1.0 (Split 682 1.0 (Split 202 1.0 (Split 255 1.0 (Split 958 1.0 (Split
  822 1.0 (Split 196 1.0 (Split 156 2.0 (Split 812 1.0 (Split 824 1.0 (Split 833 1.0 (Leaf
  (-0.0065779686)) (Leaf 0.021396117)) (Split 432 1.0 (Leaf 0.024977244) (Leaf (-0.034627236))))
  (Split 655 1.0 (Split 783 1.0 (Leaf 0.0068784007) (Leaf (-0.041358724))) (Split 435 1.0 (Leaf
  0.070920296) (Leaf 0.008609954)))) (Split 872 1.0 (Split 979 1.0 (Split 357 1.0 (Leaf
  (-0.0052343006)) (Leaf 0.04130507)) (Leaf 0.038501527)) (Leaf 0.04300761))) (Split 267 1.0 (Leaf
  (-0.048774723)) (Leaf (-0.009223149)))) (Split 807 1.0 (Split 69 1.0 (Split 937 1.0 (Split 93 1.0
  (Split 105 1.0 (Leaf 0.006047334) (Leaf 0.04585744)) (Leaf 0.0519539)) (Split 800 1.0 (Leaf
  0.056193262) (Leaf (-0.0050483383)))) (Leaf (-0.035476353))) (Split 452 1.0 (Leaf (-0.044997767))
  (Leaf (-0.011663622))))) (Split 543 1.0 (Split 435 1.0 (Leaf 0.007106714) (Leaf (-0.010580542)))
  (Leaf 0.044020813))) (Split 522 1.0 (Split 294 1.0 (Split 357 1.0 (Split 300 2.0 (Split 721 1.0
  (Split 435 1.0 (Split 617 1.0 (Leaf 0.021575078) (Leaf (-0.02115911))) (Split 156 1.0 (Leaf
  0.049450677) (Leaf (-0.007346461)))) (Leaf (-0.020133017))) (Split 452 1.0 (Leaf (-0.025988942))
  (Leaf (-0.0018598747)))) (Leaf (-0.025589524))) (Leaf (-0.034592923))) (Leaf (-0.05708998))))
  (Split 617 1.0 (Split 435 1.0 (Leaf 0.042943876) (Leaf (-0.01213587))) (Leaf 0.06402884)))
  var188_55277) (Split 670 1.0 (Leaf (-0.050494622)) (Leaf 0.002572684))) (Split 979 1.0 (Split 540
  1.0 (Split 36 1.0 (Leaf 0.023240108) (Leaf 0.005710929)) (Leaf (-0.0009803078))) (Leaf
  0.03946606)).

Definition var189 : tree :=
  Split 986 1.0 (Split 344 1.0 (Split 858 1.0 (Split 848 1.0 (Split 58 1.0 (Split 328 1.0 (Split
  484 1.0 (Split 474 1.0 (Split 73 1.0 (Split 837 1.0 (Split 157 1.0 (Split 794 1.0 (Leaf
  0.0009992059) (Leaf (-0.042180963))) (Split 976 1.0 (Leaf 0.030441005) (Leaf 0.0009021459)))
  (Split 435 1.0 (Leaf (-0.039920688)) (Leaf (-0.010014828)))) (Split 141 1.0 (Split 655 1.0 (Split
  128 1.0 (Leaf (-0.03107673)) (Leaf (-0.002885276))) (Leaf 0.00389944)) (Leaf 0.026759047)))
  (Split 540 1.0 (Split 435 1.0 (Split 16 1.0 (Leaf (-0.01547914)) (Leaf 0.033519913)) (Leaf
  0.04982736)) (Split 435 1.0 (Leaf 0.06473123) (Leaf 0.013636616)))) (Split 36 1.0 (Leaf
  0.065903455) (Leaf 0.01109166))) (Split 659 1.0 (Leaf (-0.034471806)) (Leaf (-0.004457365))))
  (Leaf (-0.037295125))) (Split 435 1.0 (Leaf (-0.047296822)) (Leaf 0.007567573))) (Split 540 1.0
  (Leaf (-0.056634843)) (Leaf 0.0064507695))) (Split 156 1.0 (Leaf (-0.037635274)) (Leaf
  (-0.008820004)))) (Split 912 1.0 (Split 670 1.0 (Split 435 1.0 (Split 517 1.0 (Split 540 1.0
  (Leaf 0.03823557) (Leaf 0.014931433)) (Leaf 0.0018733137)) (Split 540 1.0 (Leaf 0.000053395604)
  (Leaf 0.01513532))) (Split 104 1.0 (Leaf 0.0006964291) (Leaf (-0.0066332347)))) (Leaf
  (-0.00665074))).

Definition var190_55647 : tree :=
  Split 300 1.0 (Split 0 1.0 (Split 976 1.0 (Split 540 1.0 (Split 659 1.0 (Leaf 0.0147011895) (Leaf
  (-0.01184332))) (Leaf (-0.026896013))) (Leaf 0.027791366)) (Leaf 0.030940397)) (Leaf 0.04502948).

Definition var190 : tree :=
  Split 89 1.0 (Split 573 1.0 (Split 709 1.0 (Split 942 1.0 (Split 533 1.0 (Split 979 1.0 (Split 8
  1.0 (Split 323 1.0 (Split 67 1.0 (Split 345 1.0 (Split 799 1.0 (Split 353 1.0 (Leaf
  (-0.003840182)) (Leaf (-0.0512644))) (Split 50 1.0 (Leaf 0.013190984) (Leaf (-0.04808566))))
  (Split 178 1.0 (Split 641 1.0 (Leaf 0.0412338) (Leaf (-0.0038524226))) (Leaf (-0.029340181))))
  (Leaf 0.043158766)) (Split 452 1.0 (Leaf (-0.04886397)) (Leaf (-0.0055325585)))) (Split 300 1.0
  (Split 498 1.0 (Split 36 1.0 (Split 128 1.0 (Split 617 1.0 (Leaf 0.04609734) (Leaf 0.006587747))
  (Leaf 0.0066483575)) (Split 678 1.0 (Leaf (-0.015173149)) (Leaf 0.027996806))) (Leaf
  (-0.004936823))) (Split 300 2.0 (Split 128 1.0 (Leaf 0.01106597) (Leaf (-0.010656333))) (Leaf
  (-0.018993026))))) (Split 300 1.0 (Split 659 1.0 (Split 721 1.0 (Split 345 1.0 (Split 540 1.0
  (Split 36 1.0 (Leaf 0.013818437) (Leaf (-0.018670393))) (Split 36 1.0 (Leaf (-0.018557299)) (Leaf
  0.013657848))) (Leaf (-0.04346403))) (Leaf (-0.043071236))) (Split 607 1.0 (Split 540 1.0 (Split
  678 1.0 (Leaf 0.04582288) (Leaf 0.0047399416)) (Split 452 1.0 (Leaf (-0.007255175)) (Leaf
  0.022988213))) (Split 540 1.0 (Leaf (-0.015924541)) (Leaf 0.014730036)))) (Split 296 1.0 (Split
  738 1.0 (Split 357 1.0 (Split 94 1.0 (Split 284 1.0 (Leaf 0.035473112) (Leaf (-0.014007467)))
  (Leaf (-0.029496223))) (Leaf (-0.016900273))) (Leaf (-0.03402389))) (Split 435 1.0 (Leaf
  (-0.03779356)) (Leaf (-0.006702646)))))) var190_55647) (Split 678 1.0 (Leaf (-0.044869743)) (Leaf
  (-0.003970993)))) (Split 976 1.0 (Split 104 1.0 (Leaf 0.037980806) (Leaf 0.0041870945)) (Leaf
  (-0.0018218311)))) (Split 435 1.0 (Split 156 1.0 (Split 659 1.0 (Split 540 1.0 (Leaf 0.036672916)
  (Leaf 0.002360732)) (Leaf 0.06722821)) (Leaf (-0.014222584))) (Leaf (-0.020059483)))) (Split 156
  1.0 (Split 976 1.0 (Split 435 1.0 (Split 678 1.0 (Leaf (-0.04424561)) (Leaf (-0.012498159)))
  (Leaf (-0.009130322))) (Leaf (-0.010888025))) (Leaf 0.01677083)).

Definition var191 : tree :=
  Split 430 1.0 (Split 2 1.0 (Split 322 1.0 (Split 438 1.0 (Split 733 1.0 (Split 621 1.0 (Split 848
  1.0 (Split 751 1.0 (Split 215 1.0 (Split 389 1.0 (Split 971 1.0 (Split 964 1.0 (Leaf
  0.00029899713) (Leaf 0.014759478)) (Split 979 1.0 (Leaf (-0.031236535)) (Leaf 0.018671583)))
  (Split 435 1.0 (Leaf (-0.041758094)) (Leaf 0.004257077))) (Split 435 1.0 (Split 452 1.0 (Split
  540 1.0 (Leaf (-0.010102647)) (Leaf (-0.03948449))) (Leaf (-0.006022571))) (Leaf
  (-0.051344346)))) (Split 789 1.0 (Split 36 1.0 (Split 912 1.0 (Split 77 1.0 (Leaf 0.04329432)
  (Leaf (-0.00035963903))) (Leaf (-0.0006732515))) (Leaf (-0.0042390493))) (Split 540 1.0 (Leaf
  0.012073206) (Leaf (-0.035656206))))) (Split 435 1.0 (Leaf (-0.049920905)) (Leaf 0.012384205)))
  (Leaf (-0.039246432))) (Split 77 1.0 (Split 104 1.0 (Split 99 1.0 (Split 855 1.0 (Split 498 1.0
  (Split 822 1.0 (Leaf 0.03742527) (Leaf 0.0077543217)) (Leaf 0.008815104)) (Leaf 0.0019481439))
  (Leaf (-0.005870916))) (Split 540 1.0 (Leaf (-0.0016079389)) (Leaf (-0.011903374)))) (Leaf
  (-0.025458544)))) (Split 912 1.0 (Split 255 1.0 (Split 452 1.0 (Split 77 1.0 (Split 36 1.0 (Split
  789 1.0 (Leaf 0.05324274) (Leaf 0.016117161)) (Leaf 0.01109454)) (Leaf 0.0068324767)) (Split 540
  1.0 (Split 435 1.0 (Leaf (-0.0028391301)) (Leaf 0.005365757)) (Leaf 0.017386781))) (Leaf
  (-0.007329254))) (Leaf (-0.011194999)))) (Split 822 1.0 (Split 799 1.0 (Split 452 1.0 (Leaf
  (-0.047331065)) (Leaf (-0.00530102))) (Leaf 0.011493466)) (Leaf 0.023714963))) (Leaf
  (-0.04006771))) (Split 288 1.0 (Split 670 1.0 (Leaf 0.0046720947) (Leaf (-0.01915149))) (Leaf
  (-0.041535646))).

Definition var192 : tree :=
  Split 724 1.0 (Split 815 1.0 (Split 331 1.0 (Split 330 1.0 (Split 430 1.0 (Split 630 1.0 (Split 2
  1.0 (Split 404 1.0 (Split 385 1.0 (Split 112 1.0 (Split 668 1.0 (Split 687 1.0 (Leaf
  0.0031225348) (Leaf (-0.020483045))) (Split 540 2.0 (Leaf (-0.040797006)) (Leaf 0.018966777)))
  (Split 607 1.0 (Split 156 1.0 (Leaf (-0.03682383)) (Leaf (-0.0035433401))) (Leaf 0.022536723)))
  (Split 540 1.0 (Split 36 1.0 (Split 300 1.0 (Leaf (-0.008313569)) (Leaf 0.0069502206)) (Leaf
  (-0.02095497))) (Leaf (-0.046664603)))) (Split 435 1.0 (Split 540 1.0 (Leaf (-0.019470727)) (Leaf
  0.0046078837)) (Leaf (-0.051303882)))) (Leaf (-0.040483605))) (Split 452 1.0 (Split 617 1.0 (Leaf
  (-0.03619888)) (Leaf 0.0057985727)) (Split 540 1.0 (Leaf (-0.014849059)) (Leaf 0.025242014))))
  (Split 288 1.0 (Split 979 1.0 (Leaf (-0.011695792)) (Leaf 0.00038882034)) (Leaf (-0.041233443))))
  (Split 662 1.0 (Split 435 1.0 (Leaf 0.034972027) (Leaf 0.012644514)) (Leaf 0.0007851445))) (Split
  540 1.0 (Leaf (-0.020099256)) (Leaf (-0.050310243)))) (Split 452 1.0 (Split 435 1.0 (Leaf
  (-0.03866491)) (Leaf (-0.014454934))) (Split 540 1.0 (Leaf (-0.020559726)) (Leaf 0.011443913))))
  (Leaf (-0.04015992)).

Definition var193_56199 : tree :=
  Split 540 1.0 (Split 16 1.0 (Split 908 1.0 (Split 300 1.0 (Split 435 1.0 (Leaf 0.03919064) (Leaf
  0.0086785285)) (Split 435 1.0 (Leaf 0.006362803) (Leaf (-0.0018154212)))) (Leaf (-0.013927804)))
  (Leaf (-0.022657212))) (Split 300 1.0 (Leaf (-0.041179433)) (Leaf (-0.000021195776))).

Definition var193 : tree :=
  Split 570 1.0 (Split 245 1.0 (Split 808 1.0 (Split 267 1.0 (Split 862 1.0 (Split 819 1.0 (Split
  613 1.0 (Split 575 1.0 (Split 43 1.0 (Split 1002 1.0 (Split 59 1.0 (Split 396 1.0 (Leaf
  (-0.0009307118)) (Leaf 0.01854694)) (Leaf (-0.048581053))) (Split 452 1.0 (Split 659 1.0 (Leaf
  0.031025821) (Leaf (-0.00044096028))) (Split 641 1.0 (Leaf 0.0004378955) (Leaf 0.020927012))))
  (Split 822 1.0 (Split 452 2.0 (Split 979 1.0 (Leaf (-0.04776386)) (Leaf (-0.014377387))) (Leaf
  0.01266439)) (Leaf 0.013927779))) (Split 979 1.0 (Split 659 1.0 (Split 950 1.0 (Split 435 1.0
  (Leaf 0.05191815) (Leaf 0.018884677)) (Leaf (-0.006332751))) (Leaf (-0.013292267))) (Leaf
  (-0.018000348)))) (Split 300 1.0 (Leaf (-0.04547687)) (Leaf 0.008082712))) (Split 1019 1.0 (Split
  104 1.0 (Split 20 1.0 (Split 392 1.0 (Split 435 1.0 (Split 128 1.0 (Leaf 0.045691688) (Leaf
  0.011895894)) (Split 300 1.0 (Leaf 0.0054681655) (Leaf 0.030431619))) (Leaf (-0.0010158631)))
  (Leaf (-0.004693523))) (Split 435 1.0 (Leaf 0.016764505) (Leaf (-0.017324386)))) (Leaf
  (-0.013916939)))) (Split 979 1.0 (Split 141 1.0 (Leaf (-0.042523153)) (Leaf (-0.012730557)))
  (Leaf (-0.0061248005)))) (Split 36 1.0 (Split 457 1.0 (Split 678 1.0 (Split 995 1.0 (Split 911
  1.0 (Split 966 1.0 (Split 105 1.0 (Split 879 1.0 (Leaf 0.02675407) (Leaf (-0.01569303))) (Leaf
  (-0.016661486))) (Leaf (-0.022810569))) (Leaf (-0.022341605))) (Leaf 0.0686959)) (Split 607 1.0
  (Split 659 1.0 (Split 452 1.0 (Split 540 1.0 (Split 300 1.0 (Leaf (-0.005511592)) (Leaf
  (-0.000009168422))) (Leaf (-0.03877143))) (Leaf 0.0029139156)) (Leaf 0.015675755)) (Leaf
  0.02886425))) (Leaf (-0.028814385))) var193_56199)) (Split 670 1.0 (Split 540 1.0 (Leaf
  (-0.05140546)) (Split 976 1.0 (Leaf 0.009201895) (Leaf (-0.019776676)))) (Leaf 0.011261593)))
  (Split 979 1.0 (Leaf (-0.03921985)) (Leaf (-0.0036978198)))) (Split 156 1.0 (Split 435 1.0 (Leaf
  (-0.041615944)) (Leaf (-0.008439179))) (Leaf (-0.0067071244))).

Definition var194 : tree :=
  Split 593 1.0 (Split 76 1.0 (Split 986 1.0 (Split 328 1.0 (Split 462 1.0 (Split 848 1.0 (Split
  484 1.0 (Split 117 1.0 (Split 344 1.0 (Split 605 1.0 (Split 668 1.0 (Split 1019 1.0 (Leaf
  0.0018765392) (Leaf (-0.013614321))) (Split 0 1.0 (Leaf (-0.041921746)) (Leaf 0.0317081))) (Split
  670 1.0 (Split 789 1.0 (Leaf (-0.045529168)) (Leaf (-0.012075827))) (Leaf 0.005272078))) (Split
  156 1.0 (Leaf (-0.03653757)) (Leaf (-0.008902504)))) (Split 396 1.0 (Split 435 1.0 (Split 789 1.0
  (Split 23 1.0 (Leaf (-0.042218383)) (Leaf 0.006737811)) (Leaf 0.016255284)) (Split 678 1.0 (Split
  36 1.0 (Leaf (-0.0064639286)) (Leaf 0.028286433)) (Leaf (-0.032094028)))) (Leaf 0.0238014)))
  (Split 36 1.0 (Leaf 0.060559995) (Leaf 0.010421585))) (Split 435 1.0 (Leaf (-0.04704331)) (Leaf
  0.005171588))) (Leaf 0.04676023)) (Split 822 1.0 (Leaf (-0.03539948)) (Leaf (-0.008352984))))
  (Split 670 1.0 (Split 912 1.0 (Split 517 1.0 (Split 296 1.0 (Split 138 1.0 (Split 128 1.0 (Split
  540 1.0 (Leaf 0.04124413) (Leaf 0.019757422)) (Leaf 0.010936727)) (Leaf 0.001138487)) (Leaf
  (-0.0012833404))) (Leaf (-0.0015070457))) (Leaf (-0.0027195066))) (Leaf (-0.0025622875)))) (Split
  670 1.0 (Leaf 0.036538176) (Leaf 0.005633592))) (Split 435 1.0 (Leaf (-0.051576402)) (Leaf
  (-0.0004735405))).

Definition var195 : tree :=
  Split 495 2.0 (Split 593 1.0 (Split 76 1.0 (Split 986 1.0 (Split 838 1.0 (Split 328 1.0 (Split
  462 1.0 (Split 452 1.0 (Split 658 1.0 (Split 958 1.0 (Split 876 1.0 (Split 150 1.0 (Leaf
  (-0.0026328196)) (Leaf 0.04187507)) (Leaf (-0.044290666))) (Split 156 1.0 (Split 435 1.0 (Leaf
  (-0.0070967907)) (Leaf 0.0018683193)) (Leaf 0.041739512))) (Split 300 1.0 (Split 77 1.0 (Split
  104 1.0 (Leaf 0.050709505) (Leaf 0.01590712)) (Leaf 0.012059949)) (Split 678 1.0 (Leaf
  (-0.014123154)) (Leaf 0.017744211)))) (Split 998 1.0 (Split 1001 1.0 (Split 872 1.0 (Split 435
  1.0 (Leaf (-0.0023995189)) (Leaf 0.015250576)) (Split 77 1.0 (Leaf 0.010038699) (Leaf
  0.042607468))) (Leaf 0.06035539)) (Leaf 0.06830009))) (Leaf 0.044740003)) (Split 822 1.0 (Leaf
  (-0.03368378)) (Leaf (-0.008134787)))) (Split 36 1.0 (Split 300 1.0 (Leaf (-0.03008811)) (Leaf
  (-0.004220897))) (Leaf (-0.049246754)))) (Split 670 1.0 (Split 912 1.0 (Split 517 1.0 (Split 138
  1.0 (Leaf 0.03297947) (Leaf 0.0011089946)) (Leaf (-0.001459641))) (Leaf (-0.0026396583))) (Leaf
  (-0.0024715045)))) (Split 670 1.0 (Split 435 1.0 (Leaf 0.041921537) (Split 300 1.0 (Leaf
  0.02230622) (Leaf 0.004427587))) (Leaf 0.0054638316))) (Split 435 1.0 (Leaf (-0.05322485)) (Leaf
  (-0.00045808387)))) (Leaf (-0.04864214)).

Definition var196 : tree :=
  Split 342 1.0 (Split 45 1.0 (Split 389 1.0 (Split 570 1.0 (Split 673 1.0 (Split 742 1.0 (Split 89
  1.0 (Split 63 1.0 (Split 941 1.0 (Split 656 1.0 (Split 658 1.0 (Split 820 1.0 (Leaf 0.0013132985)
  (Leaf (-0.030462477))) (Split 822 1.0 (Leaf 0.029842762) (Leaf (-0.019006671)))) (Leaf
  (-0.044099472))) (Split 435 1.0 (Leaf (-0.067883834)) (Leaf (-0.0031578254)))) (Split 678 1.0
  (Leaf (-0.046458658)) (Leaf (-0.016013762)))) (Split 976 1.0 (Split 435 1.0 (Split 678 1.0 (Leaf
  (-0.05110521)) (Leaf (-0.014767206))) (Leaf (-0.006979668))) (Leaf (-0.0038211576)))) (Split 824
  1.0 (Split 281 1.0 (Split 156 1.0 (Split 452 1.0 (Split 138 1.0 (Leaf (-0.044309568)) (Leaf
  (-0.007375476))) (Leaf (-0.0017798841))) (Leaf 0.007296814)) (Leaf 0.015200523)) (Leaf
  0.019684754))) (Split 670 1.0 (Split 36 1.0 (Split 678 1.0 (Split 104 1.0 (Leaf 0.06277936) (Leaf
  0.0048328056)) (Leaf (-0.0021753104))) (Split 540 1.0 (Leaf (-0.0050797313)) (Leaf 0.010073444)))
  (Split 36 1.0 (Leaf (-0.037691806)) (Leaf 0.005166645)))) (Leaf (-0.035544675))) (Split 789 1.0
  (Leaf (-0.043431655)) (Leaf 0.005273112))) (Split 908 1.0 (Split 284 1.0 (Split 156 1.0 (Split 0
  1.0 (Split 178 1.0 (Split 617 1.0 (Split 16 1.0 (Split 540 1.0 (Split 976 1.0 (Split 678 1.0
  (Leaf 0.058707632) (Leaf 0.016521778)) (Leaf (-0.002333174))) (Split 607 1.0 (Split 104 1.0 (Leaf
  0.026115805) (Leaf 0.006337984)) (Leaf (-0.008315041)))) (Split 435 1.0 (Leaf (-0.015103081))
  (Leaf 0.037880402))) (Leaf (-0.014092212))) (Leaf (-0.015496618))) (Leaf (-0.019817298))) (Split
  156 2.0 (Split 36 1.0 (Split 300 1.0 (Split 435 1.0 (Leaf 0.009860277) (Leaf 0.0017913949)) (Leaf
  (-0.015050079))) (Leaf (-0.038377117))) (Leaf 0.022648603))) (Leaf (-0.028612604))) (Split 300
  1.0 (Leaf 0.000689433) (Leaf (-0.034240488))))) (Leaf (-0.0411182)).

Definition var197_56921 : tree :=
  Split 8 1.0 (Split 14 1.0 (Split 659 1.0 (Split 23 1.0 (Split 995 1.0 (Split 45 1.0 (Split 156
  1.0 (Split 617 1.0 (Split 812 1.0 (Split 623 1.0 (Split 670 1.0 (Leaf (-0.017711032)) (Leaf
  (-0.038361885))) (Leaf 0.008515317)) (Leaf 0.014718847)) (Leaf 0.026453037)) (Split 540 1.0 (Leaf
  0.031801645) (Leaf (-0.012413676)))) (Leaf 0.021964947)) (Leaf 0.027436048)) (Leaf 0.03705745))
  (Leaf 0.031802755)) (Split 156 1.0 (Leaf 0.04164482) (Leaf 0.0032114335))) (Split 36 1.0 (Leaf
  0.05007386) (Leaf (-0.0070422376))).

Definition var197 : tree :=
  Split 780 1.0 (Split 301 1.0 (Split 648 1.0 (Split 342 1.0 (Split 870 1.0 (Split 912 1.0 (Split
  911 1.0 (Split 687 1.0 (Split 668 1.0 (Split 673 1.0 (Split 522 1.0 (Split 365 1.0 (Leaf
  0.001865652) (Leaf 0.03528091)) (Split 498 1.0 (Leaf (-0.02851069)) (Leaf 0.025432376))) (Split
  670 1.0 (Split 36 1.0 (Leaf 0.052111983) (Leaf 0.008212904)) (Leaf (-0.015060425)))) (Split 540
  2.0 (Split 36 1.0 (Leaf (-0.04946529)) (Leaf (-0.010113448))) (Leaf 0.004565445))) (Split 156 2.0
  (Split 300 1.0 (Split 679 1.0 (Split 452 1.0 (Leaf (-0.050553124)) (Leaf (-0.01717648))) (Leaf
  (-0.011670896))) (Split 678 1.0 (Split 300 2.0 (Leaf 0.012319232) (Leaf (-0.022226093))) (Leaf
  (-0.04044345)))) (Leaf 0.015273337))) (Split 435 1.0 (Split 789 1.0 (Split 812 1.0 (Split 300 1.0
  (Leaf (-0.037371866)) (Leaf (-0.012718059))) (Leaf (-0.0007598986))) (Leaf (-0.061061304))) (Leaf
  0.0074621374))) (Split 481 1.0 (Split 175 1.0 (Split 1005 1.0 (Split 345 1.0 (Split 503 1.0
  (Split 624 1.0 (Leaf (-0.02074381)) (Leaf 0.033484206)) (Leaf 0.026945177)) (Leaf 0.033974614))
  (Split 1018 1.0 (Leaf 0.010595009) (Leaf 0.032439455))) (Leaf 0.04028586)) (Split 452 1.0 (Leaf
  0.0043917974) (Leaf 0.046273764)))) (Split 912 1.0 (Split 789 1.0 (Split 937 1.0 (Split 36 1.0
  (Split 255 1.0 (Split 517 1.0 (Split 452 1.0 (Leaf (-0.022396192)) (Leaf 0.020967204)) (Leaf
  0.0349482)) (Leaf 0.036670472)) (Split 300 1.0 (Leaf 0.037271213) (Leaf 0.011927704))) (Leaf
  0.053804677)) (Split 517 1.0 (Leaf (-0.014127776)) (Leaf (-0.002062141)))) (Leaf 0.056048244)))
  (Leaf (-0.046283446))) (Split 789 1.0 (Split 641 1.0 (Leaf (-0.04629566)) (Leaf (-0.002479209)))
  (Leaf 0.008046878))) (Split 435 1.0 (Leaf (-0.014494455)) (Leaf (-0.04568771)))) var197_56921.

Definition var198 : tree :=
  Split 737 1.0 (Split 274 1.0 (Split 202 1.0 (Split 112 1.0 (Split 1017 1.0 (Split 2 1.0 (Split 55
  1.0 (Split 241 1.0 (Split 678 1.0 (Split 34 1.0 (Split 180 1.0 (Split 89 1.0 (Leaf 0.0029019534)
  (Leaf (-0.033711143))) (Leaf (-0.051440567))) (Leaf (-0.04813267))) (Split 872 1.0 (Split 201 1.0
  (Split 799 1.0 (Leaf (-0.012883379)) (Leaf 0.015897475)) (Split 540 1.0 (Leaf 0.04759594) (Leaf
  0.0073997825))) (Leaf 0.038228434))) (Leaf (-0.042563967))) (Split 972 1.0 (Split 509 1.0 (Split
  995 1.0 (Split 16 1.0 (Split 815 1.0 (Leaf 0.03073375) (Leaf (-0.018089605))) (Split 452 1.0
  (Leaf 0.008937327) (Leaf (-0.029384414)))) (Leaf (-0.020914096))) (Leaf (-0.024858218))) (Leaf
  (-0.030591834)))) (Leaf (-0.039945453))) (Split 452 1.0 (Split 299 1.0 (Leaf (-0.04363076)) (Leaf
  (-0.010567374))) (Leaf 0.013727817))) (Split 104 1.0 (Split 679 1.0 (Split 14 1.0 (Split 670 1.0
  (Split 822 1.0 (Split 156 1.0 (Split 435 1.0 (Leaf 0.004404651) (Leaf (-0.00029648645))) (Leaf
  (-0.022948815))) (Leaf 0.014799543)) (Leaf 0.028259775)) (Leaf (-0.022017756))) (Leaf
  (-0.056585163))) (Leaf (-0.04604077)))) (Split 617 1.0 (Split 540 1.0 (Leaf (-0.0044819224))
  (Leaf 0.031144917)) (Leaf 0.062044073))) (Leaf (-0.036544047))) (Split 540 1.0 (Leaf
  (-0.03992716)) (Leaf (-0.0127424495))).

Definition var199 : tree :=
  Split 481 2.0 (Split 737 1.0 (Split 738 1.0 (Split 267 1.0 (Split 862 1.0 (Split 311 1.0 (Split
  621 1.0 (Split 215 1.0 (Split 615 1.0 (Split 327 1.0 (Split 613 1.0 (Split 818 1.0 (Leaf
  0.0011777813) (Leaf (-0.04043322))) (Split 300 1.0 (Leaf (-0.042685773)) (Leaf (-0.004417718))))
  (Split 976 1.0 (Split 452 2.0 (Leaf 0.041016873) (Leaf (-0.005107425))) (Leaf (-0.01751726))))
  (Split 36 1.0 (Leaf (-0.04143012)) (Leaf (-0.0008845596)))) (Split 812 1.0 (Leaf (-0.04223033))
  (Leaf 0.0051246537))) (Leaf (-0.04060858))) (Split 36 1.0 (Split 540 1.0 (Leaf (-0.045036327))
  (Leaf (-0.004305146))) (Leaf 0.0076753325))) (Split 141 1.0 (Split 979 1.0 (Leaf (-0.04112642))
  (Leaf (-0.009398148))) (Leaf (-0.004783576)))) (Split 141 1.0 (Split 702 1.0 (Split 616 1.0
  (Split 976 1.0 (Split 64 1.0 (Split 965 1.0 (Split 294 1.0 (Split 357 1.0 (Leaf 0.024779519)
  (Leaf (-0.019644452))) (Leaf (-0.017878076))) (Leaf (-0.023873497))) (Leaf (-0.02514942))) (Split
  979 1.0 (Split 659 1.0 (Leaf (-0.034194693)) (Leaf 0.016731815)) (Leaf 0.03295467))) (Leaf
  (-0.028407568))) (Leaf (-0.034127165))) (Split 36 1.0 (Split 452 1.0 (Leaf (-0.009577713)) (Leaf
  0.0035980903)) (Leaf (-0.036125254))))) (Split 678 1.0 (Leaf (-0.038900707)) (Leaf
  (-0.009810008)))) (Split 540 1.0 (Leaf (-0.041255157)) (Leaf (-0.012417969)))) (Split 16 1.0
  (Leaf 0.050769936) (Leaf 0.0023905656)).
