(* ===== verification/Toxicity.v ===== *)
(** * Toxicity: the toxicity model ([ai/analysis.go], [ai/model.go])

    [PredictToxicity] adds the values of two hundred decision trees
    ([Forest1] to [Forest4]) and maps the sum to a probability;
    [CheckMessage] compares it with a threshold.  The theorems show that a
    message is always scored, that the score depends only on which of the
    tested components the words of the message hash to, and what this means for
    the size of the vector, which is not the one the model was trained with. *)

From Stdlib Require Import Ascii String SpecFloat.
From S2P Require Import Prelude Errors Env Text Vectorize Trees.
From S2P Require Import Forest1 Forest2 Forest3 Forest4.

(** ** The model *)

Definition forest : list tree :=
  [
   var0; var1; var2; var3; var4; var5; var6; var7; var8; var9; var10; var11; var12; var13; var14;
   var15; var16; var17; var18; var19; var20; var21; var22; var23; var24; var25; var26; var27;
   var28; var29; var30; var31; var32; var33; var34; var35; var36; var37; var38; var39; var40;
   var41; var42; var43; var44; var45; var46; var47; var48; var49; var50; var51; var52; var53;
   var54; var55; var56; var57; var58; var59; var60; var61; var62; var63; var64; var65; var66;
   var67; var68; var69; var70; var71; var72; var73; var74; var75; var76; var77; var78; var79;
   var80; var81; var82; var83; var84; var85; var86; var87; var88; var89; var90; var91; var92;
   var93; var94; var95; var96; var97; var98; var99; var100; var101; var102; var103; var104;
   var105; var106; var107; var108; var109; var110; var111; var112; var113; var114; var115;
   var116; var117; var118; var119; var120; var121; var122; var123; var124; var125; var126;
   var127; var128; var129; var130; var131; var132; var133; var134; var135; var136; var137;
   var138; var139; var140; var141; var142; var143; var144; var145; var146; var147; var148;
   var149; var150; var151; var152; var153; var154; var155; var156; var157; var158; var159;
   var160; var161; var162; var163; var164; var165; var166; var167; var168; var169; var170;
   var171; var172; var173; var174; var175; var176; var177; var178; var179; var180; var181;
   var182; var183; var184; var185; var186; var187; var188; var189; var190; var191; var192;
   var193; var194; var195; var196; var197; var198; var199].

(** [math.Exp] is assembly code on most platforms, and its last bit depends on
    the platform. *)
Class MathExp := { math_Exp : float64 → float64 }.

Definition f64_sub : float64 → float64 → float64 := SFsub 53 1024.
Definition f64_opp : float64 → float64 := SFopp.

(** [x0 + x1 + ... + xn], from the left. *)
Definition float_sum (l : list float64) : float64 :=
  match l with [] => f64_zero | x :: l => fold_left f64_add l x end.

(** The sum of the values of the trees. *)
Definition margin (trees : list tree) (input : list float64) : option float64 :=
  float_sum <$> mapM (tree_eval input) trees.

Section Model.
Context {ME : MathExp}.

Definition sigmoid (x : float64) : float64 :=
  if f64_ltb x f64_zero then
    let z := math_Exp x in f64_div z (f64_add f64_one z)
  else f64_div f64_one (f64_add f64_one (math_Exp (f64_opp x))).

Definition PredictToxicity (input : list float64) : option (list float64) :=
  sum ← margin forest input;
  let var200 := sigmoid sum in
  Some [f64_sub f64_one var200; var200].

(** ** The analysis of a message *)

Definition VectorSize : Z := 4096.
Definition Threshold : float64 := f64_of_dec 0.35.

Record Analysis := MkAnalysis { an_vectorizer : Vectorizer }.
Definition NewAnalysis : Analysis := MkAnalysis (NewVectorizer VectorSize).

Context {UT : UnicodeTables}.

Definition CheckMessage (a : Analysis) (content : string) : option (float64 * bool) :=
  vec ← Features (an_vectorizer a) content;
  predictions ← PredictToxicity vec;
  let score :=
    match predictions with
    | _ :: s :: _ => s
    | [s] => s
    | [] => f64_zero
    end in
  let isToxic := f64_ltb Threshold score in
  Some (score, isToxic).

(** ** Which components the model tests *)

Fixpoint tree_tests (b : Z) (t : tree) : bool :=
  match t with
  | Leaf _ => false
  | Split i _ low high => (Z.of_N i =? b) || tree_tests b low || tree_tests b high
  end.
Definition tested (b : Z) : bool := existsb (tree_tests b) forest.

Definition tested_bound : nat := 1020.

Lemma forest_bound :
  forallb (tree_splits (λ i _, (i <? N.of_nat tested_bound)%N)) forest = true.
Proof. by vm_compute. Qed.

Lemma forest_exact : forallb tree_exact forest = true.
Proof. by vm_compute. Qed.

Lemma tree_splits_impl (ok ok' : N → dec → bool) t :
  (∀ i c, ok i c = true → ok' i c = true) → tree_splits ok t = true → tree_splits ok' t = true.
Proof.
  intros Hi. induction t as [v|i c low IHl high IHh]; [done|].
  intros (? & ? & ?)%tree_splits_Split. simpl. rewrite !andb_true_iff. auto.
Qed.

Lemma tree_tests_splits t : tree_splits (λ i _, tree_tests (Z.of_N i) t) t = true.
Proof.
  induction t as [v|i c low IHl high IHh]; [done|].
  simpl. rewrite Z.eqb_refl, !andb_true_iff. split_and!; [done|..].
  - eapply tree_splits_impl; [|exact IHl]. intros j c' Hj. simpl in *. by rewrite Hj, orb_true_r.
  - eapply tree_splits_impl; [|exact IHh]. intros j c' Hj. simpl in *. by rewrite Hj, orb_true_r.
Qed.

Lemma tested_splits t : t ∈ forest → tree_splits (λ i _, tested (Z.of_N i)) t = true.
Proof.
  intros Ht. eapply tree_splits_impl; [|apply tree_tests_splits]. intros i c Hi.
  apply existsb_exists. exists t. split; [by apply list_elem_of_In|done].
Qed.

Lemma forest_splits_bound t : t ∈ forest →
  tree_splits (λ i _, (i <? N.of_nat tested_bound)%N) t = true.
Proof.
  intros Ht%list_elem_of_In. by apply (proj1 (forallb_forall _ _) forest_bound).
Qed.

Lemma tree_tests_range ok b t : tree_splits (λ i _, ok (Z.of_N i)) t = true →
  tree_tests b t = true → ok b = true.
Proof.
  induction t as [v|i c low IHl high IHh]; [done|].
  intros (? & ? & ?)%tree_splits_Split. simpl.
  rewrite !orb_true_iff. intros [[Hb%Z.eqb_eq|]|]; auto. by subst b.
Qed.

(** Everything the model tests is below the bound. *)
Lemma tested_below b : tested b = true → b < Z.of_nat tested_bound.
Proof.
  intros (t & Ht & Hb)%existsb_exists. apply list_elem_of_In in Ht.
  apply Z.ltb_lt.
  apply (tree_tests_range (λ b, b <? Z.of_nat tested_bound) b t); [|done].
  eapply tree_splits_impl; [|by apply forest_splits_bound].
  intros i c Hi%N.ltb_lt. apply Z.ltb_lt. lia.
Qed.

Lemma mapM_agree {A B} (f g : A → option B) l :
  (∀ x, x ∈ l → f x = g x) → mapM f l = mapM g l.
Proof.
  induction l as [|x l IH]; intros Hf; [done|]. simpl. rewrite Hf by set_solver.
  destruct (g x); [|done]. simpl. rewrite IH by set_solver. done.
Qed.

Lemma margin_total input : (tested_bound ≤ length input)%nat → is_Some (margin forest input).
Proof.
  intros Hl. unfold margin. rewrite fmap_is_Some. apply mapM_is_Some, Forall_forall.
  intros t Ht. eapply tree_eval_total; [exact Hl|by apply forest_splits_bound].
Qed.

Lemma margin_agree input1 input2 :
  (∀ i, tested (Z.of_nat i) = true → input1 !! i = input2 !! i) →
  margin forest input1 = margin forest input2.
Proof.
  intros Hag. unfold margin. f_equal. apply mapM_agree. intros t Ht.
  apply (tree_eval_agree (λ i, tested (Z.of_N i))); [|by apply tested_splits].
  intros i Hi. apply Hag. cbv beta in Hi. by rewrite N_nat_Z.
Qed.

Lemma CheckMessage_margin content : ∃ vec m,
  Features (NewVectorizer VectorSize) content = Some vec ∧ margin forest vec = Some m ∧
  CheckMessage NewAnalysis content = Some (sigmoid m, f64_ltb Threshold (sigmoid m)).
Proof.
  destruct (Features_lookup (NewVectorizer VectorSize) content ltac:(done))
    as (vec & Hf & Hl & _). cbn [vz_size] in Hl.
  destruct (margin_total vec) as [m Hm]; [unfold VectorSize in Hl; unfold tested_bound; lia|].
  exists vec, m. split_and!; [done..|].
  unfold CheckMessage, PredictToxicity. simpl an_vectorizer. rewrite Hf. simpl.
  rewrite Hm. done.
Qed.

(** Which of the tested components the words of a message mark. *)
Definition footprint (content : string) (b : Z) : bool :=
  tested b && bool_decide (b ∈ bucket VectorSize <$> words_of content).

Lemma features_agree content content' vec vec' i :
  (∀ b, footprint content b = footprint content' b) →
  Features (NewVectorizer VectorSize) content = Some vec →
  Features (NewVectorizer VectorSize) content' = Some vec' →
  tested (Z.of_nat i) = true → vec !! i = vec' !! i.
Proof.
  intros Hfp Hf Hf' Hi.
  destruct (Features_lookup (NewVectorizer VectorSize) content ltac:(done)) as (v & Hv & _ & Hl).
  destruct (Features_lookup (NewVectorizer VectorSize) content' ltac:(done))
    as (v' & Hv' & _ & Hl'). simplify_eq. cbn [vz_size] in *.
  pose proof (tested_below _ Hi). assert (Z.of_nat i < VectorSize).
  { unfold tested_bound, VectorSize in *. lia. }
  rewrite Hl, Hl' by done. specialize (Hfp (Z.of_nat i)). unfold footprint in Hfp.
  rewrite Hi in Hfp. cbn [andb] in Hfp. by rewrite Hfp.
Qed.

Lemma CheckMessage_footprint_eq content content' :
  (∀ b, footprint content b = footprint content' b) →
  CheckMessage NewAnalysis content = CheckMessage NewAnalysis content'.
Proof.
  intros Hfp.
  destruct (CheckMessage_margin content) as (vec & m & Hf & Hm & ->).
  destruct (CheckMessage_margin content') as (vec' & m' & Hf' & Hm' & ->).
  assert (margin forest vec = margin forest vec') as He by (apply margin_agree; intros i Hi;
    by apply (features_agree content content')).
  rewrite Hm, Hm' in He. by injection He as ->.
Qed.

(** C21. Every message is scored, without a panic, with the probability the model
    gives it, and flagged exactly when the score is above the threshold; the
    score depends only on which of the components the model tests are marked by
    the words of the message: not on their order, their number, their case, or on
    any other word. *)
Theorem CheckMessage_footprint content content' :
  (∀ b, footprint content b = footprint content' b) →
  CheckMessage NewAnalysis content = CheckMessage NewAnalysis content' ∧
  ∃ vec score, Features (NewVectorizer VectorSize) content = Some vec ∧
    PredictToxicity vec = Some [f64_sub f64_one score; score] ∧
    CheckMessage NewAnalysis content = Some (score, f64_ltb Threshold score).
Proof.
  intros Hfp. split; [by apply CheckMessage_footprint_eq|].
  destruct (CheckMessage_margin content) as (vec & m & Hf & Hm & Hc).
  exists vec, (sigmoid m). unfold PredictToxicity. by rewrite Hm.
Qed.

(** ** The size of the vector

    The model only tests components below [tested_bound]: it was trained on
    vectors of 1024 components ([ai/gen/train.py] passes [size=1024]), while the
    words are hashed into 4096.  A message whose words all hash above is scored
    as the empty message. *)
Theorem unseen_words content :
  Forall (λ w, Z.of_nat tested_bound ≤ bucket VectorSize w) (words_of content) →
  CheckMessage NewAnalysis content = CheckMessage NewAnalysis "".
Proof.
  intros Hw. apply CheckMessage_footprint_eq. intros b. unfold footprint.
  destruct (tested b) eqn:Hb; [|done]. cbn [andb]. apply tested_below in Hb.
  apply bool_decide_ext. split; [|by intros ?%not_elem_of_nil].
  intros (w & -> & Hin)%list_elem_of_fmap.
  pose proof (proj1 (Forall_forall _ _) Hw w Hin) as H. cbv beta in H. lia.
Qed.
End Model.

(** The word the training data insists on ([naze], repeated two thousand times
    in [ai/gen/train.py]) is not seen by the model: it is scored as the empty
    message, whose margin is negative, while a vector of the size the model was
    trained with gives it a margin above five. *)
Theorem trained_word_is_unseen `{MathExp, UnicodeTables} :
  CheckMessage NewAnalysis "naze" = CheckMessage NewAnalysis "" ∧
  (m ← (Features (NewVectorizer 4096) "naze" ≫= margin forest);
   Some (f64_ltb m f64_zero)) = Some true ∧
  (m ← (Features (NewVectorizer 1024) "naze" ≫= margin forest);
   Some (f64_ltb (f64_of_Z 5) m)) = Some true.
Proof.
  split_and!; [|by vm_compute..].
  apply unseen_words. assert (words_of "naze" = ["naze"]) as -> by (by vm_compute).
  apply Forall_singleton. apply Z.leb_le. by vm_compute.
Qed.

(** ** Repeated words

    The model was trained on counts, and [Features] marks presence: a component
    is zero or one, so that the splits at two and three are always taken on the
    low side. *)
Definition at_one (_ : N) (c : dec) : bool := bool_decide (d_num c = 10 ∧ d_scale c = 1%N).
Definition above_one (c : dec) : bool :=
  f64_ltb f64_one (f64_of_dec c) && f64_ltb f64_zero (f64_of_dec c).

Lemma forest_thresholds :
  forallb (tree_splits (λ i c, at_one i c || above_one c)) forest = true.
Proof. by vm_compute. Qed.

Lemma margin_fmap (f : tree → tree) trees input :
  (∀ t, t ∈ trees → tree_eval input (f t) = tree_eval input t) →
  margin (f <$> trees) input = margin trees input.
Proof.
  intros Hf. unfold margin. f_equal. induction trees as [|t trees IH]; [done|].
  rewrite fmap_cons. simpl. rewrite Hf by set_solver. destruct (tree_eval input t); [|done].
  simpl. rewrite IH by set_solver. done.
Qed.

(** Of the 14214 conditionals of the model, 449 can be removed without changing
    any score. *)
Theorem repeated_words_do_not_count `{UnicodeTables} content vec :
  Features (NewVectorizer VectorSize) content = Some vec →
  margin (prune at_one <$> forest) vec = margin forest vec ∧
  foldr (λ t n, conditionals t + n) 0 forest = 14214 ∧
  foldr (λ t n, conditionals (prune at_one t) + n) 0 forest = 14214 - 449.
Proof.
  intros Hf. split; [|by vm_compute].
  destruct (Features_lookup (NewVectorizer VectorSize) content ltac:(done))
    as (v & Hv & Hl & Hb). simplify_eq. cbn [vz_size] in *.
  apply margin_fmap. intros t Ht. apply (prune_eval _ above_one).
  - intros c i x [H1 H0]%andb_true_iff Hx. pose proof (lookup_lt_Some _ _ _ Hx).
    rewrite Hb in Hx by lia. simplify_eq. by case_bool_decide.
  - apply list_elem_of_In in Ht. by apply (proj1 (forallb_forall _ _) forest_thresholds).
  - eapply tree_eval_total; [|by apply forest_splits_bound].
    unfold tested_bound, VectorSize in *. lia.
Qed.

(** ** Witness *)

(** The first terms of the exponential series, for the example. *)
Definition SeriesExp : MathExp :=
  {| math_Exp x := f64_add f64_one (f64_add x (f64_div (f64_mul x x) (f64_of_Z 2))) |}.

Lemma CheckMessage_footprint_witness :
  @CheckMessage SeriesExp Latin1Tables NewAnalysis "You naze, you" =
  @CheckMessage SeriesExp Latin1Tables NewAnalysis "yOU".
Proof.
  apply (@CheckMessage_footprint SeriesExp Latin1Tables "You naze, you" "yOU").
  intros b. unfold footprint. destruct (tested b) eqn:Hb; [|done]. cbn [andb].
  apply tested_below in Hb. apply bool_decide_ext.
  assert (bucket VectorSize <$> @words_of Latin1Tables "You naze, you" = [156; 3223; 156]) as ->
    by (by vm_compute).
  assert (bucket VectorSize <$> @words_of Latin1Tables "yOU" = [156]) as -> by (by vm_compute).
  unfold tested_bound in Hb. set_unfold. intuition lia.
Defined.
