(* ===== verification/Config.v ===== *)
(** * Config: the configuration of the programs ([internal/config.go])

    The structs, and the text of the retry policy given to gRPC.  Reading the
    environment is the work of a library: the programs take its result as an
    input. *)

From Stdlib Require Import Ascii String SpecFloat.
From S2P Require Import Prelude Errors Env Text.

(** ** Formatting floats: the verb [%.pf]

    The exact value times [10 ^ p], rounded to the nearest integer, ties to
    even. *)
Definition round_half_even (n d : Z) : Z :=
  let q := n / d in
  match 2 * (n - q * d) ?= d with
  | Lt => q
  | Gt => q + 1
  | Eq => if Z.even q then q else q + 1
  end.

Definition fixed_digits (p : nat) (n : Z) : string :=
  fmt_d (n / 10 ^ Z.of_nat p) +:+
  match p with O => "" | _ => "." +:+ digits p (n mod 10 ^ Z.of_nat p) end.

Definition fmt_fixed (p : nat) (f : float64) : string :=
  let sign (s : bool) := if s then "-" else "" in
  match f with
  | S754_zero s => sign s +:+ fixed_digits p 0
  | S754_infinity s => (if s then "-" else "+") +:+ "Inf"
  | S754_nan => "NaN"
  | S754_finite s m e =>
      let n := Z.pos m * 10 ^ Z.of_nat p in
      sign s +:+ fixed_digits p (if 0 <=? e then n * 2 ^ e else round_half_even n (2 ^ (- e)))
  end.

(** ** [GrpcConfig] *)

Record GrpcConfig := MkGrpcConfig {
  gc_MaxAttempts : Z; gc_InitialBackoff : duration; gc_MaxBackoff : duration;
  gc_BackoffMultiplier : float64 }.

Definition dquote : string := String (byte_of 34) "".
Definition quoted (s : string) : string := dquote +:+ s +:+ dquote.
Definition linefeed : string := String (byte_of 10) "".
(** A line of the text, after its indentation. *)
Definition line (indent : nat) (l : list string) : string :=
  linefeed +:+ String.concat "" (replicate indent " ") +:+ String.concat "" l.

Definition ToServiceConfig (g : GrpcConfig) (serviceName : string) : string :=
  "{" +:+
  line 8 [quoted "methodConfig"; ": [{"] +:+
  line 12 [quoted "name"; ": [{"; quoted "service"; ": "; quoted serviceName; "}],"] +:+
  line 12 [quoted "waitForReady"; ": true,"] +:+
  line 12 [quoted "retryPolicy"; ": {"] +:+
  line 16 [quoted "MaxAttempts"; ": "; fmt_d (gc_MaxAttempts g); ","] +:+
  line 16 [quoted "InitialBackoff"; ": ";
           quoted (fmt_fixed 3 (duration_Seconds (gc_InitialBackoff g)) +:+ "s"); ","] +:+
  line 16 [quoted "MaxBackoff"; ": ";
           quoted (fmt_fixed 3 (duration_Seconds (gc_MaxBackoff g)) +:+ "s"); ","] +:+
  line 16 [quoted "BackoffMultiplier"; ": "; fmt_fixed 1 (gc_BackoffMultiplier g); ","] +:+
  line 16 [quoted "RetryableStatusCodes"; ": ["; quoted "UNAVAILABLE"; "]"] +:+
  line 12 ["}"] +:+
  line 8 ["}]"] +:+
  line 4 ["}"].

(** ** [Config] *)

Record Config := MkConfig {
  c_BufferSize : Z; c_ConnectionBufferSize : Z; c_NumberOfWorkers : Z;
  c_CharReplacement : string; c_LimitMessages : option Z; c_SinkTimeout : duration;
  c_MetricInterval : duration; c_IngestionTimeout : duration; c_BufferTimeout : duration;
  c_SpecialistTimeout : duration; c_LatencyThreshold : duration; c_RestartInterval : duration;
  c_AuthTokenDuration : duration; c_AuthenticationEnabled : bool; c_BadgerFilepath : string;
  c_BlugeFilepath : string; c_LogLevel : string; c_LowCapacityThreshold : Z;
  c_MaxContentLength : Z; c_MinScoring : float64; c_MaxScoring : float64;
  c_MaxAnalyzedEvent : Z; c_Host : string; c_MasterPort : Z; c_ScannerPort : Z; c_DebugPort : Z;
  c_MaxSpecialistBootDuration : duration; c_ToxicityBinPath : string; c_ToxicityPort : Z;
  c_SentimentBinPath : string; c_SentimentPort : Z; c_EnableSpecialists : bool;
  c_ScannerWorkerNb : Z; c_DownloaderWorkerNb : Z; c_FileTransferInterval : duration;
  c_PendingFileBatchSize : Z; c_DriveID : string; c_ScannerBackpressureLowThreshold : Z;
  c_ScannerBackpressureHardThreshold : Z; c_ChunkSizeKb : Z; c_MaxFileSizeMb : Z;
  c_TmpDownloadingDir : string; c_ProgressLogInterval : duration; c_GrpcConfig : GrpcConfig;
  c_MaxTmpFileToProcess : Z; c_FileTmpJobInterval : duration }.

(** The defaults of the environment. *)
Definition default_GrpcConfig : GrpcConfig :=
  MkGrpcConfig 5 (100 * millisecond) second (f64_of_Z 2).

Example fixed_examples :
  fmt_fixed 3 (duration_Seconds (100 * millisecond)) = "0.100" ∧
  fmt_fixed 3 (duration_Seconds (1500 * millisecond)) = "1.500" ∧
  fmt_fixed 1 (f64_of_Z 2) = "2.0" ∧ fmt_fixed 0 (f64_div (f64_of_Z 5) (f64_of_Z 2)) = "2".
Proof. by vm_compute. Qed.
