(* ===== verification/Boot.v ===== *)
(** * Boot: launching the specialists ([runtime/coordinator.go])

    [startSpecialist] launches a child process, connects to it and waits until
    the connection is ready; [Init] does so for every configured specialist and
    hands the process to the health monitor over a bounded channel.  What the
    operating system and gRPC answer is an argument of each call; the child
    processes and the connections that are alive are part of the state, so that
    the theorems can say what a failed start leaves behind. *)

From Stdlib Require Import Ascii String.
From S2P Require Import Prelude Errors Env Text Config Domain Jobs.

(** ** [runtime/log_writer.go] *)

Record specialistLogWriter := MkLogWriter { lw_prefix : string; lw_isError : bool }.
Inductive log_level := LevelInfo | LevelError.

(** What is logged, and the number of bytes taken. *)
Definition log_Write (w : specialistLogWriter) (p : string)
  : list (log_level * string * string) * Z :=
  if strlen p =? 0 then ([], 0)
  else ([((if lw_isError w then LevelError else LevelInfo), p, lw_prefix w)], strlen p).

(** ** The command of a specialist *)

Record exec_Cmd := MkCmd {
  cmd_Path : string; cmd_Args : list string; cmd_Pdeathsig : bool; cmd_Env : list string;
  cmd_Dir : string; cmd_Stdout : specialistLogWriter; cmd_Stderr : specialistLogWriter }.

Definition CommandContext (name : string) (args : list string) : exec_Cmd :=
  MkCmd name (name :: args) false [] "" (MkLogWriter "" false) (MkLogWriter "" false).

(** [proc_linux.go] and [proc_windows.go]. *)
Definition setPlatformSpecificAttrs (linux : bool) (cmd : exec_Cmd) : exec_Cmd :=
  if linux
  then MkCmd (cmd_Path cmd) (cmd_Args cmd) true (cmd_Env cmd) (cmd_Dir cmd) (cmd_Stdout cmd)
         (cmd_Stderr cmd)
  else cmd.

Definition python_of (windows : bool) : string :=
  if windows then ".\venv\Scripts\python.exe" else "./venv/bin/python3".

Definition specialist_cmd (windows : bool) (environ : list string) (cwd : string) (cfg : Config)
    (logLevel : string) : exec_Cmd :=
  let cmd := CommandContext (python_of windows)
    [cfg_BinPath cfg; "-id"; cfg_ID cfg; "-port"; fmt_d (cfg_Port cfg); "-level"; logLevel] in
  let cmd := setPlatformSpecificAttrs (negb windows) cmd in
  MkCmd (cmd_Path cmd) (cmd_Args cmd) (cmd_Pdeathsig cmd)
    (environ ++ ["PYTHONPATH=."; "PROTOCOL_BUFFERS_PYTHON_IMPLEMENTATION=python"]) cwd
    (MkLogWriter (cfg_ID cfg) false) (MkLogWriter (cfg_ID cfg) true).

(** ** [waitForReady]

    An observation is the state read by [GetState] and whether
    [WaitForStateChange] saw it change before the context ended. *)

Inductive connectivity := Idle | Connecting | Ready | TransientFailure | Shutdown.
#[export] Instance connectivity_eq_dec : EqDecision connectivity.
Proof. solve_decision. Defined.
Definition connectivity_String (s : connectivity) : string :=
  match s with
  | Idle => "IDLE" | Connecting => "CONNECTING" | Ready => "READY"
  | TransientFailure => "TRANSIENT_FAILURE" | Shutdown => "SHUTDOWN"
  end.

Inductive conn_call := Connect | ResetConnectBackoff.

(** The calls made on the connection, and the outcome: [None] while the loop
    still waits. *)
Fixpoint ready_loop (obs : list (connectivity * bool)) : list conn_call * option (option error) :=
  match obs with
  | [] => ([], None)
  | (state, changed) :: obs =>
      if bool_decide (state = Ready) then ([], Some None)
      else
        let calls := (if bool_decide (state = Idle) then [Connect] else []) ++
                     (if bool_decide (state = TransientFailure) then [ResetConnectBackoff] else []) in
        if negb changed then
          (calls, Some (Some (Opaque ("timeout reached while waiting, last state: " +:+
                                      connectivity_String state))))
        else let '(calls', r) := ready_loop obs in (calls ++ calls', r)
  end.
Definition waitForReady (obs : list (connectivity * bool)) : list conn_call * option (option error) :=
  let '(calls, r) := ready_loop obs in (Connect :: calls, r).

(** ** [startSpecialist] *)

(** The child processes and the connections of the program. *)
Record world := MkWorld { w_procs : list Z; w_conns : list (Z * string) }.

Definition Kill (pid : Z) (w : world) : world :=
  MkWorld (List.filter (λ p, negb (p =? pid)) (w_procs w)) (w_conns w).
(** A connection is named by the process it was made for, and its address. *)
Definition conn_Close (conn : Z * string) (w : world) : world :=
  MkWorld (w_procs w) (List.filter (λ c, negb (bool_decide (c = conn))) (w_conns w)).

(** What the calls of one launch answer. *)
Record launch := MkLaunch {
  ln_Stat : option error; ln_Getwd : result error string; ln_Start : result error Z;
  ln_NewClient : option error; ln_states : list (connectivity * bool); ln_now : time }.

(** The world it leaves, and [None] while it still waits for the connection. *)
Definition startSpecialist (windows : bool) (environ : list string) (cfg : Config)
    (logLevel : string) (ans : launch) (w : world)
  : world * option (result error (SpecialistClient * exec_Cmd)) :=
  match ln_Stat ans with
  | Some _ => (w, Some (Err (Wrapped (error_text ErrSpecialistNotFound +:+ ": " +:+ cfg_BinPath cfg)
                              ErrSpecialistNotFound)))
  | None =>
      match ln_Getwd ans with
      | Err err => (w, Some (Err (Errorf "failed to get current working directory: " err)))
      | Ok cwd =>
          let cmd := specialist_cmd windows environ cwd cfg logLevel in
          match ln_Start ans with
          | Err err =>
              (w, Some (Err (Wrapped (error_text ErrSpecialistStartFailed +:+ ": " +:+ error_text err)
                               ErrSpecialistStartFailed)))
          | Ok pid =>
              let w := MkWorld (w_procs w ++ [pid]) (w_conns w) in
              let addr := cfg_Host cfg +:+ ":" +:+ fmt_d (cfg_Port cfg) in
              match ln_NewClient ans with
              | Some err =>
                  (Kill pid w,
                   Some (Err (Errorf ("failed to create gRPC client for " +:+ cfg_ID cfg +:+ ": ") err)))
              | None =>
                  let w := MkWorld (w_procs w) (w_conns w ++ [(pid, addr)]) in
                  match (waitForReady (ln_states ans)).2 with
                  | None => (w, None)
                  | Some (Some err) =>
                      (conn_Close (pid, addr) (Kill pid w),
                       Some (Err (Errorf ("specialist " +:+ cfg_ID cfg +:+ " (port " +:+
                                    fmt_d (cfg_Port cfg) +:+ ") failed to become ready: ") err)))
                  | Some None =>
                      (w, Some (Ok (MkSpecialistClient (cfg_ID cfg) pid (cfg_Port cfg) (ln_now ans)
                                      (cfg_Capabilities cfg), cmd)))
                  end
              end
          end
      end
  end.

(** ** [Init] *)

(** [select]: the context is done, with its error, or the process is sent when
    the channel has room; [None] when neither can proceed. *)
Definition track (cap : nat) (m : Coordinator) (ctx : option error) (done_first : bool)
    (p : Process) : option (Coordinator * option error) :=
  let room := (length (co_processTrackerChan m) <? cap)%nat in
  match ctx with
  | Some err => if done_first || negb room then Some (m, Some err)
                else Some (MkCoordinator (co_specialists m) (co_processTrackerChan m ++ [p])
                             (co_maxFileSizeMB m), None)
  | None => if room then Some (MkCoordinator (co_specialists m) (co_processTrackerChan m ++ [p])
                                 (co_maxFileSizeMB m), None)
            else None
  end.

(** What the outside decides in one turn: the launch, and the context. *)
Record turn := MkTurn { tn_launch : launch; tn_ctx : option error; tn_done_first : bool }.

(** The outcome of [Init] is [None] while a turn is blocked. *)
Fixpoint Init (windows : bool) (environ : list string) (logLevel : string) (cap : nat)
    (configs : list (Config * turn)) (m : Coordinator) (w : world)
  : Coordinator * world * option (option error) :=
  match configs with
  | [] => (m, w, Some None)
  | (cfg, t) :: configs =>
      match startSpecialist windows environ cfg logLevel (tn_launch t) w with
      | (w, None) => (m, w, None)
      | (w, Some (Err err)) =>
          (m, w, Some (Some (Errorf ("failed to initialize specialist " +:+ cfg_ID cfg +:+ ": ") err)))
      | (w, Some (Ok (sClient, _))) =>
          let m := coordinator_Add m sClient in
          match track cap m (tn_ctx t) (tn_done_first t)
                  (MkProcess (int32 (sp_Pid sClient)) (sp_Id sClient)) with
          | None => (m, w, None)
          | Some (m, Some err) => (m, w, Some (Some err))
          | Some (m, None) => Init windows environ logLevel cap configs m w
          end
      end
  end.

(** ** A start leaves nothing behind *)

(** Every child process has its connection, in the order they were made. *)
Definition world_ok (w : world) : Prop := NoDup (w_procs w) ∧ (w_conns w).*1 = w_procs w.

(** The operating system does not hand out the identifier of a living child. *)
Definition fresh_pid (ans : launch) (w : world) : Prop :=
  ∀ pid, ln_Start ans = Ok pid → pid ∉ w_procs w.

Lemma Kill_last pid procs conns : pid ∉ procs → Kill pid (MkWorld (procs ++ [pid]) conns) =
  MkWorld procs conns.
Proof.
  intros Hp. unfold Kill. cbn [w_procs w_conns]. f_equal. rewrite List.filter_app. simpl.
  rewrite Z.eqb_refl. cbn [negb]. rewrite app_nil_r. apply lfilter_all. intros x Hx.
  destruct (Z.eqb_spec x pid); [by subst|done].
Qed.

Lemma conn_Close_last c procs conns : c ∉ conns →
  conn_Close c (MkWorld procs (conns ++ [c])) = MkWorld procs conns.
Proof.
  intros Hp. unfold conn_Close. cbn [w_procs w_conns]. f_equal. rewrite List.filter_app. simpl.
  rewrite bool_decide_true by done. cbn [negb]. rewrite app_nil_r. apply lfilter_all.
  intros x Hx. rewrite bool_decide_false; [done|by intros ->].
Qed.

Lemma startSpecialist_spec windows environ cfg logLevel ans w w' r :
  world_ok w → fresh_pid ans w →
  startSpecialist windows environ cfg logLevel ans w = (w', r) →
  match r with
  | Some (Err _) => w' = w
  | Some (Ok (c, cmd)) =>
      sp_Pid c ∉ w_procs w ∧ sp_Id c = cfg_ID cfg ∧ sp_Capabilities c = cfg_Capabilities cfg ∧
      w_procs w' = w_procs w ++ [sp_Pid c] ∧
      w_conns w' = w_conns w ++ [(sp_Pid c, cfg_Host cfg +:+ ":" +:+ fmt_d (cfg_Port cfg))]
  | None =>
      ∃ pid addr, ln_Start ans = Ok pid ∧ (waitForReady (ln_states ans)).2 = None ∧
        w_procs w' = w_procs w ++ [pid] ∧ w_conns w' = w_conns w ++ [(pid, addr)]
  end.
Proof.
  intros [Hnd Hc] Hfresh. unfold startSpecialist.
  destruct (ln_Stat ans); [by intros [= <- <-]|].
  destruct (ln_Getwd ans) as [cwd|]; [|by intros [= <- <-]].
  destruct (ln_Start ans) as [pid|] eqn:Hs; [|by intros [= <- <-]].
  specialize (Hfresh pid Hs). destruct w as [procs conns]. cbn [w_procs w_conns] in *.
  destruct (ln_NewClient ans); [intros [= <- <-]; by apply Kill_last|].
  destruct ((waitForReady (ln_states ans)).2) as [[err|]|];
    intros [= <- <-]; [|by split_and!|by eexists _, _].
  rewrite Kill_last by done. apply conn_Close_last.
  intros Hin. apply Hfresh. rewrite <- Hc. apply list_elem_of_fmap.
  by eexists (pid, _).
Qed.

(** One more process and its connection. *)
Lemma world_ok_snoc w w' pid addr : world_ok w → pid ∉ w_procs w →
  w_procs w' = w_procs w ++ [pid] → w_conns w' = w_conns w ++ [(pid, addr)] → world_ok w'.
Proof.
  intros [H1 H2] Hp Hpr Hco. split; [|rewrite Hco, fmap_app, H2, Hpr; done].
  rewrite Hpr. apply NoDup_app. split_and!; [done| |apply NoDup_singleton].
  by intros x Hx ->%list_elem_of_singleton.
Qed.

(** The loop ends with success exactly when it sees the connection ready before a
    wait expires. *)
Lemma ready_loop_spec obs : ∀ calls, ready_loop obs = (calls, Some None) ↔
  ∃ before b after, obs = before ++ (Ready, b) :: after ∧
    Forall (λ o, o.1 ≠ Ready ∧ o.2 = true) before ∧
    calls = before ≫= λ o, (if bool_decide (o.1 = Idle) then [Connect] else []) ++
              (if bool_decide (o.1 = TransientFailure) then [ResetConnectBackoff] else []).
Proof.
  induction obs as [|[state changed] obs IH]; intros calls.
  { split; [done|]. by intros ([] & ? & ? & ? & _). }
  cbn [ready_loop]. case_bool_decide as Hr.
  - subst state. split.
    + intros [= <-]. exists [], changed, obs. by split_and!.
    + intros (before & b & after & E & HF & ->). destruct before as [|[st ch] before]; [done|].
      injection E as <- <- ->. apply Forall_cons in HF as [[? _] _]. done.
  - destruct changed; cbn [negb].
    + destruct (ready_loop obs) as [calls' r] eqn:Hl. split.
      * intros [= <- ->]. destruct (proj1 (IH calls') eq_refl) as (before & b & after & -> & HF & ->).
        exists ((state, true) :: before), b, after. split_and!; [done|by constructor|done].
      * intros (before & b & after & E & HF & ->).
        destruct before as [|[st ch] before]; [by injection E as ->|].
        injection E as <- <- ->. apply Forall_cons in HF as [_ HF].
        assert ((calls', r) = (before ≫= _, Some None)) as [= -> ->] by (apply IH; by eexists _, _, _).
        done.
    + split; [done|]. intros (before & b & after & E & HF & ->).
      destruct before as [|[st ch] before]; [by injection E as ->|].
      injection E as <- <- ->. apply Forall_cons in HF as [[_ ?] _]. done.
Qed.

(** ** What [Init] leaves *)

Definition register (M : gmap Metric SpecialistClient) (l : list SpecialistClient)
  : gmap Metric SpecialistClient := foldl (λ M c, <[sp_Id c := c]> M) M l.

Definition pids_of (configs : list (Config * turn)) : list Z :=
  omap (λ ct, match ln_Start (tn_launch ct.2) with Ok pid => Some pid | Err _ => None end) configs.

Definition process_of (c : SpecialistClient) : Process := MkProcess (int32 (sp_Pid c)) (sp_Id c).

Lemma track_spec cap m ctx first p m' r : track cap m ctx first p = Some (m', r) →
  co_specialists m' = co_specialists m ∧
  co_processTrackerChan m' = co_processTrackerChan m ++ (if r then [] else [p]).
Proof.
  unfold track. intros H. repeat case_match; simplify_eq; cbn; by rewrite ?app_nil_r.
Qed.

Lemma startSpecialist_pid windows environ cfg logLevel ans w w' c cmd :
  startSpecialist windows environ cfg logLevel ans w = (w', Some (Ok (c, cmd))) →
  ln_Start ans = Ok (sp_Pid c).
Proof. unfold startSpecialist. intros H. repeat case_match; by simplify_eq/=. Qed.

(** The process of a launch that is waited for. *)
Definition awaited (configs : list (Config * turn)) (started : list SpecialistClient) (waiting : list Z)
  : Prop :=
  ∀ pid, pid ∈ waiting → ∃ cfg t, configs !! length started = Some (cfg, t) ∧
    ln_Start (tn_launch t) = Ok pid ∧ (waitForReady (ln_states (tn_launch t))).2 = None.

(** A prefix of the configured specialists is started; the processes that live are
    theirs, and that of the launch in progress when the call is blocked waiting for it;
    they are registered, and the health monitor is told of each, except
    for the last when the call ends or blocks while telling. *)
Lemma Init_spec windows environ logLevel cap configs : ∀ m w m' w' r,
  world_ok w → NoDup (w_procs w ++ pids_of configs) →
  Init windows environ logLevel cap configs m w = (m', w', r) →
  ∃ started waiting, sp_Id <$> started = take (length started) (cfg_ID <$> configs.*1) ∧
    w_procs w' = w_procs w ++ (sp_Pid <$> started) ++ waiting ∧ world_ok w' ∧
    awaited configs started waiting ∧ (length waiting ≤ 1)%nat ∧ (r ≠ None → waiting = []) ∧
    co_specialists m' = register (co_specialists m) started ∧
    (∃ told, told `prefix_of` started ∧ (length started ≤ S (length told))%nat ∧
       co_processTrackerChan m' = co_processTrackerChan m ++ (process_of <$> told) ∧
       (r = Some None → told = started)) ∧
    (r = Some None → length started = length configs).
Proof.
  induction configs as [|[cfg t] configs IH]; intros m w m' w' r Hw Hnd; cbn [Init].
  { intros [= <- <- <-]. exists [], []. split_and!; rewrite ?app_nil_r; try done.
    - by intros ? ?%elem_of_nil.
    - simpl; lia.
    - exists []. rewrite app_nil_r. split_and!; [done|simpl; lia|done..]. }
  assert (fresh_pid (tn_launch t) w) as Hfresh.
  { intros pid Hs. cbn in Hnd. rewrite Hs in Hnd. apply NoDup_app in Hnd as (_ & Hd & _).
    intros Hin. specialize (Hd _ Hin). set_solver. }
  assert (∀ started, awaited ((cfg, t) :: configs) started []) as Hnone by by intros ? ? ?%elem_of_nil.
  destruct (startSpecialist _ _ _ _ _ w) as [w1 [[[c cmd]|err]|]] eqn:Hs.
  - pose proof (startSpecialist_pid _ _ _ _ _ _ _ _ _ Hs) as Hpid.
    apply startSpecialist_spec in Hs as (Hp & Hid & _ & Hpr & Hco); [|done..].
    cbn in Hnd. rewrite Hpid in Hnd.
    pose proof (world_ok_snoc _ _ _ _ Hw Hp Hpr Hco) as Hw1.
    destruct (track _ _ _ _ _) as [[m1 [err|]]|] eqn:Ht.
    + intros [= <- <- <-]. apply track_spec in Ht as [Hm Hch].
      exists [c], []. rewrite Hm, Hch, !app_nil_r.
      split_and!; [by cbn; rewrite Hid|done|done|done|simpl; lia|done|done| |done].
      exists []. rewrite app_nil_r. split_and!; [apply prefix_nil|simpl; lia|done..].
    + intros HI. apply track_spec in Ht as [Hm Hch].
      apply IH in HI as (started & waiting & Hids & Hpr' & Hw' & Ha & Hl & Hwr & Hm' &
                         (told & Htp & Htl & Htc & Hts) & Hall); [|done|by rewrite Hpr, <- app_assoc].
      exists (c :: started), waiting. split_and!; [|by rewrite Hpr', Hpr, <- app_assoc|done|exact Ha|done|done| | |].
      * cbn. by rewrite Hids, Hid.
      * by rewrite Hm', Hm.
      * exists (c :: told). split_and!; [by apply prefix_cons|cbn; lia| |].
        -- rewrite Htc, Hch. cbn. by rewrite <- app_assoc.
        -- intros Hr. by rewrite (Hts Hr).
      * intros ?. cbn. by rewrite Hall.
    + intros [= <- <- <-]. exists [c], [].
      split_and!; [by cbn; rewrite Hid|by rewrite app_nil_r|done|done|simpl; lia|done|done| |done].
      exists []. rewrite app_nil_r. split_and!; [apply prefix_nil|simpl; lia|done..].
  - apply startSpecialist_spec in Hs; [|done..]. cbn in Hs. subst w1. intros [= <- <- <-].
    exists [], []. rewrite !app_nil_r. split_and!; try done; [simpl; lia|].
    exists []. rewrite app_nil_r. split_and!; [done|simpl; lia|done..].
  - pose proof Hs as (pid & addr & Hpid & Hwait & Hpr & Hco)%startSpecialist_spec; [|done..].
    intros [= <- <- <-]. exists [], [pid]. split_and!; try done.
    + by eapply world_ok_snoc; [| |exact Hpr|exact Hco]; [|apply Hfresh].
    + intros x ->%list_elem_of_singleton. by exists cfg, t.
    + exists []. rewrite app_nil_r. split_and!; [done|simpl; lia|done..].
Qed.

Lemma register_lookup l : ∀ M, NoDup (sp_Id <$> l) → ∀ c, c ∈ l →
  register M l !! sp_Id c = Some c.
Proof.
  induction l as [|d l IH] using rev_ind; intros M Hnd c Hc; [by apply not_elem_of_nil in Hc|].
  rewrite fmap_app in Hnd. apply NoDup_app in Hnd as (Hnd & Hd & _).
  unfold register. rewrite foldl_app. cbn [foldl].
  apply elem_of_app in Hc as [Hc| ->%list_elem_of_singleton]; [|apply lookup_insert_eq].
  rewrite lookup_insert_ne; [by apply IH|]. intros E. apply (Hd (sp_Id c)).
  - by apply list_elem_of_fmap_2.
  - rewrite <- E. set_solver.
Qed.

Lemma register_only l : ∀ M id c, register M l !! id = Some c → (c ∈ l ∧ id = sp_Id c) ∨ M !! id = Some c.
Proof.
  induction l as [|d l IH] using rev_ind; intros M id c; [by right|].
  unfold register. rewrite foldl_app. cbn [foldl]. rewrite lookup_insert_Some.
  intros [[<- ->]|[_ H]]; [left; set_solver|].
  apply IH in H as [[]|]; [left; set_solver|by right].
Qed.


(** ** The channel of the health monitor

    With a context that is never done, as the master's, the call returns when the
    channel has room for all the specialists, and never otherwise, since nothing
    receives from the channel before it returns. *)
Lemma Init_room windows environ logLevel cap configs : ∀ m w,
  Forall (λ ct, tn_ctx ct.2 = None) configs →
  (∀ ct w, ct ∈ configs → ∃ w' c,
     startSpecialist windows environ ct.1 logLevel (tn_launch ct.2) w = (w', Some (Ok c))) →
  (length (co_processTrackerChan m) ≤ cap)%nat →
  (Init windows environ logLevel cap configs m w).2 =
    if (length (co_processTrackerChan m) + length configs <=? cap)%nat then Some None else None.
Proof.
  induction configs as [|[cfg t] configs IH]; intros m w Hctx Hst Hcap; cbn [Init].
  { rewrite (proj2 (Nat.leb_le _ _)) by (simpl; lia). done. }
  apply Forall_cons in Hctx as [Ht Hctx].
  destruct (Hst (cfg, t) w) as (w1 & [c cmd] & Hs); [set_solver|]. cbn [fst snd] in *. rewrite Hs.
  unfold track. rewrite Ht. cbn [co_processTrackerChan coordinator_Add].
  destruct (Nat.ltb_spec (length (co_processTrackerChan m)) cap) as [Hr|Hr].
  - rewrite IH; [|done|intros; apply Hst; set_solver|cbn; rewrite length_app; simpl; lia].
    cbn [co_processTrackerChan length]. rewrite length_app. cbn [length].
    by replace (length (co_processTrackerChan m) + 1 + length configs)%nat with
      (length (co_processTrackerChan m) + S (length configs))%nat by lia.
  - cbn [length]. rewrite (proj2 (Nat.leb_gt _ _)) by lia. done.
Qed.

(** ** Witness: a specialist that starts, and one that never becomes ready *)

Definition demo_turns : list (Config * turn) :=
  [(NewConfig MetricPDF "./services/pdf_specialist.py" "localhost" 50055 [],
    MkTurn (MkLaunch None (Ok "/srv") (Ok 101) None
              [(Idle, true); (Connecting, true); (Ready, true)] 0) None false);
   (NewConfig MetricAudio "./services/audio_specialist.py" "localhost" 50056 [],
    MkTurn (MkLaunch None (Ok "/srv") (Ok 102) None
              [(Connecting, true); (TransientFailure, false)] 0) None false)].

Definition demo_init : Coordinator * world * option (option error) :=
  Init false [] "INFO" 10 demo_turns (NewCoordinator 100) (MkWorld [] []).


(** While the second specialist is waited for, its process lives and is not registered. *)
Definition pending_turns : list (Config * turn) :=
  match demo_turns with
  | [t1; (cfg, t2)] =>
      [t1; (cfg, MkTurn (MkLaunch None (Ok "/srv") (Ok 102) None [(Connecting, true)] 0) None false)]
  | l => l
  end.
Lemma blocked_launch_lives :
  let '(m, w, r) := Init false [] "INFO" 10 pending_turns (NewCoordinator 100) (MkWorld [] []) in
  r = None ∧ w_procs w = [101; 102] ∧ co_specialists m !! MetricAudio = None.
Proof. by vm_compute. Qed.
