(* ===== verification/Defer.v ===== *)
(** * Defer: functions with deferred calls

    The bodies of the programs ([cmd/], [client/]) acquire resources, register
    with [defer] what releases them, and return an exit code at many points.
    [go] is a small monad for such bodies: it records what is done, keeps the
    stack of deferred releases, and stops at a [return] or where the program
    blocks for good.  [Balanced] is the discipline "what is opened is
    deferred", but for the resources that leak, closed under the constructs of the language,
    from which [finish_balanced] concludes that everything else is released, last first, on
    every path. *)

From S2P Require Import Prelude Errors.

Section Defer.
Context {R S : Type}.

Inductive action := Open (r : R) | Close (r : R) | Do (s : S).
#[global] Arguments action : clear implicits.
Inductive stop := Exit (code : Z) (err : option error) | Blocked (s : S).
#[global] Arguments stop : clear implicits.

Record frame := MkFrame { fr_trace : list action; fr_defers : list R }.
#[global] Arguments frame : clear implicits.

Definition go (X : Type) : Type := frame → frame * (X + stop).

Definition go_ret {X} (x : X) : go X := λ f, (f, inl x).
Definition go_bind {X Y} (m : go X) (k : X → go Y) : go Y := λ f,
  match m f with
  | (f', inl x) => k x f'
  | (f', inr s) => (f', inr s)
  end.
(** A call with no resource to release. *)
Definition go_do (s : S) : go unit := λ f, (MkFrame (fr_trace f ++ [Do s]) (fr_defers f), inl tt).
(** A resource is opened; a release is deferred; the two together. *)
Definition go_open (r : R) : go unit := λ f,
  (MkFrame (fr_trace f ++ [Open r]) (fr_defers f), inl tt).
Definition go_defer (r : R) : go unit := λ f,
  (MkFrame (fr_trace f) (fr_defers f ++ [r]), inl tt).
Definition acquire (r : R) : go unit := go_bind (go_open r) (λ _, go_defer r).
Definition go_return {X} (code : Z) (err : option error) : go X := λ f, (f, inr (Exit code err)).
Definition go_block {X} (s : S) : go X := λ f, (f, inr (Blocked s)).
(** [if err != nil { return code, wrap(err) }]. *)
Definition check {X} (r : result error X) (code : Z) (wrap : error → error) : go X :=
  match r with Ok x => go_ret x | Err e => go_return code (Some (wrap e)) end.
Definition check_err (e : option error) (code : Z) (wrap : error → error) : go unit :=
  match e with None => go_ret tt | Some e => go_return code (Some (wrap e)) end.

(** The whole function: on a return, the deferred calls run, last first. *)
Definition finish (m : go Empty_set) : list action * stop :=
  match m (MkFrame [] []) with
  | (f, inr (Exit code err)) => (fr_trace f ++ (Close <$> reverse (fr_defers f)), Exit code err)
  | (f, inr (Blocked s)) => (fr_trace f, Blocked s)
  | (_, inl x) => match x with end
  end.

(** ** The discipline *)

Definition opened (tr : list action) : list R :=
  omap (λ a, match a with Open r => Some r | _ => None end) tr.
Definition closed (tr : list action) : list R :=
  omap (λ a, match a with Close r => Some r | _ => None end) tr.

(** [leaks] are the resources whose release is not deferred. *)
Class Balanced (leaks : R → bool) {X} (m : go X) : Prop := balanced f : ∃ tr,
  fr_trace (m f).1 = fr_trace f ++ tr ∧ closed tr = [] ∧
  fr_defers (m f).1 = fr_defers f ++ List.filter (λ r, negb (leaks r)) (opened tr).

Section Discipline.
Context (leaks : R → bool).

#[export] Instance balanced_ret {X} (x : X) : Balanced leaks (go_ret x).
Proof. intros f. exists []. by rewrite !app_nil_r. Qed.
#[export] Instance balanced_return {X} code err : Balanced leaks (go_return (X:=X) code err).
Proof. intros f. exists []. by rewrite !app_nil_r. Qed.
#[export] Instance balanced_block {X} s : Balanced leaks (go_block (X:=X) s).
Proof. intros f. exists []. by rewrite !app_nil_r. Qed.
#[export] Instance balanced_do s : Balanced leaks (go_do s).
Proof. intros f. exists [Do s]. simpl. by rewrite app_nil_r. Qed.
Lemma balanced_open r : leaks r = true → Balanced leaks (go_open r).
Proof. intros Hr f. exists [Open r]. cbn. by rewrite Hr, app_nil_r. Qed.
Lemma balanced_acquire r : leaks r = false → Balanced leaks (acquire r).
Proof. intros Hr f. exists [Open r]. cbn. by rewrite Hr. Qed.
#[export] Instance balanced_check {X} (r : result error X) code wrap : Balanced leaks (check r code wrap).
Proof. destruct r; apply _. Qed.
#[export] Instance balanced_check_err e code wrap : Balanced leaks (check_err e code wrap).
Proof. destruct e; apply _. Qed.
#[export] Instance balanced_bind {X Y} (m : go X) (k : X → go Y) :
  Balanced leaks m → (∀ x, Balanced leaks (k x)) → Balanced leaks (go_bind m k).
Proof.
  intros Hm Hk f. unfold go_bind. destruct (Hm f) as (tr & Ht & Hc & Hd).
  destruct (m f) as [f' [x|s]]; cbn [fst] in *; [|by exists tr].
  destruct (Hk x f') as (tr' & Ht' & Hc' & Hd'). exists (tr ++ tr').
  unfold closed, opened in *. rewrite !omap_app, List.filter_app, Hc, Hc', Ht', Ht, Hd', Hd, !app_assoc. done.
Qed.
#[export] Instance balanced_if {X} (b : bool) (m1 m2 : go X) :
  Balanced leaks m1 → Balanced leaks m2 → Balanced leaks (if b then m1 else m2).
Proof. by destruct b. Qed.

(** Whatever path the function takes to a return, what it opened is closed, but for the
    leaks, once, in the reverse order, after everything else. *)
Lemma finish_balanced (m : go Empty_set) tr code err :
  Balanced leaks m → finish m = (tr, Exit code err) →
  ∃ body, tr = body ++ (Close <$> reverse (List.filter (λ r, negb (leaks r)) (opened body))) ∧
    closed body = [].
Proof.
  intros Hm. unfold finish. destruct (Hm (MkFrame [] [])) as (body & Ht & Hc & Hd).
  destruct (m (MkFrame [] [])) as [f [[]|[c e|s]]]; cbn [fst fr_trace fr_defers app] in *;
    intros [= <- <- <-]. exists body. by rewrite Ht, Hd.
Qed.
End Discipline.
End Defer.

#[export] Hint Extern 1 (Balanced _ (acquire _)) =>
  apply balanced_acquire; reflexivity : typeclass_instances.
#[export] Hint Extern 1 (Balanced _ (go_open _)) =>
  apply balanced_open; reflexivity : typeclass_instances.

Declare Scope go_scope.
Delimit Scope go_scope with go.
Notation "x ⟵ m ; k" := (go_bind m (λ x, k))
  (at level 100, m at next level, right associativity) : go_scope.
Notation "m ;;; k" := (go_bind m (λ _, k))
  (at level 100, right associativity) : go_scope.
