(* ===== verification/Workers.v ===== *)
(** * Workers: the workers of the programs, and how channels join them

    A worker as the programs build it: its type, the channels it is given and
    its settings.  [run_ops] are the channel operations of the [Run] method of
    each worker, and [receives] and [sends] the channels they are on.  [GetWorkerName] is the name under
    which the supervisor knows it ([contract/contract.go]). *)

From Stdlib Require Import String.
From S2P Require Import Prelude Errors Env.

(** A channel: its identity and its capacity. *)
Record Chan := MkChan { ch_id : nat; ch_cap : Z }.
#[export] Instance Chan_eq_dec : EqDecision Chan.
Proof. solve_decision. Defined.

(** The sinks of the fan-out. *)
Record AnalysisSinkConf := MkAnalysisSinkConf {
  as_maxAnalyzedEvent : Z; as_bufferTimeout : duration; as_specialistTimeout : duration }.

Inductive Handler :=
| ChannelCapacityHandler (lowCapacityThreshold : Z) | ProcessTrackerHandler | CensoredHandler
| LatencyHandler (latencyThreshold : duration) | MessageSentHandler
| WorkerRestartedAfterPanicHandler.

Inductive Worker :=
| PoolUnitWorker (commands moderationChan : Chan)
| ModerationWorker (charReplacement : Z) (moderationChan events : Chan)
| EventFanoutWorker (analysisSink : AnalysisSinkConf) (eventChan telemetryChan : Chan)
    (sinkTimeout : duration)
| ChannelCapacityWorker (channels : list (string * Chan)) (telemetryChan : Chan)
    (metricInterval : duration)
| TelemetryWorker (metricInterval : duration) (telemetryChan : Chan) (handlers : list Handler)
| HealthMonitoringWorker (telemetryChan processTrackerChan : Chan) (metricInterval : duration)
| FileTransferWorker (requestChan : Chan) (interval : duration) (pendingFileBatchSize : Z)
| FileDownloaderMasterWorker (requestChan accumulatorChan : Chan)
| FileTmpJobWorker (maxFileToProcess : Z) (interval : duration)
    (eventChan tmpFileLocationChan specialistResponseChan coordinatorChan : Chan)
| HeartbeatWorker
| FileScannerWorker (driveID : string) (dirChan fileChan : Chan) (lowThreshold hardThreshold : Z)
| FileDownloaderScannerWorker (requestChan responseChan : Chan) (chunkSizeKb maxFileSizeMb : Z)
| FileSenderWorker (fileChan : Chan) (progressLogInterval : duration).

(** ** The constructors

    With the parameters of the source that the model keeps, in its order.  A component a
    worker calls stands for the channel it sends to: [coordinator] for that of the
    specialists' responses, [accumulator] for that of the downloaded files; a moderator
    is given by its replacement character. *)

Definition NewPoolUnitWorker (commands moderationChan : Chan) : Worker :=
  PoolUnitWorker commands moderationChan.
Definition NewModerationWorker (moderator : Z) (moderationChan events : Chan) : Worker :=
  ModerationWorker moderator moderationChan events.
Definition NewEventFanoutWorker (analysisSink : AnalysisSinkConf) (eventChan telemetryChan : Chan)
    (sinkTimeout : duration) : Worker :=
  EventFanoutWorker analysisSink eventChan telemetryChan sinkTimeout.
Definition NewChannelCapacityWorker (channels : list (string * Chan)) (telemetryChan : Chan)
    (metricInterval : duration) : Worker :=
  ChannelCapacityWorker channels telemetryChan metricInterval.
Definition NewTelemetryWorker (metricInterval : duration) (telemetryChan : Chan)
    (handlers : list Handler) : Worker :=
  TelemetryWorker metricInterval telemetryChan handlers.
Definition NewHealthMonitoringWorker (telemetryChan processTrackerChan : Chan)
    (metricInterval : duration) : Worker :=
  HealthMonitoringWorker telemetryChan processTrackerChan metricInterval.
Definition NewFileTransferWorker (requestChan : Chan) (fileTransferInterval : duration)
    (pendingFileBatchSize : Z) : Worker :=
  FileTransferWorker requestChan fileTransferInterval pendingFileBatchSize.
Definition NewFileDownloaderMasterWorker (requestChan accumulator : Chan) : Worker :=
  FileDownloaderMasterWorker requestChan accumulator.
Definition NewFileTmpJobWorker (coordinator : Chan) (maxFileToProcess : Z)
    (fileTmpJobInterval : duration)
    (eventChan tmpFileLocationChan specialistResponseChan : Chan) : Worker :=
  FileTmpJobWorker maxFileToProcess fileTmpJobInterval eventChan tmpFileLocationChan
    specialistResponseChan coordinator.
Definition NewHeartbeatWorker : Worker := HeartbeatWorker.
Definition NewFileScannerWorker (driveID : string) (dirChan fileChan : Chan)
    (scannerBackpressureLowThreshold scannerBackpressureHardThreshold : Z) : Worker :=
  FileScannerWorker driveID dirChan fileChan scannerBackpressureLowThreshold
    scannerBackpressureHardThreshold.
Definition NewFileDownloaderScannerWorker (requestChan responseChan : Chan)
    (chunkSizeKb maxFileSizeMb : Z) : Worker :=
  FileDownloaderScannerWorker requestChan responseChan chunkSizeKb maxFileSizeMb.
Definition NewFileSenderWorker (fileChan : Chan) (progressLogInterval : duration) : Worker :=
  FileSenderWorker fileChan progressLogInterval.

(** [GetWorkerName]: the name of the type, pointers removed; [None] is a nil
    worker. *)
Definition GetWorkerName (w : option Worker) : string :=
  match w with
  | None => "NilWorker"
  | Some (PoolUnitWorker _ _) => "PoolUnitWorker"
  | Some (ModerationWorker _ _ _) => "ModerationWorker"
  | Some (EventFanoutWorker _ _ _ _) => "EventFanoutWorker"
  | Some (ChannelCapacityWorker _ _ _) => "ChannelCapacityWorker"
  | Some (TelemetryWorker _ _ _) => "TelemetryWorker"
  | Some (HealthMonitoringWorker _ _ _) => "HealthMonitoringWorker"
  | Some (FileTransferWorker _ _ _) => "FileTransferWorker"
  | Some (FileDownloaderMasterWorker _ _) => "FileDownloaderMasterWorker"
  | Some (FileTmpJobWorker _ _ _ _ _ _) => "FileTmpJobWorker"
  | Some HeartbeatWorker => "HeartbeatWorker"
  | Some (FileScannerWorker _ _ _ _ _) => "FileScannerWorker"
  | Some (FileDownloaderScannerWorker _ _ _ _) => "FileDownloaderScannerWorker"
  | Some (FileSenderWorker _ _) => "FileSenderWorker"
  end.

(** ** What the [Run] methods do with channels

    The channel operations of each [Run] and of what it calls, in the order of the source:
    the context, a ticker of the given interval, a receive, a send.  Channels a worker makes
    for itself, and one-shot timers, are left out. *)

Inductive chan_op :=
| OpDone | OpTick (every : duration) | OpRecv (c : Chan) | OpSend (c : Chan).

Definition PoolUnitWorker_ops (commands moderationChan : Chan) : list chan_op :=
  [OpDone; OpRecv commands; OpDone; OpSend moderationChan].
Definition ModerationWorker_ops (moderationChan events : Chan) : list chan_op :=
  [OpDone; OpRecv moderationChan; OpDone; OpSend events].
Definition EventFanoutWorker_ops (eventChan telemetryChan : Chan) : list chan_op :=
  [OpRecv eventChan; OpDone; OpSend telemetryChan].
Definition ChannelCapacityWorker_ops (telemetryChan : Chan) (metricInterval : duration) : list chan_op :=
  [OpDone; OpTick metricInterval; OpDone; OpSend telemetryChan].
Definition TelemetryWorker_ops (metricInterval : duration) (telemetryChan : Chan) : list chan_op :=
  [OpDone; OpTick metricInterval; OpDone; OpRecv telemetryChan].
Definition HealthMonitoringWorker_ops (telemetryChan processTrackerChan : Chan)
    (metricInterval : duration) : list chan_op :=
  [OpDone; OpTick metricInterval; OpDone; OpSend telemetryChan; OpRecv processTrackerChan].
Definition FileTransferWorker_ops (requestChan : Chan) (fileTransferInterval : duration) : list chan_op :=
  [OpDone; OpTick fileTransferInterval; OpSend requestChan].
(** the send is that of [FileAccumulator.ProcessResponse] *)
Definition FileDownloaderMasterWorker_ops (requestChan accumulatorChan : Chan) : list chan_op :=
  [OpDone; OpRecv requestChan; OpDone; OpSend accumulatorChan].
(** the first send is that of [Coordinator.Broadcast] *)
Definition FileTmpJobWorker_ops (interval : duration)
    (eventChan tmpFileLocationChan specialistResponseChan coordinatorChan : Chan) : list chan_op :=
  [OpDone; OpRecv tmpFileLocationChan; OpTick interval; OpDone; OpSend coordinatorChan;
   OpRecv specialistResponseChan; OpDone; OpSend eventChan].
Definition HeartbeatWorker_ops : list chan_op := [OpDone; OpTick (5 * second)].
Definition FileScannerWorker_ops (dirChan fileChan : Chan) : list chan_op :=
  [OpDone; OpRecv dirChan; OpDone; OpDone; OpSend dirChan; OpDone; OpSend fileChan].
Definition FileDownloaderScannerWorker_ops (requestChan responseChan : Chan) : list chan_op :=
  [OpDone; OpRecv requestChan; OpDone; OpSend responseChan; OpDone; OpSend responseChan;
   OpDone; OpSend responseChan; OpDone; OpSend responseChan].
Definition FileSenderWorker_ops (fileChan : Chan) : list chan_op :=
  [OpTick (10 * second); OpDone; OpRecv fileChan; OpDone].

Definition run_ops (w : Worker) : list chan_op :=
  match w with
  | PoolUnitWorker commands moderationChan => PoolUnitWorker_ops commands moderationChan
  | ModerationWorker _ moderationChan events => ModerationWorker_ops moderationChan events
  | EventFanoutWorker _ eventChan telemetryChan _ => EventFanoutWorker_ops eventChan telemetryChan
  | ChannelCapacityWorker _ telemetryChan interval => ChannelCapacityWorker_ops telemetryChan interval
  | TelemetryWorker interval telemetryChan _ => TelemetryWorker_ops interval telemetryChan
  | HealthMonitoringWorker telemetryChan processTrackerChan interval =>
      HealthMonitoringWorker_ops telemetryChan processTrackerChan interval
  | FileTransferWorker requestChan interval _ => FileTransferWorker_ops requestChan interval
  | FileDownloaderMasterWorker requestChan accumulatorChan =>
      FileDownloaderMasterWorker_ops requestChan accumulatorChan
  | FileTmpJobWorker _ interval eventChan tmpFileLocationChan specialistResponseChan coordinatorChan =>
      FileTmpJobWorker_ops interval eventChan tmpFileLocationChan specialistResponseChan coordinatorChan
  | HeartbeatWorker => HeartbeatWorker_ops
  | FileScannerWorker _ dirChan fileChan _ _ => FileScannerWorker_ops dirChan fileChan
  | FileDownloaderScannerWorker requestChan responseChan _ _ =>
      FileDownloaderScannerWorker_ops requestChan responseChan
  | FileSenderWorker fileChan _ => FileSenderWorker_ops fileChan
  end.

(** The channels a worker receives from and sends on. *)
Definition receives (w : Worker) : list Chan :=
  omap (λ o, match o with OpRecv c => Some c | _ => None end) (run_ops w).
Definition sends (w : Worker) : list Chan :=
  omap (λ o, match o with OpSend c => Some c | _ => None end) (run_ops w).

(** The channels whose fill level the workers report. *)
Definition monitored (w : Worker) : list (string * Chan) :=
  match w with ChannelCapacityWorker channels _ _ => channels | _ => [] end.

(** A channel nobody receives from, on which a worker sends. *)
Definition dangling (ws : list Worker) (c : Chan) : Prop :=
  (∃ w, w ∈ ws ∧ c ∈ sends w) ∧ ¬ ∃ w, w ∈ ws ∧ c ∈ receives w.
