(* ===== verification/Orchestrator.v ===== *)
(** * Orchestrator: building and starting the workers of the master

    [runtime/orchestrator.go]: the struct and its constructor, the preparation
    of the workers, [Start] and [Stop].  The repositories, the registry and the
    message operations are modelled with their own components; here are the
    channels, the settings, and what each worker is given. *)

From Stdlib Require Import Ascii String.
From S2P Require Import Prelude Errors Env Text Moderation Domain Supervisor Startup Workers.

(** ** The orchestrator *)

Record Orchestrator := MkOrchestrator {
  o_numWorkers : Z;
  o_globalCommands : Chan; o_moderationChan : Chan; o_eventChan : Chan; o_telemetryChan : Chan;
  o_processTrackerChan : Chan; o_fileRequestChan : Chan; o_tmpFileLocationChan : Chan;
  o_specialistResponseChan : Chan;
  o_coordinatorChan : Chan;    (* where the coordinator sends the responses *)
  o_accumulatorChan : Chan;    (* where the accumulator sends the files *)
  o_sinkTimeout : duration; o_bufferTimeout : duration; o_specialistTimeout : duration;
  o_metricInterval : duration; o_latencyThreshold : duration; o_waitAndFail : duration;
  o_charReplacement : rune; o_lowCapacityThreshold : Z; o_maxContentLength : Z;
  o_minScoring : float64; o_maxScoring : float64; o_maxAnalyzedEvent : Z;
  o_fileTransferInterval : duration; o_pendingFileBatchSize : Z; o_maxFileToProcess : Z;
  o_fileTmpJobInterval : duration }.

(** [fresh] and the next number are not the identity of another channel. *)
Definition NewOrchestrator (telemetryChan eventChan processTrackerChan fileRequestChan
    tmpFileLocationChan specialistResponseChan coordinatorChan accumulatorChan : Chan)
    (fresh : nat) (numWorkers bufferSize : Z)
    (sinkTimeout bufferTimeout specialistTimeout metricInterval latencyThreshold waitAndFail
       : duration)
    (charReplacement : rune) (lowCapacityThreshold maxContentLength : Z)
    (minScoring maxScoring : float64) (maxAnalyzedEvent : Z) (fileTransferInterval : duration)
    (pendingFileBatchSize maxFileToProcess : Z) (fileTmpJobInterval : duration) : Orchestrator :=
  {| o_numWorkers := numWorkers;
     o_telemetryChan := telemetryChan;
     o_processTrackerChan := processTrackerChan;
     o_fileRequestChan := fileRequestChan;
     o_tmpFileLocationChan := tmpFileLocationChan;
     o_specialistResponseChan := specialistResponseChan;
     o_globalCommands := MkChan fresh bufferSize;
     o_moderationChan := MkChan (S fresh) bufferSize;
     o_eventChan := eventChan;
     o_coordinatorChan := coordinatorChan;
     o_accumulatorChan := accumulatorChan;
     o_sinkTimeout := sinkTimeout;
     o_bufferTimeout := bufferTimeout;
     o_specialistTimeout := specialistTimeout;
     o_metricInterval := metricInterval;
     o_latencyThreshold := latencyThreshold;
     o_waitAndFail := waitAndFail;
     o_charReplacement := charReplacement;
     o_lowCapacityThreshold := lowCapacityThreshold;
     o_maxContentLength := maxContentLength;
     o_minScoring := minScoring;
     o_maxScoring := maxScoring;
     o_maxAnalyzedEvent := maxAnalyzedEvent;
     o_fileTransferInterval := fileTransferInterval;
     o_pendingFileBatchSize := pendingFileBatchSize;
     o_maxFileToProcess := maxFileToProcess;
     o_fileTmpJobInterval := fileTmpJobInterval |}.

(** ** The workers *)

Definition preparePoolWorkers (o : Orchestrator) : list Worker :=
  replicate (Z.to_nat (o_numWorkers o)) (NewPoolUnitWorker (o_globalCommands o) (o_moderationChan o)).

Definition prepareFileTransferWorker (o : Orchestrator) : Worker * Worker * Worker :=
  (NewFileTransferWorker (o_fileRequestChan o) (o_fileTransferInterval o) (o_pendingFileBatchSize o),
   NewFileDownloaderMasterWorker (o_fileRequestChan o) (o_accumulatorChan o),
   NewFileTmpJobWorker (o_coordinatorChan o) (o_maxFileToProcess o) (o_fileTmpJobInterval o)
     (o_eventChan o) (o_tmpFileLocationChan o) (o_specialistResponseChan o)).

Definition PrepareFanouts (o : Orchestrator) : list Worker :=
  let analysisSink :=
    MkAnalysisSinkConf (o_maxAnalyzedEvent o) (o_bufferTimeout o) (o_specialistTimeout o) in
  replicate (Z.to_nat (o_numWorkers o))
    (NewEventFanoutWorker analysisSink (o_eventChan o) (o_telemetryChan o) (o_sinkTimeout o)).

Definition master_channels (o : Orchestrator) : list (string * Chan) :=
  [("EventChan", o_eventChan o); ("ModerationChan", o_moderationChan o);
   ("TelemetryChan", o_telemetryChan o); ("ProcessTrackerChan", o_processTrackerChan o);
   ("FileRequestChan", o_fileRequestChan o); ("TmpFileLocation", o_tmpFileLocationChan o);
   ("SpecialistResponse", o_specialistResponseChan o); ("GlobalCommands", o_globalCommands o)].

Definition prepareTelemetry (o : Orchestrator) : Worker * Worker :=
  let handlers :=
    [ChannelCapacityHandler (o_lowCapacityThreshold o); ProcessTrackerHandler; CensoredHandler;
     LatencyHandler (o_latencyThreshold o); MessageSentHandler; WorkerRestartedAfterPanicHandler] in
  (NewChannelCapacityWorker (master_channels o) (o_telemetryChan o) (o_metricInterval o),
   NewTelemetryWorker (o_metricInterval o) (o_telemetryChan o) handlers).

Definition prepareHeathMonitoringWorker (o : Orchestrator) : Worker :=
  NewHealthMonitoringWorker (o_telemetryChan o) (o_processTrackerChan o) (o_metricInterval o).

(** ** [Start] and [Stop] *)

Section Start.
Context {U : Uuid} {UT : UnicodeTables} {AC : AhoCorasick}.
Variable range_words : gset string → list string.

Definition add_workers (sup : Supervisor) (ws : list Worker) : Supervisor :=
  Add sup ((λ w, GetWorkerName (Some w)) <$> ws).

(** [Start], up to the end of [supervisor.Run]: the supervisor, the workers it
    was given, and the error. *)
Definition orchestrator_Start (o : Orchestrator) (sup : Supervisor) (fs : embed_FS)
  : Supervisor * list Worker * option error :=
  let poolWorkers := preparePoolWorkers o in
  let '(fileTransferWorker, fileDownloaderWorker, fileTmpJobWorker) :=
    prepareFileTransferWorker o in
  match prepareModeration range_words fs "censored" (o_charReplacement o) with
  | Err err => (sup, [], Some err)
  | Ok _ =>
      let moderationWorker :=
        NewModerationWorker (o_charReplacement o) (o_moderationChan o) (o_eventChan o) in
      let fanoutWorkers := PrepareFanouts o in
      let '(channelCapWorker, telemetryWorker) := prepareTelemetry o in
      let heathMonitoringWorker := prepareHeathMonitoringWorker o in
      let first := [moderationWorker; channelCapWorker; telemetryWorker; heathMonitoringWorker] in
      let sup := add_workers sup first in
      let sup := add_workers sup fanoutWorkers in
      let sup := add_workers sup poolWorkers in
      let sup := add_workers sup [fileTransferWorker] in
      let sup := add_workers sup [fileDownloaderWorker] in
      let sup := add_workers sup [fileTmpJobWorker] in
      (Run sup,
       first ++ fanoutWorkers ++ poolWorkers ++
         [fileTransferWorker; fileDownloaderWorker; fileTmpJobWorker], None)
  end.

(** [Stop]: the supervisor is cancelled, and three channels are closed. *)
Definition orchestrator_Stop (o : Orchestrator) (sup : Supervisor) : Supervisor * list Chan :=
  (Stop sup, [o_globalCommands o; o_moderationChan o; o_eventChan o]).

(** ** Every worker is supervised, and every channel is served *)

Lemma Start_all workers : ∀ s,
  sv_loops (foldl Start s workers) = sv_loops s ++ ((λ w, MkLoop w Checking 0) <$> workers).
Proof.
  induction workers as [|w workers IH]; intros s; [by rewrite app_nil_r|].
  cbn [foldl]. rewrite IH. unfold Start. cbn [sv_loops]. by rewrite <- app_assoc.
Qed.

Lemma Run_added chan wss :
  sv_loops (Run (foldl add_workers (NewSupervisor chan) wss)) =
  (λ w, MkLoop (GetWorkerName (Some w)) Checking 0) <$> concat wss.
Proof.
  unfold Run. rewrite Start_all. cbn [sv_workers sv_loops].
  assert (∀ s, sv_loops (foldl add_workers s wss) = sv_loops s ∧
    sv_workers (foldl add_workers s wss) =
      sv_workers s ++ ((λ w, GetWorkerName (Some w)) <$> concat wss)) as H.
  { induction wss as [|ws wss IH]; intros s; cbn [foldl concat]; [by rewrite app_nil_r|].
    destruct (IH (add_workers s ws)) as [-> ->]. split; [done|].
    unfold add_workers, Add. cbn [sv_workers]. by rewrite fmap_app, app_assoc. }
  destruct (H (NewSupervisor chan)) as [-> ->]. cbn [sv_workers sv_loops NewSupervisor app].
  by rewrite <- list_fmap_compose.
Qed.

(** The workers of the master, in the order they are added. *)
Definition master_workers (o : Orchestrator) : list (list Worker) :=
  [[ModerationWorker (o_charReplacement o) (o_moderationChan o) (o_eventChan o);
    (prepareTelemetry o).1; (prepareTelemetry o).2; prepareHeathMonitoringWorker o];
   PrepareFanouts o; preparePoolWorkers o; [(prepareFileTransferWorker o).1.1];
   [(prepareFileTransferWorker o).1.2]; [(prepareFileTransferWorker o).2]].

Lemma orchestrator_Start_eq o sup fs m :
  prepareModeration range_words fs "censored" (o_charReplacement o) = Ok m →
  orchestrator_Start o sup fs =
    (Run (foldl add_workers sup (master_workers o)), concat (master_workers o), None).
Proof.
  intros Hm. unfold orchestrator_Start. rewrite Hm.
  unfold prepareFileTransferWorker, prepareTelemetry. cbv zeta.
  unfold master_workers, prepareFileTransferWorker, prepareTelemetry. cbn [fst snd foldl concat].
  by rewrite app_nil_r.
Qed.

(** The channels of an orchestrator, by the fields of the struct. *)
Definition channel_fields (o : Orchestrator) : list (string * Chan) :=
  [("globalCommands", o_globalCommands o); ("moderationChan", o_moderationChan o);
   ("eventChan", o_eventChan o); ("telemetryChan", o_telemetryChan o);
   ("processTrackerChan", o_processTrackerChan o); ("fileRequestChan", o_fileRequestChan o);
   ("tmpFileLocationChan", o_tmpFileLocationChan o);
   ("specialistResponseChan", o_specialistResponseChan o)].

(** The name a field is reported under: its own, exported, with or without [Chan]. *)
Definition exported (field : string) : string :=
  match field with
  | String.EmptyString => ""
  | String.String c rest => String.String (Ascii.ascii_of_nat (Ascii.nat_of_ascii c - 32)) rest
  end.
Definition names (field name : string) : Prop :=
  name = exported field ∨ name +:+ "Chan" = exported field.

(** The channels of an orchestrator are joined to it. *)
Definition wired (o : Orchestrator) : Prop :=
  o_coordinatorChan o = o_specialistResponseChan o ∧ o_accumulatorChan o = o_tmpFileLocationChan o.

Definition fanout_worker (o : Orchestrator) : Worker :=
  EventFanoutWorker (MkAnalysisSinkConf (o_maxAnalyzedEvent o) (o_bufferTimeout o)
    (o_specialistTimeout o)) (o_eventChan o) (o_telemetryChan o) (o_sinkTimeout o).
Definition pool_worker (o : Orchestrator) : Worker :=
  PoolUnitWorker (o_globalCommands o) (o_moderationChan o).

Lemma elem_of_master o w : 0 < o_numWorkers o → w ∈ concat (master_workers o) ↔
  w ∈ [ModerationWorker (o_charReplacement o) (o_moderationChan o) (o_eventChan o);
       (prepareTelemetry o).1; (prepareTelemetry o).2; prepareHeathMonitoringWorker o;
       fanout_worker o; pool_worker o; (prepareFileTransferWorker o).1.1;
       (prepareFileTransferWorker o).1.2; (prepareFileTransferWorker o).2].
Proof.
  intros Hn. unfold master_workers, PrepareFanouts, preparePoolWorkers. cbn [concat].
  destruct (Z.to_nat (o_numWorkers o)) as [|n] eqn:En; [lia|].
  rewrite !elem_of_app, !elem_of_replicate. unfold fanout_worker, pool_worker.
  rewrite !elem_of_cons, !elem_of_nil. intuition lia.
Qed.

Lemma master_serves o field c : 0 < o_numWorkers o → (field, c) ∈ channel_fields o →
  (∃ w, w ∈ concat (master_workers o) ∧ c ∈ receives w) ∧
  ∃ name, names field name ∧ (name, c) ∈ monitored (prepareTelemetry o).1.
Proof.
  intros Hn Hc. setoid_rewrite elem_of_master; [|done]. unfold channel_fields in Hc.
  rewrite !elem_of_cons, elem_of_nil in Hc. unfold names.
  destruct Hc as [[= -> ->]|[[= -> ->]|[[= -> ->]|[[= -> ->]|[[= -> ->]|[[= -> ->]|[[= -> ->]|[[= -> ->]|[]]]]]]]]].
  - split; [exists (pool_worker o); set_solver|exists "GlobalCommands"; split; [by left|set_solver]].
  - split; [exists (ModerationWorker (o_charReplacement o) (o_moderationChan o) (o_eventChan o)); set_solver|].
    exists "ModerationChan". split; [by left|set_solver].
  - split; [exists (fanout_worker o); set_solver|exists "EventChan"; split; [by left|set_solver]].
  - split; [exists ((prepareTelemetry o).2); set_solver|exists "TelemetryChan"; split; [by left|set_solver]].
  - split; [exists (prepareHeathMonitoringWorker o); set_solver|].
    exists "ProcessTrackerChan". split; [by left|set_solver].
  - split; [exists ((prepareFileTransferWorker o).1.2); set_solver|].
    exists "FileRequestChan". split; [by left|set_solver].
  - split; [exists ((prepareFileTransferWorker o).2); set_solver|].
    exists "TmpFileLocation". split; [by right|set_solver].
  - split; [exists ((prepareFileTransferWorker o).2); set_solver|].
    exists "SpecialistResponse". split; [by right|set_solver].
Qed.

(** What the workers send on are channels of the orchestrator. *)
Lemma master_sends o w c : wired o → 0 < o_numWorkers o → w ∈ concat (master_workers o) →
  c ∈ sends w → ∃ field, (field, c) ∈ channel_fields o.
Proof.
  intros [Hco Hac] Hn. rewrite elem_of_master, !elem_of_cons, elem_of_nil by done.
  unfold channel_fields. rewrite <- Hco, <- Hac.
  intros [->|[->|[->|[->|[->|[->|[->|[->|[->|[]]]]]]]]]]; cbn; set_solver.
Qed.


(** So no channel is left without a receiver. *)
Lemma no_dangling o c : wired o → 0 < o_numWorkers o → ¬ dangling (concat (master_workers o)) c.
Proof.
  intros Hw Hn [(w & Hin & Hs) Hno]. apply Hno.
  destruct (master_sends o w c Hw Hn Hin Hs) as [field Hc]. by apply (master_serves o field c Hn).
Qed.

(** With no worker configured, what is posted and what happens is never received. *)
Lemma no_workers_no_service o : o_numWorkers o = 0 → NoDup (master_channels o).*2 → wired o →
  dangling (concat (master_workers o)) (o_eventChan o).
Proof.
  intros Hn Hnd [Hco Hac]. unfold master_channels in Hnd.
  unfold master_workers, PrepareFanouts, preparePoolWorkers. rewrite Hn. cbn [concat app replicate Z.to_nat].
  split.
  - exists (ModerationWorker (o_charReplacement o) (o_moderationChan o) (o_eventChan o)).
    set_solver.
  - intros (w & Hw & Hr). cbn in Hnd. apply NoDup_cons in Hnd as [Hnd _]. apply Hnd.
    repeat rewrite ?elem_of_app, ?elem_of_cons, ?elem_of_nil in Hw.
    destruct_or! Hw; try done; subst w; cbn in Hr; set_solver.
Qed.

(** ** Stopping

    [Stop] cancels the supervised context and closes three channels at once: the
    workers, in whatever phase they are, are not waited for, and the moderation and
    job workers still hold the event channel as senders, as a send on a closed
    channel panics. *)
Theorem Stop_closes_under_senders o sup : 0 < o_numWorkers o →
  sv_loops (orchestrator_Stop o sup).1 = sv_loops sup ∧
  ∀ w, w ∈ concat (master_workers o) →
    (∃ c, c ∈ sends w ∧ c ∈ (orchestrator_Stop o sup).2) ∨
    GetWorkerName (Some w) ∉ ["PoolUnitWorker"; "ModerationWorker"; "FileTmpJobWorker"].
Proof.
  intros Hn. split; [unfold orchestrator_Stop, Stop; cbn; by case_match|].
  intros w. rewrite elem_of_master, !elem_of_cons, elem_of_nil by done.
  intros [->|[->|[->|[->|[->|[->|[->|[->|[->|[]]]]]]]]]]; cbn;
    try (right; set_solver); left; eexists;
    first [split; [by left|set_solver]|split; [right; by left|set_solver]].
Qed.
End Start.

(** ** Witness *)

Definition demo_chan (n : nat) : Chan := MkChan n 10.
Definition demo_orchestrator : Orchestrator :=
  NewOrchestrator (demo_chan 0) (demo_chan 1) (demo_chan 2) (demo_chan 3) (demo_chan 4)
    (demo_chan 5) (demo_chan 5) (demo_chan 4) 6 2 10 second second second second second second
    42 10 1000 f64_zero f64_zero 100 second 10 5 second.
Definition demo_fs : embed_FS :=
  MkEmbedFS (λ _, Ok [("en.txt", false)]) (λ _, Ok "idiot").

Lemma triple_eta {A B C} (p : A * B * C) : p = (p.1.1, p.1.2, p.2).
Proof. by destruct p as [[]]. Qed.

Definition demo_start : Supervisor * list Worker * option error :=
  @orchestrator_Start HexUuid Latin1Tables NaiveSearch elements demo_orchestrator
    (NewSupervisor None) demo_fs.

Lemma demo_moderation : ∃ m,
  @prepareModeration Latin1Tables NaiveSearch elements demo_fs "censored" 42 = Ok m.
Proof. eexists. vm_compute. reflexivity. Qed.

