(* ===== verification/Master.v ===== *)
(** * Master: the program [cmd/master/main.go]

    [run] reads the configuration, opens the log file, the key store and the
    search index, starts the specialists, the orchestrator and the servers, and
    waits for a signal or a failure.  What the outside answers is the record
    [master_env]; the body is written with the deferred calls of [Defer]. *)

From Stdlib Require Import Ascii String.
From S2P Require Import Prelude Errors Env Text Config Mime Domain Jobs Boot Path Startup Defer.
From S2P Require Import Workers Orchestrator.

Definition exitOK : Z := 0.
Definition exitRuntime : Z := 1.
Definition exitConfig : Z := 2.

(** ** The wiring *)

Definition specialistConfigs : list Domain.Config :=
  [NewConfig MetricPDF "./services/pdf_specialist.py" "localhost" 50055 [ApplicationPDF];
   NewConfig MetricAudio "./services/audio_specialist.py" "localhost" 50056
     [AudioMPEG; AudioWAV; AudioXAIFF];
   NewConfig MetricImage "./services/image_specialist.py" "localhost" 50057
     [ImagePNG; ImageJPEG; ImageGIF]].

(** The channels made by [run], and the orchestrator built on them. *)
Definition master_orchestrator (config : Config.Config) (charReplacement : rune) : Orchestrator :=
  let make := λ id, MkChan id (c_BufferSize config) in
  let telemetryChan := make 0%nat in
  let processTrackerChan := make 1%nat in
  let specialistResponseChan := make 2%nat in
  let eventChan := make 3%nat in
  let fileDownloaderRequestChan := make 4%nat in
  let tmpFilePathChan := make 5%nat in
  let coordinatorChan := specialistResponseChan in  (* NewCoordinator *)
  let accumulatorChan := tmpFilePathChan in         (* NewFileAccumulator *)
  NewOrchestrator telemetryChan eventChan processTrackerChan fileDownloaderRequestChan
    tmpFilePathChan specialistResponseChan coordinatorChan accumulatorChan 6
    (c_NumberOfWorkers config) (c_BufferSize config)
    (c_SinkTimeout config) (c_BufferTimeout config) (c_SpecialistTimeout config)
    (c_MetricInterval config) (c_LatencyThreshold config) (c_IngestionTimeout config)
    charReplacement (c_LowCapacityThreshold config) (c_MaxContentLength config)
    (c_MinScoring config) (c_MaxScoring config) (c_MaxAnalyzedEvent config)
    (c_FileTransferInterval config) (c_PendingFileBatchSize config)
    (c_MaxTmpFileToProcess config) (c_FileTmpJobInterval config).

Record badger_Options := MkBadgerOptions {
  bo_Dir : string; bo_IndexCacheSize : Z; bo_DetectConflicts : bool; bo_LoggingLevel : string;
  bo_BypassLockGuard : bool }.

(** [debug]: the logger is enabled at the debug level. *)
Definition buildBadgerOpts (config : Config.Config) (debug : bool) : badger_Options :=
  MkBadgerOptions (c_BadgerFilepath config) (100 * 2 ^ 20) false "INFO" debug.

(** ** [run] *)

Inductive resource := LogFile | BadgerDB (opts : badger_Options) | BlugeWriter (path : string)
| BootContext | SignalContext
| Listener (addr : string) | ScannerConn (addr retryConfig : string).

Inductive step :=
| InitSpecialists (m : Coordinator) (w : world)
| SpawnTriggerScan (path : string)
| MkdirAll (path : string) | StartOrchestrator (o : Orchestrator) | StartStatsServer (port : Z)
| Serve (addr : string) | WaitForStop | GracefulStop | StopOrchestrator (o : Orchestrator).

(** What the outside answers. *)
Record master_env := MkMasterEnv {
  me_Load : option error; me_Config : result error Config.Config; me_quote : string → string;
  me_OpenFile : option error; me_debug : bool; me_OpenDB : option error;
  me_OpenWriter : option error; me_windows : bool; me_environ : list string;
  me_turns : list turn;                (* the launches of the specialists *)
  me_Listen : option error; me_NewClient : option error; me_MkdirAll : option error;
  me_stop : option (option error);     (* a signal, an error of a server, or nothing yet *)
  me_calls_end : bool }.               (* the calls in progress end *)

Definition scan_target : string := "/home/mael/develop/chat-lab/test_data".
Definition Download_FullMethodName : string := "/analyzer.FileDownloaderService/Download".

Local Open Scope go_scope.

Definition init_specialists (env : master_env) (config : Config.Config) : go (R:=resource) (S:=step) unit :=
  if c_EnableSpecialists config then
    let '(m, w, r) :=
      Init (me_windows env) (me_environ env) (c_LogLevel config) (Z.to_nat (c_BufferSize config))
        (zip specialistConfigs (me_turns env)) (NewCoordinator (c_MaxFileSizeMb config))
        (MkWorld [] []) in
    match r with
    | None => go_block (InitSpecialists m w)
    | Some err => go_do (InitSpecialists m w) ;;;
                  check_err err exitRuntime (Errorf "specialist init failed: ")
    end
  else go_ret tt.

(** The configuration and the replacement character. *)
Definition load_config (env : master_env) : go (R:=resource) (S:=step) (Config.Config * rune) :=
  check_err (me_Load env) exitConfig (Errorf "error loading .env file : ") ;;;
  config ⟵ check (me_Config env) exitConfig (Errorf "config error: ") ;
  charReplacement ⟵ check (CharacterRune (me_quote env) (c_CharReplacement config)) exitConfig id ;
  go_ret (config, charReplacement).

(** The log file, the key store and the search index. *)
Definition open_stores (env : master_env) (config : Config.Config) : go (R:=resource) (S:=step) unit :=
  check_err (me_OpenFile env) exitRuntime (Errorf "failed to open log file: ") ;;;
  acquire LogFile ;;;
  check_err (me_OpenDB env) exitRuntime (Errorf "database opening failed: ") ;;;
  acquire (BadgerDB (buildBadgerOpts config (me_debug env))) ;;;
  check_err (me_OpenWriter env) exitRuntime (Errorf "failed to open bluge writer: ") ;;;
  acquire (BlugeWriter (c_BlugeFilepath config)).

Definition masterAddress (config : Config.Config) : string :=
  c_Host config +:+ ":" +:+ fmt_d (c_MasterPort config).
Definition scannerAddress (config : Config.Config) : string :=
  c_Host config +:+ ":" +:+ fmt_d (c_ScannerPort config).

(** The listener, the connection to the scanner, the order to scan, and the directory of
    the downloads. *)
Definition connect_scanner (env : master_env) (config : Config.Config)
  : go (R:=resource) (S:=step) unit :=
  check_err (me_Listen env) exitRuntime
    (Errorf ("failed to listen on master " +:+ masterAddress config +:+ ": ")) ;;;
  go_open (Listener (masterAddress config)) ;;;
  check_err (me_NewClient env) exitRuntime
    (Errorf ("failed to listen on " +:+ scannerAddress config +:+ ": ")) ;;;
  go_open (ScannerConn (scannerAddress config)
             (ToServiceConfig (c_GrpcConfig config) Download_FullMethodName)) ;;;
  go_do (SpawnTriggerScan scan_target) ;;;
  (let dir := filepath_Join "/tmp" (c_TmpDownloadingDir config) in
   check_err (me_MkdirAll env) exitRuntime (Errorf ("failed to create dir " +:+ dir +:+ " : ")) ;;;
   go_do (MkdirAll dir)).

(** The engine and the servers, until a signal or a failure. *)
Definition serve_until_stop (env : master_env) (config : Config.Config) (charReplacement : rune)
  : go (R:=resource) (S:=step) Empty_set :=
  let orchestrator := master_orchestrator config charReplacement in
  acquire SignalContext ;;;
  go_do (StartOrchestrator orchestrator) ;;;
  go_do (StartStatsServer 8092) ;;;
  go_do (Serve (masterAddress config)) ;;;
  match me_stop env with
  | None => go_block WaitForStop
  | Some (Some err) => go_return exitRuntime (Some err)
  | Some None =>
      if me_calls_end env then
        go_do GracefulStop ;;;
        go_do (StopOrchestrator orchestrator) ;;;
        go_return exitOK None
      else go_block GracefulStop
  end.

Definition run (env : master_env) : go (R:=resource) (S:=step) Empty_set :=
  cr ⟵ load_config env ;
  open_stores env cr.1 ;;;
  acquire BootContext ;;;
  init_specialists env cr.1 ;;;
  connect_scanner env cr.1 ;;;
  serve_until_stop env cr.1 cr.2.

(** ** What each path releases *)

(** The listener, which the server closes when it stops, and the connection to the scanner
    have no deferred release. *)
Definition leaks (r : resource) : bool :=
  match r with Listener _ | ScannerConn _ _ => true | _ => false end.

#[export] Instance init_specialists_balanced env config : Balanced leaks (init_specialists env config).
Proof.
  unfold init_specialists. destruct (c_EnableSpecialists config); [|apply _].
  destruct (Init _ _ _ _ _ _ _) as [[m w] [err|]]; apply _.
Qed.

#[export] Instance run_balanced env : Balanced leaks (run env).
Proof.
  unfold run, load_config, open_stores, connect_scanner, serve_until_stop.
  repeat first [apply balanced_bind; [apply _|intros ?] | progress cbv zeta].
  destruct (me_stop env) as [[err|]|]; apply _.
Qed.

(** Where the program can stay for good. *)
Definition waiting_point (s : step) : Prop :=
  match s with InitSpecialists _ _ | WaitForStop | GracefulStop => True | _ => False end.

#[local] Arguments go_bind {R S X Y} m k f /.
#[local] Arguments go_ret {R S X} x f /.

(** The configuration cannot be read. *)
Definition config_fails (env : master_env) : Prop :=
  me_Load env ≠ None ∨ (∃ e, me_Config env = Err e) ∨
  ∃ config e, me_Config env = Ok config ∧
    CharacterRune (me_quote env) (c_CharReplacement config) = Err e.

(** A return with an error, because of the configuration and for another reason. *)
Ltac early_config :=
  let H := fresh in intros [= <- <-] H;
  split_and!; [by eapply H|by auto|done|split; [intros _|done]|done|done];
  first [left; congruence|right; left; by eexists|right; right; by eexists _, _].
Ltac early H1 H2 H3 :=
  let H := fresh in intros [= <- <-] H; split_and!; [by eapply H|by auto|done|split; [done|]|done|done];
  unfold config_fails; rewrite H1, H2; intros [?|[[? ?]|(? & ? & ? & Hx)]]; simplify_eq; by rewrite H3 in Hx.
Ltac advance :=
  cbn -[exitConfig exitRuntime exitOK Init masterAddress scannerAddress master_orchestrator ToServiceConfig filepath_Join
        buildBadgerOpts CharacterRune Errorf fmt_d String.append zip specialistConfigs].

(** C24. The life of the master: however it returns, with one of its three codes, what it
    opened and deferred (the log file, the key store, the search index, the contexts) is
    closed, once, in the reverse order and last; the listener and the connection to the
    scanner are not closed by it.  It returns the code of the configuration exactly when the
    configuration cannot be read, and then nothing was opened; the error is nil exactly on a
    clean exit, which follows a signal, the end of the calls in progress and the stop of the
    orchestrator, and then the orchestrator had all its channels joined.  The
    program only stays in the start of the specialists, waiting for a signal, or
    for the calls in progress. *)
Theorem run_life env tr st : finish (run env) = (tr, st) →
  match st with
  | Exit code err =>
      (∃ body, closed body = [] ∧
         tr = body ++ (Close <$> reverse (List.filter (λ r, negb (leaks r)) (opened body)))) ∧
      code ∈ [exitOK; exitRuntime; exitConfig] ∧
      (err = None ↔ code = exitOK) ∧
      (code = exitConfig ↔ config_fails env) ∧ (code = exitConfig → tr = []) ∧
      (code = exitOK → ∃ config r body, me_Config env = Ok config ∧ me_stop env = Some None ∧
         let o := master_orchestrator config r in wired o ∧
         tr = body ++ [Do GracefulStop; Do (StopOrchestrator o); Close SignalContext;
                       Close BootContext; Close (BlugeWriter (c_BlugeFilepath config));
                       Close (BadgerDB (buildBadgerOpts config (me_debug env))); Close LogFile])
  | Blocked s => waiting_point s
  end.
Proof.
  intros Hf.
  assert (∀ code err, st = Exit code err → ∃ body, closed body = [] ∧
            tr = body ++ (Close <$> reverse (List.filter (λ r, negb (leaks r)) (opened body)))) as Hbal.
  { intros code err ->. destruct (finish_balanced leaks (run env) tr code err) as (body & ? & ?); [apply _|done|eauto]. }
  assert (∀ c, c = exitOK ∨ c = exitRuntime ∨ c = exitConfig → c ∈ [exitOK; exitRuntime; exitConfig]) as Hcode
    by set_solver.
  revert Hf Hbal. unfold finish, run, load_config, open_stores, connect_scanner, serve_until_stop.
  destruct (me_Load env) as [e|] eqn:Hl; advance; [early_config|].
  destruct (me_Config env) as [config|e] eqn:Hc; advance; [|early_config].
  destruct (CharacterRune _ _) as [r|e] eqn:Hr; advance; [|early_config].
  destruct (me_OpenFile env) as [e|]; advance; [early Hl Hc Hr|].
  destruct (me_OpenDB env) as [e|]; advance; [early Hl Hc Hr|].
  destruct (me_OpenWriter env) as [e|]; advance; [early Hl Hc Hr|].
  unfold init_specialists.
  destruct (c_EnableSpecialists config); [destruct (Init _ _ _ _ _ _ _) as [[m w] [[e|]|]]|];
    advance; [early Hl Hc Hr| |by intros [= <- <-]|].
  all: destruct (me_Listen env) as [e|]; advance; [early Hl Hc Hr|].
  all: destruct (me_NewClient env) as [e|]; advance; [early Hl Hc Hr|].
  all: destruct (me_MkdirAll env) as [e|]; advance; [early Hl Hc Hr|].
  all: destruct (me_stop env) as [[e|]|]; advance; [early Hl Hc Hr| |by intros [= <- <-]].
  all: destruct (me_calls_end env); advance; [|by intros [= <- <-]].
  all: intros [= <- <-] Hbal; split_and!; [by eapply Hbal|by auto|done|split; [done|]|done|intros _].
  1,3: unfold config_fails; rewrite Hl, Hc; intros [?|[[? ?]|(? & ? & ? & Hx)]]; simplify_eq; by rewrite Hr in Hx.
  all: eexists config, r, _; split_and!; [done|done|by split|].
  all: match goal with |- ?l = _ => exact (eq_sym (take_drop (length l - 7) l)) end.
Qed.

(** With a buffer smaller than the number of specialists, a master whose
    specialists all start never comes up: [Init] fills the channel of the health
    monitor, which only receives once the orchestrator is started. *)
Theorem small_buffer_blocks_the_start env config :
  me_Load env = None → me_Config env = Ok config →
  (∃ r, CharacterRune (me_quote env) (c_CharReplacement config) = Ok r) →
  me_OpenFile env = None → me_OpenDB env = None → me_OpenWriter env = None →
  c_EnableSpecialists config = true → 0 ≤ c_BufferSize config < 3 →
  length (me_turns env) = 3%nat → Forall (λ t, tn_ctx t = None) (me_turns env) →
  (∀ ct w, ct ∈ zip specialistConfigs (me_turns env) → ∃ w' c,
     startSpecialist (me_windows env) (me_environ env) ct.1 (c_LogLevel config)
       (tn_launch ct.2) w = (w', Some (Ok c))) →
  ∃ tr m w, finish (run env) = (tr, Blocked (InitSpecialists m w)).
Proof.
  intros HL HC [r Hr] HF HD HW HE Hb Hlen Hctx Hst.
  pose proof (Init_room (me_windows env) (me_environ env) (c_LogLevel config)
    (Z.to_nat (c_BufferSize config)) (zip specialistConfigs (me_turns env))
    (NewCoordinator (c_MaxFileSizeMb config)) (MkWorld [] [])) as HI.
  rewrite length_zip_with, Hlen in HI. cbn [co_processTrackerChan NewCoordinator] in HI.
  assert ((length (@nil Process) + Nat.min (length specialistConfigs) 3 <=?
           Z.to_nat (c_BufferSize config))%nat = false) as Hfull
    by (apply Nat.leb_gt; simpl; lia).
  rewrite Hfull in HI. unfold finish, run, load_config, open_stores. rewrite HL. advance. rewrite HC. advance.
  rewrite Hr. advance. rewrite HF. advance. rewrite HD. advance. rewrite HW. advance.
  unfold init_specialists. rewrite HE. destruct (Init _ _ _ _ _ _ _) as [[m w] o]; cbn [snd] in HI.
  rewrite HI; [advance; eauto| |done|simpl; lia].
  apply Forall_forall. intros [cfg t] Hin. apply elem_of_zip_r in Hin.
  by apply (proj1 (Forall_forall _ _) Hctx).
Qed.

(** ** Witness: a start, a signal, and a clean exit *)

Lemma opened_app {R S} (l1 l2 : list (@action R S)) : opened (l1 ++ l2) = opened l1 ++ opened l2.
Proof. unfold opened. apply omap_app. Qed.
Lemma opened_closes {R S} (l : list R) : opened (S := S) (Close <$> reverse l) = [].
Proof. induction (reverse l) as [|r l' IH]; [done|exact IH]. Qed.

Definition demo_config : Config.Config :=
  MkConfig 10 1000 2 "*" None second second second second second second second second true
    "/data/badger" "/data/bluge" "INFO" 10 1000 f64_zero f64_zero 100 "localhost" 9090 9091 9092
    second "" 0 "" 0 false 4 2 second 10 "drive" 50 90 64 100 "chat-lab" second
    default_GrpcConfig 5 second.
Definition demo_master : master_env :=
  MkMasterEnv None (Ok demo_config) id None false None None false [] [] None None None (Some None)
    true.

Lemma run_life_witness :
  ∃ body, closed body = [] ∧ (finish (run demo_master)).1 =
    body ++ (Close <$> reverse (List.filter (λ r, negb (leaks r)) (opened body))) ∧
    opened body = [LogFile; BadgerDB (buildBadgerOpts demo_config false); BlugeWriter "/data/bluge";
                   BootContext; Listener "localhost:9090"; ScannerConn "localhost:9091"
                     (ToServiceConfig default_GrpcConfig Download_FullMethodName); SignalContext].
Proof.
  assert (finish (run demo_master) = ((finish (run demo_master)).1, Exit exitOK None)) as H
    by reflexivity.
  apply run_life in H as [(body & Hc & Hb) _]. exists body. split; [exact Hc|]. split; [exact Hb|].
  assert (opened body = opened (finish (run demo_master)).1) as ->
    by (rewrite Hb, opened_app, opened_closes, app_nil_r; reflexivity).
  vm_compute. reflexivity.
Defined.
