(* ===== verification/ScannerMain.v ===== *)
(** * ScannerMain: the program [cmd/scanner/main.go]

    The workers it builds, the order of its shutdown, and the proof that the
    shutdown ends.  On a signal the context is cancelled, the gRPC server drains,
    the channel of directories is closed, the program waits for the scanner
    workers and then closes the channel of files. *)

From Stdlib Require Import Ascii String.
From S2P Require Import Prelude Errors Env Text Config Domain Path Mime Monitoring Scanner Workers Defer.

(** ** The workers *)

Definition buildTelemetryWorkers (config : Config.Config) (fileChan dirChan telemetryChan : Chan)
  : Worker * Worker :=
  let channelCapacityHandler := ChannelCapacityHandler (c_LowCapacityThreshold config) in
  let telemetryWorker :=
    NewTelemetryWorker (c_MetricInterval config) telemetryChan [channelCapacityHandler] in
  let channelsToMonitor := [("FileChan", fileChan); ("DirChan", dirChan)] in
  let channelCapacityWorker :=
    NewChannelCapacityWorker channelsToMonitor telemetryChan (c_MetricInterval config) in
  (telemetryWorker, channelCapacityWorker).

(** The scanner workers, with the wait group counting them, the downloaders and
    the sender. *)
Definition buildFileWorkers (config : Config.Config) (workersWG : Z)
    (dirChan fileChan requestChan responseChan : Chan) (chunkSizeKb maxFileSizeMb : Z)
  : list Worker * list Worker * Worker * Z :=
  let n := Z.to_nat (c_ScannerWorkerNb config) in
  (replicate n
     (NewFileScannerWorker (c_DriveID config) dirChan fileChan
        (c_ScannerBackpressureLowThreshold config) (c_ScannerBackpressureHardThreshold config)),
   replicate (Z.to_nat (c_DownloaderWorkerNb config))
     (NewFileDownloaderScannerWorker requestChan responseChan chunkSizeKb maxFileSizeMb),
   NewFileSenderWorker fileChan (c_ProgressLogInterval config),
   workersWG + Z.of_nat n).

(** The channels of the program. *)
Record scanner_chans := MkScannerChans {
  sc_dir : Chan; sc_file : Chan; sc_request : Chan; sc_response : Chan; sc_telemetry : Chan;
  sc_metrics : Chan }.
Definition make_scanner_chans (config : Config.Config) : scanner_chans :=
  let make := λ id, MkChan id (c_BufferSize config) in
  MkScannerChans (make 0%nat) (make 1%nat) (make 2%nat) (make 3%nat) (make 4%nat) (make 5%nat).

(** The workers given to the supervisor, and the wait group. *)
Definition scanner_workers (config : Config.Config) (c : scanner_chans) : list Worker * Z :=
  let '(telemetryWorkers, channelCapWorker) :=
    buildTelemetryWorkers config (sc_file c) (sc_dir c) (sc_telemetry c) in
  let '(fileScannerWorkers, fileDownloaderWorker, fileSenderWorker, workersWG) :=
    buildFileWorkers config 0 (sc_dir c) (sc_file c) (sc_request c) (sc_response c)
      (c_ChunkSizeKb config) (c_MaxFileSizeMb config) in
  ([telemetryWorkers; channelCapWorker] ++ [NewHeartbeatWorker] ++ fileScannerWorkers ++
   [fileSenderWorker] ++ fileDownloaderWorker, workersWG).

(** ** [main] *)

(** [MasterConn None] is the nil connection. *)
Inductive sm_resource := MasterConn (addr : option string) | SmSignalContext | SmListener (addr : string).
Inductive sm_step :=
| SmDial (addr retryConfig : string) | SmNoMaster (err : error)
| SmServe (addr : string) | SmListenMetrics | SmDashboard (addr : string)
| SmRunSupervisor (ws : list Worker) | SmWaitSignal | SmGracefulStop
| CloseDirChan | WaitWorkers (wg : Z) | CloseFileChan
| Summary (files dirs bytes errors skipped : Z).

Record scanner_env := MkScannerEnv {
  se_Load : option error; se_Config : result error Config.Config; se_Listen : option error;
  se_NewClient : option error;
  se_signal : bool;        (* the signal comes *)
  se_calls_end : bool;     (* the calls in progress end *)
  se_workers_end : bool;   (* [workersWG.Wait()] returns *)
  se_monitoring : MonitoringManager }. (* at the end *)

(** The "Scan Summary" of the counters. *)
Definition scan_summary (mm : MonitoringManager) : sm_step :=
  Summary (mm_FilesFound mm) (mm_DirsScanned mm) (mm_ScannerBytes mm) (mm_ErrorCount mm)
    (mm_SkippedItem mm).

Definition FileAnalyzer_ServiceName : string := "analyzer.FileAnalyzerService".

Local Open Scope go_scope.

(** A failure of [grpc.NewClient] is only logged, and the nil connection is used.
    [log.Fatalf] is an exit with code 1 that runs no deferred call; none is
    registered where it is used. *)
Definition scanner_main (env : scanner_env) : go (R:=sm_resource) (S:=sm_step) Empty_set :=
  check_err (se_Load env) 1 (Errorf "error loading .env file : ") ;;;
  config ⟵ check (se_Config env) 1 (Errorf "config error: ") ;
  (let masterAddress := c_Host config +:+ ":" +:+ fmt_d (c_MasterPort config) in
   let scannerAddress := c_Host config +:+ ":" +:+ fmt_d (c_ScannerPort config) in
   let chans := make_scanner_chans config in
   let '(ws, workersWG) := scanner_workers config chans in
   check_err (se_Listen env) 1 (Errorf ("failed to listen on " +:+ masterAddress +:+ ": ")) ;;;
   go_open (SmListener scannerAddress) ;;;
   go_do (SmDial masterAddress (ToServiceConfig (c_GrpcConfig config) FileAnalyzer_ServiceName)) ;;;
   conn ⟵ match se_NewClient env with
          | Some err => go_do (SmNoMaster err) ;;; go_ret None
          | None => go_ret (Some masterAddress)
          end ;
   acquire (MasterConn conn) ;;;
   go_do (SmServe scannerAddress) ;;;
   acquire SmSignalContext ;;;
   go_do SmListenMetrics ;;;
   go_do (SmDashboard ":8091") ;;;
   go_do (SmRunSupervisor ws) ;;;
   if negb (se_signal env) then go_block SmWaitSignal
   else if negb (se_calls_end env) then go_block SmGracefulStop
   else
     go_do SmGracefulStop ;;;
     go_do CloseDirChan ;;;
     if negb (se_workers_end env) then go_block (WaitWorkers workersWG)
     else
       go_do (WaitWorkers workersWG) ;;;
       go_do CloseFileChan ;;;
       go_do (scan_summary (se_monitoring env)) ;;;
       go_return 0 None).

(** The listener has no deferred release: the server closes it when it stops. *)
Definition sm_leaks (r : sm_resource) : bool := match r with SmListener _ => true | _ => false end.
#[export] Instance scanner_main_balanced env : Balanced sm_leaks (scanner_main env).
Proof.
  unfold scanner_main.
  repeat first [apply balanced_bind; [apply _|intros ?] | progress cbv zeta].
  unfold scanner_workers. cbn [buildTelemetryWorkers buildFileWorkers].
  destruct (se_NewClient env); apply _.
Qed.

(** A failure to start exits with code 1 before anything is opened; a normal exit
    closes the channel of directories once no call can feed it, waits for the workers
    it was given, closes the channel of files, reports, and releases the rest. *)
Lemma scanner_main_exit env tr code err : finish (scanner_main env) = (tr, Exit code err) →
  code = 1 ∧ is_Some err ∧ tr = [] ∨
  code = 0 ∧ err = None ∧ ∃ config conn body,
    se_Config env = Ok config ∧
    let '(ws, workersWG) := scanner_workers config (make_scanner_chans config) in
    tr = body ++ [Do (SmRunSupervisor ws); Do SmGracefulStop; Do CloseDirChan;
                  Do (WaitWorkers workersWG); Do CloseFileChan; Do (scan_summary (se_monitoring env));
                  Close SmSignalContext; Close (MasterConn conn)].
Proof.
  unfold finish, scanner_main.
  destruct (se_Load env) as [e|]; [intros [= <- <- <-]; by left|].
  destruct (se_Config env) as [config|e]; [|intros [= <- <- <-]; by left].
  cbn -[scanner_workers make_scanner_chans ToServiceConfig Errorf String.append fmt_d scan_summary].
  destruct (scanner_workers config (make_scanner_chans config)) as [ws wg] eqn:Hw.
  destruct (se_Listen env) as [e|]; [intros [= <- <- <-]; by left|].
  destruct (se_NewClient env), (se_signal env), (se_calls_end env), (se_workers_end env);
    intros [= <- <- <-]; right; (split_and!; [done..|]);
    first [eexists config, _, [_; _; _; _; _; _; _]; rewrite Hw; done
          |eexists config, _, [_; _; _; _; _; _; _; _]; rewrite Hw; done].
Qed.

(** The bytes of the summary are those since the last tick of the statistics, which
    resets their counter, while the files are those of the whole scan. *)
Theorem summary_bytes_since_tick :
  let tick mm := updateStats mm (2 * second) 0 0 in
  let file mm size := IncrScannerBytes (IncrFileFound mm) size in
  scan_summary (file (tick (file (NewMonitoringManager second) 1000)) 10) = Summary 2 0 10 0 0.
Proof. by vm_compute. Qed.

(** ** The shutdown

    The scanner workers with the context, the closing of the channel of directories and
    the supervisor that starts them: its loop tests the context before it calls [Run], so a
    worker is not started yet, in [Run] ([Scanner.scan_phase]), or skipped because the
    context was done.  Unlike in [Scanner.scan_step], the context can be done. *)

Section Shutdown.
Context {UT : UnicodeTables} {E : ScanEnv}.
Variable w : Scanner.FileScannerWorker.

(** [rn_system] has the workers that have entered [Run]; [rn_waiting] have not been
    started by the supervisor yet, [rn_skipped] were not because the context was done. *)
Record running := MkRunning {
  rn_system : scan_system; rn_cancelled : bool; rn_waiting : nat; rn_skipped : nat }.

Definition close_dirChan (s : scan_shared) : scan_shared :=
  MkScanShared (ss_dirChan s) (ss_dirCap s) true (ss_fileChan s) (ss_fileCap s) (ss_scanWG s)
    (ss_workersWG s) (ss_monitoring s).

Inductive run_step : running → running → Prop :=
| rs_worker s s' pre p p' post i sent c wt sk :
    (is_cancel i = true → c = true) → scanner_step w s p i = Some (s', p') →
    run_step (MkRunning (MkScanSystem s (pre ++ p :: post) sent) c wt sk)
             (MkRunning (MkScanSystem s' (pre ++ p' :: post) sent) c wt sk)
| rs_sender s ws r rest sent c wt sk :
    ss_fileChan s = r :: rest →
    run_step (MkRunning (MkScanSystem s ws sent) c wt sk)
             (MkRunning (MkScanSystem (with_files s rest) ws (sent ++ [r])) c wt sk)
(** the supervisor finds the context alive and calls [Run] *)
| rs_enter s ws sent wt sk :
    run_step (MkRunning (MkScanSystem s ws sent) false (S wt) sk)
             (MkRunning (MkScanSystem s (ws ++ [Idle]) sent) false wt sk)
(** or finds it done, and returns *)
| rs_skip sy wt sk :
    run_step (MkRunning sy true (S wt) sk) (MkRunning sy true wt (S sk)).

(** What the program does to the workers: a scan is triggered, the signal comes, and
    then the channel is closed. *)
Inductive main_step : running → running → Prop :=
| ms_trigger s s' ws sent req resp c wt sk :
    ss_dirClosed s = false → TriggerScan s req = Some (s', resp) →
    main_step (MkRunning (MkScanSystem s ws sent) c wt sk) (MkRunning (MkScanSystem s' ws sent) c wt sk)
| ms_signal sy c wt sk : main_step (MkRunning sy c wt sk) (MkRunning sy true wt sk)
| ms_close s ws sent wt sk :
    main_step (MkRunning (MkScanSystem s ws sent) true wt sk)
              (MkRunning (MkScanSystem (close_dirChan s) ws sent) true wt sk).

Inductive reachable (a : running) : running → Prop :=
| reach_refl : reachable a a
| reach_run b c : reachable a b → run_step b c → reachable a c
| reach_main b c : reachable a b → main_step b c → reachable a c.

(** [n] scanner workers given to the supervisor, none started. *)
Definition booted (n : nat) (s : scan_shared) : running :=
  MkRunning (MkScanSystem s [] []) false n 0.

(** The workers that will not leave the wait group once the context is done: the
    supervisor does not call their [Run], whose deferred [Done] is the only one. *)
Definition late (r : running) : Z := Z.of_nat (rn_waiting r + rn_skipped r).

(** ** The wait group counts the workers that are not done *)

Definition alive (p : scan_phase) : bool :=
  match p with Returned _ | Panicked => false | _ => true end.
Definition alive_count (ws : list scan_phase) : Z := Z.of_nat (length (List.filter alive ws)).

Lemma alive_count_app l1 l2 : alive_count (l1 ++ l2) = alive_count l1 + alive_count l2.
Proof. unfold alive_count. rewrite List.filter_app, length_app. lia. Qed.
Lemma alive_count_cons p l : alive_count (p :: l) = (if alive p then 1 else 0) + alive_count l.
Proof. unfold alive_count. simpl. destruct (alive p); simpl; lia. Qed.

(** A step of a worker: the group is left by the one that ends. *)
Lemma scanner_step_alive s p i s' p' : scanner_step w s p i = Some (s', p') →
  alive p = true ∧ ss_workersWG s' = ss_workersWG s + (if alive p' then 0 else -1) ∧
  ss_dirClosed s' = ss_dirClosed s.
Proof.
  intros H. destruct p as [|d|d [|e es]|d sub es|d r es|e|], i; simpl in H; try done;
    repeat case_match; simplify_eq/=; split_and!; try done; lia.
Qed.

Definition counted (r : running) : Prop :=
  ss_workersWG (sy_shared (rn_system r)) = alive_count (sy_workers (rn_system r)) + late r ∧
  (ss_dirClosed (sy_shared (rn_system r)) = true → rn_cancelled r = true).

Lemma run_step_counted a b : run_step a b → counted a → counted b.
Proof.
  intros [s s' pre p p' post i sent c wt sk Hi Hs|s ws r rest sent c wt sk Hf|s ws sent wt sk|sy wt sk] [Hw Hc];
    [|by split| |].
  - apply scanner_step_alive in Hs as (Ha & Hwg & Hcl). split; cbn in *.
    + rewrite Hwg, Hw, !alive_count_app, !alive_count_cons, Ha. unfold late. cbn. case_match; lia.
    + by rewrite Hcl.
  - split; cbn in *; [|done]. rewrite Hw, alive_count_app.
    unfold late, alive_count. cbn. lia.
  - split; cbn in *; [|done]. rewrite Hw. unfold late. cbn. lia.
Qed.

Lemma reachable_counted n s b : ss_workersWG s = Z.of_nat n → ss_dirClosed s = false →
  reachable (booted n s) b → counted b.
Proof.
  intros Hn Hcl. induction 1 as [|b c _ IH Hs|b c _ IH Hs].
  - split; cbn; [|by rewrite Hcl]. rewrite Hn. unfold alive_count, late. cbn. lia.
  - by eapply run_step_counted.
  - destruct IH as [Hw Hc].
    destruct Hs as [s0 s' ws sent req resp c wt sk Hd Ht|sy c wt sk|s0 ws sent wt sk]; split; cbn in *; try done.
    + unfold TriggerScan in Ht. case_match; by simplify_eq/=.
    + unfold TriggerScan in Ht. case_match; simplify_eq/=; by rewrite Hd.
Qed.

(** ** Once the channel is closed, the work runs out

    A directory costs its reading and at most two steps for each entry; none is
    added, as a send on the closed channel ends the worker. *)
Definition work (d : string) : Z :=
  match ReadDir d with Ok es => 2 * Z.of_nat (length es) + 1 | Err _ => 0 end.
Definition cost (p : scan_phase) : Z :=
  match p with
  | Idle => 1
  | Throttling d => 2 + work d
  | Looping _ es => 2 * Z.of_nat (length es) + 2
  | SendingDir _ _ es | SendingFile _ _ es => 2 * Z.of_nat (length es) + 3
  | Returned _ | Panicked => 0
  end.
Definition sum_costs {A} (f : A → Z) (l : list A) : Z := foldr (λ x n, f x + n) 0 l.
Definition shared_cost (s : scan_shared) : Z :=
  2 * sum_costs (λ d, 2 + work d) (ss_dirChan s) + Z.of_nat (length (ss_fileChan s)).
Definition shutdown_cost (r : running) : Z :=
  2 * sum_costs cost (sy_workers (rn_system r)) + shared_cost (sy_shared (rn_system r)) +
  Z.of_nat (rn_waiting r).

Lemma sum_costs_app {A} (f : A → Z) l1 l2 : sum_costs f (l1 ++ l2) = sum_costs f l1 + sum_costs f l2.
Proof. induction l1; simpl; lia. Qed.
Lemma sum_costs_cons {A} (f : A → Z) x l : sum_costs f (x :: l) = f x + sum_costs f l.
Proof. done. Qed.
Lemma sum_costs_nonneg {A} (f : A → Z) l : (∀ x, 0 ≤ f x) → 0 ≤ sum_costs f l.
Proof. intros Hf. induction l as [|x l IH]; simpl; [lia|]. specialize (Hf x). lia. Qed.
Lemma work_nonneg d : 0 ≤ work d.
Proof. unfold work. case_match; lia. Qed.
Lemma cost_nonneg p : 0 ≤ cost p.
Proof. destruct p; simpl; try lia. pose proof (work_nonneg dir). lia. Qed.

Lemma shutdown_cost_nonneg r : 0 ≤ shutdown_cost r.
Proof.
  unfold shutdown_cost, shared_cost.
  pose proof (sum_costs_nonneg cost (sy_workers (rn_system r)) cost_nonneg).
  pose proof (sum_costs_nonneg (λ d, 2 + work d) (ss_dirChan (sy_shared (rn_system r)))
    ltac:(intros d; pose proof (work_nonneg d); lia)). lia.
Qed.

Lemma scanner_step_cost s p i s' p' : ss_dirClosed s = true →
  scanner_step w s p i = Some (s', p') → 2 * cost p' + shared_cost s' < 2 * cost p + shared_cost s.
Proof.
  intros Hcl H. unfold shared_cost.
  destruct p as [|d|d [|e es]|d sub es|d r es|e|], i; simpl in H; try done.
  all: try (rewrite Hcl in H).
  all: repeat case_match; simplify_eq/=; unfold work; rewrite ?length_app; simpl.
  all: repeat match goal with H : ReadDir _ = _ |- _ => rewrite H end.
  all: repeat match goal with H : ss_dirChan _ = _ |- _ => rewrite H end.
  all: simpl; try lia.
  all: pose proof (work_nonneg d); unfold work in *; lia.
Qed.

Inductive run_steps (a : running) : nat → running → Prop :=
| rsteps_nil : run_steps a 0 a
| rsteps_snoc k b c : run_steps a k b → run_step b c → run_steps a (S k) c.

Definition dir_closed (r : running) : bool := ss_dirClosed (sy_shared (rn_system r)).

Lemma run_step_cost a b : dir_closed a = true → rn_cancelled a = true → run_step a b →
  dir_closed b = true ∧ rn_cancelled b = true ∧ late b = late a ∧ shutdown_cost b < shutdown_cost a.
Proof.
  unfold dir_closed. intros Hcl Hca Hst. revert Hcl Hca.
  destruct Hst as [s s' pre p p' post i sent c wt sk _ Hs|s ws r rest sent c wt sk Hf|s ws sent wt sk|sy wt sk];
    cbn; intros Hcl Hca.
  - destruct (scanner_step_alive _ _ _ _ _ Hs) as (_ & _ & ->). split_and!; [done..|].
    apply scanner_step_cost in Hs; [|done]. unfold shutdown_cost.
    cbn [rn_system sy_workers sy_shared rn_waiting]. rewrite !sum_costs_app, !sum_costs_cons. lia.
  - split_and!; [done..|]. unfold shutdown_cost, shared_cost.
    cbn [rn_system sy_workers sy_shared with_files ss_dirChan ss_fileChan rn_waiting]. rewrite Hf.
    cbn [length]. lia.
  - done.
  - split_and!; [done|done|unfold late; cbn; lia|]. unfold shutdown_cost. cbn [rn_system rn_waiting]. lia.
Qed.

Lemma run_steps_inv a k b : run_steps a k b → dir_closed a = true → counted a →
  dir_closed b = true ∧ counted b ∧ late b = late a ∧ Z.of_nat k + shutdown_cost b ≤ shutdown_cost a.
Proof.
  induction 1 as [|k b c _ IH Hs]; intros Hcl Hco; [split_and!; [done..|lia]|].
  destruct (IH Hcl Hco) as (Hb & Hcb & Hl & Hk).
  destruct (run_step_cost b c Hb (proj2 Hcb Hb) Hs) as (Hc & _ & Hl' & Hlt).
  split_and!; [done|by eapply run_step_counted|congruence|lia].
Qed.

(** A worker that is not done can move once the context is cancelled. *)
Lemma alive_moves s p : alive p = true → ∃ i s' p', scanner_step w s p i = Some (s', p').
Proof.
  destruct p as [|d|d [|e es]|d sub es|d r es|e|]; intros Ha; try done.
  - by eexists (CtxDone Canceled), _, _.
  - exists PauseOver. cbn. destruct (ReadDir d); by eexists _, _.
  - by eexists (NextEntry 0), _, _.
  - exists (NextEntry 0). cbn. destruct (de_Type e); try (by eexists _, _).
    destruct (processFile _ _ _); by eexists _, _.
  - by eexists (CtxDone Canceled), _, _.
  - by eexists (CtxDone Canceled), _, _.
Qed.

Lemma alive_split ws : alive_count ws ≠ 0 → ∃ pre p post, ws = pre ++ p :: post ∧ alive p = true.
Proof.
  induction ws as [|p ws IH]; [done|]. rewrite alive_count_cons. destruct (alive p) eqn:Hp.
  - intros _. by exists [], p, ws.
  - intros H. destruct IH as (pre & q & post & -> & Hq); [lia|]. by exists (p :: pre), q, post.
Qed.

(** C22. The shutdown of the scanner ends exactly when every worker had been started.
    Whatever the workers were doing when the signal came, once the channel of directories is
    closed: only finitely many steps are left, of a number known in advance; the wait group
    never falls below the number of workers the supervisor had not started when the context
    was cancelled, which never call [Done]; as long as it is above that number, some worker
    can move; and when it is zero no worker can do anything any more, so that the channel of
    files is closed under nobody.  So if every worker had entered [Run], the wait group
    reaches zero and [Wait] returns; otherwise it does not. *)
Theorem shutdown_completes n s a :
  ss_workersWG s = Z.of_nat n → ss_dirClosed s = false → reachable (booted n s) a →
  dir_closed a = true → ∀ k b, run_steps a k b →
  Z.of_nat k ≤ shutdown_cost a ∧
  late a ≤ ss_workersWG (sy_shared (rn_system b)) ∧
  (late a < ss_workersWG (sy_shared (rn_system b)) → ∃ c, run_step b c) ∧
  (ss_workersWG (sy_shared (rn_system b)) = 0 → rn_waiting b = 0%nat ∧
     ∀ p i, p ∈ sy_workers (rn_system b) → scanner_step w (sy_shared (rn_system b)) p i = None).
Proof.
  intros Hn Hs Hr Hcl k b Hk.
  pose proof (reachable_counted n s a Hn Hs Hr) as Hca.
  destruct (run_steps_inv a k b Hk Hcl Hca) as (Hb & [Hwg Hcan] & Hl & Hle).
  pose proof (shutdown_cost_nonneg b). rewrite Hwg, Hl.
  assert (0 ≤ alive_count (sy_workers (rn_system b))) by (unfold alive_count; lia). split_and!.
  - lia.
  - lia.
  - destruct b as [[sb ws sent] c wt sk]. cbn in *. intros Hne.
    destruct (alive_split ws) as (pre & p & post & -> & Hp); [lia|].
    destruct (alive_moves sb p Hp) as (i & s' & p' & Hst).
    eexists. eapply rs_worker; [|exact Hst]. intros _. by apply Hcan.
  - intros Hz. rewrite <- Hl in Hz. split; [unfold late in Hz; lia|].
    intros p i Hp. destruct (scanner_step w _ p i) as [[s' p']|] eqn:Hst; [|done].
    apply scanner_step_alive in Hst as [Ha _].
    apply list_elem_of_split in Hp as (l1 & l2 & Hsp). rewrite Hsp in Hz.
    rewrite alive_count_app, alive_count_cons, Ha in Hz. unfold alive_count, late in Hz. lia.
Qed.
End Shutdown.

Lemma lfilter_replicate {A} (P : A → bool) n x :
  List.filter P (replicate n x) = if P x then replicate n x else [].
Proof. induction n as [|n IH]; simpl; [by case_match|]. destruct (P x); by rewrite IH. Qed.

(** The wait group the program waits on counts the scanner workers it gave to the
    supervisor. *)
Lemma scanner_workers_counted config c ws wg : scanner_workers config c = (ws, wg) →
  wg = Z.of_nat (length (List.filter
         (λ x, String.eqb (GetWorkerName (Some x)) "FileScannerWorker") ws)).
Proof.
  unfold scanner_workers. cbn [buildTelemetryWorkers buildFileWorkers]. intros [= <- <-].
  cbn [List.filter GetWorkerName String.eqb app]. cbn.
  rewrite List.filter_app. cbn [List.filter]. cbn. rewrite !lfilter_replicate. cbn.
  by rewrite app_nil_r, length_replicate.
Qed.

(** ** Witness: the scan that blocks ([Scanner.scan_can_block]) is shut down *)

Definition blocked_scan : running :=
  MkRunning (MkScanSystem (close_dirChan (sy_shared stuck)) [SendingDir "/r" "/r/b" []] []) true 0 0.

Lemma run_inputs_reach {UT : UnicodeTables} {E : ScanEnv} w a ins : ∀ s p s' p' c,
  run_inputs w s p ins = Some (s', p') → forallb (λ i, negb (is_cancel i)) ins = true →
  reachable w a (MkRunning (MkScanSystem s [p] []) c 0 0) →
  reachable w a (MkRunning (MkScanSystem s' [p'] []) c 0 0).
Proof.
  induction ins as [|i ins IH]; intros s p s' p' c Hr Hc Ha; cbn [run_inputs] in Hr.
  { by simplify_eq. }
  cbn [forallb] in Hc. apply andb_true_iff in Hc as [Hi%negb_true_iff Hc].
  destruct (scanner_step w s p i) as [[s1 p1]|] eqn:Hs; [|done].
  eapply IH; [exact Hr|exact Hc|]. eapply reach_run; [exact Ha|].
  apply (rs_worker w s s1 [] p p1 [] i [] c 0 0); [by rewrite Hi|done].
Qed.

Lemma blocked_scan_reachable :
  reachable (UT := Latin1Tables) (E := wide_fs) demo_worker (booted 1 (fresh_scan 1 10 1 0))
    blocked_scan.
Proof.
  eapply reach_main; [|apply ms_close]. eapply reach_main; [|apply (ms_signal _ false 0 0)].
  assert (run_inputs (UT := Latin1Tables) (E := wide_fs) demo_worker (demo_start 1) Idle
    [Receive; PauseOver; NextEntry 0; Sent ""; NextEntry 0] =
    Some (sy_shared stuck, SendingDir "/r" "/r/b" [])) as Hr by vm_refl.
  eapply run_inputs_reach; [exact Hr|done|].
  eapply reach_main; [eapply reach_run; [apply reach_refl|apply (rs_enter _ _ [] [] 0 0)]|].
  by apply (ms_trigger _ _ _ _ (MkScanRequest "/r") (MkScanResponse true)).
Qed.

Lemma shutdown_completes_witness :
  ∃ c, run_step (UT := Latin1Tables) (E := wide_fs) demo_worker blocked_scan c.
Proof.
  destruct (shutdown_completes (UT := Latin1Tables) (E := wide_fs) demo_worker 1
    (fresh_scan 1 10 1 0) blocked_scan eq_refl eq_refl blocked_scan_reachable eq_refl 0 blocked_scan
    (rsteps_nil _ _)) as (_ & _ & Hm & _).
  apply Hm. reflexivity.
Defined.

(** ** A worker that is late

    The signal comes before the supervisor has started the only worker: the wait group
    stays at one and nothing can move. *)
Definition late_worker : running :=
  MkRunning (MkScanSystem (close_dirChan (fresh_scan 1 10 1 0)) [] []) true 0 1.

Lemma late_worker_blocks :
  reachable (UT := Latin1Tables) (E := wide_fs) demo_worker (booted 1 (fresh_scan 1 10 1 0)) late_worker ∧
  ss_workersWG (sy_shared (rn_system late_worker)) = 1 ∧
  ∀ c, ¬ run_step (UT := Latin1Tables) (E := wide_fs) demo_worker late_worker c.
Proof.
  split_and!; [|done|].
  - eapply reach_run; [|apply rs_skip]. eapply reach_main; [|apply ms_close].
    eapply reach_main; [apply reach_refl|apply ms_signal].
  - intros c Hs. inversion Hs as [? ? pre ? ? ? ? ? ? ? ? ? ? Heq| | |]; subst; [|done].
    by destruct pre.
Qed.
