(* ===== verification/Inspect.v ===== *)
(** * Inspect: the views of the key store for developers

    The debug server ([internal/debug_server.go]) with its row mappers
    ([DefaultMapper], and [AnalysisMapper] of [cmd/master/main.go]), and the
    command-line table of [tools/badger_inspect.go].  The HTML page and the
    layout of the table are not modelled: the views are their rows. *)

From Stdlib Require Import Ascii String.
From S2P Require Import Prelude Errors Env Store Text Domain AnalysisStore Strconv Config.

(** ** Rows *)

Record InspectRow := MkInspectRow {
  ir_Key : string; ir_Type : string; ir_Timestamp : string; ir_EntityID : string;
  ir_Namespace : string; ir_Detail : string; ir_Scores : string }.

(** [t.Format("15:04:05")], in a zone [offset] seconds east of Greenwich. *)
Definition format_clock (offset : Z) (t : time) : string :=
  let s := (Unix t + offset) mod 86400 in
  fmt_pad 2 (s / 3600) +:+ ":" +:+ fmt_pad 2 (s / 60 mod 60) +:+ ":" +:+ fmt_pad 2 (s mod 60).

(** [s] cut after eight bytes. *)
Definition short_id (s : string) : string :=
  if (8 <? String.length s)%nat then substring 0 8 s else s.

Section Inspect.
(** The local zone, at an instant; and the order in which Go ranges over a map. *)
Variable local_offset : time → Z.
Variable range_scores : gmap string float64 → list (string * float64).

Definition DefaultMapper (key val : string) : InspectRow :=
  let parts := split_on ":" key in
  let timestamp := "--:--:--" in
  let detail := "Size: " +:+ fmt_d (Z.of_nat (String.length val)) +:+ " bytes" in
  match parts with
  | _ :: namespace :: ts :: entity :: _ =>
      let timestamp :=
        match ParseInt ts with
        | Ok tsNano => format_clock (local_offset tsNano) tsNano
        | Err _ => timestamp
        end in
      MkInspectRow key "RAW" timestamp (short_id entity) namespace detail "-"
  | _ => MkInspectRow key "RAW" timestamp "--------" "default" detail "-"
  end.

Definition score_text (scores : list (string * float64)) : string :=
  foldl (λ s '(k, v), s +:+ k +:+ ":" +:+ fmt_fixed 2 v +:+ " ") "" scores.

Context {B : Badger} {BL : BadgerLaws B} {U : Uuid} {UL : UuidLaws U}
        {T : Timestamppb} {TL : TimestamppbLaws T} {C : Codec pbAnalysis} {CL : CodecLaws pbAnalysis}.

(** The type and the detail of a row, over the default ones; [None] is the
    dereference of a nil pointer. *)
Definition payload_row (p : payload) (type detail : string) : option (string * string) :=
  match p with
  | AudioP a | AudioDetailsPtr (Some a) => Some ("AUDIO", au_Transcription a)
  | FileP f | FilePtr (Some f) =>
      Some ("FILE", if String.eqb (fd_Content f) "" then detail else fd_Content f)
  | TextP t | TextPtr (Some t) => Some ("CHAT", tc_Content t)
  | AudioDetailsPtr None | FilePtr None | TextPtr None => None
  | NilPayload | OtherPayload _ => Some (type, detail)
  end.

Definition AnalysisMapper (key val : string) : option InspectRow :=
  let row := DefaultMapper key val in
  let with_ type detail scores :=
    MkInspectRow (ir_Key row) type (ir_Timestamp row) (ir_EntityID row) (ir_Namespace row) detail
      scores in
  match Unmarshal val with
  | Err _ => Some (with_ (ir_Type row) "Error: unmarshal failed" (ir_Scores row))
  | Ok p =>
      match ToAnalysis p with
      | Err _ => Some row
      | Ok analysis =>
          '(type, detail) ← payload_row (an_Payload analysis) "BASE" (an_Summary analysis);
          Some (with_ type detail (score_text (range_scores (an_Scores analysis))))
      end
  end.

(** ** The debug server *)

Record PageData (any : Type) := MkPageData {
  pd_Prefix : string; pd_Items : list InspectRow; pd_Stats : gmap string any }.
Arguments MkPageData {any}. Arguments pd_Prefix {any}. Arguments pd_Items {any}.
Arguments pd_Stats {any}.

(** The data of the page for a request; [None] when the mapper panics. *)
Definition debug_page {any} (db : DB) (mapper : option (string → string → option InspectRow))
    (statsProvider : option (gmap string any)) (query_prefix : string) : option (PageData any) :=
  let mapper := default (λ k v, Some (DefaultMapper k v)) mapper in
  let prefix := if String.eqb query_prefix "" then "analysis:" else query_prefix in
  let stats := default ∅ statsProvider in
  items ← View db (λ txn,
    mapM (λ item, mapper item.1 item.2)
      (take_while (has_prefix prefix) (it_Seek txn false prefix)));
  Some (MkPageData prefix items stats).

(** The channel of one place that a paused test waits on: [resume] empties it and
    fills it, [Wait] takes from it or stays. *)
Definition resume (resumeChan : list unit) : option (list unit) :=
  let resumeChan := match resumeChan with _ :: rest => rest | [] => [] end in
  if (length resumeChan <? 1)%nat then Some (resumeChan ++ [tt]) else None.
Definition Wait (resumeChan : list unit) : option (list unit) :=
  match resumeChan with _ :: rest => Some rest | [] => None end.
Definition inspect_url (currentPort : Z) (prefix : string) : string :=
  "http://localhost:" +:+ fmt_d currentPort +:+ "/inspect?prefix=" +:+ prefix.

(** The package's variables. *)
Record debug_globals := MkDebugGlobals { dg_resumeChan : list unit; dg_currentPort : Z }.

(** [StartDebugServer]: the address it listens on and the paths it serves. *)
Definition StartDebugServer (g : debug_globals) (port : Z) (endpoint : string)
  : debug_globals * (string * list string) :=
  (MkDebugGlobals (dg_resumeChan g) port, ("0.0.0.0:" +:+ fmt_d port, [endpoint; "/resume"])).

(** [Inspect]: the address it prints, and the channel after the pause ([None] while it
    waits); [fn] may itself resume. *)
Definition InspectTest (g : debug_globals) (port : Z) (endpoint prefix : string)
    (fn : option (debug_globals → debug_globals)) : string * option (list unit) :=
  let g := (StartDebugServer g port endpoint).1 in
  let g := match fn with Some f => f g | None => g end in
  (inspect_url (dg_currentPort g) prefix, Wait (dg_resumeChan g)).

(** A paused test goes on exactly after a resume, however often it was asked for, and
    the next pause waits again. *)
Theorem resume_wakes_once g port endpoint prefix n : (length (dg_resumeChan g) ≤ 1)%nat →
  let press := λ g, MkDebugGlobals (default [] (resume (dg_resumeChan g))) (dg_currentPort g) in
  (InspectTest g port endpoint prefix (Some (Nat.iter (S n) press))).2 = Some [] ∧ Wait [] = None.
Proof.
  intros Hl press. split; [|done]. unfold InspectTest, StartDebugServer. cbn [fst snd].
  assert (∀ k g, (length (dg_resumeChan g) ≤ 1)%nat →
    dg_resumeChan (Nat.iter (S k) press g) = [tt]) as Hk.
  { induction k as [|k IH]; intros g' Hg.
    - destruct g' as [[|[] [|? ?]] pt]; cbn in *; [done|done|lia].
    - specialize (IH g' Hg). change (Nat.iter (S (S k)) press g') with (press (Nat.iter (S k) press g')).
      unfold press at 1. cbn [dg_resumeChan]. by rewrite IH. }
  rewrite Hk by done. done.
Qed.

(** ** The command-line tool *)

Record inspect_opts := MkInspectOpts {
  io_Dir : string; io_ReadOnly : bool; io_BypassLockGuard : bool; io_ValueLogFileSize : option Z }.

(** [strings.Contains]. *)
Fixpoint contains (s sub : string) : bool :=
  String.prefix sub s || match s with String _ s => contains s sub | EmptyString => false end.

(** [openDB], over the files [W]: when the log must be truncated, the store is opened
    for writing once. *)
Definition openDB {W} (badger_Open : inspect_opts → W → W * result error DB)
    (db_Close : DB → W → W) (path : string) (w : W) : W * result error DB :=
  let opts := MkInspectOpts path true true (Some (10 * 1024 * 1024)) in
  match badger_Open opts w with
  | (w, Ok db) => (w, Ok db)
  | (w, Err err) =>
      if contains (error_text err) "Log truncate required" then
        match badger_Open (MkInspectOpts path false true None) w with
        | (w, Err err) => (w, Err (Errorf "repair failed: " err))
        | (w, Ok db) => badger_Open opts (db_Close db w)
        end
      else (w, Err err)
  end.

Definition payload_type (p : payload) : string :=
  match p with
  | TextP _ | TextPtr _ => "CHAT"
  | FileP _ | FilePtr _ => "FILE"
  | AudioP _ | AudioDetailsPtr _ => "AUDIO"
  | NilPayload | OtherPayload _ => "BASE"
  end.

Definition inspect_row (rawKey : string) (p : pbAnalysis) (analysis : Analysis) : InspectRow :=
  MkInspectRow rawKey (payload_type (an_Payload analysis)) (format_clock 0 (an_At analysis))
    (short_id (pa_EntityId p)) (pa_Namespace p) (an_Summary analysis)
    (score_text (range_scores (pa_Scores p))).

(** The loop: the lines printed for values that cannot be read, and the table. *)
Fixpoint inspect_loop (prefix : string) (it : list entry) (printed : list string)
    (table : list InspectRow) : list string * result error (list InspectRow) :=
  match it with
  | [] => (printed, Ok table)
  | item :: it' =>
      if negb (has_prefix prefix item) then (printed, Ok table)
      else if String.prefix "idx:" item.1 then inspect_loop prefix it' printed table
      else
        match Unmarshal item.2 with
        | Err err =>
            inspect_loop prefix it'
              (printed ++ ["Error unmarshaling key " +:+ item.1 +:+ ": " +:+ error_text err]) table
        | Ok p =>
            match ToAnalysis p with
            | Err err => (printed, Err err)
            | Ok analysis =>
                inspect_loop prefix it' printed (table ++ [inspect_row item.1 p analysis])
            end
        end
  end.
Definition inspect_main (db : DB) (prefix : string) : list string * result error (list InspectRow) :=
  View db (λ txn, inspect_loop prefix (it_Seek txn false prefix) [] []).

(** ** What the views show *)

(** What is shown of a stored analysis. *)
Definition shown_detail (a : Analysis) : string :=
  match an_Payload a with
  | AudioP p | AudioDetailsPtr (Some p) => au_Transcription p
  | TextP p | TextPtr (Some p) => tc_Content p
  | FileP p | FilePtr (Some p) =>
      if String.eqb (fd_Content p) "" then an_Summary a else fd_Content p
  | _ => an_Summary a
  end.
Definition shown_row (offset : Z) (detail : string) (a : Analysis) : InspectRow :=
  MkInspectRow (an_key a) (payload_type (an_Payload a)) (format_clock offset (an_At a))
    (substring 0 8 (uuid_String (an_EntityId a))) (an_Namespace a) detail
    (score_text (range_scores (an_Scores a))).
Definition table_row (a : Analysis) : InspectRow := shown_row 0 (an_Summary a) a.
Definition page_row (a : Analysis) : InspectRow :=
  shown_row (local_offset (an_At a)) (shown_detail a) a.

(** An analysis whose key can be taken apart again. *)
Definition readable (a : Analysis) : Prop := lacks ":" (an_Namespace a) = true ∧ modern (an_At a).

(** The primary entries of the store are those the repository wrote. *)
Definition written (m : gmap string string) : Prop := ∀ k v,
  m !! k = Some v → String.prefix "analysis:" k = true →
  ∃ a, k = an_key a ∧ bytes_of a = Some v ∧ readable a.

Lemma written_effect m a : written m → readable a → written (store_effect m a).
Proof.
  intros Hm Ha k v. unfold store_effect. destruct (bytes_of a) as [b|] eqn:Hb; [|apply Hm].
  rewrite lookup_insert_Some. intros [[<- _]|[_ Hk]] Hp.
  { by destruct (an_key_index a (an_EntityId a)). }
  apply lookup_insert_Some in Hk as [[<- <-]|[_ Hk]]; eauto.
Qed.

Lemma short_id_uuid u : short_id (uuid_String u) = substring 0 8 (uuid_String u).
Proof. unfold short_id. by rewrite uuid_String_length. Qed.

(** The mapper reads the namespace, the time and the identifier back from a key. *)
Lemma DefaultMapper_an_key a v : readable a →
  DefaultMapper (an_key a) v =
  MkInspectRow (an_key a) "RAW" (format_clock (local_offset (an_At a)) (an_At a))
    (substring 0 8 (uuid_String (an_EntityId a))) (an_Namespace a)
    ("Size: " +:+ fmt_d (Z.of_nat (String.length v)) +:+ " bytes") "-".
Proof.
  intros [Hns Hat]. pose proof Hat as [H0 H1].
  assert (split_on ":" (an_key a) = ["analysis"; an_Namespace a;
    fmt_pad 19 (UnixNano (an_At a)); uuid_String (an_EntityId a)]) as Hsplit.
  { unfold an_key, buildKey, analysis_prefix, time_key.
    rewrite <- !str_app_assoc. set (d := fmt_pad 19 (UnixNano (an_At a))).
    change (split_on ":" ("analysis" +:+ String ":" (an_Namespace a +:+ String ":"
      (d +:+ String ":" (uuid_String (an_EntityId a))))) =
      ["analysis"; an_Namespace a; d; uuid_String (an_EntityId a)]).
    rewrite (split_on_cons _ "analysis"), split_on_cons, split_on_cons, split_on_last;
      [done|by apply uuid_String_lacks| |done|done].
    apply fmt_pad_lacks; [done|simpl; lia]. }
  unfold DefaultMapper. rewrite Hsplit. f_equal; [|apply short_id_uuid].
  rewrite UnixNano_modern by done. rewrite ParseInt_pad; [done|lia|simpl; lia|done].
Qed.

(** What the bytes of an analysis are read as. *)
Lemma bytes_read a b : bytes_of a = Some b → ∃ p,
  Unmarshal b = Ok p ∧ ToAnalysis p = Ok (canonical a) ∧
  pa_EntityId p = uuid_String (an_EntityId a) ∧ pa_Namespace p = an_Namespace a ∧
  pa_Scores p = an_Scores a.
Proof.
  unfold bytes_of. intros (p & Hp & Hb)%bind_Some. case_match eqn:Hm; simplify_eq.
  exists p. split; [by apply Unmarshal_Marshal|]. split; [by apply ToAnalysis_fromAnalysis|].
  unfold fromAnalysis in Hp. rewrite MapKeys_id in Hp.
  destruct (an_Payload a) as [|?|[?|]|?|[?|]|?|[?|]|?]; by simplify_eq.
Qed.

Lemma canonical_payload_row a b : bytes_of a = Some b →
  payload_type (canonical_payload (an_Payload a)) = payload_type (an_Payload a) ∧
  payload_row (canonical_payload (an_Payload a)) "BASE" (an_Summary a) =
    Some (payload_type (an_Payload a), shown_detail a).
Proof.
  unfold bytes_of, fromAnalysis, shown_detail.
  by destruct (an_Payload a) as [|?|[?|]|?|[?|]|?|[?|]|?].
Qed.

Lemma AnalysisMapper_stored a b : readable a → bytes_of a = Some b →
  AnalysisMapper (an_key a) b = Some (page_row a).
Proof.
  intros Ha Hb. destruct (bytes_read a b Hb) as (p & Hu & Ht & _).
  unfold AnalysisMapper. rewrite Hu, Ht, DefaultMapper_an_key by done.
  cbn [an_Payload an_Summary an_Scores canonical].
  rewrite (proj2 (canonical_payload_row a b Hb)). done.
Qed.

Lemma inspect_loop_take prefix it : ∀ printed table,
  inspect_loop prefix it printed table =
  inspect_loop prefix (take_while (has_prefix prefix) it) printed table.
Proof.
  induction it as [|item it IH]; intros printed table; [done|]. cbn [inspect_loop take_while].
  destruct (has_prefix prefix item) eqn:E; cbn [negb inspect_loop]; [|done].
  rewrite E. cbn [negb]. repeat case_match; auto.
Qed.

Lemma inspect_loop_stored l : ∀ printed table,
  Forall (λ ab, bytes_of ab.1 = Some ab.2) l →
  inspect_loop "analysis:" ((λ ab, (an_key ab.1, ab.2)) <$> l) printed table =
  (printed, Ok (table ++ (table_row <$> l.*1))).
Proof.
  induction l as [|[a b] l IH]; intros printed table HF; [by rewrite app_nil_r|].
  apply Forall_cons in HF as [Hb HF]. cbn [fst snd] in Hb.
  rewrite !fmap_cons. cbn [inspect_loop fst snd].
  assert (has_prefix "analysis:" (an_key a, b) = true) as -> 
    by (apply (prefix_analysis (an_Namespace a)), prefix_app).
  assert (String.prefix "idx:" (an_key a) = false) as -> by done. cbn [negb].
  destruct (bytes_read a b Hb) as (p & -> & -> & He & Hn & Hs).
  rewrite IH by done. do 2 f_equal. rewrite <- app_assoc. f_equal. cbn [app]. f_equal.
  unfold inspect_row, table_row, shown_row. rewrite He, Hn, Hs, short_id_uuid.
  cbn [an_Payload an_At an_Summary canonical].
  by rewrite (proj1 (canonical_payload_row a b Hb)).
Qed.

(** C39. What developers see of the analyses: on a store written by the repository,
    under namespaces without a colon, the command-line table and the debug page list
    the same analyses, every one once and in the order of the keys, and nothing fails
    or panics.  Both show the key, the type of the payload, the scores, the namespace
    and the start of the identifier, which the page takes from the key and the table
    from the value; the table shows the summary and the time in UTC, the page the
    content and the local time. *)
Theorem inspection_shows_store {any} db (stats : option (gmap string any)) :
  written (db_map db) → ∃ l : list (Analysis * string),
    ((λ ab, (an_key ab.1, ab.2)) <$> l) = prefix_entries (db_map db) "analysis:" ∧
    Forall (λ ab, bytes_of ab.1 = Some ab.2) l ∧
    inspect_main db "analysis:" = ([], Ok (table_row <$> l.*1)) ∧
    debug_page db (Some AnalysisMapper) stats "" =
      Some (MkPageData "analysis:" (page_row <$> l.*1) (default ∅ stats)).
Proof.
  intros Hw.
  assert (∃ l : list (Analysis * string),
    ((λ ab, (an_key ab.1, ab.2)) <$> l) = prefix_entries (db_map db) "analysis:" ∧
    Forall (λ ab, bytes_of ab.1 = Some ab.2 ∧ readable ab.1) l) as (l & Hl & HF).
  { destruct (Forall2_exists (λ e ab, e = (an_key ab.1, ab.2) ∧ bytes_of ab.1 = Some ab.2 ∧
      readable ab.1) (prefix_entries (db_map db) "analysis:")) as [l HF].
    - intros [k v] [Hk Hp]%elem_of_prefix_entries. destruct (Hw k v Hk Hp) as (a & -> & ? & ?).
      by exists (a, v).
    - exists l. clear -HF. induction HF as [|e ab es l [-> H] HF [<- IH]]; [done|].
      split; [done|by constructor]. }
  exists l. split; [done|]. split; [by eapply Forall_impl; [exact HF|intros ? []]|].
  unfold inspect_main, debug_page, View. rewrite !Seek_map, begin_map. cbn [String.eqb default].
  split.
  - rewrite inspect_loop_take, forward_scan, <- Hl. apply inspect_loop_stored.
    by eapply Forall_impl; [exact HF|intros ? []].
  - rewrite forward_scan, <- Hl. erewrite mapM_Some_2; [done|].
    clear Hl. induction HF as [|[a b] l [Hb Ha] _ IH]; [constructor|].
    rewrite !fmap_cons. constructor; [|done]. by apply AnalysisMapper_stored.
Qed.
End Inspect.

(** A namespace with a colon is taken apart wrongly: the row of an analysis of the
    namespace chat:1 shows the namespace chat, a time of 1970 and the digits of the
    time as identifier. *)
Example nested_namespace_misread :
  let row := DefaultMapper (λ _, 0) (an_key (demo_analysis 1 "chat:1" (10 ^ 18))) "" in
  ir_Namespace row = "chat" ∧ ir_Timestamp row = "00:00:00" ∧ ir_EntityID row = "10000000".
Proof. by vm_compute. Qed.

(** ** Witness *)

Lemma demo_store_written : @written HexUuid PairTimestamp pbAnalysis_codec
  (db_map (ar_db (stored_analyses None))).
Proof.
  destruct (StoreBatch_effect _ _ _ (stored_analyses_batch None)) as (_ & -> & _).
  assert (@written HexUuid PairTimestamp pbAnalysis_codec (db_map (ar_db (empty_analyses None))))
    as He by (intros k v Hk; cbn in Hk; by rewrite lookup_empty in Hk).
  repeat (apply written_effect; [|by repeat split]). exact He.
Qed.

Lemma inspection_shows_store_witness : ∃ l : list (Analysis * string),
  inspect_main map_to_list (ar_db (stored_analyses None)) "analysis:" =
    ([], Ok (table_row map_to_list <$> l.*1)) ∧
  length (prefix_entries (ar_db (stored_analyses None)) "analysis:") = length l.
Proof.
  destruct (inspection_shows_store (λ _, 3600) map_to_list (ar_db (stored_analyses None))
    (None : option (gmap string unit)) demo_store_written) as (l & Hl & _ & Ht & _).
  exists l. split; [exact Ht|]. rewrite <- (length_fmap (λ ab, (an_key ab.1, ab.2)) l).
  by rewrite Hl.
Defined.
