(* ===== verification/Client.v ===== *)
(** * Client: the chat client ([client/client.go])

    [run] reads its configuration, opens a stream of the chat server and logs
    the messages of a room until a signal or an error.  The server's side of the
    stream is [Chat.connect_loop]. *)

From Stdlib Require Import Ascii String.
From S2P Require Import Prelude Errors Env Text Domain Registry Chat Defer Inspect.

Definition exitOK : Z := 0.
Definition exitRuntime : Z := 1.
Definition exitConfig : Z := 2.

Record Config := MkClientConfig {
  cc_ServerAddress : string; cc_DefaultRoomID : Z; cc_LogLevel : string }.

Inductive cl_resource := ClSignalContext | ClConn (addr : string).
Inductive cl_step := ClConnect (roomId : Z) | ClPrint (text : string) | ClReceive.

Section Client.
Context {U : Uuid} {T : Timestamppb} {TL : TimestamppbLaws T}.
(** Whether the logger built for a level ([logs.GetLoggerFromString]) shows what is logged
    with [Info]. *)
Variable info_enabled : string → bool.

(** A turn of the loop: whether the context is done, what [Recv] returns (an event may
    hold no message), and whether the context is done after it. *)
Record recv_turn := MkRecvTurn {
  rt_done : bool; rt_recv : result error (option pbMessageResponse); rt_ctx_err : bool }.

Record client_env := MkClientEnv {
  ce_Config : result error Config; ce_NewClient : option error; ce_Connect : option error;
  ce_turns : list recv_turn }.

Definition message_line (msg : pbMessageResponse) : string :=
  "[" +:+ format_clock 0 (AsTime (Some (mrs_CreatedAt msg))) +:+ "] " +:+ mrs_Author msg +:+ ": " +:+
  mrs_Content msg.

Local Open Scope go_scope.

(** The dereference of a nil message is a panic: the deferred calls run and the
    process ends with code 2. *)
Definition nil_message : error := Opaque "invalid memory address or nil pointer dereference".

(** [log.Info], without its attributes. *)
Definition log_Info (level text : string) : go (R:=cl_resource) (S:=cl_step) unit :=
  if info_enabled level then go_do (ClPrint text) else go_ret tt.

Fixpoint receive_loop (level : string) (turns : list recv_turn)
  : go (R:=cl_resource) (S:=cl_step) Empty_set :=
  match turns with
  | [] => go_block ClReceive
  | t :: turns =>
      if rt_done t then log_Info level "Stopping client..." ;;; go_return exitOK None
      else
        match rt_recv t with
        | Err err =>
            if rt_ctx_err t then go_return exitOK None
            else go_return exitRuntime (Some (Errorf "stream error: " err))
        | Ok None => go_return 2 (Some nil_message)
        | Ok (Some msg) => log_Info level (message_line msg) ;;; receive_loop level turns
        end
  end.

(** The line the client logs once connected: [Info] does not expand directives. *)
Definition connected_line : string :=
  ">>> Connected to %s! Listening Room %d (Ctrl+C to quit)...".

(** What the deferred functions log is left out. *)
Definition run (env : client_env) : go (R:=cl_resource) (S:=cl_step) Empty_set :=
  config ⟵ check (ce_Config env) exitConfig (Errorf "config error: ") ;
  (let level := cc_LogLevel config in
   acquire ClSignalContext ;;;
   check_err (ce_NewClient env) exitRuntime
     (Errorf ("could not connect to server at " +:+ cc_ServerAddress config +:+ ": ")) ;;;
   acquire (ClConn (cc_ServerAddress config)) ;;;
   check_err (ce_Connect env) exitRuntime (Errorf "failed to open stream: ") ;;;
   go_do (ClConnect (cc_DefaultRoomID config)) ;;;
   log_Info level connected_line ;;;
   receive_loop level (ce_turns env)).

(** Whatever path it takes, the client closes what it opened. *)
Definition no_leak (r : cl_resource) : bool := false.
#[export] Instance log_Info_balanced level text : Balanced no_leak (log_Info level text).
Proof. unfold log_Info. apply _. Qed.
#[export] Instance receive_loop_balanced level turns : Balanced no_leak (receive_loop level turns).
Proof.
  induction turns as [|t turns IH]; cbn [receive_loop]; [apply _|].
  destruct (rt_recv t) as [[msg|]|err]; apply _.
Qed.
#[export] Instance client_run_balanced env : Balanced no_leak (run env).
Proof. unfold run. repeat (apply balanced_bind; [apply _|intros ?]). apply _. Qed.

(** ** The client prints what the server pushes *)

(** The messages the server's loop pushes: the sanitized ones it could send. *)
Definition pushing (s : connect_signal) : bool :=
  match s with StreamDone | StreamEvent (EvSanitizedMessage _) (Some _) => false | _ => true end.
Definition pushed (signals : list connect_signal) : list SanitizedMessage :=
  omap (λ s, match s with StreamEvent (EvSanitizedMessage e) None => Some e | _ => None end)
    (take_while pushing signals).

Lemma connect_loop_pushed signals : ∀ sent,
  (connect_loop signals sent).1 = sent ++ (toChatEvent <$> pushed signals).
Proof.
  unfold pushed. induction signals as [|s signals IH]; intros sent; [by rewrite app_nil_r|].
  cbn [connect_loop take_while]. destruct s as [|e [err|]]; [by rewrite app_nil_r|..].
  - destruct e; cbn [pushing]; first [exact (IH sent)|by rewrite app_nil_r].
  - destruct e; cbn [pushing]; try exact (IH sent). rewrite IH, <- app_assoc. done.
Qed.

(** The line of a message. *)
Definition chat_line (e : SanitizedMessage) : string :=
  "[" +:+ format_clock 0 (sm_At e) +:+ "] " +:+ sm_Author e +:+ ": " +:+ sm_Content e.

Definition delivered (msg : pbMessageResponse) : recv_turn := MkRecvTurn false (Ok (Some msg)) false.

(** How the loop ends on its last turn. *)
Definition ending (last : recv_turn) (err : error) : Z * option error :=
  if rt_done last || rt_ctx_err last then (exitOK, None)
  else (exitRuntime, Some (Errorf "stream error: " err)).

(** The lines an execution shows. *)
Definition shown (level : string) (lines : list string) : list (@action cl_resource cl_step) :=
  if info_enabled level then (λ l, Do (ClPrint l)) <$> lines else [].

Lemma log_Info_shown level text f :
  log_Info level text f = (MkFrame (fr_trace f ++ shown level [text]) (fr_defers f), inl tt).
Proof. unfold log_Info, shown. destruct (info_enabled level), f; [done|]. cbn. by rewrite app_nil_r. Qed.

Lemma shown_app level l1 l2 : shown level (l1 ++ l2) = shown level l1 ++ shown level l2.
Proof. unfold shown. destruct (info_enabled level); [by rewrite fmap_app|done]. Qed.

Definition stopping (last : recv_turn) : list string :=
  if rt_done last then ["Stopping client..."] else [].

Lemma receive_loop_delivered level es last err : rt_recv last = Err err → ∀ f,
  receive_loop level ((delivered <$> (toChatEvent <$> es)) ++ [last]) f =
  (MkFrame (fr_trace f ++ shown level ((chat_line <$> es) ++ stopping last)) (fr_defers f),
   inr (Exit (ending last err).1 (ending last err).2)).
Proof.
  intros Hl. unfold ending, stopping. induction es as [|e es IH]; intros f.
  - cbn -[shown log_Info]. unfold go_bind. destruct (rt_done last); cbn -[shown log_Info].
    + by rewrite log_Info_shown.
    + rewrite Hl. unfold shown. destruct f as [tr ds].
      destruct (rt_ctx_err last), (info_enabled level); cbn; by rewrite app_nil_r.
  - rewrite !fmap_cons. cbn -[shown log_Info fmap list_fmap chat_line]. unfold go_bind.
    rewrite log_Info_shown. rewrite IH. cbn [fr_trace fr_defers]. f_equal. f_equal.
    change (chat_line e :: (chat_line <$> es) ++ ?x) with ([chat_line e] ++ (chat_line <$> es) ++ x).
    rewrite (shown_app level [chat_line e]), app_assoc. f_equal. f_equal. f_equal. f_equal.
    unfold message_line, chat_line. cbn. by rewrite AsTime_New.
Qed.

End Client.

(** ** Witness *)

Definition demo_sanitized : SanitizedMessage :=
  MkSanitizedMessage uuid16_nil 1 "ann" "hello" [] (3661 * second) f64_zero.
Definition demo_signals : list connect_signal :=
  [StreamEvent (EvSanitizedMessage demo_sanitized) None; StreamDone].
Definition demo_client : client_env :=
  MkClientEnv (Ok (MkClientConfig "localhost:8080" 1 "INFO")) None None
    ((delivered <$> (connect_loop demo_signals []).1) ++ [MkRecvTurn false (Err EOF) false]).

(** A logger that knows four levels. *)
Definition demo_info_enabled (level : string) : bool := String.eqb level "INFO" || String.eqb level "DEBUG".

