(* ===== verification/TestData.v ===== *)
(** * TestData: the generator of sample files [cmd/tools/gen_test_data.go]

    What the program writes under [test_data] and what it prints.  The content of a file
    is what the library was asked to draw: the PDF and PNG encodings are not modelled. *)

From Stdlib Require Import Ascii String.
From S2P Require Import Prelude Errors Env Path.

Inductive pdf_command :=
| SetFont (family style : string) (size : Z)
| Cell (w h : Z) (txt : string)
| Ln (h : Z)
| MultiCell (w h : Z) (txt : string).

Record RGBA := MkRGBA { px_R : Z; px_G : Z; px_B : Z; px_A : Z }.

Inductive content :=
| PdfFile (pages : list (list pdf_command))
| PngFile (width height : Z) (pixel : Z → Z → RGBA)
| RawFile (bytes : string).

(** The answers of the operating system: the directory, the two files created through a
    library, and the copy. *)
Record gen_os := MkGenOs {
  gn_MkdirAll : option error;
  gn_OutputPDF : option error;
  gn_CreateImage : option error; gn_EncodeImage : option error;
  gn_CreateAudio : option error;
  gn_Copy : option (nat * error);   (* the bytes written before the failure *)
}.

Abbreviation disk := (gmap string content).

Definition line_end : string := String (ascii_of_nat 10) "".

Definition genPDF (os : gen_os) (path : string) (d : disk) : disk * list string :=
  let page :=
    [SetFont "Arial" "B" 20; Cell 40 20 "Chat-Lab : Analyse PDF"; Ln 20; SetFont "Arial" "" 12;
     MultiCell 0 10 ("Ceci est un document généré pour tester le spécialiste Python." +:+ line_end +:+
                     "Le moteur PyMuPDF devrait extraire ce texte et compter 1 page.")] in
  match gn_OutputPDF os with
  | Some err => (d, ["❌ Erreur PDF : " +:+ error_text err +:+ line_end])
  | None => (<[path := PdfFile [page]]> d, ["📄 PDF généré : " +:+ path +:+ line_end])
  end.

(** The gradient. *)
Definition gradient (x y : Z) : RGBA := MkRGBA (uint8 (x mod 255)) 100 200 255.

(** The error of [os.Create] is dropped: writing to the file that was not created fails. *)
Definition genImage (os : gen_os) (path : string) (d : disk) : disk * list string :=
  match gn_CreateImage os with
  | Some _ => (d, ["❌ Erreur Image : " +:+ "invalid argument" +:+ line_end])
  | None =>
      match gn_EncodeImage os with
      | Some err => (<[path := RawFile ""]> d, ["❌ Erreur Image : " +:+ error_text err +:+ line_end])
      | None => (<[path := PngFile 800 600 gradient]> d, ["📸 Image générée : " +:+ path +:+ line_end])
      end
  end.

Definition prepareAudio (os : gen_os) (src dst : string) (d : disk)
  : disk * list string * option error :=
  match d !! src with
  | Some (RawFile bytes) =>
      match gn_CreateAudio os with
      | Some err => (d, [], Some err)
      | None =>
          match gn_Copy os with
          | Some (n, err) => (<[dst := RawFile (String.substring 0 n bytes)]> d, [], Some err)
          | None => (<[dst := RawFile bytes]> d, ["🎙️  Audio AIFF copié : " +:+ dst +:+ line_end], None)
          end
      end
  | _ => (d, [], Some (Opaque "fichier source introuvable"))
  end.

Definition outputDir : string := "./test_data".
Definition pdfPath : string := filepath_Join outputDir "rapport_test.pdf".
Definition imgPath : string := filepath_Join outputDir "capture_test.png".
Definition aiffSource : string := "sample_audio_macos.aiff".
Definition aiffDest : string := filepath_Join outputDir "audio_macos_test.aiff".

(** [main]; [None] is the panic when the directory cannot be made. *)
Definition gen_main (os : gen_os) (d : disk) : option (disk * list string) :=
  match gn_MkdirAll os with
  | Some _ => None
  | None =>
      let '(d, out1) := genPDF os pdfPath d in
      let '(d, out2) := genImage os imgPath d in
      let '(d, out3, err) := prepareAudio os aiffSource aiffDest d in
      let out4 :=
        match err with
        | Some err => ["⚠️  Audio : " +:+ error_text err +:+ " (Place un fichier " +:+ aiffSource +:+
                       " à côté du projet pour tester)" +:+ line_end]
        | None => []
        end in
      Some (d, ["🚀 Chat-Lab : Génération des fichiers de test..." +:+ line_end] ++ out1 ++ out2 ++
               out3 ++ out4 ++
               [line_end +:+ "✅ Prêt ! Tu peux maintenant lancer le Scanner sur ./test_data" +:+ line_end])
  end.

(** The sample files do not depend on the audio: whatever happens to it, a run that could
    write leaves the PDF and the image under [test_data], the audio file is the source's
    bytes when it is there, and nothing else on the disk changes. *)
Theorem gen_main_files os d bytes :
  gn_MkdirAll os = None → gn_OutputPDF os = None → gn_CreateImage os = None → gn_EncodeImage os = None →
  ∃ d' out, gen_main os d = Some (d', out) ∧
    (∃ page, d' !! pdfPath = Some (PdfFile [page])) ∧
    d' !! imgPath = Some (PngFile 800 600 gradient) ∧
    (d !! aiffSource = Some (RawFile bytes) → gn_CreateAudio os = None → gn_Copy os = None →
       d' !! aiffDest = Some (RawFile bytes)) ∧
    ∀ p, p ≠ pdfPath → p ≠ imgPath → p ≠ aiffDest → d' !! p = d !! p.
Proof.
  intros Hm Hp Hc He. unfold gen_main, genPDF, genImage. rewrite Hm, Hp, Hc, He.
  set (d1 := <[imgPath := _]> (<[pdfPath := _]> d)).
  assert (∃ page, d1 !! pdfPath = Some (PdfFile [page])) as H1.
  { eexists. subst d1. rewrite lookup_insert_ne by (by vm_compute). apply lookup_insert_eq. }
  assert (d1 !! imgPath = Some (PngFile 800 600 gradient)) as H2 by apply lookup_insert_eq.
  assert (d1 !! aiffSource = d !! aiffSource) as H3.
  { subst d1. by rewrite !lookup_insert_ne by (by vm_compute). }
  assert (∀ p, p ≠ pdfPath → p ≠ imgPath → d1 !! p = d !! p) as H4.
  { intros p ??. subst d1. by rewrite !lookup_insert_ne. }
  assert (aiffDest ≠ pdfPath ∧ aiffDest ≠ imgPath) as [Hn1 Hn2] by (by vm_compute).
  clearbody d1. unfold prepareAudio. rewrite H3.
  destruct (d !! aiffSource) as [[| |bs]|];
    [|  |destruct (gn_CreateAudio os); [|destruct (gn_Copy os) as [[n err]|]]|].
  all: eexists _, _; split; [reflexivity|]; rewrite ?lookup_insert_ne by done.
  all: split_and!; [done|done|intros Hb Ha Hcp; try done|].
  all: try (intros p ???; rewrite ?lookup_insert_ne by done; by apply H4).
  rewrite lookup_insert_eq. by simplify_eq.
Qed.

(** Every colour component fits its byte. *)
Lemma gradient_bytes x y : 0 ≤ x → in_u 8 (px_R (gradient x y)) ∧ px_R (gradient x y) = x mod 255.
Proof.
  intros Hx. unfold gradient. cbn [px_R]. pose proof (Z.mod_pos_bound x 255 eq_refl).
  assert (uint8 (x mod 255) = x mod 255) as -> by (apply wrap_u_id; unfold in_u; lia).
  split; [unfold in_u; lia|done].
Qed.
